(* ===== verification/_CoqProject ===== *)
-Q . S2P
Prelude.v
Checksum.v
CtBuf.v
Atr.v
AtrSpec.v
ScDev.v
ScIsr.v
T1.v
T1Spec.v
T1Card.v
T1Safe.v
T1Sim.v
ScLink.v
ScLinkSpec.v
T1Dev.v
AtrParse.v
AtrParseSpec.v
T0.v
T0Spec.v
ScIsrSpec.v
ScFops.v
ScFopsSpec.v
ScFopsT1.v
Gpio.v
GpioSpec.v
Pulse.v
PulseSpec.v
Kbd.v
KbdSpec.v
Spi.v
Rn8302b.v
Rn8302bSpec.v
Esam.v
EsamSpec.v
Emc.v
EmcSpec.v
EmcSys.v
EmcInit.v
EmcMain.v
I2c.v
I2cSpec.v
I2cMain.v
I2cType.v
Rtc.v
RtcSpec.v
Nand.v
NandProbe.v
NandSpec.v
NandMain.v
NandPage.v
NandRef.v
NandRead.v
NandProps.v
Spi0.v
Spi0Spec.v
Spi0Main.v
Spi0Room.v
Spi0Mode.v
Spi0Ref.v
Spi0Props.v
Uart.v
UartSpec.v
UartSend.v
UartRecv.v
UartRef.v
UartProps.v
