(* ===== verification/Prelude.v ===== *)
(** * Verification of the NUC972 concentrator's device drivers

    The repository is a board support package: a Linux 3.10 tree (src/arch,
    src/drivers) with the drivers its vendors wrote for the Nuvoton NUC970 chip
    and for a meter-reading concentrator built on it. The Linux tree is
    third-party code; this development models the drivers that carry logic of
    their own. Each is translated function by function to executable
    definitions that keep the names of the source.

    ** The parts, the files, and how they work together

    The smart card reader (src/drivers/misc, headers regs-sc.h, nuc970-sc.h):
    - ScDev.v: [struct nuc970_sc] and the registers, [reset_reader],
      [config_reader]. ScIsr.v: the interrupt handler, one definition per block
      ([isr_cd], [isr_tx], [isr_rx], ...), and [wait_event_interruptible] as a
      run of the handler over the interrupts that a world still holds.
    - Atr.v (sc-util.c): the answer to reset, its parser and accessors.
      AtrParse.v: [ATR_Parse] with the PPS exchange and [parse_atr].
    - Checksum.v, CtBuf.v, T1.v (sc-t1.c): block checksums, byte buffers, and the
      T=1 protocol. [t1_transceive] is a loop of some 400 lines with [continue]
      and [goto]; T1.v has one definition per region, and the type [jump] says
      how a region ends. It runs over the interface [T1Link].
    - ScLink.v (sc-t1.c): [t1_xcv], the instance of [T1Link] over the device and
      its interrupts, [t1_negotiate_ifsd] and [CmdXfrT1].
    - T0.v (sc-t0.c): the T=0 command parser and [CmdXfrT0].
    - ScFops.v (nuc970-sc.c): [sc_open], [sc_release], [sc_read], [sc_write] and
      every request of [sc_ioctl], on top of all the others.

    The pins (src/drivers/gpio/gpio-nuc970.c): Gpio.v has the pin functions on
    the ports' registers. What is wired to the pins is the interface [Board]; a
    driver is modelled once and its theorems hold for every board, or for the
    boards that have a given part on its pins. Its clients, all of
    src/drivers/char/hndl_char_devices:
    - Pulse.v (pulse_count.c): the timer interrupt that counts pulses.
    - Kbd.v (hnos_kbd_core.c, hnos_kbd_hntt1800x.c): the key scanner, the
      circular buffer and the file of the keyboard.
    - Rn8302b.v (rn8302b.c) and Esam.v (hnos_esam_intf.c): the metering chip and
      the security module, each on a serial interface run in software. Spi.v is
      the other end of both: any slave, given by a function from what it has
      heard to its next byte.

    The controllers of the chip, each with its driver on the one side and the
    hardware and the kernel behind an interface on the other:
    - Emc.v (src/drivers/net/ethernet/nuvoton/nuc970_ether0.c): the Ethernet MAC
      with its rings of descriptors. [NetOps] is what the network core and the DMA
      layer do, [NetLaws] (EmcSpec.v) what they promise. EmcSys.v has the driver and
      the DMA engine as a step relation and its invariant, EmcInit.v that an opened
      interface satisfies it.
    - I2c.v (src/drivers/i2c/busses/i2c-nuc970-p0.c): the state machine of the I2C
      interrupt handler and the transfer around it. [I2cHw] are the registers and
      the interrupts, [I2cLaws] (I2cSpec.v) say how the controller answers commands.
    - Rtc.v (src/drivers/rtc/rtc-nuc970.c, rtc-lib.c): the real-time clock and the
      calendar functions; [RtcHw] and [RtcLib] with their laws in RtcSpec.v.
    - Nand.v and NandProbe.v (src/drivers/mtd/nand/nuc970_nand.c): the NAND flash
      controller: commands, transfers, the correction of the bytes that the
      hardware reports as wrong, pages and redundant areas; and the set-up.
      [NandHw] are the registers, the redundant area registers and the DMA buffer,
      [NandLaws] (NandSpec.v) a controller with a chip whose pages have errors,
      and NandRef.v one that keeps these laws. NandSpec.v follows the correction,
      NandMain.v the reading loop, NandPage.v the transfer, NandRead.v the
      commands, and NandProps.v has the theorems.
    - Spi0.v (src/drivers/spi/spi-nuc970-p0.c): the SPI master: modes and speeds,
      and transfers in bursts of up to four words that the interrupt handler goes
      on with. [SpiHw] are the registers and the passing of time, [SpiLaws]
      (Spi0Spec.v) a controller whose bursts take their time, Spi0Ref.v one that
      keeps these laws. Spi0Main.v follows a transfer, Spi0Room.v what it needs of
      its buffers over any hardware, Spi0Mode.v the set-up of a mode, and
      Spi0Props.v has the theorems.
    - Uart.v (src/drivers/tty/serial/nuc970_serial.c, with uart_insert_char,
      uart_console_write and __uart_put_char of serial_core.c): the serial ports.
      [UartHw] are the registers, [UartCore] the tty layer above; [UartLaws]
      (UartSpec.v) a UART with its two queues, into and out of which characters
      pass at every access, and UartRef.v one that keeps these laws. UartSend.v has
      driver and UART as a step relation with its invariant, UartRecv.v the
      receiving loop, and UartProps.v the theorems. The transmit buffer is the
      [circ_buf] of Kbd.v.

    A file X.v has the definitions of a part, XSpec.v its theorems (for T1.v:
    T1Spec.v, T1Safe.v and T1Card.v; Checksum.v and CtBuf.v have both; EmcMain.v,
    I2cMain.v and I2cType.v have the theorems of the first two controllers). Three files
    put the parts of T=1 together: T1Sim.v shows that the loop does the same over
    two links that correspond, T1Dev.v that the device with a card behind it
    corresponds to the reference link of T1Card.v, and ScFopsT1.v follows a
    command from [sc_write] to [sc_read]. This file has what all share: record updates, machine integers, memory objects,
    tactics ([zbool], [zcase], [zlia], [bind_inv], [step_ok]), and their lemmas.

    ** How C is modelled

    An integer is a [Z]; wrap-around is written out with [u8], [u16], [u32]; a
    signed overflow, a read of an uninitialised variable and an access outside
    of an array have no result: the computation is [None] (the [option] monad).
    An array is a list, read by [rd] and [rdn], written by [wr], [wrn] and
    [memcpy]. So a theorem whose conclusion is [Some ..] also says that the code
    has no undefined behaviour there, and [= None] that it has. Volatile
    registers are a map; reads that depend on the outside (status, data, pins)
    are arguments or come from the environment. Delays, log messages and locks
    are not modelled: each call runs alone, as its lock makes it, except that
    interrupts come in at the waits.

    Where the code loops without a bound the definition has fuel, and the
    theorems say how much is enough: [t1_transceive] returns within the bound of
    [t1_transceive_gives_up] when every exchange fails and within that of
    [t1_transceive_reliable] over a link with bounded faults; [CmdXfrT0] within
    one turn per procedure byte of the card. Loops that count up or down are
    structural. A wait takes as many interrupts as the environment gives; if none
    ends it, the world says that the code still waits. [waitread] of Esam.v has
    the driver's own limit, 64000 polls, as its fuel. The loops over the rings of
    Emc.v end within one turn per descriptor ([tx_reclaim_total],
    [poll_loop_total]); the wait of I2c.v takes one interrupt per answer of the
    controller, so that the number of answers is enough. The reading loop of
    Nand.v needs as much fuel as the interrupt register is read before the chip
    and the fields with errors are done ([nand_read_ends]). The wait of Spi0.v has
    one step of fuel per unit of time or interrupt; [spi_xfer_exchanges] gives a
    number that is enough. The waits of Uart.v for room find it at their first look
    ([uart_tx_in_order] holds for any fuel but none); the waits for an empty UART,
    with infrared lines and on the console, take as long as the line does.

    ** What is shown

    - T=1: a block is built as ISO 7816-3 says and accepted on the other side
      ([t1_build_correct]); with a command whose blocks fit the block buffer no card
      makes the loop leave its buffers, and a command whose blocks do not fit makes
      it do so at once ([t1_transceive_safe]); it ends ([t1_transceive_gives_up]); and over a link
      that loses and damages blocks, but not too often in a row (and with the CRC
      does not damage requests, see [t1_rebuild_short]), the response of a reference card is returned in full and the command is run once
      ([t1_transceive_reliable]). The checksums equal their references and detect
      every changed byte; the buffers refine a queue.
    - Over the device: [t1_xcv] moves blocks unchanged through the interrupt
      handler; [CmdXfrT1] and [t1_negotiate_ifsd] keep to the buffers and end, with
      the one exception that [CmdXfrT1_outcome] states.
    - From end to end: over the file operations, the loop, the interrupt handler
      and a line that damages and loses blocks, a command written to a T=1 card
      with the checksum LRC is run once and its response read ([write_read_T1]).
      What the card sends and what the line does to it become the interrupts of
      the device: a block of [n] bytes is sent in [(n + 3) / 4] interrupts of the
      transmitter, answered by one interrupt per byte, or by the first timer.
    - Answer to reset: the parser inverts a printer of well-formed answers, up to a
      check character that it does not expect ([atr_parse_print]), and is total; the
      handler stops at the last byte of each of them; [ATR_Parse] sets exactly the
      parameters that ISO 7816-3 gives for the interface bytes ([ATR_Parse_params]).
    - T=0: the four cases of a command; the dialogue of procedure bytes in both
      directions, and both from end to end ([write_read_T0]).
    - The file operations: activation ([activate_ready]), write followed by read,
      removal, and what goes wrong at the edges ([sc_write_overflow],
      [sc_read_restarts], [atr_stale_bytes]).
    - Pins: an output shows what was set, no function touches another pin, the
      bounds of the pin numbers, and interrupts of pins are distinct.
    - Pulses: the handler refines a counter of seventeen high and fifty-six low
      samples; trains are counted exactly; counts are bounded by the samples.
    - Keyboard: the buffer refines a queue of 255 bytes; reads take keys in order
      and wait when there is none; a key pressed and let go is one key read.
    - Metering chip: what a read stores under which checksum; a write reports
      success exactly if the chip repeated the data within ten frames.
    - Security module: a command and its response as a whole, giving up, and a
      response that overruns the driver's buffer.

    - Ethernet: over every run of driver and DMA engine the frames go out and come
      in in their order, once and unchanged ([emc_in_order]), the functions stay in
      their rings and end ([emc_defined]), a poll takes what its budget allows; two
      places where a buffer is freed too early or never ([emc_tx_race],
      [emc_tx_leak]); the address on the command line.
    - I2C: a transfer whose reading message, if any, is the last is the reference
      transfer for every slave ([i2c_xfer_follows]), the handler keeps its state well
      formed at every interrupt ([i2c_irq_typed]), and three cases that do not work:
      a bus that is lost, a read that is followed by another message, and a read
      without a start behind a write.
    - Clock: every count of seconds becomes the date it stands for; the time, the
      alarm and the spare words are read as they were set once access is enabled, and
      what is reported and kept when it is not.

    - NAND flash: a page with errors in any of its fields is read as it was
      written ([nand_read_page]), the loop ends and counts ([nand_read_ends]), the
      set-up gives every page the code of the controller, which fits if the redundant
      area is large enough ([nand_codes]); what happens with
      more than fifteen errors, with an error in a marker, and with a chip that is
      not supported.
    - SPI master: a transfer exchanges every word with any slave, once and in order
      ([spi_xfer_exchanges]), provided that bursts last longer than the handler; on
      a faster bus an interrupt is lost ([spi_interrupt_lost]); the buffers must hold
      words, not bytes, or the driver leaves them ([spi_room]); what is set up for a mode ([spi_mode],
      [spi_mode_flags]) and a speed ([spi_divider]).
    - Serial ports: in every run of writers, interrupts and line the characters go
      out as they were written ([uart_tx_in_order]), and what comes in is reported and
      counted with its errors as a reference does ([uart_rx_in_order]); errors that come late are forgotten ([uart_error_lost]).

    ** Not modelled

    Probe, remove and module functions, which only register devices with
    frameworks that are not in the repository, with the ethtool and power
    management functions of the controllers; the set-up of the GPIO external
    interrupts in the probe function; the files of /proc of the keyboard, whose
    functions have prototypes this kernel does not call; the other drivers of the
    two vendors, which are for other boards, are copies for a second controller
    (nuc970_ether1.c, i2c-nuc970-p1.c, spi-nuc970-p1.c) or are glue between a controller and a
    framework; and the Linux tree itself. <linux/circ_buf.h> is not in the
    repository: Kbd.v uses its macros through the classes [CircOps] and
    [CircLaws], and KbdSpec.v's witnesses instantiate them. *)
From stdpp Require Export prelude list list_numbers gmap.
From Stdlib Require Export ZArith Lia.

#[export] Set Default Goal Selector "!".
Global Open Scope Z_scope.

(** ** Record updates

    [r <| f := v |>] is the record [r] with field [f] set to [v]. The setter of
    a field is found from the [Eta] instance of its record type, which writes
    the record as its constructor applied to its projections. *)
Class Eta (R : Type) := eta : R -> R.
Class Setter {R T : Type} (proj : R -> T) := set : (T -> T) -> R -> R.
Arguments set {R T} proj {_} f r /.

Ltac build_setter proj :=
  lazymatch type of proj with
  | ?R -> _ =>
      let i := constr:(ltac:(typeclasses eauto) : Eta R) in
      let e := eval hnf in i in
      lazymatch eval pattern proj in e with
      | ?body _ => let s := eval cbv beta in (fun g => body (fun r => g (proj r))) in exact s
      end
  end.

#[export] Hint Extern 0 (Setter ?proj) => build_setter proj : typeclass_instances.

Declare Scope update_scope.
Delimit Scope update_scope with update.
Global Open Scope update_scope.
Notation "r <| proj := v |>" := (set proj (fun _ => v) r)
  (at level 1, left associativity, v at level 200) : update_scope.

(** ** Machine integers

    A C integer is a [Z]; a conversion to a narrower unsigned type wraps. *)
Definition u8 (x : Z) : Z := x mod 256.
Definition u16 (x : Z) : Z := x mod 65536.
Definition u32 (x : Z) : Z := x mod 4294967296.
Definition UINT_MAX : Z := 4294967295.

Definition is_u8 (x : Z) : Prop := 0 <= x < 256.
Definition is_u16 (x : Z) : Prop := 0 <= x < 65536.
Definition is_u32 (x : Z) : Prop := 0 <= x < 4294967296.
(** The values of a 32-bit [int]: leaving this range is undefined in C. *)
Definition is_s32 (x : Z) : Prop := -2147483648 <= x < 2147483648.

Lemma u8_id x : is_u8 x -> u8 x = x.
Proof. apply Z.mod_small. Qed.

Lemma u32_id x : 0 <= x < 4294967296 -> u32 x = x.
Proof. apply Z.mod_small. Qed.

Lemma u32_range x : is_u32 (u32 x).
Proof. apply Z.mod_pos_bound; lia. Qed.

Lemma testbit_u32 x i : 0 <= i < 32 -> Z.testbit (u32 x) i = Z.testbit x i.
Proof. intros; unfold u32; change 4294967296 with (2 ^ 32); apply Z.mod_pow2_bits_low; lia. Qed.

(** An [unsigned int] taken as an [int]. *)
Definition to_int (x : Z) : Z := if x <? 2147483648 then x else x - 4294967296.

Lemma to_int_u32 r : is_s32 r -> to_int (u32 r) = r.
Proof.
  unfold is_s32; intros Hr; unfold to_int, u32; destruct (Z_lt_dec r 0); [rewrite <- (Z.mod_add r 1), Z.mod_small by lia | rewrite Z.mod_small by lia];
    destruct (_ <? _) eqn:E; [apply Z.ltb_lt in E | apply Z.ltb_ge in E | apply Z.ltb_lt in E | apply Z.ltb_ge in E]; lia.
Qed.

(** A test of a C integer as a condition. *)
Definition nz (x : Z) : bool := negb (x =? 0).

(** ** Error codes of the kernel *)
Definition EIO : Z := 5.
Definition EAGAIN : Z := 11.
Definition EFAULT : Z := 14.
Definition EBUSY : Z := 16.
Definition EINVAL : Z := 22.
Definition ERESTARTSYS : Z := 512.

(** ** Memory objects

    A C array is the list of its elements. An access outside of the array has
    no defined result: it is [None], and so is every computation that does it. *)
Definition zlen {A} (l : list A) : Z := Z.of_nat (length l).

Definition rd {A} (b : list A) (i : Z) : option A :=
  if 0 <=? i then b !! Z.to_nat i else None.

Definition wr {A} (b : list A) (i : Z) (v : A) : option (list A) :=
  if (0 <=? i) && (i <? zlen b) then Some (<[Z.to_nat i := v]> b) else None.

Definition in_range {A} (b : list A) (i n : Z) : bool :=
  (0 <=? i) && (0 <=? n) && (i + n <=? zlen b).

(** The [n] elements from index [i] on. *)
Definition slice {A} (b : list A) (i n : Z) : list A :=
  take (Z.to_nat n) (drop (Z.to_nat i) b).

Definition rdn {A} (b : list A) (i n : Z) : option (list A) :=
  if in_range b i n then Some (slice b i n) else None.

Definition wrn {A} (b : list A) (i : Z) (src : list A) : option (list A) :=
  if in_range b i (zlen src)
  then Some (take (Z.to_nat i) b ++ src ++ drop (Z.to_nat i + length src) b)
  else None.

(** [memcpy(dst + di, src + si, n)] between two objects. *)
Definition memcpy {A} (dst : list A) (di : Z) (src : list A) (si n : Z) : option (list A) :=
  s ← rdn src si n; wrn dst di s.

(** ** Automation *)
Create HintDb cmem.

Ltac zbool :=
  repeat match goal with
  | H : (_ && _)%bool = true |- _ => apply andb_true_iff in H as [? ?]
  | H : (_ || _)%bool = false |- _ => apply orb_false_iff in H as [? ?]
  | H : (_ <? _) = true |- _ => apply Z.ltb_lt in H
  | H : (_ <? _) = false |- _ => apply Z.ltb_ge in H
  | H : (_ <=? _) = true |- _ => apply Z.leb_le in H
  | H : (_ <=? _) = false |- _ => apply Z.leb_gt in H
  | H : (_ =? _) = true |- _ => apply Z.eqb_eq in H
  | H : (_ =? _) = false |- _ => apply Z.eqb_neq in H
  | H : negb _ = true |- _ => apply negb_true_iff in H
  | H : negb _ = false |- _ => apply negb_false_iff in H
  end.

(** Split the first test of the goal on integers and keep its meaning. *)
Ltac zcase :=
  match goal with
  | |- context [if ?b then _ else _] => destruct b eqn:?; zbool
  end.

(** Take a successful computation apart into its steps. *)
Ltac bind_inv H := 
  repeat (let E := fresh "E" in apply bind_Some in H as (? & E & H)).

Lemma bind_ok {A B} (f : A -> option B) x : Some x ≫= f = f x.
Proof. reflexivity. Qed.

(** The next step of a computation succeeds, as [H] says. Rewriting (rather than
    reduction) keeps the kernel from evaluating the step. *)
Ltac step_ok H := rewrite H, bind_ok; cbn beta iota.

(** ** Generic lemmas: lists and lengths *)
Lemma zlen_nonneg {A} (l : list A) : 0 <= zlen l.
Proof. unfold zlen; lia. Qed.

Lemma zlen_app {A} (l k : list A) : zlen (l ++ k) = zlen l + zlen k.
Proof. unfold zlen; rewrite length_app; lia. Qed.

Lemma zlen_cons {A} (x : A) l : zlen (x :: l) = 1 + zlen l.
Proof. unfold zlen; simpl; lia. Qed.

Lemma zlen_nil {A} : zlen (@nil A) = 0.
Proof. reflexivity. Qed.

Lemma zlen_take {A} n (l : list A) : zlen (take (Z.to_nat n) l) = Z.min (Z.max 0 n) (zlen l).
Proof. unfold zlen; rewrite length_take; lia. Qed.

Lemma zlen_drop {A} n (l : list A) : zlen (drop n l) = Z.max 0 (zlen l - Z.of_nat n).
Proof. unfold zlen; rewrite length_drop; lia. Qed.

Lemma zlen_insert {A} (b : list A) i v : zlen (<[i:=v]> b) = zlen b.
Proof. unfold zlen; by rewrite length_insert. Qed.

Lemma zlen_pos {A} (l : list A) : l <> [] -> 0 < zlen l.
Proof. destruct l; [done|]; unfold zlen; simpl; lia. Qed.

Lemma zlen_to_nat {A} (l : list A) : Z.to_nat (zlen l) = length l.
Proof. unfold zlen; lia. Qed.

Create Rewrite HintDb zlen.
#[export] Hint Rewrite @zlen_app @zlen_cons @zlen_nil @zlen_take @zlen_drop @zlen_insert : zlen.
Ltac zlen_simpl := autorewrite with zlen in *.
(** Solve an arithmetic goal on lengths, without touching the hypotheses. *)
Ltac zlia := autorewrite with zlen; lia.

(** ** Generic lemmas: memory objects *)
Lemma in_range_spec {A} (b : list A) i n : in_range b i n = true <-> 0 <= i /\ 0 <= n /\ i + n <= zlen b.
Proof. unfold in_range; rewrite !andb_true_iff, !Z.leb_le; lia. Qed.

Lemma rd_Some {A} (b : list A) i v : rd b i = Some v <-> 0 <= i /\ b !! Z.to_nat i = Some v.
Proof. unfold rd; destruct (0 <=? i) eqn:E; zbool; naive_solver lia. Qed.

Lemma rd_in {A} (b : list A) i : 0 <= i < zlen b -> exists v, rd b i = Some v.
Proof.
  intros Hi; unfold rd; rewrite (proj2 (Z.leb_le 0 i)) by lia.
  apply lookup_lt_is_Some_2; unfold zlen in *; lia.
Qed.

Lemma rd_range {A} (b : list A) i v : rd b i = Some v -> 0 <= i < zlen b.
Proof.
  intros [Hi Hl]%rd_Some; apply lookup_lt_Some in Hl; unfold zlen; lia.
Qed.

Lemma rd_app_l {A} (b : list A) c i : 0 <= i < zlen b -> rd (b ++ c) i = rd b i.
Proof.
  intros Hi; unfold rd; destruct (0 <=? i); [|done].
  apply lookup_app_l; unfold zlen in *; lia.
Qed.

Lemma wr_Some {A} (b : list A) i v b' :
  wr b i v = Some b' <-> 0 <= i < zlen b /\ b' = <[Z.to_nat i := v]> b.
Proof. unfold wr; zcase; naive_solver lia. Qed.

Lemma wr_in {A} (b : list A) i v : 0 <= i < zlen b -> wr b i v = Some (<[Z.to_nat i := v]> b).
Proof. intros; apply wr_Some; auto. Qed.

Lemma wr_oob {A} (b : list A) i v : ~ (0 <= i < zlen b) -> wr b i v = None.
Proof. intros; unfold wr; zcase; [lia | done]. Qed.

Lemma wr_len {A} (b : list A) i v b' : wr b i v = Some b' -> zlen b' = zlen b.
Proof. intros [_ ->]%wr_Some; apply zlen_insert. Qed.

Lemma rd_wr_eq {A} (b : list A) i v b' : wr b i v = Some b' -> rd b' i = Some v.
Proof.
  intros [Hi ->]%wr_Some; apply rd_Some; split; [lia|].
  apply list_lookup_insert_eq; unfold zlen in *; lia.
Qed.

Lemma rd_wr_ne {A} (b : list A) i j v b' : wr b i v = Some b' -> i <> j -> rd b' j = rd b j.
Proof.
  intros [Hi ->]%wr_Some Hij; unfold rd; destruct (0 <=? j) eqn:?; [|done]; zbool.
  apply list_lookup_insert_ne; lia.
Qed.

Lemma rdn_Some {A} (b : list A) i n s :
  rdn b i n = Some s <-> 0 <= i /\ 0 <= n /\ i + n <= zlen b /\ s = slice b i n.
Proof.
  unfold rdn; destruct (in_range b i n) eqn:E;
    pose proof (in_range_spec b i n) as H; rewrite E in H; naive_solver.
Qed.

Lemma rdn_in {A} (b : list A) i n : 0 <= i -> 0 <= n -> i + n <= zlen b -> rdn b i n = Some (slice b i n).
Proof. intros; apply rdn_Some; auto. Qed.

Lemma rdn_app_l {A} (b p : list A) i n s : rdn b i n = Some s -> rdn (b ++ p) i n = Some s.
Proof.
  intros (Hi & Hn & Hl & ->)%rdn_Some; apply rdn_Some; split_and!; try done; [rewrite zlen_app; pose proof (zlen_nonneg p); lia|].
  unfold slice; rewrite drop_app_le by (unfold zlen in *; lia); rewrite take_app_le; [done | rewrite length_drop; unfold zlen in *; lia].
Qed.

Lemma rdn_oob {A} (b : list A) i n : zlen b < i + n -> rdn b i n = None.
Proof.
  intros; unfold rdn; destruct (in_range b i n) eqn:E; [|done].
  apply in_range_spec in E; lia.
Qed.

Lemma slice_len {A} (b : list A) i n : 0 <= i -> 0 <= n -> i + n <= zlen b -> zlen (slice b i n) = n.
Proof.
  intros; unfold slice; rewrite zlen_take, zlen_drop; lia.
Qed.

Lemma slice_app_split {A} (b : list A) i n m :
  0 <= i -> 0 <= n -> 0 <= m -> i + n + m <= zlen b ->
  slice b i (n + m) = slice b i n ++ slice b (i + n) m.
Proof.
  intros; unfold slice.
  rewrite (Z2Nat.inj_add n m), (Z2Nat.inj_add i n) by lia.
  by rewrite <- drop_drop, take_take_drop.
Qed.

Lemma slice_0 {A} (b : list A) n : slice b 0 n = take (Z.to_nat n) b.
Proof. done. Qed.

Lemma slice_app_prefix {A} (a b : list A) : slice (a ++ b) 0 (zlen a) = a.
Proof. unfold slice; rewrite zlen_to_nat; apply take_app_length. Qed.

Lemma wrn_Some {A} (b : list A) i src b' :
  wrn b i src = Some b' <->
  0 <= i /\ i + zlen src <= zlen b /\
  b' = take (Z.to_nat i) b ++ src ++ drop (Z.to_nat i + length src) b.
Proof.
  unfold wrn; destruct (in_range b i (zlen src)) eqn:E;
    pose proof (in_range_spec b i (zlen src)) as H; rewrite E in H;
    pose proof (zlen_nonneg src); naive_solver.
Qed.

Lemma wrn_in {A} (b : list A) i src :
  0 <= i -> i + zlen src <= zlen b ->
  wrn b i src = Some (take (Z.to_nat i) b ++ src ++ drop (Z.to_nat i + length src) b).
Proof. intros; apply wrn_Some; auto. Qed.

Lemma wrn_app_l {A} (b p : list A) i src b' : wrn b i src = Some b' -> wrn (b ++ p) i src = Some (b' ++ p).
Proof.
  intros (Hi & Hn & ->)%wrn_Some; apply wrn_Some; split_and!; try done; [rewrite zlen_app; pose proof (zlen_nonneg p); lia|].
  rewrite take_app_le, drop_app_le by (unfold zlen in *; lia); by rewrite <- !app_assoc.
Qed.

Lemma wrn_oob {A} (b : list A) i src : zlen b < i + zlen src -> wrn b i src = None.
Proof.
  intros; unfold wrn; destruct (in_range b i (zlen src)) eqn:E; [|done].
  apply in_range_spec in E; lia.
Qed.

Lemma wrn_0 {A} (b : list A) src : zlen src <= zlen b -> wrn b 0 src = Some (src ++ drop (length src) b).
Proof. intros; rewrite wrn_in by lia; done. Qed.

Lemma wrn_len {A} (b : list A) i src b' : wrn b i src = Some b' -> zlen b' = zlen b.
Proof.
  intros (Hi & Hn & ->)%wrn_Some; zlen_simpl; unfold zlen in *; lia.
Qed.

(** Writing right after a prefix extends the prefix. *)
Lemma wrn_app {A} (p b : list A) src :
  zlen src <= zlen b ->
  wrn (p ++ b) (zlen p) src = Some ((p ++ src) ++ drop (length src) b).
Proof.
  intros H; rewrite wrn_in by (zlen_simpl; unfold zlen in *; lia).
  rewrite zlen_to_nat, take_app_length, drop_app_add, <- app_assoc; done.
Qed.

Lemma memcpy_len {A} (dst : list A) di src si n b : memcpy dst di src si n = Some b -> zlen b = zlen dst.
Proof. unfold memcpy; intros H; bind_inv H; eauto using wrn_len. Qed.

Lemma memcpy_in {A} (dst : list A) di src si n :
  0 <= si -> 0 <= n -> si + n <= zlen src -> 0 <= di -> di + n <= zlen dst ->
  exists b, memcpy dst di src si n = Some b /\ wrn dst di (slice src si n) = Some b.
Proof.
  intros; unfold memcpy; rewrite rdn_in by lia; simpl.
  rewrite wrn_in by (rewrite ?slice_len; lia); eauto.
Qed.
