(* ===== verification/Checksum.v ===== *)
(** Error detection codes of the T=1 protocol (sc-t1.c, [csum_lrc_compute] and
    [csum_crc_compute]): the longitudinal redundancy check, the table-driven
    CRC, the CRC's bitwise reference, and what each code detects. *)
From S2P Require Import Prelude.

(** ** The code

    Both functions read the [len] bytes at [in] and store the code at [rc]; the
    models take those bytes and return the bytes stored, whose number is the C
    return value. *)
Definition csum_lrc_compute (inp : list Z) : list Z :=
  [fold_left (fun lrc b => Z.lxor lrc b) inp 0].

Definition crctab : list Z := [
  0x0000; 0x1189; 0x2312; 0x329b; 0x4624; 0x57ad; 0x6536; 0x74bf;
  0x8c48; 0x9dc1; 0xaf5a; 0xbed3; 0xca6c; 0xdbe5; 0xe97e; 0xf8f7;
  0x1081; 0x0108; 0x3393; 0x221a; 0x56a5; 0x472c; 0x75b7; 0x643e;
  0x9cc9; 0x8d40; 0xbfdb; 0xae52; 0xdaed; 0xcb64; 0xf9ff; 0xe876;
  0x2102; 0x308b; 0x0210; 0x1399; 0x6726; 0x76af; 0x4434; 0x55bd;
  0xad4a; 0xbcc3; 0x8e58; 0x9fd1; 0xeb6e; 0xfae7; 0xc87c; 0xd9f5;
  0x3183; 0x200a; 0x1291; 0x0318; 0x77a7; 0x662e; 0x54b5; 0x453c;
  0xbdcb; 0xac42; 0x9ed9; 0x8f50; 0xfbef; 0xea66; 0xd8fd; 0xc974;
  0x4204; 0x538d; 0x6116; 0x709f; 0x0420; 0x15a9; 0x2732; 0x36bb;
  0xce4c; 0xdfc5; 0xed5e; 0xfcd7; 0x8868; 0x99e1; 0xab7a; 0xbaf3;
  0x5285; 0x430c; 0x7197; 0x601e; 0x14a1; 0x0528; 0x37b3; 0x263a;
  0xdecd; 0xcf44; 0xfddf; 0xec56; 0x98e9; 0x8960; 0xbbfb; 0xaa72;
  0x6306; 0x728f; 0x4014; 0x519d; 0x2522; 0x34ab; 0x0630; 0x17b9;
  0xef4e; 0xfec7; 0xcc5c; 0xddd5; 0xa96a; 0xb8e3; 0x8a78; 0x9bf1;
  0x7387; 0x620e; 0x5095; 0x411c; 0x35a3; 0x242a; 0x16b1; 0x0738;
  0xffcf; 0xee46; 0xdcdd; 0xcd54; 0xb9eb; 0xa862; 0x9af9; 0x8b70;
  0x8408; 0x9581; 0xa71a; 0xb693; 0xc22c; 0xd3a5; 0xe13e; 0xf0b7;
  0x0840; 0x19c9; 0x2b52; 0x3adb; 0x4e64; 0x5fed; 0x6d76; 0x7cff;
  0x9489; 0x8500; 0xb79b; 0xa612; 0xd2ad; 0xc324; 0xf1bf; 0xe036;
  0x18c1; 0x0948; 0x3bd3; 0x2a5a; 0x5ee5; 0x4f6c; 0x7df7; 0x6c7e;
  0xa50a; 0xb483; 0x8618; 0x9791; 0xe32e; 0xf2a7; 0xc03c; 0xd1b5;
  0x2942; 0x38cb; 0x0a50; 0x1bd9; 0x6f66; 0x7eef; 0x4c74; 0x5dfd;
  0xb58b; 0xa402; 0x9699; 0x8710; 0xf3af; 0xe226; 0xd0bd; 0xc134;
  0x39c3; 0x284a; 0x1ad1; 0x0b58; 0x7fe7; 0x6e6e; 0x5cf5; 0x4d7c;
  0xc60c; 0xd785; 0xe51e; 0xf497; 0x8028; 0x91a1; 0xa33a; 0xb2b3;
  0x4a44; 0x5bcd; 0x6956; 0x78df; 0x0c60; 0x1de9; 0x2f72; 0x3efb;
  0xd68d; 0xc704; 0xf59f; 0xe416; 0x90a9; 0x8120; 0xb3bb; 0xa232;
  0x5ac5; 0x4b4c; 0x79d7; 0x685e; 0x1ce1; 0x0d68; 0x3ff3; 0x2e7a;
  0xe70e; 0xf687; 0xc41c; 0xd595; 0xa12a; 0xb0a3; 0x8238; 0x93b1;
  0x6b46; 0x7acf; 0x4854; 0x59dd; 0x2d62; 0x3ceb; 0x0e70; 0x1ff9;
  0xf78f; 0xe606; 0xd49d; 0xc514; 0xb1ab; 0xa022; 0x92b9; 0x8330;
  0x7bc7; 0x6a4e; 0x58d5; 0x495c; 0x3de3; 0x2c6a; 0x1ef1; 0x0f78
].

Definition crc_step (v b : Z) : Z :=
  Z.lxor (Z.land (Z.shiftr v 8) 255)
         (nth (Z.to_nat (Z.land (Z.lxor v b) 255)) crctab 0).

Definition csum_crc_compute (data : list Z) : list Z :=
  let v := fold_left crc_step data 65535 in
  [Z.land (Z.shiftr v 8) 255; Z.land v 255].

(** The function pointer [t1->checksum]. *)
Inductive csum_fn := csum_lrc | csum_crc.
#[export] Instance csum_fn_eq_dec : EqDecision csum_fn.
Proof. solve_decision. Defined.

Definition checksum (c : csum_fn) (data : list Z) : list Z :=
  match c with
  | csum_lrc => csum_lrc_compute data
  | csum_crc => csum_crc_compute data
  end.

(** The number of bytes the code occupies, [t1->rc_bytes]. *)
Definition csum_len (c : csum_fn) : Z :=
  match c with csum_lrc => 1 | csum_crc => 2 end.

(** ** Reference: the reflected CCITT CRC, one bit at a time *)
Definition crc_bit (v : Z) : Z :=
  if Z.testbit v 0 then Z.lxor (Z.shiftr v 1) 0x8408 else Z.shiftr v 1.

Definition crc_byte (v b : Z) : Z := Nat.iter 8 crc_bit (Z.lxor v b).

Definition crc_ref (data : list Z) : Z := fold_left crc_byte data 65535.

(** ** Lemmas *)
Lemma crc_bit_lxor a b : crc_bit (Z.lxor a b) = Z.lxor (crc_bit a) (crc_bit b).
Proof.
  unfold crc_bit; rewrite Z.lxor_spec, Z.shiftr_lxor.
  destruct (Z.testbit a 0), (Z.testbit b 0); simpl xorb; cbv iota;
    apply Z.bits_inj'; intros n Hn; rewrite !Z.lxor_spec;
    repeat match goal with |- context [Z.testbit ?x n] => destruct (Z.testbit x n) end; done.
Qed.

Lemma crc_iter_lxor n a b :
  Nat.iter n crc_bit (Z.lxor a b) = Z.lxor (Nat.iter n crc_bit a) (Nat.iter n crc_bit b).
Proof. induction n as [|n IH]; [done|]; simpl; rewrite IH; apply crc_bit_lxor. Qed.

Lemma crc_iter_shiftl n h : Nat.iter n crc_bit (Z.shiftl h (Z.of_nat n)) = h.
Proof.
  induction n as [|n IH]; [apply Z.shiftl_0_r|].
  rewrite Nat.iter_succ_r; unfold crc_bit at 2.
  rewrite Z.shiftl_spec_low by lia.
  replace (Z.shiftr _ 1) with (Z.shiftl h (Z.of_nat n)); [done|].
  rewrite <- Z.shiftl_opp_r, Z.shiftl_shiftl by lia; f_equal; lia.
Qed.

Lemma byte_split x : x = Z.lxor (Z.shiftl (Z.shiftr x 8) 8) (Z.land x 255).
Proof.
  apply Z.bits_inj'; intros n Hn; rewrite Z.lxor_spec, Z.land_spec.
  change 255 with (Z.ones 8); rewrite Z.testbit_ones_nonneg by lia.
  destruct (n <? 8) eqn:E; zbool.
  - rewrite Z.shiftl_spec_low by lia; simpl; by rewrite andb_true_r.
  - rewrite Z.shiftl_spec, Z.shiftr_spec by lia.
    replace (n - 8 + 8) with n by lia; by rewrite andb_false_r, xorb_false_r.
Qed.

(** Bounds of bitwise operations on bytes and half-words. *)
Lemma lxor_bound k a b : 0 <= k -> 0 <= a < 2 ^ k -> 0 <= b < 2 ^ k -> 0 <= Z.lxor a b < 2 ^ k.
Proof.
  intros Hk Ha Hb; assert (0 <= Z.lxor a b) by (apply Z.lxor_nonneg; lia).
  split; [done|]; destruct (Z.eq_dec (Z.lxor a b) 0) as [->|Hnz]; [lia|].
  apply Z.log2_lt_pow2; [lia|].
  pose proof (Z.log2_lxor a b ltac:(lia) ltac:(lia)).
  destruct (Z.eq_dec a 0) as [->|Ha0], (Z.eq_dec b 0) as [->|Hb0];
    try (pose proof (proj1 (Z.log2_lt_pow2 a k ltac:(lia)) ltac:(lia)));
    try (pose proof (proj1 (Z.log2_lt_pow2 b k ltac:(lia)) ltac:(lia)));
    rewrite ?Z.lxor_0_l, ?Z.lxor_0_r in *; try lia.
Qed.

Lemma crc_bit_u16 v : is_u16 v -> is_u16 (crc_bit v).
Proof.
  intros [H0 H1]; unfold crc_bit, is_u16.
  assert (0 <= Z.shiftr v 1 < 65536)
    by (rewrite Z.shiftr_div_pow2 by lia; change (2 ^ 1) with 2;
        split; [apply Z.div_pos; lia | apply Z.div_lt_upper_bound; lia]).
  destruct (Z.testbit v 0); [|done].
  apply (lxor_bound 16); lia.
Qed.

Lemma crc_iter_u16 n v : is_u16 v -> is_u16 (Nat.iter n crc_bit v).
Proof. intros Hv; induction n; simpl; auto using crc_bit_u16. Qed.

Lemma crc_byte_u16 v b : is_u16 v -> is_u8 b -> is_u16 (crc_byte v b).
Proof.
  intros Hv Hb; apply crc_iter_u16, (lxor_bound 16); unfold is_u16, is_u8 in *; lia.
Qed.

Lemma crc_fold_u16 data v : is_u16 v -> Forall is_u8 data -> is_u16 (fold_left crc_byte data v).
Proof.
  intros Hv HF; revert v Hv; induction HF; intros v Hv; simpl; auto using crc_byte_u16.
Qed.

(** Each entry of the table is eight bit steps from its index. *)
Lemma crctab_spec i : 0 <= i < 256 -> nth (Z.to_nat i) crctab 0 = Nat.iter 8 crc_bit i.
Proof.
  intros Hi.
  assert (Ht : forallb (fun i => nth (Z.to_nat i) crctab 0 =? Nat.iter 8 crc_bit i)
                 (seqZ 0 256) = true) by (vm_compute; reflexivity).
  rewrite forallb_forall in Ht; apply Z.eqb_eq, Ht.
  apply list_elem_of_In, elem_of_seqZ; lia.
Qed.

Lemma u8_lxor x y : is_u8 x -> is_u8 y -> is_u8 (Z.lxor x y).
Proof. intros; by apply (lxor_bound 8). Qed.

Lemma land_255_u8 x : is_u8 (Z.land x 255).
Proof. change 255 with (Z.ones 8); rewrite Z.land_ones by lia; apply Z.mod_pos_bound; lia. Qed.

Lemma land_255_id x : is_u8 x -> Z.land x 255 = x.
Proof. intros H; change 255 with (Z.ones 8); rewrite Z.land_ones by lia; by apply Z.mod_small. Qed.

Lemma shiftr_8_u8 x : is_u16 x -> is_u8 (Z.shiftr x 8).
Proof.
  intros [H0 H1]; rewrite Z.shiftr_div_pow2 by lia; change (2 ^ 8) with 256; unfold is_u8.
  split; [apply Z.div_pos; lia | apply Z.div_lt_upper_bound; lia].
Qed.

Lemma u8_shiftr_8 b : is_u8 b -> Z.shiftr b 8 = 0.
Proof. intros H; rewrite Z.shiftr_div_pow2 by lia; apply Z.div_small; unfold is_u8 in H; lia. Qed.

(** One table step is eight bit steps. *)
Lemma crc_step_byte v b : is_u16 v -> is_u8 b -> crc_step v b = crc_byte v b.
Proof.
  intros Hv Hb; unfold crc_step, crc_byte.
  rewrite crctab_spec by apply land_255_u8.
  rewrite (byte_split (Z.lxor v b)) at 2.
  rewrite crc_iter_lxor, (crc_iter_shiftl 8), Z.shiftr_lxor, (u8_shiftr_8 b) by done.
  by rewrite Z.lxor_0_r, land_255_id by auto using shiftr_8_u8.
Qed.

Lemma crc_fold_ref data v :
  is_u16 v -> Forall is_u8 data -> fold_left crc_step data v = fold_left crc_byte data v.
Proof.
  intros Hv HF; revert v Hv; induction HF as [|b data Hb HF IH]; intros v Hv; [done|]; simpl.
  rewrite crc_step_byte by done; auto using crc_byte_u16.
Qed.

(** The inverse of a bit step: no information of a half-word is lost. *)
Definition crc_unbit (w : Z) : Z :=
  if Z.testbit w 15 then Z.lor (Z.shiftl (Z.lxor w 0x8408) 1) 1 else Z.shiftl w 1.

Lemma bits_above_u16 v n : is_u16 v -> 16 <= n -> Z.testbit v n = false.
Proof.
  intros [H0 H1] Hn; destruct (Z.eq_dec v 0) as [->|]; [apply Z.testbit_0_l|].
  apply Z.bits_above_log2; [done|].
  apply Z.lt_le_trans with 16; [|done]; apply Z.log2_lt_pow2; lia.
Qed.

Lemma crc_unbit_bit v : is_u16 v -> crc_unbit (crc_bit v) = v.
Proof.
  intros Hv; pose proof (bits_above_u16 v 16 Hv ltac:(lia)) as H16; unfold crc_bit.
  destruct (Z.testbit v 0) eqn:E; unfold crc_unbit.
  - rewrite Z.lxor_spec, Z.shiftr_spec by lia; change (15 + 1) with 16; rewrite H16.
    cbn [Z.testbit Pos.testbit xorb Pos.pred_N Pos.pred_double].
    rewrite Z.lxor_assoc, Z.lxor_nilpotent, Z.lxor_0_r.
    apply Z.bits_inj'; intros n Hn; rewrite Z.lor_spec.
    destruct (Z.eq_dec n 0) as [->|Hn0].
    + rewrite Z.shiftl_spec_low by lia; done.
    + rewrite Z.shiftl_spec, Z.shiftr_spec by lia; replace (n - 1 + 1) with n by lia.
      change 1 with (Z.ones 1); rewrite Z.testbit_ones_nonneg by lia.
      replace (n <? 1) with false by (symmetry; apply Z.ltb_ge; lia); by rewrite orb_false_r.
  - rewrite Z.shiftr_spec by lia; change (15 + 1) with 16; rewrite H16.
    apply Z.bits_inj'; intros n Hn; destruct (Z.eq_dec n 0) as [->|Hn0].
    + rewrite Z.shiftl_spec_low by lia; done.
    + rewrite Z.shiftl_spec, Z.shiftr_spec by lia; f_equal; lia.
Qed.

Lemma crc_iter_inj n a b :
  is_u16 a -> is_u16 b -> Nat.iter n crc_bit a = Nat.iter n crc_bit b -> a = b.
Proof.
  intros Ha Hb; induction n as [|n IH]; [done|]; simpl; intros H; apply IH.
  rewrite <- (crc_unbit_bit (Nat.iter n crc_bit a)), H, crc_unbit_bit; auto using crc_iter_u16.
Qed.

Lemma lxor_cancel_r a b c : Z.lxor a c = Z.lxor b c -> a = b.
Proof.
  intros H; rewrite <- (Z.lxor_0_r a), <- (Z.lxor_nilpotent c), <- Z.lxor_assoc, H.
  by rewrite Z.lxor_assoc, Z.lxor_nilpotent, Z.lxor_0_r.
Qed.

Lemma crc_byte_inj_v v w b : is_u16 v -> is_u16 w -> is_u8 b -> crc_byte v b = crc_byte w b -> v = w.
Proof.
  intros Hv Hw Hb H; apply (lxor_cancel_r v w b), (crc_iter_inj 8); try done;
    apply (lxor_bound 16); unfold is_u16, is_u8 in *; lia.
Qed.

Lemma crc_byte_inj_b v a b : is_u16 v -> is_u8 a -> is_u8 b -> crc_byte v a = crc_byte v b -> a = b.
Proof.
  intros Hv Ha Hb H; apply (lxor_cancel_r a b v); rewrite !(Z.lxor_comm _ v).
  apply (crc_iter_inj 8); try done; apply (lxor_bound 16); unfold is_u16, is_u8 in *; lia.
Qed.

Lemma crc_fold_inj data v w :
  is_u16 v -> is_u16 w -> Forall is_u8 data ->
  fold_left crc_byte data v = fold_left crc_byte data w -> v = w.
Proof.
  intros Hv Hw HF; revert v w Hv Hw; induction HF as [|b data Hb HF IH]; intros v w Hv Hw; [done|].
  simpl; intros H; eapply (crc_byte_inj_v v w b), IH; eauto using crc_byte_u16.
Qed.

(** The two result bytes determine the half-word they come from. *)
Lemma crc_bytes_inj v w :
  Z.land (Z.shiftr v 8) 255 = Z.land (Z.shiftr w 8) 255 -> Z.land v 255 = Z.land w 255 ->
  is_u16 v -> is_u16 w -> v = w.
Proof.
  intros Hh Hl Hv Hw; rewrite (byte_split v), (byte_split w).
  rewrite <- (land_255_id (Z.shiftr v 8)), <- (land_255_id (Z.shiftr w 8)) by auto using shiftr_8_u8.
  by rewrite Hh, Hl.
Qed.

Lemma lrc_fold_acc data v : fold_left (fun a b => Z.lxor a b) data v
  = Z.lxor v (fold_left (fun a b => Z.lxor a b) data 0).
Proof.
  revert v; induction data as [|b data IH]; intros v; cbn [fold_left]; [by rewrite Z.lxor_0_r|].
  rewrite IH, (IH (Z.lxor 0 b)), Z.lxor_0_l, Z.lxor_assoc; done.
Qed.

Lemma lrc_fold_u8 data v :
  is_u8 v -> Forall is_u8 data -> is_u8 (fold_left (fun a b => Z.lxor a b) data v).
Proof.
  intros Hv HF; revert v Hv; induction HF; intros v Hv; simpl; [done|].
  apply IHHF, (lxor_bound 8); unfold is_u8 in *; lia.
Qed.

Lemma checksum_len c data : zlen (checksum c data) = csum_len c.
Proof. destruct c; done. Qed.

Lemma checksum_u8 c data : Forall is_u8 data -> Forall is_u8 (checksum c data).
Proof.
  intros HF; destruct c; simpl.
  - constructor; [apply lrc_fold_u8; [done|auto]|auto].
  - repeat constructor; apply land_255_u8.
Qed.

(** ** Properties *)

(** C21: the table-driven CRC of [csum_crc_compute] is the bitwise reflected
    CCITT CRC (polynomial 0x8408, initial value 0xFFFF) of the data, high byte first. *)
Theorem csum_crc_compute_ref data :
  Forall is_u8 data ->
  csum_crc_compute data = [Z.land (Z.shiftr (crc_ref data) 8) 255; Z.land (crc_ref data) 255].
Proof. intros H; unfold csum_crc_compute, crc_ref; by rewrite crc_fold_ref. Qed.

Lemma csum_crc_compute_ref_witness :
  Forall is_u8 [0x31; 0x32; 0x33] /\ csum_crc_compute [0x31; 0x32; 0x33]
  = [Z.land (Z.shiftr (crc_ref [0x31; 0x32; 0x33]) 8) 255; Z.land (crc_ref [0x31; 0x32; 0x33]) 255].
Proof.
  assert (H : Forall is_u8 [0x31; 0x32; 0x33]) by (repeat constructor; unfold is_u8; lia).
  split; [exact H | exact (csum_crc_compute_ref _ H)].
Defined.

(** either error detection code changes when exactly one byte of the
    protected data changes, wherever the byte is and whatever its new value. *)
Theorem checksum_detects_byte c p x y q :
  Forall is_u8 p -> is_u8 x -> is_u8 y -> Forall is_u8 q -> x <> y ->
  checksum c (p ++ x :: q) <> checksum c (p ++ y :: q).
Proof.
  intros Hp Hx Hy Hq Hne H; apply Hne; destruct c; cbn [checksum] in H.
  - injection H as H; rewrite !fold_left_app in H; cbn [fold_left] in H.
    set (v := fold_left _ p 0) in H.
    rewrite (lrc_fold_acc q (Z.lxor v x)), (lrc_fold_acc q (Z.lxor v y)) in H.
    apply lxor_cancel_r in H; apply (lxor_cancel_r x y v); by rewrite !(Z.lxor_comm _ v).
  - assert (Hi : is_u16 65535) by (unfold is_u16; lia).
    unfold csum_crc_compute in H; rewrite !crc_fold_ref, !fold_left_app in H; try done;
      try (apply Forall_app; split; [done | by constructor]); cbn [fold_left] in H.
    pose proof (crc_fold_u16 p 65535 Hi Hp) as Hv; injection H as Hh Hl.
    eapply (crc_byte_inj_b _ x y Hv); [done..|].
    apply (crc_fold_inj q); auto using crc_byte_u16.
    apply crc_bytes_inj; auto using crc_byte_u16, crc_fold_u16.
Qed.

Lemma checksum_detects_byte_witness :
  checksum csum_crc ([0; 1; 2] ++ 7 :: [9]) <> checksum csum_crc ([0; 1; 2] ++ 8 :: [9]).
Proof.
  apply (checksum_detects_byte csum_crc [0; 1; 2] 7 8 [9]);
    repeat constructor; unfold is_u8; lia.
Defined.
