(* ===== verification/CtBuf.v ===== *)
(** The byte buffers of the T=1 code (sc-t1.c, [ct_buf_*]): a window
    [head..tail) of unread bytes over a memory object of [size] usable bytes,
    with its invariant, and a refinement to the queue of the unread bytes. *)
From S2P Require Import Prelude.

Record ct_buf_t := mk_ct_buf {
  base : list Z;
  head : Z;
  tail : Z;
  size : Z;
  overrun : Z;
}.
#[export] Instance eta_ct_buf : Eta ct_buf_t :=
  fun b => mk_ct_buf (base b) (head b) (tail b) (size b) (overrun b).

Definition ct_buf_init (mem : list Z) (len : Z) : ct_buf_t := mk_ct_buf mem 0 0 len 0.

Definition ct_buf_set (mem : list Z) (len : Z) : ct_buf_t :=
  (ct_buf_init mem len) <| tail := len |>.

Definition ct_buf_avail (bp : ct_buf_t) : Z := u32 (tail bp - head bp).

(** [ct_buf_get(bp, mem, len)]: the result code, the bytes copied to [mem]
    when [mem] is not NULL, and the buffer. *)
Definition ct_buf_get (bp : ct_buf_t) (mem : bool) (len : Z)
    : option (Z * list Z * ct_buf_t) :=
  if u32 (tail bp - head bp) <? len then Some (-1, [], bp)
  else
    out ← (if mem then rdn (base bp) (head bp) len else Some []);
    Some (len, out, bp <| head := u32 (head bp + len) |>).

(** [ct_buf_put(bp, mem, len)] with the [len] bytes at [mem]. *)
Definition ct_buf_put (bp : ct_buf_t) (mem : list Z) : option (Z * ct_buf_t) :=
  if u32 (size bp - tail bp) <? zlen mem then Some (-1, bp <| overrun := 1 |>)
  else
    b ← wrn (base bp) (tail bp) mem;
    Some (zlen mem, bp <| base := b |> <| tail := u32 (tail bp + zlen mem) |>).

Definition ct_buf_putc (bp : ct_buf_t) (byte : Z) : option (Z * ct_buf_t) :=
  ct_buf_put bp [u8 byte].

(** [n] bytes from [ct_buf_head]. *)
Definition ct_buf_head_bytes (bp : ct_buf_t) (n : Z) : option (list Z) :=
  rdn (base bp) (head bp) n.

(** ** The abstract queue and the invariant *)
Definition ct_data (bp : ct_buf_t) : list Z := slice (base bp) (head bp) (tail bp - head bp).

Record ct_wf (bp : ct_buf_t) : Prop := {
  ct_wf_head : 0 <= head bp;
  ct_wf_tail : head bp <= tail bp;
  ct_wf_size : tail bp <= size bp;
  ct_wf_base : size bp <= zlen (base bp);
  ct_wf_u32 : size bp < 4294967296;
}.

Ltac ct_wf := match goal with H : ct_wf _ |- _ => destruct H end.

Lemma ct_buf_init_wf mem len : 0 <= len <= zlen mem -> len < 4294967296 -> ct_wf (ct_buf_init mem len).
Proof. intros; split; simpl; lia. Qed.

Lemma ct_buf_set_wf mem len : 0 <= len <= zlen mem -> len < 4294967296 -> ct_wf (ct_buf_set mem len).
Proof. intros; split; simpl; lia. Qed.

Lemma ct_buf_set_data mem len : ct_data (ct_buf_set mem len) = take (Z.to_nat len) mem.
Proof. unfold ct_data; simpl; by rewrite Z.sub_0_r. Qed.

Lemma ct_avail_data bp : ct_wf bp -> ct_buf_avail bp = zlen (ct_data bp).
Proof.
  intros; ct_wf; unfold ct_buf_avail, ct_data; rewrite u32_id by lia; rewrite slice_len; lia.
Qed.

(** ** Operations on a well-formed buffer *)
Lemma ct_buf_get_ok bp mem len :
  ct_wf bp -> 0 <= len <= zlen (ct_data bp) ->
  exists bp', ct_buf_get bp mem len
    = Some (len, if mem then take (Z.to_nat len) (ct_data bp) else [], bp') /\
    ct_wf bp' /\ ct_data bp' = drop (Z.to_nat len) (ct_data bp) /\
    base bp' = base bp /\ head bp' = head bp + len /\ tail bp' = tail bp.
Proof.
  intros Hwf Hlen; rewrite <- ct_avail_data in Hlen by done; unfold ct_buf_avail in Hlen; ct_wf.
  rewrite u32_id in Hlen by lia; unfold ct_buf_get, ct_data.
  rewrite u32_id, (proj2 (Z.ltb_ge _ _)), rdn_in, u32_id by lia.
  exists (bp <| head := head bp + len |>); split_and!; try done; simpl.
  - destruct mem; simpl; [|done].
    replace (tail bp - head bp) with (len + (tail bp - head bp - len)) by lia.
    rewrite slice_app_split by lia.
    rewrite take_app_le, take_ge; [done | | ];
      rewrite <- zlen_to_nat, slice_len by lia; lia.
  - split; simpl; lia.
  - replace (tail bp - head bp) with (len + (tail bp - head bp - len)) by lia.
    rewrite (slice_app_split _ _ len) by lia.
    rewrite drop_app_ge by (rewrite <- zlen_to_nat, slice_len; lia).
    rewrite <- zlen_to_nat, slice_len, Nat.sub_diag, drop_0 by lia; f_equal; lia.
Qed.

Lemma ct_buf_get_short bp mem len :
  ct_wf bp -> zlen (ct_data bp) < len -> ct_buf_get bp mem len = Some (-1, [], bp).
Proof.
  intros Hwf Hlen; rewrite <- ct_avail_data in Hlen by done; unfold ct_buf_avail in Hlen.
  unfold ct_buf_get; by rewrite (proj2 (Z.ltb_lt _ _) Hlen).
Qed.

Lemma ct_buf_put_ok bp mem :
  ct_wf bp -> tail bp + zlen mem <= size bp ->
  exists bp', ct_buf_put bp mem = Some (zlen mem, bp') /\ ct_wf bp' /\
    ct_data bp' = ct_data bp ++ mem /\ zlen (base bp') = zlen (base bp) /\
    head bp' = head bp /\ tail bp' = tail bp + zlen mem /\ size bp' = size bp /\ overrun bp' = overrun bp /\
    take (Z.to_nat (tail bp')) (base bp') = take (Z.to_nat (tail bp)) (base bp) ++ mem.
Proof.
  intros Hwf Hlen; ct_wf; pose proof (zlen_nonneg mem); unfold ct_buf_put.
  rewrite u32_id, (proj2 (Z.ltb_ge _ _)), wrn_in, u32_id by lia; simpl.
  eexists; split; [reflexivity|].
  set (b := take _ _ ++ _); assert (Hb : zlen b = zlen (base bp))
    by (unfold b; zlen_simpl; unfold zlen in *; lia).
  assert (Hpre : take (Z.to_nat (tail bp + zlen mem)) b = take (Z.to_nat (tail bp)) (base bp) ++ mem).
  { unfold b; rewrite app_assoc, take_app_le, take_ge; [done| |];
      rewrite length_app, length_take; unfold zlen in *; lia. }
  split_and!; try done; try (split; simpl; lia).
  unfold ct_data, slice; simpl.
  replace (Z.to_nat (tail bp + zlen mem - head bp))
    with (Z.to_nat (tail bp + zlen mem) - Z.to_nat (head bp))%nat by lia.
  replace (Z.to_nat (tail bp - head bp)) with (Z.to_nat (tail bp) - Z.to_nat (head bp))%nat by lia.
  rewrite <- !skipn_firstn_comm; fold b; rewrite Hpre.
  rewrite drop_app_le; [done|]; rewrite length_take; unfold zlen in *; lia.
Qed.

Lemma ct_buf_put_full bp mem :
  ct_wf bp -> size bp < tail bp + zlen mem ->
  ct_buf_put bp mem = Some (-1, bp <| overrun := 1 |>).
Proof.
  intros Hwf Hlen; ct_wf; unfold ct_buf_put; rewrite u32_id by lia.
  by rewrite (proj2 (Z.ltb_lt _ _)) by lia.
Qed.

(** ** Properties *)

(** A bounded queue of bytes: the bytes in it, the room behind them, which is not
    given back, and whether something did not fit. *)
Record queue := mk_queue { q_data : list Z; q_room : Z; q_overrun : Z }.

Definition queue_of (bp : ct_buf_t) : queue := mk_queue (ct_data bp) (size bp - tail bp) (overrun bp).

Definition q_get (n : Z) (q : queue) : Z * list Z * queue :=
  if n <=? zlen (q_data q) then (n, take (Z.to_nat n) (q_data q), mk_queue (drop (Z.to_nat n) (q_data q)) (q_room q) (q_overrun q))
  else (-1, [], q).

Definition q_put (l : list Z) (q : queue) : Z * queue :=
  if zlen l <=? q_room q then (zlen l, mk_queue (q_data q ++ l) (q_room q - zlen l) (q_overrun q))
  else (-1, mk_queue (q_data q) (q_room q) 1).

(** A put refines that of the queue. *)
Lemma ct_put_refines bp mem : ct_wf bp -> exists r bp', ct_buf_put bp mem = Some (r, bp') /\ ct_wf bp' /\ q_put mem (queue_of bp) = (r, queue_of bp').
Proof.
  intros Hwf; unfold q_put, queue_of; cbn [q_data q_room q_overrun]; zcase.
  - destruct (ct_buf_put_ok bp mem Hwf) as (bp' & Hp & Hw & Hd & _ & _ & Ht & Hs & Ho & _); [lia|]; exists (zlen mem), bp'; split_and!; try done; rewrite Hd, Ht, Hs, Ho; do 2 f_equal; lia.
  - rewrite ct_buf_put_full by (done || lia); eexists _, _; split; [reflexivity|]; split; [ct_wf; split; simpl; lia|done].
Qed.

(** C20: a buffer is a bounded queue of bytes. The memory given to [ct_buf_init] and
    [ct_buf_set] makes an empty queue with all the room and a full one; on a
    well-formed buffer every operation stays within the memory, keeps the buffer
    well-formed and has the result of the operation of the queue: [ct_buf_get], with
    a destination or without, [ct_buf_put] and [ct_buf_putc]; [ct_buf_avail] is the
    length of the queue, and at [ct_buf_head] its bytes stand. *)
Theorem ct_buf_refines_queue bp :
  (forall mem len, 0 <= len <= zlen mem -> len < 4294967296 ->
    (ct_wf (ct_buf_init mem len) /\ queue_of (ct_buf_init mem len) = mk_queue [] len 0) /\
    (ct_wf (ct_buf_set mem len) /\ queue_of (ct_buf_set mem len) = mk_queue (take (Z.to_nat len) mem) 0 0)) /\
  (ct_wf bp ->
    (forall dst len, 0 <= len -> exists r out bp', ct_buf_get bp dst len = Some (r, if dst then out else [], bp') /\ ct_wf bp' /\ q_get len (queue_of bp) = (r, out, queue_of bp')) /\
    (forall mem, exists r bp', ct_buf_put bp mem = Some (r, bp') /\ ct_wf bp' /\ q_put mem (queue_of bp) = (r, queue_of bp')) /\
    (forall byte, exists r bp', ct_buf_putc bp byte = Some (r, bp') /\ ct_wf bp' /\ q_put [u8 byte] (queue_of bp) = (r, queue_of bp')) /\
    ct_buf_avail bp = zlen (q_data (queue_of bp)) /\
    (forall n, 0 <= n <= ct_buf_avail bp -> ct_buf_head_bytes bp n = Some (take (Z.to_nat n) (q_data (queue_of bp))))).
Proof.
  split; [intros mem len Hl Hu|intros Hwf; split; [|split; [|split; [|split]]]].
  - split; (split; [first [by apply ct_buf_init_wf|by apply ct_buf_set_wf]|]); unfold queue_of; cbn [size tail overrun ct_buf_init ct_buf_set set]; [by rewrite Z.sub_0_r|by rewrite ct_buf_set_data, Z.sub_diag].
  - intros dst len Hlen; unfold q_get, queue_of; cbn [q_data q_room q_overrun]; destruct (len <=? zlen (ct_data bp)) eqn:E; zbool.
    + assert (Hsz : forall r o b, ct_buf_get bp dst len = Some (r, o, b) -> size b = size bp /\ overrun b = overrun bp) by (unfold ct_buf_get; intros r o b; destruct (_ <? len); [by intros [= _ _ <-]|]; intros Hb; apply bind_Some in Hb as (x & _ & Hb); by injection Hb as _ _ <-).
      destruct (ct_buf_get_ok bp dst len Hwf) as (bp' & Hg & Hw & Hd & _ & _ & Ht); [lia|]; destruct (Hsz _ _ _ Hg) as [Hs Ho]; eexists len, (take (Z.to_nat len) (ct_data bp)), bp'; rewrite Hg; split; [done|]; split; [done|]; by rewrite Hd, Ht, Hs, Ho.
    + rewrite ct_buf_get_short by done; eexists (-1), [], bp; by destruct dst.
  - intros mem; by apply ct_put_refines.
  - intros byte; by apply ct_put_refines.
  - by apply ct_avail_data.
  - intros n Hn; unfold queue_of, ct_data, ct_buf_head_bytes; unfold ct_buf_avail in Hn; cbn [q_data]; ct_wf; rewrite u32_id in Hn by lia; rewrite rdn_in by lia; f_equal.
    replace (tail bp - head bp) with (n + (tail bp - head bp - n)) by lia; rewrite slice_app_split by lia; rewrite take_app_le, take_ge; [done | | ]; rewrite <- zlen_to_nat, slice_len by lia; lia.
Qed.

Lemma ct_buf_refines_queue_witness :
  exists r bp', ct_buf_put ((ct_buf_set [1; 2; 3; 0; 0] 3) <| size := 5 |>) [4; 5] = Some (r, bp') /\ (r, queue_of bp') = (2, mk_queue [1; 2; 3; 4; 5] 0 0).
Proof.
  assert (Hwf : ct_wf ((ct_buf_set [1; 2; 3; 0; 0] 3) <| size := 5 |>)) by (split; vm_compute; congruence || reflexivity).
  destruct (proj2 (ct_buf_refines_queue _) Hwf) as (_ & Hput & _); destruct (Hput [4; 5]) as (r & bp' & Hp & _ & Hq).
  exists r, bp'; split; [exact Hp | rewrite <- Hq; reflexivity].
Defined.
