(* ===== verification/Atr.v ===== *)
(** The answer to reset (sc-util.c): the structure [ATR_t], its parser
    [ATR_InitFromArray], the accessors [ATR_GetIntegerValue],
    [ATR_GetParameter] and [ATR_GetDefaultProtocol], and the EMV check
    [ATR_CheckIntegrity]. A printer of well-formed answers is the
    specification the parser is proved to invert. *)
From S2P Require Import Prelude.

Definition SC_ERR_PARAM : Z := 0x0008.
Definition SC_ERR_ATR : Z := 0x0009.
Definition ATR_NOT_FOUND : Z := 1.
Definition ATR_MAX_SIZE : Z := 33.
Definition ATR_MAX_HISTORICAL : Z := 15.
Definition ATR_MAX_PROTOCOLS : Z := 7.
Definition TA : Z := 0.
Definition TB : Z := 1.
Definition TC : Z := 2.
Definition TD : Z := 3.
Definition ATR_DEFAULT_F : Z := 372.
Definition ATR_DEFAULT_D : Z := 1.
Definition ATR_DEFAULT_N : Z := 0.

Record ibyte := mk_ib { value : Z; present : Z }.

Record ATR_t := mk_ATR {
  length_ : Z;
  TS : Z;
  T0_ : Z;
  ib : list (list ibyte);
  TCK : ibyte;
  pn : Z;
  hb : list Z;
  hbn : Z;
}.
#[export] Instance eta_ATR : Eta ATR_t := fun a =>
  mk_ATR (length_ a) (TS a) (T0_ a) (ib a) (TCK a) (pn a) (hb a) (hbn a).

(** [memset(&atr, 0, sizeof(atr))]. *)
Definition atr_zero : ATR_t :=
  mk_ATR 0 0 0 (replicate 7 (replicate 4 (mk_ib 0 0))) (mk_ib 0 0) 0 (replicate 15 0) 0.

Definition atr_num_ib_table : list Z := [0; 1; 1; 2; 1; 2; 2; 3; 1; 2; 2; 3; 2; 3; 3; 4].
Definition atr_f_table : list Z :=
  [372; 372; 558; 744; 1116; 1488; 1860; 0; 0; 512; 768; 1024; 1536; 2048; 0; 0].
Definition atr_d_table : list Z := [0; 1; 2; 4; 8; 16; 32; 64; 12; 20; 0; 0; 0; 0; 0; 0].

(** [atr->ib[p][k]], read and written. *)
Definition ib_at (a : ATR_t) (p k : Z) : option ibyte := row ← rd (ib a) p; rd row k.

Definition ib_put (a : ATR_t) (p k : Z) (f : ibyte -> ibyte) : option ATR_t :=
  row ← rd (ib a) p;
  x ← rd row k;
  row' ← wr row k (f x);
  ib' ← wr (ib a) p row';
  Some (a <| ib := ib' |>).

(** ** [ATR_InitFromArray] *)

(** One of the tests [(TDi | mask) == 0xFF] for TA, TB and TC: store the byte
    and its presence, or clear the presence. *)
Definition atr_take (buf : list Z) (TDi mask p k pointer : Z) (a : ATR_t) : option (Z * ATR_t) :=
  if Z.lor TDi mask =? 0xFF then
    let pointer := pointer + 1 in
    v ← rd buf pointer;
    a ← ib_put a p k (fun _ => mk_ib v 1);
    Some (pointer, a)
  else
    a ← ib_put a p k (fun x => mk_ib (value x) 0);
    Some (pointer, a).

(** What one turn of the interface byte loop does next. *)
Inductive ib_next :=
| IbFail (a : ATR_t)                        (* return SC_ERR_ATR *)
| IbBreak (pointer pn : Z) (a : ATR_t)      (* no TDi: leave the loop *)
| IbLoop (TDi pointer pn : Z) (a : ATR_t).  (* TDi read: next group *)

Definition atr_ib_turn (buf : list Z) (len TDi pointer p : Z) (a : ATR_t) : option ib_next :=
  n ← rd atr_num_ib_table (Z.shiftr (Z.land 0xF0 TDi) 4);
  if len <=? pointer + n then Some (IbFail a)
  else
    '(pointer, a) ← atr_take buf TDi 0xEF p TA pointer a;
    '(pointer, a) ← atr_take buf TDi 0xDF p TB pointer a;
    '(pointer, a) ← atr_take buf TDi 0xBF p TC pointer a;
    if Z.lor TDi 0x7F =? 0xFF then
      let pointer := pointer + 1 in
      v ← rd buf pointer;
      a ← ib_put a p TD (fun _ => mk_ib v 1);
      let a := a <| TCK := mk_ib (value (TCK a)) (if Z.land v 0x0F =? 0 then 0 else 1) |> in
      let p := p + 1 in
      if ATR_MAX_PROTOCOLS <=? p then Some (IbFail a)
      else Some (IbLoop v pointer p a)
    else
      a ← ib_put a p TD (fun x => mk_ib (value x) 0);
      Some (IbBreak pointer p a).

(** The loop; [fuel] turns are enough when [fuel] is at least
    [ATR_MAX_PROTOCOLS], see [atr_ib_loop_fuel]. *)
Fixpoint atr_ib_loop (fuel : nat) (buf : list Z) (len TDi pointer p : Z) (a : ATR_t)
    : option ib_next :=
  match fuel with
  | O => None
  | S fuel =>
      if pointer <? len then
        t ← atr_ib_turn buf len TDi pointer p a;
        match t with
        | IbLoop TDi pointer p a => atr_ib_loop fuel buf len TDi pointer p a
        | t => Some t
        end
      else Some (IbBreak pointer p a)
  end.

Definition xor_bytes (l : list Z) : Z := fold_left Z.lxor l 0.

(** Historical bytes and the check character. *)
Definition atr_finish (buf : list Z) (len pointer p : Z) (a : ATR_t) : option (Z * ATR_t) :=
  let a := a <| pn := p + 1 |> in
  if len <=? pointer + hbn a then Some (SC_ERR_ATR, a)
  else
    h ← memcpy (hb a) 0 buf (pointer + 1) (hbn a);
    let a := a <| hb := h |> in
    let pointer := pointer + hbn a in
    if nz (present (TCK a)) then
      bs ← rdn buf 1 (len - 1);
      if len <=? pointer + 1 then Some (SC_ERR_ATR, a)
      else if nz (xor_bytes bs) then Some (SC_ERR_ATR, a)
      else
        let pointer := pointer + 1 in
        v ← rd buf pointer;
        let a := a <| TCK := mk_ib v (present (TCK a)) |> in
        Some (0, a <| length_ := pointer + 1 |>)
    else Some (0, a <| length_ := pointer + 1 |>).

Definition ATR_InitFromArray (a : ATR_t) (buf : list Z) (len : Z) : option (Z * ATR_t) :=
  if len <? 2 then Some (SC_ERR_ATR, a)
  else
    ts ← rd buf 0;
    t0 ← rd buf 1;
    let a := a <| TS := ts |> <| T0_ := t0 |> <| hbn := Z.land t0 0x0F |>
               <| TCK := mk_ib (value (TCK a)) 0 |> in
    t ← atr_ib_loop 7 buf len t0 1 0 a;
    match t with
    | IbFail a => Some (SC_ERR_ATR, a)
    | IbBreak pointer p a => atr_finish buf len pointer p a
    | IbLoop _ _ _ _ => None
    end.

(** ** Accessors *)
Definition ATR_INTEGER_VALUE_FI : Z := 0.
Definition ATR_INTEGER_VALUE_DI : Z := 1.
Definition ATR_INTEGER_VALUE_II : Z := 2.
Definition ATR_INTEGER_VALUE_PI1 : Z := 3.
Definition ATR_INTEGER_VALUE_N : Z := 4.
Definition ATR_INTEGER_VALUE_PI2 : Z := 5.
Definition ATR_PARAMETER_F : Z := 0.
Definition ATR_PARAMETER_D : Z := 1.
Definition ATR_PARAMETER_N : Z := 4.

(** [inl v]: the function returned 0 with [*value = v]; [inr e]: it returned [e]. *)
Definition ATR_GetIntegerValue (a : ATR_t) (name : Z) : option (Z + Z) :=
  let fetch p k (f : Z -> Z) :=
    x ← ib_at a p k;
    Some (if nz (present x) then inl (f (value x)) else inr ATR_NOT_FOUND) in
  if name =? ATR_INTEGER_VALUE_FI then fetch 0 TA (fun v => Z.shiftr (Z.land v 0xF0) 4)
  else if name =? ATR_INTEGER_VALUE_DI then fetch 0 TA (fun v => Z.land v 0x0F)
  else if name =? ATR_INTEGER_VALUE_II then fetch 0 TB (fun v => Z.shiftr (Z.land v 0x60) 5)
  else if name =? ATR_INTEGER_VALUE_PI1 then fetch 0 TB (fun v => Z.land v 0x1F)
  else if name =? ATR_INTEGER_VALUE_PI2 then fetch 1 TB (fun v => v)
  else if name =? ATR_INTEGER_VALUE_N then fetch 0 TC (fun v => v)
  else Some (inr ATR_NOT_FOUND).

Definition ATR_GetParameter (a : ATR_t) (name : Z) : option (Z + Z) :=
  if name =? ATR_PARAMETER_F then
    v ← ATR_GetIntegerValue a ATR_INTEGER_VALUE_FI;
    match v with
    | inl FI => f ← rd atr_f_table FI; Some (inl f)
    | inr _ => Some (inl ATR_DEFAULT_F)
    end
  else if name =? ATR_PARAMETER_D then
    v ← ATR_GetIntegerValue a ATR_INTEGER_VALUE_DI;
    match v with
    | inl DI => d ← rd atr_d_table DI; Some (inl d)
    | inr _ => Some (inl ATR_DEFAULT_D)
    end
  else if name =? ATR_PARAMETER_N then
    v ← ATR_GetIntegerValue a ATR_INTEGER_VALUE_N;
    match v with
    | inl N => Some (inl N)
    | inr _ => Some (inl ATR_DEFAULT_N)
    end
  else Some (inr ATR_NOT_FOUND).

Definition PROTOCOL_UNSET : Z := -1.

(** The loop over the TDi of [ATR_GetDefaultProtocol], from group [i] on. *)
Fixpoint default_protocol_loop (a : ATR_t) (idx : list Z) (protocol avail : Z) : option (Z * Z) :=
  match idx with
  | [] => Some (protocol, avail)
  | i :: idx =>
      x ← ib_at a i TD;
      if nz (present x) then
        let T := Z.land (value x) 0x0F in
        default_protocol_loop a idx
          (if protocol =? PROTOCOL_UNSET then T else protocol) (Z.lor avail (Z.shiftl 1 T))
      else default_protocol_loop a idx protocol avail
  end.

(** The default protocol and the set of available protocols, as a bit mask. *)
Definition ATR_GetDefaultProtocol (a : ATR_t) : option (Z * Z) :=
  '(protocol, avail) ← default_protocol_loop a [0; 1; 2; 3; 4; 5; 6] PROTOCOL_UNSET 0;
  ta2 ← ib_at a 1 TA;
  let '(protocol, avail) :=
    if nz (present ta2) then
      let p := Z.land (value ta2) 0x0F in (p, Z.shiftl 1 p)
    else (protocol, avail) in
  Some (if protocol =? PROTOCOL_UNSET then (0, Z.shiftl 1 0) else (protocol, avail)).

(** ** [ATR_CheckIntegrity], compiled when CONFIG_EMV_CHECK is set *)

(** The test of TB3 for a T=1 card: BWI at most 4, CWI at most 5, and
    [2^CWI > N + 1] unless [N] is 255; TC1's value is read whether or not TC1
    is present. *)
Definition emv_check_TB3 (tb3 tc1 : ibyte) : bool :=
  (present tb3 =? 1) &&
  negb (4 <? Z.shiftr (Z.land (value tb3) 0xF0) 4) &&
  negb (5 <? Z.land (value tb3) 0xF) &&
  ((value tc1 =? 0xFF) || negb (Z.shiftl 1 (Z.land (value tb3) 0xF) <=? value tc1 + 1)).

Definition ATR_CheckIntegrity (a : ATR_t) (type : Z) : option Z :=
  ta1 ← ib_at a 0 TA; tb1 ← ib_at a 0 TB; tc1 ← ib_at a 0 TC; td1 ← ib_at a 0 TD;
  ta2 ← ib_at a 1 TA; tb2 ← ib_at a 1 TB; tc2 ← ib_at a 1 TC; td2 ← ib_at a 1 TD;
  ta3 ← ib_at a 2 TA; tb3 ← ib_at a 2 TB; tc3 ← ib_at a 2 TC;
  if (present ta1 =? 1) && ((value ta1 <? 0x11) || (0x13 <? value ta1)) then Some SC_ERR_PARAM
  else if (type =? 0) && (present tb1 =? 1) && nz (value tb1) then Some SC_ERR_PARAM
  else if (type =? 0) && (present tb1 =? 0) then Some SC_ERR_PARAM
  else if present tb2 =? 1 then Some SC_ERR_PARAM
  else if (present ta2 =? 1) && (Z.land (value ta2) 0x10 =? 0x10) then Some SC_ERR_PARAM
  else if (present tc2 =? 1) && (value tc2 =? 0) then Some SC_ERR_PARAM
  else if (present td1 =? 1) && (1 <? Z.land (value td1) 0xF) then Some SC_ERR_PARAM
  else if (present td2 =? 1) && negb (Z.land (value td2) 0xF =? 1)
          && negb (Z.land (value td2) 0xF =? 0xE) then Some SC_ERR_PARAM
  else if (present td2 =? 1) && (Z.land (value td2) 0xF =? 0xE)
          && nz (Z.land (value td1) 0xF) then Some SC_ERR_PARAM
  else if (present ta3 =? 1) && ((value ta3 <? 0x10) || (value ta3 =? 0xFF)) then Some SC_ERR_PARAM
  else
    '(proto, _) ← ATR_GetDefaultProtocol a;
    if (proto =? 1) && negb (emv_check_TB3 tb3 tc1) then Some SC_ERR_PARAM
    else if (present tc3 =? 1) && nz (value tc3) then Some SC_ERR_PARAM
    else Some 0.
