(* ===== verification/AtrSpec.v ===== *)
(** Specification of the answer to reset and correctness of its parser: a
    description of an answer, its printer, and the theorem that
    [ATR_InitFromArray] recovers the description; totality, bounds and error
    branches of the parser and of the accessors. *)
From S2P Require Import Prelude Atr.

(** ** Descriptions and their printer *)
Record group := mk_group { gA : option Z; gB : option Z; gC : option Z }.

Record atr_desc := mk_desc {
  d_TS : Z;
  d_first : group;                (* TA1 TB1 TC1 *)
  d_rest : list (Z * group);      (* T of TDi, then TA TB TC of group i+1 *)
  d_hist : list Z;
}.

Definition olist (o : option Z) : list Z := match o with Some v => [v] | None => [] end.
Definition b2z (b : bool) : Z := if b then 1 else 0.
Definition has {A} (o : option A) : bool := match o with Some _ => true | None => false end.
Definition more {A} (l : list A) : bool := match l with [] => false | _ => true end.

(** The byte that announces group [g]: presence bits in the high nibble. *)
Definition announce (g : group) (next : bool) (low : Z) : Z :=
  16 * (b2z (has (gA g)) + 2 * b2z (has (gB g)) + 4 * b2z (has (gC g)) + 8 * b2z next) + low.

(** The TD byte of a group, when another group follows. *)
Definition td_of (rest : list (Z * group)) : option Z :=
  match rest with [] => None | (T, g) :: rest => Some (announce g (more rest) T) end.

Fixpoint group_bytes (g : group) (rest : list (Z * group)) : list Z :=
  olist (gA g) ++ olist (gB g) ++ olist (gC g) ++ olist (td_of rest) ++
  match rest with [] => [] | (_, g') :: rest' => group_bytes g' rest' end.

(** ISO 7816-3: the check character is there when some TDi names a protocol other
    than T=0. *)
Definition iso_tck (rest : list (Z * group)) : bool := existsb (fun Tg => nz Tg.1) rest.

(** The parser expects it when the last TDi does. *)
Definition last_tck (rest : list (Z * group)) : bool :=
  match last rest with Some (T, _) => nz T | None => false end.

Lemma last_iso_tck rest : last_tck rest = true -> iso_tck rest = true.
Proof.
  unfold last_tck, iso_tck; destruct (last rest) as [[T g]|] eqn:E; [|done]; intros HT; apply existsb_exists; exists (T, g); split; [|done].
  rewrite last_lookup in E; apply list_elem_of_In; by eapply list_elem_of_lookup_2.
Qed.

Definition atr_body (d : atr_desc) : list Z :=
  announce (d_first d) (more (d_rest d)) (zlen (d_hist d))
  :: group_bytes (d_first d) (d_rest d) ++ d_hist d.

Definition atr_print (d : atr_desc) : list Z :=
  d_TS d :: atr_body d ++ (if iso_tck (d_rest d) then [xor_bytes (atr_body d)] else []).

Definition group_wf (g : group) : Prop :=
  (forall v, gA g = Some v -> is_u8 v) /\ (forall v, gB g = Some v -> is_u8 v) /\
  (forall v, gC g = Some v -> is_u8 v).

Record desc_wf (d : atr_desc) : Prop := {
  dw_TS : is_u8 (d_TS d);
  dw_first : group_wf (d_first d);
  dw_rest : Forall (fun Tg => 0 <= Tg.1 < 16 /\ group_wf Tg.2) (d_rest d);
  dw_groups : zlen (d_rest d) < ATR_MAX_PROTOCOLS;
  dw_hist : Forall is_u8 (d_hist d) /\ zlen (d_hist d) <= ATR_MAX_HISTORICAL;
}.

(** ** What the parsed structure says *)
Definition ib_shape (a : ATR_t) : Prop :=
  zlen (ib a) = 7 /\ Forall (fun r => zlen r = 4) (ib a) /\ zlen (hb a) = 15.

Definition ib_is (x : option ibyte) (o : option Z) : Prop :=
  match o with
  | Some v => x = Some (mk_ib v 1)
  | None => exists y, x = Some y /\ present y = 0
  end.

Definition group_is (a : ATR_t) (i : Z) (g : group) (td : option Z) : Prop :=
  ib_is (ib_at a i TA) (gA g) /\ ib_is (ib_at a i TB) (gB g) /\
  ib_is (ib_at a i TC) (gC g) /\ ib_is (ib_at a i TD) td.

Fixpoint groups_are (a : ATR_t) (i : Z) (g : group) (rest : list (Z * group)) : Prop :=
  group_is a i g (td_of rest) /\
  match rest with [] => True | (_, g') :: rest' => groups_are a (i + 1) g' rest' end.

(** ** Interface byte cells *)
Lemma ib_at_in a p k : ib_shape a -> 0 <= p < 7 -> 0 <= k < 4 -> exists x, ib_at a p k = Some x.
Proof.
  intros (H7 & H4 & _) Hp Hk; unfold ib_at.
  destruct (rd_in (ib a) p) as [row Hr]; [lia|]; rewrite Hr; simpl.
  apply rd_Some in Hr as [_ Hr]; eapply Forall_lookup_1 in H4; [|exact Hr].
  apply rd_in; lia.
Qed.

Lemma ib_put_in a p k f :
  ib_shape a -> 0 <= p < 7 -> 0 <= k < 4 ->
  exists x a', ib_at a p k = Some x /\ ib_put a p k f = Some a' /\ ib_shape a' /\
    a' = a <| ib := ib a' |> /\ ib_at a' p k = Some (f x) /\
    (forall p' k', p' <> p \/ k' <> k -> ib_at a' p' k' = ib_at a p' k').
Proof.
  intros Hs Hp Hk; destruct (ib_at_in a p k Hs Hp Hk) as [x Hx]; destruct Hs as (H7 & H4 & H15).
  unfold ib_at in Hx |- *; apply bind_Some in Hx as (row & Hr & Hx).
  assert (Hrow : zlen row = 4) by (apply rd_Some in Hr as [_ Hr]; eapply Forall_lookup_1 in H4; eauto).
  unfold ib_put; rewrite Hr; simpl; rewrite Hx; simpl.
  destruct (wr row k (f x)) as [row'|] eqn:Ew; [|by rewrite wr_in in Ew by lia]; simpl.
  destruct (wr (ib a) p row') as [ib'|] eqn:Eb; [|by rewrite wr_in in Eb by lia]; simpl.
  eexists x, _; split_and!; try done; simpl.
  - split_and!; simpl; [by rewrite (wr_len _ _ _ _ Eb) | | done].
    apply wr_Some in Eb as [_ ->]; apply Forall_insert; [done|]; by rewrite (wr_len _ _ _ _ Ew).
  - rewrite (rd_wr_eq _ _ _ _ Eb); simpl; by apply (rd_wr_eq _ _ _ _ Ew).
  - intros p' k' Hne; destruct (Z.eq_dec p p') as [<-|Hpp].
    + rewrite (rd_wr_eq _ _ _ _ Eb), Hr; simpl; apply (rd_wr_ne _ _ _ _ _ Ew); lia.
    + by rewrite (rd_wr_ne _ _ _ _ _ Eb) by done.
Qed.

(** The presence tests of the loop on an announcing byte. *)
Lemma announce_tests g next low :
  0 <= low < 16 ->
  let t := announce g next low in
  (Z.lor t 0xEF =? 0xFF) = has (gA g) /\ (Z.lor t 0xDF =? 0xFF) = has (gB g) /\
  (Z.lor t 0xBF =? 0xFF) = has (gC g) /\ (Z.lor t 0x7F =? 0xFF) = next /\
  Z.land t 0x0F = low /\ is_u8 t /\
  rd atr_num_ib_table (Z.shiftr (Z.land 0xF0 t) 4)
    = Some (b2z (has (gA g)) + b2z (has (gB g)) + b2z (has (gC g)) + b2z next).
Proof.
  intros Hl; unfold announce.
  assert (Hc : low = 0 \/ low = 1 \/ low = 2 \/ low = 3 \/ low = 4 \/ low = 5 \/ low = 6 \/ low = 7 \/
    low = 8 \/ low = 9 \/ low = 10 \/ low = 11 \/ low = 12 \/ low = 13 \/ low = 14 \/ low = 15) by lia.
  destruct (has (gA g)), (has (gB g)), (has (gC g)), next;
    destruct_or! Hc; subst low; vm_compute; intuition congruence.
Qed.

Lemma zlen_olist o : zlen (olist o) = b2z (has o).
Proof. by destruct o. Qed.

(** ** One turn of the loop *)

(** [tail_is buf i l]: the bytes of [buf] from index [i] on are [l]. *)
Definition tail_is (buf : list Z) (i : Z) (l : list Z) : Prop :=
  0 <= i /\ i + zlen l = zlen buf /\ drop (Z.to_nat i) buf = l.

Lemma tail_is_rd buf i v l : tail_is buf i (v :: l) -> rd buf i = Some v /\ tail_is buf (i + 1) l.
Proof.
  intros (Hi & Hl & Hd); rewrite zlen_cons in Hl; pose proof (zlen_nonneg l); split.
  - apply rd_Some; split; [done|].
    rewrite <- (Nat.add_0_r (Z.to_nat i)), <- lookup_drop, Hd; done.
  - split_and!; [lia.. |]; rewrite Z2Nat.inj_add, <- drop_drop, Hd by lia; done.
Qed.

Lemma tail_is_app buf i l r : tail_is buf i (l ++ r) -> tail_is buf (i + zlen l) r /\ slice buf i (zlen l) = l.
Proof.
  intros (Hi & Hl & Hd); rewrite zlen_app in Hl; pose proof (zlen_nonneg l); split.
  - split_and!; [lia.. |].
    rewrite Z2Nat.inj_add, <- drop_drop, Hd by lia; by rewrite zlen_to_nat, drop_app_length.
  - unfold slice; by rewrite Hd, zlen_to_nat, take_app_length.
Qed.

Lemma tail_is_bound buf i l : tail_is buf i l -> i + zlen l = zlen buf.
Proof. by intros (_ & ? & _). Qed.

(** Cells outside of [ks] of group [p] keep their contents. *)
Definition frame (a a' : ATR_t) (p : Z) (ks : list Z) : Prop :=
  ib_shape a' /\ a' = a <| ib := ib a' |> /\
  forall p' k', p' <> p \/ k' ∉ ks -> ib_at a' p' k' = ib_at a p' k'.

Lemma frame_trans a b c p ks ks' : frame a b p ks -> frame b c p ks' -> frame a c p (ks ++ ks').
Proof.
  intros (_ & Hb & Hf) (Hs & Hc & Hf'); split_and!; [done| |].
  - rewrite Hc, Hb; done.
  - intros p' k' Hne; rewrite Hf', Hf; [done| |]; set_solver.
Qed.

Lemma atr_take_spec buf TDi mask p k pointer a o r :
  ib_shape a -> 0 <= p < 7 -> 0 <= k < 4 -> 0 <= pointer ->
  (Z.lor TDi mask =? 0xFF) = has o -> tail_is buf (pointer + 1) (olist o ++ r) ->
  exists a', atr_take buf TDi mask p k pointer a = Some (pointer + zlen (olist o), a') /\
    frame a a' p [k] /\ ib_is (ib_at a' p k) o /\ tail_is buf (pointer + zlen (olist o) + 1) r.
Proof.
  intros Hs Hp Hk Hptr Hf Ht; unfold atr_take; rewrite Hf.
  destruct o as [v|]; simpl in *.
  - apply tail_is_rd in Ht as [-> Ht]; simpl.
    destruct (ib_put_in a p k (fun _ => mk_ib v 1) Hs Hp Hk) as (x & a' & _ & -> & Hs' & Ha & Hat & Hne).
    exists a'; split_and!; try done; simpl.
    split_and!; try done; intros p' k' H; apply Hne; set_solver.
  - destruct (ib_put_in a p k (fun x => mk_ib (value x) 0) Hs Hp Hk)
      as (x & a' & _ & -> & Hs' & Ha & Hat & Hne).
    exists a'; rewrite zlen_nil, Z.add_0_r; split_and!; try done; simpl.
    + split_and!; try done; intros p' k' H; apply Hne; set_solver.
    + rewrite Hat; eexists; split; done.
Qed.

Lemma ib_is_frame a a' p k o p' ks :
  frame a a' p' ks -> p <> p' \/ k ∉ ks -> ib_is (ib_at a p k) o -> ib_is (ib_at a' p k) o.
Proof. intros (_ & _ & Hf) Hne H; by rewrite Hf. Qed.

(** The three optional bytes of a group. *)
Lemma atr_take3_spec buf g next low p pointer a r :
  ib_shape a -> 0 <= p < 7 -> 0 <= pointer -> 0 <= low < 16 ->
  tail_is buf (pointer + 1) (olist (gA g) ++ olist (gB g) ++ olist (gC g) ++ r) ->
  let TDi := announce g next low in
  let p1 := pointer + zlen (olist (gA g)) in
  let p2 := p1 + zlen (olist (gB g)) in
  let p3 := p2 + zlen (olist (gC g)) in
  exists a1 a2 a3,
    atr_take buf TDi 0xEF p TA pointer a = Some (p1, a1) /\
    atr_take buf TDi 0xDF p TB p1 a1 = Some (p2, a2) /\
    atr_take buf TDi 0xBF p TC p2 a2 = Some (p3, a3) /\
    frame a a3 p [TA; TB; TC] /\ tail_is buf (p3 + 1) r /\
    ib_is (ib_at a3 p TA) (gA g) /\ ib_is (ib_at a3 p TB) (gB g) /\ ib_is (ib_at a3 p TC) (gC g).
Proof.
  intros Hs Hp Hptr Hlow Ht TDi p1 p2 p3.
  destruct (announce_tests g next low Hlow) as (HA & HB & HC & _).
  pose proof (zlen_nonneg (olist (gA g))); pose proof (zlen_nonneg (olist (gB g))).
  destruct (atr_take_spec buf TDi 0xEF p TA pointer a (gA g) _ Hs Hp ltac:(done) Hptr HA Ht)
    as (a1 & E1 & F1 & I1 & Ht1).
  destruct (atr_take_spec buf TDi 0xDF p TB p1 a1 (gB g) _ (proj1 F1) Hp ltac:(done) ltac:(lia) HB Ht1)
    as (a2 & E2 & F2 & I2 & Ht2).
  destruct (atr_take_spec buf TDi 0xBF p TC p2 a2 (gC g) _ (proj1 F2) Hp ltac:(done) ltac:(lia) HC Ht2)
    as (a3 & E3 & F3 & I3 & Ht3).
  exists a1, a2, a3; split_and!; try done.
  - eapply (frame_trans _ _ _ _ [TA; TB] [TC]), F3; eapply (frame_trans _ _ _ _ [TA] [TB]); eauto.
  - eapply ib_is_frame; [exact F3|right; set_solver|].
    eapply ib_is_frame; [exact F2|right; set_solver|done].
  - eapply ib_is_frame; [exact F3|right; set_solver|done].
Qed.

Lemma group_bytes_cons g rest :
  group_bytes g rest = olist (gA g) ++ olist (gB g) ++ olist (gC g) ++ olist (td_of rest) ++
    match rest with [] => [] | (_, g') :: rest' => group_bytes g' rest' end.
Proof. by destruct rest as [|[T g'] rest']. Qed.

(** What a completed pass over the interface bytes leaves: cells of the groups
    outside of [lo..hi] and all other fields but TCK are as before. *)
Definition pass (a a' : ATR_t) (lo hi : Z) : Prop :=
  ib_shape a' /\ a' = a <| ib := ib a' |> <| TCK := TCK a' |> /\
  forall p k, p < lo \/ hi < p -> ib_at a' p k = ib_at a p k.

Lemma pass_trans a b c lo mid hi : pass a b lo lo -> pass b c mid hi -> lo < mid -> mid <= hi + 1 -> pass a c lo hi.
Proof.
  intros (_ & Hb & Hf) (Hs & Hc & Hf') ??; split_and!; [done| |].
  - rewrite Hc, Hb; done.
  - intros p k Hp; rewrite Hf' by lia; apply Hf; lia.
Qed.

Lemma group_is_pass a a' p g td lo hi :
  pass a a' lo hi -> p < lo -> group_is a p g td -> group_is a' p g td.
Proof.
  intros (_ & _ & Hf) Hp H; unfold group_is in *; rewrite !Hf by lia; done.
Qed.

(** Recording whether TD is present ends the pass over a group. *)
Lemma put_td a a3 p g td f :
  frame a a3 p [TA; TB; TC] -> 0 <= p < 7 -> (forall x, ib_is (Some (f x)) td) ->
  ib_is (ib_at a3 p TA) (gA g) -> ib_is (ib_at a3 p TB) (gB g) -> ib_is (ib_at a3 p TC) (gC g) ->
  exists a4, ib_put a3 p TD f = Some a4 /\ TCK a4 = TCK a /\
    forall t, pass a (a4 <| TCK := t |>) p p /\ group_is (a4 <| TCK := t |>) p g td.
Proof.
  intros (Hs3 & Ha3 & Hf3) Hp Hf IA IB IC.
  destruct (ib_put_in a3 p TD f Hs3 Hp ltac:(done)) as (x & a4 & _ & Hput & Hs4 & Ha4 & Hat & Hne).
  exists a4; split; [done|]; split; [by rewrite Ha4, Ha3|]; intros t; split.
  - split_and!; [done | rewrite Ha4, Ha3; done |].
    intros p' k' H; unfold ib_at; simpl; fold (ib_at a4 p' k'); rewrite Hne, Hf3; [done| |]; lia.
  - unfold group_is, ib_at; simpl; fold (ib_at a4 p TA) (ib_at a4 p TB) (ib_at a4 p TC) (ib_at a4 p TD).
    rewrite !(Hne p) by (right; done); rewrite Hat; done.
Qed.

Lemma atr_ib_turn_spec buf len g rest low p pointer a r :
  ib_shape a -> 0 <= p < 7 -> 0 <= pointer -> 0 <= low < 16 ->
  p + b2z (more rest) < 7 -> pointer + zlen (group_bytes g rest) < len ->
  Forall (fun Tg => 0 <= Tg.1 < 16) rest ->
  tail_is buf (pointer + 1) (group_bytes g rest ++ r) ->
  let n := zlen (olist (gA g) ++ olist (gB g) ++ olist (gC g) ++ olist (td_of rest)) in
  exists a', pass a a' p p /\ group_is a' p g (td_of rest) /\
    tail_is buf (pointer + n + 1)
      (match rest with [] => [] | (_, g') :: rest' => group_bytes g' rest' end ++ r) /\
    match rest with
    | [] => atr_ib_turn buf len (announce g false low) pointer p a = Some (IbBreak (pointer + n) p a') /\
            TCK a' = TCK a
    | (T, g') :: rest' =>
        atr_ib_turn buf len (announce g true low) pointer p a
          = Some (IbLoop (announce g' (more rest') T) (pointer + n) (p + 1) a') /\
        present (TCK a') = b2z (nz T)
    end.
Proof.
  intros Hs Hp Hptr Hlow Hmore Hlen HT Ht n.
  rewrite group_bytes_cons, <- !app_assoc in Ht.
  destruct (atr_take3_spec buf g (more rest) low p pointer a _ Hs Hp Hptr Hlow Ht)
    as (a1 & a2 & a3 & E1 & E2 & E3 & F3 & Ht3 & IA & IB & IC).
  destruct (announce_tests g (more rest) low Hlow) as (_ & _ & _ & Hnext & _ & _ & Hnum).
  assert (Hn : b2z (has (gA g)) + b2z (has (gB g)) + b2z (has (gC g)) + b2z (more rest) = n)
    by (unfold n; rewrite !zlen_app, !zlen_olist; destruct rest as [|[??]?]; simpl; lia).
  assert (Hguard : (len <=? pointer + n) = false).
  { apply Z.leb_gt; rewrite group_bytes_cons, !app_assoc, zlen_app in Hlen.
    unfold n; rewrite !app_assoc; pose proof (zlen_nonneg (match rest with [] => [] | (_, g') :: rest' => group_bytes g' rest' end)); lia. }
  unfold atr_ib_turn.
  destruct rest as [|[T g'] rest']; cbn [more] in *;
    rewrite Hnum; cbn [mbind option_bind]; rewrite Hn, Hguard, E1; cbn [mbind option_bind];
    rewrite E2; cbn [mbind option_bind]; rewrite E3; cbn [mbind option_bind]; rewrite Hnext.
  - destruct (put_td a a3 p g None (fun x => mk_ib (value x) 0)) as (a4 & -> & Htck & H4); try done; [by eexists|].
    cbn [mbind option_bind]; exists a4; destruct (H4 (TCK a4)) as [Hpass Hgrp].
    replace (a4 <| TCK := TCK a4 |>) with a4 in * by (by destruct a4).
    assert (Hpn : pointer + zlen (olist (gA g)) + zlen (olist (gB g)) + zlen (olist (gC g)) = pointer + n)
      by (unfold n; simpl; rewrite !zlen_app, zlen_nil; lia).
    rewrite Hpn in *; done.
  - simpl td_of in *; simpl olist in *; apply tail_is_rd in Ht3 as [-> Ht4]; cbn [mbind option_bind].
    set (td := announce g' (more rest') T) in *.
    destruct (put_td a a3 p g (Some td) (fun _ => mk_ib td 1)) as (a4 & -> & _ & H4); try done; cbn [mbind option_bind].
    assert (Hpn : pointer + zlen (olist (gA g)) + zlen (olist (gB g)) + zlen (olist (gC g)) + 1 = pointer + n)
      by (unfold n; rewrite !zlen_app, zlen_cons, zlen_nil; lia).
    rewrite Hpn in *; apply Forall_cons in HT as [HT _]; simpl in HT.
    destruct (announce_tests g' (more rest') T HT) as (_ & _ & _ & _ & Hland & _); fold td in Hland.
    rewrite Hland; replace (ATR_MAX_PROTOCOLS <=? p + 1) with false
      by (symmetry; apply Z.leb_gt; unfold ATR_MAX_PROTOCOLS; simpl in Hmore; lia).
    eexists; split_and!; [apply H4 | apply H4 | done | reflexivity |].
    simpl; unfold nz; by destruct (T =? 0).
Qed.

Lemma atr_ib_loop_spec rest : forall buf len g low p pointer a r fuel,
  ib_shape a -> 0 <= p -> p + zlen rest < 7 -> 0 <= pointer -> 0 <= low < 16 ->
  pointer + zlen (group_bytes g rest) < len ->
  Forall (fun Tg => 0 <= Tg.1 < 16) rest -> (length rest < fuel)%nat ->
  tail_is buf (pointer + 1) (group_bytes g rest ++ r) ->
  exists a', atr_ib_loop fuel buf len (announce g (more rest) low) pointer p a
      = Some (IbBreak (pointer + zlen (group_bytes g rest)) (p + zlen rest) a') /\
    pass a a' p (p + zlen rest) /\ groups_are a' p g rest /\
    present (TCK a') = (if more rest then b2z (last_tck rest) else present (TCK a)) /\
    tail_is buf (pointer + zlen (group_bytes g rest) + 1) r.
Proof.
  induction rest as [|[T g'] rest IH]; intros buf len g low p pointer a r fuel Hs Hp Hp7 Hptr Hlow Hlen HT Hfuel Ht;
    (destruct fuel as [|fuel]; [simpl in Hfuel; lia|]); cbn [atr_ib_loop more];
    (rewrite (proj2 (Z.ltb_lt pointer len))
       by (match type of Hlen with _ + zlen ?l < _ => pose proof (zlen_nonneg l) end; lia)).
  - destruct (atr_ib_turn_spec buf len g [] low p pointer a r Hs ltac:(rewrite zlen_nil in *; lia) Hptr Hlow
      ltac:(simpl; rewrite zlen_nil in *; lia) Hlen HT Ht) as (a' & Hpass & Hg & Ht' & -> & HTCK); simpl.
    rewrite app_nil_r in *; rewrite zlen_nil, Z.add_0_r.
    exists a'; split_and!; try done; by rewrite HTCK.
  - rewrite zlen_cons in Hp7; pose proof (zlen_nonneg rest).
    destruct (atr_ib_turn_spec buf len g ((T, g') :: rest) low p pointer a r Hs ltac:(lia) Hptr Hlow
      ltac:(simpl; lia) Hlen HT Ht) as (a1 & Hpass & Hg & Ht' & -> & HTCK); cbn [mbind option_bind].
    apply Forall_cons in HT as [HT HTr]; simpl in HT.
    set (n := zlen (olist (gA g) ++ olist (gB g) ++ olist (gC g) ++ olist (td_of ((T, g') :: rest)))) in *.
    assert (Hn : zlen (group_bytes g ((T, g') :: rest)) = n + zlen (group_bytes g' rest)).
    { rewrite group_bytes_cons; unfold n; rewrite !zlen_app; lia. }
    assert (0 <= n) by apply zlen_nonneg.
    destruct (IH buf len g' T (p + 1) (pointer + n) a1 r fuel) as (a' & -> & Hpass' & Hgs & HT' & Ht'');
      try done; try lia; [apply Hpass | simpl in Hfuel; lia |].
    rewrite Hn, Z.add_assoc, zlen_cons, Z.add_assoc.
    exists a'; split_and!; try done.
    + eapply pass_trans; [exact Hpass | exact Hpass' | lia..].
    + split; [|done]; eapply group_is_pass; [exact Hpass' | lia | done].
    + rewrite HT'; unfold last_tck; destruct rest; simpl; [by rewrite HTCK | done].
Qed.

(** The parser needs at most one turn per group, so seven turns always end it. *)
Lemma atr_ib_turn_next buf len TDi pointer p a TDi' pointer' p' a' :
  atr_ib_turn buf len TDi pointer p a = Some (IbLoop TDi' pointer' p' a') ->
  p' = p + 1 /\ p' < ATR_MAX_PROTOCOLS.
Proof.
  unfold atr_ib_turn; intros H; apply bind_Some in H as (n & _ & H).
  destruct (len <=? _); [done|].
  do 3 (apply bind_Some in H as ([? ?] & _ & H)).
  destruct (_ =? 0xFF); [|bind_inv H; done].
  apply bind_Some in H as (v & _ & H); apply bind_Some in H as (a4 & _ & H).
  destruct (ATR_MAX_PROTOCOLS <=? _) eqn:?; simplify_eq; zbool; lia.
Qed.

Lemma atr_ib_loop_fuel fuel buf len TDi pointer p a TDi' pointer' p' a' :
  (Z.to_nat (ATR_MAX_PROTOCOLS - p) <= fuel)%nat -> p < ATR_MAX_PROTOCOLS ->
  atr_ib_loop fuel buf len TDi pointer p a <> Some (IbLoop TDi' pointer' p' a') /\
  forall fuel', (fuel <= fuel')%nat ->
    atr_ib_loop fuel' buf len TDi pointer p a = atr_ib_loop fuel buf len TDi pointer p a.
Proof.
  revert TDi pointer p a; induction fuel as [|fuel IH]; intros TDi pointer p a Hf Hp;
    [unfold ATR_MAX_PROTOCOLS in *; lia|].
  split.
  - cbn [atr_ib_loop]; destruct (pointer <? len); [|done]; intros H; apply bind_Some in H as (t & Ht & H).
    destruct t; try done; apply atr_ib_turn_next in Ht as [-> ?]; apply IH in H; try done; lia.
  - intros [|fuel'] Hle; [lia|]; cbn [atr_ib_loop]; destruct (pointer <? len); [|done].
    destruct (atr_ib_turn _ _ _ _ _ _) as [[]|] eqn:Ht; cbn [mbind option_bind]; try done.
    apply atr_ib_turn_next in Ht as [-> ?]; apply IH; lia.
Qed.

(** ** Properties *)

Lemma xor_bytes_snoc l v : xor_bytes (l ++ [v]) = Z.lxor (xor_bytes l) v.
Proof. unfold xor_bytes; by rewrite fold_left_app. Qed.

(** The fields an answer described by [d] leaves in the structure. *)
Record parsed (d : atr_desc) (a : ATR_t) : Prop := {
  pd_TS : TS a = d_TS d;
  pd_groups : groups_are a 0 (d_first d) (d_rest d);
  pd_pn : pn a = 1 + zlen (d_rest d);
  pd_hbn : hbn a = zlen (d_hist d);
  pd_hb : take (length (d_hist d)) (hb a) = d_hist d;
  pd_length : length_ a = zlen (atr_print d) - (if iso_tck (d_rest d) && negb (last_tck (d_rest d)) then 1 else 0);
  pd_tck : if last_tck (d_rest d) then TCK a = mk_ib (xor_bytes (atr_body d)) 1 else present (TCK a) = 0;
}.

(** The end of the parser, once the interface bytes are read. *)
Lemma atr_finish_spec d a junk pointer :
  desc_wf d -> ib_shape a -> 0 <= pointer ->
  let buf := atr_print d ++ junk in
  let tck := if iso_tck (d_rest d) then [xor_bytes (atr_body d)] else [] in
  pointer + zlen (d_hist d) + zlen tck + 1 = zlen (atr_print d) ->
  tail_is buf (pointer + 1) (d_hist d ++ tck ++ junk) ->
  hbn a = zlen (d_hist d) -> present (TCK a) = b2z (last_tck (d_rest d)) ->
  exists a', atr_finish buf (zlen (atr_print d)) pointer (zlen (d_rest d)) a = Some (0, a') /\
    take (length (d_hist d)) (hb a') = d_hist d /\ zlen (hb a') = 15 /\
    ib a' = ib a /\ TS a' = TS a /\ hbn a' = hbn a /\ pn a' = 1 + zlen (d_rest d) /\
    length_ a' = zlen (atr_print d) - (if iso_tck (d_rest d) && negb (last_tck (d_rest d)) then 1 else 0) /\
    (if last_tck (d_rest d) then TCK a' = mk_ib (xor_bytes (atr_body d)) 1 else present (TCK a') = 0).
Proof.
  intros Hwf (H7 & H4 & H15) Hptr buf tck Hlen Ht Hhbn HTCK.
  destruct (dw_hist d Hwf) as [_ Hh]; unfold ATR_MAX_HISTORICAL in Hh.
  pose proof (zlen_nonneg (d_hist d)); pose proof (zlen_nonneg tck).
  apply tail_is_app in Ht as [Ht Hsl]; pose proof (tail_is_bound _ _ _ Ht) as Hb.
  pose proof (zlen_nonneg (tck ++ junk)); unfold atr_finish.
  replace (hbn (a <| pn := zlen (d_rest d) + 1 |>)) with (zlen (d_hist d)) by done.
  rewrite (proj2 (Z.leb_gt _ _)) by lia.
  destruct (memcpy_in (hb a) 0 buf (pointer + 1) (zlen (d_hist d))) as (h & Em & Ew);
    [lia..|].
  rewrite Hsl, wrn_0 in Ew by lia; injection Ew as <-.
  cbn [hb set]; rewrite Em; cbn [mbind option_bind].
  assert (Hhb : take (length (d_hist d)) (d_hist d ++ drop (length (d_hist d)) (hb a)) = d_hist d)
    by apply take_app_length.
  assert (Hhl : zlen (d_hist d ++ drop (length (d_hist d)) (hb a)) = 15)
    by (zlen_simpl; unfold zlen in *; lia).
  cbn [hbn TCK present set]; rewrite HTCK, Hhbn; unfold tck in *; clear tck.
  destruct (last_tck (d_rest d)) eqn:El; cbn [b2z nz negb Z.eqb andb].
  1: pose proof (last_iso_tck _ El) as Etck; rewrite Etck in *; cbn [andb].
  - rewrite rdn_in by (rewrite ?zlen_app in *; pose proof (zlen_nonneg junk);
      pose proof (zlen_nonneg (atr_print d)); simpl in Hb; lia); cbn [mbind option_bind].
    rewrite (proj2 (Z.leb_gt _ _)) by (rewrite zlen_cons, zlen_nil in *; lia).
    assert (Hx : xor_bytes (slice buf 1 (zlen (atr_print d) - 1)) = 0).
    { unfold buf, atr_print, slice; rewrite Etck, zlen_cons; cbv iota; set (x := xor_bytes (atr_body d)).
      replace (Z.to_nat (1 + _ - 1)) with (length (atr_body d ++ [x])) by (unfold zlen; lia).
      change (drop (Z.to_nat 1) _) with ((atr_body d ++ [x]) ++ junk).
      rewrite take_app_length, xor_bytes_snoc; apply Z.lxor_nilpotent. }
    rewrite Hx; cbn [nz negb Z.eqb].
    apply tail_is_rd in Ht as [Hrd _].
    replace (pointer + zlen (d_hist d) + 1) with (pointer + 1 + zlen (d_hist d)) by lia.
    rewrite Hrd; cbn [mbind option_bind]; eexists; split; [reflexivity|]; simpl; split_and!; try done; try lia.
    rewrite zlen_cons, zlen_nil in Hlen; lia.
  - eexists; split; [reflexivity|]; simpl; split_and!; try done; try lia.
    destruct (iso_tck (d_rest d)); cbn [andb]; rewrite ?zlen_cons, ?zlen_nil in Hlen; lia.
Qed.

Lemma parse_print d a junk :
  desc_wf d -> ib_shape a ->
  exists a', ATR_InitFromArray a (atr_print d ++ junk) (zlen (atr_print d)) = Some (0, a') /\
    parsed d a' /\ ib_shape a' /\
    (forall p k, zlen (d_rest d) < p -> ib_at a' p k = ib_at a p k).
Proof.
  intros Hwf Hs; set (buf := atr_print d ++ junk).
  set (tck := if iso_tck (d_rest d) then [xor_bytes (atr_body d)] else []).
  destruct (dw_hist d Hwf) as [_ Hh]; pose proof (dw_groups d Hwf) as Hg.
  unfold ATR_MAX_HISTORICAL, ATR_MAX_PROTOCOLS in *.
  pose proof (zlen_nonneg (d_hist d)); pose proof (zlen_nonneg (d_rest d)).
  set (t0 := announce (d_first d) (more (d_rest d)) (zlen (d_hist d))).
  assert (Hprint : atr_print d = d_TS d :: t0 :: group_bytes (d_first d) (d_rest d) ++ d_hist d ++ tck)
    by (unfold atr_print, atr_body; simpl; by rewrite <- app_assoc).
  assert (Hlen : zlen (atr_print d)
      = 2 + zlen (group_bytes (d_first d) (d_rest d)) + zlen (d_hist d) + zlen tck)
    by (rewrite Hprint, !zlen_cons, !zlen_app; lia).
  pose proof (zlen_nonneg (group_bytes (d_first d) (d_rest d))); pose proof (zlen_nonneg tck).
  assert (Ht : tail_is buf (1 + 1) (group_bytes (d_first d) (d_rest d) ++ d_hist d ++ tck ++ junk)).
  { unfold buf; rewrite Hprint; split_and!; [lia | | ]; simpl; [|by rewrite <- !app_assoc].
    rewrite !zlen_cons, !zlen_app; lia. }
  destruct (announce_tests (d_first d) (more (d_rest d)) (zlen (d_hist d))) as (_ & _ & _ & _ & Hland & _); [lia|].
  fold t0 in Hland.
  unfold ATR_InitFromArray; rewrite (proj2 (Z.ltb_ge _ _)) by lia.
  replace (rd buf 0) with (Some (d_TS d)) by (unfold buf; by rewrite Hprint).
  replace (rd buf 1) with (Some t0) by (unfold buf; by rewrite Hprint).
  cbn [mbind option_bind]; rewrite Hland; set (a0 := _ <| TCK := _ |>).
  destruct (atr_ib_loop_spec (d_rest d) buf (zlen (atr_print d)) (d_first d) (zlen (d_hist d)) 0 1 a0
    (d_hist d ++ tck ++ junk) 7) as (a1 & E1 & Hpass & Hgs & HT & Ht1); try done; try lia;
    [eapply Forall_impl; [apply (dw_rest d Hwf)|]; by intros [? ?] [? ?] | unfold zlen in *; lia |].
  fold t0 in E1; rewrite E1; cbn [mbind option_bind]; destruct Hpass as (Hs1 & Ha1 & Hf1).
  assert (HT' : present (TCK a1) = b2z (last_tck (d_rest d)))
    by (rewrite HT; destruct (d_rest d); done).
  rewrite Z.add_0_l; destruct (atr_finish_spec d a1 junk (1 + zlen (group_bytes (d_first d) (d_rest d))) Hwf Hs1 ltac:(lia))
    as (a2 & E2 & Hhb & Hhl & Hib & HTS & Hhbn & Hpn & Hl & HT2); fold tck; try done; [lia | by rewrite Ha1 |].
  fold buf in E2; exists a2; rewrite E2.
  assert (Hat : forall p k, ib_at a2 p k = ib_at a1 p k) by (intros; unfold ib_at; by rewrite Hib).
  split_and!; [done | | | ].
  - split; try done; [by rewrite HTS, Ha1 | | by rewrite Hhbn, Ha1].
    clear -Hgs Hat; revert Hgs; generalize 0, (d_first d); induction (d_rest d) as [|[T g'] rest IH];
      intros i g [Hg Hr]; split; try done; try (unfold group_is in *; by rewrite !Hat); by apply IH.
  - destruct Hs1 as (? & ? & ?); split_and!; try done; by rewrite Hib.
  - intros p k Hp; rewrite Hat, Hf1 by lia; done.
Qed.

(** C15: parsing inverts printing. For every well-formed description of an
    answer to reset, printed by the rules of ISO 7816-3, and whatever the structure
    held before, [ATR_InitFromArray] accepts the printed answer (which may be
    followed by other bytes of the array) and recovers TS, every interface byte of
    every group with its presence, the historical bytes, the number of groups, and,
    if the last TDi names a protocol other than T=0, the check character and the
    length. If only an earlier TDi does, the check character that ISO 7816-3 then
    asks for too is taken for absent, and the length is one too short. Cells of
    later groups are left as they were. *)
Theorem atr_parse_print d a junk :
  desc_wf d -> ib_shape a ->
  exists a', ATR_InitFromArray a (atr_print d ++ junk) (zlen (atr_print d)) = Some (0, a') /\
    parsed d a' /\ ib_shape a' /\
    (forall p k, zlen (d_rest d) < p -> ib_at a' p k = ib_at a p k).
Proof. apply parse_print. Qed.

(** ** The values in the structure are bytes, their presence is a flag *)
Definition cell_ok (x : ibyte) : Prop := is_u8 (value x) /\ (present x = 0 \/ present x = 1).
Definition cells_ok (a : ATR_t) : Prop := Forall (Forall cell_ok) (ib a).

Lemma cells_ok_at a p k x : cells_ok a -> ib_at a p k = Some x -> cell_ok x.
Proof.
  intros Ha H; unfold ib_at in H; bind_inv H; apply rd_Some in E as [_ E]; apply rd_Some in H as [_ H].
  by pose proof (Forall_lookup_1 _ _ _ _ (Forall_lookup_1 _ _ _ _ Ha E) H).
Qed.

(** The same as a test. *)
Definition cells_okb (a : ATR_t) : bool :=
  forallb (forallb (fun x => (0 <=? value x) && (value x <? 256) && ((present x =? 0) || (present x =? 1)))) (ib a).

Lemma cells_okb_ok a : cells_okb a = true -> cells_ok a.
Proof.
  unfold cells_okb, cells_ok; rewrite forallb_forall; intros H; apply List.Forall_forall; intros row Hr; specialize (H row Hr); rewrite forallb_forall in H; apply List.Forall_forall; intros x Hx; specialize (H x Hx); unfold cell_ok, is_u8; zbool; lia.
Qed.

Lemma ib_put_u8 a p k f a' :
  (forall x, cell_ok x -> cell_ok (f x)) -> ib_put a p k f = Some a' -> cells_ok a -> cells_ok a'.
Proof.
  intros Hf H Ha; unfold ib_put in H; bind_inv H; injection H as <-.
  apply rd_Some in E as [_ E]; apply rd_Some in E0 as [_ E0].
  apply wr_Some in E1 as [_ ->]; apply wr_Some in E2 as [_ ->].
  pose proof (Forall_lookup_1 _ _ _ _ Ha E) as Hrow.
  apply Forall_insert; [done|]; apply Forall_insert; [done|]; apply Hf.
  by pose proof (Forall_lookup_1 _ _ _ _ Hrow E0).
Qed.

Lemma rd_u8 buf i v : Forall is_u8 buf -> rd buf i = Some v -> is_u8 v.
Proof. intros Hb [_ H]%rd_Some; by pose proof (Forall_lookup_1 _ _ _ _ Hb H). Qed.

Lemma atr_take_u8 buf TDi mask p k pointer a r a' :
  Forall is_u8 buf -> atr_take buf TDi mask p k pointer a = Some (r, a') -> cells_ok a -> cells_ok a'.
Proof.
  intros Hb H; unfold atr_take in H; destruct (_ =? _); bind_inv H; injection H as _ <-.
  - eapply ib_put_u8; [|done]; intros; (split; [by eapply rd_u8|by right]).
  - eapply ib_put_u8; [|done]; intros y [? _]; split; [done|by left].
Qed.

Definition next_cells (t : ib_next) : ATR_t :=
  match t with IbFail a => a | IbBreak _ _ a => a | IbLoop _ _ _ a => a end.

Lemma atr_ib_turn_u8 buf len TDi pointer p a t :
  Forall is_u8 buf -> atr_ib_turn buf len TDi pointer p a = Some t -> cells_ok a -> cells_ok (next_cells t).
Proof.
  intros Hb H Ha; unfold atr_ib_turn in H; apply bind_Some in H as (n & _ & H).
  destruct (len <=? _); [by injection H as <-|].
  apply bind_Some in H as ([p1 a1] & E1 & H); apply bind_Some in H as ([p2 a2] & E2 & H); apply bind_Some in H as ([p3 a3] & E3 & H).
  assert (H3 : cells_ok a3) by (eapply atr_take_u8; [..|eapply atr_take_u8; [..|eapply atr_take_u8]]; eauto).
  destruct (_ =? 0xFF).
  - apply bind_Some in H as (v & Hv & H); apply bind_Some in H as (a4 & E4 & H).
    assert (H4 : cells_ok a4) by (eapply ib_put_u8; [|done..]; intros; (split; [by eapply rd_u8|by right])).
    destruct (_ <=? _); injection H as <-; exact H4.
  - apply bind_Some in H as (a4 & E4 & H); injection H as <-; eapply ib_put_u8; [|done..]; intros y [? _]; split; [done|by left].
Qed.

Lemma atr_ib_loop_u8 fuel : forall buf len TDi pointer p a t,
  Forall is_u8 buf -> atr_ib_loop fuel buf len TDi pointer p a = Some t -> cells_ok a -> cells_ok (next_cells t).
Proof.
  induction fuel as [|fuel IH]; intros buf len TDi pointer p a t Hb H Ha; [done|].
  cbn [atr_ib_loop] in H; destruct (pointer <? len); [|by injection H as <-].
  apply bind_Some in H as (t1 & Ht & H); pose proof (atr_ib_turn_u8 _ _ _ _ _ _ _ Hb Ht Ha) as Ht1.
  destruct t1; try (by injection H as <-); by eapply IH.
Qed.

Lemma atr_finish_ib buf len pointer p a r a' : atr_finish buf len pointer p a = Some (r, a') -> ib a' = ib a.
Proof.
  unfold atr_finish; cbv zeta; destruct (_ <=? _); [by intros [= _ <-]|].
  intros H; apply bind_Some in H as (h & _ & H); destruct (nz _); [|by injection H as _ <-].
  apply bind_Some in H as (bs & _ & H); destruct (_ <=? _); [by injection H as _ <-|].
  destruct (nz _); [by injection H as _ <-|]; apply bind_Some in H as (v & _ & H); by injection H as _ <-.
Qed.

Lemma ATR_InitFromArray_u8 a buf len r a' :
  Forall is_u8 buf -> ATR_InitFromArray a buf len = Some (r, a') -> cells_ok a -> cells_ok a'.
Proof.
  intros Hb H Ha; unfold ATR_InitFromArray in H; destruct (len <? 2); [by injection H as _ <-|].
  apply bind_Some in H as (ts & _ & H); apply bind_Some in H as (t0 & _ & H); apply bind_Some in H as (t & Ht & H).
  apply atr_ib_loop_u8 in Ht; [|done..]; destruct t; cbn [next_cells] in Ht; [by injection H as _ <- | | done].
  by apply atr_finish_ib in H; unfold cells_ok; rewrite H.
Qed.

Definition desc_example : atr_desc :=
  mk_desc 0x3B (mk_group (Some 0x11) (Some 0) None)
    [(1, mk_group None None None); (1, mk_group (Some 0xFE) (Some 0x45) None)] [0x4A; 0x5A].

Lemma desc_example_wf : desc_wf desc_example.
Proof.
  split; unfold group_wf, is_u8; simpl; [lia | naive_solver lia | | done | ].
  - repeat constructor; unfold group_wf, is_u8; simpl; naive_solver lia.
  - split; [repeat constructor; lia | done].
Qed.

Lemma atr_parse_print_witness :
  atr_print desc_example = [0x3B; 0xB2; 0x11; 0; 0x81; 0x31; 0xFE; 0x45; 0x4A; 0x5A; 0xB8] /\
  exists a', ATR_InitFromArray atr_zero (atr_print desc_example ++ [1; 2; 3]) (zlen (atr_print desc_example))
    = Some (0, a') /\ hbn a' = 2 /\ TCK a' = mk_ib 0xB8 1.
Proof.
  split; [reflexivity|].
  destruct (atr_parse_print desc_example atr_zero [1; 2; 3]) as (a' & E & Hp & _).
  - exact desc_example_wf.
  - repeat constructor.
  - exists a'; split; [exact E | split; [exact (pd_hbn _ _ Hp) | exact (pd_tck _ _ Hp)]].
Defined.

(** ** Totality and bounds on arbitrary input *)
Lemma atr_take_safe buf TDi mask p k pointer a :
  ib_shape a -> 0 <= p < 7 -> 0 <= k < 4 -> 0 <= pointer ->
  pointer + b2z (Z.lor TDi mask =? 0xFF) < zlen buf ->
  exists a', atr_take buf TDi mask p k pointer a
    = Some (pointer + b2z (Z.lor TDi mask =? 0xFF), a') /\ frame a a' p [k].
Proof.
  intros Hs Hp Hk Hptr Hb; unfold atr_take; destruct (_ =? _); simpl in *.
  - destruct (rd_in buf (pointer + 1)) as [v ->]; [lia|]; simpl.
    destruct (ib_put_in a p k (fun _ => mk_ib v 1) Hs Hp Hk) as (x & a' & _ & -> & Hs' & Ha & _ & Hne).
    exists a'; split; [done|]; split_and!; try done; intros p' k' H; apply Hne; set_solver.
  - destruct (ib_put_in a p k (fun x => mk_ib (value x) 0) Hs Hp Hk) as (x & a' & _ & -> & Hs' & Ha & _ & Hne).
    exists a'; rewrite Z.add_0_r; split; [done|]; split_and!; try done; intros p' k' H; apply Hne; set_solver.
Qed.

Lemma u8_tests t :
  is_u8 t -> rd atr_num_ib_table (Z.shiftr (Z.land 0xF0 t) 4)
    = Some (b2z (Z.lor t 0xEF =? 0xFF) + b2z (Z.lor t 0xDF =? 0xFF) +
            b2z (Z.lor t 0xBF =? 0xFF) + b2z (Z.lor t 0x7F =? 0xFF)).
Proof.
  intros Ht.
  assert (H : forallb (fun t => bool_decide (rd atr_num_ib_table (Z.shiftr (Z.land 0xF0 t) 4)
    = Some (b2z (Z.lor t 0xEF =? 0xFF) + b2z (Z.lor t 0xDF =? 0xFF) +
            b2z (Z.lor t 0xBF =? 0xFF) + b2z (Z.lor t 0x7F =? 0xFF)))) (seqZ 0 256) = true)
    by (vm_compute; reflexivity).
  rewrite forallb_forall in H; specialize (H t); rewrite bool_decide_eq_true in H.
  apply H, list_elem_of_In, elem_of_seqZ; unfold is_u8 in Ht; lia.
Qed.

Definition next_ok (buf : list Z) (len p pointer : Z) (a : ATR_t) (t : ib_next) : Prop :=
  match t with
  | IbFail a' => ib_shape a' /\ hbn a' = hbn a
  | IbBreak pointer' p' a' => ib_shape a' /\ hbn a' = hbn a /\ pointer <= pointer' < len /\ p <= p' < 7
  | IbLoop TDi pointer' p' a' =>
      ib_shape a' /\ hbn a' = hbn a /\ pointer <= pointer' < len /\ p < p' < 7 /\ is_u8 TDi
  end.

Lemma atr_ib_turn_safe buf len TDi pointer p a :
  Forall is_u8 buf -> len <= zlen buf -> is_u8 TDi -> ib_shape a -> 0 <= p < 7 -> 0 <= pointer < len ->
  exists t, atr_ib_turn buf len TDi pointer p a = Some t /\ next_ok buf len p pointer a t.
Proof.
  intros Hbuf Hlen HT Hs Hp Hptr; unfold atr_ib_turn; rewrite u8_tests by done; cbn [mbind option_bind].
  set (fa := _ =? _); set (fb := Z.lor TDi 0xDF =? _); set (fc := Z.lor TDi 0xBF =? _);
    set (fd := Z.lor TDi 0x7F =? _).
  destruct (len <=? _) eqn:Hg; [eexists; split; [reflexivity | done]|]; zbool.
  destruct (atr_take_safe buf TDi 0xEF p TA pointer a Hs Hp ltac:(done) ltac:(lia)) as (a1 & -> & F1);
    [fold fa; destruct fa, fb, fc, fd; simpl in *; lia|]; cbn [mbind option_bind]; fold fa.
  destruct (atr_take_safe buf TDi 0xDF p TB (pointer + b2z fa) a1 (proj1 F1) Hp ltac:(done)) as (a2 & -> & F2);
    [destruct fa; simpl; lia | fold fb; destruct fa, fb, fc, fd; simpl in *; lia|];
    cbn [mbind option_bind]; fold fb.
  destruct (atr_take_safe buf TDi 0xBF p TC (pointer + b2z fa + b2z fb) a2 (proj1 F2) Hp ltac:(done)) as (a3 & -> & F3);
    [destruct fa, fb; simpl; lia | fold fc; destruct fa, fb, fc, fd; simpl in *; lia|];
    cbn [mbind option_bind]; fold fc fd.
  assert (Hh : hbn a3 = hbn a)
    by (destruct F3 as (_ & -> & _), F2 as (_ & -> & _), F1 as (_ & -> & _); done).
  destruct fd; cbn [b2z] in *.
  - destruct (rd_in buf (pointer + b2z fa + b2z fb + b2z fc + 1)) as [v Hv];
      [destruct fa, fb, fc; simpl in *; lia|]; rewrite Hv; cbn [mbind option_bind].
    assert (is_u8 v) by (apply rd_Some in Hv as [_ Hv]; by eapply Forall_lookup_1 in Hv).
    destruct (ib_put_in a3 p TD (fun _ => mk_ib v 1) (proj1 F3) Hp ltac:(done))
      as (x & a4 & _ & -> & Hs4 & Ha4 & _); cbn [mbind option_bind].
    assert (Hh4 : hbn a4 = hbn a) by (rewrite <- Hh, Ha4; done); clear Ha4.
    destruct (ATR_MAX_PROTOCOLS <=? p + 1) eqn:Hm; eexists; (split; [reflexivity|]); zbool;
      unfold ATR_MAX_PROTOCOLS in Hm; destruct fa, fb, fc; cbn [b2z next_ok hbn set] in *;
      split_and!; (done || apply Hs4 || lia).
  - destruct (ib_put_in a3 p TD (fun x => mk_ib (value x) 0) (proj1 F3) Hp ltac:(done))
      as (x & a4 & _ & -> & Hs4 & Ha4 & _); cbn [mbind option_bind].
    assert (Hh4 : hbn a4 = hbn a) by (rewrite <- Hh, Ha4; done); clear Ha4.
    eexists; split; [reflexivity|]; destruct fa, fb, fc; cbn [b2z next_ok] in *;
      split_and!; (done || apply Hs4 || lia).
Qed.

Lemma atr_ib_loop_safe fuel : forall buf len TDi pointer p a,
  Forall is_u8 buf -> len <= zlen buf -> is_u8 TDi -> ib_shape a -> 0 <= p < 7 ->
  (Z.to_nat (7 - p) <= fuel)%nat -> 0 <= pointer < len ->
  exists t, atr_ib_loop fuel buf len TDi pointer p a = Some t /\ next_ok buf len p pointer a t /\
    (forall x y z w, t <> IbLoop x y z w).
Proof.
  induction fuel as [|fuel IH]; intros buf len TDi pointer p a Hbuf Hlen HT Hs Hp Hf Hptr; [lia|].
  cbn [atr_ib_loop]; rewrite (proj2 (Z.ltb_lt _ _)) by lia.
  destruct (atr_ib_turn_safe buf len TDi pointer p a) as (t & -> & Ht); try done.
  cbn [mbind option_bind]; destruct t as [a'|pt' p' a'|TDi' pt' p' a']; eauto; simpl in Ht.
  destruct (IH buf len TDi' pt' p' a') as (t & -> & Ht' & Hn); try done; try apply Ht; try lia.
  eexists; split_and!; [done | | done]; destruct Ht as (_ & Hh & ? & ? & _).
  destruct t as [a''|pt'' p'' a''|td pt'' p'' a'']; [| |by destruct (Hn td pt'' p'' a'')]; simpl in *;
    rewrite <- Hh; intuition lia.
Qed.

Lemma land_15 x : 0 <= Z.land x 0x0F < 16.
Proof. change 0x0F with (Z.ones 4); rewrite Z.land_ones by lia; apply Z.mod_pos_bound; lia. Qed.

(** C16: on every input the parser stays inside of the answer, the structure and
    its tables, and ends: it returns 0 or SC_ERR_ATR; when it returns 0, the
    length it found is within the bytes given, there are at most seven groups
    and fifteen historical bytes. *)
Theorem atr_parse_total a buf len :
  Forall is_u8 buf -> len <= zlen buf -> ib_shape a ->
  exists r a', ATR_InitFromArray a buf len = Some (r, a') /\ ib_shape a' /\
    (r = SC_ERR_ATR \/ r = 0 /\ length_ a' <= len /\ 1 <= pn a' <= 7 /\ 0 <= hbn a' <= 15).
Proof.
  intros Hbuf Hlen Hs; unfold ATR_InitFromArray.
  destruct (len <? 2) eqn:H2; [eauto 10|]; zbool.
  destruct (rd_in buf 0) as [ts ->]; [lia|]; destruct (rd_in buf 1) as [t0 Ht0]; [lia|].
  rewrite Ht0; cbn [mbind option_bind]; set (a0 := _ <| TCK := _ |>).
  assert (is_u8 t0) by (apply rd_Some in Ht0 as [_ Ht0]; by eapply Forall_lookup_1 in Ht0).
  destruct (atr_ib_loop_safe 7 buf len t0 1 0 a0) as (t & -> & Ht & Hn); try done; try lia.
  pose proof (land_15 t0) as H15; cbn [mbind option_bind].
  destruct t as [a1|pt p a1|]; simpl in Ht; [naive_solver| |by edestruct Hn].
  destruct Ht as ((H7 & H4 & Hhb) & Hh & Hpt & Hp); simpl in Hh; unfold atr_finish; cbn [hbn set].
  destruct (len <=? pt + hbn a1) eqn:Hl; zbool.
  { eexists _, _; split_and!; [reflexivity|split_and!; done|by left]. }
  destruct (memcpy_in (hb a1) 0 buf (pt + 1) (hbn a1)) as (h & Em & Ew); [lia..|].
  cbn [hb set]; rewrite Em; cbn [mbind option_bind]; apply wrn_len in Ew.
  cbn [TCK present hbn set]; destruct (nz (present (TCK a1))).
  - rewrite rdn_in by lia; cbn [mbind option_bind].
    destruct (len <=? _) eqn:Hl2; zbool;
      [eexists _, _; split_and!; [reflexivity|split_and!; simpl; done || lia|by left]|].
    destruct (nz (xor_bytes _));
      [eexists _, _; split_and!; [reflexivity|split_and!; simpl; done || lia|by left]|].
    destruct (rd_in buf (pt + hbn a1 + 1)) as [v ->]; [lia|]; cbn [mbind option_bind].
    eexists _, _; split_and!; [reflexivity|split_and!; simpl; done || lia|]; right; simpl; lia.
  - eexists _, _; split_and!; [reflexivity|split_and!; simpl; done || lia|]; right; simpl; lia.
Qed.

Lemma atr_parse_total_witness :
  exists r a', ATR_InitFromArray atr_zero (replicate 33 255) 33 = Some (r, a') /\ r = SC_ERR_ATR.
Proof.
  destruct (atr_parse_total atr_zero (replicate 33 255) 33) as (r & a' & E & _ & Hr);
    [apply Forall_replicate; unfold is_u8; lia | done | repeat constructor |].
  exists r, a'; split; [exact E|]; vm_compute in E; injection E as E _; rewrite <- E; reflexivity.
Defined.
