(* ===== verification/ScDev.v ===== *)
(** The NUC970 smart card interface (nuc970-sc.c, regs-sc.h, nuc970-sc.h): the
    device structure, its registers, [reset_reader] and [config_reader]. *)
From S2P Require Import Prelude Atr.

(** ** Constants *)
Definition REG_SC_DAT : Z := 0x00.
Definition REG_SC_CTL : Z := 0x04.
Definition REG_SC_ALTCTL : Z := 0x08.
Definition REG_SC_EGT : Z := 0x0C.
Definition REG_SC_RXTOUT : Z := 0x10.
Definition REG_SC_ETUCTL : Z := 0x14.
Definition REG_SC_INTEN : Z := 0x18.
Definition REG_SC_INTSTS : Z := 0x1C.
Definition REG_SC_STATUS : Z := 0x20.
Definition REG_SC_PINCTL : Z := 0x24.
Definition REG_SC_TMRCTL0 : Z := 0x28.
Definition REG_SC_TMRCTL1 : Z := 0x2C.
Definition REG_SC_TMRCTL2 : Z := 0x30.

Definition SC_CTL_SYNC : Z := 0x40000000.
Definition SC_CTL_CDLV : Z := 0x04000000.
Definition SC_CTL_TXRTYEN : Z := 0x00800000.
Definition SC_CTL_TXRTY : Z := 0x00700000.
Definition SC_CTL_RXRTYEN : Z := 0x00080000.
Definition SC_CTL_RXRTY : Z := 0x00070000.
Definition SC_CTL_NSB : Z := 0x00008000.
Definition SC_CTL_TMRSEL : Z := 0x00006000.
Definition SC_CTL_BGT : Z := 0x00001F00.
Definition SC_CTL_RXTRGLV : Z := 0x000000C0.
Definition SC_CTL_AUTOCEN : Z := 0x00000008.
Definition SC_CTL_SCEN : Z := 0x00000001.

Definition SC_ALTCTL_ADACEN : Z := 0x00000800.
Definition SC_ALTCTL_INITSEL : Z := 0x00000300.
Definition SC_ALTCTL_CNTEN2 : Z := 0x00000080.
Definition SC_ALTCTL_CNTEN1 : Z := 0x00000040.
Definition SC_ALTCTL_CNTEN0 : Z := 0x00000020.
Definition SC_ALTCTL_WARSTEN : Z := 0x00000010.
Definition SC_ALTCTL_ACTEN : Z := 0x00000008.
Definition SC_ALTCTL_DACTEN : Z := 0x00000004.
Definition SC_ALTCTL_RXRST : Z := 0x00000002.
Definition SC_ALTCTL_TXRST : Z := 0x00000001.

Definition SC_INTEN_ACERRIEN : Z := 0x00000400.
Definition SC_INTEN_INITIEN : Z := 0x00000100.
Definition SC_INTEN_CDIEN : Z := 0x00000080.
Definition SC_INTEN_TMR2IEN : Z := 0x00000020.
Definition SC_INTEN_TMR1IEN : Z := 0x00000010.
Definition SC_INTEN_TMR0IEN : Z := 0x00000008.
Definition SC_INTEN_TERRIEN : Z := 0x00000004.
Definition SC_INTEN_TBEIEN : Z := 0x00000002.
Definition SC_INTEN_RDAIEN : Z := 0x00000001.

Definition SC_INTSTS_ACERRIF : Z := 0x00000400.
Definition SC_INTSTS_RXTOIF : Z := 0x00000200.
Definition SC_INTSTS_INITIF : Z := 0x00000100.
Definition SC_INTSTS_CDIF : Z := 0x00000080.
Definition SC_INTSTS_TMR2IF : Z := 0x00000020.
Definition SC_INTSTS_TMR1IF : Z := 0x00000010.
Definition SC_INTSTS_TMR0IF : Z := 0x00000008.
Definition SC_INTSTS_TERRIF : Z := 0x00000004.
Definition SC_INTSTS_TBEIF : Z := 0x00000002.
Definition SC_INTSTS_RDAIF : Z := 0x00000001.

Definition SC_STATUS_TXOVERR : Z := 0x40000000.
Definition SC_STATUS_TXRERR : Z := 0x20000000.
Definition SC_STATUS_RXOVERR : Z := 0x00400000.
Definition SC_STATUS_RXRERR : Z := 0x00200000.
Definition SC_STATUS_CDPINSTS : Z := 0x00002000.
Definition SC_STATUS_CINSERT : Z := 0x00001000.
Definition SC_STATUS_CREMOVE : Z := 0x00000800.
Definition SC_STATUS_TXOV : Z := 0x00000100.
Definition SC_STATUS_BEF : Z := 0x00000040.
Definition SC_STATUS_FEF : Z := 0x00000020.
Definition SC_STATUS_PEF : Z := 0x00000010.
Definition SC_STATUS_RXOV : Z := 0x00000001.

Definition SC_PINCTL_RSTSTS : Z := 0x00040000.
Definition SC_PINCTL_PWRINV : Z := 0x00000800.

Definition SC_TMR_MODE_0 : Z := 0x00000000.
Definition SC_TMR_MODE_3 : Z := 0x03000000.
Definition SC_TMR_MODE_4 : Z := 0x04000000.
Definition SC_TMR_MODE_7 : Z := 0x07000000.

Definition SC_OP_IDLE : Z := 0x0000.
Definition SC_OP_READ : Z := 0x0001.
Definition SC_OP_WRITE : Z := 0x0002.
Definition SC_OP_READ_ATR : Z := 0x0003.
Definition SC_OP_COLD_RESET : Z := 0x0004.
Definition SC_OP_WARM_RESET : Z := 0x0005.
Definition SC_OP_DEACTIVATE : Z := 0x0006.

Definition SC_ERR_CARD_REMOVED : Z := 0x0001.
Definition SC_ERR_TIME0OUT : Z := 0x0002.
Definition SC_ERR_TIME1OUT : Z := 0x0003.
Definition SC_ERR_TIME2OUT : Z := 0x0004.
Definition SC_ERR_AUTOCONVENTION : Z := 0x0005.
Definition SC_ERR_READ : Z := 0x0006.
Definition SC_ERR_WRITE : Z := 0x0007.
Definition SC_ERR_PPS : Z := 0x000A.
Definition SC_ERR_T0 : Z := 0x000B.
Definition SC_ERR_T1 : Z := 0x000C.
Definition SC_ERR_PARITY : Z := 0x000D.

Definition SC_PROTOCOL_T0 : Z := 0.
Definition SC_PROTOCOL_T1 : Z := 1.
Definition SC_CHKSUM_CRC : Z := 0.
Definition SC_CHKSUM_LRC : Z := 1.
Definition MAX_LEN : Z := 300.

(** ** State *)

(** The [T0] and [T1] members of [struct nuc970_sc]. *)
Record sc_T0 := mk_T0 { WI : Z; WT : Z }.
Record sc_T1 := mk_T1 {
  IFSC : Z; CWI : Z; BWI : Z; EDC : Z; CWT : Z; BWT : Z; WTX : Z }.
#[export] Instance eta_T0 : Eta sc_T0 := fun x => mk_T0 (WI x) (WT x).
#[export] Instance eta_T1 : Eta sc_T1 := fun x =>
  mk_T1 (IFSC x) (CWI x) (BWI x) (EDC x) (CWT x) (BWT x) (WTX x).

(** [struct nuc970_sc]. [sc_regs] is the register window at [base] (the
    read/write registers hold what was last written), [sc_sent] the bytes
    written to REG_SC_DAT, that is, sent to the card, in order. Members only
    the kernel's device model uses, and the members [T0_dat], [T1_dat] and
    [T1.ChkSum], which are cleared and never read, are left out. *)
Record nuc970_sc := mk_sc {
  sc_open : Z;
  sc_protocol : Z;
  sc_rbuf : list Z;
  sc_rhead : Z;
  sc_rtail : Z;
  sc_rlen : Z;
  sc_tbuf : list Z;
  sc_tcnt : Z;
  sc_toffset : Z;
  sc_atrbuf : list Z;
  sc_atr : ATR_t;
  sc_atrlen : Z;
  sc_act : Z;
  sc_err : Z;
  sc_cdlvl : Z;
  sc_pwrinv : Z;
  sc_state : Z;
  sc_F : Z;
  sc_D : Z;
  sc_N : Z;
  sc_t0 : sc_T0;
  sc_t1 : sc_T1;
  sc_regs : gmap Z Z;
  sc_sent : list Z;
}.
#[export] Instance eta_sc : Eta nuc970_sc := fun s =>
  mk_sc (sc_open s) (sc_protocol s) (sc_rbuf s) (sc_rhead s) (sc_rtail s) (sc_rlen s)
    (sc_tbuf s) (sc_tcnt s) (sc_toffset s) (sc_atrbuf s) (sc_atr s) (sc_atrlen s) (sc_act s)
    (sc_err s) (sc_cdlvl s) (sc_pwrinv s) (sc_state s) (sc_F s) (sc_D s) (sc_N s)
    (sc_t0 s) (sc_t1 s) (sc_regs s) (sc_sent s).

(** [memset(&sc[intf], 0, sizeof(struct nuc970_sc))] in the probe function. *)
Definition sc_zero : nuc970_sc :=
  mk_sc 0 0 (replicate 300 0) 0 0 0 (replicate 300 0) 0 0 (replicate 33 0) atr_zero 0 0 0 0 0
    SC_OP_IDLE 0 0 0 (mk_T0 0 0) (mk_T1 0 0 0 0 0 0 0) ∅ [].

(** The file's static variables for ATR reception. *)
Record atr_vars := mk_vars { atr_remain_t : Z; atr_remain : Z; ifbyte_flag : Z; tck : Z }.
#[export] Instance eta_vars : Eta atr_vars := fun v =>
  mk_vars (atr_remain_t v) (atr_remain v) (ifbyte_flag v) (tck v).

Definition readl (off : Z) (s : nuc970_sc) : Z := default 0 (sc_regs s !! off).

Definition writel (v off : Z) (s : nuc970_sc) : nuc970_sc :=
  if off =? REG_SC_DAT then s <| sc_sent := sc_sent s ++ [v] |>
  else s <| sc_regs := <[off := u32 v]> (sc_regs s) |>.

(** The read-modify-write idioms of the driver. *)
Definition set_bits (m off : Z) (s : nuc970_sc) : nuc970_sc := writel (Z.lor (readl off s) m) off s.
Definition clear_bits (m off : Z) (s : nuc970_sc) : nuc970_sc :=
  writel (Z.land (readl off s) (Z.lnot m)) off s.

Definition clear_T0_T1 (s : nuc970_sc) : nuc970_sc :=
  s <| sc_t0 := mk_T0 0 0 |> <| sc_t1 := mk_T1 0 0 0 0 0 0 0 |>.

(** ** [reset_reader] and [config_reader] *)
Section with_config.
(** CONFIG_EMV_CHECK. *)
Variable emv : bool.

Definition reset_reader (s : nuc970_sc) : nuc970_sc :=
  let s := writel (Z.lor
      (Z.land (readl REG_SC_ALTCTL s)
         (Z.lnot (Z.lor (Z.lor SC_ALTCTL_CNTEN2 SC_ALTCTL_CNTEN1) SC_ALTCTL_CNTEN0)))
      (Z.lor (Z.lor SC_ALTCTL_TXRST SC_ALTCTL_RXRST) SC_ALTCTL_ADACEN)) REG_SC_ALTCTL s in
  let s := writel (Z.lor
      (Z.land (readl REG_SC_CTL s) (Z.lnot (Z.lor (Z.lor SC_CTL_RXTRGLV SC_CTL_TXRTY) SC_CTL_RXRTY)))
      (Z.lor SC_CTL_AUTOCEN SC_CTL_TMRSEL)) REG_SC_CTL s in
  let s := writel 0 REG_SC_TMRCTL0 s in
  let s := writel 0 REG_SC_TMRCTL1 s in
  let s := writel 0 REG_SC_TMRCTL2 s in
  let s := writel 0 REG_SC_RXTOUT s in
  let s := writel 371 REG_SC_ETUCTL s in
  let base := Z.lor (Z.lor (Z.lor (Z.lor (Z.lor (Z.lor SC_INTEN_RDAIEN SC_INTEN_TERRIEN) SC_INTEN_TMR0IEN)
      SC_INTEN_TMR1IEN) SC_INTEN_TMR2IEN) SC_INTEN_INITIEN) SC_INTEN_ACERRIEN in
  let s := writel (if sc_cdlvl s =? 2 then base else Z.lor base SC_INTEN_CDIEN) REG_SC_INTEN s in
  if emv then set_bits SC_ALTCTL_INITSEL REG_SC_ALTCTL s else s.

(** The extra guard time in elementary time units. *)
Definition guard_time (N protocol : Z) : Z :=
  if N =? 255 then (if protocol =? 1 then 11 else 12)
  else if nz N then N + 12 else 12.

(** [config_reader]; the division by [sc->D] is undefined when D is 0. The
    loop that waits for SC_CTL_SYNC to clear only reads. *)
Definition config_reader (s : nuc970_sc) : option nuc970_sc :=
  if sc_D s =? 0 then None
  else
    let s := writel (Z.quot (sc_F s) (sc_D s)) REG_SC_ETUCTL s in
    let GT := guard_time (sc_N s) (sc_protocol s) in
    let s :=
      if sc_protocol s =? 0 then
        let s := writel (Z.lor (Z.land (readl REG_SC_CTL s) (Z.lnot (Z.lor SC_CTL_NSB SC_CTL_BGT)))
                          (Z.shiftl (16 - 1) 8)) REG_SC_CTL s in
        writel (GT - 12) REG_SC_EGT s
      else
        let s := writel (Z.lor (Z.lor (Z.land (readl REG_SC_CTL s) (Z.lnot SC_CTL_BGT)) SC_CTL_NSB)
                          (Z.shiftl (22 - 1) 8)) REG_SC_CTL s in
        writel (GT - 11) REG_SC_EGT s in
    Some (
      if sc_protocol s =? 0 then
        let s := writel (Z.lor (Z.lor (Z.lor
                   (Z.land (readl REG_SC_CTL s) (Z.lnot (Z.lor SC_CTL_TXRTY SC_CTL_RXRTY)))
                   SC_CTL_TXRTYEN) SC_CTL_RXRTYEN) 0x00330000) REG_SC_CTL s in
        writel (Z.lor SC_ALTCTL_RXRST SC_ALTCTL_TXRST) REG_SC_ALTCTL s
      else
        clear_bits (Z.lor SC_CTL_TXRTYEN SC_CTL_RXRTYEN) REG_SC_CTL s).
End with_config.
