(* ===== verification/ScIsr.v ===== *)
(** The interrupt handler [nuc970_sc_interrupt] of nuc970-sc.c, one definition
    per block of the handler, and waiting for interrupts. *)
From S2P Require Import Prelude Atr ScDev.

(** What the handler reads from the hardware on one interrupt: the interrupt
    status, the status, the pin control and the data register. *)
Record irq := mk_irq { i_intsts : Z; i_status : Z; i_pinctl : Z; i_dat : Z }.

Definition on (w m : Z) : bool := nz (Z.land w m).

(** Activate, warm reset, deactivate. *)
Definition isr_init (e : irq) (s : nuc970_sc) : nuc970_sc :=
  if on (i_intsts e) SC_INTSTS_INITIF then
    let s := writel SC_INTSTS_INITIF REG_SC_INTSTS s in
    if on (i_pinctl e) SC_PINCTL_RSTSTS then s <| sc_state := SC_OP_READ_ATR |>
    else s <| sc_state := SC_OP_IDLE |> <| sc_act := -1 |>
  else s.

(** Card detect: a removal stops everything and clears the card's state. *)
Definition isr_removed (s : nuc970_sc) : nuc970_sc :=
  let s := clear_bits SC_INTEN_TBEIEN REG_SC_INTEN s in
  let s := writel SC_STATUS_CREMOVE REG_SC_STATUS s in
  let s := s <| sc_err := SC_ERR_CARD_REMOVED |> <| sc_state := SC_OP_IDLE |> <| sc_act := -1 |>
             <| sc_atrlen := 0 |> <| sc_protocol := 0 |> in
  let s := (clear_T0_T1 s) <| sc_atr := atr_zero |> in
  let s := clear_bits (Z.lor (Z.lor SC_ALTCTL_CNTEN2 SC_ALTCTL_CNTEN1) SC_ALTCTL_CNTEN0) REG_SC_ALTCTL s in
  writel (Z.lor SC_ALTCTL_RXRST SC_ALTCTL_TXRST) REG_SC_ALTCTL s.

Definition isr_cd (e : irq) (s : nuc970_sc) : nuc970_sc :=
  if on (i_intsts e) SC_INTSTS_CDIF then
    let s :=
      if on (i_status e) SC_STATUS_CREMOVE then isr_removed s
      else if on (i_status e) SC_STATUS_CINSERT then writel SC_STATUS_CINSERT REG_SC_STATUS s
      else s in
    writel SC_INTSTS_CDIF REG_SC_INTSTS s
  else s.

(** The three timers. *)
Definition isr_tmr0 (e : irq) (s : nuc970_sc) : nuc970_sc :=
  if on (i_intsts e) SC_INTSTS_TMR0IF then
    let s := writel SC_INTSTS_TMR0IF REG_SC_INTSTS s in
    clear_bits SC_ALTCTL_CNTEN0 REG_SC_ALTCTL
      (s <| sc_err := SC_ERR_TIME0OUT |> <| sc_state := SC_OP_IDLE |>)
  else s.

Definition isr_tmr1 (e : irq) (s : nuc970_sc) : nuc970_sc :=
  if on (i_intsts e) SC_INTSTS_TMR1IF then
    let s := writel SC_INTSTS_TMR1IF REG_SC_INTSTS s in
    clear_bits SC_ALTCTL_CNTEN1 REG_SC_ALTCTL
      (s <| sc_err := SC_ERR_TIME1OUT |> <| sc_state := SC_OP_IDLE |>)
  else s.

Definition isr_tmr2 (e : irq) (v : atr_vars) (s : nuc970_sc) : atr_vars * nuc970_sc :=
  if on (i_intsts e) SC_INTSTS_TMR2IF then
    let s := writel SC_INTSTS_TMR2IF REG_SC_INTSTS s in
    if atr_remain_t v <? 0 then
      (v, (clear_bits SC_ALTCTL_CNTEN2 REG_SC_ALTCTL s) <| sc_err := SC_ERR_TIME2OUT |>)
    else (v <| atr_remain_t := atr_remain_t v - 256 |>, s)
  else (v, s).

(** Transmit: push [n] bytes of [tbuf] into the FIFO. *)
Fixpoint tx_push (n : nat) (s : nuc970_sc) : option nuc970_sc :=
  match n with
  | O => Some s
  | S n =>
      b ← rd (sc_tbuf s) (sc_toffset s);
      tx_push n ((writel b REG_SC_DAT s) <| sc_toffset := sc_toffset s + 1 |>)
  end.

Definition isr_tx (e : irq) (s : nuc970_sc) : option nuc970_sc :=
  if on (i_intsts e) SC_INTSTS_TBEIF && (sc_state s =? SC_OP_WRITE) then
    let len := if 3 <? sc_tcnt s - sc_toffset s then 4 else sc_tcnt s - sc_toffset s in
    s ← tx_push (Z.to_nat len) s;
    Some (if sc_toffset s =? sc_tcnt s
          then (clear_bits SC_INTEN_TBEIEN REG_SC_INTEN s) <| sc_state := SC_OP_IDLE |>
          else s)
  else Some s.

(** [sc->rbuf[sc->rtail++] = DAT]. *)
Definition rx_store (e : irq) (s : nuc970_sc) : option nuc970_sc :=
  b ← wr (sc_rbuf s) (sc_rtail s) (u8 (i_dat e));
  Some (s <| sc_rbuf := b |> <| sc_rtail := sc_rtail s + 1 |>).

Definition rx_read (e : irq) (s : nuc970_sc) : option nuc970_sc :=
  let s :=
    if sc_protocol s =? SC_PROTOCOL_T1 then
      let s := writel (Z.lor (CWT (sc_t1 s) + 50) SC_TMR_MODE_7) REG_SC_TMRCTL0 s in
      set_bits SC_ALTCTL_CNTEN0 REG_SC_ALTCTL s
    else s in
  if on (i_intsts e) SC_INTSTS_RDAIF then rx_store e s else Some s.

(** The ATR reception counters, after byte [b] was stored at index [n]. *)
Definition atr_count (n b : Z) (v : atr_vars) : atr_vars :=
  let v := v <| atr_remain := atr_remain v - 1 |> <| ifbyte_flag := ifbyte_flag v - 1 |> in
  let v := if n =? 1
           then v <| atr_remain := atr_remain v + Z.land b 0xf |> <| ifbyte_flag := 0 |>
           else v in
  let more v := v <| atr_remain := atr_remain v + 1 |> <| ifbyte_flag := ifbyte_flag v + 1 |> in
  let check v :=
    if (tck v =? 0) && negb (n =? 1) && nz (Z.land b 0xf)
    then v <| atr_remain := atr_remain v + 1 |> <| tck := 1 |> else v in
  if ifbyte_flag v =? 0 then
    let v := if on b 0x10 then more v else v in
    let v := if on b 0x20 then more v else v in
    let v := if on b 0x40 then more v else v in
    if on b 0x80 then check (more v)
    else (check v) <| ifbyte_flag := -1 |>
  else v.

Definition rx_read_atr (e : irq) (v : atr_vars) (s : nuc970_sc) : option (atr_vars * nuc970_sc) :=
  let s := clear_bits SC_ALTCTL_CNTEN0 REG_SC_ALTCTL s in
  let s := writel (Z.lor (9600 + 480) SC_TMR_MODE_0) REG_SC_TMRCTL0 s in
  let s := set_bits SC_ALTCTL_CNTEN0 REG_SC_ALTCTL s in
  let '(v, s) :=
    if sc_atrlen s =? 0 then
      let s := clear_bits SC_ALTCTL_CNTEN2 REG_SC_ALTCTL s in
      let s := writel (Z.lor 255 SC_TMR_MODE_4) REG_SC_TMRCTL2 s in
      let s := set_bits SC_ALTCTL_CNTEN2 REG_SC_ALTCTL s in
      (mk_vars 20050 2 (-1) 0, s)
    else (v, s) in
  '(v, s) ← (if on (i_intsts e) SC_INTSTS_RDAIF && nz (atr_remain v) then
      b ← wr (sc_atrbuf s) (sc_atrlen s) (u8 (i_dat e));
      Some (atr_count (sc_atrlen s) (u8 (i_dat e)) v,
            s <| sc_atrbuf := b |> <| sc_atrlen := sc_atrlen s + 1 |>)
    else Some (v, s));
  Some (v, if atr_remain v =? 0
           then (clear_bits (Z.lor SC_ALTCTL_CNTEN2 SC_ALTCTL_CNTEN0) REG_SC_ALTCTL s)
                  <| sc_state := SC_OP_IDLE |>
           else s).

Definition isr_rx (e : irq) (v : atr_vars) (s : nuc970_sc) : option (atr_vars * nuc970_sc) :=
  if on (i_intsts e) (Z.lor SC_INTSTS_RDAIF SC_INTSTS_RXTOIF) then
    if sc_state s =? SC_OP_READ then s ← rx_read e s; Some (v, s)
    else if sc_state s =? SC_OP_READ_ATR then rx_read_atr e v s
    else s ← rx_store e s; Some (v, s)
  else Some (v, s).

(** Errors. *)
Definition isr_acerr (e : irq) (s : nuc970_sc) : nuc970_sc :=
  if on (i_intsts e) SC_INTSTS_ACERRIF then
    (writel SC_INTSTS_ACERRIF REG_SC_INTSTS s)
      <| sc_err := SC_ERR_AUTOCONVENTION |> <| sc_state := SC_OP_IDLE |>
  else s.

Definition isr_terr (e : irq) (inten : Z) (s : nuc970_sc) : nuc970_sc :=
  if on (i_intsts e) SC_INTSTS_TERRIF && on inten SC_INTEN_TERRIEN then
    let st := i_status e in
    let s := if on st SC_STATUS_RXOV
      then (writel SC_STATUS_RXOV REG_SC_STATUS s) <| sc_err := SC_ERR_READ |> <| sc_state := SC_OP_IDLE |>
      else s in
    let s := if on st SC_STATUS_TXOV
      then (writel SC_STATUS_TXOV REG_SC_STATUS s) <| sc_err := SC_ERR_WRITE |> <| sc_state := SC_OP_IDLE |>
      else s in
    let perr := Z.lor (Z.lor SC_STATUS_PEF SC_STATUS_BEF) SC_STATUS_FEF in
    let s := if on st perr then
        let s := (writel perr REG_SC_STATUS s) <| sc_err := SC_ERR_PARITY |> in
        let s := writel SC_ALTCTL_RXRST REG_SC_ALTCTL s in
        if sc_protocol s =? SC_PROTOCOL_T0 then s <| sc_state := SC_OP_IDLE |> else s
      else s in
    let s := if on st SC_STATUS_TXOVERR then
        let s := clear_bits SC_INTEN_TBEIEN REG_SC_INTEN s in
        let s := writel (Z.lor SC_STATUS_TXRERR SC_STATUS_TXOVERR) REG_SC_STATUS s in
        (writel SC_ALTCTL_TXRST REG_SC_ALTCTL s) <| sc_err := SC_ERR_WRITE |> <| sc_state := SC_OP_IDLE |>
      else s in
    if on st SC_STATUS_RXOVERR then
      let s := writel (Z.lor SC_STATUS_RXRERR SC_STATUS_RXOVERR) REG_SC_STATUS s in
      (writel SC_ALTCTL_RXRST REG_SC_ALTCTL s) <| sc_err := SC_ERR_READ |> <| sc_state := SC_OP_IDLE |>
    else s
  else s.

Definition nuc970_sc_interrupt (e : irq) (v : atr_vars) (s : nuc970_sc) : option (atr_vars * nuc970_sc) :=
  let inten := readl REG_SC_INTEN s in
  let s := isr_init e s in
  let s := isr_cd e s in
  let s := isr_tmr0 e s in
  let s := isr_tmr1 e s in
  let '(v, s) := isr_tmr2 e v s in
  s ← isr_tx e s;
  '(v, s) ← isr_rx e v s;
  let s := isr_acerr e s in
  Some (v, isr_terr e inten s).

(** ** Waiting

    [wait_event_interruptible(sc->wq, cond)]: interrupts arrive, each runs the
    handler and re-evaluates the condition; the wait ends when the condition
    holds, or at a signal, whose return value the driver ignores. The list
    holds what happens to the task from now on; when it is used up nothing more
    happens and the wait ends like at a signal. *)
Inductive event := Irq (e : irq) | Signal.

Fixpoint wait_event (cond : nuc970_sc -> bool) (evs : list event) (v : atr_vars) (s : nuc970_sc)
    : option (list event * atr_vars * nuc970_sc) :=
  if cond s then Some (evs, v, s)
  else match evs with
       | [] => Some ([], v, s)
       | Signal :: evs => Some (evs, v, s)
       | Irq e :: evs => '(v, s) ← nuc970_sc_interrupt e v s; wait_event cond evs v s
       end.

(** The task's view of the world: pending events, static variables, device. *)
Record world := mk_world { w_evs : list event; w_var : atr_vars; w_sc : nuc970_sc }.
#[export] Instance eta_world : Eta world := fun w => mk_world (w_evs w) (w_var w) (w_sc w).

Definition wait (cond : nuc970_sc -> bool) (w : world) : option world :=
  '(evs, v, s) ← wait_event cond (w_evs w) (w_var w) (w_sc w); Some (mk_world evs v s).

Definition upd (f : nuc970_sc -> nuc970_sc) (w : world) : world := w <| w_sc := f (w_sc w) |>.
