(* ===== verification/T1.v ===== *)
(** The T=1 block protocol (sc-t1.c): protocol state, block construction and
    verification, and the transmission loop [t1_transceive]. The loop runs over
    an abstract link; ScLink.v instantiates it with the device. *)
From S2P Require Import Prelude Checksum CtBuf.

(** ** Constants *)
Definition T1_I_BLOCK : Z := 0x00.
Definition T1_R_BLOCK : Z := 0x80.
Definition T1_S_BLOCK : Z := 0xC0.
Definition T1_MORE_BLOCKS : Z := 0x20.
Definition IFD_PROTOCOL_T1_CHECKSUM_CRC : Z := 2.
Definition IFD_PROTOCOL_T1_CHECKSUM_LRC : Z := 3.
Definition IFD_PROTOCOL_T1_IFSC : Z := 4.
Definition IFD_PROTOCOL_T1_IFSD : Z := 5.
Definition IFD_PROTOCOL_T1_STATE : Z := 6.
Definition IFD_PROTOCOL_T1_MORE : Z := 7.
Definition T1_BUFFER_SIZE : Z := 3 + 254 + 2.
Definition T1_I_SEQ_SHIFT : Z := 6.
Definition T1_IS_ERROR (pcb : Z) : Z := Z.land pcb 0x0F.
Definition T1_EDC_ERROR : Z := 0x01.
Definition T1_OTHER_ERROR : Z := 0x02.
Definition T1_R_SEQ_SHIFT : Z := 4.
Definition T1_S_TYPE (pcb : Z) : Z := Z.land pcb 0x0F.
Definition T1_S_RESPONSE : Z := 0x20.
Definition T1_S_RESYNC : Z := 0x00.
Definition T1_S_IFS : Z := 0x01.
Definition T1_S_ABORT : Z := 0x02.
Definition T1_S_WTX : Z := 0x03.
Definition NAD : Z := 0.
Definition PCB : Z := 1.
Definition LEN : Z := 2.
Definition DATA : Z := 3.
Definition swap_nibbles (x : Z) : Z := Z.lor (Z.shiftr x 4) (Z.shiftl (Z.land x 0xF) 4).

Definition SENDING : Z := 0.
Definition RECEIVING : Z := 1.
Definition RESYNCH : Z := 2.
Definition DEAD : Z := 3.

(** ** Protocol state *)
Record t1_state_t := mk_t1 {
  t1_state : Z;
  ns : Z;
  nr : Z;
  ifsc : Z;
  ifsd : Z;
  wtx : Z;
  retries : Z;
  rc_bytes : Z;
  icc_has_more : Z;
  csum : csum_fn;
  t1_more : Z;
  previous_block : list Z;
  previous_i_block : list Z;
}.
#[export] Instance eta_t1 : Eta t1_state_t := fun t =>
  mk_t1 (t1_state t) (ns t) (nr t) (ifsc t) (ifsd t) (wtx t) (retries t) (rc_bytes t)
    (icc_has_more t) (csum t) (t1_more t) (previous_block t) (previous_i_block t).

Definition t1_set_defaults (t1 : t1_state_t) : t1_state_t :=
  t1 <| retries := 3 |> <| ifsc := 32 |> <| ifsd := 32 |> <| nr := 0 |> <| ns := 0 |> <| wtx := 0 |>.

Definition t1_set_checksum (t1 : t1_state_t) (c : Z) : t1_state_t :=
  if c =? IFD_PROTOCOL_T1_CHECKSUM_LRC then t1 <| rc_bytes := 1 |> <| csum := csum_lrc |>
  else if c =? IFD_PROTOCOL_T1_CHECKSUM_CRC then t1 <| rc_bytes := 2 |> <| csum := csum_crc |>
  else t1.

Definition t1_set_param (t1 : t1_state_t) (type value : Z) : Z * t1_state_t :=
  if (type =? IFD_PROTOCOL_T1_CHECKSUM_LRC) || (type =? IFD_PROTOCOL_T1_CHECKSUM_CRC)
  then (0, t1_set_checksum t1 type)
  else if type =? IFD_PROTOCOL_T1_IFSC then (0, t1 <| ifsc := u32 value |>)
  else if type =? IFD_PROTOCOL_T1_IFSD then (0, t1 <| ifsd := u32 value |>)
  else if type =? IFD_PROTOCOL_T1_STATE then (0, t1 <| t1_state := value |>)
  else if type =? IFD_PROTOCOL_T1_MORE then (0, t1 <| t1_more := u8 value |>)
  else (-1, t1).

Definition t1_init (t1 : t1_state_t) : t1_state_t :=
  let t1 := t1_set_defaults t1 in
  let t1 := (t1_set_param t1 IFD_PROTOCOL_T1_CHECKSUM_LRC 0).2 in
  let t1 := (t1_set_param t1 IFD_PROTOCOL_T1_STATE SENDING).2 in
  (t1_set_param t1 IFD_PROTOCOL_T1_MORE 0).2.

(** ** Blocks *)
Definition t1_block_type (pcb : Z) : Z :=
  if Z.land pcb 0xC0 =? T1_R_BLOCK then T1_R_BLOCK
  else if Z.land pcb 0xC0 =? T1_S_BLOCK then T1_S_BLOCK
  else T1_I_BLOCK.

Definition t1_seq (pcb : Z) : Z :=
  if Z.land pcb 0xC0 =? T1_R_BLOCK then Z.land (Z.shiftr pcb T1_R_SEQ_SHIFT) 1
  else if Z.land pcb 0xC0 =? T1_S_BLOCK then 0
  else Z.land (Z.shiftr pcb T1_I_SEQ_SHIFT) 1.

(** [t1_compute_checksum]: append the code to the [len] bytes of [data]. *)
Definition t1_compute_checksum (t1 : t1_state_t) (data : list Z) (len : Z) : option (Z * list Z) :=
  bs ← rdn data 0 len;
  let c := checksum (csum t1) bs in
  data ← wrn data len c;
  Some (len + zlen c, data).

Definition t1_verify_checksum (t1 : t1_state_t) (rbuf : list Z) (len : Z) : option bool :=
  let m := len - rc_bytes t1 in
  let n := rc_bytes t1 in
  if m <? 0 then Some false
  else
    bs ← rdn rbuf 0 m;
    e ← rdn rbuf m n;
    Some (bool_decide (e = take (Z.to_nat n) (checksum (csum t1) bs))).

(** The PCB of a block under construction: sequence number, and for an R-block
    the first error reported since the last good block. *)
Definition t1_build_pcb (t1 : t1_state_t) (pcb : Z) : option Z :=
  if t1_block_type pcb =? T1_R_BLOCK then
    p ← rd (previous_block t1) PCB;
    let pcb := if nz (T1_IS_ERROR p) && (t1_block_type p =? T1_R_BLOCK)
               then Z.lor T1_R_BLOCK (T1_IS_ERROR p) else pcb in
    Some (u8 (Z.lor pcb (Z.shiftl (nr t1) T1_R_SEQ_SHIFT)))
  else if t1_block_type pcb =? T1_I_BLOCK then
    Some (u8 (Z.lor pcb (Z.shiftl (ns t1) T1_I_SEQ_SHIFT)))
  else Some pcb.

(** [t1_build(intf, block, dad, pcb, bp, lenp)]: the block length, [*lenp], the
    protocol state and the block buffer. *)
Definition t1_build (t1 : t1_state_t) (block : list Z) (dad pcb : Z) (bp : option ct_buf_t)
    : option (Z * Z * t1_state_t * list Z) :=
  let avail := match bp with Some b => ct_buf_avail b | None => 0 end in
  let big := ifsc t1 <? avail in
  let pcb := if big then Z.lor pcb T1_MORE_BLOCKS else pcb in
  let len := if big then ifsc t1 else avail in
  let t1' := if t1_block_type pcb =? T1_I_BLOCK
             then t1 <| t1_more := if big then 1 else 0 |> else t1 in
  pcb ← t1_build_pcb t1 pcb;
  block ← wr block 0 (u8 dad);
  block ← wr block 1 pcb;
  block ← wr block 2 (u8 len);
  block ← (match bp with
           | Some b => if nz len then d ← ct_buf_head_bytes b len; wrn block 3 d else Some block
           | None => Some block
           end);
  '(total, block) ← t1_compute_checksum t1' block (len + 3);
  pb ← memcpy (previous_block t1') 0 block 0 4;
  let t1' := t1' <| previous_block := pb |> in
  t1' ← (if t1_block_type pcb =? T1_I_BLOCK then
           pib ← memcpy (previous_i_block t1') 0 block 0 (total + 4);
           Some (t1' <| previous_i_block := pib |>)
         else Some t1');
  Some (total, len, t1', block).

(** [t1_rebuild(intf, sdata)]: the block to send again; [sdata] holds the block
    received, and becomes the block sent. *)
Definition t1_rebuild (t1 : t1_state_t) (sdata : list Z) : option (Z * list Z) :=
  pcb ← rd (previous_block t1) 1;
  pcb1 ← rd (previous_i_block t1) 1;
  if t1_block_type pcb1 =? T1_I_BLOCK then
    p ← rd sdata PCB;
    if t1_seq pcb1 =? t1_seq p then
      l ← rd (previous_i_block t1) 2;
      b ← memcpy sdata 0 (previous_i_block t1) 0 (l + 4);
      Some (l + 4, b)
    else
      b ← memcpy sdata 0 (previous_block t1) 0 4;
      Some (4, b)
  else if t1_block_type pcb =? T1_R_BLOCK then
    b ← memcpy sdata 0 (previous_block t1) 0 4;
    Some (4, b)
  else Some (0, sdata).

(** ** The link a block is exchanged over

    [lk_xcv w block slen] sends the first [slen] bytes of [block] and receives
    a block into it: the result code of [t1_xcv], -1 or -2 on errors, else the
    number of bytes received. [lk_err] is [sc[intf].err]. *)
Class T1Link (W : Type) := {
  lk_xcv : W -> list Z -> Z -> option (Z * W * list Z);
  lk_err : W -> Z;
  lk_set_err : Z -> W -> W;
  lk_set_WTX : Z -> W -> W;
}.

(** ** [t1_transceive]

    The local variables of the loop, and how one pass over the loop body ends:
    [continue], falling out of the switch, the labels [resync], [done] and
    [error]. *)
Record xfer (W : Type) := mk_xfer {
  x_w : W;
  x_t1 : t1_state_t;
  x_sdata : list Z;
  x_sbuf : ct_buf_t;
  x_rbuf : ct_buf_t;
  x_slen : Z;
  x_retries : Z;
  x_resyncs : Z;
  x_last_send : Z;
}.
Arguments mk_xfer {W}.
Arguments x_w {W}.
Arguments x_t1 {W}.
Arguments x_sdata {W}.
Arguments x_sbuf {W}.
Arguments x_rbuf {W}.
Arguments x_slen {W}.
Arguments x_retries {W}.
Arguments x_resyncs {W}.
Arguments x_last_send {W}.
#[export] Instance eta_xfer {W} : Eta (xfer W) := fun x =>
  mk_xfer (x_w x) (x_t1 x) (x_sdata x) (x_sbuf x) (x_rbuf x) (x_slen x) (x_retries x)
    (x_resyncs x) (x_last_send x).

Inductive jump := JContinue | JBreak | JResync | JDone | JError.

Inductive t1_result (W : Type) :=
| T1Return (ret : Z) (x : xfer W)
| T1Running (x : xfer W).
Arguments T1Return {W}.
Arguments T1Running {W}.

Section transceive.
Context {W : Type} `{!T1Link W}.
(** CONFIG_EMV_CHECK, and the destination address of the blocks. *)
Variables (emv : bool) (dad : Z).
Implicit Types x : xfer W.

(** [slen = t1_build(intf, sdata, dad, pcb, NULL, NULL)]. *)
Definition build_ctl (pcb : Z) x : option (xfer W) :=
  '(total, _, t1, b) ← t1_build (x_t1 x) (x_sdata x) dad pcb None;
  Some (x <| x_t1 := t1 |> <| x_sdata := b |> <| x_slen := total |>).

(** [slen = t1_build(intf, sdata, dad, T1_I_BLOCK, &sbuf, &last_send)]. *)
Definition build_I x : option (xfer W) :=
  '(total, len, t1, b) ← t1_build (x_t1 x) (x_sdata x) dad T1_I_BLOCK (Some (x_sbuf x));
  Some (x <| x_t1 := t1 |> <| x_sdata := b |> <| x_slen := total |> <| x_last_send := len |>).

(** The block received is not acceptable: resynchronise when the retries are
    used up, else ask for it again with an R-block. *)
Definition reject (err : Z) x : option (jump * xfer W) :=
  if x_retries x <=? 0 then Some (JResync, x)
  else
    x ← build_ctl (if nz (icc_has_more (x_t1 x)) then T1_R_BLOCK else Z.lor T1_R_BLOCK err) x;
    Some (JContinue, x).

(** [slen = t1_build(.., T1_R_BLOCK | T1_OTHER_ERROR, ..); continue;]. *)
Definition refuse x : option (jump * xfer W) :=
  x ← build_ctl (Z.lor T1_R_BLOCK T1_OTHER_ERROR) x; Some (JContinue, x).

(** The last block sent was received: drop it from the send buffer. *)
Definition ack_sent x : option (xfer W) :=
  '(_, _, sb) ← ct_buf_get (x_sbuf x) false (x_last_send x);
  Some (x <| x_sbuf := sb |> <| x_last_send := 0 |>
          <| x_t1 := (x_t1 x) <| ns := Z.lxor (ns (x_t1 x)) 1 |> |>).

Definition handle_R (pcb : Z) x : option (jump * xfer W) :=
  l ← rd (x_sdata x) LEN;
  if nz l || nz (Z.land pcb 0x20) then reject T1_OTHER_ERROR x
  else if negb (t1_seq pcb =? ns (x_t1 x)) && (t1_more (x_t1 x) =? 0) then reject T1_OTHER_ERROR x
  else if t1_state (x_t1 x) =? RECEIVING then
    p ← rd (previous_block (x_t1 x)) 1;
    if t1_block_type p =? T1_R_BLOCK then
      if negb emv && (x_retries x <=? 0) then Some (JResync, x)
      else
        '(n, b) ← t1_rebuild (x_t1 x) (x_sdata x);
        Some (JContinue, x <| x_sdata := b |> <| x_slen := n |>)
    else x ← build_ctl T1_R_BLOCK x; Some (JBreak, x)
  else
    x ← (if negb (t1_seq pcb =? ns (x_t1 x)) then ack_sent x else Some x);
    if emv && (ct_buf_avail (x_sbuf x) =? 0) then Some (JResync, x)
    else
      x ← build_I x;
      if nz (T1_IS_ERROR pcb) then
        Some (if x_retries x <=? 0 then JResync else JContinue, x)
      else Some (JBreak, x).

Definition handle_I (pcb : Z) x : option (jump * xfer W) :=
  x ← (if t1_state (x_t1 x) =? SENDING then ack_sent x else Some x);
  if nz (t1_more (x_t1 x)) then refuse x
  else
    let x := x <| x_t1 := (x_t1 x) <| t1_state := RECEIVING |> |> in
    if negb (t1_seq pcb =? nr (x_t1 x)) then reject T1_OTHER_ERROR x
    else
      let x := x <| x_t1 := (x_t1 x) <| nr := Z.lxor (nr (x_t1 x)) 1 |> |> in
      l ← rd (x_sdata x) LEN;
      d ← rdn (x_sdata x) 3 l;
      '(n, rb) ← ct_buf_put (x_rbuf x) d;
      let x := x <| x_rbuf := rb |> in
      if n <? 0 then Some (JError, x)
      else if Z.land pcb T1_MORE_BLOCKS =? 0 then Some (JDone, x)
      else
        p ← rd (previous_block (x_t1 x)) PCB;
        pb ← (if nz (T1_IS_ERROR p) && (t1_block_type p =? T1_R_BLOCK)
              then wr (previous_block (x_t1 x)) PCB 0 else Some (previous_block (x_t1 x)));
        x ← build_ctl T1_R_BLOCK
              (x <| x_t1 := (x_t1 x) <| previous_block := pb |> <| icc_has_more := 1 |> |>);
        Some (JBreak, x).

(** [slen = t1_build(.., T1_S_BLOCK | T1_S_RESPONSE | T1_S_TYPE(pcb), &tbuf, NULL)]. *)
Definition respond_S (pcb : Z) (tbuf : ct_buf_t) x : option (jump * xfer W) :=
  '(total, _, t1, b) ← t1_build (x_t1 x) (x_sdata x) dad
      (Z.lor (Z.lor T1_S_BLOCK T1_S_RESPONSE) (T1_S_TYPE pcb)) (Some tbuf);
  Some (JBreak, x <| x_t1 := t1 |> <| x_sdata := b |> <| x_slen := total |>).

(** The requests a card can make; [sblk] is uninitialised memory, whose
    content is never read. *)
Definition handle_S_request (pcb : Z) x : option (jump * xfer W) :=
  let tbuf := ct_buf_init (replicate 5 0) 5 in
  l ← rd (x_sdata x) LEN;
  if T1_S_TYPE pcb =? T1_S_RESYNC then if nz l then refuse x else Some (JResync, x)
  else if T1_S_TYPE pcb =? T1_S_ABORT then if nz l then refuse x else respond_S pcb tbuf x
  else if T1_S_TYPE pcb =? T1_S_IFS then
    if negb (l =? 1) then refuse x
    else
      d ← rd (x_sdata x) DATA;
      if (d <? 0x10) || (d =? 0xFF) then reject T1_OTHER_ERROR x
      else if d =? 0 then Some (JResync, x)
      else
        '(_, tbuf) ← ct_buf_putc tbuf d;
        respond_S pcb tbuf (x <| x_t1 := (x_t1 x) <| ifsc := d |> |>)
  else if T1_S_TYPE pcb =? T1_S_WTX then
    if negb (l =? 1) then reject T1_OTHER_ERROR x
    else
      d ← rd (x_sdata x) DATA;
      '(_, tbuf) ← ct_buf_putc tbuf d;
      respond_S pcb tbuf (x <| x_t1 := (x_t1 x) <| wtx := d |> |> <| x_w := lk_set_WTX d (x_w x) |>)
  else reject T1_OTHER_ERROR x.

Definition handle_S (pcb : Z) x : option (jump * xfer W) :=
  if nz (Z.land pcb 0x20) && (t1_state (x_t1 x) =? RESYNCH) then
    if negb (T1_S_TYPE pcb =? T1_S_RESYNC) then Some (JResync, x)
    else
      x ← build_I (x <| x_t1 := (x_t1 x) <| t1_state := SENDING |> |>
                     <| x_last_send := 0 |> <| x_resyncs := 3 |>
                     <| x_retries := retries (x_t1 x) |>
                     <| x_rbuf := ct_buf_init (base (x_rbuf x)) T1_BUFFER_SIZE |>
                     <| x_sbuf := (x_sbuf x) <| head := 0 |> |>);
      Some (JContinue, x)
  else if nz (Z.land pcb 0x20) then reject T1_OTHER_ERROR x
  else handle_S_request pcb x.

(** The link reported an error: [-2 == n || err == PARITY || err == REMOVED]. *)
Definition on_parity x : option (jump * xfer W) :=
  if x_retries x <=? 0 then Some (JResync, x)
  else reject T1_EDC_ERROR (x <| x_w := lk_set_err 0 (x_w x) |>).

(** The link reported an error: [n < 0]. *)
Definition on_failure x : option (jump * xfer W) :=
  p ← rd (previous_block (x_t1 x)) PCB;
  if (t1_block_type p =? T1_S_BLOCK) && (T1_S_TYPE p =? T1_S_ABORT) then Some (JError, x)
  else if x_retries x <=? 0 then Some (JResync, x)
  else
    '(j, x) ← reject T1_OTHER_ERROR x;
    Some (j, x <| x_w := lk_set_err 0 (x_w x) |>).

(** A block of [n] bytes is in [sdata]. *)
Definition on_block (n : Z) x : option (jump * xfer W) :=
  ok ← t1_verify_checksum (x_t1 x) (x_sdata x) n;
  if negb ok then reject T1_EDC_ERROR x
  else
    a ← rd (x_sdata x) NAD;
    l ← rd (x_sdata x) LEN;
    if negb (a =? swap_nibbles dad) || (l =? 0xFF) then reject T1_OTHER_ERROR x
    else
      pcb ← rd (x_sdata x) PCB;
      if t1_block_type pcb =? T1_R_BLOCK then handle_R pcb x
      else if t1_block_type pcb =? T1_I_BLOCK then handle_I pcb x
      else handle_S pcb x.

(** The label [resync]. *)
Definition resync x : option (t1_result W) :=
  if x_resyncs x =? 0
  then Some (T1Return (-1) (x <| x_t1 := (x_t1 x) <| t1_state := DEAD |> |>))
  else
    x ← build_ctl (Z.lor T1_S_BLOCK T1_S_RESYNC)
          (x <| x_resyncs := x_resyncs x - 1 |> <| x_t1 := (x_t1 x) <| ns := 0 |> <| nr := 0 |> |>
             <| x_w := lk_set_err 0 (x_w x) |>);
    Some (T1Running (x <| x_t1 := (x_t1 x) <| t1_state := RESYNCH |> <| t1_more := 0 |> |>
                       <| x_retries := 1 |>)).

(** Where the jump leads. *)
Definition land_jump (j : jump) x : option (t1_result W) :=
  match j with
  | JContinue => Some (T1Running x)
  | JBreak => Some (T1Running (x <| x_retries := retries (x_t1 x) |>))
  | JResync => resync x
  | JDone => Some (T1Return (ct_buf_avail (x_rbuf x)) x)
  | JError => Some (T1Return (-1) (x <| x_t1 := (x_t1 x) <| t1_state := DEAD |> |>))
  end.

(** One pass over the body of the loop. *)
Definition t1_turn x : option (t1_result W) :=
  let x := x <| x_retries := u32 (x_retries x - 1) |> in
  '(n, w, b) ← lk_xcv (x_w x) (x_sdata x) (x_slen x);
  let x := x <| x_w := w |> <| x_sdata := b |> in
  '(j, x) ← (if (n =? -2) || (lk_err w =? 0x0D) || (lk_err w =? 0x01) then on_parity x
             else if n <? 0 then on_failure x
             else on_block n x);
  land_jump j x.

Fixpoint t1_loop (fuel : nat) x : option (t1_result W) :=
  match fuel with
  | O => Some (T1Running x)
  | S fuel =>
      r ← t1_turn x;
      match r with
      | T1Return ret x => Some (T1Return ret x)
      | T1Running x => t1_loop fuel x
      end
  end.

(** What [t1_transceive] does before the loop: [None] is an early return of -1. *)
Definition t1_start (w : W) (t1 : t1_state_t) (sdata snd_buf : list Z) (snd_len : Z) (rcv_buf : list Z)
    : option (option (xfer W)) :=
  if snd_len =? 0 then Some None
  else if t1_state t1 =? DEAD then Some None
  else
    let t1 := t1 <| t1_state := SENDING |> in
    pb ← wrn (previous_block t1) 0 [0; 0; 0; 0];
    let t1 := t1 <| previous_block := pb |> <| icc_has_more := 0 |> in
    x ← build_I (mk_xfer w t1 sdata (ct_buf_set snd_buf snd_len) (ct_buf_init rcv_buf T1_BUFFER_SIZE)
                   0 (retries t1) 3 0);
    Some (Some x).

(** [t1_transceive], within [fuel] block exchanges: the return value, the
    world, the protocol state, [sdata] and the receive buffer. The outer
    [option] is undefined behaviour, the inner one running out of fuel. *)
Definition t1_transceive (fuel : nat) (w : W) (t1 : t1_state_t) (sdata snd_buf : list Z)
    (snd_len : Z) (rcv_buf : list Z) : option (option (Z * W * t1_state_t * list Z * list Z)) :=
  st ← t1_start w t1 sdata snd_buf snd_len rcv_buf;
  match st with
  | None => Some (Some (-1, w, t1, sdata, rcv_buf))
  | Some x =>
      r ← t1_loop fuel x;
      match r with
      | T1Return ret x => Some (Some (ret, x_w x, x_t1 x, x_sdata x, base (x_rbuf x)))
      | T1Running _ => Some None
      end
  end.
End transceive.
