(* ===== verification/T1Spec.v ===== *)
(** T=1 blocks: the encoding of a block as bytes, what [t1_build] builds, and
    that what it builds passes [t1_verify_checksum] on the other side. *)
From S2P Require Import Prelude Checksum CtBuf T1.

(** ** The encoding of a block *)
Definition enc (c : csum_fn) (nad pcb : Z) (inf : list Z) : list Z :=
  let b := nad :: pcb :: zlen inf :: inf in b ++ checksum c b.

Definition i_pcb (n : Z) (more : bool) : Z := Z.lor (Z.shiftl n T1_I_SEQ_SHIFT) (if more then T1_MORE_BLOCKS else 0).
Definition r_pcb (n e : Z) : Z := Z.lor (Z.lor T1_R_BLOCK e) (Z.shiftl n T1_R_SEQ_SHIFT).

Definition is_bit (x : Z) : Prop := x = 0 \/ x = 1.

(** The protocol state is well-formed: sequence numbers are bits, the checksum
    and its size agree. *)
Record t1_wf (t1 : t1_state_t) : Prop := {
  wf_ns : is_bit (ns t1);
  wf_nr : is_bit (nr t1);
  wf_rc : rc_bytes t1 = csum_len (csum t1);
  wf_ifsc : 1 <= ifsc t1;
  wf_pb : zlen (previous_block t1) = 4;
  wf_pib : zlen (previous_i_block t1) = 300;
}.

(** A block with [n] bytes of data fits [sdata], with the four bytes [t1_build]
    copies beyond the block. *)
Definition fits (t1 : t1_state_t) (n : Z) : Prop := 3 + n + csum_len (csum t1) + 4 <= T1_BUFFER_SIZE.

(** Moreover a block of the card's maximum size fits. *)
Record t1_ok (t1 : t1_state_t) : Prop := {
  ok_wf : t1_wf t1;
  ok_size : fits t1 (ifsc t1);
}.

Lemma ok_ns t1 : t1_ok t1 -> is_bit (ns t1).
Proof. intros [[]]; done. Qed.

Lemma ok_nr t1 : t1_ok t1 -> is_bit (nr t1).
Proof. intros [[]]; done. Qed.

Lemma ok_rc t1 : t1_ok t1 -> rc_bytes t1 = csum_len (csum t1).
Proof. intros [[]]; done. Qed.

Lemma ok_ifsc t1 : t1_ok t1 -> 1 <= ifsc t1.
Proof. intros [[]]; done. Qed.

Lemma ok_pb t1 : t1_ok t1 -> zlen (previous_block t1) = 4.
Proof. intros [[]]; done. Qed.

Lemma csum_len_pos c : 1 <= csum_len c <= 2.
Proof. destruct c; simpl; lia. Qed.

Lemma enc_len c nad pcb inf : zlen (enc c nad pcb inf) = 3 + zlen inf + csum_len c.
Proof. unfold enc; zlen_simpl; rewrite checksum_len; lia. Qed.

Lemma enc_len_lrc c nad pcb : zlen (enc c nad pcb []) = 3 + csum_len c.
Proof. by rewrite enc_len. Qed.

(** ** Sequence numbers and block types of PCBs *)
Lemma bit_lxor b : is_bit b -> is_bit (Z.lxor b 1).
Proof. intros [-> | ->]; [by right | by left]. Qed.

Lemma bit_lxor_lxor b : is_bit b -> Z.lxor (Z.lxor b 1) 1 = b.
Proof. by intros [-> | ->]. Qed.

Lemma bit_lxor_ne b : is_bit b -> Z.lxor b 1 <> b.
Proof. by intros [-> | ->]. Qed.

Lemma bit_ne a b : is_bit a -> is_bit b -> a <> b -> a = Z.lxor b 1.
Proof. by intros [-> | ->] [-> | ->]. Qed.

#[export] Hint Resolve bit_lxor : cmem.

Ltac bits := repeat match goal with H : is_bit _ |- _ => destruct H as [H | H]; rewrite ?H in *; clear H end.

Lemma i_pcb_spec n more : is_bit n ->
  is_u8 (i_pcb n more) /\ t1_block_type (i_pcb n more) = T1_I_BLOCK /\ t1_seq (i_pcb n more) = n /\
  Z.land (i_pcb n more) T1_MORE_BLOCKS = (if more then T1_MORE_BLOCKS else 0).
Proof. intros [-> | ->]; destruct more; vm_compute; intuition congruence. Qed.

Lemma nibble_cases e : 0 <= e < 16 ->
  e = 0 \/ e = 1 \/ e = 2 \/ e = 3 \/ e = 4 \/ e = 5 \/ e = 6 \/ e = 7 \/
  e = 8 \/ e = 9 \/ e = 10 \/ e = 11 \/ e = 12 \/ e = 13 \/ e = 14 \/ e = 15.
Proof. lia. Qed.

Lemma r_pcb_spec n e : is_bit n -> 0 <= e < 16 ->
  is_u8 (r_pcb n e) /\ t1_block_type (r_pcb n e) = T1_R_BLOCK /\ t1_seq (r_pcb n e) = n /\
  T1_IS_ERROR (r_pcb n e) = e /\ Z.land (r_pcb n e) 0x20 = 0.
Proof.
  intros [-> | ->] He; apply nibble_cases in He; destruct_or? He; subst e;
    vm_compute; intuition congruence.
Qed.

Lemma is_error_nibble p : 0 <= T1_IS_ERROR p < 16.
Proof.
  unfold T1_IS_ERROR; change 0x0F with (Z.ones 4); rewrite Z.land_ones by lia.
  apply Z.mod_pos_bound; lia.
Qed.

(** ** [t1_build] *)
Lemma t1_build_pcb_I t1 more : is_bit (ns t1) ->
  t1_build_pcb t1 (if more : bool then Z.lor T1_I_BLOCK T1_MORE_BLOCKS else T1_I_BLOCK) = Some (i_pcb (ns t1) more).
Proof. unfold t1_build_pcb; intros [-> | ->]; destruct more; reflexivity. Qed.

Lemma t1_build_pcb_R t1 e :
  is_bit (nr t1) -> zlen (previous_block t1) = 4 -> 0 <= e < 16 ->
  exists e', 0 <= e' < 16 /\ t1_build_pcb t1 (Z.lor T1_R_BLOCK e) = Some (r_pcb (nr t1) e').
Proof.
  intros Hnr Hpb He; unfold t1_build_pcb.
  destruct (rd_in (previous_block t1) PCB) as [p ->]; [rewrite Hpb; unfold PCB; lia|].
  assert (Hty : t1_block_type (Z.lor T1_R_BLOCK e) =? T1_R_BLOCK = true).
  { apply nibble_cases in He; destruct_or? He; by subst e. }
  rewrite Hty; cbn [mbind option_bind].
  exists (if nz (T1_IS_ERROR p) && (t1_block_type p =? T1_R_BLOCK) then T1_IS_ERROR p else e).
  pose proof (is_error_nibble p) as Hp.
  assert (Hu : forall e', 0 <= e' < 16 ->
    u8 (Z.lor (Z.lor T1_R_BLOCK e') (Z.shiftl (nr t1) T1_R_SEQ_SHIFT)) = r_pcb (nr t1) e').
  { intros e' He'; apply u8_id, (r_pcb_spec _ e' Hnr He'). }
  destruct (_ && _); rewrite Hu by done; done.
Qed.

(** The bytes of a block, written one after the other into the block buffer. *)
Lemma block_write c block dad pcb d :
  3 + zlen d + csum_len c <= zlen block ->
  (block ← wr block 0 dad; block ← wr block 1 pcb; block ← wr block 2 (zlen d); wrn block 3 d)
  = Some ((dad :: pcb :: zlen d :: d) ++ drop (3 + length d) block).
Proof.
  intros Hlen; pose proof (csum_len_pos c); pose proof (zlen_nonneg d).
  destruct block as [|b0 [|b1 [|b2 block]]]; zlen_simpl; try lia.
  repeat (rewrite wr_in by (zlen_simpl; lia); cbn [mbind option_bind]).
  change (wrn ([dad; pcb; zlen d] ++ block) (zlen [dad; pcb; zlen d]) d
          = Some (([dad; pcb; zlen d] ++ d) ++ drop (length d) block)).
  apply wrn_app; lia.
Qed.

Lemma block_seal t1 block dad pcb d :
  3 + zlen d + csum_len (csum t1) <= zlen block ->
  t1_compute_checksum t1 ((dad :: pcb :: zlen d :: d) ++ drop (3 + length d) block) (zlen d + 3)
  = Some (zlen (enc (csum t1) dad pcb d),
          enc (csum t1) dad pcb d ++ drop (length (enc (csum t1) dad pcb d)) block).
Proof.
  intros Hlen; pose proof (csum_len_pos (csum t1)); pose proof (zlen_nonneg d).
  unfold t1_compute_checksum; set (p := dad :: pcb :: zlen d :: d).
  assert (Hp : zlen d + 3 = zlen p) by (unfold p; zlen_simpl; lia).
  rewrite Hp, rdn_in by (zlen_simpl; lia).
  rewrite slice_app_prefix; cbn [mbind option_bind].
  rewrite wrn_app; cbn [mbind option_bind].
  - f_equal; f_equal; [by rewrite <- zlen_app|].
    change (p ++ checksum (csum t1) p) with (enc (csum t1) dad pcb d); f_equal.
    rewrite drop_drop; f_equal; unfold enc; fold p; rewrite length_app; unfold p; simpl; lia.
  - rewrite checksum_len; zlen_simpl; unfold zlen in *; lia.
Qed.

Lemma zlen_take4_enc c nad pcb inf : zlen (take 4 (enc c nad pcb inf)) = 4.
Proof.
  pose proof (enc_len c nad pcb inf); pose proof (csum_len_pos c); pose proof (zlen_nonneg inf).
  unfold zlen in *; rewrite length_take; lia.
Qed.

(** The two blocks [t1_build] remembers. *)
Lemma remember_block (pb e rest : list Z) :
  zlen pb = 4 -> 4 <= zlen e -> memcpy pb 0 (e ++ rest) 0 4 = Some (take 4 e).
Proof.
  intros Hpb He; unfold memcpy; rewrite rdn_in by (zlen_simpl; pose proof (zlen_nonneg rest); lia).
  cbn [mbind option_bind].
  assert (Hs : slice (e ++ rest) 0 4 = take 4 e).
  { rewrite slice_0; apply take_app_le; unfold zlen in *; lia. }
  rewrite Hs, wrn_0; unfold zlen in *; rewrite length_take by lia; [|lia].
  rewrite drop_ge by lia; by rewrite app_nil_r.
Qed.

Lemma remember_i_block (pib e rest : list Z) :
  zlen pib = 300 -> zlen e + 4 <= zlen (e ++ rest) -> zlen e + 4 <= 300 ->
  exists pib', memcpy pib 0 (e ++ rest) 0 (zlen e + 4) = Some pib' /\ zlen pib' = 300 /\
    take (length e) pib' = e.
Proof.
  intros Hpib Hr He; pose proof (zlen_nonneg e).
  destruct (memcpy_in pib 0 (e ++ rest) 0 (zlen e + 4)) as (pib' & Hm & Hw); try lia.
  exists pib'; split_and!; [done | by rewrite (memcpy_len _ _ _ _ _ _ Hm) |].
  rewrite slice_0, wrn_0 in Hw by (rewrite zlen_take; lia).
  injection Hw as <-.
  rewrite take_app_le by (rewrite length_take; unfold zlen in *; lia).
  rewrite take_take, take_app_le by (unfold zlen in *; lia).
  apply take_ge; unfold zlen in *; lia.
Qed.

Definition bp_data (bp : option ct_buf_t) : list Z :=
  match bp with Some b => ct_data b | None => [] end.
Definition bp_wf (bp : option ct_buf_t) : Prop :=
  match bp with Some b => ct_wf b | None => True end.

Lemma bp_avail bp : bp_wf bp -> match bp with Some b => ct_buf_avail b | None => 0 end = zlen (bp_data bp).
Proof. destruct bp as [b|]; simpl; intros; [by apply ct_avail_data | done]. Qed.

Lemma bp_copy bp block n :
  bp_wf bp -> 0 <= n <= zlen (bp_data bp) -> 3 <= zlen block ->
  match bp with
  | Some b => if nz n then d ← ct_buf_head_bytes b n; wrn block 3 d else Some block
  | None => Some block
  end = wrn block 3 (take (Z.to_nat n) (bp_data bp)).
Proof.
  intros Hwf Hn Hb.
  assert (Hnil : wrn block 3 [] = Some block).
  { rewrite wrn_in by (zlen_simpl; lia); by rewrite Nat.add_0_r, app_nil_l, take_drop. }
  destruct bp as [b|]; simpl in *; [|by rewrite take_nil].
  unfold nz; destruct (n =? 0) eqn:E; zbool; simpl; [by subst|].
  unfold ct_buf_head_bytes, ct_data, slice in *; ct_wf; zlen_simpl.
  rewrite rdn_in by lia; cbn [mbind option_bind]; unfold slice.
  rewrite take_take; do 2 f_equal; lia.
Qed.

(** The last steps of [t1_build]: the checksum, and remembering the block. *)
Lemma build_tail t1 block dad pcb inf (more : Z) :
  zlen block = T1_BUFFER_SIZE -> 3 + zlen inf + csum_len (csum t1) + 4 <= T1_BUFFER_SIZE ->
  zlen (previous_block t1) = 4 -> zlen (previous_i_block t1) = 300 ->
  let e := enc (csum t1) dad pcb inf in
  let t1' := if t1_block_type pcb =? T1_I_BLOCK then t1 <| t1_more := more |> else t1 in
  exists pib,
    ('(total, block) ← t1_compute_checksum t1'
        ((dad :: pcb :: zlen inf :: inf) ++ drop (3 + length inf) block) (zlen inf + 3);
     pb ← memcpy (previous_block t1') 0 block 0 4;
     let t1' := t1' <| previous_block := pb |> in
     t1' ← (if t1_block_type pcb =? T1_I_BLOCK then
              pib ← memcpy (previous_i_block t1') 0 block 0 (total + 4);
              Some (t1' <| previous_i_block := pib |>)
            else Some t1');
     Some (total, zlen inf, t1', block)) =
    Some (zlen e, zlen inf, t1' <| previous_block := take 4 e |> <| previous_i_block := pib |>,
          e ++ drop (length e) block) /\
    zlen pib = 300 /\
    if t1_block_type pcb =? T1_I_BLOCK then take (length e) pib = e else pib = previous_i_block t1.
Proof.
  intros Hb Hs Hpb Hpib e t1'; unfold T1_BUFFER_SIZE in *.
  pose proof (csum_len_pos (csum t1)) as Hc; pose proof (zlen_nonneg inf) as Hi.
  pose proof (enc_len (csum t1) dad pcb inf) as He; fold e in He.
  assert (Hcs : csum t1' = csum t1) by (unfold t1'; by destruct (_ =? _)).
  assert (Hpb' : zlen (previous_block t1') = 4) by (unfold t1'; by destruct (_ =? _)).
  rewrite block_seal by (rewrite Hcs; lia); rewrite Hcs; fold e; cbn [mbind option_bind].
  rewrite remember_block by (try done; lia); cbn [mbind option_bind].
  destruct (remember_i_block (previous_i_block t1) e (drop (length e) block)) as (pib & Hm & Hl & Ht);
    [done | zlen_simpl; unfold zlen in *; lia | lia |].
  unfold t1'; destruct (t1_block_type pcb =? T1_I_BLOCK); cbn [previous_i_block set].
  - change (previous_i_block _) with (previous_i_block t1) at 1; rewrite Hm; cbn [mbind option_bind]; eauto.
  - exists (previous_i_block t1); destruct t1; auto.
Qed.

(** The block [t1_build] makes out of the PCB [t1_build_pcb] makes. *)
Lemma t1_build_block t1 block dad pcb bp pcb' :
  t1_wf t1 -> zlen block = T1_BUFFER_SIZE -> is_u8 dad -> bp_wf bp ->
  let big := ifsc t1 <? zlen (bp_data bp) in
  let inf := take (Z.to_nat (ifsc t1)) (bp_data bp) in
  fits t1 (zlen inf) ->
  let pcb0 := if big then Z.lor pcb T1_MORE_BLOCKS else pcb in
  let e := enc (csum t1) dad pcb' inf in
  t1_build_pcb t1 pcb0 = Some pcb' -> t1_block_type pcb' = t1_block_type pcb0 ->
  exists pib,
    t1_build t1 block dad pcb bp = Some (zlen e, zlen inf,
      (if t1_block_type pcb' =? T1_I_BLOCK then t1 <| t1_more := if big then 1 else 0 |> else t1)
        <| previous_block := take 4 e |> <| previous_i_block := pib |>,
      e ++ drop (length e) block) /\
    zlen pib = 300 /\
    if t1_block_type pcb' =? T1_I_BLOCK then take (length e) pib = e else pib = previous_i_block t1.
Proof.
  intros Hok Hb Hdad Hbp big inf Hsize pcb0 e Hpcb Hty.
  destruct Hok as [_ _ _ Hifsc Hpb Hpib]; unfold fits in Hsize.
  pose proof (csum_len_pos (csum t1)) as Hc; unfold T1_BUFFER_SIZE in *.
  assert (Hlen : (if big then ifsc t1 else zlen (bp_data bp)) = zlen inf).
  { unfold inf, big; rewrite zlen_take; pose proof (zlen_nonneg (bp_data bp)); zcase; lia. }
  assert (Hinf : 0 <= zlen inf <= ifsc t1).
  { unfold inf; rewrite zlen_take; pose proof (zlen_nonneg (bp_data bp)); lia. }
  assert (Hinf' : take (Z.to_nat (zlen inf)) (bp_data bp) = inf).
  { rewrite <- Hlen; unfold inf, big; zcase; [done|].
    rewrite !take_ge; [done | unfold zlen in *; lia ..]. }
  pose proof (enc_len (csum t1) dad pcb' inf) as He; fold e in He.
  pose proof (block_write (csum t1) block dad pcb' inf ltac:(lia)) as Hw.
  unfold t1_build; rewrite bp_avail by done; fold big pcb0; rewrite Hlen, Hpcb, !u8_id by (unfold is_u8 in *; lia).
  cbn [mbind option_bind].
  apply bind_Some in Hw as (b1 & E1 & Hw); rewrite E1; cbn [mbind option_bind].
  apply bind_Some in Hw as (b2 & E2 & Hw); rewrite E2; cbn [mbind option_bind].
  apply bind_Some in Hw as (b3 & E3 & Hw); rewrite E3; cbn [mbind option_bind].
  rewrite bp_copy, Hinf', Hw; [|done| |].
  2:{ rewrite <- Hlen; unfold big; zcase; pose proof (zlen_nonneg (bp_data bp)); lia. }
  2:{ rewrite (wr_len _ _ _ _ E3), (wr_len _ _ _ _ E2), (wr_len _ _ _ _ E1); lia. }
  cbn [mbind option_bind]; rewrite <- Hty.
  apply build_tail; unfold T1_BUFFER_SIZE; done || lia.
Qed.

Lemma t1_wf_remember t1 more pb pib :
  t1_wf t1 -> zlen pb = 4 -> zlen pib = 300 ->
  t1_wf (t1 <| t1_more := more |> <| previous_block := pb |> <| previous_i_block := pib |>).
Proof. intros [] ? ?; by split. Qed.

Lemma t1_ok_remember t1 more e pib :
  t1_ok t1 -> zlen (take 4 e) = 4 -> zlen pib = 300 ->
  t1_ok (t1 <| t1_more := more |> <| previous_block := take 4 e |> <| previous_i_block := pib |>).
Proof. intros [] ? ?; split; [by apply t1_wf_remember | done]. Qed.

(** An I-block carries the sequence number, the next [ifsc] bytes of the send
    buffer, and the more-data bit when they are not the last. *)
Lemma t1_build_I_wf t1 block dad sb :
  t1_wf t1 -> zlen block = T1_BUFFER_SIZE -> is_u8 dad -> ct_wf sb ->
  let big := ifsc t1 <? zlen (ct_data sb) in
  let inf := take (Z.to_nat (ifsc t1)) (ct_data sb) in
  fits t1 (zlen inf) ->
  let e := enc (csum t1) dad (i_pcb (ns t1) big) inf in
  exists pib, zlen pib = 300 /\ take (length e) pib = e /\
    t1_build t1 block dad T1_I_BLOCK (Some sb) = Some (zlen e, zlen inf,
      t1 <| t1_more := if big then 1 else 0 |> <| previous_block := take 4 e |> <| previous_i_block := pib |>,
      e ++ drop (length e) block).
Proof.
  intros Hok Hb Hd Hsb big inf Hf e; pose proof (wf_ns _ Hok) as Hns.
  pose proof (i_pcb_spec (ns t1) big Hns) as (Hu & Hty & _ & _).
  destruct (t1_build_block t1 block dad T1_I_BLOCK (Some sb) (i_pcb (ns t1) big)) as (pib & Hm & Hl & Ht);
    try done.
  - by apply t1_build_pcb_I.
  - rewrite Hty; simpl; fold big; by destruct big.
  - rewrite Hty in *; simpl in Ht; exists pib; split_and!; try done.
Qed.

Lemma t1_build_I t1 block dad sb :
  t1_ok t1 -> zlen block = T1_BUFFER_SIZE -> is_u8 dad -> ct_wf sb ->
  let big := ifsc t1 <? zlen (ct_data sb) in
  let inf := take (Z.to_nat (ifsc t1)) (ct_data sb) in
  let e := enc (csum t1) dad (i_pcb (ns t1) big) inf in
  exists pib, zlen pib = 300 /\ take (length e) pib = e /\
    t1_build t1 block dad T1_I_BLOCK (Some sb) = Some (zlen e, zlen inf,
      t1 <| t1_more := if big then 1 else 0 |> <| previous_block := take 4 e |> <| previous_i_block := pib |>,
      e ++ drop (length e) block).
Proof.
  intros [Hwf Hs] Hb Hd Hsb; apply t1_build_I_wf; try done; unfold fits in *.
  rewrite zlen_take; pose proof (wf_ifsc _ Hwf); lia.
Qed.

(** An R-block carries the expected sequence number and an error code. *)
Lemma t1_build_R t1 block dad e :
  t1_wf t1 -> zlen block = T1_BUFFER_SIZE -> is_u8 dad -> 0 <= e < 16 ->
  exists e', 0 <= e' < 16 /\
    let b := enc (csum t1) dad (r_pcb (nr t1) e') [] in
    t1_build t1 block dad (Z.lor T1_R_BLOCK e) None = Some (zlen b, 0,
      t1 <| previous_block := take 4 b |>, b ++ drop (length b) block).
Proof.
  intros Hok Hb Hd He; pose proof Hok as [Hns Hnr _ Hif Hpb _].
  destruct (t1_build_pcb_R t1 e) as (e' & He' & Hp); try done.
  exists e'; split; [done|]; intros b; pose proof (r_pcb_spec (nr t1) e' Hnr He') as (Hu & Hty & _ & _).
  destruct (t1_build_block t1 block dad (Z.lor T1_R_BLOCK e) None (r_pcb (nr t1) e')) as (pib & Hm & Hl & Ht);
    try done; simpl in *; rewrite ?zlen_nil, ?(proj2 (Z.ltb_ge (ifsc t1) 0)) in * by lia.
  - unfold fits, T1_BUFFER_SIZE; rewrite take_nil, zlen_nil; pose proof (csum_len_pos (csum t1)); lia.
  - done.
  - rewrite Hty; apply nibble_cases in He; destruct_or? He; by subst e.
  - rewrite Hty in *; simpl in Ht; rewrite Hm, take_nil, Ht; destruct t1; done.
Qed.

(** An S-block is sent with the PCB given. *)
Lemma t1_build_S t1 block dad pcb bp :
  t1_wf t1 -> zlen block = T1_BUFFER_SIZE -> is_u8 dad -> bp_wf bp -> zlen (bp_data bp) <= 1 ->
  t1_block_type pcb = T1_S_BLOCK ->
  let b := enc (csum t1) dad pcb (bp_data bp) in
  t1_build t1 block dad pcb bp = Some (zlen b, zlen (bp_data bp),
    t1 <| previous_block := take 4 b |>, b ++ drop (length b) block).
Proof.
  intros Hok Hb Hd Hbp Hl Hty b; pose proof (wf_ifsc _ Hok) as Hif.
  assert (Htk : take (Z.to_nat (ifsc t1)) (bp_data bp) = bp_data bp) by (apply take_ge; unfold zlen in *; lia).
  destruct (t1_build_block t1 block dad pcb bp pcb) as (pib & Hm & _ & Ht); try done;
    rewrite ?(proj2 (Z.ltb_ge (ifsc t1) (zlen (bp_data bp)))) in * by lia; rewrite ?Htk in *; try done.
  - unfold fits, T1_BUFFER_SIZE; pose proof (csum_len_pos (csum t1)); lia.
  - unfold t1_build_pcb; by rewrite Hty.
  - rewrite Hm, Hty in *; simpl in Ht; rewrite Ht; destruct t1; done.
Qed.

(** [handle_I] clears an error code remembered in [previous_block]. *)
Lemma clear_prev_error (pb : list Z) :
  zlen pb = 4 -> exists p pb', rd pb PCB = Some p /\
    (if nz (T1_IS_ERROR p) && (t1_block_type p =? T1_R_BLOCK) then wr pb PCB 0 else Some pb) = Some pb' /\
    zlen pb' = 4.
Proof.
  intros Hpb; destruct (rd_in pb PCB) as [p Hp]; [rewrite Hpb; unfold PCB; lia|].
  exists p; destruct (_ && _); [|eauto].
  rewrite wr_in by (rewrite Hpb; unfold PCB; lia); eexists; split_and!; try done; by zlen_simpl.
Qed.

(** ** Verification *)
Lemma t1_verify_enc t1 nad pcb inf rest :
  rc_bytes t1 = csum_len (csum t1) ->
  t1_verify_checksum t1 (enc (csum t1) nad pcb inf ++ rest) (zlen (enc (csum t1) nad pcb inf)) = Some true.
Proof.
  intros Hrc; unfold t1_verify_checksum; rewrite Hrc, enc_len.
  pose proof (csum_len_pos (csum t1)); pose proof (zlen_nonneg inf); pose proof (zlen_nonneg rest).
  rewrite (proj2 (Z.ltb_ge _ _)) by lia.
  unfold enc; set (p := nad :: pcb :: zlen inf :: inf).
  replace (3 + zlen inf + csum_len (csum t1) - csum_len (csum t1)) with (zlen p) by (unfold p; zlen_simpl; lia).
  rewrite <- (checksum_len (csum t1) p); rewrite !rdn_in by (zlen_simpl; rewrite ?checksum_len; unfold p; zlen_simpl; lia).
  cbn [mbind option_bind]; rewrite <- app_assoc, slice_app_prefix.
  unfold slice; rewrite !zlen_to_nat, drop_app_length, take_app_length.
  by rewrite bool_decide_true by (by rewrite take_ge).
Qed.

Lemma enc_fields c nad pcb inf rest :
  let b := enc c nad pcb inf ++ rest in
  rd b NAD = Some nad /\ rd b PCB = Some pcb /\ rd b LEN = Some (zlen inf) /\ rdn b 3 (zlen inf) = Some inf.
Proof.
  intros b; split_and!; try done.
  pose proof (zlen_nonneg inf); pose proof (csum_len_pos c); pose proof (zlen_nonneg rest).
  rewrite rdn_in; [|lia..|].
  - change (slice b 3 (zlen inf)) with (take (Z.to_nat (zlen inf)) ((inf ++ checksum c (nad :: pcb :: zlen inf :: inf)) ++ rest)).
    by rewrite <- app_assoc, zlen_to_nat, take_app_length.
  - unfold b; rewrite zlen_app, enc_len; lia.
Qed.

(** ** Properties *)

(** The block that [t1_rebuild] gives to be sent again is the last I-block as long
    as the checksum has one byte; of a block with the CRC the last byte is missing. *)
Lemma t1_rebuild_short t1 sdata nad pcb inf rest pb p :
  let e := enc (csum t1) nad pcb inf in
  previous_i_block t1 = e ++ rest -> rd (previous_block t1) 1 = Some pb -> t1_block_type pcb = T1_I_BLOCK -> rd sdata PCB = Some p -> t1_seq pcb = t1_seq p ->
  zlen inf + 4 <= zlen sdata ->
  exists b, t1_rebuild t1 sdata = Some (zlen inf + 4, b) /\ take (Z.to_nat (zlen inf + 4)) b = take (Z.to_nat (zlen inf + 4)) e /\ zlen inf + 4 = zlen e - (csum_len (csum t1) - 1).
Proof.
  intros e Hpib Hpb Hty Hp Hseq Hl; pose proof (zlen_nonneg inf); pose proof (csum_len_pos (csum t1)); assert (He : zlen e = 3 + zlen inf + csum_len (csum t1)) by apply enc_len; assert (Hc : exists l, e = nad :: pcb :: zlen inf :: l) by (unfold e, enc; eexists; reflexivity); destruct Hc as [l Hc].
  pose proof (zlen_nonneg rest); unfold t1_rebuild; rewrite Hpb, Hpib; cbn [mbind option_bind]; replace (rd (e ++ rest) 1) with (Some pcb) by (by rewrite Hc); cbn [mbind option_bind]; rewrite Hty, Z.eqb_refl, Hp; cbn [mbind option_bind]; rewrite Hseq, Z.eqb_refl; replace (rd (e ++ rest) 2) with (Some (zlen inf)) by (by rewrite Hc); cbn [mbind option_bind].
  destruct (memcpy_in sdata 0 (e ++ rest) 0 (zlen inf + 4)) as (b & -> & Ew); [rewrite ?zlen_app; lia..|]; cbn [mbind option_bind]; exists b; split; [done|]; split; [|lia].
  assert (Hs : slice (e ++ rest) 0 (zlen inf + 4) = take (Z.to_nat (zlen inf + 4)) e) by (unfold slice; change (Z.to_nat 0) with 0%nat; rewrite drop_0, take_app_le by (unfold zlen in *; lia); done).
  rewrite Hs in Ew; rewrite wrn_0 in Ew by (unfold zlen in *; rewrite length_take; lia); injection Ew as <-; rewrite take_app_le, take_ge; [done|rewrite length_take; unfold zlen in *; lia..].
Qed.

(** C17: the block [t1_build] makes from the send buffer is safe to build (no
    access outside [sdata], [previous_block] or [previous_i_block]) and correct:
    its bytes are the node address, a PCB with the current sequence number and
    the more-data bit exactly when data is left over, the length, the next
    [ifsc] bytes and the error detection code; the receiver's
    [t1_verify_checksum] accepts it; and the protocol state stays well-formed. *)
Theorem t1_build_correct t1 block dad sb :
  t1_ok t1 -> zlen block = T1_BUFFER_SIZE -> is_u8 dad -> ct_wf sb ->
  exists pcb t1' block',
    let inf := take (Z.to_nat (ifsc t1)) (ct_data sb) in
    let e := enc (csum t1) dad pcb inf in
    t1_build t1 block dad T1_I_BLOCK (Some sb) = Some (zlen e, zlen inf, t1', block') /\
    take (length e) block' = e /\ zlen block' = T1_BUFFER_SIZE /\
    t1_block_type pcb = T1_I_BLOCK /\ t1_seq pcb = ns t1 /\
    (Z.land pcb T1_MORE_BLOCKS <> 0 <-> ifsc t1 < zlen (ct_data sb)) /\
    t1_verify_checksum t1' block' (zlen e) = Some true /\ t1_ok t1' /\
    take (length e) (previous_i_block t1') = e.
Proof.
  intros Hok Hb Hd Hsb; destruct (t1_build_I t1 block dad sb Hok Hb Hd Hsb) as (pib & Hpib & Ht & Hm).
  eexists _, _, _; split; [exact Hm|]; set (e := enc _ _ _ _).
  destruct (i_pcb_spec (ns t1) (ifsc t1 <? zlen (ct_data sb)) (ok_ns _ Hok)) as (_ & Hty & Hseq & Hmore).
  assert (He : zlen e <= T1_BUFFER_SIZE).
  { unfold e; rewrite enc_len, zlen_take; pose proof (ok_size _ Hok); unfold fits in *; pose proof (ok_ifsc _ Hok); pose proof (zlen_nonneg (ct_data sb)); lia. }
  split_and!; try done.
  - by rewrite take_app_length.
  - zlen_simpl; unfold zlen in *; lia.
  - rewrite Hmore; destruct (ifsc t1 <? zlen (ct_data sb)) eqn:?; zbool; unfold T1_MORE_BLOCKS; lia.
  - match goal with |- t1_verify_checksum ?t _ _ = _ => exact (t1_verify_enc t _ _ _ _ (ok_rc _ Hok)) end.
  - apply t1_ok_remember; try done; exact (zlen_take4_enc _ _ _ _).
Qed.

Definition t1_example : t1_state_t :=
  t1_init (mk_t1 0 0 0 0 0 0 0 0 0 csum_lrc 0 (replicate 4 0) (replicate 300 0)).

Lemma t1_example_ok : t1_ok t1_example.
Proof. split; [split|]; vm_compute; intuition congruence. Qed.

Lemma t1_build_correct_witness :
  exists t1' block', t1_build t1_example (replicate 259 0) 0 T1_I_BLOCK (Some (ct_buf_set (replicate 40 7) 40))
    = Some (36, 32, t1', block') /\ t1_ok t1'.
Proof.
  destruct (t1_build_correct t1_example (replicate 259 0) 0 (ct_buf_set (replicate 40 7) 40))
    as (pcb & t1' & b & Hm & _ & _ & _ & _ & _ & _ & Hok & _).
  - apply t1_example_ok.
  - reflexivity.
  - unfold is_u8; lia.
  - apply ct_buf_set_wf; vm_compute; intuition congruence.
  - exists t1', b; split; [exact Hm | exact Hok].
Defined.
