(* ===== verification/T1Card.v ===== *)
(** Reliable transmission over T=1: [t1_transceive] against a reference card
    over a link that loses and damages blocks.

    The card follows the T=1 rules of ISO 7816-3: it acknowledges chained
    blocks, answers the last block of a command with its response in chunks,
    repeats its last block when asked for it again, and reports a damaged block
    with an R-block. It is part of the specification: no code of the repository
    is modelled in this file. *)
From S2P Require Import Prelude Checksum CtBuf T1 T1Spec.

(** ** The reference card *)

(** [c_rx]: the part of the command received; [c_nr]: the sequence number of
    the next I-block expected; [c_rem]: the response from the chunk last sent
    on, empty when the last block sent was an R-block; [c_ns]: the sequence
    number of that chunk; [c_log]: the commands executed. *)
Record card := mk_card { c_rx : list Z; c_nr : Z; c_ns : Z; c_rem : list Z; c_log : list (list Z) }.

Section card.
(** The response of the card to a command after a history of commands, its
    error detection code, its block size and the node address it uses. *)
Context (app : list (list Z) -> list Z -> list Z) (c : csum_fn) (k : Z) (nad : Z).

Definition parse_block (bytes : list Z) : option (Z * list Z) :=
  match bytes with
  | a :: pcb :: len :: rest =>
      let inf := take (Z.to_nat len) rest in
      if bool_decide (bytes = enc c a pcb inf) then Some (pcb, inf) else None
  | _ => None
  end.

Definition card_reply (cd : card) : list Z :=
  match c_rem cd with
  | [] => enc c nad (r_pcb (c_nr cd) 0) []
  | rem => enc c nad (i_pcb (c_ns cd) (k <? zlen rem)) (take (Z.to_nat k) rem)
  end.

(** The answer to a block that arrived damaged. *)
Definition card_refuse (cd : card) : list Z := enc c nad (r_pcb (c_nr cd) T1_EDC_ERROR) [].

(** The last chunk sent was received. *)
Definition card_acked (cd : card) : card :=
  match c_rem cd with
  | [] => cd
  | rem => mk_card (c_rx cd) (c_nr cd) (Z.lxor (c_ns cd) 1) (drop (Z.to_nat k) rem) (c_log cd)
  end.

Definition card_I (pcb : Z) (inf : list Z) (cd : card) : card :=
  let cd := card_acked cd in
  let rx := c_rx cd ++ inf in
  let nr := Z.lxor (c_nr cd) 1 in
  if nz (Z.land pcb T1_MORE_BLOCKS) then mk_card rx nr (c_ns cd) [] (c_log cd)
  else mk_card [] nr (c_ns cd) (app (c_log cd) rx) (c_log cd ++ [rx]).

Definition card_recv (cd : card) (bytes : list Z) : card * list Z :=
  match parse_block bytes with
  | None => (cd, card_refuse cd)
  | Some (pcb, inf) =>
      if t1_block_type pcb =? T1_I_BLOCK then
        if t1_seq pcb =? c_nr cd then (card_I pcb inf cd, card_reply (card_I pcb inf cd))
        else (cd, card_refuse cd)
      else if t1_block_type pcb =? T1_R_BLOCK then
        let cd := if t1_seq pcb =? c_ns cd then cd else card_acked cd in (cd, card_reply cd)
      else
        let cd := if T1_S_TYPE pcb =? T1_S_RESYNC then mk_card [] 0 0 [] (c_log cd) else cd in
        (cd, enc c nad (Z.lor pcb T1_S_RESPONSE) inf)
  end.

(** ** The link

    What can happen to one exchange: nothing; the card's block arrives damaged
    ([ReplyBad]); it is lost, and [t1_xcv] returns [n] with [err] set; the
    host's block is lost, so that the card stays silent; it arrives damaged. *)
Inductive fault :=
| NoFault
| ReplyBad (bytes : list Z)
| ReplyLost (n err : Z)
| RequestLost (n err : Z)
| RequestBad.

Record link := mk_link { l_card : card; l_err : Z; l_wtx : Z; l_sched : list fault }.

Definition xcv (w : link) (block : list Z) (slen : Z) : option (Z * link * list Z) :=
  bytes ← rdn block 0 slen;
  let cd := l_card w in
  let step := card_recv cd bytes in
  match l_sched w with
  | [] => b ← wrn block 0 step.2; Some (zlen step.2, mk_link step.1 (l_err w) (l_wtx w) [], b)
  | f :: fs =>
      match f with
      | NoFault => b ← wrn block 0 step.2; Some (zlen step.2, mk_link step.1 (l_err w) (l_wtx w) fs, b)
      | ReplyBad g => b ← wrn block 0 g; Some (zlen g, mk_link step.1 (l_err w) (l_wtx w) fs, b)
      | ReplyLost n e => Some (n, mk_link step.1 e (l_wtx w) fs, block)
      | RequestLost n e => Some (n, mk_link cd e (l_wtx w) fs, block)
      | RequestBad =>
          b ← wrn block 0 (card_refuse cd);
          Some (zlen (card_refuse cd), mk_link cd (l_err w) (l_wtx w) fs, b)
      end
  end.

Definition card_link : T1Link link := {|
  lk_xcv := xcv;
  lk_err := l_err;
  lk_set_err := fun e w => mk_link (l_card w) e (l_wtx w) (l_sched w);
  lk_set_WTX := fun v w => mk_link (l_card w) (l_err w) v (l_sched w);
|}.

(** A damaged block is one the error detection code exposes. *)
Definition damaged (g : list Z) : Prop :=
  zlen g <= T1_BUFFER_SIZE /\
  let m := Z.to_nat (zlen g - csum_len c) in
  (zlen g < csum_len c \/ drop m g <> checksum c (take m g)).

Definition fault_ok (f : fault) : Prop :=
  match f with
  | NoFault => True
  | ReplyBad g => damaged g
  | ReplyLost n _ | RequestLost n _ => n < 0
  | RequestBad => c = csum_lrc
  end.

(** [survivable R r fs]: with [r] retries left, the faults of [fs] never occur
    [R] times in a row. *)
Fixpoint survivable (R r : Z) (fs : list fault) : Prop :=
  match fs with
  | [] => True
  | f :: fs => fault_ok f /\
      match f with
      | NoFault => survivable R R fs
      | _ => 2 <= r /\ survivable R (r - 1) fs
      end
  end.

(** Host and card agree between two commands: on both sequence numbers, up to
    an acknowledgement of the last chunk the card cannot have yet. *)
Definition in_step (t1_nr : Z) (cd : card) : Prop :=
  (c_rem cd = [] /\ c_ns cd = t1_nr) \/
  (c_rem cd <> [] /\ zlen (c_rem cd) <= k /\ c_ns cd = Z.lxor t1_nr 1).

Definition in_sync (t1 : t1_state_t) (cd : card) : Prop :=
  c_rx cd = [] /\ c_nr cd = ns t1 /\ in_step (nr t1) cd.
End card.

(** ** Facts about the card *)
Lemma parse_enc c a pcb inf : parse_block c (enc c a pcb inf) = Some (pcb, inf).
Proof.
  unfold parse_block; change (enc c a pcb inf) with
    (a :: pcb :: zlen inf :: (inf ++ checksum c (a :: pcb :: zlen inf :: inf))) at 1.
  cbv beta iota zeta; rewrite zlen_to_nat, take_app_length.
  by rewrite bool_decide_true.
Qed.

Lemma damaged_verify c t1 g rest :
  csum t1 = c -> rc_bytes t1 = csum_len c -> damaged c g ->
  t1_verify_checksum t1 (g ++ rest) (zlen g) = Some false.
Proof.
  intros Hc Hrc [_ Hg]; unfold t1_verify_checksum; rewrite Hrc, Hc.
  pose proof (csum_len_pos c); pose proof (zlen_nonneg rest).
  destruct (zlen g - csum_len c <? 0) eqn:E; zbool; [done|].
  destruct Hg as [? | Hg]; [lia|].
  rewrite !rdn_in by (zlen_simpl; lia); cbn [mbind option_bind].
  rewrite bool_decide_false; [done|]; contradict Hg.
  unfold slice in Hg; rewrite drop_0, take_app_le, drop_app_le in Hg by (unfold zlen in *; lia).
  rewrite take_app_le, take_ge in Hg; [|rewrite length_drop; unfold zlen in *; lia..].
  rewrite take_ge in Hg; [done|].
  rewrite <- zlen_to_nat, checksum_len; lia.
Qed.

Section reliable.
Context (app : list (list Z) -> list Z -> list Z) (c : csum_fn) (k : Z) (dad : Z) (emv : bool).
Context (R : Z) (L : list (list Z)) (cmd : list Z).
Hypothesis Hk : 1 <= k <= 254.
Hypothesis Hdad : is_u8 dad.
Hypothesis HR : 1 <= R < 4294967296.
Hypothesis Hresp : 1 <= zlen (app L cmd) <= T1_BUFFER_SIZE.
Let nad := swap_nibbles dad.
Let resp := app L cmd.
Implicit Types (x : xfer link) (cd : card).
#[local] Instance this_link : T1Link link := card_link app c k nad.

Definition sdat x : list Z := ct_data (x_sbuf x).
Definition rdat x : list Z := ct_data (x_rbuf x).

(** ** The invariant of the loop *)
Record hok x : Prop := {
  h_t1 : t1_ok (x_t1 x);
  h_csum : csum (x_t1 x) = c;
  h_R : retries (x_t1 x) = R;
  h_sd : zlen (x_sdata x) = T1_BUFFER_SIZE;
  h_sb : ct_wf (x_sbuf x);
  h_rb : ct_wf (x_rbuf x);
  h_rb0 : head (x_rbuf x) = 0;
  h_rbs : size (x_rbuf x) = T1_BUFFER_SIZE;
}.

Definition big x : bool := ifsc (x_t1 x) <? zlen (sdat x).
Definition chunk x : list Z := take (Z.to_nat (ifsc (x_t1 x))) (sdat x).

(** The last I-block sent has sequence number [n]. *)
Definition sent_seq (n : Z) (t1 : t1_state_t) : Prop :=
  exists p, rd (previous_i_block t1) 1 = Some p /\ t1_block_type p = T1_I_BLOCK /\ t1_seq p = n.

Definition sending x : Prop :=
  sent_seq (ns (x_t1 x)) (x_t1 x) /\
  t1_state (x_t1 x) = SENDING /\ t1_more (x_t1 x) = (if big x then 1 else 0) /\
  x_last_send x = zlen (chunk x) /\ rdat x = [] /\ sdat x <> [].

Definition receiving x : Prop :=
  t1_state (x_t1 x) = RECEIVING /\ t1_more (x_t1 x) = 0 /\ sdat x = [] /\
  sent_seq (Z.lxor (ns (x_t1 x)) 1) (x_t1 x).

(** The card has not received the host's chunk; it has, and more is to come; it
    has, and answers it; the host has not received the card's chunk; it has. *)
Definition ph_unheard x cd : Prop :=
  sending x /\ c_nr cd = ns (x_t1 x) /\ c_rx cd ++ sdat x = cmd /\ c_log cd = L /\
  in_step k (nr (x_t1 x)) cd.
Definition ph_chained x cd : Prop :=
  sending x /\ c_nr cd = Z.lxor (ns (x_t1 x)) 1 /\ big x = true /\
  c_rx cd ++ drop (length (chunk x)) (sdat x) = cmd /\ c_log cd = L /\
  c_rem cd = [] /\ c_ns cd = nr (x_t1 x).
Definition ph_answered x cd : Prop :=
  sending x /\ c_nr cd = Z.lxor (ns (x_t1 x)) 1 /\ big x = false /\
  c_rx cd = [] /\ c_log cd = L ++ [cmd] /\ c_rem cd = resp /\ c_ns cd = nr (x_t1 x).
Definition ph_receive x cd : Prop :=
  receiving x /\ c_nr cd = ns (x_t1 x) /\ c_rx cd = [] /\ c_log cd = L ++ [cmd] /\
  c_rem cd <> [] /\ c_ns cd = nr (x_t1 x) /\ rdat x ++ c_rem cd = resp.
Definition ph_received x cd : Prop :=
  receiving x /\ c_nr cd = ns (x_t1 x) /\ c_rx cd = [] /\ c_log cd = L ++ [cmd] /\
  k < zlen (c_rem cd) /\ c_ns cd = Z.lxor (nr (x_t1 x)) 1 /\
  rdat x ++ drop (Z.to_nat k) (c_rem cd) = resp.

(** The states after the card has taken in a block of the host. *)
Definition heard x cd : Prop :=
  (ph_unheard x cd /\ c_rem cd = []) \/ ph_chained x cd \/ ph_answered x cd \/ ph_receive x cd.
Definition phase x cd : Prop :=
  ph_unheard x cd \/ ph_chained x cd \/ ph_answered x cd \/ ph_receive x cd \/ ph_received x cd.

(** The block about to be sent. *)
Definition sends x (e : list Z) : Prop :=
  (exists rest, x_sdata x = e ++ rest) /\ x_slen x = zlen e /\ previous_block (x_t1 x) = take 4 e.
Definition out_I x : Prop := sends x (enc c dad (i_pcb (ns (x_t1 x)) (big x)) (chunk x)).
Definition out_R x : Prop :=
  exists e, 0 <= e < 16 /\ sends x (enc c dad (r_pcb (nr (x_t1 x)) e) []).

(** What is left to do; [m] bounds the exchanges without a fault to come. *)
Definition togo x : Z := 2 * zlen (sdat x) + zlen resp - zlen (rdat x).

Definition inv (m : Z) x : Prop :=
  let cd := l_card (x_w x) in
  hok x /\ l_err (x_w x) = 0 /\
  ((ph_unheard x cd /\ out_I x /\ m = togo x) \/ (phase x cd /\ out_R x /\ m = togo x + 1)).

Lemma heard_phase x cd : heard x cd -> phase x cd.
Proof. unfold heard, phase; naive_solver. Qed.

(** ** The card's side of an exchange *)
Lemma card_acked_nil k' cd : c_rem cd = [] -> card_acked k' cd = cd.
Proof. unfold card_acked; intros ->; done. Qed.

Lemma card_acked_cons cd : c_rem cd <> [] ->
  card_acked k cd = mk_card (c_rx cd) (c_nr cd) (Z.lxor (c_ns cd) 1) (drop (Z.to_nat k) (c_rem cd)) (c_log cd).
Proof. unfold card_acked; destruct (c_rem cd); done. Qed.

Lemma card_hears_R x cd e :
  hok x -> phase x cd -> 0 <= e < 16 ->
  exists cd', card_recv app c k nad cd (enc c dad (r_pcb (nr (x_t1 x)) e) [])
    = (cd', card_reply c k nad cd') /\ heard x cd'.
Proof.
  intros Hh Hp He; unfold card_recv; rewrite parse_enc.
  pose proof (ok_nr _ (h_t1 _ Hh)) as Hnr.
  destruct (r_pcb_spec (nr (x_t1 x)) e Hnr He) as (_ & -> & -> & _); simpl.
  eexists; split; [reflexivity|].
  assert (Hne : Z.lxor (nr (x_t1 x)) 1 <> nr (x_t1 x)) by by apply bit_lxor_ne.
  unfold phase in Hp; destruct_or! Hp.
  - destruct Hp as (? & ? & ? & ? & [[? ?] | (? & ? & Hn)]).
    + zcase; rewrite ?card_acked_nil by done; left; unfold ph_unheard, in_step; split_and!; auto.
    + rewrite Hn, (proj2 (Z.eqb_neq _ _)) by done.
      rewrite card_acked_cons by done; left; unfold ph_unheard, in_step; simpl.
      rewrite Hn, bit_lxor_lxor, drop_ge by (done || (unfold zlen in *; lia)); split_and!; auto.
  - pose proof Hp as (? & ? & ? & ? & ? & ? & Hn); rewrite Hn, Z.eqb_refl; unfold heard; auto.
  - pose proof Hp as (? & ? & ? & ? & ? & ? & Hn); rewrite Hn, Z.eqb_refl; unfold heard; auto.
  - pose proof Hp as (? & ? & ? & ? & ? & Hn & ?); rewrite Hn, Z.eqb_refl; unfold heard; auto.
  - destruct Hp as (? & ? & ? & ? & ? & Hn & ?); rewrite Hn, (proj2 (Z.eqb_neq _ _)) by done.
    assert (c_rem cd <> []) by (intros Hr; rewrite Hr in *; zlen_simpl; lia).
    rewrite card_acked_cons by done; do 3 right; unfold ph_receive; simpl.
    rewrite Hn, bit_lxor_lxor by done; split_and!; try done.
    intros Hd%(f_equal zlen); zlen_simpl; lia.
Qed.

Lemma card_hears_I x cd :
  hok x -> ph_unheard x cd ->
  exists cd', card_recv app c k nad cd (enc c dad (i_pcb (ns (x_t1 x)) (big x)) (chunk x))
    = (cd', card_reply c k nad cd') /\ (ph_chained x cd' \/ ph_answered x cd').
Proof.
  intros Hh (Hs & Hcn & Hrx & Hlog & Hst); unfold card_recv; rewrite parse_enc.
  pose proof (ok_ns _ (h_t1 _ Hh)) as Hns; pose proof (ok_nr _ (h_t1 _ Hh)) as Hnr.
  destruct (i_pcb_spec (ns (x_t1 x)) (big x) Hns) as (_ & -> & -> & Hm).
  rewrite Hcn, !Z.eqb_refl; eexists; split; [reflexivity|].
  assert (Hcd : exists ns' rem', card_acked k cd = mk_card (c_rx cd) (c_nr cd) ns' rem' (c_log cd) /\
            ns' = nr (x_t1 x)).
  { destruct Hst as [[Hr ?] | (Hr & ? & Hn)].
    - rewrite card_acked_nil by done; destruct cd; simpl in *; eauto.
    - rewrite card_acked_cons by done; rewrite Hn, bit_lxor_lxor by done; eauto. }
  destruct Hcd as (ns' & rem' & Hcd & ->); unfold card_I; rewrite Hcd, Hm; cbn [c_rx c_nr c_ns c_log].
  rewrite Hcn, Hlog.
  assert (Hsplit : chunk x ++ drop (length (chunk x)) (sdat x) = sdat x).
  { unfold chunk; rewrite length_take; rewrite <- (take_drop (Z.to_nat (ifsc (x_t1 x))) (sdat x)) at 4.
    f_equal; destruct (decide (Z.to_nat (ifsc (x_t1 x)) <= length (sdat x))%nat).
    - by rewrite Nat.min_l.
    - rewrite !drop_ge; [done|lia..]. }
  destruct (big x) eqn:Hb; simpl.
  - left; unfold ph_chained; simpl; rewrite <- app_assoc, Hsplit; split_and!; auto.
  - right; unfold ph_answered; simpl.
    assert (chunk x = sdat x) as ->.
    { unfold chunk; unfold big in Hb; zbool; apply take_ge; unfold zlen in *; lia. }
    rewrite Hrx; split_and!; auto.
Qed.

(** ** The host's side of an exchange *)
Lemma sends_enc x t1 a pcb inf (rest : list Z) n :
  let e := enc c a pcb inf in
  previous_block t1 = take 4 e -> x_sdata x = e ++ rest -> x_slen x = zlen e -> x_t1 x = t1 ->
  n = zlen e -> sends x e.
Proof. intros e ? ? ? ? ->; split_and!; subst; eauto. Qed.

(** A control block only changes the block buffers. *)
Definition sent_ctl x (pb sd : list Z) (n : Z) : xfer link :=
  x <| x_t1 := (x_t1 x) <| previous_block := pb |> |> <| x_sdata := sd |> <| x_slen := n |>.

Lemma host_build_R x e :
  hok x -> 0 <= e < 16 ->
  exists pb sd n, build_ctl dad (Z.lor T1_R_BLOCK e) x = Some (sent_ctl x pb sd n) /\
    hok (sent_ctl x pb sd n) /\ out_R (sent_ctl x pb sd n).
Proof.
  intros Hh He; pose proof Hh as [Ht Hc HRt Hsd ? ? ? ?]; unfold build_ctl.
  destruct (t1_build_R (x_t1 x) (x_sdata x) dad e (ok_wf _ Ht) Hsd Hdad He) as (e' & He' & Hm).
  rewrite Hm; cbn [mbind option_bind]; rewrite Hc; set (b := enc c dad _ _).
  assert (Hl : zlen b = 3 + csum_len c) by (unfold b; by rewrite enc_len_lrc).
  pose proof (csum_len_pos c).
  eexists _, _, _; split; [reflexivity|]; split.
  - destruct Ht as [[]]; split; try done.
    + split; try done; split; try done; exact (zlen_take4_enc _ _ _ _).
    + change (zlen (b ++ drop (length b) (x_sdata x)) = T1_BUFFER_SIZE).
      unfold zlen in *; rewrite length_app, length_drop; unfold T1_BUFFER_SIZE in *; lia.
  - exists e'; split; [done|]; split_and!; simpl; eauto.
Qed.

Lemma host_reject x e :
  hok x -> 0 <= e < 16 -> 0 < x_retries x ->
  exists pb sd n, reject dad e x = Some (JContinue, sent_ctl x pb sd n) /\
    hok (sent_ctl x pb sd n) /\ out_R (sent_ctl x pb sd n).
Proof.
  intros Hh He Hr; unfold reject; rewrite (proj2 (Z.leb_gt _ _)) by done.
  assert (Hpcb : exists e', 0 <= e' < 16 /\
    (if nz (icc_has_more (x_t1 x)) then T1_R_BLOCK else Z.lor T1_R_BLOCK e) = Z.lor T1_R_BLOCK e').
  { destruct (nz _); [exists 0 | exists e]; split; done || lia. }
  destruct Hpcb as (e' & He' & ->).
  destruct (host_build_R x e' Hh He') as (pb & sd & n & -> & ?); exists pb, sd, n; done.
Qed.

(** The send buffer once its first chunk is acknowledged. *)
Lemma host_ack x :
  hok x -> sending x ->
  exists sb, ack_sent x = Some (x <| x_sbuf := sb |> <| x_last_send := 0 |>
      <| x_t1 := (x_t1 x) <| ns := Z.lxor (ns (x_t1 x)) 1 |> |>) /\
    ct_wf sb /\ ct_data sb = drop (length (chunk x)) (sdat x).
Proof.
  intros Hh (_ & _ & _ & Hl & _ & _); unfold ack_sent; rewrite Hl.
  destruct (ct_buf_get_ok (x_sbuf x) false (zlen (chunk x)) (h_sb _ Hh)) as (sb & -> & ? & Hd & _).
  - unfold chunk, sdat; rewrite zlen_take; pose proof (zlen_nonneg (ct_data (x_sbuf x))); lia.
  - exists sb; split_and!; try done; by rewrite Hd, zlen_to_nat.
Qed.

Lemma chunk_len x : hok x -> sdat x <> [] -> 1 <= zlen (chunk x) <= zlen (sdat x).
Proof.
  intros Hh Hn; unfold chunk; rewrite zlen_take; pose proof (ok_ifsc _ (h_t1 _ Hh)).
  destruct (sdat x); [done|]; zlen_simpl; pose proof (zlen_nonneg l); lia.
Qed.

Lemma big_rest x : hok x -> big x = true -> 1 <= zlen (drop (length (chunk x)) (sdat x)).
Proof.
  intros Hh Hb; unfold big in Hb; zbool; rewrite zlen_drop; unfold chunk; rewrite length_take.
  pose proof (ok_ifsc _ (h_t1 _ Hh)); unfold zlen in *; lia.
Qed.

Lemma chunk_all x : big x = false -> chunk x = sdat x.
Proof. unfold big, chunk; intros Hb; zbool; apply take_ge; unfold zlen in *; lia. Qed.

(** Building the next I-block. *)
Lemma host_build_I x :
  hok x -> exists x', build_I dad x = Some x' /\ hok x' /\ out_I x' /\ x_w x' = x_w x /\
    x_retries x' = x_retries x /\ x_sbuf x' = x_sbuf x /\ x_rbuf x' = x_rbuf x /\
    ns (x_t1 x') = ns (x_t1 x) /\ nr (x_t1 x') = nr (x_t1 x) /\
    t1_state (x_t1 x') = t1_state (x_t1 x) /\ sent_seq (ns (x_t1 x)) (x_t1 x') /\
    t1_more (x_t1 x') = (if big x' then 1 else 0) /\ x_last_send x' = zlen (chunk x').
Proof.
  intros Hh; pose proof Hh as [Ht Hc HRt Hsd Hsb ? ? ?]; unfold build_I.
  destruct (t1_build_I (x_t1 x) (x_sdata x) dad (x_sbuf x) Ht Hsd Hdad Hsb) as (pib & Hpib & Htk & Hm).
  rewrite Hm; cbn [mbind option_bind]; rewrite Hc in *.
  set (e := enc c dad _ _) in *.
  assert (He : zlen e <= T1_BUFFER_SIZE).
  { unfold e; rewrite enc_len, zlen_take; pose proof (ok_size _ Ht); pose proof (ok_ifsc _ Ht); unfold fits in *; rewrite <- Hc.
    pose proof (zlen_nonneg (ct_data (x_sbuf x))); lia. }
  eexists; split; [reflexivity|]; split_and!; try done.
  - split; try done.
    + apply t1_ok_remember; try done; exact (zlen_take4_enc _ _ _ _).
    + change (zlen (e ++ drop (length e) (x_sdata x)) = T1_BUFFER_SIZE).
      unfold zlen in *; rewrite length_app, length_drop; lia.
  - split_and!; simpl; eauto.
  - destruct (i_pcb_spec (ns (x_t1 x)) (ifsc (x_t1 x) <? zlen (ct_data (x_sbuf x))) (ok_ns _ Ht)) as (_ & ? & ? & _).
    eexists; split; [|done]; change (rd pib 1 = Some (i_pcb (ns (x_t1 x)) (ifsc (x_t1 x) <? zlen (ct_data (x_sbuf x))))).
    rewrite <- (take_drop (length e) pib), Htk; done.
Qed.

(** A well-formed block reaches the handler of its type. *)
Lemma on_block_enc x pcb inf rest :
  hok x -> zlen inf <> 255 -> x_sdata x = enc c nad pcb inf ++ rest ->
  on_block emv dad (zlen (enc c nad pcb inf)) x =
    if t1_block_type pcb =? T1_R_BLOCK then handle_R emv dad pcb x
    else if t1_block_type pcb =? T1_I_BLOCK then handle_I dad pcb x
    else handle_S dad pcb x.
Proof.
  intros Hh Hi Hsd; unfold on_block; rewrite Hsd.
  rewrite <- (h_csum _ Hh), t1_verify_enc by apply Hh; cbn [mbind option_bind negb].
  destruct (enc_fields (csum (x_t1 x)) nad pcb inf rest) as (-> & -> & -> & _); cbn [mbind option_bind].
  unfold nad; by rewrite Z.eqb_refl, (proj2 (Z.eqb_neq _ _) Hi).
Qed.

(** Sending goes on with the first chunk of what is in the send buffer. *)
Lemma host_resume x cd :
  hok x -> t1_state (x_t1 x) = SENDING -> rdat x = [] -> sdat x <> [] ->
  c_nr cd = ns (x_t1 x) -> c_rx cd ++ sdat x = cmd -> c_log cd = L -> in_step k (nr (x_t1 x)) cd ->
  (emv && (ct_buf_avail (x_sbuf x) =? 0))%bool = false /\
  exists x', build_I dad x = Some x' /\ hok x' /\ ph_unheard x' cd /\ out_I x' /\ togo x' = togo x /\
    x_w x' = x_w x /\ x_retries x' = x_retries x.
Proof.
  intros Hh Hst Hrd Hsd Hcn Hcmd Hlog Hin.
  destruct (host_build_I x Hh) as (x' & Hm & Hh' & Ho & Hw & Hr & Hsb & Hrb & Hn & Hn' & Hst' & Hsq & Hm' & Hl').
  assert (Hd : sdat x' = sdat x) by (unfold sdat; by rewrite Hsb).
  assert (Hd' : rdat x' = rdat x) by (unfold rdat; by rewrite Hrb).
  split.
  - rewrite ct_avail_data by apply Hh; fold (sdat x); apply andb_false_iff; right; apply Z.eqb_neq.
    destruct (sdat x); [done | zlen_simpl; pose proof (zlen_nonneg l); lia].
  - exists x'; split_and!; try done.
    + unfold ph_unheard, sending; rewrite Hn, Hn', Hst', Hd, Hd'; split_and!; done.
    + unfold togo; rewrite Hd, Hd'; lia.
Qed.

(** An R-block while sending: the chunk, the same again or the next one. *)
Lemma host_R_sending x cd e :
  hok x -> ph_unheard x cd \/ ph_chained x cd -> 0 <= e < 16 -> rd (x_sdata x) LEN = Some 0 ->
  exists x', handle_R emv dad (r_pcb (c_nr cd) e) x =
      Some (if nz e then (if x_retries x <=? 0 then JResync else JContinue) else JBreak, x') /\
    hok x' /\ ph_unheard x' cd /\ out_I x' /\ togo x' <= togo x /\ (ph_chained x cd -> togo x' < togo x) /\
    x_w x' = x_w x /\ x_retries x' = x_retries x.
Proof.
  intros Hh Hp He Hlen; unfold handle_R; rewrite Hlen; cbn [mbind option_bind].
  pose proof (ok_ns _ (h_t1 _ Hh)) as Hns.
  assert (Hs : sending x) by (destruct Hp as [Hp | Hp]; apply Hp).
  assert (Hb : is_bit (c_nr cd)).
  { destruct Hp as [(_ & -> & _) | (_ & -> & _)]; auto with cmem. }
  destruct (r_pcb_spec (c_nr cd) e Hb He) as (_ & _ & -> & -> & ->); simpl.
  pose proof Hs as (_ & Hst & Hmore & Hls & Hrd & Hsd); rewrite Hst; cbn [Z.eqb].
  destruct Hp as [(_ & Hcn & Hcmd & Hlog & Hin) | (_ & Hcn & Hbig & Hcmd & Hlog & Hrem & Hcns)]; rewrite Hcn.
  - rewrite Z.eqb_refl; cbn [negb andb mbind option_bind].
    destruct (host_resume x cd) as (-> & x' & -> & ? & ? & ? & Ht & Hw & Hr); try done.
    cbn [mbind option_bind]; exists x'; rewrite Hr; split_and!; try done; [by destruct (nz e) | lia |].
    intros (_ & Hx & _); rewrite Hcn in Hx; by apply bit_lxor_ne in Hns.
  - rewrite Hmore, Hbig, (proj2 (Z.eqb_neq _ _) (bit_lxor_ne _ Hns)); cbn [negb andb Z.eqb].
    destruct (host_ack x Hh Hs) as (sb & -> & Hwf & Hdat); cbn [mbind option_bind].
    set (y := x <| x_sbuf := sb |> <| x_last_send := 0 |> <| x_t1 := _ |>).
    assert (Hy : hok y).
    { destruct Hh as [[[]]]; split; try done; split; try done; split; try done; simpl; auto with cmem. }
    pose proof (big_rest x Hh Hbig) as Hrest.
    assert (Hyd : sdat y = drop (length (chunk x)) (sdat x)) by done.
    destruct (host_resume y cd) as (-> & x' & -> & ? & ? & ? & Ht & Hw & Hr); try done.
    + intros Hn; rewrite <- Hyd, Hn in Hrest; zlen_simpl; lia.
    + by rewrite Hyd.
    + by left.
    + assert (togo x' < togo x).
      { rewrite Ht; unfold togo; rewrite Hyd, zlen_drop; change (rdat y) with (rdat x).
        pose proof (chunk_len x Hh Hsd); unfold zlen in *; lia. }
      cbn [mbind option_bind]; exists x'; rewrite Hr; split_and!; try done; [by destruct (nz e) | lia].
Qed.

(** A chunk of the response. The first one also acknowledges the command. *)
Lemma host_enter x cd :
  hok x -> ph_answered x cd \/ ph_receive x cd ->
  exists y, (if t1_state (x_t1 x) =? SENDING then ack_sent x else Some x) = Some y /\ hok y /\
    ns (x_t1 y) = c_nr cd /\ nr (x_t1 y) = nr (x_t1 x) /\ t1_more (x_t1 y) = 0 /\
    sdat y = [] /\ x_rbuf y = x_rbuf x /\ x_sdata y = x_sdata x /\
    sent_seq (Z.lxor (ns (x_t1 y)) 1) (x_t1 y) /\ x_w y = x_w x /\ x_retries y = x_retries x /\
    rdat x ++ c_rem cd = resp.
Proof.
  intros Hh [Hp | Hp].
  - destruct Hp as (Hs & Hcn & Hbig & _ & _ & Hrem & _); pose proof Hs as (Hsq & Hst & Hm & _ & Hrd & _).
    rewrite Hst; cbn [Z.eqb]; destruct (host_ack x Hh Hs) as (sb & -> & Hwf & Hd).
    eexists; split; [reflexivity|]; split_and!; try done.
    + destruct Hh as [[[]]]; split; try done; split; try done; split; try done; simpl; auto with cmem.
    + change (t1_more (x_t1 x) = 0); by rewrite Hm, Hbig.
    + change (ct_data sb = []); rewrite Hd, (chunk_all x Hbig); by apply drop_ge.
    + simpl; rewrite bit_lxor_lxor by apply Hh; done.
    + by rewrite Hrd, Hrem.
  - destruct Hp as ((Hst & Hm & Hsd & Hsq) & Hcn & _ & _ & _ & _ & Hr); rewrite Hst; cbn [Z.eqb].
    exists x; split_and!; done.
Qed.

Definition finished x cd : Prop :=
  rdat x = resp /\ c_log cd = L ++ [cmd] /\ in_sync k (x_t1 x) cd /\ t1_state (x_t1 x) = RECEIVING.

(** What is left of [handle_I] once the sequence number is right. *)
Definition store_chunk (pcb : Z) x : option (jump * xfer link) :=
  l ← rd (x_sdata x) LEN;
  d ← rdn (x_sdata x) 3 l;
  '(n, rb) ← ct_buf_put (x_rbuf x) d;
  let x := x <| x_rbuf := rb |> in
  if n <? 0 then Some (JError, x)
  else if Z.land pcb T1_MORE_BLOCKS =? 0 then Some (JDone, x)
  else
    p ← rd (previous_block (x_t1 x)) PCB;
    pb ← (if nz (T1_IS_ERROR p) && (t1_block_type p =? T1_R_BLOCK)
          then wr (previous_block (x_t1 x)) PCB 0 else Some (previous_block (x_t1 x)));
    x ← build_ctl dad T1_R_BLOCK
          (x <| x_t1 := (x_t1 x) <| previous_block := pb |> <| icc_has_more := 1 |> |>);
    Some (JBreak, x).

Lemma host_put x inf :
  hok x -> zlen (rdat x ++ inf) <= T1_BUFFER_SIZE ->
  exists rb, ct_buf_put (x_rbuf x) inf = Some (zlen inf, rb) /\ hok (x <| x_rbuf := rb |>) /\
    ct_data rb = rdat x ++ inf.
Proof.
  intros Hh Hf; unfold rdat in *; pose proof Hh as [? ? ? ? ? Hwf Hhd Hsz].
  destruct (ct_buf_put_ok (x_rbuf x) inf Hwf) as (rb & -> & Hwf' & Hd & _ & Hhd' & _ & Hsz' & _).
  - rewrite Hsz; revert Hf; zlen_simpl; rewrite <- ct_avail_data by done.
    destruct Hwf; unfold ct_buf_avail; rewrite u32_id by lia; lia.
  - exists rb; split_and!; try done; split; simpl; congruence || done.
Qed.

Lemma host_store y cd :
  let inf := take (Z.to_nat k) (c_rem cd) in
  let m := k <? zlen (c_rem cd) in
  hok y -> ns (x_t1 y) = c_nr cd -> nr (x_t1 y) = Z.lxor (c_ns cd) 1 -> t1_more (x_t1 y) = 0 ->
  t1_state (x_t1 y) = RECEIVING -> sdat y = [] -> sent_seq (Z.lxor (ns (x_t1 y)) 1) (x_t1 y) ->
  is_bit (c_ns cd) -> c_rem cd <> [] -> c_rx cd = [] -> c_log cd = L ++ [cmd] -> rdat y ++ c_rem cd = resp ->
  rd (x_sdata y) LEN = Some (zlen inf) -> rdn (x_sdata y) 3 (zlen inf) = Some inf ->
  forall n, is_bit n ->
  exists x', store_chunk (i_pcb n m) y = Some (if m then JBreak else JDone, x') /\ hok x' /\
    x_w x' = x_w y /\ x_retries x' = x_retries y /\ togo x' = zlen resp - zlen (rdat y) - zlen inf /\
    if m then ph_received x' cd /\ out_R x' else finished x' cd.
Proof.
  intros inf m Hh Hns Hnr Hmore Hst Hsd Hsq Hb Hne Hrx Hlog Hr Hl Hd n Hn; unfold store_chunk.
  rewrite Hl; cbn [mbind option_bind]; rewrite Hd; cbn [mbind option_bind].
  destruct (i_pcb_spec n m Hn) as (_ & _ & _ & ->).
  assert (Hir : inf ++ drop (Z.to_nat k) (c_rem cd) = c_rem cd) by apply take_drop.
  destruct (host_put y inf Hh) as (rb & -> & Hz & Hrb).
  { unfold resp in Hr; rewrite <- Hr, <- Hir in Hresp; zlen_simpl.
    pose proof (zlen_nonneg (drop (Z.to_nat k) (c_rem cd))); lia. }
  cbn [mbind option_bind]; pose proof (zlen_nonneg inf).
  rewrite (proj2 (Z.ltb_ge (zlen inf) 0)) by lia.
  assert (Htogo : forall x', sdat x' = [] -> rdat x' = rdat y ++ inf -> togo x' = zlen resp - zlen (rdat y) - zlen inf).
  { intros x' E E'; unfold togo; rewrite E, E'; zlen_simpl; lia. }
  assert (Hcns : c_ns cd = Z.lxor (nr (x_t1 y)) 1) by by rewrite Hnr, bit_lxor_lxor.
  destruct m eqn:Hm; cbn [Z.eqb].
  - destruct (clear_prev_error (previous_block (x_t1 y))) as (p & pb & Hp & Hpb & Hl4); [apply Hh|].
    change (previous_block (x_t1 (y <| x_rbuf := rb |>))) with (previous_block (x_t1 y)).
    rewrite Hp; cbn [mbind option_bind]; rewrite Hpb; cbn [mbind option_bind].
    set (z := (y <| x_rbuf := rb |>) <| x_t1 := _ |>).
    assert (Hz' : hok z) by (destruct Hz as [[[]]]; split; try done; split; try done; split; done).
    assert (Hph : ph_received z cd).
    { unfold m in Hm; zbool; split_and!; try done.
      change (ct_data rb ++ drop (Z.to_nat k) (c_rem cd) = resp); by rewrite Hrb, <- app_assoc, Hir. }
    destruct (host_build_R z 0 Hz') as (pb' & sd & n' & Hx & Hh' & Ho); [lia|].
    change (Z.lor T1_R_BLOCK 0) with T1_R_BLOCK in Hx; rewrite Hx; cbn [mbind option_bind].
    eexists; split; [reflexivity|]; split_and!; try done; by apply Htogo.
  - eexists; split; [reflexivity|]; split_and!; try done; [by apply Htogo|].
    unfold m in Hm; zbool; split_and!; try done.
    + change (ct_data rb = resp); rewrite Hrb, <- Hr; f_equal; apply take_ge; unfold zlen in *; lia.
    + split_and!; try done; right; done.
Qed.

Lemma host_I x cd :
  let inf := take (Z.to_nat k) (c_rem cd) in
  let m := k <? zlen (c_rem cd) in
  hok x -> ph_answered x cd \/ ph_receive x cd ->
  rd (x_sdata x) LEN = Some (zlen inf) -> rdn (x_sdata x) 3 (zlen inf) = Some inf ->
  exists x', handle_I dad (i_pcb (c_ns cd) m) x = Some (if m then JBreak else JDone, x') /\
    hok x' /\ x_w x' = x_w x /\ x_retries x' = x_retries x /\ togo x' < togo x /\
    (ph_answered x cd -> togo x' + 1 < togo x) /\
    if m then ph_received x' cd /\ out_R x' else finished x' cd.
Proof.
  intros inf m Hh Hp Hl Hd; pose proof (ok_nr _ (h_t1 _ Hh)) as Hnr.
  assert (Hc : c_rem cd <> [] /\ c_rx cd = [] /\ c_log cd = L ++ [cmd] /\ c_ns cd = nr (x_t1 x)).
  { destruct Hp as [(_ & _ & _ & ? & ? & Hrem & ?) | (_ & _ & ? & ? & ? & ? & _)]; split_and!; try done.
    intros Hn; rewrite Hn in Hrem; fold resp in Hresp; rewrite <- Hrem in Hresp; zlen_simpl; lia. }
  destruct Hc as (Hne & Hrx & Hlog & Hns); unfold handle_I.
  destruct (host_enter x cd Hh Hp) as (y & -> & Hy & Hns' & Hnr' & Hmo & Hsd & Hrb & Hsdata & Hsq & Hw & Hre & Hr).
  cbn [mbind option_bind]; rewrite Hmo; cbn [nz Z.eqb negb].
  destruct (i_pcb_spec (c_ns cd) m) as (_ & _ & Hseq & _); [by rewrite Hns|].
  cbv zeta; rewrite Hseq.
  set (z := y <| x_t1 := (x_t1 y) <| t1_state := RECEIVING |> |>).
  change (nr (x_t1 z)) with (nr (x_t1 y)); rewrite Hnr', Hns, Z.eqb_refl; cbn [negb].
  change (exists x', store_chunk (i_pcb (nr (x_t1 x)) m)
    (z <| x_t1 := (x_t1 z) <| nr := Z.lxor (nr (x_t1 x)) 1 |> |>) = Some (if m then JBreak else JDone, x') /\
    hok x' /\ x_w x' = x_w x /\ x_retries x' = x_retries x /\ togo x' < togo x /\
    (ph_answered x cd -> togo x' + 1 < togo x) /\
    if m then ph_received x' cd /\ out_R x' else finished x' cd).
  assert (Hi : 1 <= zlen inf).
  { unfold inf; rewrite zlen_take; destruct (c_rem cd); [done|]; zlen_simpl; pose proof (zlen_nonneg l); lia. }
  destruct (host_store (z <| x_t1 := (x_t1 z) <| nr := Z.lxor (nr (x_t1 x)) 1 |> |>) cd) with (n := nr (x_t1 x))
    as (x' & Hst & Hx & Hwx & Hrx' & Ht & Hfin); try done; try (by rewrite Hns); try (by unfold z; simpl; rewrite Hsdata).
  - destruct Hy as [[[]]]; split; try done; split; try done; split; try done; simpl; auto with cmem.
  - unfold rdat; change (x_rbuf (z <| x_t1 := _ |>)) with (x_rbuf y); by rewrite Hrb.
  - assert (Hrd : zlen (rdat (z <| x_t1 := (x_t1 z) <| nr := Z.lxor (nr (x_t1 x)) 1 |> |>)) = zlen (rdat x)).
    { unfold rdat; change (x_rbuf (z <| x_t1 := _ |>)) with (x_rbuf y); by rewrite Hrb. }
    fold inf in Ht; rewrite Hrd in Ht; exists x'; pose proof (zlen_nonneg (sdat x)); unfold togo in *.
    pose proof (eq_trans Hwx Hw); pose proof (eq_trans Hrx' Hre).
    split_and!; try done; try lia.
    intros ((_ & _ & _ & _ & _ & Hn) & _); destruct (sdat x); [done|]; zlen_simpl.
    pose proof (zlen_nonneg l); lia.
Qed.

(** The card asks for the last R-block again while the host receives. *)
Definition prev_R x : Prop :=
  exists e, 0 <= e < 16 /\ previous_block (x_t1 x) = take 4 (enc c dad (r_pcb (nr (x_t1 x)) e) []).

Lemma host_rebuild x cd e :
  c = csum_lrc -> hok x -> receiving x -> prev_R x -> c_nr cd = ns (x_t1 x) -> 0 <= e < 16 ->
  rd (x_sdata x) LEN = Some 0 -> rd (x_sdata x) PCB = Some (r_pcb (c_nr cd) e) -> 0 < x_retries x ->
  exists pb sd n, handle_R emv dad (r_pcb (c_nr cd) e) x = Some (JContinue, sent_ctl x pb sd n) /\
    hok (sent_ctl x pb sd n) /\ out_R (sent_ctl x pb sd n).
Proof.
  intros Hc Hh (Hst & Hmo & Hsd & p & Hp & Hty & Hsq) (e' & He' & Hpb) Hcn He Hlen Hpcb Hr.
  pose proof (ok_ns _ (h_t1 _ Hh)) as Hns; pose proof (ok_nr _ (h_t1 _ Hh)) as Hnr.
  unfold handle_R; rewrite Hlen; cbn [mbind option_bind].
  destruct (r_pcb_spec (c_nr cd) e) as (_ & _ & Hsq' & _ & ->); [by rewrite Hcn | done |].
  rewrite Hsq', Hcn, Z.eqb_refl, Hst; cbn [nz Z.eqb negb andb orb Pos.eqb].
  set (b := enc c dad (r_pcb (nr (x_t1 x)) e') []) in *.
  assert (Hb : zlen b = 4) by (unfold b; by rewrite enc_len_lrc, Hc).
  assert (Hpb' : previous_block (x_t1 x) = b) by (rewrite Hpb; apply take_ge; unfold zlen in *; lia).
  assert (Hb1 : rd b 1 = Some (r_pcb (nr (x_t1 x)) e')) by done.
  destruct (r_pcb_spec (nr (x_t1 x)) e' Hnr He') as (_ & Htr & _).
  rewrite Hpb', Hb1; cbn [mbind option_bind]; rewrite Htr, Z.eqb_refl.
  rewrite (proj2 (Z.leb_gt _ _) Hr), andb_false_r.
  unfold t1_rebuild; rewrite Hpb', Hb1; cbn [mbind option_bind]; rewrite Hp; cbn [mbind option_bind].
  rewrite Hty, Z.eqb_refl, Hpcb; cbn [mbind option_bind].
  rewrite Hsq, Hsq', Hcn, (proj2 (Z.eqb_neq _ _) (bit_lxor_ne _ Hns)).
  assert (Hsl : slice b 0 4 = b) by (rewrite slice_0; apply take_ge; unfold zlen in *; lia).
  unfold memcpy; rewrite rdn_in, Hsl by lia; cbn [mbind option_bind].
  rewrite wrn_0 by (rewrite Hb, (h_sd _ Hh); done); cbn [mbind option_bind].
  exists b, (b ++ drop (length b) (x_sdata x)), 4; split_and!.
  - unfold sent_ctl; do 2 f_equal; rewrite <- Hpb'; by destruct x as [? []].
  - destruct Hh as [[[]] ? ? Hsdl]; split; try done.
    change (zlen (b ++ drop (length b) (x_sdata x)) = T1_BUFFER_SIZE).
    unfold T1_BUFFER_SIZE in *; unfold zlen in *; rewrite length_app, length_drop; lia.
  - exists e'; split; [done|]; split_and!; [by exists (drop (length b) (x_sdata x)) | done | ].
    change (b = take 4 b); by rewrite take_ge by (unfold zlen in *; lia).
Qed.

(** ** One exchange *)

(** The state in which the block received is examined. *)
Definition got x (w : link) (b : list Z) : xfer link :=
  x <| x_retries := u32 (x_retries x - 1) |> <| x_w := w |> <| x_sdata := b |>.

Lemma hok_got x w b : hok x -> zlen b = T1_BUFFER_SIZE -> hok (got x w b).
Proof. intros [] ?; by split. Qed.

Lemma sends_bytes x e : sends x e -> rdn (x_sdata x) 0 (x_slen x) = Some e.
Proof.
  intros ((rest & ->) & -> & _); rewrite rdn_in by (zlen_simpl; pose proof (zlen_nonneg e); pose proof (zlen_nonneg rest); lia).
  by rewrite slice_app_prefix.
Qed.

Lemma inv_sends m x : inv m x ->
  phase x (l_card (x_w x)) /\ togo x <= m <= togo x + 1 /\
  exists pcb inf, t1_block_type pcb <> T1_S_BLOCK /\ sends x (enc c dad pcb inf) /\
    (m = togo x + 1 -> prev_R x).
Proof.
  intros (Hh & _ & [(Hp & Ho & ->) | (Hp & (e & He & Ho) & ->)]);
    pose proof (ok_ns _ (h_t1 _ Hh)) as Hns; pose proof (ok_nr _ (h_t1 _ Hh)) as Hnr.
  - split; [by left|]; split; [lia|]; eexists _, _; split; [|split; [exact Ho | lia]].
    destruct (i_pcb_spec (ns (x_t1 x)) (big x) Hns) as (_ & -> & _); done.
  - split; [done|]; split; [lia|]; eexists _, _; split; [|split; [exact Ho|]].
    + destruct (r_pcb_spec (nr (x_t1 x)) e Hnr He) as (_ & -> & _); done.
    + intros _; exists e; split; [done | apply Ho].
Qed.

(** After a rejected block the host asks for it again. *)
Lemma inv_reject x w b pb sd n :
  let x' := sent_ctl (got x w b) pb sd n in
  hok x' -> out_R x' -> l_err w = 0 -> phase x (l_card w) -> inv (togo x + 1) x'.
Proof. intros x' Hh Ho He Hp; split; [done|]; split; [done|]; right; split_and!; done. Qed.

Lemma u32_pred r : 1 <= r < 4294967296 -> u32 (r - 1) = r - 1.
Proof. intros; apply u32_id; lia. Qed.

(** [t1_xcv] reports an error. *)
Lemma turn_error x m n w :
  inv m x -> 2 <= x_retries x <= R -> n < 0 -> phase x (l_card w) ->
  lk_xcv (x_w x) (x_sdata x) (x_slen x) = Some (n, w, x_sdata x) ->
  exists x', t1_turn emv dad x = Some (T1Running x') /\ inv (togo x + 1) x' /\
    x_retries x' = x_retries x - 1 /\ l_sched (x_w x') = l_sched w.
Proof.
  intros Hi Hr Hn Hp Hx; pose proof (proj1 Hi) as Hh.
  destruct (inv_sends _ _ Hi) as (_ & _ & pcb & inf & Hty & Hs & _).
  unfold t1_turn; change (lk_xcv (x_w (x <| x_retries := _ |>)) _ _) with (lk_xcv (x_w x) (x_sdata x) (x_slen x)).
  rewrite Hx; cbn [mbind option_bind].
  change ((x <| x_retries := u32 (x_retries x - 1) |>) <| x_w := w |> <| x_sdata := x_sdata x |>)
    with (got x w (x_sdata x)).
  set (w0 := mk_link (l_card w) 0 (l_wtx w) (l_sched w)).
  assert (Hpos : 0 < x_retries (got x w (x_sdata x))) by (simpl; rewrite u32_pred; lia).
  pose proof (hok_got x w0 (x_sdata x) Hh (h_sd _ Hh)) as Hg0.
  pose proof (hok_got x w (x_sdata x) Hh (h_sd _ Hh)) as Hg.
  destruct (_ || _ || _)%bool.
  - unfold on_parity; rewrite (proj2 (Z.leb_gt _ _) Hpos).
    destruct (host_reject (got x w0 (x_sdata x)) T1_EDC_ERROR Hg0) as (pb & sd & l & Hre & Hh' & Ho);
      [done | done |].
    change ((got x w (x_sdata x)) <| x_w := _ |>) with (got x w0 (x_sdata x)); rewrite Hre.
    cbn [mbind option_bind land_jump]; eexists; split; [reflexivity|].
    split; [by apply inv_reject|]; split; [simpl; rewrite u32_pred; lia | done].
  - rewrite (proj2 (Z.ltb_lt _ _) Hn); unfold on_failure.
    change (previous_block (x_t1 (got x w (x_sdata x)))) with (previous_block (x_t1 x)).
    destruct Hs as (_ & _ & ->).
    change (rd (take 4 (enc c dad pcb inf)) PCB) with (Some pcb); cbn [mbind option_bind].
    rewrite (proj2 (Z.eqb_neq _ _) Hty); cbn [andb]; rewrite (proj2 (Z.leb_gt _ _) Hpos).
    destruct (host_reject (got x w (x_sdata x)) T1_OTHER_ERROR Hg) as (pb & sd & l & Hre & Hh' & Ho);
      [done | done |].
    rewrite Hre; cbn [mbind option_bind land_jump]; eexists; split; [reflexivity|].
    split; [|split; [simpl; rewrite u32_pred; lia | done]].
    change (inv (togo x + 1) (sent_ctl (got x w0 (x_sdata x)) pb sd l)); apply inv_reject; try done.
    destruct Hh'; by split.
Qed.

Lemma turn_block x n w b :
  0 <= n -> l_err w = 0 -> lk_xcv (x_w x) (x_sdata x) (x_slen x) = Some (n, w, b) ->
  t1_turn emv dad x = ('(j, x) ← on_block emv dad n (got x w b); land_jump dad j x).
Proof.
  intros Hn He Hx; unfold t1_turn.
  change (lk_xcv (x_w (x <| x_retries := _ |>)) _ _) with (lk_xcv (x_w x) (x_sdata x) (x_slen x)).
  rewrite Hx; cbn [mbind option_bind]; change (lk_err w) with (l_err w); rewrite He.
  rewrite (proj2 (Z.eqb_neq n (-2))), (proj2 (Z.ltb_ge n 0)) by lia; done.
Qed.

(** A damaged reply is rejected. *)
Lemma turn_bad_reply x m w g :
  inv m x -> 2 <= x_retries x <= R -> damaged c g -> phase x (l_card w) -> l_err w = 0 ->
  lk_xcv (x_w x) (x_sdata x) (x_slen x) = Some (zlen g, w, g ++ drop (length g) (x_sdata x)) ->
  exists x', t1_turn emv dad x = Some (T1Running x') /\ inv (togo x + 1) x' /\
    x_retries x' = x_retries x - 1 /\ l_sched (x_w x') = l_sched w.
Proof.
  intros Hi Hr Hg Hp He Hx; pose proof (proj1 Hi) as Hh.
  rewrite (turn_block _ _ _ _ (zlen_nonneg g) He Hx); set (b := g ++ _).
  assert (Hb : zlen b = T1_BUFFER_SIZE).
  { unfold b; destruct Hg as [Hg _]; pose proof (h_sd _ Hh); zlen_simpl; unfold zlen in *; lia. }
  pose proof (hok_got x w b Hh Hb) as Hg'.
  assert (Hv : t1_verify_checksum (x_t1 (got x w b)) b (zlen g) = Some false).
  { apply (damaged_verify c); [apply Hg' | rewrite <- (h_csum _ Hg'); apply Hg' | done]. }
  unfold on_block; change (x_sdata (got x w b)) with b; rewrite Hv; cbn [mbind option_bind negb].
  destruct (host_reject (got x w b) T1_EDC_ERROR Hg') as (pb & sd & l & -> & Hh' & Ho);
    [done | simpl; rewrite u32_pred; lia |].
  cbn [mbind option_bind land_jump]; eexists; split; [reflexivity|].
  split; [by apply inv_reject|]; split; [simpl; rewrite u32_pred; lia | done].
Qed.

Lemma refuse_fields cd rest : is_bit (c_nr cd) ->
  let b := card_refuse c nad cd ++ rest in
  rd b LEN = Some 0 /\ rd b PCB = Some (r_pcb (c_nr cd) T1_EDC_ERROR).
Proof. intros; split; done. Qed.

Lemma phase_bit x cd : hok x -> phase x cd -> is_bit (c_nr cd).
Proof.
  intros Hh Hp; pose proof (ok_ns _ (h_t1 _ Hh)).
  unfold phase in Hp; destruct_or! Hp; destruct Hp as (_ & -> & _); auto with cmem.
Qed.

(** The card reports a damaged request. *)
Lemma turn_bad_request x m w :
  c = csum_lrc -> inv m x -> 2 <= x_retries x <= R -> l_err w = 0 -> l_card w = l_card (x_w x) ->
  let b := card_refuse c nad (l_card w) in
  lk_xcv (x_w x) (x_sdata x) (x_slen x) = Some (zlen b, w, b ++ drop (length b) (x_sdata x)) ->
  exists x' m', t1_turn emv dad x = Some (T1Running x') /\ inv m' x' /\ m' <= m + 1 /\
    x_retries x' = x_retries x - 1 /\ l_sched (x_w x') = l_sched w.
Proof.
  intros Hc Hi Hr He Hcd b Hx; pose proof (proj1 Hi) as Hh.
  destruct (inv_sends _ _ Hi) as (Hp & Hm & _ & _ & _ & _ & Hpr).
  rewrite <- Hcd in Hp; pose proof (phase_bit x _ Hh Hp) as Hbit.
  assert (Hb : zlen b = 4) by (unfold b, card_refuse; by rewrite enc_len_lrc, Hc).
  rewrite (turn_block x (zlen b) w (b ++ drop (length b) (x_sdata x))) by (done || lia).
  set (y := got x w _).
  assert (Hy : hok y).
  { apply hok_got; [done|]; pose proof (h_sd _ Hh); unfold T1_BUFFER_SIZE in *; zlen_simpl; unfold zlen in *; lia. }
  assert (Hyr : x_retries y = x_retries x - 1) by (apply u32_pred; lia).
  destruct (r_pcb_spec (c_nr (l_card w)) T1_EDC_ERROR Hbit) as (_ & Hty & Hsq & Herr & H20); [done|].
  unfold b, card_refuse; erewrite on_block_enc; [|done|done|reflexivity].
  rewrite Hty, Z.eqb_refl; unfold phase in Hp.
  assert (Hsend : ph_unheard x (l_card w) \/ ph_chained x (l_card w) ->
    exists x' m', (x0 ← handle_R emv dad (r_pcb (c_nr (l_card w)) T1_EDC_ERROR) y; let '(j, x) := x0 in land_jump dad j x)
      = Some (T1Running x') /\ inv m' x' /\ m' <= m + 1 /\ x_retries x' = x_retries x - 1 /\ l_sched (x_w x') = l_sched w).
  { intros Hp'; destruct (host_R_sending y (l_card w) T1_EDC_ERROR Hy Hp')
      as (x' & -> & Hx' & Hph & Ho & Ht & _ & Hw & Hre); [done | done |].
    rewrite Hyr, (proj2 (Z.leb_gt (x_retries x - 1) 0)) by lia; cbn [mbind option_bind land_jump nz Z.eqb negb T1_EDC_ERROR].
    exists x', (togo x'); rewrite Hre, Hw; split_and!; try done.
    - split; [done|]; rewrite Hw; split; [done|]; left; done.
    - change (togo y) with (togo x) in Ht; lia. }
  assert (Hagain : (exists pb sd n, handle_R emv dad (r_pcb (c_nr (l_card w)) T1_EDC_ERROR) y
      = Some (JContinue, sent_ctl y pb sd n) /\ hok (sent_ctl y pb sd n) /\ out_R (sent_ctl y pb sd n)) ->
    exists x' m', (x0 ← handle_R emv dad (r_pcb (c_nr (l_card w)) T1_EDC_ERROR) y; let '(j, x) := x0 in land_jump dad j x)
      = Some (T1Running x') /\ inv m' x' /\ m' <= m + 1 /\ x_retries x' = x_retries x - 1 /\ l_sched (x_w x') = l_sched w).
  { intros (pb & sd & n & -> & Hh' & Ho); eexists _, (togo x + 1); split; [reflexivity|].
    split; [by apply inv_reject|]; split_and!; done || lia. }
  assert (Hback : receiving x -> c_nr (l_card w) = ns (x_t1 x) -> prev_R x).
  { intros (Hst & _) _; destruct Hi as (_ & _ & [(((_ & Hst' & _) & _) & _) | (_ & _ & Hm')]); [by rewrite Hst in Hst' | by apply Hpr]. }
  destruct_or! Hp; auto; apply Hagain.
  - destruct Hp as ((_ & Hst & Hmo & _) & Hcn & Hbig & _); unfold handle_R.
    change (rd (x_sdata y) LEN) with (Some 0); cbn [mbind option_bind]; rewrite Hsq, H20, Hcn.
    change (ns (x_t1 y)) with (ns (x_t1 x)); change (t1_more (x_t1 y)) with (t1_more (x_t1 x)).
    rewrite (proj2 (Z.eqb_neq _ _) (bit_lxor_ne _ (ok_ns _ (h_t1 _ Hh)))), Hmo, Hbig; cbn [nz Z.eqb negb andb orb].
    apply host_reject; try done; lia.
  - destruct Hp as (Hrc & Hcn & _); apply host_rebuild; try done; [by apply Hback | lia].
  - destruct Hp as (Hrc & Hcn & _); apply host_rebuild; try done; [by apply Hback | lia].
Qed.

(** An exchange without a fault: the card answers with an R-block. *)
Lemma turn_good_R x m w :
  let cd := l_card w in
  inv m x -> l_err w = 0 -> c_rem cd = [] -> ph_chained x cd \/ (ph_unheard x cd /\ m = togo x + 1) ->
  let b := card_reply c k nad cd in
  lk_xcv (x_w x) (x_sdata x) (x_slen x) = Some (zlen b, w, b ++ drop (length b) (x_sdata x)) ->
  exists x' m', t1_turn emv dad x = Some (T1Running x') /\ inv m' x' /\ m' < m /\
    x_retries x' = R /\ l_sched (x_w x') = l_sched w.
Proof.
  intros cd Hi He Hrem Hp b Hx; pose proof (proj1 Hi) as Hh; destruct (inv_sends _ _ Hi) as (_ & Hm & _).
  assert (Hph : ph_unheard x cd \/ ph_chained x cd) by (destruct Hp as [? | [? _]]; auto).
  assert (Hbit : is_bit (c_nr cd)) by (apply (phase_bit x _ Hh); unfold phase; destruct Hph; auto).
  assert (Hbe : b = enc c nad (r_pcb (c_nr cd) 0) []) by (unfold b, card_reply; by rewrite Hrem).
  clearbody b; rewrite (turn_block _ _ _ _ (zlen_nonneg b) He Hx).
  assert (Hb : zlen b <= 5) by (rewrite Hbe, enc_len_lrc; pose proof (csum_len_pos c); lia).
  set (y := got x w _).
  assert (Hy : hok y).
  { apply hok_got; [done|]; pose proof (h_sd _ Hh); unfold T1_BUFFER_SIZE in *; zlen_simpl; unfold zlen in *; lia. }
  destruct (r_pcb_spec (c_nr cd) 0 Hbit) as (_ & Hty & _); [lia|].
  replace (zlen b) with (zlen (enc c nad (r_pcb (c_nr cd) 0) [])) by (by rewrite Hbe).
  rewrite (on_block_enc y _ _ (drop (length b) (x_sdata x))) by (done || (unfold y; simpl; by rewrite Hbe)).
  rewrite Hty, Z.eqb_refl.
  destruct (host_R_sending y cd 0 Hy Hph) as (x' & Hm' & Hx' & Hph' & Ho & Ht & Hlt & Hw & Hre);
    [lia | unfold y; simpl; by rewrite Hbe |].
  rewrite Hm'; cbn [mbind option_bind land_jump nz Z.eqb negb].
  change (togo y) with (togo x) in *.
  eexists _, (togo x'); split; [reflexivity|]; split_and!.
  - split; [by destruct Hx'|]; change (x_w (x' <| x_retries := _ |>)) with (x_w x'); rewrite Hw.
    split; [done|]; left; done.
  - destruct Hp as [Hp | [Hp ->]]; [specialize (Hlt Hp)|]; lia.
  - apply Hx'.
  - change (l_sched (x_w x') = l_sched w); by rewrite Hw.
Qed.

(** The card answers with a chunk of the response. *)
Lemma turn_good_I x m w :
  let cd := l_card w in
  inv m x -> l_err w = 0 -> c_rem cd <> [] -> ph_answered x cd \/ (ph_receive x cd /\ m = togo x + 1) ->
  let b := card_reply c k nad cd in
  lk_xcv (x_w x) (x_sdata x) (x_slen x) = Some (zlen b, w, b ++ drop (length b) (x_sdata x)) ->
  (exists x' m', t1_turn emv dad x = Some (T1Running x') /\ inv m' x' /\ m' < m /\
    x_retries x' = R /\ l_sched (x_w x') = l_sched w) \/
  (exists x', t1_turn emv dad x = Some (T1Return (zlen resp) x') /\ hok x' /\ finished x' cd /\ x_w x' = w).
Proof.
  intros cd Hi He Hrem Hp b Hx; pose proof (proj1 Hi) as Hh; destruct (inv_sends _ _ Hi) as (_ & Hm & _).
  assert (Hph : ph_answered x cd \/ ph_receive x cd) by (destruct Hp as [? | [? _]]; auto).
  assert (Hbit : is_bit (c_ns cd)).
  { pose proof (ok_nr _ (h_t1 _ Hh)).
    destruct Hph as [(_ & _ & _ & _ & _ & _ & ->) | (_ & _ & _ & _ & _ & -> & _)]; done. }
  set (inf := take (Z.to_nat k) (c_rem cd)); set (mo := k <? zlen (c_rem cd)).
  assert (Hbe : b = enc c nad (i_pcb (c_ns cd) mo) inf).
  { unfold b, card_reply, mo, inf; by destruct (c_rem cd). }
  clearbody b; rewrite (turn_block _ _ _ _ (zlen_nonneg b) He Hx).
  assert (Hil : 0 <= zlen inf <= 254) by (unfold inf; rewrite zlen_take; pose proof (zlen_nonneg (c_rem cd)); lia).
  assert (Hb : zlen b <= T1_BUFFER_SIZE) by (rewrite Hbe, enc_len; pose proof (csum_len_pos c); unfold T1_BUFFER_SIZE; lia).
  set (y := got x w _).
  assert (Hy : hok y) by (apply hok_got; [done|]; pose proof (h_sd _ Hh); zlen_simpl; unfold zlen in *; lia).
  assert (Hsd : x_sdata y = enc c nad (i_pcb (c_ns cd) mo) inf ++ drop (length b) (x_sdata x)) by (simpl; by rewrite Hbe).
  destruct (i_pcb_spec (c_ns cd) mo Hbit) as (_ & Hty & _).
  replace (zlen b) with (zlen (enc c nad (i_pcb (c_ns cd) mo) inf)) by (by rewrite Hbe).
  rewrite (on_block_enc y _ _ _ Hy) by (exact Hsd || lia).
  rewrite Hty; cbn [Z.eqb T1_I_BLOCK T1_R_BLOCK].
  destruct (enc_fields c nad (i_pcb (c_ns cd) mo) inf (drop (length b) (x_sdata x))) as (_ & _ & Hf1 & Hf2).
  rewrite <- Hsd in Hf1, Hf2.
  destruct (host_I y cd Hy Hph Hf1 Hf2) as (x' & Hm' & Hx' & Hw & Hre & Ht & Hlt & Hfin).
  fold mo in Hm', Hfin; rewrite Hm'; cbn [mbind option_bind]; change (togo y) with (togo x) in *.
  destruct mo; cbn [land_jump].
  - left; eexists _, (togo x' + 1); split; [reflexivity|]; split_and!.
    + split; [by destruct Hx'|]; change (x_w (x' <| x_retries := _ |>)) with (x_w x'); rewrite Hw.
      split; [done|]; right; split_and!; try done; [|apply Hfin]; do 4 right; apply Hfin.
    + destruct Hp as [Hp | [Hp ->]]; [specialize (Hlt Hp)|]; lia.
    + apply Hx'.
    + change (l_sched (x_w x') = l_sched w); by rewrite Hw.
  - right; exists x'; split_and!; try done.
    rewrite ct_avail_data by apply Hx'; by rewrite (proj1 Hfin : ct_data _ = _).
Qed.

Lemma card_answers m x :
  inv m x -> exists e cd', rdn (x_sdata x) 0 (x_slen x) = Some e /\
    card_recv app c k nad (l_card (x_w x)) e = (cd', card_reply c k nad cd') /\
    phase x cd' /\ zlen (card_reply c k nad cd') <= T1_BUFFER_SIZE /\
    (c_rem cd' = [] /\ (ph_chained x cd' \/ (ph_unheard x cd' /\ m = togo x + 1)) \/
     c_rem cd' <> [] /\ (ph_answered x cd' \/ (ph_receive x cd' /\ m = togo x + 1))).
Proof.
  intros (Hh & _ & Hi).
  assert (Hans : forall cd, ph_answered x cd -> c_rem cd <> []).
  { intros cd (_ & _ & _ & _ & _ & -> & _) Hn; fold resp in Hresp; rewrite Hn in Hresp; zlen_simpl; lia. }
  assert (Hlen : forall cd, zlen (card_reply c k nad cd) <= T1_BUFFER_SIZE).
  { intros cd; unfold card_reply, T1_BUFFER_SIZE; pose proof (csum_len_pos c).
    destruct (c_rem cd); rewrite enc_len, ?zlen_take, ?zlen_nil by done; [done || lia|].
    pose proof (zlen_nonneg (z :: l)); lia. }
  destruct Hi as [(Hp & Ho & ->) | (Hp & (e & He & Ho) & ->)].
  - destruct (card_hears_I x _ Hh Hp) as (cd' & Hr & Hc).
    eexists _, cd'; split; [apply sends_bytes, Ho|]; split; [exact Hr|].
    split; [unfold phase; destruct Hc; auto|]; split; [done|].
    destruct Hc as [Hc | Hc]; [left; split; [apply Hc | auto] | right; split; auto].
  - destruct (card_hears_R x _ e Hh Hp He) as (cd' & Hr & Hc).
    eexists _, cd'; split; [apply sends_bytes, Ho|]; split; [exact Hr|].
    split; [by apply heard_phase|]; split; [done|].
    destruct Hc as [[Hc ?] | [Hc | [Hc | Hc]]]; [left | left | right | right]; split; auto; apply Hc.
Qed.

(** ** The loop *)
Definition left_to_do m x : Z := 2 * zlen (l_sched (x_w x)) + m.

Definition ready m x : Prop :=
  inv m x /\ 1 <= x_retries x <= R /\ survivable c R (x_retries x) (l_sched (x_w x)).

Definition ended (r : option (t1_result link)) : Prop :=
  exists x', r = Some (T1Return (zlen resp) x') /\ hok x' /\ finished x' (l_card (x_w x')) /\ l_err (x_w x') = 0.

Lemma turn_no_fault x m fs :
  inv m x -> 1 <= x_retries x <= R -> survivable c R R fs ->
  lk_xcv (x_w x) (x_sdata x) (x_slen x) =
     (e ← rdn (x_sdata x) 0 (x_slen x);
      let st := card_recv app c k nad (l_card (x_w x)) e in
      b ← wrn (x_sdata x) 0 st.2; Some (zlen st.2, mk_link st.1 (l_err (x_w x)) (l_wtx (x_w x)) fs, b)) ->
  zlen fs <= zlen (l_sched (x_w x)) ->
  (exists x' m', t1_turn emv dad x = Some (T1Running x') /\ ready m' x' /\ left_to_do m' x' < left_to_do m x) \/
  ended (t1_turn emv dad x).
Proof.
  intros Hi Hr Hs Hx Hfs; pose proof (proj1 Hi) as Hh; pose proof (proj1 (proj2 Hi)) as He.
  destruct (card_answers m x Hi) as (e & cd' & Hb & Hc & Hph & Hlen & Hcase).
  rewrite Hb in Hx; cbn [mbind option_bind] in Hx; rewrite Hc in Hx; cbn [fst snd] in Hx.
  rewrite wrn_0 in Hx by (rewrite (h_sd _ Hh); done); cbn [mbind option_bind] in Hx; rewrite He in Hx.
  set (w := mk_link cd' 0 (l_wtx (x_w x)) fs) in *.
  assert (Hgo : forall x' m', inv m' x' -> m' < m -> x_retries x' = R -> l_sched (x_w x') = fs ->
    ready m' x' /\ left_to_do m' x' < left_to_do m x).
  { intros x' m' ? ? Hre Hsc; unfold ready, left_to_do; rewrite Hre, Hsc; split_and!; done || lia. }
  destruct Hcase as [[Hrem Hcase] | [Hrem Hcase]].
  - left; destruct (turn_good_R x m w Hi) as (x' & m' & ? & ? & ? & ? & ?); try done.
    exists x', m'; auto.
  - destruct (turn_good_I x m w Hi) as [(x' & m' & ? & ? & ? & ? & ?) | (x' & ? & ? & ? & Hw)]; try done.
    + left; exists x', m'; auto.
    + right; exists x'; rewrite Hw; done.
Qed.

Lemma turn_ready m x :
  ready m x ->
  (exists x' m', t1_turn emv dad x = Some (T1Running x') /\ ready m' x' /\ left_to_do m' x' < left_to_do m x) \/
  ended (t1_turn emv dad x).
Proof.
  intros (Hi & Hr & Hs); pose proof (proj1 Hi) as Hh; pose proof (proj1 (proj2 Hi)) as He.
  destruct (l_sched (x_w x)) as [|f fs] eqn:Hsc; [|cbn [survivable] in Hs; destruct Hs as [Hok Hs]].
  { apply (turn_no_fault x m []); try done; [|rewrite Hsc; done].
    cbn [lk_xcv this_link card_link]; unfold xcv; rewrite Hsc; done. }
  destruct (card_answers m x Hi) as (e & cd' & Hb & Hc & Hph & Hlen & _).
  destruct (inv_sends m x Hi) as (Hp & Hm & _).
  assert (Hgo : forall x' m', inv m' x' -> m' <= m + 1 -> x_retries x' = x_retries x - 1 ->
    l_sched (x_w x') = fs -> 2 <= x_retries x -> survivable c R (x_retries x - 1) fs ->
    ready m' x' /\ left_to_do m' x' < left_to_do m x).
  { intros x' m' ? ? Hre Hsc' ? ?; unfold ready, left_to_do; rewrite Hre, Hsc', Hsc; zlen_simpl.
    split_and!; done || lia. }
  assert (Hx : lk_xcv (x_w x) (x_sdata x) (x_slen x) = xcv app c k nad (x_w x) (x_sdata x) (x_slen x)) by done.
  unfold xcv in Hx; rewrite Hb, Hsc in Hx; cbn [mbind option_bind] in Hx; rewrite Hc in Hx; cbn [fst snd] in Hx.
  destruct f as [|g|n er|n er|]; cbn [fault_ok] in Hok.
  - apply (turn_no_fault x m fs); try done; [|rewrite Hsc; zlen_simpl; lia].
    rewrite Hb; cbn [mbind option_bind]; by rewrite Hc.
  - left; destruct Hs as [H2 Hs]; rewrite wrn_0 in Hx by (rewrite (h_sd _ Hh); apply Hok).
    destruct (turn_bad_reply x m (mk_link cd' (l_err (x_w x)) (l_wtx (x_w x)) fs) g Hi ltac:(lia) Hok Hph He Hx) as (x' & ? & ? & ? & ?).
    exists x', (togo x + 1); split; [done|]; apply Hgo; done || lia.
  - left; destruct Hs as [H2 Hs].
    destruct (turn_error x m n (mk_link cd' er (l_wtx (x_w x)) fs) Hi ltac:(lia) Hok Hph Hx) as (x' & ? & ? & ? & ?).
    exists x', (togo x + 1); split; [done|]; apply Hgo; done || lia.
  - left; destruct Hs as [H2 Hs].
    destruct (turn_error x m n (mk_link (l_card (x_w x)) er (l_wtx (x_w x)) fs) Hi ltac:(lia) Hok Hp Hx) as (x' & ? & ? & ? & ?).
    exists x', (togo x + 1); split; [done|]; apply Hgo; done || lia.
  - left; destruct Hs as [H2 Hs].
    rewrite wrn_0 in Hx by (unfold card_refuse; rewrite enc_len_lrc, (h_sd _ Hh); pose proof (csum_len_pos c); unfold T1_BUFFER_SIZE; lia).
    destruct (turn_bad_request x m (mk_link (l_card (x_w x)) (l_err (x_w x)) (l_wtx (x_w x)) fs) Hok Hi ltac:(lia) He eq_refl Hx) as (x' & m' & ? & ? & ? & ? & ?).
    exists x', m'; split; [done|]; apply Hgo; done || lia.
Qed.

Lemma inv_nonneg m x : inv m x -> 0 <= m.
Proof.
  intros Hi; destruct (inv_sends m x Hi) as (Hp & Hm & _); unfold togo in Hm.
  pose proof (zlen_nonneg (sdat x)); fold resp in Hresp.
  assert (zlen (rdat x) <= zlen resp); [|lia].
  unfold phase in Hp; destruct_or! Hp.
  1-3: destruct Hp as ((_ & _ & _ & _ & -> & _) & _); zlen_simpl; lia.
  - destruct Hp as (_ & _ & _ & _ & _ & _ & <-); zlen_simpl; pose proof (zlen_nonneg (c_rem (l_card (x_w x)))); lia.
  - destruct Hp as (_ & _ & _ & _ & _ & _ & <-); rewrite zlen_app.
    pose proof (zlen_nonneg (drop (Z.to_nat k) (c_rem (l_card (x_w x))))); lia.
Qed.

Lemma loop_ready fuel m x :
  ready m x -> left_to_do m x < Z.of_nat fuel -> ended (t1_loop emv dad fuel x).
Proof.
  revert m x; induction fuel as [|fuel IH]; intros m x Hr Hf.
  - pose proof (inv_nonneg _ _ (proj1 Hr)); pose proof (zlen_nonneg (l_sched (x_w x))); unfold left_to_do in Hf; lia.
  - cbn [t1_loop]; destruct (turn_ready m x Hr) as [(x' & m' & -> & Hr' & Hlt) | (x' & -> & Hx')].
    + apply (IH m'); [done | lia].
    + by exists x'.
Qed.

(** ** The start *)
Lemma start_ready w t1 sdata snd_buf snd_len rcv_buf :
  t1_ok t1 -> csum t1 = c -> retries t1 = R -> t1_state t1 <> DEAD -> zlen sdata = T1_BUFFER_SIZE ->
  1 <= snd_len <= zlen snd_buf -> snd_len < 4294967296 -> cmd = take (Z.to_nat snd_len) snd_buf ->
  T1_BUFFER_SIZE <= zlen rcv_buf ->
  in_sync k t1 (l_card w) -> c_log (l_card w) = L -> l_err w = 0 -> survivable c R R (l_sched w) ->
  exists x, t1_start dad w t1 sdata snd_buf snd_len rcv_buf = Some (Some x) /\
    ready (togo x) x /\ left_to_do (togo x) x = 2 * zlen (l_sched w) + 2 * zlen cmd + zlen resp.
Proof.
  intros Ht Hc HRt Hst Hsd Hsl Hu32 Hcmd Hrb (Hrx & Hnr & Hin) Hlog He Hs; unfold t1_start.
  rewrite (proj2 (Z.eqb_neq snd_len 0)), (proj2 (Z.eqb_neq (t1_state t1) DEAD)) by (done || lia).
  change (previous_block (t1 <| t1_state := SENDING |>)) with (previous_block t1).
  rewrite wrn_0 by (rewrite (ok_pb _ Ht); done); cbn [mbind option_bind].
  rewrite drop_ge, app_nil_r by (pose proof (ok_pb _ Ht); unfold zlen in *; simpl; lia).
  set (x0 := mk_xfer _ _ _ _ _ _ _ _ _).
  assert (Hx0 : hok x0).
  { destruct Ht as [[]]; split; try done; (apply ct_buf_set_wf || apply ct_buf_init_wf); unfold T1_BUFFER_SIZE in *; lia. }
  assert (Hd : sdat x0 = cmd) by (rewrite Hcmd; apply ct_buf_set_data).
  assert (Hn : zlen cmd = snd_len) by (rewrite Hcmd, zlen_take; lia).
  destruct (host_resume x0 (l_card w)) as (_ & x & -> & Hx & Hph & Ho & Htg & Hw & Hre); try done.
  { rewrite Hd; intros E; rewrite E in Hn; zlen_simpl; lia. }
  { by rewrite Hrx, Hd. }
  cbn [mbind option_bind]; exists x; split; [done|]; change (x_w x0) with w in Hw.
  assert (Ht0 : togo x0 = 2 * zlen cmd + zlen resp).
  { unfold togo; rewrite Hd; change (rdat x0) with (@nil Z); zlen_simpl; lia. }
  unfold ready, left_to_do, inv; rewrite Hw, Hre, Htg, Ht0; change (x_retries x0) with (retries t1).
  rewrite HRt; split_and!; try done; try lia; left; split_and!; try done; lia.
Qed.

Lemma transceive_ended fuel w t1 sdata snd_buf snd_len rcv_buf :
  t1_ok t1 -> csum t1 = c -> retries t1 = R -> t1_state t1 <> DEAD -> zlen sdata = T1_BUFFER_SIZE ->
  1 <= snd_len <= zlen snd_buf -> snd_len < 4294967296 -> cmd = take (Z.to_nat snd_len) snd_buf ->
  T1_BUFFER_SIZE <= zlen rcv_buf ->
  in_sync k t1 (l_card w) -> c_log (l_card w) = L -> l_err w = 0 -> survivable c R R (l_sched w) ->
  2 * zlen (l_sched w) + 2 * zlen cmd + zlen resp < Z.of_nat fuel ->
  exists w' t1' sdata' rcv',
    t1_transceive emv dad fuel w t1 sdata snd_buf snd_len rcv_buf =
      Some (Some (zlen resp, w', t1', sdata', rcv')) /\
    take (length resp) rcv' = resp /\ c_log (l_card w') = L ++ [cmd] /\
    in_sync k t1' (l_card w') /\ t1_ok t1' /\ t1_state t1' <> DEAD /\ csum t1' = c /\ retries t1' = R /\
    l_err w' = 0 /\ zlen sdata' = T1_BUFFER_SIZE /\ T1_BUFFER_SIZE <= zlen rcv'.
Proof.
  intros Ht Hc HRt Hst Hsd Hsl Hu32 Hcmd Hrb Hin Hlog He Hs Hf; unfold t1_transceive.
  destruct (start_ready w t1 sdata snd_buf snd_len rcv_buf) as (x & -> & Hr & Hl); try done.
  cbn [mbind option_bind]; destruct (loop_ready fuel (togo x) x Hr ltac:(lia)) as (x' & -> & Hx & Hfin & He').
  cbn [mbind option_bind]; destruct Hfin as (Hrd & Hlog' & Hsy & Hst').
  eexists _, _, _, _; split; [reflexivity|]; destruct Hx as [? ? ? ? ? Hwf Hh0 Hsz]; split_and!; try done.
  - pose proof (ct_avail_data _ Hwf) as Ha; fold (rdat x') in Ha; rewrite Hrd in Ha.
    rewrite <- Hrd; unfold rdat, ct_data; rewrite Hh0; unfold slice; rewrite length_take, drop_0.
    f_equal; unfold ct_buf_avail in Ha; destruct Hwf; rewrite u32_id in Ha by lia; unfold zlen in *; lia.
  - by rewrite Hst'.
  - destruct Hwf; lia.
Qed.
End reliable.

(** A host and a card between two commands. *)
Record session (c : csum_fn) (k R : Z) (t1 : t1_state_t) (w : link) : Prop := {
  ses_t1 : t1_ok t1;
  ses_csum : csum t1 = c;
  ses_retries : retries t1 = R;
  ses_alive : t1_state t1 <> DEAD;
  ses_sync : in_sync k t1 (l_card w);
  ses_err : l_err w = 0;
}.

(** ** Properties *)

(** C1: [t1_transceive] delivers reliably. Against a card that follows the T=1
    rules with I- and R-blocks (it sends no S-blocks), over a link on which blocks in
    either direction are lost, or replies are damaged, or, with LRC as the checksum,
    requests are damaged, but never [retries] times in a row: when a block of the
    card's maximum size fits the buffer ([t1_ok]), the call returns the length of the
    response (within a number of exchanges linear in the number of faults and the
    sizes of command and response), the receive buffer holds the card's response to
    exactly the command, the card has executed the command exactly once, and host
    and card are ready for the next command. (With the CRC a damaged request is
    sent again without its last byte, see [t1_rebuild_short].) *)
Theorem t1_transceive_reliable app c k dad emv R fuel w t1 sdata snd_buf snd_len rcv_buf :
  let cmd := take (Z.to_nat snd_len) snd_buf in
  let resp := app (c_log (l_card w)) cmd in
  1 <= k <= 254 -> is_u8 dad -> 1 <= R < 4294967296 ->
  session c k R t1 w -> survivable c R R (l_sched w) ->
  zlen sdata = T1_BUFFER_SIZE -> 1 <= snd_len <= zlen snd_buf -> snd_len < 4294967296 ->
  T1_BUFFER_SIZE <= zlen rcv_buf -> 1 <= zlen resp <= T1_BUFFER_SIZE ->
  2 * zlen (l_sched w) + 2 * zlen cmd + zlen resp < Z.of_nat fuel ->
  exists w' t1' sdata' rcv',
    t1_transceive (T1Link0 := card_link app c k (swap_nibbles dad)) emv dad fuel w t1 sdata snd_buf snd_len rcv_buf
      = Some (Some (zlen resp, w', t1', sdata', rcv')) /\
    take (length resp) rcv' = resp /\
    c_log (l_card w') = c_log (l_card w) ++ [cmd] /\
    session c k R t1' w'.
Proof.
  intros cmd resp Hk Hdad HR [Ht Hc HRt Hst Hsy He] Hs Hsd Hsl Hu Hrb Hresp Hf.
  destruct (transceive_ended app c k dad emv R (c_log (l_card w)) cmd Hk Hdad HR Hresp
              fuel w t1 sdata snd_buf snd_len rcv_buf)
    as (w' & t1' & sd' & rcv' & Hm & Hr & Hl & Hsy' & Ht' & Hst' & Hc' & HR' & He' & _ & _); try done.
  exists w', t1', sd', rcv'; split_and!; try done; by split.
Qed.

(** A card that echoes the command and appends 0x9000, and a link with two
    faults before the first answer and one in its middle. *)
Definition echo_card (log : list (list Z)) (cmd : list Z) : list Z := cmd ++ [0x90; 0x00].
Definition echo_link : link :=
  mk_link (mk_card [] 0 0 [] []) 0 0
    [RequestLost (-1) 2; RequestBad; NoFault; ReplyLost (-2) 13; NoFault; ReplyBad [0; 0; 0; 1]].

Lemma t1_transceive_reliable_witness :
  exists w' t1' sdata' rcv',
    t1_transceive (T1Link0 := card_link echo_card csum_lrc 10 0) false 0 200 echo_link t1_example
      (replicate 259 0) (replicate 40 7) 40 (replicate 300 0)
      = Some (Some (42, w', t1', sdata', rcv')) /\
    take 42 rcv' = replicate 40 7 ++ [0x90; 0x00] /\ c_log (l_card w') = [replicate 40 7].
Proof.
  destruct (t1_transceive_reliable echo_card csum_lrc 10 0 false 3 200 echo_link t1_example
      (replicate 259 0) (replicate 40 7) 40 (replicate 300 0))
    as (w' & t1' & sd' & rcv' & Hm & Hr & Hl & _); try (vm_compute; intuition congruence).
  - split; try (vm_compute; intuition congruence); apply t1_example_ok.
  - exists w', t1', sd', rcv'; split_and!; [exact Hm | exact Hr | exact Hl].
Defined.
