(* ===== verification/T1Safe.v ===== *)
(** Memory safety of [t1_transceive] against an arbitrary card: whatever blocks
    come back over the link, no exchange reads or writes outside of a buffer;
    and giving up: on a link that keeps failing the loop ends. *)
From S2P Require Import Prelude Checksum CtBuf T1 T1Spec.

(** ** What the loop relies on of a link

    On a world that satisfies [ok] the exchange of a block that lies within the
    buffer is defined; what comes back is a buffer of the same size, and when a
    block was received a length within it and the bytes of its prologue. *)
Class T1LinkOk (W : Type) `{!T1Link W} (ok : W -> Prop) := {
  lk_xcv_ok w b n : ok w -> zlen b = T1_BUFFER_SIZE -> 0 <= n <= T1_BUFFER_SIZE ->
    exists r w' b', lk_xcv w b n = Some (r, w', b') /\ ok w' /\ zlen b' = T1_BUFFER_SIZE /\
      r <= T1_BUFFER_SIZE /\ (0 <= r -> Forall is_u8 (take 4 b'));
  lk_set_err_ok w : ok w -> ok (lk_set_err 0 w);
  lk_set_WTX_ok w v : ok w -> is_u8 v -> ok (lk_set_WTX v w);
}.

Section safe.
Context {W : Type} `{!T1Link W} (ok : W -> Prop) `{!T1LinkOk W ok} (emv : bool) (dad : Z).
Hypothesis Hdad : is_u8 dad.
Implicit Types x : xfer W.

Record sok x : Prop := {
  s_w : ok (x_w x);
  s_t1 : t1_wf (x_t1 x);
  s_sd : zlen (x_sdata x) = T1_BUFFER_SIZE;
  s_sb : ct_wf (x_sbuf x);
  s_fit : fits (x_t1 x) (tail (x_sbuf x));
  s_ls : 0 <= x_last_send x;
  s_rb : ct_wf (x_rbuf x);
  s_rbs : size (x_rbuf x) = T1_BUFFER_SIZE;
  s_slen : 0 <= x_slen x <= T1_BUFFER_SIZE;
  s_pib : exists l, rd (previous_i_block (x_t1 x)) 2 = Some l /\ 0 <= l /\ l + 4 <= T1_BUFFER_SIZE;
}.

(** The counters most steps leave alone. *)
Definition kept x x' : Prop :=
  x_retries x' = x_retries x /\ x_resyncs x' = x_resyncs x /\ retries (x_t1 x') = retries (x_t1 x).

(** The state after a block was built into [sdata]. *)
Lemma sok_built x pcb inf pib more :
  let e := enc (csum (x_t1 x)) dad pcb inf in
  sok x -> fits (x_t1 x) (zlen inf) -> zlen pib = 300 ->
  (exists l, rd pib 2 = Some l /\ 0 <= l /\ l + 4 <= T1_BUFFER_SIZE) ->
  let x' := x <| x_t1 := (x_t1 x) <| t1_more := more |> <| previous_block := take 4 e |> <| previous_i_block := pib |> |>
              <| x_sdata := e ++ drop (length e) (x_sdata x) |> <| x_slen := zlen e |> in
  sok x' /\ sok (x' <| x_last_send := zlen inf |>).
Proof.
  intros e Hs Hf Hl Hl2 x'; pose proof (zlen_nonneg inf); unfold fits in Hf.
  pose proof (csum_len_pos (csum (x_t1 x))).
  assert (He : zlen e = 3 + zlen inf + csum_len (csum (x_t1 x))) by apply enc_len.
  assert (Hx' : sok x'); [|by destruct Hx'].
  destruct Hs; split; try done.
  - apply t1_wf_remember; try done; apply zlen_take4_enc.
  - change (zlen (e ++ drop (length e) (x_sdata x)) = T1_BUFFER_SIZE); zlen_simpl; unfold zlen in *; lia.
  - change (0 <= zlen e <= T1_BUFFER_SIZE); lia.
Qed.

Lemma chunk_fits x : sok x -> fits (x_t1 x) (zlen (take (Z.to_nat (ifsc (x_t1 x))) (ct_data (x_sbuf x)))).
Proof.
  intros Hs; pose proof (s_fit _ Hs); pose proof (s_sb _ Hs) as Hw; unfold fits in *.
  rewrite zlen_take, <- ct_avail_data by done; destruct Hw.
  unfold ct_buf_avail; rewrite u32_id by lia; lia.
Qed.

Lemma safe_build_I x :
  sok x -> exists x', build_I dad x = Some x' /\ sok x' /\ kept x x' /\
    exists p, rd (previous_block (x_t1 x')) PCB = Some p /\ t1_block_type p = T1_I_BLOCK.
Proof.
  intros Hs; pose proof (chunk_fits x Hs) as Hf; pose proof (s_sd _ Hs) as Hsd; pose proof (s_sb _ Hs) as Hsb.
  destruct (t1_build_I_wf (x_t1 x) (x_sdata x) dad (x_sbuf x) (s_t1 _ Hs) Hsd Hdad Hsb Hf) as (pib & Hl & Ht & Hm).
  set (big := ifsc (x_t1 x) <? _) in *; set (inf := take _ _) in *.
  unfold build_I; rewrite Hm; cbn [mbind option_bind]; eexists; split; [reflexivity|].
  split; [|split; [done|]; exists (i_pcb (ns (x_t1 x)) big); split; [done|]; apply i_pcb_spec, Hs].
  refine (proj2 (sok_built x (i_pcb (ns (x_t1 x)) big) inf pib (if big then 1 else 0) Hs Hf Hl _)).
  exists (zlen inf); split; [by rewrite <- (take_drop (length (enc (csum (x_t1 x)) dad (i_pcb (ns (x_t1 x)) big) inf)) pib), Ht|].
  unfold fits in Hf; pose proof (csum_len_pos (csum (x_t1 x))); pose proof (zlen_nonneg inf); lia.
Qed.

(** A block without data, or with the data of a response. *)
Lemma sok_ctl x pcb inf :
  let e := enc (csum (x_t1 x)) dad pcb inf in
  sok x -> zlen inf <= 1 ->
  sok (x <| x_t1 := (x_t1 x) <| previous_block := take 4 e |> |>
         <| x_sdata := e ++ drop (length e) (x_sdata x) |> <| x_slen := zlen e |>).
Proof.
  intros e Hs Hi.
  refine (eq_rect _ sok (proj1 (sok_built x pcb inf (previous_i_block (x_t1 x)) (t1_more (x_t1 x)) Hs _ _ _)) _ _).
  - unfold fits, T1_BUFFER_SIZE; pose proof (csum_len_pos (csum (x_t1 x))); lia.
  - apply Hs.
  - apply Hs.
  - destruct x as [? []]; done.
Qed.

Lemma safe_build_R x e :
  sok x -> 0 <= e < 16 -> exists x', build_ctl dad (Z.lor T1_R_BLOCK e) x = Some x' /\ sok x' /\ kept x x'.
Proof.
  intros Hs He; pose proof (s_sd _ Hs) as Hsd.
  destruct (t1_build_R (x_t1 x) (x_sdata x) dad e (s_t1 _ Hs) Hsd Hdad He) as (e' & He' & Hm).
  unfold build_ctl; rewrite Hm; cbn [mbind option_bind]; eexists; split; [reflexivity|]; split; [|done].
  by apply sok_ctl.
Qed.

Lemma safe_build_resync x :
  sok x -> exists x', build_ctl dad (Z.lor T1_S_BLOCK T1_S_RESYNC) x = Some x' /\ sok x' /\ kept x x'.
Proof.
  intros Hs; unfold build_ctl; rewrite t1_build_S by (done || apply Hs).
  cbn [mbind option_bind]; eexists; split; [reflexivity|]; split; [by apply sok_ctl | done].
Qed.

(** ** The handlers *)
Definition safe (r : option (jump * xfer W)) : Prop := exists j x', r = Some (j, x') /\ sok x'.

Lemma safe_ret j x : sok x -> safe (Some (j, x)).
Proof. intros; by exists j, x. Qed.

Lemma safe_reject e x : sok x -> 0 <= e < 16 -> safe (reject dad e x).
Proof.
  intros Hs He; unfold reject; destruct (_ <=? _); [by apply safe_ret|].
  destruct (nz _); [destruct (safe_build_R x 0 Hs) as (x' & Hm & Hx & _); [lia|] | destruct (safe_build_R x e Hs He) as (x' & Hm & Hx & _)].
  - change (Z.lor T1_R_BLOCK 0) with T1_R_BLOCK in Hm; rewrite Hm; by apply safe_ret.
  - rewrite Hm; by apply safe_ret.
Qed.

Lemma safe_refuse x : sok x -> safe (refuse dad x).
Proof.
  intros Hs; unfold refuse; destruct (safe_build_R x T1_OTHER_ERROR Hs) as (x' & -> & Hx & _); [done|].
  by apply safe_ret.
Qed.

Lemma safe_next_R x j : sok x -> safe (x ← build_ctl dad T1_R_BLOCK x; Some (j, x)).
Proof.
  intros Hs; destruct (safe_build_R x 0 Hs) as (x' & Hm & Hx & _); [lia|].
  change (Z.lor T1_R_BLOCK 0) with T1_R_BLOCK in Hm; rewrite Hm; by apply safe_ret.
Qed.

Lemma safe_ack x : sok x -> exists x', ack_sent x = Some x' /\ sok x'.
Proof.
  intros Hs; unfold ack_sent; pose proof Hs as [? [] ? Hsb Hf Hls].
  assert (Hget : exists r d sb, ct_buf_get (x_sbuf x) false (x_last_send x) = Some (r, d, sb) /\ ct_wf sb /\ tail sb = tail (x_sbuf x)).
  { destruct (decide (zlen (ct_data (x_sbuf x)) < x_last_send x)).
    - rewrite ct_buf_get_short by done; eauto 10.
    - destruct (ct_buf_get_ok (x_sbuf x) false (x_last_send x) Hsb) as (sb & -> & ? & _ & _ & _ & ?); [lia|]; eauto 10. }
  destruct Hget as (r & d & sb & -> & Hwf & Ht); cbn [mbind option_bind]; eexists; split; [reflexivity|].
  destruct Hs; split; try done; simpl; [split; try done; simpl; auto with cmem | by rewrite Ht].
Qed.

Lemma safe_rebuild x :
  sok x -> exists n b, t1_rebuild (x_t1 x) (x_sdata x) = Some (n, b) /\ sok (x <| x_sdata := b |> <| x_slen := n |>).
Proof.
  intros Hs; unfold t1_rebuild; pose proof (s_t1 _ Hs) as [_ _ _ _ Hpb Hpib]; pose proof (s_sd _ Hs) as Hsd.
  pose proof (s_pib _ Hs) as (l & Hl & Hl0 & Hl4).
  assert (Hcp : forall src n, 0 <= n <= zlen src -> n <= T1_BUFFER_SIZE ->
    exists b, memcpy (x_sdata x) 0 src 0 n = Some b /\ sok (x <| x_sdata := b |> <| x_slen := n |>)).
  { intros src n Hn Hm; destruct (memcpy_in (x_sdata x) 0 src 0 n) as (b & Hc & _); try lia.
    exists b; split; [done|]; pose proof (memcpy_len _ _ _ _ _ _ Hc) as Hlen.
    destruct Hs; split; try done; simpl; [by rewrite Hlen | lia]. }
  destruct (Hcp (previous_block (x_t1 x)) 4) as (b4 & Hb4 & Hs4); [lia | done |].
  destruct (rd_in (previous_block (x_t1 x)) 1) as [p ->]; [lia|]; cbn [mbind option_bind].
  destruct (rd_in (previous_i_block (x_t1 x)) 1) as [p1 ->]; [lia|]; cbn [mbind option_bind].
  destruct (rd_in (x_sdata x) PCB) as [q ->]; [rewrite Hsd; done|]; cbn [mbind option_bind].
  destruct (_ =? T1_I_BLOCK); [destruct (_ =? _)|destruct (_ =? _)].
  - rewrite Hl; cbn [mbind option_bind].
    destruct (Hcp (previous_i_block (x_t1 x)) (l + 4)) as (b & -> & Hs'); [unfold T1_BUFFER_SIZE in *; lia | done |].
    cbn [mbind option_bind]; eauto.
  - rewrite Hb4; cbn [mbind option_bind]; eauto.
  - rewrite Hb4; cbn [mbind option_bind]; eauto.
  - eexists _, _; split; [reflexivity|]; destruct Hs; split; try done; simpl; unfold T1_BUFFER_SIZE; lia.
Qed.

Lemma safe_handle_R pcb x : sok x -> safe (handle_R emv dad pcb x).
Proof.
  intros Hs; unfold handle_R; pose proof (s_sd _ Hs) as Hsd.
  destruct (rd_in (x_sdata x) LEN) as [l ->]; [rewrite Hsd; done|]; cbn [mbind option_bind].
  destruct (_ || _); [by apply safe_reject|].
  destruct (_ && _); [by apply safe_reject|].
  destruct (t1_state (x_t1 x) =? RECEIVING).
  - pose proof (s_t1 _ Hs) as [_ _ _ _ Hpb Hpib].
    destruct (rd_in (previous_block (x_t1 x)) 1) as [p ->]; [rewrite Hpb; lia|]; cbn [mbind option_bind].
    destruct (t1_block_type p =? T1_R_BLOCK); [|by apply safe_next_R].
    destruct (_ && _); [by apply safe_ret|].
    destruct (safe_rebuild x Hs) as (n & b & -> & Hs'); cbn [mbind option_bind]; by apply safe_ret.
  - assert (Hack : exists x', (if negb (t1_seq pcb =? ns (x_t1 x)) then ack_sent x else Some x) = Some x' /\ sok x').
    { destruct (negb _); [by apply safe_ack | eauto]. }
    destruct Hack as (x1 & -> & Hs1); cbn [mbind option_bind].
    destruct (_ && _); [by apply safe_ret|].
    destruct (safe_build_I x1 Hs1) as (x2 & -> & Hs2 & _); cbn [mbind option_bind].
    destruct (nz _); by apply safe_ret.
Qed.

(** A block was received: the bytes of its prologue are bytes. *)
Definition prologue x : Prop := Forall is_u8 (take 4 (x_sdata x)).

Lemma prologue_rd x i : sok x -> prologue x -> 0 <= i < 4 -> exists v, rd (x_sdata x) i = Some v /\ is_u8 v.
Proof.
  intros Hs Hp Hi; pose proof (s_sd _ Hs) as Hsd; unfold T1_BUFFER_SIZE in *.
  destruct (rd_in (x_sdata x) i) as [v Hv]; [lia|]; exists v; split; [done|].
  apply rd_Some in Hv as [_ Hv]; unfold prologue in Hp; rewrite Forall_lookup in Hp.
  apply (Hp (Z.to_nat i)); rewrite lookup_take_lt; [done | lia].
Qed.

Lemma safe_handle_I pcb x :
  sok x -> prologue x -> rd (x_sdata x) LEN <> Some 255 -> safe (handle_I dad pcb x).
Proof.
  intros Hs Hp Hff; unfold handle_I.
  assert (Hack : exists x', (if t1_state (x_t1 x) =? SENDING then ack_sent x else Some x) = Some x' /\
            sok x' /\ x_sdata x' = x_sdata x).
  { destruct (_ =? _); [|eauto]; destruct (safe_ack x Hs) as (x' & Hx & Hs'); exists x'; split_and!; try done.
    unfold ack_sent in Hx; apply bind_Some in Hx as ([[? ?] ?] & _ & Hx); injection Hx as <-; done. }
  destruct Hack as (x1 & -> & Hs1 & Hsd1); cbn [mbind option_bind].
  destruct (nz (t1_more (x_t1 x1))); [by apply safe_refuse|].
  set (x2 := x1 <| x_t1 := _ |>).
  assert (Hs2 : sok x2) by (destruct Hs1 as [? []]; split; try done; split; done).
  cbv zeta; destruct (negb _); [by apply safe_reject|].
  set (x3 := x2 <| x_t1 := _ |>).
  assert (Hs3 : sok x3).
  { destruct Hs2 as [? []]; split; try done; split; try done; simpl; auto with cmem. }
  change (x_sdata x3) with (x_sdata x1); rewrite Hsd1.
  destruct (prologue_rd x LEN Hs Hp) as (l & Hl & Hl8); [unfold LEN; lia|]; rewrite Hl; cbn [mbind option_bind].
  assert (l <> 255) by congruence; pose proof (s_sd _ Hs) as Hsd; unfold is_u8, T1_BUFFER_SIZE in *.
  rewrite rdn_in by lia; cbn [mbind option_bind]; set (d := slice _ _ _).
  assert (Hput : exists n rb, ct_buf_put (x_rbuf x3) d = Some (n, rb) /\ sok (x3 <| x_rbuf := rb |>)).
  { pose proof (s_rb _ Hs3) as Hrb; pose proof (s_rbs _ Hs3) as Hsz.
    destruct (decide (size (x_rbuf x3) < tail (x_rbuf x3) + zlen d)).
    - rewrite ct_buf_put_full by done; eexists _, _; split; [done|]; destruct Hs3; split; try done.
      destruct Hrb; split; done.
    - destruct (ct_buf_put_ok (x_rbuf x3) d Hrb) as (rb & -> & ? & _ & _ & _ & _ & Hsz' & _); [lia|].
      eexists _, _; split; [done|]; destruct Hs3; split; try done; simpl; congruence. }
  destruct Hput as (n & rb & -> & Hs4); cbn [mbind option_bind].
  destruct (n <? 0); [by apply safe_ret|].
  destruct (_ =? 0); [by apply safe_ret|].
  set (x4 := x3 <| x_rbuf := rb |>) in *.
  destruct (clear_prev_error (previous_block (x_t1 x4))) as (p & pb & Hp' & Hpb & Hl4); [apply Hs4|].
  rewrite Hp'; cbn [mbind option_bind]; rewrite Hpb; cbn [mbind option_bind]; apply safe_next_R.
  destruct Hs4 as [? []]; split; try done; split; done.
Qed.

Lemma S_type_cases pcb : exists t, T1_S_TYPE pcb = t /\ 0 <= t < 16 /\
  t1_block_type (Z.lor (Z.lor T1_S_BLOCK T1_S_RESPONSE) t) = T1_S_BLOCK.
Proof.
  exists (T1_S_TYPE pcb); pose proof (is_error_nibble pcb) as H; unfold T1_IS_ERROR in H; fold (T1_S_TYPE pcb) in H.
  split; [done|]; split; [done|]; apply nibble_cases in H; destruct_or? H; rewrite H; reflexivity.
Qed.

Lemma safe_respond pcb tbuf x :
  sok x -> ct_wf tbuf -> zlen (ct_data tbuf) <= 1 -> safe (respond_S dad pcb tbuf x).
Proof.
  intros Hs Hwf Hl; unfold respond_S; destruct (S_type_cases pcb) as (t & -> & _ & Hty).
  rewrite (t1_build_S _ _ _ _ (Some tbuf)) by (done || apply Hs).
  cbn [mbind option_bind]; apply safe_ret; by apply (sok_ctl x _ (ct_data tbuf)).
Qed.

Lemma safe_handle_S_request pcb x : sok x -> prologue x -> safe (handle_S_request dad pcb x).
Proof.
  intros Hs Hp; unfold handle_S_request; cbv zeta.
  set (tb := ct_buf_init (replicate 5 0) 5).
  assert (Htb : ct_wf tb) by (apply ct_buf_init_wf; vm_compute; intuition congruence).
  destruct (prologue_rd x LEN Hs Hp) as (l & -> & _); [unfold LEN; lia|].
  destruct (prologue_rd x DATA Hs Hp) as (d & -> & Hd8); [unfold DATA; lia|]; cbn [mbind option_bind].
  assert (Hput : exists n tb', ct_buf_putc tb d = Some (n, tb') /\ ct_wf tb' /\ zlen (ct_data tb') <= 1).
  { unfold ct_buf_putc; destruct (ct_buf_put_ok tb [u8 d] Htb) as (tb' & -> & ? & Hd & _); [done|].
    eexists _, _; split; [done|]; split; [done|]; by rewrite Hd. }
  destruct Hput as (n & tb' & -> & Hwf & Hl1); cbn [mbind option_bind].
  destruct (_ =? T1_S_RESYNC); [destruct (nz l); [by apply safe_refuse | by apply safe_ret]|].
  destruct (_ =? T1_S_ABORT); [destruct (nz l); [by apply safe_refuse | by apply safe_respond]|].
  destruct (_ =? T1_S_IFS).
  - destruct (negb _); [by apply safe_refuse|].
    destruct ((d <? 16) || (d =? 255)) eqn:E; [by apply safe_reject|]; zbool.
    destruct (d =? 0); [by apply safe_ret|]; apply safe_respond; try done.
    destruct Hs as [? []]; split; try done; split; try done; simpl; lia.
  - destruct (_ =? T1_S_WTX); [|by apply safe_reject].
    destruct (negb _); [by apply safe_reject|]; apply safe_respond; try done.
    destruct Hs as [? []]; split; try done; by apply lk_set_WTX_ok.
Qed.

Lemma safe_handle_S pcb x : sok x -> prologue x -> safe (handle_S dad pcb x).
Proof.
  intros Hs Hp; unfold handle_S.
  destruct (_ && _); [|destruct (nz _); [by apply safe_reject | by apply safe_handle_S_request]].
  destruct (negb _); [by apply safe_ret|].
  set (y := x <| x_t1 := _ |> <| x_last_send := 0 |> <| x_resyncs := 3 |> <| x_retries := _ |>
              <| x_rbuf := _ |> <| x_sbuf := _ |>).
  assert (Hy : sok y).
  { destruct Hs as [? [] ? [] ? ? [] ? ?]; split; try done; split; simpl; unfold T1_BUFFER_SIZE in *; lia. }
  destruct (safe_build_I y Hy) as (x' & -> & Hx & _); by apply safe_ret.
Qed.

Lemma safe_on_parity x : sok x -> safe (on_parity dad x).
Proof.
  intros Hs; unfold on_parity; destruct (_ <=? _); [by apply safe_ret|]; apply safe_reject; [|done].
  destruct Hs; split; try done; by apply lk_set_err_ok.
Qed.

Lemma safe_on_failure x : sok x -> safe (on_failure dad x).
Proof.
  intros Hs; unfold on_failure.
  destruct (rd_in (previous_block (x_t1 x)) PCB) as [p ->]; [rewrite (wf_pb _ (s_t1 _ Hs)); done|].
  cbn [mbind option_bind]; destruct (_ && _); [by apply safe_ret|]; destruct (_ <=? _); [by apply safe_ret|].
  destruct (safe_reject T1_OTHER_ERROR x Hs) as (j & x' & -> & Hx); [done|]; cbn [mbind option_bind].
  apply safe_ret; destruct Hx; split; try done; by apply lk_set_err_ok.
Qed.

Lemma safe_on_block n x : sok x -> prologue x -> 0 <= n <= T1_BUFFER_SIZE -> safe (on_block emv dad n x).
Proof.
  intros Hs Hp Hn; unfold on_block.
  assert (Hv : exists b, t1_verify_checksum (x_t1 x) (x_sdata x) n = Some b).
  { unfold t1_verify_checksum; rewrite (wf_rc _ (s_t1 _ Hs)); pose proof (csum_len_pos (csum (x_t1 x))).
    destruct (_ <? 0) eqn:?; zbool; [eauto|]; pose proof (s_sd _ Hs).
    rewrite !rdn_in by lia; cbn [mbind option_bind]; eauto. }
  destruct Hv as [v ->]; cbn [mbind option_bind]; destruct (negb v); [by apply safe_reject|].
  destruct (prologue_rd x NAD Hs Hp) as (a & -> & _); [unfold NAD; lia|].
  destruct (prologue_rd x LEN Hs Hp) as (l & Hl & _); [unfold LEN; lia|]; rewrite Hl.
  destruct (prologue_rd x PCB Hs Hp) as (pcb & -> & _); [unfold PCB; lia|]; cbn [mbind option_bind].
  destruct (negb _ || (l =? 255)) eqn:E; [by apply safe_reject|]; zbool.
  destruct (_ =? T1_R_BLOCK); [by apply safe_handle_R|].
  destruct (_ =? T1_I_BLOCK); [apply safe_handle_I; try done; rewrite Hl; congruence | by apply safe_handle_S].
Qed.

(** ** The loop *)
Definition safe_result (r : option (t1_result W)) : Prop :=
  exists v, r = Some v /\
    match v with
    | T1Running x => sok x
    | T1Return ret x => sok x /\ -1 <= ret <= T1_BUFFER_SIZE /\ (ret = -1 -> t1_state (x_t1 x) = DEAD)
    end.

Lemma safe_dead x : sok x -> safe_result (Some (T1Return (-1) (x <| x_t1 := (x_t1 x) <| t1_state := DEAD |> |>))).
Proof.
  intros Hs; eexists; split; [done|]; split; [|unfold T1_BUFFER_SIZE; split; [lia | done]].
  destruct Hs as [? []]; split; try done; by split.
Qed.

(** The resynchronisation request. *)
Lemma resync_spec x :
  sok x -> x_resyncs x <> 0 ->
  exists x', resync dad x = Some (T1Running x') /\ sok x' /\ x_retries x' = 1 /\
    x_resyncs x' = x_resyncs x - 1 /\ rd (previous_block (x_t1 x')) PCB = Some (Z.lor T1_S_BLOCK T1_S_RESYNC).
Proof.
  intros Hs Hr; unfold resync; rewrite (proj2 (Z.eqb_neq _ _) Hr).
  set (y := x <| x_resyncs := _ |> <| x_t1 := _ |> <| x_w := _ |>).
  assert (Hy : sok y).
  { destruct Hs as [? []]; split; try done; [by apply lk_set_err_ok | split; try done; by left]. }
  destruct (safe_build_resync y Hy) as (x' & Hm & Hx & _ & Hre & _); rewrite Hm; cbn [mbind option_bind].
  eexists; split; [reflexivity|]; split_and!; try done.
  - destruct Hx as [? []]; split; try done; by split.
  - unfold build_ctl in Hm; rewrite t1_build_S in Hm by (done || apply Hy); injection Hm as <-; done.
Qed.

Lemma safe_land j x : sok x -> safe_result (land_jump dad j x).
Proof.
  intros Hs; destruct j; cbn [land_jump].
  - by eexists.
  - eexists; split; [done|]; by destruct Hs.
  - destruct (decide (x_resyncs x = 0)) as [Hr | Hr].
    + unfold resync; rewrite (proj2 (Z.eqb_eq _ _) Hr); by apply safe_dead.
    + destruct (resync_spec x Hs Hr) as (x' & -> & Hx & _); by eexists.
  - eexists; split; [done|]; split; [done|].
    pose proof (s_rbs _ Hs); destruct (s_rb _ Hs); unfold ct_buf_avail; rewrite u32_id by lia; lia.
  - by apply safe_dead.
Qed.

Lemma safe_turn x : sok x -> safe_result (t1_turn emv dad x).
Proof.
  intros Hs; unfold t1_turn.
  destruct (lk_xcv_ok (x_w x) (x_sdata x) (x_slen x)) as (n & w & b & Hx & Hw & Hb & Hn & Hp); try apply Hs.
  change (lk_xcv (x_w (x <| x_retries := _ |>)) _ _) with (lk_xcv (x_w x) (x_sdata x) (x_slen x)).
  rewrite Hx; cbn [mbind option_bind]; set (y := _ <| x_sdata := b |>).
  assert (Hy : sok y) by (destruct Hs; by split).
  assert (Hstep : safe (if (n =? -2) || (lk_err w =? 13) || (lk_err w =? 1) then on_parity dad y
                        else if n <? 0 then on_failure dad y else on_block emv dad n y)).
  { destruct (_ || _ || _); [by apply safe_on_parity|].
    destruct (n <? 0) eqn:?; zbool; [by apply safe_on_failure|].
    apply safe_on_block; [done | by apply Hp | lia]. }
  destruct Hstep as (j & x' & -> & Hx'); by apply safe_land.
Qed.

Lemma safe_loop fuel x : sok x -> safe_result (t1_loop emv dad fuel x).
Proof.
  revert x; induction fuel as [|fuel IH]; intros x Hs; cbn [t1_loop]; [by eexists|].
  destruct (safe_turn x Hs) as ([ret x' | x'] & -> & Hx); cbn [mbind option_bind]; [|by apply IH].
  by eexists.
Qed.

(** The protocol state on entry. *)
Definition t1_entry (t1 : t1_state_t) : Prop :=
  t1_wf t1 /\ exists l, rd (previous_i_block t1) 2 = Some l /\ is_u8 l.

Lemma safe_start w t1 sdata snd_buf snd_len rcv_buf :
  ok w -> t1_entry t1 -> zlen sdata = T1_BUFFER_SIZE -> 0 < snd_len <= zlen snd_buf ->
  fits t1 snd_len -> T1_BUFFER_SIZE <= zlen rcv_buf -> t1_state t1 <> DEAD ->
  exists x, t1_start dad w t1 sdata snd_buf snd_len rcv_buf = Some (Some x) /\ sok x /\
    x_retries x = retries t1 /\ x_resyncs x = 3 /\
    exists p, rd (previous_block (x_t1 x)) PCB = Some p /\ t1_block_type p = T1_I_BLOCK.
Proof.
  intros Hw [Ht (l & Hl2 & Hl8)] Hsd Hl Hf Hrb Hst; unfold t1_start; pose proof (csum_len_pos (csum t1)).
  rewrite (proj2 (Z.eqb_neq snd_len 0)), (proj2 (Z.eqb_neq _ _) Hst) by lia.
  change (previous_block (t1 <| t1_state := SENDING |>)) with (previous_block t1).
  rewrite wrn_0 by (rewrite (wf_pb _ Ht); done); cbn [mbind option_bind].
  rewrite drop_ge, app_nil_r by (pose proof (wf_pb _ Ht); unfold zlen in *; simpl; lia).
  set (x0 := mk_xfer _ _ _ _ _ _ _ _ _); unfold fits, T1_BUFFER_SIZE, is_u8 in *.
  assert (Hx0 : sok x0).
  { destruct Ht; split; try done.
    - apply ct_buf_set_wf; lia.
    - exists l; split; [done|]; unfold T1_BUFFER_SIZE; lia. }
  destruct (safe_build_I x0 Hx0) as (x & -> & Hx & (Hr & Hre & _) & Hp); cbn [mbind option_bind]; exists x; done.
Qed.

Lemma safe_transceive fuel w t1 sdata snd_buf snd_len rcv_buf :
  ok w -> t1_entry t1 -> zlen sdata = T1_BUFFER_SIZE -> 0 <= snd_len <= zlen snd_buf ->
  fits t1 snd_len -> T1_BUFFER_SIZE <= zlen rcv_buf ->
  exists r, t1_transceive emv dad fuel w t1 sdata snd_buf snd_len rcv_buf = Some r /\
    match r with
    | None => True
    | Some (ret, w', t1', sdata', rcv') =>
        -1 <= ret <= T1_BUFFER_SIZE /\ ok w' /\ t1_entry t1' /\ zlen sdata' = T1_BUFFER_SIZE /\
        T1_BUFFER_SIZE <= zlen rcv' /\ (ret = -1 -> t1_state t1' = DEAD \/ snd_len = 0)
    end.
Proof.
  intros Hw Ht Hsd Hl Hf Hrb; unfold t1_transceive.
  destruct (decide (snd_len = 0 \/ t1_state t1 = DEAD)) as [Hd | Hd].
  - assert (Hst : t1_start dad w t1 sdata snd_buf snd_len rcv_buf = Some None).
    { unfold t1_start; destruct Hd as [-> | ->]; [done|]; by destruct (snd_len =? 0). }
    rewrite Hst; eexists; split; [reflexivity|]; split_and!; try done; naive_solver.
  - destruct (safe_start w t1 sdata snd_buf snd_len rcv_buf) as (x & -> & Hx & _); try done; try lia.
    cbn [mbind option_bind]; destruct (safe_loop fuel x Hx) as ([ret x' | x'] & -> & Hr); cbn [mbind option_bind];
      eexists; (split; [reflexivity|]); [|done].
    destruct Hr as (Hs & Hret & Hdead); pose proof (s_rbs _ Hs); destruct Hs as [? ? ? ? ? ? [] ? ? (l & ? & ? & ?)].
    split_and!; try done; try lia.
    split; [done|]; exists l; split; [done|]; unfold is_u8, T1_BUFFER_SIZE in *; lia.
Qed.

(** ** A link that keeps failing *)
Section down.
Hypothesis Hdown : forall w b n r w' b', ok w -> lk_xcv w b n = Some (r, w', b') -> r < 0.

Definition calm x : Prop :=
  exists p, rd (previous_block (x_t1 x)) PCB = Some p /\
    (t1_block_type p =? T1_S_BLOCK) && (T1_S_TYPE p =? T1_S_ABORT) = false.

Lemma reject_calm x e :
  sok x -> 0 <= e < 16 -> 0 < x_retries x ->
  exists x', reject dad e x = Some (JContinue, x') /\ sok x' /\ calm x' /\ kept x x'.
Proof.
  intros Hs He Hr; unfold reject; rewrite (proj2 (Z.leb_gt _ _) Hr).
  assert (Hpcb : exists e', 0 <= e' < 16 /\
    (if nz (icc_has_more (x_t1 x)) then T1_R_BLOCK else Z.lor T1_R_BLOCK e) = Z.lor T1_R_BLOCK e').
  { destruct (nz _); [exists 0 | exists e]; split; done || lia. }
  destruct Hpcb as (e' & He' & ->); destruct (safe_build_R x e' Hs He') as (x' & Hm & Hx & Hk).
  rewrite Hm; cbn [mbind option_bind]; exists x'; split_and!; try done; clear Hx.
  destruct (t1_build_R (x_t1 x) (x_sdata x) dad e' (s_t1 _ Hs) (s_sd _ Hs) Hdad He') as (e2 & He2 & Hb).
  unfold build_ctl in Hm; rewrite Hb in Hm; injection Hm as <-.
  destruct (r_pcb_spec (nr (x_t1 x)) e2 (wf_nr _ (s_t1 _ Hs)) He2) as (_ & Hty & _).
  eexists; split; [reflexivity|]; by rewrite Hty.
Qed.

Lemma turn_down x :
  sok x -> calm x -> 1 <= x_retries x < 4294967296 -> 0 <= x_resyncs x ->
  (exists x', t1_turn emv dad x = Some (T1Running x') /\ sok x' /\ calm x' /\
     1 <= x_retries x' < 4294967296 /\ 0 <= x_resyncs x' /\
     x_retries x' + x_resyncs x' = x_retries x + x_resyncs x - 1) \/
  (exists x', t1_turn emv dad x = Some (T1Return (-1) x') /\ t1_state (x_t1 x') = DEAD).
Proof.
  intros Hs (p & Hp & Hcalm) Hr Hy0; unfold t1_turn.
  destruct (lk_xcv_ok (x_w x) (x_sdata x) (x_slen x)) as (n & w & b & Hx & Hw & Hb & Hn & _); try apply Hs.
  pose proof (Hdown _ _ _ _ _ _ (s_w _ Hs) Hx) as Hneg.
  change (lk_xcv (x_w (x <| x_retries := _ |>)) _ _) with (lk_xcv (x_w x) (x_sdata x) (x_slen x)).
  rewrite Hx; cbn [mbind option_bind]; set (y := _ <| x_sdata := b |>).
  assert (Hy : sok y) by (destruct Hs; by split).
  assert (Hyr : x_retries y = x_retries x - 1) by (apply u32_id; lia).
  rewrite (proj2 (Z.ltb_lt _ _) Hneg).
  assert (Hf : on_failure dad y = if x_retries y <=? 0 then Some (JResync, y) else
            '(j, x) ← reject dad T1_OTHER_ERROR y; Some (j, x <| x_w := lk_set_err 0 (x_w x) |>)).
  { unfold on_failure; change (previous_block (x_t1 y)) with (previous_block (x_t1 x)); rewrite Hp.
    cbn [mbind option_bind]; by rewrite Hcalm. }
  rewrite Hf; unfold on_parity; clear Hf; rewrite Hyr.
  destruct (x_retries x - 1 <=? 0) eqn:E; zbool.
  - replace (if _ || _ || _ then Some (JResync, y) else Some (JResync, y)) with (Some (JResync, y)) by (by destruct (_ || _ || _)).
    cbn [mbind option_bind land_jump]; change (x_resyncs y) with (x_resyncs x) in *.
    destruct (decide (x_resyncs x = 0)) as [H0 | H0].
    + right; unfold resync; change (x_resyncs y) with (x_resyncs x); rewrite H0; eexists; split; done.
    + left; destruct (resync_spec y Hy H0) as (x' & -> & Hx' & Hr' & Hre' & Hpb).
      change (x_resyncs y) with (x_resyncs x) in *; exists x'; split_and!; try done; try lia.
      eexists; split; [exact Hpb | done].
  - left; destruct (_ || _ || _).
    + destruct (reject_calm (y <| x_w := lk_set_err 0 (x_w y) |>) T1_EDC_ERROR) as (x' & -> & Hx' & Hc' & Hk1 & Hk2 & _).
      * destruct Hy; split; try done; by apply lk_set_err_ok.
      * done.
      * change (0 < x_retries y); lia.
      * cbn [mbind option_bind land_jump]; exists x'; change (x_retries (y <| x_w := _ |>)) with (x_retries y) in Hk1.
        change (x_resyncs (y <| x_w := _ |>)) with (x_resyncs x) in Hk2; split_and!; try done; lia.
    + destruct (reject_calm y T1_OTHER_ERROR) as (x' & -> & Hx' & Hc' & Hk1 & Hk2 & _); [done | done | lia |].
      cbn [mbind option_bind land_jump]; eexists; split; [reflexivity|].
      change (x_resyncs y) with (x_resyncs x) in Hk2; split_and!; try done; try (simpl; lia).
      destruct Hx'; split; try done; by apply lk_set_err_ok.
Qed.

Lemma loop_down fuel x :
  sok x -> calm x -> 1 <= x_retries x < 4294967296 -> 0 <= x_resyncs x ->
  x_retries x + x_resyncs x <= Z.of_nat fuel ->
  exists x', t1_loop emv dad fuel x = Some (T1Return (-1) x') /\ t1_state (x_t1 x') = DEAD.
Proof.
  revert x; induction fuel as [|fuel IH]; intros x Hs Hc Hr Hy Hf; [lia|]; cbn [t1_loop].
  destruct (turn_down x Hs Hc Hr Hy) as [(x' & -> & ? & ? & ? & ? & ?) | (x' & -> & ?)].
  - cbn [mbind option_bind]; apply IH; try done; lia.
  - eauto.
Qed.
End down.
End safe.

(** ** A first block that is too long

    [t1_build] copies four bytes behind the block: when they are not within the
    buffer the copy is out of bounds. *)
Lemma t1_build_overruns t1 block dad sb :
  t1_wf t1 -> zlen block = T1_BUFFER_SIZE -> 0 <= ct_buf_avail sb -> ~ fits t1 (Z.min (ct_buf_avail sb) (ifsc t1)) ->
  t1_build t1 block dad T1_I_BLOCK (Some sb) = None.
Proof.
  intros Hwf Hb Ha Hf; apply eq_None_not_Some; intros [[[[total len] t] b] H]; unfold t1_build in H.
  set (big := ifsc t1 <? ct_buf_avail sb) in *; set (n := if big then ifsc t1 else ct_buf_avail sb) in *; assert (Hn : n = Z.min (ct_buf_avail sb) (ifsc t1)) by (unfold n, big; zcase; lia).
  rewrite (t1_build_pcb_I t1 big) in H by apply Hwf; cbn [mbind option_bind] in H; destruct (i_pcb_spec (ns t1) big (wf_ns _ Hwf)) as (_ & Hty & _); rewrite Hty in H.
  set (t1' := if t1_block_type _ =? T1_I_BLOCK then _ else t1) in H; assert (Hc : csum t1' = csum t1) by (unfold t1'; by destruct (_ =? _)); clearbody t1'.
  apply bind_Some in H as (b1 & E1 & H); apply bind_Some in H as (b2 & E2 & H); apply bind_Some in H as (b3 & E3 & H); apply bind_Some in H as (b4 & E4 & H); apply bind_Some in H as ([tot b5] & E5 & H); apply bind_Some in H as (pb & _ & H); rewrite Z.eqb_refl in H; apply bind_Some in H as (t2 & E6 & _).
  apply bind_Some in E6 as (pib & E6 & _); unfold memcpy in E6; apply bind_Some in E6 as (bs & E6 & _); apply rdn_Some in E6 as (_ & _ & E6 & _).
  assert (L4 : zlen b4 = T1_BUFFER_SIZE).
  { assert (L3 : zlen b3 = T1_BUFFER_SIZE) by (by rewrite (wr_len _ _ _ _ E3), (wr_len _ _ _ _ E2), (wr_len _ _ _ _ E1)); destruct (nz n); [|by injection E4 as <-]; apply bind_Some in E4 as (d & _ & E4); by rewrite (wrn_len _ _ _ _ E4). }
  unfold t1_compute_checksum in E5; apply bind_Some in E5 as (bs' & _ & E5); apply bind_Some in E5 as (b6 & E5 & E7); injection E7 as <- <-; rewrite (wrn_len _ _ _ _ E5), L4, checksum_len, Hc in E6; unfold fits in Hf; rewrite <- Hn in Hf; lia.
Qed.

(** ** Properties *)

(** C3: memory safety of [t1_transceive] against any card, over a link that never
    gives a block of more than 259 bytes. A command of which a block with its
    checksum fits the buffer and four bytes behind it (at most 251 bytes with LRC,
    250 with CRC): whatever the card sends, in any number of exchanges no memory
    outside of the buffers is accessed; the return value is -1 or a length within
    the receive buffer; a return of -1 leaves the protocol state DEAD (or the
    command was empty); and buffers and protocol state stay well-formed. A command
    of which already the first block does not fit: [t1_build] copies bytes from
    behind the block buffer, whatever the card does. *)
Theorem t1_transceive_safe W `{!T1Link W} (ok : W -> Prop) `{!T1LinkOk W ok} emv dad fuel w t1 sdata snd_buf snd_len rcv_buf :
  is_u8 dad -> ok w -> t1_entry t1 -> zlen sdata = T1_BUFFER_SIZE -> 0 <= snd_len <= zlen snd_buf -> T1_BUFFER_SIZE <= zlen rcv_buf ->
  (fits t1 snd_len ->
    exists r, t1_transceive emv dad fuel w t1 sdata snd_buf snd_len rcv_buf = Some r /\
      match r with
      | None => True
      | Some (ret, w', t1', sdata', rcv') =>
          -1 <= ret <= T1_BUFFER_SIZE /\ ok w' /\ t1_entry t1' /\ zlen sdata' = T1_BUFFER_SIZE /\
          T1_BUFFER_SIZE <= zlen rcv' /\ (ret = -1 -> t1_state t1' = DEAD \/ snd_len = 0)
      end) /\
  (t1_state t1 <> DEAD -> 0 < snd_len < 4294967296 -> ~ fits t1 (Z.min snd_len (ifsc t1)) ->
    t1_transceive emv dad fuel w t1 sdata snd_buf snd_len rcv_buf = None).
Proof.
  intros Hdad Hw Ht Hsd Hl Hrb; split; [intros; by apply safe_transceive|intros Hst Hn Hf].
  unfold t1_transceive, t1_start; rewrite (proj2 (Z.eqb_neq snd_len 0)), (proj2 (Z.eqb_neq _ _) Hst) by lia; destruct Ht as [Ht _]; change (previous_block (t1 <| t1_state := SENDING |>)) with (previous_block t1).
  rewrite wrn_0 by (rewrite (wf_pb _ Ht); done); cbn [mbind option_bind]; unfold build_I; cbn [x_t1 x_sdata x_sbuf].
  assert (Hav : ct_buf_avail (ct_buf_set snd_buf snd_len) = snd_len) by (unfold ct_buf_avail; cbn; rewrite Z.sub_0_r; by apply u32_id; unfold is_u32; lia).
  rewrite t1_build_overruns; [done| |done|by rewrite Hav; lia|by rewrite Hav].
  destruct Ht as [? ? ? ? Hpb ?]; split; try done; cbn; rewrite !zlen_cons, drop_ge by (unfold zlen in Hpb; lia); done.
Qed.

(** C4: on a link on which every exchange fails, [t1_transceive] gives up after
    at most [retries + 3] exchanges (the retries of the block, then three
    resynchronisation requests): it returns -1 and the protocol state is DEAD. *)
Theorem t1_transceive_gives_up W `{!T1Link W} (ok : W -> Prop) `{!T1LinkOk W ok} emv dad fuel w t1 sdata snd_buf snd_len rcv_buf :
  (forall w b n r w' b', ok w -> lk_xcv w b n = Some (r, w', b') -> r < 0) ->
  is_u8 dad -> ok w -> t1_entry t1 -> t1_state t1 <> DEAD -> 1 <= retries t1 < 4294967296 ->
  zlen sdata = T1_BUFFER_SIZE -> 0 < snd_len <= zlen snd_buf -> fits t1 snd_len ->
  T1_BUFFER_SIZE <= zlen rcv_buf -> retries t1 + 3 <= Z.of_nat fuel ->
  exists w' t1' sdata' rcv',
    t1_transceive emv dad fuel w t1 sdata snd_buf snd_len rcv_buf = Some (Some (-1, w', t1', sdata', rcv')) /\
    t1_state t1' = DEAD.
Proof.
  intros Hdown Hdad Hw Ht Hst Hr Hsd Hl Hf Hrb Hfuel; unfold t1_transceive.
  destruct (safe_start ok dad Hdad w t1 sdata snd_buf snd_len rcv_buf) as (x & -> & Hx & Hxr & Hxs & p & Hp & Hty); try done.
  cbn [mbind option_bind].
  destruct (loop_down ok emv dad Hdad Hdown fuel x) as (x' & -> & Hd); try done; try lia.
  - exists p; split; [done | by rewrite Hty].
  - cbn [mbind option_bind]; eauto 10.
Qed.

(** ** A card that sends what it likes

    The link of a card that answers with the blocks of a list, one per exchange,
    whatever it is sent, and then falls silent. *)
Record script := mk_script { sc_blocks : list (list Z); sc_code : Z }.

#[export] Instance script_link : T1Link script := {|
  lk_xcv := fun w b n =>
    match sc_blocks w with
    | [] => Some (-1, w, b)
    | g :: gs => b ← wrn b 0 g; Some (zlen g, mk_script gs (sc_code w), b)
    end;
  lk_err := sc_code;
  lk_set_err := fun e w => mk_script (sc_blocks w) e;
  lk_set_WTX := fun _ w => w;
|}.

Definition script_ok (w : script) : Prop :=
  Forall (fun g => 4 <= zlen g <= T1_BUFFER_SIZE /\ Forall is_u8 g) (sc_blocks w).

#[export] Instance script_link_ok : T1LinkOk script script_ok.
Proof.
  split; [|done..].
  intros [gs e] b n Hok Hb Hn; unfold script_ok in *; simpl in *; destruct gs as [|g gs].
  - eexists _, _, _; split_and!; try done; unfold T1_BUFFER_SIZE; lia.
  - apply Forall_cons in Hok as [[Hl Hg] Hgs]; rewrite wrn_0 by lia; cbn [mbind option_bind].
    eexists _, _, _; split_and!; try done; [zlen_simpl; unfold zlen in *; lia | lia |].
    intros _; rewrite take_app_le by (unfold zlen in *; lia); by apply Forall_take.
Qed.

(** An IFS request for the largest block, a stray I-block, garbage. *)
Definition rude_script : script := mk_script [[0; 0xC1; 1; 0xFE; 0x3E]; [0; 0x40; 2; 0x90; 0; 0xD2]; [1; 2; 3; 4]] 0.

Lemma t1_example_entry : t1_entry t1_example.
Proof. split; [apply t1_example_ok|]; exists 0; split; [reflexivity | unfold is_u8; lia]. Qed.

Lemma rude_script_ok : script_ok rude_script.
Proof. repeat constructor; unfold is_u8; vm_compute; intuition congruence. Qed.

(** A command of 100 bytes is sent safely; one of 252 bytes, with blocks as large
    as ISO 7816-3 allows, is not. *)
Lemma t1_transceive_safe_witness :
  (exists r, t1_transceive false 0 50 rude_script t1_example (replicate 259 0) (replicate 100 7) 100 (replicate 300 0) = Some r) /\
  t1_transceive false 0 50 rude_script (t1_example <| ifsc := 254 |>) (replicate 259 0) (replicate 252 7) 252 (replicate 300 0) = None.
Proof.
  split.
  - destruct (proj1 (t1_transceive_safe script script_ok false 0 50 rude_script t1_example
      (replicate 259 0) (replicate 100 7) 100 (replicate 300 0) ltac:(unfold is_u8; lia) rude_script_ok t1_example_entry eq_refl ltac:(vm_compute; intuition congruence) ltac:(vm_compute; congruence))) as (r & Hr & _); [vm_compute; congruence|exists r; exact Hr].
  - apply (proj2 (t1_transceive_safe script script_ok false 0 50 rude_script (t1_example <| ifsc := 254 |>)
      (replicate 259 0) (replicate 252 7) 252 (replicate 300 0) ltac:(unfold is_u8; lia) rude_script_ok ltac:(destruct t1_example_entry as [[] ?]; by split; [split|]) eq_refl ltac:(vm_compute; intuition congruence) ltac:(vm_compute; congruence))); [discriminate|lia|vm_compute; intuition congruence].
Defined.

(** A card that never answers. *)
#[export] Instance silent_link_ok : T1LinkOk script (fun w => sc_blocks w = []).
Proof.
  split; [|done..]; intros [gs e] b n Hok Hb Hn; simpl in *; subst gs.
  eexists _, _, _; split_and!; try done; unfold T1_BUFFER_SIZE; lia.
Qed.

Lemma t1_transceive_gives_up_witness :
  exists w' t1' sdata' rcv',
    t1_transceive false 0 6 (mk_script [] 2) t1_example (replicate 259 0) (replicate 100 7) 100 (replicate 300 0)
      = Some (Some (-1, w', t1', sdata', rcv')) /\ t1_state t1' = DEAD.
Proof.
  apply (t1_transceive_gives_up script (fun w => sc_blocks w = []) false 0 6 (mk_script [] 2) t1_example
    (replicate 259 0) (replicate 100 7) 100 (replicate 300 0)); try (vm_compute; intuition congruence).
  - intros [gs e] b n r w' b' Hok Hx; simpl in *; subst gs; injection Hx as <- _ _; lia.
  - apply t1_example_entry.
Defined.
