(* ===== verification/T1Sim.v ===== *)
(** The transmission loop of sc-t1.c does not depend on the link it runs over:
    over two links whose exchanges correspond, it does the same. *)
From S2P Require Import Prelude Checksum CtBuf T1.

Section Sim.
  Context {W1 W2 : Type} `{!T1Link W1} `{!T1Link W2} (Q : W1 -> W2 -> Prop).
  (** Corresponding worlds show the same error, and stay so when it is cleared
      and when the waiting time extension is stored. *)
  Hypothesis Q_err : forall a b, Q a b -> lk_err a = lk_err b.
  Hypothesis Q_clear : forall a b, Q a b -> Q (lk_set_err 0 a) (lk_set_err 0 b).
  Hypothesis Q_WTX : forall v a b, Q a b -> Q (lk_set_WTX v a) (lk_set_WTX v b).
  Context (emv : bool) (dad : Z).
  Implicit Types (x : xfer W1) (y : xfer W2).

(** The same local variables over corresponding worlds. *)
Inductive sim : xfer W1 -> xfer W2 -> Prop :=
| sim_intro a b t1 sd sb rb sl re rs ls : Q a b -> sim (mk_xfer a t1 sd sb rb sl re rs ls) (mk_xfer b t1 sd sb rb sl re rs ls).

(** The same local variables, whatever the worlds. *)
Inductive same : xfer W1 -> xfer W2 -> Prop :=
| same_intro a b t1 sd sb rb sl re rs ls : same (mk_xfer a t1 sd sb rb sl re rs ls) (mk_xfer b t1 sd sb rb sl re rs ls).

Inductive jsim : jump * xfer W1 -> jump * xfer W2 -> Prop :=
| jsim_intro j x y : sim x y -> jsim (j, x) (j, y).

Inductive rsim : t1_result W1 -> t1_result W2 -> Prop :=
| rsim_return n x y : sim x y -> rsim (T1Return n x) (T1Return n y)
| rsim_running x y : sim x y -> rsim (T1Running x) (T1Running y).

Lemma bind_sim {A1 A2 B1 B2} (R : A1 -> A2 -> Prop) (S : B1 -> B2 -> Prop) o1 o2 f g :
  option_Forall2 R o1 o2 -> (forall a b, R a b -> option_Forall2 S (f a) (g b)) -> option_Forall2 S (o1 ≫= f) (o2 ≫= g).
Proof. intros [a b Hab|] Hf; [exact (Hf a b Hab) | constructor]. Qed.

Create HintDb sim.
#[local] Hint Constructors sim : sim.
#[local] Hint Resolve Q_clear Q_WTX : sim.

(** Both sides make the same steps; at the ends the variables correspond. *)
Ltac sim_cbn := cbn [set eta_xfer x_w x_t1 x_sdata x_sbuf x_rbuf x_slen x_retries x_resyncs x_last_send fst snd].
Ltac sim_step :=
  match goal with
  | |- option_Forall2 _ (Some _ ≫= _) (Some _ ≫= _) => rewrite !bind_ok
  | |- option_Forall2 _ (?o ≫= _) (?o ≫= _) => destruct o as [?|]; [rewrite !bind_ok | constructor]
  | |- option_Forall2 _ (let '(_, _) := ?p in _) (let '(_, _) := ?p in _) => destruct p
  | |- option_Forall2 _ (if ?b then _ else _) (if ?b then _ else _) => destruct b
  | |- option_Forall2 _ ((if ?b then _ else _) ≫= _) ((if ?b then _ else _) ≫= _) => destruct b
  | |- option_Forall2 jsim (Some _) (Some _) => constructor; apply jsim_intro; solve [auto with sim]
  | |- option_Forall2 rsim (Some _) (Some _) => constructor; constructor; solve [auto with sim]
  | |- option_Forall2 sim (Some _) (Some _) => constructor; solve [auto with sim]
  | |- option_Forall2 _ (_ ≫= _) (_ ≫= _) =>
      eapply bind_sim; [solve [auto with sim] | let H := fresh in intros ? ? H; destruct H; try match goal with H : sim _ _ |- _ => destruct H end]
  | |- option_Forall2 _ _ _ => solve [auto with sim]
  end.
Ltac sim_auto := sim_cbn; repeat (sim_step; cbn beta iota zeta; sim_cbn).
Ltac sim_start f := let H := fresh in intros H; destruct H; unfold f; sim_auto.

Lemma build_ctl_sim pcb x y : sim x y -> option_Forall2 sim (build_ctl dad pcb x) (build_ctl dad pcb y).
Proof. sim_start @build_ctl. Qed.

Lemma build_I_sim x y : sim x y -> option_Forall2 sim (build_I dad x) (build_I dad y).
Proof. sim_start @build_I. Qed.
#[local] Hint Resolve build_ctl_sim build_I_sim : sim.

Lemma reject_sim err x y : sim x y -> option_Forall2 jsim (reject dad err x) (reject dad err y).
Proof. sim_start @reject. Qed.

Lemma refuse_sim x y : sim x y -> option_Forall2 jsim (refuse dad x) (refuse dad y).
Proof. sim_start @refuse. Qed.

Lemma ack_sent_sim x y : sim x y -> option_Forall2 sim (ack_sent x) (ack_sent y).
Proof. sim_start @ack_sent. Qed.
#[local] Hint Resolve reject_sim refuse_sim ack_sent_sim : sim.

Lemma handle_R_sim pcb x y : sim x y -> option_Forall2 jsim (handle_R emv dad pcb x) (handle_R emv dad pcb y).
Proof. sim_start @handle_R. Qed.

Lemma handle_I_sim pcb x y : sim x y -> option_Forall2 jsim (handle_I dad pcb x) (handle_I dad pcb y).
Proof. sim_start @handle_I. Qed.

Lemma respond_S_sim pcb tbuf x y : sim x y -> option_Forall2 jsim (respond_S dad pcb tbuf x) (respond_S dad pcb tbuf y).
Proof. sim_start @respond_S. Qed.
#[local] Hint Resolve handle_R_sim handle_I_sim respond_S_sim : sim.

Lemma handle_S_request_sim pcb x y : sim x y -> option_Forall2 jsim (handle_S_request dad pcb x) (handle_S_request dad pcb y).
Proof. sim_start @handle_S_request. Qed.
#[local] Hint Resolve handle_S_request_sim : sim.

Lemma handle_S_sim pcb x y : sim x y -> option_Forall2 jsim (handle_S dad pcb x) (handle_S dad pcb y).
Proof. sim_start @handle_S. Qed.
#[local] Hint Resolve handle_S_sim : sim.

Lemma on_parity_sim x y : sim x y -> option_Forall2 jsim (on_parity dad x) (on_parity dad y).
Proof. sim_start @on_parity. Qed.

Lemma on_failure_sim x y : sim x y -> option_Forall2 jsim (on_failure dad x) (on_failure dad y).
Proof. sim_start @on_failure. Qed.

Lemma on_block_sim n x y : sim x y -> option_Forall2 jsim (on_block emv dad n x) (on_block emv dad n y).
Proof. sim_start @on_block. Qed.
#[local] Hint Resolve on_parity_sim on_failure_sim on_block_sim : sim.

Lemma resync_sim x y : sim x y -> option_Forall2 rsim (resync dad x) (resync dad y).
Proof. sim_start @resync. Qed.
#[local] Hint Resolve resync_sim : sim.

Lemma land_jump_sim j x y : sim x y -> option_Forall2 rsim (land_jump dad j x) (land_jump dad j y).
Proof. destruct j; sim_start @land_jump. Qed.
#[local] Hint Resolve land_jump_sim : sim.

(** One exchange on both links. *)
Definition xsim (p : Z * W1 * list Z) (q : Z * W2 * list Z) : Prop := p.1.1 = q.1.1 /\ Q p.1.2 q.1.2 /\ p.2 = q.2.

Lemma t1_turn_sim x y : same x y -> option_Forall2 xsim (lk_xcv (x_w x) (x_sdata x) (x_slen x)) (lk_xcv (x_w y) (x_sdata y) (x_slen y)) ->
  option_Forall2 rsim (t1_turn emv dad x) (t1_turn emv dad y).
Proof.
  intros H; destruct H; unfold t1_turn; sim_cbn; intros Hx; eapply bind_sim; [exact Hx|].
  intros [[n w] bl] [[n' w'] bl'] (Hn & Hw & Hb); cbn [fst snd] in Hn, Hw, Hb; subst n' bl'; sim_cbn.
  rewrite (Q_err _ _ Hw); sim_auto.
Qed.

Lemma t1_start_sim a b t1 sdata snd_buf snd_len rcv_buf x : Q a b ->
  t1_start dad a t1 sdata snd_buf snd_len rcv_buf = Some (Some x) ->
  exists y, t1_start dad b t1 sdata snd_buf snd_len rcv_buf = Some (Some y) /\ sim x y.
Proof.
  intros Hq; unfold t1_start; destruct (snd_len =? 0); [discriminate|]; destruct (t1_state t1 =? DEAD); [discriminate|].
  destruct (wrn _ _ _) as [pb|]; [rewrite !bind_ok | discriminate]; set (x0 := mk_xfer a _ _ _ _ _ _ _ _); set (y0 := mk_xfer b _ _ _ _ _ _ _ _).
  assert (H : option_Forall2 sim (build_I dad x0) (build_I dad y0)) by (apply build_I_sim; constructor; exact Hq).
  destruct H as [x1 y1 H|]; [rewrite !bind_ok | discriminate]; intros [= <-]; by exists y1.
Qed.

Lemma sim_same x y : sim x y -> same x y.
Proof. intros H; destruct H; constructor. Qed.

Lemma sim_world x y : sim x y -> Q (x_w x) (x_w y).
Proof. intros H; destruct H; done. Qed.
End Sim.
