(* ===== verification/ScLink.v ===== *)
(** The T=1 link over the device: [t1_xcv], [t1_negotiate_ifsd] and [CmdXfrT1]
    of sc-t1.c, which exchange blocks through the interrupt handler. *)
From S2P Require Import Prelude Checksum CtBuf Atr ScDev ScIsr T1.

Definition set_sc (f : nuc970_sc -> nuc970_sc) (w : world) : world := w <| w_sc := f (w_sc w) |>.

(** ** [t1_xcv] *)

(** Start sending the first [slen] bytes of [block]. *)
Definition xcv_start (block : list Z) (slen : Z) (s : nuc970_sc) : option nuc970_sc :=
  let s := s <| sc_rhead := 0 |> <| sc_rtail := 0 |> <| sc_state := SC_OP_WRITE |> in
  tb ← memcpy (sc_tbuf s) 0 block 0 slen;
  let s := s <| sc_tbuf := tb |> <| sc_toffset := 0 |> <| sc_tcnt := slen |> in
  let t := sc_t1 s in
  let bwt := if WTX t =? 0 then BWT t + 2400 * sc_D s else BWT t * WTX t + 2400 * sc_D s in
  let s := writel (Z.lor bwt SC_TMR_MODE_7) REG_SC_TMRCTL0 s in
  let s := set_bits SC_ALTCTL_CNTEN0 REG_SC_ALTCTL s in
  let s := s <| sc_t1 := t <| WTX := 0 |> |> in
  Some (set_bits SC_INTEN_TBEIEN REG_SC_INTEN s).

(** Read the prologue, then the rest of the block. *)
Definition xcv_receive (w : world) : option world :=
  let w := set_sc (fun s => s <| sc_rlen := 3 |> <| sc_state := SC_OP_READ |>) w in
  w ← wait (fun s => (3 <? sc_rtail s) || nz (sc_err s)) w;
  if nz (sc_err (w_sc w)) && negb (sc_err (w_sc w) =? SC_ERR_PARITY) then Some w
  else
    l ← rd (sc_rbuf (w_sc w)) 2;
    let edc := if EDC (sc_t1 (w_sc w)) =? SC_CHKSUM_LRC then 1 else 2 in
    let w := set_sc (fun s => s <| sc_rlen := sc_rlen s + (l + edc) |> <| sc_state := SC_OP_READ |>) w in
    let full s := (sc_rtail s =? sc_rlen s) || nz (sc_err s) in
    w ← wait full w;
    if sc_err (w_sc w) =? SC_ERR_PARITY then
      let w := set_sc (fun s => s <| sc_state := SC_OP_READ |> <| sc_err := 0 |>) w in
      w ← wait full w;
      Some (set_sc (fun s => writel SC_ALTCTL_RXRST REG_SC_ALTCTL (s <| sc_err := SC_ERR_PARITY |>)) w)
    else Some w.

Definition t1_xcv (w : world) (block : list Z) (slen : Z) : option (Z * world * list Z) :=
  s ← xcv_start block slen (w_sc w);
  w ← wait (fun s => sc_state s =? SC_OP_IDLE) (w <| w_sc := s |>);
  if nz (sc_err (w_sc w)) then Some (-1, w, block)
  else
    w ← xcv_receive w;
    let w := set_sc (fun s => (clear_bits SC_ALTCTL_CNTEN0 REG_SC_ALTCTL s) <| sc_state := SC_OP_IDLE |>) w in
    let s := w_sc w in
    if sc_err s =? 0 then
      b ← memcpy block 0 (sc_rbuf s) 0 (sc_rlen s);
      Some (sc_rlen s, w, b)
    else if sc_err s =? SC_ERR_PARITY then Some (-2, w, block)
    else Some (-1, w, block).

#[export] Instance sc_link : T1Link world := {|
  lk_xcv := t1_xcv;
  lk_err := fun w => sc_err (w_sc w);
  lk_set_err := fun e => set_sc (fun s => s <| sc_err := e |>);
  lk_set_WTX := fun v => set_sc (fun s => s <| sc_t1 := (sc_t1 s) <| WTX := v |> |>);
|}.

(** ** [t1_negotiate_ifsd] *)

(** One pass over its loop: [None] to go round again, else the value returned. *)
Definition negotiate_turn (dad ifsd : Z) (sbuf : ct_buf_t) (w : world) (t1 : t1_state_t) (sdata : list Z) (retries : Z)
    : option (option Z * world * t1_state_t * list Z * Z) :=
  '(slen, _, t1, sdata) ← t1_build t1 sdata 0 (Z.lor T1_S_BLOCK T1_S_IFS) (Some sbuf);
  '(n, w, sdata) ← t1_xcv w sdata slen;
  let retries := u32 (retries - 1) in
  if retries <=? 0 then Some (Some (-1), w, t1 <| t1_state := DEAD |>, sdata, retries)
  else if n =? -1 then
    if sc_err (w_sc w) =? SC_ERR_TIME0OUT
    then Some (None, set_sc (fun s => s <| sc_err := 0 |>) w, t1, sdata, retries)
    else Some (Some (-1), w, t1 <| t1_state := DEAD |>, sdata, retries)
  else
    d ← rd sdata DATA; a ← rd sdata NAD; l ← rd sdata LEN; p ← rd sdata PCB;
    let again := Some (None, set_sc (fun s => s <| sc_err := 0 |>) w, t1, sdata, retries) in
    if (n =? -2) || negb (d =? ifsd) || negb (a =? swap_nibbles dad) then again
    else
      v ← t1_verify_checksum t1 sdata n;
      if negb v || negb (n =? 4 + rc_bytes t1) || negb (l =? 1)
         || negb (p =? Z.lor (Z.lor T1_S_BLOCK T1_S_RESPONSE) T1_S_IFS) then again
      else Some (Some n, w, t1, sdata, retries).

Fixpoint negotiate_loop (fuel : nat) (dad ifsd : Z) (sbuf : ct_buf_t) (w : world) (t1 : t1_state_t)
    (sdata : list Z) (retries : Z) : option (option Z * world * t1_state_t) :=
  match fuel with
  | O => Some (None, w, t1)
  | S fuel =>
      '(r, w, t1, sdata, retries) ← negotiate_turn dad ifsd sbuf w t1 sdata retries;
      match r with
      | Some n => Some (Some n, w, t1)
      | None => negotiate_loop fuel dad ifsd sbuf w t1 sdata retries
      end
  end.

(** [t1_negotiate_ifsd(intf, dad, ifsd)]: [sdata] is a local buffer. The loop
    runs at most [retries] times, which is the fuel. *)
Definition t1_negotiate_ifsd (dad ifsd : Z) (w : world) (t1 : t1_state_t) (sdata : list Z)
    : option (option Z * world * t1_state_t) :=
  let t := sc_t1 (w_sc w) in
  let t1 := (t1_set_param t1 (if EDC t =? SC_CHKSUM_LRC then IFD_PROTOCOL_T1_CHECKSUM_LRC
                              else IFD_PROTOCOL_T1_CHECKSUM_CRC) 0).2 in
  let t1 := (t1_set_param t1 IFD_PROTOCOL_T1_IFSC (IFSC t)).2 in
  negotiate_loop (Z.to_nat (retries t1)) dad ifsd (ct_buf_set [u8 ifsd] 1) w t1 sdata (retries t1).

(** ** [CmdXfrT1]

    Both callers pass [sc->tbuf] and [sc->rbuf] as [tx_buffer] and [rx_buffer],
    which the exchange itself uses, too. [gTx] and [gRx] are the file's buffers
    of 300 bytes for the interface. *)
Definition CmdXfrT1 (emv : bool) (fuel : nat) (w : world) (t1 : t1_state_t) (sdata gTx gRx : list Z) (tx_length : Z)
    : option (option (Z * world * t1_state_t * list Z * list Z * list Z)) :=
  gTx ← memcpy gTx 0 (sc_tbuf (w_sc w)) 0 tx_length;
  r ← t1_transceive emv 0 fuel w t1 sdata gTx tx_length gRx;
  match r with
  | None => Some None
  | Some (ret, w, t1, sdata, gRx) =>
      let return_value := if ret <? 0 then SC_ERR_T1 else 0 in
      let w := set_sc (fun s => s <| sc_rhead := 0 |> <| sc_rtail := ret |>) w in
      rx ← memcpy (sc_rbuf (w_sc w)) 0 gRx 0 ret;
      Some (Some (return_value, set_sc (fun s => s <| sc_rbuf := rx |>) w, t1, sdata, gTx, gRx))
  end.
