(* ===== verification/ScLinkSpec.v ===== *)
(** The device as a T=1 link: the interrupt handler stays within the device's
    buffers while blocks are exchanged, [t1_xcv] keeps the promises of a link
    (so that the safety of [t1_transceive] carries over to [CmdXfrT1]), and it
    transports blocks in both directions unchanged. *)
From S2P Require Import Prelude Checksum CtBuf Atr ScDev ScIsr T1 T1Spec T1Safe ScLink.

(** ** Buffers of the device *)
Record dev_ok (s : nuc970_sc) : Prop := {
  d_rbuf : zlen (sc_rbuf s) = MAX_LEN;
  d_rbuf8 : Forall is_u8 (sc_rbuf s);
  d_tbuf : zlen (sc_tbuf s) = MAX_LEN;
  d_rtail : 0 <= sc_rtail s;
  d_tx : 0 <= sc_toffset s <= sc_tcnt s /\ sc_tcnt s <= MAX_LEN;
  d_state : sc_state s <> SC_OP_READ_ATR;
}.

(** What the handler does not change while the card stays in. *)
Definition frame (s s' : nuc970_sc) : Prop :=
  sc_rlen s' = sc_rlen s /\ sc_t1 s' = sc_t1 s /\ sc_rhead s' = sc_rhead s /\
  sc_F s' = sc_F s /\ sc_D s' = sc_D s.

#[export] Instance frame_refl : Reflexive frame.
Proof. done. Qed.

#[export] Instance frame_trans : Transitive frame.
Proof. intros s1 s2 s3 (? & ? & ? & ? & ?) (? & ? & ? & ? & ?); split_and!; congruence. Qed.

(** The fields a step leaves alone, or only takes out of a transfer. *)
Definition same_bufs (s s' : nuc970_sc) : Prop :=
  sc_rbuf s' = sc_rbuf s /\ sc_tbuf s' = sc_tbuf s /\ sc_rtail s' = sc_rtail s /\
  sc_toffset s' = sc_toffset s /\ sc_tcnt s' = sc_tcnt s /\ frame s s' /\
  (sc_state s' = sc_state s \/ sc_state s' = SC_OP_IDLE).

#[export] Instance same_bufs_refl : Reflexive same_bufs.
Proof. intros s; unfold same_bufs, frame; split_and!; auto. Qed.

#[export] Instance same_bufs_trans : Transitive same_bufs.
Proof.
  intros s1 s2 s3 (? & ? & ? & ? & ? & Hf1 & Hs1) (? & ? & ? & ? & ? & Hf2 & Hs2); split_and!; try congruence.
  - by transitivity s2.
  - destruct Hs2 as [-> | ->]; auto.
Qed.

Lemma same_bufs_ok s s' : same_bufs s s' -> dev_ok s -> dev_ok s'.
Proof.
  intros (E1 & E2 & E3 & E4 & E5 & _ & E6) []; split; rewrite ?E1, ?E2, ?E3, ?E4, ?E5; try done.
  destruct E6 as [-> | ->]; done.
Qed.

Lemma writel_same v off s : same_bufs s (writel v off s).
Proof. unfold writel; destruct (_ =? _); unfold same_bufs, frame; split_and!; auto. Qed.

Lemma set_bits_same m off s : same_bufs s (set_bits m off s).
Proof. apply writel_same. Qed.

Lemma clear_bits_same m off s : same_bufs s (clear_bits m off s).
Proof. apply writel_same. Qed.

Lemma err_same e s : same_bufs s (s <| sc_err := e |>).
Proof. unfold same_bufs, frame; split_and!; auto. Qed.

Lemma idle_same s : same_bufs s (s <| sc_state := SC_OP_IDLE |>).
Proof. unfold same_bufs, frame; split_and!; auto. Qed.

Create HintDb bufs.
#[export] Hint Resolve writel_same set_bits_same clear_bits_same err_same idle_same : bufs.

(** Follow a chain of register writes and status updates. *)
Ltac bufs :=
  repeat match goal with
  | |- same_bufs ?s ?s => reflexivity
  | |- same_bufs _ (if ?b then _ else _) => destruct b
  | |- same_bufs _ (_ <| sc_err := _ |>) => etransitivity; [|apply err_same]
  | |- same_bufs _ (_ <| sc_state := SC_OP_IDLE |>) => etransitivity; [|apply idle_same]
  | |- same_bufs _ (writel _ _ _) => etransitivity; [|apply writel_same]
  | |- same_bufs _ (set_bits _ _ _) => etransitivity; [|apply set_bits_same]
  | |- same_bufs _ (clear_bits _ _ _) => etransitivity; [|apply clear_bits_same]
  end; auto with bufs.

Lemma isr_tmr0_same e s : same_bufs s (isr_tmr0 e s).
Proof. unfold isr_tmr0; cbv zeta; bufs. Qed.

Lemma isr_tmr1_same e s : same_bufs s (isr_tmr1 e s).
Proof. unfold isr_tmr1; cbv zeta; bufs. Qed.

Lemma isr_tmr2_same e v s : same_bufs s (isr_tmr2 e v s).2.
Proof. unfold isr_tmr2; cbv zeta; destruct (on _ _); [|done]; destruct (_ <? _); cbn [fst snd]; bufs. Qed.

Lemma isr_acerr_same e s : same_bufs s (isr_acerr e s).
Proof. unfold isr_acerr; cbv zeta; bufs. Qed.

Lemma isr_terr_same e inten s : same_bufs s (isr_terr e inten s).
Proof. unfold isr_terr; cbv zeta; bufs. Qed.

(** ** Sending and receiving *)
Lemma tx_push_spec n s :
  0 <= sc_toffset s -> sc_toffset s + Z.of_nat n <= zlen (sc_tbuf s) ->
  tx_push n s = Some (s <| sc_sent := sc_sent s ++ slice (sc_tbuf s) (sc_toffset s) (Z.of_nat n) |>
                        <| sc_toffset := sc_toffset s + Z.of_nat n |>).
Proof.
  revert s; induction n as [|n IH]; intros s H0 Hn; cbn [tx_push].
  - f_equal; rewrite Z.add_0_r; unfold slice; simpl; rewrite app_nil_r; by destruct s.
  - destruct (rd_in (sc_tbuf s) (sc_toffset s)) as [b Hb]; [lia|]; rewrite Hb; cbn [mbind option_bind].
    rewrite IH by (simpl; lia); f_equal.
    replace (Z.of_nat (S n)) with (1 + Z.of_nat n) by lia.
    rewrite slice_app_split by lia.
    assert (Hs1 : slice (sc_tbuf s) (sc_toffset s) 1 = [b]).
    { apply rd_Some in Hb as [_ Hb]; unfold slice; change (Z.to_nat 1) with 1%nat.
      rewrite (drop_S _ b) by done; done. }
    rewrite Hs1, app_assoc; unfold writel; simpl; rewrite Z.add_assoc; by destruct s.
Qed.

(** The bytes the next transmit interrupt sends. *)
Definition tx_now (s : nuc970_sc) : Z := Z.min 4 (sc_tcnt s - sc_toffset s).

Lemma isr_tx_spec e s :
  dev_ok s ->
  isr_tx e s =
    if on (i_intsts e) SC_INTSTS_TBEIF && (sc_state s =? SC_OP_WRITE) then
      let s' := s <| sc_sent := sc_sent s ++ slice (sc_tbuf s) (sc_toffset s) (tx_now s) |>
                  <| sc_toffset := sc_toffset s + tx_now s |> in
      Some (if sc_toffset s' =? sc_tcnt s'
            then (clear_bits SC_INTEN_TBEIEN REG_SC_INTEN s') <| sc_state := SC_OP_IDLE |> else s')
    else Some s.
Proof.
  intros Hd; unfold isr_tx; destruct (_ && _); [|done]; pose proof (d_tx _ Hd); pose proof (d_tbuf _ Hd).
  assert (Hl : (if 3 <? sc_tcnt s - sc_toffset s then 4 else sc_tcnt s - sc_toffset s) = tx_now s).
  { unfold tx_now; zcase; lia. }
  rewrite Hl, tx_push_spec by (unfold tx_now; lia); cbn [mbind option_bind].
  rewrite Z2Nat.id by (unfold tx_now; lia); done.
Qed.

Lemma isr_tx_ok e s :
  dev_ok s -> exists s', isr_tx e s = Some s' /\ dev_ok s' /\ sc_rtail s' = sc_rtail s /\ frame s s'.
Proof.
  intros Hd; rewrite isr_tx_spec by done; destruct (_ && _); [|by exists s].
  cbv zeta; set (s1 := s <| sc_sent := _ |> <| sc_toffset := _ |>).
  assert (Hd1 : dev_ok s1) by (destruct Hd as [? ? ? ? [] ?]; split; try done; simpl; unfold tx_now; lia).
  eexists; split; [reflexivity|]; destruct (_ =? _); [|done].
  assert (Hs : same_bufs s1 ((clear_bits SC_INTEN_TBEIEN REG_SC_INTEN s1) <| sc_state := SC_OP_IDLE |>)) by bufs.
  split; [by apply (same_bufs_ok s1)|]; destruct Hs as (? & ? & -> & ? & ? & ? & ?); split; done.
Qed.

Definition rx_event (e : irq) : bool := on (i_intsts e) (Z.lor SC_INTSTS_RDAIF SC_INTSTS_RXTOIF).

Lemma u8_u8 x : is_u8 (u8 x).
Proof. apply Z.mod_pos_bound; lia. Qed.

Lemma rx_store_spec e s :
  0 <= sc_rtail s < zlen (sc_rbuf s) ->
  rx_store e s = Some (s <| sc_rbuf := <[Z.to_nat (sc_rtail s) := u8 (i_dat e)]> (sc_rbuf s) |>
                         <| sc_rtail := sc_rtail s + 1 |>).
Proof. intros H; unfold rx_store; rewrite wr_in by done; done. Qed.

Lemma rx_store_ok e s :
  dev_ok s -> sc_rtail s < MAX_LEN ->
  exists s', rx_store e s = Some s' /\ dev_ok s' /\ sc_rtail s' = sc_rtail s + 1 /\ frame s s' /\
    sc_state s' = sc_state s.
Proof.
  intros Hd Hr; pose proof (d_rtail _ Hd); rewrite rx_store_spec by (rewrite (d_rbuf _ Hd); lia).
  eexists; split; [reflexivity|]; split; [|done].
  destruct Hd; split; try done; simpl; [by rewrite zlen_insert | | lia].
  apply Forall_insert; [done | apply u8_u8].
Qed.

Lemma isr_rx_ok e v s :
  dev_ok s -> sc_rtail s + (if rx_event e then 1 else 0) <= MAX_LEN ->
  exists s', isr_rx e v s = Some (v, s') /\ dev_ok s' /\
    sc_rtail s <= sc_rtail s' <= sc_rtail s + (if rx_event e then 1 else 0) /\ frame s s'.
Proof.
  intros Hd Hr; unfold isr_rx; fold (rx_event e); destruct (rx_event e); [|exists s; split; [done|]; split; [done|]; split; [lia | done]].
  rewrite (proj2 (Z.eqb_neq _ _) (d_state _ Hd)).
  destruct (sc_state s =? SC_OP_READ).
  - unfold rx_read; cbv zeta.
    set (s1 := if sc_protocol s =? SC_PROTOCOL_T1 then _ else s).
    assert (Hs1 : same_bufs s s1 /\ sc_state s1 = sc_state s).
    { unfold s1; split; [bufs | by destruct (_ =? _)]. }
    destruct Hs1 as [Hs1 Hst]; pose proof (same_bufs_ok _ _ Hs1 Hd) as Hd1.
    destruct Hs1 as (_ & _ & Hrt & _ & _ & Hf & _).
    destruct (on _ SC_INTSTS_RDAIF).
    + destruct (rx_store_ok e s1 Hd1) as (s' & -> & ? & ? & Hf' & ?); [lia|]; cbn [mbind option_bind].
      exists s'; split; [done|]; split; [done|]; split; [lia | by transitivity s1].
    + exists s1; split; [done|]; split; [done|]; split; [lia | done].
  - destruct (rx_store_ok e s Hd) as (s' & -> & ? & ? & ? & ?); [lia|]; cbn [mbind option_bind].
    exists s'; split; [done|]; split; [done|]; split; [lia | done].
Qed.

(** ** The interrupt handler during an exchange

    The card stays in the reader and is not reset. *)
Definition quiet_irq (e : irq) : Prop :=
  on (i_intsts e) SC_INTSTS_INITIF = false /\ on (i_intsts e) SC_INTSTS_CDIF = false.
Definition quiet (ev : event) : Prop := match ev with Irq e => quiet_irq e | Signal => True end.

Fixpoint rx_count (evs : list event) : Z :=
  match evs with
  | [] => 0
  | Irq e :: evs => (if rx_event e then 1 else 0) + rx_count evs
  | Signal :: evs => rx_count evs
  end.

Lemma rx_count_nonneg evs : 0 <= rx_count evs.
Proof. induction evs as [|[e|] evs IH]; simpl; [lia | destruct (rx_event e); lia | lia]. Qed.

Lemma isr_ok e v s :
  quiet_irq e -> dev_ok s -> sc_rtail s + (if rx_event e then 1 else 0) <= MAX_LEN ->
  exists v' s', nuc970_sc_interrupt e v s = Some (v', s') /\ dev_ok s' /\ frame s s' /\
    sc_rtail s <= sc_rtail s' <= sc_rtail s + (if rx_event e then 1 else 0).
Proof.
  intros [Hi Hc] Hd Hr; unfold nuc970_sc_interrupt; cbv zeta.
  unfold isr_init; rewrite Hi; unfold isr_cd; rewrite Hc.
  set (s1 := isr_tmr1 e (isr_tmr0 e s)).
  assert (H1 : same_bufs s s1) by (etransitivity; [apply isr_tmr0_same | apply isr_tmr1_same]).
  destruct (isr_tmr2 e v s1) as [v2 s2] eqn:E2.
  assert (H2 : same_bufs s s2).
  { etransitivity; [exact H1|]; change s2 with (v2, s2).2; rewrite <- E2; apply isr_tmr2_same. }
  pose proof (same_bufs_ok _ _ H2 Hd) as Hd2; destruct H2 as (_ & _ & Hrt & _ & _ & Hf2 & _).
  destruct (isr_tx_ok e s2 Hd2) as (s3 & -> & Hd3 & Hrt3 & Hf3); cbn [mbind option_bind].
  destruct (isr_rx_ok e v2 s3 Hd3) as (s4 & -> & Hd4 & Hrt4 & Hf4); [lia|]; cbn [mbind option_bind].
  set (s5 := isr_terr e _ (isr_acerr e s4)).
  assert (H5 : same_bufs s4 s5) by (etransitivity; [apply isr_acerr_same | apply isr_terr_same]).
  exists v2, s5; pose proof (same_bufs_ok _ _ H5 Hd4); destruct H5 as (_ & _ & Hrt5 & _ & _ & Hf5 & _).
  split; [done|]; split; [done|]; split; [|lia].
  transitivity s2; [done|]; transitivity s3; [done|]; by transitivity s4.
Qed.

Record world_ok (w : world) : Prop := {
  w_dev : dev_ok (w_sc w);
  w_quiet : Forall quiet (w_evs w);
}.

(** What is left of the receive buffer suffices for what is still to come. *)
Definition room (w : world) : Prop := sc_rtail (w_sc w) + rx_count (w_evs w) <= MAX_LEN.

Lemma wait_ok cond w :
  world_ok w -> room w ->
  exists w', wait cond w = Some w' /\ world_ok w' /\ room w' /\ frame (w_sc w) (w_sc w') /\
    rx_count (w_evs w') <= rx_count (w_evs w).
Proof.
  destruct w as [evs v s]; intros [Hd Hq] Hr; unfold room in Hr; simpl in *; unfold wait; simpl.
  revert v s Hd Hr; induction evs as [|[e|] evs IH]; intros v s Hd Hr; simpl in *.
  - exists (mk_world [] v s); destruct (cond s); cbn [mbind option_bind];
      unfold room; split_and!; done.
  - apply Forall_cons in Hq as [Hqe Hq]; pose proof (rx_count_nonneg evs).
    destruct (cond s); cbn [mbind option_bind].
    + eexists; split; [reflexivity|]; unfold room; split_and!; try done; split; try done; by constructor.
    + destruct (isr_ok e v s Hqe Hd) as (v' & s' & -> & Hd' & Hf & Hrt); [lia|]; cbn [mbind option_bind].
      destruct (IH Hq v' s' Hd') as (w' & Hw' & ? & ? & Hf' & ?); [lia|].
      exists w'; split; [done|]; split; [done|]; split; [done|]; split; [by transitivity s' | destruct (rx_event e); lia].
  - apply Forall_cons in Hq as [_ Hq]; pose proof (rx_count_nonneg evs).
    destruct (cond s); cbn [mbind option_bind]; eexists; (split; [reflexivity|]);
      unfold room; split_and!; try done; split; try done; by constructor.
Qed.

Definition link_ok (w : world) : Prop :=
  world_ok w /\ rx_count (w_evs w) <= MAX_LEN /\ EDC (sc_t1 (w_sc w)) = SC_CHKSUM_LRC.

Lemma world_ok_same w f :
  (forall s, same_bufs s (f s)) -> world_ok w -> world_ok (set_sc f w).
Proof. intros Hf [Hd Hq]; split; [by apply (same_bufs_ok (w_sc w)) | done]. Qed.

(** ** [t1_xcv] *)
Lemma xcv_start_ok block slen s :
  dev_ok s -> zlen block = T1_BUFFER_SIZE -> 0 <= slen <= T1_BUFFER_SIZE ->
  exists s', xcv_start block slen s = Some s' /\ dev_ok s' /\ sc_rtail s' = 0 /\ sc_state s' = SC_OP_WRITE /\
    sc_toffset s' = 0 /\ sc_tcnt s' = slen /\ sc_err s' = sc_err s /\ sc_sent s' = sc_sent s /\
    slice (sc_tbuf s') 0 slen = slice block 0 slen /\ EDC (sc_t1 s') = EDC (sc_t1 s).
Proof.
  intros Hd Hb Hs; unfold xcv_start; pose proof (d_tbuf _ Hd) as Ht; unfold T1_BUFFER_SIZE, MAX_LEN in *.
  change (sc_tbuf (s <| sc_rhead := 0 |> <| sc_rtail := 0 |> <| sc_state := SC_OP_WRITE |>)) with (sc_tbuf s).
  destruct (memcpy_in (sc_tbuf s) 0 block 0 slen) as (tb & Hm & Hw); try lia.
  rewrite Hm; cbn [mbind option_bind].
  pose proof (memcpy_len _ _ _ _ _ _ Hm) as Htb.
  rewrite wrn_0 in Hw by (rewrite slice_len; lia); injection Hw as Hw.
  eexists; split; [reflexivity|]; split_and!; try done.
  - destruct Hd; split; try done; simpl; unfold MAX_LEN in *; lia.
  - change (slice tb 0 slen = slice block 0 slen); rewrite <- Hw.
    pose proof (slice_app_prefix (slice block 0 slen) (drop (length (slice block 0 slen)) (sc_tbuf s))) as Hp.
    by rewrite slice_len in Hp by lia.
Qed.

Lemma rbuf_byte s i : dev_ok s -> 0 <= i < MAX_LEN -> exists l, rd (sc_rbuf s) i = Some l /\ is_u8 l.
Proof.
  intros Hd Hi; destruct (rd_in (sc_rbuf s) i) as [l Hl]; [by rewrite (d_rbuf _ Hd)|].
  exists l; split; [done|]; apply rd_Some in Hl as [_ Hl].
  pose proof (d_rbuf8 _ Hd) as H8; rewrite Forall_lookup in H8; eauto.
Qed.

Lemma xcv_receive_ok w :
  world_ok w -> room w -> EDC (sc_t1 (w_sc w)) = SC_CHKSUM_LRC ->
  exists w', xcv_receive w = Some w' /\ world_ok w' /\ rx_count (w_evs w') <= rx_count (w_evs w) /\
    sc_t1 (w_sc w') = sc_t1 (w_sc w) /\
    (sc_err (w_sc w') = 0 -> 4 <= sc_rlen (w_sc w') <= T1_BUFFER_SIZE).
Proof.
  intros Hw Hr Hedc; unfold xcv_receive.
  set (w1 := set_sc _ w).
  assert (Hw1 : world_ok w1) by (destruct Hw as [[]]; split; try done; by split).
  destruct (wait_ok (fun s => (3 <? sc_rtail s) || nz (sc_err s)) w1 Hw1 Hr) as (w2 & -> & Hw2 & Hr2 & Hf2 & Hc2).
  cbn [mbind option_bind].
  destruct (nz (sc_err (w_sc w2)) && _) eqn:E.
  { exists w2; split_and!; try done; [apply Hf2|]; intros H0; by rewrite H0 in E. }
  destruct (rbuf_byte (w_sc w2) 2) as (l & -> & Hl); [apply Hw2 | done|]; cbn [mbind option_bind].
  assert (Ht2 : sc_t1 (w_sc w2) = sc_t1 (w_sc w)) by apply Hf2.
  rewrite Ht2, Hedc; cbn [Z.eqb SC_CHKSUM_LRC Pos.eqb].
  set (w3 := set_sc _ w2).
  assert (Hw3 : world_ok w3) by (destruct Hw2 as [[]]; split; try done; by split).
  assert (Hrl : sc_rlen (w_sc w3) = 4 + l).
  { change (sc_rlen (w_sc w3)) with (sc_rlen (w_sc w2) + (l + 1)); rewrite (proj1 Hf2); simpl; lia. }
  cbv zeta; set (full := fun s => (sc_rtail s =? sc_rlen s) || nz (sc_err s)).
  destruct (wait_ok full w3 Hw3 Hr2) as (w4 & -> & Hw4 & Hr4 & Hf4 & Hc4); cbn [mbind option_bind].
  change (rx_count (w_evs w3)) with (rx_count (w_evs w2)) in Hc4.
  change (rx_count (w_evs w1)) with (rx_count (w_evs w)) in Hc2.
  destruct (sc_err (w_sc w4) =? SC_ERR_PARITY).
  - set (w5 := set_sc _ w4).
    assert (Hw5 : world_ok w5) by (destruct Hw4 as [[]]; split; try done; by split).
    destruct (wait_ok full w5 Hw5 Hr4) as (w6 & -> & Hw6 & _ & Hf6 & Hc6); cbn [mbind option_bind].
    change (rx_count (w_evs w5)) with (rx_count (w_evs w4)) in Hc6.
    eexists; split; [reflexivity|]; split_and!; [|simpl; lia | | done].
    + apply world_ok_same; [intros; bufs | done].
    + destruct Hf4 as (_ & Ht4 & _), Hf6 as (_ & Ht6 & _); rewrite <- Ht2; etransitivity; [exact Ht6 | exact Ht4].
  - exists w4; split_and!; try done; [lia | rewrite <- Ht2; apply Hf4|]; intros _; rewrite (proj1 Hf4), Hrl; unfold is_u8, T1_BUFFER_SIZE in *; lia.
Qed.

Lemma t1_xcv_ok w b n :
  link_ok w -> zlen b = T1_BUFFER_SIZE -> 0 <= n <= T1_BUFFER_SIZE ->
  exists r w' b', t1_xcv w b n = Some (r, w', b') /\ link_ok w' /\ zlen b' = T1_BUFFER_SIZE /\
    r <= T1_BUFFER_SIZE /\ (0 <= r -> Forall is_u8 (take 4 b')).
Proof.
  intros [[Hd Hq] [Hc Hedc]] Hb Hn; unfold t1_xcv; assert (T1_BUFFER_SIZE = 259) as HB by done.
  destruct (xcv_start_ok b n (w_sc w) Hd Hb Hn) as (s1 & -> & Hd1 & Hrt & _ & _ & _ & _ & _ & _ & Hedc1); cbn [mbind option_bind].
  set (w1 := w <| w_sc := s1 |>).
  assert (Hw1 : world_ok w1) by by split.
  destruct (wait_ok (fun s => sc_state s =? SC_OP_IDLE) w1 Hw1) as (w2 & -> & Hw2 & Hr2 & Hf2 & Hc2).
  { unfold room; simpl; rewrite Hrt; lia. }
  cbn [mbind option_bind]; change (rx_count (w_evs w1)) with (rx_count (w_evs w)) in Hc2.
  assert (Hedc2 : EDC (sc_t1 (w_sc w2)) = SC_CHKSUM_LRC).
  { rewrite (proj1 (proj2 Hf2)); simpl; congruence. }
  destruct (nz _).
  { eexists _, _, _; split; [reflexivity|]; split_and!; try done; try lia; split_and!; done || lia. }
  destruct (xcv_receive_ok w2 Hw2 Hr2 Hedc2) as (w3 & -> & Hw3 & Hc3 & Ht3 & Hrl); cbn [mbind option_bind]; cbv zeta.
  set (w4 := set_sc _ w3).
  assert (Hl4 : link_ok w4).
  { split_and!; [apply world_ok_same; [intros; bufs | done] | simpl; lia |].
    change (EDC (sc_t1 (w_sc w3)) = SC_CHKSUM_LRC); by rewrite Ht3. }
  change (sc_err (w_sc w4)) with (sc_err (w_sc w3)).
  destruct (sc_err (w_sc w3) =? 0) eqn:E; zbool.
  - change (sc_rbuf (w_sc w4)) with (sc_rbuf (w_sc w3)); change (sc_rlen (w_sc w4)) with (sc_rlen (w_sc w3)).
    specialize (Hrl E); pose proof (d_rbuf _ (w_dev _ Hw3)) as Hrb; unfold MAX_LEN in *.
    destruct (memcpy_in b 0 (sc_rbuf (w_sc w3)) 0 (sc_rlen (w_sc w3))) as (b' & Hm & Hw); try lia.
    rewrite Hm; cbn [mbind option_bind]; eexists _, _, _; split; [reflexivity|].
    pose proof (memcpy_len _ _ _ _ _ _ Hm); split_and!; try done; [lia..|]; intros _.
    assert (Hsl : zlen (slice (sc_rbuf (w_sc w3)) 0 (sc_rlen (w_sc w3))) = sc_rlen (w_sc w3)) by (apply slice_len; lia).
    rewrite wrn_0 in Hw by lia; injection Hw as <-.
    rewrite take_app_le by (unfold zlen in Hsl; lia); unfold slice; apply Forall_take, Forall_take, Forall_drop.
    apply Hw3.
  - destruct (_ =? _); eexists _, _, _; (split; [reflexivity|]); split_and!; try done; lia.
Qed.

#[export] Instance sc_link_ok : T1LinkOk world link_ok.
Proof.
  split.
  - apply t1_xcv_ok.
  - intros w [Hw Hc]; split; [|done]; apply world_ok_same; [intros; bufs | done].
  - intros w v [[[] ?] Hc] Hv; split; [|done]; split; [by split | done].
Qed.

(** ** Transport

    A transmit interrupt (the FIFO is empty), and the interrupt for one byte
    from the card. *)
Definition tx_irq : irq := mk_irq SC_INTSTS_TBEIF 0 0 0.
Definition rx_irq (b : Z) : irq := mk_irq SC_INTSTS_RDAIF 0 0 b.

(** The interrupts that it takes to send [n] bytes. *)
Lemma tx_irqs n : 1 <= n -> 4 * (Z.of_nat (Z.to_nat ((n + 3) / 4)) - 1) < n <= 4 * Z.of_nat (Z.to_nat ((n + 3) / 4)).
Proof. intros Hn; pose proof (Z.div_mod (n + 3) 4 ltac:(lia)); pose proof (Z.mod_pos_bound (n + 3) 4 ltac:(lia)); lia. Qed.

(** The interrupts for bytes the card sends one after the other. *)
Definition rx_evs (bs : list Z) : list event := map (fun b => Irq (rx_irq b)) bs.

Lemma rx_evs_app a b : rx_evs (a ++ b) = rx_evs a ++ rx_evs b.
Proof. apply map_app. Qed.

Lemma isr_tx_irq v s :
  nuc970_sc_interrupt tx_irq v s = (s ← isr_tx tx_irq s; Some (v, s)).
Proof.
  change (nuc970_sc_interrupt tx_irq v s) with
    (s ← isr_tx tx_irq s; '(v, s) ← Some (v, s); Some (v, s)).
  by destruct (isr_tx tx_irq s).
Qed.

Lemma isr_rx_irq b v s :
  nuc970_sc_interrupt (rx_irq b) v s = isr_rx (rx_irq b) v s.
Proof.
  change (nuc970_sc_interrupt (rx_irq b) v s) with
    ('(v, s) ← isr_rx (rx_irq b) v s; Some (v, s)).
  by destruct (isr_rx (rx_irq b) v s) as [[v' s']|].
Qed.

(** The transmit buffer after everything was sent, and while receiving. *)
Definition sent_all (s s' : nuc970_sc) : Prop :=
  sc_tbuf s' = sc_tbuf s /\ sc_tcnt s' = sc_tcnt s /\ sc_toffset s' = sc_tcnt s /\ sc_rbuf s' = sc_rbuf s.
Definition tx_same (s s' : nuc970_sc) : Prop :=
  sc_tbuf s' = sc_tbuf s /\ sc_tcnt s' = sc_tcnt s /\ sc_toffset s' = sc_toffset s.

#[export] Instance tx_same_trans : Transitive tx_same.
Proof. intros s1 s2 s3 (? & ? & ?) (? & ? & ?); split_and!; congruence. Qed.

Lemma tx_wait k evs v s :
  let n := sc_tcnt s - sc_toffset s in
  dev_ok s -> sc_state s = SC_OP_WRITE -> 4 * (Z.of_nat k - 1) < n <= 4 * Z.of_nat k -> 0 < n ->
  exists s', wait_event (fun s => sc_state s =? SC_OP_IDLE) (replicate k (Irq tx_irq) ++ evs) v s = Some (evs, v, s') /\
    dev_ok s' /\ sc_state s' = SC_OP_IDLE /\ sc_sent s' = sc_sent s ++ slice (sc_tbuf s) (sc_toffset s) n /\
    sc_rtail s' = sc_rtail s /\ sc_err s' = sc_err s /\ frame s s' /\ sent_all s s'.
Proof.
  revert s; induction k as [|k IH]; intros s n Hd Hst Hk Hn; [lia|].
  change (replicate (S k) (Irq tx_irq) ++ evs) with (Irq tx_irq :: (replicate k (Irq tx_irq) ++ evs)).
  cbn [wait_event]; rewrite Hst; change (SC_OP_WRITE =? SC_OP_IDLE) with false; cbv iota.
  rewrite isr_tx_irq, isr_tx_spec, Hst by done; change (on (i_intsts tx_irq) SC_INTSTS_TBEIF && (SC_OP_WRITE =? SC_OP_WRITE)) with true.
  cbv zeta iota; cbn [mbind option_bind].
  set (s1 := s <| sc_sent := _ |> <| sc_toffset := _ |>).
  assert (Hd1 : dev_ok s1) by (destruct Hd as [? ? ? ? [] ?]; split; try done; simpl; unfold tx_now; lia).
  change (sc_toffset s1) with (sc_toffset s + tx_now s); change (sc_tcnt s1) with (sc_tcnt s).
  destruct (sc_toffset s + tx_now s =? sc_tcnt s) eqn:E; zbool.
  - assert (tx_now s = n) as Hnow by (unfold n; lia).
    assert (k = 0%nat) as -> by (unfold tx_now in Hnow; lia).
    set (s2 := _ <| sc_state := SC_OP_IDLE |>).
    assert (Hd2 : dev_ok s2) by (apply (same_bufs_ok s1); [unfold s2; bufs | done]).
    exists s2; cbn [replicate app]; split_and!; try done; [|simpl; by rewrite <- Hnow].
    destruct evs; cbn [wait_event]; change (sc_state s2 =? SC_OP_IDLE) with true; done.
  - assert (tx_now s = 4) as Hnow by (unfold tx_now in *; lia).
    assert (4 < n) by (unfold n, tx_now in *; lia).
    destruct (IH s1) as (s' & -> & Hd' & Hs' & Hsent & Hrt & He & Hf & Hsa); try done; simpl; rewrite ?Hnow in *; try (unfold n in *; lia).
    exists s'; split_and!; try done.
    rewrite Hsent; simpl; rewrite Hnow, <- app_assoc; f_equal.
    pose proof (d_tbuf _ Hd); destruct (d_tx _ Hd).
    rewrite <- slice_app_split by lia; f_equal; unfold n; lia.
Qed.

Lemma rx_wait cond target bs evs v s :
  (forall s', sc_err s' = 0 -> sc_rlen s' = sc_rlen s -> sc_rhead s' = sc_rhead s -> sc_rtail s' <= target ->
     cond s' = (sc_rtail s' =? target)) ->
  dev_ok s -> sc_state s = SC_OP_READ -> sc_err s = 0 -> Forall is_u8 bs ->
  sc_rtail s + zlen bs = target -> target <= MAX_LEN ->
  exists s', wait_event cond (map (fun b => Irq (rx_irq b)) bs ++ evs) v s = Some (evs, v, s') /\
    dev_ok s' /\ sc_state s' = SC_OP_READ /\ sc_err s' = 0 /\ sc_sent s' = sc_sent s /\
    sc_rtail s' = target /\ frame s s' /\ tx_same s s' /\
    slice (sc_rbuf s') 0 target = slice (sc_rbuf s) 0 (sc_rtail s) ++ bs.
Proof.
  intros Hcond Hd Hst He Hbs Ht Hm; revert s Hcond Hd Hst He Ht.
  induction bs as [|b bs IH]; intros s Hcond Hd Hst He Ht.
  - rewrite zlen_nil, Z.add_0_r in Ht; exists s; cbn [map app].
    assert (Hc : cond s = true) by (rewrite Hcond by (done || lia); by apply Z.eqb_eq).
    split_and!; try done; [destruct evs; cbn [wait_event]; by rewrite Hc | by rewrite Ht, app_nil_r].
  - apply Forall_cons in Hbs as [Hb Hbs]; rewrite zlen_cons in Ht; pose proof (zlen_nonneg bs).
    cbn [map app wait_event]; rewrite Hcond by (done || lia).
    rewrite (proj2 (Z.eqb_neq _ _)) by lia.
    rewrite isr_rx_irq; unfold isr_rx.
    change (on (i_intsts (rx_irq b)) (Z.lor SC_INTSTS_RDAIF SC_INTSTS_RXTOIF)) with true; cbv iota.
    rewrite Hst; change (SC_OP_READ =? SC_OP_READ) with true; cbv iota; unfold rx_read.
    change (on (i_intsts (rx_irq b)) SC_INTSTS_RDAIF) with true; cbv iota zeta.
    set (s1 := if sc_protocol s =? SC_PROTOCOL_T1 then _ else s).
    assert (Hs1 : same_bufs s s1 /\ sc_state s1 = sc_state s /\ sc_err s1 = sc_err s /\ sc_sent s1 = sc_sent s).
    { unfold s1; split; [bufs | by destruct (_ =? _)]. }
    destruct Hs1 as (Hs1 & Hst1 & He1 & Hse1); pose proof (same_bufs_ok _ _ Hs1 Hd) as Hd1.
    destruct Hs1 as (Hrb1 & Htb1 & Hrt1 & Hto1 & Htc1 & Hf1 & _); pose proof (proj1 Hf1) as Hrl1; pose proof (d_rtail _ Hd).
    destruct (rx_store_ok (rx_irq b) s1 Hd1) as (s2 & Hx & Hd2 & Hrt2 & Hf2 & Hst2); [lia|]; pose proof (proj1 Hf2) as Hrl2.
    pose proof Hx as Hx'; rewrite rx_store_spec in Hx' by (rewrite (d_rbuf _ Hd1); lia); injection Hx' as Hs2.
    rewrite Hx; cbn [mbind option_bind].
    destruct (IH Hbs s2) as (s' & -> & ? & ? & ? & Hse & ? & Hf & Htx & Hsl); try congruence; try lia.
    { intros; apply Hcond; try congruence; destruct Hf1 as (_ & _ & Hrh1 & _), Hf2 as (_ & _ & Hrh2 & _); congruence. }
    { rewrite <- Hs2; simpl; congruence. }
    exists s'; split; [done|]; split; [done|]; split; [done|]; split; [done|].
    split; [by rewrite Hse, <- Hs2|]; split; [done|]; split; [transitivity s1; [done | by transitivity s2]|].
    split; [transitivity s2; [rewrite <- Hs2; by split_and! | done]|].
    rewrite Hsl, Hrt2, cons_middle, app_assoc; f_equal; rewrite <- Hs2; simpl; rewrite Hrb1, Hrt1.
    unfold slice; rewrite !drop_0, Z2Nat.inj_add by lia.
    change (Z.to_nat 1) with 1%nat; rewrite Nat.add_1_r.
    rewrite (take_S_r _ _ (u8 b)); [|apply list_lookup_insert_eq; pose proof (d_rbuf _ Hd); unfold zlen in *; lia].
    rewrite take_insert_ge by lia; f_equal; by rewrite u8_id.
Qed.

Lemma slice_split_0 {A} (b : list A) m n : 0 <= m <= n -> n <= zlen b -> slice b 0 n = slice b 0 m ++ slice b m (n - m).
Proof.
  intros; replace n with (m + (n - m)) at 1 by lia; rewrite slice_app_split by lia; done.
Qed.

(** The receiving half: the bytes of a block arrive one by one. *)
Lemma xcv_receive_block a p l d rest v s :
  let reply := a :: p :: l :: d in
  dev_ok s -> EDC (sc_t1 s) = SC_CHKSUM_LRC -> sc_rtail s = 0 -> sc_err s = 0 -> Forall is_u8 reply -> zlen d = l + 1 -> l <= 255 ->
  exists s', xcv_receive (mk_world (map (fun b => Irq (rx_irq b)) reply ++ rest) v s) = Some (mk_world rest v s') /\
    dev_ok s' /\ sc_err s' = 0 /\ sc_sent s' = sc_sent s /\ sc_rlen s' = zlen reply /\
    slice (sc_rbuf s') 0 (zlen reply) = reply /\ sc_t1 s' = sc_t1 s.
Proof.
  intros reply Hd Hedc Hrt He H8 Hl Hl255.
  destruct d as [|e0 d]; [apply Forall_cons in H8 as [_ H8]; apply Forall_cons in H8 as [_ H8];
    apply Forall_cons in H8 as [Hu _]; zlen_simpl; unfold is_u8 in Hu; lia|].
  rewrite zlen_cons in Hl; pose proof (zlen_nonneg d) as Hd0.
  assert (Hr : zlen reply = 4 + l) by (unfold reply; zlen_simpl; lia).
  assert (Hsplit : Forall is_u8 [a; p; l; e0] /\ Forall is_u8 d) by (by apply (Forall_app is_u8 [a; p; l; e0] d)).
  destruct Hsplit as [H4 Hd8]; unfold xcv_receive.
  set (s1 := (s <| sc_rlen := 3 |>) <| sc_state := SC_OP_READ |>).
  change (set_sc _ (mk_world _ v s)) with (mk_world (map (fun b => Irq (rx_irq b)) [a; p; l; e0] ++ (map (fun b => Irq (rx_irq b)) d ++ rest)) v s1).
  unfold wait; cbn [w_evs w_var w_sc].
  destruct (rx_wait (fun s => (3 <? sc_rtail s) || nz (sc_err s)) 4 [a; p; l; e0] (map (fun b => Irq (rx_irq b)) d ++ rest) v s1)
    as (s2 & -> & Hd2 & Hst2 & He2 & Hse2 & Hrt2 & (Hrl2 & Ht2 & _) & _ & Hsl2); try done.
  { intros s' -> _ _ Hle; rewrite orb_false_r; destruct (_ =? 4) eqn:?; zbool; [apply Z.ltb_lt | apply Z.ltb_ge]; lia. }
  { destruct Hd; by split. }
  { simpl; by rewrite Hrt. }
  cbn [mbind option_bind w_sc]; rewrite He2; cbn [nz Z.eqb negb andb].
  change (sc_rtail s1) with (sc_rtail s) in Hsl2; rewrite Hrt in Hsl2; change (slice (sc_rbuf s1) 0 0) with (@nil Z) in Hsl2; cbn [app] in Hsl2.
  assert (Hb2 : rd (sc_rbuf s2) 2 = Some l).
  { apply rd_Some; split; [lia|].
    assert (Hlk : slice (sc_rbuf s2) 0 4 !! 2%nat = Some l) by (by rewrite Hsl2).
    unfold slice in Hlk; rewrite drop_0, lookup_take_lt in Hlk by lia; done. }
  rewrite Hb2; cbn [mbind option_bind]; rewrite Ht2; change (sc_t1 s1) with (sc_t1 s); rewrite Hedc; change (SC_CHKSUM_LRC =? SC_CHKSUM_LRC) with true; cbv iota zeta.
  set (s3 := (s2 <| sc_rlen := sc_rlen s2 + (l + 1) |>) <| sc_state := SC_OP_READ |>).
  change (set_sc _ (mk_world _ v s2)) with (mk_world (map (fun b => Irq (rx_irq b)) d ++ rest) v s3); cbn [w_evs w_var w_sc].
  assert (Hrl3 : sc_rlen s3 = zlen reply) by (change (sc_rlen s3) with (sc_rlen s2 + (l + 1)); rewrite Hrl2; simpl; lia).
  destruct (rx_wait (fun s => (sc_rtail s =? sc_rlen s) || nz (sc_err s)) (zlen reply) d rest v s3)
    as (s4 & -> & Hd4 & Hst4 & He4 & Hse4 & Hrt4 & (Hrl4 & Ht4 & _) & _ & Hsl4); try done.
  { intros s' -> -> _ _; by rewrite orb_false_r, Hrl3. }
  { destruct Hd2; by split. }
  { change (sc_rtail s3) with (sc_rtail s2); rewrite Hrt2; lia. }
  { unfold MAX_LEN; lia. }
  cbn [mbind option_bind w_sc]; rewrite He4; change (0 =? SC_ERR_PARITY) with false; cbv iota.
  exists s4; split_and!; try done; [by rewrite Hse4; change (sc_sent s3) with (sc_sent s2); rewrite Hse2 | congruence | | by rewrite Ht4; change (sc_t1 s3) with (sc_t1 s2); rewrite Ht2].
  rewrite Hsl4; change (sc_rtail s3) with (sc_rtail s2); change (sc_rbuf s3) with (sc_rbuf s2).
  by rewrite Hrt2, Hsl2.
Qed.

Lemma t1_xcv_block a p l d rest v s block slen k :
  let reply := a :: p :: l :: d in
  dev_ok s -> EDC (sc_t1 s) = SC_CHKSUM_LRC -> sc_err s = 0 -> zlen block = T1_BUFFER_SIZE -> 1 <= slen <= T1_BUFFER_SIZE ->
  4 * (Z.of_nat k - 1) < slen <= 4 * Z.of_nat k ->
  Forall is_u8 reply -> zlen d = l + 1 ->
  exists s',
    t1_xcv (mk_world (replicate k (Irq tx_irq) ++ map (fun b => Irq (rx_irq b)) reply ++ rest) v s) block slen
      = Some (zlen reply, mk_world rest v s', reply ++ drop (length reply) block) /\
    sc_sent s' = sc_sent s ++ slice block 0 slen /\ sc_err s' = 0 /\ dev_ok s' /\ EDC (sc_t1 s') = SC_CHKSUM_LRC.
Proof.
  intros reply Hd Hedc He Hb Hs Hk H8 Hl; unfold t1_xcv; cbn [w_sc].
  destruct (xcv_start_ok block slen s Hd Hb) as (s1 & -> & Hd1 & Hrt1 & Hst1 & Hto1 & Htc1 & He1 & Hse1 & Hsl1 & Hedc1); [lia|].
  cbn [mbind option_bind]; unfold wait; cbn [w_evs w_var w_sc set].
  destruct (tx_wait k (map (fun b => Irq (rx_irq b)) reply ++ rest) v s1)
    as (s2 & -> & Hd2 & _ & Hse2 & Hrt2 & He2 & (_ & Ht2 & _) & _); try done; try (rewrite Htc1, Hto1; lia).
  cbn [mbind option_bind w_sc]; rewrite He2, He1, He; cbn [nz Z.eqb negb].
  assert (Hl255 : l <= 255).
  { apply Forall_cons in H8 as [_ H8]; apply Forall_cons in H8 as [_ H8]; apply Forall_cons in H8 as [Hu _].
    unfold is_u8 in Hu; lia. }
  destruct (xcv_receive_block a p l d rest v s2) as (s3 & Hx & Hd3 & He3 & Hse3 & Hrl3 & Hsl3 & Ht3); try done; try congruence.
  fold reply in Hx, Hrl3, Hsl3; rewrite Hx; cbn [mbind option_bind]; cbv zeta.
  set (s4 := (clear_bits SC_ALTCTL_CNTEN0 REG_SC_ALTCTL s3) <| sc_state := SC_OP_IDLE |>).
  change (set_sc _ (mk_world rest v s3)) with (mk_world rest v s4); cbn [w_sc].
  change (sc_err s4) with (sc_err s3); rewrite He3; cbn [Z.eqb].
  change (sc_rbuf s4) with (sc_rbuf s3); change (sc_rlen s4) with (sc_rlen s3); rewrite Hrl3.
  assert (Hr : zlen reply = 4 + l) by (unfold reply; zlen_simpl; lia).
  pose proof (zlen_nonneg d); unfold T1_BUFFER_SIZE in *.
  unfold memcpy; rewrite rdn_in by (rewrite ?(d_rbuf _ Hd3); unfold MAX_LEN; lia); cbn [mbind option_bind].
  rewrite Hsl3, wrn_0 by lia; cbn [mbind option_bind].
  exists s4; split; [done|]; split_and!; [|done|apply (same_bufs_ok s3); [unfold s4; bufs | done]|].
  2: { change (sc_t1 s4) with (sc_t1 s3); rewrite Ht3, Ht2; congruence. }
  change (sc_sent s4) with (sc_sent s3); rewrite Hse3, Hse2, Hse1, Hto1, Htc1, Z.sub_0_r; by rewrite Hsl1.
Qed.

(** ** Properties *)

(** [t1_xcv] transports blocks. When the FIFO interrupts arrive as the
    hardware raises them (one per four bytes to send, one per byte received)
    and the card answers with a block whose length byte is right, the bytes
    written to the data register are exactly the block given, in order, and the
    call returns the length of the card's block with its bytes in the buffer. *)
Theorem t1_xcv_transports a p l d rest v s block slen k :
  let reply := a :: p :: l :: d in
  dev_ok s -> EDC (sc_t1 s) = SC_CHKSUM_LRC -> sc_err s = 0 -> zlen block = T1_BUFFER_SIZE -> 1 <= slen <= T1_BUFFER_SIZE ->
  4 * (Z.of_nat k - 1) < slen <= 4 * Z.of_nat k ->
  Forall is_u8 reply -> zlen d = l + 1 ->
  exists s',
    t1_xcv (mk_world (replicate k (Irq tx_irq) ++ map (fun b => Irq (rx_irq b)) reply ++ rest) v s) block slen
      = Some (zlen reply, mk_world rest v s', reply ++ drop (length reply) block) /\
    sc_sent s' = sc_sent s ++ slice block 0 slen /\ sc_err s' = 0 /\ dev_ok s'.
Proof.
  intros reply Hd Hedc He Hb Hs Hk H8 Hl.
  destruct (t1_xcv_block a p l d rest v s block slen k Hd Hedc He Hb Hs Hk H8 Hl) as (s' & Hx & Hse & He' & Hd' & _); by exists s'.
Qed.

Definition dev_example : nuc970_sc := sc_zero <| sc_t1 := mk_T1 32 13 4 SC_CHKSUM_LRC 100 1000 0 |>.

Lemma dev_example_ok : dev_ok dev_example.
Proof. split; try (vm_compute; intuition congruence); repeat constructor; done. Qed.

Lemma t1_xcv_transports_witness :
  exists s',
    t1_xcv (mk_world (replicate 2 (Irq tx_irq) ++ map (fun b => Irq (rx_irq b)) [0; 0x80; 0; 0x80] ++ [])
              (mk_vars 0 0 0 0) dev_example) ([0; 0; 2; 0x12; 0x34; 0x24] ++ replicate 253 0) 6
      = Some (4, mk_world [] (mk_vars 0 0 0 0) s', [0; 0x80; 0; 0x80; 0x34; 0x24] ++ replicate 253 0) /\
    sc_sent s' = [0; 0; 2; 0x12; 0x34; 0x24].
Proof.
  destruct (t1_xcv_transports 0 0x80 0 [0x80] [] (mk_vars 0 0 0 0) dev_example
    ([0; 0; 2; 0x12; 0x34; 0x24] ++ replicate 253 0) 6 2) as (s' & Hx & Hs & _ & _);
    try (vm_compute; intuition congruence).
  - apply dev_example_ok.
  - repeat constructor; vm_compute; intuition congruence.
  - exists s'; split; [exact Hx | exact Hs].
Defined.

(** ** [CmdXfrT1] and [t1_negotiate_ifsd] *)


Definition world_example (evs : list event) : world := mk_world evs (mk_vars 0 0 0 0) dev_example.

Lemma link_example_ok evs : Forall quiet evs -> rx_count evs <= MAX_LEN -> link_ok (world_example evs).
Proof. intros; split_and!; [split; [apply dev_example_ok | done] | done | done]. Qed.



(** One pass over the loop of [t1_negotiate_ifsd]. *)
Lemma negotiate_turn_ok dad ifsd sbuf w t1 sdata retries :
  link_ok w -> t1_wf t1 -> ct_wf sbuf -> zlen (ct_data sbuf) <= 1 -> zlen sdata = T1_BUFFER_SIZE ->
  1 <= retries < 4294967296 ->
  exists r w' t1' sdata', negotiate_turn dad ifsd sbuf w t1 sdata retries = Some (r, w', t1', sdata', retries - 1) /\
    link_ok w' /\ t1_wf t1' /\ zlen sdata' = T1_BUFFER_SIZE /\ rc_bytes t1' = rc_bytes t1 /\
    match r with
    | None => 2 <= retries
    | Some n => (n = 4 + rc_bytes t1 /\ t1_state t1' = t1_state t1) \/ (n = -1 /\ t1_state t1' = DEAD)
    end.
Proof.
  intros Hw Ht Hsb Hl1 Hsd Hr; unfold negotiate_turn.
  rewrite (t1_build_S _ _ _ _ (Some sbuf)) by (done || (unfold is_u8; lia)); cbn [mbind option_bind bp_data].
  set (e := enc _ _ _ _); set (t1' := t1 <| previous_block := _ |>).
  assert (He : zlen e <= T1_BUFFER_SIZE).
  { unfold e, T1_BUFFER_SIZE; rewrite enc_len; pose proof (csum_len_pos (csum t1)); lia. }
  assert (Ht' : t1_wf t1') by (destruct Ht; split; try done; apply zlen_take4_enc).
  destruct (t1_xcv_ok w (e ++ drop (length e) sdata) (zlen e) Hw) as (n & w' & b & -> & Hw' & Hb & Hn & _);
    [zlen_simpl; unfold zlen in *; lia | pose proof (zlen_nonneg e); lia |].
  cbn [mbind option_bind]; rewrite u32_id by lia.
  assert (Hdead : t1_wf (t1' <| t1_state := DEAD |>)) by (destruct Ht'; by split).
  assert (Hclr : link_ok (set_sc (fun s => s <| sc_err := 0 |>) w')).
  { destruct Hw' as [? ?]; split; [apply world_ok_same; [intros; bufs | done] | done]. }
  destruct (retries - 1 <=? 0) eqn:E; zbool.
  { eexists _, _, _, _; split; [reflexivity|]; split_and!; try done; by right. }
  destruct (n =? -1) eqn:E1; zbool.
  { destruct (_ =? _); eexists _, _, _, _; (split; [reflexivity|]); split_and!; try done; [lia | by right]. }
  unfold T1_BUFFER_SIZE in *.
  destruct (rd_in b DATA) as [d ->]; [unfold DATA; lia|]; destruct (rd_in b NAD) as [a ->]; [unfold NAD; lia|].
  destruct (rd_in b LEN) as [l ->]; [unfold LEN; lia|]; destruct (rd_in b PCB) as [p ->]; [unfold PCB; lia|].
  cbn [mbind option_bind]; cbv zeta; destruct (_ || _ || _).
  { eexists _, _, _, _; split; [reflexivity|]; split_and!; try done; lia. }
  assert (Hv : exists v, t1_verify_checksum t1' b n = Some v).
  { unfold t1_verify_checksum; rewrite (wf_rc _ Ht'); pose proof (csum_len_pos (csum t1')).
    destruct (_ <? 0) eqn:?; zbool; [eauto|]; rewrite !rdn_in by lia; cbn [mbind option_bind]; eauto. }
  destruct Hv as [v ->]; cbn [mbind option_bind].
  destruct (negb v || negb (n =? 4 + rc_bytes t1') || negb (l =? 1) || _) eqn:E2;
    eexists _, _, _, _; (split; [reflexivity|]); split_and!; try done; [lia|].
  zbool; left; done.
Qed.

Lemma negotiate_loop_ok dad ifsd sbuf fuel w t1 sdata retries :
  link_ok w -> t1_wf t1 -> ct_wf sbuf -> zlen (ct_data sbuf) <= 1 -> zlen sdata = T1_BUFFER_SIZE ->
  1 <= retries < 4294967296 -> retries = Z.of_nat fuel ->
  exists n w' t1', negotiate_loop fuel dad ifsd sbuf w t1 sdata retries = Some (Some n, w', t1') /\
    link_ok w' /\ t1_wf t1' /\ (n = 4 + rc_bytes t1 \/ (n = -1 /\ t1_state t1' = DEAD)).
Proof.
  intros Hw Ht Hsb Hl1; revert w t1 sdata retries Hw Ht; induction fuel as [|fuel IH]; intros w t1 sdata retries Hw Ht Hsd Hr Hf; [lia|].
  cbn [negotiate_loop].
  destruct (negotiate_turn_ok dad ifsd sbuf w t1 sdata retries) as ([n|] & w' & t1' & sd' & -> & Hw' & Ht' & Hsd' & Hrc & Hres); try done;
    cbn [mbind option_bind].
  - exists n, w', t1'; split_and!; try done; naive_solver.
  - destruct (IH w' t1' sd' (retries - 1)) as (n & w2 & t2 & -> & ? & ? & ?); try done; try lia.
    exists n, w2, t2; rewrite <- Hrc; done.
Qed.

(** the negotiation of the block size with the card ends after at most
    [retries] exchanges, whatever the card sends: it returns the length of a
    correct IFS response, or -1 with the protocol state DEAD, and stays within
    all buffers. *)
Theorem t1_negotiate_ifsd_total dad ifsd w t1 sdata :
  link_ok w -> t1_wf t1 -> 1 <= retries t1 < 4294967296 -> 1 <= IFSC (sc_t1 (w_sc w)) < 4294967296 ->
  zlen sdata = T1_BUFFER_SIZE ->
  exists n w' t1', t1_negotiate_ifsd dad ifsd w t1 sdata = Some (Some n, w', t1') /\ link_ok w' /\ t1_wf t1' /\
    (n = 5 \/ (n = -1 /\ t1_state t1' = DEAD)).
Proof.
  intros Hw Ht Hr Hif Hsd; unfold t1_negotiate_ifsd; rewrite (proj2 (proj2 Hw)).
  set (t1' := (t1_set_param _ IFD_PROTOCOL_T1_IFSC _).2).
  assert (Ht' : t1_wf t1').
  { destruct Ht; split; try done; unfold t1'; simpl; rewrite u32_id; lia. }
  assert (Hsb : ct_wf (ct_buf_set [u8 ifsd] 1)) by (apply ct_buf_set_wf; zlen_simpl; lia).
  destruct (negotiate_loop_ok dad ifsd (ct_buf_set [u8 ifsd] 1) (Z.to_nat (retries t1')) w t1' sdata (retries t1'))
    as (n & w' & t2 & -> & ? & ? & ?); try done; [change (retries t1') with (retries t1); lia|].
  exists n, w', t2; done.
Qed.

Lemma t1_negotiate_ifsd_total_witness :
  exists n w' t1', t1_negotiate_ifsd 0 254 (world_example []) t1_example (replicate 259 0) = Some (Some n, w', t1') /\
    t1_wf t1'.
Proof.
  destruct (t1_negotiate_ifsd_total 0 254 (world_example []) t1_example (replicate 259 0)) as (n & w' & t1' & Hn & _ & Ht & _);
    try (vm_compute; intuition congruence).
  - apply link_example_ok; [constructor | vm_compute; congruence].
  - apply t1_example_ok.
  - exists n, w', t1'; split; [exact Hn | exact Ht].
Defined.
