(* ===== verification/T1Dev.v ===== *)
(** T=1 from end to end: the protocol loop over the real device and a reference
    card behind it. What the card sends, and the faults of the line, become the
    interrupts of the device; the loop over the device then does what it does
    over the abstract link of T1Card.v, and so delivers reliably. *)
From S2P Require Import Prelude Checksum CtBuf Atr ScDev ScIsr T1 T1Spec T1Card T1Safe T1Sim ScLink ScLinkSpec.

(** ** One exchange on the device *)

(** A block as the device reads it: the length byte says how much follows. *)
Definition block_shape (g : list Z) : Prop :=
  exists a p l d, g = a :: p :: l :: d /\ zlen d = l + 1 /\ Forall is_u8 g.

(** The first timer ran out. *)
Definition timeout_irq : irq := mk_irq SC_INTSTS_TMR0IF 0 0 0.

(** The interrupts while [n] bytes are sent: one for each four bytes. *)
Definition tx_evs (n : Z) : list event := replicate (Z.to_nat ((n + 3) / 4)) (Irq tx_irq).

Lemma isr_timeout v s : nuc970_sc_interrupt timeout_irq v s = Some (v, isr_tmr0 timeout_irq s).
Proof. reflexivity. Qed.

(** A block goes out and nothing comes back in time. *)
Lemma t1_xcv_times_out rest v s block slen :
  dev_ok s -> EDC (sc_t1 s) = SC_CHKSUM_LRC -> sc_err s = 0 -> zlen block = T1_BUFFER_SIZE -> 1 <= slen <= T1_BUFFER_SIZE ->
  exists s', t1_xcv (mk_world (tx_evs slen ++ Irq timeout_irq :: rest) v s) block slen = Some (-1, mk_world rest v s', block) /\
    sc_sent s' = sc_sent s ++ slice block 0 slen /\ sc_err s' = SC_ERR_TIME0OUT /\ dev_ok s' /\ EDC (sc_t1 s') = SC_CHKSUM_LRC.
Proof.
  intros Hd Hedc He Hb Hs; unfold t1_xcv; cbn [w_sc].
  destruct (xcv_start_ok block slen s Hd Hb) as (s1 & H1 & Hd1 & Hrt1 & Hst1 & Hto1 & Htc1 & He1 & Hse1 & Hsl1 & Hedc1); [lia|]; step_ok H1.
  unfold wait; cbn [w_evs w_var w_sc set eta_world].
  destruct (tx_wait (Z.to_nat ((slen + 3) / 4)) (Irq timeout_irq :: rest) v s1) as (s2 & H2 & Hd2 & _ & Hse2 & Hrt2 & He2 & (_ & Ht2 & _) & _);
    [done | done | rewrite Htc1, Hto1, Z.sub_0_r; apply tx_irqs; lia | lia|].
  unfold tx_evs; rewrite H2, !bind_ok; cbn [w_sc]; rewrite He2, He1, He; cbn [nz Z.eqb negb].
  unfold xcv_receive, wait; set (s3 := (s2 <| sc_rlen := 3 |>) <| sc_state := SC_OP_READ |>).
  change (set_sc _ (mk_world (Irq timeout_irq :: rest) v s2)) with (mk_world (Irq timeout_irq :: rest) v s3); cbn [w_evs w_var w_sc].
  assert (Hc : ((3 <? sc_rtail s3) || nz (sc_err s3)) = false).
  { change (sc_rtail s3) with (sc_rtail s2); change (sc_err s3) with (sc_err s2); by rewrite Hrt2, Hrt1, He2, He1, He. }
  cbn [wait_event]; rewrite Hc, isr_timeout, bind_ok; set (s4 := isr_tmr0 timeout_irq s3).
  assert (He4 : sc_err s4 = SC_ERR_TIME0OUT) by reflexivity.
  assert (Hend : wait_event (fun s => (3 <? sc_rtail s) || nz (sc_err s)) rest v s4 = Some (rest, v, s4)).
  { destruct rest; cbn [wait_event]; rewrite He4; change (nz SC_ERR_TIME0OUT) with true; by rewrite orb_true_r. }
  rewrite Hend, !bind_ok; cbn [w_sc]; rewrite He4.
  change (nz SC_ERR_TIME0OUT && negb (SC_ERR_TIME0OUT =? SC_ERR_PARITY)) with true; cbv iota; rewrite bind_ok; cbv zeta.
  set (s5 := (clear_bits SC_ALTCTL_CNTEN0 REG_SC_ALTCTL s4) <| sc_state := SC_OP_IDLE |>).
  change (set_sc _ (mk_world rest v s4)) with (mk_world rest v s5); cbn [w_sc]; change (sc_err s5) with SC_ERR_TIME0OUT.
  exists s5; split; [reflexivity|]; split; [|split; [reflexivity|]].
  - change (sc_sent s5) with (sc_sent s2); rewrite Hse2, Hse1, Hto1, Htc1, Z.sub_0_r; by rewrite Hsl1.
  - assert (Hd3 : dev_ok s3) by (destruct Hd2; by split).
    split; [apply (same_bufs_ok s3); [unfold s5; transitivity s4; [apply isr_tmr0_same | bufs] | done]|].
    change (sc_t1 s5) with (sc_t1 s2); rewrite Ht2; congruence.
Qed.

(** ** The card's blocks *)
Lemma lrc_is_u8 l : Forall is_u8 l -> is_u8 (fold_left (fun lrc b => Z.lxor lrc b) l 0).
Proof.
  assert (H : forall a, is_u8 a -> Forall is_u8 l -> is_u8 (fold_left (fun lrc b => Z.lxor lrc b) l a));
    [|intros; apply H; [split; lia | done]].
  induction l as [|x l IH]; intros a Ha Hl; [done|]; apply Forall_cons in Hl as [Hx Hl]; cbn [fold_left]; apply IH; [by apply u8_lxor | done].
Qed.

Lemma enc_shape a pcb inf : is_u8 a -> is_u8 pcb -> Forall is_u8 inf -> zlen inf <= 255 -> block_shape (enc csum_lrc a pcb inf).
Proof.
  intros Ha Hp Hi Hl; pose proof (zlen_nonneg inf); exists a, pcb, (zlen inf), (inf ++ checksum csum_lrc (a :: pcb :: zlen inf :: inf)); split; [done|].
  split; [rewrite zlen_app; done|].
  assert (Hb : Forall is_u8 (a :: pcb :: zlen inf :: inf)) by (repeat (apply Forall_cons; split; [done || (split; lia)|]); done).
  change (a :: pcb :: zlen inf :: inf ++ ?l) with ((a :: pcb :: zlen inf :: inf) ++ l); apply Forall_app; split; [done|].
  apply Forall_singleton; by apply lrc_is_u8.
Qed.

Lemma block_shape_len g : block_shape g -> 4 <= zlen g <= T1_BUFFER_SIZE.
Proof.
  intros (a & p & l & d & -> & Hd & H8); rewrite !zlen_cons, Hd; unfold T1_BUFFER_SIZE.
  apply Forall_cons in H8 as [_ H8]; apply Forall_cons in H8 as [_ H8]; apply Forall_cons in H8 as [Hl _]; unfold is_u8 in Hl; lia.
Qed.

(** The card's sequence numbers are bits, and what it has to send are bytes. *)
Definition card_wf (cd : card) : Prop := is_bit (c_nr cd) /\ is_bit (c_ns cd) /\ Forall is_u8 (c_rem cd).

(** What can happen to a block on the line: a block that arrives damaged still
    has as many bytes as its length byte says; a block that does not arrive is
    noticed by the timer. *)
Definition line_fault (f : fault) : Prop :=
  match f with
  | NoFault | RequestBad => True
  | ReplyBad g => block_shape g
  | ReplyLost n e | RequestLost n e => n = -1 /\ e = SC_ERR_TIME0OUT
  end.

Section Card.
  Context (app : list (list Z) -> list Z -> list Z) (k : Z).
  Hypothesis Happ : forall log cmd, Forall is_u8 (app log cmd).
  Hypothesis Hk : 1 <= k <= 254.
  Notation nad := (swap_nibbles 0).

Lemma card_acked_wf cd : card_wf cd -> card_wf (card_acked k cd).
Proof.
  intros Hc; pose proof Hc as (H1 & H2 & H3); unfold card_acked; destruct (c_rem cd) as [|b rem]; [exact Hc|].
  split; [done|]; split; [by apply bit_lxor | by apply Forall_drop].
Qed.

Lemma card_recv_wf cd bytes : card_wf cd -> card_wf (card_recv app csum_lrc k nad cd bytes).1.
Proof.
  intros Hc; unfold card_recv; destruct (parse_block csum_lrc bytes) as [[pcb inf]|]; [|done].
  destruct (t1_block_type pcb =? T1_I_BLOCK); [|destruct (t1_block_type pcb =? T1_R_BLOCK)].
  - destruct (t1_seq pcb =? c_nr cd); [|done]; destruct (card_acked_wf cd Hc) as (H1 & H2 & H3).
    unfold card_I; cbn [fst]; destruct (nz _); (split; [by apply bit_lxor|]; split; [done | apply Happ || constructor]).
  - destruct (t1_seq pcb =? c_ns cd); [done | by apply card_acked_wf].
  - destruct (T1_S_TYPE pcb =? T1_S_RESYNC); [|done]; split_and!; by left || constructor.
Qed.

Lemma card_reply_shape cd : card_wf cd -> block_shape (card_reply csum_lrc k nad cd).
Proof.
  intros (H1 & H2 & H3); unfold card_reply; destruct (c_rem cd) as [|b rem] eqn:Hr.
  - apply enc_shape; [split; reflexivity || discriminate | apply (r_pcb_spec _ 0 H1); lia | done | rewrite zlen_nil; lia].
  - apply enc_shape; [split; reflexivity || discriminate | apply (i_pcb_spec _ _ H2) | by apply Forall_take | rewrite zlen_take; lia].
Qed.

Lemma card_refuse_shape cd : card_wf cd -> block_shape (card_refuse csum_lrc nad cd).
Proof.
  intros (H1 & _); apply enc_shape; [split; reflexivity || discriminate | apply (r_pcb_spec _ _ H1); unfold T1_EDC_ERROR; lia | done | rewrite zlen_nil; lia].
Qed.

(** ** What the host's blocks set off *)

(** What comes back after a block, if anything does. *)
Definition answer_to (l : link) (bytes : list Z) : option (list Z) :=
  match l_sched l with
  | ReplyBad g :: _ => Some g
  | RequestBad :: _ => Some (card_refuse csum_lrc nad (l_card l))
  | ReplyLost _ _ :: _ | RequestLost _ _ :: _ => None
  | NoFault :: _ | [] => Some (card_recv app csum_lrc k nad (l_card l) bytes).2
  end.

Definition block_out (x : xfer link) : list Z := slice (x_sdata x) 0 (x_slen x).
Definition exchange_evs (x : xfer link) : list event :=
  tx_evs (x_slen x) ++ match answer_to (x_w x) (block_out x) with Some g => rx_evs g | None => [Irq timeout_irq] end.

#[local] Instance the_link : T1Link link := card_link app csum_lrc k nad.

(** The interrupts of a run of the loop, and the bytes it sends. *)
Fixpoint run_evs (emv : bool) (fuel : nat) (x : xfer link) : list event :=
  match fuel with
  | O => []
  | S fuel => exchange_evs x ++ match t1_turn emv 0 x with Some (T1Running x') => run_evs emv fuel x' | _ => [] end
  end.
Fixpoint run_wire (emv : bool) (fuel : nat) (x : xfer link) : list Z :=
  match fuel with
  | O => []
  | S fuel => block_out x ++ match t1_turn emv 0 x with Some (T1Running x') => run_wire emv fuel x' | _ => [] end
  end.

(** ** The device shows what the abstract link shows *)
Record linked (evs : list event) (sent : list Z) (l : link) (w : world) : Prop := {
  ln_evs : w_evs w = evs;
  ln_sent : sc_sent (w_sc w) = sent;
  ln_err : l_err l = sc_err (w_sc w);
  ln_dev : dev_ok (w_sc w);
  ln_edc : EDC (sc_t1 (w_sc w)) = SC_CHKSUM_LRC;
  ln_card : card_wf (l_card l);
  ln_line : Forall line_fault (l_sched l);
}.

Lemma linked_err evs sent l w : linked evs sent l w -> lk_err l = lk_err w.
Proof. apply ln_err. Qed.

Lemma linked_clear evs sent l w : linked evs sent l w -> linked evs sent (lk_set_err 0 l) (lk_set_err 0 w).
Proof. intros []; split; try done; exact (same_bufs_ok _ _ (err_same 0 (w_sc w)) ln_dev0). Qed.

Lemma linked_WTX evs sent v l w : linked evs sent l w -> linked evs sent (lk_set_WTX v l) (lk_set_WTX v w).
Proof. intros []; split; try done; destruct ln_dev0; by split. Qed.

(** A block that arrives at the device. *)
Lemma arrives evs v s block slen g :
  dev_ok s -> EDC (sc_t1 s) = SC_CHKSUM_LRC -> sc_err s = 0 -> zlen block = T1_BUFFER_SIZE -> 1 <= slen <= T1_BUFFER_SIZE -> block_shape g ->
  exists s', t1_xcv (mk_world ((tx_evs slen ++ rx_evs g) ++ evs) v s) block slen = Some (zlen g, mk_world evs v s', g ++ drop (length g) block) /\
    sc_sent s' = sc_sent s ++ slice block 0 slen /\ sc_err s' = 0 /\ dev_ok s' /\ EDC (sc_t1 s') = SC_CHKSUM_LRC.
Proof.
  intros Hd Hedc He Hb Hs (a & p & l & d & -> & Hl & H8); rewrite <- app_assoc.
  exact (t1_xcv_block a p l d evs v s block slen _ Hd Hedc He Hb Hs (tx_irqs slen (proj1 Hs)) H8 Hl).
Qed.

(** The two ends of an exchange: a block arrives, or the timer ends it. *)
Lemma exchange_arrives evs l w block slen g l' :
  linked ((tx_evs slen ++ rx_evs g) ++ evs) (sc_sent (w_sc w)) l w -> l_err l = 0 ->
  zlen block = T1_BUFFER_SIZE -> 1 <= slen <= T1_BUFFER_SIZE -> block_shape g ->
  l_err l' = 0 -> card_wf (l_card l') -> Forall line_fault (l_sched l') ->
  option_Forall2 (xsim (linked evs (sc_sent (w_sc w) ++ slice block 0 slen)))
    (b ← wrn block 0 g; Some (zlen g, l', b)) (t1_xcv w block slen).
Proof.
  intros [He Hse Her Hd Hedc Hc Hf] Hz Hb Hs Hg Hz' Hc' Hf'; pose proof (block_shape_len g Hg); destruct w as [ev v s]; cbn [w_evs w_sc] in *; subst ev.
  rewrite wrn_0, bind_ok by lia.
  destruct (arrives evs v s block slen g Hd Hedc ltac:(congruence) Hb Hs Hg) as (s' & -> & Hse' & He' & Hd' & Hedc').
  constructor; split; [done|]; split; [split; cbn; congruence || done | done].
Qed.

Lemma exchange_times_out evs l w block slen l' :
  linked ((tx_evs slen ++ [Irq timeout_irq]) ++ evs) (sc_sent (w_sc w)) l w -> l_err l = 0 ->
  zlen block = T1_BUFFER_SIZE -> 1 <= slen <= T1_BUFFER_SIZE ->
  l_err l' = SC_ERR_TIME0OUT -> card_wf (l_card l') -> Forall line_fault (l_sched l') ->
  option_Forall2 (xsim (linked evs (sc_sent (w_sc w) ++ slice block 0 slen))) (Some (-1, l', block)) (t1_xcv w block slen).
Proof.
  intros [He Hse Her Hd Hedc Hc Hf] Hz Hb Hs Hz' Hc' Hf'; destruct w as [ev v s]; cbn [w_evs w_sc] in *; subst ev; rewrite <- app_assoc.
  destruct (t1_xcv_times_out evs v s block slen Hd Hedc ltac:(congruence) Hb Hs) as (s' & Hx & Hse' & He' & Hd' & Hedc'); change ([Irq timeout_irq] ++ evs) with (Irq timeout_irq :: evs); rewrite Hx.
  constructor; split; [done|]; split; [split; cbn; congruence || done | done].
Qed.

Lemma exchange_linked evs sent x w cd' :
  linked (exchange_evs x ++ evs) sent (x_w x) w -> l_err (x_w x) = 0 -> zlen (x_sdata x) = T1_BUFFER_SIZE -> 1 <= x_slen x <= T1_BUFFER_SIZE ->
  card_recv app csum_lrc k nad (l_card (x_w x)) (block_out x) = (cd', card_reply csum_lrc k nad cd') ->
  option_Forall2 (xsim (linked evs (sent ++ block_out x))) (lk_xcv (x_w x) (x_sdata x) (x_slen x)) (lk_xcv w (x_sdata x) (x_slen x)).
Proof.
  intros HL Hz Hb Hs Hrecv; pose proof (ln_sent _ _ _ _ HL) as Hse; subst sent; pose proof (ln_card _ _ _ _ HL) as Hc; pose proof (ln_line _ _ _ _ HL) as Hf.
  assert (Hc' : card_wf cd') by (pose proof (card_recv_wf (l_card (x_w x)) (block_out x) Hc) as H; by rewrite Hrecv in H).
  change (lk_xcv (x_w x) (x_sdata x) (x_slen x)) with (xcv app csum_lrc k nad (x_w x) (x_sdata x) (x_slen x)).
  change (lk_xcv w (x_sdata x) (x_slen x)) with (t1_xcv w (x_sdata x) (x_slen x)).
  unfold xcv; rewrite rdn_in, bind_ok by lia; fold (block_out x); unfold exchange_evs, answer_to in HL; rewrite Hrecv in HL |- *; cbn [fst snd] in HL |- *.
  unfold block_out in *; destruct (l_sched (x_w x)) as [|f fs] eqn:Hsc.
  { apply (exchange_arrives evs (x_w x)); try done; by apply card_reply_shape. }
  apply Forall_cons in Hf as [Hf1 Hf]; destruct f as [|g|n e|n e|]; cbn [line_fault] in Hf1.
  - apply (exchange_arrives evs (x_w x)); try done; by apply card_reply_shape.
  - apply (exchange_arrives evs (x_w x)); done.
  - destruct Hf1 as [-> ->]; apply (exchange_times_out evs (x_w x)); done.
  - destruct Hf1 as [-> ->]; apply (exchange_times_out evs (x_w x)); done.
  - apply (exchange_arrives evs (x_w x)); try done; by apply card_refuse_shape.
Qed.

Section Run.
  Context (emv : bool) (R : Z) (L : list (list Z)) (cmd : list Z).
  Hypothesis HR : 1 <= R < 4294967296.
  Hypothesis Hresp : 1 <= zlen (app L cmd) <= T1_BUFFER_SIZE.
  Notation ready := (ready app csum_lrc k 0 R L cmd).
  Notation resp := (app L cmd).

Lemma zero_u8 : is_u8 0.
Proof. split; reflexivity || discriminate. Qed.

(** One exchange of the loop, in whatever state it is. *)
Lemma turn_linked m x y evs sent :
  ready m x -> linked (exchange_evs x ++ evs) sent (x_w x) (x_w y) -> same x y ->
  option_Forall2 (rsim (linked evs (sent ++ block_out x))) (t1_turn emv 0 x) (t1_turn emv 0 y).
Proof.
  intros (Hi & _) HL Hxy; pose proof (proj1 Hi) as Hh; pose proof (h_sd _ _ _ Hh) as Hsd.
  destruct (inv_sends _ _ _ _ _ _ _ _ _ Hi) as (_ & _ & pcb & inf & _ & Hsends & _).
  destruct (card_answers _ _ _ _ _ _ _ Hk HR Hresp _ _ Hi) as (e & cd' & Hb & Hrecv & _).
  destruct Hsends as ((tl & Hx) & Hn & _).
  assert (Hs : 1 <= x_slen x <= T1_BUFFER_SIZE).
  { rewrite Hx, zlen_app in Hsd; rewrite Hn in *; rewrite enc_len in *; pose proof (zlen_nonneg inf); pose proof (zlen_nonneg tl); cbn [csum_len] in *; lia. }
  assert (He : e = block_out x) by (rewrite rdn_in in Hb by lia; by injection Hb). subst e.
  apply (t1_turn_sim (linked evs (sent ++ block_out x)) (linked_err _ _) (linked_clear _ _) (linked_WTX _ _) emv 0 x y Hxy).
  assert (Hlocals : x_sdata y = x_sdata x /\ x_slen y = x_slen x) by (by destruct Hxy); destruct Hlocals as [-> ->].
  exact (exchange_linked evs sent x (x_w y) cd' HL (proj1 (proj2 Hi)) Hsd Hs Hrecv).
Qed.

Lemma loop_linked fuel : forall m x y evs sent,
  ready m x -> left_to_do m x < Z.of_nat fuel -> linked (run_evs emv fuel x ++ evs) sent (x_w x) (x_w y) -> same x y ->
  exists (x' : xfer link) (y' : xfer world), t1_loop emv 0 fuel x = Some (T1Return (zlen resp) x') /\ t1_loop emv 0 fuel y = Some (T1Return (zlen resp) y') /\
    sim (linked evs (sent ++ run_wire emv fuel x)) x' y'.
Proof.
  induction fuel as [|fuel IH]; intros m x y evs sent Hr Hf HL Hxy.
  { pose proof (inv_nonneg _ _ _ _ _ _ _ Hresp _ _ (proj1 Hr)); pose proof (zlen_nonneg (l_sched (x_w x))); unfold left_to_do in Hf; lia. }
  cbn [t1_loop run_evs run_wire] in HL |- *; rewrite <- app_assoc in HL; rewrite app_assoc.
  pose proof (turn_linked m x y _ sent Hr HL Hxy) as Ht.
  destruct (turn_ready app csum_lrc k 0 emv R L cmd Hk zero_u8 HR Hresp m x Hr) as [(x1 & m1 & Hx1 & Hr1 & Hlt) | (x1 & Hx1 & _)];
    change (this_link app csum_lrc k 0) with the_link in Hx1.
  - rewrite Hx1 in Ht, HL |- *; inversion Ht as [? ? Hs Hxe Hye|]; subst; inversion Hs as [|? y1 Hs1]; subst; rewrite !bind_ok.
    apply (IH m1 x1 y1 evs); [done | lia | by apply sim_world | by apply sim_same in Hs1].
  - rewrite Hx1 in Ht, HL |- *; inversion Ht as [? ? Hs Hxe Hye|]; subst; inversion Hs as [? ? y1 Hs1|]; subst; rewrite !bind_ok.
    exists x1, y1; split; [done|]; split; [done|]; rewrite app_nil_r; exact Hs1.
Qed.

(** The interrupts of a whole call, and the bytes it sends. *)
Definition call_evs (fuel : nat) (l : link) (t1 : t1_state_t) (sdata snd_buf : list Z) (snd_len : Z) (rcv_buf : list Z) : list event :=
  match t1_start 0 l t1 sdata snd_buf snd_len rcv_buf with Some (Some x) => run_evs emv fuel x | _ => [] end.
Definition call_wire (fuel : nat) (l : link) (t1 : t1_state_t) (sdata snd_buf : list Z) (snd_len : Z) (rcv_buf : list Z) : list Z :=
  match t1_start 0 l t1 sdata snd_buf snd_len rcv_buf with Some (Some x) => run_wire emv fuel x | _ => [] end.

Lemma transceive_linked fuel l w t1 sdata snd_buf snd_len rcv_buf evs sent :
  t1_ok t1 -> csum t1 = csum_lrc -> retries t1 = R -> t1_state t1 <> DEAD -> zlen sdata = T1_BUFFER_SIZE ->
  1 <= snd_len <= zlen snd_buf -> snd_len < 4294967296 -> cmd = take (Z.to_nat snd_len) snd_buf -> T1_BUFFER_SIZE <= zlen rcv_buf ->
  in_sync k t1 (l_card l) -> c_log (l_card l) = L -> l_err l = 0 -> survivable csum_lrc R R (l_sched l) ->
  2 * zlen (l_sched l) + 2 * zlen cmd + zlen resp < Z.of_nat fuel ->
  linked (call_evs fuel l t1 sdata snd_buf snd_len rcv_buf ++ evs) sent l w ->
  exists l' w' t1' sdata' rcv',
    t1_transceive emv 0 fuel l t1 sdata snd_buf snd_len rcv_buf = Some (Some (zlen resp, l', t1', sdata', rcv')) /\
    t1_transceive emv 0 fuel w t1 sdata snd_buf snd_len rcv_buf = Some (Some (zlen resp, w', t1', sdata', rcv')) /\
    linked evs (sent ++ call_wire fuel l t1 sdata snd_buf snd_len rcv_buf) l' w' /\
    take (length resp) rcv' = resp /\ c_log (l_card l') = L ++ [cmd] /\ session csum_lrc k R t1' l'.
Proof.
  intros Ht Hc HRt Hst Hsd Hsl Hu Hcmd Hrb Hin Hlog He Hs Hf HL.
  destruct (transceive_ended app csum_lrc k 0 emv R L cmd Hk zero_u8 HR Hresp fuel l t1 sdata snd_buf snd_len rcv_buf)
    as (l' & t1' & sd' & rcv' & Hm & Hrd & Hlg & Hsy & Ht' & Hst' & Hc' & HR' & He' & _); try done.
  destruct (start_ready app csum_lrc k 0 emv R L cmd zero_u8 HR l t1 sdata snd_buf snd_len rcv_buf) as (x & Hx & Hr & Hlt); try done.
  unfold call_evs, call_wire in *; rewrite Hx in *.
  destruct (t1_start_sim (linked (run_evs emv fuel x ++ evs) sent) 0 l w t1 sdata snd_buf snd_len rcv_buf x HL Hx) as (y & Hy & Hxy).
  destruct (loop_linked fuel _ x y evs sent Hr ltac:(lia) (sim_world _ _ _ Hxy) (sim_same _ _ _ Hxy)) as (x' & y' & Hlx & Hly & Hs').
  change (this_link app csum_lrc k 0) with the_link in Hm; unfold t1_transceive in Hm |- *; rewrite Hx, bind_ok, Hlx, bind_ok in Hm; injection Hm as <- <- <- <-.
  exists (x_w x'), (x_w y'), (x_t1 x'), (x_sdata x'), (base (x_rbuf x')).
  split; [by rewrite Hx, bind_ok, Hlx, bind_ok|]; split; [rewrite Hy, bind_ok, Hly, bind_ok; by destruct Hs'|]; split; [by apply sim_world|]; split; [done|]; split; [done|]; by split.
Qed.
End Run.
End Card.
