(* ===== verification/AtrParse.v ===== *)
(** Setting up the reader from the answer to reset: [ATR_Parse] of sc-util.c,
    with the PPS exchange, and [parse_atr] of nuc970-sc.c. *)
From S2P Require Import Prelude Atr ScDev ScIsr ScLink.

(** A value computed in [int] arithmetic; leaving the range is undefined. *)
Definition s32 (x : Z) : option Z :=
  if (-2147483648 <=? x) && (x <? 2147483648) then Some x else None.

(** The groups that carry parameters of T=1. *)
Definition t1_groups : list Z := [2; 3; 4; 5; 6].

(** The first present interface byte [k] of the groups [idx]. *)
Fixpoint first_present (a : ATR_t) (k : Z) (idx : list Z) : option (option Z) :=
  match idx with
  | [] => Some None
  | i :: idx =>
      x ← ib_at a i k;
      if nz (present x) then Some (Some (value x)) else first_present a k idx
  end.

(** The loop over TCi that selects the error detection code. *)
Fixpoint edc_loop (a : ATR_t) (idx : list Z) (edc : Z) : option Z :=
  match idx with
  | [] => Some edc
  | i :: idx =>
      x ← ib_at a i TC;
      if nz (present x) then
        Some (if value x =? 0 then SC_CHKSUM_LRC else if value x =? 1 then SC_CHKSUM_CRC else edc)
      else edc_loop a idx SC_CHKSUM_LRC
  end.

(** F and D, and the bytes PPS0 (without the protocol) and PPS1. *)
Definition set_speed (a : ATR_t) (s : nuc970_sc) : option (Z * Z * nuc970_sc) :=
  ta1 ← ib_at a 0 TA;
  if nz (present ta1) then
    d ← ATR_GetParameter a ATR_PARAMETER_D;
    f ← ATR_GetParameter a ATR_PARAMETER_F;
    let D := match d with inl d => d | inr _ => sc_D s end in
    let F := match f with inl f => f | inr _ => sc_F s end in
    let '(F, D) := if (F =? 0) || (D =? 0) then (372, 1) else (F, D) in
    x ← s32 (4000000 * D);
    let card_baudrate := Z.quot x F in
    let default_baudrate := Z.quot (4000000 * ATR_DEFAULT_D) ATR_DEFAULT_F in
    let s := s <| sc_F := F |> <| sc_D := D |> in
    Some (if default_baudrate <? card_baudrate then (0x10, value ta1, s) else (0, 0, s))
  else Some (0, 0, s <| sc_F := 372 |> <| sc_D := 1 |>).

(** Send the PPS request and check the card's response. *)
Definition pps_start (pps1 pps2 : Z) (s : nuc970_sc) : option nuc970_sc :=
  tb ← wrn (sc_tbuf s) 0 [0xFF; pps1; pps2; Z.lxor (Z.lxor 0xFF pps1) pps2];
  let s := s <| sc_tbuf := tb |> <| sc_toffset := 0 |> <| sc_tcnt := 4 |> <| sc_state := SC_OP_WRITE |>
             <| sc_rlen := 4 |> <| sc_rhead := 0 |> <| sc_rtail := 0 |> in
  let s := clear_bits (Z.lor (Z.lor SC_ALTCTL_CNTEN2 SC_ALTCTL_CNTEN0) SC_ALTCTL_CNTEN0) REG_SC_ALTCTL s in
  let s := writel (Z.lor (9600 - 1) SC_TMR_MODE_7) REG_SC_TMRCTL0 s in
  let s := set_bits SC_ALTCTL_CNTEN0 REG_SC_ALTCTL s in
  Some (set_bits SC_INTEN_TBEIEN REG_SC_INTEN s).

Definition pps_check (s : nuc970_sc) : option Z :=
  r0 ← rd (sc_rbuf s) 0; r1 ← rd (sc_rbuf s) 1; r2 ← rd (sc_rbuf s) 2; r3 ← rd (sc_rbuf s) 3;
  t0 ← rd (sc_tbuf s) 0; t1 ← rd (sc_tbuf s) 1; t2 ← rd (sc_tbuf s) 2;
  if negb (r0 =? t0) then Some SC_ERR_PPS
  else if (Z.land r1 0x0f =? Z.land t1 0x0f) && ((Z.land r1 0xf0 =? 0x10) || (Z.land r1 0xf0 =? 0x00)) then
    if negb (r2 =? t2) then Some SC_ERR_PPS
    else if negb (r3 =? Z.lxor (Z.lxor r0 r1) r2) then Some SC_ERR_PPS
    else Some 0
  else Some SC_ERR_PPS.

Definition pps_exchange (pps1 pps2 : Z) (w : world) : option (Z * world) :=
  s ← pps_start pps1 pps2 (w_sc w);
  w ← wait (fun s => (sc_state s =? SC_OP_IDLE) || nz (sc_err s)) (w <| w_sc := s |>);
  if nz (sc_err (w_sc w)) then Some (SC_ERR_PPS, w)
  else
    let w := set_sc (fun s => s <| sc_state := SC_OP_READ |>) w in
    w ← wait (fun s => (sc_rtail s =? 4) || nz (sc_err s)) w;
    let w := set_sc (clear_bits SC_ALTCTL_CNTEN0 REG_SC_ALTCTL) w in
    if nz (sc_err (w_sc w)) then Some (SC_ERR_PPS, w)
    else
      r ← pps_check (w_sc w);
      Some (r, w).

(** BWT and CWT from BWI and CWI: [etu] is the content of REG_SC_ETUCTL. *)
Definition waiting_times (CWI BWI etu : Z) : option (Z * Z) :=
  k ← s32 (2 ^ BWI * 960 * 372);
  Some (2 ^ CWI + 11, u32 (11 + Z.quot k (u32 (etu + 1)))).

(** The parameters of T=1. *)
Definition set_T1 (a : ATR_t) (s : nuc970_sc) : option nuc970_sc :=
  edc ← edc_loop a t1_groups (EDC (sc_t1 s));
  tb ← first_present a TB t1_groups;
  let '(cwi, bwi) := match tb with Some v => (Z.land v 0xF, Z.shiftr v 4) | None => (13, 4) end in
  '(cwt, bwt) ← waiting_times cwi bwi (readl REG_SC_ETUCTL s);
  ta ← first_present a TA t1_groups;
  Some (s <| sc_t1 := (sc_t1 s) <| EDC := edc |> <| CWI := cwi |> <| CWT := cwt |> <| BWI := bwi |>
                        <| BWT := bwt |> <| IFSC := default 32 ta |> |>).

(** The protocol, the guard time and the waiting time of T=0. *)
Definition set_T0 (a : ATR_t) (protocol : Z) (s : nuc970_sc) : option nuc970_sc :=
  n ← ATR_GetParameter a ATR_PARAMETER_N;
  let s := s <| sc_protocol := protocol |> <| sc_N := match n with inl n => n | inr _ => sc_N s end |> in
  tc2 ← ib_at a 1 TC;
  let wi := if present tc2 =? 1 then value tc2 else 10 in
  x ← s32 (wi * 960 * sc_F s);
  let wt := u32 (Z.quot x (u32 (readl REG_SC_ETUCTL s + 1)) + 500 * sc_D s) in
  Some (s <| sc_t0 := mk_T0 wi wt |>).

Section with_config.
(** CONFIG_EMV_CHECK. *)
Variable emv : bool.

(** The PPS exchange, or in EMV mode the return to the default rate. *)
Definition negotiate_pps (a : ATR_t) (protocol pps0 pps1 : Z) (w : world) : option (Z * world) :=
  ta1 ← ib_at a 0 TA;
  ta2 ← ib_at a 1 TA;
  if emv then
    Some (0, if negb (nz (present ta2)) && nz (present ta1)
             then set_sc (fun s => s <| sc_F := 372 |> <| sc_D := 1 |>) w else w)
  else if negb (nz (present ta2)) then
    '(default_protocol, _) ← ATR_GetDefaultProtocol a;
    let p := Z.lor protocol pps0 in
    if negb (Z.land p 0x0F =? default_protocol) || nz pps1 then pps_exchange p pps1 w
    else Some (0, w)
  else Some (0, w).

Definition ATR_Parse (w : world) : option (Z * world) :=
  let a := sc_atr (w_sc w) in
  '(protocol, _) ← ATR_GetDefaultProtocol a;
  if negb ((protocol =? 0) || (protocol =? 1)) then Some (SC_ERR_ATR, w)
  else
    '(pps0, pps1, s) ← set_speed a (w_sc w);
    '(r, w) ← negotiate_pps a protocol pps0 pps1 (w <| w_sc := s |>);
    if nz r then Some (r, w)
    else
      let s := w_sc w in
      if sc_D s =? 0 then None
      else
        let s := writel (Z.quot (sc_F s) (sc_D s) - 1) REG_SC_ETUCTL s in
        s ← (if protocol =? SC_PROTOCOL_T1 then set_T1 a s else Some s);
        s ← set_T0 a protocol s;
        Some (0, w <| w_sc := s |>).

(** [parse_atr(sc, type)]; [type] is 0 after a cold and 1 after a warm reset. *)
Definition parse_atr (type : Z) (w : world) : option (Z * world) :=
  let s := w_sc w in
  '(r, a) ← ATR_InitFromArray (sc_atr s) (sc_atrbuf s) (sc_atrlen s);
  let w := w <| w_sc := s <| sc_atr := a |> |> in
  if nz r then Some (SC_ERR_ATR, w)
  else
    i ← (if emv then ATR_CheckIntegrity a type else Some 0);
    if nz i then Some (i, w)
    else
      '(i, w) ← ATR_Parse w;
      if nz i then Some (i, w)
      else
        s ← config_reader (w_sc w);
        Some (0, w <| w_sc := s |>).
End with_config.
