(* ===== verification/AtrParseSpec.v ===== *)
(** [ATR_Parse]: on every parsed answer to reset it stays within the buffers
    and ends, and on success the parameters of the reader are those the answer
    announces. *)
From S2P Require Import Prelude Checksum Atr AtrSpec ScDev ScIsr T1 T1Safe ScLink ScLinkSpec AtrParse.

Record atr_ok (a : ATR_t) : Prop := {
  ao_shape : ib_shape a;
  ao_cell : forall p k x, ib_at a p k = Some x -> cell_ok x;
}.

Lemma ao_u8 a : atr_ok a -> forall p k x, ib_at a p k = Some x -> is_u8 (value x).
Proof. intros Ha p k x Hx; by apply (ao_cell _ Ha) in Hx as [? _]. Qed.

(** ** What the interface bytes stand for

    An answer as its interface bytes: byte [k] of group [i], which counts from
    zero. *)
Definition ibytes : Type := Z -> Z -> option Z.

Definition bytes_of (a : ATR_t) : ibytes := fun i k =>
  match ib_at a i k with Some x => if nz (present x) then Some (value x) else None | None => None end.

(** The tables of ISO 7816-3 for TA1; a value that is reserved stands for none. *)
Definition iso_F (fi : Z) : option Z :=
  match fi with
  | 0 | 1 => Some 372 | 2 => Some 558 | 3 => Some 744 | 4 => Some 1116 | 5 => Some 1488 | 6 => Some 1860
  | 9 => Some 512 | 10 => Some 768 | 11 => Some 1024 | 12 => Some 1536 | 13 => Some 2048
  | _ => None
  end.

Definition iso_D (di : Z) : option Z :=
  match di with
  | 1 => Some 1 | 2 => Some 2 | 3 => Some 4 | 4 => Some 8 | 5 => Some 16 | 6 => Some 32 | 7 => Some 64 | 8 => Some 12 | 9 => Some 20
  | _ => None
  end.

Definition iso_speed (b : ibytes) : Z * Z :=
  match b 0 TA with
  | Some v => match iso_F (v / 16), iso_D (v mod 16) with Some F, Some D => (F, D) | _, _ => (372, 1) end
  | None => (372, 1)
  end.

(** In EMV mode TA1 counts only if TA2 is there. *)
Definition speed (emv : bool) (b : ibytes) : Z * Z :=
  match b 1 TA with None => if emv then (372, 1) else iso_speed b | Some _ => iso_speed b end.

(** The protocol: that of TA2, else the first that a TDi names, else T=0. *)
Definition iso_protocol (b : ibytes) : Z :=
  match b 1 TA, hd_error (omap (fun i => b i TD) [0; 1; 2; 3; 4; 5; 6]) with
  | Some v, _ | None, Some v => v mod 16
  | None, None => 0
  end.

(** The first byte of its kind among those for T=1. *)
Definition first_of (b : ibytes) (k : Z) : option Z := hd_error (omap (fun i => b i k) [2; 3; 4; 5; 6]).

(** LRC without a byte or with 0, CRC with 1; other values are reserved. *)
Definition iso_edc (b : ibytes) (edc : Z) : Prop :=
  match first_of b TC with None | Some 0 => edc = SC_CHKSUM_LRC | Some 1 => edc = SC_CHKSUM_CRC | Some _ => True end.

(** CWI and BWI are the digits of TBi, 13 and 4 without it. *)
Definition iso_CWI (b : ibytes) : Z := default 0x4D (first_of b TB) mod 16.
Definition iso_BWI (b : ibytes) : Z := default 0x4D (first_of b TB) / 16.

(** The reader is set up as the interface bytes [b] say: [etu] clocks to a bit. *)
Record setup_is (emv : bool) (b : ibytes) (s : nuc970_sc) : Prop := {
  su_protocol : sc_protocol s = iso_protocol b /\ (sc_protocol s = 0 \/ sc_protocol s = 1);
  su_speed : (sc_F s, sc_D s) = speed emv b;
  su_N : sc_N s = default 0 (b 0 TC);
  su_WI : WI (sc_t0 s) = default 10 (b 1 TC);
  su_WT : WT (sc_t0 s) = WI (sc_t0 s) * 960 * sc_F s / (sc_F s / sc_D s) + 500 * sc_D s;
  su_EDC : sc_protocol s = 1 -> iso_edc b (EDC (sc_t1 s));
  su_IFSC : sc_protocol s = 1 -> IFSC (sc_t1 s) = default 32 (first_of b TA);
  su_CWI : sc_protocol s = 1 -> CWI (sc_t1 s) = iso_CWI b /\ CWT (sc_t1 s) = 2 ^ iso_CWI b + 11;
  su_BWI : sc_protocol s = 1 -> BWI (sc_t1 s) = iso_BWI b /\ BWT (sc_t1 s) = 11 + 2 ^ iso_BWI b * 960 * 372 / (sc_F s / sc_D s);
}.

(** Only the bytes of the seven groups count. *)
Lemma setup_is_ext emv b b' s : (forall i k, 0 <= i < 7 -> 0 <= k < 4 -> b i k = b' i k) -> setup_is emv b s -> setup_is emv b' s.
Proof.
  intros H; assert (Hk : 0 <= TA < 4 /\ 0 <= TB < 4 /\ 0 <= TC < 4 /\ 0 <= TD < 4) by (unfold TA, TB, TC, TD; lia); destruct Hk as (KA & KB & KC & KD).
  assert (Hf : forall k, 0 <= k < 4 -> first_of b k = first_of b' k) by (intros k Hk; unfold first_of; cbn [omap list_omap]; by rewrite !H by lia).
  assert (Hp : iso_protocol b = iso_protocol b') by (unfold iso_protocol; cbn [omap list_omap]; by rewrite !H by lia); assert (Hs : speed emv b = speed emv b') by (unfold speed, iso_speed; by rewrite !H by lia).
  intros [H1 H2 H3 H4 H5 H6 H7 H8 H9]; unfold iso_edc, iso_CWI, iso_BWI in *; constructor; unfold iso_edc, iso_CWI, iso_BWI; rewrite <- ?Hp, <- ?Hs, <- ?Hf, <- ?H by (done || lia); done.
Qed.


(** The bytes of the cells. *)
Lemma bytes_of_at a i k x : ib_at a i k = Some x -> bytes_of a i k = if nz (present x) then Some (value x) else None.
Proof. intros H; unfold bytes_of; by rewrite H. Qed.

Lemma land_F v : Z.land v 0xF = v mod 16.
Proof. change 0xF with (Z.ones 4); by rewrite Z.land_ones. Qed.

Lemma high_digit v : is_u8 v -> Z.shiftr (Z.land v 0xF0) 4 = v / 16.
Proof. intros Hv; assert (Hs : v ∈ seqZ 0 256) by (apply elem_of_seqZ; unfold is_u8 in Hv; lia); clear Hv; revert v Hs; apply Forall_forall; repeat constructor. Qed.

Lemma s32_in x : -2147483648 <= x < 2147483648 -> s32 x = Some x.
Proof. intros; unfold s32; rewrite (proj2 (Z.leb_le _ _)), (proj2 (Z.ltb_lt _ _)) by lia; done. Qed.


Lemma iso_protocol_range b : 0 <= iso_protocol b < 16.
Proof. unfold iso_protocol; destruct (b 1 TA); [apply Z.mod_pos_bound; lia|]; destruct (hd_error _); [apply Z.mod_pos_bound; lia|lia]. Qed.






(** The tables of the code are those of ISO 7816-3, with zero for reserved. *)
Lemma f_table_iso i : 0 <= i < 16 -> rd atr_f_table i = Some (default 0 (iso_F i)).
Proof. intros Hi; assert (Hi' : i ∈ seqZ 0 16) by (apply elem_of_seqZ; lia); clear Hi; revert i Hi'; apply Forall_forall; repeat constructor. Qed.

Lemma d_table_iso i : 0 <= i < 16 -> rd atr_d_table i = Some (default 0 (iso_D i)).
Proof. intros Hi; assert (Hi' : i ∈ seqZ 0 16) by (apply elem_of_seqZ; lia); clear Hi; revert i Hi'; apply Forall_forall; repeat constructor. Qed.

Lemma iso_F_range i F : iso_F i = Some F -> 372 <= F <= 2048.
Proof. unfold iso_F; intros H; repeat case_match; try done; injection H as <-; lia. Qed.

Lemma iso_D_range i D : iso_D i = Some D -> 1 <= D <= 64.
Proof. unfold iso_D; intros H; repeat case_match; try done; injection H as <-; lia. Qed.



Lemma GetParameter_FD a x : ib_at a 0 TA = Some x -> is_u8 (value x) -> nz (present x) = true ->
  ATR_GetParameter a ATR_PARAMETER_F = Some (inl (default 0 (iso_F (value x / 16)))) /\ ATR_GetParameter a ATR_PARAMETER_D = Some (inl (default 0 (iso_D (value x mod 16)))).
Proof.
  intros Hx Hv Hp; change (ATR_GetParameter a ATR_PARAMETER_F) with
    (v ← ATR_GetIntegerValue a ATR_INTEGER_VALUE_FI;
     match v with inl FI => f ← rd atr_f_table FI; Some (@inl Z Z f) | inr _ => Some (inl ATR_DEFAULT_F) end).
  change (ATR_GetParameter a ATR_PARAMETER_D) with
    (v ← ATR_GetIntegerValue a ATR_INTEGER_VALUE_DI;
     match v with inl DI => d ← rd atr_d_table DI; Some (@inl Z Z d) | inr _ => Some (inl ATR_DEFAULT_D) end).
  unfold ATR_GetIntegerValue; cbn -[rd ib_at Z.shiftr Z.land]; rewrite Hx; cbn [mbind option_bind]; rewrite Hp; cbn [mbind option_bind]; rewrite high_digit by done; change 15 with 0xF; rewrite land_F.
  rewrite f_table_iso, d_table_iso; [done|apply Z.mod_pos_bound; lia|]; unfold is_u8 in Hv; split; [apply Z.div_pos; lia|apply Z.div_lt_upper_bound; lia].
Qed.

(** ** Speed *)
Lemma set_speed_ok a s : atr_ok a ->
  exists p0 p1, set_speed a s = Some (p0, p1, s <| sc_F := fst (iso_speed (bytes_of a)) |> <| sc_D := snd (iso_speed (bytes_of a)) |>) /\ is_u8 p1 /\ (p0 = 0 \/ p0 = 0x10).
Proof.
  intros Ha; unfold set_speed, iso_speed; destruct (ib_at_in a 0 TA (ao_shape _ Ha)) as [x Hx]; [lia | unfold TA; lia|].
  rewrite Hx, (bytes_of_at _ _ _ _ Hx); cbn [mbind option_bind]; pose proof (ao_u8 _ Ha _ _ _ Hx) as Hv; destruct (nz (present x)) eqn:Hp.
  2:{ exists 0, 0; split_and!; try done; unfold is_u8; try lia; by left. }
  destruct (GetParameter_FD a x Hx Hv Hp) as [-> ->]; cbn [mbind option_bind]; set (F := iso_F (value x / 16)); set (D := iso_D (value x mod 16)).
  assert (HF : forall v, F = Some v -> 372 <= v <= 2048) by apply iso_F_range; assert (HD : forall v, D = Some v -> 1 <= v <= 64) by apply iso_D_range; clearbody F D.
  destruct F as [F|], D as [D|]; cbn [from_option id].
  1: pose proof (HF F eq_refl); pose proof (HD D eq_refl); rewrite (proj2 (Z.eqb_neq F 0)), (proj2 (Z.eqb_neq D 0)) by lia; cbn [orb].
  2,3,4: cbn [Z.eqb orb]; rewrite ?orb_true_r.
  all: rewrite s32_in by lia; cbn [mbind option_bind fst snd]; destruct (_ <? _); eexists _, _; split_and!; try reflexivity; unfold is_u8 in *; auto; lia.
Qed.




(** ** Waiting times *)
Lemma pow2_bound n : 0 <= n <= 15 -> 1 <= 2 ^ n <= 32768.
Proof.
  intros Hn; split.
  - apply (Z.pow_le_mono_r 2 0 n); lia.
  - change 32768 with (2 ^ 15); apply Z.pow_le_mono_r; lia.
Qed.






(** ** Properties *)


(** In EMV mode there is no PPS exchange: the parameters are computed from the
    answer, and nothing else changes. *)
Definition setup_only (s s' : nuc970_sc) : Prop :=
  exists p F D N t0 t1 r, s' = s <| sc_protocol := p |> <| sc_F := F |> <| sc_D := D |> <| sc_N := N |>
    <| sc_t0 := t0 |> <| sc_t1 := t1 |> <| sc_regs := r |>.

Lemma setup_only_refl s : setup_only s s.
Proof. exists (sc_protocol s), (sc_F s), (sc_D s), (sc_N s), (sc_t0 s), (sc_t1 s), (sc_regs s); by destruct s. Qed.

Lemma setup_only_trans s1 s2 s3 : setup_only s1 s2 -> setup_only s2 s3 -> setup_only s1 s3.
Proof.
  intros (? & ? & ? & ? & ? & ? & ? & ->) (p & F & D & N & t0 & t1 & r & ->).
  by exists p, F, D, N, t0, t1, r.
Qed.

Lemma setup_only_writel v off s : (off =? REG_SC_DAT) = false -> setup_only s (writel v off s).
Proof.
  intros Ho; unfold writel; rewrite Ho.
  exists (sc_protocol s), (sc_F s), (sc_D s), (sc_N s), (sc_t0 s), (sc_t1 s); eexists; by destruct s.
Qed.

Lemma set_T1_frame a s s' : set_T1 a s = Some s' -> setup_only s s'.
Proof.
  unfold set_T1; intros H; apply bind_Some in H as (edc & _ & H); apply bind_Some in H as (tb & _ & H).
  destruct (match tb with Some v => _ | None => _ end) as [cwi bwi]; apply bind_Some in H as ([cwt bwt] & _ & H).
  apply bind_Some in H as (ta & _ & H); injection H as <-.
  eexists (sc_protocol s), (sc_F s), (sc_D s), (sc_N s), (sc_t0 s), _, (sc_regs s); reflexivity.
Qed.

Lemma set_T0_frame a p s s' : set_T0 a p s = Some s' -> setup_only s s'.
Proof.
  unfold set_T0; intros H; apply bind_Some in H as (n & _ & H); apply bind_Some in H as (tc2 & _ & H).
  apply bind_Some in H as (x & _ & H); injection H as <-.
  eexists p, (sc_F s), (sc_D s), _, _, (sc_t1 s), (sc_regs s); reflexivity.
Qed.

Lemma emv_parse_frame w w' :
  atr_ok (sc_atr (w_sc w)) -> ATR_Parse true w = Some (0, w') ->
  exists s', w' = w <| w_sc := s' |> /\ setup_only (w_sc w) s'.
Proof.
  intros Ha H; unfold ATR_Parse in H; set (a := sc_atr (w_sc w)) in *.
  apply bind_Some in H as ([p v] & _ & H); destruct (negb _); [done|].
  destruct (set_speed_ok a (w_sc w) Ha) as (p0 & p1 & Hs & _); set (F := fst (iso_speed (bytes_of a))) in Hs; set (D := snd (iso_speed (bytes_of a))) in Hs; clearbody F D; rewrite Hs in H; cbn [mbind option_bind] in H.
  set (s1 := (w_sc w) <| sc_F := F |> <| sc_D := D |>) in *.
  assert (H1 : setup_only (w_sc w) s1).
  { exists (sc_protocol (w_sc w)), F, D, (sc_N (w_sc w)), (sc_t0 (w_sc w)), (sc_t1 (w_sc w)), (sc_regs (w_sc w)); unfold s1; by destruct (w_sc w). }
  apply bind_Some in H as ([r w1] & Hn & H).
  assert (H2 : exists s2, w1 = w <| w_sc := s2 |> /\ setup_only (w_sc w) s2).
  { unfold negotiate_pps in Hn; apply bind_Some in Hn as (ta1 & _ & Hn); apply bind_Some in Hn as (ta2 & _ & Hn).
    injection Hn as _ <-; destruct (_ && _); [|by exists s1].
    exists (s1 <| sc_F := 372 |> <| sc_D := 1 |>); split; [done|]; eapply setup_only_trans; [exact H1|].
    exists (sc_protocol s1), 372, 1, (sc_N s1), (sc_t0 s1), (sc_t1 s1), (sc_regs s1); by destruct s1. }
  clear H1 Hn Hs; destruct H2 as (s2 & -> & H2); destruct (nz r) eqn:Er; [by injection H as ->|].
  change (w_sc (w <| w_sc := s2 |>)) with s2 in H; destruct (sc_D s2 =? 0); [done|].
  set (s3 := writel _ REG_SC_ETUCTL s2) in H.
  assert (H3 : setup_only s2 s3).
  { by apply setup_only_writel. }
  apply bind_Some in H as (s4 & H4 & H); apply bind_Some in H as (s5 & H5 & H); injection H as <-.
  assert (H34 : setup_only s3 s4) by (destruct (p =? SC_PROTOCOL_T1); [by eapply set_T1_frame | injection H4 as <-; apply setup_only_refl]).
  apply set_T0_frame in H5.
  exists s5; split; [done|]; eapply setup_only_trans; [exact H2|]; eapply setup_only_trans; [exact H3|].
  by eapply setup_only_trans.
Qed.

Lemma emv_parse_succeeds w r w' p v :
  ATR_GetDefaultProtocol (sc_atr (w_sc w)) = Some (p, v) -> p = 0 \/ p = 1 -> ATR_Parse true w = Some (r, w') -> r = 0.
Proof.
  intros Hp H01 H; unfold ATR_Parse in H; rewrite Hp in H; cbn [mbind option_bind] in H.
  assert (E : negb ((p =? 0) || (p =? 1)) = false) by (by destruct H01 as [-> | ->]).
  rewrite E in H; apply bind_Some in H as ([[p0 p1] s1] & _ & H); apply bind_Some in H as ([r1 w1] & Hn & H).
  unfold negotiate_pps in Hn; apply bind_Some in Hn as (ta1 & _ & Hn); apply bind_Some in Hn as (ta2 & _ & Hn).
  injection Hn as <- _; cbn [nz Z.eqb negb] in H; destruct (_ =? 0) in H; [done|].
  apply bind_Some in H as (s4 & _ & H); apply bind_Some in H as (s5 & _ & H); by injection H as <-.
Qed.


(** ** The interface bytes of a described answer *)
Fixpoint announced (g : group) (rest : list (Z * group)) (i : nat) (k : Z) : option Z :=
  match i, rest with
  | O, _ => if k =? TA then gA g else if k =? TB then gB g else if k =? TC then gC g else td_of rest
  | S i, (_, g') :: rest => announced g' rest i k
  | S _, [] => None
  end.

Definition desc_bytes (d : atr_desc) : ibytes := fun i k => announced (d_first d) (d_rest d) (Z.to_nat i) k.

(** No group behind the last has a byte: nothing is left of an earlier answer. *)
Definition nothing_left (a : ATR_t) (n : Z) : Prop := forall p k x, n < p -> ib_at a p k = Some x -> present x = 0.

Lemma groups_bytes a rest : forall g p, groups_are a p g rest -> 0 <= p -> nothing_left a (p + zlen rest) ->
  forall i k, p <= i -> 0 <= k < 4 -> bytes_of a i k = announced g rest (Z.to_nat (i - p)) k.
Proof.
  assert (Hcell : forall x o, ib_is x o -> match x with Some x => if nz (present x) then Some (value x) else None | None => None end = o) by (intros x [v|]; [intros ->; done|intros (y & -> & E); by rewrite E]).
  induction rest as [|[T g'] rest IH]; intros g p [(HA & HB & HC & HD) Hr] Hp Hn i k Hi Hk.
  all: destruct (decide (i = p)) as [->|Hne]; [rewrite Z.sub_diag; cbn [Z.to_nat announced]; unfold bytes_of; assert (Hc : k = TA \/ k = TB \/ k = TC \/ k = TD) by (unfold TA, TB, TC, TD; lia); destruct Hc as [-> | [-> | [-> | ->]]]; by apply Hcell|].
  - replace (Z.to_nat (i - p)) with (S (Z.to_nat (i - p - 1))) by lia; cbn [announced]; unfold bytes_of; destruct (ib_at a i k) as [x|] eqn:E; [|done]; rewrite zlen_nil, Z.add_0_r in Hn; by rewrite (Hn i k x ltac:(lia) E).
  - replace (Z.to_nat (i - p)) with (S (Z.to_nat (i - (p + 1)))) by lia; cbn [announced]; apply IH; try done; try lia; rewrite zlen_cons in Hn; intros q k' x Hq; apply Hn; lia.
Qed.

Lemma parsed_bytes d a : parsed d a -> nothing_left a (zlen (d_rest d)) -> forall i k, 0 <= i -> 0 <= k < 4 -> bytes_of a i k = desc_bytes d i k.
Proof. intros Hp Hn i k Hi Hk; rewrite (groups_bytes a (d_rest d) (d_first d) 0 (pd_groups _ _ Hp)) by done; by rewrite Z.sub_0_r. Qed.

Lemma ib_at_row a p k x : ib_at a p k = Some x -> exists row, row ∈ ib a /\ rd row k = Some x /\ x ∈ row.
Proof.
  unfold ib_at; intros H; apply bind_Some in H as (row & Hr & Hx); exists row.
  apply rd_Some in Hr as [_ Hr]; pose proof Hx as Hx'; apply rd_Some in Hx as [_ Hx].
  split_and!; [by eapply list_elem_of_lookup_2 | done | by eapply list_elem_of_lookup_2].
Qed.


