(* ===== verification/T0.v ===== *)
(** The T=0 transfer (sc-t0.c): the command parser [T0CmdParsing], the handling
    of procedure bytes [T0ProcACK] and [T0ProcSW1], and [CmdXfrT0]. Both callers
    pass [sc->tbuf] and [sc->rbuf] as [snd_buf] and [rcv_buf]. *)
From S2P Require Import Prelude ScDev ScIsr ScLink.

(** An unsigned value stored into an [int]. *)
Definition to_s32 (x : Z) : Z := (x + 2147483648) mod 4294967296 - 2147483648.

(** [T0CmdParsing(cmd, cmd_len, &exp_len)]: the return value and [exp_len]. *)
Definition T0CmdParsing (cmd : list Z) (cmd_len : Z) : option (Z * Z) :=
  if cmd_len <? 4 then Some (-1, 0)
  else if cmd_len =? 4 then Some (0, 2)
  else
    c4 ← rd cmd 4;
    if cmd_len =? 5 then Some (0, if nz c4 then c4 + 2 else 256 + 2)
    else if cmd_len =? c4 + 5 then Some (0, 2)
    else if cmd_len =? c4 + 6 then Some (4, 2)
    else Some (-1, 0).

(** The world and the file's receive buffer [gRx[intf]] with [gRx_offset[intf]],
    and [in_len] and [snd_len] of [CmdXfrT0]. *)
Record t0 := mk_t0 { t_w : world; t_gRx : list Z; t_goff : Z; t_in_len : Z; t_snd_len : Z }.
#[export] Instance eta_t0 : Eta t0 := fun x => mk_t0 (t_w x) (t_gRx x) (t_goff x) (t_in_len x) (t_snd_len x).

Definition t_sc (x : t0) : nuc970_sc := w_sc (t_w x).
Definition t_set (f : nuc970_sc -> nuc970_sc) (x : t0) : t0 := x <| t_w := set_sc f (t_w x) |>.

(** [sc->rlen = n; sc->state = SC_OP_READ;] and waiting for [n] bytes. *)
Definition t0_await (n : Z) (x : t0) : option t0 :=
  let x := t_set (fun s => s <| sc_rlen := n |> <| sc_state := SC_OP_READ |>) x in
  w ← wait (fun s => (sc_rlen s <=? sc_rtail s - sc_rhead s) || nz (sc_err s)) (t_w x);
  Some (x <| t_w := w |>).

Definition stop_timer : nuc970_sc -> nuc970_sc := clear_bits SC_ALTCTL_CNTEN0 REG_SC_ALTCTL.

(** Enable the transmit interrupt and wait until the bytes up to [tcnt] are sent. *)
Definition t0_send (x : t0) : option t0 :=
  let x := t_set (fun s => set_bits SC_INTEN_TBEIEN REG_SC_INTEN (s <| sc_state := SC_OP_WRITE |>)) x in
  w ← wait (fun s => sc_state s =? SC_OP_IDLE) (t_w x);
  Some (x <| t_w := w |>).

(** [T0ProcACK(intf, &in_len, proc_len, is_rcv)]. *)
Definition T0ProcACK (proc_len : Z) (is_rcv : bool) (x : t0) : option t0 :=
  if is_rcv then
    x ← t0_await (to_s32 proc_len) x;
    if nz (sc_err (t_sc x)) then Some x
    else
      g ← memcpy (t_gRx x) (t_goff x) (sc_rbuf (t_sc x)) (sc_rhead (t_sc x)) proc_len;
      let x := t_set (fun s => s <| sc_state := SC_OP_IDLE |> <| sc_rhead := to_s32 (sc_rhead s + proc_len) |>) x in
      Some (x <| t_in_len := proc_len |> <| t_gRx := g |> <| t_goff := u32 (t_goff x + proc_len) |>)
  else
    t0_send (t_set (fun s => s <| sc_tcnt := to_s32 (sc_tcnt s + proc_len) |>) x).

(** [T0ProcSW1]: SW1 was received; read SW2 and hand everything over. *)
Definition T0ProcSW1 (x : t0) : option t0 :=
  x ← t0_await 1 x;
  if nz (sc_err (t_sc x)) then Some (t_set stop_timer x)
  else
    let x := t_set (fun s => (stop_timer s) <| sc_state := SC_OP_IDLE |>) x in
    let s := t_sc x in
    a ← rd (sc_rbuf s) (sc_rtail s - 2);
    b ← rd (sc_rbuf s) (sc_rtail s - 1);
    g ← wrn (t_gRx x) (t_goff x) [a; b];
    let off := u32 (t_goff x + 2) in
    rb ← memcpy (sc_rbuf s) 0 g 0 off;
    Some (t_set (fun s => s <| sc_rbuf := rb |> <| sc_rtail := off |> <| sc_rhead := 0 |>)
            (x <| t_gRx := g |> <| t_goff := off |>)).

(** The end of a data transfer: check SW1 and hand everything over. *)
Definition t0_finish (x : t0) : option t0 :=
  let x := t_set stop_timer x in
  if nz (sc_err (t_sc x)) then Some x
  else
    b ← rd (t_gRx x) (t_goff x - 2);
    if negb (Z.land b 0xF0 =? 0x60) && negb (Z.land b 0xF0 =? 0x90)
    then Some (t_set (fun s => s <| sc_err := SC_ERR_T0 |>) x)
    else
      rb ← memcpy (sc_rbuf (t_sc x)) 0 (t_gRx x) 0 (t_goff x);
      Some (t_set (fun s => s <| sc_rtail := t_goff x |> <| sc_rhead := 0 |> <| sc_rbuf := rb |>) x).

Inductive t0_next := T0Return (x : t0) | T0Continue (x : t0).

(** Act on the procedure byte [b]. *)
Definition t0_procedure (is_rcv : bool) (exp_len ret ins b : Z) (x : t0) : option t0_next :=
  if b =? 0x60 then Some (T0Continue (x <| t_in_len := 0 |>))
  else if (b =? ins) || (b =? Z.lxor ins 0x01) then
    let x := x <| t_in_len := u32 (t_in_len x - 1) |> in
    x ← (if is_rcv then T0ProcACK (u32 (exp_len - t_goff x)) true x
         else x ← T0ProcACK (t_snd_len x) false x; Some (x <| t_in_len := 0 |>));
    if (t_goff x =? exp_len) || nz (sc_err (t_sc x)) then x ← t0_finish x; Some (T0Return x)
    else Some (T0Continue x)
  else if (b =? Z.lxor ins 0xFF) || (b =? Z.lxor ins 0xFE) then
    x ← T0ProcACK 1 is_rcv (if is_rcv then x else x <| t_snd_len := u32 (t_snd_len x - 1) |>);
    if nz (sc_err (t_sc x)) then Some (T0Return (t_set stop_timer x))
    else Some (T0Continue (x <| t_in_len := 0 |>))
  else if (Z.land b 0xF0 =? 0x60) || (Z.land b 0xF0 =? 0x90) then
    x ← T0ProcSW1 x; Some (T0Return x)
  else Some (T0Return (t_set stop_timer (t_set (fun s => s <| sc_err := SC_ERR_T0 |>) x))).

(** One pass over the loop of [CmdXfrT0]; [p] is the index of [in_buf] in
    [rbuf], and [ret] the return value of the command parser. *)
Definition t0_turn (is_rcv : bool) (exp_len ret ins : Z) (p : Z) (x : t0) : option (Z * t0_next) :=
  if t_in_len x =? 0 then
    x ← t0_await 1 x;
    if nz (sc_err (t_sc x)) then Some (p, T0Return (t_set stop_timer (x <| t_in_len := 1 |>)))
    else
      let p := sc_rhead (t_sc x) in
      let x := t_set (fun s => s <| sc_rhead := sc_rhead s + 1 |>) (x <| t_in_len := ret |>) in
      b ← rd (sc_rbuf (t_sc x)) p;
      r ← t0_procedure is_rcv exp_len ret ins b x; Some (p, r)
  else
    b ← rd (sc_rbuf (t_sc x)) p;
    r ← t0_procedure is_rcv exp_len ret ins b x; Some (p, r).

Fixpoint t0_loop (fuel : nat) (is_rcv : bool) (exp_len ret ins p : Z) (x : t0) : option t0_next :=
  match fuel with
  | O => Some (T0Continue x)
  | S fuel =>
      '(p, r) ← t0_turn is_rcv exp_len ret ins p x;
      match r with
      | T0Return x => Some (T0Return x)
      | T0Continue x => t0_loop fuel is_rcv exp_len ret ins p x
      end
  end.

(** [CmdXfrT0] within [fuel] procedure bytes. *)
Definition CmdXfrT0 (fuel : nat) (w : world) (gRx : list Z) (snd_len : Z) : option t0_next :=
  let x := mk_t0 w gRx 0 0 snd_len in
  '(ret, exp_len) ← T0CmdParsing (sc_tbuf (w_sc w)) snd_len;
  if ret <? 0 then Some (T0Return (t_set (fun s => s <| sc_err := SC_ERR_T0 |>) x))
  else
    let snd_len := if ret =? 4 then u32 (snd_len - 1) else snd_len in
    let is_rcv := (snd_len =? 5) || (snd_len =? 4) in
    let snd_len := if snd_len =? 4 then snd_len - 4 else u32 (snd_len - 5) in
    ins ← rd (sc_tbuf (w_sc w)) 1;
    if (Z.land ins 0xF0 =? 0x60) || (Z.land ins 0xF0 =? 0x90)
    then Some (T0Return (t_set (fun s => s <| sc_err := SC_ERR_T0 |>) x))
    else
      let x := t_set (fun s =>
        let s := writel (Z.lor (WT (sc_t0 s)) SC_TMR_MODE_7) REG_SC_TMRCTL0 s in
        let s := set_bits SC_ALTCTL_CNTEN0 REG_SC_ALTCTL s in
        s <| sc_tcnt := 5 |>) (x <| t_snd_len := snd_len |>) in
      x ← t0_send x;
      if nz (sc_err (t_sc x)) then Some (T0Return x)
      else t0_loop fuel is_rcv exp_len ret ins 0 x.
