(* ===== verification/T0Spec.v ===== *)
(** T=0: the command parser recognises the four cases of ISO 7816-3, and
    [CmdXfrT0] carries out a command: it sends header and data, follows the
    procedure bytes of the card, and hands over the response. *)
From S2P Require Import Prelude Checksum Atr ScDev ScIsr T1 ScLink ScLinkSpec T0.

(** ** Commands *)
Record apdu := mk_apdu { a_cla : Z; a_ins : Z; a_p1 : Z; a_p2 : Z; a_data : list Z; a_le : option Z }.

Definition apdu_bytes (a : apdu) : list Z :=
  [a_cla a; a_ins a; a_p1 a; a_p2 a] ++
  (match a_data a with [] => [] | d => zlen d :: d end) ++
  (match a_le a with Some le => [le] | None => [] end).

Definition apdu_wf (a : apdu) : Prop :=
  zlen (a_data a) <= 255 /\ match a_le a with Some le => is_u8 le | None => True end.

(** The number of bytes the card's answer has in each case. *)
Definition apdu_expects (a : apdu) : Z :=
  match a_data a, a_le a with
  | [], Some le => (if le =? 0 then 256 else le) + 2
  | _, _ => 2
  end.

Lemma parse_apdu a junk :
  apdu_wf a ->
  T0CmdParsing (apdu_bytes a ++ junk) (zlen (apdu_bytes a)) =
    Some (match a_data a, a_le a with _ :: _, Some _ => 4 | _, _ => 0 end, apdu_expects a).
Proof.
  intros [Hd Hle]; unfold T0CmdParsing, apdu_bytes, apdu_expects.
  destruct (a_data a) as [|d0 d]; destruct (a_le a) as [le|].
  - change (rd (([a_cla a; a_ins a; a_p1 a; a_p2 a] ++ [] ++ [le]) ++ junk) 4) with (Some le).
    change (zlen ([a_cla a; a_ins a; a_p1 a; a_p2 a] ++ [] ++ [le])) with 5.
    cbn [mbind option_bind Z.ltb Z.eqb Z.compare Pos.compare Pos.compare_cont Pos.eqb]; unfold nz; by destruct (le =? 0).
  - done.
  - change (rd (([a_cla a; a_ins a; a_p1 a; a_p2 a] ++ (zlen (d0 :: d) :: d0 :: d) ++ [le]) ++ junk) 4) with (Some (zlen (d0 :: d))).
    zlen_simpl; pose proof (zlen_nonneg d); cbn [mbind option_bind].
    rewrite (proj2 (Z.ltb_ge _ 4)), !(proj2 (Z.eqb_neq _ _)), (proj2 (Z.eqb_eq _ _)) by lia; done.
  - change (rd (([a_cla a; a_ins a; a_p1 a; a_p2 a] ++ (zlen (d0 :: d) :: d0 :: d) ++ []) ++ junk) 4) with (Some (zlen (d0 :: d))).
    zlen_simpl; pose proof (zlen_nonneg d); cbn [mbind option_bind].
    rewrite (proj2 (Z.ltb_ge _ 4)), (proj2 (Z.eqb_neq _ 4)), (proj2 (Z.eqb_neq _ 5)), (proj2 (Z.eqb_eq _ _)) by lia; done.
Qed.

(** the command parser classifies every short command of ISO 7816-3: it
    returns the number of bytes to expect, 4 exactly when the command has both
    data and Le (whose Le is not sent), and 0 in the other cases. *)
Theorem T0CmdParsing_apdu a junk :
  apdu_wf a ->
  T0CmdParsing (apdu_bytes a ++ junk) (zlen (apdu_bytes a)) =
    Some (match a_data a, a_le a with _ :: _, Some _ => 4 | _, _ => 0 end, apdu_expects a).
Proof. apply parse_apdu. Qed.

Lemma T0CmdParsing_apdu_witness :
  T0CmdParsing (apdu_bytes (mk_apdu 0 0xA4 4 0 [0xA0; 0; 0] (Some 0)) ++ replicate 291 0) 9 = Some (4, 2).
Proof. apply (T0CmdParsing_apdu (mk_apdu 0 0xA4 4 0 [0xA0; 0; 0] (Some 0)) (replicate 291 0)). split; unfold is_u8; vm_compute; intuition congruence. Defined.

(** ** Receiving a known number of bytes *)
(** What is in a buffer, from its prefix. *)
Lemma rdn_prefix {A} (b p q : list A) n :
  slice b 0 n = p ++ q -> 0 <= n <= zlen b -> rdn b (zlen p) (zlen q) = Some q.
Proof.
  intros Hs Hn; assert (Hl : zlen p + zlen q = n) by (rewrite <- zlen_app, <- Hs, slice_len; lia).
  pose proof (zlen_nonneg p); pose proof (zlen_nonneg q).
  rewrite rdn_in by lia; f_equal.
  rewrite <- Hl, slice_app_split in Hs by lia; rewrite Z.add_0_l in Hs.
  apply app_inj_1 in Hs as [_ Hs]; [done|].
  pose proof (slice_len b 0 (zlen p)); unfold zlen in *; lia.
Qed.

Lemma rd_prefix {A} (b p : list A) n i :
  slice b 0 n = p -> 0 <= n <= zlen b -> 0 <= i < n -> rd b i = rd p i.
Proof.
  intros <- Hn Hi; unfold rd; destruct (0 <=? i); [|done].
  unfold slice; rewrite drop_0, lookup_take_lt by lia; done.
Qed.

(** Between two steps of a transfer: no error, everything received is consumed. *)
Record idle_ok (s : nuc970_sc) : Prop := {
  i_dev : dev_ok s;
  i_err : sc_err s = 0;
  i_head : sc_rhead s = sc_rtail s;
  i_room : sc_rtail s <= MAX_LEN;
}.

Lemma t0_await_spec bs rest v s gRx goff il sl :
  idle_ok s -> Forall is_u8 bs -> sc_rtail s + zlen bs <= MAX_LEN ->
  exists s', t0_await (zlen bs) (mk_t0 (mk_world (rx_evs bs ++ rest) v s) gRx goff il sl) =
      Some (mk_t0 (mk_world rest v s') gRx goff il sl) /\
    dev_ok s' /\ sc_err s' = 0 /\ sc_rhead s' = sc_rtail s /\ sc_rtail s' = sc_rtail s + zlen bs /\
    sc_sent s' = sc_sent s /\ tx_same s s' /\
    rdn (sc_rbuf s') (sc_rtail s) (zlen bs) = Some bs /\
    (forall i, 0 <= i < sc_rtail s -> rd (sc_rbuf s') i = rd (sc_rbuf s) i).
Proof.
  intros [Hd He Hh Hr] H8 Hm; unfold t0_await; set (n := zlen bs).
  set (s1 := s <| sc_rlen := n |> <| sc_state := SC_OP_READ |>).
  change (t_w (t_set _ _)) with (mk_world (rx_evs bs ++ rest) v s1); unfold wait; cbn [w_evs w_var w_sc].
  assert (Hd1 : dev_ok s1) by (destruct Hd; by split).
  destruct (rx_wait (fun s => (sc_rlen s <=? sc_rtail s - sc_rhead s) || nz (sc_err s)) (sc_rtail s + n) bs rest v s1)
    as (s' & Hw & Hd' & _ & He' & Hse & Hrt & (_ & _ & Hrh & _) & Htx & Hsl); try done.
  { intros s' -> Hrl Hrh Hle; rewrite orb_false_r, Hrl, Hrh; change (sc_rlen s1) with n; change (sc_rhead s1) with (sc_rhead s).
    rewrite Hh; destruct (_ =? _) eqn:?; zbool; [apply Z.leb_le | apply Z.leb_gt]; lia. }
  unfold rx_evs; rewrite Hw; cbn [mbind option_bind]; exists s'; split; [done|].
  pose proof (zlen_nonneg bs); pose proof (d_rtail _ Hd) as H0.
  change (sc_rbuf s1) with (sc_rbuf s) in Hsl; change (sc_rtail s1) with (sc_rtail s) in Hsl.
  assert (Hp : zlen (slice (sc_rbuf s) 0 (sc_rtail s)) = sc_rtail s) by (rewrite slice_len; rewrite ?(d_rbuf _ Hd); lia).
  split_and!; try done.
  - by rewrite Hrh.
  - rewrite <- Hp; apply (rdn_prefix _ _ _ (sc_rtail s + n)); [done | rewrite (d_rbuf _ Hd'); lia].
  - intros i Hi; rewrite (rd_prefix _ _ _ i Hsl); [|rewrite (d_rbuf _ Hd'); lia | lia].
    rewrite rd_app_l by lia; symmetry; apply (rd_prefix _ _ (sc_rtail s)); [done | rewrite (d_rbuf _ Hd); lia | done].
Qed.

Lemma rdn_1 {A} (b : list A) i x : rdn b i (zlen [x]) = Some [x] -> rd b i = Some x.
Proof.
  intros (Hi & _ & Hn & Hs)%rdn_Some; rewrite zlen_cons, zlen_nil in Hn.
  apply rd_Some; split; [done|]; unfold slice in Hs.
  assert (Hl : take (Z.to_nat (zlen [x])) (drop (Z.to_nat i) b) !! 0%nat = Some x) by (by rewrite <- Hs).
  rewrite lookup_take_lt, lookup_drop, Nat.add_0_r in Hl; [done | rewrite zlen_to_nat; simpl; lia].
Qed.

(** ** Steps of a dialogue *)

(** A procedure byte is read and consumed. *)
Lemma t0_turn_byte is_rcv exp_len ret ins p b rest v s gRx goff sl :
  idle_ok s -> is_u8 b -> sc_rtail s + 1 <= MAX_LEN ->
  exists s', t0_turn is_rcv exp_len ret ins p (mk_t0 (mk_world (rx_evs [b] ++ rest) v s) gRx goff 0 sl) =
      (r ← t0_procedure is_rcv exp_len ret ins b (mk_t0 (mk_world rest v s') gRx goff ret sl); Some (sc_rtail s, r)) /\
    idle_ok s' /\ sc_rtail s' = sc_rtail s + 1 /\ sc_sent s' = sc_sent s /\ tx_same s s' /\
    rd (sc_rbuf s') (sc_rtail s) = Some b.
Proof.
  intros Hi Hb Hm; unfold t0_turn; cbn [t_in_len Z.eqb].
  destruct (t0_await_spec [b] rest v s gRx goff 0 sl Hi) as (s1 & Ha & Hd1 & He1 & Hrh1 & Hrt1 & Hse1 & Htx1 & Hrd1 & _);
    [by apply Forall_singleton | done |].
  change (t0_await 1) with (t0_await (zlen [b])); rewrite Ha; apply rdn_1 in Hrd1.
  cbn [mbind option_bind]; change (t_sc (mk_t0 (mk_world rest v s1) gRx goff 0 sl)) with s1; rewrite He1; cbn [nz Z.eqb negb].
  set (s2 := s1 <| sc_rhead := sc_rhead s1 + 1 |>).
  cbv zeta; change (t_set _ _) with (mk_t0 (mk_world rest v s2) gRx goff ret sl).
  change (sc_rbuf (t_sc (mk_t0 (mk_world rest v s2) gRx goff ret sl))) with (sc_rbuf s1); rewrite Hrh1, Hrd1.
  cbn [mbind option_bind]; exists s2; split; [done|]; split_and!; try done.
  change (zlen [b]) with 1 in Hrt1.
  split; [destruct Hd1; by split | done | |].
  - change (sc_rhead s1 + 1 = sc_rtail s1); lia.
  - change (sc_rtail s1 <= MAX_LEN); lia.
Qed.

(** The kind of a procedure byte: NULL, ACK for all bytes, ACK for one byte,
    SW1, or none of these. *)
Definition proc_class (ins b : Z) : Z :=
  if b =? 0x60 then 0
  else if (b =? ins) || (b =? Z.lxor ins 0x01) then 1
  else if (b =? Z.lxor ins 0xFF) || (b =? Z.lxor ins 0xFE) then 2
  else if (Z.land b 0xF0 =? 0x60) || (Z.land b 0xF0 =? 0x90) then 3 else 4.

Definition status (b : Z) : bool := (Z.land b 0xF0 =? 0x60) || (Z.land b 0xF0 =? 0x90).
Definition ins_ok (ins : Z) : Prop := is_u8 ins /\ status ins = false.
Definition sw1_ok (b : Z) : Prop := is_u8 b /\ b <> 0x60 /\ status b = true.

(** The two encodings of an ACK differ in the request for programming voltage. *)
Definition ack_all (ins : Z) (vpp : bool) : Z := Z.lxor ins (if vpp then 0x01 else 0x00).
Definition ack_one (ins : Z) (vpp : bool) : Z := Z.lxor ins (if vpp then 0xFE else 0xFF).

Definition u8s : list Z := seqZ 0 256.

Lemma u8s_forall (f : Z -> bool) x : forallb f u8s = true -> is_u8 x -> f x = true.
Proof. rewrite forallb_forall; intros Hf Hx; apply Hf, list_elem_of_In, elem_of_seqZ; unfold is_u8 in Hx; lia. Qed.

Lemma class_ack_all ins vpp : ins_ok ins -> proc_class ins (ack_all ins vpp) = 1.
Proof.
  intros [H8 Hs]; apply Z.eqb_eq.
  pose proof (u8s_forall (fun ins => status ins || forallb (fun v => proc_class ins (ack_all ins v) =? 1) [true; false]) ins eq_refl H8) as H.
  cbn beta in H; rewrite Hs in H; cbn [forallb orb] in H; destruct vpp; zbool; by apply Z.eqb_eq.
Qed.

Lemma class_ack_one ins vpp : ins_ok ins -> proc_class ins (ack_one ins vpp) = 2.
Proof.
  intros [H8 Hs]; apply Z.eqb_eq.
  pose proof (u8s_forall (fun ins => status ins || forallb (fun v => proc_class ins (ack_one ins v) =? 2) [true; false]) ins eq_refl H8) as H.
  cbn beta in H; rewrite Hs in H; cbn [forallb orb] in H; destruct vpp; zbool; by apply Z.eqb_eq.
Qed.

Lemma class_sw1_all :
  forallb (fun ins => status ins ||
    forallb (fun b => (b =? 0x60) || negb (status b) || (proc_class ins b =? 3)) u8s) u8s = true.
Proof. vm_compute; reflexivity. Qed.

Lemma class_sw1 ins b : ins_ok ins -> sw1_ok b -> proc_class ins b = 3.
Proof.
  intros [H8 Hs] (Hb & Hne & Hst); apply Z.eqb_eq.
  pose proof (u8s_forall _ ins class_sw1_all H8) as H; cbn beta in H; rewrite Hs in H; cbn [orb] in H.
  pose proof (u8s_forall _ b H Hb) as Hc; cbn beta in Hc.
  by rewrite (proj2 (Z.eqb_neq _ _) Hne), Hst in Hc.
Qed.

Lemma ack_all_u8 ins vpp : is_u8 ins -> is_u8 (ack_all ins vpp).
Proof. intros; apply u8_lxor; [done | destruct vpp; unfold is_u8; lia]. Qed.

Lemma ack_one_u8 ins vpp : is_u8 ins -> is_u8 (ack_one ins vpp).
Proof. intros; apply u8_lxor; [done | destruct vpp; unfold is_u8; lia]. Qed.

(** [t0_procedure] follows the kind of the byte. *)
Lemma t0_procedure_class is_rcv exp_len ret ins b x :
  t0_procedure is_rcv exp_len ret ins b x =
  let c := proc_class ins b in
  if c =? 0 then Some (T0Continue (x <| t_in_len := 0 |>))
  else if c =? 1 then
    let x := x <| t_in_len := u32 (t_in_len x - 1) |> in
    x ← (if is_rcv then T0ProcACK (u32 (exp_len - t_goff x)) true x
         else x ← T0ProcACK (t_snd_len x) false x; Some (x <| t_in_len := 0 |>));
    if (t_goff x =? exp_len) || nz (sc_err (t_sc x)) then x ← t0_finish x; Some (T0Return x)
    else Some (T0Continue x)
  else if c =? 2 then
    x ← T0ProcACK 1 is_rcv (if is_rcv then x else x <| t_snd_len := u32 (t_snd_len x - 1) |>);
    if nz (sc_err (t_sc x)) then Some (T0Return (t_set stop_timer x))
    else Some (T0Continue (x <| t_in_len := 0 |>))
  else if c =? 3 then x ← T0ProcSW1 x; Some (T0Return x)
  else Some (T0Return (t_set stop_timer (t_set (fun s => s <| sc_err := SC_ERR_T0 |>) x))).
Proof.
  unfold t0_procedure, proc_class.
  destruct (b =? 0x60); [done|]; destruct ((b =? ins) || _); [done|].
  destruct ((b =? Z.lxor ins 0xFF) || _); [done|]; by destruct ((Z.land b 0xF0 =? 0x60) || _).
Qed.

(** A turn on a NULL byte waits for the next one. *)
Lemma turn_null is_rcv exp_len ret ins p rest v s gRx goff sl :
  idle_ok s -> sc_rtail s + 1 <= MAX_LEN ->
  exists s', t0_turn is_rcv exp_len ret ins p (mk_t0 (mk_world (rx_evs [0x60] ++ rest) v s) gRx goff 0 sl) =
      Some (sc_rtail s, T0Continue (mk_t0 (mk_world rest v s') gRx goff 0 sl)) /\
    idle_ok s' /\ sc_rtail s' = sc_rtail s + 1 /\ sc_sent s' = sc_sent s /\ tx_same s s'.
Proof.
  intros Hi Hm; destruct (t0_turn_byte is_rcv exp_len ret ins p 0x60 rest v s gRx goff sl Hi) as (s1 & -> & Hi1 & Hrt & Hse & Htx & _);
    [unfold is_u8; lia | done|].
  rewrite t0_procedure_class; change (proc_class ins 0x60) with 0; cbv zeta; cbn [Z.eqb mbind option_bind]; by exists s1.
Qed.

(** Bytes of the answer are read into [gRx] after what is there already. *)
Lemma T0ProcACK_receives bs rest v s acc junk il sl :
  idle_ok s -> Forall is_u8 bs -> sc_rtail s + zlen bs <= MAX_LEN -> zlen bs <= zlen junk -> zlen (acc ++ junk) = 300 ->
  exists s', T0ProcACK (zlen bs) true (mk_t0 (mk_world (rx_evs bs ++ rest) v s) (acc ++ junk) (zlen acc) il sl) =
      Some (mk_t0 (mk_world rest v s') ((acc ++ bs) ++ drop (length bs) junk) (zlen (acc ++ bs)) (zlen bs) sl) /\
    idle_ok s' /\ sc_rtail s' = sc_rtail s + zlen bs /\ sc_sent s' = sc_sent s /\ tx_same s s'.
Proof.
  intros Hi H8 Hm Hj Hl; pose proof (zlen_nonneg bs); pose proof (d_rtail _ (i_dev _ Hi)).
  assert (Hs32 : forall x, 0 <= x <= 300 -> to_s32 x = x) by (intros; unfold to_s32; rewrite Z.mod_small; lia).
  unfold MAX_LEN in *; unfold T0ProcACK; rewrite Hs32 by lia.
  destruct (t0_await_spec bs rest v s (acc ++ junk) (zlen acc) il sl Hi H8 Hm)
    as (s1 & -> & Hd1 & He1 & Hrh1 & Hrt1 & Hse1 & Htx1 & Hrd1 & _).
  cbn [mbind option_bind]; change (t_sc (mk_t0 (mk_world rest v s1) (acc ++ junk) (zlen acc) il sl)) with s1.
  rewrite He1; cbn [nz Z.eqb negb t_gRx t_goff]; unfold memcpy; rewrite Hrh1, Hrd1; cbn [mbind option_bind].
  rewrite wrn_app by done; cbn [mbind option_bind].
  set (s2 := s1 <| sc_state := SC_OP_IDLE |> <| sc_rhead := to_s32 (sc_rhead s1 + zlen bs) |>).
  zlen_simpl; pose proof (zlen_nonneg acc); pose proof (zlen_nonneg junk).
  cbv zeta; replace (zlen acc + zlen bs) with (u32 (zlen acc + zlen bs)) by (apply u32_id; lia).
  exists s2; split; [done|]; split_and!; try done.
  split; [destruct Hd1; by split | done | |].
  - change (to_s32 (sc_rhead s1 + zlen bs) = sc_rtail s1); rewrite Hs32 by lia; lia.
  - change (sc_rtail s1 <= MAX_LEN); unfold MAX_LEN; lia.
Qed.

(** Bytes of the command are sent from [tbuf]. *)
Lemma T0ProcACK_sends n k rest v s gRx goff il sl :
  idle_ok s -> sc_toffset s = sc_tcnt s -> 0 < n -> sc_tcnt s + n <= MAX_LEN -> 4 * (Z.of_nat k - 1) < n <= 4 * Z.of_nat k ->
  exists s', T0ProcACK n false (mk_t0 (mk_world (replicate k (Irq tx_irq) ++ rest) v s) gRx goff il sl) =
      Some (mk_t0 (mk_world rest v s') gRx goff il sl) /\
    idle_ok s' /\ sc_rtail s' = sc_rtail s /\ sc_sent s' = sc_sent s ++ slice (sc_tbuf s) (sc_tcnt s) n /\
    sc_tbuf s' = sc_tbuf s /\ sc_tcnt s' = sc_tcnt s + n /\ sc_toffset s' = sc_tcnt s + n.
Proof.
  intros [Hd He Hh Hr] Hto Hn Hm Hk; pose proof (d_tx _ Hd); unfold MAX_LEN in *.
  assert (Hs32 : to_s32 (sc_tcnt s + n) = sc_tcnt s + n) by (unfold to_s32; rewrite Z.mod_small; lia).
  unfold T0ProcACK, t0_send.
  set (s1 := set_bits SC_INTEN_TBEIEN REG_SC_INTEN
    ((s <| sc_tcnt := to_s32 (sc_tcnt s + n) |>) <| sc_state := SC_OP_WRITE |>)).
  cbv zeta; match goal with |- context [wait _ ?w] => change w with (mk_world (replicate k (Irq tx_irq) ++ rest) v s1) end.
  unfold wait; cbn [w_evs w_var w_sc].
  assert (Hd1 : dev_ok s1).
  { destruct Hd; split; try done; change (sc_tcnt s1) with (to_s32 (sc_tcnt s + n)); change (sc_toffset s1) with (sc_toffset s);
      rewrite Hs32; unfold MAX_LEN; lia. }
  destruct (tx_wait k rest v s1) as (s2 & -> & Hd2 & _ & Hse2 & Hrt2 & He2 & (_ & _ & Hrh2 & _) & Htb2 & Htc2 & Hto2 & _);
    try done; change (sc_tcnt s1) with (to_s32 (sc_tcnt s + n)) in *; change (sc_toffset s1) with (sc_toffset s) in *;
    rewrite ?Hs32, ?Hto in *; try lia.
  cbn [mbind option_bind]; exists s2; split; [done|]; split_and!; try congruence.
  - split; [done | by rewrite He2 | by rewrite Hrh2, Hrt2 | by rewrite Hrt2].
  - done.
  - rewrite Hse2; change (sc_sent s1) with (sc_sent s); change (sc_tbuf s1) with (sc_tbuf s); f_equal; f_equal; lia.
  - done.
Qed.

(** The card's status: SW1 was read, SW2 follows, and everything is handed over. *)
Record delivered (resp sent : list Z) (tcnt : Z) (rest : list event) (v : atr_vars) (x : t0) : Prop := {
  v_evs : w_evs (t_w x) = rest /\ w_var (t_w x) = v;
  v_err : sc_err (t_sc x) = 0;
  v_head : sc_rhead (t_sc x) = 0;
  v_tail : sc_rtail (t_sc x) = zlen resp;
  v_rbuf : zlen (sc_rbuf (t_sc x)) = MAX_LEN;
  v_resp : slice (sc_rbuf (t_sc x)) 0 (zlen resp) = resp;
  v_sent : sc_sent (t_sc x) = sent;
  v_tcnt : sc_tcnt (t_sc x) = tcnt;
}.

Lemma slice_app_drop {A} (p q : list A) n : slice (p ++ q) 0 (zlen p) ++ n = p ++ n.
Proof. by rewrite slice_app_prefix. Qed.

Lemma T0ProcSW1_delivers sw1 sw2 rest v s acc junk il sl :
  idle_ok s -> 1 <= sc_rtail s -> sc_rtail s + 1 <= MAX_LEN -> rd (sc_rbuf s) (sc_rtail s - 1) = Some sw1 -> is_u8 sw2 ->
  2 <= zlen junk -> zlen (acc ++ junk) = 300 ->
  exists x, T0ProcSW1 (mk_t0 (mk_world (rx_evs [sw2] ++ rest) v s) (acc ++ junk) (zlen acc) il sl) = Some x /\
    delivered (acc ++ [sw1; sw2]) (sc_sent s) (sc_tcnt s) rest v x.
Proof.
  intros Hi H1 Hm Hsw1 H8 Hj Hl; unfold T0ProcSW1.
  destruct (t0_await_spec [sw2] rest v s (acc ++ junk) (zlen acc) il sl Hi)
    as (s1 & Ha & Hd1 & He1 & Hrh1 & Hrt1 & Hse1 & Htx1 & Hrd1 & Hold); [by apply Forall_singleton | done |].
  change (t0_await 1) with (t0_await (zlen [sw2])); rewrite Ha; cbn [mbind option_bind]; apply rdn_1 in Hrd1.
  change (t_sc (mk_t0 (mk_world rest v s1) (acc ++ junk) (zlen acc) il sl)) with s1.
  rewrite He1; cbn [nz Z.eqb negb]; cbv zeta; change (zlen [sw2]) with 1 in Hrt1.
  set (s2 := (stop_timer s1) <| sc_state := SC_OP_IDLE |>).
  change (t_set _ (mk_t0 _ _ _ _ _)) with (mk_t0 (mk_world rest v s2) (acc ++ junk) (zlen acc) il sl).
  change (t_sc (mk_t0 (mk_world rest v s2) (acc ++ junk) (zlen acc) il sl)) with s2.
  change (sc_rbuf s2) with (sc_rbuf s1); change (sc_rtail s2) with (sc_rtail s1); rewrite Hrt1.
  replace (sc_rtail s + 1 - 2) with (sc_rtail s - 1) by lia; replace (sc_rtail s + 1 - 1) with (sc_rtail s) by lia.
  rewrite (Hold (sc_rtail s - 1)), Hsw1, Hrd1 by lia; cbn [mbind option_bind t_gRx t_goff].
  rewrite wrn_app by done; cbn [mbind option_bind]; zlen_simpl; pose proof (zlen_nonneg acc); pose proof (zlen_nonneg junk).
  rewrite u32_id by lia; assert (Hn : zlen (acc ++ [sw1; sw2]) = zlen acc + 2) by (zlen_simpl; lia).
  rewrite <- Hn; unfold memcpy; rewrite rdn_in by (zlen_simpl; lia); cbn [mbind option_bind]; rewrite slice_app_prefix.
  rewrite wrn_0 by (rewrite Hn, (d_rbuf _ Hd1); unfold MAX_LEN in *; lia); cbn [mbind option_bind].
  destruct Htx1 as (_ & Htc1 & _); eexists; split; [reflexivity|]; split; try done; [|apply slice_app_prefix].
  cbn -[app zlen drop]; rewrite zlen_app, zlen_drop, Hn, (d_rbuf _ Hd1); unfold MAX_LEN, zlen in *; lia.
Qed.

(** ** Dialogues in which the card sends the data

    What the card sends after the header: NULL bytes and single data bytes,
    then either the rest of the data or nothing, then SW1 and SW2. *)
Inductive rx_step := RNull | ROne (vpp : bool) (b : Z).
Inductive rx_end := RAll (vpp : bool) (l : list Z) | RStop.

Definition step_bytes (ins : Z) (st : rx_step) : list Z :=
  match st with RNull => [0x60] | ROne vpp b => [ack_one ins vpp; b] end.
Definition step_data (st : rx_step) : list Z := match st with RNull => [] | ROne _ b => [b] end.
Definition end_bytes (ins : Z) (e : rx_end) : list Z :=
  match e with RAll vpp l => ack_all ins vpp :: l | RStop => [] end.
Definition end_data (e : rx_end) : list Z := match e with RAll _ l => l | RStop => [] end.

(** The bytes on the wire, and the data among them. *)
Definition rx_wire (ins : Z) (steps : list rx_step) (e : rx_end) (sw1 sw2 : Z) : list Z :=
  concat (map (step_bytes ins) steps) ++ end_bytes ins e ++ [sw1; sw2].
Definition rx_data (steps : list rx_step) (e : rx_end) : list Z := concat (map step_data steps) ++ end_data e.

Definition steps_ok (steps : list rx_step) : Prop := Forall (fun st => Forall is_u8 (step_data st)) steps.

Lemma bytes_ge_data ins steps : zlen (concat (map step_data steps)) <= zlen (concat (map (step_bytes ins) steps)).
Proof. induction steps as [|[|vpp b] steps IH]; cbn [map concat step_data step_bytes app]; zlen_simpl; lia. Qed.

(** The state between two steps: [acc] is in [gRx]. *)
Lemma rx_steps_ok ins exp_len ret steps fuel p rest v s acc junk sl :
  ins_ok ins -> steps_ok steps -> idle_ok s ->
  sc_rtail s + zlen (concat (map (step_bytes ins) steps)) <= MAX_LEN ->
  zlen (concat (map step_data steps)) <= zlen junk -> zlen (acc ++ junk) = 300 ->
  exists p' s' junk',
    t0_loop (length steps + fuel) true exp_len ret ins p
      (mk_t0 (mk_world (rx_evs (concat (map (step_bytes ins) steps)) ++ rest) v s) (acc ++ junk) (zlen acc) 0 sl) =
    t0_loop fuel true exp_len ret ins p'
      (mk_t0 (mk_world rest v s') ((acc ++ concat (map step_data steps)) ++ junk') (zlen (acc ++ concat (map step_data steps))) 0 sl) /\
    idle_ok s' /\ sc_rtail s' = sc_rtail s + zlen (concat (map (step_bytes ins) steps)) /\ sc_sent s' = sc_sent s /\ sc_tcnt s' = sc_tcnt s /\
    zlen ((acc ++ concat (map step_data steps)) ++ junk') = 300.
Proof.
  intros Hins; revert p s acc junk; induction steps as [|st steps IH]; intros p s acc junk Hok Hi Hm Hj Hl.
  - exists p, s, junk; cbn [map concat app length Nat.add rx_evs]; rewrite app_nil_r; split_and!; try done; zlen_simpl; lia.
  - apply Forall_cons in Hok as [Hst Hok]; cbn [map concat length Nat.add t0_loop] in *; zlen_simpl.
    rewrite rx_evs_app, <- app_assoc.
    pose proof (zlen_nonneg (concat (map (step_bytes ins) steps))); pose proof (zlen_nonneg (concat (map step_data steps))).
    destruct st as [|vpp b]; cbn [step_bytes step_data app] in *; zlen_simpl.
    + destruct (turn_null true exp_len ret ins p (rx_evs (concat (map (step_bytes ins) steps)) ++ rest) v s (acc ++ junk) (zlen acc) sl Hi)
        as (s1 & -> & Hi1 & Hrt1 & Hse1 & (_ & Htc1 & _)); [lia|]; cbn [mbind option_bind].
      destruct (IH (sc_rtail s) s1 acc junk) as (p' & s' & junk' & -> & Hi' & Hrt' & Hse' & Htc' & Hl'); try done; zlen_simpl; try lia.
      exists p', s', junk'; split_and!; try done; zlen_simpl; congruence || lia.
    + change (rx_evs [ack_one ins vpp; b]) with (rx_evs [ack_one ins vpp] ++ rx_evs [b]); rewrite <- app_assoc.
      destruct (t0_turn_byte true exp_len ret ins p (ack_one ins vpp) (rx_evs [b] ++ rx_evs (concat (map (step_bytes ins) steps)) ++ rest) v s (acc ++ junk) (zlen acc) sl Hi)
        as (s1 & -> & Hi1 & Hrt1 & Hse1 & (_ & Htc1 & _) & _); [apply ack_one_u8, Hins | lia|].
      rewrite t0_procedure_class, class_ack_one by done; cbv zeta; cbn [Z.eqb Pos.eqb].
      destruct (T0ProcACK_receives [b] (rx_evs (concat (map (step_bytes ins) steps)) ++ rest) v s1 acc junk ret sl)
        as (s2 & Ha & Hi2 & Hrt2 & Hse2 & (_ & Htc2 & _)); try done; try zlia.
      change (T0ProcACK 1) with (T0ProcACK (zlen [b])); rewrite Ha; cbn [mbind option_bind].
      change (t_sc (mk_t0 (mk_world ?e v s2) ?g ?o ?i sl)) with s2; rewrite (i_err _ Hi2); cbn [nz Z.eqb negb mbind option_bind].
      change ((mk_t0 ?w ?g ?o ?i sl) <| t_in_len := 0 |>) with (mk_t0 w g o 0 sl).
      destruct (IH (sc_rtail s) s2 (acc ++ [b]) (drop (length [b]) junk)) as (p' & s' & junk' & Hx & Hi' & Hrt' & Hse' & Htc' & Hl');
        try done; zlen_simpl; try (simpl length in *; lia).
      rewrite Hx; exists p', s', junk'.
      rewrite <- (app_assoc acc [b]); split_and!; try done; try congruence; try zlia.
      zlen_simpl; by rewrite <- !Z.add_assoc.
Qed.

Lemma t0_finish_delivers rest v s acc junk sw1 sw2 il sl :
  idle_ok s -> sw1_ok sw1 -> zlen ((acc ++ [sw1; sw2]) ++ junk) = 300 ->
  exists x, t0_finish (mk_t0 (mk_world rest v s) ((acc ++ [sw1; sw2]) ++ junk) (zlen (acc ++ [sw1; sw2])) il sl) = Some x /\
    delivered (acc ++ [sw1; sw2]) (sc_sent s) (sc_tcnt s) rest v x.
Proof.
  intros Hi (_ & _ & Hst) Hl; unfold t0_finish; cbv zeta.
  set (s2 := stop_timer s).
  change (t_set stop_timer _) with (mk_t0 (mk_world rest v s2) ((acc ++ [sw1; sw2]) ++ junk) (zlen (acc ++ [sw1; sw2])) il sl).
  change (t_sc (mk_t0 (mk_world rest v s2) ?g ?o il sl)) with s2; change (sc_err s2) with (sc_err s).
  rewrite (i_err _ Hi); cbn [nz Z.eqb negb t_gRx t_goff].
  assert (Hn : zlen (acc ++ [sw1; sw2]) = zlen acc + 2) by zlia.
  pose proof (zlen_nonneg acc); pose proof (zlen_nonneg junk); rewrite zlen_app in Hl.
  assert (Hrd : rd ((acc ++ [sw1; sw2]) ++ junk) (zlen (acc ++ [sw1; sw2]) - 2) = Some sw1).
  { apply rd_Some; split; [lia|]; rewrite Hn; replace (zlen acc + 2 - 2) with (zlen acc) by lia.
    rewrite zlen_to_nat, <- app_assoc, lookup_app_r, Nat.sub_diag by lia; done. }
  rewrite Hrd; cbn [mbind option_bind]; unfold status in Hst; rewrite <- negb_orb, Hst; cbn [negb].
  unfold memcpy; rewrite rdn_in by (try zlia); cbn [mbind option_bind]; rewrite slice_app_prefix.
  change (sc_rbuf s2) with (sc_rbuf s); pose proof (d_rbuf _ (i_dev _ Hi)) as Hrb; unfold MAX_LEN in Hrb.
  rewrite wrn_0 by lia; cbn [mbind option_bind].
  eexists; split; [reflexivity|]; split; try done; [apply (i_err _ Hi) | | apply slice_app_prefix].
  cbn -[app zlen drop]; rewrite zlen_app, zlen_drop, Hn, Hrb; unfold MAX_LEN; unfold zlen in *; lia.
Qed.

(** The header goes out, five bytes, before the card's first procedure byte. *)
Lemma CmdXfrT0_header fuel rest v s gRx len ret exp_len ins :
  let snd := if ret =? 4 then u32 (len - 1) else len in
  T0CmdParsing (sc_tbuf s) len = Some (ret, exp_len) -> 0 <= ret -> rd (sc_tbuf s) 1 = Some ins -> ins_ok ins ->
  idle_ok s -> sc_toffset s = 0 ->
  exists s', CmdXfrT0 fuel (mk_world (replicate 2 (Irq tx_irq) ++ rest) v s) gRx len =
      t0_loop fuel ((snd =? 5) || (snd =? 4)) exp_len ret ins 0
        (mk_t0 (mk_world rest v s') gRx 0 0 (if snd =? 4 then snd - 4 else u32 (snd - 5))) /\
    idle_ok s' /\ sc_rtail s' = sc_rtail s /\ sc_sent s' = sc_sent s ++ slice (sc_tbuf s) 0 5 /\
    sc_tbuf s' = sc_tbuf s /\ sc_tcnt s' = 5 /\ sc_toffset s' = 5.
Proof.
  intros snd Hp Hret Hins [_ Hst] [Hd He Hh Hr] Hto; unfold CmdXfrT0; cbn [w_sc]; cbv zeta; rewrite Hp; cbn [mbind option_bind].
  rewrite (proj2 (Z.ltb_ge ret 0)), Hins by done; cbn [mbind option_bind]; unfold status in Hst; rewrite Hst; fold snd.
  set (sl := if snd =? 4 then snd - 4 else u32 (snd - 5)); unfold t0_send; cbv zeta.
  match goal with |- context [wait _ ?w] => remember (w_sc w) as s1 eqn:Es1; change w with (mk_world (replicate 2 (Irq tx_irq) ++ rest) v (w_sc w)) end.
  rewrite <- Es1; unfold wait; cbn [w_evs w_var w_sc].
  assert (Hs1 : sc_rbuf s1 = sc_rbuf s /\ sc_tbuf s1 = sc_tbuf s /\ sc_rtail s1 = sc_rtail s /\ sc_rhead s1 = sc_rhead s /\
    sc_tcnt s1 = 5 /\ sc_toffset s1 = 0 /\ sc_state s1 = SC_OP_WRITE /\ sc_err s1 = 0 /\ sc_sent s1 = sc_sent s).
  { subst s1; by split_and!. }
  destruct Hs1 as (Hrb & Htb & Hrt & Hrh & Htc & Hto1 & Hst1 & He1 & Hse); clear Es1.
  assert (Hd1 : dev_ok s1).
  { destruct Hd; split; rewrite ?Hrb, ?Htb, ?Hrt, ?Htc, ?Hto1, ?Hst1; try done; unfold MAX_LEN; lia. }
  destruct (tx_wait 2 rest v s1) as (s2 & -> & Hd2 & _ & Hse2 & Hrt2 & He2 & (_ & _ & Hrh2 & _) & Htb2 & Htc2 & Hto2 & _);
    rewrite ?Htc, ?Hto1; try done.
  cbn [mbind option_bind].
  match goal with |- context [t_sc ?x] => change x with (mk_t0 (mk_world rest v s2) gRx 0 0 sl) end.
  change (t_sc (mk_t0 (mk_world rest v s2) gRx 0 0 sl)) with s2; rewrite He2, He1; cbn [nz Z.eqb negb].
  exists s2; split; [done|]; split_and!; try congruence.
  - split; try done; [by rewrite He2 | congruence | by rewrite Hrt2, Hrt].
  - by rewrite Hse2, Hse, Htb, Htc, Hto1.
Qed.

(** The last turn of a dialogue: the rest of the data and the status word at once. *)
Lemma rx_end_all ins exp_len ret vpp l sw1 sw2 fuel p rest v s acc junk sl :
  ins_ok ins -> Forall is_u8 l -> sw1_ok sw1 -> is_u8 sw2 -> idle_ok s -> zlen acc + zlen l + 2 = exp_len -> exp_len <= MAX_LEN ->
  sc_rtail s + (zlen l + 3) <= MAX_LEN -> zlen (acc ++ junk) = 300 ->
  exists x, t0_loop (S fuel) true exp_len ret ins p
      (mk_t0 (mk_world (rx_evs ((ack_all ins vpp :: l) ++ [sw1; sw2]) ++ rest) v s) (acc ++ junk) (zlen acc) 0 sl) = Some (T0Return x) /\
    delivered ((acc ++ l) ++ [sw1; sw2]) (sc_sent s) (sc_tcnt s) rest v x.
Proof.
  intros Hins Hl8 Hs1 Hs2 Hi Hexp Hm Hrt Hl; pose proof (proj1 Hs1) as H81; pose proof (zlen_nonneg l); pose proof (zlen_nonneg acc); cbn [t0_loop].
  change (rx_evs ((ack_all ins vpp :: l) ++ [sw1; sw2])) with (rx_evs [ack_all ins vpp] ++ rx_evs (l ++ [sw1; sw2])); rewrite <- app_assoc.
  rewrite zlen_app in Hl; unfold MAX_LEN in *.
  destruct (t0_turn_byte true exp_len ret ins p (ack_all ins vpp) (rx_evs (l ++ [sw1; sw2]) ++ rest) v s (acc ++ junk) (zlen acc) sl Hi)
    as (s2 & -> & Hi2 & Hrt2 & Hse2 & (_ & Htc2 & _) & _); [apply ack_all_u8, Hins | unfold MAX_LEN; lia|].
  rewrite t0_procedure_class, class_ack_all by done; cbv zeta; cbn [Z.eqb Pos.eqb].
  match goal with |- context [T0ProcACK (u32 (exp_len - ?o)) true ?x] =>
    change x with (mk_t0 (mk_world (rx_evs (l ++ [sw1; sw2]) ++ rest) v s2) (acc ++ junk) (zlen acc) (u32 (ret - 1)) sl) end; cbn [t_goff].
  assert (Hn : u32 (exp_len - zlen acc) = zlen (l ++ [sw1; sw2])) by (rewrite u32_id; zlen_simpl; lia); rewrite Hn.
  destruct (T0ProcACK_receives (l ++ [sw1; sw2]) rest v s2 acc junk (u32 (ret - 1)) sl Hi2) as (s3 & -> & Hi3 & Hrt3 & Hse3 & (_ & Htc3 & _));
    [apply Forall_app; split; [done | by repeat (apply Forall_cons; split)] | unfold MAX_LEN; zlia .. |].
  cbn [mbind option_bind t_goff]; assert (Hx : (zlen (acc ++ l ++ [sw1; sw2]) =? exp_len) = true) by (apply Z.eqb_eq; zlia).
  rewrite Hx; cbn [orb]; rewrite (app_assoc acc l).
  destruct (t0_finish_delivers rest v s3 (acc ++ l) (drop (length (l ++ [sw1; sw2])) junk) sw1 sw2 (zlen (l ++ [sw1; sw2])) sl)
    as (x & -> & Hdel); [done | done | zlen_simpl; rewrite length_app; simpl; unfold zlen in *; lia|].
  cbn [mbind option_bind]; exists x; split; [done|]; by rewrite <- Hse2, <- Hse3, <- Htc2, <- Htc3.
Qed.

(** The last turn of a dialogue: the status word alone. *)
Lemma rx_end_stop ins exp_len ret sw1 sw2 fuel p rest v s acc junk sl :
  ins_ok ins -> sw1_ok sw1 -> is_u8 sw2 -> idle_ok s -> sc_rtail s + 2 <= MAX_LEN -> zlen acc + 2 <= MAX_LEN -> zlen (acc ++ junk) = 300 ->
  exists x, t0_loop (S fuel) true exp_len ret ins p
      (mk_t0 (mk_world (rx_evs [sw1; sw2] ++ rest) v s) (acc ++ junk) (zlen acc) 0 sl) = Some (T0Return x) /\
    delivered (acc ++ [sw1; sw2]) (sc_sent s) (sc_tcnt s) rest v x.
Proof.
  intros Hins Hs1 Hs2 Hi Hrt Hm Hl; pose proof (proj1 Hs1); pose proof (zlen_nonneg acc); cbn [t0_loop].
  change (rx_evs [sw1; sw2]) with (rx_evs [sw1] ++ rx_evs [sw2]); rewrite <- app_assoc; unfold MAX_LEN in *.
  destruct (t0_turn_byte true exp_len ret ins p sw1 (rx_evs [sw2] ++ rest) v s (acc ++ junk) (zlen acc) sl Hi)
    as (s2 & -> & Hi2 & Hrt2 & Hse2 & (_ & Htc2 & _) & Hrd2); [done | unfold MAX_LEN; lia|].
  rewrite t0_procedure_class, class_sw1 by done; cbv zeta; cbn [Z.eqb Pos.eqb].
  pose proof (d_rtail _ (i_dev _ Hi)). rewrite zlen_app in Hl.
  destruct (T0ProcSW1_delivers sw1 sw2 rest v s2 acc junk ret sl) as (x & -> & Hdel); try done; unfold MAX_LEN; try zlia.
  { rewrite Hrt2; by replace (sc_rtail s + 1 - 1) with (sc_rtail s) by lia. }
  cbn [mbind option_bind]; exists x; split; [done|]; by rewrite <- Hse2, <- Htc2.
Qed.

(** After the header of a command without data, the loop reads the dialogue. *)
Lemma rx_dialogue ins exp_len ret steps e sw1 sw2 fuel p rest v s gRx sl :
  ins_ok ins -> steps_ok steps -> Forall is_u8 (end_data e) -> sw1_ok sw1 -> is_u8 sw2 -> idle_ok s ->
  match e with RAll _ _ => zlen (rx_data steps e) + 2 = exp_len | RStop => True end ->
  sc_rtail s = 0 -> zlen (rx_wire ins steps e sw1 sw2) <= MAX_LEN -> zlen gRx = 300 -> (length steps < fuel)%nat ->
  exists x, t0_loop fuel true exp_len ret ins p (mk_t0 (mk_world (rx_evs (rx_wire ins steps e sw1 sw2) ++ rest) v s) gRx 0 0 sl) =
      Some (T0Return x) /\ delivered (rx_data steps e ++ [sw1; sw2]) (sc_sent s) (sc_tcnt s) rest v x.
Proof.
  intros Hins Hok He8 Hs1 Hs2 Hi Hexp Hrt Hw Hg Hf.
  unfold rx_wire, rx_data in *; set (data := concat (map step_data steps)) in *.
  pose proof (bytes_ge_data ins steps) as Hge; fold data in Hge; pose proof (zlen_nonneg data) as Hd0.
  set (bytes := concat (map (step_bytes ins) steps)) in *; rewrite zlen_app in Hw.
  rewrite rx_evs_app, <- app_assoc.
  destruct fuel as [|fuel]; [lia|]; replace (S fuel) with (length steps + S (fuel - length steps))%nat by lia.
  destruct (rx_steps_ok ins exp_len ret steps (S (fuel - length steps)) p (rx_evs (end_bytes ins e ++ [sw1; sw2]) ++ rest) v s [] gRx sl)
    as (p' & s' & junk' & Hx & Hi' & Hrt' & Hse' & Htc' & Hl'); try done; fold bytes data.
  { rewrite zlen_app in Hw; pose proof (zlen_nonneg (end_bytes ins e)); zlen_simpl; lia. }
  { rewrite zlen_app in Hw; pose proof (zlen_nonneg (end_bytes ins e)); zlen_simpl; unfold MAX_LEN in *; lia. }
  fold bytes data in Hx, Hrt', Hl'; cbn [app] in Hx, Hl'; change (zlen []) with 0 in Hx; rewrite Hx; cbn [t0_loop]; rewrite zlen_app in Hl'.
  rewrite <- Hse', <- Htc'; destruct e as [vpp l|]; cbn [end_bytes end_data] in *; zlen_simpl.
  - apply (rx_end_all ins exp_len ret vpp l sw1 sw2); try done; zlen_simpl; unfold MAX_LEN in *; try lia.
  - rewrite app_nil_r; apply (rx_end_stop ins exp_len ret sw1 sw2); try done; zlen_simpl; unfold MAX_LEN in *; lia.
Qed.

Lemma receives_ok a junk steps e sw1 sw2 rest v s gRx fuel :
  let ins := a_ins a in
  apdu_wf a -> a_data a = [] -> ins_ok ins -> steps_ok steps -> Forall is_u8 (end_data e) -> sw1_ok sw1 -> is_u8 sw2 ->
  match e with RAll _ _ => zlen (rx_data steps e) + 2 = apdu_expects a | RStop => True end ->
  idle_ok s -> sc_rtail s = 0 -> sc_toffset s = 0 -> sc_tbuf s = apdu_bytes a ++ junk -> zlen gRx = 300 ->
  zlen (rx_wire ins steps e sw1 sw2) <= MAX_LEN -> (length steps < fuel)%nat ->
  exists x, CmdXfrT0 fuel (mk_world (replicate 2 (Irq tx_irq) ++ rx_evs (rx_wire ins steps e sw1 sw2) ++ rest) v s) gRx (zlen (apdu_bytes a)) =
      Some (T0Return x) /\
    delivered (rx_data steps e ++ [sw1; sw2]) (sc_sent s ++ take 5 (apdu_bytes a ++ junk)) 5 rest v x.
Proof.
  intros ins Hwf Hnil Hins Hok He8 Hs1 Hs2 Hexp Hi Hrt Hto Htb Hg Hw Hf.
  assert (Hlen : zlen (apdu_bytes a) = 4 \/ zlen (apdu_bytes a) = 5) by (unfold apdu_bytes; rewrite Hnil; destruct (a_le a); [by right | by left]).
  destruct (CmdXfrT0_header fuel (rx_evs (rx_wire ins steps e sw1 sw2) ++ rest) v s gRx (zlen (apdu_bytes a)) 0 (apdu_expects a) ins)
    as (s1 & -> & Hi1 & Hrt1 & Hse1 & _ & Htc1 & _); try done; try (by rewrite Htb).
  { rewrite Htb, (parse_apdu a junk Hwf), Hnil; done. }
  cbn [Z.eqb]; assert (((zlen (apdu_bytes a) =? 5) || (zlen (apdu_bytes a) =? 4)) = true /\
    (if zlen (apdu_bytes a) =? 4 then zlen (apdu_bytes a) - 4 else u32 (zlen (apdu_bytes a) - 5)) = 0) as [-> ->] by (by destruct Hlen as [-> | ->]).
  destruct (rx_dialogue ins (apdu_expects a) 0 steps e sw1 sw2 fuel 0 rest v s1 gRx 0) as (x & Hx & Hdel); try done; [congruence|].
  exists x; split; [exact Hx|]; rewrite Htb in Hse1; by rewrite Hse1, Htc1 in Hdel.
Qed.

(** a T=0 command that expects data (case 2) is carried out with every card
    that follows ISO 7816-3. The card may ask for time with NULL bytes, send
    data one byte at a time or all that is left, or end the command early; the
    driver sends the five header bytes, nothing else, and leaves exactly the
    data and the status bytes for the reader, without an error. *)
Theorem CmdXfrT0_receives cla ins p1 p2 le junk steps e sw1 sw2 rest v s gRx fuel :
  let a := mk_apdu cla ins p1 p2 [] (Some le) in
  is_u8 le -> ins_ok ins -> steps_ok steps -> Forall is_u8 (end_data e) -> sw1_ok sw1 -> is_u8 sw2 ->
  match e with RAll _ _ => zlen (rx_data steps e) + 2 = apdu_expects a | RStop => True end ->
  idle_ok s -> sc_rtail s = 0 -> sc_toffset s = 0 -> sc_tbuf s = apdu_bytes a ++ junk -> zlen gRx = 300 ->
  zlen (rx_wire ins steps e sw1 sw2) <= MAX_LEN -> (length steps < fuel)%nat ->
  exists x, CmdXfrT0 fuel (mk_world (replicate 2 (Irq tx_irq) ++ rx_evs (rx_wire ins steps e sw1 sw2) ++ rest) v s) gRx 5 =
      Some (T0Return x) /\
    delivered (rx_data steps e ++ [sw1; sw2]) (sc_sent s ++ [cla; ins; p1; p2; le]) 5 rest v x.
Proof.
  intros a Hle Hins Hok He8 Hs1 Hs2 Hexp Hi Hrt Hto Htb Hg Hw Hf.
  apply (receives_ok a junk); done.
Qed.

Definition t0_example (tbuf : list Z) : nuc970_sc := sc_zero <| sc_tbuf := tbuf ++ replicate (300 - length tbuf) 0 |>.

Lemma t0_example_ok tbuf : (length tbuf <= 300)%nat -> idle_ok (t0_example tbuf).
Proof.
  intros; split; [|done..]; split; try done.
  - change (Forall is_u8 (replicate 300 0)); apply Forall_replicate; unfold is_u8; lia.
  - change (zlen (tbuf ++ replicate (300 - length tbuf) 0) = 300).
    unfold zlen; rewrite length_app, length_replicate; lia.
Qed.

Lemma CmdXfrT0_receives_witness :
  exists x, CmdXfrT0 10 (mk_world (replicate 2 (Irq tx_irq) ++
      rx_evs (rx_wire 0xB0 [RNull; ROne false 7; RNull] (RAll true [8; 9]) 0x90 0) ++ []) (mk_vars 0 0 0 0)
      (t0_example [0; 0xB0; 0; 0; 3])) (replicate 300 0) 5 = Some (T0Return x) /\
    delivered [7; 8; 9; 0x90; 0] [0; 0xB0; 0; 0; 3] 5 [] (mk_vars 0 0 0 0) x.
Proof.
  apply (CmdXfrT0_receives 0 0xB0 0 0 3 (replicate 295 0) [RNull; ROne false 7; RNull] (RAll true [8; 9]) 0x90 0 [] (mk_vars 0 0 0 0)
    (t0_example [0; 0xB0; 0; 0; 3]) (replicate 300 0) 10); unfold ins_ok, sw1_ok, is_u8; try done; try lia.
  - repeat constructor; lia.
  - repeat constructor; lia.
  - apply t0_example_ok; simpl; lia.
  - simpl; lia.
Defined.

(** ** Dialogues in which the driver sends the data

    The card asks for time, for one byte or for all that is left. *)
Inductive tx_step := SNull | SOne (vpp : bool) | SAll (vpp : bool).

(** What happens while [r] bytes are left to send: each request arrives as a
    byte, and the FIFO asks for four bytes at a time. *)
Fixpoint tx_evs (ins r : Z) (steps : list tx_step) : list event :=
  match steps with
  | [] => []
  | SNull :: steps => rx_evs [0x60] ++ tx_evs ins r steps
  | SOne vpp :: steps => rx_evs [ack_one ins vpp] ++ replicate 1 (Irq tx_irq) ++ tx_evs ins (r - 1) steps
  | SAll vpp :: steps => rx_evs [ack_all ins vpp] ++ replicate (Z.to_nat ((r + 3) / 4)) (Irq tx_irq) ++ tx_evs ins 0 steps
  end.

(** The bytes left at the end; [None] if the card asks for more than there is. *)
Fixpoint tx_left (r : Z) (steps : list tx_step) : option Z :=
  match steps with
  | [] => Some r
  | SNull :: steps => tx_left r steps
  | SOne _ :: steps => if 0 <? r then tx_left (r - 1) steps else None
  | SAll _ :: steps => if 0 <? r then tx_left 0 steps else None
  end.

Lemma tx_left_range r steps r' : 0 <= r -> tx_left r steps = Some r' -> 0 <= r' <= r.
Proof.
  revert r; induction steps as [|[|v|v] steps IH]; intros r Hr H; simpl in H.
  - injection H as <-; lia.
  - by apply IH.
  - destruct (0 <? r) eqn:?; [|done]; zbool; apply IH in H; lia.
  - destruct (0 <? r) eqn:?; [|done]; zbool; apply IH in H; lia.
Qed.

(** A turn on an ACK byte transmits: one byte, or all that is left. *)
Lemma turn_sends ins exp_len ret p b n l k rest v s gRx sl :
  exp_len <> 0 -> is_u8 b -> (proc_class ins b = 1 /\ n = sl /\ l = sl \/ proc_class ins b = 2 /\ n = 1 /\ l = u32 (sl - 1)) ->
  idle_ok s -> sc_toffset s = sc_tcnt s -> 0 < n -> sc_tcnt s + n <= MAX_LEN -> sc_rtail s + 1 <= MAX_LEN ->
  4 * (Z.of_nat k - 1) < n <= 4 * Z.of_nat k ->
  exists s', t0_turn false exp_len ret ins p (mk_t0 (mk_world (rx_evs [b] ++ replicate k (Irq tx_irq) ++ rest) v s) gRx 0 0 sl) =
      Some (sc_rtail s, T0Continue (mk_t0 (mk_world rest v s') gRx 0 0 l)) /\
    idle_ok s' /\ sc_rtail s' = sc_rtail s + 1 /\ sc_sent s' = sc_sent s ++ slice (sc_tbuf s) (sc_tcnt s) n /\
    sc_tbuf s' = sc_tbuf s /\ sc_tcnt s' = sc_tcnt s + n /\ sc_toffset s' = sc_tcnt s + n.
Proof.
  intros Hexp Hb Hcl Hi Hto Hn Hm Hr Hk; destruct (t0_turn_byte false exp_len ret ins p b (replicate k (Irq tx_irq) ++ rest) v s gRx 0 sl Hi)
    as (s1 & -> & Hi1 & Hrt1 & Hse1 & (Htb1 & Htc1 & Hto1) & _); [done | done|].
  rewrite t0_procedure_class; cbv zeta.
  assert (Hp : forall il l, exists s', T0ProcACK n false (mk_t0 (mk_world (replicate k (Irq tx_irq) ++ rest) v s1) gRx 0 il l) =
      Some (mk_t0 (mk_world rest v s') gRx 0 il l) /\ idle_ok s' /\ sc_rtail s' = sc_rtail s + 1 /\
      sc_sent s' = sc_sent s ++ slice (sc_tbuf s) (sc_tcnt s) n /\ sc_tbuf s' = sc_tbuf s /\ sc_tcnt s' = sc_tcnt s + n /\ sc_toffset s' = sc_tcnt s + n).
  { intros il l'; destruct (T0ProcACK_sends n k rest v s1 gRx 0 il l' Hi1) as (s2 & Ha & Hi2 & Hrt2 & Hse2 & Htb2 & Htc2 & Hto2); try done; try lia.
    exists s2; split; [done|]; rewrite Hse2, Htb1, Htc1, Hse1; split_and!; try done; [lia | congruence | lia | lia]. }
  destruct Hcl as [(-> & -> & ->) | (-> & -> & ->)]; cbn [Z.eqb Pos.eqb t_snd_len].
  - change ((mk_t0 ?w ?g ?o ret sl) <| t_in_len := _ |>) with (mk_t0 w g o (u32 (ret - 1)) sl).
    destruct (Hp (u32 (ret - 1)) sl) as (s' & H & Hs'); cbn [t_snd_len]; rewrite H; cbn [mbind option_bind].
    change ((mk_t0 ?w ?g ?o (u32 (ret - 1)) sl) <| t_in_len := 0 |>) with (mk_t0 w g o 0 sl); cbn [t_goff].
    change (t_sc (mk_t0 (mk_world ?e v s') gRx 0 0 sl)) with s'; rewrite (i_err _ (proj1 Hs')).
    rewrite (proj2 (Z.eqb_neq 0 exp_len)) by lia; by exists s'.
  - change ((mk_t0 ?w ?g ?o ret sl) <| t_snd_len := _ |>) with (mk_t0 w g o ret (u32 (sl - 1))).
    destruct (Hp ret (u32 (sl - 1))) as (s' & H & Hs'); rewrite H; cbn [mbind option_bind].
    change (t_sc (mk_t0 (mk_world ?e v s') gRx 0 ret ?l)) with s'; rewrite (i_err _ (proj1 Hs')); by exists s'.
Qed.

Lemma tx_steps_ok ins exp_len ret steps r r' fuel p rest v s gRx sl :
  ins_ok ins -> exp_len <> 0 -> 0 <= r -> (0 < r -> sl = r) -> tx_left r steps = Some r' ->
  idle_ok s -> sc_toffset s = sc_tcnt s -> sc_tcnt s + r <= MAX_LEN -> sc_rtail s + Z.of_nat (length steps) <= MAX_LEN ->
  exists p' s' sl',
    t0_loop (length steps + fuel) false exp_len ret ins p (mk_t0 (mk_world (tx_evs ins r steps ++ rest) v s) gRx 0 0 sl) =
    t0_loop fuel false exp_len ret ins p' (mk_t0 (mk_world rest v s') gRx 0 0 sl') /\
    idle_ok s' /\ sc_rtail s' = sc_rtail s + Z.of_nat (length steps) /\
    sc_sent s' = sc_sent s ++ slice (sc_tbuf s) (sc_tcnt s) (r - r') /\ sc_tcnt s' = sc_tcnt s + (r - r').
Proof.
  intros Hins Hexp; revert r p s sl; induction steps as [|st steps IH]; intros r p s sl Hr Hsl Hleft Hi Hto Htc Hrt.
  - injection Hleft as <-; exists p, s, sl; cbn [tx_evs app length Nat.add]; rewrite Z.sub_diag; split_and!; try done; try lia.
    by rewrite app_nil_r.
  - cbn [tx_left tx_evs length Nat.add t0_loop] in *; pose proof (d_tbuf _ (i_dev _ Hi)) as Htb.
    pose proof (d_tx _ (i_dev _ Hi)) as Htx0; destruct st as [|vpp|vpp].
    + rewrite <- app_assoc.
      destruct (turn_null false exp_len ret ins p (tx_evs ins r steps ++ rest) v s gRx 0 sl Hi)
        as (s1 & -> & Hi1 & Hrt1 & Hse1 & (Htb1 & Htc1 & Hto1)); [lia|]; cbn [mbind option_bind].
      destruct (IH r (sc_rtail s) s1 sl) as (p' & s' & sl' & -> & Hi' & Hrt' & Hse' & Htc'); try done; try congruence; try lia.
      exists p', s', sl'; split_and!; try done; [lia | congruence | congruence].
    + destruct (0 <? r) eqn:?; [|done]; zbool; pose proof (tx_left_range (r - 1) steps r' ltac:(lia) Hleft).
      rewrite <- !app_assoc; unfold MAX_LEN in *.
      destruct (turn_sends ins exp_len ret p (ack_one ins vpp) 1 (r - 1) 1 (tx_evs ins (r - 1) steps ++ rest) v s gRx sl)
        as (s1 & Hx & Hi1 & Hrt1 & Hse1 & Htb1 & Htc1 & Hto1); unfold MAX_LEN; try done; try lia;
        [apply ack_one_u8, Hins | rewrite class_ack_one, Hsl, u32_id by (done || lia); by right|].
      change [Irq tx_irq] with (replicate 1 (Irq tx_irq)); rewrite Hx; cbn [mbind option_bind].
      destruct (IH (r - 1) (sc_rtail s) s1 (r - 1)) as (p' & s' & sl' & -> & Hi' & Hrt' & Hse' & Htc'); try done; try lia.
      exists p', s', sl'; split_and!; try done; [lia | | lia].
      rewrite Hse', Hse1, Htb1, Htc1, <- app_assoc, <- slice_app_split by lia; do 2 f_equal; lia.
    + destruct (0 <? r) eqn:?; [|done]; zbool; pose proof (tx_left_range 0 steps r' ltac:(lia) Hleft).
      rewrite <- !app_assoc; unfold MAX_LEN in *.
      destruct (turn_sends ins exp_len ret p (ack_all ins vpp) r r (Z.to_nat ((r + 3) / 4)) (tx_evs ins 0 steps ++ rest) v s gRx sl)
        as (s1 & -> & Hi1 & Hrt1 & Hse1 & Htb1 & Htc1 & Hto1); unfold MAX_LEN; try done; try lia;
        [apply ack_all_u8, Hins | rewrite class_ack_all, Hsl by (done || lia); by left | apply tx_irqs; lia|]; cbn [mbind option_bind].
      destruct (IH 0 (sc_rtail s) s1 r) as (p' & s' & sl' & -> & Hi' & Hrt' & Hse' & Htc'); try done; try lia.
      exists p', s', sl'; split_and!; try done; [lia | | lia].
      assert (r' = 0) as -> by lia; by rewrite Hse', Hse1, !Z.sub_0_r, app_nil_r.
Qed.

Lemma apdu_len a : a_data a <> [] -> 5 + zlen (a_data a) <= zlen (apdu_bytes a).
Proof.
  intros Hne; unfold apdu_bytes; destruct (a_data a) as [|d0 d]; [done|]; zlen_simpl.
  pose proof (zlen_nonneg (match a_le a with Some le => [le] | None => [] end)); lia.
Qed.

Lemma sends_ok a junk steps left sw1 sw2 rest v s gRx fuel :
  let ins := a_ins a in
  apdu_wf a -> a_data a <> [] -> ins_ok ins -> sw1_ok sw1 -> is_u8 sw2 ->
  tx_left (zlen (a_data a)) steps = Some left ->
  idle_ok s -> sc_rtail s = 0 -> sc_toffset s = 0 -> sc_tbuf s = apdu_bytes a ++ junk -> zlen gRx = 300 ->
  Z.of_nat (length steps) + 2 <= MAX_LEN -> (length steps < fuel)%nat ->
  exists x, CmdXfrT0 fuel (mk_world (replicate 2 (Irq tx_irq) ++ tx_evs ins (zlen (a_data a)) steps ++ rx_evs [sw1; sw2] ++ rest) v s)
      gRx (zlen (apdu_bytes a)) = Some (T0Return x) /\
    delivered [sw1; sw2] (sc_sent s ++ take (Z.to_nat (5 + zlen (a_data a) - left)) (apdu_bytes a)) (5 + zlen (a_data a) - left) rest v x.
Proof.
  intros ins Hwf Hne Hins Hs1 Hs2 Hleft Hi Hrt Hto Htb Hg Hw Hf.
  pose proof (parse_apdu a junk Hwf) as Hp; rewrite <- Htb in Hp; destruct Hwf as [Hd _].
  set (n := zlen (a_data a)) in *.
  assert (Hn : 0 < n) by (unfold n; destruct (a_data a); [done | zlen_simpl; pose proof (zlen_nonneg l); lia]).
  assert (Hexp : apdu_expects a = 2) by (unfold apdu_expects; by destruct (a_data a), (a_le a)).
  set (ret := match a_data a, a_le a with _ :: _, Some _ => 4 | _, _ => 0 end) in *; rewrite Hexp in Hp.
  set (snd := if ret =? 4 then u32 (zlen (apdu_bytes a) - 1) else zlen (apdu_bytes a)).
  assert (Hsnd : snd = 5 + n).
  { unfold snd, ret, apdu_bytes, n in *; destruct (a_data a) as [|d0 d]; [done|]; destruct (a_le a); cbn [Z.eqb Pos.eqb];
      [rewrite u32_id|]; zlen_simpl; lia. }
  assert (Hlen : 5 + n <= zlen (apdu_bytes a)).
  { by apply apdu_len. }
  pose proof (tx_left_range n steps left ltac:(lia) Hleft).
  destruct (CmdXfrT0_header fuel (tx_evs ins n steps ++ rx_evs [sw1; sw2] ++ rest) v s gRx (zlen (apdu_bytes a)) ret 2 ins)
    as (s1 & -> & Hi1 & Hrt1 & Hse1 & Htb1 & Htc1 & Hto1); try done.
  { unfold ret; destruct (a_data a), (a_le a); lia. }
  { by rewrite Htb. }
  fold snd; rewrite Hsnd, (proj2 (Z.eqb_neq (5 + n) 5)), (proj2 (Z.eqb_neq (5 + n) 4)) by lia; cbn [orb].
  rewrite u32_id by lia; replace (5 + n - 5) with n by lia.
  replace fuel with (length steps + S (fuel - S (length steps)))%nat by lia.
  destruct (tx_steps_ok ins 2 ret steps n left (S (fuel - S (length steps))) 0 (rx_evs [sw1; sw2] ++ rest) v s1 gRx n)
    as (p' & s2 & sl' & -> & Hi2 & Hrt2 & Hse2 & Htc2); try done; try lia; [unfold MAX_LEN; lia|].
  cbn [t0_loop]; change (rx_evs [sw1; sw2]) with (rx_evs [sw1] ++ rx_evs [sw2]); rewrite <- app_assoc; unfold MAX_LEN in *.
  destruct (t0_turn_byte false 2 ret ins p' sw1 (rx_evs [sw2] ++ rest) v s2 gRx 0 sl' Hi2)
    as (s3 & -> & Hi3 & Hrt3 & Hse3 & (_ & Htc3 & _) & Hrd3); [apply Hs1 | unfold MAX_LEN; lia|].
  rewrite t0_procedure_class, class_sw1 by done; cbv zeta; cbn [Z.eqb Pos.eqb].
  destruct (T0ProcSW1_delivers sw1 sw2 rest v s3 [] gRx ret sl') as (x & Hx & Hdel); try done; try lia.
  { unfold MAX_LEN; lia. }
  { rewrite Hrt3; by replace (sc_rtail s2 + 1 - 1) with (sc_rtail s2) by lia. }
  change (T0ProcSW1 (mk_t0 (mk_world (rx_evs [sw2] ++ rest) v s3) gRx 0 ret sl') = Some x) in Hx.
  rewrite Hx; cbn [mbind option_bind]; exists x; split; [done|].
  rewrite Hse3, Hse2, Hse1, Htb1, Htc1, <- app_assoc in Hdel.
  rewrite <- (Z.add_0_l 5) in Hdel at 2; rewrite <- slice_app_split in Hdel by (rewrite ?(d_tbuf _ (i_dev _ Hi)); unfold MAX_LEN; lia).
  assert (Hs : slice (sc_tbuf s) 0 (5 + (n - left)) = take (Z.to_nat (5 + n - left)) (apdu_bytes a)).
  { unfold slice; rewrite drop_0, Htb, take_app_le; [f_equal; lia | unfold zlen in *; lia]. }
  rewrite Hs in Hdel; by replace (5 + n - left) with (sc_tcnt s3) at 2 by lia.
Qed.

(** a T=0 command with data (cases 3 and 4) is carried out with every card
    that follows ISO 7816-3: the driver sends the header and then exactly the
    data bytes the card asked for, one at a time or all that is left, in order
    and each once; Le is not sent; the card's status bytes are what the reader
    gets, without an error. *)
Theorem CmdXfrT0_sends a junk steps left sw1 sw2 rest v s gRx fuel :
  let ins := a_ins a in
  apdu_wf a -> a_data a <> [] -> ins_ok ins -> sw1_ok sw1 -> is_u8 sw2 ->
  tx_left (zlen (a_data a)) steps = Some left ->
  idle_ok s -> sc_rtail s = 0 -> sc_toffset s = 0 -> sc_tbuf s = apdu_bytes a ++ junk -> zlen gRx = 300 ->
  Z.of_nat (length steps) + 2 <= MAX_LEN -> (length steps < fuel)%nat ->
  exists x, CmdXfrT0 fuel (mk_world (replicate 2 (Irq tx_irq) ++ tx_evs ins (zlen (a_data a)) steps ++ rx_evs [sw1; sw2] ++ rest) v s)
      gRx (zlen (apdu_bytes a)) = Some (T0Return x) /\
    delivered [sw1; sw2] (sc_sent s ++ take (Z.to_nat (5 + zlen (a_data a) - left)) (apdu_bytes a)) (5 + zlen (a_data a) - left) rest v x.
Proof. apply sends_ok. Qed.

Lemma CmdXfrT0_sends_witness :
  exists x, CmdXfrT0 10 (mk_world (replicate 2 (Irq tx_irq) ++ tx_evs 0xA4 3 [SNull; SOne false; SAll true; SNull] ++ rx_evs [0x90; 0] ++ [])
      (mk_vars 0 0 0 0) (t0_example [0; 0xA4; 4; 0; 3; 7; 8; 9; 0])) (replicate 300 0) 9 = Some (T0Return x) /\
    delivered [0x90; 0] [0; 0xA4; 4; 0; 3; 7; 8; 9] 8 [] (mk_vars 0 0 0 0) x.
Proof.
  apply (CmdXfrT0_sends (mk_apdu 0 0xA4 4 0 [7; 8; 9] (Some 0)) (replicate 291 0) [SNull; SOne false; SAll true; SNull] 0 0x90 0 []
    (mk_vars 0 0 0 0) (t0_example [0; 0xA4; 4; 0; 3; 7; 8; 9; 0]) (replicate 300 0) 10);
    unfold ins_ok, sw1_ok, is_u8; try done; try lia.
  - apply t0_example_ok; simpl; lia.
  - simpl; lia.
Defined.

(** ** Both kinds together

    How a card carries out a command: it gives data, or takes those of the command. *)
Inductive dialogue := Gives (steps : list rx_step) (e : rx_end) | Takes (steps : list tx_step).

Definition dialogue_ok (a : apdu) (d : dialogue) : Prop :=
  match d with
  | Gives steps e => a_data a = [] /\ steps_ok steps /\ Forall is_u8 (end_data e) /\
      match e with RAll _ _ => zlen (rx_data steps e) + 2 = apdu_expects a | RStop => True end
  | Takes steps => a_data a <> [] /\ tx_left (zlen (a_data a)) steps <> None
  end.

(** What happens on the wire after the command is started. *)
Definition dialogue_evs (a : apdu) (d : dialogue) (sw1 sw2 : Z) : list event :=
  replicate 2 (Irq tx_irq) ++
  match d with
  | Gives steps e => rx_evs (rx_wire (a_ins a) steps e sw1 sw2)
  | Takes steps => tx_evs (a_ins a) (zlen (a_data a)) steps ++ rx_evs [sw1; sw2]
  end.

Definition dialogue_turns (d : dialogue) : nat := match d with Gives steps _ => length steps | Takes steps => length steps end.

(** The bytes that arrive, procedure bytes included, fit the buffer. *)
Definition dialogue_room (a : apdu) (d : dialogue) (sw1 sw2 : Z) : Prop :=
  match d with
  | Gives steps e => zlen (rx_wire (a_ins a) steps e sw1 sw2) <= MAX_LEN
  | Takes steps => Z.of_nat (length steps) + 2 <= MAX_LEN
  end.

Definition dialogue_data (d : dialogue) : list Z := match d with Gives steps e => rx_data steps e | Takes _ => [] end.

(** What the card gets of the command; [old] is what the transmit buffer held
    before: a command without data or Le is sent with the fifth byte of that. *)
Definition card_gets (a : apdu) (d : dialogue) (old : list Z) : list Z :=
  match d with
  | Gives _ _ => take 5 (apdu_bytes a ++ drop (length (apdu_bytes a)) old)
  | Takes steps => take (Z.to_nat (5 + zlen (a_data a) - default 0 (tx_left (zlen (a_data a)) steps))) (apdu_bytes a)
  end.

Lemma apdu_bytes_ge a : 4 <= zlen (apdu_bytes a).
Proof. unfold apdu_bytes; rewrite zlen_app; match goal with |- _ <= _ + ?z => change (4 <= 4 + z); enough (0 <= z) by lia end; apply zlen_nonneg. Qed.

Lemma card_gets_len a d old : dialogue_ok a d -> zlen old = MAX_LEN -> zlen (apdu_bytes a) <= MAX_LEN ->
  zlen (card_gets a d old) = match d with Gives _ _ => 5 | Takes steps => 5 + zlen (a_data a) - default 0 (tx_left (zlen (a_data a)) steps) end.
Proof.
  intros Hok Ho Hm; pose proof (apdu_bytes_ge a); unfold MAX_LEN in *; destruct d as [steps e|steps]; cbn [card_gets dialogue_ok] in *.
  - unfold zlen in *; rewrite length_take, length_app, length_drop; lia.
  - destruct Hok as [Hne Hl]; pose proof (apdu_len a Hne); destruct (tx_left _ steps) as [left|] eqn:E; [|done]; apply tx_left_range in E; [|apply zlen_nonneg].
    cbn [default from_option id]; unfold zlen in *; rewrite length_take; lia.
Qed.

Lemma card_command a d old sw1 sw2 rest v s gRx fuel :
  apdu_wf a -> dialogue_ok a d -> ins_ok (a_ins a) -> sw1_ok sw1 -> is_u8 sw2 -> dialogue_room a d sw1 sw2 ->
  idle_ok s -> sc_rtail s = 0 -> sc_toffset s = 0 -> sc_tbuf s = apdu_bytes a ++ drop (length (apdu_bytes a)) old -> zlen old = MAX_LEN ->
  zlen gRx = 300 -> (dialogue_turns d < fuel)%nat ->
  exists x, CmdXfrT0 fuel (mk_world (dialogue_evs a d sw1 sw2 ++ rest) v s) gRx (zlen (apdu_bytes a)) = Some (T0Return x) /\
    delivered (dialogue_data d ++ [sw1; sw2]) (sc_sent s ++ card_gets a d old) (zlen (card_gets a d old)) rest v x.
Proof.
  intros Hwf Hok Hins Hs1 Hs2 Hroom Hi Hrt Hto Htb Ho Hg Hf.
  assert (Hm : zlen (apdu_bytes a) <= MAX_LEN) by (pose proof (d_tbuf _ (i_dev _ Hi)) as Hd; rewrite Htb, zlen_app in Hd; pose proof (zlen_nonneg (drop (length (apdu_bytes a)) old)); lia).
  rewrite (card_gets_len a d old Hok Ho Hm); unfold dialogue_evs; rewrite <- app_assoc; destruct d as [steps e|steps]; cbn [dialogue_ok dialogue_room dialogue_data card_gets dialogue_turns] in *.
  - destruct Hok as (Hnil & Hst & He8 & Hexp); by apply receives_ok.
  - destruct Hok as [Hne Hl]; destruct (tx_left _ steps) as [left|] eqn:E; [|done]; cbn [default from_option id app]; rewrite <- app_assoc; by apply (sends_ok a (drop (length (apdu_bytes a)) old)).
Qed.
