(* ===== verification/ScIsrSpec.v ===== *)
(** The interrupt handler: it receives an answer to reset completely and stops
    exactly at its last byte, for every well-formed answer; and a card removal
    takes the device to a state from which nothing of the card is left. *)
From S2P Require Import Prelude Checksum Atr AtrSpec ScDev ScIsr T1 T1Safe ScLink ScLinkSpec.

(** ** Counting the bytes of an answer *)

(** Byte after byte, [atr_remain] reaches 0 at the last one and not before. *)
Fixpoint finishes (n : Z) (v : atr_vars) (bs : list Z) : Prop :=
  match bs with
  | [] => atr_remain v = 0
  | b :: bs => atr_remain v <> 0 /\ finishes (n + 1) (atr_count n b v) bs
  end.

(** A byte that announces nothing only counts down. *)
Lemma atr_count_plain n b v :
  n <> 1 -> ifbyte_flag v - 1 <> 0 ->
  atr_count n b v = v <| atr_remain := atr_remain v - 1 |> <| ifbyte_flag := ifbyte_flag v - 1 |>.
Proof.
  intros Hn Hf; unfold atr_count; rewrite (proj2 (Z.eqb_neq _ _) Hn); cbv zeta.
  change (ifbyte_flag (v <| atr_remain := _ |> <| ifbyte_flag := ifbyte_flag v - 1 |>)) with (ifbyte_flag v - 1).
  by rewrite (proj2 (Z.eqb_neq _ _) Hf).
Qed.

Lemma finishes_tail l n v :
  2 <= n -> ifbyte_flag v <= 0 -> atr_remain v = zlen l -> finishes n v l.
Proof.
  revert n v; induction l as [|b l IH]; intros n v Hn Hf Hr; cbn [finishes]; zlen_simpl; [done|].
  pose proof (zlen_nonneg l); split; [lia|].
  rewrite atr_count_plain by lia; apply IH; simpl; lia.
Qed.

Lemma finishes_skip l n v r :
  2 <= n -> zlen l < ifbyte_flag v -> zlen l < atr_remain v ->
  finishes (n + zlen l) (v <| atr_remain := atr_remain v - zlen l |> <| ifbyte_flag := ifbyte_flag v - zlen l |>) r ->
  finishes n v (l ++ r).
Proof.
  revert n v; induction l as [|b l IH]; intros n v Hn Hf Hr; cbn [app finishes]; zlen_simpl.
  - rewrite !Z.sub_0_r, Z.add_0_r; by destruct v.
  - pose proof (zlen_nonneg l); intros Hfin; split; [lia|].
    rewrite atr_count_plain by lia; apply IH; simpl; try lia.
    replace (n + 1 + zlen l) with (n + (1 + zlen l)) by lia.
    replace (atr_remain v - 1 - zlen l) with (atr_remain v - (1 + zlen l)) by lia.
    by replace (ifbyte_flag v - 1 - zlen l) with (ifbyte_flag v - (1 + zlen l)) by lia.
Qed.

(** The bits of an announcing byte, as the handler tests them. *)
Lemma announce_bits g next low :
  0 <= low < 16 ->
  let b := announce g next low in
  on b 0x10 = has (gA g) /\ on b 0x20 = has (gB g) /\ on b 0x40 = has (gC g) /\ on b 0x80 = next /\ Z.land b 0xf = low.
Proof.
  intros Hl; unfold announce.
  assert (Hc : low = 0 \/ low = 1 \/ low = 2 \/ low = 3 \/ low = 4 \/ low = 5 \/ low = 6 \/ low = 7 \/
    low = 8 \/ low = 9 \/ low = 10 \/ low = 11 \/ low = 12 \/ low = 13 \/ low = 14 \/ low = 15) by lia.
  destruct (has (gA g)), (has (gB g)), (has (gC g)), next;
    destruct_or! Hc; subst low; vm_compute; intuition congruence.
Qed.

Definition group_size (g : group) : Z := b2z (has (gA g)) + b2z (has (gB g)) + b2z (has (gC g)).

Lemma group_size_bytes g : group_size g = zlen (olist (gA g) ++ olist (gB g) ++ olist (gC g)).
Proof. unfold group_size; destruct (gA g), (gB g), (gC g); done. Qed.

Lemma group_size_nonneg g : 0 <= group_size g.
Proof. rewrite group_size_bytes; apply zlen_nonneg. Qed.

(** TCK is announced by the first TDi that names a protocol other than T=0. *)
Definition tck_step (n low : Z) (v : atr_vars) : atr_vars :=
  if (tck v =? 0) && negb (n =? 1) && nz low then v <| atr_remain := atr_remain v + 1 |> <| tck := 1 |> else v.

Lemma atr_count_announce n v g next low r :
  0 <= low < 16 ->
  n = 1 /\ r = atr_remain v - 1 + low \/ n <> 1 /\ ifbyte_flag v = 1 /\ r = atr_remain v - 1 ->
  atr_count n (announce g next low) v =
    tck_step n low (mk_vars (atr_remain_t v) (r + group_size g + b2z next)
      (if next then group_size g + 1 else -1) (tck v)).
Proof.
  intros Hl Hcase; destruct (announce_bits g next low Hl) as (H1 & H2 & H3 & H4 & H5).
  unfold atr_count; rewrite H1, H2, H3, H4, H5.
  set (v1 := if n =? 1 then _ else _).
  assert (Hv1 : v1 = mk_vars (atr_remain_t v) r 0 (tck v)).
  { unfold v1; destruct v as [a b c d]; simpl in *; destruct Hcase as [[-> ->] | (Hn & -> & ->)];
      [done | by rewrite (proj2 (Z.eqb_neq _ _) Hn)]. }
  clearbody v1; subst v1; cbn [ifbyte_flag Z.eqb]; cbv zeta; unfold group_size, tck_step.
  destruct (has (gA g)), (has (gB g)), (has (gC g)), next; simpl; destruct (_ && _ && _); simpl;
    repeat (f_equal; try lia).
Qed.

(** ** A whole answer *)

Definition tck_left (v : atr_vars) (rest : list (Z * group)) : Z :=
  if (tck v =? 0) && iso_tck rest then 1 else 0.

(** After an announcing byte: [l] are the bytes after the interface bytes. *)
Lemma finishes_groups rest : forall n v g l,
  2 <= n -> Forall (fun Tg => 0 <= Tg.1 < 16) rest ->
  ifbyte_flag v = (if more rest then group_size g + 1 else -1) ->
  atr_remain v + tck_left v rest = group_size g + b2z (more rest) + zlen l ->
  (tck_left v rest = 1 -> 1 <= zlen l) ->
  finishes n v (group_bytes g rest ++ l).
Proof.
  induction rest as [|[T g'] rest IH]; intros n v g l Hn HT Hf Hr Hl; cbn [group_bytes td_of olist more] in *.
  - unfold tck_left in Hr; rewrite andb_false_r in Hr; cbn [b2z] in Hr.
    rewrite app_nil_r; apply finishes_tail; [done | lia|].
    rewrite !zlen_app; pose proof (group_size_bytes g) as Hg; rewrite !zlen_app in Hg; change (zlen []) with 0; lia.
  - apply Forall_cons in HT as [HT HTs]; simpl in HT; cbn [b2z] in Hr; pose proof (group_size_bytes g) as Hg.
    set (A := olist (gA g)) in *; set (B := olist (gB g)) in *; set (C := olist (gC g)) in *.
    replace ((A ++ B ++ C ++ [announce g' (more rest) T] ++ group_bytes g' rest) ++ l)
      with ((A ++ B ++ C) ++ announce g' (more rest) T :: (group_bytes g' rest ++ l)) by (by rewrite <- !app_assoc).
    pose proof (group_size_nonneg g); pose proof (zlen_nonneg l).
    assert (Htl : 0 <= tck_left v ((T, g') :: rest) <= 1) by (unfold tck_left; zcase; lia).
    apply finishes_skip; rewrite <- ?Hg; [done | lia | lia|].
    cbn [finishes]; split; [simpl; lia|].
    set (v1 := v <| atr_remain := _ |> <| ifbyte_flag := _ |>).
    assert (Hif1 : ifbyte_flag v1 = 1) by (unfold v1; simpl; lia).
    rewrite (atr_count_announce _ v1 g' (more rest) T (atr_remain v1 - 1)) by (done || (right; lia)).
    change (atr_remain v1) with (atr_remain v - group_size g).
    unfold tck_step; change (tck (mk_vars _ _ _ (tck v1))) with (tck v); change (tck v1) with (tck v).
    rewrite (proj2 (Z.eqb_neq (n + group_size g) 1)) by lia; rewrite andb_true_r.
    unfold tck_left in *; change (iso_tck ((T, g') :: rest)) with (nz T || iso_tck rest) in Hr, Hl, Htl.
    apply IH; try done; try lia; destruct (tck v =? 0) eqn:Et, (nz T) eqn:EnT; cbn [andb orb] in *; try (simpl; rewrite ?Et; done); simpl; rewrite ?Et; simpl; try lia.
Qed.

Definition vars_start : atr_vars := mk_vars 20050 2 (-1) 0.

Lemma atr_print_bytes d :
  atr_print d = d_TS d :: announce (d_first d) (more (d_rest d)) (zlen (d_hist d)) ::
    (group_bytes (d_first d) (d_rest d) ++ d_hist d ++ if iso_tck (d_rest d) then [xor_bytes (atr_body d)] else []).
Proof. unfold atr_print, atr_body; simpl; by rewrite <- app_assoc. Qed.

Lemma atr_finishes d : desc_wf d -> finishes 0 vars_start (atr_print d).
Proof.
  intros Hwf; destruct (dw_hist d Hwf) as [_ Hh]; unfold ATR_MAX_HISTORICAL in Hh; pose proof (zlen_nonneg (d_hist d)).
  rewrite atr_print_bytes; cbn [finishes]; split; [done|].
  rewrite atr_count_plain by done; simpl (_ <| atr_remain := _ |> <| ifbyte_flag := _ |>).
  cbn [finishes]; split; [done|]; rewrite Z.add_0_l.
  rewrite (atr_count_announce 1 _ _ _ _ (zlen (d_hist d))) by (simpl; lia).
  unfold tck_step; rewrite Z.eqb_refl, andb_false_r, andb_false_l; cbn [atr_remain_t tck].
  set (t := if iso_tck (d_rest d) then _ else _).
  assert (Hl : zlen t = if iso_tck (d_rest d) then 1 else 0) by (unfold t; by destruct (iso_tck _)).
  apply finishes_groups; [done | | done | |].
  - eapply Forall_impl; [apply (dw_rest d Hwf)|]; by intros [? ?] [? ?].
  - unfold tck_left; cbn [tck atr_remain Z.eqb andb]; rewrite zlen_app, Hl; lia.
  - unfold tck_left; cbn [tck Z.eqb andb]; rewrite zlen_app, Hl; lia.
Qed.

(** ** Receiving an answer *)

(** The handler changes these members and no others while it receives. *)
Definition with_atr (s : nuc970_sc) (regs : gmap Z Z) (buf : list Z) (n st : Z) : nuc970_sc :=
  s <| sc_regs := regs |> <| sc_atrbuf := buf |> <| sc_atrlen := n |> <| sc_state := st |>.

Lemma rx_atr_irq b v s :
  sc_state s = SC_OP_READ_ATR -> is_u8 b -> 0 <= sc_atrlen s < zlen (sc_atrbuf s) ->
  let v0 := if sc_atrlen s =? 0 then vars_start else v in
  let v' := atr_count (sc_atrlen s) b v0 in
  atr_remain v0 <> 0 ->
  exists r, nuc970_sc_interrupt (rx_irq b) v s =
    Some (v', with_atr s r (<[Z.to_nat (sc_atrlen s) := b]> (sc_atrbuf s)) (sc_atrlen s + 1)
                (if atr_remain v' =? 0 then SC_OP_IDLE else SC_OP_READ_ATR)).
Proof.
  intros Hst Hb Hn v0 v' Hv0; rewrite isr_rx_irq; unfold isr_rx.
  change (on (i_intsts (rx_irq b)) (Z.lor SC_INTSTS_RDAIF SC_INTSTS_RXTOIF)) with true; cbv iota.
  rewrite Hst; cbn [Z.eqb Pos.eqb SC_OP_READ_ATR SC_OP_READ]; unfold rx_read_atr; cbv zeta.
  set (s1 := set_bits SC_ALTCTL_CNTEN0 REG_SC_ALTCTL _).
  change (sc_atrlen s1) with (sc_atrlen s); fold vars_start.
  set (s2 := if sc_atrlen s =? 0 then
    set_bits SC_ALTCTL_CNTEN2 REG_SC_ALTCTL (writel (Z.lor 255 SC_TMR_MODE_4) REG_SC_TMRCTL2
      (clear_bits SC_ALTCTL_CNTEN2 REG_SC_ALTCTL s1)) else s1).
  assert (Hs2 : exists r, s2 = s <| sc_regs := r |>) by (unfold s2; destruct (_ =? 0); eexists; reflexivity).
  assert (Hp : (if sc_atrlen s =? 0 then (vars_start, set_bits SC_ALTCTL_CNTEN2 REG_SC_ALTCTL (writel (Z.lor 255 SC_TMR_MODE_4) REG_SC_TMRCTL2
      (clear_bits SC_ALTCTL_CNTEN2 REG_SC_ALTCTL s1))) else (v, s1)) = (v0, s2)) by (unfold v0, s2; by destruct (_ =? 0)).
  change (mk_vars 20050 2 (-1) 0) with vars_start; rewrite Hp; clearbody s2; destruct Hs2 as [r ->].
  change (on (i_intsts (rx_irq b)) SC_INTSTS_RDAIF) with true; cbn [andb].
  unfold nz; rewrite (proj2 (Z.eqb_neq _ _) Hv0); cbn [negb].
  change (i_dat (rx_irq b)) with b; rewrite u8_id by done.
  change (sc_atrbuf (s <| sc_regs := r |>)) with (sc_atrbuf s); change (sc_atrlen (s <| sc_regs := r |>)) with (sc_atrlen s).
  rewrite wr_in by done; cbn [mbind option_bind]; fold v'; destruct (atr_remain v' =? 0); eexists; [reflexivity|].
  unfold with_atr; destruct s; simpl in *; by rewrite Hst.
Qed.

Lemma rx_atr_wait cond bs : forall rest v s,
  (forall s', sc_state s' = SC_OP_READ_ATR -> cond s' = false) -> (forall s', sc_state s' = SC_OP_IDLE -> cond s' = true) ->
  let v0 := if sc_atrlen s =? 0 then vars_start else v in
  sc_state s = SC_OP_READ_ATR -> Forall is_u8 bs -> 0 <= sc_atrlen s -> sc_atrlen s + zlen bs <= zlen (sc_atrbuf s) ->
  bs <> [] -> finishes (sc_atrlen s) v0 bs ->
  exists r v', wait_event cond (rx_evs bs ++ rest) v s =
    Some (rest, v', with_atr s r (take (Z.to_nat (sc_atrlen s)) (sc_atrbuf s) ++ bs ++ drop (Z.to_nat (sc_atrlen s) + length bs) (sc_atrbuf s))
                      (sc_atrlen s + zlen bs) SC_OP_IDLE).
Proof.
  induction bs as [|b bs IH]; intros rest v s Hc1 Hc2 v0 Hst H8 H0 Hl Hne Hfin; [done|].
  apply Forall_cons in H8 as [Hb H8]; destruct Hfin as [Hr Hfin]; rewrite zlen_cons in *; pose proof (zlen_nonneg bs).
  change (rx_evs (b :: bs) ++ rest) with (Irq (rx_irq b) :: (rx_evs bs ++ rest)); cbn [wait_event]; rewrite Hc1 by done.
  destruct (rx_atr_irq b v s) as [r ->]; try done; [lia|]; fold v0; cbn [mbind option_bind].
  set (v1 := atr_count (sc_atrlen s) b v0) in *; set (buf := <[Z.to_nat (sc_atrlen s) := b]> (sc_atrbuf s)).
  assert (Hbuf : take (Z.to_nat (sc_atrlen s + 1)) buf = take (Z.to_nat (sc_atrlen s)) (sc_atrbuf s) ++ [b]).
  { replace (Z.to_nat (sc_atrlen s + 1)) with (S (Z.to_nat (sc_atrlen s))) by lia.
    rewrite (take_S_r _ _ b); [unfold buf; rewrite take_insert_ge by lia; done|].
    unfold buf; apply list_lookup_insert_eq; unfold zlen in *; lia. }
  assert (Hdrop : forall k, drop (Z.to_nat (sc_atrlen s + 1) + k) buf = drop (Z.to_nat (sc_atrlen s) + S k) (sc_atrbuf s)).
  { intros k; unfold buf; rewrite drop_insert_lt by lia; f_equal; lia. }
  destruct bs as [|b' bs].
  - rewrite Hfin, Z.eqb_refl; exists r, v1; cbn [rx_evs map app length].
    assert (Hw : forall s', sc_state s' = SC_OP_IDLE -> wait_event cond rest v1 s' = Some (rest, v1, s'))
      by (intros s' Hs'; destruct rest; cbn [wait_event]; by rewrite Hc2).
    rewrite Hw by done; do 2 f_equal.
    assert (Hb' : buf = take (Z.to_nat (sc_atrlen s)) (sc_atrbuf s) ++ b :: drop (Z.to_nat (sc_atrlen s) + 1) (sc_atrbuf s)).
    { rewrite <- (take_drop (Z.to_nat (sc_atrlen s + 1)) buf) at 1; rewrite Hbuf, <- app_assoc.
      pose proof (Hdrop 0%nat) as Hd; rewrite Nat.add_0_r in Hd; by rewrite Hd. }
    unfold with_atr; rewrite Hb'; done.
  - pose proof Hfin as [Hr1 _]; rewrite (proj2 (Z.eqb_neq _ _) Hr1).
    set (s1 := with_atr s r buf (sc_atrlen s + 1) SC_OP_READ_ATR).
    destruct (IH rest v1 s1) as (r' & v' & ->); try done; change (sc_atrlen s1) with (sc_atrlen s + 1); change (sc_atrbuf s1) with buf.
    + lia.
    + unfold buf; rewrite zlen_insert; lia.
    + rewrite (proj2 (Z.eqb_neq (sc_atrlen s + 1) 0)) by lia; exact Hfin.
    + exists r', v'; rewrite Hbuf, Hdrop, <- app_assoc; unfold with_atr; simpl; do 2 f_equal; f_equal; zlia.
Qed.

(** ** Properties *)
Lemma announce_u8 g next low : 0 <= low < 16 -> is_u8 (announce g next low).
Proof. intros Hl; by apply (announce_tests g next low). Qed.

Lemma group_bytes_u8 rest : forall g,
  group_wf g -> Forall (fun Tg => 0 <= Tg.1 < 16 /\ group_wf Tg.2) rest -> Forall is_u8 (group_bytes g rest).
Proof.
  assert (Ho : forall o : option Z, (forall v, o = Some v -> is_u8 v) -> Forall is_u8 (olist o)).
  { intros [v|] Hv; cbn [olist]; [apply Forall_singleton; auto | constructor]. }
  induction rest as [|[T g'] rest IH]; intros g (HA & HB & HC) Hr; cbn [group_bytes].
  - repeat apply Forall_app_2; auto; constructor.
  - apply Forall_cons in Hr as [[HT Hg'] Hr]; repeat apply Forall_app_2; auto.
    apply Ho; cbn [td_of]; intros v [= <-]; by apply announce_u8.
Qed.

Lemma atr_print_u8 d : desc_wf d -> Forall is_u8 (atr_print d).
Proof.
  intros Hwf; destruct (dw_hist d Hwf) as [H8 Hh]; unfold ATR_MAX_HISTORICAL in Hh; pose proof (zlen_nonneg (d_hist d)).
  assert (Hb : Forall is_u8 (atr_body d)).
  { apply Forall_cons; split; [apply announce_u8; lia|].
    apply Forall_app_2; [apply group_bytes_u8; [apply (dw_first d Hwf) | apply (dw_rest d Hwf)] | done]. }
  apply Forall_cons; split; [apply (dw_TS d Hwf)|]; apply Forall_app_2; [done|].
  destruct (iso_tck (d_rest d)); [|constructor]; apply Forall_singleton.
  apply lrc_fold_u8; [unfold is_u8; lia | done].
Qed.

(** The interrupt at the end of an activation: the card is out of reset. *)
Definition init_irq : irq := mk_irq SC_INTSTS_INITIF 0 SC_PINCTL_RSTSTS 0.

Lemma isr_init_irq v s :
  nuc970_sc_interrupt init_irq v s = Some (v, (writel SC_INTSTS_INITIF REG_SC_INTSTS s) <| sc_state := SC_OP_READ_ATR |>).
Proof. reflexivity. Qed.

(** The reset runs and the whole answer arrives: shared by the property below
    and by the activation of a card. *)
Lemma atr_wait cond d rest v s :
  (forall s', sc_state s' = SC_OP_READ_ATR \/ sc_state s' = sc_state s -> cond s' = false) ->
  (forall s', sc_state s' = SC_OP_IDLE -> cond s' = true) ->
  desc_wf d -> zlen (atr_print d) <= ATR_MAX_SIZE ->
  zlen (sc_atrbuf s) = ATR_MAX_SIZE -> sc_atrlen s = 0 ->
  exists r v', wait_event cond (Irq init_irq :: rx_evs (atr_print d) ++ rest) v s =
    Some (rest, v', with_atr s r (atr_print d ++ drop (length (atr_print d)) (sc_atrbuf s)) (zlen (atr_print d)) SC_OP_IDLE).
Proof.
  intros Hc1 Hc2 Hwf Hl Hb Hn; cbn [wait_event]; rewrite Hc1 by auto.
  rewrite isr_init_irq; cbn [mbind option_bind].
  set (s1 := (writel SC_INTSTS_INITIF REG_SC_INTSTS s) <| sc_state := SC_OP_READ_ATR |>).
  destruct (rx_atr_wait cond (atr_print d) rest v s1) as (r & v' & ->);
    change (sc_atrlen s1) with (sc_atrlen s); change (sc_atrbuf s1) with (sc_atrbuf s); rewrite ?Hn; try done; try lia.
  - intros s' Hs'; apply Hc1; auto.
  - by apply atr_print_u8.
  - by apply atr_finishes.
  - by exists r, v'.
Qed.

(** for every answer to reset that follows ISO 7816-3 (and fits the 33 bytes
    of [atrbuf]) the handler, driven byte by byte while the driver waits for the
    end of the reset, finds the end of the answer from its bytes alone: it goes
    on until the last byte, has then stored exactly the bytes sent, in order,
    and ends the wait there; it touches no other member of the device, so a
    byte that follows is not taken for a part of the answer. *)
Theorem atr_received d rest v s :
  desc_wf d -> zlen (atr_print d) <= ATR_MAX_SIZE ->
  zlen (sc_atrbuf s) = ATR_MAX_SIZE -> sc_atrlen s = 0 -> sc_state s = SC_OP_COLD_RESET ->
  exists v' s', wait (fun s => negb (sc_state s =? SC_OP_READ_ATR) && negb (sc_state s =? SC_OP_COLD_RESET))
      (mk_world (Irq init_irq :: rx_evs (atr_print d) ++ rest) v s) = Some (mk_world rest v' s') /\
    sc_atrlen s' = zlen (atr_print d) /\ slice (sc_atrbuf s') 0 (sc_atrlen s') = atr_print d /\
    sc_state s' = SC_OP_IDLE /\ sc_err s' = sc_err s /\ sc_act s' = sc_act s /\
    sc_rbuf s' = sc_rbuf s /\ sc_rtail s' = sc_rtail s /\ sc_sent s' = sc_sent s.
Proof.
  intros Hwf Hl Hb Hn Hst; unfold wait; cbn [w_evs w_var w_sc].
  destruct (atr_wait (fun s => negb (sc_state s =? SC_OP_READ_ATR) && negb (sc_state s =? SC_OP_COLD_RESET)) d rest v s)
    as (r & v' & ->); try done.
  - intros s' [-> | ->]; [done | by rewrite Hst].
  - intros s' ->; done.
  - cbn [mbind option_bind]; eexists v', _; split; [reflexivity|]; split_and!; try done.
    exact (slice_app_prefix (atr_print d) _).
Qed.

Lemma atr_received_witness :
  exists v' s', wait (fun s => negb (sc_state s =? SC_OP_READ_ATR) && negb (sc_state s =? SC_OP_COLD_RESET))
      (mk_world (Irq init_irq :: rx_evs (atr_print desc_example) ++ []) (mk_vars 0 0 0 0) (sc_zero <| sc_state := SC_OP_COLD_RESET |>)) =
        Some (mk_world [] v' s') /\
    sc_atrlen s' = 11.
Proof.
  destruct (atr_received desc_example [] (mk_vars 0 0 0 0) (sc_zero <| sc_state := SC_OP_COLD_RESET |>) desc_example_wf
    ltac:(vm_compute; congruence) eq_refl eq_refl eq_refl) as (v' & s' & Hw & Hn & _).
  exists v', s'; split; [exact Hw | exact Hn].
Defined.

(** ** Card removal *)
Definition forgotten (s : nuc970_sc) : Prop :=
  sc_state s = SC_OP_IDLE /\ sc_err s <> 0 /\ sc_act s = -1 /\ sc_atrlen s = 0 /\ sc_protocol s = 0 /\
  sc_t0 s = mk_T0 0 0 /\ sc_t1 s = mk_T1 0 0 0 0 0 0 0 /\ sc_atr s = atr_zero.

(** A part of the handler that at most takes the device out of a transfer. *)
Definition settles (f : nuc970_sc -> nuc970_sc) : Prop :=
  forall s, forgotten s -> forgotten (f s) /\ sc_rbuf (f s) = sc_rbuf s /\ sc_rtail (f s) = sc_rtail s.

Lemma forgotten_regs v off s : off <> REG_SC_DAT -> forgotten s ->
  forgotten (writel v off s) /\ sc_rbuf (writel v off s) = sc_rbuf s /\ sc_rtail (writel v off s) = sc_rtail s.
Proof. intros Ho Hf; unfold writel; rewrite (proj2 (Z.eqb_neq _ _) Ho); done. Qed.

Lemma settles_tmr0 e : settles (isr_tmr0 e).
Proof. intros s (? & ? & ? & ? & ? & ? & ? & ?); unfold isr_tmr0; destruct (on _ _); unfold forgotten; simpl; split_and!; done. Qed.

Lemma settles_tmr1 e : settles (isr_tmr1 e).
Proof. intros s (? & ? & ? & ? & ? & ? & ? & ?); unfold isr_tmr1; destruct (on _ _); unfold forgotten; simpl; split_and!; done. Qed.

Lemma settles_acerr e : settles (isr_acerr e).
Proof. intros s (? & ? & ? & ? & ? & ? & ? & ?); unfold isr_acerr; destruct (on _ _); unfold forgotten; simpl; split_and!; done. Qed.

Lemma settles_tmr2 e v s : forgotten s ->
  let r := isr_tmr2 e v s in forgotten r.2 /\ sc_rbuf r.2 = sc_rbuf s /\ sc_rtail r.2 = sc_rtail s.
Proof.
  intros (? & ? & ? & ? & ? & ? & ? & ?); unfold isr_tmr2; destruct (on _ _); [destruct (_ <? 0)|];
    unfold forgotten; simpl; split_and!; done.
Qed.

Lemma settles_terr e inten : settles (isr_terr e inten).
Proof.
  intros s (? & ? & ? & ? & Hp & ? & ? & ?); unfold isr_terr; destruct (_ && _); [|by split_and!].
  destruct (on _ SC_STATUS_RXOV), (on _ SC_STATUS_TXOV), (on _ (Z.lor (Z.lor _ _) _)), (on _ SC_STATUS_TXOVERR), (on _ SC_STATUS_RXOVERR);
    unfold forgotten; simpl; rewrite ?Hp; simpl; split_and!; done.
Qed.

Lemma isr_init_bufs e s : sc_rbuf (isr_init e s) = sc_rbuf s /\ sc_rtail (isr_init e s) = sc_rtail s.
Proof. unfold isr_init; destruct (on _ _); [destruct (on _ _)|]; done. Qed.

(** no wait outlasts the removal of the card. Whatever the device was doing
    and whatever else the same interrupt reports, after it the device is idle
    with an error, the card is inactive and its answer, protocol and timing
    parameters are gone; every wait of the driver that ends when the device is
    idle with an error ends with this interrupt. The interrupt may carry a
    received byte, if the buffer has room for it. *)
Theorem removal_ends_wait cond e rest v s :
  (forall s', sc_state s' = SC_OP_IDLE -> sc_err s' <> 0 -> cond s' = true) -> cond s = false ->
  on (i_intsts e) SC_INTSTS_CDIF = true -> on (i_status e) SC_STATUS_CREMOVE = true ->
  zlen (sc_rbuf s) = MAX_LEN -> 0 <= sc_rtail s < MAX_LEN ->
  exists v' s', wait cond (mk_world (Irq e :: rest) v s) = Some (mk_world rest v' s') /\ forgotten s'.
Proof.
  intros Hc Hcs Hcd Hrm Hl Hr; unfold wait; cbn [w_evs w_var w_sc wait_event]; rewrite Hcs; unfold nuc970_sc_interrupt; cbv zeta.
  destruct (isr_init_bufs e s) as [Hb1 Ht1]; set (s1 := isr_init e s) in *; set (s2 := isr_cd e s1).
  assert (Hs2 : forgotten s2 /\ sc_rbuf s2 = sc_rbuf s1 /\ sc_rtail s2 = sc_rtail s1).
  { unfold s2, isr_cd; rewrite Hcd, Hrm; unfold forgotten; simpl; split_and!; try done; discriminate. }
  destruct Hs2 as (Hf2 & Hb2 & Ht2); clearbody s1 s2.
  destruct (settles_tmr0 e s2 Hf2) as (Hf3 & Hb3 & Ht3); destruct (settles_tmr1 e _ Hf3) as (Hf4 & Hb4 & Ht4).
  destruct (settles_tmr2 e v _ Hf4) as (Hf5 & Hb5 & Ht5).
  destruct (isr_tmr2 e v _) as [v5 s5]; simpl in Hf5, Hb5, Ht5.
  assert (Htx : isr_tx e s5 = Some s5).
  { unfold isr_tx; destruct Hf5 as [Hi _]; rewrite Hi; by rewrite andb_false_r. }
  rewrite Htx; cbn [mbind option_bind].
  assert (Hrx : exists s6, isr_rx e v5 s5 = Some (v5, s6) /\ forgotten s6).
  { unfold isr_rx; pose proof (proj1 Hf5) as Hi; rewrite Hi; destruct (on (i_intsts e) (Z.lor _ _)); [|eauto].
    change (SC_OP_IDLE =? SC_OP_READ) with false; change (SC_OP_IDLE =? SC_OP_READ_ATR) with false; cbv iota.
    unfold rx_store; rewrite wr_in by (rewrite Hb5, Hb4, Hb3, Hb2, Hb1, Ht5, Ht4, Ht3, Ht2, Ht1; lia).
    cbn [mbind option_bind]; eexists; split; [reflexivity | exact Hf5]. }
  destruct Hrx as (s6 & -> & Hf6); cbn [mbind option_bind].
  destruct (settles_acerr e s6 Hf6) as (Hf7 & _); destruct (settles_terr e (readl REG_SC_INTEN s) _ Hf7) as (Hf8 & _).
  set (s8 := isr_terr _ _ _) in *; exists v5, s8; split; [|done].
  assert (Hcond : cond s8 = true) by (apply Hc; apply Hf8).
  destruct rest; cbn [wait_event]; rewrite Hcond; done.
Qed.

Lemma removal_ends_wait_witness :
  exists v' s', wait (fun s => (3 <? sc_rtail s) || nz (sc_err s))
      (mk_world [Irq (mk_irq SC_INTSTS_CDIF SC_STATUS_CREMOVE 0 0); Signal] (mk_vars 0 0 0 0)
        (dev_example <| sc_state := SC_OP_READ |> <| sc_protocol := 1 |> <| sc_act := 1 |>)) = Some (mk_world [Signal] v' s') /\ forgotten s'.
Proof.
  apply (removal_ends_wait (fun s => (3 <? sc_rtail s) || nz (sc_err s)) (mk_irq SC_INTSTS_CDIF SC_STATUS_CREMOVE 0 0) [Signal] (mk_vars 0 0 0 0)
    (dev_example <| sc_state := SC_OP_READ |> <| sc_protocol := 1 |> <| sc_act := 1 |>)); try done.
  intros s' _ He; apply orb_true_iff; right; unfold nz; by rewrite (proj2 (Z.eqb_neq _ _) He).
Defined.
