(* ===== verification/ScFops.v ===== *)
(** The file operations of nuc970-sc.c: [sc_open], [sc_release], [sc_read],
    [sc_write] and [sc_ioctl], one definition per request.

    The mutex makes each call run alone on its interface; the model runs a call
    from the point where it holds the mutex. Busy-waiting loops on a status bit
    only read the hardware and leave no trace. *)
From S2P Require Import Prelude Checksum CtBuf Atr ScDev ScIsr T1 ScLink AtrParse T0.

Definition ICC_PRESENT_ACTIVE : Z := 0x0000.
Definition ICC_PRESENT_INACTIVE : Z := 0x0001.
Definition ICC_ABSENT : Z := 0x0002.

(** An interface with everything its calls use: the device and its interrupts,
    the T=1 state, the buffer [sdata], and the files' transfer buffers (those
    of sc-t1.c, and [gRx] of sc-t0.c). *)
Record intf := mk_intf {
  f_w : world; f_t1 : t1_state_t; f_sdata : list Z; f_gTx : list Z; f_gRx1 : list Z; f_gRx0 : list Z }.
#[export] Instance eta_intf : Eta intf := fun f =>
  mk_intf (f_w f) (f_t1 f) (f_sdata f) (f_gTx f) (f_gRx1 f) (f_gRx0 f).

Definition f_sc (f : intf) : nuc970_sc := w_sc (f_w f).
Definition f_set (g : nuc970_sc -> nuc970_sc) (f : intf) : intf := f <| f_w := set_sc g (f_w f) |>.

(** What [copy_from_user] finds: the bytes it stores and whether it faults
    (then the rest of the destination is not the user's data). *)
Record user_in := mk_user { u_bytes : list Z; u_fault : bool }.

(** ** [sc_read]

    The result, the bytes copied to the user, and the device; [fault] says
    whether [copy_to_user] faults. *)
Definition sc_read (count : Z) (fault : bool) (s : nuc970_sc) : option (Z * list Z * nuc970_sc) :=
  if (count =? 0) || (sc_rhead s =? sc_rtail s) then Some (0, [], s)
  else
    let count := if MAX_LEN <? count then MAX_LEN else count in
    let avail := u32 (sc_rtail s - sc_rhead s) in
    let count := if avail <? count then avail else count in
    if nz (sc_err s) then Some (- EFAULT, [], s)
    else
      bs ← rdn (sc_rbuf s) 0 count;
      if fault then Some (- EFAULT, [], s)
      else Some (count, bs, s <| sc_rhead := to_s32 (sc_rhead s + count) |>).

(** ** Running a command *)

(** [CmdXfrT0] or [CmdXfrT1]: [None] inside is a command that did not end
    within [fuel] exchanges. *)
Definition transfer (emv : bool) (fuel : nat) (f : intf) : option (option intf) :=
  if sc_protocol (f_sc f) =? 0 then
    r ← CmdXfrT0 fuel (f_w f) (f_gRx0 f) (sc_tcnt (f_sc f));
    Some (match r with
          | T0Return x => Some (f <| f_w := t_w x |> <| f_gRx0 := t_gRx x |>)
          | T0Continue _ => None
          end)
  else
    r ← CmdXfrT1 emv fuel (f_w f) (f_t1 f) (f_sdata f) (f_gTx f) (f_gRx1 f) (sc_tcnt (f_sc f));
    Some (match r with
          | Some (_, w, t1, sdata, gTx, gRx) => Some (mk_intf w t1 sdata gTx gRx (f_gRx0 f))
          | None => None
          end).

(** The start of a new transaction: drop old data, fetch the command. *)
Definition new_command (len : Z) (u : user_in) (f : intf) : option intf :=
  let f := f_set (fun s => s <| sc_tcnt := if MAX_LEN <? len then MAX_LEN else len |>
                              <| sc_toffset := 0 |> <| sc_err := 0 |> <| sc_rhead := 0 |> <| sc_rtail := 0 |>) f in
  tb ← wrn (sc_tbuf (f_sc f)) 0 (take (Z.to_nat len) (u_bytes u));
  Some (f_set (fun s => s <| sc_tbuf := tb |>) f).

(** ** [sc_write] *)
Definition sc_write (emv : bool) (fuel : nat) (count : Z) (u : user_in) (f : intf) : option (option (Z * intf)) :=
  if count =? 0 then Some (Some (0, f))
  else if negb (sc_act (f_sc f) =? 1) then Some (Some (0, f))
  else
    f ← new_command count u f;
    if u_fault u then Some (Some (- EFAULT, f))
    else
      r ← transfer emv fuel f;
      Some (match r with
            | None => None
            | Some f => Some (if nz (sc_err (f_sc f)) then - EFAULT else sc_tcnt (f_sc f), f)
            end).

(** ** [sc_ioctl] *)

(** The start of a reset: [mode] is the state, [en] the bit that starts it. *)
Definition start_reset (en : Z) (s : nuc970_sc) : nuc970_sc :=
  let s := writel (Z.lor (Z.quot 42000 372 + 1) SC_TMR_MODE_3) REG_SC_TMRCTL0 s in
  writel (Z.lor (Z.lor (readl REG_SC_ALTCTL s) SC_ALTCTL_CNTEN0) en) REG_SC_ALTCTL s.

Definition after_reset (mode : Z) (s : nuc970_sc) : bool :=
  negb (sc_state s =? SC_OP_READ_ATR) && negb (sc_state s =? mode).

(** Wait for the answer and parse it, unless there was an error. *)
Definition await_answer (emv : bool) (mode type : Z) (w : world) : option world :=
  w ← wait (after_reset mode) w;
  if sc_err (w_sc w) =? 0 then
    '(r, w) ← parse_atr emv type w;
    Some (set_sc (fun s => s <| sc_err := r |>) w)
  else Some w.

(** A card that is active is deactivated first. *)
Definition leave_active (w : world) : option world :=
  if sc_act (w_sc w) =? 1 then
    let w := set_sc (fun s => set_bits SC_ALTCTL_DACTEN REG_SC_ALTCTL
               (s <| sc_act := 0 |> <| sc_state := SC_OP_DEACTIVATE |>)) w in
    w ← wait (fun s => negb (sc_state s =? SC_OP_DEACTIVATE)) w;
    Some (set_sc clear_T0_T1 w)
  else Some w.

Definition cold_start (s : nuc970_sc) : nuc970_sc := start_reset SC_ALTCTL_ACTEN
  (s <| sc_act := 0 |> <| sc_atrlen := 0 |> <| sc_rhead := 0 |> <| sc_rtail := 0 |> <| sc_err := 0 |>
     <| sc_state := SC_OP_COLD_RESET |> <| sc_N := 0 |> <| sc_D := 0 |> <| sc_F := 0 |>).

Definition warm_start (emv : bool) (s : nuc970_sc) : nuc970_sc := start_reset SC_ALTCTL_WARSTEN (reset_reader emv
  (s <| sc_err := 0 |> <| sc_protocol := 0 |> <| sc_atrlen := 0 |> <| sc_act := 0 |>
     <| sc_state := SC_OP_WARM_RESET |> <| sc_N := 0 |> <| sc_D := 0 |> <| sc_F := 0 |>)).

(** A warm reset, if the answer is not acceptable after the cold one. *)
Definition retry_warm (emv : bool) (w : world) : option world :=
  if sc_err (w_sc w) =? SC_ERR_PARAM then await_answer emv SC_OP_WARM_RESET 1 (set_sc (warm_start emv) w)
  else Some w.

(** After an error the card is deactivated. *)
Definition finish_activate (w : world) : option (Z * world) :=
  if nz (sc_err (w_sc w)) then
    let w := set_sc (fun s => set_bits SC_ALTCTL_DACTEN REG_SC_ALTCTL (s <| sc_act := 0 |>)) w in
    w ← wait (fun s => (sc_act s =? -1) || nz (sc_err s)) w;
    Some (- EFAULT, set_sc clear_T0_T1 w)
  else Some (sc_atrlen (w_sc w), set_sc (fun s => s <| sc_act := 1 |>) w).

(** SC_IOC_ACTIVATE. *)
Definition ioctl_activate (emv : bool) (w : world) : option (Z * world) :=
  w ← leave_active (set_sc (reset_reader emv) w);
  w ← await_answer emv SC_OP_COLD_RESET 0 (set_sc cold_start w);
  w ← retry_warm emv w;
  finish_activate w.

(** SC_IOC_READATR. *)
Definition ioctl_readatr (fault : bool) (s : nuc970_sc) : option (Z * list Z) :=
  if negb (sc_act s =? 1) then Some (- EFAULT, [])
  else
    bs ← rdn (sc_atrbuf s) 0 (sc_atrlen s);
    Some (if fault then (- EFAULT, []) else (0, bs)).

(** SC_IOC_DEACTIVATE; [pinctl] is what REG_SC_PINCTL reads. *)
Definition ioctl_deactivate (pinctl : Z) (w : world) : option (Z * world) :=
  w ← (if on pinctl SC_PINCTL_RSTSTS then
         let w := set_sc (fun s => set_bits SC_ALTCTL_DACTEN REG_SC_ALTCTL (s <| sc_state := SC_OP_DEACTIVATE |>)) w in
         wait (fun s => negb (sc_state s =? SC_OP_DEACTIVATE)) w
       else Some w);
  Some (0, set_sc (fun s => (clear_T0_T1 (s <| sc_atrlen := 0 |> <| sc_protocol := 0 |> <| sc_rtail := 0 |> <| sc_rhead := 0 |>
                                            <| sc_act := 0 |> <| sc_err := 0 |>)) <| sc_atr := atr_zero |>) w).

(** The card status reported; [status] is what REG_SC_STATUS reads. *)
Definition card_status (status : Z) (s : nuc970_sc) : Z * nuc970_sc :=
  if sc_cdlvl s =? 2 then (if sc_act s =? 1 then ICC_PRESENT_ACTIVE else ICC_PRESENT_INACTIVE, s)
  else if sc_act s =? 1 then (ICC_PRESENT_ACTIVE, s)
  else if sc_err s =? SC_ERR_CARD_REMOVED then (ICC_ABSENT, s <| sc_err := 0 |>)
  else if negb (Z.shiftr (Z.land status SC_STATUS_CDPINSTS) 13 =? Z.shiftr (Z.land (readl REG_SC_CTL s) SC_CTL_CDLV) 26)
  then (ICC_ABSENT, s)
  else (ICC_PRESENT_INACTIVE, s).

(** SC_IOC_GETSTATUS: the result, what the user gets, and the device. *)
Definition ioctl_getstatus (status : Z) (fault : bool) (s : nuc970_sc) : Z * option Z * nuc970_sc :=
  let '(param, s) := card_status status s in
  if fault then (- EFAULT, None, s) else (0, Some param, s).

(** SC_IOC_SETPARAM; [stack] is the uninitialised local buffer of
    [t1_negotiate_ifsd]. *)
Definition ioctl_setparam (stack : list Z) (f : intf) : option (Z * intf) :=
  if sc_protocol (f_sc f) =? 1 then
    '(_, w, t1) ← t1_negotiate_ifsd 0 0xFE (f_w f) (t1_init (f_t1 f)) stack;
    Some (0, f <| f_w := w |> <| f_t1 := t1 |>)
  else Some (0, f).

(** SC_IOC_TRANSACT. [tx] is the user's [tx_buf] ([None] a null pointer),
    [rx_null] and [rx_fault] say whether [rx_buf] is null or faults. The third
    result is what the user gets: [rx_len] and the bytes. *)
Definition ioctl_transact (emv : bool) (fuel : nat) (tx : option user_in) (tx_len rx_len : Z) (rx_null rx_fault : bool) (f : intf)
    : option (option (Z * option (Z * list Z) * intf)) :=
  if (tx_len =? 0) || (rx_len =? 0) then Some (Some (- EFAULT, None, f))
  else
    match tx with
    | None => Some (Some (- EFAULT, None, f))
    | Some u =>
        if rx_null then Some (Some (- EFAULT, None, f))
        else if negb (sc_act (f_sc f) =? 1) then Some (Some (- EIO, None, f))
        else
          f ← new_command tx_len u f;
          if u_fault u then Some (Some (- EFAULT, None, f))
          else
            r ← transfer emv fuel f;
            match r with
            | None => Some None
            | Some f =>
                let s := f_sc f in
                if nz (sc_err s) then Some (Some (- EFAULT, None, f))
                else
                  let n := u32 (sc_rtail s - sc_rhead s) in
                  bs ← rdn (sc_rbuf s) 0 n;
                  Some (Some (if rx_fault then (- EFAULT, Some (n, []), f) else (0, Some (n, bs), f)))
            end
    end.

(** ** [sc_open] and [sc_release] *)

(** Finding the interface of a minor number. *)
Fixpoint find_intf (minor : Z) (minors : list Z) : nat :=
  match minors with
  | [] => 0
  | m :: minors => if minor =? m then 0 else S (find_intf minor minors)
  end.

(** Switching the reader on. *)
Definition power_on (s : nuc970_sc) : nuc970_sc :=
  let s := if nz (sc_pwrinv s) then set_bits SC_PINCTL_PWRINV REG_SC_PINCTL s else s in
  let s := if sc_cdlvl s =? 0 then set_bits SC_CTL_CDLV REG_SC_CTL s else s in
  set_bits SC_CTL_SCEN REG_SC_CTL s.

(** [sc_open] on the array [sc]; [clk] and [eclk] are the error codes of
    [clk_get] (0 for a clock), [irq_err] says whether [request_irq] fails. The
    result is the return value, the interface opened, and the array. *)
Definition sc_open_dev (minor : Z) (minors : list Z) (clk eclk : Z) (irq_err : bool) (sc : list nuc970_sc)
    : option (Z * nat * list nuc970_sc) :=
  let intf := find_intf minor minors in
  s ← sc !! intf;
  s0 ← sc !! 0%nat;
  if sc_open s0 =? 1 then Some (- EBUSY, intf, sc)
  else if nz clk then Some (clk, intf, sc)
  else if nz eclk then Some (eclk, intf, sc)
  else
    let s := power_on s in
    if irq_err then Some (- EAGAIN, intf, <[intf := s]> sc)
    else Some (0, intf, <[intf := s <| sc_open := 1 |>]> sc).

Definition sc_release (s : nuc970_sc) : Z * nuc970_sc :=
  let s := writel SC_INTSTS_INITIF REG_SC_INTSTS s in
  let s := set_bits SC_ALTCTL_DACTEN REG_SC_ALTCTL s in
  let s := writel 0 REG_SC_INTEN s in
  let s := writel 0 REG_SC_ALTCTL s in
  let s := writel 0 REG_SC_CTL s in
  let s := s <| sc_atrlen := 0 |> <| sc_rtail := 0 |> <| sc_rhead := 0 |> <| sc_act := 0 |> in
  (0, (clear_T0_T1 s) <| sc_atr := atr_zero |> <| sc_open := 0 |>).
