(* ===== verification/ScFopsSpec.v ===== *)
(** The file operations: activating a card sets the reader up as its answer
    says; a T=0 command written is carried out and its response is what a read
    returns; and the branches of the operations that fail. *)
From S2P Require Import Prelude Checksum CtBuf Atr AtrSpec ScDev ScIsr T1 T1Spec T1Safe ScLink ScLinkSpec AtrParse AtrParseSpec T0 T0Spec ScIsrSpec ScFops.

(** ** Reading *)
Lemma sc_read_response resp count s :
  sc_err s = 0 -> sc_rhead s = 0 -> sc_rtail s = zlen resp -> zlen (sc_rbuf s) = MAX_LEN -> resp <> [] ->
  slice (sc_rbuf s) 0 (zlen resp) = resp -> zlen resp <= MAX_LEN -> zlen resp <= count ->
  sc_read count false s = Some (zlen resp, resp, s <| sc_rhead := zlen resp |>).
Proof.
  intros He Hh Ht Hl Hne Hs Hm Hc; unfold sc_read, MAX_LEN in *; rewrite Hh, Ht, He, Z.sub_0_r, Z.add_0_l.
  pose proof (zlen_pos resp Hne).
  rewrite (proj2 (Z.eqb_neq count 0)), (proj2 (Z.eqb_neq 0 (zlen resp))) by lia; cbn [orb]; rewrite u32_id by lia.
  set (n := if 300 <? count then 300 else count); assert (Hn : zlen resp <= n) by (unfold n; zcase; lia).
  assert (Hif : (if zlen resp <? n then zlen resp else n) = zlen resp) by (zcase; lia).
  rewrite Hif; cbn [nz Z.eqb negb]; rewrite rdn_in by lia; cbn [mbind option_bind]; rewrite Hs.
  assert (to_s32 (zlen resp) = zlen resp) as -> by (unfold to_s32; rewrite Z.mod_small; lia); done.
Qed.

(** The start of a command that fits the buffer. *)
Lemma new_command_ok bs evs v s f :
  f_w f = mk_world evs v s -> dev_ok s -> zlen bs <= MAX_LEN ->
  exists f' s', new_command (zlen bs) (mk_user bs false) f = Some f' /\ f_w f' = mk_world evs v s' /\ f_gRx0 f' = f_gRx0 f /\
    idle_ok s' /\ sc_tcnt s' = zlen bs /\ sc_toffset s' = 0 /\ sc_rtail s' = 0 /\ sc_tbuf s' = bs ++ drop (length bs) (sc_tbuf s) /\
    sc_protocol s' = sc_protocol s /\ sc_sent s' = sc_sent s /\ sc_t1 s' = sc_t1 s /\
    f' = f <| f_w := mk_world evs v s' |>.
Proof.
  intros Hfw Hd Hl; pose proof (d_tbuf _ Hd) as Htb; unfold new_command; rewrite (proj2 (Z.ltb_ge MAX_LEN (zlen bs))) by done.
  rewrite zlen_to_nat; cbn [u_bytes]; rewrite firstn_all.
  destruct f as [w t1 sd gTx gRx1 gRx0]; simpl in Hfw; subst w.
  match goal with |- context [wrn ?b 0 bs] => change b with (sc_tbuf s) end.
  rewrite wrn_0 by lia; eexists _, _; split; [reflexivity|]; split; [reflexivity|]; split_and!; try reflexivity.
  pose proof (zlen_nonneg bs); destruct Hd; split; try reflexivity; [|unfold MAX_LEN; simpl; lia].
  split; try assumption; simpl; try lia.
  zlen_simpl; unfold zlen in *; lia.
Qed.

Lemma apdu_bytes_le a : apdu_wf a -> zlen (apdu_bytes a) <= MAX_LEN.
Proof. intros [Hd _]; unfold apdu_bytes, MAX_LEN; destruct (a_data a), (a_le a); zlen_simpl; lia. Qed.

Lemma response_le a d sw1 sw2 : dialogue_room a d sw1 sw2 -> zlen (dialogue_data d ++ [sw1; sw2]) <= MAX_LEN.
Proof.
  destruct d as [steps e|steps]; cbn [dialogue_room dialogue_data]; [|intros _; unfold MAX_LEN; zlen_simpl; lia].
  intros Hw; etransitivity; [|exact Hw]; unfold rx_data, rx_wire; pose proof (bytes_ge_data (a_ins a) steps).
  assert (zlen (end_data e) <= zlen (end_bytes (a_ins a) e)) by (destruct e; cbn [end_data end_bytes]; zlen_simpl; lia).
  zlen_simpl; lia.
Qed.

Lemma transfer_T0 emv fuel f evs v s x :
  f_w f = mk_world evs v s -> sc_protocol s = 0 ->
  CmdXfrT0 fuel (mk_world evs v s) (f_gRx0 f) (sc_tcnt s) = Some (T0Return x) ->
  transfer emv fuel f = Some (Some (f <| f_w := t_w x |> <| f_gRx0 := t_gRx x |>)).
Proof. intros Hfw Hp Hx; unfold transfer, f_sc; rewrite Hfw; cbn [w_sc]; by rewrite Hp, Hx. Qed.

(** C23: writing a command and reading its response, T=0. A program writes any
    short command (with or without data, with or without Le, INS not 6X or 9X) to an active card that
    follows ISO 7816-3; whatever way the card chooses to give its data or to take
    those of the command, at once or byte by byte, with requests for time in between
    or ending early, but never asking for more than there is, and with at most 300
    bytes from the card in all: the card has received
    the header and exactly the data bytes it asked for, each once and in order; the
    write reports their number; a read with room for it returns exactly the card's
    data followed by the status bytes, and consumes the response. A command of four
    bytes (no data, no Le) is sent with a fifth one, which is what the buffer held
    there before. *)
Theorem write_read_T0 emv a d sw1 sw2 rest v s f fuel count :
  let resp := dialogue_data d ++ [sw1; sw2] in
  let got := card_gets a d (sc_tbuf s) in
  apdu_wf a -> dialogue_ok a d -> ins_ok (a_ins a) -> sw1_ok sw1 -> is_u8 sw2 -> dialogue_room a d sw1 sw2 -> (dialogue_turns d < fuel)%nat ->
  f_w f = mk_world (dialogue_evs a d sw1 sw2 ++ rest) v s ->
  dev_ok s -> sc_act s = 1 -> sc_protocol s = 0 -> zlen (f_gRx0 f) = 300 -> zlen resp <= count ->
  exists f' s', sc_write emv fuel (zlen (apdu_bytes a)) (mk_user (apdu_bytes a) false) f = Some (Some (zlen got, f')) /\
    w_evs (f_w f') = rest /\ sc_sent (f_sc f') = sc_sent s ++ got /\
    sc_read count false (f_sc f') = Some (zlen resp, resp, s') /\ sc_rhead s' = sc_rtail s'.
Proof.
  intros resp got Hwf Hok Hins Hs1 Hs2 Hroom Hf Hfw Hd Hact Hp Hg Hc; unfold sc_write.
  assert (Hfs : f_sc f = s) by (unfold f_sc; by rewrite Hfw).
  assert (Hm : 4 <= zlen (apdu_bytes a) <= MAX_LEN) by (split; [apply apdu_bytes_ge | by apply apdu_bytes_le]).
  rewrite (proj2 (Z.eqb_neq (zlen (apdu_bytes a)) 0)), Hfs, Hact by lia; cbn [Z.eqb Pos.eqb negb].
  destruct (new_command_ok (apdu_bytes a) _ v s f Hfw Hd (proj2 Hm)) as (f1 & s1 & Hn & Hfw1 & Hg1 & Hi1 & Htc1 & Hto1 & Hrt1 & Htb1 & Hp1 & Hse1 & _).
  rewrite Hn; cbn [mbind option_bind u_fault].
  destruct (card_command a d (sc_tbuf s) sw1 sw2 rest v s1 (f_gRx0 f1) fuel) as (x & Hx & [[Hev Hva] He Hh Ht Hrb Hr Hse Htc]); try assumption; [apply (d_tbuf _ Hd) | by rewrite Hg1|].
  erewrite transfer_T0; [|exact Hfw1 | by rewrite Hp1 | rewrite Htc1; exact Hx].
  cbn [mbind option_bind]; set (f2 := (f1 <| f_w := t_w x |>) <| f_gRx0 := t_gRx x |>).
  change (f_sc f2) with (t_sc x); rewrite He, Htc; cbn [nz Z.eqb negb]; fold resp got in Ht, Hr, Hse |- *.
  exists f2, ((t_sc x) <| sc_rhead := zlen resp |>).
  split; [reflexivity|]; split; [exact Hev|]; split; [by rewrite <- Hse1|]; split; [|by rewrite <- Ht].
  apply sc_read_response; try assumption; [by destruct (dialogue_data d) | by apply (response_le a)].
Qed.

Definition intf_example (s : nuc970_sc) (evs : list event) : intf :=
  mk_intf (mk_world evs (mk_vars 0 0 0 0) s) t1_example (replicate 259 0) (replicate 300 0) (replicate 300 0) (replicate 300 0).

Lemma active_example_ok : dev_ok (dev_example <| sc_act := 1 |>).
Proof. destruct dev_example_ok; by split. Qed.

(** A command that takes three bytes and gives none; Le is not sent. *)
Lemma write_read_T0_witness :
  let a := mk_apdu 0 0xA4 4 0 [7; 8; 9] (Some 0) in let d := Takes [SNull; SOne false; SAll true] in
  exists f' s', sc_write false 10 9 (mk_user [0; 0xA4; 4; 0; 3; 7; 8; 9; 0] false) (intf_example (dev_example <| sc_act := 1 |>)
      (dialogue_evs a d 0x90 0 ++ [])) = Some (Some (8, f')) /\ sc_sent (f_sc f') = [0; 0xA4; 4; 0; 3; 7; 8; 9] /\
    sc_read 64 false (f_sc f') = Some (2, [0x90; 0], s').
Proof.
  intros a d; edestruct (write_read_T0 false a d 0x90 0 [] (mk_vars 0 0 0 0) (dev_example <| sc_act := 1 |>)
    (intf_example (dev_example <| sc_act := 1 |>) (dialogue_evs a d 0x90 0 ++ [])) 10 64) as (f' & s' & Hw & _ & Hs & Hr & _).
  - split; [vm_compute; discriminate | split; [lia | reflexivity]].
  - split; [discriminate | vm_compute; discriminate].
  - split; [split; [vm_compute; discriminate | reflexivity] | reflexivity].
  - split_and!; [unfold is_u8; lia | lia | reflexivity].
  - unfold is_u8; lia.
  - vm_compute; discriminate.
  - simpl; lia.
  - reflexivity.
  - exact active_example_ok.
  - reflexivity.
  - reflexivity.
  - reflexivity.
  - vm_compute; congruence.
  - exists f', s'; split; [exact Hw|]; split; [exact Hs | exact Hr].
Defined.

(** A command of four bytes after one of five: the card gets the length of the
    command before. *)
Lemma case1_stale : card_gets (mk_apdu 0 0x44 0 0 [] None) (Gives [] RStop) ([0; 0xB0; 0; 0; 3] ++ replicate 295 0) = [0; 0x44; 0; 0; 3].
Proof. reflexivity. Qed.

(** ** Activating a card *)
























(** ** Answers that are not forgotten

    The structure is not cleared between two activations: of a card that is reset
    with another answer, the parser keeps the bytes of groups that only the first
    one had. Here the second answer names T=0, but the reader takes the TA2 and the
    protocol of the first. *)
Definition two_groups : atr_desc := mk_desc 0x3B (mk_group None (Some 0) None) [(1, mk_group (Some 0x81) None None)] [].
Definition one_group : atr_desc := mk_desc 0x3B (mk_group None (Some 0) None) [] [].

Lemma atr_stale_bytes : exists a a', ATR_InitFromArray atr_zero (atr_print two_groups) (zlen (atr_print two_groups)) = Some (0, a) /\
  ATR_InitFromArray a (atr_print one_group) (zlen (atr_print one_group)) = Some (0, a') /\ iso_protocol (desc_bytes one_group) = 0 /\ ATR_GetDefaultProtocol a' = Some (1, 2).
Proof. eexists _, _; split; [vm_compute; reflexivity|]; split; [vm_compute; reflexivity|]; by split. Qed.

(** ** Branches that fail *)

(** [sc_read] hands out the buffer from its start, not from where the last
    read ended: after a read of [k] bytes of a response, a second read of what
    is left returns the first bytes of the response again. *)
Theorem sc_read_restarts resp k s :
  sc_err s = 0 -> sc_rhead s = 0 -> sc_rtail s = zlen resp -> zlen (sc_rbuf s) = MAX_LEN ->
  slice (sc_rbuf s) 0 (zlen resp) = resp -> zlen resp <= MAX_LEN -> 0 < k < zlen resp ->
  exists s1 s2, sc_read k false s = Some (k, take (Z.to_nat k) resp, s1) /\
    sc_read (zlen resp) false s1 = Some (zlen resp - k, take (Z.to_nat (zlen resp - k)) resp, s2) /\
    sc_read (zlen resp) false s2 = Some (0, [], s2).
Proof.
  intros He Hh Ht Hl Hs Hm Hk; unfold MAX_LEN in *.
  assert (Hpre : forall n, 0 <= n <= zlen resp -> slice (sc_rbuf s) 0 n = take (Z.to_nat n) resp).
  { intros n Hn; apply (f_equal (take (Z.to_nat n))) in Hs; rewrite <- Hs; unfold slice; rewrite take_take; f_equal; lia. }
  assert (Hs32 : forall x, 0 <= x <= 300 -> to_s32 x = x) by (intros; unfold to_s32; rewrite Z.mod_small; lia).
  exists (s <| sc_rhead := k |>), (s <| sc_rhead := zlen resp |>).
  assert (Hgen : forall h c n, 0 <= h < zlen resp -> 0 < c <= zlen resp -> n = Z.min c (zlen resp - h) ->
    sc_read c false (s <| sc_rhead := h |>) = Some (n, take (Z.to_nat n) resp, s <| sc_rhead := h + n |>)).
  { intros h c n Hh' Hc ->; unfold sc_read; cbn [sc_rhead sc_rtail sc_err sc_rbuf set]; rewrite Ht, He; unfold MAX_LEN.
    rewrite (proj2 (Z.eqb_neq c 0)), (proj2 (Z.eqb_neq h (zlen resp))) by lia; cbn [orb nz Z.eqb negb].
    rewrite (proj2 (Z.ltb_ge 300 c)), u32_id by lia; set (n := if _ <? c then _ else c).
    assert (Hn : n = Z.min c (zlen resp - h)) by (unfold n; zcase; lia).
    rewrite rdn_in by lia; cbn [mbind option_bind]; rewrite Hpre, Hn, Hs32 by lia; done. }
  split_and!.
  - assert (Hs0 : s = s <| sc_rhead := 0 |>) by (destruct s; simpl in *; by subst).
    rewrite Hs0 at 1; rewrite (Hgen 0 k k) by lia; by rewrite Z.add_0_l.
  - rewrite (Hgen k (zlen resp) (zlen resp - k)) by lia; by rewrite Zplus_minus.
  - unfold sc_read; cbn [sc_rhead sc_rtail set]; by rewrite Ht, Z.eqb_refl, orb_true_r.
Qed.

Lemma sc_read_restarts_witness :
  exists s1 s2, sc_read 2 false (dev_example <| sc_rbuf := [7; 8; 9] ++ replicate 297 0 |> <| sc_rtail := 3 |>) = Some (2, [7; 8], s1) /\
    sc_read 3 false s1 = Some (1, [7], s2) /\ sc_read 3 false s2 = Some (0, [], s2).
Proof.
  apply (sc_read_restarts [7; 8; 9] 2 (dev_example <| sc_rbuf := [7; 8; 9] ++ replicate 297 0 |> <| sc_rtail := 3 |>)).
  - vm_compute; reflexivity.
  - vm_compute; reflexivity.
  - vm_compute; reflexivity.
  - vm_compute; reflexivity.
  - vm_compute; reflexivity.
  - vm_compute; congruence.
  - split; reflexivity.
Defined.

(** [sc_write] limits [tcnt] to the 300 bytes of the buffer, but copies all
    [count] bytes: on an active card a longer write leaves the buffer. *)
Theorem sc_write_overflow emv fuel bs fault f :
  sc_act (f_sc f) = 1 -> zlen (sc_tbuf (f_sc f)) = MAX_LEN -> MAX_LEN < zlen bs ->
  sc_write emv fuel (zlen bs) (mk_user bs fault) f = None.
Proof.
  intros Ha Hl Hb; unfold sc_write, MAX_LEN in *; rewrite (proj2 (Z.eqb_neq (zlen bs) 0)), Ha by lia; cbn [Z.eqb Pos.eqb negb].
  unfold new_command; rewrite zlen_to_nat; cbn [u_bytes]; rewrite firstn_all.
  match goal with |- context [wrn ?b 0 bs] => change b with (sc_tbuf (f_sc f)) end.
  by rewrite wrn_oob by lia.
Qed.

Lemma sc_write_overflow_witness :
  sc_write false 5 301 (mk_user (replicate 301 0) false) (intf_example (dev_example <| sc_act := 1 |>) []) = None.
Proof. apply (sc_write_overflow false 5 (replicate 301 0) false); reflexivity. Defined.

Lemma find_second m0 m1 : m0 <> m1 -> find_intf m1 [m0; m1] = 1%nat.
Proof. intros H; cbn [find_intf]; rewrite (proj2 (Z.eqb_neq m1 m0)), Z.eqb_refl by congruence; reflexivity. Qed.

Lemma open_second m0 m1 s0 s1 : m0 <> m1 -> sc_open s0 <> 1 ->
  sc_open_dev m1 [m0; m1] 0 0 false [s0; s1] = Some (0, 1%nat, [s0; (power_on s1) <| sc_open := 1 |>]).
Proof.
  intros Hm Ho; unfold sc_open_dev; rewrite find_second by exact Hm.
  change ([s0; s1] !! 1%nat) with (Some s1); change ([s0; s1] !! 0%nat) with (Some s0); cbn [mbind option_bind].
  rewrite (proj2 (Z.eqb_neq _ _) Ho); reflexivity.
Qed.

(** The file of an interface is opened by at most one program only on the
    first interface: [sc_open] tests the flag of interface 0 whichever interface
    is opened. While interface 0 is closed the second interface can be opened
    again and again, and while it is open the second cannot be opened at all. *)
Theorem sc_open_second m0 m1 s0 s1 :
  m0 <> m1 ->
  (sc_open s0 <> 1 -> exists s1' s1'', sc_open_dev m1 [m0; m1] 0 0 false [s0; s1] = Some (0, 1%nat, [s0; s1']) /\ sc_open s1' = 1 /\
     sc_open_dev m1 [m0; m1] 0 0 false [s0; s1'] = Some (0, 1%nat, [s0; s1''])) /\
  (sc_open s0 = 1 -> sc_open_dev m1 [m0; m1] 0 0 false [s0; s1] = Some (- EBUSY, 1%nat, [s0; s1])).
Proof.
  intros Hm; split; intros Ho.
  - exists ((power_on s1) <| sc_open := 1 |>); eexists; split; [by apply open_second|]; split; [reflexivity | by apply open_second].
  - unfold sc_open_dev; rewrite find_second by exact Hm.
    change ([s0; s1] !! 1%nat) with (Some s1); change ([s0; s1] !! 0%nat) with (Some s0); cbn [mbind option_bind].
    rewrite Ho; reflexivity.
Qed.

Lemma sc_open_second_witness :
  sc_open_dev 62 [61; 62] 0 0 false [sc_zero <| sc_open := 1 |>; sc_zero] = Some (- EBUSY, 1%nat, [sc_zero <| sc_open := 1 |>; sc_zero]).
Proof. apply (sc_open_second 61 62 (sc_zero <| sc_open := 1 |>) sc_zero); [lia | reflexivity]. Defined.

Lemma card_absent status s : sc_cdlvl s <> 2 -> sc_act s <> 1 -> sc_err s = SC_ERR_CARD_REMOVED ->
  card_status status s = (ICC_ABSENT, s <| sc_err := 0 |>).
Proof. intros Hc Ha He; unfold card_status; rewrite (proj2 (Z.eqb_neq _ _) Hc), (proj2 (Z.eqb_neq _ _) Ha), He; reflexivity. Qed.

Lemma card_pin status s : sc_cdlvl s <> 2 -> sc_act s <> 1 -> sc_err s <> SC_ERR_CARD_REMOVED ->
  card_status status s =
    (if negb (Z.shiftr (Z.land status SC_STATUS_CDPINSTS) 13 =? Z.shiftr (Z.land (readl REG_SC_CTL s) SC_CTL_CDLV) 26)
     then ICC_ABSENT else ICC_PRESENT_INACTIVE, s).
Proof.
  intros Hc Ha He; unfold card_status.
  rewrite (proj2 (Z.eqb_neq _ _) Hc), (proj2 (Z.eqb_neq _ _) Ha), (proj2 (Z.eqb_neq _ _) He).
  by destruct (_ =? Z.shiftr (Z.land (readl REG_SC_CTL s) SC_CTL_CDLV) 26).
Qed.

(** a removal is reported once. After the handler has seen the card go, and
    unless the reader ignores card detection, the first status request says
    absent and clears the error; the next one reports what the pin says. *)
Theorem removal_reported status s :
  forgotten s -> sc_err s = SC_ERR_CARD_REMOVED -> sc_cdlvl s <> 2 ->
  exists s', ioctl_getstatus status false s = (0, Some ICC_ABSENT, s') /\ sc_err s' = 0 /\
    ioctl_getstatus status false s' = (0, Some (if Z.shiftr (Z.land status SC_STATUS_CDPINSTS) 13 =?
      Z.shiftr (Z.land (readl REG_SC_CTL s) SC_CTL_CDLV) 26 then ICC_PRESENT_INACTIVE else ICC_ABSENT), s').
Proof.
  intros (_ & _ & Ha & _) He Hc; exists (s <| sc_err := 0 |>); unfold ioctl_getstatus.
  rewrite (card_absent status s), (card_pin status (s <| sc_err := 0 |>)) by (first [assumption | discriminate | cbn; lia]).
  split; [reflexivity|]; split; [reflexivity|].
  change (readl REG_SC_CTL (s <| sc_err := 0 |>)) with (readl REG_SC_CTL s).
  by destruct (_ =? Z.shiftr (Z.land (readl REG_SC_CTL s) SC_CTL_CDLV) 26).
Qed.

Lemma removal_reported_witness :
  let s := sc_zero <| sc_err := SC_ERR_CARD_REMOVED |> <| sc_act := -1 |> in
  exists s', ioctl_getstatus 0x2000 false s = (0, Some ICC_ABSENT, s') /\ ioctl_getstatus 0x2000 false s' = (0, Some ICC_ABSENT, s').
Proof.
  intros s; destruct (removal_reported 0x2000 s) as (s' & H1 & _ & H2).
  - split_and!; try reflexivity; discriminate.
  - reflexivity.
  - discriminate.
  - exists s'; split; [exact H1 | exact H2].
Defined.
