(* ===== verification/ScFopsT1.v ===== *)
(** A command written to a T=1 card and its response read, from end to end: the
    file operations over the protocol loop, the interrupt handler, the faults of
    the line, and a reference card. *)
From S2P Require Import Prelude Checksum CtBuf Atr ScDev ScIsr T1 T1Spec T1Card T1Safe T1Sim ScLink ScLinkSpec T1Dev T0 T0Spec ScFops ScFopsSpec.

(** The card's side of an interface at the start of a command. *)
Record card_side (k R : Z) (t1 : t1_state_t) (l : link) : Prop := {
  cs_session : session csum_lrc k R t1 l;
  cs_survivable : survivable csum_lrc R R (l_sched l);
  cs_line : Forall line_fault (l_sched l);
  cs_card : card_wf (l_card l);
}.

(** The host's side: an active T=1 card with the checksum LRC, and the buffers
    of the interface in their sizes. *)
Record host_side (f : intf) (s : nuc970_sc) : Prop := {
  hs_dev : dev_ok s;
  hs_edc : EDC (sc_t1 s) = SC_CHKSUM_LRC;
  hs_act : sc_act s = 1;
  hs_protocol : sc_protocol s = 1;
  hs_sdata : zlen (f_sdata f) = T1_BUFFER_SIZE;
  hs_gTx : zlen (f_gTx f) = MAX_LEN;
  hs_gRx : zlen (f_gRx1 f) = MAX_LEN;
}.

(** The transmit buffer of the file with the command. *)
Definition with_command (cmd gTx : list Z) : list Z := cmd ++ drop (length cmd) gTx.

Section T1.
  Context (app : list (list Z) -> list Z -> list Z) (k : Z) (emv : bool).
  Hypothesis Happ : forall log cmd, Forall is_u8 (app log cmd).
  Hypothesis Hk : 1 <= k <= 254.

(** The interrupts that a command sets off, and the bytes it sends. *)
Definition command_evs (fuel : nat) (l : link) (cmd : list Z) (f : intf) : list event :=
  call_evs app k emv fuel l (f_t1 f) (f_sdata f) (with_command cmd (f_gTx f)) (zlen cmd) (f_gRx1 f).
Definition command_wire (fuel : nat) (l : link) (cmd : list Z) (f : intf) : list Z :=
  call_wire app k emv fuel l (f_t1 f) (f_sdata f) (with_command cmd (f_gTx f)) (zlen cmd) (f_gRx1 f).

(** The abstract link after the command. *)
Definition link_after (fuel : nat) (l : link) (cmd : list Z) (f : intf) : option link :=
  match t1_transceive (T1Link0 := card_link app csum_lrc k (swap_nibbles 0)) emv 0 fuel l (f_t1 f) (f_sdata f)
      (with_command cmd (f_gTx f)) (zlen cmd) (f_gRx1 f) with
  | Some (Some (_, l, _, _, _)) => Some l
  | _ => None
  end.

Lemma write_T1 R fuel l cmd rest v s f :
  let resp := app (c_log (l_card l)) cmd in
  1 <= R < 4294967296 -> card_side k R (f_t1 f) l -> host_side f s ->
  f_w f = mk_world (command_evs fuel l cmd f ++ rest) v s ->
  1 <= zlen cmd <= MAX_LEN -> 1 <= zlen resp <= T1_BUFFER_SIZE ->
  2 * zlen (l_sched l) + 2 * zlen cmd + zlen resp < Z.of_nat fuel ->
  exists n f' l', sc_write emv fuel (zlen cmd) (mk_user cmd false) f = Some (Some (n, f')) /\ 0 <= n /\
    w_evs (f_w f') = rest /\ sc_sent (f_sc f') = sc_sent s ++ command_wire fuel l cmd f /\
    sc_err (f_sc f') = 0 /\ sc_rhead (f_sc f') = 0 /\ sc_rtail (f_sc f') = zlen resp /\ zlen (sc_rbuf (f_sc f')) = MAX_LEN /\
    slice (sc_rbuf (f_sc f')) 0 (zlen resp) = resp /\
    link_after fuel l cmd f = Some l' /\ c_log (l_card l') = c_log (l_card l) ++ [cmd] /\ session csum_lrc k R (f_t1 f') l'.
Proof.
  intros resp HR [Hses Hsur Hline Hcard] [Hd Hedc Hact Hp Hsd HTx HRx] Hfw Hc Hr Hfuel; unfold sc_write, T1_BUFFER_SIZE, MAX_LEN in *.
  assert (Hfs : f_sc f = s) by (unfold f_sc; by rewrite Hfw).
  rewrite Hfs, Hact, (proj2 (Z.eqb_neq (zlen cmd) 0)) by lia; cbn [Z.eqb Pos.eqb negb].
  destruct (new_command_ok cmd _ v s f Hfw Hd) as (f1 & s1 & Hn & Hfw1 & _ & Hi1 & Htc1 & _ & _ & Htb1 & Hp1 & Hse1 & Ht1 & Hf1);
    [unfold MAX_LEN; lia|]; rewrite Hn, bind_ok; cbn [u_fault]; destruct Hi1 as [Hd1 He1 _ _].
  assert (Hx : transfer emv fuel f1 = (r ← CmdXfrT1 emv fuel (f_w f1) (f_t1 f) (f_sdata f) (f_gTx f) (f_gRx1 f) (zlen cmd);
    Some (match r with Some (_, w, t1, sdata, gTx, gRx) => Some (mk_intf w t1 sdata gTx gRx (f_gRx0 f)) | None => None end))).
  { unfold transfer, f_sc; rewrite Hfw1; cbn [w_sc]; rewrite Hp1, Hp, Htc1; by rewrite Hf1. }
  rewrite Hx, Hfw1; unfold CmdXfrT1; cbn [w_sc].
  assert (Hm : memcpy (f_gTx f) 0 (sc_tbuf s1) 0 (zlen cmd) = Some (with_command cmd (f_gTx f))).
  { unfold memcpy; rewrite Htb1, rdn_in by (rewrite ?zlen_app; pose proof (zlen_nonneg (drop (length cmd) (sc_tbuf s))); lia).
    rewrite slice_app_prefix, bind_ok; apply wrn_0; lia. }
  step_ok Hm; assert (Hcmd : cmd = take (Z.to_nat (zlen cmd)) (with_command cmd (f_gTx f))) by (unfold with_command; by rewrite zlen_to_nat, take_app_length).
  destruct Hses as [Hto Hcs HRt Hal Hsy Hle].
  assert (HL : linked (command_evs fuel l cmd f ++ rest) (sc_sent s) l (mk_world (command_evs fuel l cmd f ++ rest) v s1)).
  { split; cbn; try done; [congruence | by rewrite Ht1]. }
  destruct (transceive_linked app k Happ Hk emv R (c_log (l_card l)) cmd HR Hr fuel l (mk_world (command_evs fuel l cmd f ++ rest) v s1)
    (f_t1 f) (f_sdata f) (with_command cmd (f_gTx f)) (zlen cmd) (f_gRx1 f) rest (sc_sent s))
    as (l' & w' & t1' & sd' & rcv' & Hlk & Hdv & HL' & Hrd & Hlog & Hses'); try done; try (unfold T1_BUFFER_SIZE; lia).
  { unfold with_command; rewrite zlen_app; pose proof (zlen_nonneg (drop (length cmd) (f_gTx f))); lia. }
  fold resp in Hlk, Hdv, Hrd; rewrite Hdv, bind_ok.
  destruct HL' as [Hev Hse' Her Hd' _ _ _]; pose proof (ses_err _ _ _ _ _ Hses') as Hle'.
  assert (Hrl : zlen resp <= zlen rcv') by (unfold zlen; rewrite <- Hrd at 1; rewrite length_take; lia).
  change (sc_rbuf (w_sc (set_sc (fun s => s <| sc_rhead := 0 |> <| sc_rtail := zlen resp |>) w'))) with (sc_rbuf (w_sc w')).
  pose proof (d_rbuf _ Hd') as Hrb; unfold MAX_LEN in Hrb.
  assert (Hm2 : memcpy (sc_rbuf (w_sc w')) 0 rcv' 0 (zlen resp) = Some (resp ++ drop (length resp) (sc_rbuf (w_sc w')))).
  { unfold memcpy; rewrite rdn_in, slice_0, zlen_to_nat, Hrd, bind_ok by lia; apply wrn_0; lia. }
  rewrite Hm2, !bind_ok; set (w2 := set_sc _ (set_sc _ w')).
  exists (sc_tcnt (w_sc w')), (mk_intf w2 t1' sd' (with_command cmd (f_gTx f)) rcv' (f_gRx0 f)), l'.
  split; [change (sc_err (f_sc (mk_intf w2 t1' sd' (with_command cmd (f_gTx f)) rcv' (f_gRx0 f)))) with (sc_err (w_sc w'));
    rewrite <- Her, Hle'; reflexivity|].
  split; [destruct (d_tx _ Hd'); lia|]; split; [exact Hev|]; split; [exact Hse'|]; split; [cbn; congruence|].
  split; [done|]; split; [done|]; split; [cbn; rewrite zlen_app, zlen_drop; unfold zlen in *; lia|].
  split; [exact (slice_app_prefix resp _)|]; split; [unfold link_after; change (the_link app k) with (card_link app csum_lrc k (swap_nibbles 0)) in Hlk; by rewrite Hlk | done].
Qed.

(** C2: writing a command and reading its response, T=1. A program writes a
    command to an active card that follows the T=1 rules and uses LRC as its
    checksum; blocks to the card may be damaged, blocks from it may be damaged in a
    way that leaves them as many bytes as their length byte says, and blocks in
    either direction may be lost in a way that the timer notices ([line_fault]). As
    long as no block fails [retries] times in a row, the write succeeds, the bytes
    that go out are those of the blocks that the card heard, the card has run exactly
    this command once, a read with room for it returns exactly the card's response,
    and host and card are ready for the next command. *)
Theorem write_read_T1 R fuel l cmd rest v s f count :
  let resp := app (c_log (l_card l)) cmd in
  1 <= R < 4294967296 -> card_side k R (f_t1 f) l -> host_side f s ->
  f_w f = mk_world (command_evs fuel l cmd f ++ rest) v s ->
  1 <= zlen cmd <= MAX_LEN -> 1 <= zlen resp <= T1_BUFFER_SIZE -> zlen resp <= count ->
  2 * zlen (l_sched l) + 2 * zlen cmd + zlen resp < Z.of_nat fuel ->
  exists n f' s' l', sc_write emv fuel (zlen cmd) (mk_user cmd false) f = Some (Some (n, f')) /\ 0 <= n /\
    w_evs (f_w f') = rest /\ sc_sent (f_sc f') = sc_sent s ++ command_wire fuel l cmd f /\
    sc_read count false (f_sc f') = Some (zlen resp, resp, s') /\ sc_rhead s' = sc_rtail s' /\
    link_after fuel l cmd f = Some l' /\ c_log (l_card l') = c_log (l_card l) ++ [cmd] /\ session csum_lrc k R (f_t1 f') l'.
Proof.
  intros resp HR Hcs Hhs Hfw Hc Hr Hcount Hfuel.
  destruct (write_T1 R fuel l cmd rest v s f HR Hcs Hhs Hfw Hc Hr Hfuel)
    as (n & f' & l' & Hw & Hn & Hev & Hse & He & Hh & Ht & Hl & Hsl & Hla & Hlog & Hses).
  fold resp in Ht, Hsl; exists n, f', ((f_sc f') <| sc_rhead := zlen resp |>), l'.
  split; [exact Hw|]; split; [exact Hn|]; split; [exact Hev|]; split; [exact Hse|]; split.
  - apply sc_read_response; try assumption; unfold T1_BUFFER_SIZE, MAX_LEN in *; try lia.
    intros E; apply (f_equal zlen) in E; rewrite zlen_nil in E; lia.
  - split; [by cbn|]; done.
Qed.
End T1.

(** A card that answers every command with its length in bytes and 0x9000, and a
    line that loses, damages and garbles blocks. *)
Definition counting_card (log : list (list Z)) (cmd : list Z) : list Z := replicate 20 (u8 (zlen cmd)) ++ [0x90; 0x00].

Lemma counting_card_ok log cmd : Forall is_u8 (counting_card log cmd).
Proof.
  unfold counting_card; apply Forall_app; split; [apply Forall_replicate, u8_u8 | repeat constructor; unfold is_u8; first [lia | split; lia]].
Qed.

Definition line_example : link :=
  mk_link (mk_card [] 0 0 [] []) 0 0
    [RequestLost (-1) SC_ERR_TIME0OUT; RequestBad; NoFault; ReplyLost (-1) SC_ERR_TIME0OUT; NoFault; ReplyBad [0; 0; 0; 1]].
Definition t1_dev_example : nuc970_sc := dev_example <| sc_act := 1 |> <| sc_protocol := 1 |>.
Definition read_binary : list Z := [0x00; 0xB0; 0x00; 0x00; 0x05; 1; 2; 3; 4; 5; 6; 7].
Definition file_example : intf :=
  intf_example t1_dev_example (command_evs counting_card 10 false 100 line_example read_binary (intf_example t1_dev_example []) ++ []).

Lemma file_example_w :
  f_w file_example =
    mk_world (command_evs counting_card 10 false 100 line_example read_binary file_example ++ []) (mk_vars 0 0 0 0) t1_dev_example.
Proof. unfold file_example, command_evs, intf_example; cbn [f_t1 f_sdata f_gTx f_gRx1 f_w]; reflexivity. Qed.

Lemma write_read_T1_witness :
  exists n f' s', sc_write false 100 12 (mk_user read_binary false) file_example = Some (Some (n, f')) /\ w_evs (f_w f') = [] /\
    sc_read 300 false (f_sc f') = Some (22, replicate 20 12 ++ [0x90; 0x00], s').
Proof.
  destruct (write_read_T1 counting_card 10 false counting_card_ok
    ltac:(lia) 3 100 line_example read_binary [] (mk_vars 0 0 0 0) t1_dev_example file_example 300)
    as (n & f' & s' & l' & Hw & _ & He & _ & Hr & _).
  - lia.
  - split; [split; try (vm_compute; intuition congruence); apply t1_example_ok | vm_compute; intuition congruence | |].
    + repeat (apply Forall_cons; split); try done; by (exists 0, 0, 0, [1]; split_and!; repeat constructor; done).
    + by split_and!; [left | left | constructor].
  - by split; [destruct dev_example_ok; split | ..].
  - exact file_example_w.
  - done.
  - done.
  - done.
  - done.
  - exists n, f', s'; split_and!; [exact Hw | exact He | exact Hr].
Defined.
