(* ===== verification/Gpio.v ===== *)
(** The GPIO port driver (src/drivers/gpio/gpio-nuc970.c): the registers of the
    ports, what is connected to the pins, and the functions other drivers use
    to set, read and configure one pin. *)
From S2P Require Import Prelude.

(** ** The hardware around the pins

    What is connected to the pins is a state [E] of the user's choice: it
    answers a read of an input register, and it notices every register write. *)
Class Board (E : Type) := {
  board_write : Z -> Z -> E -> E;
  board_read : Z -> E -> Z }.

(** A board whose levels do not depend on what the driver writes. *)
Class Passive (E : Type) `{!Board E} :=
  board_passive : forall a v b e, board_read b (board_write a v e) = board_read b e.

(** The registers and the board. *)
Record io (E : Type) := mk_io { io_regs : gmap Z Z; io_board : E }.
Arguments mk_io {E}.
Arguments io_regs {E}.
Arguments io_board {E}.

(** ** Register addresses *)
Definition GPIO_BA : Z := 0xF8003000.
Definition GCR_BA : Z := 0xF8002000.
Definition REG_MFP_GPA_L : Z := GCR_BA + 0x070.
Definition REG_MFP_GPF_H : Z := GCR_BA + 0x09C.
Definition REG_MFP_GPG_H : Z := GCR_BA + 0x0A4.
Definition REG_MFP_GPH_L : Z := GCR_BA + 0x0A8.
Definition REG_MFP_GPI_L : Z := GCR_BA + 0x0B0.
Definition GPIO_OFFSET : Z := 0x20.
Definition NUMGPIO : Z := 0x20 * 10.
Definition REG_GPIOD_DATAOUT : Z := GPIO_BA + 0x0C4.
Definition REG_GPIOI_DATAOUT : Z := GPIO_BA + 0x204.

Record gpio_port := mk_port { p_dir : Z; p_out : Z; p_in : Z }.

(** The ports A to J; the last entry has null pointers. *)
Definition port_class : list (option gpio_port) :=
  [ Some (mk_port (GPIO_BA + 0x000) (GPIO_BA + 0x004) (GPIO_BA + 0x008));
    Some (mk_port (GPIO_BA + 0x040) (GPIO_BA + 0x044) (GPIO_BA + 0x048));
    Some (mk_port (GPIO_BA + 0x080) (GPIO_BA + 0x084) (GPIO_BA + 0x088));
    Some (mk_port (GPIO_BA + 0x0C0) REG_GPIOD_DATAOUT (GPIO_BA + 0x0C8));
    Some (mk_port (GPIO_BA + 0x100) (GPIO_BA + 0x104) (GPIO_BA + 0x108));
    Some (mk_port (GPIO_BA + 0x140) (GPIO_BA + 0x144) (GPIO_BA + 0x148));
    Some (mk_port (GPIO_BA + 0x180) (GPIO_BA + 0x184) (GPIO_BA + 0x188));
    Some (mk_port (GPIO_BA + 0x1C0) (GPIO_BA + 0x1C4) (GPIO_BA + 0x1C8));
    Some (mk_port (GPIO_BA + 0x200) REG_GPIOI_DATAOUT (GPIO_BA + 0x208));
    Some (mk_port (GPIO_BA + 0x240) (GPIO_BA + 0x244) (GPIO_BA + 0x248));
    None ].

(** Is [a] the input register of a port? *)
Definition is_datain (a : Z) : bool :=
  existsb (fun p => match p with Some p => p_in p =? a | None => false end) port_class.

Section Gpio.
  Context {E : Type} `{!Board E}.
  Implicit Types g : io E.

(** An input register shows the pins; any other register what was written. *)
Definition io_readl (a : Z) (g : io E) : Z :=
  if is_datain a then u32 (board_read a (io_board g)) else default 0 (io_regs g !! a).

Definition io_writel (v a : Z) (g : io E) : io E :=
  mk_io (<[a := u32 v]> (io_regs g)) (board_write a (u32 v) (io_board g)).

(** ** Pins

    The port of a pin ([None]: no such entry, or the null one) and its bit. *)
Definition nuc970_gpio_cla_port (gpio_num : Z) : option gpio_port * Z :=
  (mjoin (rd port_class (gpio_num / GPIO_OFFSET)), gpio_num mod GPIO_OFFSET).

Definition bit_of (port_num : Z) : Z := Z.shiftl 1 port_num.
Definition with_bit (value port_num : Z) : Z := Z.lor value (bit_of port_num).
Definition without_bit (value port_num : Z) : Z := Z.land value (Z.lnot (bit_of port_num)).

Definition nuc970_gpio_core_direction_in (gpio_num : Z) g : option (Z * io E) :=
  let '(port, port_num) := nuc970_gpio_cla_port gpio_num in
  port ← port;
  let value := io_readl (p_dir port) g in
  let value := without_bit value port_num in
  Some (0, io_writel value (p_dir port) g).

Definition nuc970_gpio_core_get (gpio_num : Z) g : option (Z * io E) :=
  let '(port, port_num) := nuc970_gpio_cla_port gpio_num in
  port ← port;
  if nz (Z.land (io_readl (p_dir port) g) (bit_of port_num)) then
    Some (Z.land (Z.shiftr (io_readl (p_out port) g) port_num) 1, g)
  else
    let value := Z.land (Z.shiftr (io_readl (p_in port) g) port_num) 1 in
    Some (value, io_writel value (p_in port) g).

Definition nuc970_gpio_core_set (gpio_num val : Z) g : option (io E) :=
  let '(port, port_num) := nuc970_gpio_cla_port gpio_num in
  port ← port;
  let reg := if nz (Z.land (io_readl (p_dir port) g) (bit_of port_num)) then p_out port else p_in port in
  let value := io_readl reg g in
  let value := if nz val then with_bit value port_num else without_bit value port_num in
  Some (io_writel value reg g).

Definition nuc970_gpio_core_direction_out (gpio_num val : Z) g : option (Z * io E) :=
  let '(port, port_num) := nuc970_gpio_cla_port gpio_num in
  port ← port;
  let value := io_readl (p_dir port) g in
  let value := with_bit value port_num in
  let g := io_writel value (p_dir port) g in
  g ← nuc970_gpio_core_set gpio_num val g;
  Some (0, g).

(** The pin function register of [offset], and the shift of its field. A field
    beyond the register would need a shift of 32 bits or more. *)
Definition mfp_field (offset : Z) : Z * Z :=
  let reg := REG_MFP_GPA_L + (offset / GPIO_OFFSET) * 8 in
  let num := offset mod GPIO_OFFSET in
  if 7 <? num then (reg + 4, (num - 8) * 4) else (reg, num * 4).

Definition nuc970_gpio_core_to_request (offset : Z) g : option Z :=
  let '(reg, sh) := mfp_field offset in
  if 32 <=? sh then None
  else
    let value := Z.shiftr (Z.land (io_readl reg g) (u32 (Z.shiftl 0xf sh))) sh in
    if (0 <? value) && (value <? 0xf) then Some (- EINVAL) else Some 0.

End Gpio.

(** The functions exported to other drivers have the same bodies. *)
Definition nuc970_gpio_core_direction_in1 {E} `{!Board E} := nuc970_gpio_core_direction_in (E := E).
Definition nuc970_gpio_core_get1 {E} `{!Board E} := nuc970_gpio_core_get (E := E).
Definition nuc970_gpio_core_set1 {E} `{!Board E} := nuc970_gpio_core_set (E := E).
Definition nuc970_gpio_core_direction_out1 {E} `{!Board E} := nuc970_gpio_core_direction_out (E := E).
Definition nuc970_gpio_core_to_request1 {E} `{!Board E} := nuc970_gpio_core_to_request (E := E).

(** ** The interrupt of a pin

    The pins that may be external interrupt inputs: the pin, the function
    register and the shift of the pin's field there, and the interrupt. *)
Definition EXT0_BASE : Z := 100.
Definition IRQ_GPIO_START : Z := 0x100.
Definition ext_irqs : list (Z * Z * Z * Z) :=
  [ (0xE0 + 0, REG_MFP_GPH_L, 0, EXT0_BASE + 0); (0xE0 + 1, REG_MFP_GPH_L, 4, EXT0_BASE + 1);
    (0xE0 + 2, REG_MFP_GPH_L, 8, EXT0_BASE + 2); (0xE0 + 3, REG_MFP_GPH_L, 12, EXT0_BASE + 3);
    (0xE0 + 4, REG_MFP_GPH_L, 16, EXT0_BASE + 4); (0xE0 + 5, REG_MFP_GPH_L, 20, EXT0_BASE + 5);
    (0xE0 + 6, REG_MFP_GPH_L, 24, EXT0_BASE + 6); (0xE0 + 7, REG_MFP_GPH_L, 28, EXT0_BASE + 7);
    (0xA0 + 11, REG_MFP_GPF_H, 12, EXT0_BASE + 8); (0xA0 + 12, REG_MFP_GPF_H, 16, EXT0_BASE + 9);
    (0xA0 + 13, REG_MFP_GPF_H, 20, EXT0_BASE + 10); (0xA0 + 14, REG_MFP_GPF_H, 24, EXT0_BASE + 11);
    (0xA0 + 15, REG_MFP_GPF_H, 28, EXT0_BASE + 12); (0xC0 + 15, REG_MFP_GPG_H, 28, EXT0_BASE + 13);
    (0x100 + 1, REG_MFP_GPI_L, 4, EXT0_BASE + 14); (0x100 + 2, REG_MFP_GPI_L, 8, EXT0_BASE + 15) ].

Fixpoint ext_irq {E} `{!Board E} (cases : list (Z * Z * Z * Z)) (offset : Z) (g : io E) : Z :=
  match cases with
  | [] => IRQ_GPIO_START + offset
  | (pin, reg, sh, irqno) :: cases =>
      if offset =? pin then
        let field := Z.shiftl 0xf sh in
        if Z.land (io_readl reg g) field =? field then irqno else IRQ_GPIO_START + offset
      else ext_irq cases offset g
  end.

Definition nuc970_gpio_core_to_irq {E} `{!Board E} (offset : Z) (g : io E) : Z := ext_irq ext_irqs offset g.
