(* ===== verification/GpioSpec.v ===== *)
(** What the GPIO functions do to the pins: an output shows what was last set on
    it, an input shows the board, and no operation touches another pin. *)
From S2P Require Import Prelude Gpio.

(** ** Bits of a register *)
Lemma testbit_bit_of j i : 0 <= j -> Z.testbit (bit_of j) i = (j =? i).
Proof. intros; unfold bit_of; rewrite Z.shiftl_1_l; by apply Z.pow2_bits_eqb. Qed.

Lemma testbit_with_bit x j i : 0 <= j -> Z.testbit (with_bit x j) i = Z.testbit x i || (j =? i).
Proof. intros; unfold with_bit; by rewrite Z.lor_spec, testbit_bit_of. Qed.

Lemma testbit_without_bit x j i : 0 <= j -> 0 <= i -> Z.testbit (without_bit x j) i = Z.testbit x i && negb (j =? i).
Proof. intros; unfold without_bit; by rewrite Z.land_spec, Z.lnot_spec, testbit_bit_of. Qed.

Lemma nz_land_bit x j : 0 <= j -> nz (Z.land x (bit_of j)) = Z.testbit x j.
Proof.
  intros Hj; unfold nz; destruct (Z.testbit x j) eqn:E; [apply negb_true_iff, Z.eqb_neq; intros H | apply negb_false_iff, Z.eqb_eq].
  - apply (f_equal (fun v => Z.testbit v j)) in H; revert H.
    by rewrite Z.land_spec, testbit_bit_of, Z.eqb_refl, E, Z.bits_0.
  - apply Z.bits_inj'; intros i Hi; rewrite Z.land_spec, testbit_bit_of, Z.bits_0 by lia.
    destruct (j =? i) eqn:Eij; zbool; subst; by rewrite ?E, ?andb_false_r.
Qed.

Lemma bit_value x j : 0 <= j -> Z.land (Z.shiftr x j) 1 = Z.b2z (Z.testbit x j).
Proof.
  intros; change 1 with (Z.ones 1); rewrite Z.land_ones, Z.shiftr_div_pow2 by lia.
  by rewrite Z.testbit_spec'.
Qed.

(** ** Pins *)
Definition real_pin (n : Z) : Prop := 0 <= n < NUMGPIO.

(** The addresses of port [k]. *)
Definition dir_reg (k : Z) : Z := GPIO_BA + 0x40 * k.
Definition out_reg (k : Z) : Z := GPIO_BA + 0x40 * k + 4.
Definition in_reg (k : Z) : Z := GPIO_BA + 0x40 * k + 8.
Definition port_no (n : Z) : Z := n / GPIO_OFFSET.
Definition pin_no (n : Z) : Z := n mod GPIO_OFFSET.

Lemma pin_range n : real_pin n -> 0 <= port_no n < 10 /\ 0 <= pin_no n < 32 /\ n = 32 * port_no n + pin_no n.
Proof.
  unfold real_pin, port_no, pin_no, GPIO_OFFSET, NUMGPIO; intros Hn.
  pose proof (Z.div_mod n 0x20); pose proof (Z.mod_pos_bound n 0x20); lia.
Qed.

Lemma port_cases k : 0 <= k < 10 ->
  mjoin (rd port_class k) = Some (mk_port (dir_reg k) (out_reg k) (in_reg k)) /\
  is_datain (dir_reg k) = false /\ is_datain (out_reg k) = false /\ is_datain (in_reg k) = true.
Proof.
  intros Hk; assert (Hc : k = 0 \/ k = 1 \/ k = 2 \/ k = 3 \/ k = 4 \/ k = 5 \/ k = 6 \/ k = 7 \/ k = 8 \/ k = 9) by lia.
  repeat destruct Hc as [-> | Hc]; subst; split_and!; vm_compute; reflexivity.
Qed.

Lemma cla_port n : real_pin n ->
  nuc970_gpio_cla_port n = (Some (mk_port (dir_reg (port_no n)) (out_reg (port_no n)) (in_reg (port_no n))), pin_no n).
Proof. intros [Hk _]%pin_range; unfold nuc970_gpio_cla_port; fold (port_no n); by rewrite (proj1 (port_cases _ Hk)). Qed.

Section Pins.
  Context {E : Type} `{!Board E}.
  Implicit Types g : io E.

(** The direction of a pin, the level it drives, and the level of its wire. *)
Definition is_output (n : Z) g : bool := Z.testbit (io_readl (dir_reg (port_no n)) g) (pin_no n).
Definition out_level (n : Z) g : bool := Z.testbit (io_readl (out_reg (port_no n)) g) (pin_no n).
Definition in_level (n : Z) g : bool := Z.testbit (io_readl (in_reg (port_no n)) g) (pin_no n).

Lemma readl_same v a g : is_datain a = false -> io_readl a (io_writel v a g) = u32 v.
Proof. intros Ha; unfold io_readl, io_writel; rewrite Ha; cbn [io_regs]; by rewrite lookup_insert_eq. Qed.

Lemma readl_other v a b g : is_datain b = false -> a <> b -> io_readl b (io_writel v a g) = io_readl b g.
Proof. intros Hb Hab; unfold io_readl, io_writel; rewrite Hb; cbn [io_regs]; by rewrite lookup_insert_ne. Qed.

(** Where a function writes port [k]'s register of one kind, only the pins of
    that port can change, and only as the register does. *)
Lemma dir_write v k g n : 0 <= k < 10 -> real_pin n ->
  is_output n (io_writel v (dir_reg k) g) = (if k =? port_no n then Z.testbit v (pin_no n) else is_output n g) /\
  out_level n (io_writel v (dir_reg k) g) = out_level n g.
Proof.
  intros Hk (Hp & Hi & _)%pin_range; destruct (port_cases _ Hp) as (_ & Hd & Ho & _); unfold is_output, out_level; split.
  - destruct (k =? port_no n) eqn:Ek; zbool.
    + subst k; rewrite readl_same by done; by apply testbit_u32.
    + rewrite readl_other; [done | done | unfold dir_reg; lia].
  - rewrite readl_other; [done | done | unfold dir_reg, out_reg; lia].
Qed.

Lemma out_write v k g n : 0 <= k < 10 -> real_pin n ->
  out_level n (io_writel v (out_reg k) g) = (if k =? port_no n then Z.testbit v (pin_no n) else out_level n g) /\
  is_output n (io_writel v (out_reg k) g) = is_output n g.
Proof.
  intros Hk (Hp & Hi & _)%pin_range; destruct (port_cases _ Hp) as (_ & Hd & Ho & _); unfold is_output, out_level; split.
  - destruct (k =? port_no n) eqn:Ek; zbool.
    + subst k; rewrite readl_same by done; by apply testbit_u32.
    + rewrite readl_other; [done | done | unfold out_reg; lia].
  - rewrite readl_other; [done | done | unfold dir_reg, out_reg; lia].
Qed.

(** ** The functions, pin by pin *)
Lemma get_out n g : real_pin n -> is_output n g = true ->
  nuc970_gpio_core_get n g = Some (Z.b2z (out_level n g), g).
Proof.
  intros Hn Ho; pose proof (pin_range n Hn) as (_ & Hi & _); unfold nuc970_gpio_core_get; rewrite cla_port by done.
  cbn [mbind option_bind p_dir p_out]; rewrite nz_land_bit, !bit_value by lia.
  change (Z.testbit (io_readl (dir_reg (port_no n)) g) (pin_no n)) with (is_output n g); rewrite Ho; reflexivity.
Qed.

Lemma get_in n g : real_pin n -> is_output n g = false ->
  nuc970_gpio_core_get n g =
    Some (Z.b2z (in_level n g), io_writel (Z.b2z (in_level n g)) (in_reg (port_no n)) g).
Proof.
  intros Hn Ho; pose proof (pin_range n Hn) as (_ & Hi & _); unfold nuc970_gpio_core_get; rewrite cla_port by done.
  cbn [mbind option_bind p_dir p_in]; rewrite nz_land_bit, !bit_value by lia.
  change (Z.testbit (io_readl (dir_reg (port_no n)) g) (pin_no n)) with (is_output n g); rewrite Ho; reflexivity.
Qed.

(** A change of one pin's driven level, and of one pin's direction. *)
Definition sets_level (n : Z) (b : bool) g g' : Prop :=
  (forall m, real_pin m -> is_output m g' = is_output m g) /\
  (forall m, real_pin m -> out_level m g' = if m =? n then b else out_level m g).

Definition sets_direction (n : Z) (b : bool) g g' : Prop :=
  (forall m, real_pin m -> out_level m g' = out_level m g) /\
  (forall m, real_pin m -> is_output m g' = if m =? n then b else is_output m g).

Lemma same_pin n m : real_pin n -> real_pin m -> (m =? n) = (port_no n =? port_no m) && (pin_no n =? pin_no m).
Proof.
  intros (_ & _ & Hn)%pin_range (_ & _ & Hm)%pin_range; apply eq_true_iff_eq.
  rewrite andb_true_iff, !Z.eqb_eq; split; [intros ->; done | intros [H1 H2]; lia].
Qed.

Lemma level_written n m (b : bool) v g :
  real_pin n -> real_pin m ->
  (forall i, 0 <= i < 32 -> Z.testbit v i = if pin_no n =? i then b else Z.testbit (io_readl (out_reg (port_no n)) g) i) ->
  (if port_no n =? port_no m then Z.testbit v (pin_no m) else out_level m g) = if m =? n then b else out_level m g.
Proof.
  intros Hn Hm Hv; pose proof (pin_range m Hm) as (_ & Hi & _); rewrite (same_pin n m) by done.
  destruct (port_no n =? port_no m) eqn:Ek; zbool; cbn [andb]; [|done].
  rewrite Hv by done; unfold out_level; by rewrite Ek.
Qed.

Lemma set_bits_of (val x j i : Z) : 0 <= j -> 0 <= i ->
  Z.testbit (if nz val then with_bit x j else without_bit x j) i = if j =? i then nz val else Z.testbit x i.
Proof.
  intros; destruct (nz val); rewrite ?testbit_with_bit, ?testbit_without_bit by done;
    destruct (j =? i); by rewrite ?orb_true_r, ?orb_false_r, ?andb_false_r, ?andb_true_r.
Qed.

Lemma set_out n val g : real_pin n -> is_output n g = true ->
  exists g', nuc970_gpio_core_set n val g = Some g' /\ sets_level n (nz val) g g'.
Proof.
  intros Hn Ho; pose proof (pin_range n Hn) as (Hk & Hi & _); unfold nuc970_gpio_core_set; rewrite cla_port by done.
  cbn [mbind option_bind p_dir p_out]; rewrite nz_land_bit by lia.
  change (Z.testbit (io_readl (dir_reg (port_no n)) g) (pin_no n)) with (is_output n g); rewrite Ho.
  eexists; split; [reflexivity|]; split; intros m Hm.
  - by apply out_write.
  - rewrite (proj1 (out_write _ _ _ _ Hk Hm)); apply level_written; try done.
    intros i Hi'; apply set_bits_of; lia.
Qed.

(** C40: a pin that is an output shows the level last set on it, and setting it
    leaves the direction of every pin and the level of every other pin alone. *)
Theorem gpio_set_get n val g : real_pin n -> is_output n g = true ->
  exists g', nuc970_gpio_core_set1 n val g = Some g' /\ nuc970_gpio_core_get1 n g' = Some (Z.b2z (nz val), g') /\ sets_level n (nz val) g g'.
Proof.
  intros Hn Ho; destruct (set_out n val g Hn Ho) as (g' & Hs & Hd & Hl).
  exists g'; split; [exact Hs|]; split; [|by split].
  change (nuc970_gpio_core_get1 n g') with (nuc970_gpio_core_get n g').
  rewrite get_out by (rewrite ?Hd; done); by rewrite Hl, Z.eqb_refl.
Qed.

Lemma direction_written n (b : bool) v g : real_pin n ->
  (forall i, 0 <= i < 32 -> Z.testbit v i = if pin_no n =? i then b else Z.testbit (io_readl (dir_reg (port_no n)) g) i) ->
  sets_direction n b g (io_writel v (dir_reg (port_no n)) g).
Proof.
  intros Hn Hv; pose proof (pin_range n Hn) as (Hk & _ & _); split; intros m' Hm'.
  - by apply dir_write.
  - pose proof (pin_range m' Hm') as (_ & Hi & _); rewrite (proj1 (dir_write _ _ _ _ Hk Hm')), (same_pin n m') by done.
    destruct (port_no n =? port_no m') eqn:Ek; zbool; cbn [andb]; [|done].
    rewrite Hv by done; unfold is_output; by rewrite Ek.
Qed.

Lemma out_ok n val g : real_pin n ->
  exists g1 g', nuc970_gpio_core_direction_out n val g = Some (0, g') /\ sets_direction n true g g1 /\ sets_level n (nz val) g1 g'.
Proof.
  intros Hn; pose proof (pin_range n Hn) as (Hk & Hi & _); unfold nuc970_gpio_core_direction_out; rewrite cla_port by done.
  cbn [mbind option_bind p_dir]; set (g1 := io_writel _ _ g).
  assert (Hd : sets_direction n true g g1).
  { apply direction_written; [done|]; intros i Hi'; rewrite testbit_with_bit by lia.
    destruct (pin_no n =? i); by rewrite ?orb_true_r, ?orb_false_r. }
  assert (Ho : is_output n g1 = true) by (rewrite (proj2 Hd n Hn); by rewrite Z.eqb_refl).
  destruct (set_out n val g1 Hn Ho) as (g' & Hs & Hl); exists g1, g'; rewrite Hs; by split_and!.
Qed.

Lemma in_ok n g : real_pin n ->
  exists g', nuc970_gpio_core_direction_in n g = Some (0, g') /\ sets_direction n false g g'.
Proof.
  intros Hn; pose proof (pin_range n Hn) as (Hk & Hi & _); unfold nuc970_gpio_core_direction_in; rewrite cla_port by done.
  cbn [mbind option_bind p_dir]; eexists; split; [reflexivity|].
  apply direction_written; [done|]; intros i Hi'; rewrite testbit_without_bit by lia.
  destruct (pin_no n =? i); by rewrite ?andb_false_r, ?andb_true_r.
Qed.

(** making a pin an output gives it the requested level from then on, and
    changes neither the direction nor the level of any other pin. *)
Theorem gpio_direction_out n val g : real_pin n ->
  exists g', nuc970_gpio_core_direction_out1 n val g = Some (0, g') /\
    nuc970_gpio_core_get1 n g' = Some (Z.b2z (nz val), g') /\
    (forall m, real_pin m -> is_output m g' = if m =? n then true else is_output m g) /\
    (forall m, real_pin m -> out_level m g' = if m =? n then nz val else out_level m g).
Proof.
  intros Hn; destruct (out_ok n val g Hn) as (g1 & g' & Hr & [Hl1 Hd1] & [Hd Hl]).
  exists g'; split_and!; [exact Hr | | |].
  - change (nuc970_gpio_core_get1 n g') with (nuc970_gpio_core_get n g').
    rewrite get_out by (rewrite ?Hd, ?Hd1, ?Z.eqb_refl; done); by rewrite Hl, Z.eqb_refl.
  - intros m Hm; by rewrite Hd, Hd1.
  - intros m Hm; by rewrite Hl, Hl1.
Qed.

Lemma in_write_frame v k g n : 0 <= k < 10 -> real_pin n ->
  is_output n (io_writel v (in_reg k) g) = is_output n g /\ out_level n (io_writel v (in_reg k) g) = out_level n g.
Proof.
  intros Hk (Hp & Hi & _)%pin_range; destruct (port_cases _ Hp) as (_ & Hd & Ho & _); unfold is_output, out_level.
  split; (rewrite readl_other; [done | done | unfold dir_reg, out_reg, in_reg; lia]).
Qed.

(** Making a pin an input lets its reads show the level the board gives the
    wire; neither that nor the read (which writes the level back to the input
    register) changes the direction or the driven level of any other pin. *)
Theorem gpio_direction_in n g : real_pin n ->
  exists g' g'', nuc970_gpio_core_direction_in1 n g = Some (0, g') /\
    nuc970_gpio_core_get1 n g' = Some (Z.b2z (Z.testbit (board_read (in_reg (port_no n)) (io_board g')) (pin_no n)), g'') /\
    (forall m, real_pin m -> is_output m g'' = if m =? n then false else is_output m g) /\
    (forall m, real_pin m -> out_level m g'' = out_level m g).
Proof.
  intros Hn; destruct (in_ok n g Hn) as (g' & Hr & [Hl Hd]); pose proof (pin_range n Hn) as (Hk & Hi & _).
  assert (Ho : is_output n g' = false) by (rewrite Hd by done; by rewrite Z.eqb_refl).
  assert (Hv : in_level n g' = Z.testbit (board_read (in_reg (port_no n)) (io_board g')) (pin_no n)).
  { unfold in_level, io_readl; rewrite (proj2 (proj2 (proj2 (port_cases _ Hk)))); by apply testbit_u32. }
  eexists g', _; split_and!; [exact Hr | rewrite <- Hv; exact (get_in n g' Hn Ho) | |].
  - intros m Hm; by rewrite (proj1 (in_write_frame _ _ _ _ Hk Hm)), Hd.
  - intros m Hm; by rewrite (proj2 (in_write_frame _ _ _ _ Hk Hm)), Hl.
Qed.

(** ** Reading pins of a passive board *)

(** The level a read of the pin returns. *)
Definition pin_level (n : Z) g : bool := if is_output n g then out_level n g else in_level n g.

Definition same_pins g g' : Prop := forall m, real_pin m ->
  is_output m g' = is_output m g /\ out_level m g' = out_level m g /\ in_level m g' = in_level m g.

#[export] Instance same_pins_preorder : PreOrder same_pins.
Proof.
  split; [by intros g m Hm | intros g g' g'' H1 H2 m Hm].
  destruct (H1 m Hm) as (<- & <- & <-), (H2 m Hm) as (<- & <- & <-); done.
Qed.

Lemma same_pins_level g g' n : real_pin n -> same_pins g g' -> pin_level n g' = pin_level n g.
Proof. intros Hn H; destruct (H n Hn) as (H1 & H2 & H3); unfold pin_level; by rewrite H1, H2, H3. Qed.

(** A write to a register that is no direction and no output register. *)
Lemma writel_same_pins `{!Passive E} v a g : (forall k, 0 <= k < 10 -> a <> dir_reg k /\ a <> out_reg k) ->
  same_pins g (io_writel v a g).
Proof.
  intros Ha m (Hk & Hi & _)%pin_range; destruct (port_cases _ Hk) as (_ & Hd & Ho & Hin), (Ha _ Hk) as [Had Hao].
  unfold is_output, out_level, in_level; rewrite !readl_other by done; split_and!; [done | done|].
  unfold io_readl; rewrite Hin; cbn [io_writel io_board]; by rewrite board_passive.
Qed.

Lemma get_level `{!Passive E} n g : real_pin n ->
  exists g', nuc970_gpio_core_get1 n g = Some (Z.b2z (pin_level n g), g') /\ same_pins g g'.
Proof.
  intros Hn; unfold nuc970_gpio_core_get1; pose proof (pin_range n Hn) as (Hk & _ & _); unfold pin_level; destruct (is_output n g) eqn:Ho.
  - exists g; split; [by apply get_out | reflexivity].
  - eexists; split; [by apply get_in|]; apply writel_same_pins; intros k Hk'; unfold in_reg, dir_reg, out_reg; lia.
Qed.

(** The level the board gives the wire of a pin. *)
Definition wire (n : Z) (e : E) : bool := Z.testbit (board_read (in_reg (port_no n)) e) (pin_no n).

Lemma output_regs n r e e' : real_pin n -> is_output n (mk_io r e) = is_output n (mk_io r e').
Proof. intros (Hk & _)%pin_range; unfold is_output, io_readl; by rewrite (proj1 (proj2 (port_cases _ Hk))). Qed.

Lemma input_level n r e : real_pin n -> is_output n (mk_io r e) = false -> pin_level n (mk_io r e) = wire n e.
Proof.
  intros Hn Ho; unfold pin_level; rewrite Ho; pose proof (pin_range n Hn) as (Hk & Hi & _).
  unfold in_level, io_readl, wire; rewrite (proj2 (proj2 (proj2 (port_cases _ Hk)))); by apply testbit_u32.
Qed.

(** ** Numbers beyond the pins *)
Lemma cla_port_beyond n : NUMGPIO <= n -> (nuc970_gpio_cla_port n).1 = None.
Proof.
  intros Hn; unfold NUMGPIO in Hn; unfold nuc970_gpio_cla_port, rd, GPIO_OFFSET; cbn [fst].
  assert (Hk : 10 <= n / 0x20) by (apply Z.div_le_lower_bound; lia).
  rewrite (proj2 (Z.leb_le 0 _)) by lia; destruct (decide (n / 0x20 = 10)) as [-> | Hne]; [reflexivity|].
  rewrite lookup_ge_None_2; [reflexivity | cbn [length port_class]; lia].
Qed.

(** the pin functions reach a port's registers exactly for the numbers below
    NUMGPIO; for any other number they read the null or a missing entry of
    [port_class]. *)
Theorem gpio_bounds n val g : 0 <= n ->
  (is_Some (nuc970_gpio_core_get1 n g) <-> n < NUMGPIO) /\ (is_Some (nuc970_gpio_core_set1 n val g) <-> n < NUMGPIO) /\
  (is_Some (nuc970_gpio_core_direction_in1 n g) <-> n < NUMGPIO) /\ (is_Some (nuc970_gpio_core_direction_out1 n val g) <-> n < NUMGPIO).
Proof.
  intros Hn; unfold nuc970_gpio_core_get1, nuc970_gpio_core_set1, nuc970_gpio_core_direction_in1, nuc970_gpio_core_direction_out1,
    nuc970_gpio_core_get, nuc970_gpio_core_set, nuc970_gpio_core_direction_in, nuc970_gpio_core_direction_out.
  destruct (decide (n < NUMGPIO)) as [Hlt | Hge].
  - destruct (out_ok n val g (conj Hn Hlt)) as (_ & g' & Hr & _).
    unfold nuc970_gpio_core_direction_out in Hr; rewrite (cla_port n (conj Hn Hlt)) in Hr |- *; cbn [mbind option_bind] in Hr |- *.
    rewrite Hr; destruct (nz _); split_and!; split; intros; try done; by eexists.
  - destruct (nuc970_gpio_cla_port n) as [port port_num] eqn:Hc.
    assert (Hp : port = None) by (rewrite <- (cla_port_beyond n), Hc by lia; done); subst port; cbn [mbind option_bind].
    split_and!; split; intros H; try (by destruct H); lia.
Qed.

(** ** Interrupts *)
Lemma ext_irq_cases cases offset g :
  ext_irq cases offset g = IRQ_GPIO_START + offset \/
  exists reg sh irqno, (offset, reg, sh, irqno) ∈ cases /\ ext_irq cases offset g = irqno.
Proof.
  induction cases as [|[[[pin reg] sh] irqno] cases IH]; [by left|]; cbn [ext_irq].
  destruct (offset =? pin) eqn:Eo; zbool; subst.
  - destruct (_ =? _); [right | by left]; exists reg, sh, irqno; split; [left | done].
  - destruct IH as [-> | (r & s & i & Hin & ->)]; [by left | right; exists r, s, i; split; [by right | done]].
Qed.

Lemma ext_irqs_ok : Forall (fun c => EXT0_BASE <= c.2 < IRQ_GPIO_START) ext_irqs /\
  Forall (fun c => Forall (fun c' : Z * Z * Z * Z => c.2 = c'.2 -> c.1.1.1 = c'.1.1.1) ext_irqs) ext_irqs.
Proof. split; repeat constructor; cbn; try lia; discriminate. Qed.

(** two pins never share an interrupt number, however the pin functions are
    configured. *)
Theorem gpio_irq_injective n m g : real_pin n -> real_pin m ->
  n <> m -> nuc970_gpio_core_to_irq n g <> nuc970_gpio_core_to_irq m g.
Proof.
  intros [Hn _] [Hm _] Hne Heq; apply Hne; revert Heq; unfold nuc970_gpio_core_to_irq; destruct ext_irqs_ok as [Hr Hi].
  destruct (ext_irq_cases ext_irqs n g) as [-> | (r & s & i & Hin & ->)], (ext_irq_cases ext_irqs m g) as [-> | (r' & s' & i' & Hin' & ->)].
  - unfold IRQ_GPIO_START; lia.
  - rewrite Forall_forall in Hr; specialize (Hr _ Hin'); cbn [snd] in Hr; lia.
  - rewrite Forall_forall in Hr; specialize (Hr _ Hin); cbn [snd] in Hr; lia.
  - intros ->; rewrite Forall_forall in Hi; specialize (Hi _ Hin); rewrite Forall_forall in Hi; by apply (Hi _ Hin').
Qed.
End Pins.

(** ** Concrete pins *)

(** A board on which every input is high. *)
#[export] Instance high_board : Board unit := { board_write _ _ e := e; board_read _ _ := 0xFFFFFFFF }.
Definition io_example : io unit := mk_io {[ dir_reg 3 := 8 ]} ().

Lemma gpio_set_get_witness :
  exists g', nuc970_gpio_core_set1 99 1 io_example = Some g' /\ nuc970_gpio_core_get1 99 g' = Some (1, g') /\ sets_level 99 true io_example g'.
Proof. apply (gpio_set_get 99 1 io_example); [split; vm_compute; congruence | reflexivity]. Defined.

Lemma gpio_direction_out_witness : exists g', nuc970_gpio_core_direction_out1 260 0 io_example = Some (0, g') /\ is_output 260 g' = true.
Proof.
  destruct (gpio_direction_out 260 0 io_example) as (g' & Hr & _ & Hd & _); [split; vm_compute; congruence|].
  exists g'; split; [exact Hr | apply (Hd 260); split; vm_compute; congruence].
Defined.

Lemma gpio_direction_in_witness : exists g' g'', nuc970_gpio_core_direction_in1 99 io_example = Some (0, g') /\ nuc970_gpio_core_get1 99 g' = Some (1, g'').
Proof.
  destruct (gpio_direction_in 99 io_example) as (g' & g'' & Hr & Hg & _); [split; vm_compute; congruence|].
  exists g', g''; split; [exact Hr | exact Hg].
Defined.

Lemma gpio_bounds_witness : is_Some (nuc970_gpio_core_get1 319 io_example) /\ ~ is_Some (nuc970_gpio_core_get1 320 io_example).
Proof.
  split; [apply (gpio_bounds 319 0 io_example); lia || reflexivity|].
  intros H; apply (gpio_bounds 320 0 io_example) in H; [discriminate H | lia].
Defined.

Lemma gpio_irq_injective_witness : (nuc970_gpio_core_to_irq 224 io_example =? nuc970_gpio_core_to_irq 171 io_example) = false.
Proof. apply Z.eqb_neq, (gpio_irq_injective 224 171 io_example); [split; vm_compute; congruence .. | discriminate]. Defined.
