(* ===== verification/Pulse.v ===== *)
(** The pulse input driver (src/drivers/char/hndl_char_devices/pulse_count.c):
    a 1 ms timer interrupt counts the pulses of two meters' outputs, and a file
    of /proc shows the counts. *)
From Stdlib Require Import Ascii.
From stdpp Require Import pretty strings.
From S2P Require Import Prelude Gpio.

Definition TMR_BA : Z := 0xF8001000.
Definition REG_TMR_TCSR2 : Z := TMR_BA + 0x20.
Definition REG_TMR_TICR2 : Z := TMR_BA + 0x24.
Definition REG_TMR_TISR : Z := TMR_BA + 0x60.
Definition PERIOD : Z := Z.shiftl 0x01 27.
Definition COUNTEN : Z := Z.shiftl 0x01 30.
Definition INTEN : Z := Z.shiftl 0x01 29.
Definition TMR2HZ : Z := 1000.
Definition PRESCALE : Z := 0x63.

(** ** The interrupt handler

    The static variables of one channel: [count_h1], [count_l1], [h1Flag] and
    [l1Flag], or those of the second channel. *)
Record channel := mk_channel { count_h : Z; count_l : Z; hFlag : bool; lFlag : bool }.
#[export] Instance eta_channel : Eta channel := fun c => mk_channel (count_h c) (count_l c) (hFlag c) (lFlag c).

(** [count++] of an [int]: beyond the largest one it has no defined result. *)
Definition int_incr (x : Z) : option Z := if x <? 2147483647 then Some (x + 1) else None.

(** The handler's code for one channel, which it has twice: the level read, the
    channel, and its [pulse_count]. *)
Definition sample_high (c : channel) : channel :=
  let c := if (15 <? count_h c) && negb (hFlag c) then c <| hFlag := true |> <| count_l := 0 |> <| lFlag := false |> else c in
  c <| count_h := u32 (count_h c + 1) |>.

Definition sample_low (c : channel) (count : Z) : option (channel * Z) :=
  let c := c <| count_l := u32 (count_l c + 1) |> in
  let c := if (55 <? count_l c) && negb (lFlag c) then c <| lFlag := true |> <| count_l := 0 |> else c in
  if hFlag c && lFlag c then
    let c := c <| count_h := 0 |> <| count_l := 0 |> <| hFlag := false |> <| lFlag := false |> in
    count ← int_incr count;
    Some (c, count)
  else Some (c, count).

Definition sample (level : Z) (c : channel) (count : Z) : option (channel * Z) :=
  if nz level then Some (sample_high c, count) else sample_low c count.

(** The driver's variables: both channels, [pulse_count], and those of the file. *)
Record pulse_state := mk_pulse {
  channel1 : channel; channel2 : channel; pulse_count0 : Z; pulse_count1 : Z;
  pulse_is_open : Z; pulse_is_first_read : Z }.
#[export] Instance eta_pulse : Eta pulse_state := fun p =>
  mk_pulse (channel1 p) (channel2 p) (pulse_count0 p) (pulse_count1 p) (pulse_is_open p) (pulse_is_first_read p).

Definition pulse_init : pulse_state :=
  mk_pulse (mk_channel 0 0 false false) (mk_channel 0 0 false false) 0 0 0 0.

Section Pulse.
  Context {E : Type} `{!Board E}.
  Implicit Types (p : pulse_state) (g : io E).

Definition timer1_interrupt p g : option (pulse_state * io E) :=
  let g := io_writel 0x04 REG_TMR_TISR g in
  '(level, g) ← nuc970_gpio_core_get1 134 g;
  '(c, n) ← sample level (channel1 p) (pulse_count0 p);
  let p := p <| channel1 := c |> <| pulse_count0 := n |> in
  '(level, g) ← nuc970_gpio_core_get1 133 g;
  '(c, n) ← sample level (channel2 p) (pulse_count1 p);
  Some (p <| channel2 := c |> <| pulse_count1 := n |>, g).

(** [pulse_start]; [clk_rate] is the rate of the timer's clock. The result is
    [timer2_load] with the registers. *)
Definition pulse_start (clk_rate : Z) g : Z * io E :=
  let g := io_writel 0x00 REG_TMR_TCSR2 g in
  let rate := u32 (clk_rate / (PRESCALE + 1)) in
  let timer2_load := rate / TMR2HZ in
  let val := io_readl REG_TMR_TCSR2 g in
  let val := Z.land val (Z.lnot (Z.shiftl 0x01 27)) in
  let g := io_writel timer2_load REG_TMR_TICR2 g in
  let val := Z.lor val (Z.lor (Z.lor (Z.lor PERIOD COUNTEN) INTEN) PRESCALE) in
  (timer2_load, io_writel val REG_TMR_TCSR2 g).
End Pulse.

(** ** The file *)
Definition hnos_proc_dispatch_close (p : pulse_state) : Z * pulse_state := (0, p <| pulse_is_open := 0 |>).

Definition hnos_proc_dispatch_open (p : pulse_state) : Z * pulse_state :=
  if nz (pulse_is_open p) then (- EBUSY, p)
  else (0, p <| pulse_is_open := 1 |> <| pulse_is_first_read := 1 |>).

(** [sprintf(page, "%s\t%d\n", name, n)]. *)
Definition count_line (name : string) (n : Z) : string :=
  (name +:+ String "009"%char "" +:+ pretty n +:+ String "010"%char "")%string.

(** The text, whose length is the result. *)
Definition pulse_proc_read (p : pulse_state) : string :=
  (count_line "pulse0:" (pulse_count0 p) +:+ count_line "pulse1:" (pulse_count1 p))%string.

(** The result, the text stored at the user's address, and the state. *)
Definition hnos_proc_dispatch_read (count : Z) (p : pulse_state) : Z * string * pulse_state :=
  if nz (pulse_is_first_read p) then
    let p := p <| pulse_is_first_read := 0 |> in
    let text := pulse_proc_read p in
    let len := Z.of_nat (String.length text) in
    (if len <? count then len else count, text, p)
  else (0, ""%string, p).
