(* ===== verification/PulseSpec.v ===== *)
(** What the pulse driver counts: per channel, how often seventeen high samples
    were followed by fifty-six low ones; and what its file shows. *)
From stdpp Require Import pretty strings.
From S2P Require Import Prelude Gpio GpioSpec Pulse.

(** ** The reference counter of one channel

    It waits for high samples, then for low ones; samples of the other kind are
    passed over. *)
Inductive phase := High (seen : Z) | Low (seen : Z).

Definition ref_sample (level : bool) (x : phase * Z) : phase * Z :=
  match x, level with
  | (High n, c), true => (if n =? 16 then Low 0 else High (n + 1), c)
  | (Low n, c), false => if n =? 55 then (High 0, c + 1) else (Low (n + 1), c)
  | _, _ => x
  end.

Definition ref_count (levels : list bool) (x : phase * Z) : phase * Z := fold_left (fun x l => ref_sample l x) levels x.

(** The channel's variables in a phase. *)
Definition in_phase (c : channel) (ph : phase) : Prop :=
  match ph with
  | High n => hFlag c = false /\ count_h c = n /\ 0 <= n <= 16 /\ is_u32 (count_l c)
  | Low n => hFlag c = true /\ lFlag c = false /\ count_l c = n /\ 0 <= n <= 55 /\ is_u32 (count_h c)
  end.

Lemma sample_ok (level : bool) c ph n : in_phase c ph -> n < 2147483647 ->
  exists c', sample (Z.b2z level) c n = Some (c', (ref_sample level (ph, n)).2) /\ in_phase c' (ref_sample level (ph, n)).1.
Proof.
  intros Hp Hn; destruct c as [ch cl hf lf]; unfold sample, sample_high, sample_low; destruct ph as [k|k], level;
    cbn [in_phase count_h count_l hFlag lFlag set nz Z.b2z Z.eqb Pos.eqb negb] in *; cbn [ref_sample fst snd].
  - destruct Hp as (-> & -> & Hk & Hl); rewrite andb_true_r; eexists; split; [reflexivity|].
    destruct (k =? 16) eqn:E; zbool; zcase; try lia; cbn [in_phase count_h count_l hFlag lFlag set].
    + split_and!; try done; try lia; apply u32_range.
    + rewrite u32_id by lia; split_and!; try done; lia.
  - destruct Hp as (-> & -> & Hk & Hl).
    destruct ((55 <? _) && _); cbn [hFlag lFlag count_h count_l set andb]; (eexists; split; [reflexivity|]);
      cbn [in_phase count_h count_l hFlag lFlag]; (split_and!; try done; try lia; try apply u32_range).
  - destruct Hp as (-> & -> & <- & Hk & Hh); rewrite andb_false_r; eexists; split; [reflexivity|].
    cbn [in_phase count_h count_l hFlag lFlag set]; split_and!; try done; try lia; apply u32_range.
  - destruct Hp as (-> & -> & <- & Hk & Hh); rewrite andb_true_r, u32_id by lia.
    destruct (cl =? 55) eqn:E; zbool.
    + subst cl; change (55 <? 55 + 1) with true; cbn [andb hFlag lFlag count_h count_l set]; unfold int_incr.
      rewrite (proj2 (Z.ltb_lt _ _)) by lia; cbn [mbind option_bind]; eexists; split; [reflexivity|].
      cbn [fst snd in_phase hFlag count_h count_l]; unfold is_u32; lia.
    + rewrite (proj2 (Z.ltb_ge 55 (cl + 1))) by lia; eexists; split; [reflexivity|]; cbn; split_and!; try done; lia.
Qed.


(** ** The interrupts *)
Section Interrupts.
  Context {E : Type} `{!Board E} `{!Passive E}.
  Implicit Types g : io E.

(** The levels of the two inputs. *)
Definition levels g : bool * bool := (pin_level 134 g, pin_level 133 g).

(** Between two interrupts the board changes as it likes. *)
Fixpoint interrupts (es : list E) (p : pulse_state) (g : io E) : option (pulse_state * io E) :=
  match es with
  | [] => Some (p, g)
  | e :: es => '(p, g) ← timer1_interrupt p (mk_io (io_regs g) e); interrupts es p g
  end.

(** The driver's channels and counts against two reference counters. *)
Definition counts_as p (x1 x2 : phase * Z) : Prop :=
  in_phase (channel1 p) x1.1 /\ in_phase (channel2 p) x2.1 /\ pulse_count0 p = x1.2 /\ pulse_count1 p = x2.2.

Lemma clear_interrupt v g : same_pins g (io_writel v REG_TMR_TISR g).
Proof. apply writel_same_pins; intros k Hk; unfold REG_TMR_TISR, TMR_BA, dir_reg, out_reg, GPIO_BA; lia. Qed.

Lemma sample_pin n g c x : real_pin n -> in_phase c x.1 -> x.2 < 2147483647 ->
  exists g' c', nuc970_gpio_core_get1 n g = Some (Z.b2z (pin_level n g), g') /\ same_pins g g' /\
    sample (Z.b2z (pin_level n g)) c x.2 = Some (c', (ref_sample (pin_level n g) x).2) /\
    in_phase c' (ref_sample (pin_level n g) x).1.
Proof.
  intros Hn Hc Hx; destruct (get_level n g Hn) as (g' & Hr & Hg), x as [ph k].
  destruct (sample_ok (pin_level n g) c ph k Hc Hx) as (c' & Hs & Hc').
  by exists g', c'.
Qed.

Lemma pin_134 : real_pin 134. Proof. unfold real_pin, NUMGPIO; lia. Qed.
Lemma pin_133 : real_pin 133. Proof. unfold real_pin, NUMGPIO; lia. Qed.

Lemma interrupt_ok p g x1 x2 : counts_as p x1 x2 -> x1.2 < 2147483647 -> x2.2 < 2147483647 ->
  exists p' g', timer1_interrupt p g = Some (p', g') /\ same_pins g g' /\
    counts_as p' (ref_sample (pin_level 134 g) x1) (ref_sample (pin_level 133 g) x2).
Proof.
  intros (H1 & H2 & Hc1 & Hc2) Hb1 Hb2; unfold timer1_interrupt; cbv zeta.
  pose proof (clear_interrupt 0x04 g) as Hg0; revert Hg0; generalize (io_writel 0x04 REG_TMR_TISR g) as g0; intros g0 Hg0.
  destruct (sample_pin 134 g0 _ _ pin_134 H1 Hb1) as (g1 & c1 & Hr1 & Hg1 & Hs1 & Hp1).
  destruct (sample_pin 133 g1 _ _ pin_133 H2 Hb2) as (g2 & c2 & Hr2 & Hg2 & Hs2 & Hp2).
  assert (Hl1 : pin_level 134 g0 = pin_level 134 g) by (apply same_pins_level; [apply pin_134 | done]).
  assert (Hg01 : same_pins g g1) by (by transitivity g0).
  assert (Hl2 : pin_level 133 g1 = pin_level 133 g) by (apply same_pins_level; [apply pin_133 | done]).
  rewrite <- Hl1, <- Hl2; step_ok Hr1; rewrite Hc1; step_ok Hs1; step_ok Hr2.
  cbn [channel2 pulse_count1 set]; rewrite Hc2; step_ok Hs2.
  do 2 eexists; split; [reflexivity|]; split; [by transitivity g1 | by split_and!].
Qed.

Lemma ref_step l x : x.2 <= (ref_sample l x).2 <= x.2 + 1.
Proof. destruct x as [[n|n] c], l; cbn; zcase || idtac; cbn; lia. Qed.

Lemma interrupts_ok es : forall p g x1 x2,
  counts_as p x1 x2 -> x1.2 + zlen es <= 2147483647 -> x2.2 + zlen es <= 2147483647 ->
  is_output 134 g = false -> is_output 133 g = false ->
  exists p' g', interrupts es p g = Some (p', g') /\
    counts_as p' (ref_count (map (wire 134) es) x1) (ref_count (map (wire 133) es) x2).
Proof.
  induction es as [|e es IH]; intros p g x1 x2 Hc Hb1 Hb2 Ho1 Ho2; [by exists p, g|].
  rewrite zlen_cons in Hb1, Hb2; pose proof (zlen_nonneg es); destruct g as [r e0].
  rewrite (output_regs 134 r e0 e) in Ho1 by apply pin_134; rewrite (output_regs 133 r e0 e) in Ho2 by apply pin_133.
  destruct (interrupt_ok p (mk_io r e) x1 x2) as (p1 & g1 & Hi & Hg & Hc1); [done | lia | lia|].
  rewrite (input_level 134 r e pin_134 Ho1), (input_level 133 r e pin_133 Ho2) in Hc1.
  pose proof (ref_step (wire 134 e) x1); pose proof (ref_step (wire 133 e) x2).
  destruct (IH p1 g1 _ _ Hc1) as (p' & g' & Hr & Hc'); [lia | lia | | |].
  - by rewrite (proj1 (Hg 134 pin_134)).
  - by rewrite (proj1 (Hg 133 pin_133)).
  - exists p', g'; split; [|done]; cbn [interrupts io_regs]; step_ok Hi; exact Hr.
Qed.

Lemma init_counts : counts_as pulse_init (High 0, 0) (High 0, 0).
Proof. by split_and!. Qed.

(** C39: over any sequence of fewer than 2^31 timer interrupts, with both pins
    inputs, each count is that of the reference counter on the levels of its
    wire: one per seventeen high samples followed by fifty-six low ones, samples
    of the other kind in between being passed over, and no overflow happens. *)
Theorem pulse_counts es g :
  is_output 134 g = false -> is_output 133 g = false -> zlen es <= 2147483647 ->
  exists p' g', interrupts es pulse_init g = Some (p', g') /\
    pulse_count0 p' = (ref_count (map (wire 134) es) (High 0, 0)).2 /\
    pulse_count1 p' = (ref_count (map (wire 133) es) (High 0, 0)).2.
Proof.
  intros Ho1 Ho2 Hl; destruct (interrupts_ok es pulse_init g _ _ init_counts) as (p' & g' & Hr & _ & _ & H1 & H2); try done.
  by exists p', g'.
Qed.
End Interrupts.

(** ** The reference counter *)
Lemma ref_count_app l l' x : ref_count (l ++ l') x = ref_count l' (ref_count l x).
Proof. apply fold_left_app. Qed.

Lemma ref_idle k c : ref_count (replicate k false) (High 0, c) = (High 0, c).
Proof. induction k; [done|]; cbn; apply IHk. Qed.

Lemma ref_held k n c : ref_count (replicate k true) (Low n, c) = (Low n, c).
Proof. induction k; [done|]; cbn; apply IHk. Qed.

Lemma ref_highs k c n : 0 <= n <= 16 -> Z.of_nat k > 16 - n -> ref_count (replicate k true) (High n, c) = (Low 0, c).
Proof.
  revert n; induction k as [|k IH]; intros n Hn Hk; [lia|]; change (replicate (S k) true) with (true :: replicate k true).
  cbn [ref_count fold_left ref_sample]; destruct (n =? 16) eqn:En; zbool; [apply ref_held | apply IH; lia].
Qed.

Lemma ref_lows k c n : 0 <= n <= 55 -> Z.of_nat k > 55 - n -> ref_count (replicate k false) (Low n, c) = (High 0, c + 1).
Proof.
  revert n; induction k as [|k IH]; intros n Hn Hk; [lia|]; change (replicate (S k) false) with (false :: replicate k false).
  cbn [ref_count fold_left ref_sample]; destruct (n =? 55) eqn:En; zbool; [apply ref_idle | apply IH; lia].
Qed.

(** The samples of a train of pulses: each a number of high and of low ones. *)
Definition train (pulses : list (nat * nat)) : list bool :=
  concat (map (fun p => replicate p.1 true ++ replicate p.2 false) pulses).

Lemma ref_train pulses c : Forall (fun p => (17 <= p.1 /\ 56 <= p.2)%nat) pulses ->
  ref_count (train pulses) (High 0, c) = (High 0, c + zlen pulses).
Proof.
  intros H; revert c; induction H as [|[h l] pulses [Hh Hl] _ IH]; intros c; [by rewrite Z.add_0_r|].
  unfold train; cbn [map concat fst snd] in *; fold (train pulses).
  rewrite !ref_count_app, ref_highs, ref_lows, IH, zlen_cons by lia; f_equal; lia.
Qed.

Definition highs (l : list bool) : Z := zlen (filter (fun b => b = true) l).
Definition lows (l : list bool) : Z := zlen (filter (fun b => b = false) l).

(** What the samples seen so far are worth. *)
Definition worth (x : phase * Z) : Z * Z :=
  match x with (High n, c) => (17 * c + n, 56 * c) | (Low n, c) => (17 * c + 17, 56 * c + n) end.

Lemma ref_worth l : forall x, (worth (ref_count l x)).1 <= (worth x).1 + highs l /\ (worth (ref_count l x)).2 <= (worth x).2 + lows l.
Proof.
  induction l as [|b l IH]; intros x; [change (highs []) with 0; change (lows []) with 0; cbn [ref_count fold_left]; lia|].
  specialize (IH (ref_sample b x)).
  change (ref_count (b :: l) x) with (ref_count l (ref_sample b x)).
  assert (Hs : (worth (ref_sample b x)).1 + highs l <= (worth x).1 + highs (b :: l) /\
               (worth (ref_sample b x)).2 + lows l <= (worth x).2 + lows (b :: l)); [|lia].
  unfold highs, lows; rewrite !filter_cons; destruct b, x as [[n|n] c];
    repeat (case_decide; try done); rewrite zlen_cons; cbn [ref_sample].
  all: try match goal with |- context [?m =? ?k] => destruct (m =? k) eqn:En; zbool; subst end; cbn [worth fst snd]; lia.
Qed.


Lemma count_worth x : match x.1 with High n | Low n => 0 <= n end -> 17 * x.2 <= (worth x).1 /\ 56 * x.2 <= (worth x).2.
Proof. destruct x as [[n|n] c]; cbn; lia. Qed.

Lemma phase_nonneg c ph : in_phase c ph -> match ph with High n | Low n => 0 <= n end.
Proof. destruct ph; cbn; lia. Qed.

Section Counts.
  Context {E : Type} `{!Board E} `{!Passive E}.

(** a meter's pulses are all counted, once each: while the wire carries [k]
    pulses, each at least 17 samples high and then at least 56 samples low, the
    interrupts count [k], whatever the other wire does. *)
Theorem pulse_train_counted es (g : io E) pulses :
  is_output 134 g = false -> is_output 133 g = false -> zlen es <= 2147483647 ->
  Forall (fun p => (17 <= p.1 /\ 56 <= p.2)%nat) pulses -> map (wire 134) es = train pulses ->
  exists p' g', interrupts es pulse_init g = Some (p', g') /\ pulse_count0 p' = zlen pulses.
Proof.
  intros Ho1 Ho2 Hl Hp Ht; destruct (interrupts_ok es pulse_init g _ _ init_counts) as (p' & g' & Hr & _ & _ & H1 & _); try done.
  exists p', g'; split; [exact Hr|]; rewrite H1, Ht; by rewrite ref_train.
Qed.

(** no pulse is made up from little: after any samples, a count [n] means at
    least [17 n] high and [56 n] low samples were seen. *)
Theorem pulse_count_bounds es (g : io E) :
  is_output 134 g = false -> is_output 133 g = false -> zlen es <= 2147483647 ->
  exists p' g', interrupts es pulse_init g = Some (p', g') /\
    17 * pulse_count0 p' <= highs (map (wire 134) es) /\ 56 * pulse_count0 p' <= lows (map (wire 134) es) /\
    17 * pulse_count1 p' <= highs (map (wire 133) es) /\ 56 * pulse_count1 p' <= lows (map (wire 133) es).
Proof.
  intros Ho1 Ho2 Hl; destruct (interrupts_ok es pulse_init g _ _ init_counts) as (p' & g' & Hr & Hp1 & Hp2 & H1 & H2); try done.
  exists p', g'; rewrite H1, H2; split; [exact Hr|].
  pose proof (count_worth _ (phase_nonneg _ _ Hp1)); pose proof (count_worth _ (phase_nonneg _ _ Hp2)).
  pose proof (ref_worth (map (wire 134) es) (High 0, 0)) as W1; pose proof (ref_worth (map (wire 133) es) (High 0, 0)) as W2.
  cbn [worth fst snd] in W1, W2; lia.
Qed.
End Counts.

(** ** The file *)

(** One program at a time has the file open; its first read gets the text of
    both counts, and further reads nothing. The whole text is stored whatever
    the size of the read, which only limits the result. *)
Theorem pulse_file_read count count' p : pulse_is_open p = 0 ->
  exists p1 p2, hnos_proc_dispatch_open p = (0, p1) /\
    hnos_proc_dispatch_open p1 = (- EBUSY, p1) /\
    hnos_proc_dispatch_read count p1 = (Z.min (Z.of_nat (String.length (pulse_proc_read p))) count, pulse_proc_read p, p2) /\
    hnos_proc_dispatch_read count' p2 = (0, ""%string, p2) /\
    pulse_is_open (hnos_proc_dispatch_close p2).2 = 0 /\ pulse_count0 p2 = pulse_count0 p /\ pulse_count1 p2 = pulse_count1 p.
Proof.
  intros Ho; destruct p as [c1 c2 n1 n2 o f]; cbn in Ho; subst o.
  exists (mk_pulse c1 c2 n1 n2 1 1), (mk_pulse c1 c2 n1 n2 1 0); split; [reflexivity|].
  split; [reflexivity|]; split; [|by split_and!].
  unfold hnos_proc_dispatch_read; change (nz (pulse_is_first_read _)) with true; cbn iota.
  assert (Hm : forall a b, (if a <? b then a else b) = Z.min a b) by (intros; zcase; lia).
  rewrite Hm; reflexivity.
Qed.

Lemma pulse_file_read_witness :
  exists p2, hnos_proc_dispatch_read 4 (hnos_proc_dispatch_open pulse_init).2 = (4, count_line "pulse0:" 0 +:+ count_line "pulse1:" 0, p2)%string.
Proof.
  destruct (pulse_file_read 4 4 pulse_init) as (p1 & p2 & Ho & _ & Hr & _); [reflexivity|].
  exists p2; rewrite Ho; exact Hr.
Defined.

(** A board that shows the levels of the two wires. *)
#[export] Instance meters_board : Board (bool * bool) := {
  board_write _ _ e := e;
  board_read a e := if a =? in_reg 4 then Z.lor (Z.shiftl (Z.b2z e.1) 6) (Z.shiftl (Z.b2z e.2) 5) else 0 }.
#[export] Instance meters_passive : Passive (bool * bool).
Proof. by intros a v b e. Qed.

(** One pulse of the first meter, and seventeen spikes on the wire of the second,
    which count as a pulse too. *)
Definition wires_example : list (bool * bool) :=
  replicate 20 (true, false) ++ concat (replicate 17 [(false, true); (false, false)]) ++ replicate 56 (false, false).

Lemma pulse_counts_witness :
  exists p' g', interrupts wires_example pulse_init (mk_io ∅ (false, false)) = Some (p', g') /\ pulse_count0 p' = 1 /\ pulse_count1 p' = 1.
Proof.
  destruct (pulse_counts wires_example (mk_io ∅ (false, false))) as (p' & g' & Hr & H1 & H2).
  - reflexivity.
  - reflexivity.
  - vm_compute; congruence.
  - exists p', g'; split; [exact Hr|]; split; [rewrite H1 | rewrite H2]; vm_compute; reflexivity.
Defined.

Lemma pulse_train_counted_witness :
  exists p' g', interrupts (replicate 20 (true, false) ++ replicate 80 (false, true)) pulse_init (mk_io ∅ (false, false)) = Some (p', g') /\
    pulse_count0 p' = 1.
Proof.
  destruct (pulse_train_counted (replicate 20 (true, false) ++ replicate 80 (false, true)) (mk_io ∅ (false, false)) [(20, 80)]%nat) as (p' & g' & Hr & Hc).
  - reflexivity.
  - reflexivity.
  - vm_compute; congruence.
  - repeat constructor; cbn; lia.
  - vm_compute; reflexivity.
  - exists p', g'; split; [exact Hr | exact Hc].
Defined.

Lemma pulse_count_bounds_witness :
  exists p' g', interrupts wires_example pulse_init (mk_io ∅ (false, false)) = Some (p', g') /\
    17 * pulse_count0 p' <= 20 /\ 56 * pulse_count1 p' <= 93.
Proof.
  destruct (pulse_count_bounds wires_example (mk_io ∅ (false, false))) as (p' & g' & Hr & H1 & _ & _ & H2).
  - reflexivity.
  - reflexivity.
  - vm_compute; congruence.
  - exists p', g'; split; [exact Hr|]; split; [exact H1 | exact H2].
Defined.
