(* ===== verification/Kbd.v ===== *)
(** The keyboard: the character device and its circular buffer
    (src/drivers/char/hndl_char_devices/hnos_kbd_core.c), and the scanner of the
    keys of the HNTT1800X (hnos_kbd_hntt1800x.c), which feeds it. *)
From S2P Require Import Prelude Gpio.

(** ** The circular buffer macros of the kernel

    <linux/circ_buf.h> is not part of the repository. Its documentation
    (circular-buffers.txt) says what the macros return for indices in a buffer
    whose size is a power of two: the occupancy, the free space (one place is
    always left free), and the part of each up to the end of the buffer. *)
Class CircOps := {
  CIRC_CNT : Z -> Z -> Z -> Z;
  CIRC_SPACE : Z -> Z -> Z -> Z;
  CIRC_CNT_TO_END : Z -> Z -> Z -> Z;
  CIRC_SPACE_TO_END : Z -> Z -> Z -> Z }.

Class CircLaws `{!CircOps} := {
  circ_cnt h t k : 0 <= k -> 0 <= h < 2 ^ k -> 0 <= t < 2 ^ k -> CIRC_CNT h t (2 ^ k) = (h - t) mod 2 ^ k;
  circ_space h t k : 0 <= k -> 0 <= h < 2 ^ k -> 0 <= t < 2 ^ k -> CIRC_SPACE h t (2 ^ k) = (t - (h + 1)) mod 2 ^ k;
  circ_cnt_to_end h t k : 0 <= k -> 0 <= h < 2 ^ k -> 0 <= t < 2 ^ k ->
    CIRC_CNT_TO_END h t (2 ^ k) = Z.min ((h - t) mod 2 ^ k) (2 ^ k - t);
  circ_space_to_end h t k : 0 <= k -> 0 <= h < 2 ^ k -> 0 <= t < 2 ^ k ->
    CIRC_SPACE_TO_END h t (2 ^ k) = Z.min ((t - (h + 1)) mod 2 ^ k) (2 ^ k - h) }.

Definition KB_BUF_LEN : Z := Z.shiftl 1 8.
Definition LCD_BLT_ON : Z := 1.
Definition LCD_BLT_OFF : Z := 0.

(** [struct circ_buf]. *)
Record circ_buf := mk_circ { cb_buf : list Z; cb_head : Z; cb_tail : Z }.
#[export] Instance eta_circ_buf : Eta circ_buf := fun b => mk_circ (cb_buf b) (cb_head b) (cb_tail b).

(** The device; the callback that switches the backlight is a name. *)
Record hndl_kb_cdev := mk_kb { kb_is_open : bool; lastkey_time : Z; cir_buf : circ_buf }.
#[export] Instance eta_kb : Eta hndl_kb_cdev := fun d => mk_kb (kb_is_open d) (lastkey_time d) (cir_buf d).

Definition kb_buf_clear (cb : circ_buf) : circ_buf := cb <| cb_head := 0 |> <| cb_tail := 0 |>.

(** [kb_buf_alloc]; [mem] is what the memory of the buffer holds. *)
Definition kb_buf_alloc (mem : list Z) : circ_buf := kb_buf_clear (mk_circ (take (Z.to_nat KB_BUF_LEN) mem) 0 0).

Section Kbd.
  Context `{!CircOps}.
  Implicit Types (cb : circ_buf) (dev : hndl_kb_cdev).

Definition kb_buf_data_avail cb : Z := CIRC_CNT (cb_head cb) (cb_tail cb) KB_BUF_LEN.
Definition kb_buf_space_avail cb : Z := CIRC_SPACE (cb_head cb) (cb_tail cb) KB_BUF_LEN.

(** The loop of [kb_buf_put]; every turn but the last shortens [count]. *)
Fixpoint put_loop (fuel : nat) cb (buf : list Z) (count ret : Z) : option (circ_buf * Z) :=
  match fuel with
  | O => None
  | S fuel =>
      let c := CIRC_SPACE_TO_END (cb_head cb) (cb_tail cb) KB_BUF_LEN in
      let c := if count <? c then count else c in
      if c <=? 0 then Some (cb, ret)
      else
        b ← memcpy (cb_buf cb) (cb_head cb) buf 0 c;
        let cb := cb <| cb_buf := b |> <| cb_head := Z.land (cb_head cb + c) (KB_BUF_LEN - 1) |> in
        put_loop fuel cb (drop (Z.to_nat c) buf) (count - c) (ret + c)
  end.

Definition kb_buf_put cb (buf : list Z) (count : Z) : option (circ_buf * Z) :=
  put_loop (S (Z.to_nat count)) cb buf count 0.

(** [kb_buf_get]: the bytes copied come first. *)
Fixpoint get_loop (fuel : nat) cb (buf : list Z) (count ret : Z) : option (list Z * circ_buf * Z) :=
  match fuel with
  | O => None
  | S fuel =>
      let c := CIRC_CNT_TO_END (cb_head cb) (cb_tail cb) KB_BUF_LEN in
      let c := if count <? c then count else c in
      if c <=? 0 then Some (buf, cb, ret)
      else
        bs ← rdn (cb_buf cb) (cb_tail cb) c;
        let cb := cb <| cb_tail := Z.land (cb_tail cb + c) (KB_BUF_LEN - 1) |> in
        get_loop fuel cb (buf ++ bs) (count - c) (ret + c)
  end.

Definition kb_buf_get cb (count : Z) : option (list Z * circ_buf * Z) :=
  get_loop (S (Z.to_nat count)) cb [] count 0.

(** ** Inserting keys *)
Definition kb_lastkey_time_update (uptime : Z) (dev : option hndl_kb_cdev) : option hndl_kb_cdev :=
  match dev with Some dev => Some (dev <| lastkey_time := uptime |>) | None => None end.

(** The device pointer is null until the module is set up: then [dev] is
    [None], and the key is dropped. The outer [option] is the access's. *)
Definition kb_key_insert (uptime key : Z) (dev : option hndl_kb_cdev) : option (option hndl_kb_cdev) :=
  match dev with
  | None => Some None
  | Some dev =>
      '(cb, _) ← kb_buf_put (cir_buf dev) [key] 1;
      Some (kb_lastkey_time_update uptime (Some (dev <| cir_buf := cb |>)))
  end.

Definition kb_custom_key_insert (key : option (list Z)) (size : Z) (dev : option hndl_kb_cdev) : option (option hndl_kb_cdev) :=
  match dev, key with
  | Some dev, Some key =>
      '(cb, _) ← kb_buf_put (cir_buf dev) key size;
      Some (Some (dev <| cir_buf := cb |>))
  | _, _ => Some dev
  end.

(** ** The file operations *)
Definition kb_open dev : Z * hndl_kb_cdev :=
  if kb_is_open dev then (- EBUSY, dev) else (0, dev <| kb_is_open := true |>).

Definition kb_release dev : Z * hndl_kb_cdev :=
  if kb_is_open dev then (0, dev <| kb_is_open := false |>) else (- EINVAL, dev).

Definition kb_buf_not_empty dev : bool := 0 <? kb_buf_data_avail (cir_buf dev).

(** How a wait of [kb_read] ends: by a signal, or because keys came. *)
Inductive wake := Signal | Keys (keys : list (Z * Z)).

Fixpoint insert_keys (keys : list (Z * Z)) dev : option hndl_kb_cdev :=
  match keys with
  | [] => Some dev
  | (uptime, key) :: keys => dev ← mjoin (kb_key_insert uptime key (Some dev)); insert_keys keys dev
  end.

(** What [kb_read] does: it still waits, or returns with bytes for the user. *)
Inductive read_result := Waiting (dev : hndl_kb_cdev) | Returned (ret : Z) (user : list Z) (dev : hndl_kb_cdev).

(** The rest of [kb_read], with the lock held and the buffer not empty: [key_v]
    is in memory order; its bytes are all ones before. *)
Definition read_key (count : Z) (fault : bool) dev : option read_result :=
  let sz_key_kernel := if count =? 4 then 4 else 1 in
  let sz_key_userspace := if count =? 4 then 4 else 2 in
  '(bs, cb, retval) ← kb_buf_get (cir_buf dev) sz_key_kernel;
  let dev := dev <| cir_buf := cb |> in
  key_v ← wrn [255; 255; 255; 255] 0 bs;
  if negb (retval =? sz_key_kernel) then Some (Returned (- EFAULT) [] dev)
  else if fault then Some (Returned (- EFAULT) [] dev)
  else Some (Returned sz_key_userspace (take (Z.to_nat sz_key_userspace) key_v) dev).

(** [kb_read]: [wakes] are the ends of its waits in order. *)
Fixpoint kb_read (count : Z) (nonblock fault : bool) (wakes : list wake) dev : option read_result :=
  if kb_buf_not_empty dev then read_key count fault dev
  else if nonblock then Some (Returned (- EAGAIN) [] dev)
  else
    match wakes with
    | [] => Some (Waiting dev)
    | Signal :: _ => Some (Returned (- ERESTARTSYS) [] dev)
    | Keys keys :: wakes => dev ← insert_keys keys dev; kb_read count nonblock fault wakes dev
    end.

(** [kb_write]: the result, and what the backlight callback is called with.
    [data] is the user's byte, [None] when reading it faults. *)
Definition kb_write (count : Z) (data : option Z) (lcd_back_light : option Z) : Z * option (Z * Z) :=
  if negb (count =? 1) then (- EINVAL, None)
  else
    match lcd_back_light with
    | None => (- EINVAL, None)
    | Some f =>
        match data with
        | None => (- EFAULT, None)
        | Some d => (1, Some (f, if nz d then LCD_BLT_ON else LCD_BLT_OFF))
        end
    end.
End Kbd.

(** ** The backlight callback *)
Definition lcd_blt_register (blt_routine lcd_back_light : option Z) : Z * option Z :=
  match lcd_back_light, blt_routine with
  | Some _, _ => (- EBUSY, lcd_back_light)
  | None, None => (- EINVAL, lcd_back_light)
  | None, Some _ => (0, blt_routine)
  end.

Definition lcd_blt_unregister (blt_routine lcd_back_light : option Z) : Z * option Z :=
  match lcd_back_light, blt_routine with
  | None, _ => (- EBUSY, lcd_back_light)
  | Some _, None => (- EINVAL, lcd_back_light)
  | Some _, Some _ => (0, None)
  end.

(** ** The key scanner *)
Definition KEY_INPUT_INVALID : Z := 0x7f.
Definition KEY_INPUT_ENTER : Z := Z.land (Z.lnot (Z.shiftl 1 4)) 0x7f.
Definition KEY_INPUT_UP : Z := Z.land (Z.lnot (Z.shiftl 1 5)) 0x7f.
Definition KEY_INPUT_ESC : Z := Z.land (Z.lnot (Z.shiftl 1 6)) 0x7f.
Definition KEY_INPUT_DOWN : Z := Z.land (Z.lnot (Z.shiftl 1 3)) 0x7f.
Definition KEY_INPUT_LEFT : Z := Z.land (Z.lnot (Z.shiftl 1 2)) 0x7f.
Definition KEY_INPUT_RIGHT : Z := Z.land (Z.lnot (Z.shiftl 1 1)) 0x7f.
Definition eKEY_UP : Z := 8.
Definition eKEY_DOWN : Z := 2.
Definition eKEY_CANCEL : Z := 1.
Definition eKEY_ENTER : Z := 4.
Definition eKEY_LEFT : Z := 5.
Definition eKEY_RIGHT : Z := 7.
Definition eKEY_NULL : Z := 0.

Definition kbd_key_remap (key_rd : Z) : Z :=
  if key_rd =? KEY_INPUT_UP then eKEY_UP
  else if key_rd =? KEY_INPUT_DOWN then eKEY_DOWN
  else if key_rd =? KEY_INPUT_ENTER then eKEY_ENTER
  else if key_rd =? KEY_INPUT_LEFT then eKEY_LEFT
  else if key_rd =? KEY_INPUT_RIGHT then eKEY_RIGHT
  else if key_rd =? KEY_INPUT_ESC then eKEY_CANCEL
  else eKEY_NULL.

(** [pin_shift]; for another pin the result is not initialised. *)
Definition pin_shift (pin_number : Z) : option Z :=
  if pin_number =? 228 then Some 6 else if pin_number =? 229 then Some 5
  else if pin_number =? 230 then Some 4 else if pin_number =? 231 then Some 3
  else if pin_number =? 232 then Some 2 else if pin_number =? 233 then Some 1 else None.

Definition key_pins : list Z := [228; 229; 230; 231; 232; 233].

Section Scanner.
  Context `{!CircOps} {E : Type} `{!Board E}.
  Implicit Types g : io E.

Fixpoint init_pins (pins : list Z) g : option (io E) :=
  match pins with
  | [] => Some g
  | i :: pins => '(_, g) ← nuc970_gpio_core_direction_in1 i g; init_pins pins g
  end.
Definition init_key_pin g : option (io E) := init_pins key_pins g.

(** The loop of [kbd_hntt1800x_test] over the pins. *)
Fixpoint scan_pins (pins : list Z) (key_i : Z) g : option (Z * io E) :=
  match pins with
  | [] => Some (key_i, g)
  | i :: pins =>
      '(level, g) ← nuc970_gpio_core_get1 i g;
      shift ← pin_shift i;
      let t := u32 (Z.shiftl level shift) in
      scan_pins pins (Z.lor key_i (Z.lor (Z.land t 0x7f) 0x01)) g
  end.

(** The timer function: [key_i_last], the keyboard device and the pins after a
    scan. The timer is started again in any case. *)
Definition kbd_hntt1800x_test (uptime key_i_last : Z) (dev : option hndl_kb_cdev) g
    : option (Z * option hndl_kb_cdev * io E) :=
  '(key_i, g) ← scan_pins key_pins 0 g;
  if key_i =? key_i_last then Some (key_i_last, dev, g)
  else
    dev ← (if negb (key_i =? KEY_INPUT_INVALID) then kb_key_insert uptime (kbd_key_remap key_i) dev else Some dev);
    Some (key_i, dev, g).
End Scanner.
