(* ===== verification/KbdSpec.v ===== *)
(** The keyboard's buffer is a queue of 255 keys; a key pressed and released is
    one key read, and reads take the keys in the order of the presses. *)
From S2P Require Import Prelude Gpio GpioSpec Kbd.

(** ** The buffer as a queue *)
Definition circ_wf (cb : circ_buf) : Prop :=
  zlen (cb_buf cb) = 256 /\ 0 <= cb_head cb < 256 /\ 0 <= cb_tail cb < 256.

(** The bytes held, oldest first. *)
Definition content (cb : circ_buf) : list Z :=
  if cb_tail cb <=? cb_head cb then slice (cb_buf cb) (cb_tail cb) (cb_head cb - cb_tail cb)
  else drop (Z.to_nat (cb_tail cb)) (cb_buf cb) ++ take (Z.to_nat (cb_head cb)) (cb_buf cb).

Definition room (cb : circ_buf) : Z := 255 - zlen (content cb).

Lemma index_wrap x : 0 <= x -> Z.land x (KB_BUF_LEN - 1) = x mod 256.
Proof. intros; change (KB_BUF_LEN - 1) with (Z.ones 8); by rewrite Z.land_ones. Qed.

Lemma mod_case x : -256 <= x < 256 -> x mod 256 = if x <? 0 then x + 256 else x.
Proof.
  intros; zcase; [|apply Z.mod_small; lia].
  replace x with ((x + 256) + (-1) * 256) at 1 by lia; rewrite Z.mod_add by lia; apply Z.mod_small; lia.
Qed.

Lemma content_len cb : circ_wf cb -> zlen (content cb) = (cb_head cb - cb_tail cb) mod 256.
Proof.
  intros (Hl & Hh & Ht); rewrite mod_case by lia; unfold content; destruct (cb_tail cb <=? cb_head cb) eqn:E; zbool; zcase; try lia.
  - rewrite slice_len; lia.
  - rewrite zlen_app, zlen_take, zlen_drop; lia.
Qed.

Lemma content_bound cb : circ_wf cb -> 0 <= zlen (content cb) <= 255 /\ 0 <= room cb <= 255.
Proof.
  intros Hw; unfold room; rewrite content_len by done; pose proof (Z.mod_pos_bound (cb_head cb - cb_tail cb) 256); lia.
Qed.

(** A write of [src] at [h], seen from before and from behind. *)
Lemma write_before {A} (B src : list A) (h t : nat) : (t <= h <= length B)%nat ->
  drop t (take h B ++ src ++ drop (h + length src) B) = take (h - t) (drop t B) ++ src ++ drop (h + length src) B.
Proof. intros; rewrite drop_app_le by (rewrite length_take; lia); by rewrite skipn_firstn_comm. Qed.

Lemma write_behind {A} (B src : list A) (h t : nat) : (h + length src <= t)%nat -> (h <= length B)%nat ->
  drop t (take h B ++ src ++ drop (h + length src) B) = drop t B.
Proof.
  intros; rewrite drop_app_ge, drop_app_ge, drop_drop by (rewrite ?length_take; lia).
  rewrite length_take; f_equal; lia.
Qed.

Lemma write_upto {A} (B src : list A) (h : nat) : (h <= length B)%nat ->
  take (h + length src) (take h B ++ src ++ drop (h + length src) B) = take h B ++ src.
Proof.
  intros; rewrite app_assoc, take_app_le by (rewrite length_app, length_take; lia).
  apply take_ge; rewrite length_app, length_take; lia.
Qed.

Section Queue.
  Context `{!CircOps} `{!CircLaws}.

Lemma space_to_end cb : circ_wf cb ->
  CIRC_SPACE_TO_END (cb_head cb) (cb_tail cb) KB_BUF_LEN = Z.min (room cb) (256 - cb_head cb).
Proof.
  intros Hw; pose proof Hw as (_ & Hh & Ht); change KB_BUF_LEN with (2 ^ 8); rewrite circ_space_to_end by (lia || (change (2 ^ 8) with 256; lia)).
  unfold room; rewrite content_len by done; change (2 ^ 8) with 256; f_equal; rewrite !mod_case by lia; repeat zcase; lia.
Qed.

Lemma cnt_to_end cb : circ_wf cb ->
  CIRC_CNT_TO_END (cb_head cb) (cb_tail cb) KB_BUF_LEN = Z.min (zlen (content cb)) (256 - cb_tail cb).
Proof.
  intros Hw; pose proof Hw as (_ & Hh & Ht); change KB_BUF_LEN with (2 ^ 8); rewrite circ_cnt_to_end by (lia || (change (2 ^ 8) with 256; lia)).
  by rewrite content_len.
Qed.

Lemma data_avail cb : circ_wf cb -> kb_buf_data_avail cb = zlen (content cb).
Proof.
  intros Hw; pose proof Hw as (_ & Hh & Ht); unfold kb_buf_data_avail; change KB_BUF_LEN with (2 ^ 8).
  rewrite circ_cnt by (lia || (change (2 ^ 8) with 256; lia)); by rewrite content_len.
Qed.

(** One [memcpy] into the buffer. *)
Lemma put_chunk cb src b : circ_wf cb -> src <> [] -> zlen src <= room cb -> zlen src <= 256 - cb_head cb ->
  wrn (cb_buf cb) (cb_head cb) src = Some b ->
  let cb' := mk_circ b (Z.land (cb_head cb + zlen src) (KB_BUF_LEN - 1)) (cb_tail cb) in
  circ_wf cb' /\ content cb' = content cb ++ src.
Proof.
  intros Hw Hne%zlen_pos Hr He Hb cb'; pose proof (wrn_len _ _ _ _ Hb) as Hbl; apply wrn_Some in Hb as (_ & _ & Hb).
  pose proof Hw as (Hl & Hh & Ht); unfold cb'; rewrite index_wrap by lia; split.
  { split_and!; cbn; [lia | apply Z.mod_pos_bound; lia..| lia | lia]. }
  unfold room in Hr; rewrite content_len in Hr by done; rewrite mod_case in Hr by lia; unfold content; cbn [cb_buf cb_head cb_tail].
  destruct cb as [B h t]; cbn [cb_buf cb_head cb_tail] in *; unfold zlen in *; subst b.
  destruct (t <=? h) eqn:Eth; zbool; [rewrite (proj2 (Z.ltb_ge _ _)) in Hr by lia | rewrite (proj2 (Z.ltb_lt _ _)) in Hr by lia].
  - destruct (decide (h + Z.of_nat (length src) = 256)) as [E | E].
    + rewrite E; change (256 mod 256) with 0; rewrite (proj2 (Z.leb_gt t 0)) by lia; rewrite write_before by lia.
      rewrite (drop_ge B (Z.to_nat h + length src)) by lia; change (Z.to_nat 0) with 0%nat; rewrite !app_nil_r; unfold slice; do 2 f_equal; lia.
    + rewrite Z.mod_small, (proj2 (Z.leb_le _ _)) by lia; unfold slice; rewrite write_before by lia.
      rewrite app_assoc, take_app_le, take_ge by (rewrite length_app, length_take, length_drop; lia).
      do 2 f_equal; lia.
  - rewrite Z.mod_small, (proj2 (Z.leb_gt _ _)) by lia; rewrite write_behind by lia.
    replace (Z.to_nat (h + Z.of_nat (length src))) with (Z.to_nat h + length src)%nat by lia.
    rewrite write_upto by lia; by rewrite app_assoc.
Qed.

(** One [memcpy] out of the buffer. *)
Lemma get_chunk cb c : circ_wf cb -> 0 < c <= zlen (content cb) -> c <= 256 - cb_tail cb ->
  let cb' := mk_circ (cb_buf cb) (cb_head cb) (Z.land (cb_tail cb + c) (KB_BUF_LEN - 1)) in
  circ_wf cb' /\ content cb = slice (cb_buf cb) (cb_tail cb) c ++ content cb'.
Proof.
  intros Hw Hc He cb'; pose proof Hw as (Hl & Hh & Ht); unfold cb'; rewrite index_wrap by lia; split.
  { split_and!; cbn; [lia | lia | lia | apply Z.mod_pos_bound; lia..]. }
  rewrite content_len in Hc by done; rewrite mod_case in Hc by lia; unfold content; cbn [cb_buf cb_head cb_tail].
  destruct cb as [B h t]; cbn [cb_buf cb_head cb_tail] in *; destruct (t <=? h) eqn:Eth; zbool;
    [rewrite (proj2 (Z.ltb_ge _ _)) in Hc by lia | rewrite (proj2 (Z.ltb_lt _ _)) in Hc by lia].
  - rewrite Z.mod_small, (proj2 (Z.leb_le _ _)) by lia; rewrite <- slice_app_split by lia; f_equal; lia.
  - destruct (decide (t + c = 256)) as [E | E].
    + rewrite E; change (256 mod 256) with 0; rewrite (proj2 (Z.leb_le 0 h)) by lia; f_equal.
      * unfold slice; rewrite take_ge; [done | rewrite length_drop; unfold zlen in Hl; lia].
      * unfold slice; rewrite drop_0; f_equal; lia.
    + rewrite Z.mod_small, (proj2 (Z.leb_gt _ _)) by lia; rewrite app_assoc; f_equal; unfold slice.
      replace (Z.to_nat (t + c)) with (Z.to_nat t + Z.to_nat c)%nat by lia; by rewrite <- drop_drop, take_drop.
Qed.

(** ** Put and get *)
Lemma put_loop_ok fuel : forall cb buf count ret,
  circ_wf cb -> 0 <= count <= zlen buf -> (Z.to_nat count < fuel)%nat ->
  exists cb', put_loop fuel cb buf count ret = Some (cb', ret + Z.min count (room cb)) /\ circ_wf cb' /\
    content cb' = content cb ++ take (Z.to_nat (Z.min count (room cb))) buf.
Proof.
  induction fuel as [|fuel IH]; intros cb buf count ret Hw Hc Hf; [lia|]; cbn [put_loop].
  pose proof (content_bound cb Hw) as [_ Hroom]; pose proof Hw as (Hl & Hh & Ht); rewrite space_to_end by done.
  set (c := if count <? _ then count else _); assert (Hcv : c = Z.min count (Z.min (room cb) (256 - cb_head cb))) by (unfold c; zcase; lia).
  clearbody c; destruct (c <=? 0) eqn:E0; zbool.
  { exists cb; replace (Z.min count (room cb)) with 0 by lia; rewrite Z.add_0_r, app_nil_r; by split_and!. }
  destruct (memcpy_in (cb_buf cb) (cb_head cb) buf 0 c) as (b & Hb & Hwr); [lia.. |].
  rewrite Hb, bind_ok; assert (Hsl : zlen (slice buf 0 c) = c) by (apply slice_len; lia).
  destruct (put_chunk cb (slice buf 0 c) b Hw) as [Hw' Hcont]; [intros Hn; rewrite Hn, zlen_nil in Hsl; lia | lia | lia | done|].
  rewrite Hsl in Hw', Hcont; match type of Hw' with circ_wf ?x => set (cb1 := x) in * end.
  assert (Hr1 : room cb1 = room cb - c) by (unfold room; rewrite Hcont, zlen_app, Hsl; lia).
  destruct (IH cb1 (drop (Z.to_nat c) buf) (count - c) (ret + c) Hw') as (cb' & Hrun & Hw2 & Hc2); [rewrite zlen_drop; lia | lia |].
  exists cb'; split; [etransitivity; [exact Hrun | do 2 f_equal; lia]|]; split; [done|].
  rewrite Hc2, Hcont, <- app_assoc, slice_0, Hr1; f_equal.
  replace (Z.to_nat (Z.min count (room cb))) with (Z.to_nat c + Z.to_nat (Z.min (count - c) (room cb - c)))%nat by lia.
  by rewrite take_take_drop.
Qed.

Lemma get_loop_ok fuel : forall cb buf count ret, circ_wf cb -> 0 <= count -> (Z.to_nat count < fuel)%nat ->
  exists cb', get_loop fuel cb buf count ret =
      Some (buf ++ take (Z.to_nat count) (content cb), cb', ret + Z.min count (zlen (content cb))) /\ circ_wf cb' /\
    content cb' = drop (Z.to_nat count) (content cb).
Proof.
  induction fuel as [|fuel IH]; intros cb buf count ret Hw Hc Hf; [lia|]; cbn [get_loop].
  pose proof (content_bound cb Hw) as [Hlen _]; pose proof Hw as (Hl & Hh & Ht); rewrite cnt_to_end by done.
  set (c := if count <? _ then count else _); assert (Hcv : c = Z.min count (Z.min (zlen (content cb)) (256 - cb_tail cb))) by (unfold c; zcase; lia).
  clearbody c; destruct (c <=? 0) eqn:E0; zbool.
  { exists cb; assert (Hz : count = 0 \/ content cb = []) by (destruct (content cb); [by right | left; rewrite zlen_cons in *; pose proof (zlen_nonneg l); lia]).
    destruct Hz as [-> | ->]; [rewrite Z.min_l by lia | rewrite zlen_nil, Z.min_r by lia];
      rewrite ?take_nil, ?drop_nil, Z.add_0_r, app_nil_r; by split_and!. }
  rewrite rdn_in by lia; rewrite bind_ok; destruct (get_chunk cb c Hw) as [Hw' Hcont]; [lia | lia|].
  match type of Hw' with circ_wf ?x => set (cb1 := x) in * end.
  assert (Hsl : zlen (slice (cb_buf cb) (cb_tail cb) c) = c) by (apply slice_len; lia).
  destruct (IH cb1 (buf ++ slice (cb_buf cb) (cb_tail cb) c) (count - c) (ret + c) Hw') as (cb' & Hrun & Hw2 & Hc2); [lia | lia|].
  assert (Hn : Z.to_nat count = (length (slice (cb_buf cb) (cb_tail cb) c) + Z.to_nat (count - c))%nat) by (unfold zlen in Hsl; lia).
  exists cb'; split; [etransitivity; [exact Hrun|] | split; [done | rewrite Hc2, Hcont, Hn; by rewrite drop_app_add]].
  rewrite Hcont, Hn, take_app_add, <- app_assoc, zlen_app, Hsl; do 2 f_equal; lia.
Qed.

Lemma kb_put_ok cb buf count : circ_wf cb -> 0 <= count <= zlen buf ->
  exists cb', kb_buf_put cb buf count = Some (cb', Z.min count (room cb)) /\ circ_wf cb' /\
    content cb' = content cb ++ take (Z.to_nat (Z.min count (room cb))) buf.
Proof.
  intros Hw Hc; apply (put_loop_ok (S (Z.to_nat count)) cb buf count 0 Hw Hc); lia.
Qed.

Lemma kb_get_ok cb count : circ_wf cb -> 0 <= count ->
  exists cb', kb_buf_get cb count = Some (take (Z.to_nat count) (content cb), cb', Z.min count (zlen (content cb))) /\
    circ_wf cb' /\ content cb' = drop (Z.to_nat count) (content cb).
Proof.
  intros Hw Hc; apply (get_loop_ok (S (Z.to_nat count)) cb [] count 0 Hw Hc); lia.
Qed.

(** C38: the circular buffer is a queue of at most 255 bytes: a put appends the
    bytes that fit and says how many, a get takes the oldest ones, and both end
    with a well-formed buffer, within bounds, whatever was asked for. *)
Theorem kb_buf_queue cb buf count n : circ_wf cb -> 0 <= count <= zlen buf -> 0 <= n ->
  (exists cb', kb_buf_put cb buf count = Some (cb', Z.min count (255 - zlen (content cb))) /\ circ_wf cb' /\
     content cb' = content cb ++ take (Z.to_nat (Z.min count (255 - zlen (content cb)))) buf) /\
  (exists cb', kb_buf_get cb n = Some (take (Z.to_nat n) (content cb), cb', Z.min n (zlen (content cb))) /\ circ_wf cb' /\
     content cb' = drop (Z.to_nat n) (content cb)) /\
  kb_buf_data_avail cb = zlen (content cb) /\ content (kb_buf_clear cb) = [].
Proof.
  intros Hw Hc Hn; split_and!; [by apply kb_put_ok | by apply kb_get_ok | by apply data_avail|].
  destruct cb; cbn; unfold content, slice; reflexivity.
Qed.

(** ** Reading keys *)
Lemma not_empty dev : circ_wf (cir_buf dev) -> kb_buf_not_empty dev = negb (zlen (content (cir_buf dev)) =? 0).
Proof.
  intros Hw; unfold kb_buf_not_empty; rewrite data_avail by done; pose proof (zlen_nonneg (content (cir_buf dev))).
  destruct (0 <? _) eqn:E, (_ =? 0) eqn:E'; zbool; done || lia.
Qed.

Lemma read_now count nonblock fault wakes dev : circ_wf (cir_buf dev) -> content (cir_buf dev) <> [] ->
  kb_read count nonblock fault wakes dev = read_key count fault dev.
Proof.
  intros Hw Hne%zlen_pos; destruct wakes; cbn [kb_read]; by rewrite not_empty, (proj2 (Z.eqb_neq _ _)) by (done || lia).
Qed.

Lemma read_one count k rest dev : circ_wf (cir_buf dev) -> content (cir_buf dev) = k :: rest -> count <> 4 ->
  exists dev', read_key count false dev = Some (Returned 2 [k; 255] dev') /\ circ_wf (cir_buf dev') /\ content (cir_buf dev') = rest.
Proof.
  intros Hw Hk Hc; destruct (kb_get_ok (cir_buf dev) 1 Hw) as (cb' & Hg & Hw' & Hc'); [lia|].
  rewrite Hk in Hg, Hc'; unfold read_key; rewrite (proj2 (Z.eqb_neq _ _) Hc); step_ok Hg.
  exists (dev <| cir_buf := cb' |>); rewrite zlen_cons, Z.min_l by (pose proof (zlen_nonneg rest); lia); by split_and!.
Qed.

(** a read of a keyboard that holds keys returns at once. Of any size but
    four it takes the oldest key and gives the user two bytes, the key and 255; of
    size four it takes four keys, and when fewer are there it fails and the keys
    are lost. *)
Theorem kb_read_takes nonblock wakes dev k rest :
  circ_wf (cir_buf dev) -> content (cir_buf dev) = k :: rest ->
  (forall count, count <> 4 -> exists dev', kb_read count nonblock false wakes dev = Some (Returned 2 [k; 255] dev') /\
     circ_wf (cir_buf dev') /\ content (cir_buf dev') = rest) /\
  (exists dev', circ_wf (cir_buf dev') /\ content (cir_buf dev') = drop 4 (k :: rest) /\
     kb_read 4 nonblock false wakes dev =
       Some (if 3 <=? zlen rest then Returned 4 (take 4 (k :: rest)) dev' else Returned (- EFAULT) [] dev')).
Proof.
  intros Hw Hk; assert (Hne : content (cir_buf dev) <> []) by (by rewrite Hk).
  split; [intros count Hc; rewrite read_now by done; by apply read_one|].
  destruct (kb_get_ok (cir_buf dev) 4 Hw) as (cb' & Hg & Hw' & Hc'); [lia|].
  exists (dev <| cir_buf := cb' |>); rewrite read_now by done; rewrite Hk in Hg, Hc'; split; [done|]; split; [done|].
  unfold read_key; change (4 =? 4) with true; cbn iota; step_ok Hg; change (Z.to_nat 4) with 4%nat; rewrite wrn_0 by (unfold zlen; rewrite length_take; cbn [length]; lia).
  rewrite bind_ok, zlen_cons; destruct (3 <=? zlen rest) eqn:E; zbool.
  - rewrite Z.min_l by lia; change (negb (4 =? 4)) with false; cbn iota; do 2 f_equal.
    assert (Hl : length (take 4 (k :: rest)) = 4%nat) by (rewrite length_take; unfold zlen in E; cbn [length]; lia).
    rewrite Hl; cbn [drop]; rewrite app_nil_r; by rewrite take_ge by (rewrite Hl; done).
  - rewrite Z.min_r by lia; rewrite (proj2 (Z.eqb_neq _ _)) by lia; done.
Qed.

(** ** Inserting keys *)

(** A queue that drops what does not fit. *)
Definition enqueue (q : list Z) (k : Z) : list Z := if zlen q <? 255 then q ++ [k] else q.

Lemma key_insert_ok uptime key dev : circ_wf (cir_buf dev) ->
  exists dev', kb_key_insert uptime key (Some dev) = Some (Some dev') /\ circ_wf (cir_buf dev') /\
    content (cir_buf dev') = enqueue (content (cir_buf dev)) key /\ lastkey_time dev' = uptime.
Proof.
  intros Hw; destruct (kb_put_ok (cir_buf dev) [key] 1 Hw) as (cb' & Hp & Hw' & Hc'); [unfold zlen; cbn [length]; lia|].
  unfold kb_key_insert; step_ok Hp; eexists; split; [reflexivity|]; split_and!; [exact Hw' | | done].
  cbn [cir_buf set]; rewrite Hc'; unfold enqueue, room; zcase.
  - by rewrite Z.min_l by lia.
  - pose proof (content_bound _ Hw); unfold room in *; rewrite Z.min_r by lia.
    replace (255 - zlen (content (cir_buf dev))) with 0 by lia; cbn; by rewrite app_nil_r.
Qed.

Lemma insert_keys_ok keys : forall dev, circ_wf (cir_buf dev) ->
  exists dev', insert_keys keys dev = Some dev' /\ circ_wf (cir_buf dev') /\
    content (cir_buf dev') = fold_left enqueue (map snd keys) (content (cir_buf dev)).
Proof.
  induction keys as [|[u k] keys IH]; intros dev Hw; [by exists dev|]; cbn [insert_keys map fold_left snd].
  destruct (key_insert_ok u k dev Hw) as (dev1 & Hi & Hw1 & Hc1 & _); rewrite Hi; cbn [mjoin option_join]; rewrite bind_ok, <- Hc1.
  by apply IH.
Qed.

(** a read of an empty keyboard: with O_NONBLOCK it fails; else it waits
    through wake-ups without keys, a signal ends it, and the first keys that come
    end it with the first of them, leaving the others in order. *)
Theorem kb_read_waits count dev : circ_wf (cir_buf dev) -> content (cir_buf dev) = [] -> count <> 4 ->
  (forall wakes, kb_read count true false wakes dev = Some (Returned (- EAGAIN) [] dev)) /\
  kb_read count false false [] dev = Some (Waiting dev) /\
  (forall wakes, kb_read count false false (Signal :: wakes) dev = Some (Returned (- ERESTARTSYS) [] dev)) /\
  (forall u k keys wakes, exists dev', kb_read count false false (Keys [] :: Keys ((u, k) :: keys) :: wakes) dev = Some (Returned 2 [k; 255] dev') /\
     k :: content (cir_buf dev') = fold_left enqueue (map snd keys) [k]).
Proof.
  intros Hw He Hc; assert (Hn : kb_buf_not_empty dev = false) by (by rewrite not_empty, He).
  split_and!; [intros [|w ws]; cbn [kb_read]; by rewrite Hn | cbn [kb_read]; by rewrite Hn | intros ws; cbn [kb_read]; by rewrite Hn|].
  intros u k keys wakes; destruct (insert_keys_ok ((u, k) :: keys) dev Hw) as (dev1 & Hi & Hw1 & Hc1).
  rewrite He in Hc1; cbn [map snd fold_left] in Hc1; change (enqueue [] k) with [k] in Hc1.
  assert (Hpre : forall ks q, exists r, fold_left enqueue ks (k :: q) = k :: r).
  { induction ks as [|k' ks IH]; intros q; [by exists q|]; cbn [fold_left]; unfold enqueue at 2; zcase; [apply (IH (q ++ [k'])) | apply IH]. }
  destruct (Hpre (map snd keys) []) as [r Hr]; rewrite Hr in Hc1 |- *.
  destruct (read_one count k r dev1 Hw1 Hc1 Hc) as (dev' & Hrd & _ & Hc').
  exists dev'; split; [|by rewrite Hc'].
  cbn [kb_read]; rewrite Hn; change (insert_keys [] dev) with (Some dev); rewrite bind_ok, Hn; step_ok Hi.
  rewrite <- Hrd; destruct wakes; apply (read_now count false false _ dev1 Hw1); by rewrite Hc1.
Qed.
End Queue.

(** ** Scanning the keys *)

(** What a scan makes of the levels of the key pins. *)
Definition scan_step (key_i : Z) (p : bool * Z) : Z := Z.lor key_i (Z.lor (Z.land (u32 (Z.shiftl (Z.b2z p.1) p.2)) 0x7f) 0x01).
Definition key_shifts : list Z := [6; 5; 4; 3; 2; 1].
Definition scan_code (levels : list bool) : Z := fold_left scan_step (zip levels key_shifts) 0.

(** What a scanner that saw [last] reports of the codes it sees: each new code
    but the one of no key. *)
Fixpoint reported (last : Z) (codes : list Z) : list Z :=
  match codes with
  | [] => []
  | v :: codes =>
      if v =? last then reported last codes
      else (if v =? KEY_INPUT_INVALID then [] else [kbd_key_remap v]) ++ reported v codes
  end.

Section Scans.
  Context `{!CircOps} `{!CircLaws} {E : Type} `{!Board E} `{!Passive E}.
  Implicit Types g : io E.

Definition key_wires (e : E) : list bool := map (fun i => wire i e) key_pins.

Lemma key_pins_real : Forall real_pin key_pins.
Proof. unfold key_pins, real_pin, NUMGPIO; repeat constructor; lia. Qed.

Lemma scan_pins_ok pins : forall shifts k g, Forall real_pin pins -> mapM pin_shift pins = Some shifts ->
  exists g', scan_pins pins k g = Some (fold_left scan_step (zip (map (fun i => pin_level i g) pins) shifts) k, g') /\ same_pins g g'.
Proof.
  induction pins as [|i pins IH]; intros shifts k g Hp Hs; [injection Hs as <-; by exists g|].
  apply Forall_cons_1 in Hp as [Hi Hp]; cbn [mapM] in Hs; apply bind_Some in Hs as (s & Hs & (ss & Hss & [= <-])%bind_Some).
  destruct (get_level i g Hi) as (g1 & Hg & Hsame).
  destruct (IH ss (scan_step k (pin_level i g, s)) g1 Hp Hss) as (g' & Hr & Hsame').
  exists g'; split; [|by transitivity g1]; cbn [scan_pins map zip zip_with fold_left]; step_ok Hg; step_ok Hs.
  etransitivity; [exact Hr|]; do 4 f_equal; apply map_ext_in; intros j Hj%list_elem_of_In.
  rewrite Forall_forall in Hp; by apply same_pins_level; [apply Hp|].
Qed.

Lemma scan_ok e r : Forall (fun i => is_output i (mk_io r e) = false) key_pins ->
  exists g', scan_pins key_pins 0 (mk_io r e) = Some (scan_code (key_wires e), g') /\ same_pins (mk_io r e) g'.
Proof.
  intros Ho; destruct (scan_pins_ok key_pins key_shifts 0 (mk_io r e) key_pins_real eq_refl) as (g' & Hr & Hs).
  exists g'; split; [|done]; rewrite Hr; unfold scan_code, key_wires; do 4 f_equal; apply map_ext_in; intros i Hi%list_elem_of_In.
  pose proof key_pins_real as Hp; rewrite Forall_forall in Ho, Hp; by apply input_level; [apply Hp | apply Ho].
Qed.

(** The timer runs the scanner once per element: the time and the board then. *)
Fixpoint scans (es : list (Z * E)) (key_i_last : Z) (dev : option hndl_kb_cdev) g : option (Z * option hndl_kb_cdev * io E) :=
  match es with
  | [] => Some (key_i_last, dev, g)
  | (uptime, e) :: es => '(key_i_last, dev, g) ← kbd_hntt1800x_test uptime key_i_last dev (mk_io (io_regs g) e); scans es key_i_last dev g
  end.

Definition scan_codes (es : list (Z * E)) : list Z := map (fun x => scan_code (key_wires x.2)) es.

Lemma scans_ok es : forall key_i_last dev g, circ_wf (cir_buf dev) -> Forall (fun i => is_output i g = false) key_pins ->
  exists last dev' g', scans es key_i_last (Some dev) g = Some (last, Some dev', g') /\ circ_wf (cir_buf dev') /\
    content (cir_buf dev') = fold_left enqueue (reported key_i_last (scan_codes es)) (content (cir_buf dev)).
Proof.
  induction es as [|[u e] es IH]; intros last dev [r e0] Hw Ho; [by exists last, dev, (mk_io r e0)|].
  assert (Ho' : Forall (fun i => is_output i (mk_io r e) = false) key_pins).
  { pose proof key_pins_real as Hp; rewrite Forall_forall in Ho, Hp |- *; intros i Hi.
    by rewrite (output_regs i r e e0); [apply Ho | apply Hp]. }
  destruct (scan_ok e r Ho') as (g1 & Hs & Hsame); cbn [scans scan_codes map reported snd io_regs]; fold (scan_codes es).
  assert (Ho1 : Forall (fun i => is_output i g1 = false) key_pins).
  { pose proof key_pins_real as Hp; rewrite Forall_forall in Ho', Hp |- *; intros i Hi.
    by rewrite (proj1 (Hsame i (Hp i Hi))); apply Ho'. }
  unfold kbd_hntt1800x_test at 1; step_ok Hs; set (v := scan_code (key_wires e)) in *; clearbody v.
  destruct (v =? last) eqn:El; zbool; [rewrite bind_ok; by apply IH|].
  destruct (v =? KEY_INPUT_INVALID) eqn:Ei; cbn [negb]; [rewrite !bind_ok; by apply IH|].
  destruct (key_insert_ok u (kbd_key_remap v) dev Hw) as (dev1 & Hk & Hw1 & Hc1 & _).
  step_ok Hk; rewrite bind_ok; cbn [app fold_left]; rewrite <- Hc1; by apply IH.
Qed.

(** Over any sequence of scans the keyboard's queue gets, in order and each
    once, the keys of the new codes seen, as far as it has room. *)
Theorem kbd_scans es key_i_last dev g : circ_wf (cir_buf dev) -> Forall (fun i => is_output i g = false) key_pins ->
  exists last dev' g', scans es key_i_last (Some dev) g = Some (last, Some dev', g') /\
    content (cir_buf dev') = fold_left enqueue (reported key_i_last (scan_codes es)) (content (cir_buf dev)).
Proof. intros Hw Ho; destruct (scans_ok es key_i_last dev g Hw Ho) as (l & d & g' & Hr & _ & Hc); by exists l, d, g'. Qed.

(** ** One key press *)

(** All keys up, and only the key of a pin down (its wire is low). *)
Definition keys_up (e : E) : Prop := key_wires e = replicate 6 true.
Definition only_key (i : Z) (e : E) : Prop := key_wires e = map (fun j => negb (i =? j)) key_pins.

Definition key_of_pin (i : Z) : Z := default eKEY_NULL ((list_to_map [(228, eKEY_CANCEL); (229, eKEY_UP); (230, eKEY_ENTER);
  (231, eKEY_DOWN); (232, eKEY_LEFT); (233, eKEY_RIGHT)] : gmap Z Z) !! i).

Lemma up_code e : keys_up e -> scan_code (key_wires e) = KEY_INPUT_INVALID.
Proof. intros ->; reflexivity. Qed.

Definition key_code (i : Z) : Z := scan_code (map (fun j => negb (i =? j)) key_pins).

Lemma key_codes i : i ∈ key_pins -> key_code i <> KEY_INPUT_INVALID /\ kbd_key_remap (key_code i) = key_of_pin i.
Proof.
  intros Hi; assert (Hall : Forall (fun i => key_code i <> KEY_INPUT_INVALID /\ kbd_key_remap (key_code i) = key_of_pin i) key_pins).
  { repeat constructor; vm_compute; congruence. }
  rewrite Forall_forall in Hall; by apply Hall.
Qed.

Lemma reported_same last n : reported last (replicate n last) = [].
Proof. induction n as [|n IH]; [done|]; cbn; by rewrite Z.eqb_refl. Qed.

Lemma reported_press last v n w m : v <> last -> v <> KEY_INPUT_INVALID -> w = KEY_INPUT_INVALID ->
  reported last (replicate (S n) v ++ replicate m w) = [kbd_key_remap v].
Proof.
  intros H1 H2 ->; cbn [replicate app reported]; rewrite (proj2 (Z.eqb_neq _ _) H1), (proj2 (Z.eqb_neq _ _) H2); cbn [app].
  f_equal; clear H1; induction n as [|n IH]; cbn [replicate app reported]; [|by rewrite Z.eqb_refl].
  destruct m as [|m]; [done|]; cbn [replicate reported]; rewrite (proj2 (Z.eqb_neq _ _)) by congruence.
  rewrite Z.eqb_refl; cbn [app]; apply reported_same.
Qed.

Lemma codes_const es v : Forall (fun x : Z * E => scan_code (key_wires x.2) = v) es -> scan_codes es = replicate (length es) v.
Proof. induction 1 as [|x es Hx _ IH]; [done|]; unfold scan_codes in *; cbn [map length replicate]; by rewrite Hx, IH. Qed.

(** C37: pressing one key, for however many scans, and letting it go is read as
    exactly that key: the next read returns its code, and the one after finds the
    keyboard empty. *)
Theorem key_press_read i pressed released dev g :
  circ_wf (cir_buf dev) -> content (cir_buf dev) = [] -> Forall (fun i => is_output i g = false) key_pins ->
  i ∈ key_pins -> pressed <> [] -> Forall (fun x => only_key i x.2) pressed -> Forall (fun x => keys_up x.2) released ->
  exists last dev1 g' dev2, scans (pressed ++ released) KEY_INPUT_INVALID (Some dev) g = Some (last, Some dev1, g') /\
    kb_read 2 true false [] dev1 = Some (Returned 2 [key_of_pin i; 255] dev2) /\
    kb_read 2 true false [] dev2 = Some (Returned (- EAGAIN) [] dev2).
Proof.
  intros Hw He Ho Hi Hne Hp Hr; destruct (key_codes i Hi) as [Hv Hk].
  destruct (scans_ok (pressed ++ released) KEY_INPUT_INVALID dev g Hw Ho) as (last & dev1 & g' & Hs & Hw1 & Hc1).
  unfold scan_codes in Hc1; rewrite map_app, He in Hc1; fold (scan_codes pressed) (scan_codes released) in Hc1.
  rewrite (codes_const pressed (key_code i)), (codes_const released KEY_INPUT_INVALID) in Hc1.
  2: { eapply Forall_impl; [exact Hr | intros x Hx; exact (up_code _ Hx)]. }
  2: { eapply Forall_impl; [exact Hp | intros x Hx; unfold key_code; red in Hx; by rewrite Hx]. }
  destruct pressed as [|x pressed]; [done|]; cbn [length] in Hc1; rewrite reported_press in Hc1 by done.
  change (fold_left enqueue [kbd_key_remap (key_code i)] []) with [kbd_key_remap (key_code i)] in Hc1; rewrite Hk in Hc1.
  destruct (read_one 2 (key_of_pin i) [] dev1 Hw1 Hc1) as (dev2 & Hrd & Hw2 & Hc2); [lia|].
  exists last, dev1, g', dev2; split; [exact Hs|]; split.
  - rewrite read_now by (done || by rewrite Hc1); exact Hrd.
  - cbn [kb_read]; by rewrite not_empty, Hc2.
Qed.
End Scans.

(** ** Concrete runs *)

(** The macros as their documentation describes them, and a keyboard of six
    wires given as the bits of port H. *)
#[export] Instance doc_circ : CircOps := {
  CIRC_CNT h t n := (h - t) mod n;
  CIRC_SPACE h t n := (t - (h + 1)) mod n;
  CIRC_CNT_TO_END h t n := Z.min ((h - t) mod n) (n - t);
  CIRC_SPACE_TO_END h t n := Z.min ((t - (h + 1)) mod n) (n - h) }.
#[export] Instance doc_circ_laws : CircLaws.
Proof. by split. Qed.

#[export] Instance keys_board : Board Z := { board_write _ _ e := e; board_read a e := if a =? in_reg 7 then e else 0 }.
#[export] Instance keys_passive : Passive Z.
Proof. by intros a v b e. Qed.

Definition kb_example : hndl_kb_cdev := mk_kb true 0 (mk_circ (replicate 256 0) 200 200).

Lemma kb_buf_queue_witness : exists cb', kb_buf_put (cir_buf kb_example) [7; 8; 9] 3 = Some (cb', 3) /\ content cb' = [7; 8; 9].
Proof.
  destruct (kb_buf_queue (cir_buf kb_example) [7; 8; 9] 3 0) as ((cb' & Hp & _ & Hc) & _).
  - split_and!; vm_compute; congruence.
  - split; vm_compute; congruence.
  - lia.
  - exists cb'; split; [exact Hp | exact Hc].
Defined.

Definition kb_one : hndl_kb_cdev := mk_kb true 0 (mk_circ (8 :: replicate 255 0) 1 0).

Lemma kb_read_takes_witness : exists dev', kb_read 4 true false [] kb_one = Some (Returned (- EFAULT) [] dev') /\ content (cir_buf dev') = [].
Proof.
  destruct (kb_read_takes true [] kb_one 8 []) as (_ & dev' & _ & Hc & Hr).
  - split_and!; vm_compute; congruence.
  - reflexivity.
  - exists dev'; split; [exact Hr | exact Hc].
Defined.

Lemma kb_read_waits_witness : exists dev', kb_read 2 false false [Keys []; Keys [(5, 8); (6, 2)]] kb_example = Some (Returned 2 [8; 255] dev').
Proof.
  destruct (kb_read_waits 2 kb_example) as (_ & _ & _ & H).
  - split_and!; vm_compute; congruence.
  - reflexivity.
  - lia.
  - destruct (H 5 8 [(6, 2)] []) as (dev' & Hr & _); exists dev'; exact Hr.
Defined.

Lemma kbd_scans_witness : exists last dev' g', scans [(1, 0x1f0); (2, 0x3f0); (3, 0x3e0)] 0x7f (Some kb_example) (mk_io ∅ 0) = Some (last, Some dev', g') /\
  content (cir_buf dev') = [eKEY_RIGHT; eKEY_CANCEL].
Proof.
  destruct (kbd_scans [(1, 0x1f0); (2, 0x3f0); (3, 0x3e0)] 0x7f kb_example (mk_io ∅ 0)) as (last & dev' & g' & Hr & Hc).
  - split_and!; vm_compute; congruence.
  - repeat constructor.
  - exists last, dev', g'; split; [exact Hr | rewrite Hc; vm_compute; reflexivity].
Defined.

Lemma key_press_read_witness : exists last dev1 g' dev2,
  scans [(1, 0x3d0); (2, 0x3d0); (3, 0x3f0)] 0x7f (Some kb_example) (mk_io ∅ 0) = Some (last, Some dev1, g') /\
  kb_read 2 true false [] dev1 = Some (Returned 2 [eKEY_UP; 255] dev2).
Proof.
  destruct (key_press_read 229 [(1, 0x3d0); (2, 0x3d0)] [(3, 0x3f0)] kb_example (mk_io ∅ 0)) as (last & dev1 & g' & dev2 & Hs & Hr & _).
  - split_and!; vm_compute; congruence.
  - reflexivity.
  - repeat constructor.
  - unfold key_pins; set_solver.
  - discriminate.
  - repeat constructor.
  - repeat constructor.
  - exists last, dev1, g', dev2; split; [exact Hs | exact Hr].
Defined.
