(* ===== verification/Spi.v ===== *)
(** A byte-oriented serial slave on the pins of one GPIO port: the other end of
    the interfaces that the meter chip's and the security module's drivers run
    in software. The slave is any chip: what it answers is a function of the
    bytes it has received. *)
From S2P Require Import Prelude Gpio GpioSpec.

(** The wiring: the port, the bits of its lines in the port's registers, and the
    level the clock has after the edge at which the slave shifts its next bit
    out (it samples its input at the other edge). *)
Record wiring := mk_wiring { wr_port : Z; wr_clk : Z; wr_mosi : Z; wr_cs : Z; wr_miso : Z; wr_shift : bool }.

(** The slave: the lines as it sees them, the bits of the byte coming in, the
    bytes of the frame so far, and the frames before (a frame ends when the slave
    is deselected). [sl_reply] gives its next byte, from the frames before and
    the bytes of this one. *)
Record slave := mk_slave {
  sl_wiring : wiring; sl_reply : list (list Z) -> list Z -> Z;
  sl_clk : bool; sl_mosi : bool; sl_sel : bool; sl_line : bool;
  sl_bits : list bool; sl_bytes : list Z; sl_frames : list (list Z) }.
#[export] Instance eta_slave : Eta slave := fun s =>
  mk_slave (sl_wiring s) (sl_reply s) (sl_clk s) (sl_mosi s) (sl_sel s) (sl_line s) (sl_bits s) (sl_bytes s) (sl_frames s).

(** The byte with the given bits, the most significant first. *)
Definition byte_of_bits (l : list bool) : Z := fold_left (fun v b => 2 * v + Z.b2z b) l 0.

Definition shift_out (s : slave) : slave :=
  s <| sl_line := Z.testbit (sl_reply s (sl_frames s) (sl_bytes s)) (7 - zlen (sl_bits s)) |>.

Definition sample_in (s : slave) : slave :=
  let bits := sl_bits s ++ [sl_mosi s] in
  if zlen bits <? 8 then s <| sl_bits := bits |>
  else s <| sl_bits := [] |> <| sl_bytes := sl_bytes s ++ [byte_of_bits bits] |>.

(** A change of the clock. *)
Definition clock (c : bool) (s : slave) : slave :=
  let changed := xorb c (sl_clk s) in
  let s := s <| sl_clk := c |> in
  if changed && sl_sel s then if eqb c (wr_shift (sl_wiring s)) then shift_out s else sample_in s else s.

(** A change of the select line. *)
Definition select (sel : bool) (s : slave) : slave :=
  let ended := sl_sel s && negb sel in
  let s := s <| sl_sel := sel |> in
  if ended then s <| sl_frames := sl_frames s ++ [sl_bytes s] |> <| sl_bytes := [] |> <| sl_bits := [] |> else s.

(** The lines after a write of the output register; the select line is active low. *)
Definition drive (v : Z) (s : slave) : slave :=
  let w := sl_wiring s in
  let s := s <| sl_mosi := Z.testbit v (wr_mosi w) |> in
  clock (Z.testbit v (wr_clk w)) (select (negb (Z.testbit v (wr_cs w))) s).

#[export] Instance slave_board : Board slave := {
  board_write a v s := if a =? out_reg (wr_port (sl_wiring s)) then drive v s else s;
  board_read a s := if a =? in_reg (wr_port (sl_wiring s)) then bit_of (wr_miso (sl_wiring s)) * Z.b2z (sl_line s) else 0 }.

(** ** Driving single lines *)
Definition wiring_ok (w : wiring) : Prop :=
  0 <= wr_port w < 10 /\ 0 <= wr_clk w < 32 /\ 0 <= wr_mosi w < 32 /\ 0 <= wr_cs w < 32 /\ 0 <= wr_miso w < 32 /\
  wr_clk w <> wr_mosi w /\ wr_clk w <> wr_cs w /\ wr_mosi w <> wr_cs w /\
  wr_miso w <> wr_clk w /\ wr_miso w <> wr_mosi w /\ wr_miso w <> wr_cs w.

(** The number of the pin at a bit of the port. *)
Definition pin_at (w : wiring) (bit : Z) : Z := 32 * wr_port w + bit.

(** The clock and the data line to the slave are outputs, its own line is an
    input. *)
Definition directions (w : wiring) (g : io slave) : Prop :=
  is_output (pin_at w (wr_clk w)) g = true /\ is_output (pin_at w (wr_mosi w)) g = true /\ is_output (pin_at w (wr_miso w)) g = false.

(** The output register shows what the slave sees. *)
Definition in_sync (g : io slave) : Prop :=
  let s := io_board g in let w := sl_wiring s in let v := io_readl (out_reg (wr_port w)) g in
  wiring_ok w /\ Z.testbit v (wr_clk w) = sl_clk s /\ Z.testbit v (wr_mosi w) = sl_mosi s /\
  Z.testbit v (wr_cs w) = negb (sl_sel s) /\ directions w g.

Lemma pin_split k i : 0 <= i < 32 -> port_no (32 * k + i) = k /\ pin_no (32 * k + i) = i.
Proof.
  intros; unfold port_no, pin_no, GPIO_OFFSET.
  rewrite Z.add_comm, Z.mul_comm, Z.div_add, Z.mod_add by lia; split; [rewrite Z.div_small; lia | apply Z.mod_small; lia].
Qed.

Lemma pin_at_real w i : wiring_ok w -> 0 <= i < 32 -> real_pin (pin_at w i).
Proof. intros (? & _) Hi; unfold pin_at, real_pin, NUMGPIO; lia. Qed.

Lemma directions_same w g g' : wiring_ok w -> (forall n, real_pin n -> is_output n g' = is_output n g) -> directions w g -> directions w g'.
Proof.
  intros Hw Hs (H1 & H2 & H3); pose proof Hw as (_ & Hc & Hm & _ & Hi & _); unfold directions.
  by rewrite !Hs by (by apply pin_at_real).
Qed.

Lemma slave_out v g : board_write (out_reg (wr_port (sl_wiring (io_board g)))) v (io_board g) = drive v (io_board g).
Proof. cbn [board_write slave_board]; by rewrite Z.eqb_refl. Qed.

Lemma wiring_kept v s : sl_wiring (drive v s) = sl_wiring s.
Proof.
  unfold drive, clock, select, shift_out, sample_in; destruct s; cbn.
  repeat (match goal with |- context [if ?b then _ else _] => destruct b end; cbn); reflexivity.
Qed.

(** A write of the output register whose lines are [v]'s. *)
Lemma write_out v g : in_sync g -> let w := sl_wiring (io_board g) in
  io_board (io_writel v (out_reg (wr_port w)) g) = drive (u32 v) (io_board g) /\
  io_readl (out_reg (wr_port w)) (io_writel v (out_reg (wr_port w)) g) = u32 v /\
  directions w (io_writel v (out_reg (wr_port w)) g).
Proof.
  intros (Hw & _ & _ & _ & Hi) w; destruct (port_cases _ (proj1 Hw)) as (_ & _ & Ho & _).
  split; [apply slave_out|]; split; [by apply readl_same|].
  apply (directions_same w g); [done | | done]; intros n Hn; by apply (out_write v _ g _ (proj1 Hw)).
Qed.

Lemma drive_lines v s :
  sl_clk (drive v s) = Z.testbit v (wr_clk (sl_wiring s)) /\ sl_mosi (drive v s) = Z.testbit v (wr_mosi (sl_wiring s)) /\
  sl_sel (drive v s) = negb (Z.testbit v (wr_cs (sl_wiring s))).
Proof.
  unfold drive, clock, select, shift_out, sample_in; destruct s; cbn.
  repeat (match goal with |- context [if ?b then _ else _] => destruct b end; cbn); done.
Qed.

Lemma write_sync v g : in_sync g -> in_sync (io_writel v (out_reg (wr_port (sl_wiring (io_board g)))) g).
Proof.
  intros Hs; destruct (write_out v g Hs) as (Hb & Hr & Hi), (drive_lines (u32 v) (io_board g)) as (H1 & H2 & H3).
  unfold in_sync; rewrite Hb, wiring_kept, Hr, H1, H2, H3, negb_involutive; destruct Hs as (Hw & _); by split_and!.
Qed.

Lemma drive_clock v s c : Z.testbit v (wr_clk (sl_wiring s)) = c -> Z.testbit v (wr_mosi (sl_wiring s)) = sl_mosi s ->
  Z.testbit v (wr_cs (sl_wiring s)) = negb (sl_sel s) -> drive v s = clock c s.
Proof.
  intros H1 H2 H3; unfold drive; rewrite H1, H2, H3, negb_involutive; f_equal; destruct s; unfold select; cbn; by destruct sl_sel0.
Qed.

Lemma drive_mosi v s b : Z.testbit v (wr_clk (sl_wiring s)) = sl_clk s -> Z.testbit v (wr_mosi (sl_wiring s)) = b ->
  Z.testbit v (wr_cs (sl_wiring s)) = negb (sl_sel s) -> drive v s = s <| sl_mosi := b |>.
Proof.
  intros H1 H2 H3; unfold drive; rewrite H1, H2, H3, negb_involutive; destruct s; unfold select, clock; cbn.
  by destruct sl_sel0, sl_clk0.
Qed.

Lemma drive_select v s b : Z.testbit v (wr_clk (sl_wiring s)) = sl_clk s -> Z.testbit v (wr_mosi (sl_wiring s)) = sl_mosi s ->
  Z.testbit v (wr_cs (sl_wiring s)) = negb b -> drive v s = select b s.
Proof.
  intros H1 H2 H3; unfold drive; rewrite H1, H2, H3, negb_involutive; destruct s; unfold select, clock; cbn.
  by destruct sl_sel0, b, sl_clk0.
Qed.

(** Setting or clearing one bit of the output register, as the drivers' macros
    and the GPIO functions do. *)
Definition write_bit (j : Z) (b : bool) (g : io slave) : io slave :=
  let r := out_reg (wr_port (sl_wiring (io_board g))) in
  io_writel (if b then with_bit (io_readl r g) j else without_bit (io_readl r g) j) r g.

Lemma write_bit_ok j b g : in_sync g -> 0 <= j < 32 ->
  let w := sl_wiring (io_board g) in
  in_sync (write_bit j b g) /\
  (j = wr_clk w -> io_board (write_bit j b g) = clock b (io_board g)) /\
  (j = wr_mosi w -> io_board (write_bit j b g) = (io_board g) <| sl_mosi := b |>) /\
  (j = wr_cs w -> io_board (write_bit j b g) = select (negb b) (io_board g)).
Proof.
  intros Hs Hj w; split; [by apply write_sync|].
  pose proof Hs as ((Hp & Hc & Hm & Hcs & _ & Hd1 & Hd2 & Hd3 & _) & H1 & H2 & H3 & _); fold w in Hp, Hc, Hm, Hcs, Hd1, Hd2, Hd3, H1, H2, H3.
  unfold write_bit; fold w; rewrite (proj1 (write_out _ g Hs)); set (v := io_readl _ g) in *.
  assert (Hbit : forall i, 0 <= i < 32 -> Z.testbit (u32 (if b then with_bit v j else without_bit v j)) i = if j =? i then b else Z.testbit v i).
  { intros i Hi; rewrite testbit_u32 by done; destruct b; rewrite ?testbit_with_bit, ?testbit_without_bit by lia;
      destruct (j =? i); by rewrite ?orb_true_r, ?orb_false_r, ?andb_false_r, ?andb_true_r. }
  split_and!; intros ->.
  - apply drive_clock; fold w; rewrite Hbit, ?Z.eqb_refl by done; rewrite ?(proj2 (Z.eqb_neq _ _)) by done; done.
  - apply drive_mosi; fold w; rewrite Hbit, ?Z.eqb_refl by done; rewrite ?(proj2 (Z.eqb_neq _ _)) by (done || congruence); done.
  - apply drive_select; fold w; rewrite Hbit, ?Z.eqb_refl by done; rewrite ?(proj2 (Z.eqb_neq _ _)) by (done || congruence); by rewrite ?negb_involutive.
Qed.

(** Reading the slave's line. *)
Lemma read_line g : in_sync g -> let w := sl_wiring (io_board g) in
  exists g', nuc970_gpio_core_get1 (pin_at w (wr_miso w)) g = Some (Z.b2z (sl_line (io_board g)), g') /\
    in_sync g' /\ io_board g' = io_board g.
Proof.
  intros Hs w; pose proof Hs as ((Hp & Hc & Hm & Hcs & Hmi & _) & H1 & H2 & H3 & Hdir); fold w in Hp, Hc, Hm, Hcs, Hmi, H1, H2, H3, Hdir.
  pose proof (proj2 (proj2 Hdir)) as Hi; unfold pin_at in *.
  assert (Hr : real_pin (32 * wr_port w + wr_miso w)) by (unfold real_pin, NUMGPIO; lia).
  destruct (pin_split (wr_port w) (wr_miso w) Hmi) as [Hpo Hpi].
  assert (Hl : in_level (32 * wr_port w + wr_miso w) g = sl_line (io_board g)).
  { unfold in_level, io_readl; rewrite Hpo, Hpi, (proj2 (proj2 (proj2 (port_cases _ Hp)))), testbit_u32 by done.
    cbn [board_read slave_board]; fold w; rewrite Z.eqb_refl; destruct (sl_line _); cbn [Z.b2z].
    - rewrite Z.mul_1_r, testbit_bit_of by lia; apply Z.eqb_refl.
    - rewrite Z.mul_0_r; apply Z.bits_0. }
  unfold nuc970_gpio_core_get1; rewrite get_in, Hl, Hpo by done; eexists; split; [reflexivity|].
  set (g' := io_writel _ _ g); assert (Hb : io_board g' = io_board g).
  { unfold g'; cbn [io_writel io_board board_write slave_board]; fold w.
    rewrite (proj2 (Z.eqb_neq _ _)); [done | unfold in_reg, out_reg; lia]. }
  split; [|done]; unfold in_sync; rewrite Hb; fold w; unfold g'; rewrite readl_other.
  - split; [exact (proj1 Hs)|]; split; [exact H1|]; split; [exact H2|]; split; [exact H3|].
    apply (directions_same w g); [exact (proj1 Hs) | | exact Hdir]; intros n Hn; by rewrite (proj1 (in_write_frame _ _ _ _ Hp Hn)).
  - by apply port_cases.
  - unfold in_reg, out_reg; lia.
Qed.

(** ** Edges as the slave sees them *)

(** The slave is selected, with this state. *)
Definition in_frame (g : io slave) (w : wiring) (r : list (list Z) -> list Z -> Z) (c m l : bool) (bits : list bool)
    (bytes : list Z) (F : list (list Z)) : Prop :=
  in_sync g /\ io_board g = mk_slave w r c m true l bits bytes F.

(** The slave is not selected. *)
Definition between_frames (g : io slave) (w : wiring) (r : list (list Z) -> list Z -> Z) (c m l : bool) (F : list (list Z)) : Prop :=
  in_sync g /\ io_board g = mk_slave w r c m false l [] [] F.

Lemma frame_wiring g w r c m l bits bytes F : in_frame g w r c m l bits bytes F ->
  sl_wiring (io_board g) = w /\ 0 <= wr_clk w < 32 /\ 0 <= wr_mosi w < 32 /\ 0 <= wr_cs w < 32.
Proof. intros [Hs Hb]; rewrite Hb; split; [done|]; destruct Hs as (Hw & _); rewrite Hb in Hw; destruct Hw as (_ & ? & ? & ? & _); done. Qed.

Lemma edge_shift g w r c m l bits bytes F : in_frame g w r c m l bits bytes F ->
  exists l', in_frame (write_bit (wr_clk w) (wr_shift w) g) w r (wr_shift w) m l' bits bytes F /\
    (c = negb (wr_shift w) -> l' = Z.testbit (r F bytes) (7 - zlen bits)).
Proof.
  intros Hf; destruct (frame_wiring _ _ _ _ _ _ _ _ _ Hf) as (Hw & Hc & _), Hf as [Hs Hb].
  destruct (write_bit_ok (wr_clk w) (wr_shift w) g Hs Hc) as (Hs' & Hck & _); rewrite Hw in Hck; specialize (Hck eq_refl).
  rewrite Hb in Hck; unfold in_frame; rewrite Hck; unfold clock; cbn [sl_clk sl_sel sl_wiring set]; rewrite eqb_reflx.
  destruct (wr_shift w) eqn:Ew, c; cbn [xorb andb negb]; eexists; split; (split; [done | reflexivity]) || (intros H; done || reflexivity).
Qed.

Lemma edge_sample g w r m l bits bytes F : in_frame g w r (wr_shift w) m l bits bytes F ->
  in_frame (write_bit (wr_clk w) (negb (wr_shift w)) g) w r (negb (wr_shift w)) m l
    (if zlen (bits ++ [m]) <? 8 then bits ++ [m] else []) (if zlen (bits ++ [m]) <? 8 then bytes else bytes ++ [byte_of_bits (bits ++ [m])]) F.
Proof.
  intros Hf; destruct (frame_wiring _ _ _ _ _ _ _ _ _ Hf) as (Hw & Hc & _), Hf as [Hs Hb].
  destruct (write_bit_ok (wr_clk w) (negb (wr_shift w)) g Hs Hc) as (Hs' & Hck & _); rewrite Hw in Hck; specialize (Hck eq_refl).
  rewrite Hb in Hck; unfold in_frame; rewrite Hck; split; [done|]; unfold clock; cbn [sl_clk sl_sel sl_wiring set].
  unfold sample_in; cbn [sl_bits sl_mosi sl_bytes set].
  destruct (zlen (bits ++ [m]) <? 8), (wr_shift w) eqn:Ew; cbn; rewrite ?Ew; reflexivity.
Qed.

Lemma edge_mosi g w r c m l bits bytes F b : in_frame g w r c m l bits bytes F ->
  in_frame (write_bit (wr_mosi w) b g) w r c b l bits bytes F.
Proof.
  intros Hf; destruct (frame_wiring _ _ _ _ _ _ _ _ _ Hf) as (Hw & _ & Hm & _), Hf as [Hs Hb].
  destruct (write_bit_ok (wr_mosi w) b g Hs Hm) as (Hs' & _ & Hmo & _); rewrite Hw in Hmo; specialize (Hmo eq_refl).
  split; [done|]; by rewrite Hmo, Hb.
Qed.

Lemma edge_select g w r c m l F : between_frames g w r c m l F ->
  in_frame (write_bit (wr_cs w) false g) w r c m l [] [] F.
Proof.
  intros [Hs Hb]; assert (Hw : sl_wiring (io_board g) = w) by (by rewrite Hb).
  assert (Hc : 0 <= wr_cs w < 32) by (destruct Hs as ((_ & _ & _ & Hc & _) & _); by rewrite Hw in Hc).
  destruct (write_bit_ok (wr_cs w) false g Hs Hc) as (Hs' & _ & _ & Hse); rewrite Hw in Hse; specialize (Hse eq_refl).
  split; [done|]; by rewrite Hse, Hb.
Qed.

Lemma edge_deselect g w r c m l bits bytes F : in_frame g w r c m l bits bytes F ->
  between_frames (write_bit (wr_cs w) true g) w r c m l (F ++ [bytes]).
Proof.
  intros Hf; destruct (frame_wiring _ _ _ _ _ _ _ _ _ Hf) as (Hw & _ & _ & Hc), Hf as [Hs Hb].
  destruct (write_bit_ok (wr_cs w) true g Hs Hc) as (Hs' & _ & _ & Hse); rewrite Hw in Hse; specialize (Hse eq_refl).
  split; [done|]; by rewrite Hse, Hb.
Qed.

Lemma frame_line g w r c m l bits bytes F : in_frame g w r c m l bits bytes F ->
  exists g', nuc970_gpio_core_get1 (pin_at w (wr_miso w)) g = Some (Z.b2z l, g') /\ in_frame g' w r c m l bits bytes F.
Proof.
  intros Hf; destruct (frame_wiring _ _ _ _ _ _ _ _ _ Hf) as (Hw & _), Hf as [Hs Hb].
  destruct (read_line g Hs) as (g' & Hr & Hs' & Hb'); rewrite Hw, Hb in Hr; exists g'; split; [exact Hr|].
  split; [done|]; by rewrite Hb'.
Qed.

(** The lines while the slave is not selected. *)
Lemma between_wiring g w r c m l F : between_frames g w r c m l F ->
  sl_wiring (io_board g) = w /\ wiring_ok w /\ directions w g.
Proof. intros [(Hw & _ & _ & _ & Hd) Hb]; rewrite Hb in *; done. Qed.

Lemma idle_clock g w r c m l F b : between_frames g w r c m l F -> between_frames (write_bit (wr_clk w) b g) w r b m l F.
Proof.
  intros Hf; destruct (between_wiring _ _ _ _ _ _ _ Hf) as (Hw & (_ & Hc & _) & _), Hf as [Hs Hb].
  destruct (write_bit_ok (wr_clk w) b g Hs Hc) as (Hs' & Hck & _); rewrite Hw in Hck; specialize (Hck eq_refl).
  split; [done|]; rewrite Hck, Hb; unfold clock; cbn; by rewrite andb_false_r.
Qed.

Lemma idle_mosi g w r c m l F b : between_frames g w r c m l F -> between_frames (write_bit (wr_mosi w) b g) w r c b l F.
Proof.
  intros Hf; destruct (between_wiring _ _ _ _ _ _ _ Hf) as (Hw & (_ & _ & Hm & _) & _), Hf as [Hs Hb].
  destruct (write_bit_ok (wr_mosi w) b g Hs Hm) as (Hs' & _ & Hmo & _); rewrite Hw in Hmo; specialize (Hmo eq_refl).
  split; [done|]; by rewrite Hmo, Hb.
Qed.

Lemma idle_deselect g w r c m l F : between_frames g w r c m l F -> between_frames (write_bit (wr_cs w) true g) w r c m l F.
Proof.
  intros Hf; destruct (between_wiring _ _ _ _ _ _ _ Hf) as (Hw & (_ & _ & _ & Hc & _) & _), Hf as [Hs Hb].
  destruct (write_bit_ok (wr_cs w) true g Hs Hc) as (Hs' & _ & _ & Hse); rewrite Hw in Hse; specialize (Hse eq_refl).
  split; [done|]; by rewrite Hse, Hb.
Qed.

(** ** The GPIO functions on the lines *)
Lemma set_is_write_bit w i val g : sl_wiring (io_board g) = w -> wiring_ok w -> 0 <= i < 32 -> is_output (pin_at w i) g = true ->
  nuc970_gpio_core_set1 (pin_at w i) val g = Some (write_bit i (nz val) g).
Proof.
  intros Hw Hok Hi Ho; unfold nuc970_gpio_core_set1, nuc970_gpio_core_set; rewrite cla_port by (by apply pin_at_real).
  unfold is_output in Ho; destruct (pin_split (wr_port w) i Hi) as [Hpo Hpi]; fold (pin_at w i) in Hpo, Hpi; rewrite Hpo, Hpi in *.
  cbn [mbind option_bind p_dir p_out]; rewrite nz_land_bit, Ho by lia; unfold write_bit; by rewrite Hw.
Qed.

(** [direction_out] of the select line: first the direction, which the slave
    does not see. *)
Lemma select_out w val g : in_sync g -> sl_wiring (io_board g) = w ->
  exists g1, nuc970_gpio_core_direction_out1 (pin_at w (wr_cs w)) val g = Some (0, write_bit (wr_cs w) (nz val) g1) /\
    in_sync g1 /\ io_board g1 = io_board g.
Proof.
  intros Hs Hw; pose proof Hs as (Hok & H1 & H2 & H3 & Hd); rewrite Hw in *; pose proof Hok as (Hp & Hc & Hm & Hcs & Hmi & Hx).
  assert (Hreal : real_pin (pin_at w (wr_cs w))) by (by apply pin_at_real).
  destruct (pin_split (wr_port w) (wr_cs w) Hcs) as [Hpo Hpi]; fold (pin_at w (wr_cs w)) in Hpo, Hpi.
  unfold nuc970_gpio_core_direction_out1, nuc970_gpio_core_direction_out; rewrite cla_port by done; rewrite Hpo, Hpi.
  cbn [mbind option_bind p_dir]; set (g1 := io_writel _ (dir_reg (wr_port w)) g); exists g1.
  assert (Hdir : forall n, real_pin n -> is_output n g1 = (if n =? pin_at w (wr_cs w) then true else is_output n g) /\ out_level n g1 = out_level n g).
  { pose proof (direction_written (pin_at w (wr_cs w)) true (with_bit (io_readl (dir_reg (wr_port w)) g) (wr_cs w)) g Hreal) as Hset.
    rewrite Hpo, Hpi in Hset; destruct Hset as [Hl Ho]; [|intros n Hn; by rewrite Hl, Ho].
    intros i Hi; rewrite testbit_with_bit by lia; destruct (wr_cs w =? i); by rewrite ?orb_true_r, ?orb_false_r. }
  assert (Hb : io_board g1 = io_board g).
  { unfold g1; cbn [io_writel io_board board_write slave_board]; rewrite Hw, (proj2 (Z.eqb_neq _ _)); [done | unfold dir_reg, out_reg; lia]. }
  split; [|split; [|done]].
  - change (nuc970_gpio_core_set (pin_at w (wr_cs w)) val g1) with (nuc970_gpio_core_set1 (pin_at w (wr_cs w)) val g1).
    rewrite (set_is_write_bit w (wr_cs w) val g1); [done | by rewrite Hb | done | done|]; by rewrite (proj1 (Hdir _ Hreal)), Z.eqb_refl.
  - unfold in_sync; rewrite Hb, Hw; unfold g1 at 1 2 3; rewrite !readl_other by (apply port_cases, Hp || (unfold dir_reg, out_reg; lia)).
    split; [done|]; split; [done|]; split; [done|]; split; [done|].
    destruct Hd as (Hd1 & Hd2 & Hd3); unfold directions.
    rewrite (proj1 (Hdir _ (pin_at_real w _ Hok Hc))), (proj1 (Hdir _ (pin_at_real w _ Hok Hm))), (proj1 (Hdir _ (pin_at_real w _ Hok Hmi))).
    rewrite !(proj2 (Z.eqb_neq _ _)) by (unfold pin_at; lia); done.
Qed.

(** ** Bits and bytes *)

(** The upper [n] bits of a byte, the first to be sent first. *)
Fixpoint msb_bits (n : nat) (x : Z) : list bool :=
  match n with O => [] | S n => Z.testbit x 7 :: msb_bits n (u8 (Z.shiftl x 1)) end.

(** The bits a slave shifts out from position [k] on. *)
Definition reply_bits (x : Z) (k n : nat) : list bool := map (fun i => Z.testbit x (7 - Z.of_nat i)) (seq k n).

Definition all_bytes : list Z := seqZ 0 256.

Lemma all_bytes_in x : is_u8 x -> x ∈ all_bytes.
Proof. intros Hx; apply elem_of_seqZ; unfold is_u8 in Hx; lia. Qed.

(** What holds of the 256 bytes, by evaluation. *)
Lemma by_bytes (P : Z -> bool) : forallb P all_bytes = true -> forall x, is_u8 x -> P x = true.
Proof. intros H x Hx; rewrite forallb_forall in H; apply H, list_elem_of_In; by apply all_bytes_in. Qed.

Lemma msb_byte x : is_u8 x -> byte_of_bits (msb_bits 8 x) = x.
Proof. intros Hx; apply Z.eqb_eq; revert x Hx; apply by_bytes; vm_compute; reflexivity. Qed.

Lemma reply_byte x : byte_of_bits (reply_bits x 0 8) = u8 x.
Proof.
  assert (H : reply_bits x 0 8 = reply_bits (u8 x) 0 8).
  { unfold reply_bits; apply map_ext_in; intros i [_ Hi]%in_seq; unfold u8; change 256 with (2 ^ 8).
    rewrite Z.mod_pow2_bits_low by lia; done. }
  rewrite H; apply Z.eqb_eq; assert (Hu : is_u8 (u8 x)) by (apply Z.mod_pos_bound; lia); revert Hu; generalize (u8 x).
  apply by_bytes; vm_compute; reflexivity.
Qed.

Lemma byte_of_bits_app l b : byte_of_bits (l ++ [b]) = 2 * byte_of_bits l + Z.b2z b.
Proof. unfold byte_of_bits; by rewrite fold_left_app. Qed.

Lemma byte_of_bits_bound l : 0 <= byte_of_bits l < 2 ^ zlen l.
Proof.
  induction l as [|b l IH] using rev_ind; [split; reflexivity || discriminate|]; rewrite byte_of_bits_app, zlen_app; change (zlen [b]) with 1.
  rewrite Z.pow_add_r by (pose proof (zlen_nonneg l); lia); destruct b; cbn [Z.b2z]; lia.
Qed.

Lemma shift_in l (b : bool) : zlen l < 8 ->
  (if nz (Z.b2z b) then Z.lor (u8 (Z.shiftl (byte_of_bits l) 1)) 0x01 else u8 (Z.shiftl (byte_of_bits l) 1)) = byte_of_bits (l ++ [b]).
Proof.
  intros Hl; pose proof (byte_of_bits_bound l) as Hb; pose proof (zlen_nonneg l).
  assert (Hp : 2 ^ zlen l <= 2 ^ 7) by (apply Z.pow_le_mono_r; lia); change (2 ^ 7) with 128 in Hp.
  rewrite byte_of_bits_app, Z.shiftl_mul_pow2 by lia; change (2 ^ 1) with 2; rewrite u8_id by (unfold is_u8; lia).
  destruct b; cbn [Z.b2z nz Z.eqb negb]; [|lia].
  assert (Hall : forall v, is_u8 v -> (128 <=? v) || (Z.lor (v * 2) 1 =? 2 * v + 1) = true) by (apply by_bytes; vm_compute; reflexivity).
  specialize (Hall (byte_of_bits l)); unfold is_u8 in Hall; rewrite (proj2 (Z.leb_gt _ _)) in Hall by lia.
  apply Z.eqb_eq, Hall; lia.
Qed.

(** The level a line has after these bits. *)
Definition last_level (bits : list bool) (m : bool) : bool := fold_left (fun _ b => b) bits m.

Lemma top_bit x : is_u8 x -> (Z.land x 0x80 =? 0x80) = Z.testbit x 7.
Proof.
  intros Hx; apply eqb_prop; revert x Hx.
  apply (by_bytes (fun x => eqb (Z.land x 0x80 =? 0x80) (Z.testbit x 7))); vm_compute; reflexivity.
Qed.

Lemma u8_range x : is_u8 (u8 x).
Proof. apply Z.mod_pos_bound; lia. Qed.

Lemma last_bit x m : is_u8 x -> last_level (msb_bits 8 x) m = Z.odd x.
Proof.
  intros Hx; apply eqb_prop; revert x Hx.
  apply (by_bytes (fun x => eqb (last_level (msb_bits 8 x) m) (Z.odd x))); destruct m; vm_compute; reflexivity.
Qed.

Lemma wr_below (l : list Z) (i : nat) x : (i < length l)%nat -> wr l (Z.of_nat i) x = Some (<[i := x]> l).
Proof. intros Hi; rewrite wr_in by (unfold zlen; lia); by rewrite Nat2Z.id. Qed.
