(* ===== verification/Rn8302b.v ===== *)
(** The driver of the RN8302B metering chip
    (src/drivers/char/hndl_char_devices/rn8302b.c): a serial interface run in
    software on port D, register reads and writes with their checksums and
    repetitions, and the file operations. *)
From S2P Require Import Prelude Gpio.

Definition RN8302B_CLK_PN : Z := 100.
Definition RN8302B_SDI_PN : Z := 101.
Definition RN8302B_SDO_PN : Z := 98.
Definition RN8302B_CS_PN : Z := 99.
Definition RN8302B_RST_PN : Z := 102.

Section Rn8302b.
  Context {E : Type} `{!Board E}.
  Implicit Types g : io E.

(** The macros on port D's output register. *)
Definition gpiod_or (mask : Z) g : io E := io_writel (Z.lor (io_readl REG_GPIOD_DATAOUT g) mask) REG_GPIOD_DATAOUT g.
Definition gpiod_andn (mask : Z) g : io E := io_writel (Z.land (io_readl REG_GPIOD_DATAOUT g) (Z.lnot mask)) REG_GPIOD_DATAOUT g.
Definition P_ADE78XX_SCL_H g : io E := gpiod_or 0x10 g.
Definition P_ADE78XX_SCL_L g : io E := gpiod_andn 0x10 g.
Definition P_ADE78XX_SDO_H g : io E := gpiod_or 0x04 g.
Definition P_ADE78XX_SDO_L g : io E := gpiod_andn 0x04 g.
Definition P_ADE78XX_CS_H g : io E := gpiod_or 0x08 g.
Definition P_ADE78XX_CS_L g : io E := gpiod_andn 0x08 g.
Definition P_ADE78XX_SDI_Read g : option (Z * io E) := nuc970_gpio_core_get1 RN8302B_SDI_PN g.

Definition RN8302_SPI_Init g : option (io E) :=
  '(_, g) ← nuc970_gpio_core_direction_out1 RN8302B_CLK_PN 1 g;
  '(_, g) ← nuc970_gpio_core_direction_out1 RN8302B_SDO_PN 1 g;
  '(_, g) ← nuc970_gpio_core_direction_out1 RN8302B_CS_PN 1 g;
  '(_, g) ← nuc970_gpio_core_direction_out1 RN8302B_RST_PN 1 g;
  Some g.

(** ** Bytes; delays are not modelled *)
Fixpoint send_loop (n : nat) (TxData : Z) g : io E :=
  match n with
  | O => g
  | S n =>
      let g := P_ADE78XX_SCL_H g in
      let g := if Z.land TxData 0x80 =? 0x80 then P_ADE78XX_SDO_H g else P_ADE78XX_SDO_L g in
      let g := P_ADE78XX_SCL_L g in
      send_loop n (u8 (Z.shiftl TxData 1)) g
  end.
Definition RN8302_SendByte (TxData : Z) g : io E := send_loop 8 TxData g.

Fixpoint receive_loop (n : nat) (RxData : Z) g : option (Z * io E) :=
  match n with
  | O => Some (RxData, g)
  | S n =>
      let g := P_ADE78XX_SCL_H g in
      let g := P_ADE78XX_SCL_L g in
      let RxData := u8 (Z.shiftl RxData 1) in
      '(level, g) ← P_ADE78XX_SDI_Read g;
      receive_loop n (if nz level then Z.lor RxData 0x01 else RxData) g
  end.
Definition RN8302_ReceiveByte g : option (Z * io E) := receive_loop 8 0 g.

(** The second address byte: bits 8 to 11 of the address, and the direction. *)
Definition bank_byte (RN8302_Addr dir : Z) : Z := u8 (Z.land (u8 (Z.shiftr RN8302_Addr 4)) 0xf0 + dir).

(** ** [RN8302_Read] *)

(** [for(i = Lenth; i > 0; i--)]: a byte into [RAM_Addr[i-1]]. *)
Fixpoint read_bytes (i : nat) (RAM_Addr : list Z) (chksum : Z) g : option (list Z * Z * io E) :=
  match i with
  | O => Some (RAM_Addr, chksum, g)
  | S i =>
      '(b, g) ← RN8302_ReceiveByte g;
      RAM_Addr ← wr RAM_Addr (Z.of_nat i) b;
      read_bytes i RAM_Addr (u8 (chksum + b)) g
  end.

(** [for(i = 4; i > 0; i--)]: the chip's copy of the data read last. *)
Fixpoint read_again (i : nat) (Lenth : Z) (RAM_Addr : list Z) (chksum : Z) g : option (list Z * Z * io E) :=
  match i with
  | O => Some (RAM_Addr, chksum, g)
  | S i =>
      '(Temp, g) ← RN8302_ReceiveByte g;
      RAM_Addr ← (if Z.of_nat (S i) <=? Lenth then
                    old ← rd RAM_Addr (Z.of_nat i);
                    if negb (Temp =? old) then wr RAM_Addr (Z.of_nat i) Temp else Some RAM_Addr
                  else Some RAM_Addr);
      read_again i Lenth RAM_Addr (u8 (chksum + Temp)) g
  end.

(** [for(i = Lenth; i > 0; i--) RAM_Addr[i-1] = 0;] *)
Fixpoint clear_bytes (i : nat) (RAM_Addr : list Z) : option (list Z) :=
  match i with
  | O => Some RAM_Addr
  | S i => RAM_Addr ← wr RAM_Addr (Z.of_nat i) 0; clear_bytes i RAM_Addr
  end.

(** The second attempt, when the first checksum is wrong: the result is
    [RN8302Status] with the data. *)
Definition read_retry (Lenth : Z) (RAM_Addr : list Z) g : option (Z * list Z * io E) :=
  let g := RN8302_SendByte 0x8c g in
  let Temp := bank_byte 0x018C 0x00 in
  let chksum := u8 (0x8c + Temp) in
  let g := RN8302_SendByte Temp g in
  '(RAM_Addr, chksum, g) ← read_again 4 Lenth RAM_Addr chksum g;
  let chksum := u8 (Z.lnot chksum) in
  '(Temp, g) ← RN8302_ReceiveByte g;
  if negb (Temp =? chksum) then RAM_Addr ← clear_bytes (Z.to_nat Lenth) RAM_Addr; Some (0x00, RAM_Addr, g)
  else Some (0x01, RAM_Addr, g).

Definition RN8302_Read (RAM_Addr : list Z) (RN8302_Addr Lenth : Z) g : option (Z * list Z * io E) :=
  let g := P_ADE78XX_CS_L g in
  let Temp := u8 (Z.land RN8302_Addr 0x00ff) in
  let chksum := Temp in
  let g := RN8302_SendByte Temp g in
  let Temp := bank_byte RN8302_Addr 0x00 in
  let chksum := u8 (chksum + Temp) in
  let g := RN8302_SendByte Temp g in
  '(RAM_Addr, chksum, g) ← read_bytes (Z.to_nat Lenth) RAM_Addr chksum g;
  let chksum := u8 (Z.lnot chksum) in
  '(Temp, g) ← RN8302_ReceiveByte g;
  '(status, RAM_Addr, g) ← (if negb (Temp =? chksum) then read_retry Lenth RAM_Addr g else Some (0x01, RAM_Addr, g));
  Some (status, RAM_Addr, P_ADE78XX_CS_H g).

(** ** [RN8302_Write] *)
Fixpoint write_bytes (i : nat) (RAM_Addr : list Z) (chksum : Z) g : option (Z * io E) :=
  match i with
  | O => Some (chksum, g)
  | S i =>
      b ← rd RAM_Addr (Z.of_nat i);
      let g := RN8302_SendByte b g in
      write_bytes i RAM_Addr (u8 (chksum + b)) g
  end.

(** [for(i = 3; i > 0; i--)]: the chip's copy of the data written last; the
    first wrong byte ends the loop. The result is [RN8302Status] first. *)
Fixpoint read_back (i : nat) (Lenth : Z) (RAM_Addr : list Z) (chksum : Z) g : option (Z * Z * io E) :=
  match i with
  | O => Some (0x01, chksum, g)
  | S i =>
      '(Temp, g) ← RN8302_ReceiveByte g;
      bad ← (if Z.of_nat (S i) <=? Lenth then old ← rd RAM_Addr (Z.of_nat i); Some (negb (Temp =? old)) else Some false);
      if bad : bool then Some (0x00, chksum, g)
      else read_back i Lenth RAM_Addr (u8 (chksum + Temp)) g
  end.

(** One turn of the loop over [Repeat]. *)
Definition write_once (RN8302_Addr : Z) (RAM_Addr : list Z) (Lenth : Z) g : option (Z * io E) :=
  let g := P_ADE78XX_CS_L g in
  let Temp := u8 (Z.land RN8302_Addr 0x00ff) in
  let chksum := Temp in
  let g := RN8302_SendByte Temp g in
  let Temp := bank_byte RN8302_Addr 0x80 in
  let chksum := u8 (chksum + Temp) in
  let g := RN8302_SendByte Temp g in
  '(chksum, g) ← write_bytes (Z.to_nat Lenth) RAM_Addr chksum g;
  let g := RN8302_SendByte (u8 (Z.lnot chksum)) g in
  let g := RN8302_SendByte 0x8D g in
  let Temp := bank_byte 0x018D 0x00 in
  let chksum := u8 (0x8D + Temp) in
  let g := RN8302_SendByte Temp g in
  '(status, chksum, g) ← read_back 3 Lenth RAM_Addr chksum g;
  '(status, g) ← (if status =? 0x01 then
                    '(Temp, g) ← RN8302_ReceiveByte g;
                    Some (if negb (Temp =? u8 (Z.lnot chksum)) then 0x00 else status, g)
                  else Some (status, g));
  Some (status, P_ADE78XX_CS_H g).

Fixpoint write_repeat (Repeat : nat) (RN8302_Addr : Z) (RAM_Addr : list Z) (Lenth status : Z) g : option (Z * io E) :=
  match Repeat with
  | O => Some (status, g)
  | S Repeat =>
      '(status, g) ← write_once RN8302_Addr RAM_Addr Lenth g;
      if status =? 0x01 then Some (status, g) else write_repeat Repeat RN8302_Addr RAM_Addr Lenth status g
  end.

Definition RN8302_Write (RN8302_Addr : Z) (RAM_Addr : list Z) (Lenth status : Z) g : option (Z * io E) :=
  write_repeat 10 RN8302_Addr RAM_Addr Lenth status g.

(** ** The file operations

    The device is [None] until the module has allocated it; otherwise its
    [is_open] bit. [buf] is the user's memory from the given address on. *)
Definition rn8302b_open (dev : option bool) : Z * option bool :=
  match dev with Some true => (- EBUSY, dev) | Some false => (0, Some true) | None => (0, None) end.

Definition rn8302b_release (dev : option bool) : Z * option bool :=
  match dev with Some false => (- EINVAL, dev) | Some true => (0, Some false) | None => (0, None) end.

(** [memcpy(&RN8302_Addr, buf, 2)] into a variable that held [stack]. *)
Definition user_addr (buf : list Z) (stack : Z) : option Z :=
  b0 ← rd buf 0; b1 ← rd buf 1; Some (b0 + 256 * b1 + 65536 * (stack / 65536)).

(** [status] is the global [RN8302Status], [stack] what [RN8302_Addr] held. *)
Definition rn8302b_write (dev : option bool) (buf : list Z) (count stack status : Z) g : option (Z * io E) :=
  match dev with
  | Some true =>
      addr ← user_addr buf stack;
      '(ret, g) ← RN8302_Write addr (drop 2 buf) (u8 (count - 2)) status g;
      Some (if ret =? 0x00 then - EIO else count, g)
  | _ => Some (- EFAULT, g)
  end.

Definition rn8302b_read (dev : option bool) (buf : list Z) (count : Z) g : option (Z * list Z * io E) :=
  match dev with
  | Some true =>
      addr ← user_addr buf 0;
      '(ret, buf, g) ← RN8302_Read buf addr (u8 count) g;
      Some (if ret =? 0x00 then - EIO else count, buf, g)
  | _ => Some (- EFAULT, buf, g)
  end.
End Rn8302b.
