(* ===== verification/Rn8302bSpec.v ===== *)
(** The metering chip's driver against any chip on its pins: bytes go over as
    they are, a register read is checked and repeated as the driver means to,
    and a write is reported as done only when the chip repeats the data. *)
From S2P Require Import Prelude Gpio GpioSpec Spi Rn8302b.

(** Port D: clock PD4, data to the chip PD2, select PD3, data from it PD5; the
    chip shifts its bits out at the rising edges. *)
Definition rn_wiring : wiring := mk_wiring 3 4 2 3 5 true.

Section Driver.
  Context (r : list (list Z) -> list Z -> Z).
  Implicit Types (g : io slave) (F : list (list Z)).

Definition rn_frame g c m l bits bytes F : Prop := in_frame g rn_wiring r c m l bits bytes F.

(** The driver's macros are writes of single bits. *)
Lemma macros g : sl_wiring (io_board g) = rn_wiring ->
  P_ADE78XX_SCL_H g = write_bit 4 true g /\ P_ADE78XX_SCL_L g = write_bit 4 false g /\
  P_ADE78XX_SDO_H g = write_bit 2 true g /\ P_ADE78XX_SDO_L g = write_bit 2 false g /\
  P_ADE78XX_CS_H g = write_bit 3 true g /\ P_ADE78XX_CS_L g = write_bit 3 false g.
Proof. intros Hw; unfold write_bit; rewrite Hw; split_and!; reflexivity. Qed.

Lemma rn_clock_high g c m l bits bytes F : rn_frame g c m l bits bytes F ->
  exists l', rn_frame (P_ADE78XX_SCL_H g) true m l' bits bytes F /\ (c = false -> l' = Z.testbit (r F bytes) (7 - zlen bits)).
Proof.
  intros Hf; rewrite (proj1 (macros g (proj1 (frame_wiring _ _ _ _ _ _ _ _ _ Hf)))); exact (edge_shift _ _ _ _ _ _ _ _ _ Hf).
Qed.

Lemma rn_clock_low g m l bits bytes F : rn_frame g true m l bits bytes F ->
  rn_frame (P_ADE78XX_SCL_L g) false m l (if zlen (bits ++ [m]) <? 8 then bits ++ [m] else [])
    (if zlen (bits ++ [m]) <? 8 then bytes else bytes ++ [byte_of_bits (bits ++ [m])]) F.
Proof.
  intros Hf; rewrite (proj1 (proj2 (macros g (proj1 (frame_wiring _ _ _ _ _ _ _ _ _ Hf))))); exact (edge_sample _ rn_wiring _ _ _ _ _ _ Hf).
Qed.

Lemma rn_data g c m l bits bytes F (b : bool) : rn_frame g c m l bits bytes F ->
  rn_frame (if b then P_ADE78XX_SDO_H g else P_ADE78XX_SDO_L g) c b l bits bytes F.
Proof.
  intros Hf; destruct (macros g (proj1 (frame_wiring _ _ _ _ _ _ _ _ _ Hf))) as (_ & _ & H1 & H2 & _).
  rewrite H1, H2; destruct b; exact (edge_mosi _ rn_wiring _ _ _ _ _ _ _ _ Hf).
Qed.

(** ** Bytes *)

Lemma send_loop_ok n : forall x g c m l bits bytes F, is_u8 x -> rn_frame g c m l bits bytes F -> zlen bits + Z.of_nat (S n) = 8 ->
  exists l', rn_frame (send_loop (S n) x g) false (last_level (msb_bits (S n) x) m) l' []
    (bytes ++ [byte_of_bits (bits ++ msb_bits (S n) x)]) F.
Proof.
  induction n as [|n IH]; intros x g c m l bits bytes F Hx Hf Hn; cbn [send_loop]; rewrite (top_bit x Hx);
    destruct (rn_clock_high _ _ _ _ _ _ _ Hf) as (l1 & Hf1 & _); apply (rn_data _ _ _ _ _ _ _ (Z.testbit x 7)) in Hf1;
    apply rn_clock_low in Hf1; rewrite zlen_app in Hf1; change (zlen [_]) with 1 in Hf1.
  - rewrite (proj2 (Z.ltb_ge _ _)) in Hf1 by lia; exists l1; exact Hf1.
  - rewrite (proj2 (Z.ltb_lt _ _)) in Hf1 by lia.
    destruct (IH (u8 (Z.shiftl x 1)) _ _ _ _ _ _ _ (u8_range _) Hf1) as (l' & Hf'); [rewrite zlen_app; change (zlen [_]) with 1; lia|].
    exists l'; rewrite <- app_assoc in Hf'; exact Hf'.
Qed.

Lemma send_ok x g c m l bytes F : is_u8 x -> rn_frame g c m l [] bytes F ->
  exists l', rn_frame (RN8302_SendByte x g) false (Z.odd x) l' [] (bytes ++ [x]) F.
Proof.
  intros Hx Hf; destruct (send_loop_ok 7 x g c m l [] bytes F Hx Hf) as (l' & Hf'); [done|].
  cbn [app] in Hf'; rewrite msb_byte, last_bit in Hf' by done; by exists l'.
Qed.

Lemma receive_loop_ok n : forall g m l bits bytes F, rn_frame g false m l bits bytes F -> zlen bits + Z.of_nat (S n) = 8 ->
  exists g' l', receive_loop (S n) (byte_of_bits (reply_bits (r F bytes) 0 (length bits))) g = Some (byte_of_bits (reply_bits (r F bytes) 0 8), g') /\
    rn_frame g' false m l' [] (bytes ++ [byte_of_bits (bits ++ replicate (S n) m)]) F.
Proof.
  induction n as [|n IH]; intros g m l bits bytes F Hf Hn; cbn [receive_loop];
    destruct (rn_clock_high _ _ _ _ _ _ _ Hf) as (l1 & Hf1 & Hl1); specialize (Hl1 eq_refl);
    apply rn_clock_low in Hf1; rewrite zlen_app in Hf1; change (zlen [_]) with 1 in Hf1;
    destruct (frame_line _ _ _ _ _ _ _ _ _ Hf1) as (g1 & Hr & Hf2);
    change (pin_at rn_wiring (wr_miso rn_wiring)) with RN8302B_SDI_PN in Hr; unfold P_ADE78XX_SDI_Read; step_ok Hr.
  all: assert (Hl : zlen (reply_bits (r F bytes) 0 (length bits)) < 8) by (unfold zlen, reply_bits; rewrite length_map, length_seq; unfold zlen in Hn; lia).
  all: assert (Hsnoc : reply_bits (r F bytes) 0 (length bits) ++ [l1] = reply_bits (r F bytes) 0 (S (length bits)))
    by (unfold reply_bits; rewrite seq_S, map_app, Hl1; done).
  all: rewrite shift_in, Hsnoc by done.
  - rewrite (proj2 (Z.ltb_ge _ _)) in Hf2 by lia; exists g1, l1; split; [|exact Hf2].
    replace (S (length bits)) with 8%nat by (unfold zlen in Hn; lia); reflexivity.
  - rewrite (proj2 (Z.ltb_lt _ _)) in Hf2 by lia; destruct (IH g1 m l1 (bits ++ [m]) bytes F Hf2) as (g' & l' & Hr' & Hf').
    + rewrite zlen_app; change (zlen [_]) with 1; lia.
    + exists g', l'; rewrite <- app_assoc in Hf'; split; [|exact Hf'].
      rewrite length_app, Nat.add_comm in Hr'; exact Hr'.
Qed.

(** What the chip hears while it is read: the data line keeps its level. *)
Definition fill (m : bool) : Z := byte_of_bits (replicate 8 m).

Lemma receive_ok g m l bytes F : rn_frame g false m l [] bytes F ->
  exists g' l', RN8302_ReceiveByte g = Some (u8 (r F bytes), g') /\ rn_frame g' false m l' [] (bytes ++ [fill m]) F.
Proof.
  intros Hf; destruct (receive_loop_ok 7 g m l [] bytes F Hf) as (g' & l' & Hr & Hf'); [done|].
  rewrite reply_byte in Hr; by exists g', l'.
Qed.

(** The chip's next [n] bytes, after [bytes] and [j] bytes of silence. *)
Definition answers (bytes : list Z) F (j n : nat) : list Z := map (fun k => u8 (r F (bytes ++ replicate k 0))) (seq j n).
Definition answer (bytes : list Z) F (j : nat) : Z := u8 (r F (bytes ++ replicate j 0)).

(** The sum of the bytes, and the checksum byte that belongs to them. *)
Definition sumz (l : list Z) : Z := fold_right Z.add 0 l.
Definition frame_sum (l : list Z) : Z := u8 (Z.lnot (sumz l)).

Lemma sumz_app l l' : sumz (l ++ l') = sumz l + sumz l'.
Proof. unfold sumz; induction l; cbn; [lia|]; rewrite IHl; lia. Qed.

Lemma u8_add x y : u8 (u8 x + y) = u8 (x + y).
Proof. unfold u8; by rewrite Zplus_mod_idemp_l. Qed.

Lemma u8_lnot x : u8 (Z.lnot (u8 x)) = u8 (Z.lnot x).
Proof.
  unfold Z.lnot, u8; replace (Z.pred (- (x mod 256))) with (- (x mod 256) - 1) by lia; replace (Z.pred (- x)) with (- x - 1) by lia.
  rewrite (Z.div_mod x 256) at 2 by lia; replace (- (256 * (x / 256) + x mod 256) - 1) with (- (x mod 256) - 1 + - (x / 256) * 256) by lia.
  by rewrite Z.mod_add.
Qed.

(** The chip has heard [bytes] and then [j] bytes of silence. *)
Definition hearing g (bytes : list Z) (j : nat) F : Prop := exists l, rn_frame g false false l [] (bytes ++ replicate j 0) F.

Lemma receive_silent g bytes j F : hearing g bytes j F ->
  exists g', RN8302_ReceiveByte g = Some (answer bytes F j, g') /\ hearing g' bytes (S j) F.
Proof.
  intros [l Hf]; destruct (receive_ok g false l _ F Hf) as (g' & l' & Hr & Hf'); exists g'; split; [exact Hr|].
  exists l'; by rewrite replicate_S_end, app_assoc.
Qed.

Lemma send_silent x g c m l bytes F : is_u8 x -> Z.odd x = false -> rn_frame g c m l [] bytes F ->
  hearing (RN8302_SendByte x g) (bytes ++ [x]) 0 F.
Proof.
  intros Hx Ho Hf; destruct (send_ok x g c m l bytes F Hx Hf) as (l' & Hf'); rewrite Ho in Hf'.
  exists l'; by rewrite app_nil_r.
Qed.

Lemma send_hearing x g bytes j F : is_u8 x -> hearing g bytes j F ->
  exists l', rn_frame (RN8302_SendByte x g) false (Z.odd x) l' [] ((bytes ++ replicate j 0) ++ [x]) F.
Proof. intros Hx [l Hf]; exact (send_ok x g _ _ _ _ F Hx Hf). Qed.

Lemma insert_drop (l : list Z) (i : nat) x : (i < length l)%nat -> drop i (<[i := x]> l) = x :: drop (S i) l.
Proof.
  revert i; induction l as [|y l IH]; intros [|i] Hi; cbn in *; [lia | lia | done | apply IH; lia].
Qed.

(** ** Register reads *)
Lemma read_bytes_ok i : forall RAM chk g bytes j F, (i <= length RAM)%nat -> is_u8 chk -> hearing g bytes j F ->
  exists g', read_bytes i RAM chk g = Some (rev (answers bytes F j i) ++ drop i RAM, u8 (chk + sumz (answers bytes F j i)), g') /\
    hearing g' bytes (j + i) F.
Proof.
  induction i as [|i IH]; intros RAM chk g bytes j F Hl Hc Hh.
  { exists g; cbn; rewrite Z.add_0_r, u8_id by done; rewrite Nat.add_0_r; done. }
  cbn [read_bytes]; destruct (receive_silent g bytes j F Hh) as (g1 & Hr & Hh1); step_ok Hr.
  rewrite wr_below, bind_ok by lia.
  destruct (IH (<[i := answer bytes F j]> RAM) (u8 (chk + answer bytes F j)) g1 bytes (S j) F) as (g' & Hrd & Hh'); [by rewrite length_insert; lia | apply u8_range | done|].
  exists g'; split; [|by rewrite Nat.add_succ_r]; rewrite Hrd, insert_drop by lia; unfold answers; cbn [seq map rev].
  fold (answers bytes F (S j) i); change (u8 (r F (bytes ++ replicate j 0))) with (answer bytes F j).
  rewrite <- app_assoc, u8_add; cbn [app sumz fold_right]; do 4 f_equal; unfold sumz; lia.
Qed.

(** The data after the second attempt: the chip repeats the last four bytes. *)
Definition overlay (Lenth : nat) (again RAM : list Z) : list Z :=
  let k := Nat.min Lenth 4 in rev (drop (4 - k) again) ++ drop k RAM.

Lemma again_step i Lenth RAM x : (Lenth <= length RAM)%nat ->
  (if Z.of_nat (S i) <=? Z.of_nat Lenth then
     old ← rd RAM (Z.of_nat i); if negb (x =? old) then wr RAM (Z.of_nat i) x else Some RAM
   else Some RAM) = Some (if (i <? Lenth)%nat then <[i := x]> RAM else RAM).
Proof.
  intros Hi; destruct (i <? Lenth)%nat eqn:E; [apply Nat.ltb_lt in E | apply Nat.ltb_ge in E].
  - rewrite (proj2 (Z.leb_le _ _)) by lia; destruct (rd_in RAM (Z.of_nat i)) as [old Ho]; [unfold zlen; lia|].
    step_ok Ho; destruct (x =? old) eqn:Ex; zbool; cbn [negb]; [|apply wr_below; lia].
    subst; apply rd_Some in Ho as [_ Ho]; rewrite Nat2Z.id in Ho; by rewrite list_insert_id.
  - by rewrite (proj2 (Z.leb_gt _ _)) by lia.
Qed.

Lemma read_again_ok i Lenth : forall RAM chk g bytes j F, (Lenth <= length RAM)%nat -> is_u8 chk -> hearing g bytes j F ->
  exists g', read_again i (Z.of_nat Lenth) RAM chk g =
      Some (rev (drop (i - Nat.min Lenth i) (answers bytes F j i)) ++ drop (Nat.min Lenth i) RAM, u8 (chk + sumz (answers bytes F j i)), g') /\
    hearing g' bytes (j + i) F.
Proof.
  induction i as [|i IH]; intros RAM chk g bytes j F Hl Hc Hh.
  { exists g; rewrite Nat.min_0_r; cbn; rewrite Z.add_0_r, u8_id by done; rewrite Nat.add_0_r; done. }
  cbn [read_again]; destruct (receive_silent g bytes j F Hh) as (g1 & Hr & Hh1); step_ok Hr.
  rewrite again_step, bind_ok by done; set (RAM1 := if (i <? Lenth)%nat then <[i:=answer bytes F j]> RAM else RAM).
  assert (Hl1 : length RAM1 = length RAM) by (unfold RAM1; destruct (i <? Lenth)%nat; by rewrite ?length_insert).
  destruct (IH RAM1 (u8 (chk + answer bytes F j)) g1 bytes (S j) F) as (g' & Hrd & Hh'); [lia | apply u8_range | done|].
  exists g'; split; [|by rewrite Nat.add_succ_r]; rewrite Hrd; unfold answers; cbn [seq map].
  fold (answers bytes F (S j) i); change (u8 (r F (bytes ++ replicate j 0))) with (answer bytes F j).
  do 3 f_equal; [|rewrite u8_add; cbn [sumz fold_right]; f_equal; unfold sumz; lia].
  unfold RAM1; destruct (i <? Lenth)%nat eqn:E; [apply Nat.ltb_lt in E | apply Nat.ltb_ge in E].
  - rewrite !Nat.min_r, !Nat.sub_diag by lia; cbn [drop rev]; rewrite insert_drop, <- app_assoc by lia; done.
  - by rewrite !Nat.min_l, Nat.sub_succ_l by lia.
Qed.

Lemma clear_bytes_ok i : forall RAM, (i <= length RAM)%nat -> clear_bytes i RAM = Some (replicate i 0 ++ drop i RAM).
Proof.
  induction i as [|i IH]; intros RAM Hl; [done|]; cbn [clear_bytes]; rewrite wr_below, bind_ok, IH, insert_drop by (rewrite ?length_insert; lia).
  by rewrite replicate_S_end, <- app_assoc.
Qed.

Lemma bank_even x : Z.odd (bank_byte x 0) = false.
Proof.
  unfold bank_byte; rewrite Z.add_0_r; pose proof (u8_range (Z.shiftr x 4)) as Hu; revert Hu; generalize (u8 (Z.shiftr x 4)); intros y Hy.
  apply negb_true_iff; revert y Hy; apply (by_bytes (fun y => negb (Z.odd (u8 (Z.land y 0xf0))))); vm_compute; reflexivity.
Qed.

(** The bytes that ask for a register, and those that ask for the chip's copy of
    the data it sent last. *)
Definition read_request (addr : Z) : list Z := [u8 (Z.land addr 0xff); bank_byte addr 0].
Definition again_request (addr : Z) (n : nat) : list Z := (read_request addr ++ replicate (S n) 0) ++ [0x8c; 0x10].

(** Does the checksum the chip sent belong to what it sent? *)
Definition first_ok addr n F : bool :=
  answer (read_request addr) F n =? frame_sum (read_request addr ++ answers (read_request addr) F 0 n).
Definition second_ok addr n F : bool :=
  answer (again_request addr n) F 4 =? frame_sum ([0x8c; 0x10] ++ answers (again_request addr n) F 0 4).

Lemma sum_check l l' : u8 (Z.lnot (u8 (sumz l + sumz l'))) = frame_sum (l ++ l').
Proof. unfold frame_sum; by rewrite u8_lnot, sumz_app. Qed.

Lemma request_sum addr : u8 (u8 (Z.land addr 0xff) + bank_byte addr 0) = u8 (sumz (read_request addr)).
Proof. unfold read_request, sumz; cbn [fold_right]; by rewrite Z.add_0_r. Qed.

Lemma read_retry_ok n RAM g addr F : (n <= length RAM)%nat -> hearing g (read_request addr) (S n) F ->
  exists g', read_retry (Z.of_nat n) RAM g =
      Some (if second_ok addr n F then (0x01, overlay n (answers (again_request addr n) F 0 4) RAM, g')
            else (0x00, replicate n 0 ++ drop (n) (overlay n (answers (again_request addr n) F 0 4) RAM), g')) /\
    hearing g' (again_request addr n) 5 F.
Proof.
  intros Hl [l Hf]; unfold read_retry; change (bank_byte 0x018C 0x00) with 0x10.
  destruct (send_ok 0x8c g _ _ _ _ F ltac:(split; [lia | reflexivity]) Hf) as (l1 & Hf1).
  apply (send_silent 0x10) in Hf1; [|split; [lia | reflexivity] | reflexivity]; rewrite <- app_assoc in Hf1; cbn [app] in Hf1.
  fold (again_request addr n) in Hf1.
  destruct (read_again_ok 4 n RAM (u8 (0x8c + 0x10)) _ (again_request addr n) 0 F Hl (u8_range _) Hf1) as (g2 & Hr & Hh2).
  step_ok Hr; destruct (receive_silent _ _ _ _ Hh2) as (g3 & Hr3 & Hh3); step_ok Hr3.
  fold (overlay n (answers (again_request addr n) F 0 4) RAM).
  change (0 + 4)%nat with 4%nat; rewrite u8_add; change (0x8c + 0x10) with (sumz [0x8c; 0x10]); rewrite sum_check.
  unfold second_ok; exists g3; split; [|exact Hh3]; destruct (_ =? _); cbn [negb]; [done|].
  rewrite Nat2Z.id, clear_bytes_ok; [done|].
  unfold overlay; rewrite length_app, length_rev, !length_drop; unfold answers; rewrite length_map, length_seq; lia.
Qed.

Definition rn_idle g F : Prop := exists c m l, between_frames g rn_wiring r c m l F.

Lemma rn_select g F : rn_idle g F -> exists c m l, rn_frame (P_ADE78XX_CS_L g) c m l [] [] F.
Proof.
  intros (c & m & l & Hb); exists c, m, l.
  assert (Hw : sl_wiring (io_board g) = rn_wiring) by (by rewrite (proj2 Hb)).
  destruct (macros g Hw) as (_ & _ & _ & _ & _ & ->); exact (edge_select _ _ _ _ _ _ _ Hb).
Qed.

Lemma rn_deselect g c m l bytes F : rn_frame g c m l [] bytes F -> rn_idle (P_ADE78XX_CS_H g) (F ++ [bytes]).
Proof.
  intros Hf; exists c, m, l; destruct (macros g (proj1 (frame_wiring _ _ _ _ _ _ _ _ _ Hf))) as (_ & _ & _ & _ & -> & _).
  exact (edge_deselect _ _ _ _ _ _ _ _ _ Hf).
Qed.

Lemma bank_u8 x d : is_u8 (bank_byte x d).
Proof. apply u8_range. Qed.

Lemma send_request g addr F : rn_idle g F ->
  hearing (RN8302_SendByte (bank_byte addr 0) (RN8302_SendByte (u8 (Z.land addr 0xff)) (P_ADE78XX_CS_L g))) (read_request addr) 0 F.
Proof.
  intros (c & m & l & Hf)%rn_select; destruct (send_ok (u8 (Z.land addr 0xff)) _ _ _ _ _ F (u8_range _) Hf) as (l1 & Hf1).
  apply (send_silent (bank_byte addr 0)) in Hf1; [exact Hf1 | apply bank_u8 | apply bank_even].
Qed.

Lemma read_checked g F RAM addr n : rn_idle g F -> (n <= length RAM)%nat -> (n < 256)%nat ->
  let data := rev (answers (read_request addr) F 0 n) ++ drop n RAM in
  exists g' frame, RN8302_Read RAM addr (Z.of_nat n) g =
    Some (if first_ok addr n F then (0x01, data, g')
          else if second_ok addr n F then (0x01, overlay n (answers (again_request addr n) F 0 4) data, g')
          else (0x00, replicate n 0 ++ drop n RAM, g')) /\
    rn_idle g' (F ++ [frame]) /\ take 2 frame = read_request addr.
Proof.
  intros Hi Hl Hn data; pose proof (send_request g addr F Hi) as Hh; unfold RN8302_Read.
  rewrite Nat2Z.id; change (Z.land addr 0x00ff) with (Z.land addr 0xff).
  destruct (read_bytes_ok n RAM (u8 (u8 (Z.land addr 0xff) + bank_byte addr 0)) _ _ 0 F Hl (u8_range _) Hh) as (g1 & Hr1 & Hh1).
  step_ok Hr1; destruct (receive_silent _ _ _ _ Hh1) as (g2 & Hr2 & Hh2); step_ok Hr2.
  rewrite request_sum, u8_add, sum_check; fold data; change (0 + n)%nat with n in *.
  change (answer (read_request addr) F n =? frame_sum (read_request addr ++ answers (read_request addr) F 0 n)) with (first_ok addr n F).
  destruct (first_ok addr n F); cbn [negb].
  - rewrite bind_ok; destruct Hh2 as [l Hf2]; eexists _, _; split; [reflexivity|]; split; [exact (rn_deselect _ _ _ _ _ _ Hf2) | reflexivity].
  - assert (Hld : (n <= length data)%nat) by (unfold data; rewrite length_app, length_rev; unfold answers; rewrite length_map, length_seq; lia).
    destruct (read_retry_ok n data g2 addr F Hld Hh2) as (g3 & Hr3 & l & Hf3); step_ok Hr3.
    exists (P_ADE78XX_CS_H g3), (again_request addr n ++ replicate 5 0); split; [|split; [exact (rn_deselect _ _ _ _ _ _ Hf3) | reflexivity]].
    destruct (second_ok addr n F); [reflexivity|]; do 3 f_equal; f_equal.
    unfold overlay, data; set (k := Nat.min n 4); set (hd := rev (drop (4 - k) _)).
    assert (Hhd : length hd = k) by (unfold hd, answers; rewrite length_rev, length_drop, length_map, length_seq; lia).
    assert (Hk : (k <= n)%nat) by (unfold k; lia); clearbody k hd.
    rewrite drop_app_ge, Hhd, drop_drop, drop_app_ge by (rewrite ?length_rev; unfold answers; rewrite ?length_map, ?length_seq; lia).
    rewrite length_rev; unfold answers; rewrite length_map, length_seq; by replace (k + (n - k) - n)%nat with 0%nat by lia.
Qed.

(** reading a register of [n] bytes from any chip: one frame is exchanged,
    within bounds. If the chip's checksum belongs to the address and the data it
    sent, the data is stored, its first byte last; else the chip's copy of its
    last four bytes replaces the lowest ones if that copy's checksum is right;
    else the result is 0 and the data is cleared. The memory behind the register
    is untouched. *)
Theorem RN8302_Read_checked g F RAM addr n : rn_idle g F -> (n <= length RAM)%nat -> (n < 256)%nat ->
  let data := rev (answers (read_request addr) F 0 n) ++ drop n RAM in
  exists g' frame, RN8302_Read RAM addr (Z.of_nat n) g =
    Some (if first_ok addr n F then (0x01, data, g')
          else if second_ok addr n F then (0x01, overlay n (answers (again_request addr n) F 0 4) data, g')
          else (0x00, replicate n 0 ++ drop n RAM, g')) /\
    rn_idle g' (F ++ [frame]) /\ take 2 frame = read_request addr.
Proof. apply read_checked. Qed.

(** ** Register writes *)
Definition open_frame g bytes F : Prop := exists c m l, rn_frame g c m l [] bytes F.

Lemma send_open x g bytes F : is_u8 x -> open_frame g bytes F -> open_frame (RN8302_SendByte x g) (bytes ++ [x]) F.
Proof. intros Hx (c & m & l & Hf); destruct (send_ok x g c m l bytes F Hx Hf) as (l' & Hf'); by exists false, (Z.odd x), l'. Qed.

Lemma write_bytes_ok i RAM : forall chk g bytes F, (i <= length RAM)%nat -> Forall is_u8 RAM -> is_u8 chk -> open_frame g bytes F ->
  exists g', write_bytes i RAM chk g = Some (u8 (chk + sumz (rev (take i RAM))), g') /\ open_frame g' (bytes ++ rev (take i RAM)) F.
Proof.
  induction i as [|i IH]; intros chk g bytes F Hl Hr Hc Ho.
  { exists g; cbn; rewrite Z.add_0_r, u8_id, app_nil_r by done; done. }
  cbn [write_bytes]; destruct (rd_in RAM (Z.of_nat i)) as [x Hx]; [unfold zlen; lia|].
  pose proof Hx as [_ Hx']%rd_Some; rewrite Nat2Z.id in Hx'; assert (H8 : is_u8 x) by (by eapply Forall_lookup_1).
  rewrite (take_S_r _ _ _ Hx'), rev_app_distr; cbn [rev app]; step_ok Hx.
  destruct (IH (u8 (chk + x)) (RN8302_SendByte x g) (bytes ++ [x]) F) as (g' & Hw & Ho'); [lia | done | apply u8_range | by apply send_open|].
  exists g'; rewrite <- app_assoc in Ho'; split; [|exact Ho']; rewrite Hw, u8_add; cbn [sumz fold_right]; do 3 f_equal; unfold sumz; lia.
Qed.

(** What a write of the first [n] bytes of [RAM] sends. *)
Definition write_head (addr : Z) (RAM : list Z) (n : nat) : list Z :=
  [u8 (Z.land addr 0xff); bank_byte addr 0x80] ++ rev (take n RAM).
Definition write_frame (addr : Z) (RAM : list Z) (n : nat) : list Z :=
  write_head addr RAM n ++ [frame_sum (write_head addr RAM n)] ++ [0x8D; 0x10].

(** Does the chip's copy of the data agree, as far as the chip has one (three
    bytes), and is its checksum right? *)
Definition matches (RAM : list Z) (n i : nat) (x : Z) : bool := if (i <? n)%nat then x =? RAM !!! i else true.
Fixpoint all_match (RAM W : list Z) F (n i j : nat) : bool :=
  match i with O => true | S i => matches RAM n i (answer W F j) && all_match RAM W F n i (S j) end.
Definition echoed addr RAM n F : bool :=
  let W := write_frame addr RAM n in
  all_match RAM W F n 3 0 && (answer W F 3 =? frame_sum ([0x8D; 0x10] ++ answers W F 0 3)).

Lemma match_step i n RAM x : (n <= length RAM)%nat ->
  (if Z.of_nat (S i) <=? Z.of_nat n then old ← rd RAM (Z.of_nat i); Some (negb (x =? old)) else Some false) = Some (negb (matches RAM n i x)).
Proof.
  intros Hl; unfold matches; destruct (i <? n)%nat eqn:E; [apply Nat.ltb_lt in E | apply Nat.ltb_ge in E].
  - rewrite (proj2 (Z.leb_le _ _)) by lia; destruct (rd_in RAM (Z.of_nat i)) as [old Ho]; [unfold zlen; lia|].
    step_ok Ho; apply rd_Some in Ho as [_ Ho]; rewrite Nat2Z.id in Ho; by rewrite (list_lookup_total_correct _ _ _ Ho).
  - by rewrite (proj2 (Z.leb_gt _ _)) by lia.
Qed.

Lemma read_back_ok i n RAM : forall chk g W j F, (n <= length RAM)%nat -> is_u8 chk -> hearing g W j F ->
  exists status chk' g' j', read_back i (Z.of_nat n) RAM chk g = Some (status, chk', g') /\ hearing g' W j' F /\
    (if all_match RAM W F n i j then status = 0x01 /\ j' = (j + i)%nat /\ chk' = u8 (chk + sumz (answers W F j i)) else status = 0x00).
Proof.
  induction i as [|i IH]; intros chk g W j F Hl Hc Hh.
  { exists 1, chk, g, j; cbn; rewrite Z.add_0_r, u8_id, Nat.add_0_r by done; done. }
  cbn [read_back all_match]; destruct (receive_silent g W j F Hh) as (g1 & Hr & Hh1); step_ok Hr.
  rewrite match_step, bind_ok by done; destruct (matches RAM n i (answer W F j)); cbn [negb andb].
  - destruct (IH (u8 (chk + answer W F j)) g1 W (S j) F Hl (u8_range _) Hh1) as (st & chk' & g' & j' & Hrd & Hh' & Hst).
    exists st, chk', g', j'; split; [exact Hrd|]; split; [done|].
    destruct (all_match RAM W F n i (S j)); [|done]; destruct Hst as (-> & -> & ->); split; [done|]; split; [lia|].
    rewrite u8_add; unfold answers; cbn [seq map]; fold (answers W F (S j) i); cbn [sumz fold_right].
    change (u8 (r F (W ++ replicate j 0))) with (answer W F j); f_equal; unfold sumz; lia.
  - exists 0, chk, g1, (S j); by split_and!.
Qed.

Lemma head_sum addr RAM n : u8 (Z.lnot (u8 (u8 (u8 (Z.land addr 0xff) + bank_byte addr 0x80) + sumz (rev (take n RAM))))) = frame_sum (write_head addr RAM n).
Proof.
  unfold write_head; rewrite <- sum_check; do 2 f_equal; rewrite u8_add; do 2 f_equal; unfold sumz; cbn [fold_right]; lia.
Qed.

Lemma write_once_ok g F addr RAM n : rn_idle g F -> (n <= length RAM)%nat -> Forall is_u8 RAM ->
  exists g' rest, write_once addr RAM (Z.of_nat n) g = Some (if echoed addr RAM n F then 0x01 else 0x00, g') /\
    rn_idle g' (F ++ [write_frame addr RAM n ++ rest]).
Proof.
  intros Hi Hl H8; unfold write_once; change (Z.land addr 0x00ff) with (Z.land addr 0xff); rewrite Nat2Z.id.
  assert (Ho : open_frame (RN8302_SendByte (bank_byte addr 0x80) (RN8302_SendByte (u8 (Z.land addr 0xff)) (P_ADE78XX_CS_L g)))
    [u8 (Z.land addr 0xff); bank_byte addr 0x80] F).
  { apply (send_open _ _ [_]); [apply bank_u8|]; apply (send_open _ _ []); [apply u8_range|]; exact (rn_select _ _ Hi). }
  destruct (write_bytes_ok n RAM (u8 (u8 (Z.land addr 0xff) + bank_byte addr 0x80)) _ _ F Hl H8 (u8_range _) Ho) as (g1 & Hw & Ho1).
  step_ok Hw; rewrite head_sum; fold (write_head addr RAM n) in Ho1.
  apply (send_open (frame_sum (write_head addr RAM n))) in Ho1; [|apply u8_range].
  apply (send_open 0x8D) in Ho1; [|split; [lia | reflexivity]]; destruct Ho1 as (c & m & l & Ho1).
  change (bank_byte 0x018D 0x00) with 0x10; apply (send_silent 0x10) in Ho1; [|split; [lia | reflexivity] | reflexivity].
  rewrite <- !app_assoc in Ho1; cbn [app] in Ho1; fold (write_frame addr RAM n) in Ho1; set (W := write_frame addr RAM n) in *.
  destruct (read_back_ok 3 n RAM (u8 (0x8D + 0x10)) _ W 0 F Hl (u8_range _) Ho1) as (st & chk & g2 & j & Hr & Hh & Hst).
  step_ok Hr; unfold echoed; fold W; destruct (all_match RAM W F n 3 0); cbn [andb].
  - destruct Hst as (-> & -> & ->); change (0x01 =? 0x01) with true; cbn iota.
    destruct (receive_silent _ _ _ _ Hh) as (g3 & Hr3 & l3 & Hf3); step_ok Hr3; rewrite bind_ok; cbn beta iota.
    rewrite u8_add; change (0x8D + 0x10) with (sumz [0x8D; 0x10]); rewrite sum_check; change (0 + 3)%nat with 3%nat in *.
    exists (P_ADE78XX_CS_H g3), (replicate 4 0); split; [by destruct (_ =? _) | exact (rn_deselect _ _ _ _ _ _ Hf3)].
  - subst st; change (0x00 =? 0x01) with false; cbn iota; rewrite bind_ok; destruct Hh as [l2 Hf2].
    exists (P_ADE78XX_CS_H g2), (replicate j 0); split; [done | exact (rn_deselect _ _ _ _ _ _ Hf2)].
Qed.

Lemma write_repeat_ok k addr RAM n : forall status g F, rn_idle g F -> (n <= length RAM)%nat -> Forall is_u8 RAM ->
  exists status' g' rests, write_repeat k addr RAM (Z.of_nat n) status g = Some (status', g') /\
    rn_idle g' (F ++ map (app (write_frame addr RAM n)) rests) /\
    ((status' = 0x01 /\ exists before rest, rests = before ++ [rest] /\ (length before < k)%nat /\
        echoed addr RAM n (F ++ map (app (write_frame addr RAM n)) before) = true) \/
     (status' = (if (k =? 0)%nat then status else 0x00) /\ length rests = k /\
        forall i, (i < k)%nat -> echoed addr RAM n (F ++ map (app (write_frame addr RAM n)) (take i rests)) = false)).
Proof.
  induction k as [|k IH]; intros status g F Hi Hl H8.
  { exists status, g, []; rewrite app_nil_r; split; [done|]; split; [done|]; right; split_and!; [done | done | lia]. }
  destruct (write_once_ok g F addr RAM n Hi Hl H8) as (g1 & rest & Hw & Hi1); cbn [write_repeat]; step_ok Hw.
  destruct (echoed addr RAM n F) eqn:He; cbn [Z.eqb Pos.eqb].
  - exists 1, g1, [rest]; split; [done|]; split; [done|]; left; split; [done|]; exists [], rest; cbn; rewrite app_nil_r; split_and!; [done | lia | done].
  - destruct (IH 0 g1 (F ++ [write_frame addr RAM n ++ rest]) Hi1 Hl H8) as (st & g' & rests & Hr & Hi' & Hc).
    exists st, g', (rest :: rests); split; [exact Hr|]; rewrite <- app_assoc in Hi'; split; [exact Hi'|].
    destruct Hc as [(-> & before & r' & -> & Hb & Hec) | (-> & Hlen & Hec)].
    + left; split; [done|]; exists (rest :: before), r'; rewrite <- app_assoc in Hec; split_and!; [done | cbn; lia | exact Hec].
    + right; split; [by destruct k|]; split; [cbn; lia|]; intros [|i] Hlt; [cbn; by rewrite app_nil_r|].
      cbn [take map]; specialize (Hec i ltac:(lia)); rewrite <- app_assoc in Hec; exact Hec.
Qed.

(** C26: writing a register: every frame the chip gets is the address, the data
    and their checksum, followed by the request for its copy. The result is 1
    exactly if the chip repeated the data with a right checksum, in the last of
    at most ten frames; after ten frames that were not repeated it is 0. *)
Theorem RN8302_Write_confirmed g F addr RAM n status : rn_idle g F -> (n <= length RAM)%nat -> (n < 256)%nat -> Forall is_u8 RAM ->
  exists status' g' rests, RN8302_Write addr RAM (Z.of_nat n) status g = Some (status', g') /\
    rn_idle g' (F ++ map (app (write_frame addr RAM n)) rests) /\
    ((status' = 0x01 /\ exists before rest, rests = before ++ [rest] /\ (length before < 10)%nat /\
        echoed addr RAM n (F ++ map (app (write_frame addr RAM n)) before) = true) \/
     (status' = 0x00 /\ length rests = 10%nat /\
        forall i, (i < 10)%nat -> echoed addr RAM n (F ++ map (app (write_frame addr RAM n)) (take i rests)) = false)).
Proof. intros Hi Hn _; by apply (write_repeat_ok 10). Qed.

(** ** The files *)

(** reading through the file: the user's first two bytes are the register's
    address; the size modulo 256 is the number of bytes asked of the chip, while
    the result is the full size, or -EIO exactly if no checksum was right; a file
    that is not open is refused without touching the chip. *)
Theorem rn8302b_read_user g F b0 b1 buf count : rn_idle g F -> is_u8 b0 -> is_u8 b1 -> 0 <= count -> u8 count <= 2 + zlen buf ->
  (exists buf' g' frame, rn8302b_read (Some true) (b0 :: b1 :: buf) count g =
      Some (if first_ok (b0 + 256 * b1) (Z.to_nat (u8 count)) F || second_ok (b0 + 256 * b1) (Z.to_nat (u8 count)) F then count else - EIO, buf', g') /\
    rn_idle g' (F ++ [frame]) /\ take 2 frame = read_request (b0 + 256 * b1) /\ length buf' = S (S (length buf))) /\
  rn8302b_read (Some false) (b0 :: b1 :: buf) count g = Some (- EFAULT, b0 :: b1 :: buf, g).
Proof.
  intros Hi H0 H1 Hc Hl; split; [|reflexivity]; pose proof (u8_range count) as Hu; unfold is_u8 in Hu.
  destruct (read_checked g F (b0 :: b1 :: buf) (b0 + 256 * b1) (Z.to_nat (u8 count)) Hi) as (g' & frame & Hr & Hi' & Hf);
    [cbn [length]; unfold zlen in Hl; lia | lia|].
  rewrite Z2Nat.id in Hr by lia; unfold rn8302b_read, user_addr; change (rd (b0 :: b1 :: buf) 0) with (Some b0).
  change (rd (b0 :: b1 :: buf) 1) with (Some b1); rewrite !bind_ok; change (0 / 65536) with 0; rewrite Z.mul_0_r, Z.add_0_r; step_ok Hr.
  set (n := Z.to_nat (u8 count)) in *; assert (Hn : (n <= length (b0 :: b1 :: buf))%nat) by (cbn [length]; unfold zlen in Hl; lia).
  assert (Hlen : forall bs : list Z, length bs = n -> length (bs ++ drop n (b0 :: b1 :: buf)) = length (b0 :: b1 :: buf))
    by (intros bs Hb; rewrite length_app, length_drop, Hb; lia).
  assert (Hd : length (rev (answers (read_request (b0 + 256 * b1)) F 0 n)) = n) by (unfold answers; by rewrite length_rev, length_map, length_seq).
  destruct (first_ok _ n F); [|destruct (second_ok _ n F)]; cbn [orb]; eexists _, g', frame;
    (split; [reflexivity | split; [exact Hi' | split; [exact Hf|]]]).
  - by apply Hlen.
  - unfold overlay; rewrite length_app, length_rev, !length_drop, Hlen by done.
    unfold answers; rewrite length_map, length_seq; cbn [length] in *; lia.
  - apply Hlen, length_replicate.
Qed.
End Driver.

(** ** A concrete chip: its answer depends on how many bytes it has heard. *)
Definition scripted (script : list Z) (_ : list (list Z)) (bytes : list Z) : Z := nth (length bytes) script 0.

Definition rn_example (script : list Z) : io slave :=
  mk_io (<[out_reg 3 := 0x1C]> {[ dir_reg 3 := 0x5C ]})
    (mk_slave rn_wiring (scripted script) true true false false [] [] []).

Lemma rn_example_idle script : rn_idle (scripted script) (rn_example script) [].
Proof.
  exists true, true, false; split; [|reflexivity]; split; [split_and!; cbn; lia || discriminate|]; split_and!; vm_compute; repeat split; reflexivity.
Qed.

(** Register 0x100 holds 0x1234. *)
Definition read_script : list Z := [0; 0; 0x12; 0x34; frame_sum [0x00; 0x10; 0x12; 0x34]].

Lemma RN8302_Read_checked_witness :
  exists g', RN8302_Read [0; 0; 9] 0x100 2 (rn_example read_script) = Some (0x01, [0x34; 0x12; 9], g').
Proof.
  destruct (RN8302_Read_checked (scripted read_script) (rn_example read_script) [] [0; 0; 9] 0x100 2 (rn_example_idle _)) as (g' & frame & Hr & _).
  - cbn; lia.
  - lia.
  - exists g'; exact Hr.
Defined.

(** The chip repeats what is written to register 0x180. *)
Definition write_script : list Z := replicate 7 0 ++ [0; 0x34; 0x12; frame_sum [0x8D; 0x10; 0; 0x34; 0x12]].

Lemma RN8302_Write_confirmed_witness :
  exists g', RN8302_Write 0x180 [0x12; 0x34] 2 0 (rn_example write_script) = Some (0x01, g').
Proof.
  destruct (RN8302_Write_confirmed (scripted write_script) (rn_example write_script) [] 0x180 [0x12; 0x34] 2 0 (rn_example_idle _))
    as (st & g' & rests & Hr & _ & Hc).
  - cbn; lia.
  - lia.
  - repeat constructor; vm_compute; congruence.
  - exists g'; destruct Hc as [[-> _] | (_ & _ & He)]; [exact Hr | specialize (He 0%nat ltac:(lia)); vm_compute in He; discriminate He].
Defined.

Lemma rn8302b_read_user_witness :
  exists buf' g', rn8302b_read (Some true) [0x00; 0x01] 258 (rn_example read_script) = Some (258, buf', g').
Proof.
  destruct (rn8302b_read_user (scripted read_script) (rn_example read_script) [] 0x00 0x01 [] 258 (rn_example_idle _))
    as ((buf' & g' & frame & Hr & _) & _).
  - split; [lia | reflexivity].
  - split; [lia | reflexivity].
  - lia.
  - vm_compute; congruence.
  - exists buf', g'; exact Hr.
Defined.
