(* ===== verification/Esam.v ===== *)
(** The driver of the security module (ESAM,
    src/drivers/char/hndl_char_devices/hnos_esam_intf.c): a serial interface run
    in software on port I, commands framed with a start byte and a checksum,
    responses polled for, and the file operations. *)
From S2P Require Import Prelude Gpio.

Definition ESAM_CLK : Z := 259.
Definition ESAM_MISO : Z := 261.
Definition ESAM_MOSI : Z := 262.
Definition ESAM_CS : Z := 260.
Definition ESAM_PWR : Z := 263.
Definition ESAM_BUF_SIZE : Z := 2048.
(** The polls for a response before the driver gives up: 3200*1000/50. *)
Definition ESAM_POLLS : Z := 3200 * 1000 / 50.

(** [struct esam_spi_device]. *)
Record esam_spi_device := mk_esam { tx_buf : list Z; rx_buf : list Z; es_is_open : bool }.
#[export] Instance eta_esam : Eta esam_spi_device := fun d => mk_esam (tx_buf d) (rx_buf d) (es_is_open d).

(** [cal_lrc]; [data] is never null here. *)
Fixpoint lrc_loop (LRCx : Z) (data : list Z) : Z :=
  match data with [] => LRCx | x :: data => lrc_loop (u8 (Z.lxor LRCx x)) data end.

Definition cal_lrc (data : list Z) (len : Z) : option Z :=
  if len =? 0 then Some 0
  else
    bs ← rdn data 0 len;
    match bs with [] => None | x :: bs => Some (u8 (Z.lnot (if len =? 1 then x else lrc_loop x bs))) end.

(** [copy_to_user(reslt + i, bs, ...)]: the user's memory [user] takes what fits;
    that the rest faults is not noticed by the driver. *)
Definition copy_out (user : list Z) (i : Z) (bs : list Z) : list Z :=
  if i <=? zlen user then take (length user) (take (Z.to_nat i) user ++ bs ++ drop (Z.to_nat i + length bs) user) else user.

Section Esam.
  Context {E : Type} `{!Board E}.
  Implicit Types (g : io E) (dev : esam_spi_device).

Definition gpioi_or (mask : Z) g : io E := io_writel (Z.lor (io_readl REG_GPIOI_DATAOUT g) mask) REG_GPIOI_DATAOUT g.
Definition gpioi_andn (mask : Z) g : io E := io_writel (Z.land (io_readl REG_GPIOI_DATAOUT g) (Z.lnot mask)) REG_GPIOI_DATAOUT g.
Definition ESAM_CLK_H g : io E := gpioi_or 0x08 g.
Definition ESAM_CLK_L g : io E := gpioi_andn 0x08 g.
Definition ESAM_MOSI_H g : io E := gpioi_or 0x40 g.
Definition ESAM_MOSI_L g : io E := gpioi_andn 0x40 g.
Definition ESAM_MISO_Read g : option (Z * io E) := nuc970_gpio_core_get1 ESAM_MISO g.

Fixpoint esam_receive_loop (n : nat) (RxData : Z) g : option (Z * io E) :=
  match n with
  | O => Some (RxData, g)
  | S n =>
      let g := ESAM_CLK_L g in
      let RxData := u8 (Z.shiftl RxData 1) in
      '(level, g) ← ESAM_MISO_Read g;
      let RxData := if nz level then Z.lor RxData 0x01 else RxData in
      let g := ESAM_CLK_H g in
      esam_receive_loop n RxData g
  end.
Definition ESAM_ReceiveByte g : option (Z * io E) := esam_receive_loop 8 0 g.

Definition es_cspin (status : Z) g : option (io E) :=
  '(_, g) ← nuc970_gpio_core_direction_out1 ESAM_CS (if nz status then 1 else 0) g; Some g.
Definition es_pwrpin (status : Z) g : option (io E) :=
  '(_, g) ← nuc970_gpio_core_direction_out1 ESAM_PWR (if nz status then 0 else 1) g; Some g.

(** ** [esam_spi_write] *)

(** The inner loop: the bits of one byte of [tx_buf], which it shifts away. *)
Fixpoint shift_byte (n : nat) (x : Z) g : Z * io E :=
  match n with
  | O => (x, g)
  | S n =>
      let g := ESAM_CLK_L g in
      let g := if Z.land x 0x80 =? 0x80 then ESAM_MOSI_H g else ESAM_MOSI_L g in
      let g := ESAM_CLK_H g in
      shift_byte n (u8 (Z.shiftl x 1)) g
  end.

(** The outer loop, from byte [i] on for [n] bytes. *)
Fixpoint send_frame (n : nat) (i : Z) (tx : list Z) g : option (list Z * io E) :=
  match n with
  | O => Some (tx, g)
  | S n =>
      x ← rd tx i;
      let '(x, g) := shift_byte 8 x g in
      tx ← wr tx i x;
      send_frame n (i + 1) tx g
  end.

(** [reslt] is what [copy_from_user] stores, the user's [len] bytes unless it
    faults, which the driver does not notice; [None] is a null pointer. The
    result comes with [CMD_SENT] and the device. *)
Definition esam_spi_write (len : Z) (reslt : option (list Z)) (esam_spi : option esam_spi_device) (CMD_SENT : Z) g
    : option (Z * Z * option esam_spi_device * io E) :=
  g ← nuc970_gpio_core_set1 ESAM_MOSI 0 g;
  g ← nuc970_gpio_core_set1 ESAM_CLK 0 g;
  let g := ESAM_CLK_H g in
  g ← es_cspin 1 g;
  match esam_spi, reslt with
  | Some dev, Some src =>
      if ESAM_BUF_SIZE <? u32 (len + 2) then Some (- EINVAL, CMD_SENT, esam_spi, g)
      else
        tx ← wr (tx_buf dev) 0 0x55;
        tx ← wrn tx 1 (take (Z.to_nat len) src);
        lrc ← cal_lrc (drop 1 tx) len;
        tx ← wr tx (1 + len) lrc;
        g ← es_cspin 0 g;
        '(tx, g) ← send_frame (Z.to_nat (u32 (len + 2))) 0 tx g;
        g ← es_cspin 1 g;
        Some (0, 1, Some (dev <| tx_buf := tx |>), g)
  | _, _ => Some (- EINVAL, CMD_SENT, esam_spi, g)
  end.

(** ** [esam_spi_read] *)

(** The polls: [n] more may be made. The result is whether the start byte came. *)
Fixpoint waitread (n : nat) (rx : list Z) g : option (bool * list Z * io E) :=
  match n with
  | O => Some (false, rx, g)
  | S n =>
      '(b, g) ← ESAM_ReceiveByte g;
      rx ← wr rx 0 b;
      if negb (b =? 0x55) then waitread n rx g else Some (true, rx, g)
  end.

(** [n] bytes into [rx_buf] from index [i] on. *)
Fixpoint receive_bytes (n : nat) (i : Z) (rx : list Z) g : option (list Z * io E) :=
  match n with
  | O => Some (rx, g)
  | S n =>
      '(b, g) ← ESAM_ReceiveByte g;
      rx ← wr rx i b;
      receive_bytes n (i + 1) rx g
  end.

(** The result, [CMD_SENT], the user's memory, the device and the pins. *)
Definition esam_spi_read (maxlen : Z) (user : list Z) (esam_spi : option esam_spi_device) (CMD_SENT : Z) g
    : option (Z * Z * list Z * option esam_spi_device * io E) :=
  g ← nuc970_gpio_core_set1 ESAM_MOSI 1 g;
  match esam_spi with
  | None => Some (- EINVAL, CMD_SENT, user, esam_spi, g)
  | Some dev =>
      if CMD_SENT =? 0 then
        let n := if 5 <? maxlen then 5 else maxlen in
        rx ← wrn (rx_buf dev) 0 (replicate (Z.to_nat n) 0);
        bs ← rdn rx 0 n;
        Some (0, CMD_SENT, copy_out user 0 bs, Some (dev <| rx_buf := rx |>), g)
      else
        g ← es_cspin 0 g;
        '(started, rx, g) ← waitread (Z.to_nat ESAM_POLLS) (rx_buf dev) g;
        if negb started then
          g ← es_cspin 1 g;
          Some (- EIO, CMD_SENT, user, Some (dev <| rx_buf := rx |>), g)
        else
          '(rx, g) ← receive_bytes 4 0 rx g;
          head ← rdn rx 0 4;
          let user := copy_out user 0 head in
          b2 ← rd rx 2;
          b3 ← rd rx 3;
          let len := b2 * 256 + b3 in
          if maxlen <? u32 (len + 4) then
            g ← es_cspin 1 g;
            Some (- EINVAL, CMD_SENT, user, Some (dev <| rx_buf := rx |>), g)
          else
            '(rx, g) ← receive_bytes (Z.to_nat len) 4 rx g;
            body ← rdn rx 4 len;
            let user := copy_out user 4 body in
            '(b, g) ← ESAM_ReceiveByte g;
            rx ← wr rx (len + 4) b;
            g ← es_cspin 1 g;
            lrc ← cal_lrc rx (len + 4);
            sent ← rd rx (len + 4);
            Some (if sent =? lrc then 0 else - EIO, 0, user, Some (dev <| rx_buf := rx |>), g)
  end.

(** ** The file operations *)
Definition esam_write (count : Z) (buf : option (list Z)) (esam_spi : option esam_spi_device) (CMD_SENT : Z) g
    : option (Z * Z * option esam_spi_device * io E) :=
  match esam_spi with
  | Some dev =>
      if negb (es_is_open dev) then Some (- EFAULT, CMD_SENT, esam_spi, g)
      else
        '(ret, CMD_SENT, esam_spi, g) ← esam_spi_write (u32 count) buf esam_spi CMD_SENT g;
        Some (if nz ret then - EIO else count, CMD_SENT, esam_spi, g)
  | None => Some (- EFAULT, CMD_SENT, esam_spi, g)
  end.

(** The length is computed from the user's memory. *)
Definition esam_read (count : Z) (user : list Z) (esam_spi : option esam_spi_device) (CMD_SENT : Z) g
    : option (Z * Z * list Z * option esam_spi_device * io E) :=
  match esam_spi with
  | Some dev =>
      if negb (es_is_open dev) then Some (- EFAULT, CMD_SENT, user, esam_spi, g)
      else
        '(ret, CMD_SENT, user, esam_spi, g) ← esam_spi_read (u32 count) user esam_spi CMD_SENT g;
        if nz ret then Some (- EIO, CMD_SENT, user, esam_spi, g)
        else
          b2 ← rd user 2;
          b3 ← rd user 3;
          Some (b2 * 256 + b3 + 4, CMD_SENT, user, esam_spi, g)
  | None => Some (- EFAULT, CMD_SENT, user, esam_spi, g)
  end.
End Esam.

Definition esam_open (esam_spi : option esam_spi_device) : Z * option esam_spi_device :=
  match esam_spi with
  | Some dev => if es_is_open dev then (- EBUSY, esam_spi) else (0, Some (dev <| es_is_open := true |>))
  | None => (0, None)
  end.

Definition esam_release (esam_spi : option esam_spi_device) : Z * option esam_spi_device :=
  match esam_spi with
  | Some dev => if es_is_open dev then (0, Some (dev <| es_is_open := false |>)) else (- EINVAL, esam_spi)
  | None => (0, None)
  end.
