(* ===== verification/EsamSpec.v ===== *)
(** The security module's driver against any module on its pins: what a command
    sends, what a response gives the user, and how the driver ends when there is
    no response or one that is too long. *)
From S2P Require Import Prelude Gpio GpioSpec Spi Esam.

(** Port I: clock PI3, data to the module PI6, select PI4, data from it PI5; the
    module shifts its bits out at the falling edges. *)
Definition es_wiring : wiring := mk_wiring 8 3 6 4 5 false.

(** The checksum of a frame. *)
Definition lrc_of (l : list Z) : Z := match l with [] => 0 | x :: l => u8 (Z.lnot (lrc_loop x l)) end.

Lemma cal_lrc_ok data n : 0 <= n <= zlen data -> cal_lrc data n = Some (lrc_of (take (Z.to_nat n) data)).
Proof.
  intros Hn; unfold cal_lrc; destruct (n =? 0) eqn:E; zbool; [by subst|].
  rewrite rdn_in by lia; rewrite bind_ok, slice_0; assert (Hl : zlen (take (Z.to_nat n) data) = n) by (rewrite zlen_take; lia).
  destruct (take (Z.to_nat n) data) as [|x l]; [rewrite zlen_nil in Hl; lia|]; unfold lrc_of.
  destruct (n =? 1) eqn:E1; zbool; [|done]; rewrite zlen_cons in Hl; destruct l; [done | rewrite zlen_cons in Hl; pose proof (zlen_nonneg l); lia].
Qed.

Section Driver.
  Context (r : list (list Z) -> list Z -> Z).
  Implicit Types (g : io slave) (F : list (list Z)).

Definition es_frame g c m l bits bytes F : Prop := in_frame g es_wiring r c m l bits bytes F.

Lemma es_macros g : sl_wiring (io_board g) = es_wiring ->
  ESAM_CLK_H g = write_bit 3 true g /\ ESAM_CLK_L g = write_bit 3 false g /\
  ESAM_MOSI_H g = write_bit 6 true g /\ ESAM_MOSI_L g = write_bit 6 false g.
Proof. intros Hw; unfold write_bit; rewrite Hw; split_and!; reflexivity. Qed.

Lemma es_clock_low g c m l bits bytes F : es_frame g c m l bits bytes F ->
  exists l', es_frame (ESAM_CLK_L g) false m l' bits bytes F /\ (c = true -> l' = Z.testbit (r F bytes) (7 - zlen bits)).
Proof.
  intros Hf; rewrite (proj1 (proj2 (es_macros g (proj1 (frame_wiring _ _ _ _ _ _ _ _ _ Hf))))); exact (edge_shift _ _ _ _ _ _ _ _ _ Hf).
Qed.

Lemma es_clock_high g m l bits bytes F : es_frame g false m l bits bytes F ->
  es_frame (ESAM_CLK_H g) true m l (if zlen (bits ++ [m]) <? 8 then bits ++ [m] else [])
    (if zlen (bits ++ [m]) <? 8 then bytes else bytes ++ [byte_of_bits (bits ++ [m])]) F.
Proof.
  intros Hf; rewrite (proj1 (es_macros g (proj1 (frame_wiring _ _ _ _ _ _ _ _ _ Hf)))); exact (edge_sample _ es_wiring _ _ _ _ _ _ Hf).
Qed.

Lemma es_data g c m l bits bytes F (b : bool) : es_frame g c m l bits bytes F ->
  es_frame (if b then ESAM_MOSI_H g else ESAM_MOSI_L g) c b l bits bytes F.
Proof.
  intros Hf; destruct (es_macros g (proj1 (frame_wiring _ _ _ _ _ _ _ _ _ Hf))) as (_ & _ & H1 & H2).
  rewrite H1, H2; destruct b; exact (edge_mosi _ es_wiring _ _ _ _ _ _ _ _ Hf).
Qed.

(** ** Bytes *)
Lemma shift_byte_loop n : forall x g c m l bits bytes F, is_u8 x -> es_frame g c m l bits bytes F -> zlen bits + Z.of_nat (S n) = 8 ->
  exists y g' l', shift_byte (S n) x g = (y, g') /\ es_frame g' true (last_level (msb_bits (S n) x) m) l' []
    (bytes ++ [byte_of_bits (bits ++ msb_bits (S n) x)]) F.
Proof.
  induction n as [|n IH]; intros x g c m l bits bytes F Hx Hf Hn;
    destruct (es_clock_low _ _ _ _ _ _ _ Hf) as (l1 & Hf1 & _); apply (es_data _ _ _ _ _ _ _ (Z.testbit x 7)) in Hf1;
    apply es_clock_high in Hf1; rewrite zlen_app in Hf1; change (zlen [_]) with 1 in Hf1.
  - rewrite (proj2 (Z.ltb_ge _ _)) in Hf1 by lia; do 2 eexists; exists l1; split; [cbn [shift_byte]; rewrite (top_bit x Hx); reflexivity | exact Hf1].
  - rewrite (proj2 (Z.ltb_lt _ _)) in Hf1 by lia.
    destruct (IH (u8 (Z.shiftl x 1)) _ _ _ _ _ _ _ (u8_range _) Hf1) as (y & g' & l' & Hs & Hf'); [rewrite zlen_app; change (zlen [_]) with 1; lia|].
    exists y, g', l'; rewrite <- app_assoc in Hf'; split; [|exact Hf'].
    change (shift_byte (S (S n)) x g) with (shift_byte (S n) (u8 (Z.shiftl x 1))
      (ESAM_CLK_H (if Z.land x 0x80 =? 0x80 then ESAM_MOSI_H (ESAM_CLK_L g) else ESAM_MOSI_L (ESAM_CLK_L g)))).
    rewrite (top_bit x Hx); exact Hs.
Qed.

(** A frame is open and the clock is high. *)
Definition es_open g bytes F : Prop := exists m l, es_frame g true m l [] bytes F.

Lemma shift_byte_ok x g bytes F : is_u8 x -> es_open g bytes F ->
  exists y g', shift_byte 8 x g = (y, g') /\ es_open g' (bytes ++ [x]) F.
Proof.
  intros Hx (m & l & Hf); destruct (shift_byte_loop 7 x g true m l [] bytes F Hx Hf) as (y & g' & l' & Hs & Hf'); [done|].
  cbn [app] in Hf'; rewrite msb_byte in Hf' by done; by exists y, g'; split; [|eexists _, l'].
Qed.

Lemma es_receive_loop n : forall g m l bits bytes F, es_frame g true m l bits bytes F -> zlen bits + Z.of_nat (S n) = 8 ->
  exists g' l', esam_receive_loop (S n) (byte_of_bits (reply_bits (r F bytes) 0 (length bits))) g = Some (byte_of_bits (reply_bits (r F bytes) 0 8), g') /\
    es_frame g' true m l' [] (bytes ++ [byte_of_bits (bits ++ replicate (S n) m)]) F.
Proof.
  induction n as [|n IH]; intros g m l bits bytes F Hf Hn; cbn [esam_receive_loop];
    destruct (es_clock_low _ _ _ _ _ _ _ Hf) as (l1 & Hf1 & Hl1); specialize (Hl1 eq_refl);
    destruct (frame_line _ _ _ _ _ _ _ _ _ Hf1) as (g1 & Hr & Hf2); apply es_clock_high in Hf2;
    rewrite zlen_app in Hf2; change (zlen [_]) with 1 in Hf2;
    change (pin_at es_wiring (wr_miso es_wiring)) with ESAM_MISO in Hr; unfold ESAM_MISO_Read; step_ok Hr.
  all: assert (Hl : zlen (reply_bits (r F bytes) 0 (length bits)) < 8) by (unfold zlen, reply_bits; rewrite length_map, length_seq; unfold zlen in Hn; lia).
  all: assert (Hsnoc : reply_bits (r F bytes) 0 (length bits) ++ [l1] = reply_bits (r F bytes) 0 (S (length bits)))
    by (unfold reply_bits; rewrite seq_S, map_app, Hl1; done).
  all: rewrite shift_in, Hsnoc by done.
  - rewrite (proj2 (Z.ltb_ge _ _)) in Hf2 by lia; exists (ESAM_CLK_H g1), l1; split; [|exact Hf2].
    replace (S (length bits)) with 8%nat by (unfold zlen in Hn; lia); reflexivity.
  - rewrite (proj2 (Z.ltb_lt _ _)) in Hf2 by lia; destruct (IH (ESAM_CLK_H g1) m l1 (bits ++ [m]) bytes F Hf2) as (g' & l' & Hr' & Hf').
    + rewrite zlen_app; change (zlen [_]) with 1; lia.
    + exists g', l'; rewrite <- app_assoc in Hf'; split; [|exact Hf'].
      rewrite length_app, Nat.add_comm in Hr'; exact Hr'.
Qed.

(** The module is read: it hears [j] bytes of ones; its byte after them. *)
Definition reading g (j : nat) F : Prop := exists l, es_frame g true true l [] (replicate j 255) F.
Definition answer F (j : nat) : Z := u8 (r F (replicate j 255)).
Definition answers F (j n : nat) : list Z := map (answer F) (seq j n).

Lemma es_receive_ok g j F : reading g j F -> exists g', ESAM_ReceiveByte g = Some (answer F j, g') /\ reading g' (S j) F.
Proof.
  intros [l Hf]; destruct (es_receive_loop 7 g true l [] _ F Hf) as (g' & l' & Hr & Hf'); [done|].
  rewrite reply_byte in Hr; exists g'; split; [exact Hr|]; exists l'; rewrite replicate_S_end; exact Hf'.
Qed.

(** ** Selecting the module *)
Definition es_idle g F : Prop := exists m l, between_frames g es_wiring r true m l F.

Lemma es_select g F m l : between_frames g es_wiring r true m l F ->
  exists g', es_cspin 0 g = Some g' /\ es_frame g' true m l [] [] F.
Proof.
  intros Hf; destruct (between_wiring _ _ _ _ _ _ _ Hf) as (Hw & _), Hf as [Hs Hb].
  destruct (select_out es_wiring 0 g Hs Hw) as (g1 & Hr & Hs1 & Hb1); exists (write_bit 4 false g1); split.
  - unfold es_cspin; change (if nz 0 then 1 else 0) with 0; change ESAM_CS with (pin_at es_wiring (wr_cs es_wiring)); step_ok Hr; reflexivity.
  - apply (edge_select g1 es_wiring r true m l F); split; [done | by rewrite Hb1].
Qed.

Lemma es_deselect g bytes F : es_open g bytes F -> exists g', es_cspin 1 g = Some g' /\ es_idle g' (F ++ [bytes]).
Proof.
  intros (m & l & Hf); pose proof (proj1 (frame_wiring _ _ _ _ _ _ _ _ _ Hf)) as Hw; destruct Hf as [Hs Hb].
  destruct (select_out es_wiring 1 g Hs Hw) as (g1 & Hr & Hs1 & Hb1); exists (write_bit 4 true g1); split.
  - unfold es_cspin; change (if nz 1 then 1 else 0) with 1; change ESAM_CS with (pin_at es_wiring (wr_cs es_wiring)); step_ok Hr; reflexivity.
  - exists m, l; apply (edge_deselect g1 es_wiring r true m l [] bytes F); split; [done | by rewrite Hb1].
Qed.

(** The lines are set up before a command, and before a response is read. *)
Lemma es_prepare g F : es_idle g F ->
  exists g1 g2 g3, nuc970_gpio_core_set1 ESAM_MOSI 0 g = Some g1 /\ nuc970_gpio_core_set1 ESAM_CLK 0 g1 = Some g2 /\
    es_cspin 1 (ESAM_CLK_H g2) = Some g3 /\ exists l, between_frames g3 es_wiring r true false l F.
Proof.
  intros (m & l & Hf); destruct (between_wiring _ _ _ _ _ _ _ Hf) as (Hw & Hok & Hd).
  exists (write_bit 6 false g), (write_bit 3 false (write_bit 6 false g)).
  pose proof (set_is_write_bit es_wiring 6 0 g Hw Hok ltac:(lia) (proj1 (proj2 Hd))) as H1.
  apply (idle_mosi _ _ _ _ _ _ _ false) in Hf; destruct (between_wiring _ _ _ _ _ _ _ Hf) as (Hw1 & _ & Hd1).
  pose proof (set_is_write_bit es_wiring 3 0 _ Hw1 Hok ltac:(lia) (proj1 Hd1)) as H2.
  apply (idle_clock _ _ _ _ _ _ _ false) in Hf; destruct (between_wiring _ _ _ _ _ _ _ Hf) as (Hw2 & _ & _).
  apply (idle_clock _ _ _ _ _ _ _ true) in Hf; destruct (between_wiring _ _ _ _ _ _ _ Hf) as (Hw3 & _ & _).
  destruct Hf as [Hs Hb]; destruct (select_out es_wiring 1 _ Hs Hw3) as (g4 & Hr & Hs4 & Hb4).
  exists (write_bit 4 true g4); split; [exact H1|]; split; [exact H2|]; split.
  - rewrite (proj1 (es_macros (write_bit 3 false (write_bit 6 false g)) Hw2)); unfold es_cspin; change (if nz 1 then 1 else 0) with 1.
    change (pin_at es_wiring (wr_cs es_wiring)) with ESAM_CS in Hr; change (wr_clk es_wiring) with 3 in Hr; change (wr_mosi es_wiring) with 6 in Hr.
    step_ok Hr; reflexivity.
  - exists l; apply (idle_deselect g4 es_wiring r true false l F); split; [done | by rewrite Hb4].
Qed.

Lemma es_prepare_read g F : es_idle g F ->
  exists g1 l, nuc970_gpio_core_set1 ESAM_MOSI 1 g = Some g1 /\ between_frames g1 es_wiring r true true l F.
Proof.
  intros (m & l & Hf); destruct (between_wiring _ _ _ _ _ _ _ Hf) as (Hw & Hok & Hd).
  exists (write_bit 6 true g), l; split; [exact (set_is_write_bit es_wiring 6 1 g Hw Hok ltac:(lia) (proj1 (proj2 Hd)))|].
  exact (idle_mosi _ _ _ _ _ _ _ true Hf).
Qed.

(** ** Commands *)
Lemma send_frame_ok n : forall i tx g bytes F, Forall is_u8 (take n (drop i tx)) -> (i + n <= length tx)%nat -> es_open g bytes F ->
  exists tx' g', send_frame n (Z.of_nat i) tx g = Some (tx', g') /\ length tx' = length tx /\
    es_open g' (bytes ++ take n (drop i tx)) F.
Proof.
  induction n as [|n IH]; intros i tx g bytes F H8 Hl Ho; [exists tx, g; cbn; rewrite app_nil_r; done|]; cbn [send_frame].
  destruct (rd_in tx (Z.of_nat i)) as [x Hx]; [unfold zlen; lia|]; step_ok Hx.
  pose proof Hx as [_ Hx']%rd_Some; rewrite Nat2Z.id in Hx'; rewrite (drop_S _ _ _ Hx') in H8 |- *; cbn [take] in H8; apply Forall_cons in H8 as [Hb H8].
  destruct (shift_byte_ok x g bytes F Hb Ho) as (y & g1 & Hs & Ho1); rewrite Hs; cbn beta iota.
  rewrite wr_below, bind_ok by lia; replace (Z.of_nat i + 1) with (Z.of_nat (S i)) by lia.
  assert (Hy : drop (S i) (<[i := y]> tx) = drop (S i) tx) by (apply drop_insert_lt; lia).
  destruct (IH (S i) (<[i := y]> tx) g1 (bytes ++ [x]) F) as (tx' & g' & Hr & Hl' & Ho'); rewrite ?Hy, ?length_insert; [done | lia | done |].
  exists tx', g'; split; [exact Hr|]; rewrite length_insert in Hl'; split; [done|].
  rewrite Hy, <- app_assoc in Ho'; exact Ho'.
Qed.

(** The frame of a command: start byte, the user's bytes, their checksum. *)
Definition command (src : list Z) : list Z := 0x55 :: src ++ [lrc_of src].

(** The frame as it is built in the transmit buffer. *)
Lemma frame_built tx src (n : nat) : length tx = 2048%nat -> (n + 2 <= 2048)%nat -> length src = n ->
  exists tx1 tx2 tx3, wr tx 0 0x55 = Some tx1 /\ wrn tx1 1 src = Some tx2 /\ cal_lrc (drop 1 tx2) (Z.of_nat n) = Some (lrc_of src) /\
    wr tx2 (1 + Z.of_nat n) (lrc_of src) = Some tx3 /\ length tx3 = 2048%nat /\ take (n + 2) tx3 = command src.
Proof.
  intros Ht Hn Hs; destruct tx as [|a tx]; [discriminate Ht|]; cbn [length] in Ht.
  exists (0x55 :: tx), (0x55 :: src ++ drop n tx), (0x55 :: src ++ lrc_of src :: drop (S n) tx).
  assert (Hd : drop n tx <> []) by (intros Hd; apply (f_equal length) in Hd; rewrite length_drop in Hd; cbn in Hd; lia).
  split; [rewrite wr_in by (rewrite zlen_cons; pose proof (zlen_nonneg tx); lia); reflexivity|]; split.
  { pose proof (wrn_app [0x55] tx src) as Hw; change (zlen [0x55]) with 1 in Hw; change ([0x55] ++ tx) with (0x55 :: tx) in Hw.
    rewrite Hw by (unfold zlen; lia); rewrite Hs; reflexivity. }
  split.
  { change (drop 1 (0x55 :: ?l)) with l; rewrite cal_lrc_ok by (rewrite zlen_app; unfold zlen; lia).
    rewrite Nat2Z.id, <- Hs, take_app_length; done. }
  split.
  - rewrite wr_in by (rewrite zlen_cons, zlen_app, zlen_drop; unfold zlen; lia).
    replace (Z.to_nat (1 + Z.of_nat n)) with (S (length src)) by lia; change (<[S ?i := ?x]> (?a :: ?l)) with (a :: <[i := x]> l); rewrite insert_app_r_alt, Nat.sub_diag by lia.
    destruct (drop n tx) as [|x l] eqn:Hx; [done|]; change (<[0%nat := ?y]> (x :: l)) with (y :: l).
    replace (S n) with (n + 1)%nat by lia; rewrite <- drop_drop, Hx; reflexivity.
  - split; [cbn [length]; rewrite length_app; cbn [length]; rewrite length_drop; lia|].
    replace (n + 2)%nat with (S (length src + 1)) by lia; cbn [take]; rewrite take_app_add; reflexivity.
Qed.

(** The driver's buffers have their sizes, and the file is open. *)
Definition ready (dev : esam_spi_device) : Prop :=
  length (tx_buf dev) = 2048%nat /\ length (rx_buf dev) = 2048%nat /\ es_is_open dev = true.

Lemma lrc_u8 l : is_u8 (lrc_of l).
Proof. destruct l; [split; reflexivity || discriminate | apply u8_range]. Qed.

Lemma write_ok g F dev sent src : es_idle g F -> ready dev -> Forall is_u8 src -> zlen src <= 2046 ->
  exists tx g', esam_write (zlen src) (Some src) (Some dev) sent g = Some (zlen src, 1, Some (dev <| tx_buf := tx |>), g') /\
    ready (dev <| tx_buf := tx |>) /\ es_idle g' (F ++ [command src]).
Proof.
  intros Hi (Ht & Hr & Ho) H8 Hl; pose proof (zlen_nonneg src).
  destruct (es_prepare g F Hi) as (g1 & g2 & g3 & H1 & H2 & H3 & l & Hb).
  destruct (es_select g3 F false l Hb) as (g4 & H4 & Hf).
  destruct (frame_built (tx_buf dev) src (length src) Ht) as (tx1 & tx2 & tx3 & W1 & W2 & HL & W3 & Hl3 & Hfr); [unfold zlen in Hl; lia | done|].
  destruct (send_frame_ok (length src + 2) 0 tx3 g4 [] F) as (tx4 & g5 & Hs & Hl4 & Ho5); rewrite ?drop_0.
  - rewrite Hfr; apply Forall_cons; split; [split; lia|]; apply Forall_app; split; [done|]; apply Forall_singleton, lrc_u8.
  - unfold zlen in Hl; lia.
  - by exists false, l.
  - rewrite drop_0, Hfr in Ho5; destruct (es_deselect g5 (command src) F Ho5) as (g6 & H6 & Hi6).
    exists tx4, g6; unfold esam_write; rewrite Ho; cbn [negb]; unfold esam_spi_write; rewrite (u32_id (zlen src)) by lia.
    rewrite (u32_id (zlen src + 2)), (proj2 (Z.ltb_ge _ _)) by (unfold ESAM_BUF_SIZE; lia); step_ok H1; step_ok H2; step_ok H3.
    rewrite zlen_to_nat, firstn_all; step_ok W1; step_ok W2; change (Z.of_nat (length src)) with (zlen src) in HL, W3; step_ok HL; step_ok W3; step_ok H4.
    change (Z.of_nat 0) with 0 in Hs; replace (Z.to_nat (zlen src + 2)) with (length src + 2)%nat by (unfold zlen; lia); step_ok Hs; step_ok H6.
    split; [reflexivity|]; split; [|exact Hi6]; split; [cbn; lia | done].
Qed.

(** ** Responses *)
Lemma answer_u8 F j : is_u8 (answer F j).
Proof. apply u8_range. Qed.

Lemma length_answers F j n : length (answers F j n) = n.
Proof. unfold answers; by rewrite length_map, length_seq. Qed.

(** The first byte of the module that is the start byte is its [k]-th. *)
Definition started F (k : nat) : Prop := answer F k = 0x55 /\ forall i, (i < k)%nat -> answer F i <> 0x55.
(** The header of a response that starts there, its length, its bytes with the
    header, and the checksum the module sends. *)
Definition header F k : list Z := answers F (S k) 4.
Definition body_len F k : Z := answer F (k + 3) * 256 + answer F (k + 4).
Definition response F k : list Z := answers F (S k) (4 + Z.to_nat (body_len F k)).
Definition response_lrc F k : Z := answer F (k + 5 + Z.to_nat (body_len F k)).

Lemma body_len_range F k : 0 <= body_len F k < 65536.
Proof. unfold body_len; pose proof (answer_u8 F (k + 3)); pose proof (answer_u8 F (k + 4)); unfold is_u8 in *; lia. Qed.

Lemma waitread_polls n : forall j rx g F, reading g j F -> (0 < length rx)%nat ->
  (forall i, (i < n)%nat -> answer F (j + i) <> 0x55) ->
  exists rx' g', waitread n rx g = Some (false, rx', g') /\ reading g' (j + n) F /\ length rx' = length rx.
Proof.
  induction n as [|n IH]; intros j rx g F Hg Hr Hn; [exists rx, g; rewrite Nat.add_0_r; done|]; cbn [waitread].
  destruct (es_receive_ok g j F Hg) as (g1 & H1 & Hg1); step_ok H1; change 0 with (Z.of_nat 0); rewrite wr_below, bind_ok by done.
  pose proof (Hn 0%nat ltac:(lia)) as H0; rewrite Nat.add_0_r in H0; rewrite (proj2 (Z.eqb_neq _ _) H0); cbn [negb].
  destruct (IH (S j) (<[0%nat := answer F j]> rx) g1 F Hg1) as (rx' & g' & Hw & Hg' & Hl).
  - by rewrite length_insert.
  - intros i Hi; replace (S j + i)%nat with (j + S i)%nat by lia; apply Hn; lia.
  - rewrite length_insert in Hl; replace (S j + n)%nat with (j + S n)%nat in Hg' by lia; by exists rx', g'.
Qed.

Lemma waitread_app m : forall n rx rx1 g g1, waitread n rx g = Some (false, rx1, g1) -> waitread (n + m) rx g = waitread m rx1 g1.
Proof.
  induction n as [|n IH]; intros rx rx1 g g1; cbn [waitread Nat.add]; [by intros [= -> ->]|].
  destruct (ESAM_ReceiveByte g) as [[b g2]|]; [rewrite !bind_ok | discriminate]; destruct (wr rx 0 b) as [rx2|]; [rewrite !bind_ok | discriminate].
  destruct (negb (b =? 0x55)); [apply IH | discriminate].
Qed.

Lemma waitread_start n k rx g F : reading g 0 F -> (0 < length rx)%nat -> started F k -> (k < n)%nat ->
  exists rx' g', waitread n rx g = Some (true, rx', g') /\ reading g' (S k) F /\ length rx' = length rx.
Proof.
  intros Hg Hr [Hk Hb] Hn; destruct (waitread_polls k 0 rx g F Hg Hr Hb) as (rx1 & g1 & Hw & Hg1 & Hl).
  replace n with (k + S (n - S k))%nat by lia; rewrite (waitread_app _ _ _ _ _ _ Hw); cbn [waitread].
  destruct (es_receive_ok g1 k F Hg1) as (g2 & H2 & Hg2); step_ok H2; change 0 with (Z.of_nat 0); rewrite wr_below, bind_ok by lia.
  rewrite Hk; exists (<[0%nat := 0x55]> rx1), g2; split; [reflexivity|]; split; [done | by rewrite length_insert].
Qed.

Lemma receive_bytes_ok n : forall i j rx g F, reading g j F -> (i + n <= length rx)%nat ->
  exists g', receive_bytes n (Z.of_nat i) rx g = Some (take i rx ++ answers F j n ++ drop (i + n) rx, g') /\ reading g' (j + n) F.
Proof.
  induction n as [|n IH]; intros i j rx g F Hg Hn; cbn [receive_bytes].
  { exists g; unfold answers; rewrite !Nat.add_0_r; cbn [seq map app]; rewrite take_drop; done. }
  destruct (es_receive_ok g j F Hg) as (g1 & H1 & Hg1); step_ok H1; rewrite wr_below, bind_ok by lia.
  replace (Z.of_nat i + 1) with (Z.of_nat (S i)) by lia.
  destruct (IH (S i) (S j) (<[i := answer F j]> rx) g1 F Hg1) as (g' & Hr & Hg'); [rewrite length_insert; lia|].
  exists g'; replace (j + S n)%nat with (S j + n)%nat by lia; split; [|exact Hg']; rewrite Hr; do 2 f_equal.
  rewrite (take_S_r _ _ (answer F j)) by (apply list_lookup_insert_eq; lia); rewrite take_insert_ge by lia.
  rewrite drop_insert_lt by lia; rewrite <- app_assoc; replace (S i + n)%nat with (i + S n)%nat by lia; reflexivity.
Qed.

Lemma receive_bytes_overflow n : forall i j rx g F, reading g j F -> (i <= length rx)%nat -> (length rx < i + n)%nat ->
  receive_bytes n (Z.of_nat i) rx g = None.
Proof.
  induction n as [|n IH]; intros i j rx g F Hg Hi Hn; [lia|]; cbn [receive_bytes].
  destruct (es_receive_ok g j F Hg) as (g1 & H1 & Hg1); step_ok H1; replace (Z.of_nat i + 1) with (Z.of_nat (S i)) by lia.
  destruct (decide (i < length rx)%nat) as [Hlt|Hge]; [|rewrite wr_oob by (unfold zlen; lia); reflexivity].
  rewrite wr_below, bind_ok by lia; apply (IH (S i) (S j) _ g1 F Hg1); rewrite length_insert; lia.
Qed.

(** ** [esam_read] *)
Lemma copy_out_in (user bs : list Z) (i : nat) : (i + length bs <= length user)%nat ->
  copy_out user (Z.of_nat i) bs = take i user ++ bs ++ drop (i + length bs) user.
Proof.
  intros Hl; unfold copy_out; rewrite (proj2 (Z.leb_le _ _)) by (unfold zlen; lia); rewrite Nat2Z.id, firstn_all2; [done|].
  rewrite !length_app, length_take, length_drop; lia.
Qed.

Lemma reading_open g j F : reading g j F -> es_open g (replicate j 255) F.
Proof. intros [l H]; by exists true, l. Qed.

(** The module is selected for the response. *)
Lemma read_start g F : es_idle g F -> exists g1 g2,
  nuc970_gpio_core_set1 ESAM_MOSI 1 g = Some g1 /\ es_cspin 0 g1 = Some g2 /\ reading g2 0 F.
Proof.
  intros Hi; destruct (es_prepare_read g F Hi) as (g1 & l & H1 & Hb); destruct (es_select g1 F true l Hb) as (g2 & H2 & Hf).
  exists g1, g2; split; [done|]; split; [done|]; by exists l.
Qed.

Lemma header_cells F k (l : list Z) : let rx := header F k ++ l in
  rdn rx 0 4 = Some (header F k) /\ rd rx 2 = Some (answer F (k + 3)) /\ rd rx 3 = Some (answer F (k + 4)).
Proof.
  cbv zeta; split; [|split].
  - change 4 with (zlen (header F k)); rewrite rdn_in, slice_app_prefix; [done | lia | apply zlen_nonneg | rewrite zlen_app; pose proof (zlen_nonneg l); lia].
  - replace (k + 3)%nat with (S (S (S k))) by lia; reflexivity.
  - replace (k + 4)%nat with (S (S (S (S k)))) by lia; reflexivity.
Qed.

(** What the driver does with the received bytes [resp] in the first part of
    its buffer: the user's memory, the checksum, and the cell after them. *)
Lemma user_response (user head body : list Z) (tl : list Z) : length head = 4%nat -> (4 + length body <= length user)%nat ->
  copy_out (copy_out user 0 head) 4 (slice ((head ++ body) ++ tl) 4 (zlen body)) = (head ++ body) ++ drop (length (head ++ body)) user.
Proof.
  intros Hh Hl; change 0 with (Z.of_nat 0); rewrite (copy_out_in user head 0) by lia; cbn [take app Nat.add]; rewrite Hh.
  assert (Hs : slice ((head ++ body) ++ tl) 4 (zlen body) = body).
  { unfold slice; change (Z.to_nat 4) with 4%nat; rewrite <- app_assoc, drop_app_length' by done; rewrite zlen_to_nat; apply take_app_length. }
  rewrite Hs; change 4 with (Z.of_nat 4); change (take 0 user) with (@nil Z); cbn [app]; rewrite copy_out_in by (rewrite length_app, length_drop; lia).
  rewrite take_app_length' by done; rewrite <- app_assoc; do 2 f_equal.
  rewrite drop_app_ge, drop_drop by lia; rewrite length_app, Hh; f_equal; lia.
Qed.

Lemma sum_cell (resp rest : list Z) b : (0 < length rest)%nat ->
  let rx := resp ++ <[0%nat := b]> rest in
  wr (resp ++ rest) (zlen resp) b = Some rx /\ rd rx (zlen resp) = Some b /\ cal_lrc rx (zlen resp) = Some (lrc_of resp).
Proof.
  intros Hl; cbv zeta; destruct rest as [|x rest]; [cbn in Hl; lia|]; change (<[0%nat := b]> (x :: rest)) with (b :: rest); split; [|split].
  - unfold zlen; rewrite wr_below by (rewrite length_app; cbn [length]; lia); rewrite insert_app_r_alt, Nat.sub_diag by lia; reflexivity.
  - apply rd_Some; split; [apply zlen_nonneg|]; rewrite zlen_to_nat; by apply list_lookup_middle.
  - rewrite cal_lrc_ok by (pose proof (zlen_nonneg resp); rewrite zlen_app; pose proof (zlen_nonneg (b :: rest)); lia).
    rewrite zlen_to_nat, take_app_length; reflexivity.
Qed.

(** The start byte comes in time; the header is read. *)
Lemma read_header rx g F k n : reading g 0 F -> length rx = 2048%nat -> started F k -> (k < n)%nat ->
  exists rx1 g1 tl g2, waitread n rx g = Some (true, rx1, g1) /\ receive_bytes 4 0 rx1 g1 = Some (header F k ++ tl, g2) /\
    reading g2 (k + 5) F /\ length tl = 2044%nat.
Proof.
  intros Hg Hl Hs Hn; destruct (waitread_start n k rx g F Hg ltac:(lia) Hs Hn) as (rx1 & g1 & H1 & Hg1 & Hl1).
  destruct (receive_bytes_ok 4 0 (S k) rx1 g1 F Hg1) as (g2 & H2 & Hg2); [lia|].
  exists rx1, g1, (drop 4 rx1), g2; split; [exact H1|]; split; [exact H2|]; split; [|rewrite length_drop; lia].
  replace (k + 5)%nat with (S k + 4)%nat by lia; exact Hg2.
Qed.

Lemma response_split F k : response F k = header F k ++ answers F (k + 5) (Z.to_nat (body_len F k)).
Proof.
  unfold response, header, answers; rewrite seq_app, map_app; replace (k + 5)%nat with (S k + 4)%nat by lia; reflexivity.
Qed.

Lemma response_cells F k (l : list Z) :
  rd (response F k ++ l) 2 = Some (answer F (k + 3)) /\ rd (response F k ++ l) 3 = Some (answer F (k + 4)).
Proof. rewrite response_split, <- app_assoc; apply header_cells. Qed.

Lemma read_ok g F dev sent user k count : es_idle g F -> ready dev -> sent <> 0 -> started F k -> (k < Z.to_nat ESAM_POLLS)%nat ->
  body_len F k + 4 <= count -> count <= zlen user -> count < 4294967296 -> body_len F k + 4 < 2048 ->
  exists rx g', esam_read count user (Some dev) sent g =
      Some (if response_lrc F k =? lrc_of (response F k) then body_len F k + 4 else - EIO, 0,
        response F k ++ drop (length (response F k)) user, Some (dev <| rx_buf := rx |>), g') /\
    ready (dev <| rx_buf := rx |>) /\ es_idle g' (F ++ [replicate (k + 6 + Z.to_nat (body_len F k)) 255]).
Proof.
  intros Hi (Ht & Hr & Ho) Hsent Hs Hk Hc Hu Hw Hb; pose proof (body_len_range F k) as Hbl.
  destruct (read_start g F Hi) as (g1 & g2 & H1 & H2 & Hg2).
  destruct (read_header (rx_buf dev) g2 F k (Z.to_nat ESAM_POLLS) Hg2 Hr Hs Hk) as (rx1 & g3 & tl & g4 & H3 & H4 & Hg4 & Htl).
  destruct (header_cells F k tl) as (C0 & C2 & C3); set (n := Z.to_nat (body_len F k)) in *.
  assert (Hh : length (header F k) = 4%nat) by apply length_answers.
  assert (Hn : body_len F k = Z.of_nat n) by (unfold n; lia).
  destruct (receive_bytes_ok n 4 (k + 5) (header F k ++ tl) g4 F Hg4) as (g5 & H5 & Hg5); [rewrite length_app; lia|].
  change (Z.of_nat 4) with 4 in H5; rewrite take_app_length' in H5 by done.
  rewrite app_assoc, <- response_split in H5.
  destruct (es_receive_ok g5 _ F Hg5) as (g6 & H6 & Hg6).
  destruct (es_deselect g6 _ F (reading_open _ _ _ Hg6)) as (g7 & H7 & Hi7).
  assert (Hlr : length (response F k) = (4 + n)%nat) by apply length_answers.
  assert (Hzr : zlen (response F k) = Z.of_nat n + 4) by (unfold zlen; lia).
  set (rest := drop (4 + n) (header F k ++ tl)) in *.
  assert (Hlrest : length rest = (2044 - n)%nat) by (unfold rest; rewrite length_drop, length_app; lia).
  exists (response F k ++ <[0%nat := answer F (k + 5 + n)]> rest), g7; split.
  - unfold esam_read; rewrite Ho; cbn [negb]; rewrite u32_id by lia; unfold esam_spi_read; step_ok H1.
    rewrite (proj2 (Z.eqb_neq _ _)) by done; step_ok H2; step_ok H3; cbn [negb]; step_ok H4; step_ok C0; step_ok C2; step_ok C3.
    fold (body_len F k); rewrite u32_id, (proj2 (Z.ltb_ge _ _)) by lia; fold n; step_ok H5.
    rewrite rdn_in, bind_ok by (rewrite ?zlen_app; pose proof (zlen_nonneg rest); lia); step_ok H6.
    destruct (sum_cell (response F k) rest (answer F (k + 5 + n))) as (W & R & L); [lia|].
    assert (He : body_len F k + 4 = zlen (response F k)) by lia; rewrite He; step_ok W; step_ok H7; step_ok L; step_ok R.
    assert (U : copy_out (copy_out user 0 (header F k)) 4 (slice (response F k ++ rest) 4 (body_len F k)) = response F k ++ drop (length (response F k)) user).
    { rewrite response_split; fold n; rewrite <- (user_response user _ _ rest Hh) by (rewrite length_answers; unfold zlen in Hu; lia).
      do 2 f_equal; rewrite Hn; unfold zlen; by rewrite length_answers. }
    rewrite U; unfold response_lrc; fold n; destruct (answer F (k + 5 + n) =? lrc_of (response F k)); [|reflexivity]; cbn [nz negb Z.eqb].
    rewrite bind_ok; cbn [nz negb Z.eqb]; destruct (response_cells F k (drop (length (response F k)) user)) as [D2 D3]; rewrite D2, D3, !bind_ok, <- He; reflexivity.
  - split; [|replace (k + 6 + n)%nat with (S (k + 5 + n)) by lia; exact Hi7].
    split; [done|]; split; [|done]; change (length (response F k ++ <[0%nat := answer F (k + 5 + n)]> rest) = 2048%nat).
    rewrite length_app, length_insert; lia.
Qed.

(** A response that ends the call early, after the header. *)
Lemma read_too_long g F dev sent user k count : es_idle g F -> ready dev -> sent <> 0 -> started F k -> (k < Z.to_nat ESAM_POLLS)%nat ->
  0 <= count < body_len F k + 4 -> count < 4294967296 ->
  exists rx g', esam_read count user (Some dev) sent g = Some (- EIO, sent, copy_out user 0 (header F k), Some (dev <| rx_buf := rx |>), g') /\
    es_idle g' (F ++ [replicate (k + 5) 255]).
Proof.
  intros Hi (Ht & Hr & Ho) Hsent Hs Hk Hc Hw; pose proof (body_len_range F k) as Hbl.
  destruct (read_start g F Hi) as (g1 & g2 & H1 & H2 & Hg2).
  destruct (read_header (rx_buf dev) g2 F k (Z.to_nat ESAM_POLLS) Hg2 Hr Hs Hk) as (rx1 & g3 & tl & g4 & H3 & H4 & Hg4 & Htl).
  destruct (header_cells F k tl) as (C0 & C2 & C3); destruct (es_deselect g4 _ F (reading_open _ _ _ Hg4)) as (g5 & H5 & Hi5).
  exists (header F k ++ tl), g5; split; [|exact Hi5].
  unfold esam_read; rewrite Ho; cbn [negb]; rewrite u32_id by lia; unfold esam_spi_read; step_ok H1.
  rewrite (proj2 (Z.eqb_neq _ _)) by done; step_ok H2; step_ok H3; cbn [negb]; step_ok H4; step_ok C0; step_ok C2; step_ok C3.
  fold (body_len F k); rewrite u32_id, (proj2 (Z.ltb_lt _ _)) by lia; step_ok H5; reflexivity.
Qed.

(** No response within the polls the driver makes. *)
Lemma read_silent g F dev sent user count : es_idle g F -> ready dev -> sent <> 0 ->
  (forall i, (i < Z.to_nat ESAM_POLLS)%nat -> answer F i <> 0x55) ->
  exists rx g', esam_read count user (Some dev) sent g = Some (- EIO, sent, user, Some (dev <| rx_buf := rx |>), g') /\
    es_idle g' (F ++ [replicate (Z.to_nat ESAM_POLLS) 255]).
Proof.
  intros Hi (Ht & Hr & Ho) Hsent Hs; destruct (read_start g F Hi) as (g1 & g2 & H1 & H2 & Hg2).
  destruct (waitread_polls (Z.to_nat ESAM_POLLS) 0 (rx_buf dev) g2 F Hg2 ltac:(lia) Hs) as (rx & g3 & H3 & Hg3 & _).
  rewrite Nat.add_0_l in Hg3; destruct (es_deselect g3 _ F (reading_open _ _ _ Hg3)) as (g4 & H4 & Hi4).
  exists rx, g4; split; [|exact Hi4]; unfold esam_read; rewrite Ho; cbn [negb]; unfold esam_spi_read; step_ok H1.
  rewrite (proj2 (Z.eqb_neq _ _)) by done; step_ok H2; step_ok H3; cbn [negb]; step_ok H4; reflexivity.
Qed.
End Driver.

Section Properties.
  Context (r : list (list Z) -> list Z -> Z).
  Implicit Types (g : io slave) (F : list (list Z)).

(** C24: a transaction with any module that answers: the command goes out in one
    frame, the start byte, the user's bytes and their checksum; then the polls
    pass over what the module sends before its start byte, and the user gets
    exactly the response's header and body. The result is their number if the
    module's checksum is right and -EIO if not; the driver is then ready for the
    next command, in either case. *)
Theorem esam_transaction g F dev src k count user : let F1 := F ++ [command src] in
  es_idle r g F -> ready dev -> Forall is_u8 src -> zlen src <= 2046 ->
  started r F1 k -> (k < Z.to_nat ESAM_POLLS)%nat ->
  body_len r F1 k + 4 <= count -> count <= zlen user -> count < 4294967296 -> body_len r F1 k + 4 < 2048 ->
  exists dev1 g1 dev2 g2, esam_write (zlen src) (Some src) (Some dev) 0 g = Some (zlen src, 1, Some dev1, g1) /\
    esam_read count user (Some dev1) 1 g1 =
      Some (if response_lrc r F1 k =? lrc_of (response r F1 k) then body_len r F1 k + 4 else - EIO, 0,
        response r F1 k ++ drop (length (response r F1 k)) user, Some dev2, g2) /\
    ready dev2 /\ exists n, es_idle r g2 (F1 ++ [replicate n 255]).
Proof.
  intros F1 Hi Hd H8 Hl Hs Hk Hc Hu Hw Hb; destruct (write_ok r g F dev 0 src Hi Hd H8 Hl) as (tx & g1 & H1 & Hd1 & Hi1).
  destruct (read_ok r g1 F1 _ 1 user k count Hi1 Hd1 ltac:(done) Hs Hk Hc Hu Hw Hb) as (rx & g2 & H2 & Hd2 & Hi2).
  eexists _, g1, _, g2; split; [exact H1|]; split; [exact H2|]; split; [exact Hd2|]; eexists; exact Hi2.
Qed.

(** a response that cannot be delivered: without a start byte in the 64000
    polls the driver makes, or with a response longer than the user's buffer, the
    call ends with -EIO and the module is deselected, but the driver still waits
    for a response ([CMD_SENT] stays set), and in the second case the user has
    already got the header. *)
Theorem esam_read_gives_up g F dev user count : es_idle r g F -> ready dev -> 0 <= count < 4294967296 ->
  ((forall i, (i < Z.to_nat ESAM_POLLS)%nat -> answer r F i <> 0x55) ->
   exists dev' g', esam_read count user (Some dev) 1 g = Some (- EIO, 1, user, Some dev', g') /\
     es_idle r g' (F ++ [replicate (Z.to_nat ESAM_POLLS) 255])) /\
  (forall k, started r F k -> (k < Z.to_nat ESAM_POLLS)%nat -> count < body_len r F k + 4 ->
   exists dev' g', esam_read count user (Some dev) 1 g = Some (- EIO, 1, copy_out user 0 (header r F k), Some dev', g') /\
     es_idle r g' (F ++ [replicate (k + 5) 255])).
Proof.
  intros Hi Hd Hc; split.
  - intros Hs; destruct (read_silent r g F dev 1 user count Hi Hd ltac:(done) Hs) as (rx & g' & H & Hi'); by eexists _, g'.
  - intros k Hs Hk Hl; destruct (read_too_long r g F dev 1 user k count Hi Hd ltac:(done) Hs Hk ltac:(lia) ltac:(lia)) as (rx & g' & H & Hi').
    by eexists _, g'.
Qed.

(** C25: the length in a response's header is checked against the size of the
    user's buffer only: a module whose response does not fit in the driver's own
    buffer of 2048 bytes, with its checksum, makes the driver write outside of it. *)
Theorem esam_read_overflow g F dev user k count : es_idle r g F -> ready dev -> started r F k -> (k < Z.to_nat ESAM_POLLS)%nat ->
  body_len r F k + 4 <= count -> count < 4294967296 -> 2048 <= body_len r F k + 4 ->
  esam_read count user (Some dev) 1 g = None.
Proof.
  intros Hi (Ht & Hr & Ho) Hs Hk Hc Hw Hb; pose proof (body_len_range r F k) as Hbl.
  destruct (read_start r g F Hi) as (g1 & g2 & H1 & H2 & Hg2).
  destruct (read_header r (rx_buf dev) g2 F k (Z.to_nat ESAM_POLLS) Hg2 Hr Hs Hk) as (rx1 & g3 & tl & g4 & H3 & H4 & Hg4 & Htl).
  destruct (header_cells r F k tl) as (C0 & C2 & C3); set (n := Z.to_nat (body_len r F k)) in *.
  assert (Hh : length (header r F k) = 4%nat) by apply length_answers.
  unfold esam_read; rewrite Ho; cbn [negb]; rewrite u32_id by lia; unfold esam_spi_read; step_ok H1.
  change (1 =? 0) with false; cbv iota; step_ok H2; step_ok H3; cbn [negb]; step_ok H4; step_ok C0; step_ok C2; step_ok C3.
  fold (body_len r F k); rewrite u32_id, (proj2 (Z.ltb_ge _ _)) by lia; fold n.
  destruct (decide (4 + n <= 2048)%nat) as [Hfit|Hover].
  - destruct (receive_bytes_ok r n 4 (k + 5) (header r F k ++ tl) g4 F Hg4) as (g5 & H5 & Hg5); [rewrite length_app; lia|].
    change (Z.of_nat 4) with 4 in H5; step_ok H5; rewrite rdn_in, bind_ok by (rewrite ?zlen_app; unfold zlen; rewrite ?length_take, ?length_drop, ?length_app, ?length_answers; lia).
    destruct (es_receive_ok r g5 _ F Hg5) as (g6 & H6 & _); step_ok H6; rewrite wr_oob; [reflexivity|].
    rewrite !zlen_app; unfold zlen; rewrite length_take, length_drop, length_app, length_answers; lia.
  - pose proof (receive_bytes_overflow r n 4 (k + 5) (header r F k ++ tl) g4 F Hg4) as Hn; rewrite length_app in Hn.
    change (Z.of_nat 4) with 4 in Hn; rewrite Hn by lia; reflexivity.
Qed.
End Properties.

(** ** A concrete module: silent for two bytes, then a response. *)
Definition es_module (script : list Z) (frames : list (list Z)) (bytes : list Z) : Z :=
  if decide (frames = []) then 0 else nth (length bytes) script 0.

Definition es_example (reply : list (list Z) -> list Z -> Z) : io slave :=
  mk_io (<[out_reg 8 := 0x18]> {[ dir_reg 8 := 0xD8 ]}) (mk_slave es_wiring reply true false false false [] [] []).

Definition es_dev : esam_spi_device := mk_esam (replicate 2048 0) (replicate 2048 0) true.

Lemma es_example_idle reply : es_idle reply (es_example reply) [].
Proof.
  exists false, false; split; [|reflexivity]; split; [split_and!; cbn; lia || discriminate|]; split_and!; vm_compute; repeat split; reflexivity.
Qed.

Lemma es_dev_ready : ready es_dev.
Proof. split; [apply length_replicate|]; split; [apply length_replicate | done]. Qed.

Lemma few_polls (k : nat) : Z.of_nat k < 64000 -> (k < Z.to_nat ESAM_POLLS)%nat.
Proof. intros Hk; apply Nat2Z.inj_lt; rewrite Z2Nat.id by (vm_compute; discriminate); exact Hk. Qed.

(** Status 0x90 0x00 and two bytes. *)
Definition es_script : list Z := [0; 0; 0x55; 0x90; 0x00; 0; 2; 0x12; 0x34; lrc_of [0x90; 0x00; 0; 2; 0x12; 0x34]].

Lemma esam_transaction_witness : exists dev1 g1 dev2 g2,
  esam_write 1 (Some [0x80]) (Some es_dev) 0 (es_example (es_module es_script)) = Some (1, 1, Some dev1, g1) /\
  esam_read 8 [9; 9; 9; 9; 9; 9; 9; 9] (Some dev1) 1 g1 = Some (6, 0, [0x90; 0x00; 0; 2; 0x12; 0x34; 9; 9], Some dev2, g2).
Proof.
  destruct (esam_transaction (es_module es_script) (es_example (es_module es_script)) [] es_dev [0x80] 2 8 [9; 9; 9; 9; 9; 9; 9; 9]
    (es_example_idle _) es_dev_ready) as (dev1 & g1 & dev2 & g2 & H1 & H2 & _).
  - repeat constructor; vm_compute; congruence.
  - vm_compute; congruence.
  - split; [reflexivity|]; intros i Hi; do 2 (destruct i as [|i]; [vm_compute; discriminate|]); lia.
  - by apply few_polls.
  - vm_compute; congruence.
  - vm_compute; congruence.
  - lia.
  - vm_compute; congruence.
  - exists dev1, g1, dev2, g2; split; [exact H1 | exact H2].
Defined.

(** Nothing has been sent, so the module of the example is silent. *)
Lemma esam_read_gives_up_witness : exists dev' g',
  esam_read 8 [9; 9] (Some es_dev) 1 (es_example (es_module [])) = Some (- EIO, 1, [9; 9], Some dev', g').
Proof.
  destruct (esam_read_gives_up (es_module []) (es_example (es_module [])) [] es_dev [9; 9] 8 (es_example_idle _) es_dev_ready ltac:(lia)) as [Hs _].
  destruct Hs as (dev' & g' & H & _); [intros i _; unfold answer, es_module; vm_compute; discriminate | exists dev', g'; exact H].
Defined.

(** A module that announces 4095 bytes. *)
Definition es_long (_ : list (list Z)) (bytes : list Z) : Z := nth (length bytes) [0x55; 0x90; 0x00; 0x0F; 0xFF] 0.

Lemma esam_read_overflow_witness :
  esam_read 4200 (replicate 4200 0) (Some es_dev) 1 (es_example es_long) = None.
Proof.
  apply (esam_read_overflow es_long (es_example es_long) [] es_dev (replicate 4200 0) 0 4200 (es_example_idle _) es_dev_ready).
  - split; [reflexivity | lia].
  - by apply few_polls.
  - vm_compute; congruence.
  - lia.
  - vm_compute; congruence.
Defined.
