(* ===== verification/Emc.v ===== *)
(** The Ethernet MAC (src/drivers/net/ethernet/nuvoton/nuc970_ether0.c): the
    descriptor rings shared with the DMA engine, transmission, the interrupt
    handlers, the poll function, and the set-up of the rings and registers.
    What the network core and the DMA layer do is the interface [NetOps]. *)
From S2P Require Import Prelude.

(** ** Registers and constants *)
Definition REG_CAMCMR : Z := 0xF0002000.
Definition REG_CAMEN : Z := 0xF0002004.
Definition REG_CAMM_BASE : Z := 0xF0002008.
Definition REG_CAML_BASE : Z := 0xF000200c.
Definition REG_TXDLSA : Z := 0xF0002088.
Definition REG_RXDLSA : Z := 0xF000208C.
Definition REG_MCMDR : Z := 0xF0002090.
Definition REG_MIID : Z := 0xF0002094.
Definition REG_MIIDA : Z := 0xF0002098.
Definition REG_FFTCR : Z := 0xF000209C.
Definition REG_TSDR : Z := 0xF00020a0.
Definition REG_RSDR : Z := 0xF00020a4.
Definition REG_MIEN : Z := 0xF00020ac.
Definition REG_MISTA : Z := 0xF00020b0.
Definition MCMDR_RXON : Z := 0x01.
Definition MCMDR_ACP : Z := Z.shiftl 0x01 3.
Definition MCMDR_SPCRC : Z := Z.shiftl 0x01 5.
Definition MCMDR_TXON : Z := Z.shiftl 0x01 8.
Definition MCMDR_FDUP : Z := Z.shiftl 0x01 18.
Definition MCMDR_OPMOD : Z := Z.shiftl 0x01 20.
Definition SWR : Z := Z.shiftl 0x01 24.
Definition CAMCMR_AUP : Z := 0x01.
Definition CAMCMR_AMP : Z := Z.shiftl 0x01 1.
Definition CAMCMR_ABP : Z := Z.shiftl 0x01 2.
Definition CAMCMR_ECMP : Z := Z.shiftl 0x01 4.
Definition CAM0EN : Z := 0x01.
Definition MDCON : Z := Z.shiftl 0x01 19.
Definition PHYWR : Z := Z.shiftl 0x01 16.
Definition PHYBUSY : Z := Z.shiftl 0x01 17.
Definition CAM_ENTRY_SIZE : Z := 0x08.
Definition TXDS_TXCP : Z := Z.shiftl 0x01 19.
Definition RXDS_CRCE : Z := Z.shiftl 0x01 17.
Definition RXDS_PTLE : Z := Z.shiftl 0x01 19.
Definition RXDS_RXGD : Z := Z.shiftl 0x01 20.
Definition RXDS_ALIE : Z := Z.shiftl 0x01 21.
Definition RXDS_RP : Z := Z.shiftl 0x01 22.
Definition MISTA_EXDEF : Z := Z.shiftl 0x01 19.
Definition MISTA_TXBERR : Z := Z.shiftl 0x01 24.
Definition MISTA_RXBERR : Z := Z.shiftl 0x01 11.
Definition MISTA_RXGD : Z := Z.shiftl 0x01 4.
Definition ENSTART : Z := 0x01.
Definition ENRXINTR : Z := 0x01.
Definition ENRXGD : Z := Z.shiftl 0x01 4.
Definition ENRDU : Z := Z.shiftl 0x01 10.
Definition ENRXBERR : Z := Z.shiftl 0x01 11.
Definition ENWOL : Z := Z.shiftl 0x01 15.
Definition ENTXINTR : Z := Z.shiftl 0x01 16.
Definition ENTXCP : Z := Z.shiftl 0x01 18.
Definition ENTXABT : Z := Z.shiftl 0x01 21.
Definition ENTXBERR : Z := Z.shiftl 0x01 24.
Definition RX_OWEN_DMA : Z := Z.shiftl 0x01 31.
Definition TX_OWEN_DMA : Z := Z.shiftl 0x01 31.
Definition MACTXINTEN : Z := 0x04.
Definition CRCMODE : Z := 0x02.
Definition PADDINGMODE : Z := 0x01.
Definition TXTHD : Z := Z.shiftl 0x03 8.
Definition BLENGTH : Z := Z.shiftl 0x01 20.
Definition RX_DESC_SIZE : Z := 32.
Definition TX_DESC_SIZE : Z := 32.
Definition CAM0 : Z := 0x0.
Definition ENOMEM : Z := 12.
Definition ETIMEDOUT : Z := 110.
Definition EADDRNOTAVAIL : Z := 99.
Definition DUPLEX_FULL : Z := 1.

(** [sizeof] of both descriptors. *)
Definition sizeof_bd : Z := 16.

(** ** Data *)
Record nuc970_rxbd := mk_rxbd { r_sl : Z; r_buffer : Z; r_reserved : Z; r_next : Z }.
#[export] Instance eta_rxbd : Eta nuc970_rxbd := fun d => mk_rxbd (r_sl d) (r_buffer d) (r_reserved d) (r_next d).

Record nuc970_txbd := mk_txbd { t_mode : Z; t_buffer : Z; t_sl : Z; t_next : Z }.
#[export] Instance eta_txbd : Eta nuc970_txbd := fun d => mk_txbd (t_mode d) (t_buffer d) (t_sl d) (t_next d).

(** A buffer of the network core: the address of its data and the length. *)
Record sk_buff := mk_skb { skb_data : Z; skb_len : Z }.
#[export] Instance sk_buff_eq_dec : EqDecision sk_buff.
Proof. solve_decision. Defined.

(** The counters of [struct net_device_stats] that the driver keeps. *)
Record net_device_stats := mk_stats {
  tx_packets : Z; tx_bytes : Z; tx_errors : Z;
  rx_packets : Z; rx_bytes : Z; rx_errors : Z; rx_dropped : Z;
  rx_length_errors : Z; rx_crc_errors : Z; rx_frame_errors : Z; rx_over_errors : Z;
}.
#[export] Instance eta_stats : Eta net_device_stats := fun s =>
  mk_stats (tx_packets s) (tx_bytes s) (tx_errors s) (rx_packets s) (rx_bytes s) (rx_errors s) (rx_dropped s)
    (rx_length_errors s) (rx_crc_errors s) (rx_frame_errors s) (rx_over_errors s).

(** What the driver calls: the DMA layer, the network core, NAPI, the interrupt
    layer and the PHY library. *)
Class NetOps (K : Type) := {
  dma_alloc_coherent : Z -> K -> option Z * K;
  dma_free_coherent : Z -> Z -> K -> K;
  dma_map_single : Z -> Z -> K -> Z * K;
  dma_unmap_single : Z -> Z -> K -> K;
  dev_alloc_skb : Z -> K -> option sk_buff * K;
  dev_kfree_skb : sk_buff -> K -> K;
  skb_put : sk_buff -> Z -> sk_buff;
  (** [eth_type_trans] and [netif_receive_skb] *)
  netif_receive_skb : sk_buff -> K -> K;
  netif_queue_stopped : K -> bool;
  netif_stop_queue : K -> K;
  netif_wake_queue : K -> K;
  netif_start_queue : K -> K;
  napi_schedule : K -> K;
  napi_complete : K -> K;
  napi_enable : K -> K;
  napi_disable : K -> K;
  request_irq : Z -> K -> bool * K;
  free_irq : Z -> K -> K;
  phy_start : K -> K;
  phy_stop : K -> K;
  is_valid_ether_addr : list Z -> bool;
}.

(** [struct nuc970_ether] with the static arrays of buffers, the registers, the
    device address and the kernel behind it. A ring that is not allocated is the
    empty list. *)
Record ether (K : Type) := mk_ether {
  rdesc : list nuc970_rxbd;
  tdesc : list nuc970_txbd;
  rdesc_phys : Z;
  tdesc_phys : Z;
  stats : net_device_stats;
  txirq : Z;
  rxirq : Z;
  cur_tx : Z;
  cur_rx : Z;
  finish_tx : Z;
  start_tx_ptr : Z;
  start_rx_ptr : Z;
  link : Z;
  speed : Z;
  duplex : Z;
  rx_skb : list (option sk_buff);
  tx_skb : list (option sk_buff);
  dev_addr : list Z;
  regs : gmap Z Z;
  krn : K;
}.
Arguments mk_ether {K}.
Arguments rdesc {K}.
Arguments tdesc {K}.
Arguments rdesc_phys {K}.
Arguments tdesc_phys {K}.
Arguments stats {K}.
Arguments txirq {K}.
Arguments rxirq {K}.
Arguments cur_tx {K}.
Arguments cur_rx {K}.
Arguments finish_tx {K}.
Arguments start_tx_ptr {K}.
Arguments start_rx_ptr {K}.
Arguments link {K}.
Arguments speed {K}.
Arguments duplex {K}.
Arguments rx_skb {K}.
Arguments tx_skb {K}.
Arguments dev_addr {K}.
Arguments regs {K}.
Arguments krn {K}.
#[export] Instance eta_ether K : Eta (ether K) := fun e =>
  mk_ether (rdesc e) (tdesc e) (rdesc_phys e) (tdesc_phys e) (stats e) (txirq e) (rxirq e) (cur_tx e) (cur_rx e) (finish_tx e)
    (start_tx_ptr e) (start_rx_ptr e) (link e) (speed e) (duplex e) (rx_skb e) (tx_skb e) (dev_addr e) (regs e) (krn e).

Section Emc.
  Context {K : Type} `{!NetOps K}.
  Implicit Types e : ether K.

(** ** Registers *)
Definition raw_readl (a : Z) e : Z := default 0 (regs e !! a).
Definition raw_writel (v a : Z) e : ether K := e <| regs := <[a := u32 v]> (regs e) |>.
Definition kdo (f : K -> K) e : ether K := e <| krn := f (krn e) |>.

Definition ETH_TRIGGER_RX e : ether K := raw_writel ENSTART REG_RSDR e.
Definition ETH_TRIGGER_TX e : ether K := raw_writel ENSTART REG_TSDR e.
Definition ETH_ENABLE_TX e : ether K := raw_writel (Z.lor (raw_readl REG_MCMDR e) MCMDR_TXON) REG_MCMDR e.
Definition ETH_ENABLE_RX e : ether K := raw_writel (Z.lor (raw_readl REG_MCMDR e) MCMDR_RXON) REG_MCMDR e.
Definition ETH_DISABLE_TX e : ether K := raw_writel (Z.land (raw_readl REG_MCMDR e) (Z.lnot MCMDR_TXON)) REG_MCMDR e.
Definition ETH_DISABLE_RX e : ether K := raw_writel (Z.land (raw_readl REG_MCMDR e) (Z.lnot MCMDR_RXON)) REG_MCMDR e.

(** The change of link state that the PHY library reports. *)
Definition adjust_link (phy_link phy_speed phy_duplex : Z) e : ether K :=
  let '(e, changed) :=
    if nz phy_link then
      if negb (speed e =? phy_speed) || negb (duplex e =? phy_duplex)
      then (e <| speed := phy_speed |> <| duplex := phy_duplex |>, true) else (e, false)
    else
      let e := raw_writel (Z.land (raw_readl REG_MCMDR e) (Z.lnot (Z.lor MCMDR_RXON MCMDR_TXON))) REG_MCMDR e in
      (e <| speed := 0 |> <| duplex := -1 |>, false) in
  let '(e, changed) :=
    if negb (phy_link =? link e) then (e <| link := phy_link |>, if nz phy_link then true else changed) else (e, changed) in
  if changed : bool then
    let val := Z.lor (Z.lor (raw_readl REG_MCMDR e) MCMDR_RXON) MCMDR_TXON in
    let val := if speed e =? 100 then Z.lor val MCMDR_OPMOD else Z.land val (Z.lnot MCMDR_OPMOD) in
    let val := if duplex e =? DUPLEX_FULL then Z.lor val MCMDR_FDUP else Z.land val (Z.lnot MCMDR_FDUP) in
    ETH_TRIGGER_TX (raw_writel val REG_MCMDR e)
  else e.

Definition nuc970_write_cam (x : Z) (pval : list Z) e : option (ether K) :=
  p0 ← rd pval 0; p1 ← rd pval 1; p2 ← rd pval 2; p3 ← rd pval 3; p4 ← rd pval 4; p5 ← rd pval 5;
  let msw := Z.lor (Z.lor (Z.lor (Z.shiftl p0 24) (Z.shiftl p1 16)) (Z.shiftl p2 8)) p3 in
  let lsw := Z.lor (Z.shiftl p4 24) (Z.shiftl p5 16) in
  Some (raw_writel msw (REG_CAMM_BASE + x * CAM_ENTRY_SIZE) (raw_writel lsw (REG_CAML_BASE + x * CAM_ENTRY_SIZE) e)).

(** ** The rings *)

(** [false] for a null pointer. *)
Definition get_new_skb (i : Z) e : option (bool * ether K) :=
  let '(skb, k) := dev_alloc_skb 2048 (krn e) in
  let e := e <| krn := k |> in
  match skb with
  | None => Some (false, e)
  | Some s =>
      d ← rd (rdesc e) i;
      let '(a, k) := dma_map_single (skb_data s) 2048 (krn e) in
      ds ← wr (rdesc e) i (d <| r_buffer := a |>);
      ss ← wr (rx_skb e) i (Some s);
      Some (true, e <| krn := k |> <| rdesc := ds |> <| rx_skb := ss |>)
  end.

Definition tx_desc_init (phys i : Z) : nuc970_txbd :=
  let offset := if i =? TX_DESC_SIZE - 1 then 0 else sizeof_bd * (i + 1) in
  mk_txbd (Z.lor (Z.lor PADDINGMODE CRCMODE) MACTXINTEN) 0 0 (u32 (phys + offset)).

Definition rx_next (phys i : Z) : Z := u32 (phys + (if i =? RX_DESC_SIZE - 1 then 0 else sizeof_bd * (i + 1))).

(** The receive descriptors [i], [i + 1], ... of [n]; an error after the first
    reads a ring that has been freed. *)
Fixpoint init_rx (n : nat) (i : Z) e : option (Z * ether K) :=
  match n with
  | O => Some (0, e <| start_rx_ptr := rdesc_phys e |>)
  | S n =>
      d ← rd (rdesc e) i;
      ds ← wr (rdesc e) i (d <| r_next := rx_next (rdesc_phys e) i |> <| r_sl := RX_OWEN_DMA |>);
      '(ok, e) ← get_new_skb i (e <| rdesc := ds |>);
      if ok : bool then init_rx n (i + 1) e
      else
        let e := kdo (dma_free_coherent (sizeof_bd * TX_DESC_SIZE) (tdesc_phys e)) e in
        let e := kdo (dma_free_coherent (sizeof_bd * RX_DESC_SIZE) (rdesc_phys e)) e in
        let e := e <| tdesc := [] |> <| rdesc := [] |> in
        if i =? 0 then Some (- ENOMEM, e) else None
  end.

Definition nuc970_init_desc e : option (Z * ether K) :=
  let '(t, k) := dma_alloc_coherent (sizeof_bd * TX_DESC_SIZE) (krn e) in
  let e := e <| krn := k |> in
  match t with
  | None => Some (- ENOMEM, e <| tdesc := [] |>)
  | Some tp =>
      let '(r, k) := dma_alloc_coherent (sizeof_bd * RX_DESC_SIZE) (krn e) in
      let e := e <| krn := k |> <| tdesc_phys := tp |> in
      match r with
      | None => Some (- ENOMEM, kdo (dma_free_coherent (sizeof_bd * TX_DESC_SIZE) tp) e <| tdesc := [] |> <| rdesc := [] |>)
      | Some rp =>
          let e := e <| rdesc_phys := rp |> <| rdesc := replicate (Z.to_nat RX_DESC_SIZE) (mk_rxbd 0 0 0 0) |> in
          let e := e <| tx_skb := replicate (Z.to_nat TX_DESC_SIZE) None |>
                     <| tdesc := map (tx_desc_init tp) (seqZ 0 TX_DESC_SIZE) |> <| start_tx_ptr := tp |> in
          init_rx (Z.to_nat RX_DESC_SIZE) 0 e
      end
  end.

Fixpoint free_tx (n : nat) (i : Z) e : option (ether K) :=
  match n with
  | O => Some e
  | S n =>
      s ← rd (tx_skb e) i;
      match s with
      | Some skb =>
          d ← rd (tdesc e) i;
          free_tx n (i + 1) (kdo (dev_kfree_skb skb) (kdo (dma_unmap_single (t_buffer d) (skb_len skb)) e))
      | None => free_tx n (i + 1) e
      end
  end.

Fixpoint free_rx (n : nat) (i : Z) e : option (ether K) :=
  match n with
  | O => Some e
  | S n =>
      s ← rd (rx_skb e) i;
      match s with
      | Some skb =>
          d ← rd (rdesc e) i;
          free_rx n (i + 1) (kdo (dev_kfree_skb skb) (kdo (dma_unmap_single (r_buffer d) 2048) e))
      | None => free_rx n (i + 1) e
      end
  end.

Definition nuc970_free_desc e : option (ether K) :=
  e ← free_tx (Z.to_nat TX_DESC_SIZE) 0 e;
  e ← free_rx (Z.to_nat RX_DESC_SIZE) 0 e;
  let e := kdo (dma_free_coherent (sizeof_bd * TX_DESC_SIZE) (tdesc_phys e)) e in
  let e := kdo (dma_free_coherent (sizeof_bd * RX_DESC_SIZE) (rdesc_phys e)) e in
  Some (e <| tdesc := [] |> <| rdesc := [] |>).

(** ** The controller *)
Definition nuc970_set_fifo_threshold e : ether K := raw_writel (Z.lor TXTHD BLENGTH) REG_FFTCR e.
Definition nuc970_return_default_idle e : ether K := raw_writel (Z.lor (raw_readl REG_MCMDR e) SWR) REG_MCMDR e.

Definition nuc970_enable_mac_interrupt e : ether K :=
  let val := Z.lor (Z.lor (Z.lor (Z.lor ENTXINTR ENRXINTR) ENRXGD) ENTXCP) ENRDU in
  let val := Z.lor val (Z.lor (Z.lor (Z.lor ENTXBERR ENRXBERR) ENTXABT) ENWOL) in
  raw_writel val REG_MIEN e.

(** [mista] is what the status register reads. *)
Definition nuc970_get_and_clear_int (mista mask : Z) e : Z * ether K :=
  let val := Z.land mista mask in (val, raw_writel val REG_MISTA e).

Definition nuc970_set_global_maccmd e : ether K :=
  raw_writel (Z.lor (raw_readl REG_MCMDR e) (Z.lor MCMDR_SPCRC MCMDR_ACP)) REG_MCMDR e.

Definition nuc970_enable_cam e : option (ether K) :=
  e ← nuc970_write_cam CAM0 (dev_addr e) e;
  Some (raw_writel (Z.lor (raw_readl REG_CAMEN e) CAM0EN) REG_CAMEN e).

Definition nuc970_enable_cam_command e : ether K := raw_writel (Z.lor (Z.lor CAMCMR_ECMP CAMCMR_ABP) CAMCMR_AMP) REG_CAMCMR e.

Definition nuc970_set_curdest e : ether K :=
  raw_writel (start_tx_ptr e) REG_TXDLSA (raw_writel (start_rx_ptr e) REG_RXDLSA e).

Definition nuc970_reset_mac (need_free : bool) e : option (ether K) :=
  let e := ETH_DISABLE_RX (ETH_DISABLE_TX e) in
  let e := nuc970_set_fifo_threshold (nuc970_return_default_idle e) in
  let e := if negb (netif_queue_stopped (krn e)) then kdo netif_stop_queue e else e in
  e ← (if need_free then nuc970_free_desc e else Some e);
  '(_, e) ← nuc970_init_desc e;
  let e := e <| cur_tx := 0 |> <| finish_tx := 0 |> <| cur_rx := 0 |> in
  e ← nuc970_enable_cam (nuc970_set_curdest e);
  let e := nuc970_enable_mac_interrupt (nuc970_enable_cam_command e) in
  let e := ETH_TRIGGER_RX (ETH_ENABLE_RX (ETH_ENABLE_TX e)) in
  Some (if netif_queue_stopped (krn e) then kdo netif_wake_queue e else e).

(** The PHY's registers: [busy] are the readings of MIIDA while the operation
    runs, and whether the time was up by then. *)
Fixpoint mdio_wait (busy : list (Z * bool)) : option bool :=
  match busy with
  | [] => None
  | (v, late) :: busy => if nz (Z.land v PHYBUSY) then if late : bool then Some false else mdio_wait busy else Some true
  end.

Definition nuc970_mdio_write (phy_id regnum value : Z) (busy : list (Z * bool)) e : option (Z * ether K) :=
  let e := raw_writel value REG_MIID e in
  let e := raw_writel (Z.lor (Z.lor (Z.lor (Z.lor (Z.shiftl phy_id 8) regnum) PHYBUSY) MDCON) PHYWR) REG_MIIDA e in
  ok ← mdio_wait busy; Some (if ok : bool then 0 else - ETIMEDOUT, e).

Definition nuc970_mdio_read (phy_id regnum : Z) (busy : list (Z * bool)) (miid : Z) e : option (Z * ether K) :=
  let e := raw_writel (Z.lor (Z.lor (Z.lor (Z.shiftl phy_id 8) regnum) PHYBUSY) MDCON) REG_MIIDA e in
  ok ← mdio_wait busy; Some (if ok : bool then miid else - ETIMEDOUT, e).

Definition nuc970_set_mac_address (sa_data : list Z) e : option (Z * ether K) :=
  if negb (is_valid_ether_addr sa_data) then Some (- EADDRNOTAVAIL, e)
  else
    a ← rdn sa_data 0 6;
    e ← nuc970_write_cam CAM0 a (e <| dev_addr := a |>);
    Some (0, e).

Definition nuc970_ether_set_multicast_list (promisc allmulti mc_empty : bool) e : ether K :=
  let rx_mode :=
    if promisc then Z.lor (Z.lor (Z.lor CAMCMR_AUP CAMCMR_AMP) CAMCMR_ABP) CAMCMR_ECMP
    else if allmulti || negb mc_empty then Z.lor (Z.lor CAMCMR_AMP CAMCMR_ABP) CAMCMR_ECMP
    else Z.lor CAMCMR_ECMP CAMCMR_ABP in
  raw_writel rx_mode REG_CAMCMR e.

(** The PHY is there: the probe function fails without one. *)
Definition nuc970_ether_close e : option (ether K) :=
  let e := ETH_DISABLE_RX (ETH_DISABLE_TX e) in
  let e := kdo napi_disable (kdo netif_stop_queue e) in
  let e := kdo (free_irq (rxirq e)) (kdo (free_irq (txirq e)) e) in
  e ← nuc970_free_desc (nuc970_return_default_idle e);
  Some (kdo phy_stop e).

(** ** Transmission *)
Inductive netdev_tx := NETDEV_TX_OK | NETDEV_TX_BUSY.

Definition tx_owned (d : nuc970_txbd) : bool := nz (Z.land (t_mode d) TX_OWEN_DMA).

(** The descriptor before it is handed over. *)
Definition xmit_fill (skb : sk_buff) e : option (ether K) :=
  d ← rd (tdesc e) (cur_tx e);
  let '(a, k) := dma_map_single (skb_data skb) (skb_len skb) (krn e) in
  let d := d <| t_buffer := a |> in
  ss ← wr (tx_skb e) (cur_tx e) (Some skb);
  let d := d <| t_sl := if 1514 <? skb_len skb then 1514 else skb_len skb |> in
  ds ← wr (tdesc e) (cur_tx e) d;
  Some (e <| krn := k |> <| tx_skb := ss |> <| tdesc := ds |>).

(** The descriptor is handed over, and the engine started. *)
Definition xmit_give e : option (ether K) :=
  d ← rd (tdesc e) (cur_tx e);
  ds ← wr (tdesc e) (cur_tx e) (d <| t_mode := Z.lor (t_mode d) TX_OWEN_DMA |>);
  Some (ETH_TRIGGER_TX (e <| tdesc := ds |>)).

Definition xmit_next e : option (ether K) :=
  let e := e <| cur_tx := if TX_DESC_SIZE <=? u32 (cur_tx e + 1) then 0 else u32 (cur_tx e + 1) |> in
  d ← rd (tdesc e) (cur_tx e);
  Some (if tx_owned d then kdo netif_stop_queue e else e).

Definition nuc970_ether_start_xmit (skb : sk_buff) e : option (netdev_tx * ether K) :=
  d ← rd (tdesc e) (cur_tx e);
  if tx_owned d then Some (NETDEV_TX_BUSY, kdo netif_stop_queue e)
  else
    e ← xmit_fill skb e;
    e ← xmit_give e;
    e ← xmit_next e;
    Some (NETDEV_TX_OK, e).

Definition tx_account (sl : Z) (s : net_device_stats) : net_device_stats :=
  if nz (Z.land sl TXDS_TXCP)
  then s <| tx_packets := u32 (tx_packets s + 1) |> <| tx_bytes := u32 (tx_bytes s + Z.land sl 0xFFFF) |>
  else s <| tx_errors := u32 (tx_errors s + 1) |>.

(** The loop ends within [TX_DESC_SIZE] turns, see [tx_reclaim_total]. *)
Fixpoint tx_reclaim (fuel : nat) e : option (ether K) :=
  match fuel with
  | O => None
  | S fuel =>
      d ← rd (tdesc e) (finish_tx e);
      if tx_owned d then Some e
      else
        s ← rd (tx_skb e) (finish_tx e);
        match s with
        | None => Some e
        | Some skb =>
            let e := kdo (dev_kfree_skb skb) (kdo (dma_unmap_single (t_buffer d) (skb_len skb)) e) in
            ss ← wr (tx_skb e) (finish_tx e) None;
            let e := e <| tx_skb := ss |> <| stats := tx_account (t_sl d) (stats e) |> in
            tx_reclaim fuel (e <| finish_tx := u32 (finish_tx e + 1) mod TX_DESC_SIZE |>)
        end
  end.

Definition nuc970_tx_interrupt (mista : Z) e : option (ether K) :=
  let '(status, e) := nuc970_get_and_clear_int mista 0xFFFF0000 e in
  e ← tx_reclaim (S (Z.to_nat TX_DESC_SIZE)) e;
  e ← (if nz (Z.land status MISTA_EXDEF) then Some e
       else if nz (Z.land status MISTA_TXBERR) then nuc970_reset_mac true e else Some e);
  Some (if netif_queue_stopped (krn e) then kdo netif_wake_queue e else e).

(** ** Reception *)
Definition rx_owned (d : nuc970_rxbd) : bool := Z.land (r_sl d) RX_OWEN_DMA =? RX_OWEN_DMA.

Definition rx_good (status : Z) : bool := nz (Z.land status RXDS_RXGD) && (Z.land status 0xFFFF <=? 1514).

Definition rx_account (status : Z) (s : net_device_stats) : net_device_stats :=
  let s := s <| rx_errors := u32 (rx_errors s + 1) |> in
  if nz (Z.land status RXDS_RP) then s <| rx_length_errors := u32 (rx_length_errors s + 1) |>
  else if nz (Z.land status RXDS_CRCE) then s <| rx_crc_errors := u32 (rx_crc_errors s + 1) |>
  else if nz (Z.land status RXDS_ALIE) then s <| rx_frame_errors := u32 (rx_frame_errors s + 1) |>
  else if nz (Z.land status RXDS_PTLE) then s <| rx_over_errors := u32 (rx_over_errors s + 1) |>
  else s.

(** A good frame in the current descriptor; [inl] when there is no memory for
    the buffer that takes its place. *)
Definition rx_deliver (d : nuc970_rxbd) e : option (ether K + nuc970_rxbd * ether K) :=
  s ← rd (rx_skb e) (cur_rx e);
  let length := Z.land (r_sl d) 0xFFFF in
  let '(skb, k) := dev_alloc_skb 2048 (krn e) in
  let e := e <| krn := k |> in
  match skb with
  | None => Some (inl (e <| stats := (stats e) <| rx_dropped := u32 (rx_dropped (stats e) + 1) |> |>))
  | Some skb =>
      let e := kdo (dma_unmap_single (r_buffer d) 2048) e in
      s ← s;
      let e := kdo (netif_receive_skb (skb_put s length)) e in
      let st := stats e in
      let e := e <| stats := st <| rx_packets := u32 (rx_packets st + 1) |> <| rx_bytes := u32 (rx_bytes st + length) |> |> in
      let '(a, k) := dma_map_single (skb_data skb) 2048 (krn e) in
      ss ← wr (rx_skb e) (cur_rx e) (Some skb);
      Some (inr (d <| r_buffer := a |>, e <| krn := k |> <| rx_skb := ss |>))
  end.

(** The descriptor goes back to the engine. *)
Definition rx_return (d : nuc970_rxbd) e : option (ether K) :=
  ds ← wr (rdesc e) (cur_rx e) (d <| r_sl := RX_OWEN_DMA |>);
  Some (e <| rdesc := ds |> <| cur_rx := if RX_DESC_SIZE <=? u32 (cur_rx e + 1) then 0 else u32 (cur_rx e + 1) |>).

(** How the loop of the poll function ends: the budget is used up, the next
    descriptor belongs to the engine, there is no memory. *)
Inductive poll_exit := PollBudget | PollComplete | PollNoMem.

(** The loop ends within [RX_DESC_SIZE] turns when the engine stands still, see
    [poll_loop_total]. *)
Fixpoint poll_loop (fuel : nat) (budget rx_cnt : Z) e : option (poll_exit * Z * ether K) :=
  match fuel with
  | O => None
  | S fuel =>
      if rx_cnt <? budget then
        d ← rd (rdesc e) (cur_rx e);
        if rx_owned d then Some (PollComplete, rx_cnt, e)
        else if rx_good (r_sl d) then
          r ← rx_deliver d e;
          match r with
          | inl e => Some (PollNoMem, rx_cnt, e)
          | inr (d, e) => e ← rx_return d e; poll_loop fuel budget (rx_cnt + 1) e
          end
        else
          e ← rx_return d (e <| stats := rx_account (r_sl d) (stats e) |>);
          poll_loop fuel budget rx_cnt e
      else Some (PollBudget, rx_cnt, e)
  end.

(** After the loop; without memory the descriptor stays with the driver. *)
Definition poll_finish (x : poll_exit) e : ether K :=
  let e := match x with
           | PollComplete => let e := kdo napi_complete e in raw_writel (Z.lor (raw_readl REG_MIEN e) ENRXINTR) REG_MIEN e
           | PollBudget | PollNoMem => e
           end in
  ETH_TRIGGER_RX e.

Definition nuc970_poll (budget : Z) e : option (Z * ether K) :=
  '(x, rx_cnt, e) ← poll_loop (S (Z.to_nat RX_DESC_SIZE)) budget 0 e;
  Some (rx_cnt, poll_finish x e).

Definition nuc970_rx_interrupt (mista : Z) e : option (ether K) :=
  let '(status, e) := nuc970_get_and_clear_int mista 0xFFFF e in
  if nz (Z.land status MISTA_RXBERR) then nuc970_reset_mac true e
  else if nz (Z.land status MISTA_RXGD) then
    Some (kdo napi_schedule (raw_writel (Z.land (raw_readl REG_MIEN e) (Z.lnot ENRXINTR)) REG_MIEN e))
  else Some e.

Definition nuc970_ether_open e : option (Z * ether K) :=
  e ← nuc970_reset_mac false e;
  e ← nuc970_enable_cam (nuc970_set_curdest (nuc970_set_fifo_threshold e));
  let e := nuc970_set_global_maccmd (nuc970_enable_mac_interrupt (nuc970_enable_cam_command e)) in
  let e := ETH_ENABLE_RX e in
  let '(fail, k) := request_irq (txirq e) (krn e) in
  let e := e <| krn := k |> in
  if fail : bool then Some (- EAGAIN, e)
  else
    let '(fail, k) := request_irq (rxirq e) (krn e) in
    let e := e <| krn := k |> in
    if fail : bool then Some (- EAGAIN, kdo (free_irq (txirq e)) e)
    else Some (0, ETH_TRIGGER_RX (kdo napi_enable (kdo netif_start_queue (kdo phy_start e)))).
End Emc.

(** ** The address on the command line

    [setup_macaddr] reads a string that ends with a zero byte; the character
    tests are those of the C library for ASCII. *)
Definition isdigit (c : Z) : bool := (0x30 <=? c) && (c <=? 0x39).
Definition isxdigit (c : Z) : bool := isdigit c || ((0x41 <=? c) && (c <=? 0x46)) || ((0x61 <=? c) && (c <=? 0x66)).
Definition toupper (c : Z) : Z := if (0x61 <=? c) && (c <=? 0x7A) then c - 32 else c.

(** One digit added to [m], a byte. *)
Definition mac_digit (m c : Z) : option Z :=
  let m := u8 (Z.shiftl m 4) in
  if isdigit c then Some (u8 (m + (c - 0x30)))
  else if isxdigit c then Some (u8 (m + (toupper c - 0x41 + 10)))
  else None.

(** [Some None] is the error exit; [None] a read behind the string. *)
Fixpoint mac_loop (n : nat) (i : Z) (mac str : list Z) (c : Z) : option (option (list Z)) :=
  match n with
  | O => Some (Some mac)
  | S n =>
      c1 ← rd str c;
      match mac_digit 0 c1 with
      | None => Some None
      | Some m =>
          c2 ← rd str (c + 1);
          match mac_digit m c2 with
          | None => Some None
          | Some m =>
              if negb (i =? 5) then
                c3 ← rd str (c + 2);
                if negb (c3 =? 0x3A) then Some None else mac_loop n (i + 1) (mac ++ [m]) str (c + 3)
              else mac_loop n (i + 1) (mac ++ [m]) str (c + 3)
          end
      end
  end.

(** The result and the address of the driver, [nuc970_mac0]. *)
Definition setup_macaddr (str : option (list Z)) (nuc970_mac0 : list Z) : option (Z * list Z) :=
  match str with
  | None => Some (- EINVAL, nuc970_mac0)
  | Some str =>
      r ← mac_loop 6 0 [] str 0;
      Some (match r with None => (- EINVAL, nuc970_mac0) | Some mac => (0, mac) end)
  end.
