(* ===== verification/EmcSpec.v ===== *)
(** The rings of the Ethernet MAC: what the driver relies on in the kernel, the
    invariants of both rings, and what each operation does to them. *)
From S2P Require Import Prelude Emc.

(** ** What the driver relies on

    The part of the kernel that matters: the buffers the device can reach, by
    bus address; whether the transmit queue is stopped; the frames passed up; and
    the buffers the driver has freed. *)
Record net_view := mk_view { v_mem : gmap Z (list Z); v_stopped : bool; v_given : list (list Z); v_freed : list sk_buff }.
#[export] Instance eta_view : Eta net_view := fun v => mk_view (v_mem v) (v_stopped v) (v_given v) (v_freed v).

Class NetLaws (K : Type) `{!NetOps K} := {
  net : K -> net_view;
  dma_addr : Z -> Z;
  dma_addr_inj : Inj (=) (=) dma_addr;
  map_law a n k : dma_map_single a n k = (dma_addr a, k);
  unmap_law a n k : net (dma_unmap_single a n k) = net k;
  coherent_law n k : net (dma_alloc_coherent n k).2 = net k;
  coherent_addr n k p : (dma_alloc_coherent n k).1 = Some p -> 0 <= p /\ p + n <= 4294967296;
  free_coherent_law n p k : net (dma_free_coherent n p k) = net k;
  alloc_fails n k : (dev_alloc_skb n k).1 = None -> net (dev_alloc_skb n k).2 = net k;
  alloc_law n k s : (dev_alloc_skb n k).1 = Some s ->
    skb_len s = 0 /\ v_mem (net k) !! dma_addr (skb_data s) = None /\
    exists b, net (dev_alloc_skb n k).2 = (net k) <| v_mem := <[dma_addr (skb_data s) := b]> (v_mem (net k)) |>;
  kfree_law s k : net (dev_kfree_skb s k) =
    (net k) <| v_mem := delete (dma_addr (skb_data s)) (v_mem (net k)) |> <| v_freed := v_freed (net k) ++ [s] |>;
  put_law s n : skb_put s n = mk_skb (skb_data s) (skb_len s + n);
  receive_law s k : net (netif_receive_skb s k) =
    (net k) <| v_given := v_given (net k) ++ [take (Z.to_nat (skb_len s)) (default [] (v_mem (net k) !! dma_addr (skb_data s)))] |>
            <| v_mem := delete (dma_addr (skb_data s)) (v_mem (net k)) |>;
  stopped_law k : netif_queue_stopped k = v_stopped (net k);
  stop_law k : net (netif_stop_queue k) = (net k) <| v_stopped := true |>;
  wake_law k : net (netif_wake_queue k) = (net k) <| v_stopped := false |>;
  start_law k : net (netif_start_queue k) = (net k) <| v_stopped := false |>;
  napi_laws k : net (napi_schedule k) = net k /\ net (napi_complete k) = net k /\ net (napi_enable k) = net k /\ net (napi_disable k) = net k;
  irq_laws i k : net (request_irq i k).2 = net k /\ net (free_irq i k) = net k;
  phy_laws k : net (phy_start k) = net k /\ net (phy_stop k) = net k;
}.
#[export] Existing Instance dma_addr_inj.

(** ** Positions in a ring *)
Definition ring (f j : Z) : Z := if f + j <? 32 then f + j else f + j - 32.

Lemma ring_range f j : 0 <= f < 32 -> 0 <= j <= 32 -> 0 <= ring f j < 32.
Proof. unfold ring; intros; zcase; lia. Qed.

Lemma ring_inj f i j : 0 <= f < 32 -> 0 <= i < 32 -> 0 <= j < 32 -> ring f i = ring f j -> i = j.
Proof. unfold ring; intros ???; repeat zcase; lia. Qed.

Lemma ring_shift f j : 0 <= f < 32 -> 0 <= j < 32 -> ring (ring f 1) j = ring f (j + 1).
Proof. unfold ring; intros; repeat zcase; lia. Qed.

Lemma ring_last f : 0 <= f < 32 -> ring f 32 = ring f 0.
Proof. unfold ring; intros; repeat zcase; lia. Qed.

Lemma ring_step f j : 0 <= f < 32 -> 0 <= j < 32 -> ring (ring f j) 1 = ring f (j + 1).
Proof. unfold ring; intros; repeat zcase; lia. Qed.

Lemma ring_mod f : 0 <= f < 32 -> u32 (f + 1) mod TX_DESC_SIZE = ring f 1.
Proof.
  intros; rewrite u32_id by lia; unfold ring, TX_DESC_SIZE; zcase; [apply Z.mod_small; lia|].
  assert (f = 31) as -> by lia; reflexivity.
Qed.

Lemma ring_wrap f : 0 <= f < 32 -> (if TX_DESC_SIZE <=? u32 (f + 1) then 0 else u32 (f + 1)) = ring f 1.
Proof. intros; rewrite u32_id by lia; unfold ring, TX_DESC_SIZE; repeat zcase; lia. Qed.

(** A ring read from position [f] on. *)
Definition cells {A B} (P : A -> B -> Prop) (l : list A) (f : Z) (cs : list B) : Prop :=
  zlen l = 32 /\ 0 <= f < 32 /\ zlen cs = 32 /\
  forall j c, rd cs j = Some c -> exists x, rd l (ring f j) = Some x /\ P x c.

Lemma cells_at {A B} (P : A -> B -> Prop) l f cs j c :
  cells P l f cs -> rd cs j = Some c -> exists x, rd l (ring f j) = Some x /\ P x c.
Proof. intros (_ & _ & _ & H); apply H. Qed.

(** One cell changes. *)
Lemma cells_set {A B} (P : A -> B -> Prop) l f cs j x c :
  cells P l f cs -> 0 <= j < 32 -> P x c ->
  exists l', wr l (ring f j) x = Some l' /\ cells P l' f (<[Z.to_nat j := c]> cs).
Proof.
  intros (Hl & Hf & Hc & H) Hj HP; pose proof (ring_range f j Hf ltac:(lia)) as Hr.
  exists (<[Z.to_nat (ring f j) := x]> l); assert (Hw := wr_in l (ring f j) x ltac:(lia)); split; [done|].
  split; [by rewrite zlen_insert|]; split; [done|]; split; [by rewrite zlen_insert|].
  assert (Hwc := wr_in cs j c ltac:(lia)); intros i c' Hi; pose proof (rd_range _ _ _ Hi) as Hri; rewrite zlen_insert in Hri.
  destruct (decide (i = j)) as [->|Hne].
  - rewrite (rd_wr_eq _ _ _ _ Hwc) in Hi; injection Hi as <-; exists x; by rewrite (rd_wr_eq _ _ _ _ Hw).
  - rewrite (rd_wr_ne _ _ _ _ _ Hwc) in Hi by done; rewrite (rd_wr_ne _ _ _ _ _ Hw); [by apply H|].
    intros E; apply Hne; symmetry; apply (ring_inj f); lia || done.
Qed.

(** The first cell changes and becomes the last. *)
Lemma cells_turn {A B} (P : A -> B -> Prop) l f c0 cs x c :
  cells P l f (c0 :: cs) -> P x c -> exists l', wr l f x = Some l' /\ cells P l' (ring f 1) (cs ++ [c]).
Proof.
  intros Hl HP; pose proof Hl as (_ & Hf & Hc & _).
  destruct (cells_set P l f (c0 :: cs) 0 x c Hl ltac:(lia) HP) as (l' & Hw & Hl' & _ & _ & H).
  assert (Hr0 : ring f 0 = f) by (unfold ring; zcase; lia).
  rewrite Hr0 in Hw; exists l'; split; [done|]; change (<[Z.to_nat 0:=c]> (c0 :: cs)) with (c :: cs) in H; rewrite zlen_cons in Hc.
  split; [done|]; split; [apply ring_range; lia|]; split; [rewrite zlen_app, zlen_cons, zlen_nil; lia|].
  intros j cj Hj; pose proof (rd_range _ _ _ Hj) as Hrj; assert (zlen (cs ++ [c]) = 32) by (rewrite zlen_app, zlen_cons, zlen_nil; lia); rewrite ring_shift by lia.
  destruct (decide (j = 31)) as [->|].
  - rewrite ring_last by done; apply H; unfold rd in *; simpl in *.
    rewrite lookup_app_r in Hj by (unfold zlen in *; lia); by replace (Z.to_nat 31 - length cs)%nat with 0%nat in Hj by (unfold zlen in *; lia).
  - apply H; rewrite rd_app_l in Hj by lia; rewrite rd_Some in Hj |- *; destruct Hj as [? Hj]; split; [lia|].
    by replace (Z.to_nat (j + 1)) with (S (Z.to_nat j)) by lia.
Qed.

Lemma cells_impl {A B} (P Q : A -> B -> Prop) l f cs :
  cells P l f cs -> (forall x c, c ∈ cs -> P x c -> Q x c) -> cells Q l f cs.
Proof.
  intros (Hl & Hf & Hc & H) HPQ; split_and!; try done; try lia; intros j c Hj; destruct (H j c Hj) as (x & Hx & HP); exists x; split; [done|].
  apply HPQ; [|done]; apply rd_Some in Hj as [_ Hj]; by eapply list_elem_of_lookup_2.
Qed.

Section Rings.
  Context {K : Type} `{!NetOps K, !NetLaws K}.
  Implicit Types e : ether K.

Definition mem_of e : gmap Z (list Z) := v_mem (net (krn e)).
Definition skb_addr (s : sk_buff) : Z := dma_addr (skb_data s).

(** ** The transmit ring

    From [finish_tx] on: frames the engine has sent, whose buffers the driver
    still holds; frames the engine still has to send; and free descriptors. *)
Inductive txcell := TDone (s : sk_buff) | TOwned (s : sk_buff) (data : list Z) | TFree.

Definition tx_desc_is (d : nuc970_txbd) (c : txcell) : Prop :=
  match c with
  | TOwned s _ => tx_owned d = true /\ t_buffer d = skb_addr s /\ t_sl d = Z.min 1514 (skb_len s)
  | _ => tx_owned d = false
  end.

Definition tx_skb_is (o : option sk_buff) (c : txcell) : Prop :=
  o = match c with TDone s | TOwned s _ => Some s | TFree => None end.

Definition tx_cells (sent : list sk_buff) (owned : list (sk_buff * list Z)) (free : nat) : list txcell :=
  map TDone sent ++ map (fun p => TOwned p.1 p.2) owned ++ replicate free TFree.

(** [hw] is the address of the descriptor the engine will look at next. *)
Record tx_ring (hw : Z) e sent owned free : Prop := {
  tr_desc : cells tx_desc_is (tdesc e) (finish_tx e) (tx_cells sent owned free);
  tr_skb : cells tx_skb_is (tx_skb e) (finish_tx e) (tx_cells sent owned free);
  tr_cur : cur_tx e = ring (finish_tx e) (zlen sent + zlen owned);
  tr_next : forall i d, rd (tdesc e) i = Some d -> t_next d = tdesc_phys e + 16 * ring i 1;
  tr_mem : Forall (fun p => mem_of e !! skb_addr p.1 = Some p.2) owned;
  tr_hw : hw = tdesc_phys e + 16 * ring (finish_tx e) (zlen sent);
}.

(** What transmission leaves alone, and what reception does. *)
Definition same_rx e e' : Prop :=
  rdesc e' = rdesc e /\ rx_skb e' = rx_skb e /\ cur_rx e' = cur_rx e /\ rdesc_phys e' = rdesc_phys e.
Definition same_tx e e' : Prop :=
  tdesc e' = tdesc e /\ tx_skb e' = tx_skb e /\ cur_tx e' = cur_tx e /\ finish_tx e' = finish_tx e /\ tdesc_phys e' = tdesc_phys e.

#[export] Instance same_rx_preorder : PreOrder same_rx.
Proof. split; unfold same_rx; [by intros e; split_and! | intros a b c (?&?&?&?) (?&?&?&?); split_and!; congruence]. Qed.
#[export] Instance same_tx_preorder : PreOrder same_tx.
Proof. split; unfold same_tx; [by intros e; split_and! | intros a b c (?&?&?&?&?) (?&?&?&?&?); split_and!; congruence]. Qed.

Lemma tx_cells_len hw e sent owned free : tx_ring hw e sent owned free -> zlen sent + zlen owned + Z.of_nat free = 32.
Proof.
  intros [(_ & _ & H & _) _ _ _ _ _]; revert H; unfold tx_cells, zlen; rewrite !length_app, !length_map, length_replicate; lia.
Qed.

Lemma rd_shift {A} (l k : list A) j : 0 <= j -> rd (l ++ k) (zlen l + j) = rd k j.
Proof.
  intros Hj; pose proof (zlen_nonneg l); unfold rd; rewrite !(proj2 (Z.leb_le 0 _)) by lia.
  rewrite Z2Nat.inj_add, zlen_to_nat by lia; apply lookup_app_Some_add || (rewrite lookup_app_r by lia; f_equal; lia).
Qed.

Lemma rd_0 {A} (l : list A) x k : rd (l ++ x :: k) (zlen l) = Some x.
Proof. rewrite <- (Z.add_0_r (zlen l)), rd_shift by lia; done. Qed.

Lemma tx_ring_same hw e e' sent owned free :
  tx_ring hw e sent owned free -> same_tx e e' -> Forall (fun p => mem_of e' !! skb_addr p.1 = Some p.2) owned -> tx_ring hw e' sent owned free.
Proof. intros [Hd Hs Hc Hn Hm Hh] (E1 & E2 & E3 & E4 & E5) Hm'; split; rewrite ?E1, ?E2, ?E3, ?E4, ?E5; done. Qed.

Lemma forall_delete (l : list (sk_buff * list Z)) (m : gmap Z (list Z)) a :
  Forall (fun p => m !! skb_addr p.1 = Some p.2) l -> a ∉ map (fun p => skb_data p.1) l ->
  Forall (fun p => delete (dma_addr a) m !! skb_addr p.1 = Some p.2) l.
Proof.
  intros H Hn; rewrite !Forall_forall in *; intros p Hp; rewrite lookup_delete_ne; [by apply H|].
  intros E; apply (inj dma_addr) in E; apply Hn; rewrite E; by apply (list_elem_of_fmap_2 (fun p => skb_data p.1)).
Qed.

(** What reclaiming does to a buffer that was sent. *)
Definition freed (done : list sk_buff) (v : net_view) : net_view :=
  foldl (fun v s => v <| v_mem := delete (skb_addr s) (v_mem v) |> <| v_freed := v_freed v ++ [s] |>) v done.

Lemma freed_freed done v : v_freed (freed done v) = v_freed v ++ done.
Proof.
  revert v; induction done as [|s done IH]; intros v; [by rewrite app_nil_r|]; cbn [freed foldl] in *; unfold freed in IH.
  rewrite IH; cbn; by rewrite <- app_assoc.
Qed.

Lemma freed_mem done v a : a ∉ map skb_addr done -> v_mem (freed done v) !! a = v_mem v !! a.
Proof.
  revert v; induction done as [|s done IH]; intros v Ha; [done|]; cbn [map] in Ha; apply not_elem_of_cons in Ha as [? Ha].
  unfold freed; cbn [foldl]; fold (freed done); unfold freed in IH; rewrite IH by done; cbn; by rewrite lookup_delete_ne.
Qed.

Lemma freed_rest done v : v_stopped (freed done v) = v_stopped v /\ v_given (freed done v) = v_given v.
Proof.
  revert v; induction done as [|s done IH]; intros v; [done|]; unfold freed; cbn [foldl]; unfold freed in IH.
  destruct (IH (v <| v_mem := delete (skb_addr s) (v_mem v) |> <| v_freed := v_freed v ++ [s] |>)) as [-> ->]; done.
Qed.

(** Reclaiming takes every sent frame out of the ring and frees its buffer. *)
Lemma tx_reclaim_total sent hw e owned free fuel :
  tx_ring hw e sent owned free -> NoDup (map skb_data (sent ++ map fst owned)) -> (length sent < fuel)%nat ->
  exists e', tx_reclaim fuel e = Some e' /\ tx_ring hw e' [] owned (length sent + free) /\ same_rx e e' /\
    regs e' = regs e /\ cur_tx e' = cur_tx e /\ net (krn e') = freed sent (net (krn e)).
Proof.
  revert e free fuel; induction sent as [|s sent IH]; intros e free fuel Hr Hnd Hf; (destruct fuel as [|fuel]; [simpl in Hf; lia|]);
    pose proof (tx_cells_len _ _ _ _ _ Hr) as Hlen; cbn [tx_reclaim]; pose proof Hr as [Hd Hs Hc Hn Hm Hh];
    destruct Hd as (Hd1 & Hf1 & Hd2 & Hd3); assert (Hr0 : ring (finish_tx e) 0 = finish_tx e) by (unfold ring; zcase; lia).
  - assert (Hc0 : exists c, rd (tx_cells [] owned free) 0 = Some c) by (apply rd_in; lia); destruct Hc0 as [c Hc0].
    destruct (Hd3 0 c Hc0) as (d & Hrd & Hdc); destruct Hs as (_ & _ & _ & Hs); destruct (Hs 0 c Hc0) as (o & Hro & Ho).
    rewrite Hr0 in *; rewrite Hrd, bind_ok; exists e; destruct c as [s|s data|].
    + exfalso; destruct owned; [destruct free|]; cbn in Hc0; discriminate.
    + destruct Hdc as (-> & _); done.
    + cbn in Hdc; rewrite Hdc, Hro, bind_ok; cbn in Ho; rewrite Ho; done.
  - destruct (cells_at _ _ _ _ 0 (TDone s) (tr_desc _ _ _ _ _ Hr) eq_refl) as (d & Hrd & Hdc).
    destruct (cells_at _ _ _ _ 0 (TDone s) Hs eq_refl) as (o & Hro & Ho); rewrite Hr0 in *; cbn in Hdc, Ho.
    rewrite Hrd, bind_ok, Hdc, Hro, bind_ok, Ho.
    destruct (cells_turn tx_skb_is (tx_skb e) (finish_tx e) (TDone s) (tx_cells sent owned free) None TFree Hs eq_refl) as (ss & Hw & Hss).
    destruct (cells_turn tx_desc_is (tdesc e) (finish_tx e) (TDone s) (tx_cells sent owned free) d TFree (tr_desc _ _ _ _ _ Hr) Hdc) as (ds & Hwd & Hds).
    assert (ds = tdesc e) as -> by (apply wr_Some in Hwd as [_ ->]; apply list_insert_id; by apply rd_Some in Hrd as [_ ?]).
    cbn [tx_skb finish_tx kdo set eta_ether]; step_ok Hw.
    assert (Hcells : tx_cells sent owned free ++ [TFree] = tx_cells sent owned (S free)).
    { unfold tx_cells; rewrite <- !app_assoc; do 2 f_equal; change [TFree] with (replicate 1 TFree); rewrite <- replicate_add; f_equal; lia. }
    rewrite Hcells in Hss, Hds; cbn [map app] in Hnd; apply NoDup_cons in Hnd as [Hni Hnd].
    match goal with |- context [tx_reclaim fuel ?x] => set (e1 := x) end.
    destruct (IH e1 (S free) fuel) as (e' & He' & Hr' & Hrx & Hregs & Hcur & Hnet); [|done | simpl in Hf; lia|].
    + rewrite zlen_cons in Hlen, Hc, Hh; pose proof (zlen_nonneg sent); pose proof (zlen_nonneg owned).
      assert (Hfin : finish_tx e1 = ring (finish_tx e) 1) by (apply ring_mod; lia).
      split; rewrite ?Hfin; try done.
      * change (cur_tx e1) with (cur_tx e); rewrite Hc, ring_shift by lia; f_equal; lia.
      * unfold mem_of; change (krn e1) with (dev_kfree_skb s (dma_unmap_single (t_buffer d) (skb_len s) (krn e))).
        rewrite kfree_law, unmap_law; cbn [v_mem set eta_view]; apply forall_delete; [done|].
        intros Hin; apply Hni; rewrite map_app, map_map; apply elem_of_app; by right.
      * change (tdesc_phys e1) with (tdesc_phys e); rewrite Hh, ring_shift by lia; by rewrite (Z.add_comm 1).
    + exists e'; split; [done|]; split; [by rewrite Nat.add_succ_r in Hr'|]; split; [done|]; split; [done|]; split; [done|].
      rewrite Hnet; change (krn e1) with (dev_kfree_skb s (dma_unmap_single (t_buffer d) (skb_len s) (krn e))).
      by rewrite kfree_law, unmap_law.
Qed.

Lemma owned_after m b sl n : tx_owned (mk_txbd (Z.lor m TX_OWEN_DMA) b sl n) = true.
Proof.
  unfold tx_owned, nz; cbn [t_mode]; apply negb_true_iff, Z.eqb_neq; intros H; apply (f_equal (fun x => Z.testbit x 31)) in H.
  rewrite Z.land_spec, Z.lor_spec in H; change (Z.testbit TX_OWEN_DMA 31) with true in H; rewrite orb_true_r in H; discriminate.
Qed.

(** The cell behind the frames in the ring. *)
Lemma tx_cells_free sent owned free : rd (tx_cells sent owned (S free)) (zlen sent + zlen owned) = Some TFree.
Proof.
  unfold tx_cells; rewrite app_assoc; replace (zlen sent + zlen owned) with (zlen (map TDone sent ++ map (fun p => TOwned p.1 p.2) owned));
    [apply rd_0 | unfold zlen; rewrite length_app, !length_map; lia].
Qed.

Lemma tx_cells_add sent owned free p :
  <[Z.to_nat (zlen sent + zlen owned) := TOwned p.1 p.2]> (tx_cells sent owned (S free)) = tx_cells sent (owned ++ [p]) free.
Proof.
  unfold tx_cells; rewrite app_assoc, map_app, <- !app_assoc, (app_assoc (map TDone sent)).
  replace (Z.to_nat (zlen sent + zlen owned)) with (length (map TDone sent ++ map (fun p => TOwned p.1 p.2) owned) + 0)%nat
    by (unfold zlen; rewrite length_app, !length_map; lia).
  rewrite insert_app_r; cbn [replicate insert list_insert]; by rewrite <- !app_assoc.
Qed.

(** Is the descriptor after the last frame one that the engine still has? *)
Definition tx_full (sent : list sk_buff) (free : nat) : bool := match sent, free with [], O => true | _, _ => false end.

Lemma tx_next_cell hw e sent owned free :
  tx_ring hw e sent owned free -> (free = 0 -> owned <> [])%nat ->
  exists d, rd (tdesc e) (cur_tx e) = Some d /\ tx_owned d = tx_full sent free.
Proof.
  intros Hr Hne; pose proof (tx_cells_len _ _ _ _ _ Hr) as Hlen; destruct Hr as [Hd _ Hc _ _ _]; rewrite Hc.
  pose proof Hd as (_ & Hf & _ & _); destruct free as [|free].
  - replace (zlen sent + zlen owned) with 32 by lia; rewrite ring_last by done; destruct sent as [|s sent].
    + destruct owned as [|[s data] owned]; [by destruct Hne|].
      destruct (cells_at _ _ _ _ 0 (TOwned s data) Hd eq_refl) as (d & Hx & Hy & _); by exists d.
    + destruct (cells_at _ _ _ _ 0 (TDone s) Hd eq_refl) as (d & Hx & Hy); by exists d.
  - destruct (cells_at _ _ _ _ _ TFree Hd (tx_cells_free sent owned free)) as (d & Hx & Hy); exists d; split; [done|]; by destruct sent.
Qed.

(** The descriptor of a frame, handed over. *)
Definition frame_desc (d : nuc970_txbd) (skb : sk_buff) : nuc970_txbd :=
  mk_txbd (Z.lor (t_mode d) TX_OWEN_DMA) (skb_addr skb) (if 1514 <? skb_len skb then 1514 else skb_len skb) (t_next d).

Lemma xmit_handover skb e d :
  rd (tdesc e) (cur_tx e) = Some d -> zlen (tx_skb e) = zlen (tdesc e) ->
  exists e', (xmit_fill skb e ≫= xmit_give) = Some e' /\
    wr (tdesc e) (cur_tx e) (frame_desc d skb) = Some (tdesc e') /\ wr (tx_skb e) (cur_tx e) (Some skb) = Some (tx_skb e') /\
    same_rx e e' /\ cur_tx e' = cur_tx e /\ finish_tx e' = finish_tx e /\ tdesc_phys e' = tdesc_phys e /\
    krn e' = krn e /\ regs e' = <[REG_TSDR := ENSTART]> (regs e).
Proof.
  intros Hd Hl; pose proof (rd_range _ _ _ Hd) as Hr; unfold xmit_fill; rewrite Hd, bind_ok, map_law, (wr_in (tx_skb e)), bind_ok by lia.
  rewrite (wr_in (tdesc e)), !bind_ok by lia; unfold xmit_give; set (e1 := _ : ether K).
  set (i := Z.to_nat (cur_tx e)) in *; set (sl := if 1514 <? skb_len skb then 1514 else skb_len skb) in *.
  set (d1 := mk_txbd (t_mode d) (dma_addr (skb_data skb)) sl (t_next d)).
  assert (H1 : tdesc e1 = <[i := d1]> (tdesc e)) by reflexivity; change (cur_tx e1) with (cur_tx e).
  rewrite H1, (rd_wr_eq (tdesc e) (cur_tx e) d1), bind_ok by (by rewrite wr_in by lia).
  rewrite wr_in, bind_ok by (rewrite zlen_insert; lia); fold i; rewrite list_insert_insert_eq.
  eexists; split; [reflexivity|]; split; [by apply wr_in; lia|]; split; [done|]; by split_and!.
Qed.

(** A frame is put in a free descriptor. *)
Lemma xmit_queues hw e sent owned free skb data :
  tx_ring hw e sent owned (S free) -> mem_of e !! skb_addr skb = Some data ->
  exists e', nuc970_ether_start_xmit skb e = Some (NETDEV_TX_OK, e') /\ tx_ring hw e' sent (owned ++ [(skb, data)]) free /\ same_rx e e' /\
    regs e' = <[REG_TSDR := ENSTART]> (regs e) /\
    net (krn e') = if tx_full sent free then (net (krn e)) <| v_stopped := true |> else net (krn e).
Proof.
  intros Hr Hm; pose proof Hr as [Hd Hs Hc Hn Hmem Hh]; pose proof Hd as (Hl & Hf & _ & _); pose proof Hs as (Hl' & _).
  pose proof (tx_cells_len _ _ _ _ _ Hr) as Hlen; pose proof (zlen_nonneg sent); pose proof (zlen_nonneg owned).
  destruct (cells_at _ _ _ _ _ TFree Hd (tx_cells_free _ _ _)) as (d & Hrd & Hdf); cbn in Hdf; rewrite <- Hc in Hrd.
  unfold nuc970_ether_start_xmit; rewrite Hrd, bind_ok, Hdf.
  destruct (xmit_handover skb e d Hrd ltac:(lia)) as (e1 & Hgive & Hwd & Hws & Hrx & Hc1 & Hf1 & Hp1 & Hk1 & Hg1).
  destruct (xmit_fill skb e) as [e0|]; [|discriminate Hgive]; change (xmit_give e0 = Some e1) in Hgive; rewrite bind_ok; rewrite Hgive, bind_ok; unfold xmit_next.
  rewrite ring_wrap by (rewrite Hc1, Hc; apply ring_range; lia); set (e2 := e1 <| cur_tx := ring (cur_tx e1) 1 |>).
  assert (Hr2 : tx_ring hw e2 sent (owned ++ [(skb, data)]) free).
  { assert (Hd' : tx_desc_is (frame_desc d skb) (TOwned skb data))
      by (split; [apply owned_after | split; [done | cbn [frame_desc t_sl]; zcase; lia]]).
    rewrite Hc in Hwd, Hws.
    destruct (cells_set tx_desc_is _ _ _ (zlen sent + zlen owned) _ _ Hd ltac:(lia) Hd') as (ds & Hwd' & Hds).
    destruct (cells_set tx_skb_is _ _ _ (zlen sent + zlen owned) (Some skb) (TOwned skb data) Hs ltac:(lia) eq_refl) as (ss & Hws' & Hss).
    assert (ds = tdesc e2) as -> by (change (tdesc e2) with (tdesc e1); congruence).
    assert (ss = tx_skb e2) as -> by (change (tx_skb e2) with (tx_skb e1); congruence).
    pose proof (tx_cells_add sent owned free (skb, data)) as Hadd; cbn [fst snd] in Hadd; rewrite Hadd in Hss, Hds.
    split; change (finish_tx e2) with (finish_tx e1); change (tdesc_phys e2) with (tdesc_phys e1); rewrite ?Hf1, ?Hp1; try done.
    - change (cur_tx e2) with (ring (cur_tx e1) 1); rewrite Hc1, Hc, ring_step by lia; rewrite zlen_app; f_equal; change (zlen [_]) with 1; lia.
    - intros i x Hx; destruct (decide (i = ring (finish_tx e) (zlen sent + zlen owned))) as [->|Hne].
      + rewrite (rd_wr_eq _ _ _ _ Hwd') in Hx; injection Hx as <-; rewrite Hc in Hrd; by apply Hn in Hrd.
      + rewrite (rd_wr_ne _ _ _ _ _ Hwd') in Hx by done; by apply Hn.
    - unfold mem_of; change (krn e2) with (krn e1); rewrite Hk1; apply Forall_app; split; [done | by apply Forall_singleton]. }
  destruct (tx_next_cell _ _ _ _ _ Hr2) as (d' & Hrd' & Hown'); [intros _ E; by apply app_nil in E as [_ E]|].
  rewrite Hrd', !bind_ok, Hown'; exists (if tx_full sent free then kdo netif_stop_queue e2 else e2); split; [done|].
  assert (Hrx2 : same_rx e e2) by exact Hrx; assert (Hk2 : krn e2 = krn e) by exact Hk1; assert (Hg2 : regs e2 = regs e1) by done.
  destruct (tx_full sent free); (split; [apply (tx_ring_same _ e2); [done | by split_and! |];
    unfold mem_of; cbn [krn kdo set eta_ether]; rewrite ?stop_law; exact (tr_mem _ _ _ _ _ Hr2)|]);
    (split; [exact Hrx2|]; split; [cbn [regs kdo set eta_ether]; congruence|]);
    [change (krn (kdo netif_stop_queue e2)) with (netif_stop_queue (krn e2)); rewrite stop_law, Hk2 | rewrite Hk2]; reflexivity.
Qed.

(** A ring full of frames that the engine still has. *)
Lemma xmit_full hw e owned skb :
  tx_ring hw e [] owned 0 -> nuc970_ether_start_xmit skb e = Some (NETDEV_TX_BUSY, kdo netif_stop_queue e).
Proof.
  intros Hr; pose proof (tx_cells_len _ _ _ _ _ Hr) as Hlen; destruct (tx_next_cell _ _ _ _ _ Hr) as (d & Hd & Ho).
  - intros _ ->; done.
  - unfold nuc970_ether_start_xmit; by rewrite Hd, bind_ok, Ho.
Qed.

(** ** The receive ring

    From [cur_rx] on: frames the engine has stored, with their status; and
    descriptors the engine can fill. Every descriptor has a buffer. *)
Inductive rxcell := RFilled (s : sk_buff) (st : Z) (frame : list Z) | REmpty (s : sk_buff).

Definition rx_buf (c : rxcell) : sk_buff := match c with RFilled s _ _ | REmpty s => s end.

Definition rx_desc_is (d : nuc970_rxbd) (c : rxcell) : Prop :=
  r_buffer d = skb_addr (rx_buf c) /\
  match c with RFilled _ st _ => r_sl d = st /\ rx_owned d = false | REmpty _ => rx_owned d = true end.

Definition rx_skb_is (o : option sk_buff) (c : rxcell) : Prop := o = Some (rx_buf c).

(** The length in the status is that of the frame, and the frame is at the start
    of the buffer. *)
Definition rx_mem_is (m : gmap Z (list Z)) (c : rxcell) : Prop :=
  skb_len (rx_buf c) = 0 /\
  match c with
  | RFilled s st frame => exists b, m !! skb_addr s = Some b /\ take (length frame) b = frame /\ Z.land st 0xFFFF = zlen frame
  | REmpty s => is_Some (m !! skb_addr s)
  end.

Definition filled_cell (x : sk_buff * Z * list Z) : rxcell := let '(s, st, frame) := x in RFilled s st frame.
Definition rx_cells (filled : list (sk_buff * Z * list Z)) (empty : list sk_buff) : list rxcell :=
  map filled_cell filled ++ map REmpty empty.
Definition rx_addrs filled empty : list Z := map (fun c => skb_data (rx_buf c)) (rx_cells filled empty).

Record rx_ring (hw : Z) e filled empty : Prop := {
  rr_desc : cells rx_desc_is (rdesc e) (cur_rx e) (rx_cells filled empty);
  rr_skb : cells rx_skb_is (rx_skb e) (cur_rx e) (rx_cells filled empty);
  rr_next : forall i d, rd (rdesc e) i = Some d -> r_next d = rdesc_phys e + 16 * ring i 1;
  rr_mem : Forall (rx_mem_is (mem_of e)) (rx_cells filled empty);
  rr_hw : hw = rdesc_phys e + 16 * ring (cur_rx e) (zlen filled);
}.

Lemma rx_ring_same hw e e' filled empty :
  rx_ring hw e filled empty -> same_rx e e' -> Forall (rx_mem_is (mem_of e')) (rx_cells filled empty) -> rx_ring hw e' filled empty.
Proof. intros [Hd Hs Hn Hm Hh] (E1 & E2 & E3 & E4) Hm'; split; rewrite ?E1, ?E2, ?E3, ?E4; done. Qed.

(** The memory of the buffers of a ring matters only. *)
Lemma rx_mem_agree m m' c : rx_mem_is m c -> m' !! skb_addr (rx_buf c) = m !! skb_addr (rx_buf c) -> rx_mem_is m' c.
Proof. intros [Hl Hc] E; split; [done|]; destruct c; cbn [rx_buf] in *; by rewrite E. Qed.

Lemma wr_same {A} (l : list A) i x l' : wr l i x = Some l' -> rd l i = Some x -> l' = l.
Proof. intros [_ ->]%wr_Some [_ H]%rd_Some; by apply list_insert_id. Qed.

(** The first descriptor is emptied and goes back to the engine. *)
Lemma rx_return_turns e e1 c cs d s :
  cells rx_desc_is (rdesc e) (cur_rx e) (c :: cs) -> cells rx_skb_is (rx_skb e) (cur_rx e) (c :: cs) ->
  (forall i d, rd (rdesc e) i = Some d -> r_next d = rdesc_phys e + 16 * ring i 1) ->
  rd (rdesc e) (cur_rx e) = Some d -> wr (rx_skb e) (cur_rx e) (Some s) = Some (rx_skb e1) ->
  rdesc e1 = rdesc e -> cur_rx e1 = cur_rx e -> rdesc_phys e1 = rdesc_phys e ->
  exists e', rx_return (d <| r_buffer := skb_addr s |>) e1 = Some e' /\
    cells rx_desc_is (rdesc e') (cur_rx e') (cs ++ [REmpty s]) /\ cells rx_skb_is (rx_skb e') (cur_rx e') (cs ++ [REmpty s]) /\
    (forall i d, rd (rdesc e') i = Some d -> r_next d = rdesc_phys e' + 16 * ring i 1) /\
    cur_rx e' = ring (cur_rx e) 1 /\ rdesc_phys e' = rdesc_phys e /\
    same_tx e1 e' /\ krn e' = krn e1 /\ regs e' = regs e1 /\ stats e' = stats e1.
Proof.
  intros Hd Hs Hn Hrd Hw E1 E2 E3; pose proof Hd as (_ & Hf & _ & _).
  destruct (cells_turn rx_skb_is _ _ _ _ (Some s) (REmpty s) Hs eq_refl) as (ss & Hws & Hss).
  destruct (cells_turn rx_desc_is _ _ _ _ (d <| r_buffer := skb_addr s |> <| r_sl := RX_OWEN_DMA |>) (REmpty s) Hd) as (ds & Hwd & Hds); [done|].
  assert (ss = rx_skb e1) as -> by congruence; unfold rx_return; rewrite E1, E2, Hwd, bind_ok.
  eexists; split; [reflexivity|]; assert (Hc : forall e, (if RX_DESC_SIZE <=? u32 (cur_rx e + 1) then 0 else u32 (cur_rx e + 1)) =
    (if TX_DESC_SIZE <=? u32 (cur_rx e + 1) then 0 else u32 (cur_rx e + 1))) by done.
  cbn [cur_rx rdesc rx_skb rdesc_phys set eta_ether]; rewrite E2, E3, Hc, ring_wrap by done; split_and!; try done.
  intros i x Hx; destruct (decide (i = cur_rx e)) as [->|Hne].
  - rewrite (rd_wr_eq _ _ _ _ Hwd) in Hx; injection Hx as <-; by apply (Hn _ _ Hrd).
  - rewrite (rd_wr_ne _ _ _ _ _ Hwd) in Hx by done; by apply Hn.
Qed.

(** What reception does to the rest: the frames passed up, and nothing to the
    buffers at the addresses [H]. *)
Record rx_effect (H : list Z) e e' (frames : list (list Z)) : Prop := {
  re_tx : same_tx e e';
  re_regs : regs e' = regs e;
  re_stopped : v_stopped (net (krn e')) = v_stopped (net (krn e));
  re_freed : v_freed (net (krn e')) = v_freed (net (krn e));
  re_given : v_given (net (krn e')) = v_given (net (krn e)) ++ frames;
  re_mem : forall a, a ∈ H -> mem_of e' !! dma_addr a = mem_of e !! dma_addr a;
}.

Lemma rx_effect_trans H e1 e2 e3 f g : rx_effect H e1 e2 f -> rx_effect H e2 e3 g -> rx_effect H e1 e3 (f ++ g).
Proof.
  intros [A1 A2 A3 A4 A5 A6] [B1 B2 B3 B4 B5 B6]; split; try congruence; [by transitivity e2 | by rewrite B5, A5, app_assoc|].
  intros a Ha; by rewrite B6, A6.
Qed.

(** Buffers that the driver holds: they exist, and each once. *)
Definition held (m : gmap Z (list Z)) (H : list Z) : Prop := NoDup H /\ forall a, a ∈ H -> is_Some (m !! dma_addr a).

Lemma rx_ring_head hw e s st f filled empty :
  rx_ring hw e ((s, st, f) :: filled) empty ->
  exists d, rd (rdesc e) (cur_rx e) = Some d /\ r_sl d = st /\ rx_owned d = false /\ r_buffer d = skb_addr s /\
    rd (rx_skb e) (cur_rx e) = Some (Some s) /\ skb_len s = 0 /\ Z.land st 0xFFFF = zlen f /\
    exists b, mem_of e !! skb_addr s = Some b /\ take (length f) b = f.
Proof.
  intros [Hd Hs _ Hm _]; pose proof Hd as (_ & Hf & _); assert (Hr0 : ring (cur_rx e) 0 = cur_rx e) by (unfold ring; zcase; lia).
  destruct (cells_at _ _ _ _ 0 (RFilled s st f) Hd eq_refl) as (d & Hrd & Hb & Hsl & Ho).
  destruct (cells_at _ _ _ _ 0 (RFilled s st f) Hs eq_refl) as (o & Hro & Hoe); rewrite Hr0 in *.
  apply Forall_cons in Hm as [[Hl (b & Hb' & Htk & Hst)] _]; cbn [rx_buf] in *; exists d; split_and!; try done; [by rewrite <- Hoe|]; by exists b.
Qed.

(** The head of the ring has been replaced by [s'] at its end. *)
Lemma rx_ring_turned hw e e' s st f filled empty s' :
  rx_ring hw e ((s, st, f) :: filled) empty ->
  cells rx_desc_is (rdesc e') (cur_rx e') (rx_cells filled empty ++ [REmpty s']) ->
  cells rx_skb_is (rx_skb e') (cur_rx e') (rx_cells filled empty ++ [REmpty s']) ->
  (forall i d, rd (rdesc e') i = Some d -> r_next d = rdesc_phys e' + 16 * ring i 1) ->
  cur_rx e' = ring (cur_rx e) 1 -> rdesc_phys e' = rdesc_phys e ->
  (forall c, c ∈ rx_cells filled empty -> mem_of e' !! skb_addr (rx_buf c) = mem_of e !! skb_addr (rx_buf c)) ->
  skb_len s' = 0 -> is_Some (mem_of e' !! skb_addr s') ->
  rx_ring hw e' filled (empty ++ [s']).
Proof.
  intros [Hd _ _ Hm Hh] Hd' Hs' Hn' Hc Hp Hmem Hl Hs; pose proof Hd as (_ & Hf & Hlen & _).
  assert (Hcs : rx_cells filled (empty ++ [s']) = rx_cells filled empty ++ [REmpty s']) by (unfold rx_cells; by rewrite map_app, app_assoc).
  split; rewrite ?Hcs; try done.
  - apply Forall_app; split; [|by apply Forall_singleton]; apply Forall_cons in Hm as [_ Hm].
    rewrite Forall_forall in Hm |- *; intros c Hc'; by apply (rx_mem_agree (mem_of e)); [apply Hm | apply Hmem].
  - rewrite Hh, Hp, Hc, zlen_cons, ring_shift; [by rewrite (Z.add_comm 1) | done|].
    unfold rx_cells in Hlen; rewrite map_cons, <- app_comm_cons, zlen_cons, zlen_app in Hlen; unfold zlen in *; rewrite !length_map in Hlen; lia.
Qed.

Lemma rx_addrs_app filled empty s : rx_addrs filled (empty ++ [s]) = rx_addrs filled empty ++ [skb_data s].
Proof. unfold rx_addrs, rx_cells; by rewrite (map_app REmpty), app_assoc, map_app. Qed.

Lemma held_turn filled empty H x y m m' :
  held m (x :: rx_addrs filled empty ++ H) -> y ∉ rx_addrs filled empty ++ H -> is_Some (m' !! dma_addr y) ->
  (forall a, a ∈ rx_addrs filled empty ++ H -> m' !! dma_addr a = m !! dma_addr a) ->
  held m' ((rx_addrs filled empty ++ [y]) ++ H).
Proof.
  intros [Hnd Hs] Hy Hsy Hm; apply NoDup_cons in Hnd as [_ Hnd].
  assert (Hp : (rx_addrs filled empty ++ [y]) ++ H ≡ₚ y :: rx_addrs filled empty ++ H)
    by (rewrite <- app_assoc; cbn [app]; by rewrite Permutation_middle).
  split; [by rewrite Hp; apply NoDup_cons|].
  intros a Ha; rewrite Hp in Ha; apply elem_of_cons in Ha as [->|Ha]; [done|]; rewrite Hm by done; apply Hs; by right.
Qed.

(** A damaged frame is counted; its buffer is used again. *)
Lemma poll_bad hw e s st f filled empty H d st' :
  rx_ring hw e ((s, st, f) :: filled) empty -> held (mem_of e) (rx_addrs ((s, st, f) :: filled) empty ++ H) ->
  rd (rdesc e) (cur_rx e) = Some d ->
  exists e', rx_return d (e <| stats := st' |>) = Some e' /\ rx_ring hw e' filled (empty ++ [s]) /\
    held (mem_of e') (rx_addrs filled (empty ++ [s]) ++ H) /\ rx_effect H e e' [].
Proof.
  intros Hr Hh Hrd; destruct (rx_ring_head _ _ _ _ _ _ _ Hr) as (d' & Hrd' & _ & _ & Hb & Hro & Hl & _ & b & Hb' & _).
  assert (d' = d) as -> by congruence; pose proof Hr as [Hd Hs Hn Hm _].
  destruct (rx_return_turns e (e <| stats := st' |>) (RFilled s st f) (rx_cells filled empty) d s Hd Hs Hn Hrd)
    as (e' & He' & Hd' & Hs' & Hn' & Hc' & Hp' & Htx & Hk & Hg & _); try done.
  { pose proof (rd_range _ _ _ Hro) as Hx; change (rx_skb (e <| stats := st' |>)) with (rx_skb e); rewrite wr_in by done; f_equal.
    apply list_insert_id; by apply rd_Some in Hro as [_ ?]. }
  assert (d <| r_buffer := skb_addr s |> = d) as E by (destruct d; cbn in *; congruence); rewrite E in He'.
  assert (Hmem : mem_of e' = mem_of e) by (unfold mem_of; by rewrite Hk).
  exists e'; split; [done|]; split; [apply (rx_ring_turned _ e _ s st f); rewrite ?Hmem; try done; by exists b|]; split.
  - rewrite rx_addrs_app; pose proof Hh as [Hnd Hsm]; cbn [rx_addrs rx_cells map app filled_cell rx_buf] in Hnd.
    apply NoDup_cons in Hnd as [Hni _]; apply (held_turn _ _ _ (skb_data s) (skb_data s) (mem_of e)); [exact Hh | done | rewrite Hmem; by exists b | by rewrite Hmem].
  - split; try (rewrite Hk; done); [exact Htx | exact Hg | rewrite Hk; by rewrite app_nil_r | intros; by rewrite Hmem].
Qed.

(** Delivery of the frame at the head, with the memory for a new buffer. *)
Lemma rx_deliver_spec e d s b f :
  rd (rx_skb e) (cur_rx e) = Some (Some s) -> skb_len s = 0 -> Z.land (r_sl d) 0xFFFF = zlen f ->
  mem_of e !! skb_addr s = Some b -> take (length f) b = f ->
  (exists e', (dev_alloc_skb 2048 (krn e)).1 = None /\ rx_deliver d e = Some (inl e') /\ same_rx e e' /\ same_tx e e' /\ regs e' = regs e /\ net (krn e') = net (krn e)) \/
  (exists s' e1 c, rx_deliver d e = Some (inr (d <| r_buffer := skb_addr s' |>, e1)) /\
     wr (rx_skb e) (cur_rx e) (Some s') = Some (rx_skb e1) /\ rdesc e1 = rdesc e /\ cur_rx e1 = cur_rx e /\ rdesc_phys e1 = rdesc_phys e /\
     same_tx e e1 /\ regs e1 = regs e /\ skb_len s' = 0 /\ mem_of e !! skb_addr s' = None /\
     net (krn e1) = (net (krn e)) <| v_given := v_given (net (krn e)) ++ [f] |>
                                 <| v_mem := delete (skb_addr s) (<[skb_addr s' := c]> (mem_of e)) |>).
Proof.
  intros Hs Hl Hst Hb Hf; unfold rx_deliver; rewrite Hs, bind_ok; pose proof (rd_range _ _ _ Hs) as Hr.
  destruct (dev_alloc_skb 2048 (krn e)) as [[s'|] k] eqn:Ha; [right|left].
  - destruct (alloc_law 2048 (krn e) s') as (Hl' & Hn & c & Hk); [by rewrite Ha|]; rewrite Ha in Hk; cbn [snd] in Hk.
    rewrite bind_ok, map_law; pose proof (wr_in (rx_skb e) (cur_rx e) (Some s') Hr) as Hw.
    match goal with |- context [wr (rx_skb ?x) _ _] => change (wr (rx_skb x) (cur_rx x) (Some s')) with (wr (rx_skb e) (cur_rx e) (Some s')) end.
    rewrite Hw, bind_ok; eexists s', _, c; split; [reflexivity|]; split; [exact Hw|]; do 3 (split; [reflexivity|]); split; [by split_and!|].
    split; [reflexivity|]; split; [exact Hl'|]; split; [exact Hn|].
    cbn [krn kdo set eta_ether]; rewrite receive_law, put_law, unmap_law, Hk; cbn [skb_len skb_data v_mem v_given set eta_view].
    rewrite Hl, Hst, Z.add_0_l, zlen_to_nat; unfold mem_of, skb_addr in *.
    rewrite lookup_insert_ne by congruence; rewrite Hb; cbn [default from_option id]; by rewrite Hf.
  - assert (Hk := alloc_fails 2048 (krn e)); rewrite Ha in Hk; eexists; split; [reflexivity|]; split; [reflexivity|]; split_and!; try done; by apply Hk.
Qed.

Lemma poll_good hw e s st f filled empty H d :
  rx_ring hw e ((s, st, f) :: filled) empty -> held (mem_of e) (rx_addrs ((s, st, f) :: filled) empty ++ H) ->
  rd (rdesc e) (cur_rx e) = Some d ->
  (exists e', (dev_alloc_skb 2048 (krn e)).1 = None /\ rx_deliver d e = Some (inl e') /\ rx_ring hw e' ((s, st, f) :: filled) empty /\
     held (mem_of e') (rx_addrs ((s, st, f) :: filled) empty ++ H) /\ rx_effect H e e' []) \/
  (exists s' d1 e1 e', rx_deliver d e = Some (inr (d1, e1)) /\ rx_return d1 e1 = Some e' /\ rx_ring hw e' filled (empty ++ [s']) /\
     held (mem_of e') (rx_addrs filled (empty ++ [s']) ++ H) /\ rx_effect H e e' [f]).
Proof.
  intros Hr Hh Hrd; destruct (rx_ring_head _ _ _ _ _ _ _ Hr) as (d' & Hrd' & Hsl & _ & Hbuf & Hro & Hl & Hst & b & Hb & Hf).
  assert (d' = d) as -> by congruence; pose proof Hr as [Hd Hs Hn Hm _]; subst st.
  destruct (rx_deliver_spec e d s b f Hro Hl Hst Hb Hf) as [(e' & Hno & He' & Hrx & Htx & Hg & Hk) | (s' & e1 & c & He1 & Hw & E1 & E2 & E3 & Htx & Hg & Hl' & Hn' & Hk)].
  - left; exists e'; assert (Hmem : mem_of e' = mem_of e) by (unfold mem_of; by rewrite Hk).
    split; [done|]; split; [done|]; split; [apply (rx_ring_same _ e); rewrite ?Hmem; done|]; split; [by rewrite Hmem|].
    split; try (rewrite Hk; done); try done; [by rewrite Hk, app_nil_r | intros; by rewrite Hmem].
  - right; destruct (rx_return_turns e e1 (RFilled s (r_sl d) f) (rx_cells filled empty) d s' Hd Hs Hn Hrd Hw E1 E2 E3)
      as (e' & He' & Hd' & Hs' & Hnx & Hc' & Hp' & Htx' & Hk' & Hg' & _).
    assert (Hmem : mem_of e' = delete (skb_addr s) (<[skb_addr s' := c]> (mem_of e))) by (unfold mem_of at 1; by rewrite Hk', Hk).
    destruct Hh as [Hnd Hsm]; cbn [rx_addrs rx_cells map app filled_cell rx_buf] in Hnd, Hsm; pose proof Hnd as Hnd'; apply NoDup_cons in Hnd' as [Hni _].
    fold (rx_cells filled empty) in *; fold (rx_addrs filled empty) in *.
    assert (Hkeep : forall a, a ∈ rx_addrs filled empty ++ H -> mem_of e' !! dma_addr a = mem_of e !! dma_addr a).
    { intros a Ha; rewrite Hmem; destruct (Hsm a ltac:(by right)) as [x Hx]; unfold skb_addr in *.
      rewrite lookup_delete_ne, lookup_insert_ne; [done | congruence|]; intros E; apply (inj dma_addr) in E; by subst. }
    assert (Hs'm : mem_of e' !! skb_addr s' = Some c) by (rewrite Hmem, lookup_delete_ne, lookup_insert_eq by congruence; done).
    exists s', (d <| r_buffer := skb_addr s' |>), e1, e'; split; [exact He1|]; split; [done|]; split; [|split].
    + apply (rx_ring_turned _ e _ s (r_sl d) f); try done; intros x Hx; apply Hkeep, elem_of_app; left.
      by apply (list_elem_of_fmap_2 (fun c => skb_data (rx_buf c))).
    + rewrite rx_addrs_app; apply (held_turn _ _ _ (skb_data s) (skb_data s') (mem_of e)); try done.
      intros Hin; destruct (Hsm (skb_data s') ltac:(by right)) as [x Hx]; unfold skb_addr in *; congruence.
    + split; try (rewrite Hk', Hk; done); [by transitivity e1 | congruence|].
      intros a Ha; apply Hkeep, elem_of_app; by right.
Qed.

(** The loop takes frames off the ring, in their order, and passes up the good ones. *)
Definition good_frames (l : list (sk_buff * Z * list Z)) : list (list Z) :=
  map snd (filter (fun x => Is_true (rx_good x.1.2)) l).

Lemma no_frames : zlen (good_frames []) = 0.
Proof. reflexivity. Qed.

Lemma poll_loop_total filled hw e empty H fuel budget rx_cnt :
  rx_ring hw e filled empty -> held (mem_of e) (rx_addrs filled empty ++ H) -> (length filled < fuel)%nat ->
  exists x cnt e' got left empty', poll_loop fuel budget rx_cnt e = Some (x, cnt, e') /\ filled = got ++ left /\
    rx_ring hw e' left empty' /\ held (mem_of e') (rx_addrs left empty' ++ H) /\ rx_effect H e e' (good_frames got) /\
    cnt = rx_cnt + zlen (good_frames got) /\ (x = PollComplete -> left = []) /\ (x = PollBudget -> budget <= cnt) /\
    (x = PollNoMem -> exists k, (dev_alloc_skb 2048 k).1 = None) /\ (rx_cnt <= budget -> cnt <= budget).
Proof.
  revert e empty fuel rx_cnt; induction filled as [|[[s st] f] filled IH]; intros e empty fuel rx_cnt Hr Hh Hf;
    (destruct fuel as [|fuel]; [simpl in Hf; lia|]); cbn [poll_loop].
  - destruct (rx_cnt <? budget) eqn:?; zbool.
    + pose proof Hr as [Hd _ _ _ _]; pose proof Hd as (_ & Hc & Hlen & _).
      destruct empty as [|s empty]; [done|]; destruct (cells_at _ _ _ _ 0 (REmpty s) Hd eq_refl) as (d & Hrd & _ & Ho).
      assert (Hr0 : ring (cur_rx e) 0 = cur_rx e) by (unfold ring; zcase; lia); rewrite Hr0 in Hrd; rewrite Hrd, bind_ok, Ho.
      exists PollComplete, rx_cnt, e, [], [], (s :: empty); split_and!; try done; [split; try done; by rewrite app_nil_r | rewrite no_frames; lia].
    + exists PollBudget, rx_cnt, e, [], [], empty; split_and!; try done; [split; try done; by rewrite app_nil_r | rewrite no_frames; lia].
  - destruct (rx_cnt <? budget) eqn:Hb; zbool.
    2: { exists PollBudget, rx_cnt, e, [], ((s, st, f) :: filled), empty; split_and!; try done; [split; try done; by rewrite app_nil_r | rewrite no_frames; lia]. }
    destruct (rx_ring_head _ _ _ _ _ _ _ Hr) as (d & Hrd & Hsl & Ho & _); rewrite Hrd, bind_ok, Ho, Hsl.
    destruct (rx_good st) eqn:Hg.
    + destruct (poll_good _ _ _ _ _ _ _ _ _ Hr Hh Hrd) as [(e' & Hno & -> & Hr' & Hh' & He') | (s' & d1 & e1 & e' & -> & Hret & Hr' & Hh' & He')]; rewrite bind_ok.
      * exists PollNoMem, rx_cnt, e', [], ((s, st, f) :: filled), empty; split_and!; try done; [rewrite no_frames; lia | intros _; by exists (krn e)].
      * rewrite Hret, bind_ok; destruct (IH e' _ fuel (rx_cnt + 1) Hr' Hh') as (x & cnt & e2 & got & lft & empty' & Hp & -> & Hr2 & Hh2 & He2 & Hcnt & Hx & Hx' & Hx'' & Hle); [simpl in Hf; lia|].
        assert (Hgf : good_frames ((s, st, f) :: got) = f :: good_frames got) by (unfold good_frames; rewrite filter_cons_True; [done|]; cbn; by rewrite Hg).
        exists x, cnt, e2, ((s, st, f) :: got), lft, empty'; rewrite Hgf; split_and!; try done.
        -- by apply (rx_effect_trans _ e e' e2 [f]).
        -- rewrite Hcnt, zlen_cons; lia.
        -- intros; apply Hle; lia.
    + destruct (poll_bad _ _ _ _ _ _ _ _ _ (rx_account st (stats e)) Hr Hh Hrd) as (e' & Hret & Hr' & Hh' & He'); rewrite Hret, bind_ok.
      destruct (IH e' _ fuel rx_cnt Hr' Hh') as (x & cnt & e2 & got & lft & empty' & Hp & -> & Hr2 & Hh2 & He2 & Hcnt & Hx & Hx' & Hx'' & Hle); [simpl in Hf; lia|].
      assert (Hgf : good_frames ((s, st, f) :: got) = good_frames got) by (unfold good_frames; rewrite filter_cons_False; [done|]; cbn; rewrite Hg; intros []).
      exists x, cnt, e2, ((s, st, f) :: got), lft, empty'; rewrite Hgf; split_and!; try done.
      by apply (rx_effect_trans _ e e' e2 []).
Qed.
End Rings.
