(* ===== verification/EmcSys.v ===== *)
(** The Ethernet driver beside the DMA engine: every order in which the network
    core, the interrupts, the poll function and the engine can take their turns. *)
From S2P Require Import Prelude Emc EmcSpec.

Section Sys.
  Context {K : Type} `{!NetOps K, !NetLaws K}.
  Implicit Types e : ether K.

(** ** The system

    The engine keeps the address of its next transmit and its next receive
    descriptor. The other fields are history: the frames that the driver has
    taken from the network core, with their bytes; what went out; and what came
    in, with the status of each frame. *)
Record sys := mk_sys { sy_e : ether K; sy_tx : Z; sy_rx : Z; sy_queue : list (sk_buff * list Z); sy_wire : list (list Z); sy_air : list (Z * list Z) }.
#[export] Instance eta_sys : Eta sys := fun s => mk_sys (sy_e s) (sy_tx s) (sy_rx s) (sy_queue s) (sy_wire s) (sy_air s).

(** At most 1514 bytes of a frame are sent. *)
Definition wire_frame (p : sk_buff * list Z) : list Z := take (Z.to_nat (Z.min 1514 (skb_len p.1))) p.2.

(** The descriptor of the frame that the network core hands over next is free,
    or the engine still has it: not one that was sent and not reclaimed. *)
Definition reclaimed e : Prop :=
  forall s d, rd (tx_skb e) (cur_tx e) = Some (Some s) -> rd (tdesc e) (cur_tx e) = Some d -> tx_owned d = true.

(** Another kernel that differs only in memory the driver does not hold. *)
Definition other_memory e (k : K) : Prop :=
  v_stopped (net k) = v_stopped (net (krn e)) /\ v_given (net k) = v_given (net (krn e)) /\ v_freed (net k) = v_freed (net (krn e)) /\
  forall s, Some s ∈ tx_skb e ++ rx_skb e -> v_mem (net k) !! skb_addr s = mem_of e !! skb_addr s.

Inductive step : sys -> sys -> Prop :=
| step_xmit s skb data r e' :
    v_stopped (net (krn (sy_e s))) = false -> mem_of (sy_e s) !! skb_addr skb = Some data ->
    (forall x, Some x ∈ tx_skb (sy_e s) ++ rx_skb (sy_e s) -> skb_data x <> skb_data skb) -> reclaimed (sy_e s) ->
    nuc970_ether_start_xmit skb (sy_e s) = Some (r, e') ->
    step s (s <| sy_e := e' |> <| sy_queue := sy_queue s ++ match r with NETDEV_TX_OK => [(skb, data)] | NETDEV_TX_BUSY => [] end |>)
| step_tx_irq s mista e' :
    Z.land mista MISTA_TXBERR = 0 -> nuc970_tx_interrupt mista (sy_e s) = Some e' -> step s (s <| sy_e := e' |>)
| step_rx_irq s mista e' :
    Z.land mista MISTA_RXBERR = 0 -> nuc970_rx_interrupt mista (sy_e s) = Some e' -> step s (s <| sy_e := e' |>)
| step_poll s budget n e' : nuc970_poll budget (sy_e s) = Some (n, e') -> step s (s <| sy_e := e' |>)
| step_link s l sp du : step s (s <| sy_e := adjust_link l sp du (sy_e s) |>)
| step_kernel s k : other_memory (sy_e s) k -> step s (s <| sy_e := (sy_e s) <| krn := k |> |>)
(** The engine sends the frame of its descriptor, if it has one and was started. *)
| step_send s i d st ds :
    sy_tx s = tdesc_phys (sy_e s) + sizeof_bd * i -> rd (tdesc (sy_e s)) i = Some d ->
    regs (sy_e s) !! REG_TSDR = Some ENSTART -> tx_owned d = true ->
    wr (tdesc (sy_e s)) i (d <| t_mode := Z.land (t_mode d) (Z.lnot TX_OWEN_DMA) |> <| t_sl := st |>) = Some ds ->
    step s (s <| sy_e := (sy_e s) <| tdesc := ds |> |> <| sy_tx := t_next d |>
              <| sy_wire := sy_wire s ++ [take (Z.to_nat (t_sl d)) (default [] (mem_of (sy_e s) !! t_buffer d))] |>)
(** Without one it stops. *)
| step_send_stop s i d :
    sy_tx s = tdesc_phys (sy_e s) + sizeof_bd * i -> rd (tdesc (sy_e s)) i = Some d -> tx_owned d = false ->
    step s (s <| sy_e := raw_writel 0 REG_TSDR (sy_e s) |>)
(** The engine stores a frame with its status and length. *)
| step_store s i d st f k ds :
    sy_rx s = rdesc_phys (sy_e s) + sizeof_bd * i -> rd (rdesc (sy_e s)) i = Some d -> rx_owned d = true ->
    Z.land st RX_OWEN_DMA = 0 -> Z.land st 0xFFFF = zlen f ->
    net k = (net (krn (sy_e s))) <| v_mem := <[r_buffer d := f ++ drop (length f) (default [] (mem_of (sy_e s) !! r_buffer d))]> (mem_of (sy_e s)) |> ->
    wr (rdesc (sy_e s)) i (d <| r_sl := st |>) = Some ds ->
    step s (s <| sy_e := (sy_e s) <| rdesc := ds |> <| krn := k |> |> <| sy_rx := r_next d |> <| sy_air := sy_air s ++ [(st, f)] |>).

(** An interface that was opened, with all its memory. *)
Definition opened e : Prop :=
  exists e0, nuc970_ether_open e0 = Some (0, e) /\ zlen (rx_skb e0) = RX_DESC_SIZE /\ zlen (rdesc e) = RX_DESC_SIZE /\ zlen (tdesc e) = TX_DESC_SIZE.

Definition start e : sys := mk_sys e (raw_readl REG_TXDLSA e) (raw_readl REG_RXDLSA e) [] [] [].

(** ** The invariant *)
Definition tx_addrs (sent : list sk_buff) (owned : list (sk_buff * list Z)) : list Z := map skb_data (sent ++ map fst owned).

Definition good_air (l : list (Z * list Z)) : list (list Z) := map snd (filter (fun x => Is_true (rx_good x.1)) l).
Definition air (filled : list (sk_buff * Z * list Z)) : list (Z * list Z) := map (fun x => (x.1.2, x.2)) filled.

(** [past] are the frames sent, [gone] those of them whose buffers were freed,
    [sent] the others; [seen] the frames that the poll function has dealt with. *)
Record inv (v0 : net_view) (s : sys) past gone sent owned free seen filled empty : Prop := {
  i_tx : tx_ring (sy_tx s) (sy_e s) sent owned free;
  i_rx : rx_ring (sy_rx s) (sy_e s) filled empty;
  i_held : held (mem_of (sy_e s)) (rx_addrs filled empty ++ tx_addrs sent owned);
  i_queue : sy_queue s = past ++ owned;
  i_past : map fst past = gone ++ sent;
  i_freed : v_freed (net (krn (sy_e s))) = v_freed v0 ++ gone;
  i_wire : sy_wire s = map wire_frame past;
  i_air : sy_air s = seen ++ air filled;
  i_given : v_given (net (krn (sy_e s))) = v_given v0 ++ good_air seen;
  i_running : owned <> [] -> regs (sy_e s) !! REG_TSDR = Some ENSTART;
  i_stopped : v_stopped (net (krn (sy_e s))) = true -> sent <> [] \/ owned <> [];
}.

(** A buffer that the driver holds is in one of its arrays. *)
Lemma tx_in_array hw e sent owned free x :
  tx_ring hw e sent owned free -> x ∈ sent ++ map fst owned -> Some x ∈ tx_skb e.
Proof.
  intros [_ Hs _ _ _ _] Hx.
  assert (Hc : exists j c, rd (tx_cells sent owned free) j = Some c /\ tx_skb_is (Some x) c).
  { assert (Hin : exists c, c ∈ tx_cells sent owned free /\ tx_skb_is (Some x) c).
    { unfold tx_cells; apply elem_of_app in Hx as [Hx|Hx].
      - exists (TDone x); split; [|done]; apply elem_of_app; left; by apply (list_elem_of_fmap_2 TDone).
      - apply list_elem_of_fmap in Hx as ([y data] & -> & Hx); exists (TOwned y data); split; [|done].
        apply elem_of_app; right; apply elem_of_app; left; by apply (list_elem_of_fmap_2 (fun p => TOwned p.1 p.2) _ (y, data)). }
    destruct Hin as (c & Hin & Hc); apply list_elem_of_lookup in Hin as [j Hj]; exists (Z.of_nat j), c; split; [|done].
    apply rd_Some; split; [lia|]; by rewrite Nat2Z.id. }
  destruct Hc as (j & c & Hj & Hc); destruct (cells_at _ _ _ _ _ _ Hs Hj) as (o & Ho & Hoc).
  unfold tx_skb_is in *; rewrite <- Hc in Hoc; subst o; apply rd_Some in Ho as [_ Ho]; by eapply list_elem_of_lookup_2.
Qed.

Lemma rx_in_array hw e filled empty c : rx_ring hw e filled empty -> c ∈ rx_cells filled empty -> Some (rx_buf c) ∈ rx_skb e.
Proof.
  intros [_ Hs _ _ _] Hc; apply list_elem_of_lookup in Hc as [j Hj].
  destruct (cells_at _ _ _ _ (Z.of_nat j) c Hs) as (o & Ho & Hoc); [apply rd_Some; split; [lia|]; by rewrite Nat2Z.id|].
  unfold rx_skb_is in Hoc; subst o; apply rd_Some in Ho as [_ Ho]; by eapply list_elem_of_lookup_2.
Qed.

(** An address that the driver holds is that of a buffer in its arrays. *)
Lemma held_in_array s v0 past gone sent owned free seen filled empty a :
  inv v0 s past gone sent owned free seen filled empty -> a ∈ rx_addrs filled empty ++ tx_addrs sent owned ->
  exists x, Some x ∈ tx_skb (sy_e s) ++ rx_skb (sy_e s) /\ a = skb_data x.
Proof.
  intros [Htx Hrx _ _ _ _ _ _ _ _ _] Ha; apply elem_of_app in Ha as [Ha|Ha].
  - apply list_elem_of_fmap in Ha as (c & -> & Hc); exists (rx_buf c); split; [|done]; apply elem_of_app; right; by apply (rx_in_array _ _ _ _ _ Hrx).
  - apply list_elem_of_fmap in Ha as (x & -> & Hx); exists x; split; [|done]; apply elem_of_app; left; by apply (tx_in_array _ _ _ _ _ _ Htx).
Qed.

(** ** Steps that leave the rings alone *)
Lemma inv_same v0 s e' past gone sent owned free seen filled empty :
  inv v0 s past gone sent owned free seen filled empty -> same_tx (sy_e s) e' -> same_rx (sy_e s) e' ->
  (forall a, a ∈ rx_addrs filled empty ++ tx_addrs sent owned -> mem_of e' !! dma_addr a = mem_of (sy_e s) !! dma_addr a) ->
  v_freed (net (krn e')) = v_freed (net (krn (sy_e s))) -> v_given (net (krn e')) = v_given (net (krn (sy_e s))) ->
  (owned <> [] -> regs e' !! REG_TSDR = Some ENSTART) -> (v_stopped (net (krn e')) = true -> sent <> [] \/ owned <> []) ->
  inv v0 (s <| sy_e := e' |>) past gone sent owned free seen filled empty.
Proof.
  intros [Htx Hrx [Hnd Hh] Hq Hp Hf Hw Ha Hg Hr Hs] Stx Srx Hm Ef Eg Hr' Hs'; split; cbn [sy_e sy_tx sy_rx sy_queue sy_wire sy_air set eta_sys]; try done.
  - apply (tx_ring_same _ (sy_e s)); try done; pose proof (tr_mem _ _ _ _ _ Htx) as Hmem; rewrite Forall_forall in Hmem |- *.
    intros p Hp'; unfold skb_addr; rewrite Hm; [by apply Hmem|]; apply elem_of_app; right; unfold tx_addrs; rewrite map_app; apply elem_of_app; right.
    rewrite map_map; by apply (list_elem_of_fmap_2 (fun p => skb_data p.1)).
  - apply (rx_ring_same _ (sy_e s)); try done; pose proof (rr_mem _ _ _ _ Hrx) as Hmem; rewrite Forall_forall in Hmem |- *.
    intros c Hc; apply (rx_mem_agree (mem_of (sy_e s))); [by apply Hmem|]; unfold skb_addr; apply Hm, elem_of_app; left.
    by apply (list_elem_of_fmap_2 (fun c => skb_data (rx_buf c))).
  - split; [done|]; intros a Ha'; rewrite Hm by done; by apply Hh.
  - congruence.
  - congruence.
Qed.

Lemma same_net v0 s e' past gone sent owned free seen filled empty :
  inv v0 s past gone sent owned free seen filled empty -> same_tx (sy_e s) e' -> same_rx (sy_e s) e' -> net (krn e') = net (krn (sy_e s)) ->
  (owned <> [] -> regs e' !! REG_TSDR = Some ENSTART) -> inv v0 (s <| sy_e := e' |>) past gone sent owned free seen filled empty.
Proof.
  intros Hi Stx Srx Hk Hr; pose proof Hi as [_ _ _ _ _ _ _ _ _ _ Hs]; apply inv_same; try done; unfold mem_of; by rewrite Hk.
Qed.

Lemma writel_tsdr v a e : a <> REG_TSDR -> regs (raw_writel v a e) !! REG_TSDR = regs e !! REG_TSDR.
Proof. intros H; cbn [regs raw_writel set eta_ether]; by apply lookup_insert_ne. Qed.

Lemma trigger_tx e : regs (ETH_TRIGGER_TX e) !! REG_TSDR = Some ENSTART.
Proof. unfold ETH_TRIGGER_TX; cbn [regs raw_writel set eta_ether]; apply lookup_insert_eq. Qed.

Lemma adjust_link_same l sp du e :
  same_tx e (adjust_link l sp du e) /\ same_rx e (adjust_link l sp du e) /\ krn (adjust_link l sp du e) = krn e /\
  (regs e !! REG_TSDR = Some ENSTART -> regs (adjust_link l sp du e) !! REG_TSDR = Some ENSTART).
Proof.
  unfold adjust_link; destruct (nz l); [destruct (negb (speed e =? sp) || negb (duplex e =? du))|];
    (destruct (negb (l =? _)); [try destruct (nz l)|]); (split; [by split_and!|]; split; [by split_and!|]; split; [done|]); intros H;
    first [apply trigger_tx | exact H | by cbn [regs raw_writel set eta_ether]; rewrite lookup_insert_ne by done].
Qed.

Lemma link_step v0 s l sp du past gone sent owned free seen filled empty :
  inv v0 s past gone sent owned free seen filled empty ->
  inv v0 (s <| sy_e := adjust_link l sp du (sy_e s) |>) past gone sent owned free seen filled empty.
Proof.
  intros Hi; destruct (adjust_link_same l sp du (sy_e s)) as (Stx & Srx & Hk & Hr); apply same_net; try done; [by rewrite Hk|].
  intros Hne; by apply Hr, (i_running _ _ _ _ _ _ _ _ _ _ Hi).
Qed.

Lemma kernel_step v0 s k past gone sent owned free seen filled empty :
  inv v0 s past gone sent owned free seen filled empty -> other_memory (sy_e s) k ->
  inv v0 (s <| sy_e := (sy_e s) <| krn := k |> |>) past gone sent owned free seen filled empty.
Proof.
  intros Hi (Es & Eg & Ef & Hm); apply inv_same; try done.
  - intros a Ha; destruct (held_in_array _ _ _ _ _ _ _ _ _ _ _ Hi Ha) as (x & Hx & ->); by apply Hm.
  - by apply (i_running _ _ _ _ _ _ _ _ _ _ Hi).
  - cbn [krn set eta_ether]; rewrite Es; by apply (i_stopped _ _ _ _ _ _ _ _ _ _ Hi).
Qed.

Lemma rx_irq_defined mista e : Z.land mista MISTA_RXBERR = 0 ->
  exists e', nuc970_rx_interrupt mista e = Some e' /\ same_tx e e' /\ same_rx e e' /\ net (krn e') = net (krn e) /\ regs e' !! REG_TSDR = regs e !! REG_TSDR.
Proof.
  intros Hm; unfold nuc970_rx_interrupt, nuc970_get_and_clear_int.
  assert (Hz : nz (Z.land (Z.land mista 0xFFFF) MISTA_RXBERR) = false).
  { rewrite <- Z.land_assoc; change (Z.land 0xFFFF MISTA_RXBERR) with MISTA_RXBERR; by rewrite Hm. }
  rewrite Hz; destruct (nz (Z.land _ MISTA_RXGD)); (eexists; split; [reflexivity|]; split; [by split_and!|]; split; [by split_and!|]).
  - split; [cbn [krn kdo set eta_ether]; apply napi_laws | cbn [regs kdo raw_writel set eta_ether]; by rewrite !lookup_insert_ne by done].
  - split; [done | by apply writel_tsdr].
Qed.

Lemma rx_irq_step v0 s mista e' past gone sent owned free seen filled empty :
  inv v0 s past gone sent owned free seen filled empty -> Z.land mista MISTA_RXBERR = 0 -> nuc970_rx_interrupt mista (sy_e s) = Some e' ->
  inv v0 (s <| sy_e := e' |>) past gone sent owned free seen filled empty.
Proof.
  intros Hi Hm He; destruct (rx_irq_defined mista (sy_e s) Hm) as (e1 & He1 & Stx & Srx & Hk & Hr); assert (e1 = e') as -> by congruence.
  apply same_net; try done; intros Hne; rewrite Hr; by apply (i_running _ _ _ _ _ _ _ _ _ _ Hi).
Qed.

(** ** The network core hands over a frame *)
Lemma tx_addrs_app sent owned p : tx_addrs sent (owned ++ [p]) = tx_addrs sent owned ++ [skb_data p.1].
Proof. unfold tx_addrs; by rewrite (map_app fst), app_assoc, map_app. Qed.

(** What the reclaimed descriptor excludes: a full ring with a frame that was sent. *)
Lemma reclaimed_free hw e s sent owned : tx_ring hw e (s :: sent) owned 0 -> ~ reclaimed e.
Proof.
  intros Hr Hrec; pose proof (tx_cells_len _ _ _ _ _ Hr) as Hlen; destruct Hr as [Hd Hs Hc _ _ _]; pose proof Hd as (_ & Hf & _).
  assert (Hc0 : cur_tx e = ring (finish_tx e) 0) by (rewrite Hc, <- ring_last by done; f_equal; lia).
  destruct (cells_at _ _ _ _ 0 (TDone s) Hd eq_refl) as (d & Hrd & Ho); destruct (cells_at _ _ _ _ 0 (TDone s) Hs eq_refl) as (o & Hro & Hoe).
  cbn in Ho; unfold tx_skb_is in Hoe; subst o; rewrite <- Hc0 in *; specialize (Hrec s d Hro Hrd); congruence.
Qed.

Lemma xmit_step v0 s skb data past gone sent owned free seen filled empty :
  inv v0 s past gone sent owned free seen filled empty -> mem_of (sy_e s) !! skb_addr skb = Some data ->
  (forall x, Some x ∈ tx_skb (sy_e s) ++ rx_skb (sy_e s) -> skb_data x <> skb_data skb) -> reclaimed (sy_e s) ->
  exists r e' owned' free', nuc970_ether_start_xmit skb (sy_e s) = Some (r, e') /\
    inv v0 (s <| sy_e := e' |> <| sy_queue := sy_queue s ++ match r with NETDEV_TX_OK => [(skb, data)] | NETDEV_TX_BUSY => [] end |>)
      past gone sent owned' free' seen filled empty.
Proof.
  intros Hi Hm Hnew Hrec; pose proof Hi as [Htx Hrx Hh Hq Hp Hf Hw Ha Hg Hr Hs]; destruct free as [|free].
  - destruct sent as [|x sent]; [|by destruct (reclaimed_free _ _ _ _ _ Htx Hrec)].
    exists NETDEV_TX_BUSY, (kdo netif_stop_queue (sy_e s)), owned, 0%nat; split; [by apply (xmit_full _ _ _ _ Htx)|]; rewrite app_nil_r.
    assert (Hk : net (krn (kdo netif_stop_queue (sy_e s))) = (net (krn (sy_e s))) <| v_stopped := true |>) by apply stop_law.
    apply (inv_same _ s (kdo netif_stop_queue (sy_e s))) in Hi; [|by split_and! | by split_and! | intros; unfold mem_of; by rewrite Hk | by rewrite Hk | by rewrite Hk | exact Hr |].
    + destruct s; exact Hi.
    + intros _; right; pose proof (tx_cells_len _ _ _ _ _ Htx) as Hlen; by intros ->.
  - destruct (xmit_queues _ _ _ _ _ skb data Htx Hm) as (e' & He & Htx' & Srx & Hregs & Hk).
    exists NETDEV_TX_OK, e', (owned ++ [(skb, data)]), free; split; [done|].
    assert (Hmem : mem_of e' = mem_of (sy_e s)) by (unfold mem_of; rewrite Hk; by destruct (tx_full sent free)).
    split; cbn [sy_e sy_tx sy_rx sy_queue sy_wire sy_air set eta_sys]; try done.
    + apply (rx_ring_same _ (sy_e s)); try done; rewrite Hmem; apply (rr_mem _ _ _ _ Hrx).
    + destruct Hh as [Hnd Hsm]; rewrite tx_addrs_app, app_assoc; cbn [fst]; split.
      * rewrite <- Permutation_cons_append; apply NoDup_cons; split; [|done]; intros Hin.
        destruct (held_in_array _ _ _ _ _ _ _ _ _ _ _ Hi Hin) as (x & Hx & E); by apply (Hnew x Hx).
      * intros a Ha'; rewrite Hmem; apply elem_of_app in Ha' as [Ha'|Ha']; [by apply Hsm|]; apply list_elem_of_singleton in Ha' as ->; by exists data.
    + by rewrite Hq, app_assoc.
    + rewrite Hk; by destruct (tx_full sent free).
    + rewrite Hk; by destruct (tx_full sent free).
    + intros _; rewrite Hregs; apply lookup_insert_eq.
    + intros _; right; intros E; by apply app_nil in E as [_ E].
Qed.

(** ** The interrupt of the transmitter *)
Lemma tx_irq_step v0 s mista past gone sent owned free seen filled empty :
  inv v0 s past gone sent owned free seen filled empty -> Z.land mista MISTA_TXBERR = 0 ->
  exists e', nuc970_tx_interrupt mista (sy_e s) = Some e' /\
    inv v0 (s <| sy_e := e' |>) past (gone ++ sent) [] owned (length sent + free) seen filled empty.
Proof.
  intros Hi Hm; pose proof Hi as [Htx Hrx [Hnd Hsm] Hq Hp Hf Hw Ha Hg Hr Hs]; unfold nuc970_tx_interrupt, nuc970_get_and_clear_int.
  set (e1 := raw_writel _ REG_MISTA (sy_e s)).
  assert (Htx1 : tx_ring (sy_tx s) e1 sent owned free) by (apply (tx_ring_same _ (sy_e s)); [done | by split_and! | apply (tr_mem _ _ _ _ _ Htx)]).
  pose proof (tx_cells_len _ _ _ _ _ Htx) as Hlen; apply NoDup_app in Hnd as (Hnr & Hdis & Hnt).
  destruct (tx_reclaim_total sent _ e1 owned free (S (Z.to_nat TX_DESC_SIZE)) Htx1 Hnt) as (e2 & -> & Htx2 & Srx & Hregs & _ & Hk);
    [pose proof (zlen_nonneg owned); unfold zlen, TX_DESC_SIZE in *; lia|]; rewrite bind_ok.
  assert (Hz : nz (Z.land (Z.land mista 0xFFFF0000) MISTA_TXBERR) = false).
  { rewrite <- Z.land_assoc; change (Z.land 0xFFFF0000 MISTA_TXBERR) with MISTA_TXBERR; by rewrite Hm. }
  rewrite Hz; assert (Hif : forall b : bool, (if b then Some e2 else Some e2) = Some e2) by (by intros []); rewrite Hif, bind_ok.
  set (e3 := if netif_queue_stopped _ then _ else _).
  change (net (krn e1)) with (net (krn (sy_e s))) in Hk.
  assert (Hk3 : net (krn e3) = (freed sent (net (krn (sy_e s)))) <| v_stopped := false |>).
  { unfold e3; rewrite stopped_law, Hk; destruct (v_stopped (freed _ _)) eqn:Hst; [cbn [krn kdo set eta_ether]; by rewrite wake_law, Hk|].
    rewrite Hk; destruct (freed sent _); cbn in *; by rewrite Hst. }
  assert (Hsame : same_tx e2 e3 /\ same_rx e2 e3 /\ regs e3 = regs e2) by (unfold e3; destruct (netif_queue_stopped _); split_and!; try done; by split_and!).
  destruct Hsame as (Stx3 & Srx3 & Hregs3).
  assert (Hm3 : forall a, a ∈ rx_addrs filled empty ++ map skb_data (map fst owned) -> mem_of e3 !! dma_addr a = mem_of (sy_e s) !! dma_addr a).
  { intros a Ha'; unfold mem_of at 1; rewrite Hk3; cbn [v_mem set eta_view]; apply freed_mem; intros Hin.
    apply list_elem_of_fmap in Hin as (x & Hx & Hin); unfold skb_addr in Hx; apply (inj dma_addr) in Hx; subst a.
    unfold tx_addrs in *; rewrite map_app in Hnt, Hdis; apply NoDup_app in Hnt as (_ & Hdt & _).
    assert (skb_data x ∈ map skb_data sent) by (by apply (list_elem_of_fmap_2 skb_data)).
    apply elem_of_app in Ha' as [Ha'|Ha']; [apply (Hdis _ Ha'), elem_of_app; by left | by apply (Hdt (skb_data x))]. }
  exists e3; split; [done|]; destruct (freed_rest sent (net (krn (sy_e s)))) as [_ Hgv].
  split; cbn [sy_e sy_tx sy_rx sy_queue sy_wire sy_air set eta_sys]; try done.
  - apply (tx_ring_same _ e2); try done; pose proof (tr_mem _ _ _ _ _ Htx) as Hmem; rewrite Forall_forall in Hmem |- *.
    intros p Hp'; unfold skb_addr; rewrite Hm3; [by apply Hmem|]; apply elem_of_app; right; rewrite map_map; by apply (list_elem_of_fmap_2 (fun p => skb_data p.1)).
  - apply (rx_ring_same _ (sy_e s)); [done | by transitivity e2; [exact Srx|] |]; pose proof (rr_mem _ _ _ _ Hrx) as Hmem; rewrite Forall_forall in Hmem |- *.
    intros c Hc; apply (rx_mem_agree (mem_of (sy_e s))); [by apply Hmem|]; apply Hm3, elem_of_app; left; by apply (list_elem_of_fmap_2 (fun c => skb_data (rx_buf c))).
  - unfold tx_addrs in *; rewrite map_app in Hnt, Hdis, Hsm; cbn [app]; split.
    + apply NoDup_app; split; [done|]; split; [intros a Ha' Hin; apply (Hdis a Ha'), elem_of_app; by right | by apply NoDup_app in Hnt as (_ & _ & ?)].
    + intros a Ha'; rewrite Hm3 by done; apply Hsm; rewrite !elem_of_app in *; tauto.
  - by rewrite app_nil_r.
  - rewrite Hk3; cbn [v_freed set eta_view]; by rewrite freed_freed, Hf, app_assoc.
  - rewrite Hk3; cbn [v_given set eta_view]; by rewrite Hgv.
  - intros Hne; rewrite Hregs3, Hregs; unfold e1; rewrite writel_tsdr by done; by apply Hr.
  - by rewrite Hk3.
Qed.

(** ** The poll function *)
Lemma good_air_filled got : good_air (air got) = good_frames got.
Proof.
  unfold good_air, air, good_frames; induction got as [|[[s st] f] got IH]; [done|]; cbn [map].
  rewrite !filter_cons; cbn [fst snd]; destruct (decide (Is_true (rx_good st))); cbn [map]; by rewrite IH.
Qed.

Lemma good_air_app a b : good_air (a ++ b) = good_air a ++ good_air b.
Proof. unfold good_air; by rewrite filter_app, map_app. Qed.

(** What the poll function does after its loop. *)
Lemma poll_end x e :
  same_tx e (poll_finish x e) /\ same_rx e (poll_finish x e) /\ net (krn (poll_finish x e)) = net (krn e) /\
  regs (poll_finish x e) !! REG_TSDR = regs e !! REG_TSDR.
Proof.
  destruct x; (split; [by split_and!|]; split; [by split_and!|]; split); cbn [krn regs poll_finish ETH_TRIGGER_RX raw_writel kdo set eta_ether];
    first [done | apply napi_laws | by rewrite !lookup_insert_ne by done].
Qed.

Lemma poll_step v0 s budget past gone sent owned free seen filled empty :
  inv v0 s past gone sent owned free seen filled empty ->
  exists n e' seen' filled' empty', nuc970_poll budget (sy_e s) = Some (n, e') /\
    inv v0 (s <| sy_e := e' |>) past gone sent owned free seen' filled' empty' /\ (0 <= budget -> 0 <= n <= budget).
Proof.
  intros Hi; pose proof Hi as [Htx Hrx Hh Hq Hp Hf Hw Ha Hg Hr Hs]; unfold nuc970_poll.
  assert (Hlen : (length filled < S (Z.to_nat RX_DESC_SIZE))%nat).
  { destruct Hrx as [(_ & _ & Hl & _) _ _ _ _]; unfold rx_cells in Hl; rewrite zlen_app in Hl; unfold zlen, RX_DESC_SIZE in *; rewrite !length_map in Hl; lia. }
  destruct (poll_loop_total filled _ (sy_e s) empty (tx_addrs sent owned) _ budget 0 Hrx Hh Hlen)
    as (x & cnt & e1 & got & lft & empty' & -> & -> & Hrx1 & Hh1 & [Stx Eregs Est Efr Egv Emem] & Hcnt & _ & _ & _ & Hle); rewrite bind_ok.
  destruct (poll_end x e1) as (Stx2 & Srx2 & Hk2 & Hreg2); set (e2 := poll_finish x e1) in *.
  exists cnt, e2, (seen ++ air got), lft, empty'; split; [done|]; split; [|pose proof (zlen_nonneg (good_frames got)); lia].
  assert (Hi1 : inv v0 (s <| sy_e := e1 |>) past gone sent owned free (seen ++ air got) lft empty').
  { split; cbn [sy_e sy_tx sy_rx sy_queue sy_wire sy_air set eta_sys]; try done.
    - apply (tx_ring_same _ (sy_e s)); try done; pose proof (tr_mem _ _ _ _ _ Htx) as Hmem; rewrite Forall_forall in Hmem |- *.
      intros p Hp'; unfold skb_addr; rewrite Emem; [by apply Hmem|]; unfold tx_addrs; rewrite map_app, map_map; apply elem_of_app; right.
      by apply (list_elem_of_fmap_2 (fun p => skb_data p.1)).
    - by rewrite Efr.
    - rewrite Ha; unfold air; by rewrite map_app, app_assoc.
    - by rewrite Egv, Hg, good_air_app, good_air_filled, app_assoc.
    - by rewrite Eregs.
    - by rewrite Est. }
  apply (same_net _ _ e2) in Hi1; [destruct s; exact Hi1 | done | done | done|].
  intros Hne; cbn [sy_e set eta_sys]; rewrite Hreg2, Eregs; by apply Hr.
Qed.

(** ** The engine *)
Lemma engine_at base i f n : base + sizeof_bd * i = base + 16 * ring f n -> i = ring f n.
Proof. unfold sizeof_bd; lia. Qed.

(** The transmit descriptor at the engine's place: if the engine has it, it is
    that of the first frame that was not sent. *)
Lemma tx_at_engine hw e sent owned free i d :
  tx_ring hw e sent owned free -> hw = tdesc_phys e + sizeof_bd * i -> rd (tdesc e) i = Some d ->
  i = ring (finish_tx e) (zlen sent) /\
  match owned with
  | [] => tx_owned d = false
  | (s, data) :: _ => tx_desc_is d (TOwned s data)
  end.
Proof.
  intros Hr Hw Hrd; pose proof (tx_cells_len _ _ _ _ _ Hr) as Hlen; destruct Hr as [Hd _ _ _ _ Hh]; pose proof Hd as (_ & Hf & _).
  assert (Hi : i = ring (finish_tx e) (zlen sent)) by (eapply engine_at; by rewrite <- Hw); split; [done|]; subst i.
  destruct owned as [|[s data] owned].
  - destruct free as [|free].
    + assert (Hs : zlen sent = 32) by (change (zlen []) with 0 in Hlen; lia); rewrite Hs, ring_last in Hrd by done; destruct sent as [|s sent]; [done|].
      destruct (cells_at _ _ _ _ 0 (TDone s) Hd eq_refl) as (d' & Hrd' & Ho); assert (d' = d) as <- by congruence; done.
    + destruct (cells_at _ _ _ _ (zlen sent) TFree Hd) as (d' & Hrd' & Ho); [rewrite <- (Z.add_0_r (zlen sent)); apply tx_cells_free|].
      assert (d' = d) as <- by congruence; done.
  - destruct (cells_at _ _ _ _ (zlen sent) (TOwned s data) Hd) as (d' & Hrd' & Ho); [|by assert (d' = d) as <- by congruence].
    unfold tx_cells; replace (zlen sent) with (zlen (map TDone sent)) by (unfold zlen; by rewrite length_map); apply rd_0.
Qed.

Lemma tx_cells_sent sent s data owned free :
  <[Z.to_nat (zlen sent) := TDone s]> (tx_cells sent ((s, data) :: owned) free) = tx_cells (sent ++ [s]) owned free.
Proof.
  unfold tx_cells; replace (Z.to_nat (zlen sent)) with (length (map TDone sent) + 0)%nat by (rewrite length_map, zlen_to_nat; lia).
  rewrite insert_app_r, map_app, <- app_assoc; done.
Qed.

Lemma not_owned_after d st :
  tx_owned (d <| t_mode := Z.land (t_mode d) (Z.lnot TX_OWEN_DMA) |> <| t_sl := st |>) = false.
Proof.
  unfold tx_owned; cbn [t_mode set eta_txbd]; rewrite <- Z.land_assoc, (Z.land_comm (Z.lnot _)), Z.land_lnot_diag, Z.land_0_r; done.
Qed.

Lemma send_step v0 s i d st ds past gone sent owned free seen filled empty :
  inv v0 s past gone sent owned free seen filled empty ->
  sy_tx s = tdesc_phys (sy_e s) + sizeof_bd * i -> rd (tdesc (sy_e s)) i = Some d -> tx_owned d = true ->
  wr (tdesc (sy_e s)) i (d <| t_mode := Z.land (t_mode d) (Z.lnot TX_OWEN_DMA) |> <| t_sl := st |>) = Some ds ->
  exists past' sent' owned', inv v0 (s <| sy_e := (sy_e s) <| tdesc := ds |> |> <| sy_tx := t_next d |>
              <| sy_wire := sy_wire s ++ [take (Z.to_nat (t_sl d)) (default [] (mem_of (sy_e s) !! t_buffer d))] |>)
    past' gone sent' owned' free seen filled empty.
Proof.
  intros [Htx Hrx Hh Hq Hp Hf Hw Ha Hg Hr Hs] Hhw Hrd Ho Hwr; destruct (tx_at_engine _ _ _ _ _ _ _ Htx Hhw Hrd) as [Hi Hcell].
  destruct owned as [|[skb data] owned]; [congruence|]; destruct Hcell as (_ & Hb & Hsl); pose proof (tx_cells_len _ _ _ _ _ Htx) as Hlen.
  pose proof Htx as [Hd Hsk Hc Hn Hm _]; pose proof Hd as (_ & Hfin & _); apply Forall_cons in Hm as [Hm0 Hm].
  pose proof (zlen_nonneg sent); pose proof (zlen_nonneg owned); rewrite zlen_cons in Hlen, Hc.
  destruct (cells_set tx_desc_is _ _ _ (zlen sent) _ (TDone skb) Hd ltac:(lia) (not_owned_after d st)) as (ds' & Hwr' & Hds).
  rewrite <- Hi in Hwr'; assert (ds' = ds) as -> by congruence; rewrite tx_cells_sent in Hds.
  assert (Hss : cells tx_skb_is (tx_skb (sy_e s)) (finish_tx (sy_e s)) (tx_cells (sent ++ [skb]) owned free)).
  { rewrite <- (tx_cells_sent sent skb data); destruct (cells_at _ _ _ _ (zlen sent) (TOwned skb data) Hsk) as (o & Hro & Hoe).
    { unfold tx_cells; replace (zlen sent) with (zlen (map TDone sent)) by (unfold zlen; by rewrite length_map); apply rd_0. }
    destruct (cells_set tx_skb_is _ _ _ (zlen sent) o (TDone skb) Hsk ltac:(lia) Hoe) as (ss & Hws & Hss); by rewrite (wr_same _ _ _ _ Hws Hro) in Hss. }
  exists (past ++ [(skb, data)]), (sent ++ [skb]), owned; split; cbn [sy_e sy_tx sy_rx sy_queue sy_wire sy_air set eta_sys]; try done.
  - split; try done.
    + cbn [cur_tx finish_tx set eta_ether]; rewrite Hc, zlen_app; change (zlen [skb]) with 1; f_equal; lia.
    + cbn [tdesc tdesc_phys set eta_ether]; intros j x Hx; destruct (decide (j = i)) as [->|Hne].
      * rewrite (rd_wr_eq _ _ _ _ Hwr) in Hx; injection Hx as <-; by apply Hn in Hrd.
      * rewrite (rd_wr_ne _ _ _ _ _ Hwr) in Hx by done; by apply Hn.
    + cbn [tdesc_phys finish_tx set eta_ether]; rewrite (Hn _ _ Hrd), Hi, ring_step, zlen_app by lia; done.
  - by apply (rx_ring_same _ (sy_e s)); [| split_and! | apply (rr_mem _ _ _ _ Hrx)].
  - unfold tx_addrs in *; rewrite <- app_assoc; exact Hh.
  - by rewrite Hq, <- app_assoc.
  - rewrite map_app, Hp, <- app_assoc; done.
  - cbn [fst snd] in Hm0; rewrite Hw, map_app, Hb, Hm0, Hsl; done.
  - intros Hne; by apply Hr.
  - intros _; left; intros E; by apply app_nil in E as [_ E].
Qed.

Lemma send_stop_step v0 s i d past gone sent owned free seen filled empty :
  inv v0 s past gone sent owned free seen filled empty ->
  sy_tx s = tdesc_phys (sy_e s) + sizeof_bd * i -> rd (tdesc (sy_e s)) i = Some d -> tx_owned d = false ->
  inv v0 (s <| sy_e := raw_writel 0 REG_TSDR (sy_e s) |>) past gone sent owned free seen filled empty.
Proof.
  intros Hi Hhw Hrd Ho; destruct (tx_at_engine _ _ _ _ _ _ _ (i_tx _ _ _ _ _ _ _ _ _ _ Hi) Hhw Hrd) as [_ Hcell].
  apply same_net; try done; intros Hne; destruct owned as [|[x data] owned]; [done|]; destruct Hcell; congruence.
Qed.

(** The receive descriptor at the engine's place. *)
Lemma rx_at_engine hw e filled empty i d :
  rx_ring hw e filled empty -> hw = rdesc_phys e + sizeof_bd * i -> rd (rdesc e) i = Some d -> rx_owned d = true ->
  i = ring (cur_rx e) (zlen filled) /\ 0 <= zlen filled < 32 /\ exists s empty', empty = s :: empty' /\ r_buffer d = skb_addr s.
Proof.
  intros [Hd _ _ _ Hh] Hw Hrd Ho; pose proof Hd as (_ & Hf & Hl & _).
  assert (Hi : i = ring (cur_rx e) (zlen filled)) by (eapply engine_at; by rewrite <- Hw); split; [done|]; subst i.
  unfold rx_cells in Hl; rewrite zlen_app in Hl; unfold zlen in Hl; rewrite !length_map in Hl; pose proof (zlen_nonneg filled).
  destruct empty as [|s empty].
  - exfalso; assert (Hs : zlen filled = 32) by (unfold zlen; simpl in Hl; lia); rewrite Hs, ring_last in Hrd by done; destruct filled as [|[[x st] f] filled]; [done|].
    destruct (cells_at _ _ _ _ 0 (RFilled x st f) Hd eq_refl) as (d' & Hrd' & _ & _ & Ho'); congruence.
  - split; [unfold zlen in *; simpl in Hl; lia|]; exists s, empty; split; [done|].
    destruct (cells_at _ _ _ _ (zlen filled) (REmpty s) Hd) as (d' & Hrd' & Hb & _); [|by assert (d' = d) as <- by congruence].
    unfold rx_cells; replace (zlen filled) with (zlen (map filled_cell filled)) by (unfold zlen; by rewrite length_map); apply rd_0.
Qed.

Lemma rx_cells_stored filled s st f empty :
  <[Z.to_nat (zlen filled) := RFilled s st f]> (rx_cells filled (s :: empty)) = rx_cells (filled ++ [(s, st, f)]) empty.
Proof.
  unfold rx_cells; replace (Z.to_nat (zlen filled)) with (length (map filled_cell filled) + 0)%nat by (rewrite length_map, zlen_to_nat; lia).
  rewrite insert_app_r, map_app, <- app_assoc; done.
Qed.

Lemma rx_addrs_stored filled s st f empty : rx_addrs (filled ++ [(s, st, f)]) empty = rx_addrs filled (s :: empty).
Proof. unfold rx_addrs, rx_cells; by rewrite (map_app filled_cell), <- app_assoc, !map_app. Qed.

(** The ring after the engine has stored a frame. *)
Lemma rx_ring_stored hw e d i s st f k ds filled empty H :
  rx_ring hw e filled (s :: empty) -> held (mem_of e) (rx_addrs filled (s :: empty) ++ H) ->
  i = ring (cur_rx e) (zlen filled) -> 0 <= zlen filled < 32 -> rd (rdesc e) i = Some d -> r_buffer d = skb_addr s ->
  Z.land st RX_OWEN_DMA = 0 -> Z.land st 0xFFFF = zlen f ->
  v_mem (net k) = <[skb_addr s := f ++ drop (length f) (default [] (mem_of e !! skb_addr s))]> (mem_of e) ->
  wr (rdesc e) i (d <| r_sl := st |>) = Some ds ->
  rx_ring (r_next d) (e <| rdesc := ds |> <| krn := k |>) (filled ++ [(s, st, f)]) empty.
Proof.
  intros [Hd Hs Hn Hm Hh] [Hnd _] Hi Hl Hrd Hb Hst Hlen Hk Hwr; pose proof Hd as (_ & Hf & _).
  assert (Hdi : rx_desc_is (d <| r_sl := st |>) (RFilled s st f)).
  { split; [done|]; split; [done|]; unfold rx_owned; cbn [r_sl set eta_rxbd]; by rewrite Hst. }
  destruct (cells_set rx_desc_is _ _ _ (zlen filled) _ _ Hd Hl Hdi) as (ds' & Hwr' & Hds); rewrite <- Hi in Hwr'; assert (ds' = ds) as -> by congruence.
  destruct (cells_at _ _ _ _ (zlen filled) (REmpty s) Hs) as (o & Hro & Hoe).
  { unfold rx_cells; replace (zlen filled) with (zlen (map filled_cell filled)) by (unfold zlen; by rewrite length_map); apply rd_0. }
  destruct (cells_set rx_skb_is _ _ _ (zlen filled) o (RFilled s st f) Hs Hl Hoe) as (ss & Hws & Hss); rewrite (wr_same _ _ _ _ Hws Hro) in Hss.
  rewrite rx_cells_stored in Hds, Hss; split; try done.
  - cbn [rdesc rdesc_phys set eta_ether]; intros j x Hx; destruct (decide (j = i)) as [->|Hne].
    + rewrite (rd_wr_eq _ _ _ _ Hwr) in Hx; injection Hx as <-; by apply Hn in Hrd.
    + rewrite (rd_wr_ne _ _ _ _ _ Hwr) in Hx by done; by apply Hn.
  - unfold mem_of at 1; cbn [krn set eta_ether]; rewrite Hk, <- rx_cells_stored; apply Forall_forall; intros c Hc.
    rewrite Forall_forall in Hm; unfold rx_cells in Hm, Hc; replace (Z.to_nat (zlen filled)) with (length (map filled_cell filled) + 0)%nat in Hc by (rewrite length_map, zlen_to_nat; lia).
    rewrite insert_app_r in Hc; cbn [map insert list_insert] in Hc.
    apply NoDup_app in Hnd as (Hnd & _ & _); unfold rx_addrs, rx_cells in Hnd; rewrite map_app in Hnd; apply NoDup_app in Hnd as (_ & Hdis & Hnd).
    cbn [map rx_buf] in Hnd, Hdis; apply NoDup_cons in Hnd as [Hni _].
    assert (Hoth : forall c, c ∈ map filled_cell filled ++ map REmpty empty -> skb_addr (rx_buf c) <> skb_addr s).
    { intros c' Hc' E; apply (inj dma_addr) in E; apply elem_of_app in Hc' as [Hc'|Hc'].
      - apply (Hdis (skb_data s)); [rewrite <- E; by apply (list_elem_of_fmap_2 (fun c => skb_data (rx_buf c))) | by left].
      - apply Hni; rewrite <- E; by apply (list_elem_of_fmap_2 (fun c => skb_data (rx_buf c))). }
    apply elem_of_app in Hc as [Hc|Hc]; [|apply elem_of_cons in Hc as [->|Hc]].
    + apply (rx_mem_agree (mem_of e)); [apply Hm, elem_of_app; by left | apply lookup_insert_ne, not_eq_sym, Hoth, elem_of_app; by left].
    + destruct (Hm (REmpty s)) as [Hl0 _]; [apply elem_of_app; right; by left|]; split; [done|]; eexists; split; [apply lookup_insert_eq|].
      split; [apply take_app_length | done].
    + apply (rx_mem_agree (mem_of e)); [apply Hm, elem_of_app; right; by right | apply lookup_insert_ne, not_eq_sym, Hoth, elem_of_app; by right].
  - cbn [rdesc_phys cur_rx set eta_ether]; rewrite (Hn _ _ Hrd), Hi, ring_step, zlen_app by lia; done.
Qed.

Lemma store_step v0 s i d st f k ds past gone sent owned free seen filled empty :
  inv v0 s past gone sent owned free seen filled empty ->
  sy_rx s = rdesc_phys (sy_e s) + sizeof_bd * i -> rd (rdesc (sy_e s)) i = Some d -> rx_owned d = true ->
  Z.land st RX_OWEN_DMA = 0 -> Z.land st 0xFFFF = zlen f ->
  net k = (net (krn (sy_e s))) <| v_mem := <[r_buffer d := f ++ drop (length f) (default [] (mem_of (sy_e s) !! r_buffer d))]> (mem_of (sy_e s)) |> ->
  wr (rdesc (sy_e s)) i (d <| r_sl := st |>) = Some ds ->
  exists filled' empty', inv v0 (s <| sy_e := (sy_e s) <| rdesc := ds |> <| krn := k |> |> <| sy_rx := r_next d |> <| sy_air := sy_air s ++ [(st, f)] |>)
    past gone sent owned free seen filled' empty'.
Proof.
  intros [Htx Hrx Hh Hq Hp Hf Hw Ha Hg Hr Hs] Hhw Hrd Ho Hst Hlen Hk Hwr.
  destruct (rx_at_engine _ _ _ _ _ _ Hrx Hhw Hrd Ho) as (Hi & Hl & x & empty' & -> & Hb); rewrite Hb in Hk.
  assert (Hmk : v_mem (net k) = <[skb_addr x := f ++ drop (length f) (default [] (mem_of (sy_e s) !! skb_addr x))]> (mem_of (sy_e s))) by (by rewrite Hk).
  exists (filled ++ [(x, st, f)]), empty'; pose proof Hh as [Hnd Hsm].
  split; cbn [sy_e sy_tx sy_rx sy_queue sy_wire sy_air set eta_sys]; try done.
  - apply (tx_ring_same _ (sy_e s)); [done | by split_and! |]; pose proof (tr_mem _ _ _ _ _ Htx) as Hmem; rewrite Forall_forall in Hmem |- *.
    intros p Hp'; unfold mem_of; cbn [krn set eta_ether]; rewrite Hmk, lookup_insert_ne; [by apply Hmem|]; intros E; apply (inj dma_addr) in E.
    apply NoDup_app in Hnd as (_ & Hdis & _); apply (Hdis (skb_data x)).
    + unfold rx_addrs, rx_cells; rewrite map_app; apply elem_of_app; right; by left.
    + rewrite E; unfold tx_addrs; rewrite map_app, map_map; apply elem_of_app; right; by apply (list_elem_of_fmap_2 (fun p => skb_data p.1)).
  - by apply (rx_ring_stored (sy_rx s) (sy_e s) d i x st f k ds filled empty' (tx_addrs sent owned)).
  - split; [by rewrite rx_addrs_stored|]; rewrite rx_addrs_stored; intros a Ha'; unfold mem_of; cbn [krn set eta_ether]; rewrite Hmk.
    destruct (decide (dma_addr a = skb_addr x)) as [->|Hne]; [rewrite lookup_insert_eq; eauto | rewrite lookup_insert_ne by done; by apply Hsm].
  - cbn [krn set eta_ether]; by rewrite Hk.
  - rewrite Ha; unfold air; by rewrite map_app, app_assoc.
  - cbn [krn set eta_ether]; by rewrite Hk.
  - cbn [krn set eta_ether]; by rewrite Hk.
Qed.

(** ** Every step keeps the invariant *)
Definition safe (v0 : net_view) (s : sys) : Prop :=
  exists past gone sent owned free seen filled empty, inv v0 s past gone sent owned free seen filled empty.

Lemma step_safe v0 s s' : safe v0 s -> step s s' -> safe v0 s'.
Proof.
  intros (past & gone & sent & owned & free & seen & filled & empty & Hi) Hst; unfold safe; destruct Hst.
  - destruct (xmit_step _ _ _ _ _ _ _ _ _ _ _ _ Hi H0 H1 H2) as (r' & e1 & owned' & free' & E & Hi'); assert (r' = r /\ e1 = e') as [-> ->] by (split; congruence); eauto 10.
  - destruct (tx_irq_step _ _ _ _ _ _ _ _ _ _ _ Hi H) as (e1 & E & Hi'); assert (e1 = e') as -> by congruence; eauto 10.
  - eauto 10 using rx_irq_step.
  - destruct (poll_step _ _ budget _ _ _ _ _ _ _ _ Hi) as (n' & e1 & seen' & filled' & empty' & E & Hi' & _); assert (e1 = e') as -> by congruence; eauto 10.
  - eauto 10 using link_step.
  - eauto 10 using kernel_step.
  - destruct (send_step _ _ _ _ st ds _ _ _ _ _ _ _ _ Hi H H0 H2 H3) as (past' & sent' & owned' & Hi'); eauto 10.
  - eauto 10 using send_stop_step.
  - destruct (store_step _ _ _ _ _ _ _ _ _ _ _ _ _ _ _ _ Hi H H0 H1 H2 H3 H4 H5) as (filled' & empty' & Hi'); eauto 10.
Qed.
End Sys.
