(* ===== verification/EmcInit.v ===== *)
(** Opening the Ethernet interface: the rings that [nuc970_init_desc] builds
    satisfy the invariant, and the registers point the engine at them. *)
From S2P Require Import Prelude Emc EmcSpec EmcSys.

Section Init.
  Context {K : Type} `{!NetOps K, !NetLaws K}.
  Implicit Types e : ether K.

(** ** The receive ring while it is filled *)
Record filling e (empty : list sk_buff) : Prop := {
  fi_desc : zlen (rdesc e) = 32;
  fi_skb : zlen (rx_skb e) = 32;
  fi_cells : forall j s, rd empty j = Some s ->
    rd (rx_skb e) j = Some (Some s) /\ skb_len s = 0 /\
    exists d, rd (rdesc e) j = Some d /\ r_buffer d = skb_addr s /\ rx_owned d = true /\ r_next d = rdesc_phys e + 16 * ring j 1;
  fi_held : held (mem_of e) (map skb_data empty);
}.

Lemma rx_next_ring phys i : 0 <= i < 32 -> 0 <= phys -> phys + 512 <= 4294967296 -> rx_next phys i = phys + 16 * ring i 1.
Proof.
  intros Hi Hp Hq; unfold rx_next, ring, RX_DESC_SIZE, sizeof_bd; repeat zcase; rewrite ?u32_id by lia; try lia.
Qed.

Lemma rd_app_last {A} (l : list A) x j y : rd (l ++ [x]) j = Some y -> (rd l j = Some y) \/ (j = zlen l /\ y = x).
Proof.
  intros [Hj H]%rd_Some; apply lookup_app_Some in H as [H|[Hl H]]; [left; by apply rd_Some|right].
  apply list_lookup_singleton_Some in H as [H ->]; split; [unfold zlen; lia | done].
Qed.

(** One descriptor gets its buffer. *)
Lemma filling_one e empty s i d k :
  filling e empty -> zlen empty = i -> i < 32 -> 0 <= rdesc_phys e -> rdesc_phys e + 512 <= 4294967296 -> skb_len s = 0 ->
  mem_of e !! skb_addr s = None -> (exists b, v_mem (net k) = <[skb_addr s := b]> (mem_of e)) ->
  r_next d = rx_next (rdesc_phys e) i -> r_sl d = RX_OWEN_DMA -> r_buffer d = skb_addr s ->
  filling (e <| krn := k |> <| rdesc := <[Z.to_nat i := d]> (rdesc e) |> <| rx_skb := <[Z.to_nat i := Some s]> (rx_skb e) |>) (empty ++ [s]).
Proof.
  intros [Hd Hs Hc [Hnd Hh]] Hl Hi Hp Hq Hsl Hn [b Hk] Hnx Hdl Hb; pose proof (zlen_nonneg empty).
  assert (Hwd := wr_in (rdesc e) i d ltac:(lia)); assert (Hws := wr_in (rx_skb e) i (Some s) ltac:(lia)).
  split; cbn [rdesc rx_skb rdesc_phys set eta_ether]; rewrite ?zlen_insert; try done.
  - intros j x Hj; apply rd_app_last in Hj as [Hj|[-> ->]].
    + pose proof (rd_range _ _ _ Hj); rewrite (rd_wr_ne _ _ _ _ _ Hwd), (rd_wr_ne _ _ _ _ _ Hws) by lia; by apply Hc.
    + rewrite Hl, (rd_wr_eq _ _ _ _ Hwd), (rd_wr_eq _ _ _ _ Hws); split; [done|]; split; [done|]; exists d; split; [done|].
      split; [done|]; split; [unfold rx_owned; by rewrite Hdl|]; rewrite Hnx; apply rx_next_ring; lia.
  - rewrite map_app; unfold mem_of; cbn [krn set eta_ether]; rewrite Hk; split.
    + apply NoDup_app; split; [done|]; split; [|apply NoDup_singleton]; intros a Ha Hin; apply list_elem_of_singleton in Hin as ->.
      destruct (Hh _ Ha) as [x Hx]; unfold skb_addr in Hn; congruence.
    + intros a Ha; destruct (decide (dma_addr a = skb_addr s)) as [->|Hne]; [rewrite lookup_insert_eq; eauto|].
      rewrite lookup_insert_ne by done; apply elem_of_app in Ha as [Ha|Ha]; [by apply Hh|]; apply list_elem_of_singleton in Ha as ->; done.
Qed.

Lemma get_new_skb_spec i e d :
  rd (rdesc e) i = Some d -> zlen (rx_skb e) = zlen (rdesc e) ->
  get_new_skb i e = Some (match dev_alloc_skb 2048 (krn e) with
    | (None, k) => (false, e <| krn := k |>)
    | (Some s, k) => (true, e <| krn := k |> <| rdesc := <[Z.to_nat i := d <| r_buffer := skb_addr s |>]> (rdesc e) |>
                              <| rx_skb := <[Z.to_nat i := Some s]> (rx_skb e) |>)
    end).
Proof.
  intros Hd Hl; pose proof (rd_range _ _ _ Hd) as Hr; unfold get_new_skb; destruct (dev_alloc_skb 2048 (krn e)) as [[s|] k]; [|done].
  cbn [rdesc rx_skb krn set eta_ether]; rewrite Hd, bind_ok, map_law, (wr_in (rdesc e)), bind_ok, (wr_in (rx_skb e)), bind_ok by lia; done.
Qed.

(** What the loop leaves alone. *)
Definition init_same e e' : Prop :=
  same_tx e e' /\ rdesc_phys e' = rdesc_phys e /\ start_tx_ptr e' = start_tx_ptr e /\ regs e' = regs e.

Lemma init_rx_spec n e i empty r e' :
  init_rx n i e = Some (r, e') -> zlen empty = i -> i + Z.of_nat n = 32 -> filling e empty ->
  0 <= rdesc_phys e -> rdesc_phys e + 512 <= 4294967296 -> rdesc e' <> [] ->
  exists empty', zlen empty' = 32 /\ filling e' empty' /\ init_same e e' /\ start_rx_ptr e' = rdesc_phys e.
Proof.
  revert e i empty; induction n as [|n IH]; intros e i empty H Hl Hn Hf Hp Hq Hne; cbn [init_rx] in H.
  - injection H as _ <-; exists empty; split; [lia|]; split; [destruct Hf; by split|]; split; [by split_and! | done].
  - pose proof Hf as [Hd Hs Hc Hh]; pose proof (zlen_nonneg empty); bind_inv H.
    rename x into d, x0 into ds; destruct x1 as [ok e1].
    pose proof (rd_wr_eq _ _ _ _ E0) as Hrd'; change (rd ds i) with (rd (rdesc (e <| rdesc := ds |>)) i) in Hrd'.
    rewrite (get_new_skb_spec i _ _ Hrd') in E1 by (cbn [rdesc rx_skb set eta_ether]; rewrite (wr_len _ _ _ _ E0); lia).
    cbn [krn rdesc rx_skb set eta_ether] in E1; destruct (dev_alloc_skb 2048 (krn e)) as [[s|] k] eqn:Ha; injection E1 as <- <-.
    + destruct (alloc_law 2048 (krn e) s) as (Hsl & Hnone & b & Hk); [by rewrite Ha|]; rewrite Ha in Hk; cbn [snd] in Hk.
      apply wr_Some in E0 as [_ ->]; rewrite list_insert_insert_eq in H.
      eapply (IH _ (i + 1) (empty ++ [s])) in H; [| rewrite zlen_app; change (zlen [s]) with 1; lia | lia
        | apply (filling_one e empty s i _ k); try done; [lia | exists b; by rewrite Hk] | done | done | done].
      destruct H as (empty' & Hl' & Hf' & (Stx & Ep & Et & Er) & Es); exists empty'; split; [done|]; split; [done|]; split; [by split_and! | done].
    + destruct (i =? 0); [injection H as _ <-; by destruct Hne | done].
Qed.

(** The full ring. *)
Lemma filling_ring e empty :
  filling e empty -> zlen empty = 32 -> cur_rx e = 0 -> (forall i d, rd (rdesc e) i = Some d -> 0 <= i < 32) ->
  rx_ring (rdesc_phys e) e [] empty /\ held (mem_of e) (rx_addrs [] empty).
Proof.
  intros [Hd Hs Hc Hh] Hl Hcur Hr; assert (Hring : forall j, 0 <= j < 32 -> ring 0 j = j) by (intros; unfold ring; zcase; lia).
  assert (Hcell : forall j c, rd (rx_cells [] empty) j = Some c -> exists s, c = REmpty s /\ rd empty j = Some s /\ 0 <= j < 32).
  { intros j c Hj; unfold rx_cells in Hj; cbn [map app] in Hj; pose proof (rd_range _ _ _ Hj) as Hrj.
    apply rd_Some in Hj as [? Hj]; apply list_lookup_fmap_Some in Hj as (s & -> & Hj); exists s; split; [done|]; split; [by apply rd_Some|].
    unfold zlen in Hrj, Hl; rewrite length_map in Hrj; lia. }
  assert (Hlc : zlen (rx_cells [] empty) = 32) by (unfold rx_cells, zlen in *; cbn [map app]; by rewrite length_map).
  split; [split|].
  - rewrite Hcur; split_and!; try done; intros j c Hj; destruct (Hcell j c Hj) as (s & -> & Hj' & Hr'); destruct (Hc j s Hj') as (_ & _ & d & Hrd & Hb & Ho & _).
    exists d; by rewrite Hring.
  - rewrite Hcur; split_and!; try done; intros j c Hj; destruct (Hcell j c Hj) as (s & -> & Hj' & Hr'); destruct (Hc j s Hj') as (Hrs & _ & _).
    exists (Some s); by rewrite Hring.
  - intros i d Hrd; pose proof (Hr i d Hrd) as Hi; destruct (rd_in empty i ltac:(lia)) as [s Hsi]; destruct (Hc i s Hsi) as (_ & _ & d' & Hrd' & _ & _ & Hn).
    assert (d' = d) as <- by congruence; done.
  - apply Forall_forall; intros c Hin; apply list_elem_of_lookup in Hin as [j Hj].
    destruct (Hcell (Z.of_nat j) c) as (s & -> & Hj' & _); [apply rd_Some; split; [lia|]; by rewrite Nat2Z.id|].
    destruct (Hc _ _ Hj') as (_ & Hsl & _); split; [done|]; apply Hh, (list_elem_of_fmap_2 skb_data); apply rd_Some in Hj' as [_ Hj']; by eapply list_elem_of_lookup_2.
  - rewrite Hcur, Hring by (unfold zlen; simpl; lia); change (zlen []) with 0; lia.
  - unfold rx_addrs, rx_cells; cbn [map app]; rewrite map_map; exact Hh.
Qed.

(** The transmit ring as it is built. *)
Lemma rd_seq {A} (f : Z -> A) n j : 0 <= j < n -> rd (map f (seqZ 0 n)) j = Some (f j).
Proof.
  intros Hj; apply rd_Some; split; [lia|]; rewrite (list_lookup_fmap f), lookup_seqZ_lt by lia; cbn; do 2 f_equal; lia.
Qed.

Lemma tx_next_ring phys i : 0 <= i < 32 -> 0 <= phys -> phys + 512 <= 4294967296 -> t_next (tx_desc_init phys i) = phys + 16 * ring i 1.
Proof. exact (rx_next_ring phys i). Qed.

Lemma empty_ring e tp :
  tdesc e = map (tx_desc_init tp) (seqZ 0 TX_DESC_SIZE) -> tx_skb e = replicate (Z.to_nat TX_DESC_SIZE) None -> cur_tx e = 0 -> finish_tx e = 0 ->
  tdesc_phys e = tp -> 0 <= tp -> tp + 512 <= 4294967296 -> tx_ring tp e [] [] 32.
Proof.
  intros Hd Hs Hc Hf Hp Hl Hh; assert (Hring : forall j, 0 <= j < 32 -> ring 0 j = j) by (intros; unfold ring; zcase; lia).
  assert (Hcell : forall j c, rd (tx_cells [] [] 32) j = Some c -> c = TFree /\ 0 <= j < 32).
  { intros j c Hj; pose proof (rd_range _ _ _ Hj); apply rd_Some in Hj as [_ Hj]; apply lookup_replicate in Hj as [-> _]; done. }
  assert (Hdl : zlen (tdesc e) = 32) by (rewrite Hd; reflexivity).
  split; rewrite ?Hf, ?Hc; try done.
  - split_and!; try done; intros j c Hj; destruct (Hcell j c Hj) as [-> Hr]; exists (tx_desc_init tp j); rewrite Hring, Hd, rd_seq by done; done.
  - split_and!; try done; [by rewrite Hs|]; intros j c Hj; destruct (Hcell j c Hj) as [-> Hr]; exists None; rewrite Hring, Hs by done; split; [|done].
    apply rd_Some; split; [lia|]; apply lookup_replicate_2; unfold TX_DESC_SIZE; lia.
  - intros i d Hi; pose proof (rd_range _ _ _ Hi) as Hri; rewrite Hd, rd_seq in Hi by (rewrite Hdl in Hri; exact Hri); injection Hi as <-.
    rewrite Hp; apply tx_next_ring; lia.
  - rewrite Hring by (unfold zlen; simpl; lia); change (zlen []) with 0; lia.
Qed.

(** ** Both rings *)
Record built e : Prop := {
  b_tp : 0 <= tdesc_phys e /\ tdesc_phys e + 512 <= 4294967296;
  b_rp : 0 <= rdesc_phys e /\ rdesc_phys e + 512 <= 4294967296;
  b_tdesc : tdesc e = map (tx_desc_init (tdesc_phys e)) (seqZ 0 TX_DESC_SIZE);
  b_tskb : tx_skb e = replicate (Z.to_nat TX_DESC_SIZE) None;
  b_tptr : start_tx_ptr e = tdesc_phys e;
  b_rptr : start_rx_ptr e = rdesc_phys e;
  b_rx : exists empty, zlen empty = 32 /\ filling e empty;
}.

Lemma init_desc_built e r e' :
  nuc970_init_desc e = Some (r, e') -> zlen (rx_skb e) = RX_DESC_SIZE -> zlen (rdesc e') = RX_DESC_SIZE -> zlen (tdesc e') = TX_DESC_SIZE -> built e'.
Proof.
  intros H Hs Hr' Ht'; unfold nuc970_init_desc in H; pose proof (coherent_addr (sizeof_bd * TX_DESC_SIZE) (krn e)) as Ha1.
  destruct (dma_alloc_coherent (sizeof_bd * TX_DESC_SIZE) (krn e)) as [[tp|] k1]; [|injection H as _ <-; assert (0 = 32) by exact Ht'; lia].
  change (krn (e <| krn := k1 |>)) with k1 in H; pose proof (coherent_addr (sizeof_bd * RX_DESC_SIZE) k1) as Ha2.
  destruct (dma_alloc_coherent (sizeof_bd * RX_DESC_SIZE) k1) as [[rp|] k2]; [|injection H as _ <-; assert (0 = 32) by exact Ht'; lia].
  destruct (Ha1 tp eq_refl) as [Ht1 Ht2]; destruct (Ha2 rp eq_refl) as [Hr1 Hr2].
  assert (Hne : rdesc e' <> []) by (intros E; rewrite E in Hr'; done).
  match type of H with init_rx _ _ ?x = _ => set (e1 := x) in H end.
  assert (H1 : tdesc e1 = map (tx_desc_init tp) (seqZ 0 TX_DESC_SIZE) /\ tx_skb e1 = replicate (Z.to_nat TX_DESC_SIZE) None /\
    tdesc_phys e1 = tp /\ rdesc_phys e1 = rp /\ start_tx_ptr e1 = tp /\ rdesc e1 = replicate (Z.to_nat RX_DESC_SIZE) (mk_rxbd 0 0 0 0) /\ rx_skb e1 = rx_skb e)
    by (split_and!; reflexivity).
  destruct H1 as (Q1 & Q2 & Q3 & Q4 & Q5 & Q6 & Q7); clearbody e1; change (sizeof_bd * _) with 512 in *.
  apply (init_rx_spec _ _ _ []) in H; [|done | done | | lia | lia | done].
  - destruct H as (empty & Hl & Hf & ((E1 & E2 & _ & _ & E5) & Ep & Es & _) & Er).
    split; rewrite ?E1, ?E2, ?E5, ?Ep, ?Es, ?Er, ?Q3, ?Q4, ?Q5; try done; by exists empty.
  - split; [by rewrite Q6 | by rewrite Q7 | by intros j s Hj; apply rd_Some in Hj as [_ Hj] | split; [constructor | by intros a Ha%elem_of_nil]].
Qed.

(** What the rest of the set-up leaves alone, once the rings are built. *)
Definition keeps e e' : Prop :=
  same_tx e e' /\ same_rx e e' /\ mem_of e' = mem_of e /\ start_tx_ptr e' = start_tx_ptr e /\ start_rx_ptr e' = start_rx_ptr e.

#[export] Instance keeps_preorder : PreOrder keeps.
Proof. split; [by intros e; split_and!|]; intros a b c (?&?&?&?&?) (?&?&?&?&?); split_and!; try congruence; etransitivity; eassumption. Qed.

Lemma keeps_writel v a e : keeps e (raw_writel v a e).
Proof. by split_and!. Qed.

Lemma keeps_kdo f e : v_mem (net (f (krn e))) = mem_of e -> keeps e (kdo f e).
Proof. intros H; by split_and!. Qed.

(** The registers of the engine's first descriptors. *)
Definition points e : Prop := raw_readl REG_TXDLSA e = u32 (start_tx_ptr e) /\ raw_readl REG_RXDLSA e = u32 (start_rx_ptr e).

Lemma points_writel v a e : a <> REG_TXDLSA -> a <> REG_RXDLSA -> points e -> points (raw_writel v a e).
Proof.
  intros H1 H2 [Ht Hr]; split; unfold raw_readl in *; cbn [regs raw_writel set eta_ether]; by rewrite lookup_insert_ne.
Qed.

Lemma curdest_points e : points (nuc970_set_curdest e).
Proof.
  unfold nuc970_set_curdest; split; unfold raw_readl; cbn [regs raw_writel set eta_ether]; [by rewrite lookup_insert_eq|].
  rewrite lookup_insert_ne by done; by rewrite lookup_insert_eq.
Qed.

Lemma enable_cam_keeps e e' : nuc970_enable_cam e = Some e' -> keeps e e' /\ (points e -> points e').
Proof.
  intros H; unfold nuc970_enable_cam, nuc970_write_cam in H; bind_inv H; injection H as <-; bind_inv E; injection E as <-.
  split; [by split_and!|]; intros Hp; repeat (apply points_writel; [done | done|]); exact Hp.
Qed.

(** ** The interface after it was opened *)
Lemma reset_mac_built e0 e :
  nuc970_reset_mac false e0 = Some e -> zlen (rx_skb e0) = RX_DESC_SIZE -> zlen (rdesc e) = RX_DESC_SIZE -> zlen (tdesc e) = TX_DESC_SIZE ->
  built e /\ cur_tx e = 0 /\ finish_tx e = 0 /\ cur_rx e = 0.
Proof.
  intros H Hs Hr Ht; unfold nuc970_reset_mac in H; match type of H with context [ETH_DISABLE_RX ?x] => set (e1 := ETH_DISABLE_RX x) in H end.
  assert (Hs1 : rx_skb e1 = rx_skb e0) by done; clearbody e1; set (e2 := nuc970_set_fifo_threshold _) in H.
  assert (Hs2 : rx_skb e2 = rx_skb e0) by done; clearbody e2; set (e3 := if negb _ then _ else _) in H.
  assert (Hs3 : rx_skb e3 = rx_skb e0) by (unfold e3; by destruct (negb _)); clearbody e3; rewrite bind_ok in H.
  bind_inv H; destruct x as [r e4]; apply bind_Some in H as (e5 & Hcam & H).
  destruct (enable_cam_keeps _ _ Hcam) as [Hk5 _].
  set (e6 := (e4 <| cur_tx := 0 |> <| finish_tx := 0 |> <| cur_rx := 0 |>)) in *.
  assert (Hk : keeps e6 e).
  { transitivity e5; [transitivity (nuc970_set_curdest e6); [by split_and! | exact Hk5]|]; injection H as <-.
    match goal with |- context [ETH_TRIGGER_RX ?x] => set (e7 := ETH_TRIGGER_RX x); assert (Hk7 : keeps e5 e7) by (by split_and!); clearbody e7 end.
    destruct (netif_queue_stopped _); [|exact Hk7]; transitivity e7; [exact Hk7|]; apply keeps_kdo; by rewrite wake_law. }
  destruct Hk as ((K1 & K2 & K3 & K4 & K5) & (K6 & K7 & K8 & K9) & Km & Kt & Kr).
  destruct (init_desc_built _ _ _ E ltac:(by rewrite Hs3)) as [B1 B2 B3 B4 B5 B6 (empty & Hl & [F1 F2 F3 F4])];
    [change (rdesc e4) with (rdesc e6); by rewrite <- K6 | change (tdesc e4) with (tdesc e6); by rewrite <- K1|].
  split; [|by rewrite K3, K4, K8]; split; rewrite ?K1, ?K2, ?K5, ?K9, ?Kt, ?Kr; try done; exists empty; split; [done|].
  split; rewrite ?K6, ?K7, ?K9, ?Km; done.
Qed.

Lemma built_keeps e e' : built e -> keeps e e' -> built e'.
Proof.
  intros [B1 B2 B3 B4 B5 B6 (empty & Hl & [F1 F2 F3 F4])] ((K1 & K2 & _ & _ & K5) & (K6 & K7 & _ & K9) & Km & Kt & Kr).
  split; rewrite ?K1, ?K2, ?K5, ?K9, ?Kt, ?Kr; try done; exists empty; split; [done|]; split; rewrite ?K6, ?K7, ?K9, ?Km; done.
Qed.

Lemma opened_built e : opened e ->
  built e /\ cur_tx e = 0 /\ finish_tx e = 0 /\ cur_rx e = 0 /\ points e /\ v_stopped (net (krn e)) = false.
Proof.
  intros (e0 & H & Hs & Hr & Ht); unfold nuc970_ether_open in H; bind_inv H; rename x into e1, x0 into e2.
  destruct (enable_cam_keeps _ _ E0) as [Hk2 Hp2].
  assert (Hk12 : keeps e1 e2) by (transitivity (nuc970_set_curdest (nuc970_set_fifo_threshold e1)); [by split_and! | exact Hk2]).
  specialize (Hp2 (curdest_points _)); match type of H with context [ETH_ENABLE_RX ?x] => set (e3 := ETH_ENABLE_RX x) in H end.
  assert (Hk3 : keeps e2 e3) by (by split_and!); assert (Hp3 : points e3) by (do 4 (apply points_writel; [done | done|]); exact Hp2); clearbody e3.
  pose proof (irq_laws (txirq e3) (krn e3)) as [Hi1 _]; destruct (request_irq (txirq e3) (krn e3)) as [[] k1]; [done|].
  match type of H with context [request_irq (rxirq ?x) (krn ?x)] => set (e4 := x) in H; assert (Hk4 : keeps e3 e4)
    by (split_and!; try done; unfold mem_of; change (krn e4) with k1; cbn [snd] in Hi1; by rewrite Hi1); assert (Hp4 : points e4) by exact Hp3; clearbody e4 end.
  pose proof (irq_laws (rxirq e4) (krn e4)) as [Hi2 _]; destruct (request_irq (rxirq e4) (krn e4)) as [[] k2]; [done|]; cbn [snd] in Hi2.
  injection H as H.
  assert (Hnet : net (krn e) = (net (krn e4)) <| v_stopped := false |>).
  { rewrite <- H; cbn [krn ETH_TRIGGER_RX raw_writel kdo set eta_ether].
    destruct (napi_laws (netif_start_queue (phy_start k2))) as (_ & _ & -> & _); rewrite start_law; destruct (phy_laws k2) as [-> _]; by rewrite Hi2. }
  assert (Hk5 : keeps e4 e) by (split_and!; try (by rewrite <- H); unfold mem_of; rewrite Hnet; done).
  assert (Hp5 : points e) by (rewrite <- H; apply points_writel; [done | done | exact Hp4]).
  assert (Hke : keeps e1 e) by (transitivity e2; [done|]; transitivity e3; [done|]; by transitivity e4); clear H.
  pose proof Hke as ((K1 & K2 & K3 & K4 & _) & (K6 & _ & K8 & _) & _).
  destruct (reset_mac_built _ _ E Hs) as (Hb & C1 & C2 & C3); [by rewrite <- K6 | by rewrite <- K1|].
  split; [by apply (built_keeps e1)|]; rewrite K3, K4, K8, Hnet; done.
Qed.

Lemma opened_safe e : opened e -> safe (net (krn e)) (start e).
Proof.
  intros Ho; destruct (opened_built e Ho) as ([B1 B2 B3 B4 B5 B6 (empty & Hl & Hf)] & C1 & C2 & C3 & [P1 P2] & Hst).
  assert (Hrd : forall i d, rd (rdesc e) i = Some d -> 0 <= i < 32) by (intros i d Hi; rewrite <- (fi_desc _ _ Hf); by eapply rd_range).
  destruct (filling_ring e empty Hf Hl C3 Hrd) as [Hrx Hh].
  exists [], [], [], [], 32%nat, [], [], empty; split; cbn [start sy_e sy_tx sy_rx sy_queue sy_wire sy_air]; try done.
  - rewrite P1, B5, u32_id by lia; apply empty_ring; done || lia.
  - by rewrite P2, B6, u32_id by lia.
  - by rewrite app_nil_r.
  - by rewrite app_nil_r.
  - unfold good_air; by rewrite app_nil_r.
  - by rewrite Hst.
Qed.
End Init.
