(* ===== verification/EmcMain.v ===== *)
(** The theorems on the Ethernet driver: over every run of the driver, the
    network core and the DMA engine from an opened interface on; what goes wrong
    when an interrupt comes at the wrong time; and the address parser. *)
From S2P Require Import Prelude Emc EmcSpec EmcSys EmcInit.

Section Main.
  Context {K : Type} `{!NetOps K, !NetLaws K}.
  Implicit Types e : ether K.

(** A state of the system that an opened interface can come to. *)
Definition reaches e (s : sys) : Prop := opened e /\ rtc step (start e) s.

Lemma reaches_safe e s : reaches e s -> safe (net (krn e)) s.
Proof.
  intros [Ho Hr]; pose proof (opened_safe e Ho) as Hs; induction Hr as [|a b c Hab _ IH]; [done|]; by apply IH, (step_safe _ a).
Qed.

(** C5: frames in order, once, unchanged. Whatever the order in which the network
    core hands over frames, the engine sends and stores frames, interrupts come,
    frames are polled and the link changes (without bus errors, and each frame
    handed over when the buffer before it in its slot was freed): what has gone out are the first of the
    frames taken, in their order and with their bytes; a buffer is freed only
    after its frame was sent, each once and in order; what was passed up are the
    good ones of the frames that came in, in their order and with their bytes, up
    to those still in the ring; while frames wait the engine is started, and a
    stopped queue has a frame in the ring whose interrupt will wake it. *)
Theorem emc_in_order e s :
  reaches e s ->
  exists past waiting gone seen stored,
    sy_queue s = past ++ waiting /\ sy_wire s = map wire_frame past /\
    v_freed (net (krn (sy_e s))) = v_freed (net (krn e)) ++ gone /\ gone `prefix_of` map fst past /\
    sy_air s = seen ++ stored /\ v_given (net (krn (sy_e s))) = v_given (net (krn e)) ++ good_air seen /\
    (waiting <> [] -> regs (sy_e s) !! REG_TSDR = Some ENSTART) /\
    (v_stopped (net (krn (sy_e s))) = true -> zlen gone < zlen (sy_queue s)).
Proof.
  intros H; destruct (reaches_safe _ _ H) as (past & gone & sent & owned & free & seen & filled & empty & [Htx Hrx Hh Hq Hp Hf Hw Ha Hg Hr Hs]).
  exists past, owned, gone, seen, (air filled); split_and!; try done; [rewrite Hp; by exists sent|].
  intros Hst; rewrite Hq, zlen_app; assert (Hl : zlen past = zlen gone + zlen sent) by (rewrite <- zlen_app, <- Hp; unfold zlen; by rewrite length_map).
  pose proof (zlen_nonneg sent); pose proof (zlen_nonneg owned); destruct (Hs Hst) as [Hne|Hne]; apply zlen_pos in Hne; lia.
Qed.

(** C6: no undefined behaviour. In every state that an opened interface can come
    to, the transmission of a buffer that the driver does not hold, both
    interrupt handlers without a bus error, and the poll function with any
    budget access their rings and arrays within bounds, and their loops end. *)
Theorem emc_defined e s skb data mista budget :
  reaches e s -> mem_of (sy_e s) !! skb_addr skb = Some data ->
  (forall x, Some x ∈ tx_skb (sy_e s) ++ rx_skb (sy_e s) -> skb_data x <> skb_data skb) -> reclaimed (sy_e s) ->
  Z.land mista MISTA_TXBERR = 0 -> Z.land mista MISTA_RXBERR = 0 ->
  is_Some (nuc970_ether_start_xmit skb (sy_e s)) /\ is_Some (nuc970_tx_interrupt mista (sy_e s)) /\
  is_Some (nuc970_rx_interrupt mista (sy_e s)) /\ is_Some (nuc970_poll budget (sy_e s)).
Proof.
  intros H Hm Hnew Hrec Ht Hr; destruct (reaches_safe _ _ H) as (past & gone & sent & owned & free & seen & filled & empty & Hi).
  destruct (xmit_step _ _ _ _ _ _ _ _ _ _ _ _ Hi Hm Hnew Hrec) as (r & e1 & _ & _ & Hx & _).
  destruct (tx_irq_step _ _ _ _ _ _ _ _ _ _ _ Hi Ht) as (e2 & Hx2 & _); destruct (rx_irq_defined mista (sy_e s) Hr) as (e3 & Hx3 & _).
  destruct (poll_step _ _ budget _ _ _ _ _ _ _ _ Hi) as (n & e4 & _ & _ & _ & Hx4 & _); split_and!; eauto.
Qed.

(** C27: polling. With memory at hand, the poll function takes frames off the ring
    in their order and passes up the good ones, as many as the budget allows; it
    returns their number; and when it returns less than the budget no frame is
    left and the receive interrupt is on again. *)
Theorem emc_poll_takes e s budget :
  reaches e s -> (forall k, (dev_alloc_skb 2048 k).1 <> None) -> 0 <= budget ->
  exists n e' seen got rest, nuc970_poll budget (sy_e s) = Some (n, e') /\
    sy_air s = seen ++ got ++ rest /\ v_given (net (krn (sy_e s))) = v_given (net (krn e)) ++ good_air seen /\
    v_given (net (krn e')) = v_given (net (krn e)) ++ good_air (seen ++ got) /\
    n = zlen (good_air got) /\ n <= budget /\
    (n < budget -> rest = [] /\ Z.testbit (raw_readl REG_MIEN e') 0 = true).
Proof.
  intros H Hmem Hb; destruct (reaches_safe _ _ H) as (past & gone & sent & owned & free & seen & filled & empty & [Htx Hrx Hh Hq Hp Hf Hw Ha Hg Hr Hs]).
  assert (Hlen : (length filled < S (Z.to_nat RX_DESC_SIZE))%nat).
  { destruct Hrx as [(_ & _ & Hl & _) _ _ _ _]; unfold rx_cells in Hl; rewrite zlen_app in Hl; unfold zlen, RX_DESC_SIZE in *; rewrite !length_map in Hl; lia. }
  unfold nuc970_poll; destruct (poll_loop_total filled _ (sy_e s) empty (tx_addrs sent owned) _ budget 0 Hrx Hh Hlen)
    as (x & cnt & e1 & got & lft & empty' & -> & -> & Hrx1 & Hh1 & He & Hcnt & Hx & Hx' & Hx'' & Hle); rewrite bind_ok.
  destruct (poll_end x e1) as (_ & _ & Hk & _).
  exists cnt, (poll_finish x e1), seen, (air got), (air lft); split; [done|]; split; [rewrite Ha; unfold air; by rewrite map_app|]; split; [done|].
  split; [rewrite Hk, (re_given _ _ _ _ He), Hg, good_air_app, good_air_filled, app_assoc; done|].
  rewrite good_air_filled; split; [lia|]; split; [lia|]; intros Hlt; destruct x.
  - specialize (Hx' eq_refl); lia.
  - rewrite Hx by done; split; [done|]; unfold poll_finish, ETH_TRIGGER_RX, raw_readl; cbn [regs raw_writel set eta_ether].
    rewrite lookup_insert_ne, lookup_insert_eq by done; cbn [default from_option id]; unfold u32.
    change 4294967296 with (2 ^ 32); rewrite Z.mod_pow2_bits_low, Z.lor_spec by lia; change (Z.testbit ENRXINTR 0) with true; apply orb_true_r.
  - destruct (Hx'' eq_refl) as [k Hk']; by apply Hmem in Hk'.
Qed.

(** ** What goes wrong *)

(** A descriptor that was filled and not handed over. *)
Definition filled_desc (d : nuc970_txbd) (skb : sk_buff) : nuc970_txbd :=
  mk_txbd (t_mode d) (skb_addr skb) (if 1514 <? skb_len skb then 1514 else skb_len skb) (t_next d).

Lemma xmit_fill_ok skb e d :
  rd (tdesc e) (cur_tx e) = Some d -> zlen (tx_skb e) = zlen (tdesc e) ->
  exists e', xmit_fill skb e = Some e' /\ wr (tdesc e) (cur_tx e) (filled_desc d skb) = Some (tdesc e') /\
    wr (tx_skb e) (cur_tx e) (Some skb) = Some (tx_skb e') /\ cur_tx e' = cur_tx e /\ finish_tx e' = finish_tx e /\ krn e' = krn e.
Proof.
  intros Hd Hl; pose proof (rd_range _ _ _ Hd) as Hr; unfold xmit_fill; pose proof (wr_in (tdesc e) (cur_tx e) (filled_desc d skb) Hr) as Hw.
  pose proof (wr_in (tx_skb e) (cur_tx e) (Some skb) ltac:(lia)) as Hw'; rewrite Hd, bind_ok, map_law, Hw', bind_ok.
  change (d <| t_buffer := dma_addr (skb_data skb) |> <| t_sl := if 1514 <? skb_len skb then 1514 else skb_len skb |>) with (filled_desc d skb).
  rewrite Hw, bind_ok; eexists; split; [reflexivity|]; split; [reflexivity|]; split; [reflexivity | by split_and!].
Qed.

(** Reclaiming with one frame in the ring. *)
Lemma reclaim_turn n e skb d :
  0 <= finish_tx e < zlen (tx_skb e) -> rd (tdesc e) (finish_tx e) = Some d -> tx_owned d = false -> rd (tx_skb e) (finish_tx e) = Some (Some skb) ->
  exists e1, tx_reclaim (S n) e = tx_reclaim n e1 /\ tdesc e1 = tdesc e /\ wr (tx_skb e) (finish_tx e) None = Some (tx_skb e1) /\
    cur_tx e1 = cur_tx e /\ finish_tx e1 = u32 (finish_tx e + 1) mod TX_DESC_SIZE /\
    krn e1 = dev_kfree_skb skb (dma_unmap_single (t_buffer d) (skb_len skb) (krn e)).
Proof.
  intros Hf Hd Ho Hs; pose proof (wr_in (tx_skb e) (finish_tx e) None Hf) as Hw; cbn [tx_reclaim]; rewrite Hd, bind_ok, Ho, Hs, bind_ok.
  match goal with |- context [wr (tx_skb ?x) _ _] => change (wr (tx_skb x) (finish_tx x) None) with (wr (tx_skb e) (finish_tx e) None) end.
  rewrite Hw, bind_ok; eexists; split; [reflexivity|]; by split_and!.
Qed.

Lemma reclaim_filled n e skb d d1 :
  0 <= finish_tx e < 32 -> zlen (tx_skb e) = 32 -> ring (finish_tx e) 1 <> finish_tx e ->
  rd (tdesc e) (finish_tx e) = Some d -> tx_owned d = false -> rd (tx_skb e) (finish_tx e) = Some (Some skb) ->
  rd (tdesc e) (ring (finish_tx e) 1) = Some d1 -> tx_owned d1 = false -> rd (tx_skb e) (ring (finish_tx e) 1) = Some None ->
  exists e', tx_reclaim (S (S n)) e = Some e' /\ tdesc e' = tdesc e /\ cur_tx e' = cur_tx e /\
    krn e' = dev_kfree_skb skb (dma_unmap_single (t_buffer d) (skb_len skb) (krn e)).
Proof.
  intros Hf Hl Hne Hd Ho Hs Hd1 Ho1 Hs1; destruct (reclaim_turn (S n) e skb d ltac:(lia) Hd Ho Hs) as (e1 & -> & T1 & W1 & C1 & F1 & K1).
  rewrite ring_mod in F1 by done; exists e1; split; [|done]; cbn [tx_reclaim]; rewrite T1, F1, Hd1, bind_ok, Ho1, (rd_wr_ne _ _ _ _ _ W1), Hs1, bind_ok by done; done.
Qed.

(** an interrupt in the middle of a transmission. When the transmit interrupt
    comes after [start_xmit] has stored the buffer and before it hands over the
    descriptor, with no other frame in the ring, the handler takes the frame for
    one that was sent: it frees the buffer, and then the engine is told to send it. *)
Theorem emc_tx_race hw e skb :
  tx_ring hw e [] [] 32 ->
  exists e1 e2 e3 d, xmit_fill skb e = Some e1 /\ nuc970_tx_interrupt 0 e1 = Some e2 /\ xmit_give e2 = Some e3 /\
    v_freed (net (krn e3)) = v_freed (net (krn e)) ++ [skb] /\
    rd (tdesc e3) (cur_tx e3) = Some d /\ tx_owned d = true /\ t_buffer d = skb_addr skb /\ mem_of e3 !! t_buffer d = None.
Proof.
  intros [Hd Hs Hc Hn _ _]; pose proof Hd as (Hl & Hf & _ & _); pose proof Hs as (Hl' & _); change (zlen [] + zlen []) with 0 in Hc.
  destruct (cells_at _ _ _ _ 0 TFree Hd eq_refl) as (d0 & Hd0 & Ho0); destruct (cells_at _ _ _ _ 1 TFree Hd eq_refl) as (d1 & Hd1 & Ho1).
  destruct (cells_at _ _ _ _ 1 TFree Hs eq_refl) as (o1 & Ho & Hoe); unfold tx_skb_is in Hoe; subst o1; cbn in Ho0, Ho1.
  assert (Hne : ring (finish_tx e) 0 <> ring (finish_tx e) 1) by (intros E; apply ring_inj in E; lia).
  assert (Hr0 : ring (finish_tx e) 0 = finish_tx e) by (unfold ring; zcase; lia); rewrite Hr0 in *.
  destruct (xmit_fill_ok skb e d0) as (e1 & He1 & Hwd & Hws & Hc1 & Hf1 & Hk1); [by rewrite Hc | lia|]; rewrite Hc in Hwd, Hws.
  exists e1; unfold nuc970_tx_interrupt, nuc970_get_and_clear_int; set (e1' := raw_writel _ REG_MISTA e1).
  destruct (reclaim_filled 31 e1' skb (filled_desc d0 skb) d1) as (e2 & He2 & Hd2 & Hc2 & Hk2); try done.
  { change (finish_tx e1') with (finish_tx e1); by rewrite Hf1. }
  { change (tx_skb e1') with (tx_skb e1); by rewrite (wr_len _ _ _ _ Hws). }
  { change (finish_tx e1') with (finish_tx e1); rewrite Hf1; by apply not_eq_sym. }
  { change (tdesc e1') with (tdesc e1); change (finish_tx e1') with (finish_tx e1); rewrite Hf1; exact (rd_wr_eq _ _ _ _ Hwd). }
  { change (tx_skb e1') with (tx_skb e1); change (finish_tx e1') with (finish_tx e1); rewrite Hf1; exact (rd_wr_eq _ _ _ _ Hws). }
  { change (tdesc e1') with (tdesc e1); change (finish_tx e1') with (finish_tx e1); rewrite Hf1; by rewrite (rd_wr_ne _ _ _ _ _ Hwd). }
  { change (tx_skb e1') with (tx_skb e1); change (finish_tx e1') with (finish_tx e1); rewrite Hf1; by rewrite (rd_wr_ne _ _ _ _ _ Hws). }
  change (S (Z.to_nat TX_DESC_SIZE)) with (S (S 31)); rewrite He2, bind_ok; change (nz (Z.land (Z.land 0 0xFFFF0000) MISTA_EXDEF)) with false; change (nz (Z.land (Z.land 0 0xFFFF0000) MISTA_TXBERR)) with false; cbv iota; rewrite bind_ok.
  set (e3 := if netif_queue_stopped _ then _ else _).
  assert (He3 : tdesc e3 = tdesc e1 /\ cur_tx e3 = cur_tx e /\ v_mem (net (krn e3)) = v_mem (net (krn e2)) /\ v_freed (net (krn e3)) = v_freed (net (krn e2))).
  { unfold e3; change (tdesc e1') with (tdesc e1) in Hd2; change (cur_tx e1') with (cur_tx e1) in Hc2; rewrite Hc1 in Hc2.
    destruct (netif_queue_stopped _); cbn [tdesc cur_tx krn kdo set eta_ether]; rewrite ?wake_law; done. }
  destruct He3 as (T3 & C3 & M3 & F3); exists e3; unfold xmit_give; rewrite T3, C3, Hc, (rd_wr_eq _ _ _ _ Hwd), bind_ok.
  pose proof (wr_len _ _ _ _ Hwd) as Hlw; rewrite wr_in, bind_ok by lia; eexists _, (frame_desc d0 skb); do 3 (split; [done|]).
  change (krn e1') with (krn e1) in Hk2; rewrite Hk1 in Hk2.
  split; [cbn [krn ETH_TRIGGER_TX raw_writel set eta_ether]; rewrite F3, Hk2, kfree_law, unmap_law; done|]; split.
  - cbn [tdesc cur_tx ETH_TRIGGER_TX raw_writel set eta_ether]; rewrite C3, Hc; apply (rd_wr_eq (tdesc e1) (finish_tx e)); by apply wr_in; lia.
  - split; [apply owned_after|]; split; [done|]; unfold mem_of; cbn [krn ETH_TRIGGER_TX raw_writel set eta_ether]; rewrite M3, Hk2, kfree_law, unmap_law.
    apply lookup_delete_eq.
Qed.

(** A buffer is in one place of the ring. *)
Lemma ring_position f i : 0 <= f < 32 -> 0 <= i < 32 -> exists j, 0 <= j < 32 /\ i = ring f j.
Proof. intros Hf Hi; exists (if f <=? i then i - f else i - f + 32); unfold ring; split; repeat zcase; lia. Qed.

Lemma one_place hw e s sent owned free i :
  tx_ring hw e (s :: sent) owned free -> NoDup (tx_addrs (s :: sent) owned) -> 0 <= i < 32 -> rd (tx_skb e) i = Some (Some s) ->
  i = ring (finish_tx e) 0.
Proof.
  intros [_ Hs _ _ _ _] Hnd Hi Hr; pose proof Hs as (_ & Hf & Hcl & Hcells); destruct (ring_position _ i Hf Hi) as (j & Hj & ->); f_equal.
  destruct (rd_in (tx_cells (s :: sent) owned free) j ltac:(lia)) as [c Hc]; destruct (Hcells j c Hc) as (o & Ho & Hoe).
  assert (o = Some s) as -> by congruence; apply NoDup_cons in Hnd as [Hni _]; apply rd_Some in Hc as [_ Hc].
  destruct (Z.to_nat j) as [|n] eqn:En; [lia|]; exfalso; apply Hni; cbn [tx_cells map app lookup list_lookup] in Hc; fold (map TDone) in Hc.
  apply list_elem_of_lookup_2, elem_of_app in Hc as [Hc|Hc].
  - apply list_elem_of_fmap in Hc as (x & -> & Hx); unfold tx_skb_is in Hoe; injection Hoe as <-; apply (list_elem_of_fmap_2 skb_data), elem_of_app; by left.
  - apply elem_of_app in Hc as [Hc|Hc]; [|apply elem_of_replicate in Hc as [-> _]; done].
    apply list_elem_of_fmap in Hc as ([x data] & -> & Hx); unfold tx_skb_is in Hoe; injection Hoe as <-.
    apply (list_elem_of_fmap_2 skb_data), elem_of_app; right; by apply (list_elem_of_fmap_2 fst _ (s, data)).
Qed.

(** a ring that is full of frames of which the first were sent. The driver
    tests only whether the engine has the next descriptor, not whether the buffer
    of the frame before was freed: the next frame takes the place of one that the
    interrupt handler has not seen, whose buffer the driver then neither holds
    nor has freed. *)
Theorem emc_tx_leak hw e s sent owned skb :
  tx_ring hw e (s :: sent) owned 0 -> NoDup (tx_addrs (s :: sent) owned) -> skb_data skb <> skb_data s ->
  exists e', nuc970_ether_start_xmit skb e = Some (NETDEV_TX_OK, e') /\
    Some s ∈ tx_skb e /\ Some s ∉ tx_skb e' /\ v_freed (net (krn e')) = v_freed (net (krn e)) /\ mem_of e' = mem_of e.
Proof.
  intros Hr Hnd Hne; pose proof (tx_cells_len _ _ _ _ _ Hr) as Hlen; pose proof Hr as [Hd Hs Hc Hn _ _]; pose proof Hd as (Hl & Hf & _ & _); pose proof Hs as (Hl' & _ & Hcl & _).
  assert (Hc0 : cur_tx e = ring (finish_tx e) 0) by (rewrite Hc, <- ring_last by done; f_equal; lia).
  destruct (cells_at _ _ _ _ 0 (TDone s) Hd eq_refl) as (d & Hrd & Ho); destruct (cells_at _ _ _ _ 0 (TDone s) Hs eq_refl) as (o & Hro & Hoe).
  cbn in Ho; unfold tx_skb_is in Hoe; subst o; rewrite <- Hc0 in Hrd, Hro.
  destruct (xmit_handover skb e d Hrd ltac:(lia)) as (e1 & Hgive & Hwd & Hws & Hrx & Hc1 & Hf1 & Hp1 & Hk1 & Hg1).
  unfold nuc970_ether_start_xmit; rewrite Hrd, bind_ok, Ho; destruct (xmit_fill skb e) as [e0|]; [|discriminate Hgive].
  change (xmit_give e0 = Some e1) in Hgive; rewrite bind_ok, Hgive, bind_ok; unfold xmit_next.
  rewrite ring_wrap by (rewrite Hc1, Hc0; apply ring_range; lia); set (e2 := e1 <| cur_tx := ring (cur_tx e1) 1 |>).
  destruct (rd_in (tdesc e2) (cur_tx e2)) as [d' Hd'].
  { change (tdesc e2) with (tdesc e1); rewrite (wr_len _ _ _ _ Hwd), Hl; change (cur_tx e2) with (ring (cur_tx e1) 1); rewrite Hc1, Hc0; apply ring_range; [apply ring_range; lia | lia]. }
  rewrite Hd', !bind_ok; set (e3 := if tx_owned d' then _ else _).
  assert (H3 : tx_skb e3 = tx_skb e1 /\ v_freed (net (krn e3)) = v_freed (net (krn e)) /\ mem_of e3 = mem_of e).
  { unfold e3; assert (Hk2 : krn e2 = krn e) by exact Hk1; destruct (tx_owned d'); unfold mem_of; cbn [tx_skb krn kdo set eta_ether]; rewrite ?stop_law, ?Hk2; done. }
  destruct H3 as (T3 & F3 & M3); exists e3; split; [done|]; split; [apply rd_Some in Hro as [_ Hro]; by eapply list_elem_of_lookup_2|].
  split; [|done]; rewrite T3; intros Hin; apply list_elem_of_lookup in Hin as [i Hi].
  assert (Hri : rd (tx_skb e1) (Z.of_nat i) = Some (Some s)) by (apply rd_Some; split; [lia|]; by rewrite Nat2Z.id).
  destruct (decide (cur_tx e = Z.of_nat i)) as [E|Hi']; [rewrite <- E, (rd_wr_eq _ _ _ _ Hws) in Hri; congruence|].
  rewrite (rd_wr_ne _ _ _ _ _ Hws) in Hri by done; pose proof (rd_range _ _ _ Hri) as Hrange; rewrite Hl' in Hrange.
  apply Hi'; rewrite Hc0; symmetry; by apply (one_place hw e s sent owned 0).
Qed.
End Main.

(** ** The address on the command line *)

(** A hexadecimal digit in one of the two cases; an address as it is written, a
    byte with the cases of its digits. *)
Definition hex (up : bool) (v : Z) : Z := if v <? 10 then 0x30 + v else (if up then 0x41 else 0x61) + (v - 10).
Definition mac_byte (x : Z * bool * bool) : list Z := let '(b, u, l) := x in [hex u (b / 16); hex l (b mod 16)].
Fixpoint mac_print (l : list (Z * bool * bool)) : list Z :=
  match l with
  | [] => []
  | [x] => mac_byte x
  | x :: l => mac_byte x ++ 0x3A :: mac_print l
  end.
Definition mac_bytes (l : list (Z * bool * bool)) : list Z := map (fun x => x.1.1) l.
Definition mac_ok (l : list (Z * bool * bool)) : Prop := length l = 6%nat /\ Forall is_u8 (mac_bytes l).

Lemma mac_digit_hex m up v : 0 <= v < 16 -> mac_digit m (hex up v) = Some (u8 (u8 (Z.shiftl m 4) + v)).
Proof.
  intros Hv; unfold mac_digit, hex; destruct (v <? 10) eqn:E; zbool.
  - assert (Hd : isdigit (0x30 + v) = true) by (unfold isdigit; apply andb_true_iff; split; apply Z.leb_le; lia); rewrite Hd; do 2 f_equal; lia.
  - assert (Hc : forall c, isdigit c = false -> isxdigit c = true -> toupper c = 0x41 + (v - 10) ->
      (if isdigit c then Some (u8 (u8 (Z.shiftl m 4) + (c - 0x30))) else if isxdigit c then Some (u8 (u8 (Z.shiftl m 4) + (toupper c - 0x41 + 10))) else None) =
      Some (u8 (u8 (Z.shiftl m 4) + v))) by (intros c -> -> ->; do 2 f_equal; lia).
    apply Hc; unfold isxdigit, isdigit, toupper; destruct up; repeat zcase; try lia; rewrite ?andb_false_iff, ?orb_true_iff, ?andb_true_iff, ?Z.leb_le, ?Z.leb_gt; lia.
Qed.

Lemma mac_digit_inv m c m' : mac_digit m c = Some m' -> exists up v, c = hex up v /\ 0 <= v < 16 /\ m' = u8 (u8 (Z.shiftl m 4) + v).
Proof.
  unfold mac_digit; destruct (isdigit c) eqn:Hd; [|destruct (isxdigit c) eqn:Hx; [|done]]; intros [= <-].
  - unfold isdigit in Hd; zbool; exists true, (c - 0x30); unfold hex; zcase; split_and!; lia || done.
  - unfold isxdigit, isdigit in *; unfold toupper.
    assert (Hc : 0x41 <= c <= 0x46 \/ 0x61 <= c <= 0x66) by (rewrite Hd in Hx; rewrite !orb_true_iff, !andb_true_iff, !Z.leb_le in Hx; lia).
    destruct Hc; [exists true, (c - 0x37) | exists false, (c - 0x57)]; unfold hex; repeat zcase; split_and!; try lia; do 2 f_equal; lia.
Qed.

Lemma mac_value a b : 0 <= a < 16 -> 0 <= b < 16 -> u8 (u8 (Z.shiftl (u8 (u8 (Z.shiftl 0 4) + a)) 4) + b) = 16 * a + b.
Proof.
  intros; change (u8 (Z.shiftl 0 4)) with 0; rewrite Z.add_0_l, Z.shiftl_mul_pow2 by lia; change (2 ^ 4) with 16; unfold u8.
  rewrite (Z.mod_small a), (Z.mod_small (a * 16)), Z.mod_small by lia; lia.
Qed.

Lemma rd_at {A} (pre : list A) x post k : k = zlen pre -> rd (pre ++ x :: post) k = Some x.
Proof. intros ->; apply rd_0. Qed.

(** The loop on the text of the bytes that are left. *)
Lemma mac_loop_print l i mac pre post :
  i + zlen l = 6 -> Forall is_u8 (mac_bytes l) -> 0 <= i ->
  mac_loop (length l) i mac (pre ++ mac_print l ++ post) (zlen pre) = Some (Some (mac ++ mac_bytes l)).
Proof.
  revert i mac pre; induction l as [|[[b u] v] l IH]; intros i mac pre Hi Hb Hp; [by rewrite app_nil_r|].
  apply Forall_cons in Hb as [Hb8 Hb]; cbn [fst] in Hb8; unfold is_u8 in Hb8; rewrite zlen_cons in Hi; pose proof (zlen_nonneg l).
  assert (Hq : 0 <= b / 16 < 16) by (split; [apply Z.div_pos; lia | apply Z.div_lt_upper_bound; lia]).
  pose proof (Z.mod_pos_bound b 16 ltac:(lia)) as Hm; pose proof (Z.div_mod b 16 ltac:(lia)) as Hdm.
  assert (Htext : exists tl, mac_print ((b, u, v) :: l) = hex u (b / 16) :: hex v (b mod 16) :: tl /\
    (i < 5 -> tl = 0x3A :: mac_print l) /\ (i = 5 -> l = [])).
  { destruct l as [|y l]; [exists []; cbn; rewrite zlen_nil in Hi; split_and!; try done; lia|]; exists (0x3A :: mac_print (y :: l)).
    rewrite zlen_cons in Hi; pose proof (zlen_nonneg l); split_and!; try done; lia. }
  destruct Htext as (tl & -> & Htl & Hend); cbn [length mac_loop app].
  rewrite (rd_at pre _ _ (zlen pre)), bind_ok, mac_digit_hex by (done || lia).
  replace (pre ++ hex u (b / 16) :: hex v (b mod 16) :: tl ++ post) with ((pre ++ [hex u (b / 16)]) ++ hex v (b mod 16) :: tl ++ post) by (by rewrite <- app_assoc).
  rewrite (rd_at _ _ _ (zlen pre + 1)), bind_ok, mac_digit_hex, mac_value by (rewrite ?zlen_app; done || lia); rewrite <- Hdm.
  destruct (i =? 5) eqn:E5; zbool; cbn [negb].
  - rewrite Hend by done; cbn [length mac_loop mac_bytes map fst]; done.
  - rewrite Htl by lia; replace ((pre ++ [hex u (b / 16)]) ++ hex v (b mod 16) :: (0x3A :: mac_print l) ++ post)
      with ((pre ++ [hex u (b / 16); hex v (b mod 16)]) ++ 0x3A :: mac_print l ++ post) by (by rewrite <- !app_assoc).
    rewrite (rd_at _ _ _ (zlen pre + 2)), bind_ok by (by rewrite zlen_app); cbn [Z.eqb Pos.eqb negb].
    replace ((pre ++ [hex u (b / 16); hex v (b mod 16)]) ++ 0x3A :: mac_print l ++ post)
      with ((pre ++ [hex u (b / 16); hex v (b mod 16); 0x3A]) ++ mac_print l ++ post) by (by rewrite <- !app_assoc).
    replace (zlen pre + 3) with (zlen (pre ++ [hex u (b / 16); hex v (b mod 16); 0x3A])) by (by rewrite zlen_app).
    rewrite IH by (done || lia); by rewrite <- app_assoc.
Qed.

(** One character of a string that ends with zero. *)
Lemma rd_char pre tl : 0 ∈ tl -> exists c tl', tl = c :: tl' /\ rd (pre ++ tl) (zlen pre) = Some c /\ (c <> 0 -> 0 ∈ tl').
Proof.
  intros H; destruct tl as [|c tl]; [by apply elem_of_nil in H|]; exists c, tl; split; [done|]; split; [apply rd_0|].
  intros Hc; apply elem_of_cons in H as [H|H]; [by subst | done].
Qed.

Lemma hex_nonzero up v : 0 <= v -> hex up v <> 0.
Proof. intros Hv; unfold hex; destruct up; repeat zcase; lia. Qed.

Lemma app_snoc2 {A} (pre : list A) x tl : pre ++ x :: tl = (pre ++ [x]) ++ tl.
Proof. by rewrite <- app_assoc. Qed.

(** The loop reads no further than the zero, and succeeds on addresses only. *)
Lemma mac_loop_inv n i mac pre tl :
  i + Z.of_nat n = 6 -> 0 ∈ tl ->
  exists r, mac_loop n i mac (pre ++ tl) (zlen pre) = Some r /\
    forall mac', r = Some mac' -> exists l post, length l = n /\ tl = mac_print l ++ post /\ mac' = mac ++ mac_bytes l /\ Forall is_u8 (mac_bytes l).
Proof.
  revert i mac pre tl; induction n as [|n IH]; intros i mac pre tl Hi Hz; cbn [mac_loop].
  { eexists; split; [done|]; intros mac' [= <-]; exists [], tl; split_and!; try done; by rewrite app_nil_r. }
  destruct (rd_char pre tl Hz) as (c1 & tl1 & -> & -> & Hz1); rewrite bind_ok; destruct (mac_digit 0 c1) as [m1|] eqn:E1; [|by eexists; split].
  apply mac_digit_inv in E1 as (u & a & -> & Ha & ->); specialize (Hz1 (hex_nonzero u a ltac:(lia))); rewrite (app_snoc2 pre).
  replace (zlen pre + 1) with (zlen (pre ++ [hex u a])) by (by rewrite zlen_app).
  destruct (rd_char (pre ++ [hex u a]) tl1 Hz1) as (c2 & tl2 & -> & -> & Hz2); rewrite bind_ok.
  destruct (mac_digit _ c2) as [m2|] eqn:E2; [|by eexists; split].
  apply mac_digit_inv in E2 as (w & b & -> & Hb & ->); specialize (Hz2 (hex_nonzero w b ltac:(lia))); rewrite mac_value by done.
  assert (Hbyte : mac_byte (16 * a + b, u, w) = [hex u a; hex w b] /\ is_u8 (16 * a + b)).
  { unfold mac_byte, is_u8; split; [|lia]; replace ((16 * a + b) / 16) with a by (apply (Z.div_unique _ _ _ b); lia).
    by replace ((16 * a + b) mod 16) with b by (apply (Z.mod_unique _ _ a); lia). }
  destruct Hbyte as [Hbyte H8]; destruct (i =? 5) eqn:E5; zbool; cbn [negb].
  - destruct n as [|n]; [|lia]; eexists; split; [done|]; intros mac' [= <-]; exists [(16 * a + b, u, w)], tl2; split_and!; try done.
    + cbn [mac_print]; by rewrite Hbyte.
    + by apply Forall_singleton.
  - rewrite (app_snoc2 (pre ++ [hex u a])); replace (zlen pre + 2) with (zlen ((pre ++ [hex u a]) ++ [hex w b])) by (rewrite !zlen_app; unfold zlen; simpl; lia).
    destruct (rd_char ((pre ++ [hex u a]) ++ [hex w b]) tl2 Hz2) as (c3 & tl3 & -> & -> & Hz3); rewrite bind_ok.
    destruct (c3 =? 0x3A) eqn:E3; zbool; cbn [negb]; [|by eexists; split]; subst c3; rewrite (app_snoc2 ((pre ++ [hex u a]) ++ [hex w b])).
    replace (zlen pre + 3) with (zlen (((pre ++ [hex u a]) ++ [hex w b]) ++ [0x3A])) by (rewrite !zlen_app; unfold zlen; simpl; lia).
    destruct (IH (i + 1) (mac ++ [16 * a + b]) (((pre ++ [hex u a]) ++ [hex w b]) ++ [0x3A]) tl3 ltac:(lia) ltac:(by apply Hz3)) as (r & Hr & Hl).
    exists r; split; [exact Hr|]; intros mac' Hm; destruct (Hl mac' Hm) as (l & post & Hn & -> & -> & Hf); exists ((16 * a + b, u, w) :: l), post.
    split; [by cbn; rewrite Hn|]; split; [|split; [by rewrite <- app_assoc | by apply Forall_cons]].
    destruct l as [|y l]; [simpl in Hn; lia|]; change (mac_print ((16 * a + b, u, w) :: y :: l)) with (mac_byte (16 * a + b, u, w) ++ 0x3A :: mac_print (y :: l)).
    by rewrite Hbyte, <- app_assoc.
Qed.

(** C28: the address on the command line. A string that ends with zero is read up
    to the zero at most; if it begins with an address as it is written, six bytes
    of two digits in either case with colons between them, the driver takes
    exactly this address; any other string is refused and changes nothing. *)
Theorem setup_macaddr_reads str old :
  0 ∈ str ->
  (exists l post, mac_ok l /\ str = mac_print l ++ post /\ setup_macaddr (Some str) old = Some (0, mac_bytes l)) \/
  (setup_macaddr (Some str) old = Some (- EINVAL, old) /\ forall l post, mac_ok l -> str <> mac_print l ++ post).
Proof.
  intros Hz; destruct (mac_loop_inv 6 0 [] [] str ltac:(lia) Hz) as (r & Hr & Hl); cbn [app] in Hr; change (zlen []) with 0 in Hr.
  unfold setup_macaddr; rewrite Hr, bind_ok; destruct r as [mac|].
  - left; destruct (Hl mac eq_refl) as (l & post & Hn & -> & -> & Hf); exists l, post; done.
  - right; split; [done|]; intros l post [Hn Hf] ->.
    pose proof (mac_loop_print l 0 [] [] post ltac:(unfold zlen; lia) Hf ltac:(lia)) as Hp; rewrite Hn in Hp; cbn [app] in Hp; change (zlen []) with 0 in Hp.
    congruence.
Qed.

Lemma setup_macaddr_reads_witness :
  setup_macaddr (Some [0x30; 0x38; 0x3A; 0x30; 0x30; 0x3A; 0x32; 0x37; 0x3A; 0x30; 0x30; 0x3A; 0x30; 0x31; 0x3A; 0x66; 0x46; 0]) [] =
  Some (0, [0x08; 0x00; 0x27; 0x00; 0x01; 0xFF]).
Proof.
  destruct (setup_macaddr_reads [0x30; 0x38; 0x3A; 0x30; 0x30; 0x3A; 0x32; 0x37; 0x3A; 0x30; 0x30; 0x3A; 0x30; 0x31; 0x3A; 0x66; 0x46; 0] [])
    as [(l & post & _ & _ & H)|[H _]].
  - apply (bool_decide_unpack _); vm_compute; exact I.
  - rewrite H; vm_compute in H |- *; exact (eq_sym H).
  - vm_compute in H; discriminate H.
Defined.

(** ** A kernel that keeps the laws *)
Definition above (m : gmap Z (list Z)) : Z := 1 + foldr Z.max 0 (map fst (map_to_list m)).

Lemma above_free m : m !! above m = None.
Proof.
  destruct (m !! above m) as [b|] eqn:E; [|done]; exfalso; apply elem_of_map_to_list in E.
  assert (H : forall (l : list (Z * list Z)) x, x ∈ l -> x.1 <= foldr Z.max 0 (map fst l)).
  { induction l as [|y l IH]; intros x Hx; [by apply elem_of_nil in Hx|]; cbn [map foldr]; apply elem_of_cons in Hx as [->|Hx]; [lia|]; specialize (IH x Hx); lia. }
  apply H in E; unfold above in E; cbn [fst] in E; lia.
Qed.

#[export] Instance ref_net : NetOps net_view := {
  dma_alloc_coherent n v := (if n <=? 4294967296 then Some 0 else None, v);
  dma_free_coherent _ _ v := v;
  dma_map_single a _ v := (a, v);
  dma_unmap_single _ _ v := v;
  dev_alloc_skb _ v := (Some (mk_skb (above (v_mem v)) 0), v <| v_mem := <[above (v_mem v) := []]> (v_mem v) |>);
  dev_kfree_skb s v := v <| v_mem := delete (skb_data s) (v_mem v) |> <| v_freed := v_freed v ++ [s] |>;
  skb_put s n := mk_skb (skb_data s) (skb_len s + n);
  netif_receive_skb s v := v <| v_given := v_given v ++ [take (Z.to_nat (skb_len s)) (default [] (v_mem v !! skb_data s))] |>
                             <| v_mem := delete (skb_data s) (v_mem v) |>;
  netif_queue_stopped v := v_stopped v;
  netif_stop_queue v := v <| v_stopped := true |>;
  netif_wake_queue v := v <| v_stopped := false |>;
  netif_start_queue v := v <| v_stopped := false |>;
  napi_schedule v := v; napi_complete v := v; napi_enable v := v; napi_disable v := v;
  request_irq _ v := (false, v); free_irq _ v := v; phy_start v := v; phy_stop v := v;
  is_valid_ether_addr a := nz (foldr Z.lor 0 a);
}.

#[export] Instance ref_net_laws : NetLaws net_view.
Proof.
  refine {| net := fun v => v; dma_addr := fun a => a |}; try done.
  - intros n k p; cbn; destruct (n <=? 4294967296) eqn:E; zbool; [intros [= <-]; lia | done].
  - intros n k s [= <-]; split; [done|]; split; [apply above_free | by eexists].
Defined.

(** The interface before it is opened, and after. *)
Definition ether_example : ether net_view :=
  mk_ether [] [] 0 0 (mk_stats 0 0 0 0 0 0 0 0 0 0 0) 1 2 0 0 0 0 0 0 100 1 (replicate 32 None) (replicate 32 None)
    [0x08; 0x00; 0x27; 0x00; 0x01; 0x92] ∅ (mk_view ∅ false [] []).
Definition ether_up : ether net_view := match nuc970_ether_open ether_example with Some (_, e) => e | None => ether_example end.

Lemma ether_up_opened : opened ether_up.
Proof. exists ether_example; vm_compute; by split_and!. Qed.

(** A run: the network core gets memory for a frame, and hands it over. *)
Definition avoids (a : Z) (l : list (option sk_buff)) : bool :=
  forallb (fun o => match o with Some x => negb (skb_data x =? a) | None => true end) l.

Lemma avoids_spec a l : avoids a l = true -> forall x, Some x ∈ l -> skb_data x <> a.
Proof.
  intros H x Hx E; apply list_elem_of_In in Hx; unfold avoids in H; rewrite forallb_forall in H; specialize (H _ Hx); cbn in H; zbool; done.
Qed.

Definition give_memory (a : Z) (b : list Z) (e : ether net_view) : ether net_view :=
  e <| krn := (krn e) <| v_mem := <[a := b]> (v_mem (krn e)) |> |>.

Lemma give_memory_reached e a b :
  opened e -> avoids a (tx_skb e ++ rx_skb e) = true -> reaches e ((start e) <| sy_e := give_memory a b e |>).
Proof.
  intros Ho Ha; split; [done|]; apply rtc_once, (step_kernel (start e)); split; [done|]; split; [done|]; split; [done|].
  intros s Hs; cbn [v_mem set eta_view]; unfold skb_addr; cbn [dma_addr net ref_net_laws]; apply lookup_insert_ne, not_eq_sym; by apply (avoids_spec _ _ Ha).
Qed.

Lemma xmit_reached e a b skb data e' :
  reaches e ((start e) <| sy_e := give_memory a b e |>) -> v_stopped (krn (give_memory a b e)) = false ->
  v_mem (krn (give_memory a b e)) !! skb_data skb = Some data ->
  avoids (skb_data skb) (tx_skb (give_memory a b e) ++ rx_skb (give_memory a b e)) = true -> reclaimed (give_memory a b e) ->
  nuc970_ether_start_xmit skb (give_memory a b e) = Some (NETDEV_TX_OK, e') ->
  reaches e ((start e) <| sy_e := e' |> <| sy_queue := [(skb, data)] |>).
Proof.
  intros [Ho Hr] Hs Hm Ha Hrec He; split; [done|]; eapply rtc_r; [exact Hr|].
  exact (step_xmit ((start e) <| sy_e := give_memory a b e |>) skb data NETDEV_TX_OK e' Hs Hm (avoids_spec _ _ Ha) Hrec He).
Qed.

Definition frame_example : sk_buff := mk_skb 100000 3.
Definition with_frame : ether net_view := give_memory 100000 [7; 8; 9] ether_up.
Definition after_xmit : ether net_view := match nuc970_ether_start_xmit frame_example with_frame with Some (_, e) => e | None => with_frame end.

Lemma with_frame_reached : reaches ether_up ((start ether_up) <| sy_e := with_frame |>).
Proof. apply (give_memory_reached ether_up 100000 [7; 8; 9] ether_up_opened); vm_compute; reflexivity. Qed.

Lemma frame_new x : Some x ∈ tx_skb with_frame ++ rx_skb with_frame -> skb_data x <> skb_data frame_example.
Proof. revert x; apply avoids_spec; vm_compute; reflexivity. Qed.

Lemma frame_reclaimed : reclaimed with_frame.
Proof. intros s d H; vm_compute in H; discriminate H. Qed.

Definition run_example : sys := (start ether_up) <| sy_e := after_xmit |> <| sy_queue := [(frame_example, [7; 8; 9])] |>.

Lemma run_reached : reaches ether_up run_example.
Proof.
  apply (xmit_reached ether_up 100000 [7; 8; 9] frame_example [7; 8; 9] after_xmit with_frame_reached).
  - vm_compute; reflexivity.
  - vm_compute; reflexivity.
  - vm_compute; reflexivity.
  - exact frame_reclaimed.
  - vm_compute; reflexivity.
Qed.

Lemma emc_in_order_witness :
  exists past waiting gone, sy_queue run_example = past ++ waiting /\ sy_wire run_example = map wire_frame past /\ gone `prefix_of` map fst past /\
    v_freed (krn (sy_e run_example)) = gone.
Proof.
  destruct (emc_in_order ether_up _ run_reached) as (past & waiting & gone & seen & stored & Hq & Hw & Hf & Hp & _).
  exists past, waiting, gone; split; [exact Hq|]; split; [exact Hw|]; split; [exact Hp | exact Hf].
Defined.

Lemma emc_defined_witness :
  is_Some (nuc970_ether_start_xmit frame_example with_frame) /\ is_Some (nuc970_tx_interrupt 0 with_frame) /\
  is_Some (nuc970_rx_interrupt 0 with_frame) /\ is_Some (nuc970_poll 16 with_frame).
Proof.
  apply (emc_defined ether_up _ frame_example [7; 8; 9] 0 16 with_frame_reached).
  - vm_compute; reflexivity.
  - exact frame_new.
  - exact frame_reclaimed.
  - reflexivity.
  - reflexivity.
Defined.

Lemma emc_poll_takes_witness :
  exists n e', nuc970_poll 16 (sy_e run_example) = Some (n, e') /\ n <= 16 /\ (n < 16 -> Z.testbit (raw_readl REG_MIEN e') 0 = true).
Proof.
  destruct (emc_poll_takes ether_up _ 16 run_reached) as (n & e' & seen & got & rest & Hp & _ & _ & _ & _ & Hle & Hm).
  - intros k; vm_compute; discriminate.
  - lia.
  - exists n, e'; split; [exact Hp|]; split; [exact Hle|]; intros Hn; exact (proj2 (Hm Hn)).
Defined.

(** The rings of the interface in the example. *)
Lemma ether_up_ring : tx_ring 0 ether_up [] [] 32.
Proof.
  apply empty_ring; try (vm_compute; reflexivity); vm_compute; discriminate.
Qed.

Lemma emc_tx_race_witness :
  exists e1 e2 e3 d, xmit_fill frame_example ether_up = Some e1 /\ nuc970_tx_interrupt 0 e1 = Some e2 /\ xmit_give e2 = Some e3 /\
    rd (tdesc e3) (cur_tx e3) = Some d /\ tx_owned d = true /\ mem_of e3 !! t_buffer d = None.
Proof.
  destruct (emc_tx_race 0 ether_up frame_example ether_up_ring) as (e1 & e2 & e3 & d & H1 & H2 & H3 & _ & H4 & H5 & _ & H6).
  exists e1, e2, e3, d; split_and!; assumption.
Defined.

(** A ring of frames that were all sent and not reclaimed. *)
Lemma sent_ring (e : ether net_view) tp sent :
  tdesc e = map (tx_desc_init tp) (seqZ 0 TX_DESC_SIZE) -> tx_skb e = map Some sent -> zlen sent = 32 -> cur_tx e = 0 -> finish_tx e = 0 ->
  tdesc_phys e = tp -> 0 <= tp -> tp + 512 <= 4294967296 -> tx_ring tp e sent [] 0.
Proof.
  intros Hd Hs Hl Hc Hf Hp Hlo Hhi; assert (Hring : forall j, 0 <= j < 32 -> ring 0 j = j) by (intros; unfold ring; zcase; lia).
  assert (Hcells : tx_cells sent [] 0 = map TDone sent) by (unfold tx_cells; by rewrite !app_nil_r).
  assert (Hcell : forall j c, rd (tx_cells sent [] 0) j = Some c -> exists s, c = TDone s /\ rd sent j = Some s /\ 0 <= j < 32).
  { rewrite Hcells; intros j c Hj; apply rd_Some in Hj as [? Hj]; apply list_lookup_fmap_Some in Hj as (s & -> & Hj); exists s; split; [done|].
    assert (Hr : rd sent j = Some s) by (by apply rd_Some); split; [done|]; pose proof (rd_range _ _ _ Hr); lia. }
  assert (Hlc : zlen (tx_cells sent [] 0) = 32) by (rewrite Hcells; unfold zlen in *; by rewrite length_map).
  split; rewrite ?Hf, ?Hc; try done.
  - split_and!; try done; [by rewrite Hd|]; intros j c Hj; destruct (Hcell j c Hj) as (s & -> & _ & Hr); exists (tx_desc_init tp j); rewrite Hring, Hd, rd_seq by done; done.
  - split_and!; try done; [rewrite Hs; unfold zlen in *; by rewrite length_map|]; intros j c Hj; destruct (Hcell j c Hj) as (s & -> & Hsj & Hr).
    exists (Some s); rewrite Hring, Hs by done; split; [|done]; apply rd_Some in Hsj as [? Hsj]; apply rd_Some; split; [done|]; by rewrite (list_lookup_fmap Some), Hsj.
  - rewrite Hl; reflexivity.
  - intros i d Hi; pose proof (rd_range _ _ _ Hi) as Hri; rewrite Hd in Hri; rewrite Hd, rd_seq in Hi by exact Hri; injection Hi as <-; rewrite Hp; apply tx_next_ring; [exact Hri | lia | lia].
  - rewrite Hl, Hp; change (ring 0 32) with 0; lia.
Qed.

Definition all_sent : list sk_buff := map (fun i => mk_skb i 60) (seqZ 1 32).
Definition ether_sent : ether net_view := ether_example <| tdesc := map (tx_desc_init 0) (seqZ 0 TX_DESC_SIZE) |> <| tx_skb := map Some all_sent |>.

Lemma emc_tx_leak_witness :
  exists e', nuc970_ether_start_xmit frame_example ether_sent = Some (NETDEV_TX_OK, e') /\
    Some (mk_skb 1 60) ∈ tx_skb ether_sent /\ Some (mk_skb 1 60) ∉ tx_skb e' /\ v_freed (net (krn e')) = v_freed (net (krn ether_sent)).
Proof.
  destruct (emc_tx_leak 0 ether_sent (mk_skb 1 60) (map (fun i => mk_skb i 60) (seqZ 2 31)) [] frame_example) as (e' & H1 & H2 & H3 & H4 & _).
  - apply (sent_ring ether_sent 0); reflexivity || (vm_compute; discriminate).
  - apply (bool_decide_unpack _); vm_compute; exact I.
  - vm_compute; discriminate.
  - exists e'; split_and!; assumption.
Defined.
