(* ===== verification/I2c.v ===== *)
(** The I2C controller (src/drivers/i2c/busses/i2c-nuc970-p0.c): the state
    machine of the interrupt handler, the start of a transfer, the wait for its
    end, and the repetition when the bus was lost. The registers, the bus and
    the passing of time are the interface [I2cHw]. *)
From S2P Require Import Prelude.

(** ** Registers and constants *)
Definition CSR : Z := 0x00.
Definition CMDR : Z := 0x08.
Definition SWR : Z := 0x0C.
Definition RXR : Z := 0x10.
Definition TXR : Z := 0x14.
Definition IRQEN : Z := 0x003.
Definition I2CBUSY : Z := 0x400.
Definition I2CSTART : Z := 0x018.
Definition IRQFLAG : Z := 0x004.
Definition ARBIT_LOST : Z := 0x200.
Definition SLAVE_ACK : Z := 0x800.
Definition I2C_CMD_START : Z := 0x10.
Definition I2C_CMD_STOP : Z := 0x08.
Definition I2C_CMD_READ : Z := 0x04.
Definition I2C_CMD_WRITE : Z := 0x02.
Definition I2C_CMD_NACK : Z := 0x01.

(** The flags of a message and the error codes, of the kernel's interface. *)
Definition I2C_M_RD : Z := 0x0001.
Definition I2C_M_IGNORE_NAK : Z := 0x1000.
Definition I2C_M_NOSTART : Z := 0x4000.
Definition ENXIO : Z := 6.
Definition ETIMEDOUT : Z := 110.
Definition ECONNREFUSED : Z := 111.
Definition EREMOTEIO : Z := 121.

(** ** Data *)

(** A message; the buffer is an object of its own. *)
Record i2c_msg := mk_msg { m_addr : Z; m_flags : Z; m_len : Z; m_buf : list Z }.
#[export] Instance eta_msg : Eta i2c_msg := fun m => mk_msg (m_addr m) (m_flags m) (m_len m) (m_buf m).
#[export] Instance i2c_msg_eq_dec : EqDecision i2c_msg.
Proof. solve_decision. Defined.

Definition flag (f : Z) (m : i2c_msg) : bool := nz (Z.land (m_flags m) f).

Inductive nuc970_i2c_state := STATE_IDLE | STATE_START | STATE_READ | STATE_WRITE | STATE_STOP.
#[export] Instance nuc970_i2c_state_eq_dec : EqDecision nuc970_i2c_state.
Proof. solve_decision. Defined.

(** The registers of the controller, and the interrupts: the next one of a
    process that sleeps, if the time is not up before, and one that is taken
    at a point of the code where interrupts are on. *)
Class I2cHw (B : Type) := {
  readl : Z -> B -> Z * B;
  writel : Z -> Z -> B -> B;
  irq_wait : B -> option B;
  irq_now : B -> option B;
}.

(** [struct nuc970_i2c], with the messages of the caller; [msg] is the index of
    the message that [i2c->msg] points to. *)
Record nuc970_i2c (B : Type) := mk_i2c {
  msgs : list i2c_msg;
  msg : option Z;
  msg_num : Z;
  msg_idx : Z;
  msg_ptr : Z;
  arblost : Z;
  i_state : nuc970_i2c_state;
  bus : B;
}.
Arguments mk_i2c {B}.
Arguments msgs {B}.
Arguments msg {B}.
Arguments msg_num {B}.
Arguments msg_idx {B}.
Arguments msg_ptr {B}.
Arguments arblost {B}.
Arguments i_state {B}.
Arguments bus {B}.
#[export] Instance eta_i2c B : Eta (nuc970_i2c B) := fun s =>
  mk_i2c (msgs s) (msg s) (msg_num s) (msg_idx s) (msg_ptr s) (arblost s) (i_state s) (bus s).

Section I2c.
  Context {B : Type} `{!I2cHw B}.
  Implicit Types s : nuc970_i2c B.

(** ** Registers *)
Definition io_write (v a : Z) s : nuc970_i2c B := s <| bus := writel v a (bus s) |>.
Definition io_read (a : Z) s : Z * nuc970_i2c B := let '(v, b) := readl a (bus s) in (v, s <| bus := b |>).

(** What [i2c->msg] points to. *)
Definition cur_msg s : option i2c_msg := i ← msg s; rd (msgs s) i.

Definition nuc970_i2c0_master_complete (ret : Z) s : nuc970_i2c B :=
  s <| msg_ptr := 0 |> <| msg := None |> <| msg_idx := if nz ret then u32 ret else u32 (msg_idx s + 1) |> <| msg_num := 0 |>.

Definition nuc970_i2c0_disable_irq s : nuc970_i2c B :=
  let '(tmp, s) := io_read CSR s in io_write (Z.land tmp (Z.lnot IRQEN)) CSR s.

Definition nuc970_i2c0_enable_irq s : nuc970_i2c B :=
  let '(tmp, s) := io_read CSR s in io_write (Z.lor tmp IRQEN) CSR s.

Definition addr_byte (m : i2c_msg) : Z :=
  let addr := Z.shiftl (Z.land (m_addr m) 0x7f) 1 in
  Z.land (if flag I2C_M_RD m then Z.lor addr 0x1 else addr) 0xff.

Definition nuc970_i2c0_message_start (m : i2c_msg) s : nuc970_i2c B :=
  io_write (Z.lor I2C_CMD_START I2C_CMD_WRITE) CMDR (io_write (addr_byte m) TXR s).

Definition nuc970_i2c0_stop (ret : Z) s : nuc970_i2c B :=
  nuc970_i2c0_master_complete ret (io_write I2C_CMD_STOP CMDR (s <| i_state := STATE_STOP |>)).

(** ** The position in the messages; the arithmetic is unsigned *)
Definition is_lastmsg s : bool := u32 (msg_num s - 1) <=? msg_idx s.
Definition is_msglast (m : i2c_msg) s : bool := msg_ptr s =? u32 (m_len m - 1).
Definition is_msgend (m : i2c_msg) s : bool := m_len m <=? msg_ptr s.

Definition next_msg s : nuc970_i2c B :=
  s <| msg_ptr := 0 |> <| msg_idx := u32 (msg_idx s + 1) |> <| msg := option_map (Z.add 1) (msg s) |>.

(** ** The interrupt handler *)

(** From the label [retry_write] on. The loop through messages without a start
    visits each message once: [fuel] is their number. *)
Fixpoint retry_write (fuel : nat) s : option (nuc970_i2c B) :=
  match fuel with
  | O => None
  | S fuel =>
      m ← cur_msg s;
      if negb (is_msgend m s) then
        byte ← rd (m_buf m) (msg_ptr s);
        let s := s <| msg_ptr := u32 (msg_ptr s + 1) |> in
        Some (io_write I2C_CMD_WRITE CMDR (io_write byte TXR s))
      else if negb (is_lastmsg s) then
        let s := next_msg s in
        m ← cur_msg s;
        if flag I2C_M_NOSTART m then
          retry_write fuel (if flag I2C_M_RD m then nuc970_i2c0_stop (- EINVAL) s else s)
        else Some ((nuc970_i2c0_message_start m s) <| i_state := STATE_START |>)
      else Some (nuc970_i2c0_stop 0 s)
  end.

(** The case [STATE_WRITE]. *)
Definition write_state (iicstat : Z) s : option (nuc970_i2c B) :=
  m ← cur_msg s;
  if negb (flag I2C_M_IGNORE_NAK m) && nz (Z.land iicstat SLAVE_ACK) then Some (nuc970_i2c0_stop (- ECONNREFUSED) s)
  else retry_write (S (length (msgs s))) s.

(** From the label [prepare_read] on. *)
Definition prepare_read s : option (nuc970_i2c B) :=
  m ← cur_msg s;
  Some
    (if is_msglast m s then
       if is_lastmsg s then io_write (Z.lor I2C_CMD_READ I2C_CMD_NACK) CMDR s else s
     else if is_msgend m s then
       if is_lastmsg s then nuc970_i2c0_stop 0 s
       else io_write I2C_CMD_READ CMDR (next_msg s)
     else io_write I2C_CMD_READ CMDR s).

(** The case [STATE_READ]. *)
Definition read_state s : option (nuc970_i2c B) :=
  let '(byte, s) := io_read RXR s in
  i ← msg s;
  m ← rd (msgs s) i;
  b ← wr (m_buf m) (msg_ptr s) (u8 byte);
  ms ← wr (msgs s) i (m <| m_buf := b |>);
  prepare_read (s <| msgs := ms |> <| msg_ptr := u32 (msg_ptr s + 1) |>).

(** The case [STATE_START]. *)
Definition start_state (iicstat : Z) s : option (nuc970_i2c B) :=
  m ← cur_msg s;
  if nz (Z.land iicstat SLAVE_ACK) && negb (flag I2C_M_IGNORE_NAK m) then Some (nuc970_i2c0_stop (- ENXIO) s)
  else
    let s := s <| i_state := if flag I2C_M_RD m then STATE_READ else STATE_WRITE |> in
    if is_lastmsg s && (m_len m =? 0) then Some (nuc970_i2c0_stop 0 s)
    else if decide (i_state s = STATE_READ) then prepare_read s
    else write_state iicstat s.

Definition i2c_nuc970_irq_nextbyte (iicstat : Z) s : option (nuc970_i2c B) :=
  match i_state s with
  | STATE_IDLE => Some s
  | STATE_STOP => Some ((nuc970_i2c0_disable_irq s) <| i_state := STATE_IDLE |>)
  | STATE_START => start_state iicstat s
  | STATE_WRITE => write_state iicstat s
  | STATE_READ => read_state s
  end.

Definition nuc970_i2c_irq s : option (nuc970_i2c B) :=
  let '(status, s) := io_read CSR s in
  let s := io_write (Z.lor status IRQFLAG) CSR s in
  if nz (Z.land status ARBIT_LOST) then Some (s <| arblost := 1 |>)
  else if decide (i_state s = STATE_IDLE) then Some s
  else i2c_nuc970_irq_nextbyte status s.

(** A point where an interrupt may be taken. *)
Definition preempt s : option (nuc970_i2c B) :=
  match irq_now (bus s) with
  | Some b => nuc970_i2c_irq (s <| bus := b |>)
  | None => Some s
  end.

(** ** A transfer *)

(** [msleep(1)] lets interrupts in. *)
Definition msleep s : option (nuc970_i2c B) := preempt s.

Definition nuc970_i2c0_hangup s : nuc970_i2c B :=
  io_write 0x7 SWR (io_write 0x6 SWR (io_write 0x7 SWR (io_write 0x6 SWR s))).

Definition bus_free s : bool * nuc970_i2c B :=
  let '(swr, s) := io_read SWR s in
  if Z.land swr I2CSTART =? I2CSTART
  then let '(csr, s) := io_read CSR s in (Z.land csr I2CBUSY =? 0, s)
  else (false, s).

Fixpoint set_master_loop (timeout : nat) s : option (Z * nuc970_i2c B) :=
  match timeout with
  | O => Some (- ETIMEDOUT, s)
  | S timeout =>
      let '(free, s) := bus_free s in
      if free : bool then Some (0, s) else s ← msleep s; set_master_loop timeout s
  end.

Definition nuc970_i2c0_set_master s : option (Z * nuc970_i2c B) := set_master_loop 400 s.

(** [wait_event_timeout(i2c->wait, i2c->msg_num == 0, HZ * 5)], of [fuel]
    interrupts at most. *)
Fixpoint wait_done (fuel : nat) s : option (nuc970_i2c B) :=
  if msg_num s =? 0 then Some s
  else
    match irq_wait (bus s) with
    | None => Some s
    | Some b =>
        match fuel with
        | O => None
        | S fuel => s ← nuc970_i2c_irq (s <| bus := b |>); wait_done fuel s
        end
    end.

(** The status when the bus is idle, or [spins] readings are used up. *)
Fixpoint spin_idle (spins : nat) s : option (Z * bool * nuc970_i2c B) :=
  s ← preempt s;
  let '(iicstat, s) := io_read CSR s in
  if nz (Z.land iicstat I2CBUSY) then
    match spins with
    | O | S O => Some (iicstat, true, s)
    | S spins => spin_idle spins s
    end
  else Some (iicstat, false, s).

(** The end of a transfer after the bus was lost. *)
Definition lost_bus s : option (nuc970_i2c B) :=
  let s := nuc970_i2c0_stop 0 (s <| arblost := 0 |>) in
  s ← msleep s;
  Some (nuc970_i2c0_hangup (nuc970_i2c0_disable_irq s)).

Definition begin_transfer (ms : list i2c_msg) s : option (nuc970_i2c B) :=
  let s := s <| msgs := ms |> <| msg := Some 0 |> <| msg_num := u32 (zlen ms) |> <| msg_ptr := 0 |> <| msg_idx := 0 |> <| i_state := STATE_START |> in
  m ← cur_msg s;
  Some (nuc970_i2c0_message_start m s).

Definition finish_transfer s : option (Z * nuc970_i2c B) :=
  let ret := to_int (msg_idx s) in
  '(iicstat, late, s) ← spin_idle 20 s;
  s ← (if late : bool then s ← msleep s; Some (snd (io_read CSR s)) else Some s);
  if nz (arblost s) then s ← lost_bus s; Some (- EAGAIN, s) else Some (ret, s).

(** The messages of the call are [msgs s] from here on: the interrupt handler
    stores into their buffers. *)
Definition nuc970_i2c0_doxfer (fuel : nat) s : option (Z * nuc970_i2c B) :=
  '(ret, s) ← nuc970_i2c0_set_master s;
  if nz ret then Some (- EAGAIN, s)
  else
    s ← begin_transfer (msgs s) s;
    s ← wait_done fuel s;
    finish_transfer s.

Fixpoint retry_loop (fuel : nat) (retries : nat) s : option (Z * nuc970_i2c B) :=
  match retries with
  | O => Some (- EREMOTEIO, s)
  | S retries =>
      '(ret, s) ← nuc970_i2c0_doxfer fuel s;
      if negb (ret =? - EAGAIN) then Some (ret, s) else retry_loop fuel retries s
  end.

Definition nuc970_i2c0_xfer (fuel retries : nat) (ms : list i2c_msg) s : option (Z * nuc970_i2c B) :=
  retry_loop fuel retries ((nuc970_i2c0_enable_irq s) <| msgs := ms |>).
End I2c.
