(* ===== verification/I2cSpec.v ===== *)
(** What the I2C controller promises ([I2cLaws]), a reference for a transfer on
    the bus, and the proof that the state machine of the driver follows it. *)
From S2P Require Import Prelude I2c.

(** ** The controller

    How the controller answers a command: whether the slave failed to
    acknowledge, whether the bus was lost, and the byte received. *)
Record answer := mk_answer { a_nak : bool; a_arb : bool; a_byte : Z }.

(** What the driver sees of the controller: whether it is enabled, the byte to
    send, the running command, the state after the last one, whether the bus may
    be busy, the commands given so far, and the answers to come. *)
Record i2c_view := mk_view {
  v_on : bool;
  v_txr : Z;
  v_cmd : option Z;
  v_nak : bool;
  v_arb : bool;
  v_rxr : Z;
  v_busy : bool;
  v_log : list (Z * Z);
  v_answers : list answer;
}.
#[export] Instance eta_view : Eta i2c_view := fun v =>
  mk_view (v_on v) (v_txr v) (v_cmd v) (v_nak v) (v_arb v) (v_rxr v) (v_busy v) (v_log v) (v_answers v).

(** A command on the bus, with its byte if it sends one. *)
Definition on_bus (c txr : Z) : Z * Z := (c, if nz (Z.land c I2C_CMD_WRITE) then txr else 0).

Definition command (c : Z) (v : i2c_view) : i2c_view :=
  v <| v_cmd := Some c |> <| v_busy := true |> <| v_log := v_log v ++ [on_bus c (v_txr v)] |>.

(** A running command ends with the first answer. *)
Definition complete (v : i2c_view) : option i2c_view :=
  if v_on v then
    c ← v_cmd v;
    match v_answers v with
    | [] => None
    | a :: l =>
        Some (v <| v_cmd := None |> <| v_nak := a_nak a |> <| v_arb := a_arb a |> <| v_rxr := a_byte a |>
                <| v_busy := negb (nz (Z.land c I2C_CMD_STOP)) |> <| v_answers := l |>)
    end
  else None.

Class I2cLaws (B : Type) `{!I2cHw B} := {
  view : B -> i2c_view;
  view_txr v b : view (writel v TXR b) = (view b) <| v_txr := v |>;
  view_cmdr c b : view (writel c CMDR b) = command c (view b);
  view_csr v b : view (writel v CSR b) = (view b) <| v_on := Z.land v IRQEN =? IRQEN |>;
  view_swr v b : view (writel v SWR b) = view b;
  view_read a b : view (snd (readl a b)) = view b;
  read_csr b :
    let c := fst (readl CSR b) in
    (Z.land c IRQEN =? IRQEN) = v_on (view b) /\ nz (Z.land c SLAVE_ACK) = v_nak (view b) /\
    nz (Z.land c ARBIT_LOST) = v_arb (view b) /\ (v_busy (view b) = false -> Z.land c I2CBUSY = 0);
  read_rxr b : u8 (fst (readl RXR b)) = v_rxr (view b);
  read_swr b : v_busy (view b) = false -> Z.land (fst (readl SWR b)) I2CSTART = I2CSTART;
  (** A process that sleeps is woken by the end of the command, or by the time. *)
  view_wait b : view <$> irq_wait b = complete (view b);
  view_now b b' : irq_now b = Some b' -> Some (view b') = complete (view b);
}.

(** ** The reference *)
Inductive phase := Ended (l : list answer) | Refused (l : list answer) | Lost (l : list answer) | Silent.

(** Bytes are sent until one is not acknowledged, unless that is ignored. *)
Fixpoint ref_send (ig : bool) (bytes : list Z) (l : list answer) : list (Z * Z) * phase :=
  match bytes with
  | [] => ([], Ended l)
  | b :: bytes =>
      match l with
      | [] => ([(I2C_CMD_WRITE, b)], Silent)
      | a :: l =>
          if a_arb a then ([(I2C_CMD_WRITE, b)], Lost l)
          else if a_nak a && negb ig then ([(I2C_CMD_WRITE, b)], Refused l)
          else let '(g, p) := ref_send ig bytes l in ((I2C_CMD_WRITE, b) :: g, p)
      end
  end.

(** [n] bytes are received, all but the last acknowledged. *)
Fixpoint ref_recv (n : nat) (l : list answer) : list (Z * Z) * list Z * phase :=
  match n with
  | O => ([], [], Ended l)
  | S n =>
      let c := (match n with O => Z.lor I2C_CMD_READ I2C_CMD_NACK | S _ => I2C_CMD_READ end, 0) in
      match l with
      | [] => ([c], [], Silent)
      | a :: l => if a_arb a then ([c], [], Lost l) else let '(g, bs, p) := ref_recv n l in (c :: g, a_byte a :: bs, p)
      end
  end.

(** How a transfer ends: with a stop and a result, by time in a message, or by
    the loss of the bus. *)
Inductive verdict := VStop (ret : Z) (l : list answer) | VTime (idx : Z) | VLost (l : list answer).

Definition i2c_run : Type := list (Z * Z) * verdict * list i2c_msg.
Definition stop_now (ret : Z) (ms : list i2c_msg) (l : list answer) : i2c_run := ([(I2C_CMD_STOP, 0)], VStop ret l, ms).
Definition prefix_log (g : list (Z * Z)) (t : i2c_run) : i2c_run := let '(g', v, ms) := t in (g ++ g', v, ms).
Definition prefix_msg (m : i2c_msg) (t : i2c_run) : i2c_run := let '(g, v, ms) := t in (g, v, m :: ms).

(** What a phase of message [m] at [idx] leads to, with [next] after its end. *)
Definition ref_next (idx : Z) (m : i2c_msg) (rest : list i2c_msg) (p : phase) (next : list answer -> i2c_run) : i2c_run :=
  match p with
  | Ended l => prefix_msg m (next l)
  | Refused l => stop_now (- ECONNREFUSED) (m :: rest) l
  | Lost l => ([], VLost l, m :: rest)
  | Silent => ([], VTime idx, m :: rest)
  end.

Definition received (m : i2c_msg) (bs : list Z) : i2c_msg := m <| m_buf := bs ++ drop (length bs) (m_buf m) |>.

(** The body of a message from byte [j] on. *)
Definition ref_write (idx j : Z) (m : i2c_msg) (rest : list i2c_msg) (next : list answer -> i2c_run) (l : list answer) : i2c_run :=
  let '(g, p) := ref_send (flag I2C_M_IGNORE_NAK m) (drop (Z.to_nat j) (m_buf m)) l in
  prefix_log g (ref_next idx m rest p next).

Definition ref_read (idx : Z) (m : i2c_msg) (rest : list i2c_msg) (next : list answer -> i2c_run) (l : list answer) : i2c_run :=
  let '(g, bs, p) := ref_recv (length (m_buf m)) l in
  prefix_log g (ref_next idx (received m bs) rest p next).

(** After the address was sent. *)
Definition ref_started (idx : Z) (m : i2c_msg) (rest : list i2c_msg) (body : list answer -> i2c_run) (l : list answer) : i2c_run :=
  match l with
  | [] => ([], VTime idx, m :: rest)
  | a :: l =>
      if a_arb a then ([], VLost l, m :: rest)
      else if a_nak a && negb (flag I2C_M_IGNORE_NAK m) then stop_now (- ENXIO) (m :: rest) l
      else body l
  end.

Definition ref_start (idx : Z) (m : i2c_msg) (rest : list i2c_msg) (body : list answer -> i2c_run) (l : list answer) : i2c_run :=
  prefix_log [(Z.lor I2C_CMD_START I2C_CMD_WRITE, addr_byte m)] (ref_started idx m rest body l).

Definition ref_body (idx : Z) (m : i2c_msg) (rest : list i2c_msg) (next : list answer -> i2c_run) : list answer -> i2c_run :=
  if flag I2C_M_RD m then ref_read idx m rest next else ref_write idx 0 m rest next.

(** The messages from [idx] on; the first one always has a start. *)
Fixpoint ref_msgs (first : bool) (idx : Z) (ms : list i2c_msg) (l : list answer) : i2c_run :=
  match ms with
  | [] => stop_now idx [] l
  | m :: rest =>
      let next := ref_msgs false (idx + 1) rest in
      let body := ref_body idx m rest next in
      if first || negb (flag I2C_M_NOSTART m) then ref_start idx m rest body l else body l
  end.

(** Messages that the driver can transfer: a message that reads is the last, and
    has a start unless it is the first. *)
Definition msg_ok (first : bool) (m : i2c_msg) (rest : list i2c_msg) : Prop :=
  m_len m = zlen (m_buf m) /\ zlen (m_buf m) <= 65535 /\
  (flag I2C_M_RD m = true -> rest = [] /\ (flag I2C_M_NOSTART m = true -> first = true)).

Fixpoint msgs_ok (first : bool) (ms : list i2c_msg) : Prop :=
  match ms with
  | [] => True
  | m :: rest => msg_ok first m rest /\ msgs_ok false rest
  end.

Section Refine.
  Context {B : Type} `{!I2cHw B, !I2cLaws B}.
  Implicit Types s : nuc970_i2c B.

Definition vw s : i2c_view := view (bus s).

(** ** Registers *)
Lemma vw_read a s : exists v b, io_read a s = (v, s <| bus := b |>) /\ view b = vw s /\ v = fst (readl a (bus s)).
Proof.
  unfold io_read, vw; pose proof (view_read a (bus s)) as H; destruct (readl a (bus s)) as [v b]; exists v, b; done.
Qed.

Lemma land_lor_flag c : Z.land (Z.lor c IRQFLAG) IRQEN = Z.land c IRQEN.
Proof. rewrite Z.land_lor_distr_l; change (Z.land IRQFLAG IRQEN) with 0; apply Z.lor_0_r. Qed.

(** The handler acknowledges the interrupt and then acts on the status. *)
Lemma irq_ack s :
  exists c b, nuc970_i2c_irq s =
      (if v_arb (vw s) then Some ((s <| bus := b |>) <| arblost := 1 |>)
       else if decide (i_state s = STATE_IDLE) then Some (s <| bus := b |>) else i2c_nuc970_irq_nextbyte c (s <| bus := b |>)) /\
    view b = vw s /\ nz (Z.land c SLAVE_ACK) = v_nak (vw s).
Proof.
  unfold nuc970_i2c_irq; destruct (vw_read CSR s) as (c & b & -> & Hb & Hc); destruct (read_csr (bus s)) as (Hon & Hnak & Harb & _); rewrite <- Hc in *.
  exists c, (writel (Z.lor c IRQFLAG) CSR b); split_and!; [|rewrite view_csr, land_lor_flag, Hon, Hb; unfold vw; by destruct (view (bus s))|done].
  unfold vw; rewrite <- Harb; done.
Qed.

Lemma vw_write_tx b c s : vw (io_write c CMDR (io_write b TXR s)) = command c ((vw s) <| v_txr := b |>).
Proof. unfold vw, io_write; cbn; by rewrite view_cmdr, view_txr. Qed.

Lemma vw_write_cmd c s : vw (io_write c CMDR s) = command c (vw s).
Proof. unfold vw, io_write; cbn; by rewrite view_cmdr. Qed.

Lemma vw_stop r s : vw (nuc970_i2c0_stop r s) = command I2C_CMD_STOP (vw s).
Proof. unfold nuc970_i2c0_stop, vw; cbn; by rewrite view_cmdr. Qed.

(** ** Runs of the handler

    From [s] the handler, interrupt after interrupt, does what the transfer [t]
    says, [L] being the commands before. *)
Definition ends (pre : list i2c_msg) (L : list (Z * Z)) (t : i2c_run) s : Prop :=
  let '(g, v, ms) := t in
  v_log (vw s) = L ++ g /\ msgs s = pre ++ ms /\
  match v with
  | VStop r l => arblost s = 0 /\ msg_idx s = u32 r /\ i_state s = STATE_STOP /\ v_answers (vw s) = l
  | VTime i => arblost s = 0 /\ msg_idx s = i /\ complete (vw s) = None
  | VLost l => arblost s = 1 /\ v_cmd (vw s) = None /\ v_answers (vw s) = l
  end.

Definition Runs pre s L (t : i2c_run) : Prop :=
  forall fuel, (length (v_answers (vw s)) <= fuel)%nat -> exists s', wait_done fuel s = Some s' /\ ends pre L t s'.

Lemma runs_log pre s L g t : Runs pre s (L ++ g) t -> Runs pre s L (prefix_log g t).
Proof.
  intros H fuel Hf; destruct (H fuel Hf) as (s' & Hw & He); exists s'; split; [done|].
  destruct t as [[g' v] ms]; unfold ends, prefix_log in *; by rewrite app_assoc.
Qed.

Lemma runs_msg pre m s L t : Runs (pre ++ [m]) s L t -> Runs pre s L (prefix_msg m t).
Proof.
  intros H fuel Hf; destruct (H fuel Hf) as (s' & Hw & He); exists s'; split; [done|].
  destruct t as [[g' v] ms]; unfold ends, prefix_msg in *; destruct He as (-> & -> & He); by rewrite <- app_assoc.
Qed.

(** Where the handler stands: at byte [j] of message [m]. *)
Record at_pos pre m rest j s : Prop := {
  p_msgs : msgs s = pre ++ m :: rest;
  p_msg : msg s = Some (zlen pre);
  p_idx : msg_idx s = zlen pre;
  p_num : msg_num s = zlen (pre ++ m :: rest);
  p_small : zlen (pre ++ m :: rest) < 2147483648;
  p_ptr : msg_ptr s = j;
  p_arb : arblost s = 0;
  p_on : v_on (vw s) = true;
}.

(** The next interrupt ends the running command. *)
Lemma runs_step pre m rest j s c L (t : list answer -> i2c_run) :
  at_pos pre m rest j s -> v_cmd (vw s) = Some c -> i_state s <> STATE_IDLE -> v_log (vw s) = L ->
  (forall a l st b, v_answers (vw s) = a :: l -> a_arb a = false -> nz (Z.land st SLAVE_ACK) = a_nak a ->
     at_pos pre m rest j (s <| bus := b |>) -> v_log (view b) = L -> v_answers (view b) = l -> v_rxr (view b) = a_byte a -> v_cmd (view b) = None ->
     exists s1, i2c_nuc970_irq_nextbyte st (s <| bus := b |>) = Some s1 /\ (length (v_answers (vw s1)) <= length l)%nat /\ Runs pre s1 L (t (a :: l))) ->
  (v_answers (vw s) = [] -> t [] = ([], VTime (zlen pre), m :: rest)) ->
  (forall a l, v_answers (vw s) = a :: l -> a_arb a = true -> t (a :: l) = ([], VLost l, m :: rest)) ->
  Runs pre s L (t (v_answers (vw s))).
Proof.
  intros Hp Hc Hs Hlog Hgo Htime Hlost fuel Hf; pose proof (view_wait (bus s)) as Hw; fold (vw s) in Hw.
  assert (Hn : msg_num s <> 0) by (rewrite (p_num _ _ _ _ _ Hp); zlen_simpl; pose proof (zlen_nonneg pre); pose proof (zlen_nonneg rest); lia).
  destruct fuel as [|fuel]; cbn [wait_done]; rewrite (proj2 (Z.eqb_neq _ _) Hn).
  all: unfold complete in Hw; rewrite (p_on _ _ _ _ _ Hp), Hc, bind_ok in Hw; destruct (v_answers (vw s)) as [|a l] eqn:Ha.
  1,3: destruct (irq_wait (bus s)); [done|]; exists s; split; [done|]; rewrite Htime by done; unfold ends; rewrite Hlog, app_nil_r; destruct Hp; split_and!; try done; unfold complete; rewrite Ha, Hc; by destruct (v_on _).
  1: simpl in Hf; lia.
  destruct (irq_wait (bus s)) as [b|] eqn:Hb; [|done]; injection Hw as Hw.
  destruct (irq_ack (s <| bus := b |>)) as (st & b2 & -> & Hb2 & Hst); change (vw (s <| bus := b |>)) with (view b) in *; rewrite Hw in Hst, Hb2; rewrite Hw; cbn in Hst.
  assert (Hp2 : at_pos pre m rest j (s <| bus := b2 |>)) by (destruct Hp; split; try done; unfold vw; cbn; rewrite Hb2; done).
  change ((s <| bus := b |>) <| bus := b2 |>) with (s <| bus := b2 |>); cbn [v_arb]; destruct (a_arb a) eqn:Harb.
  - rewrite bind_ok; set (s2 := (s <| bus := b2 |>) <| arblost := 1 |>).
    assert (Hv2 : vw s2 = view b2) by done; assert (Hw2 : irq_wait (bus s2) = None).
    { change (irq_wait b2 = None); pose proof (view_wait b2) as H2; rewrite Hb2 in H2; unfold complete in H2; cbn in H2; rewrite (p_on _ _ _ _ _ Hp) in H2; destruct (irq_wait b2); done. }
    exists s2; split; [destruct fuel; cbn [wait_done]; change (msg_num s2) with (msg_num s); rewrite (proj2 (Z.eqb_neq _ _) Hn), Hw2; done|].
    rewrite Hlost by done; unfold ends; rewrite Hv2, Hb2; cbn; rewrite app_nil_r, Hlog; destruct Hp; done.
  - rewrite decide_False by done.
    destruct (Hgo a l st b2 eq_refl Harb Hst Hp2) as (s1 & -> & Hl & HR); [by rewrite Hb2.. |].
    rewrite bind_ok; apply HR; simpl in Hf; lia.
Qed.


Lemma cur_at pre m rest j s : at_pos pre m rest j s -> cur_msg s = Some m.
Proof.
  intros [Hm Hg _ _ _ _ _ _]; unfold cur_msg; rewrite Hg, bind_ok, Hm; apply rd_Some; split; [apply zlen_nonneg|]; by rewrite zlen_to_nat, list_lookup_middle.
Qed.

Lemma last_at pre m rest j s : at_pos pre m rest j s -> is_lastmsg s = match rest with [] => true | _ :: _ => false end.
Proof.
  intros [_ _ Hi Hn Hs _ _ _]; unfold is_lastmsg; rewrite Hi, Hn; revert Hs; zlen_simpl; intros Hs; pose proof (zlen_nonneg pre); pose proof (zlen_nonneg rest).
  rewrite u32_id by lia; destruct rest; zlen_simpl; [apply Z.leb_le; lia | apply Z.leb_gt; pose proof (zlen_nonneg rest); lia].
Qed.

(** A stop ends the transfer at once. *)
Lemma runs_stop pre s r ret ms :
  msgs s = pre ++ ms -> arblost s = 0 -> u32 ret = (if nz r then u32 r else u32 (msg_idx s + 1)) ->
  Runs pre (nuc970_i2c0_stop r s) (v_log (vw s)) (stop_now ret ms (v_answers (vw s))).
Proof.
  intros Hm Ha Hr fuel _; set (s' := nuc970_i2c0_stop r s); exists s'; split; [by destruct fuel|].
  assert (Hv : vw s' = command I2C_CMD_STOP (vw s)) by apply vw_stop.
  unfold ends, stop_now; rewrite Hv; split_and!; done.
Qed.

(** The position and the view after a command. *)
Lemma at_command pre m rest j s s' c b :
  at_pos pre m rest j s -> msgs s' = msgs s -> msg s' = msg s -> msg_num s' = msg_num s -> msg_idx s' = msg_idx s -> arblost s' = arblost s ->
  vw s' = command c ((vw s) <| v_txr := b |>) -> at_pos pre m rest (msg_ptr s') s'.
Proof. intros [] H1 H2 H3 H4 H5 H6; split; rewrite ?H1, ?H2, ?H3, ?H4, ?H5, ?H6; done. Qed.

(** ** Writing *)
Definition at_end pre m rest (next : list answer -> i2c_run) : Prop :=
  forall s fuel, at_pos pre m rest (m_len m) s -> i_state s = STATE_WRITE -> (length rest < fuel)%nat ->
  exists s1, retry_write fuel s = Some s1 /\ (length (v_answers (vw s1)) <= length (v_answers (vw s)))%nat /\
    Runs pre s1 (v_log (vw s)) (prefix_msg m (next (v_answers (vw s)))).

Lemma write_runs pre m rest next n : forall j s fuel,
  m_len m = zlen (m_buf m) -> zlen (m_buf m) <= 65535 -> at_end pre m rest next ->
  at_pos pre m rest j s -> i_state s = STATE_WRITE -> (length rest < fuel)%nat -> 0 <= j -> j + Z.of_nat n = zlen (m_buf m) ->
  exists s1, retry_write fuel s = Some s1 /\ (length (v_answers (vw s1)) <= length (v_answers (vw s)))%nat /\
    Runs pre s1 (v_log (vw s)) (ref_write (zlen pre) j m rest next (v_answers (vw s))).
Proof.
  induction n as [|n IH]; intros j s fuel Hl Hmax Hend Hp Hs Hf Hj Hn.
  - destruct (Hend s fuel) as (s1 & H1 & H2 & H3); [by replace (m_len m) with j by lia | done | done |]; exists s1; split_and!; try done.
    unfold ref_write; rewrite drop_ge by (unfold zlen in *; lia); cbn [ref_send]; apply runs_log; by rewrite app_nil_r.
  - destruct fuel as [|fuel]; [lia|]; cbn [retry_write]; rewrite (cur_at _ _ _ _ _ Hp), bind_ok; unfold is_msgend; rewrite (p_ptr _ _ _ _ _ Hp).
    rewrite (proj2 (Z.leb_gt _ _)) by lia; cbn [negb]; destruct (rd_in (m_buf m) j) as [b Hb]; [lia|]; rewrite Hb, bind_ok.
    set (s0 := s <| msg_ptr := u32 (j + 1) |>); set (s1 := io_write I2C_CMD_WRITE CMDR (io_write b TXR s0)); exists s1; split; [done|].
    assert (Hv : vw s1 = command I2C_CMD_WRITE ((vw s) <| v_txr := b |>)) by exact (vw_write_tx b I2C_CMD_WRITE s0); split; [by rewrite Hv|].
    assert (Hp1 : at_pos pre m rest (j + 1) s1).
    { rewrite <- (u32_id (j + 1)) by lia; change (u32 (j + 1)) with (msg_ptr s1); by apply (at_command pre m rest j s s1 I2C_CMD_WRITE b). }
    assert (Hdrop : drop (Z.to_nat j) (m_buf m) = b :: drop (Z.to_nat (j + 1)) (m_buf m)).
    { replace (Z.to_nat (j + 1)) with (S (Z.to_nat j)) by lia; apply drop_S; by apply rd_Some in Hb as [_ Hb]. }
    unfold ref_write; rewrite Hdrop; cbn [ref_send].
    set (t := fun l => match l with [] => ([], VTime (zlen pre), m :: rest) | a :: l =>
        if a_arb a then ([], VLost l, m :: rest)
        else if a_nak a && negb (flag I2C_M_IGNORE_NAK m) then stop_now (- ECONNREFUSED) (m :: rest) l
        else ref_write (zlen pre) (j + 1) m rest next l end : i2c_run).
    assert (Ht : Runs pre s1 (v_log (vw s) ++ [(I2C_CMD_WRITE, b)]) (t (v_answers (vw s1)))).
    { apply (runs_step pre m rest (j + 1) s1 I2C_CMD_WRITE); try done; [by rewrite Hv | by change (i_state s1) with (i_state s); rewrite Hs | by rewrite Hv | | intros a l _ Ha; unfold t; by rewrite Ha].
      intros a l st b2 Hans Ha Hst Hp2 HL HA _ _; unfold i2c_nuc970_irq_nextbyte.
      change (i_state (s1 <| bus := b2 |>)) with (i_state s); rewrite Hs; unfold write_state; rewrite (cur_at _ _ _ _ _ Hp2), bind_ok, Hst.
      set (s2 := s1 <| bus := b2 |>) in *; change (view b2) with (vw s2) in *.
      unfold t; rewrite Ha, andb_comm; destruct (a_nak a && negb (flag I2C_M_IGNORE_NAK m)).
      - eexists; split; [done|]; split; [rewrite vw_stop; change (length (v_answers (vw s2)) <= length l)%nat; by rewrite HA|].
        rewrite <- HL, <- HA; apply runs_stop; [apply (p_msgs _ _ _ _ _ Hp2) | apply (p_arb _ _ _ _ _ Hp2) | done].
      - destruct (IH (j + 1) s2 (S (length (msgs s2)))) as (s3 & H3 & H4 & H5); try done; [|lia|lia|].
        + rewrite (p_msgs _ _ _ _ _ Hp2), length_app; simpl; lia.
        + exists s3; rewrite H3; rewrite HA in H4, H5; rewrite HL in H5; done. }
    rewrite Hv in Ht; change (v_answers (command I2C_CMD_WRITE ((vw s) <| v_txr := b |>))) with (v_answers (vw s)) in Ht.
    apply runs_log in Ht; destruct (v_answers (vw s)) as [|a l]; [done|]; unfold t in Ht; unfold ref_write in Ht.
    destruct (a_arb a); [done|]; destruct (a_nak a && negb (flag I2C_M_IGNORE_NAK m)); [done|].
    destruct (ref_send (flag I2C_M_IGNORE_NAK m) (drop (Z.to_nat (j + 1)) (m_buf m)) l) as [g p]; by destruct (ref_next (zlen pre) m rest p next) as [[g' v] ms].
Qed.


(** ** Reading *)
Definition stored (j : Z) (m : i2c_msg) (bs : list Z) : i2c_msg :=
  m <| m_buf := take (Z.to_nat j) (m_buf m) ++ bs ++ drop (Z.to_nat j + length bs) (m_buf m) |>.

Lemma stored_nil j m : stored j m [] = m.
Proof. unfold stored; destruct m as [a f l b]; cbn; by rewrite Nat.add_0_r, take_drop. Qed.

Lemma stored_cons j m b bs :
  0 <= j < zlen (m_buf m) -> stored (j + 1) (m <| m_buf := <[Z.to_nat j := b]> (m_buf m) |>) bs = stored j m (b :: bs).
Proof.
  intros Hj; unfold stored; destruct m as [a f l buf]; cbn in *; f_equal; replace (Z.to_nat (j + 1)) with (S (Z.to_nat j)) by lia.
  assert (Hl : (Z.to_nat j < length buf)%nat) by (unfold zlen in Hj; lia).
  rewrite insert_take_drop by done; assert (Ht : length (take (Z.to_nat j) buf) = Z.to_nat j) by (rewrite length_take; lia).
  rewrite take_app_ge, drop_app_ge by lia; rewrite Ht.
  replace (S (Z.to_nat j) - Z.to_nat j)%nat with 1%nat by lia; replace (S (Z.to_nat j) + length bs - Z.to_nat j)%nat with (S (length bs)) by lia.
  cbn; rewrite take_0, drop_drop, <- app_assoc; cbn; do 4 f_equal; lia.
Qed.

(** The handler stores the byte and goes on. *)
Lemma read_state_at pre m rest j s :
  at_pos pre m rest j s -> 0 <= j < zlen (m_buf m) -> zlen (m_buf m) <= 65535 ->
  exists s1, read_state s = prepare_read s1 /\ vw s1 = vw s /\ i_state s1 = i_state s /\
    at_pos pre (m <| m_buf := <[Z.to_nat j := v_rxr (vw s)]> (m_buf m) |>) rest (j + 1) s1.
Proof.
  intros Hp Hj Hm; unfold read_state; destruct (vw_read RXR s) as (v & b & -> & Hb & Hv); pose proof (read_rxr (bus s)) as Hr; rewrite <- Hv in Hr; fold (vw s) in Hr.
  change (msg (s <| bus := b |>)) with (msg s); change (msgs (s <| bus := b |>)) with (msgs s); change (msg_ptr (s <| bus := b |>)) with (msg_ptr s).
  pose proof (cur_at _ _ _ _ _ Hp) as Hc; unfold cur_msg in Hc; destruct Hp as [Hms Hmsg Hi Hn Hs Hptr Ha Ho]; rewrite Hmsg in Hc |- *; rewrite bind_ok in Hc; rewrite bind_ok, Hc, bind_ok, Hptr, wr_in, bind_ok by done.
  rewrite wr_in, bind_ok by (apply rd_range in Hc; done); eexists; split; [done|]; split; [exact Hb|]; split; [done|].
  split; cbn; rewrite ?Hr; try done.
  - rewrite Hms, zlen_to_nat; by rewrite insert_app_r_alt, Nat.sub_diag by lia.
  - by rewrite Hn; zlen_simpl.
  - by revert Hs; zlen_simpl.
  - apply u32_id; lia.
  - unfold vw; cbn; by rewrite Hb.
Qed.

(** A read command, and what follows the byte. *)
Definition read_step (pre : list i2c_msg) m rest (j c : Z) (cont : i2c_msg -> list answer -> i2c_run) (l : list answer) : i2c_run :=
  prefix_log [(c, 0)]
    match l with
    | [] => ([], VTime (zlen pre), m :: rest)
    | a :: l => if a_arb a then ([], VLost l, m :: rest) else cont (m <| m_buf := <[Z.to_nat j := a_byte a]> (m_buf m) |>) l
    end.

Lemma read_step_runs pre m rest j s c cont :
  at_pos pre m rest j s -> i_state s = STATE_READ -> 0 <= j < zlen (m_buf m) -> zlen (m_buf m) <= 65535 -> on_bus c (v_txr (vw s)) = (c, 0) ->
  (forall a l s3, v_answers (vw s) = a :: l -> a_arb a = false -> at_pos pre (m <| m_buf := <[Z.to_nat j := a_byte a]> (m_buf m) |>) rest (j + 1) s3 ->
     i_state s3 = STATE_READ -> v_answers (vw s3) = l -> v_cmd (vw s3) = None -> exists s4, prepare_read s3 = Some s4 /\ (length (v_answers (vw s4)) <= length l)%nat /\
       Runs pre s4 (v_log (vw s3)) (cont (m <| m_buf := <[Z.to_nat j := a_byte a]> (m_buf m) |>) l)) ->
  Runs pre (io_write c CMDR s) (v_log (vw s)) (read_step pre m rest j c cont (v_answers (vw s))).
Proof.
  intros Hp Hs Hj Hmax Hbus Hcont; set (s1 := io_write c CMDR s); assert (Hv : vw s1 = command c (vw s)) by apply vw_write_cmd.
  assert (Hp1 : at_pos pre m rest j s1) by (rewrite <- (p_ptr _ _ _ _ _ Hp); apply (at_command pre m rest j s s1 c (v_txr (vw s))); try done; rewrite Hv; by destruct (vw s)).
  assert (Hlog : v_log (vw s1) = v_log (vw s) ++ [(c, 0)]) by (rewrite Hv; cbn; by rewrite Hbus).
  apply runs_log; replace (v_answers (vw s)) with (v_answers (vw s1)) by (by rewrite Hv).
  match goal with |- Runs _ _ _ (match _ with [] => ?t0 | a :: l => @?t1 a l end) => set (t := fun l => match l with [] => t0 | a :: l => t1 a l end) end.
  change (Runs pre s1 (v_log (vw s) ++ [(c, 0)]) (t (v_answers (vw s1)))).
  apply (runs_step pre m rest j s1 c); try done; [by rewrite Hv | by change (i_state s1) with (i_state s); rewrite Hs | | intros a l _ Ha; unfold t; by rewrite Ha].
  intros a l st b2 Hans Ha Hst Hp2 HL HA HR Hc; unfold i2c_nuc970_irq_nextbyte; change (i_state (s1 <| bus := b2 |>)) with (i_state s); rewrite Hs.
  set (s2 := s1 <| bus := b2 |>) in *; change (view b2) with (vw s2) in *; destruct (read_state_at _ _ _ _ _ Hp2) as (s3 & -> & Hv3 & Hs3 & Hp3); [lia|done|].
  rewrite HR in Hp3; destruct (Hcont a l s3) as (s4 & H4 & H5 & H6); [by rewrite <- Hans, Hv | done | done | by rewrite Hs3 | by rewrite Hv3 | by rewrite Hv3 |].
  exists s4; rewrite H4; rewrite Hv3, HL in H6; unfold t; rewrite Ha; done.
Qed.

(** The bytes of the last message, from byte [j] on. *)
Definition read_tail (pre : list i2c_msg) m j n (l : list answer) : i2c_run :=
  let '(g, bs, p) := ref_recv n l in
  prefix_log g (ref_next (zlen pre) (stored j m bs) [] p (stop_now (zlen pre + 1) [])).

Lemma read_runs pre n : forall m j s,
  m_len m = zlen (m_buf m) -> zlen (m_buf m) <= 65535 ->
  at_pos pre m [] j s -> i_state s = STATE_READ -> 0 <= j -> j + Z.of_nat n = zlen (m_buf m) ->
  exists s1, prepare_read s = Some s1 /\ (length (v_answers (vw s1)) <= length (v_answers (vw s)))%nat /\
    Runs pre s1 (v_log (vw s)) (read_tail pre m j n (v_answers (vw s))).
Proof.
  induction n as [|n IH]; intros m j s Hl Hmax Hp Hs Hj Hn; unfold prepare_read; rewrite (cur_at _ _ _ _ _ Hp), bind_ok; unfold is_msglast, is_msgend; rewrite (p_ptr _ _ _ _ _ Hp), (last_at _ _ _ _ _ Hp), Hl.
  - assert (Hne : j <> u32 (zlen (m_buf m) - 1)).
    { destruct (Z.eq_dec (zlen (m_buf m)) 0) as [E|E]; [rewrite E; change (u32 (0 - 1)) with 4294967295; lia | pose proof (zlen_nonneg (m_buf m)); rewrite u32_id; lia]. }
    rewrite (proj2 (Z.eqb_neq _ _) Hne), (proj2 (Z.leb_le _ _)) by lia.
    eexists; split; [done|]; split; [by rewrite vw_stop|]; unfold read_tail; cbn [ref_recv]; unfold ref_next; rewrite stored_nil.
    apply (runs_stop pre s 0 (zlen pre + 1) [m]); [by destruct Hp | by destruct Hp|]; by rewrite (p_idx _ _ _ _ _ Hp).
  - rewrite u32_id by lia; set (c := match n with O => Z.lor I2C_CMD_READ I2C_CMD_NACK | S _ => I2C_CMD_READ end).
    exists (io_write c CMDR s); split; [unfold c; destruct n; [by rewrite (proj2 (Z.eqb_eq _ _)) by lia|]; by rewrite (proj2 (Z.eqb_neq _ _)), (proj2 (Z.leb_gt _ _)) by lia|].
    split; [by rewrite vw_write_cmd|].
    assert (Hr : Runs pre (io_write c CMDR s) (v_log (vw s)) (read_step pre m [] j c (fun m3 => read_tail pre m3 (j + 1) n) (v_answers (vw s)))).
    { apply read_step_runs; try done; [lia | unfold c; by destruct n |].
      intros a l s3 _ _ Hp3 Hs3 <- _; apply IH; try done; [by cbn; rewrite zlen_insert | by cbn; rewrite zlen_insert | lia | cbn; rewrite zlen_insert; lia]. }
    unfold read_tail, read_step in *; cbn [ref_recv]; fold c.
    destruct (v_answers (vw s)) as [|a l]; [by rewrite stored_nil|]; destruct (a_arb a); [by rewrite stored_nil|].
    destruct (ref_recv n l) as [[g bs] p]; rewrite stored_cons in Hr by lia; by destruct (ref_next (zlen pre) (stored j m (a_byte a :: bs)) [] p (stop_now (zlen pre + 1) [])) as [[g' v] ms].
Qed.

(** ** Messages *)
Lemma start_state_runs pre m rest s st first l :
  msg_ok first m rest -> at_end pre m rest (ref_msgs false (zlen pre + 1) rest) -> at_pos pre m rest 0 s -> i_state s = STATE_START ->
  v_answers (vw s) = l -> nz (Z.land st SLAVE_ACK) && negb (flag I2C_M_IGNORE_NAK m) = false ->
  exists s1, start_state st s = Some s1 /\ (length (v_answers (vw s1)) <= length l)%nat /\
    Runs pre s1 (v_log (vw s)) (ref_body (zlen pre) m rest (ref_msgs false (zlen pre + 1) rest) l).
Proof.
  intros (Hl & Hmax & Hrd) Hend Hp Hs Hans Hok; unfold start_state; rewrite (cur_at _ _ _ _ _ Hp), bind_ok, Hok.
  set (s2 := s <| i_state := if flag I2C_M_RD m then STATE_READ else STATE_WRITE |>); change (vw s) with (vw s2) in *.
  assert (Hp2 : at_pos pre m rest 0 s2) by (destruct Hp; by split); rewrite (last_at _ _ _ _ _ Hp2); subst l; unfold ref_body.
  match goal with |- context [?x && (m_len m =? 0)] => destruct (x && (m_len m =? 0)) eqn:Hz end; zbool.
  - destruct rest; [|done]; assert (Hb : m_buf m = []) by (destruct (m_buf m); [done|]; zlen_simpl; pose proof (zlen_nonneg l); lia).
    eexists; split; [done|]; split; [by rewrite vw_stop|].
    assert (Hr : Runs pre (nuc970_i2c0_stop 0 s2) (v_log (vw s2)) (stop_now (zlen pre + 1) [m] (v_answers (vw s2)))).
    { apply runs_stop; [by destruct Hp2 | by destruct Hp2 |]; by rewrite (p_idx _ _ _ _ _ Hp2). }
    destruct (flag I2C_M_RD m); unfold ref_read, ref_write, received; rewrite Hb; cbn; [|exact Hr]; destruct m; cbn in *; by subst.
  - assert (Hs2 : i_state s2 = if flag I2C_M_RD m then STATE_READ else STATE_WRITE) by done; clearbody s2; destruct (flag I2C_M_RD m) eqn:Hf; [rewrite decide_True by done | rewrite decide_False by (by rewrite Hs2)].
    + destruct (Hrd eq_refl) as [-> _]; destruct (read_runs pre (length (m_buf m)) m 0 s2) as (s1 & H1 & H2 & H3); try done; exists s1; split_and!; [exact H1 | exact H2 | exact H3].
    + unfold write_state; rewrite (cur_at _ _ _ _ _ Hp2), bind_ok, andb_comm, Hok.
      apply (write_runs pre m rest _ (length (m_buf m))); try done; rewrite (p_msgs _ _ _ _ _ Hp2), length_app; simpl; lia.
Qed.

Lemma start_runs pre m rest s c first :
  msg_ok first m rest -> at_end pre m rest (ref_msgs false (zlen pre + 1) rest) -> at_pos pre m rest 0 s -> i_state s = STATE_START -> v_cmd (vw s) = Some c ->
  Runs pre s (v_log (vw s)) (ref_started (zlen pre) m rest (ref_body (zlen pre) m rest (ref_msgs false (zlen pre + 1) rest)) (v_answers (vw s))).
Proof.
  intros Hok Hend Hp Hs Hc; apply (runs_step pre m rest 0 s c _ (ref_started (zlen pre) m rest (ref_body (zlen pre) m rest (ref_msgs false (zlen pre + 1) rest)))); try done;
    [by rewrite Hs | | intros a l _ Ha; unfold ref_started; by rewrite Ha].
  intros a l st b Hans Ha Hst Hp2 HL HA _ _; unfold i2c_nuc970_irq_nextbyte, ref_started; change (i_state (s <| bus := b |>)) with (i_state s); rewrite Hs, Ha.
  set (s2 := s <| bus := b |>) in *; change (view b) with (vw s2) in *; rewrite <- HL; destruct (a_nak a && negb (flag I2C_M_IGNORE_NAK m)) eqn:Hnak; rewrite <- Hst in Hnak.
  - unfold start_state; rewrite (cur_at _ _ _ _ _ Hp2), bind_ok, Hnak; eexists; split; [done|]; split; [rewrite vw_stop; change (length (v_answers (vw s2)) <= length l)%nat; by rewrite HA|].
    rewrite <- HA; apply runs_stop; [by destruct Hp2 | by destruct Hp2 | done].
  - by apply (start_state_runs pre m rest s2 st first).
Qed.

Lemma vw_start m s : vw (nuc970_i2c0_message_start m s) = command (Z.lor I2C_CMD_START I2C_CMD_WRITE) ((vw s) <| v_txr := addr_byte m |>).
Proof. apply vw_write_tx. Qed.

Lemma at_next pre m m2 rest j s : at_pos pre m (m2 :: rest) j s -> at_pos (pre ++ [m]) m2 rest 0 (next_msg s).
Proof.
  intros [Hms Hmsg Hi Hn Hs _ Ha Ho]; split; cbn; rewrite <- ?app_assoc; try done.
  - rewrite Hmsg; cbn; f_equal; zlia.
  - rewrite Hi; revert Hs; zlen_simpl; intros; pose proof (zlen_nonneg pre); pose proof (zlen_nonneg rest); rewrite u32_id; lia.
Qed.

Lemma messages_run rest : forall pre m, msgs_ok false rest -> at_end pre m rest (ref_msgs false (zlen pre + 1) rest).
Proof.
  induction rest as [|m2 rest IH]; intros pre m Hok s fuel Hp Hs Hf; (destruct fuel as [|fuel]; [simpl in Hf; lia|]);
    cbn [retry_write]; rewrite (cur_at _ _ _ _ _ Hp), bind_ok; unfold is_msgend; rewrite (p_ptr _ _ _ _ _ Hp), Z.leb_refl, (last_at _ _ _ _ _ Hp); cbn [negb].
  - eexists; split; [done|]; split; [by rewrite vw_stop|]; apply (runs_stop pre s 0 (zlen pre + 1) [m]); [by destruct Hp | by destruct Hp |]; by rewrite (p_idx _ _ _ _ _ Hp).
  - pose proof (at_next _ _ _ _ _ _ Hp) as Hp2; rewrite (cur_at _ _ _ _ _ Hp2), bind_ok; destruct Hok as [Hok Hoks]; pose proof (IH (pre ++ [m]) m2 Hoks) as Hend.
    set (s2 := next_msg s) in *; change (vw s) with (vw s2); replace (zlen pre + 1) with (zlen (pre ++ [m])) by zlia; destruct (flag I2C_M_NOSTART m2) eqn:Hns.
    + pose proof Hok as (Hl & Hmax & Hrd); destruct (flag I2C_M_RD m2) eqn:Hfr; [by destruct (Hrd eq_refl) as [_ Hx]; specialize (Hx Hns)|].
      destruct (write_runs (pre ++ [m]) m2 rest _ (length (m_buf m2)) 0 s2 fuel Hl Hmax Hend Hp2) as (s1 & H1 & H2 & H3); [done | simpl in Hf; lia | done | done |].
      exists s1; split_and!; try done; apply runs_msg; cbn [ref_msgs]; rewrite Hns; unfold ref_body; rewrite Hfr; exact H3.
    + set (s3 := (nuc970_i2c0_message_start m2 s2) <| i_state := STATE_START |>); exists s3; split; [done|].
      assert (Hv : vw s3 = command (Z.lor I2C_CMD_START I2C_CMD_WRITE) ((vw s2) <| v_txr := addr_byte m2 |>)) by apply vw_start; split; [by rewrite Hv|].
      apply runs_msg; cbn [ref_msgs]; rewrite Hns; cbn [negb orb]; apply runs_log.
      change (v_answers (vw s2)) with (v_answers (command (Z.lor I2C_CMD_START I2C_CMD_WRITE) ((vw s2) <| v_txr := addr_byte m2 |>))); rewrite <- Hv.
      replace (v_log (vw s2) ++ _) with (v_log (vw s3)) by (by rewrite Hv); apply (start_runs (pre ++ [m]) m2 rest s3 (Z.lor I2C_CMD_START I2C_CMD_WRITE) false); try done; [|by rewrite Hv].
      change 0 with (msg_ptr s3); by apply (at_command _ m2 rest 0 s2 s3 (Z.lor I2C_CMD_START I2C_CMD_WRITE) (addr_byte m2)).
Qed.
End Refine.

(** ** A controller that keeps the laws: the view itself *)
Definition byte_answer (a : answer) : answer := mk_answer (a_nak a) (a_arb a) (u8 (a_byte a)).

Definition csr_of (v : i2c_view) : Z :=
  Z.lor (Z.lor (if v_on v then IRQEN else 0) (if v_nak v then SLAVE_ACK else 0)) (Z.lor (if v_arb v then ARBIT_LOST else 0) (if v_busy v then I2CBUSY else 0)).

#[export] Instance ref_ctl : I2cHw i2c_view := {
  readl a v := (if a =? CSR then csr_of v else if a =? RXR then v_rxr v else if a =? SWR then I2CSTART else 0, v);
  writel x a v :=
    if a =? TXR then v <| v_txr := x |> else if a =? CMDR then command x v
    else if a =? CSR then v <| v_on := Z.land x IRQEN =? IRQEN |> else v;
  irq_wait := complete;
  irq_now := complete;
}.

Definition byte_view (v : i2c_view) : i2c_view := v <| v_rxr := u8 (v_rxr v) |> <| v_answers := map byte_answer (v_answers v) |>.

Lemma byte_complete v : byte_view <$> complete v = complete (byte_view v).
Proof. unfold complete; cbn; destruct (v_on v); [|done]; destruct (v_cmd v); [|done]; cbn; by destruct (v_answers v). Qed.

#[export] Instance ref_ctl_laws : I2cLaws i2c_view.
Proof.
  refine {| view := byte_view |}; try done.
  - intros v; cbn; unfold csr_of; destruct (v_on v), (v_nak v), (v_arb v), (v_busy v); split_and!; done.
  - apply byte_complete.
  - intros v v' H; change (complete v = Some v') in H; rewrite <- byte_complete, H; done.
Defined.

(** Registers idle, with the answers of the slave to come. *)
Definition idle_bus (l : list answer) : nuc970_i2c i2c_view :=
  mk_i2c [] None 0 0 0 0 STATE_IDLE (mk_view false 0 None false false 0 false [] l).
