(* ===== verification/I2cMain.v ===== *)
(** The theorems on the I2C driver: a transfer is the reference transfer of
    [I2cSpec]; the interrupt handler keeps its state well formed; a lost bus and
    a read that is not the last message. *)
From S2P Require Import Prelude I2c I2cSpec.

(** ** How the reference ends *)
Definition lost_at (l l' : list answer) : Prop := exists p a, l = p ++ a :: l' /\ a_arb a = true.

Lemma lost_at_suffix l1 l2 l3 : l2 `suffix_of` l1 -> lost_at l2 l3 -> lost_at l1 l3.
Proof. intros [p ->] (q & a & -> & Ha); exists (p ++ q), a; by rewrite <- app_assoc. Qed.

Definition phase_ok (l : list answer) (p : phase) : Prop :=
  match p with Ended l' | Refused l' => l' `suffix_of` l | Lost l' => lost_at l l' | Silent => True end.

Lemma phase_cons a l p : phase_ok l p -> phase_ok (a :: l) p.
Proof.
  destruct p; cbn; intros H; try done; try (by apply suffix_cons_r); apply (lost_at_suffix _ l); [by apply suffix_cons_r | done].
Qed.

Lemma lost_here a l : a_arb a = true -> lost_at (a :: l) l.
Proof. intros Ha; by exists [], a. Qed.

Lemma ref_send_phase ig bytes : forall l, phase_ok l (ref_send ig bytes l).2.
Proof.
  induction bytes as [|b bytes IH]; intros l; [by exists []|]; cbn [ref_send]; destruct l as [|a l]; [done|]; destruct (a_arb a) eqn:Ha; [by apply lost_here|].
  destruct (a_nak a && negb ig); [by apply suffix_cons_r|]; specialize (IH l); destruct (ref_send ig bytes l); by apply phase_cons.
Qed.

Lemma ref_recv_phase n : forall l, phase_ok l (ref_recv n l).2.
Proof.
  induction n as [|n IH]; intros l; [by exists []|]; cbn [ref_recv]; destruct l as [|a l]; [done|]; destruct (a_arb a) eqn:Ha; [by apply lost_here|].
  specialize (IH l); destruct (ref_recv n l) as [[g bs] p]; by apply phase_cons.
Qed.

Definition verdict_ok (lo hi : Z) (l : list answer) (v : verdict) : Prop :=
  match v with
  | VStop r l' => (r = - ENXIO \/ r = - ECONNREFUSED \/ r = hi) /\ l' `suffix_of` l
  | VTime i => lo <= i < hi
  | VLost l' => lost_at l l'
  end.

Definition verdict_of (t : i2c_run) : verdict := t.1.2.

Lemma verdict_log g t : verdict_of (prefix_log g t) = verdict_of t.
Proof. by destruct t as [[? ?] ?]. Qed.

Lemma verdict_msg m t : verdict_of (prefix_msg m t) = verdict_of t.
Proof. by destruct t as [[? ?] ?]. Qed.

Lemma verdict_suffix lo hi l l' v : l' `suffix_of` l -> verdict_ok lo hi l' v -> verdict_ok lo hi l v.
Proof.
  intros Hs; destruct v; cbn; [|done|]; [intros [? ?]; split; [done|]; by transitivity l' | by apply lost_at_suffix].
Qed.

Lemma ref_next_verdict idx hi m rest p next l :
  phase_ok l p -> idx < hi -> (forall l', verdict_ok (idx + 1) hi l' (verdict_of (next l'))) ->
  verdict_ok idx hi l (verdict_of (ref_next idx m rest p next)).
Proof.
  intros Hp Hlt Hn; destruct p as [l'|l'|l'|]; cbn in *; [|by auto|done|lia].
  rewrite verdict_msg; apply (verdict_suffix _ _ _ l'); [done|]; specialize (Hn l'); destruct (verdict_of (next l')); cbn in *; [done|lia|done].
Qed.

Lemma ref_body_verdict idx hi m rest next l :
  idx < hi -> (forall l', verdict_ok (idx + 1) hi l' (verdict_of (next l'))) -> verdict_ok idx hi l (verdict_of (ref_body idx m rest next l)).
Proof.
  intros Hlt Hn; unfold ref_body; destruct (flag I2C_M_RD m).
  - unfold ref_read; pose proof (ref_recv_phase (length (m_buf m)) l) as Hp; destruct (ref_recv (length (m_buf m)) l) as [[g bs] p].
    rewrite verdict_log; by apply ref_next_verdict.
  - unfold ref_write; pose proof (ref_send_phase (flag I2C_M_IGNORE_NAK m) (drop (Z.to_nat 0) (m_buf m)) l) as Hp; destruct (ref_send _ _ l) as [g p].
    rewrite verdict_log; by apply ref_next_verdict.
Qed.

Lemma ref_msgs_verdict ms : forall first idx l, verdict_ok idx (idx + zlen ms) l (verdict_of (ref_msgs first idx ms l)).
Proof.
  induction ms as [|m rest IH]; intros first idx l; cbn [ref_msgs]; [cbn; split; [right; right; zlen_simpl; lia | done]|].
  assert (Hb : forall l', verdict_ok idx (idx + zlen (m :: rest)) l' (verdict_of (ref_body idx m rest (ref_msgs false (idx + 1) rest) l'))).
  { intros l'; apply ref_body_verdict; [zlen_simpl; pose proof (zlen_nonneg rest); lia|]; intros l2; specialize (IH false (idx + 1) l2); zlen_simpl.
    by replace (idx + (1 + zlen rest)) with (idx + 1 + zlen rest) by lia. }
  destruct (first || negb (flag I2C_M_NOSTART m)); [|apply Hb]; unfold ref_start, ref_started; rewrite verdict_log.
  destruct l as [|a l]; [cbn; zlen_simpl; pose proof (zlen_nonneg rest); lia|]; destruct (a_arb a) eqn:Ha; [by apply lost_here|].
  destruct (_ && _); [cbn; split; [by left | by apply suffix_cons_r]|]; apply (verdict_suffix _ _ _ l); [by apply suffix_cons_r | apply Hb].
Qed.

Lemma length_log g t : length (prefix_log g t).2 = length t.2.
Proof. by destruct t as [[? ?] ?]. Qed.

Lemma length_msg m t : length (prefix_msg m t).2 = S (length t.2).
Proof. by destruct t as [[? ?] ?]. Qed.

(** The reference keeps the number of messages. *)
Lemma ref_msgs_length ms : forall first idx l, length (ref_msgs first idx ms l).2 = length ms.
Proof.
  induction ms as [|m rest IH]; intros first idx l; [done|]; cbn [ref_msgs].
  assert (Hn : forall m' p, length (ref_next idx m' rest p (ref_msgs false (idx + 1) rest)).2 = S (length rest)).
  { intros m' p; destruct p; cbn [ref_next]; try done; by rewrite length_msg, IH. }
  assert (Hb : forall l', length (ref_body idx m rest (ref_msgs false (idx + 1) rest) l').2 = S (length rest)).
  { intros l'; unfold ref_body, ref_read, ref_write; destruct (flag I2C_M_RD m).
    - destruct (ref_recv _ _) as [[g bs] p]; by rewrite length_log, Hn.
    - destruct (ref_send _ _ _) as [g p]; by rewrite length_log, Hn. }
  destruct (first || _); [|apply Hb]; unfold ref_start; rewrite length_log; unfold ref_started; destruct l as [|a l]; [done|].
  destruct (a_arb a); [done|]; destruct (_ && _); [done | apply Hb].
Qed.

(** The answers without a loss of the bus. *)
Definition undisturbed (l : list answer) : Prop := Forall (fun a => a_arb a = false) l.

Lemma undisturbed_suffix l l' : l' `suffix_of` l -> undisturbed l -> undisturbed l'.
Proof. intros [p ->] H; by apply Forall_app in H as [_ H]. Qed.

Lemma undisturbed_lost l l' : undisturbed l -> ~ lost_at l l'.
Proof. intros H (p & a & -> & Ha); apply Forall_app in H as [_ H]; apply Forall_cons in H as [H _]; congruence. Qed.

Section Main.
  Context {B : Type} `{!I2cHw B, !I2cLaws B}.
  Implicit Types s : nuc970_i2c B.

(** ** After the transfer *)

(** No command that could interrupt; or a stop, which ends without trouble. *)
Definition still s : Prop := complete (vw s) = None.
Definition quiet s : Prop := still s \/ (i_state s = STATE_STOP \/ i_state s = STATE_IDLE) /\ undisturbed (v_answers (vw s)).

(** What stays the same while the driver waits for the bus. *)
Definition kept s s' : Prop := msgs s' = msgs s /\ v_log (vw s') = v_log (vw s) /\ arblost s' = arblost s.

#[local] Instance kept_trans : Transitive kept.
Proof. intros a b c (H1 & H2 & H3) (K1 & K2 & K3); split_and!; congruence. Qed.

Lemma vw_disable s : exists b, nuc970_i2c0_disable_irq s = s <| bus := b |> /\ view b = (vw s) <| v_on := false |>.
Proof.
  unfold nuc970_i2c0_disable_irq; destruct (vw_read CSR s) as (c & b & -> & Hb & _); exists (writel (Z.land c (Z.lnot IRQEN)) CSR b); split; [done|]; rewrite view_csr, Hb.
  rewrite <- Z.land_assoc; change (Z.land (Z.lnot IRQEN) IRQEN) with 0; by rewrite Z.land_0_r.
Qed.

Lemma vw_enable s : exists b, nuc970_i2c0_enable_irq s = s <| bus := b |> /\ view b = (vw s) <| v_on := true |>.
Proof.
  unfold nuc970_i2c0_enable_irq; destruct (vw_read CSR s) as (c & b & -> & Hb & _); exists (writel (Z.lor c IRQEN) CSR b); split; [done|]; rewrite view_csr, Hb.
  replace (Z.land (Z.lor c IRQEN) IRQEN) with IRQEN; [done|]; apply Z.bits_inj'; intros n Hn; rewrite Z.land_spec, Z.lor_spec; by destruct (Z.testbit c n), (Z.testbit IRQEN n).
Qed.

Lemma preempt_still s : still s -> preempt s = Some s.
Proof.
  intros Hs; unfold preempt; destruct (irq_now (bus s)) as [b|] eqn:E; [|done]; apply view_now in E; unfold still, vw in Hs; by rewrite Hs in E.
Qed.

Lemma preempt_quiet s : quiet s -> exists s', preempt s = Some s' /\ quiet s' /\ kept s s'.
Proof.
  intros [Hs|[Hi Hu]]; [exists s; split; [by apply preempt_still|]; by split; [left|]|].
  unfold preempt; destruct (irq_now (bus s)) as [b|] eqn:E; [|exists s; split; [done|]; by split; [right|]].
  apply view_now in E; fold (vw s) in E; unfold complete in E; destruct (v_on (vw s)); [|done]; destruct (v_cmd (vw s)) as [c|]; [|done]; rewrite bind_ok in E.
  destruct (v_answers (vw s)) as [|a l] eqn:Hans; [done|]; injection E as E; apply Forall_cons in Hu as [Ha Hu].
  destruct (irq_ack (s <| bus := b |>)) as (st & b2 & -> & Hb2 & _); change (vw (s <| bus := b |>)) with (view b) in *; rewrite E in Hb2; rewrite E; cbn [v_arb]; rewrite Ha.
  destruct (decide _) as [Hd|Hd].
  - eexists; split; [done|]; split; [right; split; [done|]; unfold vw; cbn; by rewrite Hb2 | split_and!; try done; unfold vw; cbn; by rewrite Hb2].
  - destruct Hi as [Hi|Hi]; [|done]; unfold i2c_nuc970_irq_nextbyte; change (i_state ((s <| bus := b |>) <| bus := b2 |>)) with (i_state s); rewrite Hi.
    destruct (vw_disable ((s <| bus := b |>) <| bus := b2 |>)) as (b3 & -> & Hb3); change (vw ((s <| bus := b |>) <| bus := b2 |>)) with (view b2) in Hb3; rewrite Hb2 in Hb3.
    eexists; split; [done|]; split; [right; split; [by right|]; unfold vw; cbn; by rewrite Hb3 | split_and!; try done; unfold vw; cbn; by rewrite Hb3].
Qed.

Lemma read_quiet a s : exists v s', io_read a s = (v, s') /\ (quiet s -> quiet s') /\ (still s -> still s') /\ kept s s' /\ msg_idx s' = msg_idx s.
Proof.
  destruct (vw_read a s) as (v & b & H & Hb & _); exists v, (s <| bus := b |>); split; [done|]; unfold quiet, still, kept, vw; cbn; rewrite Hb; done.
Qed.

Lemma spin_quiet n : forall s, quiet s -> exists st late s', spin_idle n s = Some (st, late, s') /\ quiet s' /\ kept s s'.
Proof.
  induction n as [|n IH]; intros s Hq; destruct (preempt_quiet s Hq) as (s1 & H1 & Hq1 & Hk1); cbn [spin_idle]; rewrite H1, bind_ok;
    destruct (read_quiet CSR s1) as (v & s2 & -> & Hq2 & _ & Hk2 & _); apply Hq2 in Hq1; assert (Hk : kept s s2) by (by transitivity s1).
  - destruct (nz _); eauto 10.
  - destruct (nz _); [|by eauto 10]; destruct n as [|n]; [by eauto 10|]; destruct (IH s2 Hq1) as (st & late & s3 & H3 & Hq3 & Hk3); exists st, late, s3.
    rewrite H3; split_and!; try done; by transitivity s2.
Qed.

(** Without a loss of the bus the result is the number of messages, or the error. *)
Lemma finish_quiet s : quiet s -> arblost s = 0 -> exists s', finish_transfer s = Some (to_int (msg_idx s), s') /\ kept s s'.
Proof.
  intros Hq Ha; unfold finish_transfer; destruct (spin_quiet 20 s Hq) as (st & late & s1 & -> & Hq1 & Hk1); rewrite bind_ok.
  assert (H : exists s2, (if late then s ← msleep s1; Some (snd (io_read CSR s)) else Some s1) = Some s2 /\ kept s1 s2).
  { destruct late; [|by exists s1]; destruct (preempt_quiet s1 Hq1) as (s2 & H2 & Hq2 & Hk2); unfold msleep; rewrite H2, bind_ok.
    destruct (read_quiet CSR s2) as (v & s3 & -> & _ & _ & Hk3 & _); exists s3; split; [done|]; by transitivity s2. }
  destruct H as (s2 & H & Hk2); rewrite H, bind_ok; pose proof (transitivity Hk1 Hk2) as Hk; destruct Hk as (K1 & K2 & K3); rewrite K3, Ha; by exists s2.
Qed.

(** ** The start of a transfer *)
Lemma set_master_idle s : v_busy (vw s) = false -> exists b, nuc970_i2c0_set_master s = Some (0, s <| bus := b |>) /\ view b = vw s.
Proof.
  intros Hb; unfold nuc970_i2c0_set_master; cbn [set_master_loop]; unfold bus_free; destruct (vw_read SWR s) as (v & b & -> & Hv & Hr).
  pose proof (read_swr (bus s) Hb) as Hs; rewrite <- Hr in Hs; rewrite Hs; destruct (vw_read CSR (s <| bus := b |>)) as (c & b2 & -> & Hv2 & Hr2).
  change (vw (s <| bus := b |>)) with (view b) in Hv2; change (bus (s <| bus := b |>)) with b in Hr2.
  destruct (read_csr b) as (_ & _ & _ & Hc); rewrite <- Hr2 in Hc; rewrite Hc by (by rewrite Hv); exists b2; split; [done | by rewrite Hv2].
Qed.

(** The first command. *)
Definition started m s s1 : Prop :=
  i_state s1 = STATE_START /\ vw s1 = command (Z.lor I2C_CMD_START I2C_CMD_WRITE) ((vw s) <| v_txr := addr_byte m |>).

Lemma begin_at m rest s :
  zlen (m :: rest) < 2147483648 -> v_on (vw s) = true -> arblost s = 0 ->
  exists s1, begin_transfer (m :: rest) s = Some s1 /\ at_pos [] m rest 0 s1 /\ started m s s1.
Proof.
  intros Hl Hon Ha; unfold begin_transfer.
  set (s0 := s <| msgs := m :: rest |> <| msg := Some 0 |> <| msg_num := u32 (zlen (m :: rest)) |> <| msg_ptr := 0 |> <| msg_idx := 0 |> <| i_state := STATE_START |>).
  assert (Hp : at_pos [] m rest 0 s0) by (split; try done; apply u32_id; zlen_simpl; pose proof (zlen_nonneg rest); lia).
  rewrite (cur_at _ _ _ _ _ Hp), bind_ok; set (s1 := nuc970_i2c0_message_start m s0); exists s1; split; [done|].
  assert (Hv : vw s1 = command (Z.lor I2C_CMD_START I2C_CMD_WRITE) ((vw s) <| v_txr := addr_byte m |>)) by exact (vw_start m s0); split; [|done].
  change 0 with (msg_ptr s1); by apply (at_command _ m rest 0 s0 s1 (Z.lor I2C_CMD_START I2C_CMD_WRITE) (addr_byte m)).
Qed.

Lemma begin_runs m rest s s1 :
  msgs_ok true (m :: rest) -> at_pos [] m rest 0 s1 -> started m s s1 -> Runs [] s1 (v_log (vw s)) (ref_msgs true 0 (m :: rest) (v_answers (vw s))).
Proof.
  intros [Hok Hoks] Hp [Hs Hv]; cbn [ref_msgs]; rewrite orb_true_l; apply runs_log; replace (v_log (vw s) ++ _) with (v_log (vw s1)) by (by rewrite Hv).
  replace (v_answers (vw s)) with (v_answers (vw s1)) by (by rewrite Hv); apply (start_runs [] m rest s1 (Z.lor I2C_CMD_START I2C_CMD_WRITE) true); try done; [by apply messages_run | by rewrite Hv].
Qed.

Lemma doxfer_ends m rest s fuel t :
  msgs s = m :: rest -> zlen (m :: rest) < 2147483648 -> v_on (vw s) = true -> v_busy (vw s) = false -> arblost s = 0 ->
  (length (v_answers (vw s)) <= fuel)%nat -> (forall s1, at_pos [] m rest 0 s1 -> started m s s1 -> Runs [] s1 (v_log (vw s)) t) ->
  exists s2, nuc970_i2c0_doxfer fuel s = finish_transfer s2 /\ ends [] (v_log (vw s)) t s2.
Proof.
  intros Hm Hl Hon Hb Ha Hf Hrun; unfold nuc970_i2c0_doxfer; destruct (set_master_idle s Hb) as (b & -> & Hv); rewrite bind_ok; cbn [nz negb Z.eqb].
  set (s1 := s <| bus := b |>); assert (Hv1 : vw s1 = vw s) by done; change (msgs s1) with (msgs s); rewrite Hm.
  destruct (begin_at m rest s1) as (s2 & -> & Hp & Hs2 & Hv2); [done | by rewrite Hv1 | done |]; rewrite bind_ok; rewrite Hv1 in Hv2.
  destruct (Hrun s2 Hp (conj Hs2 Hv2) fuel) as (s3 & -> & He); [by rewrite Hv2|]; rewrite bind_ok; by exists s3.
Qed.

(** A transfer that follows [t] on an idle bus. *)
Lemma xfer_ends m rest s fuel retries t r :
  zlen (m :: rest) < 2147483648 -> v_busy (vw s) = false -> arblost s = 0 -> (length (v_answers (vw s)) <= fuel)%nat -> (0 < retries)%nat ->
  (forall s0 s1, vw s0 = (vw s) <| v_on := true |> -> at_pos [] m rest 0 s1 -> started m s0 s1 -> Runs [] s1 (v_log (vw s)) t) ->
  (forall s2, ends [] (v_log (vw s)) t s2 -> quiet s2 /\ arblost s2 = 0 /\ to_int (msg_idx s2) = r /\ r <> - EAGAIN) ->
  exists s', nuc970_i2c0_xfer fuel retries (m :: rest) s = Some (r, s') /\ v_log (vw s') = v_log (vw s) ++ t.1.1 /\ msgs s' = t.2.
Proof.
  intros Hl Hb Ha Hf Hr Hrun Hend; unfold nuc970_i2c0_xfer; destruct (vw_enable s) as (b & -> & Hv); set (s1 := (s <| bus := b |>) <| msgs := m :: rest |>).
  assert (Hv1 : vw s1 = (vw s) <| v_on := true |>) by done; destruct retries as [|retries]; [lia|]; cbn [retry_loop].
  destruct (doxfer_ends m rest s1 fuel t) as (s2 & Hd & He); try done; try (by rewrite Hv1); [intros s2 Hp Hs2; rewrite Hv1; by apply (Hrun s1)|]; rewrite Hd.
  rewrite Hv1 in He; change (v_log ((vw s) <| v_on := true |>)) with (v_log (vw s)) in He; destruct (Hend s2 He) as (Hq & Ha2 & Hres & Hne).
  destruct (finish_quiet s2 Hq Ha2) as (s3 & -> & Hk & Hlog & _); rewrite bind_ok, Hres; rewrite (proj2 (Z.eqb_neq _ _) Hne); cbn [negb]; exists s3; split; [done|].
  destruct t as [[g v] ms']; destruct He as (HeL & Hem & _); rewrite Hk, Hlog; done.
Qed.

(** An end without loss of the bus gives the result. *)
Definition result_of (v : verdict) : Z := match v with VStop r _ => r | VTime i => i | VLost _ => 0 end.

Lemma ends_quiet L t s n l :
  ends [] L t s -> 0 <= n < 2147483648 -> undisturbed l -> verdict_ok 0 n l (verdict_of t) ->
  quiet s /\ arblost s = 0 /\ to_int (msg_idx s) = result_of (verdict_of t) /\ result_of (verdict_of t) <> - EAGAIN.
Proof.
  intros He Hn Hu Hv; destruct t as [[g v] ms]; unfold verdict_of in *; cbn in Hv |- *; destruct He as (_ & _ & He); destruct v as [r l'|i|l']; cbn in *.
  - destruct He as (Ha & Hi & Hs & Hans), Hv as [Hr Hsuf]; unfold ENXIO, ECONNREFUSED, EAGAIN in *; split_and!; [|done | rewrite Hi; apply to_int_u32; unfold is_s32; lia | lia].
    right; rewrite Hans; split; [by left | by apply (undisturbed_suffix l)].
  - destruct He as (Ha & Hi & Hans); split_and!; [|done | rewrite Hi; unfold to_int; zcase; lia | unfold EAGAIN; lia].
    by left.
  - by destruct (undisturbed_lost l l' Hu).
Qed.

(** C7: a transfer on the bus. The messages have buffers of their length, at most
    65535 bytes; one that reads comes only as the last, and none after the first asks
    to read without a start ([I2C_M_RD] with [I2C_M_NOSTART]). On an idle bus that is
    not taken by another master, with a slave that answers, refuses or falls silent
    at any point, the driver gives exactly the commands of the reference: a start
    with the address for every message (or none where the caller wants none), the
    bytes of a message that writes, and for the message that reads as many reads as
    its length with the last one not acknowledged, then a stop. The bytes received
    are in the buffer, and the result is the number of messages, -ENXIO if an
    address, or -ECONNREFUSED if a byte was not acknowledged (unless that is to be
    ignored), and the number of the message in which the slave fell silent. *)
Theorem i2c_xfer_follows fuel retries ms s :
  msgs_ok true ms -> ms <> [] -> zlen ms < 2147483648 -> v_busy (vw s) = false -> arblost s = 0 ->
  undisturbed (v_answers (vw s)) -> (length (v_answers (vw s)) <= fuel)%nat -> (0 < retries)%nat ->
  exists s', nuc970_i2c0_xfer fuel retries ms s = Some (result_of (ref_msgs true 0 ms (v_answers (vw s))).1.2, s') /\ v_log (vw s') = v_log (vw s) ++ (ref_msgs true 0 ms (v_answers (vw s))).1.1 /\ msgs s' = (ref_msgs true 0 ms (v_answers (vw s))).2.
Proof.
  intros Hok Hne Hl Hb Ha Hu Hf Hr; destruct ms as [|m rest]; [done|]; apply xfer_ends; try done.
  - intros s0 s1 Hv Hp Hs; pose proof (begin_runs m rest s0 s1 Hok Hp Hs) as H; by rewrite Hv in H.
  - intros s2 He; pose proof (zlen_nonneg (m :: rest)); apply (ends_quiet _ _ _ (0 + zlen (m :: rest)) _ He ltac:(lia) Hu (ref_msgs_verdict (m :: rest) true 0 (v_answers (vw s)))).
Qed.

(** ** A bus that is lost *)
Lemma read_same a s : exists v b, io_read a s = (v, s <| bus := b |>) /\ view b = vw s.
Proof. destruct (vw_read a s) as (v & b & H & Hb & _); by exists v, b. Qed.

Lemma spin_still n : forall s, still s -> exists st late b, spin_idle n s = Some (st, late, s <| bus := b |>) /\ view b = vw s.
Proof.
  induction n as [|n IH]; intros s Hs; cbn [spin_idle]; rewrite (preempt_still s Hs), bind_ok; destruct (read_same CSR s) as (v & b & -> & Hb).
  - destruct (nz _); by eauto.
  - destruct (nz _); [|by eauto]; destruct n as [|n]; [by eauto|].
    destruct (IH (s <| bus := b |>)) as (st & late & b2 & H2 & Hb2); [unfold still, vw; cbn; by rewrite Hb|]; exists st, late, b2; split; [exact H2|]; by rewrite Hb2.
Qed.

Lemma bus_free_same s : exists f b, bus_free s = (f, s <| bus := b |>) /\ view b = vw s.
Proof.
  unfold bus_free; destruct (read_same SWR s) as (v & b & -> & Hb); destruct (_ =? _); [|by eauto].
  destruct (read_same CSR (s <| bus := b |>)) as (c & b2 & -> & Hb2); eexists _, b2; split; [done|]; by rewrite Hb2.
Qed.

Lemma off_still s : v_on (vw s) = false -> still s.
Proof. intros H; unfold still, complete; by rewrite H. Qed.

Lemma set_master_off n : forall s, v_on (vw s) = false ->
  exists r b, set_master_loop n s = Some (r, s <| bus := b |>) /\ view b = vw s /\ (r = 0 \/ r = - ETIMEDOUT).
Proof.
  induction n as [|n IH]; intros s Hs; cbn [set_master_loop]; [exists (- ETIMEDOUT), (bus s); destruct s; by auto|].
  destruct (bus_free_same s) as (f & b & -> & Hb); destruct f; [exists 0, b; by auto|].
  unfold msleep; rewrite preempt_still by (apply off_still; unfold vw; cbn; by rewrite Hb); rewrite bind_ok.
  destruct (IH (s <| bus := b |>)) as (r & b2 & H2 & Hb2 & Hr); [unfold vw; cbn; by rewrite Hb|]; exists r, b2; split; [exact H2|]; split; [by rewrite Hb2 | done].
Qed.

Lemma vw_hangup s : vw (nuc970_i2c0_hangup s) = vw s.
Proof. unfold nuc970_i2c0_hangup, vw, io_write; cbn; by rewrite !view_swr. Qed.

(** The loss ends the attempt with a stop and switches the controller off. *)
Lemma lost_bus_off s :
  undisturbed (v_answers (vw s)) ->
  exists s', lost_bus s = Some s' /\ msgs s' = msgs s /\ v_log (vw s') = v_log (vw s) ++ [(I2C_CMD_STOP, 0)] /\ arblost s' = 0 /\ v_on (vw s') = false.
Proof.
  intros Hu; unfold lost_bus, msleep; set (s1 := nuc970_i2c0_stop 0 (s <| arblost := 0 |>)).
  assert (Hv : vw s1 = command I2C_CMD_STOP (vw s)) by exact (vw_stop 0 (s <| arblost := 0 |>)).
  destruct (preempt_quiet s1) as (s2 & -> & _ & Hm & Hl & Ha); [right; split; [by left | by rewrite Hv]|]; rewrite bind_ok; rewrite Hv in Hl.
  destruct (vw_disable s2) as (b & -> & Hb); eexists; split; [done|]; rewrite vw_hangup; change (vw (s2 <| bus := b |>)) with (view b); rewrite Hb; split_and!; done.
Qed.

Lemma finish_still s :
  still s -> exists b, view b = vw s /\ finish_transfer s =
    (if nz (arblost s) then s ← lost_bus (s <| bus := b |>); Some (- EAGAIN, s) else Some (to_int (msg_idx s), s <| bus := b |>)).
Proof.
  intros Hs; unfold finish_transfer; destruct (spin_still 20 s Hs) as (st & late & b & -> & Hb); rewrite bind_ok.
  destruct late; [|by exists b]; unfold msleep; rewrite preempt_still by (unfold still, vw; cbn; by rewrite Hb); rewrite bind_ok.
  destruct (read_same CSR (s <| bus := b |>)) as (v & b2 & -> & Hb2); exists b2; split; [by rewrite Hb2 | done].
Qed.

Lemma finish_lost s :
  still s -> arblost s = 1 -> undisturbed (v_answers (vw s)) ->
  exists s', finish_transfer s = Some (- EAGAIN, s') /\ msgs s' = msgs s /\ v_log (vw s') = v_log (vw s) ++ [(I2C_CMD_STOP, 0)] /\ arblost s' = 0 /\ v_on (vw s') = false.
Proof.
  intros Hs Ha Hu; destruct (finish_still s Hs) as (b & Hb & ->); rewrite Ha; cbn [nz negb Z.eqb].
  assert (Hv : vw (s <| bus := b |>) = vw s) by done; destruct (lost_bus_off (s <| bus := b |>)) as (s' & -> & H1 & H2 & H3 & H4); [by rewrite Hv|].
  exists s'; rewrite Hv in H2; done.
Qed.

(** An attempt with the controller switched off: nothing answers. *)
Lemma doxfer_off fuel s m rest :
  msgs s = m :: rest -> zlen (m :: rest) < 2147483648 -> v_on (vw s) = false -> arblost s = 0 ->
  exists r s' g, nuc970_i2c0_doxfer fuel s = Some (r, s') /\ msgs s' = m :: rest /\ v_log (vw s') = v_log (vw s) ++ g /\ arblost s' = 0 /\ v_on (vw s') = false /\
    (r = 0 /\ g = [(Z.lor I2C_CMD_START I2C_CMD_WRITE, addr_byte m)] \/ r = - EAGAIN /\ g = []).
Proof.
  intros Hm Hl Hon Ha; unfold nuc970_i2c0_doxfer; destruct (set_master_off 400 s Hon) as (r & b & H & Hb & Hr); unfold nuc970_i2c0_set_master; rewrite H, bind_ok.
  set (s1 := s <| bus := b |>); assert (Hv1 : vw s1 = vw s) by done; destruct Hr as [->| ->]; cbn [nz negb Z.eqb].
  2: { exists (- EAGAIN), s1, []; rewrite Hv1, app_nil_r; split_and!; auto. }
  change (msgs s1) with (msgs s); unfold begin_transfer.
  set (s0 := s1 <| msgs := msgs s |> <| msg := Some 0 |> <| msg_num := u32 (zlen (msgs s)) |> <| msg_ptr := 0 |> <| msg_idx := 0 |> <| i_state := STATE_START |>).
  assert (Hc : cur_msg s0 = Some m) by (unfold cur_msg; cbn; by rewrite Hm); rewrite Hc, bind_ok; set (s2 := nuc970_i2c0_message_start m s0).
  assert (Hv2 : vw s2 = command (Z.lor I2C_CMD_START I2C_CMD_WRITE) ((vw s) <| v_txr := addr_byte m |>)) by (rewrite <- Hv1; exact (vw_start m s0)).
  assert (Hst : still s2) by (apply off_still; by rewrite Hv2).
  assert (Hw : wait_done fuel s2 = Some s2).
  { assert (Hi : irq_wait (bus s2) = None) by (pose proof (view_wait (bus s2)) as Hw; fold (vw s2) in Hw; rewrite Hst in Hw; by destruct (irq_wait (bus s2))).
    destruct fuel; cbn [wait_done]; rewrite Hi; by destruct (_ =? 0). }
  rewrite bind_ok, Hw, bind_ok; destruct (finish_still s2 Hst) as (b2 & Hb2 & ->); change (arblost s2) with (arblost s); rewrite Ha; cbn [nz negb Z.eqb].
  eexists 0, (s2 <| bus := b2 |>), _; split; [done|]; assert (Hv3 : vw (s2 <| bus := b2 |>) = vw s2) by done; rewrite Hv3, Hv2; split_and!; try done; by left.
Qed.

(** a transfer that loses the bus is not repeated. The driver ends the attempt
    with a stop and switches the controller off to free the bus; the second attempt
    does not switch it on again: it sends at most a start that nothing answers
    (five seconds), and the result is 0 or -EREMOTEIO, whatever the slave would
    have answered. *)
Theorem i2c_lost_not_repeated fuel ms s l :
  msgs_ok true ms -> ms <> [] -> zlen ms < 2147483648 -> v_busy (vw s) = false -> arblost s = 0 ->
  (ref_msgs true 0 ms (v_answers (vw s))).1.2 = VLost l -> undisturbed l -> (length (v_answers (vw s)) <= fuel)%nat ->
  exists r s' g, nuc970_i2c0_xfer fuel 2 ms s = Some (r, s') /\ (r = 0 \/ r = - EREMOTEIO) /\ v_on (vw s') = false /\
    v_log (vw s') = v_log (vw s) ++ (ref_msgs true 0 ms (v_answers (vw s))).1.1 ++ [(I2C_CMD_STOP, 0)] ++ g /\
    (length g <= 1)%nat /\ Forall (fun c => c.1 = Z.lor I2C_CMD_START I2C_CMD_WRITE) g.
Proof.
  intros Hok Hne Hl Hb Ha Hver Hu Hf; unfold nuc970_i2c0_xfer; destruct (vw_enable s) as (b & -> & Hv); set (s1 := (s <| bus := b |>) <| msgs := ms |>).
  assert (Hv1 : vw s1 = (vw s) <| v_on := true |>) by done; cbn [retry_loop]; destruct ms as [|m0 rest0]; [done|]; set (ms := m0 :: rest0) in *.
  destruct (doxfer_ends m0 rest0 s1 fuel (ref_msgs true 0 ms (v_answers (vw s)))) as (s2 & Hd & He); try done; try (by rewrite Hv1).
  { intros s2 Hp Hs2; pose proof (begin_runs m0 rest0 s1 s2 Hok Hp Hs2) as H; by rewrite Hv1 in H |- *. }
  rewrite Hd; rewrite Hv1 in He; change (v_log ((vw s) <| v_on := true |>)) with (v_log (vw s)) in He.
  pose proof (ref_msgs_length ms true 0 (v_answers (vw s))) as Hlen; destruct (ref_msgs true 0 ms (v_answers (vw s))) as [[g v] ms']; cbn [fst snd] in Hver, Hlen |- *; subst v.
  destruct He as (HeL & Hem & Ha2 & Hc2 & Hans2); cbn [app] in Hem.
  destruct (finish_lost s2) as (s3 & -> & Hm3 & HL3 & Ha3 & Hon3); [unfold still, complete; rewrite Hc2; by destruct (v_on _) | done | by rewrite Hans2 |]; rewrite bind_ok, Z.eqb_refl; cbn [negb].
  destruct ms' as [|m rest]; [done|].
  destruct (doxfer_off fuel s3 m rest) as (r & s4 & g' & -> & _ & HL4 & _ & Hon4 & Hr); [by rewrite Hm3 | unfold zlen in *; by rewrite Hlen | done | done |]; rewrite bind_ok.
  rewrite HL3, HeL in HL4; destruct Hr as [[-> ->]|[-> ->]]; cbn [negb Z.eqb]; eexists _, s4, _; (split; [done|]); rewrite HL4, <- !app_assoc; split_and!; auto.
Qed.


(** ** A read that is not the last message *)
Lemma stall_runs pre m2 rest more n : forall m j s data,
  m_len m = zlen (m_buf m) -> zlen (m_buf m) <= 65535 -> at_pos pre m (m2 :: rest) j s -> i_state s = STATE_READ -> v_cmd (vw s) = None ->
  0 <= j -> j + 1 + Z.of_nat n = zlen (m_buf m) -> v_answers (vw s) = data ++ more -> length data = n -> undisturbed data ->
  exists s1, prepare_read s = Some s1 /\ (length (v_answers (vw s1)) <= length (v_answers (vw s)))%nat /\
    Runs pre s1 (v_log (vw s)) (replicate n (I2C_CMD_READ, 0), VTime (zlen pre), stored j m (map a_byte data) :: m2 :: rest).
Proof.
  induction n as [|n IH]; intros m j s data Hl Hmax Hp Hs Hc Hj Hn Hans Hlen Hu; unfold prepare_read; rewrite (cur_at _ _ _ _ _ Hp), bind_ok; unfold is_msglast, is_msgend;
    rewrite (p_ptr _ _ _ _ _ Hp), (last_at _ _ _ _ _ Hp), Hl, u32_id by lia.
  - rewrite (proj2 (Z.eqb_eq _ _)) by lia; exists s; split; [done|]; split; [done|]; intros fuel _; exists s; assert (Hst : still s) by (unfold still, complete; rewrite Hc; by destruct (v_on _)).
    split; [|apply nil_length_inv in Hlen as ->; cbn [map replicate]; rewrite stored_nil; unfold ends; rewrite app_nil_r; destruct Hp; done].
    assert (Hi : irq_wait (bus s) = None) by (pose proof (view_wait (bus s)) as Hw; fold (vw s) in Hw; rewrite Hst in Hw; by destruct (irq_wait (bus s))).
    destruct fuel; cbn [wait_done]; rewrite Hi; by destruct (_ =? 0).
  - destruct data as [|a data]; [done|]; apply Forall_cons in Hu as [Ha Hu]; rewrite (proj2 (Z.eqb_neq _ _)), (proj2 (Z.leb_gt _ _)) by lia.
    eexists; split; [done|]; split; [by rewrite vw_write_cmd|].
    assert (Hr : Runs pre (io_write I2C_CMD_READ CMDR s) (v_log (vw s)) (read_step pre m (m2 :: rest) j I2C_CMD_READ
      (fun m3 _ => (replicate n (I2C_CMD_READ, 0), VTime (zlen pre), stored (j + 1) m3 (map a_byte data) :: m2 :: rest)) (v_answers (vw s)))).
    { apply read_step_runs; try done; [lia|]; intros a' l s3 Hans3 _ Hp3 Hs3 Hl3 Hc3; rewrite Hans in Hans3; injection Hans3 as <- Hl4; rewrite <- Hl3.
      apply IH; try done; [by cbn; rewrite zlen_insert | by cbn; rewrite zlen_insert | lia | cbn; rewrite zlen_insert; lia | by rewrite Hl3 | by injection Hlen]. }
    rewrite Hans in Hr; unfold read_step in Hr; cbn [app] in Hr; rewrite Ha, stored_cons in Hr by lia; exact Hr.
Qed.

(** C29: a transfer whose first message reads and that has a second one does not
    end. For the last byte of the first message the driver gives no command: the
    bytes before the last are stored, nothing more goes to the bus (no stop either,
    and none of the other messages), and after five seconds the result is 0, the
    number of the message at which it stalled. *)
Theorem i2c_read_stalls fuel retries m m2 rest a data more s :
  flag I2C_M_RD m = true -> m_len m = zlen (m_buf m) -> 1 <= zlen (m_buf m) <= 65535 -> zlen (m :: m2 :: rest) < 2147483648 ->
  v_busy (vw s) = false -> arblost s = 0 -> v_answers (vw s) = a :: data ++ more -> a_arb a = false -> a_nak a = false -> undisturbed data ->
  zlen data = zlen (m_buf m) - 1 -> (length (v_answers (vw s)) <= fuel)%nat -> (0 < retries)%nat ->
  exists s', nuc970_i2c0_xfer fuel retries (m :: m2 :: rest) s = Some (0, s') /\
    v_log (vw s') = v_log (vw s) ++ (Z.lor I2C_CMD_START I2C_CMD_WRITE, addr_byte m) :: replicate (length data) (I2C_CMD_READ, 0) /\
    msgs s' = received m (map a_byte data) :: m2 :: rest.
Proof.
  intros Hrd Hl Hmax Hnum Hb Ha Hans Harb Hnak Hu Hd Hf Hr.
  destruct (xfer_ends m (m2 :: rest) s fuel retries (prefix_log [(Z.lor I2C_CMD_START I2C_CMD_WRITE, addr_byte m)] (replicate (length data) (I2C_CMD_READ, 0), VTime 0, received m (map a_byte data) :: m2 :: rest)) 0)
    as (s' & H); try done; [| |by exists s'].
  2: { intros s2 (_ & _ & Ha2 & Hi & Hc); rewrite Hi; split_and!; try done; by left. }
  intros s0 s1 Hv Hp [Hs Hv1]; apply runs_log; rewrite Hv in Hv1; replace (v_log (vw s) ++ _) with (v_log (vw s1)) by (by rewrite Hv1).
  assert (Hans1 : v_answers (vw s1) = a :: data ++ more) by (by rewrite Hv1).
  apply (runs_step [] m (m2 :: rest) 0 s1 (Z.lor I2C_CMD_START I2C_CMD_WRITE) _ (fun _ => (replicate (length data) (I2C_CMD_READ, 0), VTime 0, received m (map a_byte data) :: m2 :: rest)));
    [done | by rewrite Hv1 | by rewrite Hs | done | | by rewrite Hans1 | rewrite Hans1; intros ? ? [= <- <-]; congruence].
  intros a' l st b Ha' _ Hst Hp2 HL HA _ Hc; rewrite Hans1 in Ha'; injection Ha' as <- <-; unfold i2c_nuc970_irq_nextbyte; change (i_state (s1 <| bus := b |>)) with (i_state s1); rewrite Hs.
  set (s2 := s1 <| bus := b |>) in *; change (view b) with (vw s2) in *; unfold start_state; rewrite (cur_at _ _ _ _ _ Hp2), bind_ok, Hst, Hnak, Hrd; cbn [andb].
  set (s3 := s2 <| i_state := STATE_READ |>); assert (Hp3 : at_pos [] m (m2 :: rest) 0 s3) by (destruct Hp2; by split); change (vw s2) with (vw s3) in *.
  rewrite (last_at _ _ _ _ _ Hp3); cbn [andb]; rewrite decide_True by done; rewrite <- HL, <- HA.
  apply (stall_runs [] m2 rest more (length data) m 0 s3 data); try done; [lia | unfold zlen in *; lia].
Qed.
End Main.

(** ** Examples: a memory chip at address 0x50 *)
Definition set_addr : i2c_msg := mk_msg 0x50 0 1 [0x12].
Definition get_data : i2c_msg := mk_msg 0x50 I2C_M_RD 2 [0; 0].
Definition ack : answer := mk_answer false false 0.
Definition data (b : Z) : answer := mk_answer false false b.

Ltac ok_msgs := repeat split; try (vm_compute; (reflexivity || discriminate)); try (intros; discriminate); try (intros _; vm_compute; reflexivity).

Lemma i2c_xfer_follows_witness :
  exists s', nuc970_i2c0_xfer 10 2 [set_addr; get_data] (idle_bus [ack; ack; ack; data 0xAB; data 0xCD]) = Some (2, s') /\
    v_log (vw s') = [(0x12, 0xA0); (0x02, 0x12); (0x12, 0xA1); (0x04, 0); (0x05, 0); (0x08, 0)] /\ map m_buf (msgs s') = [[0x12]; [0xAB; 0xCD]].
Proof.
  destruct (i2c_xfer_follows 10 2 [set_addr; get_data] (idle_bus [ack; ack; ack; data 0xAB; data 0xCD])) as (s' & H1 & H2 & H3).
  - ok_msgs.
  - discriminate.
  - vm_compute; reflexivity.
  - reflexivity.
  - reflexivity.
  - repeat constructor.
  - vm_compute; lia.
  - lia.
  - exists s'; split; [exact H1|]; split; [exact H2|]; rewrite H3; vm_compute; reflexivity.
Defined.

Lemma i2c_lost_not_repeated_witness :
  exists r s' g, nuc970_i2c0_xfer 10 2 [set_addr; get_data] (idle_bus [ack; mk_answer false true 0; ack]) = Some (r, s') /\ (r = 0 \/ r = - EREMOTEIO) /\
    v_log (vw s') = [(0x12, 0xA0); (0x02, 0x12); (0x08, 0)] ++ g /\ (length g <= 1)%nat.
Proof.
  destruct (i2c_lost_not_repeated 10 [set_addr; get_data] (idle_bus [ack; mk_answer false true 0; ack]) [ack]) as (r & s' & g & H1 & H2 & _ & H3 & H4 & _).
  - ok_msgs.
  - discriminate.
  - vm_compute; reflexivity.
  - reflexivity.
  - reflexivity.
  - vm_compute; reflexivity.
  - repeat constructor.
  - vm_compute; lia.
  - exists r, s', g; split; [exact H1|]; split; [exact H2|]; split; [exact H3 | exact H4].
Defined.

Lemma i2c_read_stalls_witness :
  exists s', nuc970_i2c0_xfer 10 2 [get_data; set_addr] (idle_bus [ack; data 0xAB; data 0xCD]) = Some (0, s') /\
    v_log (vw s') = [(0x12, 0xA1); (0x04, 0)] /\ map m_buf (msgs s') = [[0xAB; 0]; [0x12]].
Proof.
  destruct (i2c_read_stalls 10 2 get_data set_addr [] ack [data 0xAB] [data 0xCD] (idle_bus [ack; data 0xAB; data 0xCD])) as (s' & H1 & H2 & H3);
    try (vm_compute; reflexivity); try reflexivity; try (vm_compute; split; discriminate); try lia; try (repeat constructor); try (vm_compute; lia).
  exists s'; split; [exact H1|]; split; [exact H2|]; rewrite H3; reflexivity.
Defined.
