(* ===== verification/I2cType.v ===== *)
(** The state of the I2C driver is well formed at every interrupt, and the
    handler never leaves the messages or their buffers, whatever the controller
    shows in its registers. *)
From S2P Require Import Prelude I2c I2cSpec.

(** Messages with buffers of their length; none asks for a change of direction
    without a start, and what follows a read is not empty. *)
Record msgs_typed (ms : list i2c_msg) : Prop := {
  t_num : zlen ms < 2147483648;
  t_buf i m : rd ms i = Some m -> m_len m = zlen (m_buf m) /\ zlen (m_buf m) <= 65535;
  t_start i m : rd ms i = Some m -> 0 < i -> flag I2C_M_NOSTART m = true -> flag I2C_M_RD m = false;
  t_after i j m m' : rd ms i = Some m -> flag I2C_M_RD m = true -> i < j -> rd ms j = Some m' -> 1 <= m_len m';
}.

(** All of a message but its bytes. *)
Definition shape (m : i2c_msg) : Z * Z * Z := (m_addr m, m_flags m, m_len m).

Section Typed.
  Context {B : Type} `{!I2cHw B}.
  Implicit Types s : nuc970_i2c B.

(** The message that is on its way. *)
Record here s (i : Z) (m : i2c_msg) : Prop := {
  h_msg : msg s = Some i;
  h_idx : msg_idx s = i;
  h_num : msg_num s = zlen (msgs s);
  h_cur : rd (msgs s) i = Some m;
  h_ptr : 0 <= msg_ptr s <= m_len m;
}.

Definition filled_after s (i : Z) : Prop := forall j m, i < j -> rd (msgs s) j = Some m -> 1 <= m_len m.

Definition typed s : Prop :=
  msgs_typed (msgs s) /\
  match i_state s with
  | STATE_IDLE | STATE_STOP => True
  | STATE_START | STATE_WRITE => exists i m, here s i m
  | STATE_READ => exists i m, here s i m /\ msg_ptr s < m_len m /\ filled_after s i
  end.

Lemma here_cur s i m : here s i m -> cur_msg s = Some m.
Proof. intros [Hm _ _ Hc _]; unfold cur_msg; by rewrite Hm, bind_ok. Qed.

Lemma here_last s i m : msgs_typed (msgs s) -> here s i m -> is_lastmsg s = (zlen (msgs s) - 1 <=? i).
Proof.
  intros Ht [_ Hi Hn Hc _]; apply rd_range in Hc; unfold is_lastmsg; rewrite Hi, Hn, u32_id; [done|]; pose proof (t_num _ Ht); lia.
Qed.

Lemma typed_stop r s : msgs_typed (msgs s) -> typed (nuc970_i2c0_stop r s) /\ msgs (nuc970_i2c0_stop r s) = msgs s.
Proof. intros Ht; by split; [split|]. Qed.

(** There is a message after one that is not the last. *)
Lemma here_next s i m : msgs_typed (msgs s) -> here s i m -> i < zlen (msgs s) - 1 -> exists m', rd (msgs s) (i + 1) = Some m' /\ here (next_msg s) (i + 1) m'.
Proof.
  intros Ht [Hm Hi Hn Hc _] Hlt; apply rd_range in Hc; destruct (rd_in (msgs s) (i + 1)) as [m' Hm']; [lia|]; exists m'; split; [done|]; pose proof (t_num _ Ht).
  destruct (t_buf _ Ht _ _ Hm') as [Hl _]; pose proof (zlen_nonneg (m_buf m')); split; cbn; try done; [by rewrite Hm; cbn; f_equal; lia | rewrite Hi, u32_id; lia | lia].
Qed.

Lemma write_typed fuel : forall s i m,
  msgs_typed (msgs s) -> here s i m -> i_state s = STATE_WRITE -> zlen (msgs s) - i <= Z.of_nat fuel ->
  exists s', retry_write fuel s = Some s' /\ typed s' /\ msgs s' = msgs s.
Proof.
  induction fuel as [|fuel IH]; intros s i m Ht Hh Hs Hf; pose proof (rd_range _ _ _ (h_cur _ _ _ Hh)); [lia|]; cbn [retry_write].
  rewrite (here_cur _ _ _ Hh), bind_ok, (here_last _ _ _ Ht Hh); destruct (t_buf _ Ht _ _ (h_cur _ _ _ Hh)) as [Hl Hmax]; pose proof (h_ptr _ _ _ Hh); unfold is_msgend.
  destruct (m_len m <=? msg_ptr s) eqn:He; zbool; cbn [negb].
  - destruct (zlen (msgs s) - 1 <=? i) eqn:Hlast; zbool; cbn [negb]; [eexists; split; [done|]; by apply typed_stop|].
    destruct (here_next s i m Ht Hh) as (m' & Hm' & Hn); [lia|]; rewrite (here_cur _ _ _ Hn), bind_ok; destruct (flag I2C_M_NOSTART m') eqn:Hns.
    + rewrite (t_start _ Ht _ _ Hm') by (done || lia); exact (IH (next_msg s) (i + 1) m' Ht Hn Hs ltac:(change (msgs (next_msg s)) with (msgs s); lia)).
    + eexists; split; [done|]; split; [|done]; split; [done|]; exists (i + 1), m'; by destruct Hn.
  - destruct (rd_in (m_buf m) (msg_ptr s)) as [b ->]; [lia|]; rewrite bind_ok; eexists; split; [done|]; split; [|done]; split; [done|].
    cbn; rewrite Hs; exists i, m; destruct Hh as [H1 H2 H3 H4 H5]; split; cbn; try done; rewrite u32_id; lia.
Qed.

Lemma read_typed s i m :
  msgs_typed (msgs s) -> here s i m -> i_state s = STATE_READ -> filled_after s i -> exists s', prepare_read s = Some s' /\ typed s' /\ msgs s' = msgs s.
Proof.
  intros Ht Hh Hs Ha; unfold prepare_read; rewrite (here_cur _ _ _ Hh), bind_ok, (here_last _ _ _ Ht Hh); destruct (t_buf _ Ht _ _ (h_cur _ _ _ Hh)) as [Hl Hmax].
  pose proof (h_ptr _ _ _ Hh); unfold is_msglast, is_msgend; eexists; split; [done|]; destruct (msg_ptr s =? u32 (m_len m - 1)) eqn:Hml; zbool.
  - assert (msg_ptr s < m_len m).
    { pose proof (zlen_nonneg (m_buf m)); destruct (Z.eq_dec (m_len m) 0) as [E|E]; [rewrite E in Hml; change (u32 (0 - 1)) with 4294967295 in Hml | rewrite u32_id in Hml]; lia. }
    destruct (_ <=? _); (split; [|done]); (split; [done|]); cbn; rewrite Hs; exists i, m; split_and!; try done; by destruct Hh.
  - destruct (m_len m <=? msg_ptr s) eqn:He; zbool.
    + destruct (zlen (msgs s) - 1 <=? i) eqn:Hlast; zbool; [by apply typed_stop|]; destruct (here_next s i m Ht Hh) as (m' & Hm' & Hn); [lia|].
      split; [|done]; split; [done|]; cbn; rewrite Hs; exists (i + 1), m'; split; [by destruct Hn|]; split; [assert (1 <= m_len m') by (apply (Ha (i + 1)); [lia | done]); cbn; lia|]; intros j mj Hj Hr; apply (Ha j mj); [lia | exact Hr].
    + split; [|done]; split; [done|]; cbn; rewrite Hs; exists i, m; split_and!; try done; by destruct Hh.
Qed.

(** A change of bytes keeps messages well typed. *)
Lemma typed_insert ms i m b :
  msgs_typed ms -> rd ms i = Some m -> zlen b = zlen (m_buf m) ->
  msgs_typed (<[Z.to_nat i := m <| m_buf := b |>]> ms) /\ map shape (<[Z.to_nat i := m <| m_buf := b |>]> ms) = map shape ms /\
  forall j x, rd (<[Z.to_nat i := m <| m_buf := b |>]> ms) j = Some x -> exists y, rd ms j = Some y /\ shape x = shape y.
Proof.
  intros Ht Hm Hb; pose proof (rd_range _ _ _ Hm) as Hr; set (ms' := <[_ := _]> ms); assert (Hw : wr ms i (m <| m_buf := b |>) = Some ms') by (by apply wr_in).
  assert (Hsh : forall j x, rd ms' j = Some x -> exists y, rd ms j = Some y /\ shape x = shape y /\ zlen (m_buf x) = zlen (m_buf y)).
  { intros j x Hx; destruct (Z.eq_dec i j) as [<-|Hne]; [rewrite (rd_wr_eq _ _ _ _ Hw) in Hx; injection Hx as <-; by exists m | rewrite (rd_wr_ne _ _ _ _ _ Hw Hne) in Hx; by exists x]. }
  split; [|split; [|intros j x Hx; destruct (Hsh j x Hx) as (y & ? & ? & _); by exists y]].
  - split; [rewrite (wr_len _ _ _ _ Hw); by apply Ht|..]; [intros j x Hx | intros j x Hx | intros j k x y Hx Hrd Hlt Hy]; destruct (Hsh _ _ Hx) as (x' & Hx' & [= E1 E2 E3] & E4).
    + rewrite E3, E4; by apply (t_buf _ Ht j).
    + unfold flag; rewrite E2; by apply (t_start _ Ht j).
    + destruct (Hsh _ _ Hy) as (y' & Hy' & [= F1 F2 F3] & F4); rewrite F3; apply (t_after _ Ht j k x'); try done; unfold flag in *; by rewrite <- E2.
  - unfold ms'; rewrite list_fmap_insert; apply list_insert_id; rewrite list_lookup_fmap; by apply rd_Some in Hm as [_ ->].
Qed.

Lemma read_state_typed s i m :
  msgs_typed (msgs s) -> here s i m -> i_state s = STATE_READ -> msg_ptr s < m_len m -> filled_after s i ->
  exists s', read_state s = Some s' /\ typed s' /\ map shape (msgs s') = map shape (msgs s).
Proof.
  intros Ht Hh Hs Hlt Ha; unfold read_state, io_read; destruct (readl RXR (bus s)) as [v b]; cbn [msg msgs msg_ptr set]; destruct (t_buf _ Ht _ _ (h_cur _ _ _ Hh)) as [Hl Hmax].
  destruct Hh as [H1 H2 H3 H4 H5]; rewrite H1, bind_ok, H4, bind_ok, wr_in, bind_ok, wr_in, bind_ok by (apply rd_range in H4; lia).
  destruct (typed_insert (msgs s) i m (<[Z.to_nat (msg_ptr s) := u8 v]> (m_buf m)) Ht H4 (zlen_insert _ _ _)) as (Ht' & Hsh & Hrd).
  match goal with |- context [prepare_read ?x] => set (s1 := x) end; change (<[Z.to_nat i := _]> (msgs s)) with (msgs s1) in Ht', Hsh, Hrd.
  destruct (read_typed s1 i (m <| m_buf := <[Z.to_nat (msg_ptr s) := u8 v]> (m_buf m) |>)) as (s' & -> & Hty & Hms); [done | | done | |].
  - split; cbn; try done; [by rewrite zlen_insert | | rewrite u32_id; lia]; apply rd_Some; apply rd_Some in H4 as [? H4]; split; [done|]; apply list_lookup_insert_eq; by apply lookup_lt_Some in H4.
  - intros j x Hj Hx; destruct (Hrd j x Hx) as (y & Hy & [= _ _ ->]); by apply (Ha j y).
  - exists s'; split_and!; try done; by rewrite Hms.
Qed.

Lemma start_typed st s i m :
  msgs_typed (msgs s) -> here s i m -> i_state s = STATE_START -> exists s', start_state st s = Some s' /\ typed s' /\ msgs s' = msgs s.
Proof.
  intros Ht Hh Hs; unfold start_state; rewrite (here_cur _ _ _ Hh), bind_ok; destruct (_ && _); [eexists; split; [done|]; by apply typed_stop|].
  destruct (flag I2C_M_RD m) eqn:Hf; set (s1 := s <| i_state := _ |>); assert (Hh1 : here s1 i m) by (by destruct Hh); destruct (is_lastmsg s1 && (m_len m =? 0)); try (eexists; split; [done|]; exact (typed_stop 0 s1 Ht)).
  - rewrite decide_True by done; apply (read_typed s1 i m Ht Hh1 eq_refl); intros j x Hj Hx; apply (t_after _ Ht i j m x); by destruct Hh.
  - rewrite decide_False by done; unfold write_state; rewrite (here_cur _ _ _ Hh1), bind_ok; destruct (_ && _); [eexists; split; [done|]; exact (typed_stop (- ECONNREFUSED) s1 Ht)|].
    apply (write_typed _ s1 i m Ht Hh1 eq_refl); change (msgs s1) with (msgs s); pose proof (rd_range _ _ _ (h_cur _ _ _ Hh)); unfold zlen in *; lia.
Qed.

(** The registers and the note of a lost bus do not matter. *)
Lemma typed_other s b a : typed s -> typed (s <| bus := b |> <| arblost := a |>).
Proof.
  intros [Ht Hs]; split; [exact Ht|]; cbn; destruct (i_state s); [done | | | | done].
  - destruct Hs as (i & m & []); by exists i, m.
  - destruct Hs as (i & m & [] & ? & ?); by exists i, m.
  - destruct Hs as (i & m & []); by exists i, m.
Qed.

Lemma typed_irq s :
  typed s -> exists s', nuc970_i2c_irq s = Some s' /\ typed s' /\ map shape (msgs s') = map shape (msgs s).
Proof.
  intros [Ht Hs]; unfold nuc970_i2c_irq, io_read; destruct (readl CSR (bus s)) as [st b].
  set (s1 := io_write _ CSR _); assert (Ht1 : typed s1) by exact (typed_other s (writel (Z.lor st IRQFLAG) CSR b) (arblost s) (conj Ht Hs)).
  change (msgs s) with (msgs s1) in *; clearbody s1; clear Hs; destruct (nz _); [eexists; split; [done|]; split; [exact (typed_other s1 (bus s1) 1 Ht1) | done]|].
  destruct (decide _) as [Hd|Hd]; [by exists s1|]; unfold i2c_nuc970_irq_nextbyte; destruct Ht1 as [_ Hs]; destruct (i_state s1) eqn:Hst; [done| | | |].
  - destruct Hs as (i & m & Hh); destruct (start_typed st s1 i m Ht Hh Hst) as (s' & H1 & H2 & H3); exists s'; split_and!; try done; by rewrite H3.
  - destruct Hs as (i & m & Hh & Hlt & Ha); by apply (read_state_typed s1 i m).
  - destruct Hs as (i & m & Hh); unfold write_state; rewrite (here_cur _ _ _ Hh), bind_ok; destruct (_ && _).
    + eexists; split; [done|]; destruct (typed_stop (- ECONNREFUSED) s1 Ht) as [? ->]; done.
    + destruct (write_typed (S (length (msgs s1))) s1 i m Ht Hh Hst) as (s' & H1 & H2 & H3); [pose proof (rd_range _ _ _ (h_cur _ _ _ Hh)); unfold zlen in *; lia|]; exists s'; split_and!; try done; by rewrite H3.
  - eexists; split; [done|]; unfold nuc970_i2c0_disable_irq, io_read; destruct (readl CSR (bus s1)); done.
Qed.

(** The end of a message that writes, when the next one wants to read without a
    start: the transfer is stopped, there is no message any more, and the handler
    goes on with it. *)
Lemma no_start_fails s i m m' status b :
  readl CSR (bus s) = (status, b) -> Z.land status ARBIT_LOST = 0 -> flag I2C_M_IGNORE_NAK m = true \/ Z.land status SLAVE_ACK = 0 ->
  here s i m -> i_state s = STATE_WRITE -> msg_ptr s = m_len m -> 0 <= i -> zlen (msgs s) < 2147483648 ->
  rd (msgs s) (i + 1) = Some m' -> flag I2C_M_NOSTART m' = true -> flag I2C_M_RD m' = true -> nuc970_i2c_irq s = None.
Proof.
  intros Hst Harb Hack Hh Hw Hend Hi Hn Hm' Hns Hrd; unfold nuc970_i2c_irq, io_read; rewrite Hst, Harb; cbn [nz Z.eqb negb].
  set (s1 := io_write _ CSR _); assert (Hh1 : here s1 i m) by (by destruct Hh); assert (Hs1 : i_state s1 = STATE_WRITE /\ msgs s1 = msgs s /\ msg_ptr s1 = msg_ptr s) by done.
  clearbody s1; destruct Hs1 as (Hs1 & Hms & Hp); rewrite decide_False by (by rewrite Hs1); unfold i2c_nuc970_irq_nextbyte; rewrite Hs1; unfold write_state; rewrite (here_cur _ _ _ Hh1), bind_ok.
  assert (negb (flag I2C_M_IGNORE_NAK m) && nz (Z.land status SLAVE_ACK) = false) as -> by (destruct Hack as [-> | ->]; [done | by rewrite andb_false_r]).
  cbn [retry_write]; rewrite (here_cur _ _ _ Hh1), bind_ok; unfold is_msgend; rewrite (proj2 (Z.leb_le (m_len m) (msg_ptr s1))) by lia; cbn [negb]; pose proof (rd_range _ _ _ Hm') as Hr.
  assert (Hlast : is_lastmsg s1 = false) by (unfold is_lastmsg; rewrite (h_idx _ _ _ Hh1), (h_num _ _ _ Hh1), Hms, u32_id by lia; apply Z.leb_gt; lia).
  rewrite Hlast; cbn [negb]; assert (Hc : cur_msg (next_msg s1) = Some m').
  { unfold cur_msg, next_msg; cbn [msg msgs set]; rewrite (h_msg _ _ _ Hh1), Hms; cbn [option_map]; rewrite bind_ok, Z.add_comm; exact Hm'. }
  rewrite Hc, bind_ok, Hns, Hrd; destruct (length (msgs s1)); reflexivity.
Qed.

(** C8: the state machine is well typed. For messages whose buffers have their
    length, of which none but the first asks to read without a start
    ([I2C_M_NOSTART]) and none after one that reads is empty: whatever the registers
    of the controller show, at every interrupt (an expected or a spurious one) the
    handler accesses the messages and their buffers within bounds, leaves all of
    them but the bytes read as they are, and keeps the state well formed: in the
    states of a transfer the message pointer, the index and the byte counter agree
    and point into the messages. At the end of a message that writes and is followed
    by one that asks to read without a start, the handler follows a pointer that it
    has just set to null. *)
Theorem i2c_irq_typed s :
  (typed s -> exists s', nuc970_i2c_irq s = Some s' /\ typed s' /\ map shape (msgs s') = map shape (msgs s)) /\
  (forall i m m' status b, readl CSR (bus s) = (status, b) -> Z.land status ARBIT_LOST = 0 -> flag I2C_M_IGNORE_NAK m = true \/ Z.land status SLAVE_ACK = 0 ->
    here s i m -> i_state s = STATE_WRITE -> msg_ptr s = m_len m -> 0 <= i -> zlen (msgs s) < 2147483648 ->
    rd (msgs s) (i + 1) = Some m' -> flag I2C_M_NOSTART m' = true -> flag I2C_M_RD m' = true -> nuc970_i2c_irq s = None).
Proof. split; [apply typed_irq | intros i m m' status b; apply no_start_fails]. Qed.
End Typed.

(** A read of one byte, at the interrupt that brings it. *)
Definition reading : nuc970_i2c i2c_view :=
  (idle_bus []) <| msgs := [mk_msg 0x50 I2C_M_RD 1 [0]] |> <| msg := Some 0 |> <| msg_num := 1 |> <| i_state := STATE_READ |>.

(** The last byte of a message was sent, the next one wants to read without a start. *)
Definition turning : nuc970_i2c i2c_view :=
  (idle_bus []) <| msgs := [mk_msg 0x50 0 1 [7]; mk_msg 0x50 (Z.lor I2C_M_RD I2C_M_NOSTART) 1 [0]] |> <| msg := Some 0 |> <| msg_num := 2 |>
    <| msg_ptr := 1 |> <| i_state := STATE_WRITE |>.

Lemma i2c_irq_typed_witness : (exists s', nuc970_i2c_irq reading = Some s' /\ typed s' /\ map shape (msgs s') = map shape (msgs reading)) /\
  nuc970_i2c_irq turning = None.
Proof.
  split.
  2: { refine (proj2 (i2c_irq_typed turning) 0 (mk_msg 0x50 0 1 [7]) (mk_msg 0x50 (Z.lor I2C_M_RD I2C_M_NOSTART) 1 [0]) _ _ eq_refl _ _ _ _ _ _ _ _ _ _); try reflexivity; [right; reflexivity | split; try reflexivity; vm_compute; split; discriminate]. }
  apply (i2c_irq_typed reading); split.
  - split.
    + vm_compute; reflexivity.
    + intros i m H; pose proof (rd_range _ _ _ H) as Hr; assert (i = 0) as -> by (change (zlen (msgs reading)) with 1 in Hr; lia); injection H as <-; vm_compute; split; [reflexivity | discriminate].
    + intros i m H Hi; apply rd_range in H; change (zlen (msgs reading)) with 1 in H; lia.
    + intros i j m m' Hi _ Hlt Hj; apply rd_range in Hi, Hj; change (zlen (msgs reading)) with 1 in *; lia.
  - exists 0, (mk_msg 0x50 I2C_M_RD 1 [0]); split; [split; try reflexivity; vm_compute; split; discriminate|]; split; [reflexivity|].
    intros j m Hj Hr; apply rd_range in Hr; change (zlen (msgs reading)) with 1 in Hr; lia.
Defined.
