(* ===== verification/Rtc.v ===== *)
(** The real-time clock: the driver (src/drivers/rtc/rtc-nuc970.c) and the
    calendar functions it shares with the clock framework
    (src/drivers/rtc/rtc-lib.c). The registers and the clock behind them are the
    interface [RtcHw]; the conversions of <linux/bcd.h> and the leap years of
    <linux/rtc.h>, which are not in the repository, are [RtcLib]. *)
From S2P Require Import Prelude.

(** ** Registers and constants *)
Definition REG_RTC_INIR : Z := 0x00.
Definition REG_RTC_AER : Z := 0x04.
Definition REG_RTC_TLR : Z := 0x0C.
Definition REG_RTC_CLR : Z := 0x10.
Definition REG_RTC_TAR : Z := 0x1C.
Definition REG_RTC_CAR : Z := 0x20.
Definition REG_RTC_RIER : Z := 0x28.
Definition REG_RTC_RIIR : Z := 0x2C.
Definition REG_RTC_PWRCTL : Z := 0x34.
Definition AERRWENB : Z := 0x10000.
Definition INIRRESET : Z := 0xa5eb1357.
Definition AERPOWERON : Z := 0xA965.
Definition TICKINTENB : Z := 0x0002.
Definition ALARMINTENB : Z := 0x0001.

(** Events of the clock framework and error codes, of the kernel's interface. *)
Definition RTC_IRQF : Z := 0x80.
Definition RTC_AF : Z := 0x20.
Definition RTC_UF : Z := 0x10.
Definition EPERM : Z := 1.

(** ** Interfaces *)
Class RtcHw (R : Type) := {
  raw_readl : Z -> R -> Z * R;
  raw_writel : Z -> Z -> R -> R;
}.

Class RtcLib := {
  bcd2bin : Z -> Z;
  bin2bcd : Z -> Z;
  is_leap_year : Z -> bool;
}.

(** ** Data *)
Record rtc_time := mk_tm {
  tm_sec : Z; tm_min : Z; tm_hour : Z; tm_mday : Z; tm_mon : Z; tm_year : Z; tm_wday : Z; tm_yday : Z; tm_isdst : Z;
}.
#[export] Instance eta_tm : Eta rtc_time := fun t =>
  mk_tm (tm_sec t) (tm_min t) (tm_hour t) (tm_mday t) (tm_mon t) (tm_year t) (tm_wday t) (tm_yday t) (tm_isdst t).

Record nuc970_bcd_time := mk_bcd { bcd_sec : Z; bcd_min : Z; bcd_hour : Z; bcd_mday : Z; bcd_mon : Z; bcd_year : Z }.

(** ** The calendar *)
Definition rtc_days_in_month : list Z := [31; 28; 31; 30; 31; 30; 31; 31; 30; 31; 30; 31].

Definition rtc_ydays : list (list Z) :=
  [[0; 31; 59; 90; 120; 151; 181; 212; 243; 273; 304; 334; 365];
   [0; 31; 60; 91; 121; 152; 182; 213; 244; 274; 305; 335; 366]].

Definition LEAPS_THRU_END_OF (y : Z) : Z := y / 4 - y / 100 + y / 400.

Definition b2z (b : bool) : Z := if b then 1 else 0.

Section Calendar.
  Context `{!RtcLib}.

Definition rtc_month_days (month year : Z) : option Z :=
  d ← rd rtc_days_in_month month; Some (d + b2z (is_leap_year year && (month =? 1))).

Definition rtc_year_days (day month year : Z) : option Z :=
  t ← rd rtc_ydays (b2z (is_leap_year year)); d ← rd t month; Some (d + day - 1).

(** The month of day [days] of the year, and the day in it; [n] months are left. *)
Fixpoint month_loop (n : nat) (month days year : Z) : option (Z * Z) :=
  match n with
  | O => Some (month, days)
  | S n =>
      md ← rtc_month_days month year;
      let newdays := days - md in
      if newdays <? 0 then Some (month, days) else month_loop n (month + 1) newdays year
  end.

(** [time] is 32 bits wide; the sums with [year] are unsigned. *)
Definition rtc_time_to_tm (time : Z) : option rtc_time :=
  let days := time / 86400 in
  let time := u32 (time - u32 (days * 86400)) in
  let wday := Z.rem (days + 4) 7 in
  let year := u32 (1970 + Z.quot days 365) in
  let days := to_int (u32 (days - ((year - 1970) * 365 + LEAPS_THRU_END_OF (u32 (year - 1)) - LEAPS_THRU_END_OF (1970 - 1)))) in
  let '(year, days) := if days <? 0 then (u32 (year - 1), days + (365 + b2z (is_leap_year (u32 (year - 1))))) else (year, days) in
  '(mon, mday) ← month_loop 11 0 days year;
  let hour := time / 3600 in
  let time' := u32 (time - hour * 3600) in
  let min := time' / 60 in
  Some (mk_tm (time' - min * 60) min hour (mday + 1) mon (year - 1900) wday (days + 1) 0).

Definition rtc_valid_tm (tm : rtc_time) : option Z :=
  if tm_year tm <? 70 then Some (- EINVAL)
  else if 12 <=? u32 (tm_mon tm) then Some (- EINVAL)
  else if tm_mday tm <? 1 then Some (- EINVAL)
  else
    md ← rtc_month_days (tm_mon tm) (u32 (tm_year tm + 1900));
    Some (if md <? tm_mday tm then - EINVAL
          else if 24 <=? u32 (tm_hour tm) then - EINVAL
          else if 60 <=? u32 (tm_min tm) then - EINVAL
          else if 60 <=? u32 (tm_sec tm) then - EINVAL
          else 0).
End Calendar.

(** ** The driver *)
Section Driver.
  Context {R : Type} `{!RtcHw R, !RtcLib}.
  Implicit Types r : R.

(** The write is awaited, for 0x400 readings of the busy bit at most. *)
Fixpoint write_wait (writetimeout : nat) r : R :=
  let '(riir, r) := raw_readl REG_RTC_RIIR r in
  if Z.testbit riir 31 then match writetimeout with O => r | S n => write_wait n r end else r.

Definition rtc_reg_write (offset value : Z) r : R := write_wait (Z.to_nat 0x400) (raw_writel value offset r).

(** The register with bits changed. *)
Definition rtc_reg_update (offset : Z) (f : Z -> Z) r : R :=
  let '(v, r) := raw_readl offset r in rtc_reg_write offset (f v) r.

(** The events that the handler reports to the framework. *)
Definition nuc970_rtc_interrupt r : Z * R :=
  let '(rtc_irq, r) := raw_readl REG_RTC_RIIR r in
  let '(events, r) :=
    if nz (Z.land rtc_irq ALARMINTENB) then (Z.lor RTC_AF RTC_IRQF, rtc_reg_write REG_RTC_RIIR ALARMINTENB r) else (0, r) in
  if nz (Z.land rtc_irq TICKINTENB) then (Z.lor events (Z.lor RTC_UF RTC_IRQF), rtc_reg_write REG_RTC_RIIR TICKINTENB r) else (events, r).

(** The loop [while (!enabled && timeout--)]: the value of [timeout] behind it. *)
Fixpoint access_loop (timeout : nat) r : Z * R :=
  let '(aer, r) := raw_readl REG_RTC_AER r in
  if nz (Z.land aer AERRWENB) then (Z.of_nat timeout, r)
  else match timeout with O => (UINT_MAX, r) | S n => access_loop n r end.

Definition check_rtc_access_enable r : Z * R :=
  let r := rtc_reg_write REG_RTC_INIR INIRRESET r in
  let r := rtc_reg_write REG_RTC_AER AERPOWERON r in
  let '(timeout, r) := access_loop (Z.to_nat 0x800) r in
  (if timeout =? 0 then - EPERM else 0, r).

(** The argument of [bcd2bin] is a byte. *)
Definition nuc970_rtc_bcd2bin (timereg calreg : Z) (tm : rtc_time) : option (Z * rtc_time) :=
  let tm := tm <| tm_mday := bcd2bin (u8 calreg) |> <| tm_mon := bcd2bin (u8 (Z.shiftr calreg 8)) |> in
  let tm := tm <| tm_mon := tm_mon tm - 1 |> <| tm_year := bcd2bin (u8 (Z.shiftr calreg 16)) + 100 |> in
  let tm := tm <| tm_sec := bcd2bin (u8 timereg) |> <| tm_min := bcd2bin (u8 (Z.shiftr timereg 8)) |> <| tm_hour := bcd2bin (u8 (Z.shiftr timereg 16)) |> in
  ret ← rtc_valid_tm tm; Some (ret, tm).

Definition nuc970_rtc_bin2bcd (settm : rtc_time) : nuc970_bcd_time :=
  mk_bcd (bin2bcd (tm_sec settm)) (Z.shiftl (bin2bcd (tm_min settm)) 8) (Z.shiftl (bin2bcd (tm_hour settm)) 16)
    (bin2bcd (tm_mday settm)) (Z.shiftl (bin2bcd (tm_mon settm + 1)) 8)
    (if tm_year settm <? 100 then Z.shiftl (bin2bcd (tm_year settm)) 16 else Z.shiftl (bin2bcd (tm_year settm - 100)) 16).

Definition nuc970_alarm_irq_enable (enabled : Z) r : R :=
  if nz enabled then rtc_reg_update REG_RTC_RIER (fun v => Z.lor v ALARMINTENB) r
  else rtc_reg_update REG_RTC_RIER (fun v => Z.land v (Z.lnot ALARMINTENB)) r.

Definition cal_word (g : nuc970_bcd_time) : Z := Z.lor (Z.lor (bcd_mday g) (bcd_mon g)) (bcd_year g).
Definition time_word (g : nuc970_bcd_time) : Z := Z.lor (Z.lor (bcd_sec g) (bcd_min g)) (bcd_hour g).

Definition nuc970_rtc_read_time (tm : rtc_time) r : option (Z * rtc_time * R) :=
  let '(timeval, r) := raw_readl REG_RTC_TLR r in
  let '(clrval, r) := raw_readl REG_RTC_CLR r in
  '(ret, tm) ← nuc970_rtc_bcd2bin timeval clrval tm; Some (ret, tm, r).

Definition nuc970_rtc_set_time (tm : rtc_time) r : Z * R :=
  let gettm := nuc970_rtc_bin2bcd tm in
  let '(err, r) := check_rtc_access_enable r in
  if err <? 0 then (err, r)
  else (0, rtc_reg_write REG_RTC_TLR (time_word gettm) (rtc_reg_write REG_RTC_CLR (cal_word gettm) r)).

Definition nuc970_rtc_read_alarm (tm : rtc_time) r : option (Z * rtc_time * R) :=
  let '(timeval, r) := raw_readl REG_RTC_TAR r in
  let '(carval, r) := raw_readl REG_RTC_CAR r in
  '(ret, tm) ← nuc970_rtc_bcd2bin timeval carval tm; Some (ret, tm, r).

Definition nuc970_rtc_set_alarm (tm : rtc_time) r : Z * R :=
  let g := nuc970_rtc_bin2bcd tm in
  let '(err, r) := check_rtc_access_enable r in
  if err <? 0 then (err, r)
  else
    let r := rtc_reg_write REG_RTC_CAR (Z.lor (cal_word g) (Z.shiftl 1 31)) r in
    let r := rtc_reg_write REG_RTC_TAR (time_word g) r in
    (0, rtc_reg_update REG_RTC_PWRCTL (fun v => Z.lor v (Z.shiftl 1 3)) r).

(** The sixteen spare words from [i] on. *)
Fixpoint spare_read (n : nat) (i : Z) r : list Z * R :=
  match n with
  | O => ([], r)
  | S n => let '(v, r) := raw_readl (0x40 + i * 4) r in let '(l, r) := spare_read n (i + 1) r in (v :: l, r)
  end.

Fixpoint spare_write (l : list Z) (i : Z) r : R :=
  match l with
  | [] => r
  | v :: l => spare_write l (i + 1) (rtc_reg_write (0x40 + i * 4) v r)
  end.

(** The commands RTC_GET_SPARE_DATA and RTC_SET_SPARE_DATA of [nuc970_ioctl];
    [fault] says that the memory of the user is not accessible. *)
Definition ioctl_get_spare (fault : bool) r : Z * option (list Z) * R :=
  let '(err, r) := check_rtc_access_enable r in
  if err <? 0 then (err, None, r)
  else let '(l, r) := spare_read 16 0 r in if fault then (- EFAULT, None, r) else (0, Some l, r).

Definition ioctl_set_spare (fault : bool) (spare_data : list Z) r : Z * R :=
  if fault then (- EFAULT, r)
  else
    let '(err, r) := check_rtc_access_enable r in
    if err <? 0 then (err, r) else (0, spare_write spare_data 0 r).
End Driver.
