(* ===== verification/RtcSpec.v ===== *)
(** What the real-time clock and the conversions of the kernel promise, and the
    theorems: the calendar functions against a count of the years, the round
    trips of the time, the alarm and the spare words behind the access check. *)
From S2P Require Import Prelude Rtc.

(** ** Promises *)

(** The leap years of the Gregorian calendar. *)
Definition leap (y : Z) : bool := (y mod 4 =? 0) && negb (y mod 100 =? 0) || (y mod 400 =? 0).

(** Two decimal digits in a byte. *)
Class RtcLibLaws `{!RtcLib} := {
  bcd2bin_digits a b : 0 <= a < 10 -> 0 <= b < 10 -> bcd2bin (16 * a + b) = 10 * a + b;
  bin2bcd_digits n : 0 <= n < 100 -> bin2bcd n = 16 * (n / 10) + n mod 10;
  is_leap_year_leap y : 0 <= y -> is_leap_year y = leap y;
}.

(** The registers of the clock that are locked: time and date (which stand still
    between two ticks), alarm, power control, spare words. *)
Definition data_reg (a : Z) : bool :=
  existsb (Z.eqb a) [REG_RTC_TLR; REG_RTC_CLR; REG_RTC_TAR; REG_RTC_CAR; REG_RTC_PWRCTL] || (0x40 <=? a) && (a <? 0x80).

(** They can be read always but take what is written only while access is enabled,
    which the bit [AERRWENB] of the access register shows; otherwise a write is
    ignored. Access that is off comes on only after the key [AERPOWERON] was
    written to the access register, when the clock is ready for it, and it then
    lasts for the few accesses to other registers that follow. *)
Class RtcHwLaws (R : Type) `{!RtcHw R} := {
  cell : Z -> R -> Z;
  access : R -> bool;
  asked : R -> bool;
  cell_read a a' r : cell a' (snd (raw_readl a r)) = cell a' r;
  read_cell a r : data_reg a = true -> fst (raw_readl a r) = cell a r;
  cell_write a v r : data_reg a = true -> 0 <= v < 4294967296 -> access r = true -> cell a (raw_writel v a r) = v;
  cell_locked a v r : data_reg a = true -> access r = false -> cell a (raw_writel v a r) = cell a r;
  cell_other a a' v r : data_reg a' = true -> a <> a' -> cell a' (raw_writel v a r) = cell a' r;
  read_access r : nz (Z.land (fst (raw_readl REG_RTC_AER r)) AERRWENB) = access (snd (raw_readl REG_RTC_AER r));
  access_read a r : access r = true -> access (snd (raw_readl a r)) = true;
  access_write a v r : a <> REG_RTC_AER -> access r = true -> access (raw_writel v a r) = true;
  asked_read a r : access r = false -> asked r = false -> access (snd (raw_readl a r)) = false /\ asked (snd (raw_readl a r)) = false;
  asked_write a v r : access r = false -> asked r = false -> (a = REG_RTC_AER -> v <> AERPOWERON) -> access (raw_writel v a r) = false /\ asked (raw_writel v a r) = false;
}.

(** ** The calendar *)

(** The days from the start of 1970 to the start of the year 1970 + [n]. *)
Fixpoint days_to (n : nat) : Z :=
  match n with O => 0 | S n => days_to n + 365 + b2z (leap (1970 + Z.of_nat n)) end.

Lemma div_step y k : 0 < k -> y / k - (y - 1) / k = b2z (y mod k =? 0).
Proof.
  intros Hk; destruct (y mod k =? 0) eqn:E; zbool; cbn; pose proof (Z.div_mod y k ltac:(lia)); pose proof (Z.mod_pos_bound y k Hk).
  - rewrite <- (Z.div_unique_pos (y - 1) k (y / k - 1) (k - 1)); lia.
  - rewrite <- (Z.div_unique_pos (y - 1) k (y / k) (y mod k - 1)); lia.
Qed.

Lemma leaps_step y : LEAPS_THRU_END_OF y - LEAPS_THRU_END_OF (y - 1) = b2z (leap y).
Proof.
  unfold LEAPS_THRU_END_OF, leap; pose proof (div_step y 4 ltac:(lia)); pose proof (div_step y 100 ltac:(lia)); pose proof (div_step y 400 ltac:(lia)).
  assert (H4 : y mod 400 = 0 -> y mod 100 = 0) by (intros; Z.to_euclidean_division_equations; lia).
  assert (H100 : y mod 100 = 0 -> y mod 4 = 0) by (intros; Z.to_euclidean_division_equations; lia).
  destruct (y mod 4 =? 0) eqn:E4, (y mod 100 =? 0) eqn:E100, (y mod 400 =? 0) eqn:E400; zbool; cbn in *; lia.
Qed.

Lemma days_to_leaps n : days_to n = 365 * Z.of_nat n + LEAPS_THRU_END_OF (1969 + Z.of_nat n) - LEAPS_THRU_END_OF 1969.
Proof.
  induction n as [|n IH]; [done|]; cbn [days_to]; rewrite IH, <- (leaps_step (1970 + Z.of_nat n)); replace (1970 + Z.of_nat n - 1) with (1969 + Z.of_nat n) by lia.
  replace (1969 + Z.of_nat (S n)) with (1970 + Z.of_nat n) by lia; lia.
Qed.

(** Up to 2106 there are less leap days than days in a year. *)
Lemma leaps_bound y : 1969 <= y <= 2106 -> 0 <= LEAPS_THRU_END_OF y - LEAPS_THRU_END_OF 1969 <= 35.
Proof. intros Hy; unfold LEAPS_THRU_END_OF; Z.to_euclidean_division_equations; lia. Qed.

Section Calendar.
  Context `{!RtcLib, !RtcLibLaws}.

(** Look up a constant in a table. *)
Ltac rd_eval :=
  repeat first [rewrite bind_ok | match goal with |- context [rd ?t ?i] => let v := eval vm_compute in (rd t i) in change (rd t i) with v end].

(** The table of days before a month is the sum of the months. *)
Lemma ydays_step m y day d : 0 <= m < 11 -> rtc_year_days day m y = Some d ->
  exists md, rtc_month_days m y = Some md /\ rtc_year_days (day - md) (m + 1) y = Some d.
Proof.
  intros Hm; unfold rtc_year_days, rtc_month_days; assert (Hc : m = 0 \/ m = 1 \/ m = 2 \/ m = 3 \/ m = 4 \/ m = 5 \/ m = 6 \/ m = 7 \/ m = 8 \/ m = 9 \/ m = 10) by lia.
  destruct (is_leap_year y); repeat (destruct Hc as [->|Hc]); try subst m; rd_eval; intros [= <-]; eexists; (split; [rd_eval; reflexivity|]); rd_eval; cbn [b2z andb Z.eqb Pos.eqb]; f_equal; lia.
Qed.

Lemma month_loop_spec n : forall m days y d,
  m + Z.of_nat n = 11 -> 0 <= m -> 0 <= days -> rtc_year_days (days + 1) m y = Some d -> d < 365 + b2z (is_leap_year y) ->
  exists mon rem md, month_loop n m days y = Some (mon, rem) /\ 0 <= mon < 12 /\ rtc_month_days mon y = Some md /\ 0 <= rem < md /\ rtc_year_days (rem + 1) mon y = Some d.
Proof.
  induction n as [|n IH]; intros m days y d Hm Hm0 Hd Hy Hlt; cbn [month_loop].
  - assert (m = 11) as -> by lia; exists 11, days, 31; assert (Hlast : days < 31).
    { revert Hy Hlt; unfold rtc_year_days; destruct (is_leap_year y); rd_eval; cbn [b2z]; intros [= <-]; lia. }
    split_and!; try done; unfold rtc_month_days; destruct (is_leap_year y); done.
  - destruct (ydays_step m y (days + 1) d ltac:(lia) Hy) as (md & Hmd & Hn); rewrite Hmd, bind_ok; destruct (days - md <? 0) eqn:E; zbool.
    + exists m, days, md; split_and!; try done; lia.
    + apply IH; try lia; by replace (days - md + 1) with (days + 1 - md) by lia.
Qed.

(** The year and the day in it. *)
Lemma year_of_day d : 0 <= d <= 49710 ->
  exists n, let year := u32 (1970 + Z.quot d 365) in
    let days := to_int (u32 (d - ((year - 1970) * 365 + LEAPS_THRU_END_OF (u32 (year - 1)) - LEAPS_THRU_END_OF (1970 - 1)))) in
    (if days <? 0 then (u32 (year - 1), days + (365 + b2z (is_leap_year (u32 (year - 1))))) else (year, days)) = (1970 + Z.of_nat n, d - days_to n) /\
    0 <= d - days_to n < 365 + b2z (is_leap_year (1970 + Z.of_nat n)) /\ (n <= 136)%nat.
Proof.
  intros Hd; rewrite Z.quot_div_nonneg by lia; set (n0 := Z.to_nat (d / 365)); assert (Hn0 : Z.of_nat n0 = d / 365) by (unfold n0; rewrite Z2Nat.id; [done|]; Z.to_euclidean_division_equations; lia).
  rewrite <- Hn0; assert (Hb : 365 * Z.of_nat n0 <= d < 365 * Z.of_nat n0 + 365) by (rewrite Hn0; Z.to_euclidean_division_equations; lia).
  assert (Hn : (n0 <= 136)%nat) by lia; pose proof (leaps_bound (1969 + Z.of_nat n0) ltac:(lia)) as HL; pose proof (days_to_leaps n0) as Hf.
  assert (Hy : u32 (1970 + Z.of_nat n0) = 1970 + Z.of_nat n0) by (apply u32_id; lia); assert (Hlen : forall k, b2z (leap k) = 0 \/ b2z (leap k) = 1) by (intros k; destruct (leap k); auto).
  assert (Hdays : to_int (u32 (d - ((1970 + Z.of_nat n0 - 1970) * 365 + LEAPS_THRU_END_OF (u32 (1970 + Z.of_nat n0 - 1)) - LEAPS_THRU_END_OF (1970 - 1)))) = d - days_to n0).
  { rewrite (u32_id (1970 + Z.of_nat n0 - 1)) by lia; replace (1970 + Z.of_nat n0 - 1) with (1969 + Z.of_nat n0) by lia; change (1970 - 1) with 1969.
    rewrite to_int_u32; unfold is_s32; lia. }
  cbn zeta; destruct (d - days_to n0 <? 0) eqn:E; zbool; [destruct n0 as [|n]; [cbn in E; lia|]; exists n | exists n0]; rewrite ?Hy, ?Hdays.
  - rewrite (proj2 (Z.ltb_lt _ _)) by lia; rewrite u32_id by lia; replace (1970 + Z.of_nat (S n) - 1) with (1970 + Z.of_nat n) by lia; rewrite is_leap_year_leap by lia.
    cbn [days_to] in *; pose proof (Hlen (1970 + Z.of_nat n)); split_and!; [f_equal; lia | lia | lia | lia].
  - rewrite (proj2 (Z.ltb_ge _ _)) by lia; rewrite is_leap_year_leap by lia; pose proof (Hlen (1970 + Z.of_nat n0)); split_and!; [done | lia | lia | lia].
Qed.

(** C30: seconds to date. For every 32-bit count of seconds, [rtc_time_to_tm] gives
    a date that [rtc_valid_tm] accepts, and the date stands for exactly these
    seconds: the days of the years before it, the days of the months before it in
    its year, and the time of day; the day of the week counts on from Thursday,
    the first of January 1970. *)
Theorem rtc_time_to_tm_correct time :
  0 <= time < 4294967296 ->
  exists tm n yd, rtc_time_to_tm time = Some tm /\ rtc_valid_tm tm = Some 0 /\ tm_year tm + 1900 = 1970 + Z.of_nat n /\
    rtc_year_days (tm_mday tm) (tm_mon tm) (tm_year tm + 1900) = Some yd /\
    time = 86400 * (days_to n + yd) + 3600 * tm_hour tm + 60 * tm_min tm + tm_sec tm /\
    tm_wday tm = (4 + days_to n + yd) mod 7.
Proof.
  intros Ht; unfold rtc_time_to_tm; set (d := time / 86400); assert (Hd : 0 <= d <= 49710 /\ 0 <= time - d * 86400 < 86400) by (unfold d; Z.to_euclidean_division_equations; lia).
  destruct Hd as [Hd Hs]; destruct (year_of_day d Hd) as (n & Hyear & Hrange & Hn); cbn zeta in Hyear; rewrite Hyear; rewrite (u32_id (d * 86400)), (u32_id (time - d * 86400)) by lia.
  set (sec := time - d * 86400) in *; assert (Hh : 0 <= sec / 3600 < 24 /\ 0 <= sec - sec / 3600 * 3600 < 3600) by (Z.to_euclidean_division_equations; lia).
  rewrite (u32_id (sec - sec / 3600 * 3600)) by lia; set (rest := sec - sec / 3600 * 3600) in *; assert (Hm : 0 <= rest / 60 < 60 /\ 0 <= rest - rest / 60 * 60 < 60) by (Z.to_euclidean_division_equations; lia).
  destruct (month_loop_spec 11 0 (d - days_to n) (1970 + Z.of_nat n) (d - days_to n)) as (mon & rem & md & -> & Hmon & Hmd & Hrem & Hyd); try lia.
  { unfold rtc_year_days; destruct (is_leap_year (1970 + Z.of_nat n)); rd_eval; f_equal; lia. }
  rewrite bind_ok; eexists _, n, (d - days_to n); split; [done|]; cbn [tm_year tm_mday tm_mon tm_hour tm_min tm_sec tm_wday].
  replace (1970 + Z.of_nat n - 1900 + 1900) with (1970 + Z.of_nat n) by lia; split_and!; try done.
  - unfold rtc_valid_tm; cbn [tm_year tm_mday tm_mon tm_hour tm_min tm_sec]; rewrite (proj2 (Z.ltb_ge _ _)) by lia; rewrite (u32_id mon) by lia; rewrite (proj2 (Z.leb_gt _ _)) by lia.
    rewrite (proj2 (Z.ltb_ge (rem + 1) 1)) by lia; replace (1970 + Z.of_nat n - 1900 + 1900) with (1970 + Z.of_nat n) by lia; rewrite (u32_id (1970 + Z.of_nat n)) by lia; rewrite Hmd, bind_ok.
    rewrite (proj2 (Z.ltb_ge md _)) by lia; rewrite (u32_id (sec / 3600)), (u32_id (rest / 60)), (u32_id (rest - rest / 60 * 60)) by lia; rewrite !(proj2 (Z.leb_gt _ _)) by lia; done.
  - lia.
  - rewrite Z.rem_mod_nonneg by lia; f_equal; lia.
Qed.
End Calendar.

(** ** Words of decimal digits *)
Lemma lor_shift a b n : 0 <= n -> 0 <= a < 2 ^ n -> Z.lor a (Z.shiftl b n) = a + b * 2 ^ n.
Proof.
  intros Hn Ha; pose proof (Z.add_lor_land a (Z.shiftl b n)) as H; rewrite Z.shiftl_mul_pow2 in H |- * by done.
  assert (Hz : Z.land a (b * 2 ^ n) = 0); [|lia]; rewrite <- (Z.mod_small a (2 ^ n)) by done; apply Z.bits_inj'; intros k Hk; rewrite Z.land_spec, Z.bits_0.
  destruct (Z_lt_dec k n); [rewrite Z.mul_pow2_bits_low, andb_false_r by lia; done | rewrite Z.mod_pow2_bits_high by lia; done].
Qed.

(** Three bytes in a word, with something above them. *)
Definition pack (a b c : Z) : Z := Z.lor (Z.lor a (Z.shiftl b 8)) (Z.shiftl c 16).

Lemma pack_sum a b c : is_u8 a -> is_u8 b -> pack a b c = a + b * 256 + c * 65536.
Proof. unfold is_u8, pack; intros; rewrite (lor_shift a b 8), lor_shift; lia. Qed.

Lemma unpack a b c h : is_u8 a -> is_u8 b -> is_u8 c ->
  let w := pack a b c + h * 16777216 in u8 w = a /\ u8 (Z.shiftr w 8) = b /\ u8 (Z.shiftr w 16) = c.
Proof.
  intros Ha Hb Hc; cbn zeta; rewrite pack_sum by done; rewrite !Z.shiftr_div_pow2 by lia; unfold u8, is_u8 in *; Z.to_euclidean_division_equations; lia.
Qed.

Section Driver.
  Context {R : Type} `{!RtcHw R, !RtcLib, !RtcHwLaws R, !RtcLibLaws}.
  Implicit Types r : R.

Lemma bcd_byte n : 0 <= n < 100 -> is_u8 (bin2bcd n) /\ bcd2bin (bin2bcd n) = n.
Proof.
  intros Hn; rewrite bin2bcd_digits by done; rewrite bcd2bin_digits by (Z.to_euclidean_division_equations; lia); unfold is_u8; Z.to_euclidean_division_equations; lia.
Qed.

(** The fields that a valid time has. *)
Record time_ok (tm : rtc_time) : Prop := {
  o_sec : 0 <= tm_sec tm < 60; o_min : 0 <= tm_min tm < 60; o_hour : 0 <= tm_hour tm < 24;
  o_mday : 1 <= tm_mday tm <= 31; o_mon : 0 <= tm_mon tm < 12; o_year : 70 <= tm_year tm;
}.

(** The fields are of type [int]. *)
Definition ints (tm : rtc_time) : Prop := Forall is_s32 [tm_sec tm; tm_min tm; tm_hour tm; tm_mday tm; tm_mon tm; tm_year tm].

Lemma u32_below x n : is_s32 x -> n <= 2147483648 -> u32 x < n -> 0 <= x < n.
Proof. unfold is_s32, u32; intros; Z.to_euclidean_division_equations; lia. Qed.

Lemma month_days_31 m y md : rtc_month_days m y = Some md -> md <= 31.
Proof.
  unfold rtc_month_days; intros Hmd; apply bind_Some in Hmd as (d & Hd & [= <-]); pose proof (rd_range _ _ _ Hd) as Hr; change (zlen rtc_days_in_month) with 12 in Hr.
  assert (Hc : m = 0 \/ m = 1 \/ m = 2 \/ m = 3 \/ m = 4 \/ m = 5 \/ m = 6 \/ m = 7 \/ m = 8 \/ m = 9 \/ m = 10 \/ m = 11) by lia.
  repeat (destruct Hc as [->|Hc]); try subst m; injection Hd as <-; destruct (is_leap_year y); cbn; lia.
Qed.

Lemma valid_fields tm : ints tm -> rtc_valid_tm tm = Some 0 -> time_ok tm.
Proof.
  unfold ints; rewrite !Forall_cons; intros (Hs & Hmi & Hh & Hd & Hmo & Hy & _); unfold rtc_valid_tm.
  repeat (destruct (_ <? _) eqn:? in |- *; [by intros|]); destruct (_ <=? _) eqn:?; [by intros|]; destruct (tm_mday tm <? 1) eqn:?; [by intros|].
  destruct (rtc_month_days _ _) as [md|] eqn:Hmd; [|by intros]; rewrite bind_ok; apply month_days_31 in Hmd.
  destruct (md <? tm_mday tm) eqn:?; [by intros|]; destruct (24 <=? u32 (tm_hour tm)) eqn:?; [by intros|]; destruct (60 <=? u32 (tm_min tm)) eqn:?; [by intros|]; destruct (60 <=? u32 (tm_sec tm)) eqn:?; [by intros|].
  intros _; zbool; split; try (by apply u32_below); lia.
Qed.

(** The year that the clock can hold: two digits of this century. *)
Definition clock_year (y : Z) : Z := if y <? 100 then y + 100 else y.

Definition with_time (tm0 tm : rtc_time) : rtc_time :=
  tm0 <| tm_sec := tm_sec tm |> <| tm_min := tm_min tm |> <| tm_hour := tm_hour tm |> <| tm_mday := tm_mday tm |> <| tm_mon := tm_mon tm |>
      <| tm_year := clock_year (tm_year tm) |>.

(** A century later the same years are leap years, up to 2099. *)
Lemma leap_century y : 70 <= y < 200 -> leap (clock_year y + 1900) = leap (y + 1900).
Proof.
  intros Hy; unfold clock_year; zcase; [|done]; unfold leap; replace ((y + 100 + 1900) mod 4) with ((y + 1900) mod 4) by (Z.to_euclidean_division_equations; lia).
  rewrite !(proj2 (Z.eqb_neq (_ mod 100) 0)), !(proj2 (Z.eqb_neq (_ mod 400) 0)) by (Z.to_euclidean_division_equations; lia); done.
Qed.

Lemma valid_century tm tm0 : ints tm -> rtc_valid_tm tm = Some 0 -> tm_year tm < 200 -> rtc_valid_tm (with_time tm0 tm) = Some 0.
Proof.
  intros Hi Hv Hy; destruct (valid_fields tm Hi Hv) as [Hs Hmi Hh Hd Hm Hy70]; unfold rtc_valid_tm in *; unfold with_time; cbn [tm_year tm_mon tm_mday tm_hour tm_min tm_sec set].
  assert (Hcy : 100 <= clock_year (tm_year tm) < 200) by (unfold clock_year; zcase; lia); rewrite (proj2 (Z.ltb_ge (tm_year tm) 70)) in Hv by lia; rewrite (proj2 (Z.ltb_ge (clock_year (tm_year tm)) 70)) by lia.
  assert (Hmd : rtc_month_days (tm_mon tm) (u32 (clock_year (tm_year tm) + 1900)) = rtc_month_days (tm_mon tm) (u32 (tm_year tm + 1900))); [|by rewrite Hmd].
  rewrite !u32_id by lia; unfold rtc_month_days; by rewrite !is_leap_year_leap, leap_century by lia.
Qed.

(** Encoding and decoding. *)
Lemma decode tm tm0 h :
  ints tm -> rtc_valid_tm tm = Some 0 -> tm_year tm < 200 ->
  nuc970_rtc_bcd2bin (time_word (nuc970_rtc_bin2bcd tm)) (cal_word (nuc970_rtc_bin2bcd tm) + h * 16777216) tm0 = Some (0, with_time tm0 tm).
Proof.
  intros Hi Hv Hy; pose proof (valid_century tm tm0 Hi Hv Hy) as Hv2; destruct (valid_fields tm Hi Hv) as [Hs Hmi Hh Hd Hm Hy70]; unfold nuc970_rtc_bcd2bin.
  set (yy := if tm_year tm <? 100 then tm_year tm else tm_year tm - 100); assert (Hyy : 0 <= yy < 100 /\ yy + 100 = clock_year (tm_year tm)) by (unfold yy, clock_year; destruct (tm_year tm <? 100) eqn:?; zbool; lia).
  assert (Hc : cal_word (nuc970_rtc_bin2bcd tm) = pack (bin2bcd (tm_mday tm)) (bin2bcd (tm_mon tm + 1)) (bin2bcd yy)) by (unfold cal_word, pack, yy; cbn; by destruct (tm_year tm <? 100)).
  change (time_word (nuc970_rtc_bin2bcd tm)) with (pack (bin2bcd (tm_sec tm)) (bin2bcd (tm_min tm)) (bin2bcd (tm_hour tm))); rewrite Hc.
  destruct (bcd_byte (tm_sec tm)) as [B1 E1], (bcd_byte (tm_min tm)) as [B2 E2], (bcd_byte (tm_hour tm)) as [B3 E3], (bcd_byte (tm_mday tm)) as [B4 E4], (bcd_byte (tm_mon tm + 1)) as [B5 E5], (bcd_byte yy) as [B6 E6]; try lia.
  destruct (unpack _ _ _ h B4 B5 B6) as (-> & -> & ->); destruct (unpack _ _ _ 0 B1 B2 B3) as (U1 & U2 & U3); rewrite Z.add_0_r in U1, U2, U3; rewrite U1, U2, U3, E1, E2, E3, E4, E5, E6.
  destruct Hyy as [_ Hyy]; cbn -[rtc_valid_tm Z.add]; rewrite Hyy, Z.add_simpl_r; unfold with_time in Hv2; cbn -[rtc_valid_tm clock_year] in Hv2; rewrite Hv2, bind_ok; done.
Qed.


(** ** Registers *)
Lemma read_pair a r : data_reg a = true -> exists r', raw_readl a r = (cell a r, r') /\ forall a', cell a' r' = cell a' r.
Proof.
  intros Ha; pose proof (read_cell a r Ha) as H1; pose proof (fun a' => cell_read a a' r) as H2; destruct (raw_readl a r) as [v r']; cbn in *; subst v; by exists r'.
Qed.

Lemma wait_cell n a : forall r, cell a (write_wait n r) = cell a r.
Proof.
  induction n as [|n IH]; intros r; cbn [write_wait]; pose proof (cell_read REG_RTC_RIIR a r) as Hr; destruct (raw_readl REG_RTC_RIIR r) as [v r']; cbn in Hr; destruct (Z.testbit v 31); by rewrite ?IH.
Qed.

Lemma wait_access n : forall r, access r = true -> access (write_wait n r) = true.
Proof.
  induction n as [|n IH]; intros r Hr; cbn [write_wait]; pose proof (access_read REG_RTC_RIIR r Hr) as Ha; destruct (raw_readl REG_RTC_RIIR r) as [v r']; destruct (Z.testbit v 31); by try apply IH.
Qed.

Lemma reg_write_access a v r : a <> REG_RTC_AER -> access r = true -> access (rtc_reg_write a v r) = true.
Proof. intros; unfold rtc_reg_write; by apply wait_access, access_write. Qed.

Lemma reg_write_same a v r : data_reg a = true -> 0 <= v < 4294967296 -> access r = true -> cell a (rtc_reg_write a v r) = v.
Proof. intros; unfold rtc_reg_write; rewrite wait_cell; by apply cell_write. Qed.

Lemma reg_write_locked a v r : data_reg a = true -> access r = false -> cell a (rtc_reg_write a v r) = cell a r.
Proof. intros; unfold rtc_reg_write; rewrite wait_cell; by apply cell_locked. Qed.

Lemma data_reg_AER a : data_reg a = true -> a <> REG_RTC_AER.
Proof. by intros Ha ->. Qed.

Lemma reg_write_other a a' v r : data_reg a' = true -> a <> a' -> cell a' (rtc_reg_write a v r) = cell a' r.
Proof. intros; unfold rtc_reg_write; rewrite wait_cell; by apply cell_other. Qed.

Lemma access_cell n a : forall r, cell a (snd (access_loop n r)) = cell a r.
Proof.
  induction n as [|n IH]; intros r; cbn [access_loop]; pose proof (cell_read REG_RTC_AER a r) as Hr; destruct (raw_readl REG_RTC_AER r) as [v r']; cbn in Hr; destruct (nz _); by rewrite ?IH.
Qed.

Lemma lor_u32 x y : is_u32 x -> is_u32 y -> is_u32 (Z.lor x y).
Proof.
  unfold is_u32; intros Hx Hy; assert (Hn : 0 <= Z.lor x y) by (apply Z.lor_nonneg; lia); split; [done|]; destruct (Z.eq_dec (Z.lor x y) 0) as [->|Hne]; [lia|].
  change 4294967296 with (2 ^ 32); apply Z.log2_lt_pow2; [lia|]; rewrite Z.log2_lor by lia; apply Z.max_lub_lt.
  - destruct (Z.eq_dec x 0) as [->|]; [done | apply Z.log2_lt_pow2; lia].
  - destruct (Z.eq_dec y 0) as [->|]; [done | apply Z.log2_lt_pow2; lia].
Qed.

(** The access check leaves the registers of the clock alone. *)
Lemma check_cell a r : data_reg a = true -> cell a (snd (check_rtc_access_enable r)) = cell a r.
Proof.
  intros Ha; unfold check_rtc_access_enable; match goal with |- context [access_loop ?n ?x] => pose proof (access_cell n a x) as Hc; destruct (access_loop n x) as [t r'] end; cbn in *.
  rewrite Hc, !reg_write_other; try done; intros <-; discriminate.
Qed.

Lemma words_u32 tm : ints tm -> rtc_valid_tm tm = Some 0 -> tm_year tm < 200 ->
  0 <= time_word (nuc970_rtc_bin2bcd tm) < 16777216 /\ 0 <= cal_word (nuc970_rtc_bin2bcd tm) < 16777216.
Proof.
  intros Hi Hv Hy; destruct (valid_fields tm Hi Hv) as [Hs Hmi Hh Hd Hm Hy70]; unfold time_word, cal_word, nuc970_rtc_bin2bcd; cbn [bcd_sec bcd_min bcd_hour bcd_mday bcd_mon bcd_year].
  assert (Hp : forall a b c, 0 <= a < 100 -> 0 <= b < 100 -> 0 <= c < 100 -> 0 <= pack (bin2bcd a) (bin2bcd b) (bin2bcd c) < 16777216).
  { intros a b c Ha Hb Hc; destruct (bcd_byte a Ha) as [B1 _], (bcd_byte b Hb) as [B2 _], (bcd_byte c Hc) as [B3 _]; rewrite pack_sum by done; unfold is_u8 in *; lia. }
  split; [apply Hp; lia|]; destruct (tm_year tm <? 100) eqn:?; zbool; apply Hp; lia.
Qed.

(** ** The access check *)

(** The first [n] readings of the access enable bit. *)
Fixpoint readings (n : nat) r : list bool :=
  match n with O => [] | S n => let '(aer, r) := raw_readl REG_RTC_AER r in nz (Z.land aer AERRWENB) :: readings n r end.

(** The clock with the reset code and then the key written to it. *)
Definition unlocked r : R := rtc_reg_write REG_RTC_AER AERPOWERON (rtc_reg_write REG_RTC_INIR INIRRESET r).

(** Access to the clock that was unlocked: enabled after [k] readings without it,
    or not at any of the readings that [check_rtc_access_enable] makes. *)
Definition granted_after (k : nat) r : Prop := readings (S k) (unlocked r) = replicate k false ++ [true].
Definition never_granted r : Prop := readings (S (Z.to_nat 0x800)) (unlocked r) = replicate (S (Z.to_nat 0x800)) false.

Lemma access_never n : forall r, readings (S n) r = replicate (S n) false -> fst (access_loop n r) = UINT_MAX /\ access (snd (access_loop n r)) = false.
Proof.
  induction n as [|n IH]; intros r Hr; cbn [readings access_loop] in *; pose proof (read_access r) as Ha; destruct (raw_readl REG_RTC_AER r) as [v r']; cbn [fst snd] in Ha; destruct (nz _); [done|done|done|].
  apply IH; by injection Hr.
Qed.

Lemma access_after k n : forall r, readings (S k) r = replicate k false ++ [true] -> fst (access_loop (k + n) r) = Z.of_nat n /\ access (snd (access_loop (k + n) r)) = true.
Proof.
  induction k as [|k IH]; intros r Hr; cbn [Nat.add readings access_loop app replicate] in *; [destruct n|]; cbn [access_loop]; pose proof (read_access r) as Ha.
  1,2: destruct (raw_readl REG_RTC_AER r) as [v r']; cbn [fst snd] in Ha; by destruct (nz _).
  destruct (raw_readl REG_RTC_AER r) as [v r']; destruct (nz _); [done|]; apply IH; by injection Hr.
Qed.

(** The check fails only at the last reading; else it reports success, with
    access or without. It leaves the locked registers alone. *)
Lemma check_access r :
  (forall k, (k < Z.to_nat 0x800)%nat -> granted_after k r -> fst (check_rtc_access_enable r) = 0 /\ access (snd (check_rtc_access_enable r)) = true) /\
  (granted_after (Z.to_nat 0x800) r -> fst (check_rtc_access_enable r) = - EPERM) /\
  (never_granted r -> fst (check_rtc_access_enable r) = 0 /\ access (snd (check_rtc_access_enable r)) = false).
Proof.
  unfold check_rtc_access_enable, granted_after, never_granted; fold (unlocked r); split; [|split].
  - intros k Hk Hr; apply (access_after k (Z.to_nat 0x800 - k)) in Hr as [H1 H2]; replace (k + (Z.to_nat 0x800 - k))%nat with (Z.to_nat 0x800) in * by lia; destruct (access_loop _ _) as [t r']; cbn [fst snd] in *; split; [|done]; destruct (t =? 0) eqn:E; zbool; [lia|done].
  - intros Hr; apply (access_after _ 0) in Hr as [H1 _]; rewrite Nat.add_0_r in H1; destruct (access_loop _ (unlocked r)) as [t r']; cbn [fst] in *; by subst t.
  - intros Hr; apply access_never in Hr as [H1 H2]; destruct (access_loop _ (unlocked r)) as [t r']; cbn [fst snd] in *; by subst t.
Qed.

(** C31: setting and reading the time. A valid time of the years 1970 to 2099 that is
    set is the time that is read, up to the next tick, if the clock, unlocked as it
    asks for, enables access after at most 0x7ff readings without it; with one
    exception, the years before 2000 are read as a century later. If access comes at
    the last reading the result is -EPERM and the time stays what it was, and if it
    does not come at all the result is 0 although the date stays what it was. *)
Theorem rtc_time_roundtrip tm tm0 r :
  ints tm -> rtc_valid_tm tm = Some 0 -> tm_year tm < 200 ->
  (forall k, (k < Z.to_nat 0x800)%nat -> granted_after k r ->
    exists r1 r2, nuc970_rtc_set_time tm r = (0, r1) /\ nuc970_rtc_read_time tm0 r1 = Some (0, with_time tm0 tm, r2)) /\
  (granted_after (Z.to_nat 0x800) r ->
    exists r1, nuc970_rtc_set_time tm r = (- EPERM, r1) /\ cell REG_RTC_CLR r1 = cell REG_RTC_CLR r /\ cell REG_RTC_TLR r1 = cell REG_RTC_TLR r) /\
  (never_granted r -> exists r1, nuc970_rtc_set_time tm r = (0, r1) /\ cell REG_RTC_CLR r1 = cell REG_RTC_CLR r).
Proof.
  intros Hi Hv Hy; destruct (words_u32 tm Hi Hv Hy) as [Hw1 Hw2]; unfold nuc970_rtc_set_time; destruct (check_access r) as (A1 & A2 & A3); pose proof (fun a => check_cell a r) as Hk; destruct (check_rtc_access_enable r) as [err r0]; cbn [fst snd] in *; split; [|split].
  - intros k Hlt Hg; destruct (A1 k Hlt Hg) as [-> Ha]; set (r1 := rtc_reg_write REG_RTC_TLR _ _); exists r1; unfold nuc970_rtc_read_time; destruct (read_pair REG_RTC_TLR r1) as (r2 & -> & H2); [done|]; destruct (read_pair REG_RTC_CLR r2) as (r3 & -> & _); [done|].
    assert (Ha' := reg_write_access REG_RTC_CLR (cal_word (nuc970_rtc_bin2bcd tm)) r0 ltac:(done) Ha).
    exists r3; split; [done|]; unfold r1 at 1; rewrite reg_write_same by (done || lia); rewrite H2; unfold r1; rewrite reg_write_other, reg_write_same by (done || lia).
    rewrite <- (Z.add_0_r (cal_word _)); change 0 with (0 * 16777216) at 1; by rewrite decode, bind_ok.
  - intros Hg; rewrite (A2 Hg); exists r0; split; [done|]; by rewrite !Hk.
  - intros Hg; destruct (A3 Hg) as [-> Ha]; eexists; split; [reflexivity|]; by rewrite reg_write_other, reg_write_locked, Hk.
Qed.

(** Setting and reading the alarm: the same for the alarm, which is set without
    the day of the week, and the wake-up by the alarm is on. *)
Theorem rtc_alarm_roundtrip tm tm0 r k :
  ints tm -> rtc_valid_tm tm = Some 0 -> tm_year tm < 200 -> (k < Z.to_nat 0x800)%nat -> granted_after k r -> 0 <= cell REG_RTC_PWRCTL r < 4294967296 ->
  exists r1 r2, nuc970_rtc_set_alarm tm r = (0, r1) /\ nuc970_rtc_read_alarm tm0 r1 = Some (0, with_time tm0 tm, r2) /\ Z.testbit (cell REG_RTC_PWRCTL r1) 3 = true.
Proof.
  intros Hi Hv Hy Hlt Hg Hpw; destruct (words_u32 tm Hi Hv Hy) as [Hw1 Hw2]; unfold nuc970_rtc_set_alarm; pose proof (check_cell REG_RTC_PWRCTL r eq_refl) as Hck; destruct (proj1 (check_access r) k Hlt Hg) as [Hc Ha]; destruct (check_rtc_access_enable r) as [err r0]; cbn [fst snd] in Hc, Hck, Ha; subst err.
  assert (Hcar : Z.lor (cal_word (nuc970_rtc_bin2bcd tm)) (Z.shiftl 1 31) = cal_word (nuc970_rtc_bin2bcd tm) + 128 * 16777216) by (rewrite lor_shift; lia); rewrite Hcar; cbn [Z.ltb Z.compare].
  assert (Ha1 := reg_write_access REG_RTC_CAR (cal_word (nuc970_rtc_bin2bcd tm) + 128 * 16777216) r0 ltac:(done) Ha); assert (Ha2 := reg_write_access REG_RTC_TAR (time_word (nuc970_rtc_bin2bcd tm)) _ ltac:(done) Ha1).
  set (ra := rtc_reg_write REG_RTC_TAR _ _) in *; unfold rtc_reg_update; pose proof (access_read REG_RTC_PWRCTL ra Ha2) as Ha3; destruct (read_pair REG_RTC_PWRCTL ra) as (rb & E & Hb); [done|]; rewrite E in Ha3 |- *; cbn [snd] in Ha3.
  assert (Hp : cell REG_RTC_PWRCTL ra = cell REG_RTC_PWRCTL r) by (unfold ra; by rewrite !reg_write_other).
  set (r1 := rtc_reg_write REG_RTC_PWRCTL _ _); exists r1; unfold nuc970_rtc_read_alarm; destruct (read_pair REG_RTC_TAR r1) as (r2 & -> & H2); [done|]; destruct (read_pair REG_RTC_CAR r2) as (r3 & -> & _); [done|].
  exists r3; split; [done|]; rewrite H2; assert (Ht : cell REG_RTC_TAR r1 = time_word (nuc970_rtc_bin2bcd tm) /\ cell REG_RTC_CAR r1 = cal_word (nuc970_rtc_bin2bcd tm) + 128 * 16777216).
  { unfold r1; rewrite !reg_write_other, !Hb by done; unfold ra; rewrite (reg_write_other REG_RTC_TAR REG_RTC_CAR), !reg_write_same by (done || lia); done. }
  destruct Ht as [-> ->]; rewrite decode, bind_ok by done; split; [done|]; unfold r1; rewrite reg_write_same; [by rewrite Z.lor_spec, orb_true_r | done | | done].
  rewrite Hp; apply lor_u32; [done | by vm_compute].
Qed.

(** The spare words. *)
Lemma spare_write_other l : forall i a r, data_reg a = true -> a < 0x40 + i * 4 -> cell a (spare_write l i r) = cell a r.
Proof.
  induction l as [|v l IH]; intros i a r Ha Hlt; [done|]; cbn [spare_write]; rewrite IH by (done || lia); apply reg_write_other; [done | lia].
Qed.

Lemma spare_reg i : 0 <= i < 16 -> data_reg (0x40 + i * 4) = true.
Proof.
  intros Hi; unfold data_reg; rewrite (proj2 (Z.leb_le 0x40 _)), (proj2 (Z.ltb_lt _ 0x80)) by lia; apply orb_true_r.
Qed.

Lemma spare_written l : forall i r, 0 <= i -> i + zlen l <= 16 -> Forall is_u32 l -> access r = true ->
  forall k, 0 <= k < zlen l -> Some (cell (0x40 + (i + k) * 4) (spare_write l i r)) = rd l k.
Proof.
  induction l as [|v l IH]; intros i r Hi Hl Hu Hac k Hk; [unfold zlen in Hk; simpl in Hk; lia|]; apply Forall_cons in Hu as [Hv Hu]; zlen_simpl; cbn [spare_write].
  assert (Hr : data_reg (0x40 + i * 4) = true) by (apply spare_reg; pose proof (zlen_nonneg l); lia); destruct (Z.eq_dec k 0) as [->|Hne].
  - rewrite Z.add_0_r, spare_write_other, reg_write_same; try done; lia.
  - replace (i + k) with (i + 1 + (k - 1)) by lia; rewrite IH by (done || lia || by apply reg_write_access; [apply data_reg_AER|]); unfold rd; rewrite !(proj2 (Z.leb_le _ _)) by lia; replace (Z.to_nat k) with (S (Z.to_nat (k - 1))) by lia; done.
Qed.

Lemma spare_read_cells n : forall i r, 0 <= i -> i + Z.of_nat n <= 16 ->
  fst (spare_read n i r) = map (fun k => cell (0x40 + (i + Z.of_nat k) * 4) r) (seq 0 n).
Proof.
  induction n as [|n IH]; intros i r Hi Hn; [done|]; cbn [spare_read]; destruct (read_pair (0x40 + i * 4) r) as (r' & -> & Hr); [apply spare_reg; lia|].
  specialize (IH (i + 1) r' ltac:(lia) ltac:(lia)); destruct (spare_read n (i + 1) r') as [l r2]; cbn in IH |- *; rewrite IH, <- seq_shift, map_map, Z.add_0_r; f_equal.
  apply map_ext; intros k; rewrite Hr; f_equal; lia.
Qed.

(** The spare words, which keep their contents while the system is off, are read
    as they were written. *)
Theorem rtc_spare_roundtrip l r r1 n :
  zlen l = 16 -> Forall is_u32 l -> (n < Z.to_nat 0x800)%nat -> granted_after n r -> ioctl_set_spare false l r = (0, r1) -> fst (check_rtc_access_enable r1) = 0 ->
  exists r2, ioctl_get_spare false r1 = (0, Some l, r2).
Proof.
  intros Hl Hu Hlt Hg; unfold ioctl_set_spare; destruct (proj1 (check_access r) n Hlt Hg) as [_ Ha]; destruct (check_rtc_access_enable r) as [err r0]; cbn [snd] in Ha; destruct (err <? 0) eqn:He; [intros [= -> <-]; zbool; lia|]; intros [= <-] Hc.
  unfold ioctl_get_spare; pose proof (fun a => check_cell a (spare_write l 0 r0)) as Hck; destruct (check_rtc_access_enable (spare_write l 0 r0)) as [err' r1]; cbn in Hc, Hck; subst err'; cbn [Z.ltb Z.compare].
  pose proof (spare_read_cells 16 0 r1 ltac:(lia) ltac:(lia)) as Hr; destruct (spare_read 16 0 r1) as [l' r2]; cbn [fst] in Hr; exists r2; do 3 f_equal; rewrite Hr; apply list_eq; intros k.
  rewrite list_lookup_fmap; destruct (decide (k < 16)%nat) as [Hk|Hk].
  - rewrite lookup_seq_lt by done; cbn [fmap option_fmap option_map]; rewrite Hck by (apply spare_reg; lia); rewrite (spare_written l 0 r0 ltac:(lia) ltac:(lia) Hu Ha (Z.of_nat (0 + k))) by lia.
    unfold rd; rewrite (proj2 (Z.leb_le _ _)), Nat2Z.id by lia; done.
  - rewrite lookup_seq_ge by lia; symmetry; apply lookup_ge_None_2; unfold zlen in Hl; lia.
Qed.
End Driver.

(** ** A clock that keeps the promises *)

(** The registers, whether access is enabled and was asked for, and the readings
    until it is enabled. *)
Record clock := mk_clock { cells : gmap Z Z; delay : nat; on : bool; key : bool }.
#[export] Instance eta_clock : Eta clock := fun c => mk_clock (cells c) (delay c) (on c) (key c).

Definition read_aer (c : clock) : Z * clock :=
  if on c then (AERRWENB, c)
  else if key c then match delay c with O => (AERRWENB, c <| on := true |>) | S n => (0, c <| delay := n |>) end else (0, c).

#[export] Instance ref_rtc : RtcHw clock := {
  raw_readl a c := if a =? REG_RTC_AER then read_aer c else (default 0 (cells c !! a), c);
  raw_writel v a c :=
    if a =? REG_RTC_AER then (if v =? AERPOWERON then c <| key := true |> else c)
    else if on c then c <| cells := <[a := v]> (cells c) |> else c;
}.

#[export] Instance ref_rtc_laws : RtcHwLaws clock.
Proof.
  assert (Hr : forall c, cells (snd (read_aer c)) = cells c) by (intros [c [|n] [] []]; done).
  refine {| cell a c := default 0 (cells c !! a); access := on; asked := key |}; cbn.
  - intros a a' c; destruct (a =? REG_RTC_AER); [by rewrite Hr|done].
  - intros a c Ha; destruct (a =? REG_RTC_AER) eqn:E; [zbool; subst a; done | done].
  - intros a v c Ha _ ->; destruct (a =? REG_RTC_AER) eqn:E; [zbool; subst a; done|]; cbn; by rewrite lookup_insert_eq.
  - intros a v c Ha ->; destruct (a =? REG_RTC_AER) eqn:E; [zbool; subst a; done | done].
  - intros a a' v c _ Hne; destruct (a =? REG_RTC_AER), (v =? AERPOWERON), (on c); try done; cbn; by rewrite lookup_insert_ne.
  - intros [c [|n] [] []]; done.
  - intros a c Hc; destruct (a =? REG_RTC_AER); [unfold read_aer; by rewrite Hc | done].
  - intros a v c Ha Hc; apply Z.eqb_neq in Ha; by rewrite Ha, Hc.
  - intros a c H1 H2; destruct (a =? REG_RTC_AER); [unfold read_aer; by rewrite H1, H2 | done].
  - intros a v c H1 H2 Hk; rewrite H1; destruct (a =? REG_RTC_AER) eqn:E; [|done]; destruct (v =? AERPOWERON) eqn:E'; zbool; [by destruct Hk|done].
Defined.

#[export] Instance ref_lib : RtcLib := {
  bcd2bin v := v / 16 * 10 + v mod 16;
  bin2bcd n := u8 (n / 10 * 16 + n mod 10);
  is_leap_year := leap;
}.

#[export] Instance ref_lib_laws : RtcLibLaws.
Proof.
  split; [intros a b Ha Hb; cbn | intros n Hn; cbn; unfold u8 | done]; Z.to_euclidean_division_equations; lia.
Defined.

Lemma rtc_time_to_tm_correct_witness :
  exists tm n yd, rtc_time_to_tm 1709210096 = Some tm /\ rtc_valid_tm tm = Some 0 /\ tm_year tm + 1900 = 1970 + Z.of_nat n /\
    1709210096 = 86400 * (days_to n + yd) + 3600 * tm_hour tm + 60 * tm_min tm + tm_sec tm.
Proof.
  destruct (rtc_time_to_tm_correct 1709210096) as (tm & n & yd & H1 & H2 & H3 & _ & H4 & _); [lia|]; exists tm, n, yd; split_and!; assumption.
Defined.

(** The 29th of February 2024, 12:34:56. *)
Definition leap_day : rtc_time := mk_tm 56 34 12 29 1 124 4 60 0.
Definition no_time : rtc_time := mk_tm 0 0 0 0 0 0 0 0 0.
Definition fresh_clock (n : nat) : clock := mk_clock ∅ n false false.

(** A clock that enables access after five readings, one that does so at the last
    reading, and one that is too slow. *)
Lemma rtc_time_roundtrip_witness :
  (exists r1 r2, nuc970_rtc_set_time leap_day (fresh_clock 5) = (0, r1) /\ nuc970_rtc_read_time no_time r1 = Some (0, mk_tm 56 34 12 29 1 124 0 0 0, r2)) /\
  (exists r1, nuc970_rtc_set_time leap_day (fresh_clock 2048) = (- EPERM, r1) /\ cell REG_RTC_CLR r1 = 0 /\ cell REG_RTC_TLR r1 = 0) /\
  (exists r1, nuc970_rtc_set_time leap_day (fresh_clock 5000) = (0, r1) /\ cell REG_RTC_CLR r1 = 0).
Proof.
  assert (Hi : ints leap_day) by (repeat constructor; vm_compute; discriminate); assert (Hv : rtc_valid_tm leap_day = Some 0) by reflexivity; split; [|split].
  - apply (proj1 (rtc_time_roundtrip leap_day no_time (fresh_clock 5) Hi Hv eq_refl) 5%nat); [apply Nat.ltb_lt|]; vm_compute; reflexivity.
  - refine (proj1 (proj2 (rtc_time_roundtrip leap_day no_time (fresh_clock 2048) Hi Hv eq_refl)) _); vm_compute; reflexivity.
  - refine (proj2 (proj2 (rtc_time_roundtrip leap_day no_time (fresh_clock 5000) Hi Hv eq_refl)) _); vm_compute; reflexivity.
Defined.
