(* ===== verification/Nand.v ===== *)
(** The NAND flash controller (src/drivers/mtd/nand/nuc970_nand.c): the choice of
    the error correcting code, the correction of the bytes that the hardware
    reports, the transfer of a page, the commands, and reading and writing of
    pages and their redundant area. The registers, the redundant area registers,
    the DMA buffer and the chip behind them are the interface [NandHw]. *)
From S2P Require Import Prelude.

(** ** Registers and constants *)
Definition FMI_BA : Z := 0xF000D000.
Definition REG_NAND_DMACCSR : Z := FMI_BA + 0x400.
Definition REG_NAND_DMACSAR : Z := FMI_BA + 0x408.
Definition REG_NAND_DMACIER : Z := FMI_BA + 0x410.
Definition REG_NAND_FMICSR : Z := FMI_BA + 0x800.
Definition REG_SMCSR : Z := FMI_BA + 0x8A0.
Definition REG_SMTCR : Z := FMI_BA + 0x8A4.
Definition REG_SMIER : Z := FMI_BA + 0x8A8.
Definition REG_SMISR : Z := FMI_BA + 0x8AC.
Definition REG_SMCMD : Z := FMI_BA + 0x8B0.
Definition REG_SMADDR : Z := FMI_BA + 0x8B4.
Definition REG_SMDATA : Z := FMI_BA + 0x8B8.
Definition REG_SMREACTL : Z := FMI_BA + 0x8BC.
Definition REG_NFECR : Z := FMI_BA + 0x8C0.
Definition REG_SMECC_ST0 : Z := FMI_BA + 0x8D0.
Definition REG_BCH_ECC_ADDR0 : Z := FMI_BA + 0x900.
Definition REG_BCH_ECC_DATA0 : Z := FMI_BA + 0x960.
Definition NAND_EN : Z := 0x08.
Definition READYBUSY : Z := Z.shiftl 0x01 18.
Definition ENDADDR : Z := Z.shiftl 0x01 31.
Definition BCH_T15 : Z := 0x00400000.
Definition BCH_T12 : Z := 0x00200000.
Definition BCH_T8 : Z := 0x00100000.
Definition BCH_T4 : Z := 0x00080000.
Definition BCH_T24 : Z := 0x00040000.
Definition DEF_RESERVER_OOB_SIZE_FOR_MARKER : Z := 4.
Definition BCH_PADDING_LEN_512 : Z := 32.
Definition BCH_PADDING_LEN_1024 : Z := 64.
Definition BCH_PARITY_LEN_T4 : Z := 8.
Definition BCH_PARITY_LEN_T8 : Z := 15.
Definition BCH_PARITY_LEN_T12 : Z := 23.
Definition BCH_PARITY_LEN_T15 : Z := 29.
Definition BCH_PARITY_LEN_T24 : Z := 45.
Definition eBCH_T24 : Z := 4.

(** Commands and status of the kernel's NAND layer. *)
Definition NAND_CMD_READ0 : Z := 0.
Definition NAND_CMD_RNDOUT : Z := 5.
Definition NAND_CMD_PAGEPROG : Z := 0x10.
Definition NAND_CMD_CACHEDPROG : Z := 0x15.
Definition NAND_CMD_READSTART : Z := 0x30.
Definition NAND_CMD_READOOB : Z := 0x50.
Definition NAND_CMD_ERASE1 : Z := 0x60.
Definition NAND_CMD_STATUS : Z := 0x70.
Definition NAND_CMD_SEQIN : Z := 0x80.
Definition NAND_CMD_RNDIN : Z := 0x85.
Definition NAND_CMD_ERASE2 : Z := 0xd0.
Definition NAND_CMD_RNDOUTSTART : Z := 0xE0.
Definition NAND_STATUS_FAIL : Z := 0x01.

(** ** Data *)
Definition g_i32BCHAlgoIdx : list Z := [BCH_T4; BCH_T8; BCH_T12; BCH_T15; BCH_T24].

Definition g_i32ParityNum : list (list Z) :=
  [[8; 15; 23; 29; -1]; [32; 60; 92; 116; 90]; [64; 120; 184; 232; 180]; [128; 240; 368; 464; 360]].

(** Registers; the redundant area of the controller, as bytes; the DMA buffer,
    which [pnand_vaddr] points to; and the functions of the NAND layer that the
    driver calls. *)
Class NandHw (H : Type) := {
  readl : Z -> H -> Z * H;
  writel : Z -> Z -> H -> H;
  smra : H -> list Z;
  set_smra : list Z -> H -> H;
  dmabuf : H -> list Z;
  set_dmabuf : list Z -> H -> H;
  waitfunc : H -> Z * H;
  write_page_raw : list Z -> H -> H;
}.

(** [struct nuc970_nand_ecclayout]: the free bytes, the code and the area size. *)
Record nuc970_nand_ecclayout := mk_layout {
  eccbytes : Z; oobavail : Z; oobfree_offset : Z; oobfree_length : Z; m_BCHAlgoidx : Z; m_SMRASize : Z;
}.

(** A partition; its layout, unless it has none or that of the whole chip. *)
Record mtd_partition := mk_part { p_offset : Z; p_size : Z; p_layout : option nuc970_nand_ecclayout }.

(** [struct nuc970_nand_info] with the fields of the chip and of [mtd_info] that
    the driver uses. *)
Record nand (H : Type) := mk_nand {
  parts : list mtd_partition;
  SYSTEM_oob : nuc970_nand_ecclayout;
  eBCHAlgo : Z;
  m_i32SMRASize : Z;
  writesize : Z;
  oobsize : Z;
  chipsize : Z;
  phys_erase_shift : Z;
  ecc_total : Z;
  ecc_size : Z;
  ecc_layout : nuc970_nand_ecclayout;
  oob_poi : list Z;
  ecc_failed : Z;
  ecc_corrected : Z;
  hw : H;
}.
Arguments mk_nand {H}.
Arguments parts {H}.
Arguments SYSTEM_oob {H}.
Arguments eBCHAlgo {H}.
Arguments m_i32SMRASize {H}.
Arguments writesize {H}.
Arguments oobsize {H}.
Arguments chipsize {H}.
Arguments phys_erase_shift {H}.
Arguments ecc_total {H}.
Arguments ecc_size {H}.
Arguments ecc_layout {H}.
Arguments oob_poi {H}.
Arguments ecc_failed {H}.
Arguments ecc_corrected {H}.
Arguments hw {H}.
#[export] Instance eta_nand H : Eta (nand H) := fun d =>
  mk_nand (parts d) (SYSTEM_oob d) (eBCHAlgo d) (m_i32SMRASize d) (writesize d) (oobsize d) (chipsize d) (phys_erase_shift d)
    (ecc_total d) (ecc_size d) (ecc_layout d) (oob_poi d) (ecc_failed d) (ecc_corrected d) (hw d).

(** ** The choice of the code *)

(** The loop [for (i = eBCH_T24; i >= 0; i--)]; [n] indices are left. *)
Fixpoint choice_loop (n : nat) (row : list Z) (room : Z) : option Z :=
  match n with
  | O => Some (-1)
  | S n =>
      p ← rd row (Z.of_nat n);
      if (0 <? p) && (p <=? room) then Some (Z.of_nat n) else choice_loop n row room
  end.

Definition nuc970_hwecc_choice_bch_algorithm (ePagesize oob_size oob_available : Z) : option Z :=
  row ← rd g_i32ParityNum ePagesize;
  choice_loop (S (Z.to_nat eBCH_T24)) row (oob_size - oob_available - DEF_RESERVER_OOB_SIZE_FOR_MARKER).

Definition nuc970_layout_oob_table (l : nuc970_nand_ecclayout) (oobsize ecc : Z) : nuc970_nand_ecclayout :=
  mk_layout ecc (u32 (oobsize - DEF_RESERVER_OOB_SIZE_FOR_MARKER - ecc)) DEF_RESERVER_OOB_SIZE_FOR_MARKER
    (u32 (oobsize - ecc - DEF_RESERVER_OOB_SIZE_FOR_MARKER)) (m_BCHAlgoidx l) (m_SMRASize l).

(** The layout of the first partition with one that holds the address. *)
Fixpoint find_part (ps : list mtd_partition) (page_addr : Z) : option nuc970_nand_ecclayout :=
  match ps with
  | [] => None
  | p :: ps =>
      match p_layout p with
      | Some l => if (p_offset p <=? page_addr) && (page_addr <? (p_offset p + p_size p) mod 2 ^ 64) then Some l else find_part ps page_addr
      | None => find_part ps page_addr
      end
  end.

Section Nand.
  Context {H : Type} `{!NandHw H}.
  Implicit Types d : nand H.

Definition nuc970_choice_bch_algo (page : Z) d : nand H :=
  let page_addr := u32 (page * writesize d) in
  match find_part (parts d) page_addr with
  | Some l => d <| eBCHAlgo := m_BCHAlgoidx l |> <| m_i32SMRASize := m_SMRASize l |>
  | None => d <| eBCHAlgo := m_BCHAlgoidx (SYSTEM_oob d) |> <| m_i32SMRASize := oobsize d |>
  end.

(** ** Registers *)
Definition io_read (a : Z) d : Z * nand H := let '(v, h) := readl a (hw d) in (v, d <| hw := h |>).
Definition io_write (v a : Z) d : nand H := d <| hw := writel (u32 v) a (hw d) |>.
Definition io_update (a : Z) (f : Z -> Z) d : nand H := let '(v, d) := io_read a d in io_write (f v) a d.

(** The code is switched on, or off without one. *)
Definition set_bch d : option (nand H) :=
  if 0 <=? eBCHAlgo d then
    t ← rd g_i32BCHAlgoIdx (eBCHAlgo d);
    let d := io_update REG_SMCSR (fun v => Z.lor (Z.land v (Z.lnot 0x007C0000)) t) d in
    Some (io_update REG_SMCSR (fun v => Z.lor v 0x00800080) d)
  else Some (io_update REG_SMCSR (fun v => Z.land v (Z.lnot 0x00800080)) d).

Definition nuc970_nand_hwecc_init d : option (nand H) :=
  let d := io_update REG_SMCSR (fun v => Z.lor v 0x1) d in
  let d := io_write (m_i32SMRASize d) REG_SMREACTL d in
  let d := io_update REG_SMCSR (fun v => Z.lor v 0x100) d in
  let d := io_update REG_SMCSR (fun v => Z.lor v 0x10) d in
  set_bch d.

(** [ecc.mode] is [NAND_ECC_HW_OOB_FIRST]. *)
Definition nuc970_nand_hwecc_fini d : nand H := io_update REG_SMCSR (fun v => Z.land v (Z.lnot 0x00800000)) d.

Definition nuc970_nand_select_chip d : nand H := io_update REG_SMCSR (fun v => Z.lor (Z.land v (Z.lnot 0x06000000)) 0x04000000) d.

Definition nuc970_nand_initialize d : nand H :=
  let d := io_write 0x20305 REG_SMTCR (io_write NAND_EN REG_NAND_FMICSR d) in
  let d := io_write 0x1 REG_NFECR (nuc970_nand_select_chip d) in
  io_update REG_SMCSR (fun v => Z.lor v 0x1) d.

(** ** Correction *)

(** Field, padding and parity length of the selected code. *)
Definition bch_params (tsel : Z) : option (Z * Z * Z) :=
  if tsel =? BCH_T24 then Some (1024, BCH_PADDING_LEN_1024, BCH_PARITY_LEN_T24)
  else if tsel =? BCH_T15 then Some (512, BCH_PADDING_LEN_512, BCH_PARITY_LEN_T15)
  else if tsel =? BCH_T12 then Some (512, BCH_PADDING_LEN_512, BCH_PARITY_LEN_T12)
  else if tsel =? BCH_T8 then Some (512, BCH_PADDING_LEN_512, BCH_PARITY_LEN_T8)
  else if tsel =? BCH_T4 then Some (512, BCH_PADDING_LEN_512, BCH_PARITY_LEN_T4)
  else None.

Definition page_bytes (psize : Z) : option Z :=
  if psize =? 0x30000 then Some 8192 else if psize =? 0x20000 then Some 4096
  else if psize =? 0x10000 then Some 2048 else if psize =? 0x00000 then Some 512 else None.

(** Registers [i], [i + 1], ... into the array; outside of the array undefined. *)
Fixpoint read_errors (n : nat) (i : Z) (uaErrorData : list Z) d : option (list Z * nand H) :=
  match n with
  | O => Some (uaErrorData, d)
  | S n =>
      let '(v, d) := io_read (REG_BCH_ECC_DATA0 + i * 4) d in
      ua ← wr uaErrorData i v;
      read_errors n (i + 1) ua d
  end.

(** The bytes of the error words. *)
Definition error_bytes (v : Z) : list Z :=
  [Z.land v 0xff; Z.land (Z.shiftr v 8) 0xff; Z.land (Z.shiftr v 16) 0xff; Z.land (Z.shiftr v 24) 0xff].

(** The error addresses of registers [i], [i + 1], ... *)
Fixpoint read_addrs (n : nat) (i : Z) d : list Z * nand H :=
  match n with
  | O => ([], d)
  | S n =>
      let '(v, d) := io_read (REG_BCH_ECC_ADDR0 + i * 4) d in
      let '(w, d) := io_read (REG_BCH_ECC_ADDR0 + i * 4) d in
      let '(l, d) := read_addrs n (i + 1) d in
      (Z.land v 0x07ff :: Z.land (Z.shiftr w 16) 0x07ff :: l, d)
  end.

Definition xor_at (l : list Z) (i mask : Z) : option (list Z) := b ← rd l i; wr l i (u8 (Z.lxor b mask)).

(** One error byte: in the data of the field, in the first three bytes of the
    redundant area, or in the parity code. *)
Definition correct_one (idx field_len padding_len parity_len total_field_num addr mask : Z) d : option (nand H) :=
  if addr <? field_len then
    b ← xor_at (dmabuf (hw d)) ((idx - 1) * field_len + addr) mask;
    Some (d <| hw := set_dmabuf b (hw d) |>)
  else if addr <? field_len + 3 then
    s ← xor_at (smra (hw d)) (addr - field_len + parity_len * (idx - 1)) mask;
    Some (d <| hw := set_smra s (hw d) |>)
  else
    let '(reactl, d) := io_read REG_SMREACTL d in
    let smra_index := Z.land reactl 0x1ff - parity_len * total_field_num in
    s ← xor_at (smra (hw d)) (smra_index + parity_len * (idx - 1) + (addr - (field_len + padding_len - parity_len))) mask;
    Some (d <| hw := set_smra s (hw d) |>).

(** The errors [ii], [ii + 1], ... of [n]. *)
Fixpoint correct_loop (n : nat) (ii : Z) (uaAddr uaData : list Z) (idx field_len padding_len parity_len total_field_num : Z) d : option (nand H) :=
  match n with
  | O => Some d
  | S n =>
      a ← rd uaAddr ii;
      m ← rd uaData ii;
      d ← correct_one idx field_len padding_len parity_len total_field_num a m d;
      correct_loop n (ii + 1) uaAddr uaData idx field_len padding_len parity_len total_field_num d
  end.

Definition fmiSM_CorrectData_BCH (ucFieidIndex ucErrorCnt : Z) d : option (nand H) :=
  let '(csr, d) := io_read REG_SMCSR d in
  match bch_params (Z.land csr 0x007C0000) with
  | None => Some d
  | Some (field_len, padding_len, parity_len) =>
      let '(csr, d) := io_read REG_SMCSR d in
      match page_bytes (Z.land csr 0x00030000) with
      | None => Some d
      | Some bytes =>
          let total_field_num := bytes / field_len in
          let jj := Z.min 6 (ucErrorCnt / 4 + 1) in
          '(ua, d) ← read_errors (Z.to_nat jj) 0 [0; 0; 0; 0] d;
          let uaData := concat (map error_bytes (take (Z.to_nat jj) ua)) in
          let jj := Z.min 12 (ucErrorCnt / 2 + 1) in
          let '(uaAddr, d) := read_addrs (Z.to_nat jj) 0 d in
          correct_loop (Z.to_nat ucErrorCnt) 0 uaAddr uaData ucFieidIndex field_len padding_len parity_len total_field_num d
      end
  end.

(** The fields [ii], [ii + 1], ... of a status word; [None] inside says that a
    field cannot be corrected. *)
Fixpoint field_loop (n : nat) (ii jj uStatus : Z) d : option (option Z * nand H) :=
  match n with
  | O => Some (Some 0, d)
  | S n =>
      if Z.land uStatus 0x03 =? 0 then field_loop n (ii + 1) jj (Z.shiftr uStatus 8) d
      else if Z.land uStatus 0x03 =? 1 then
        let uErrorCnt := Z.land (Z.shiftr uStatus 2) 0x1F in
        d ← fmiSM_CorrectData_BCH (u8 (jj * 4 + ii)) uErrorCnt d;
        Some (Some uErrorCnt, d)
      else Some (None, d)
  end.

Fixpoint status_loop (n : nat) (jj uReportErrCnt : Z) d : option (Z * nand H) :=
  match n with
  | O => Some (uReportErrCnt, d)
  | S n =>
      let '(uStatus, d) := io_read (REG_SMECC_ST0 + jj * 4) d in
      if uStatus =? 0 then status_loop n (jj + 1) uReportErrCnt d
      else
        '(r, d) ← field_loop 4 1 jj uStatus d;
        match r with
        | None => Some (-1, d)
        | Some c => status_loop n (jj + 1) (uReportErrCnt + c) d
        end
  end.

Definition fmiSMCorrectData d : option (Z * nand H) :=
  let '(isr, d) := io_read REG_SMISR d in
  if nz (Z.land isr 0x4) then
    let '(csr, d) := io_read REG_SMCSR d in
    let i32FieldNum := if Z.land csr 0x7C0000 =? BCH_T24 then writesize d / 1024 else writesize d / 512 in
    let i32FieldNum := if i32FieldNum <? 4 then 1 else i32FieldNum / 4 in
    status_loop (Z.to_nat i32FieldNum) 0 0 d
  else Some (0, d).

(** ** Transfer *)
Definition nuc970_nand_dmac_init d : nand H :=
  let d := io_update REG_NAND_DMACCSR (fun v => Z.lor v 0x3) d in
  let d := io_update REG_NAND_DMACCSR (fun v => Z.land v (Z.lnot 0x2)) d in
  let d := io_update REG_SMISR (fun v => Z.lor v 0x1) d in
  io_update REG_SMIER (fun v => Z.land v (Z.lnot 0x1)) d.

Definition nuc970_nand_dmac_fini d : nand H := io_update REG_SMISR (fun v => Z.lor v 0x1) d.

(** Wait until the bits of a register are set, or clear. *)
Fixpoint wait_bits (fuel : nat) (a mask : Z) (on : bool) d : option (nand H) :=
  match fuel with
  | O => None
  | S fuel =>
      let '(v, d) := io_read a d in
      if Bool.eqb (nz (Z.land v mask)) on then Some d else wait_bits fuel a mask on d
  end.

(** The end of the reading loop: the transfer is done and no error is left. *)
Definition read_done d : bool * nand H :=
  let '(v, d) := io_read REG_SMISR d in
  if negb (nz (Z.land v 0x1)) then (false, d)
  else let '(v, d) := io_read REG_SMISR d in (negb (nz (Z.land v 0x4)), d).

Fixpoint read_loop (fuel : nat) d : option (nand H) :=
  match fuel with
  | O => None
  | S fuel =>
      '(stat, d) ← fmiSMCorrectData d;
      if stat <? 0 then
        let d := io_write 0x4 REG_SMISR (d <| ecc_failed := u32 (ecc_failed d + 1) |>) in
        Some (io_update REG_SMCSR (fun v => Z.lor v 0x1) (io_write 0x3 REG_NAND_DMACCSR d))
      else
        let d := if 0 <? stat then io_write 0x4 REG_SMISR (d <| ecc_corrected := u32 (ecc_corrected d + stat) |>) else d in
        let '(done, d) := read_done d in
        if done : bool then Some d else read_loop fuel d
  end.

(** What is common to both directions. *)
Definition dma_setup (fuel : nat) (dma_addr : Z) d : option (nand H) :=
  d ← wait_bits fuel REG_NAND_DMACCSR 0x200 false d;
  let d := io_write dma_addr REG_NAND_DMACSAR (nuc970_nand_dmac_init d) in
  let d := io_write 0x400 REG_SMISR (io_write 0x1 REG_NAND_DMACIER d) in
  d ← set_bch d;
  let d := io_write (m_i32SMRASize d) REG_SMREACTL d in
  let d := io_write 0x4 REG_SMISR (io_update REG_SMIER (fun v => Z.land v (Z.lnot 0x4)) d) in
  Some (nuc970_nand_select_chip d).

(** The page is marked as written. *)
Definition mark_dirty (l : list Z) : option (list Z) :=
  b3 ← rd l 3;
  l ← (if b3 =? 0xFF then wr l 3 0 else Some l);
  b2 ← rd l 2;
  if b2 =? 0xFF then wr l 2 0 else Some l.

(** [addr] is the memory of the caller, if there is any. *)
Definition dma_write (fuel : nat) (dma_addr : Z) (addr : option (list Z)) (len : Z) d : option (nand H) :=
  d ← dma_setup fuel dma_addr d;
  s ← mark_dirty (smra (hw d));
  let d := d <| hw := set_smra s (hw d) |> in
  d ← match addr with
      | None => Some d
      | Some a => b ← memcpy (dmabuf (hw d)) 0 a 0 len; Some (d <| hw := set_dmabuf b (hw d) |>)
      end;
  let d := io_update REG_SMCSR (fun v => Z.lor v 0x4) d in
  d ← wait_bits fuel REG_SMISR 0x1 true d;
  Some (nuc970_nand_dmac_fini d).

Definition dma_read (fuel : nat) (dma_addr : Z) (addr : option (list Z)) (len : Z) d : option (option (list Z) * nand H) :=
  d ← dma_setup fuel dma_addr d;
  let d := io_update REG_SMCSR (fun v => Z.lor v 0x2) d in
  let '(csr, d) := io_read REG_SMCSR d in
  d ← (if nz (Z.land csr 0x80) then read_loop fuel d else wait_bits fuel REG_SMISR 0x1 true d);
  a ← match addr with
      | None => Some None
      | Some a => b ← memcpy a 0 (dmabuf (hw d)) 0 len; Some (Some b)
      end;
  Some (a, nuc970_nand_dmac_fini d).

(** ** Bytes *)
Definition nuc970_nand_read_byte d : Z * nand H := let '(v, d) := io_read REG_SMDATA d in (u8 v, d).

Fixpoint nuc970_nand_read_buf (len : nat) d : list Z * nand H :=
  match len with
  | O => ([], d)
  | S len => let '(b, d) := nuc970_nand_read_byte d in let '(l, d) := nuc970_nand_read_buf len d in (b :: l, d)
  end.

Fixpoint nuc970_nand_write_buf (buf : list Z) d : nand H :=
  match buf with [] => d | b :: buf => nuc970_nand_write_buf buf (io_write b REG_SMDATA d) end.

(** A whole page is transferred, anything else is read byte by byte. *)
Definition nuc970_read_buf_dma (fuel : nat) (dma_addr : Z) (buf : list Z) (len : Z) d : option (list Z * nand H) :=
  if len =? writesize d then
    '(b, d) ← dma_read fuel dma_addr (Some buf) len d;
    b ← b;
    Some (b, d)
  else
    let '(l, d) := nuc970_nand_read_buf (Z.to_nat len) d in
    b ← wrn buf 0 l;
    Some (b, d).

Definition nuc970_write_buf_dma (fuel : nat) (dma_addr : Z) (buf : list Z) (len : Z) d : option (nand H) :=
  if len =? writesize d then dma_write fuel dma_addr (Some buf) len d
  else
    l ← rdn buf 0 len;
    Some (nuc970_nand_write_buf l d).

(** ** Commands *)
Definition nuc970_check_rb d : Z * nand H := let '(v, d) := io_read REG_SMISR d in (Z.land v READYBUSY, d).

Definition nuc970_nand_devready d : Z * nand H := let '(v, d) := nuc970_check_rb d in (if nz v then 1 else 0, d).

Fixpoint wait_ready (fuel : nat) d : option (nand H) :=
  match fuel with
  | O => None
  | S fuel => let '(v, d) := nuc970_check_rb d in if nz v then Some d else wait_ready fuel d
  end.

(** The address cycles, the last one marked. *)
Definition addr_cycles (column page_addr chipsize : Z) : list Z :=
  (if column =? -1 then []
   else [Z.land column 0xFF; if page_addr =? -1 then Z.lor (Z.shiftr column 8) ENDADDR else Z.shiftr column 8]) ++
  (if page_addr =? -1 then []
   else Z.land page_addr 0xFF ::
     (if Z.shiftl 128 20 <? chipsize
      then [Z.land (Z.shiftr page_addr 8) 0xFF; Z.lor (Z.land (Z.shiftr page_addr 16) 0xFF) ENDADDR]
      else [Z.lor (Z.land (Z.shiftr page_addr 8) 0xFF) ENDADDR])).

(** [chip->dev_ready] is set: a reset and every other command wait for the chip. *)
Definition nuc970_nand_command_lp (fuel : nat) (command column page_addr : Z) d : option (nand H) :=
  let d := if negb (page_addr =? -1) && ((command =? NAND_CMD_SEQIN) || (command =? NAND_CMD_READ0) || (command =? NAND_CMD_READOOB))
           then nuc970_choice_bch_algo page_addr d else d in
  let '(command, column) := if command =? NAND_CMD_READOOB then (NAND_CMD_READ0, column + writesize d) else (command, column) in
  let d := io_write (Z.land command 0xff) REG_SMCMD d in
  let d := fold_left (fun d a => io_write a REG_SMADDR d) (addr_cycles column page_addr (chipsize d)) d in
  if existsb (Z.eqb command) [NAND_CMD_ERASE1; NAND_CMD_ERASE2; NAND_CMD_CACHEDPROG; NAND_CMD_PAGEPROG; NAND_CMD_SEQIN; NAND_CMD_RNDIN; NAND_CMD_STATUS]
  then Some d
  else if command =? NAND_CMD_RNDOUT then Some (io_write NAND_CMD_RNDOUTSTART REG_SMCMD d)
  else
    let d := if command =? NAND_CMD_READ0 then io_write NAND_CMD_READSTART REG_SMCMD d else d in
    wait_ready fuel d.

(** ** Pages *)
Definition nuc970_nand_write_page_hwecc (fuel : nat) (dma_addr : Z) (buf : list Z) d : option (nand H) :=
  s ← wrn (smra (hw d)) 0 (replicate (Z.to_nat (oobsize d)) 0xFF);
  s ← memcpy s 0 (oob_poi d) 0 (oobsize d - ecc_total d);
  d ← dma_write fuel dma_addr (Some buf) (writesize d) (d <| hw := set_smra s (hw d) |>);
  ecc_calc ← rdn (smra (hw d)) (oobsize d - ecc_total d) (ecc_total d);
  o ← wrn (oob_poi d) (eccbytes (ecc_layout d)) ecc_calc;
  Some (d <| oob_poi := o |>).

(** The redundant area of the page into [oob_poi] and the controller. *)
Definition read_oob_first (fuel : nat) (page : Z) d : option (nand H) :=
  d ← nuc970_nand_command_lp fuel NAND_CMD_READOOB 0 page d;
  let '(l, d) := nuc970_nand_read_buf (Z.to_nat (oobsize d)) d in
  o ← wrn (oob_poi d) 0 l;
  s ← memcpy (smra (hw d)) 0 o 0 (oobsize d);
  Some (d <| oob_poi := o |> <| hw := set_smra s (hw d) |>).

Definition restore_oob d : option (nand H) :=
  o ← memcpy (oob_poi d) 0 (smra (hw d)) 0 (oobsize d); Some (d <| oob_poi := o |>).

Definition nuc970_nand_read_page_hwecc_oob_first (fuel : nat) (dma_addr : Z) (buf : list Z) (page : Z) d : option (list Z * nand H) :=
  d ← read_oob_first fuel page d;
  b2 ← rd (smra (hw d)) 2;
  b3 ← rd (smra (hw d)) 3;
  if nz b2 && nz b3 then b ← wrn buf 0 (replicate (Z.to_nat (ecc_size d)) 0xff); Some (b, d)
  else
    d ← nuc970_nand_command_lp fuel NAND_CMD_READ0 0 page d;
    '(b, d) ← dma_read fuel dma_addr (Some buf) (ecc_size d) d;
    b ← b;
    d ← restore_oob d;
    Some (b, d).

Definition nuc970_nand_read_oob_hwecc (fuel : nat) (dma_addr page : Z) d : option (nand H) :=
  d ← read_oob_first fuel page d;
  b2 ← rd (smra (hw d)) 2;
  b3 ← rd (smra (hw d)) 3;
  if (b2 =? 0) && (b3 =? 0) then
    d ← nuc970_nand_command_lp fuel NAND_CMD_READ0 0 page d;
    '(_, d) ← dma_read fuel dma_addr None (writesize d) d;
    restore_oob d
  else Some d.

(** The first four blocks are written with an empty redundant area. *)
Definition system_page (page : Z) d : bool := (0 <=? page) && (page <? Z.shiftl 1 (phys_erase_shift d + 2) / writesize d).

(** [chip->errstat] is not set; programming is never cached. *)
Definition nuc970_nand_write_page (fuel : nat) (dma_addr : Z) (buf : list Z) (page : Z) (raw : bool) d : option (Z * nand H) :=
  d ← nuc970_nand_command_lp fuel NAND_CMD_SEQIN 0 page d;
  d ← (if raw then Some (d <| hw := write_page_raw buf (hw d) |>)
       else if system_page page d then
         s ← wrn (smra (hw d)) 0 (replicate (Z.to_nat (oobsize d)) 0xFF);
         s ← wr s 3 0; s ← wr s 2 0; s ← wr s 1 0xFF;
         dma_write fuel dma_addr (Some buf) (writesize d) (d <| hw := set_smra s (hw d) |>)
       else nuc970_nand_write_page_hwecc fuel dma_addr buf d);
  d ← nuc970_nand_command_lp fuel NAND_CMD_PAGEPROG (-1) (-1) d;
  let '(status, h) := waitfunc (hw d) in
  Some (if nz (Z.land status NAND_STATUS_FAIL) then - EIO else 0, d <| hw := h |>).
End Nand.
