(* ===== verification/NandProbe.v ===== *)
(** Set-up of the NAND driver (src/drivers/mtd/nand/nuc970_nand.c): the page size,
    the layouts of the redundant area and the partitions, [nuc970_nand_probe], and
    suspend, resume and removal. What the kernel gives or does is [probe_env]. *)
From S2P Require Import Prelude Nand.

Definition ENXIO : Z := 6.
Definition ENOMEM : Z := 12.
Definition ePageSize_2048 : Z := 1.
Definition ePageSize_4096 : Z := 2.
Definition ePageSize_8192 : Z := 3.
Definition eBCH_T4 : Z := 0.
Definition eBCH_T8 : Z := 1.
Definition eBCH_T12 : Z := 2.
(** The kernel's marks for an offset after the last partition and for the rest. *)
Definition MTDPART_OFS_APPEND : Z := 2 ^ 64 - 1.
Definition MTDPART_SIZ_FULL : Z := 0.

Definition g_SYSAREA_NAND_EXTRA_SIZE : list Z := [16; 64; 128; 376].

(** The partitions; the last one has no layout of its own. *)
Definition partitions (SYSTEM_oob EXECUTE_oob : nuc970_nand_ecclayout) : list mtd_partition :=
  [mk_part 0 (2 * 1024 * 1024) (Some SYSTEM_oob);
   mk_part MTDPART_OFS_APPEND (20 * 1024 * 1024) (Some EXECUTE_oob);
   mk_part MTDPART_OFS_APPEND MTDPART_SIZ_FULL None].

(** ** Layouts *)

(** The static structures are zero before the set-up. *)
Definition no_layout : nuc970_nand_ecclayout := mk_layout 0 0 0 0 0 0.

Definition system_algo (ePageSize : Z) : Z :=
  if ePageSize =? 1 then eBCH_T4 else if ePageSize =? 2 then eBCH_T8 else if ePageSize =? 3 then eBCH_T12 else 0.

Definition parity_num (ePageSize algo : Z) : option Z := row ← rd g_i32ParityNum ePageSize; rd row algo.

Definition system_layout (ePageSize : Z) : option nuc970_nand_ecclayout :=
  let algo := system_algo ePageSize in
  size ← rd g_SYSAREA_NAND_EXTRA_SIZE ePageSize;
  parity ← parity_num ePageSize algo;
  Some (nuc970_layout_oob_table (mk_layout 0 0 0 0 algo size) size parity).

(** The layout of the second partition and the size of the redundant area. *)
Definition execute_layout (ePageSize oobsize algo : Z) : option (nuc970_nand_ecclayout * Z) :=
  size ← rd g_SYSAREA_NAND_EXTRA_SIZE ePageSize;
  let '(smra, oobsize) := if ((ePageSize =? 3) || (ePageSize =? 1)) && (size <=? oobsize) then (size, size) else (oobsize, oobsize) in
  parity ← parity_num ePageSize algo;
  Some (nuc970_layout_oob_table (mk_layout 0 0 0 0 algo smra) smra parity, oobsize).

(** What else the NAND layer is told: bytes, strength and threshold. *)
Record ecc_ctrl := mk_ctrl { ecc_bytes : Z; ecc_strength : Z; bitflip_threshold : Z }.

Definition bch_strength (algo : Z) : Z * Z :=
  match rd [(4, 3); (8, 6); (12, 9); (15, 11); (24, 18)] algo with Some p => p | None => (0, 0) end.

Section Probe.
  Context {H : Type} `{!NandHw H}.
  Implicit Types d : nand H.

(** The page size is told to the controller; other sizes are refused. *)
Definition set_page_size d : option (Z * nand H) :=
  let put v := io_update REG_SMCSR (fun c => Z.land c (Z.lnot 0x30000) + v) d in
  if writesize d =? 2048 then Some (ePageSize_2048, put 0x10000)
  else if writesize d =? 4096 then Some (ePageSize_4096, put 0x20000)
  else if writesize d =? 8192 then Some (ePageSize_8192, put 0x30000)
  else None.

Definition set_layouts (ePageSize : Z) d : option (ecc_ctrl * nand H) :=
  sys ← system_layout ePageSize;
  '(exe, oob) ← execute_layout ePageSize (oobsize d) (m_BCHAlgoidx sys);
  let algo := m_BCHAlgoidx sys in
  parity ← (if algo <? 0 then Some 0 else parity_num ePageSize algo);
  let l := nuc970_layout_oob_table no_layout oob parity in
  let '(strength, threshold) := bch_strength algo in
  Some (mk_ctrl (eccbytes l) strength threshold,
    mk_nand (partitions sys exe) sys algo oob (writesize d) oob (chipsize d) (phys_erase_shift d)
      (ecc_total d) (writesize d) l (oob_poi d) (ecc_failed d) (ecc_corrected d) (hw d)).

(** ** Probe *)

(** What the kernel gives: memory, clocks, pins; [nand_scan_ident], which finds the
    sizes of the chip, and [nand_scan_tail]. A result is zero or a negative error. *)
Record probe_env := mk_env {
  pe_kzalloc : bool;
  pe_dma_alloc : bool;
  pe_fmi_clk : bool;
  pe_nand_clk : bool;
  pe_pinctrl : Z;
  pe_ident : nand H -> Z * nand H;
  pe_tail : ecc_ctrl -> nand H -> Z * nand H;
}.

(** The result, and the device unless its memory was freed or never allocated. *)
Definition probe_result : Type := Z * option (nand H).

Definition nuc970_nand_probe (env : probe_env) d : option probe_result :=
  if negb (pe_kzalloc env) then Some (- ENOMEM, None)
  else if negb (pe_dma_alloc env) then Some (- ENOMEM, None)
  else if negb (pe_fmi_clk env) then Some (- ENXIO, None)
  else if negb (pe_nand_clk env) then Some (0, None)
  else
    let retval := pe_pinctrl env in
    let d := nuc970_nand_initialize d in
    let '(r, d) := pe_ident env d in
    if nz r then Some (- ENXIO, None)
    else
      match set_page_size d with
      | None => Some (retval, None)
      | Some (ePageSize, d) =>
          '(ctrl, d) ← set_layouts ePageSize d;
          let '(r, d) := pe_tail env ctrl d in
          if nz r then Some (- ENXIO, None)
          else
            d ← (if 0 <=? eBCHAlgo d then nuc970_nand_hwecc_init d else Some (nuc970_nand_hwecc_fini d));
            Some (retval, Some d)
      end.

(** ** Power *)
Definition nuc970_nand_suspend (fuel : nat) d : option (Z * nand H) :=
  d ← wait_bits fuel REG_NAND_DMACCSR 0x200 false d;
  Some (0, nuc970_nand_hwecc_fini (io_write 0x0 REG_NFECR d)).

Definition nuc970_nand_resume d : option (Z * nand H) :=
  d ← nuc970_nand_hwecc_init d;
  Some (0, nuc970_nand_dmac_init (io_write 0x1 REG_NFECR d)).

(** The clock is stopped and the memory freed. *)
Definition nuc970_nand_remove d : Z * H := (0, hw (nuc970_nand_hwecc_fini d)).
End Probe.
Arguments probe_env : clear implicits.
Arguments probe_result : clear implicits.
