(* ===== verification/NandSpec.v ===== *)
(** What the NAND controller promises, and the theorems on correction: the bytes
    that the hardware reports as wrong are restored, a page that is read is the
    page that was written, and the strongest code that fits is chosen. *)
From S2P Require Import Prelude Nand.

(** ** The controller *)

(** Errors in a field: its number, and the place and the wrong bits of each byte;
    [e_lost] when there are too many to correct. *)
Record ecc_event := mk_event { e_field : Z; e_errs : list (Z * Z); e_lost : bool }.

(** A page of the chip as it is read: data and redundant area with the errors in
    them, the fields with errors, each with the time that passes after it, and the
    times before the chip is ready and before the transfer begins. *)
Record stored := mk_stored { pg_data : list Z; pg_oob : list Z; pg_events : list (ecc_event * nat); pg_busy : nat; pg_delay : nat }.

(** What the driver sees: control and area size; how often the interrupt register
    is still read before something happens; whether a transfer was started; the
    fields with errors that are still to be reported; the redundant area and the
    data; and the chip with the command, its address cycles, the page that it
    holds and the bytes that it gives. *)
Record nand_view := mk_nview {
  n_csr : Z; n_reactl : Z; n_wait : nat; n_on : bool; n_events : list (ecc_event * nat); n_smra : list Z; n_buf : list Z;
  n_cmd : Z; n_addrs : list Z; n_cur : Z; n_stream : list Z; n_chip : Z -> stored;
}.
#[export] Instance eta_nview : Eta nand_view := fun v =>
  mk_nview (n_csr v) (n_reactl v) (n_wait v) (n_on v) (n_events v) (n_smra v) (n_buf v) (n_cmd v) (n_addrs v) (n_cur v) (n_stream v) (n_chip v).

Definition err_addr (e : ecc_event) (k : Z) : Z := default 0 (fst <$> rd (e_errs e) k).
Definition err_mask (e : ecc_event) (k : Z) : Z := default 0 (snd <$> rd (e_errs e) k).

(** The status byte of a field with errors. *)
Definition event_status (e : ecc_event) : Z := if e_lost e then 2 else 1 + 4 * zlen (e_errs e).

(** The registers that report an event. *)
Definition status_reg (e : ecc_event) (jj : Z) : Z :=
  if (e_field e - 1) / 4 =? jj then event_status e * 256 ^ ((e_field e - 1) mod 4) else 0.
Definition addr_reg (e : ecc_event) (i : Z) : Z := err_addr e (2 * i) + err_addr e (2 * i + 1) * 65536.
Definition data_reg (e : ecc_event) (i : Z) : Z :=
  err_mask e (4 * i) + err_mask e (4 * i + 1) * 256 + err_mask e (4 * i + 2) * 65536 + err_mask e (4 * i + 3) * 16777216.

(** The column and the page of the address cycles; the last one is marked. *)
Definition decode_addr (l : list Z) : option (Z * Z) :=
  match l with
  | [c0; c1; p0; p1] => if Z.land p1 ENDADDR =? 0 then None else Some (c0 + c1 * 256, p0 + Z.land p1 0xFF * 256)
  | [c0; c1; p0; p1; p2] => if Z.land p2 ENDADDR =? 0 then None else Some (c0 + c1 * 256, p0 + p1 * 256 + Z.land p2 0xFF * 65536)
  | _ => None
  end.

(** The transfer of the page that the chip holds begins. *)
Definition start_read (v : nand_view) : nand_view :=
  let p := n_chip v (n_cur v) in v <| n_on := true |> <| n_buf := pg_data p |> <| n_events := pg_events p |> <| n_wait := pg_delay p |>.

(** The chip takes the page of an address. *)
Definition latch (v : nand_view) (col page : Z) : nand_view :=
  let p := n_chip v page in v <| n_cur := page |> <| n_stream := drop (Z.to_nat col) (pg_data p ++ pg_oob p) |> <| n_wait := pg_busy p |>.

Definition plain_regs : list Z := [REG_NAND_DMACCSR; REG_NAND_DMACSAR; REG_NAND_DMACIER; REG_SMIER].

(** The first event is reported, once its time has come, until its flag is cleared;
    without events a transfer is done. The low bits of the control register start a
    reset or a transfer and read as zero. *)
Class NandLaws (H : Type) `{!NandHw H} := {
  nview : H -> nand_view;
  view_smra h : smra h = n_smra (nview h);
  view_set_smra l h : nview (set_smra l h) = (nview h) <| n_smra := l |>;
  view_dmabuf h : dmabuf h = n_buf (nview h);
  view_set_dmabuf l h : nview (set_dmabuf l h) = (nview h) <| n_buf := l |>;
  view_readl a h : a <> REG_SMISR /\ a <> REG_SMDATA -> nview (snd (readl a h)) = nview h;
  view_read_isr h : nview (snd (readl REG_SMISR h)) = (nview h) <| n_wait := pred (n_wait (nview h)) |>;
  view_read_data h : nview (snd (readl REG_SMDATA h)) = (nview h) <| n_stream := tail (n_stream (nview h)) |>;
  read_data h b l : n_stream (nview h) = b :: l -> fst (readl REG_SMDATA h) = b;
  read_csr h : fst (readl REG_SMCSR h) = n_csr (nview h);
  csr_low h : Z.land (n_csr (nview h)) 0x7 = 0;
  read_reactl h : fst (readl REG_SMREACTL h) = n_reactl (nview h);
  read_dma_idle h : n_events (nview h) = [] -> nz (Z.land (fst (readl REG_NAND_DMACCSR h)) 0x200) = false;
  read_isr h : let v := fst (readl REG_SMISR h) in
    nz (Z.land v READYBUSY) = bool_decide (n_wait (nview h) = O) /\
    match n_wait (nview h), n_events (nview h) with
    | S _, _ => nz (Z.land v 0x4) = false /\ nz (Z.land v 0x1) = false
    | O, _ :: _ => nz (Z.land v 0x4) = true /\ nz (Z.land v 0x1) = false
    | O, [] => nz (Z.land v 0x4) = false /\ nz (Z.land v 0x1) = n_on (nview h)
    end;
  read_status h e w l jj : n_wait (nview h) = O -> n_events (nview h) = (e, w) :: l -> 0 <= jj < 4 -> fst (readl (REG_SMECC_ST0 + jj * 4) h) = status_reg e jj;
  read_addr_reg h e w l i : n_wait (nview h) = O -> n_events (nview h) = (e, w) :: l -> 0 <= i < 12 -> fst (readl (REG_BCH_ECC_ADDR0 + i * 4) h) = addr_reg e i;
  read_data_reg h e w l i : n_wait (nview h) = O -> n_events (nview h) = (e, w) :: l -> 0 <= i < 6 -> fst (readl (REG_BCH_ECC_DATA0 + i * 4) h) = data_reg e i;
  (** Clearing the flag goes on to the next event. *)
  view_clear h e w l : n_wait (nview h) = O -> n_events (nview h) = (e, w) :: l ->
    nview (writel 0x4 REG_SMISR h) = (nview h) <| n_events := l |> <| n_wait := w |>;
  view_write_isr v h : n_events (nview h) = [] -> nview (writel v REG_SMISR h) = (nview h) <| n_on := n_on (nview h) && negb (Z.testbit v 0) |>;
  view_write_csr v h : Z.testbit v 2 = false ->
    nview (writel v REG_SMCSR h) = let w := (nview h) <| n_csr := Z.land v (Z.lnot 0x7) |> in if Z.testbit v 1 then start_read w else w;
  view_write_reactl v h : nview (writel v REG_SMREACTL h) = (nview h) <| n_reactl := v |>;
  view_write_plain v a h : a ∈ plain_regs -> nview (writel v a h) = nview h;
  view_write_cmd v h : v <> NAND_CMD_READSTART -> nview (writel v REG_SMCMD h) = (nview h) <| n_cmd := v |> <| n_addrs := [] |>;
  view_write_addr v h : nview (writel v REG_SMADDR h) = (nview h) <| n_addrs := n_addrs (nview h) ++ [v] |>;
  view_read_start h col page : n_cmd (nview h) = NAND_CMD_READ0 -> decode_addr (n_addrs (nview h)) = Some (col, page) ->
    nview (writel NAND_CMD_READSTART REG_SMCMD h) = latch (nview h) col page;
}.

(** ** Where the errors are *)
Record code := mk_code { c_field : Z; c_padding : Z; c_parity : Z; c_total : Z }.

(** The code that the control register selects. *)
Definition code_of (csr : Z) : option code :=
  '(f, pad, par) ← bch_params (Z.land csr 0x007C0000);
  bytes ← page_bytes (Z.land csr 0x00030000);
  Some (mk_code f pad par (bytes / f)).

(** The byte of an error: in the data or in the redundant area. *)
Definition place (c : code) (size idx addr : Z) : Z + Z :=
  if addr <? c_field c then inl ((idx - 1) * c_field c + addr)
  else if addr <? c_field c + 3 then inr (addr - c_field c + c_parity c * (idx - 1))
  else inr (size - c_parity c * c_total c + c_parity c * (idx - 1) + (addr - (c_field c + c_padding c - c_parity c))).

(** Flip the wrong bits of the bytes. *)
Definition flip1 (c : code) (size idx : Z) (e : Z * Z) (bs : list Z * list Z) : list Z * list Z :=
  match place c size idx (fst e) with
  | inl i => (alter (fun b => Z.lxor b (snd e)) (Z.to_nat i) (fst bs), snd bs)
  | inr i => (fst bs, alter (fun b => Z.lxor b (snd e)) (Z.to_nat i) (snd bs))
  end.

Definition flip (c : code) (size : Z) (e : ecc_event) (bs : list Z * list Z) : list Z * list Z :=
  fold_right (flip1 c size (e_field e)) bs (e_errs e).

(** The errors are inside of the buffer and the redundant area, and in bytes. *)
Definition place_ok (c : code) (size idx : Z) (nbuf noob : Z) (e : Z * Z) : Prop :=
  0 <= fst e < 2048 /\ is_u8 (snd e) /\
  match place c size idx (fst e) with inl i => 0 <= i < nbuf | inr i => 0 <= i < noob end.

Lemma alter_alter_comm {A} (f g : A -> A) i j (l : list A) : (forall x, f (g x) = g (f x)) -> alter f i (alter g j l) = alter g j (alter f i l).
Proof.
  intros Hc; destruct (decide (i = j)) as [->|Hne]; [|by apply list_alter_alter_ne].
  rewrite !list_alter_alter_eq; apply list_alter_ext; [|done]; intros x _; apply Hc.
Qed.

Lemma flip1_comm c size i1 i2 a b bs : flip1 c size i1 a (flip1 c size i2 b bs) = flip1 c size i2 b (flip1 c size i1 a bs).
Proof.
  unfold flip1; destruct (place c size i1 (fst a)), (place c size i2 (fst b)); cbn; try done; f_equal; apply alter_alter_comm; intros x; rewrite !Z.lxor_assoc; f_equal; apply Z.lxor_comm.
Qed.

Lemma flip1_twice c size i a bs : flip1 c size i a (flip1 c size i a bs) = bs.
Proof.
  assert (Hx : forall k (l : list Z), alter (fun b => Z.lxor b (snd a)) k (alter (fun b => Z.lxor b (snd a)) k l) = l).
  { intros k l; rewrite list_alter_alter_eq; apply list_alter_id; intros x; cbn; by rewrite Z.lxor_assoc, Z.lxor_nilpotent, Z.lxor_0_r. }
  unfold flip1; destruct (place c size i (fst a)), bs; cbn; by rewrite Hx.
Qed.

(** The corrections undo the errors. *)
Lemma flip_left c size e bs : fold_left (fun bs a => flip1 c size (e_field e) a bs) (e_errs e) (flip c size e bs) = bs.
Proof.
  unfold flip; induction (e_errs e) as [|a l IH] in bs |- *; [done|]; cbn; by rewrite flip1_twice, IH.
Qed.

(** ** Bytes *)
Lemma alter_insert {A} (f : A -> A) i (l : list A) b : l !! i = Some b -> alter f i l = <[i := f b]> l.
Proof. induction l as [|x l IH] in i |- *; destruct i as [|i]; cbn; try done; [by injection 1 as ->|]; intros Hb; f_equal; by apply IH. Qed.

Lemma land_255 x : Z.land x 0xff = x mod 256.
Proof. change 0xff with (Z.ones 8); rewrite Z.land_ones by lia; done. Qed.

Lemma lxor_u8 a b : is_u8 a -> is_u8 b -> is_u8 (Z.lxor a b).
Proof.
  unfold is_u8; intros Ha Hb; rewrite <- (Z.mod_small a (2 ^ 8)), <- (Z.mod_small b (2 ^ 8)) by (cbn; lia); rewrite <- !Z.land_ones by lia.
  assert (Hx : Z.lxor (Z.land a (Z.ones 8)) (Z.land b (Z.ones 8)) = Z.land (Z.lxor a b) (Z.ones 8)) by (apply Z.bits_inj'; intros k _; rewrite Z.lxor_spec, !Z.land_spec, Z.lxor_spec; by destruct (Z.testbit a k), (Z.testbit b k), (Z.testbit (Z.ones 8) k)).
  rewrite Hx, Z.land_ones by lia; apply Z.mod_pos_bound; lia.
Qed.

Lemma concat_four {A} (f : Z -> list A) (Hf : forall v, length (f v) = 4%nat) l : forall q r, (r < 4)%nat ->
  concat (map f l) !! (4 * q + r)%nat = l !! q ≫= fun v => f v !! r.
Proof.
  induction l as [|v l IH]; intros q r Hr; [by rewrite lookup_nil|]; cbn [map concat]; destruct q as [|q].
  - cbn [Nat.mul Nat.add]; rewrite lookup_app_l by (rewrite Hf; lia); done.
  - rewrite lookup_app_r by (rewrite Hf; lia); rewrite Hf; replace (4 * S q + r - 4)%nat with (4 * q + r)%nat by lia; rewrite IH by done; done.
Qed.

(** The bytes of a data register are the masks. *)
Lemma error_bytes_word b0 b1 b2 b3 : is_u8 b0 -> is_u8 b1 -> is_u8 b2 -> is_u8 b3 ->
  error_bytes (b0 + b1 * 256 + b2 * 65536 + b3 * 16777216) = [b0; b1; b2; b3].
Proof.
  unfold is_u8, error_bytes; intros; rewrite !land_255, !Z.shiftr_div_pow2 by lia.
  change (2 ^ 8) with 256; change (2 ^ 16) with 65536; change (2 ^ 24) with 16777216.
  repeat (apply f_equal2; [Z.to_euclidean_division_equations; lia|]); done.
Qed.

Lemma error_bytes_masks e i r : (forall k, is_u8 (err_mask e k)) -> (r < 4)%nat -> error_bytes (data_reg e i) !! r = Some (err_mask e (4 * i + Z.of_nat r)).
Proof.
  intros Hm Hr; unfold data_reg; rewrite error_bytes_word by apply Hm; destruct r as [|[|[|[|r]]]]; [| | | |lia]; cbn [lookup list_lookup]; do 2 f_equal; lia.
Qed.

Lemma land_7ff x : Z.land x 0x07ff = x mod 2048.
Proof. change 0x07ff with (Z.ones 11); rewrite Z.land_ones by lia; done. Qed.

(** Another register than that of the interrupts. *)
Ltac reg_ne := split; unfold REG_SMISR, REG_SMDATA, REG_NAND_DMACCSR, REG_SMIER, REG_SMCSR, REG_SMREACTL, REG_BCH_ECC_DATA0, REG_BCH_ECC_ADDR0, REG_SMECC_ST0, FMI_BA; lia.

Section Correct.
  Context {H : Type} `{!NandHw H, !NandLaws H}.
  Implicit Types d : nand H.

Definition nvw d : nand_view := nview (hw d).

(** Only the hardware moves, and the driver sees [v] of it. *)
Definition moved d (v : nand_view) d' : Prop := exists h, d' = d <| hw := h |> /\ nview h = v.

Lemma moved_trans d v d' w d'' : moved d v d' -> moved d' w d'' -> moved d w d''.
Proof. intros (h & -> & _) (k & -> & Hk); by exists k. Qed.

Lemma moved_view d v d' : moved d v d' -> nvw d' = v.
Proof. by intros (h & -> & Hv). Qed.

Lemma io_read_moved a d : a <> REG_SMISR /\ a <> REG_SMDATA -> exists d', io_read a d = (fst (readl a (hw d)), d') /\ moved d (nvw d) d'.
Proof. intros Ha; unfold io_read, nvw; pose proof (view_readl a (hw d) Ha) as Hv; destruct (readl a (hw d)) as [v h]; eexists; split; [done|]; by exists h. Qed.

(** The bytes of the view. *)
Definition bytes_of (v : nand_view) : list Z * list Z := (n_buf v, n_smra v).
Definition with_bytes (v : nand_view) (bs : list Z * list Z) : nand_view := v <| n_buf := fst bs |> <| n_smra := snd bs |>.
Definition all_bytes (bs : list Z * list Z) : Prop := Forall is_u8 (fst bs) /\ Forall is_u8 (snd bs).

Lemma xor_at_alter l i m : Forall is_u8 l -> is_u8 m -> 0 <= i < zlen l ->
  xor_at l i m = Some (alter (fun b => Z.lxor b m) (Z.to_nat i) l) /\ Forall is_u8 (alter (fun b => Z.lxor b m) (Z.to_nat i) l).
Proof.
  intros Hl Hm Hi; destruct (rd_in l i Hi) as [b Hb]; unfold xor_at; rewrite Hb, bind_ok, wr_in by done; apply rd_Some in Hb as [_ Hb].
  pose proof (Forall_lookup_1 _ _ _ _ Hl Hb) as Hbu; rewrite (u8_id (Z.lxor b m)) by (by apply lxor_u8); split.
  - f_equal; symmetry; exact (alter_insert (fun b => Z.lxor b m) _ _ _ Hb).
  - apply Forall_alter; [done|]; intros x Hx; rewrite Hb in Hx; injection Hx as <-; intros _; by apply lxor_u8.
Qed.

Lemma flip1_len c size idx a bs : zlen (fst (flip1 c size idx a bs)) = zlen (fst bs) /\ zlen (snd (flip1 c size idx a bs)) = zlen (snd bs).
Proof. unfold flip1, zlen; destruct (place c size idx (fst a)); cbn; by rewrite ?length_alter. Qed.

(** One byte is corrected. *)
Lemma correct_one_flips c size idx a d : let bs := bytes_of (nvw d) in
  Z.land (n_reactl (nvw d)) 0x1ff = size -> all_bytes bs -> place_ok c size idx (zlen (fst bs)) (zlen (snd bs)) a ->
  exists d', correct_one idx (c_field c) (c_padding c) (c_parity c) (c_total c) (fst a) (snd a) d = Some d' /\
    moved d (with_bytes (nvw d) (flip1 c size idx a bs)) d' /\ all_bytes (flip1 c size idx a bs).
Proof.
  intros bs Hsize [Hb Hs] (Ha & Hm & Hp); unfold correct_one, place, flip1, place in *; unfold bs, bytes_of in *; cbn [fst snd] in *.
  destruct (fst a <? c_field c).
  - destruct (xor_at_alter _ _ _ Hb Hm Hp) as [Hx Hx']; rewrite view_dmabuf; fold (nvw d); step_ok Hx; eexists; split; [done|]; split; [|by split].
    eexists; split; [done|]; rewrite view_set_dmabuf; fold (nvw d); by destruct (nvw d).
  - destruct (fst a <? c_field c + 3).
    + destruct (xor_at_alter _ _ _ Hs Hm Hp) as [Hx Hx']; rewrite view_smra; fold (nvw d); step_ok Hx; eexists; split; [done|]; split; [|by split].
      eexists; split; [done|]; rewrite view_set_smra; fold (nvw d); by destruct (nvw d).
    + destruct (io_read_moved REG_SMREACTL d ltac:(reg_ne)) as (d1 & -> & h & -> & Hv); rewrite read_reactl; fold (nvw d); rewrite Hsize.
      destruct (xor_at_alter _ _ _ Hs Hm Hp) as [Hx Hx']; cbn [hw set]; rewrite view_smra, Hv; step_ok Hx; eexists; split; [done|]; split; [|by split].
      eexists; split; [done|]; rewrite view_set_smra; cbn [hw set]; rewrite Hv; by destruct (nvw d).
Qed.

(** The corrections of a list of errors. *)
Definition flips (c : code) (size idx : Z) (l : list (Z * Z)) (bs : list Z * list Z) : list Z * list Z :=
  fold_left (fun bs a => flip1 c size idx a bs) l bs.

Lemma with_bytes_twice v b1 b2 : with_bytes (with_bytes v b1) b2 = with_bytes v b2.
Proof. by destruct v, b1, b2. Qed.

Lemma with_bytes_same v : with_bytes v (bytes_of v) = v.
Proof. by destruct v. Qed.

Lemma bytes_with v bs : bytes_of (with_bytes v bs) = bs.
Proof. by destruct v, bs. Qed.

Lemma correct_loop_flips c size idx uaAddr uaData l : forall ii d, let bs := bytes_of (nvw d) in
  Z.land (n_reactl (nvw d)) 0x1ff = size -> all_bytes bs ->
  Forall (place_ok c size idx (zlen (fst bs)) (zlen (snd bs))) l ->
  (forall k a, l !! k = Some a -> rd uaAddr (ii + Z.of_nat k) = Some (fst a) /\ rd uaData (ii + Z.of_nat k) = Some (snd a)) ->
  exists d', correct_loop (length l) ii uaAddr uaData idx (c_field c) (c_padding c) (c_parity c) (c_total c) d = Some d' /\
    moved d (with_bytes (nvw d) (flips c size idx l bs)) d'.
Proof.
  induction l as [|a l IH]; intros ii d bs Hsize Hb Hp Hrd.
  - eexists; split; [done|]; exists (hw d); split; [by destruct d|]; unfold bs; cbn; by rewrite with_bytes_same.
  - inversion_clear Hp as [|? ? Hpa Hpl]; cbn [length correct_loop]; destruct (Hrd 0%nat a eq_refl) as [H1 H2]; rewrite Z.add_0_r in H1, H2; step_ok H1; step_ok H2.
    destruct (correct_one_flips c size idx a d Hsize Hb Hpa) as (d1 & E & Hmv & Hb1); step_ok E; fold bs in Hmv, Hb1; pose proof (moved_view _ _ _ Hmv) as Hv.
    destruct (flip1_len c size idx a bs) as [L1 L2].
    destruct (IH (ii + 1) d1) as (d2 & E2 & Hmv2); rewrite ?Hv, ?bytes_with; [by destruct (nvw d)|done|by rewrite L1, L2| |].
    { intros k b Hk; destruct (Hrd (S k) b Hk) as [H3 H4]; replace (ii + 1 + Z.of_nat k) with (ii + Z.of_nat (S k)) by lia; done. }
    exists d2; split; [done|]; rewrite Hv, with_bytes_twice, bytes_with in Hmv2; exact (moved_trans _ _ _ _ _ Hmv Hmv2).
Qed.

Lemma flips_len c size idx l bs : zlen (fst (flips c size idx l bs)) = zlen (fst bs) /\ zlen (snd (flips c size idx l bs)) = zlen (snd bs).
Proof.
  induction l as [|a l IH] in bs |- *; [done|]; change (flips c size idx (a :: l) bs) with (flips c size idx l (flip1 c size idx a bs)); destruct (IH (flip1 c size idx a bs)) as [-> ->]; apply flip1_len.
Qed.

Lemma flip1_bytes c size idx a bs : all_bytes bs -> is_u8 (snd a) -> all_bytes (flip1 c size idx a bs).
Proof.
  intros [H1 H2] Hm; unfold flip1, all_bytes; destruct (place c size idx (fst a)); cbn; split; try done; apply Forall_alter; try done; intros x _ Hx; by apply lxor_u8.
Qed.

Lemma flips_bytes c size idx l bs : all_bytes bs -> Forall (fun a => is_u8 (snd a)) l -> all_bytes (flips c size idx l bs).
Proof.
  intros Hb Hl; induction Hl as [|a l Ha _ IH] in bs, Hb |- *; [done|]; cbn; apply IH; by apply flip1_bytes.
Qed.

(** The error registers. *)
Lemma read_errors_regs e w l n : forall i ua d, n_wait (nvw d) = O -> n_events (nvw d) = (e, w) :: l -> zlen ua = 4 -> 0 <= i -> i + Z.of_nat n <= 4 ->
  exists ua' d', read_errors n i ua d = Some (ua', d') /\ moved d (nvw d) d' /\ zlen ua' = 4 /\
    (forall k, 0 <= k < i -> rd ua' k = rd ua k) /\ (forall k, i <= k < i + Z.of_nat n -> rd ua' k = Some (data_reg e k)).
Proof.
  induction n as [|n IH]; intros i ua d Hw He Hu Hi Hn; [exists ua, d; split_and!; try done; [exists (hw d); split; [by destruct d|done]|lia]|].
  cbn [read_errors]; destruct (io_read_moved (REG_BCH_ECC_DATA0 + i * 4) d ltac:(reg_ne)) as (d1 & -> & Hmv); pose proof (moved_view _ _ _ Hmv) as Hv.
  rewrite (read_data_reg _ e w l) by (done || lia); destruct (wr ua i (data_reg e i)) as [ua1|] eqn:Ew; [|rewrite wr_in in Ew by lia; done]; rewrite bind_ok.
  destruct (IH (i + 1) ua1 d1) as (ua2 & d2 & E2 & Hmv2 & L2 & Hlo & Hhi); [by rewrite Hv|by rewrite Hv|by rewrite (wr_len _ _ _ _ Ew)|lia|lia|].
  exists ua2, d2; rewrite Hv in Hmv2; split_and!; [done|exact (moved_trans _ _ _ _ _ Hmv Hmv2)|done| |].
  - intros k Hk; rewrite Hlo by lia; apply (rd_wr_ne _ i k _ _ Ew); lia.
  - intros k Hk; destruct (decide (k = i)) as [->|]; [rewrite Hlo by lia; exact (rd_wr_eq _ _ _ _ Ew)|apply Hhi; lia].
Qed.

Lemma read_addrs_regs e w l n : forall i d, n_wait (nvw d) = O -> n_events (nvw d) = (e, w) :: l -> (forall k, 0 <= err_addr e k < 2048) -> 0 <= i -> i + Z.of_nat n <= 12 ->
  exists la d', read_addrs n i d = (la, d') /\ moved d (nvw d) d' /\
    (forall k, (k < 2 * n)%nat -> la !! k = Some (err_addr e (2 * i + Z.of_nat k))).
Proof.
  induction n as [|n IH]; intros i d Hw He Ha Hi Hn; [exists [], d; split_and!; [done|exists (hw d); split; [by destruct d|done]|lia]|].
  cbn [read_addrs]; destruct (io_read_moved (REG_BCH_ECC_ADDR0 + i * 4) d ltac:(reg_ne)) as (d1 & -> & Hmv); pose proof (moved_view _ _ _ Hmv) as Hv.
  destruct (io_read_moved (REG_BCH_ECC_ADDR0 + i * 4) d1 ltac:(reg_ne)) as (d2 & -> & Hmv2); rewrite Hv in Hmv2; pose proof (moved_view _ _ _ Hmv2) as Hv2.
  rewrite (read_addr_reg (hw d) e w l), (read_addr_reg (hw d1) e w l) by (first [lia|by fold (nvw d1); rewrite Hv|done]).
  destruct (IH (i + 1) d2) as (la & d3 & E3 & Hmv3 & Hla); [by rewrite Hv2|by rewrite Hv2|done|lia|lia|]; rewrite E3; rewrite Hv2 in Hmv3.
  eexists _, d3; split; [done|]; split; [exact (moved_trans _ _ _ _ _ (moved_trans _ _ _ _ _ Hmv Hmv2) Hmv3)|].
  pose proof (Ha (2 * i)); pose proof (Ha (2 * i + 1)).
  intros [|[|k]] Hk; cbn [lookup list_lookup].
  - f_equal; rewrite land_7ff; unfold addr_reg; rewrite Z.add_0_r; Z.to_euclidean_division_equations; lia.
  - f_equal; rewrite land_7ff; unfold addr_reg; rewrite Z.shiftr_div_pow2 by lia; change (2 ^ 16) with 65536; change (Z.of_nat 1) with 1; Z.to_euclidean_division_equations; lia.
  - replace (2 * i + Z.of_nat (S (S k))) with (2 * (i + 1) + Z.of_nat k) by lia; apply Hla; lia.
Qed.

(** What an event can be: between one and fifteen errors inside of the page. *)
Definition event_ok (c : code) (size nbuf noob : Z) (e : ecc_event) : Prop :=
  1 <= e_field e <= 16 /\ if e_lost e then True else 1 <= zlen (e_errs e) <= 15 /\ Forall (place_ok c size (e_field e) nbuf noob) (e_errs e).

Lemma err_nth e k a : e_errs e !! k = Some a -> err_addr e (Z.of_nat k) = fst a /\ err_mask e (Z.of_nat k) = snd a.
Proof. intros Hk; unfold err_addr, err_mask; assert (Hr : rd (e_errs e) (Z.of_nat k) = Some a) by (apply rd_Some; split; [lia|by rewrite Nat2Z.id]); by rewrite Hr. Qed.

Lemma err_bounds c size i n1 n2 e : Forall (place_ok c size i n1 n2) (e_errs e) -> (forall k, 0 <= err_addr e k < 2048) /\ (forall k, is_u8 (err_mask e k)).
Proof.
  intros Hf; unfold err_addr, err_mask; split; intros k; destruct (rd (e_errs e) k) as [a|] eqn:E; cbn; unfold is_u8; try lia.
  all: apply rd_Some in E as [_ E]; destruct (Forall_lookup_1 _ _ _ _ Hf E) as (Ha & Hm & _); done.
Qed.

(** The errors that an event reports are corrected. *)
Lemma correct_bch_flips c size e w l d : let bs := bytes_of (nvw d) in
  n_wait (nvw d) = O -> n_events (nvw d) = (e, w) :: l -> code_of (n_csr (nvw d)) = Some c -> Z.land (n_reactl (nvw d)) 0x1ff = size -> all_bytes bs ->
  e_lost e = false -> event_ok c size (zlen (fst bs)) (zlen (snd bs)) e ->
  exists d', fmiSM_CorrectData_BCH (e_field e) (zlen (e_errs e)) d = Some d' /\ moved d (with_bytes (nvw d) (flips c size (e_field e) (e_errs e) bs)) d'.
Proof.
  intros bs Hw He Hc Hsize Hb Hl Hok; unfold event_ok in Hok; rewrite Hl in Hok; destruct Hok as (Hf & Hn & Hp); destruct (err_bounds _ _ _ _ _ _ Hp) as [Ba Bm].
  unfold fmiSM_CorrectData_BCH; destruct (io_read_moved REG_SMCSR d ltac:(reg_ne)) as (d1 & -> & M1); pose proof (moved_view _ _ _ M1) as V1; rewrite read_csr; fold (nvw d).
  unfold code_of in Hc; destruct (bch_params _) as [[[f pad] par]|]; [|done]; cbn [mbind option_bind] in Hc.
  destruct (io_read_moved REG_SMCSR d1 ltac:(reg_ne)) as (d2 & -> & M2); rewrite V1 in M2; pose proof (moved_view _ _ _ M2) as V2; rewrite read_csr; fold (nvw d1); rewrite V1.
  destruct (page_bytes _) as [bytes|]; [|done]; cbn [mbind option_bind] in Hc; injection Hc as <-.
  set (j := Z.min 6 (zlen (e_errs e) / 4 + 1)); assert (Hj : 0 <= j <= 4 /\ zlen (e_errs e) < 4 * j) by (unfold j; Z.to_euclidean_division_equations; lia).
  destruct (read_errors_regs e w l (Z.to_nat j) 0 [0; 0; 0; 0] d2) as (ua & d3 & E3 & M3 & L3 & _ & Hua); [by rewrite V2|by rewrite V2|done|lia|lia|]; step_ok E3; rewrite V2 in M3; pose proof (moved_view _ _ _ M3) as V3.
  set (jj := Z.min 12 (zlen (e_errs e) / 2 + 1)); assert (Hjj : 0 <= jj <= 12 /\ zlen (e_errs e) < 2 * jj) by (unfold jj; Z.to_euclidean_division_equations; lia).
  destruct (read_addrs_regs e w l (Z.to_nat jj) 0 d3) as (la & d4 & E4 & M4 & Hla); [by rewrite V3|by rewrite V3|done|lia|lia|]; rewrite E4; rewrite V3 in M4; pose proof (moved_view _ _ _ M4) as V4.
  rewrite zlen_to_nat; destruct (correct_loop_flips (mk_code f pad par (bytes / f)) size (e_field e) la (concat (map error_bytes (take (Z.to_nat j) ua))) (e_errs e) 0 d4) as (d5 & E5 & M5); rewrite ?V4; [done|done|done| |].
  - intros k a Hk; destruct (err_nth _ _ _ Hk) as [<- <-]; pose proof (lookup_lt_Some _ _ _ Hk) as Hlt; unfold zlen in *; rewrite !rd_Some, !Z.add_0_l, !Nat2Z.id.
    split; [split; [lia|]; rewrite Hla by lia; do 2 f_equal; lia|split; [lia|]].
    pose proof (concat_four error_bytes (fun v => eq_refl) (take (Z.to_nat j) ua) (k / 4) (k mod 4) ltac:(apply Nat.mod_upper_bound; lia)) as H4; rewrite <- Nat.div_mod_eq in H4; rewrite H4; clear H4.
    assert (Hq : (k / 4 < Z.to_nat j)%nat) by (apply Nat.Div0.div_lt_upper_bound; lia).
    rewrite lookup_take_lt by done; specialize (Hua (Z.of_nat (k / 4)) ltac:(lia)); apply rd_Some in Hua as [_ Hua]; rewrite Nat2Z.id in Hua; rewrite Hua; cbn [mbind option_bind].
    rewrite error_bytes_masks by (first [done|apply Nat.mod_upper_bound; lia]); do 2 f_equal; pose proof (Nat.div_mod_eq k 4); lia.
  - exists d5; split; [exact E5|]; rewrite V4 in M5; exact (moved_trans _ _ _ _ _ M1 (moved_trans _ _ _ _ _ M2 (moved_trans _ _ _ _ _ M3 (moved_trans _ _ _ _ _ M4 M5)))).
Qed.
End Correct.
