(* ===== verification/NandMain.v ===== *)
(** Reading a page through the NAND controller: every field in error is corrected
    and the page is the one that was written, or the loss is counted. *)
From S2P Require Import Prelude Nand NandSpec.

Lemma land_3 x : Z.land x 0x03 = x mod 4.
Proof. change 0x03 with (Z.ones 2); rewrite Z.land_ones by lia; done. Qed.

Lemma event_status_pos e : 0 < event_status e.
Proof. unfold event_status; pose proof (zlen_nonneg (e_errs e)); destruct (e_lost e); lia. Qed.

Lemma event_status_low e : event_status e mod 4 = if e_lost e then 2 else 1.
Proof. unfold event_status; destruct (e_lost e); [done|]; rewrite Z.add_comm, Z.mul_comm, Z.add_comm, Z_mod_plus_full; done. Qed.

Lemma event_count e : e_lost e = false -> zlen (e_errs e) <= 31 -> Z.land (Z.shiftr (event_status e) 2) 0x1F = zlen (e_errs e).
Proof.
  intros Hl Hn; unfold event_status; rewrite Hl; pose proof (zlen_nonneg (e_errs e)); change 0x1F with (Z.ones 5); rewrite Z.land_ones, Z.shiftr_div_pow2 by lia.
  change (2 ^ 2) with 4; change (2 ^ 5) with 32; Z.to_euclidean_division_equations; lia.
Qed.

Lemma status_reg_nz e jj : (e_field e - 1) / 4 = jj -> status_reg e jj =? 0 = false.
Proof.
  intros <-; unfold status_reg; rewrite Z.eqb_refl; apply Z.eqb_neq; pose proof (event_status_pos e); pose proof (Z.mod_pos_bound (e_field e - 1) 4 ltac:(lia)) as Hr.
  pose proof (Z.pow_pos_nonneg 256 ((e_field e - 1) mod 4) ltac:(lia) (proj1 Hr)); nia.
Qed.

(** The errors that are corrected, until a field is lost. *)
Fixpoint good_count (es : list (ecc_event * nat)) : Z :=
  match es with [] => 0 | (e, _) :: es => if e_lost e then 0 else zlen (e_errs e) + good_count es end.
Definition any_lost (es : list (ecc_event * nat)) : bool := existsb (fun e => e_lost (fst e)) es.

(** All corrections, one field after the other. *)
Definition restored (c : code) (size : Z) (es : list (ecc_event * nat)) (bs : list Z * list Z) : list Z * list Z :=
  fold_left (fun bs e => flips c size (e_field (fst e)) (e_errs (fst e)) bs) es bs.

(** How often the interrupts are still read. *)
Definition time_of (v : nand_view) : nat := n_wait v + list_sum (map (fun e => S (snd e)) (n_events v)).

Section Main.
  Context {H : Type} `{!NandHw H, !NandLaws H}.
  Implicit Types d : nand H.

(** The fields without errors are skipped. *)
Lemma field_loop_skip r : forall n ii jj s d, (r < n)%nat -> field_loop n ii jj (s * 256 ^ Z.of_nat r) d = field_loop (n - r) (ii + Z.of_nat r) jj s d.
Proof.
  induction r as [|r IH]; intros n ii jj s d Hn; [by rewrite Z.mul_1_r, Z.add_0_r, Nat.sub_0_r|]; destruct n as [|n]; [lia|]; cbn [field_loop].
  assert (E : s * 256 ^ Z.of_nat (S r) = s * 256 ^ Z.of_nat r * 64 * 4) by (rewrite Nat2Z.inj_succ, Z.pow_succ_r by lia; lia).
  rewrite land_3; assert (E0 : (s * 256 ^ Z.of_nat (S r)) mod 4 = 0) by (rewrite E; apply Z_mod_mult); rewrite E0; cbn [Z.eqb].
  assert (E8 : Z.shiftr (s * 256 ^ Z.of_nat (S r)) 8 = s * 256 ^ Z.of_nat r) by (rewrite Z.shiftr_div_pow2 by lia; change (2 ^ 8) with 256; rewrite E, <- (Z.mul_assoc _ 64 4); apply Z.div_mul; lia).
  rewrite E8, IH by lia; f_equal; lia.
Qed.

(** An event in a field of the word [jj]. *)
Lemma field_loop_event c size e w l jj d : let bs := bytes_of (nvw d) in
  n_wait (nvw d) = O -> n_events (nvw d) = (e, w) :: l -> code_of (n_csr (nvw d)) = Some c -> Z.land (n_reactl (nvw d)) 0x1ff = size -> all_bytes bs ->
  event_ok c size (zlen (fst bs)) (zlen (snd bs)) e -> (e_field e - 1) / 4 = jj ->
  exists d', field_loop 4 1 jj (status_reg e jj) d = Some (if e_lost e then None else Some (zlen (e_errs e)), d') /\
    moved d (if e_lost e then nvw d else with_bytes (nvw d) (flips c size (e_field e) (e_errs e) bs)) d'.
Proof.
  intros bs Hw He Hc Hs Hb Hok Hjj; pose proof Hok as [Hf Hok']; unfold status_reg; rewrite Hjj, Z.eqb_refl.
  set (r := (e_field e - 1) mod 4); assert (Hr : 0 <= r < 4) by (apply Z.mod_pos_bound; lia).
  rewrite <- (Z2Nat.id r), field_loop_skip by lia; destruct (4 - Z.to_nat r)%nat as [|n] eqn:En; [lia|]; cbn [field_loop].
  rewrite land_3, event_status_low; destruct (e_lost e) eqn:El; cbn [Z.eqb Pos.eqb].
  - exists d; split; [done|]; exists (hw d); by destruct d.
  - rewrite event_count by (done || lia); assert (Hi : u8 (jj * 4 + (1 + Z.of_nat (Z.to_nat r))) = e_field e) by (rewrite u8_id; [subst jj r|subst jj r; unfold is_u8]; Z.to_euclidean_division_equations; lia).
    rewrite Hi; destruct (correct_bch_flips c size e w l d Hw He Hc Hs Hb El Hok) as (d' & E & M); step_ok E; by exists d'.
Qed.

(** The words that hold no status of the event. *)
Lemma status_loop_none e w l n : forall jj acc d, n_wait (nvw d) = O -> n_events (nvw d) = (e, w) :: l ->
  0 <= jj -> jj + Z.of_nat n <= 4 -> ~ jj <= (e_field e - 1) / 4 < jj + Z.of_nat n ->
  exists d', status_loop n jj acc d = Some (acc, d') /\ moved d (nvw d) d'.
Proof.
  induction n as [|n IH]; intros jj acc d Hw He Hj Hn Hne; [exists d; split; [done|]; exists (hw d); by destruct d|]; cbn [status_loop].
  destruct (io_read_moved (REG_SMECC_ST0 + jj * 4) d ltac:(reg_ne)) as (d1 & -> & M1); pose proof (moved_view _ _ _ M1) as V1.
  rewrite (read_status _ e w l) by (done || lia); unfold status_reg; destruct (_ =? jj) eqn:E; [zbool; lia|]; cbn [Z.eqb].
  destruct (IH (jj + 1) acc d1) as (d2 & E2 & M2); rewrite ?V1; [done|done|lia|lia|lia|]; exists d2; split; [done|]; rewrite V1 in M2; exact (moved_trans _ _ _ _ _ M1 M2).
Qed.

Definition after_event (c : code) (size : Z) (e : ecc_event) (v : nand_view) : nand_view :=
  if e_lost e then v else with_bytes v (flips c size (e_field e) (e_errs e) (bytes_of v)).

(** What is asked of the page while it is read. *)
Definition page_ok (c : code) (v : nand_view) : Prop :=
  n_on v = true /\ code_of (n_csr v) = Some c /\ all_bytes (bytes_of v) /\
  Forall (fun e => event_ok c (Z.land (n_reactl v) 0x1ff) (zlen (n_buf v)) (zlen (n_smra v)) (fst e)) (n_events v).

Lemma after_event_keeps c size e v : n_wait (after_event c size e v) = n_wait v /\ n_events (after_event c size e v) = n_events v /\
  n_csr (after_event c size e v) = n_csr v /\ n_reactl (after_event c size e v) = n_reactl v.
Proof. unfold after_event; destruct (e_lost e), v; done. Qed.

Lemma status_loop_event c e w l n : forall jj acc d, page_ok c (nvw d) -> n_wait (nvw d) = O -> n_events (nvw d) = (e, w) :: l ->
  0 <= jj -> jj + Z.of_nat n <= 4 -> jj <= (e_field e - 1) / 4 < jj + Z.of_nat n ->
  exists d', status_loop n jj acc d = Some (if e_lost e then -1 else acc + zlen (e_errs e), d') /\
    moved d (after_event c (Z.land (n_reactl (nvw d)) 0x1ff) e (nvw d)) d'.
Proof.
  induction n as [|n IH]; intros jj acc d Hp Hw He Hj Hn Hin; [lia|]; cbn [status_loop].
  destruct (io_read_moved (REG_SMECC_ST0 + jj * 4) d ltac:(reg_ne)) as (d1 & -> & M1); pose proof (moved_view _ _ _ M1) as V1.
  rewrite (read_status _ e w l) by (done || lia); destruct (decide ((e_field e - 1) / 4 = jj)) as [Hjj|Hjj].
  - rewrite status_reg_nz by done.
    destruct Hp as (Hon & Hc & Hb & Hok); rewrite He in Hok; inversion_clear Hok as [|? ? Hok1 _]; cbn [fst] in Hok1.
    destruct (field_loop_event c _ e w l jj d1 ltac:(by rewrite V1) ltac:(by rewrite V1) ltac:(by rewrite V1) eq_refl ltac:(by rewrite V1) ltac:(by rewrite V1) Hjj) as (d2 & E2 & M2).
    step_ok E2; rewrite V1 in M2; fold (after_event c (Z.land (n_reactl (nvw d)) 0x1ff) e (nvw d)) in M2; pose proof (moved_view _ _ _ M2) as V2; pose proof (moved_trans _ _ _ _ _ M1 M2) as M.
    destruct (e_lost e) eqn:El; [by exists d2|]; destruct (after_event_keeps c (Z.land (n_reactl (nvw d)) 0x1ff) e (nvw d)) as (K1 & K2 & _).
    destruct (status_loop_none e w l n (jj + 1) (acc + zlen (e_errs e)) d2) as (d3 & E3 & M3); rewrite ?V2, ?K1, ?K2; [done|done|lia|lia|lia|].
    exists d3; split; [done|]; rewrite V2 in M3; exact (moved_trans _ _ _ _ _ M M3).
  - unfold status_reg; destruct (_ =? jj) eqn:E; [zbool; lia|]; cbn [Z.eqb].
    destruct (IH (jj + 1) acc d1) as (d2 & E2 & M2); rewrite ?V1; [done|done|done|lia|lia|lia|]; exists d2; split; [done|]; rewrite V1 in M2; exact (moved_trans _ _ _ _ _ M1 M2).
Qed.

(** The status words that are looked at. *)
Definition status_words (csr writesize : Z) : Z :=
  let n := if Z.land csr 0x7C0000 =? BCH_T24 then writesize / 1024 else writesize / 512 in if n <? 4 then 1 else n / 4.

Definition fields_seen (d : nand H) (es : list (ecc_event * nat)) : Prop :=
  status_words (n_csr (nvw d)) (writesize d) <= 4 /\ Forall (fun e => (e_field (fst e) - 1) / 4 < status_words (n_csr (nvw d)) (writesize d)) es.

Lemma read_isr_moved d : exists v d', io_read REG_SMISR d = (v, d') /\ moved d ((nvw d) <| n_wait := pred (n_wait (nvw d)) |>) d' /\
    match n_wait (nvw d), n_events (nvw d) with
    | S _, _ => nz (Z.land v 0x4) = false /\ nz (Z.land v 0x1) = false
    | O, _ :: _ => nz (Z.land v 0x4) = true /\ nz (Z.land v 0x1) = false
    | O, [] => nz (Z.land v 0x4) = false /\ nz (Z.land v 0x1) = n_on (nvw d)
    end.
Proof.
  unfold io_read, nvw; pose proof (view_read_isr (hw d)) as Hv; pose proof (read_isr (hw d)) as Hr; cbn zeta in Hr; destruct (readl REG_SMISR (hw d)) as [v h].
  exists v; eexists; split; [done|]; split; [by exists h|exact (proj2 Hr)].
Qed.

Lemma correct_data_quiet d : n_wait (nvw d) <> O \/ n_events (nvw d) = [] ->
  exists d', fmiSMCorrectData d = Some (0, d') /\ moved d ((nvw d) <| n_wait := pred (n_wait (nvw d)) |>) d'.
Proof.
  intros Hq; unfold fmiSMCorrectData; destruct (read_isr_moved d) as (v & d1 & -> & M1 & Hv); exists d1.
  destruct (n_wait (nvw d)); [destruct (n_events (nvw d)); [|by destruct Hq]|]; destruct Hv as [-> _]; done.
Qed.

Lemma correct_data_event c e w l d : page_ok c (nvw d) -> fields_seen d (n_events (nvw d)) -> n_wait (nvw d) = O -> n_events (nvw d) = (e, w) :: l ->
  exists d', fmiSMCorrectData d = Some (if e_lost e then -1 else zlen (e_errs e), d') /\ moved d (after_event c (Z.land (n_reactl (nvw d)) 0x1ff) e (nvw d)) d'.
Proof.
  intros Hp [Hn Hs] Hw He; unfold fmiSMCorrectData; destruct (read_isr_moved d) as (v & d1 & -> & M1 & Hv); rewrite Hw, He in Hv; destruct Hv as [-> _].
  assert (Hsame : (nvw d) <| n_wait := pred (n_wait (nvw d)) |> = nvw d) by (rewrite Hw; destruct (nvw d); cbn in *; congruence); rewrite Hsame in M1; pose proof (moved_view _ _ _ M1) as V1.
  destruct (io_read_moved REG_SMCSR d1 ltac:(reg_ne)) as (d2 & -> & M2); rewrite V1 in M2; pose proof (moved_view _ _ _ M2) as V2; rewrite read_csr; fold (nvw d1); rewrite V1.
  assert (Hws : writesize d2 = writesize d) by (destruct M1 as (? & -> & _), M2 as (? & -> & _); done); rewrite Hws; fold (status_words (n_csr (nvw d)) (writesize d)); rewrite He in Hs; inversion_clear Hs as [|? ? Hs1 _].
  assert (Hf : 1 <= e_field e) by (destruct Hp as (_ & _ & _ & Hok); rewrite He in Hok; inversion_clear Hok as [|? ? [Hf _] _]; cbn in Hf; lia).
  assert (Hpos : 0 <= (e_field e - 1) / 4) by (apply Z.div_pos; lia); cbn [fst] in Hs1.
  destruct (status_loop_event c e w l (Z.to_nat (status_words (n_csr (nvw d)) (writesize d))) 0 0 d2) as (d3 & E3 & M3); rewrite ?V2; [done|done|done|lia|lia|lia|].
  exists d3; split; [by rewrite E3|]; rewrite V2 in M3; exact (moved_trans _ _ _ _ _ M1 (moved_trans _ _ _ _ _ M2 M3)).
Qed.

Lemma read_done_moved d : n_on (nvw d) = true -> exists d', read_done d = (bool_decide (n_wait (nvw d) = O) && bool_decide (n_events (nvw d) = []), d') /\
  moved d ((nvw d) <| n_wait := pred (n_wait (nvw d)) |>) d'.
Proof.
  intros Hon; unfold read_done; destruct (read_isr_moved d) as (v & d1 & -> & M1 & Hv); pose proof (moved_view _ _ _ M1) as V1.
  destruct (n_wait (nvw d)) as [|k] eqn:Ew; [destruct (n_events (nvw d)) as [|e l] eqn:Ee|]; destruct Hv as [_ ->]; rewrite ?Hon; cbn [negb].
  - destruct (read_isr_moved d1) as (v2 & d2 & -> & M2 & Hv2); rewrite V1 in M2, Hv2; cbn [n_wait n_events set] in Hv2; rewrite Ee in Hv2; cbn [pred] in Hv2; destruct Hv2 as [-> _].
    exists d2; split; [done|]; refine (moved_trans _ _ _ _ _ M1 _); by destruct (nvw d).
  - by exists d1.
  - by exists d1.
Qed.

Definition page_inv (c : code) (d : nand H) : Prop := page_ok c (nvw d) /\ fields_seen d (n_events (nvw d)).

Lemma page_inv_wait c d k d' : page_inv c d -> moved d ((nvw d) <| n_wait := k |>) d' -> page_inv c d'.
Proof.
  intros Hi M; pose proof (moved_view _ _ _ M) as V; destruct M as (h & -> & _); unfold page_inv, page_ok, fields_seen in *; rewrite V; cbn [writesize set]; by destruct (nvw d).
Qed.

Lemma page_inv_event c e w l d d' : page_inv c d -> n_events (nvw d) = (e, w) :: l -> e_lost e = false -> writesize d' = writesize d ->
  nvw d' = (after_event c (Z.land (n_reactl (nvw d)) 0x1ff) e (nvw d)) <| n_events := l |> <| n_wait := w |> -> page_inv c d'.
Proof.
  intros ((Hon & Hc & Hb & Hok) & Hn & Hs) He El Hw V; rewrite He in Hok, Hs; inversion_clear Hok as [|? ? Hok1 Hok2]; inversion_clear Hs as [|? ? _ Hs2].
  unfold page_inv, page_ok, fields_seen; rewrite V, Hw; unfold after_event in *; rewrite El in *; destruct (nvw d) as [csr re wt on ev sm bf cmd ads cur str chp]; cbn in *; destruct Hok1 as [_ Hok1]; rewrite El in Hok1; destruct Hok1 as [_ Hp].
  destruct (flips_len c (Z.land re 511) (e_field e) (e_errs e) (bf, sm)) as [L1 L2]; cbn [fst snd] in L1, L2; split_and!; try done.
  - refine (flips_bytes _ _ _ _ _ Hb _); eapply Forall_impl; [exact Hp|]; by intros a (_ & Ha & _).
  - change (Forall (fun e0 => event_ok c (Z.land re 511) (zlen (fst (flips c (Z.land re 511) (e_field e) (e_errs e) (bf, sm)))) (zlen (snd (flips c (Z.land re 511) (e_field e) (e_errs e) (bf, sm)))) (fst e0)) l); by rewrite L1, L2.
Qed.

(** The state with other counts and hardware. *)
Definition with_stats d (cor fai : Z) (h : H) : nand H :=
  mk_nand (parts d) (SYSTEM_oob d) (eBCHAlgo d) (m_i32SMRASize d) (writesize d) (oobsize d) (chipsize d) (phys_erase_shift d)
    (ecc_total d) (ecc_size d) (ecc_layout d) (oob_poi d) fai cor h.

(** The result of the loop: what was corrected and lost is counted, and the bytes
    are restored unless a field was lost. *)
Definition nand_result (c : code) d d' : Prop := let es := n_events (nvw d) in
  exists h, d' = with_stats d (u32 (ecc_corrected d + good_count es)) (u32 (ecc_failed d + Z.b2z (any_lost es))) h /\
  (any_lost es = false -> bytes_of (nview h) = restored c (Z.land (n_reactl (nvw d)) 0x1ff) es (bytes_of (nvw d)) /\ n_wait (nview h) = O /\ n_events (nview h) = []).

Lemma nand_result_wait c d k d1 d' : moved d ((nvw d) <| n_wait := k |>) d1 -> nand_result c d1 d' -> nand_result c d d'.
Proof.
  intros M; pose proof (moved_view _ _ _ M) as V; destruct M as (h & -> & _); unfold nand_result; rewrite V; by destruct (nvw d).
Qed.

Lemma nand_result_end c d d' : is_u32 (ecc_corrected d) -> is_u32 (ecc_failed d) -> n_events (nvw d) = [] -> moved d ((nvw d) <| n_wait := O |>) d' -> nand_result c d d'.
Proof.
  intros Hc Hf He (h & -> & V); unfold nand_result; rewrite He; exists h; cbn [good_count any_lost existsb Z.b2z]; rewrite !Z.add_0_r, !u32_id by done; split; [by destruct d|intros _].
  rewrite V; by destruct (nvw d).
Qed.

Lemma u32_add_l x y : u32 (u32 x + y) = u32 (x + y).
Proof. unfold u32; apply Z.add_mod_idemp_l; lia. Qed.

(** A field that was corrected, and the rest. *)
Lemma nand_result_event c e w l d d1 d' : n_events (nvw d) = (e, w) :: l -> e_lost e = false ->
  nvw d1 = (after_event c (Z.land (n_reactl (nvw d)) 0x1ff) e (nvw d)) <| n_events := l |> <| n_wait := w |> ->
  (exists h, d1 = with_stats d (u32 (ecc_corrected d + zlen (e_errs e))) (ecc_failed d) h) -> nand_result c d1 d' -> nand_result c d d'.
Proof.
  intros He El V (k & E1) (h & -> & R); rewrite V in *; exists h; rewrite He; unfold after_event in *; rewrite El in *; cbn [any_lost existsb good_count fst]; rewrite El; cbn [orb].
  destruct (nvw d) as [csr re wt on ev sm bf cmd ads cur str chp]; split.
  - subst d1; unfold with_stats; cbn -[u32]; by rewrite u32_add_l, Z.add_assoc.
  - intros Hl; destruct (R Hl) as (-> & Hw & Hev); split; [|done]; unfold bytes_of; cbn; by rewrite <- surjective_pairing.
Qed.

(** The rest of a turn of the loop, after the corrections. *)
Lemma read_rest c fuel d : (forall d2, page_inv c d2 -> is_u32 (ecc_corrected d2) -> is_u32 (ecc_failed d2) -> (time_of (nvw d2) < fuel)%nat -> exists d', read_loop fuel d2 = Some d' /\ nand_result c d2 d') ->
  page_inv c d -> is_u32 (ecc_corrected d) -> is_u32 (ecc_failed d) -> (time_of (nvw d) < fuel)%nat ->
  exists d', (let '(done, d) := read_done d in if done : bool then Some d else read_loop fuel d) = Some d' /\ nand_result c d d'.
Proof.
  intros IH Hi Hc Hf Ht; destruct (read_done_moved d (proj1 (proj1 Hi))) as (d1 & -> & M); destruct (bool_decide (n_wait (nvw d) = 0%nat) && bool_decide (n_events (nvw d) = [])) eqn:E.
  - apply andb_true_iff in E as [E0 E]; apply bool_decide_eq_true in E0, E; rewrite E0 in M; exists d1; split; [done|]; exact (nand_result_end _ _ _ Hc Hf E M).
  - destruct (IH d1) as (d' & E' & R); [exact (page_inv_wait _ _ _ _ Hi M)|by destruct M as (h & -> & _)|by destruct M as (h & -> & _)| |exists d'; split; [done|exact (nand_result_wait _ _ _ _ _ M R)]].
    rewrite (moved_view _ _ _ M); unfold time_of in *; destruct (nvw d); cbn in *; lia.
Qed.

Lemma io_write_view v a d : nvw (io_write v a d) = nview (writel (u32 v) a (hw d)).
Proof. done. Qed.

Lemma u32_is x : is_u32 (u32 x).
Proof. unfold is_u32, u32; apply Z.mod_pos_bound; lia. Qed.

Lemma io_update_hw a f d : exists h, io_update a f d = d <| hw := h |>.
Proof. unfold io_update, io_read; destruct (readl a (hw d)); by eexists. Qed.

Lemma event_errs c d e w l : page_inv c d -> n_events (nvw d) = (e, w) :: l -> e_lost e = false -> 1 <= zlen (e_errs e) <= 15.
Proof. intros ((_ & _ & _ & Hok) & _) He El; rewrite He in Hok; inversion_clear Hok as [|? ? [_ Hok1] _]; cbn [fst] in Hok1; rewrite El in Hok1; apply Hok1. Qed.

(** The loop ends, and the page is corrected unless a field is lost. *)
Lemma read_loop_ok c fuel : forall d, page_inv c d -> is_u32 (ecc_corrected d) -> is_u32 (ecc_failed d) -> (time_of (nvw d) < fuel)%nat ->
  exists d', read_loop fuel d = Some d' /\ nand_result c d d'.
Proof.
  induction fuel as [|fuel IH]; intros d Hi Hc Hf Ht; [lia|]; cbn [read_loop].
  destruct (n_wait (nvw d)) as [|k] eqn:Ew; [destruct (n_events (nvw d)) as [|[e w] l] eqn:Ee|].
  - destruct (correct_data_quiet d (or_intror Ee)) as (d1 & E1 & M1); step_ok E1; change (0 <? 0) with false; cbn iota; rewrite Ew in M1; pose proof (moved_view _ _ _ M1) as V1.
    destruct (read_done_moved d1 (proj1 (proj1 (page_inv_wait _ _ _ _ Hi M1)))) as (d2 & -> & M2); rewrite V1 in M2 |- *; cbn [n_wait n_events set pred] in *; rewrite Ee; exists d2; split; [done|].
    refine (nand_result_end _ _ _ Hc Hf Ee (moved_trans _ _ _ _ _ M1 _)); by destruct (nvw d).
  - destruct (correct_data_event c e w l d (proj1 Hi) (proj2 Hi) Ew Ee) as (d1 & E1 & M1); step_ok E1; pose proof (moved_view _ _ _ M1) as V1.
    destruct (e_lost e) eqn:El; [change (-1 <? 0) with true|]; cbn iota.
    { eexists; split; [done|]; destruct M1 as (h & -> & _); unfold nand_result; rewrite Ee; cbn [good_count any_lost existsb fst]; rewrite El; cbn [orb Z.b2z].
      match goal with |- context [io_update ?a ?f ?x] => destruct (io_update_hw a f x) as [h' ->] end; exists h'; rewrite Z.add_0_r, (u32_id (ecc_corrected d)) by done; split; [reflexivity|done]. }
    pose proof (event_errs c d e w l Hi Ee El) as Hn; destruct (zlen (e_errs e) <? 0) eqn:E0; [zbool; lia|]; destruct (0 <? zlen (e_errs e)) eqn:E9; [|zbool; lia].
    set (d2 := io_write 0x4 REG_SMISR _); destruct (after_event_keeps c (Z.land (n_reactl (nvw d)) 0x1ff) e (nvw d)) as (K1 & K2 & _).
    assert (V2 : nvw d2 = (after_event c (Z.land (n_reactl (nvw d)) 0x1ff) e (nvw d)) <| n_events := l |> <| n_wait := w |>).
    { unfold d2; rewrite io_write_view; cbn [hw set]; change (u32 4) with 4; rewrite (view_clear _ e w l); fold (nvw d1); by rewrite V1, ?K1, ?K2. }
    destruct (read_rest c fuel d2 IH) as (d' & E & R).
    + apply (page_inv_event c e w l d d2 Hi Ee El); [by destruct M1 as (h & -> & _)|done].
    + apply u32_is.
    + by destruct M1 as (h & -> & _).
    + rewrite V2; unfold time_of in *; rewrite Ew, Ee in Ht; cbn in Ht |- *; lia.
    + exists d'; split; [done|]; apply (nand_result_event c e w l d d2 d' Ee El V2); [|done]; destruct M1 as (h & -> & _); by eexists.
  - destruct (correct_data_quiet d ltac:(left; lia)) as (d1 & E1 & M1); step_ok E1; change (0 <? 0) with false; cbn iota; pose proof (moved_view _ _ _ M1) as V1.
    destruct (read_rest c fuel d1 IH) as (d' & E & R); [exact (page_inv_wait _ _ _ _ Hi M1)|by destruct M1 as (h & -> & _)|by destruct M1 as (h & -> & _)| |exists d'; split; [done|exact (nand_result_wait _ _ _ _ _ M1 R)]].
    rewrite V1; unfold time_of in *; destruct (nvw d); cbn in *; lia.
Qed.
End Main.
