(* ===== verification/NandPage.v ===== *)
(** Reading of a page through the NAND controller, from the command to the copy of
    the data: the page that was written is given back, with its redundant area. *)
From S2P Require Import Prelude Nand NandSpec NandMain.

(** ** Bits of the control register *)
Definition csr_put (A B x : Z) : Z := Z.land (u32 (Z.lor (Z.land x A) B)) (Z.lnot 0x7).

Lemma u32_land x : u32 x = Z.land x 0xFFFFFFFF.
Proof. change 0xFFFFFFFF with (Z.ones 32); by rewrite Z.land_ones by lia. Qed.

Lemma csr_put_land A B x M : Z.land (csr_put A B x) M = Z.lor (Z.land x (Z.land A (Z.land 0xFFFFFFF8 M))) (Z.land B (Z.land 0xFFFFFFF8 M)).
Proof.
  unfold csr_put; rewrite u32_land, <- !(Z.land_assoc _ _ M), <- (Z.land_assoc _ 0xFFFFFFFF), Z.land_lor_distr_l, <- !Z.land_assoc.
  by rewrite (Z.land_assoc 0xFFFFFFFF).
Qed.

Lemma testbit_u32_low A B x i : Z.land x 0x7 = 0 -> 0 <= i < 3 -> Z.testbit (u32 (Z.lor (Z.land x A) B)) i = Z.testbit B i.
Proof.
  intros Hx Hi; unfold u32; change 4294967296 with (2 ^ 32); rewrite Z.mod_pow2_bits_low, Z.lor_spec, Z.land_spec by lia.
  assert (Hb : Z.testbit (Z.land x 0x7) i = false) by (rewrite Hx; apply Z.bits_0); rewrite Z.land_spec in Hb.
  assert (H7 : Z.testbit 7 i = true) by (change 7 with (Z.ones 3); apply Z.ones_spec_low; lia); rewrite H7, andb_true_r in Hb; by rewrite Hb.
Qed.

(** The control register after the set-up with the code [t]. *)
Definition setup_csr (t csr : Z) : Z :=
  csr_put (Z.lnot 0x06000000) 0x04000000 (csr_put (-1) 0x00800080 (csr_put (Z.lnot 0x007C0000) t csr)).

Definition idle (v : nand_view) : Prop := n_wait v = O /\ n_events v = [].

Definition read_csr_of (t csr : Z) : Z := csr_put (-1) 0x2 (setup_csr t csr).

Lemma csr_put_mask A B x M A' B' : Z.land A (Z.land 0xFFFFFFF8 M) = A' -> Z.land B (Z.land 0xFFFFFFF8 M) = B' -> Z.land (csr_put A B x) M = Z.lor (Z.land x A') B'.
Proof. intros <- <-; apply csr_put_land. Qed.

(** The writes after that of the code leave the other bits. *)
Lemma read_csr_mask t csr M : Z.land M 0x06800087 = 0 -> Z.land M 0xFFFFFFF8 = M -> Z.land (read_csr_of t csr) M = Z.land (csr_put (Z.lnot 0x007C0000) t csr) M.
Proof.
  intros H0 H8.
  assert (Hz : forall B, Z.land B 0x06800087 = B -> Z.land B (Z.land 0xFFFFFFF8 M) = 0).
  { intros B HB; rewrite (Z.land_comm _ M), H8, <- HB, <- Z.land_assoc, (Z.land_comm _ M), H0; apply Z.land_0_r. }
  assert (Hk : Z.land (Z.lnot 0x06000000) (Z.land 0xFFFFFFF8 M) = M).
  { rewrite (Z.land_comm _ M), H8, Z.land_comm; rewrite <- Z.ldiff_land; apply Z.bits_inj'; intros k Hk0; rewrite Z.ldiff_spec.
    assert (Hb : Z.testbit (Z.land M 0x06800087) k = false) by (rewrite H0; apply Z.bits_0); rewrite Z.land_spec in Hb.
    destruct (Z.testbit M k) eqn:Em; [|done]; cbn [andb] in *; change 0x06800087 with (Z.lor 0x06000000 0x00800087) in Hb; rewrite Z.lor_spec in Hb; by apply orb_false_iff in Hb as [-> _]. }
  unfold read_csr_of, setup_csr.
  rewrite (csr_put_mask (-1) 0x2 _ M M 0), Z.lor_0_r by (first [by apply Hz|by rewrite Z.land_m1_l, Z.land_comm]).
  rewrite (csr_put_mask (Z.lnot 0x06000000) 0x04000000 _ M M 0), Z.lor_0_r by (first [by apply Hz|done]).
  by rewrite (csr_put_mask (-1) 0x00800080 _ M M 0), Z.lor_0_r by (first [by apply Hz|by rewrite Z.land_m1_l, Z.land_comm]).
Qed.

Lemma read_csr_on t csr : nz (Z.land (read_csr_of t csr) 0x80) = true.
Proof.
  unfold read_csr_of, setup_csr; rewrite (csr_put_mask (-1) 0x2 _ 0x80 0x80 0), (csr_put_mask (Z.lnot 0x06000000) 0x04000000 _ 0x80 0x80 0), (csr_put_mask (-1) 0x00800080 _ 0x80 0x80 0x80), !Z.lor_0_r by done.
  unfold nz; apply negb_true_iff, Z.eqb_neq; intros E; by apply Z.lor_eq_0_iff in E as [_ E].
Qed.

(** The code that is selected, and the page size as before. *)
Lemma read_csr_fields t csr : t ∈ g_i32BCHAlgoIdx -> Z.land (read_csr_of t csr) 0x007C0000 = t /\ Z.land (read_csr_of t csr) 0x00030000 = Z.land csr 0x00030000.
Proof.
  intros Ht; rewrite !read_csr_mask by done.
  assert (Htt : Z.land t (Z.land 0xFFFFFFF8 0x007C0000) = t /\ Z.land t (Z.land 0xFFFFFFF8 0x00030000) = 0) by (unfold g_i32BCHAlgoIdx in Ht; set_unfold in Ht; destruct_or? Ht; by subst); destruct Htt as [T1 T2].
  by rewrite (csr_put_mask _ t csr 0x007C0000 0 t), (csr_put_mask _ t csr 0x00030000 0x00030000 0), Z.land_0_r, Z.lor_0_l, Z.lor_0_r by done.
Qed.

Lemma read_csr_code t csr : t ∈ g_i32BCHAlgoIdx -> code_of (read_csr_of t csr) = ('(f, pad, par) ← bch_params t; bytes ← page_bytes (Z.land csr 0x00030000); Some (mk_code f pad par (bytes / f))).
Proof. intros Ht; unfold code_of; by destruct (read_csr_fields t csr Ht) as [-> ->]. Qed.

(** What is asked of a page that is read: the code, the sizes, and the errors in
    fields that are looked at. *)
Definition readable (c : code) (t csr size ws : Z) (p : stored) (sm : list Z) : Prop :=
  code_of (read_csr_of t csr) = Some c /\ all_bytes (pg_data p, sm) /\
  Forall (fun e => event_ok c (Z.land size 0x1ff) (zlen (pg_data p)) (zlen sm) (fst e)) (pg_events p) /\
  status_words (read_csr_of t csr) ws <= 4 /\ Forall (fun e => (e_field (fst e) - 1) / 4 < status_words (read_csr_of t csr) ws) (pg_events p).

Definition read_time (p : stored) : nat := pg_delay p + list_sum (map (fun e => S (snd e)) (pg_events p)).

Lemma memcpy_start {A} (dst src : list A) n : 0 <= n <= zlen src -> n <= zlen dst -> memcpy dst 0 src 0 n = Some (take (Z.to_nat n) src ++ drop (Z.to_nat n) dst).
Proof.
  intros Hs Hd; unfold memcpy; rewrite rdn_in, bind_ok, slice_0 by lia; unfold zlen in *; rewrite wrn_0 by (unfold zlen; rewrite length_take; lia).
  by rewrite length_take, Nat.min_l by lia.
Qed.

Section Page.
  Context {H : Type} `{!NandHw H, !NandLaws H}.
  Implicit Types d : nand H.

(** ** Writes *)
Lemma moved_refl d : moved d (nvw d) d.
Proof. exists (hw d); by destruct d. Qed.

Lemma io_write_moved v a d : moved d (nview (writel (u32 v) a (hw d))) (io_write v a d).
Proof. by eexists. Qed.

(** A register is read and written. *)
Lemma io_update_moved a f d : a <> REG_SMISR /\ a <> REG_SMDATA ->
  exists d1, moved d (nvw d) d1 /\ io_update a f d = io_write (f (fst (readl a (hw d)))) a d1.
Proof. intros Ha; unfold io_update; destruct (io_read_moved a d Ha) as (d1 & -> & M); by exists d1. Qed.

Lemma plain_write v a d : a ∈ plain_regs -> moved d (nvw d) (io_write v a d).
Proof. intros Ha; eexists; split; [done|]; by apply view_write_plain. Qed.

Lemma plain_update a f d : a <> REG_SMISR /\ a <> REG_SMDATA -> a ∈ plain_regs -> moved d (nvw d) (io_update a f d).
Proof.
  intros Hne Ha; destruct (io_update_moved a f d Hne) as (d1 & M & ->); refine (moved_trans _ _ _ _ _ M _); rewrite <- (moved_view _ _ _ M); by apply plain_write.
Qed.

Lemma write_isr v d : n_events (nvw d) = [] -> moved d ((nvw d) <| n_on := n_on (nvw d) && negb (Z.testbit (u32 v) 0) |>) (io_write v REG_SMISR d).
Proof. intros He; eexists; split; [done|]; by apply view_write_isr. Qed.

(** The control register. *)
Lemma update_csr f A B d : (forall v, f v = Z.lor (Z.land v A) B) -> Z.testbit B 2 = false ->
  moved d (let w := (nvw d) <| n_csr := csr_put A B (n_csr (nvw d)) |> in if Z.testbit B 1 then start_read w else w) (io_update REG_SMCSR f d).
Proof.
  intros Hf H2; destruct (io_update_moved REG_SMCSR f d ltac:(reg_ne)) as (d1 & M & ->); refine (moved_trans _ _ _ _ _ M _); pose proof (moved_view _ _ _ M) as V.
  pose proof (csr_low (hw d)) as Hl; fold (nvw d) in Hl; rewrite read_csr; fold (nvw d); rewrite Hf; eexists; split; [done|]; rewrite view_write_csr; rewrite !testbit_u32_low by (done || lia); [|done].
  fold (nvw d1); by rewrite V.
Qed.

(** ** Set-up of a transfer *)
Lemma update_isr_done d : idle (nvw d) -> moved d ((nvw d) <| n_on := false |>) (io_update REG_SMISR (fun v => Z.lor v 0x1) d).
Proof.
  intros [Hw He]; unfold io_update; destruct (read_isr_moved d) as (v & d1 & -> & M & _); pose proof (moved_view _ _ _ M) as V; refine (moved_trans _ _ _ _ _ M _).
  destruct (write_isr (Z.lor v 0x1) d1) as (h & E & Hv); [rewrite V; by destruct (nvw d)|]; exists h; split; [done|]; rewrite Hv, V.
  assert (Hb : Z.testbit (u32 (Z.lor v 0x1)) 0 = true) by (unfold u32; change 4294967296 with (2 ^ 32); rewrite Z.mod_pow2_bits_low, Z.lor_spec by lia; apply orb_true_r).
  rewrite Hb; cbn [negb]; rewrite andb_false_r; rewrite Hw; destruct (nvw d); cbn in *; congruence.
Qed.

Lemma idle_on v b : idle v -> idle (v <| n_on := b |>).
Proof. by destruct v. Qed.

Lemma dmac_init_moved d : idle (nvw d) -> moved d ((nvw d) <| n_on := false |>) (nuc970_nand_dmac_init d).
Proof.
  intros Hi; unfold nuc970_nand_dmac_init; set (d1 := io_update REG_NAND_DMACCSR _ d); set (d2 := io_update REG_NAND_DMACCSR _ d1); set (d3 := io_update REG_SMISR _ d2).
  assert (M1 : moved d (nvw d) d1) by (apply plain_update; [reg_ne|set_solver]).
  assert (M2 : moved d1 (nvw d1) d2) by (apply plain_update; [reg_ne|set_solver]); rewrite (moved_view _ _ _ M1) in M2.
  pose proof (moved_view _ _ _ M2) as V2; assert (M3 : moved d2 ((nvw d) <| n_on := false |>) d3) by (rewrite <- V2; apply update_isr_done; by rewrite V2).
  refine (moved_trans _ _ _ _ _ M1 (moved_trans _ _ _ _ _ M2 (moved_trans _ _ _ _ _ M3 _))); rewrite <- (moved_view _ _ _ M3); apply plain_update; [reg_ne|set_solver].
Qed.

Lemma set_bch_moved t d : 0 <= eBCHAlgo d -> rd g_i32BCHAlgoIdx (eBCHAlgo d) = Some t ->
  exists d', set_bch d = Some d' /\ moved d ((nvw d) <| n_csr := csr_put (-1) 0x00800080 (csr_put (Z.lnot 0x007C0000) t (n_csr (nvw d))) |>) d'.
Proof.
  intros Ha Ht; unfold set_bch; destruct (0 <=? eBCHAlgo d) eqn:E; [|zbool; lia]; step_ok Ht; eexists; split; [done|]; set (d1 := io_update REG_SMCSR _ d).
  assert (Htb : Z.testbit t 2 = false /\ Z.testbit t 1 = false).
  { apply rd_Some in Ht as [_ Ht]; apply list_elem_of_lookup_2 in Ht; unfold g_i32BCHAlgoIdx in Ht; set_unfold in Ht; destruct_or? Ht; by subst. }
  destruct Htb as [T2 T1]; pose proof (update_csr (fun v => Z.lor (Z.land v (Z.lnot 0x007C0000)) t) (Z.lnot 0x007C0000) t d (fun v => eq_refl) T2) as M1; fold d1 in M1; rewrite T1 in M1; cbn zeta iota in M1.
  refine (moved_trans _ _ _ _ _ M1 _); pose proof (moved_view _ _ _ M1) as V1.
  pose proof (update_csr (fun v => Z.lor v 0x00800080) (-1) 0x00800080 d1) as M2; cbn zeta in M2; rewrite V1 in M2; apply M2; [intros v; by rewrite Z.land_m1_r|done].
Qed.

Definition setup_view (t size : Z) (v : nand_view) : nand_view :=
  v <| n_on := false |> <| n_csr := setup_csr t (n_csr v) |> <| n_reactl := size |>.

Lemma wait_dma fuel d : n_events (nvw d) = [] -> exists d', wait_bits (S fuel) REG_NAND_DMACCSR 0x200 false d = Some d' /\ moved d (nvw d) d'.
Proof.
  intros He; cbn [wait_bits]; destruct (io_read_moved REG_NAND_DMACCSR d ltac:(reg_ne)) as (d1 & -> & M); rewrite read_dma_idle by done; by exists d1.
Qed.

Lemma select_chip_moved d : moved d ((nvw d) <| n_csr := csr_put (Z.lnot 0x06000000) 0x04000000 (n_csr (nvw d)) |>) (nuc970_nand_select_chip d).
Proof. exact (update_csr _ (Z.lnot 0x06000000) 0x04000000 d (fun v => eq_refl) eq_refl). Qed.

Lemma dma_setup_moved fuel dma_addr t d : idle (nvw d) -> 0 <= eBCHAlgo d -> rd g_i32BCHAlgoIdx (eBCHAlgo d) = Some t -> is_u32 (m_i32SMRASize d) ->
  exists d', dma_setup (S fuel) dma_addr d = Some d' /\ moved d (setup_view t (m_i32SMRASize d) (nvw d)) d'.
Proof.
  intros Hi Ha Ht Hs; unfold dma_setup; destruct (wait_dma fuel d (proj2 Hi)) as (d1 & E1 & M1); step_ok E1; pose proof (moved_view _ _ _ M1) as V1; set (v1 := (nvw d) <| n_on := false |>).
  assert (M2 : moved d1 v1 (nuc970_nand_dmac_init d1)) by (unfold v1; rewrite <- V1; apply dmac_init_moved; by rewrite V1); set (d2 := nuc970_nand_dmac_init d1) in *; pose proof (moved_view _ _ _ M2) as V2.
  set (d3 := io_write dma_addr REG_NAND_DMACSAR d2); assert (M3 : moved d2 v1 d3) by (rewrite <- V2; apply plain_write; set_solver); pose proof (moved_view _ _ _ M3) as V3.
  set (d4 := io_write 0x1 REG_NAND_DMACIER d3); assert (M4 : moved d3 v1 d4) by (rewrite <- V3; apply plain_write; set_solver); pose proof (moved_view _ _ _ M4) as V4.
  assert (Hv1 : n_events v1 = [] /\ v1 <| n_on := false |> = v1) by (destruct Hi; unfold v1; by destruct (nvw d)); destruct Hv1 as [Hv1 Hv1'].
  set (d5 := io_write 0x400 REG_SMISR d4); assert (M5 : moved d4 v1 d5) by (destruct (write_isr 0x400 d4) as (h & E & Hh); [by rewrite V4|]; exists h; split; [done|]; rewrite Hh, V4; exact Hv1'); pose proof (moved_view _ _ _ M5) as V5.
  pose proof (moved_trans _ _ _ _ _ M1 (moved_trans _ _ _ _ _ M2 (moved_trans _ _ _ _ _ M3 (moved_trans _ _ _ _ _ M4 M5)))) as M; clear M1 M2 M3 M4 M5.
  assert (Hd5 : eBCHAlgo d5 = eBCHAlgo d /\ m_i32SMRASize d5 = m_i32SMRASize d) by (by destruct M as (h & -> & _)); destruct Hd5 as [Ha5 Hs5].
  destruct (set_bch_moved t d5) as (d6 & E6 & M6); rewrite ?Ha5; [done|done|]; step_ok E6; rewrite V5 in M6; pose proof (moved_view _ _ _ M6) as V6; pose proof (moved_trans _ _ _ _ _ M M6) as M'; clear M.
  assert (Hs6 : m_i32SMRASize d6 = m_i32SMRASize d) by (by destruct M' as (h & -> & _)); rewrite Hs6.
  set (d7 := io_write (m_i32SMRASize d) REG_SMREACTL d6); assert (M7 : moved d6 ((nvw d6) <| n_reactl := m_i32SMRASize d |>) d7).
  { eexists; split; [done|]; rewrite view_write_reactl, (u32_id _ Hs); done. }
  pose proof (moved_view _ _ _ M7) as V7; set (d8 := io_update REG_SMIER _ d7); assert (M8 : moved d7 (nvw d7) d8) by (apply plain_update; [reg_ne|set_solver]); pose proof (moved_view _ _ _ M8) as V8.
  set (d9 := io_write 0x4 REG_SMISR d8); assert (M9 : moved d8 (nvw d7) d9).
  { destruct (write_isr 0x4 d8) as (h & E & Hh); [rewrite V8, V7, V6; by destruct v1|]; exists h; split; [done|]; rewrite Hh, V8, V7, V6; by destruct (nvw d). }
  eexists; split; [done|]; refine (moved_trans _ _ _ _ _ (moved_trans _ _ _ _ _ M' (moved_trans _ _ _ _ _ M7 (moved_trans _ _ _ _ _ M8 M9))) _).
  pose proof (select_chip_moved d9) as M10; rewrite (moved_view _ _ _ M9), V7, V6 in M10; exact M10.
Qed.

Definition cur_page (v : nand_view) : stored := n_chip v (n_cur v).

(** The view of a transfer that begins. *)
Definition begun (t size : Z) (v : nand_view) : nand_view := start_read ((setup_view t size v) <| n_csr := read_csr_of t (n_csr v) |>).

Lemma begin_read_moved t size v d : nvw d = setup_view t size v -> moved d (begun t size v) (io_update REG_SMCSR (fun v => Z.lor v 0x2) d).
Proof.
  intros V; pose proof (update_csr (fun v => Z.lor v 0x2) (-1) 0x2 d (fun x => ltac:(by rewrite Z.land_m1_r)) eq_refl) as M; cbn zeta in M; rewrite V in M; exact M.
Qed.

Lemma begun_inv c t size v d : nvw d = begun t size v -> readable c t (n_csr v) size (writesize d) (cur_page v) (n_smra v) -> page_inv c d.
Proof. intros V (Hc & Hb & He & Hn & Hf); unfold page_inv, page_ok, fields_seen; rewrite V; by destruct v. Qed.

Lemma dma_read_ok c fuel dma_addr t a len d : let v := nvw d in let p := cur_page v in let es := pg_events p in
  let r := restored c (Z.land (m_i32SMRASize d) 0x1ff) es (pg_data p, n_smra v) in
  idle v -> 0 <= eBCHAlgo d -> rd g_i32BCHAlgoIdx (eBCHAlgo d) = Some t -> is_u32 (m_i32SMRASize d) ->
  readable c t (n_csr v) (m_i32SMRASize d) (writesize d) p (n_smra v) -> any_lost es = false ->
  is_u32 (ecc_corrected d) -> is_u32 (ecc_failed d) -> (read_time p < S fuel)%nat -> 0 <= len <= zlen (fst r) -> len <= zlen a ->
  exists h, dma_read (S fuel) dma_addr (Some a) len d =
      Some (Some (take (Z.to_nat len) (fst r) ++ drop (Z.to_nat len) a), with_stats d (u32 (ecc_corrected d + good_count es)) (ecc_failed d) h) /\
    n_smra (nview h) = snd r /\ idle (nview h).
Proof.
  intros v p es r Hi Ha Ht Hs Hr Hl Hc Hf Hfu Hlen Hla; unfold dma_read.
  destruct (dma_setup_moved fuel dma_addr t d Hi Ha Ht Hs) as (d1 & E1 & M1); step_ok E1; pose proof (moved_view _ _ _ M1) as V1; fold v in V1.
  pose proof (begin_read_moved t (m_i32SMRASize d) v d1 V1) as M2; set (d2 := io_update REG_SMCSR _ d1) in *; pose proof (moved_view _ _ _ M2) as V2.
  destruct (io_read_moved REG_SMCSR d2 ltac:(reg_ne)) as (d3 & -> & M3); rewrite V2 in M3; pose proof (moved_view _ _ _ M3) as V3; rewrite read_csr; fold (nvw d2); rewrite V2.
  change (n_csr (begun t (m_i32SMRASize d) v)) with (read_csr_of t (n_csr v)); rewrite read_csr_on.
  pose proof (moved_trans _ _ _ _ _ M1 (moved_trans _ _ _ _ _ M2 M3)) as M; destruct M as (h3 & -> & _).
  destruct (read_loop_ok c (S fuel) (d <| hw := h3 |>)) as (d4 & E4 & h & -> & R4); [exact (begun_inv c t _ v _ V3 Hr)|done|done|rewrite V3; exact Hfu|].
  step_ok E4; rewrite V3 in R4 |- *; change (n_events (begun t (m_i32SMRASize d) v)) with es in R4 |- *; destruct (R4 Hl) as (Rb & Rw & Re); clear R4; rewrite Hl.
  change (restored _ _ es _) with r in Rb; cbn [hw with_stats]; rewrite view_dmabuf; change (n_buf (nview h)) with (fst (bytes_of (nview h))); rewrite Rb.
  rewrite memcpy_start, bind_ok by lia; set (d5 := with_stats _ _ _ _); assert (V5 : nvw d5 = nview h) by done.
  destruct (update_isr_done d5) as (h' & E & Hv'); [rewrite V5; by split|]; unfold nuc970_nand_dmac_fini; rewrite E; exists h'; split; [unfold d5; cbn [Z.b2z]; rewrite Z.add_0_r; change (ecc_failed (d <| hw := h3 |>)) with (ecc_failed d); rewrite (u32_id (ecc_failed d)) by done; reflexivity|].
  rewrite Hv', V5; split; [rewrite <- Rb; by destruct (nview h)|split; by destruct (nview h)].
Qed.
End Page.
