(* ===== verification/NandRef.v ===== *)
(** A reference NAND controller that keeps the promises of [NandLaws]. *)
From S2P Require Import Prelude Nand NandSpec NandMain NandPage.

Module RefCtl.

(** Control bits that start something are not kept. *)
Definition seen (v : nand_view) : nand_view := v <| n_csr := Z.land (n_csr v) (Z.lnot 0x7) |>.

Definition isr_of (v : nand_view) : Z :=
  match n_wait v, n_events v with S _, _ => 0 | O, _ :: _ => 0x4 + READYBUSY | O, [] => Z.b2z (n_on v) + READYBUSY end.

(** The registers that report the first event. *)
Definition event_reg (a : Z) (v : nand_view) : Z :=
  match n_wait v, n_events v with
  | O, (e, _) :: _ =>
      if a <? REG_BCH_ECC_ADDR0 then status_reg e ((a - REG_SMECC_ST0) / 4)
      else if a <? REG_BCH_ECC_DATA0 then addr_reg e ((a - REG_BCH_ECC_ADDR0) / 4) else data_reg e ((a - REG_BCH_ECC_DATA0) / 4)
  | _, _ => 0
  end.

Definition ref_readl (a : Z) (v : nand_view) : Z * nand_view :=
  if a =? REG_SMISR then (isr_of v, v <| n_wait := pred (n_wait v) |>)
  else if a =? REG_SMDATA then (hd 0 (n_stream v), v <| n_stream := tail (n_stream v) |>)
  else if a =? REG_SMCSR then (n_csr (seen v), v)
  else if a =? REG_SMREACTL then (n_reactl v, v)
  else if a <? REG_SMECC_ST0 then (0, v)
  else (event_reg a v, v).

Definition ref_writel (x a : Z) (v : nand_view) : nand_view :=
  if a =? REG_SMISR then
    match n_wait v, n_events v with
    | O, (_, w) :: l => if Z.testbit x 2 then v <| n_events := l |> <| n_wait := w |> else v
    | _, _ => v <| n_on := n_on v && negb (Z.testbit x 0) |>
    end
  else if a =? REG_SMCSR then let w := v <| n_csr := Z.land x (Z.lnot 0x7) |> in if Z.testbit x 1 then start_read w else w
  else if a =? REG_SMREACTL then v <| n_reactl := x |>
  else if a =? REG_SMADDR then v <| n_addrs := n_addrs v ++ [x] |>
  else if a =? REG_SMCMD then
    if (x =? NAND_CMD_READSTART) then match decode_addr (n_addrs v) with Some (col, page) => latch v col page | None => v end
    else v <| n_cmd := x |> <| n_addrs := [] |>
  else v.

#[export] Instance ref_hw : NandHw nand_view := {
  readl := ref_readl; writel := ref_writel;
  smra := n_smra; set_smra l v := v <| n_smra := l |>; dmabuf := n_buf; set_dmabuf l v := v <| n_buf := l |>;
  waitfunc v := (0, v); write_page_raw _ v := v;
}.

Lemma seen_idem v : seen (seen v) = seen v.
Proof. unfold seen; destruct v; cbn; by rewrite <- Z.land_assoc, Z.land_diag. Qed.

Lemma seen_low v : Z.land (n_csr (seen v)) 0x7 = 0.
Proof. unfold seen; cbn [n_csr set]; rewrite <- Z.land_assoc; apply Z.land_0_r. Qed.

Lemma event_reg_at v e w l a : n_wait v = O -> n_events v = (e, w) :: l -> event_reg a v =
  if a <? REG_BCH_ECC_ADDR0 then status_reg e ((a - REG_SMECC_ST0) / 4)
  else if a <? REG_BCH_ECC_DATA0 then addr_reg e ((a - REG_BCH_ECC_ADDR0) / 4) else data_reg e ((a - REG_BCH_ECC_DATA0) / 4).
Proof. intros Hw He; unfold event_reg; by rewrite Hw, He. Qed.

Lemma read_event a v : REG_SMECC_ST0 <= a -> fst (ref_readl a v) = event_reg a v.
Proof.
  intros Ha; assert (Hne : a <> REG_SMISR /\ a <> REG_SMDATA /\ a <> REG_SMCSR /\ a <> REG_SMREACTL) by (unfold REG_SMISR, REG_SMDATA, REG_SMCSR, REG_SMREACTL, REG_SMECC_ST0, FMI_BA in *; lia).
  destruct Hne as (H1 & H2 & H3 & H4); apply Z.eqb_neq in H1, H2, H3, H4; apply Z.ltb_ge in Ha; unfold ref_readl; by rewrite H1, H2, H3, H4, Ha.
Qed.

Lemma ref_read_other a v : a <> REG_SMISR -> a <> REG_SMDATA -> snd (ref_readl a v) = v.
Proof.
  intros H1 H2; unfold ref_readl; destruct (a =? REG_SMISR) eqn:E1; [by zbool|]; destruct (a =? REG_SMDATA) eqn:E2; [by zbool|].
  by destruct (a =? REG_SMCSR), (a =? REG_SMREACTL), (a <? REG_SMECC_ST0).
Qed.

Lemma read_isr_of v : let x := isr_of v in
  nz (Z.land x READYBUSY) = bool_decide (n_wait v = O) /\
  match n_wait v, n_events v with
  | S _, _ => nz (Z.land x 0x4) = false /\ nz (Z.land x 0x1) = false
  | O, _ :: _ => nz (Z.land x 0x4) = true /\ nz (Z.land x 0x1) = false
  | O, [] => nz (Z.land x 0x4) = false /\ nz (Z.land x 0x1) = n_on v
  end.
Proof. unfold isr_of; destruct (n_wait v) as [|k]; [|done]; destruct (n_events v); [by destruct (n_on v)|done]. Qed.

Lemma write_csr_seen x v : seen (ref_writel x REG_SMCSR v) = let w := (seen v) <| n_csr := Z.land x (Z.lnot 0x7) |> in if Z.testbit x 1 then start_read w else w.
Proof.
  change (ref_writel x REG_SMCSR v) with (let w := v <| n_csr := Z.land x (Z.lnot 0x7) |> in if Z.testbit x 1 then start_read w else w); cbn zeta.
  assert (Hl : Z.land (Z.land x (Z.lnot 0x7)) (Z.lnot 0x7) = Z.land x (Z.lnot 0x7)) by (by rewrite <- Z.land_assoc, Z.land_diag).
  destruct (Z.testbit x 1), v; unfold seen, start_read; cbn -[Z.land Z.lnot]; by rewrite Hl.
Qed.

Lemma write_plain_same x a v : a ∈ plain_regs -> ref_writel x a v = v.
Proof. unfold plain_regs; intros Ha; set_unfold in Ha; destruct_or? Ha; by subst. Qed.

Lemma write_isr_idle x v : n_events v = [] -> ref_writel x REG_SMISR v = v <| n_on := n_on v && negb (Z.testbit x 0) |>.
Proof. intros He; change (ref_writel x REG_SMISR v) with (match n_wait v, n_events v with O, (_, w) :: l => if Z.testbit x 2 then v <| n_events := l |> <| n_wait := w |> else v | _, _ => v <| n_on := n_on v && negb (Z.testbit x 0) |> end); rewrite He; by destruct (n_wait v). Qed.

Lemma write_isr_clear e w l v : n_wait v = O -> n_events v = (e, w) :: l -> ref_writel 0x4 REG_SMISR v = v <| n_events := l |> <| n_wait := w |>.
Proof. intros Hw He; change (ref_writel 0x4 REG_SMISR v) with (match n_wait v, n_events v with O, (_, w) :: l => if Z.testbit 0x4 2 then v <| n_events := l |> <| n_wait := w |> else v | _, _ => v <| n_on := n_on v && negb (Z.testbit 0x4 0) |> end); by rewrite Hw, He. Qed.

Lemma write_read_start col page v : decode_addr (n_addrs v) = Some (col, page) -> ref_writel NAND_CMD_READSTART REG_SMCMD v = latch v col page.
Proof. intros Hd; change (ref_writel NAND_CMD_READSTART REG_SMCMD v) with (match decode_addr (n_addrs v) with Some (col, page) => latch v col page | None => v end); by rewrite Hd. Qed.

Lemma write_cmd x v : x <> NAND_CMD_READSTART -> ref_writel x REG_SMCMD v = v <| n_cmd := x |> <| n_addrs := [] |>.
Proof.
  intros Hx; change (ref_writel x REG_SMCMD v) with (if x =? NAND_CMD_READSTART then match decode_addr (n_addrs v) with Some (col, page) => latch v col page | None => v end else v <| n_cmd := x |> <| n_addrs := [] |>).
  destruct (x =? NAND_CMD_READSTART) eqn:E; [by zbool|done].
Qed.

(** The event registers. *)
Lemma read_status_at e w l jj v : n_wait v = O -> n_events v = (e, w) :: l -> 0 <= jj < 4 -> fst (ref_readl (REG_SMECC_ST0 + jj * 4) v) = status_reg e jj.
Proof.
  intros Hw He Hj; rewrite read_event by lia; rewrite (event_reg_at _ e w l) by done.
  destruct (_ <? REG_BCH_ECC_ADDR0) eqn:E; [|zbool; unfold REG_BCH_ECC_ADDR0, REG_SMECC_ST0, FMI_BA in *; lia]; f_equal; rewrite Z.add_simpl_l, Z.div_mul; lia.
Qed.

Lemma read_addr_at e w l i v : n_wait v = O -> n_events v = (e, w) :: l -> 0 <= i < 12 -> fst (ref_readl (REG_BCH_ECC_ADDR0 + i * 4) v) = addr_reg e i.
Proof.
  intros Hw He Hj; rewrite read_event by (unfold REG_BCH_ECC_ADDR0, REG_SMECC_ST0, FMI_BA; lia); rewrite (event_reg_at _ e w l) by done.
  destruct (_ <? REG_BCH_ECC_ADDR0) eqn:E; [zbool; lia|]; destruct (_ <? REG_BCH_ECC_DATA0) eqn:E'; [|zbool; unfold REG_BCH_ECC_ADDR0, REG_BCH_ECC_DATA0, FMI_BA in *; lia].
  f_equal; rewrite Z.add_simpl_l, Z.div_mul; lia.
Qed.

Lemma read_data_at e w l i v : n_wait v = O -> n_events v = (e, w) :: l -> 0 <= i < 6 -> fst (ref_readl (REG_BCH_ECC_DATA0 + i * 4) v) = data_reg e i.
Proof.
  intros Hw He Hj; rewrite read_event by (unfold REG_BCH_ECC_DATA0, REG_SMECC_ST0, FMI_BA; lia); rewrite (event_reg_at _ e w l) by done.
  destruct (_ <? REG_BCH_ECC_ADDR0) eqn:E; [zbool; unfold REG_BCH_ECC_ADDR0, REG_BCH_ECC_DATA0, FMI_BA in *; lia|]; destruct (_ <? REG_BCH_ECC_DATA0) eqn:E'; [zbool; lia|].
  f_equal; rewrite Z.add_simpl_l, Z.div_mul; lia.
Qed.

Lemma read_data_hd b l v : n_stream v = b :: l -> fst (ref_readl REG_SMDATA v) = b.
Proof. intros Hs; change (fst (ref_readl REG_SMDATA v)) with (hd 0 (n_stream v)); by rewrite Hs. Qed.

#[export] Instance ref_laws : NandLaws nand_view := {|
  nview := seen;
  view_smra := fun h => eq_refl;
  view_set_smra := fun l h => eq_refl;
  view_dmabuf := fun h => eq_refl;
  view_set_dmabuf := fun l h => eq_refl;
  view_readl := fun a h Ha => f_equal seen (ref_read_other a h (proj1 Ha) (proj2 Ha));
  view_read_isr := fun h => eq_refl;
  view_read_data := fun h => eq_refl;
  read_data := fun h b l Hs => read_data_hd b l h Hs;
  read_csr := fun h => eq_refl;
  csr_low := seen_low;
  read_reactl := fun h => eq_refl;
  read_dma_idle := fun h _ => eq_refl;
  read_isr := read_isr_of;
  read_status := fun h e w l jj Hw He Hj => read_status_at e w l jj h Hw He Hj;
  read_addr_reg := fun h e w l i Hw He Hj => read_addr_at e w l i h Hw He Hj;
  read_data_reg := fun h e w l i Hw He Hj => read_data_at e w l i h Hw He Hj;
  view_clear := fun h e w l Hw He => f_equal seen (write_isr_clear e w l h Hw He);
  view_write_isr := fun x h He => f_equal seen (write_isr_idle x h He);
  view_write_csr := fun x h _ => write_csr_seen x h;
  view_write_reactl := fun x h => eq_refl;
  view_write_plain := fun x a h Ha => f_equal seen (write_plain_same x a h Ha);
  view_write_cmd := fun x h Hx => f_equal seen (write_cmd x h Hx);
  view_write_addr := fun x h => eq_refl;
  view_read_start := fun h col page _ Hd => f_equal seen (write_read_start col page h Hd);
|}.
End RefCtl.
