(* ===== verification/NandRead.v ===== *)
(** The commands of the NAND chip and the reading of a page with its redundant
    area, from the command to the copy into the memory of the caller. *)
From S2P Require Import Prelude Nand NandSpec NandMain NandPage.

(** ** Address cycles *)

(** The pages of a chip. *)
Definition page_in (chipsize page : Z) : Prop := 0 <= page < (if Z.shiftl 128 20 <? chipsize then 16777216 else 65536).

Lemma land_end x : is_u8 x -> (Z.land (Z.lor x ENDADDR) ENDADDR =? 0) = false /\ Z.land (Z.lor x ENDADDR) 0xFF = x /\ is_u32 (Z.lor x ENDADDR).
Proof.
  unfold is_u8; intros Hx; assert (E : Z.lor x ENDADDR = x + 2 ^ 31).
  { symmetry; apply (Z.add_nocarry_lor x (2 ^ 31)); apply Z.bits_inj'; intros k Hk; rewrite Z.land_spec, Z.bits_0.
    destruct (decide (k = 31)) as [->|Hne]; [rewrite <- (Z.mod_small x (2 ^ 8)), Z.mod_pow2_bits_high by (cbn; lia); done|rewrite Z.pow2_bits_false by lia; apply andb_false_r]. }
  split_and!.
  - rewrite Z.land_comm, Z.land_lor_distr_r, Z.land_diag; apply Z.eqb_neq; intros E0; by apply Z.lor_eq_0_iff in E0 as [_ E0].
  - rewrite Z.land_lor_distr_l, land_255, Z.mod_small by lia; by rewrite Z.lor_0_r.
  - rewrite E; unfold is_u32; cbn; lia.
Qed.

Lemma addr_cycles_decode col page chipsize : 0 <= col < 65536 -> page_in chipsize page -> decode_addr (addr_cycles col page chipsize) = Some (col, page).
Proof.
  intros Hc Hp; unfold page_in, addr_cycles in *; destruct (col =? -1) eqn:E1, (page =? -1) eqn:E2; zbool; [lia|lia|destruct (_ <? chipsize); lia|].
  rewrite !land_255, !Z.shiftr_div_pow2 by lia; change (2 ^ 8) with 256; change (2 ^ 16) with 65536; destruct (_ <? chipsize); cbn [app decode_addr].
  - destruct (land_end (page / 65536 mod 256)) as (-> & -> & _); [apply Z.mod_pos_bound; lia|]; do 2 f_equal; Z.to_euclidean_division_equations; lia.
  - destruct (land_end (page / 256 mod 256)) as (-> & -> & _); [apply Z.mod_pos_bound; lia|]; do 2 f_equal; Z.to_euclidean_division_equations; lia.
Qed.

Lemma addr_cycles_u32 col page chipsize : 0 <= col < 65536 -> page_in chipsize page -> Forall is_u32 (addr_cycles col page chipsize).
Proof.
  intros Hc Hp; assert (Hb : forall x, is_u32 (x mod 256)) by (intros x; unfold is_u32; pose proof (Z.mod_pos_bound x 256 ltac:(lia)); lia).
  assert (He : forall x, is_u32 (Z.lor (x mod 256) ENDADDR)) by (intros x; apply land_end; unfold is_u8; apply Z.mod_pos_bound; lia).
  unfold addr_cycles; rewrite !land_255, !Z.shiftr_div_pow2 by lia; assert (Hc8 : is_u32 (col / 2 ^ 8)) by (unfold is_u32; change (2 ^ 8) with 256; Z.to_euclidean_division_equations; lia).
  destruct (page =? -1) eqn:E2; [unfold page_in in Hp; zbool; destruct (_ <? chipsize); lia|]; destruct (col =? -1), (_ <? chipsize); cbn [app]; repeat (constructor; [by first [apply Hb|apply He|apply Hc8]|]); constructor.
Qed.

(** The errors of a page, and that the corrections undo them. *)
Definition damage (c : code) (size : Z) (es : list (ecc_event * nat)) (bs : list Z * list Z) : list Z * list Z :=
  fold_right (fun e => flip c size (fst e)) bs es.

Lemma restored_damage c size es bs : restored c size es (damage c size es bs) = bs.
Proof.
  unfold restored, damage; induction es as [|e es IH]; [done|]; cbn [fold_right fold_left]; unfold flips; by rewrite flip_left.
Qed.

Section Read.
  Context {H : Type} `{!NandHw H, !NandLaws H}.
  Implicit Types d : nand H.

Lemma write_addrs l : forall d, Forall is_u32 l ->
  moved d ((nvw d) <| n_addrs := n_addrs (nvw d) ++ l |>) (fold_left (fun d a => io_write a REG_SMADDR d) l d).
Proof.
  induction l as [|a l IH]; intros d Hl; cbn [fold_left]; [rewrite app_nil_r; exists (hw d); split; [by destruct d|by unfold nvw; destruct (nview (hw d))]|].
  inversion_clear Hl as [|? ? Ha Hl']; assert (M1 : moved d ((nvw d) <| n_addrs := n_addrs (nvw d) ++ [a] |>) (io_write a REG_SMADDR d)) by (eexists; split; [done|]; rewrite (u32_id a Ha); apply view_write_addr).
  refine (moved_trans _ _ _ _ _ M1 _); pose proof (IH (io_write a REG_SMADDR d) Hl') as M2; rewrite (moved_view _ _ _ M1) in M2; cbn [n_addrs set] in M2; by rewrite <- app_assoc in M2.
Qed.

(** The chip is waited for. *)
Lemma wait_ready_ok fuel : forall d, (n_wait (nvw d) < fuel)%nat -> exists d', wait_ready fuel d = Some d' /\ moved d ((nvw d) <| n_wait := O |>) d'.
Proof.
  induction fuel as [|fuel IH]; intros d Hf; [lia|]; cbn [wait_ready]; unfold nuc970_check_rb, io_read.
  pose proof (read_isr (hw d)) as [Hr _]; pose proof (view_read_isr (hw d)) as Hv; fold (nvw d) in *; destruct (readl REG_SMISR (hw d)) as [v h]; cbn [fst snd] in *; rewrite Hr.
  destruct (n_wait (nvw d)) as [|k] eqn:Ew; [rewrite bool_decide_true by done; eexists; split; [done|]; by exists h|rewrite bool_decide_false by done].
  destruct (IH (d <| hw := h |>)) as (d' & E & M); [change (nvw (d <| hw := h |>)) with (nview h); rewrite Hv; cbn; lia|]; exists d'; split; [done|].
  change (nvw (d <| hw := h |>)) with (nview h) in M; rewrite Hv in M; destruct M as (k' & -> & Hk); by exists k'.
Qed.

(** The view after a command that reads the page from a column on. *)
Definition cmd_view (v : nand_view) (addrs : list Z) (col page : Z) : nand_view :=
  (latch (v <| n_cmd := NAND_CMD_READ0 |> <| n_addrs := addrs |>) col page) <| n_wait := O |>.

(** Both commands that read choose the code of the page and let the chip take it. *)
Lemma read_command fuel cmd column page d : let col := if cmd =? NAND_CMD_READOOB then column + writesize d else column in
  cmd = NAND_CMD_READ0 \/ cmd = NAND_CMD_READOOB -> 0 <= col < 65536 -> page_in (chipsize d) page -> (pg_busy (n_chip (nvw d) page) < fuel)%nat ->
  exists d' addrs, nuc970_nand_command_lp fuel cmd column page d = Some d' /\ moved (nuc970_choice_bch_algo page d) (cmd_view (nvw d) addrs col page) d'.
Proof.
  intros col Hcmd Hcol Hp Hf; unfold nuc970_nand_command_lp; assert (Hne : page =? -1 = false) by (apply Z.eqb_neq; destruct Hp; lia); rewrite Hne; cbn [negb andb].
  assert (Hif : (cmd =? NAND_CMD_SEQIN) || (cmd =? NAND_CMD_READ0) || (cmd =? NAND_CMD_READOOB) = true) by (by destruct Hcmd; subst); rewrite Hif; set (d0 := nuc970_choice_bch_algo page d).
  assert (H0 : writesize d0 = writesize d /\ chipsize d0 = chipsize d /\ nvw d0 = nvw d) by (unfold d0, nuc970_choice_bch_algo; by destruct (find_part _ _)); destruct H0 as (Hw & Hch & Hv).
  assert (Hpair : (if cmd =? NAND_CMD_READOOB then (NAND_CMD_READ0, column + writesize d0) else (cmd, column)) = (NAND_CMD_READ0, col)) by (unfold col; rewrite Hw; by destruct Hcmd; subst); rewrite Hpair.
  set (d1 := io_write (Z.land NAND_CMD_READ0 0xff) REG_SMCMD d0); assert (M1 : moved d0 ((nvw d0) <| n_cmd := NAND_CMD_READ0 |> <| n_addrs := [] |>) d1) by (eexists; split; [done|]; by apply view_write_cmd); pose proof (moved_view _ _ _ M1) as V1.
  assert (Hch1 : chipsize d1 = chipsize d0) by done; rewrite Hch1, Hch; set (addrs := addr_cycles col page (chipsize d)).
  pose proof (write_addrs addrs d1 (addr_cycles_u32 _ _ _ Hcol Hp)) as M2; set (d2 := fold_left _ addrs d1) in *; rewrite V1, Hv in M2; cbn [n_addrs set app] in M2; pose proof (moved_view _ _ _ M2) as V2.
  cbn [existsb Z.eqb NAND_CMD_READ0 NAND_CMD_ERASE1 NAND_CMD_ERASE2 NAND_CMD_CACHEDPROG NAND_CMD_PAGEPROG NAND_CMD_SEQIN NAND_CMD_RNDIN NAND_CMD_STATUS NAND_CMD_RNDOUT orb].
  set (d3 := io_write NAND_CMD_READSTART REG_SMCMD d2); assert (M3 : moved d2 (latch (nvw d2) col page) d3).
  { eexists; split; [done|]; apply (view_read_start (hw d2) col page); fold (nvw d2); rewrite V2; [done|exact (addr_cycles_decode _ _ _ Hcol Hp)]. }
  pose proof (moved_view _ _ _ M3) as V3; rewrite V2 in V3; destruct (wait_ready_ok fuel d3) as (d' & E & M4); [rewrite V3; exact Hf|].
  exists d', addrs; split; [exact E|]; rewrite V3 in M4; refine (moved_trans _ _ _ _ _ M1 (moved_trans _ _ _ _ _ M2 (moved_trans _ _ _ _ _ M3 M4))).
Qed.

(** The bytes that the chip gives. *)
Lemma read_buf_stream n : forall d, (n <= length (n_stream (nvw d)))%nat -> Forall is_u8 (n_stream (nvw d)) ->
  exists d', nuc970_nand_read_buf n d = (take n (n_stream (nvw d)), d') /\ moved d ((nvw d) <| n_stream := drop n (n_stream (nvw d)) |>) d'.
Proof.
  induction n as [|n IH]; intros d Hn Hb; [exists d; split; [done|]; exists (hw d); split; [by destruct d|]; unfold nvw; by destruct (nview (hw d))|].
  cbn [nuc970_nand_read_buf]; destruct (n_stream (nvw d)) as [|b l] eqn:Es; cbn in Hn; [lia|]; inversion_clear Hb as [|? ? Hb1 Hb2].
  unfold nuc970_nand_read_byte, io_read; pose proof (read_data (hw d) b l Es) as Hr; pose proof (view_read_data (hw d)) as Hv; destruct (readl REG_SMDATA (hw d)) as [x h]; cbn [fst snd] in *; subst x; rewrite (u8_id b Hb1).
  change (nview (hw d)) with (nvw d) in Hv; rewrite Es in Hv; cbn [tail] in Hv; set (d1 := d <| hw := h |>); assert (V1 : nvw d1 = (nvw d) <| n_stream := l |>) by exact Hv.
  destruct (IH d1) as (d' & E & h' & -> & Hv'); rewrite ?V1; [cbn; lia|done|]; rewrite E, V1; exists (d1 <| hw := h' |>); split; [done|]; exists h'; split; [done|]; rewrite Hv', V1; by destruct (nvw d).
Qed.

Lemma choice_again page d o h : let d' := (nuc970_choice_bch_algo page d) <| oob_poi := o |> <| hw := h |> in nuc970_choice_bch_algo page d' = d'.
Proof. unfold nuc970_choice_bch_algo; cbn zeta; destruct (find_part (parts d) (u32 (page * writesize d))) as [l|] eqn:E; cbn -[u32]; by rewrite E. Qed.

(** The redundant area of the page is in the memory and in the controller. *)
Lemma read_oob_first_ok fuel page d : let v := nvw d in let p := n_chip v page in let d0 := nuc970_choice_bch_algo page d in
  0 < writesize d < 65536 -> zlen (pg_data p) = writesize d -> zlen (pg_oob p) = oobsize d -> Forall is_u8 (pg_oob p) ->
  page_in (chipsize d) page -> (pg_busy p < fuel)%nat -> oobsize d <= zlen (oob_poi d) -> oobsize d <= zlen (n_smra v) ->
  exists h addrs, read_oob_first fuel page d = Some (d0 <| oob_poi := pg_oob p ++ drop (length (pg_oob p)) (oob_poi d) |> <| hw := h |>) /\
    nview h = (cmd_view v addrs (writesize d) page) <| n_stream := [] |> <| n_smra := pg_oob p ++ drop (length (pg_oob p)) (n_smra v) |>.
Proof.
  intros v p d0 Hws Hd Ho Hu Hp Hf Hpoi Hsm; unfold read_oob_first.
  destruct (read_command fuel NAND_CMD_READOOB 0 page d) as (d1 & addrs & E1 & M1); [by right|cbn; lia|done|done|]; step_ok E1; change (if NAND_CMD_READOOB =? NAND_CMD_READOOB then 0 + writesize d else 0) with (writesize d) in M1; fold v d0 in M1; pose proof (moved_view _ _ _ M1) as V1.
  assert (H1 : oobsize d1 = oobsize d /\ oob_poi d1 = oob_poi d) by (destruct M1 as (h & -> & _); unfold d0, nuc970_choice_bch_algo; by destruct (find_part _ _)); destruct H1 as [Ho1 Hp1].
  assert (Hst : n_stream (nvw d1) = pg_oob p) by (rewrite V1; cbn [cmd_view latch n_stream set n_chip]; change (drop (Z.to_nat (writesize d)) (pg_data p ++ pg_oob p) = pg_oob p); rewrite <- Hd, zlen_to_nat; apply drop_app_length).
  assert (Hn : Z.to_nat (oobsize d1) = length (pg_oob p)) by (rewrite Ho1, <- Ho; apply zlen_to_nat).
  destruct (read_buf_stream (Z.to_nat (oobsize d1)) d1) as (d2 & E2 & M2); rewrite ?Hst, ?Hn; [done|done|]; rewrite Hn in E2; rewrite E2, Hst, firstn_all; rewrite Hn, Hst, drop_all, V1 in M2; pose proof (moved_view _ _ _ M2) as V2.
  assert (H2 : oobsize d2 = oobsize d /\ oob_poi d2 = oob_poi d) by (destruct M2 as (h & -> & _); by split); destruct H2 as [Ho2 Hp2]; rewrite Hp2, Ho2, wrn_0, bind_ok by lia.
  rewrite view_smra; fold (nvw d2); rewrite V2; change (n_smra ((cmd_view v addrs (writesize d) page) <| n_stream := [] |>)) with (n_smra v); rewrite memcpy_start by (rewrite ?zlen_app; pose proof (zlen_nonneg (drop (length (pg_oob p)) (oob_poi d))); pose proof (zlen_nonneg (pg_oob p)); lia); rewrite bind_ok, <- Ho, !zlen_to_nat, take_app_length.
  destruct (moved_trans _ _ _ _ _ M1 M2) as (h & -> & Hh); eexists _, addrs; split; [reflexivity|]; rewrite view_set_smra; cbn [hw set]; by rewrite Hh.
Qed.

(** The controller area while the page is read: its redundant area, and what was in
    the rest of the registers. *)
Definition area_of (p : stored) d : list Z := pg_oob p ++ drop (length (pg_oob p)) (n_smra (nvw d)).

(** A page of the chip, of the sizes that the driver knows. *)
Record page_fits (page : Z) d : Prop := {
  pf_idle : n_events (nvw d) = [];
  pf_page : page_in (chipsize d) page;
  pf_ws : 0 < writesize d < 65536;
  pf_data : zlen (pg_data (n_chip (nvw d) page)) = writesize d;
  pf_oob : zlen (pg_oob (n_chip (nvw d) page)) = oobsize d;
  pf_bytes : Forall is_u8 (pg_oob (n_chip (nvw d) page));
  pf_four : 4 <= oobsize d;
  pf_poi : oobsize d <= zlen (oob_poi d);
  pf_smra : oobsize d <= zlen (n_smra (nvw d));
  pf_ecc : 0 <= ecc_size d <= writesize d;
}.

(** The page was written as [data] and [oob]; the code [c] that is chosen for it
    corrects every error. *)
Record page_of (c : code) (t page : Z) (data oob : list Z) d : Prop := {
  po_fits : page_fits page d;
  po_algo : 0 <= eBCHAlgo (nuc970_choice_bch_algo page d);
  po_code : rd g_i32BCHAlgoIdx (eBCHAlgo (nuc970_choice_bch_algo page d)) = Some t;
  po_size : is_u32 (m_i32SMRASize (nuc970_choice_bch_algo page d));
  po_read : readable c t (n_csr (nvw d)) (m_i32SMRASize (nuc970_choice_bch_algo page d)) (writesize d) (n_chip (nvw d) page) (area_of (n_chip (nvw d) page) d);
  po_oob : zlen oob = oobsize d;
  po_damage : damage c (Z.land (m_i32SMRASize (nuc970_choice_bch_algo page d)) 0x1ff) (pg_events (n_chip (nvw d) page)) (data, oob ++ drop (length oob) (n_smra (nvw d))) =
    (pg_data (n_chip (nvw d) page), area_of (n_chip (nvw d) page) d);
  po_kept : any_lost (pg_events (n_chip (nvw d) page)) = false;
}.

Lemma flip1_keeps c size i a bs : length (fst (flip1 c size i a bs)) = length (fst bs).
Proof. unfold flip1; destruct (place c size i (fst a)); cbn; [apply length_alter|done]. Qed.

Lemma damage_keeps c size es bs : length (fst (damage c size es bs)) = length (fst bs).
Proof.
  unfold damage; induction es as [|e es IH]; [done|]; cbn [fold_right]; unfold flip; induction (e_errs (fst e)) as [|a l IHl]; [exact IH|]; cbn [fold_right]; by rewrite flip1_keeps.
Qed.

Lemma page_of_len c t page data oob d : page_of c t page data oob d -> zlen data = writesize d.
Proof.
  intros Hp; pose proof (po_damage _ _ _ _ _ _ Hp) as Hd; pose proof (pf_data _ _ (po_fits _ _ _ _ _ _ Hp)) as Hl; apply (f_equal fst) in Hd; cbn [fst] in Hd; rewrite <- Hd in Hl; unfold zlen in *; by rewrite damage_keeps in Hl.
Qed.

(** The driver takes a page for erased if both markers are not zero. *)
Definition erased (p : stored) : bool := nz (default 0 (rd (pg_oob p) 2)) && nz (default 0 (rd (pg_oob p) 3)).

Lemma rd_marker (l k : list Z) i : 0 <= i < zlen l -> rd (l ++ k) i = Some (default 0 (rd l i)).
Proof. intros Hi; rewrite rd_app_l by done; by destruct (rd_in l i Hi) as [b ->]. Qed.
End Read.
