(* ===== verification/NandProps.v ===== *)
(** Theorems on the NAND driver: reading of pages and redundant areas, the counts
    of errors, the codes that the set-up chooses, and defects of the correction, of
    reading the redundant area and of the set-up. *)
From S2P Require Import Prelude Nand NandProbe NandSpec NandMain NandPage NandRef NandRead.

Section Props.
  Context {H : Type} `{!NandHw H, !NandLaws H}.
  Implicit Types d : nand H.

(** An erased page is not transferred. *)
Theorem nand_read_erased fuel dma_addr buf page d : page_fits page d -> (pg_busy (n_chip (nvw d) page) < fuel)%nat -> ecc_size d <= zlen buf ->
  erased (n_chip (nvw d) page) = true ->
  exists d', nuc970_nand_read_page_hwecc_oob_first fuel dma_addr buf page d = Some (replicate (Z.to_nat (ecc_size d)) 0xff ++ drop (Z.to_nat (ecc_size d)) buf, d') /\
    oob_poi d' = pg_oob (n_chip (nvw d) page) ++ drop (length (pg_oob (n_chip (nvw d) page))) (oob_poi d) /\ ecc_failed d' = ecc_failed d.
Proof.
  intros Hfit Hf Hb He; destruct Hfit as [Hi Hp Hws Hd Ho Hu H4 Hpoi Hsm Hec]; unfold nuc970_nand_read_page_hwecc_oob_first.
  destruct (read_oob_first_ok fuel page d Hws Hd Ho Hu Hp Hf Hpoi Hsm) as (h & addrs & E1 & V1); set (d1 := set hw (fun _ => h) _) in E1; assert (Hh : nvw d1 = nview h) by done; step_ok E1; rewrite !view_smra; fold (nvw d1); rewrite Hh, V1; cbn [n_smra set].
  rewrite !rd_marker, !bind_ok by (rewrite Ho; lia); unfold erased in He; rewrite He.
  assert (Hec' : ecc_size d1 = ecc_size d) by (unfold d1, nuc970_choice_bch_algo; by destruct (find_part _ _)); rewrite Hec'.
  rewrite wrn_0 by (unfold zlen in *; rewrite length_replicate; lia); rewrite bind_ok, length_replicate; eexists; split; [done|]; split; [done|]; unfold d1, nuc970_choice_bch_algo; by destruct (find_part _ _).
Qed.

(** C12: [nuc970_nand_read_page_hwecc_oob_first] gives back a page as it was written:
    for every page of the chip with up to fifteen wrong bytes in each field, in the
    data, in the redundant area or in the parity, whatever time the chip takes, the
    caller gets the data and [oob_poi] the redundant area without the errors, the
    errors are counted as corrected and none as failed. *)
Theorem nand_read_page c t fuel dma_addr buf page data oob d : page_of c t page data oob d -> erased (n_chip (nvw d) page) = false ->
  (pg_busy (n_chip (nvw d) page) < S fuel)%nat -> (read_time (n_chip (nvw d) page) < S fuel)%nat -> ecc_size d <= zlen buf ->
  is_u32 (ecc_corrected d) -> is_u32 (ecc_failed d) ->
  exists d', nuc970_nand_read_page_hwecc_oob_first (S fuel) dma_addr buf page d = Some (take (Z.to_nat (ecc_size d)) data ++ drop (Z.to_nat (ecc_size d)) buf, d') /\
    oob_poi d' = oob ++ drop (length oob) (oob_poi d) /\
    ecc_corrected d' = u32 (ecc_corrected d + good_count (pg_events (n_chip (nvw d) page))) /\ ecc_failed d' = ecc_failed d.
Proof.
  intros Hpo Her Hf Ht Hb Hc Hfa; pose proof (page_of_len _ _ _ _ _ _ Hpo) as Hlen; destruct Hpo as [Hfit Ha Hcode Hs Hr Hoob Hdam Hkept]; destruct Hfit as [Hi Hp Hws Hd Ho Hu H4 Hpoi Hsm Hec]; set (p := n_chip (nvw d) page) in *; set (d0 := nuc970_choice_bch_algo page d) in *.
  unfold nuc970_nand_read_page_hwecc_oob_first; destruct (read_oob_first_ok (S fuel) page d Hws Hd Ho Hu Hp Hf Hpoi Hsm) as (h & addrs & E1 & V1); set (d1 := set hw (fun _ => h) _) in E1; assert (Hh : nvw d1 = nview h) by done; step_ok E1; rewrite !view_smra; fold (nvw d1); rewrite Hh, V1; cbn [n_smra set].
  fold p; rewrite !rd_marker, !bind_ok by (rewrite Ho; lia); unfold erased in Her; rewrite Her; fold p d0 in d1, V1.
  assert (H1 : chipsize d1 = chipsize d /\ oobsize d1 = oobsize d /\ oob_poi d1 = pg_oob p ++ drop (length (pg_oob p)) (oob_poi d) /\ ecc_size d1 = ecc_size d /\ writesize d1 = writesize d /\ ecc_corrected d1 = ecc_corrected d /\ ecc_failed d1 = ecc_failed d) by (unfold d1, d0, nuc970_choice_bch_algo; by destruct (find_part _ _)).
  destruct H1 as (C1 & O1 & P1 & S1 & W1 & K1 & F1); destruct (read_command (S fuel) NAND_CMD_READ0 0 page d1) as (d2 & addrs2 & E2 & M2); [by left|cbn; lia|by rewrite C1|rewrite Hh, V1; exact Hf|]; step_ok E2.
  assert (Hch : nuc970_choice_bch_algo page d1 = d1) by apply choice_again; rewrite Hch, Hh, V1 in M2; change (if NAND_CMD_READ0 =? NAND_CMD_READOOB then 0 + writesize d1 else 0) with 0 in M2.
  destruct M2 as (h2 & -> & V2); set (d2 := d1 <| hw := h2 |>) in *; assert (V2' : nvw d2 = nview h2) by done; change (ecc_size d2) with (ecc_size d1); rewrite S1.
  assert (Hv : cur_page (nvw d2) = p /\ n_smra (nvw d2) = area_of p d /\ n_csr (nvw d2) = n_csr (nvw d) /\ idle (nvw d2)) by (rewrite V2', V2; by split_and!); destruct Hv as (Vp & Vs & Vc & Vi).
  assert (Hres : restored c (Z.land (m_i32SMRASize d0) 0x1ff) (pg_events p) (pg_data p, area_of p d) = (data, oob ++ drop (length oob) (n_smra (nvw d)))) by (rewrite <- Hdam; apply restored_damage).
  pose proof (dma_read_ok c fuel dma_addr t buf (ecc_size d) d2) as R; cbn zeta in R; rewrite Vp, Vs, Vc in R; change (m_i32SMRASize d2) with (m_i32SMRASize d0) in R; rewrite Hres in R; cbn [fst snd] in R.
  destruct R as (h3 & E3 & Hs3 & _); [done|done|done|done|change (writesize d2) with (writesize d1); by rewrite W1|done|change (ecc_corrected d2) with (ecc_corrected d1); by rewrite K1|change (ecc_failed d2) with (ecc_failed d1); by rewrite F1|done|lia|lia|].
  step_ok E3; rewrite bind_ok; set (d3 := with_stats _ _ _ _); unfold restore_oob; change (oob_poi d3) with (oob_poi d1); change (oobsize d3) with (oobsize d1); change (hw d3) with h3; rewrite P1, O1, view_smra, Hs3.
  assert (Hl : length (pg_oob p) = length oob) by (unfold zlen in *; lia); rewrite memcpy_start by (rewrite ?zlen_app, ?zlen_drop; unfold zlen in *; lia); rewrite !bind_ok, <- Hoob, zlen_to_nat, take_app_length.
  eexists; split; [reflexivity|]; split_and!; [cbn [oob_poi set]; by rewrite <- Hl, drop_app_length|cbn [ecc_corrected set]; unfold d3; cbn [ecc_corrected with_stats]; change (ecc_corrected d2) with (ecc_corrected d1); by rewrite K1|exact F1].
Qed.

(** C14: The reading loop ends, at the latest when the interrupt register was read as
    often as the chip and the fields with errors take: the errors of the fields
    before the first lost one are counted as corrected, a lost field is counted
    once as failed, and without one every byte is corrected. *)
Theorem nand_read_ends c fuel d : page_inv c d -> is_u32 (ecc_corrected d) -> is_u32 (ecc_failed d) -> (time_of (nvw d) < fuel)%nat ->
  let es := n_events (nvw d) in
  exists d', read_loop fuel d = Some d' /\ ecc_corrected d' = u32 (ecc_corrected d + good_count es) /\ ecc_failed d' = u32 (ecc_failed d + Z.b2z (any_lost es)) /\
    (any_lost es = false -> (dmabuf (hw d'), smra (hw d')) = restored c (Z.land (n_reactl (nvw d)) 0x1ff) es (dmabuf (hw d), smra (hw d))).
Proof.
  intros Hi Hc Hf Ht es; destruct (read_loop_ok c fuel d Hi Hc Hf Ht) as (d' & E & h & -> & R); exists (with_stats d (u32 (ecc_corrected d + good_count es)) (u32 (ecc_failed d + Z.b2z (any_lost es))) h); split; [exact E|].
  split; [done|]; split; [done|]; intros Hl; destruct (R Hl) as [Rb _]; cbn [hw with_stats]; rewrite !view_dmabuf, !view_smra; exact Rb.
Qed.

(** C36: With the code for 24 errors in 1024 bytes the controller reports up to 24 wrong
    bytes, but [fmiSM_CorrectData_BCH] has room for the masks of sixteen:
    from 16 errors on it reads a fifth register into [uaErrorData[4]], outside of
    the array. *)
Theorem nand_mask_overrun c idx cnt d : code_of (n_csr (nvw d)) = Some c -> 16 <= cnt -> fmiSM_CorrectData_BCH idx cnt d = None.
Proof.
  intros Hc Hn; unfold fmiSM_CorrectData_BCH; destruct (io_read_moved REG_SMCSR d ltac:(reg_ne)) as (d1 & -> & M1); pose proof (moved_view _ _ _ M1) as V1; rewrite read_csr; fold (nvw d).
  unfold code_of in Hc; destruct (bch_params _) as [[[f pad] par]|]; [|done]; destruct (io_read_moved REG_SMCSR d1 ltac:(reg_ne)) as (d2 & -> & _); rewrite read_csr; fold (nvw d1); rewrite V1.
  cbn [mbind option_bind] in Hc; destruct (page_bytes _) as [bytes|]; [|done]; destruct (Z.to_nat (Z.min 6 (cnt / 4 + 1))) as [|[|[|[|[|n]]]]] eqn:E; try (exfalso; Z.to_euclidean_division_equations; lia).
  cbn [read_errors]; unfold io_read; repeat (destruct (readl _ _) as [? ?]; cbn [wr mbind option_bind]); reflexivity.
Qed.

(** A page counts as written for [nuc970_nand_read_oob_hwecc] only if both of its
    markers are zero as they are read, while the page is read if one of them is:
    after an error in a marker the redundant area is given out without correction. *)
Theorem nand_read_oob_raw fuel dma_addr page d : page_fits page d -> (pg_busy (n_chip (nvw d) page) < fuel)%nat ->
  nz (default 0 (rd (pg_oob (n_chip (nvw d) page)) 2)) || nz (default 0 (rd (pg_oob (n_chip (nvw d) page)) 3)) = true ->
  exists d', nuc970_nand_read_oob_hwecc fuel dma_addr page d = Some d' /\
    oob_poi d' = pg_oob (n_chip (nvw d) page) ++ drop (length (pg_oob (n_chip (nvw d) page))) (oob_poi d).
Proof.
  intros Hfit Hf Hm; destruct Hfit as [Hi Hp Hws Hd Ho Hu H4 Hpoi Hsm Hec]; unfold nuc970_nand_read_oob_hwecc.
  destruct (read_oob_first_ok fuel page d Hws Hd Ho Hu Hp Hf Hpoi Hsm) as (h & addrs & E1 & V1); set (d1 := set hw (fun _ => h) _) in E1; assert (Hh : nvw d1 = nview h) by done; step_ok E1; rewrite !view_smra; fold (nvw d1); rewrite Hh, V1; cbn [n_smra set].
  rewrite !rd_marker, !bind_ok by (rewrite Ho; lia); unfold nz in Hm; rewrite <- negb_andb in Hm; apply negb_true_iff in Hm; rewrite Hm; by exists d1.
Qed.







(** The set-up takes errors for success: without the clock of the controller, or
    with a chip whose pages are not of 2048, 4096 or 8192 bytes, [nuc970_nand_probe]
    frees the device and returns zero. *)
Theorem nand_probe_lost (env : probe_env H) d : pe_kzalloc env = true -> pe_dma_alloc env = true -> pe_fmi_clk env = true -> pe_pinctrl env = 0 ->
  pe_nand_clk env = false \/ (fst (pe_ident env (nuc970_nand_initialize d)) = 0 /\ let ws := writesize (snd (pe_ident env (nuc970_nand_initialize d))) in ws <> 2048 /\ ws <> 4096 /\ ws <> 8192) ->
  nuc970_nand_probe env d = Some (0, None).
Proof.
  intros H1 H2 H3 H4 H5; unfold nuc970_nand_probe; rewrite H1, H2, H3; cbn [negb]; destruct (pe_nand_clk env); cbn [negb]; [|done].
  destruct H5 as [H5|[H5 H6]]; [done|]; destruct (pe_ident env (nuc970_nand_initialize d)) as [r d1]; cbn [fst snd] in *; subst r; cbn [nz Z.eqb negb]; rewrite H4.
  destruct H6 as (N1 & N2 & N3); apply Z.eqb_neq in N1, N2, N3; unfold set_page_size; by rewrite N1, N2, N3.
Qed.
End Props.

(** ** The rule for the code, which no other function uses *)
Definition code_fits (row : list Z) (room j : Z) : Prop := exists p, rd row j = Some p /\ 0 < p <= room.

Lemma choice_loop_spec row room n : (n <= length row)%nat -> exists r, choice_loop n row room = Some r /\ -1 <= r < Z.max 0 (Z.of_nat n) /\
  (0 <= r -> code_fits row room r) /\ forall j, r < j < Z.of_nat n -> ~ code_fits row room j.
Proof.
  induction n as [|n IH]; intros Hn; [exists (-1); split_and!; try done; lia|]; cbn [choice_loop]; destruct (rd_in row (Z.of_nat n)) as [p Hp]; [unfold zlen; lia|]; step_ok Hp.
  destruct ((0 <? p) && (p <=? room)) eqn:E; [apply andb_true_iff in E as [E1 E2]; zbool; exists (Z.of_nat n); split_and!; [done|lia|lia|exists p; split; [done|lia]|lia]|].
  destruct (IH ltac:(lia)) as (r & Hr & Hb & Hf & Hj); exists r; split_and!; [done|lia|lia|done|]; intros j Hlt; destruct (decide (j = Z.of_nat n)) as [->|]; [|apply Hj; lia].
  intros (q & Hq & Hq'); rewrite Hp in Hq; injection Hq as <-; apply andb_false_iff in E as [E|E]; zbool; lia.
Qed.

(** The last code of the table whose parity fits is chosen, or -1 if none does. *)
Theorem choice_last_fitting ps oob avail row : rd g_i32ParityNum ps = Some row ->
  exists r, nuc970_hwecc_choice_bch_algorithm ps oob avail = Some r /\ -1 <= r <= eBCH_T24 /\
    (0 <= r -> code_fits row (oob - avail - 4) r) /\ forall j, r < j <= eBCH_T24 -> ~ code_fits row (oob - avail - 4) j.
Proof.
  intros Hr; unfold nuc970_hwecc_choice_bch_algorithm; step_ok Hr; assert (Hl : length row = 5%nat) by (apply rd_Some in Hr as [_ Hr]; apply list_elem_of_lookup_2 in Hr; unfold g_i32ParityNum in Hr; set_unfold in Hr; destruct_or? Hr; by subst).
  destruct (choice_loop_spec row (oob - avail - 4) 5) as (r & E & Hb & Hf & Hj); [lia|]; exists r; split; [exact E|]; unfold eBCH_T24; split; [lia|]; split; [done|]; intros j Hjj; apply Hj; lia.
Qed.

(** ** Examples *)
Import RefCtl.

Definition data0 : list Z := replicate 2048 0x5A.
Definition oob0 : list Z := [0xFF; 0xFF; 0; 0] ++ replicate 60 0xAA.

(** Errors in the data and the parity of the second field, and in the fourth. *)
Definition events0 : list (ecc_event * nat) :=
  [(mk_event 2 [(5, 0x10); (540, 0x01)] false, 3%nat); (mk_event 4 [(100, 0x80)] false, O)].

Definition code0 : code := mk_code 512 32 8 4.
Definition page0 : stored :=
  let p := damage code0 64 events0 (data0, oob0) in mk_stored (fst p) (snd p) events0 2 1.

Definition view0 (p : stored) : nand_view := mk_nview 0x10000 0 O false [] (replicate 64 0) [] 0 [] 0 [] (fun _ => p).

Definition dev0 (p : stored) : nand nand_view :=
  mk_nand [] (mk_layout 32 28 4 28 0 64) 0 64 2048 64 (2 ^ 27) 17 32 2048 (mk_layout 32 28 4 28 0 64) (replicate 64 0) 0 0 (view0 p).

Definition all_u8 (l : list Z) : bool := forallb (fun b => (0 <=? b) && (b <? 256)) l.

Lemma all_u8_spec l : all_u8 l = true -> Forall is_u8 l.
Proof.
  intros Hl; apply Forall_forall; intros b Hb; unfold all_u8 in Hl; rewrite forallb_forall in Hl; specialize (Hl b (proj1 (list_elem_of_In _ _) Hb)); unfold is_u8; zbool; lia.
Qed.

Lemma fits0 p : zlen (pg_data p) = 2048 -> zlen (pg_oob p) = 64 -> all_u8 (pg_oob p) = true -> page_fits 7 (dev0 p).
Proof. intros H1 H2 H3; constructor; try done; unfold page_in; cbn -[zlen]; try lia; by apply all_u8_spec. Qed.

Ltac ev_ok := repeat match goal with
  | |- (fun _ => _) _ => cbn beta
  | |- Forall _ [] => apply Forall_nil
  | |- Forall _ (_ :: _) => apply Forall_cons; split
  | |- event_ok _ _ _ _ _ => unfold event_ok; cbn [fst e_lost e_field e_errs]
  | |- place_ok _ _ _ _ _ _ => vm_compute; split_and!; first [discriminate|reflexivity]
  | |- _ /\ _ => split
  | |- True => exact I
  | |- _ <= _ => vm_compute; discriminate
  | |- _ < _ => vm_compute; reflexivity
  end.

Lemma events0_ok : Forall (fun e => event_ok code0 64 2048 64 (fst e)) events0.
Proof. unfold events0; ev_ok. Qed.

Lemma page0_of : page_of code0 BCH_T4 7 data0 oob0 (dev0 page0).
Proof.
  constructor.
  - apply fits0; vm_compute; reflexivity.
  - vm_compute; discriminate.
  - vm_compute; reflexivity.
  - vm_compute; split; [discriminate|reflexivity].
  - split; [vm_compute; reflexivity|]; split; [split; apply all_u8_spec; vm_compute; reflexivity|]; split; [exact events0_ok|]; split; [vm_compute; discriminate|repeat constructor].
  - vm_compute; reflexivity.
  - vm_compute; reflexivity.
  - vm_compute; reflexivity.
Qed.

Lemma nand_read_page_witness : exists d', nuc970_nand_read_page_hwecc_oob_first 10 0 (replicate 2048 0) 7 (dev0 page0) = Some (data0, d') /\
  oob_poi d' = oob0 /\ ecc_corrected d' = 3 /\ ecc_failed d' = 0.
Proof.
  apply (nand_read_page code0 BCH_T4 9 0 (replicate 2048 0) 7 data0 oob0 (dev0 page0) page0_of); first [by vm_compute|cbn; lia|vm_compute; split; [discriminate|reflexivity]].
Defined.

(** The transfer has begun, and the last field is lost. *)
Definition lost0 : nand nand_view :=
  (dev0 page0) <| hw := mk_nview (read_csr_of BCH_T4 0x10000) 64 2 true (events0 ++ [(mk_event 4 [] true, O)]) (snd (damage code0 64 events0 (data0, oob0))) (fst (damage code0 64 events0 (data0, oob0))) 0 [] 7 [] (fun _ => page0) |>.

Lemma nand_read_ends_witness : exists d', read_loop 10 lost0 = Some d' /\ ecc_corrected d' = 3 /\ ecc_failed d' = 1.
Proof.
  destruct (nand_read_ends code0 10 lost0) as (d' & E & Hc & Hf & _).
  - split; [|split; [vm_compute; discriminate|repeat constructor]]; split; [reflexivity|]; split; [vm_compute; reflexivity|]; split; [split; apply all_u8_spec; vm_compute; reflexivity|].
    change (Forall (fun e => event_ok code0 64 2048 64 (fst e)) (events0 ++ [(mk_event 4 [] true, O)])); unfold events0; cbn [app]; ev_ok.
  - vm_compute; split; [discriminate|reflexivity].
  - vm_compute; split; [discriminate|reflexivity].
  - vm_compute; lia.
  - exists d'; split; [exact E|]; split; [exact Hc|exact Hf].
Defined.

Lemma nand_mask_overrun_witness : fmiSM_CorrectData_BCH 1 16 ((dev0 page0) <| hw := (view0 page0) <| n_csr := Z.lor 0x20000 BCH_T24 |> |>) = None.
Proof. apply (nand_mask_overrun (mk_code 1024 64 45 4)); [vm_compute; reflexivity|lia]. Defined.

(** The second marker of a page that was written has an error. *)
Definition page1 : stored :=
  let p := damage code0 64 [(mk_event 1 [(514, 0x08)] false, O)] (data0, oob0) in mk_stored (fst p) (snd p) [(mk_event 1 [(514, 0x08)] false, O)] 2 1.

Lemma nand_read_oob_raw_witness : exists d', nuc970_nand_read_oob_hwecc 10 0 7 (dev0 page1) = Some d' /\ oob_poi d' = pg_oob page1 /\ pg_oob page1 <> oob0 /\
  exists d2, nuc970_nand_read_page_hwecc_oob_first 10 0 (replicate 2048 0) 7 (dev0 page1) = Some (data0, d2) /\ oob_poi d2 = oob0.
Proof.
  destruct (nand_read_oob_raw 10 0 7 (dev0 page1)) as (d' & E & Ho); [apply fits0; vm_compute; reflexivity|vm_compute; lia|vm_compute; reflexivity|].
  exists d'; split; [exact E|]; split; [rewrite Ho; vm_compute; reflexivity|]; split; [vm_compute; discriminate|]; eexists; split; vm_compute; reflexivity.
Defined.


(** A chip with pages of 512 bytes. *)
Definition env512 : probe_env nand_view := mk_env true true true true 0 (fun d => (0, d <| writesize := 512 |>)) (fun _ d => (0, d)).

Lemma nand_probe_lost_witness : nuc970_nand_probe env512 (dev0 page0) = Some (0, None).
Proof. apply nand_probe_lost; [reflexivity..|]; right; split; [reflexivity|vm_compute; split_and!; discriminate]. Defined.
