(* ===== verification/Spi0.v ===== *)
(** The SPI master (src/drivers/spi/spi-nuc970-p0.c): the mode and speed of a
    device, the transfer of a buffer in bursts of up to four words, and the
    interrupt handler that goes on from burst to burst. The registers and what is
    behind them are the interface [SpiHw]. *)
From stdpp Require Import strings.
From S2P Require Import Prelude.

(** ** Registers and constants *)
Definition REG_CNTRL : Z := 0x00.
Definition REG_DIVIDER : Z := 0x04.
Definition REG_SSR : Z := 0x08.
Definition REG_RX0 : Z := 0x10.
Definition REG_TX0 : Z := 0x10.
Definition ENINT : Z := Z.shiftl 0x01 17.
Definition TXNUM : Z := Z.shiftl 0x03 8.
Definition TXNEG : Z := Z.shiftl 0x01 2.
Definition RXNEG : Z := Z.shiftl 0x01 1.
Definition LSB : Z := Z.shiftl 0x01 10.
Definition SELECTLEV : Z := Z.shiftl 0x01 2.
Definition SELECTPOL : Z := Z.shiftl 0x01 31.
Definition SELECTSLAVE0 : Z := 0x01.
Definition SELECTSLAVE1 : Z := 0x02.
Definition GOBUSY : Z := 0x01.

(** Modes and widths of the kernel's SPI layer. *)
Definition SPI_CPHA : Z := 0x01.
Definition SPI_CPOL : Z := 0x02.
Definition SPI_MODE_0 : Z := 0.
Definition SPI_MODE_2 : Z := SPI_CPOL.
Definition SPI_CS_HIGH : Z := 0x04.
Definition SPI_LSB_FIRST : Z := 0x08.
Definition SPI_DUAL_QUAD : Z := 0xF00.
Definition SPI_NBITS_DUAL : Z := 0x02.
Definition SPI_NBITS_QUAD : Z := 0x04.
Definition BITBANG_CS_ACTIVE : Z := 1.
Definition BITBANG_CS_INACTIVE : Z := 0.

(** ** Data *)

(** [struct nuc970_spi_info]: what is set up for the current device. *)
Record spi_info := mk_info {
  i_lsb : Z; i_txneg : Z; i_rxneg : Z; i_divider : Z; i_sleep : Z; i_txnum : Z; i_txbitlen : Z; i_clkpol : Z; i_hz : Z;
}.
#[export] Instance eta_info : Eta spi_info := fun i =>
  mk_info (i_lsb i) (i_txneg i) (i_rxneg i) (i_divider i) (i_sleep i) (i_txnum i) (i_txbitlen i) (i_clkpol i) (i_hz i).

(** [struct spi_device] and [struct spi_transfer]; a buffer is [None] for a null
    pointer. *)
Record spi_device := mk_spidev { sd_mode : Z; sd_chip_select : Z; sd_bits_per_word : Z; sd_max_speed_hz : Z }.
Record spi_transfer := mk_xfer {
  t_tx_buf : option (list Z); t_rx_buf : option (list Z); t_len : Z; t_tx_nbits : Z; t_rx_nbits : Z; t_bits_per_word : Z; t_speed_hz : Z;
}.

(** The registers, the interrupt line, time that passes, and the clock. *)
Class SpiHw (H : Type) := {
  reg_read : Z -> H -> Z * H;
  reg_write : Z -> Z -> H -> H;
  irq_line : H -> bool;
  tick : H -> H;
  clk_rate : H -> Z;
}.

(** [struct nuc970_spi]; [s_done] is the completion. *)
Record nuc970_spi (H : Type) := mk_spi {
  s_done : bool; s_len : Z; s_count : Z; s_tx : option (list Z); s_rx : option (list Z); s_pdata : spi_info; s_busy : bool; s_hw : H;
}.
Arguments mk_spi {H}.
Arguments s_done {H}.
Arguments s_len {H}.
Arguments s_count {H}.
Arguments s_tx {H}.
Arguments s_rx {H}.
Arguments s_pdata {H}.
Arguments s_busy {H}.
Arguments s_hw {H}.
#[export] Instance eta_spi H : Eta (nuc970_spi H) := fun s =>
  mk_spi (s_done s) (s_len s) (s_count s) (s_tx s) (s_rx s) (s_pdata s) (s_busy s) (s_hw s).

Section Spi0.
  Context {H : Type} `{!SpiHw H}.
  Implicit Types s : nuc970_spi H.

(** ** Registers *)
Definition sreg_read (a : Z) s : Z * nuc970_spi H := let '(v, h) := reg_read a (s_hw s) in (v, s <| s_hw := h |>).
Definition sreg_write (v a : Z) s : nuc970_spi H := s <| s_hw := reg_write (u32 v) a (s_hw s) |>.
Definition sreg_update (a : Z) (f : Z -> Z) s : nuc970_spi H := let '(v, s) := sreg_read a s in sreg_write (f v) a s.

(** Bits of the control register: set or cleared. *)
Definition put_bits (on : bool) (m v : Z) : Z := if on then Z.lor v m else Z.land v (Z.lnot m).

Definition nuc970_slave_select (spi : spi_device) (ssr : Z) s : nuc970_spi H :=
  sreg_update REG_SSR (fun v =>
    let v := put_bits (nz (Z.land (sd_mode spi) SPI_CS_HIGH)) SELECTLEV v in
    if sd_chip_select spi =? 0 then put_bits (nz ssr) SELECTSLAVE0 v else put_bits (nz ssr) SELECTSLAVE1 v) s.

Definition nuc970_spi0_chipsel (spi : spi_device) (value : Z) s : nuc970_spi H :=
  if value =? BITBANG_CS_INACTIVE then nuc970_slave_select spi 0 s
  else if value =? BITBANG_CS_ACTIVE then nuc970_slave_select spi 1 s else s.

Definition nuc970_spi0_setup_txnum (txnum : Z) s : nuc970_spi H :=
  sreg_update REG_CNTRL (fun v => let v := Z.land v (Z.lnot TXNUM) in if nz txnum then Z.lor v (u32 (Z.shiftl txnum 0x08)) else v) s.

Definition nuc970_spi0_setup_txbitlen (txbitlen : Z) s : nuc970_spi H :=
  sreg_update REG_CNTRL (fun v => let v := Z.land v (Z.lnot 0xf8) in if negb (txbitlen =? 32) then Z.lor v (u32 (Z.shiftl txbitlen 3)) else v) s.

Definition nuc970_spi0_gobusy s : nuc970_spi H := sreg_update REG_CNTRL (fun v => Z.lor v GOBUSY) s.

Definition nuc970_set_clock_polarity (polarity : Z) s : nuc970_spi H := sreg_update REG_CNTRL (put_bits (nz polarity) SELECTPOL) s.
Definition nuc970_tx_edge (edge : Z) s : nuc970_spi H := sreg_update REG_CNTRL (put_bits (nz edge) TXNEG) s.
Definition nuc970_rx_edge (edge : Z) s : nuc970_spi H := sreg_update REG_CNTRL (put_bits (nz edge) RXNEG) s.
Definition nuc970_send_first (lsb : Z) s : nuc970_spi H := sreg_update REG_CNTRL (put_bits (nz lsb) LSB) s.
Definition nuc970_set_sleep (sleep : Z) s : nuc970_spi H :=
  sreg_update REG_CNTRL (fun v => if nz sleep then Z.lor v (u32 (Z.shiftl sleep 12)) else Z.land v (Z.lnot (Z.shiftl 0x0f 12))) s.
Definition nuc970_enable_int s : nuc970_spi H := sreg_update REG_CNTRL (fun v => Z.lor v ENINT) s.
Definition nuc970_set_divider s : nuc970_spi H := sreg_write (i_divider (s_pdata s)) REG_DIVIDER s.

(** ** Words of the buffers, of one, two or four bytes in the order of memory *)
Definition word_bytes (bwp : Z) : Z := if bwp <=? 8 then 1 else if bwp <=? 16 then 2 else 4.

Definition word_of (l : list Z) : Z := fold_right (fun b v => b + 256 * v) 0 l.

Fixpoint bytes_of_word (n : nat) (v : Z) : list Z := match n with O => [] | S n => v mod 256 :: bytes_of_word n (v / 256) end.

Definition hw_tx (count : Z) s : option Z :=
  let n := word_bytes (i_txbitlen (s_pdata s)) in
  match s_tx s with
  | Some l => b ← rdn l (n * count) n; Some (word_of b)
  | None => Some 0xffffffff
  end.

Definition hw_rx (data count : Z) s : option (nuc970_spi H) :=
  let n := word_bytes (i_txbitlen (s_pdata s)) in
  l ← s_rx s;
  l ← wrn l (n * count) (bytes_of_word (Z.to_nat n) data);
  Some (s <| s_rx := Some l |>).

(** ** Transfer *)

(** The words [count], [count + 1], ... into the registers from [offset] on. *)
Fixpoint tx_burst (n : nat) (count offset : Z) s : option (nuc970_spi H) :=
  match n with
  | O => Some s
  | S n =>
      w ← hw_tx count s;
      tx_burst n (u32 (count + 1)) (offset + 4) (sreg_write w (REG_TX0 + offset) s)
  end.

Fixpoint rx_burst (n : nat) (count offset : Z) s : option (nuc970_spi H) :=
  match n with
  | O => Some s
  | S n =>
      let '(w, s) := sreg_read (REG_RX0 + offset) s in
      s ← hw_rx w count s;
      rx_burst n (u32 (count + 1)) (offset + 4) s
  end.

(** The number of words of a burst. *)
Definition burst s : Z := u32 (i_txnum (s_pdata s) + 1).

Definition set_txnum (txnum : Z) s : nuc970_spi H :=
  let s := nuc970_spi0_setup_txnum txnum s in s <| s_pdata := (s_pdata s) <| i_txnum := txnum |> |>.

Definition nuc970_spi0_irq s : option (nuc970_spi H) :=
  let count := s_count s in
  let s := s <| s_count := u32 (s_count s + burst s) |> in
  s ← match s_rx s with Some _ => rx_burst (Z.to_nat (burst s)) count 0 s | None => Some s end;
  let count := s_count s in
  let last := u32 (s_len s - count) in
  s ← (if 0 <? last then
         let s := if last <=? 4 then set_txnum (last - 1) s else s in
         s ← tx_burst (Z.to_nat (burst s)) count 0 s;
         Some (nuc970_spi0_gobusy s)
       else Some (s <| s_done := true |>));
  let '(status, s) := sreg_read REG_CNTRL s in
  Some (sreg_write status REG_CNTRL s).

(** [wait_for_completion], while interrupts come in; [fuel] steps of time. *)
Fixpoint wait_xfer (fuel : nat) s : option (nuc970_spi H) :=
  if s_done s then Some (s <| s_done := false |>)
  else
    match fuel with
    | O => None
    | S fuel => if irq_line (s_hw s) then s ← nuc970_spi0_irq s; wait_xfer fuel s else wait_xfer fuel (s <| s_hw := tick (s_hw s) |>)
    end.

(** Two or four data lines. *)
Definition set_lines (t : spi_transfer) s : nuc970_spi H :=
  let s := if nz (Z.land (t_tx_nbits t) SPI_NBITS_DUAL) then sreg_update REG_CNTRL (fun v => Z.lor v (Z.shiftl 0x5 20)) s
           else if nz (Z.land (t_tx_nbits t) SPI_NBITS_QUAD) then sreg_update REG_CNTRL (fun v => Z.lor v (Z.shiftl 0x3 20)) s else s in
  if nz (Z.land (t_rx_nbits t) SPI_NBITS_DUAL) then sreg_update REG_CNTRL (fun v => Z.lor v (Z.shiftl 0x4 20)) s
  else if nz (Z.land (t_rx_nbits t) SPI_NBITS_QUAD) then sreg_update REG_CNTRL (fun v => Z.lor v (Z.shiftl 0x2 20)) s else s.

Definition nuc970_spi0_txrx (fuel : nat) (spi : spi_device) (t : spi_transfer) s : option (Z * nuc970_spi H) :=
  let s := s <| s_tx := t_tx_buf t |> <| s_rx := t_rx_buf t |> <| s_len := t_len t |> <| s_count := 0 |> in
  let s := set_lines t s in
  let s := if 4 <=? s_len s then set_txnum 3 s else set_txnum (u32 (s_len s - 1)) s in
  s ← tx_burst (Z.to_nat (burst s)) 0 0 s;
  s ← wait_xfer fuel (nuc970_spi0_gobusy s);
  let s := if nz (Z.land (sd_mode spi) SPI_DUAL_QUAD) then sreg_update REG_CNTRL (fun v => Z.land v (Z.lnot (Z.shiftl 0x7 20))) s else s in
  Some (s_count s, s).

(** ** Mode and speed *)

(** [DIV_ROUND_UP(clk, hz * 2) - 1]; a division by zero has no result. *)
Definition divider_of (clk hz : Z) : option Z :=
  let h2 := u32 (hz * 2) in if h2 =? 0 then None else Some (u32 (u32 (clk + h2 - 1) / h2 - 1)).

Definition nuc970_spi0_update_state (spi : spi_device) (t : option spi_transfer) s : option (nuc970_spi H) :=
  let '(bpw, hz) := match t with Some t => (t_bits_per_word t, t_speed_hz t) | None => (sd_bits_per_word spi, sd_max_speed_hz spi) end in
  let p := (s_pdata s) <| i_txbitlen := bpw |> in
  p ← (if negb (i_hz p =? hz) then div ← divider_of (clk_rate (s_hw s)) hz; Some (p <| i_hz := hz |> <| i_divider := div |>) else Some p);
  let p := p <| i_clkpol := if nz (Z.land (sd_mode spi) SPI_CPOL) then 1 else 0 |> in
  let spimode := u8 (Z.land (sd_mode spi) 0xff) in
  let p := if (spimode =? SPI_MODE_0) || (spimode =? SPI_MODE_2) then p <| i_txneg := 1 |> <| i_rxneg := 0 |> else p <| i_txneg := 0 |> <| i_rxneg := 1 |> in
  Some (s <| s_pdata := p <| i_lsb := if nz (Z.land (sd_mode spi) SPI_LSB_FIRST) then 1 else 0 |> |>).

Definition nuc970_spi0_setupxfer (spi : spi_device) (t : option spi_transfer) s : option (nuc970_spi H) :=
  s ← nuc970_spi0_update_state spi t s;
  let p := s_pdata s in
  Some (nuc970_send_first (i_lsb p) (nuc970_set_clock_polarity (i_clkpol p) (nuc970_rx_edge (i_rxneg p) (nuc970_tx_edge (i_txneg p)
    (nuc970_spi0_setup_txbitlen (i_txbitlen p) s))))).

Definition nuc970_spi0_setup (spi : spi_device) s : option (nuc970_spi H) :=
  s ← nuc970_spi0_update_state spi None s;
  Some (if negb (s_busy s) then nuc970_slave_select spi 0 (nuc970_set_divider s) else s).

Definition nuc970_init_spi s : nuc970_spi H :=
  let p := s_pdata s in
  nuc970_enable_int (nuc970_set_divider (nuc970_set_clock_polarity (i_clkpol p) (nuc970_spi0_setup_txnum (i_txnum p)
    (nuc970_spi0_setup_txbitlen (i_txbitlen p) (nuc970_set_sleep (i_sleep p) (nuc970_send_first (i_lsb p)
    (nuc970_rx_edge (i_rxneg p) (nuc970_tx_edge (i_txneg p) s)))))))).

(** ** Device tree *)

(** A property, or what is set without it. *)
Definition of_u32 (of_property_read_u32 : string -> option Z) (name : string) (dflt : Z) : Z := default dflt (of_property_read_u32 name).

(** [num_cs], [bus_num] and the set-up; the edge of transmission is read twice. *)
Definition nuc970_spi0_parse_dt (of_property_read_u32 : string -> option Z) : Z * Z * spi_info :=
  let get := of_u32 of_property_read_u32 in
  let sci := mk_info 0 0 0 0 0 0 0 0 0 in
  let num_cs := get "num_cs" 2 in
  let sci := sci <| i_lsb := get "lsb" 0 |> in
  let sci := sci <| i_txneg := get "txneg" 1 |> in
  let sci := sci <| i_txneg := get "txneg" 0 |> in
  let sci := sci <| i_rxneg := get "rxneg" 1 |> in
  let sci := sci <| i_divider := get "divider" 4 |> in
  let sci := sci <| i_sleep := get "sleep" 0 |> in
  let sci := sci <| i_txnum := get "txnum" 0 |> in
  let sci := sci <| i_txbitlen := get "txbitlen" 8 |> in
  (num_cs, get "bus_num" 0, sci).

(** ** Power *)
Fixpoint nuc970_spi0_suspend (fuel : nat) s : option (nuc970_spi H) :=
  match fuel with
  | O => None
  | S fuel =>
      let '(v, s) := sreg_read REG_CNTRL s in
      if nz (Z.land v 0x1) then nuc970_spi0_suspend fuel s
      else Some (sreg_update REG_CNTRL (fun v => Z.land v (Z.lnot 0x20000)) s)
  end.

Definition nuc970_spi0_resume s : nuc970_spi H := sreg_update REG_CNTRL (fun v => Z.lor v 0x20000) s.
End Spi0.
