(* ===== verification/Spi0Spec.v ===== *)
(** What the SPI controller promises, and a transfer over it: bursts that take
    their time, a slave that answers every word, and an interrupt at the end of
    each burst. *)
From S2P Require Import Prelude Spi0.

(** ** The controller *)

(** What the driver sees: the control register without its flags, the flag of the
    interrupt, the time until the end of a burst, the words to send and received,
    divider and slave select; the words that the slave has heard, its answer to
    each, and the time that each burst takes. *)
Record spi_view := mk_sview {
  w_cntrl : Z; w_flag : bool; w_left : option nat; w_tx : list Z; w_rx : list Z; w_div : Z; w_ssr : Z;
  w_sent : list Z; w_reply : list Z -> Z; w_bursts : nat; w_delay : nat -> nat;
}.
#[export] Instance eta_sview : Eta spi_view := fun v =>
  mk_sview (w_cntrl v) (w_flag v) (w_left v) (w_tx v) (w_rx v) (w_div v) (w_ssr v) (w_sent v) (w_reply v) (w_bursts v) (w_delay v).

Definition ENFLG : Z := Z.shiftl 0x01 16.

(** Words per burst and bits per word. *)
Definition burst_of (cntrl : Z) : Z := Z.land (Z.shiftr cntrl 8) 0x3 + 1.
Definition bits_of (cntrl : Z) : Z := let n := Z.land (Z.shiftr cntrl 3) 0x1f in if n =? 0 then 32 else n.

(** Words go out and the answers come in. *)
Fixpoint exchange (reply : list Z -> Z) (bits : Z) (ws sent : list Z) : list Z * list Z :=
  match ws with
  | [] => (sent, [])
  | w :: ws => let '(sent', rs) := exchange reply bits ws (sent ++ [w mod 2 ^ bits]) in (sent', reply sent mod 2 ^ bits :: rs)
  end.

Definition finish (v : spi_view) : spi_view :=
  let n := Z.to_nat (burst_of (w_cntrl v)) in
  let '(sent, rs) := exchange (w_reply v) (bits_of (w_cntrl v)) (take n (w_tx v)) (w_sent v) in
  v <| w_flag := true |> <| w_left := None |> <| w_sent := sent |> <| w_rx := rs ++ drop n (w_rx v) |>.

(** Time passes. *)
Definition adv (v : spi_view) : spi_view :=
  match w_left v with None => v | Some O => finish v | Some (S n) => v <| w_left := Some n |> end.

Definition cntrl_value (v : spi_view) : Z :=
  Z.lor (w_cntrl v) (Z.lor (if w_flag v then ENFLG else 0) (if w_left v then GOBUSY else 0)).

(** Writing the control register: a set flag bit clears the flag, the other begins
    a burst. *)
Definition write_cntrl (x : Z) (v : spi_view) : spi_view :=
  let v := v <| w_cntrl := Z.land x (Z.lnot (Z.lor ENFLG GOBUSY)) |> <| w_flag := w_flag v && negb (Z.testbit x 16) |> in
  match w_left v with
  | None => if Z.testbit x 0 then v <| w_left := Some (w_delay v (w_bursts v)) |> <| w_bursts := S (w_bursts v) |> else v
  | Some _ => v
  end.

(** An access takes its time first. *)
Class SpiLaws (H : Type) `{!SpiHw H} := {
  sview : H -> spi_view;
  sview_regs h : length (w_tx (sview h)) = 4%nat /\ length (w_rx (sview h)) = 4%nat;
  sview_flags h : Z.land (w_cntrl (sview h)) (Z.lor ENFLG GOBUSY) = 0;
  sview_word h : 0 <= w_cntrl (sview h) < 4294967296;
  sview_read a h : sview (snd (reg_read a h)) = adv (sview h);
  sview_read_cntrl h : fst (reg_read REG_CNTRL h) = cntrl_value (adv (sview h));
  sview_read_rx k h : 0 <= k < 4 -> Some (fst (reg_read (REG_RX0 + k * 4) h)) = rd (w_rx (adv (sview h))) k;
  sview_read_ssr h : fst (reg_read REG_SSR h) = w_ssr (adv (sview h));
  sview_write_cntrl x h : 0 <= x < 4294967296 -> sview (reg_write x REG_CNTRL h) = write_cntrl x (adv (sview h));
  sview_write_tx k x h : 0 <= k < 4 -> sview (reg_write x (REG_TX0 + k * 4) h) = (adv (sview h)) <| w_tx := <[Z.to_nat k := x]> (w_tx (adv (sview h))) |>;
  sview_write_div x h : sview (reg_write x REG_DIVIDER h) = (adv (sview h)) <| w_div := x |>;
  sview_irq h : irq_line h = w_flag (sview h) && nz (Z.land (w_cntrl (sview h)) ENINT);
  sview_tick h : sview (tick h) = adv (sview h);
  sview_write_ssr x h : sview (reg_write x REG_SSR h) = (adv (sview h)) <| w_ssr := x |>;
}.

(** ** Bits of the control register *)
Definition cfg (A B c : Z) : Z := Z.land (u32 (Z.lor (Z.land c A) B)) (Z.lnot (Z.lor ENFLG GOBUSY)).

Lemma u32_mask x : u32 x = Z.land x 0xFFFFFFFF.
Proof. change 0xFFFFFFFF with (Z.ones 32); by rewrite Z.land_ones by lia. Qed.

Lemma cfg_land A B c M A' B' : Z.land A (Z.land 0xFFFEFFFE M) = A' -> Z.land B (Z.land 0xFFFEFFFE M) = B' -> Z.land (cfg A B c) M = Z.lor (Z.land c A') B'.
Proof.
  intros <- <-; unfold cfg; rewrite u32_mask, <- !(Z.land_assoc _ _ M), <- (Z.land_assoc _ 0xFFFFFFFF), Z.land_lor_distr_l, <- !Z.land_assoc.
  by rewrite (Z.land_assoc 0xFFFFFFFF).
Qed.

(** The flags do not change what is written of the rest. *)
Lemma cfg_flags A B c fl : Z.land fl (Z.lnot (Z.lor ENFLG GOBUSY)) = 0 -> Z.land (u32 (Z.lor (Z.land (Z.lor c fl) A) B)) (Z.lnot (Z.lor ENFLG GOBUSY)) = cfg A B c.
Proof.
  intros Hf; unfold cfg; rewrite !u32_mask; set (M := Z.lnot (Z.lor ENFLG GOBUSY)) in *; apply Z.bits_inj'; intros k Hk; assert (Hb : Z.testbit (Z.land fl M) k = false) by (rewrite Hf; apply Z.bits_0).
  rewrite !Z.land_spec, !Z.lor_spec, !Z.land_spec, Z.lor_spec; rewrite Z.land_spec in Hb; by destruct (Z.testbit c k), (Z.testbit fl k), (Z.testbit A k), (Z.testbit B k), (Z.testbit 0xFFFFFFFF k), (Z.testbit M k).
Qed.

Lemma bits_of_land c : bits_of c = let n := Z.shiftr (Z.land c 0xf8) 3 in if n =? 0 then 32 else n.
Proof. unfold bits_of; by rewrite Z.shiftr_land. Qed.

Lemma burst_of_land c : burst_of c = Z.shiftr (Z.land c 0x300) 8 + 1.
Proof. unfold burst_of; by rewrite Z.shiftr_land. Qed.

(** ** Words *)
Lemma exchange_app reply bits a : forall b sent, exchange reply bits (a ++ b) sent =
  let '(s1, r1) := exchange reply bits a sent in let '(s2, r2) := exchange reply bits b s1 in (s2, r1 ++ r2).
Proof.
  induction a as [|w a IH]; intros b sent; cbn [app exchange]; [by destruct (exchange reply bits b sent)|].
  rewrite IH; destruct (exchange reply bits a _) as [s1 r1]; by destruct (exchange reply bits b s1).
Qed.

Lemma exchange_len reply bits ws : forall sent, length (snd (exchange reply bits ws sent)) = length ws.
Proof. induction ws as [|w ws IH]; intros sent; cbn [exchange]; [done|]; specialize (IH (sent ++ [w mod 2 ^ bits])); destruct (exchange reply bits ws _); cbn in *; lia. Qed.

Section Laws.
  Context {H : Type} `{!SpiHw H, !SpiLaws H}.
  Implicit Types s : nuc970_spi H.

Definition svw s : spi_view := sview (s_hw s).

(** Only the hardware moves, to the view [v]. *)
Definition smoved s (v : spi_view) s' : Prop := exists h, s' = s <| s_hw := h |> /\ sview h = v.

Lemma smoved_trans s v s' w s'' : smoved s v s' -> smoved s' w s'' -> smoved s w s''.
Proof. intros (h & -> & _) (k & -> & Hk); by exists k. Qed.

Lemma smoved_view s v s' : smoved s v s' -> svw s' = v.
Proof. by intros (h & -> & Hv). Qed.

Lemma sreg_read_moved a s : exists s', sreg_read a s = (fst (reg_read a (s_hw s)), s') /\ smoved s (adv (svw s)) s'.
Proof. unfold sreg_read, svw; pose proof (sview_read a (s_hw s)) as Hv; destruct (reg_read a (s_hw s)) as [v h]; eexists; split; [done|]; by exists h. Qed.

Lemma adv_idle v : w_left v = None -> adv v = v.
Proof. unfold adv; by intros ->. Qed.

(** The control register is read and written. *)
Lemma update_cntrl f s : w_left (svw s) = None -> smoved s (write_cntrl (u32 (f (cntrl_value (svw s)))) (svw s)) (sreg_update REG_CNTRL f s).
Proof.
  intros Hi; unfold sreg_update; destruct (sreg_read_moved REG_CNTRL s) as (s1 & -> & M); rewrite adv_idle in M by done; refine (smoved_trans _ _ _ _ _ M _).
  pose proof (smoved_view _ _ _ M) as V; rewrite sview_read_cntrl; fold (svw s); rewrite adv_idle by done; eexists; split; [done|]; rewrite sview_write_cntrl by apply u32_range; fold (svw s1); by rewrite V, adv_idle.
Qed.

Lemma bit_of_zero x m k : 0 <= k -> Z.land x m = 0 -> Z.testbit m k = true -> Z.testbit x k = false.
Proof. intros Hk Hx Hm; assert (Hb : Z.testbit (Z.land x m) k = false) by (rewrite Hx; apply Z.bits_0); rewrite Z.land_spec, Hm, andb_true_r in Hb; done. Qed.

Lemma cntrl_value_bits v : Z.land (w_cntrl v) (Z.lor ENFLG GOBUSY) = 0 -> w_left v = None ->
  Z.testbit (cntrl_value v) 16 = w_flag v /\ Z.testbit (cntrl_value v) 0 = false.
Proof.
  intros Hz Hi; unfold cntrl_value; rewrite Hi, !Z.lor_spec, (bit_of_zero _ _ 16 ltac:(lia) Hz eq_refl), (bit_of_zero _ _ 0 ltac:(lia) Hz eq_refl); by destruct (w_flag v).
Qed.

(** A change of the set-up also clears the flag of the interrupt. *)
Lemma update_cfg f A B s : w_left (svw s) = None -> (forall v, f v = Z.lor (Z.land v A) B) -> Z.testbit A 16 = true -> Z.testbit B 16 = false -> Z.testbit B 0 = false ->
  smoved s ((svw s) <| w_cntrl := cfg A B (w_cntrl (svw s)) |> <| w_flag := false |>) (sreg_update REG_CNTRL f s).
Proof.
  intros Hi Hf HA HB HB0; pose proof (update_cntrl f s Hi) as M; rewrite Hf in M; destruct (cntrl_value_bits (svw s) (sview_flags (s_hw s)) Hi) as [F16 F0].
  unfold write_cntrl in M; cbn [w_left set] in M; rewrite Hi in M; rewrite !testbit_u32, !Z.lor_spec, !Z.land_spec, F16, F0, HA, HB, HB0 in M by lia; cbn [andb orb] in M.
  assert (Hfl : w_flag (svw s) && negb (w_flag (svw s) && true || false) = false) by (by destruct (w_flag (svw s))); rewrite Hfl in M.
  unfold cntrl_value in M; rewrite Hi in M; rewrite cfg_flags in M by (by destruct (w_flag (svw s))); destruct M as (h & E & Hv); exists h; split; [exact E|]; rewrite Hv; destruct (svw s); cbn in Hi; by subst.
Qed.

(** The set-up is kept whatever flags are written. *)
Lemma cfg_id c fl : 0 <= c < 4294967296 -> Z.land c (Z.lor ENFLG GOBUSY) = 0 -> Z.land fl (Z.lnot (Z.lor ENFLG GOBUSY)) = 0 ->
  Z.land (u32 (Z.lor c fl)) (Z.lnot (Z.lor ENFLG GOBUSY)) = c.
Proof.
  intros Hw Hz Hf; set (M := Z.lor ENFLG GOBUSY) in *; rewrite u32_mask; apply Z.bits_inj'; intros k Hk.
  assert (H1 : Z.testbit (Z.land c M) k = false) by (rewrite Hz; apply Z.bits_0); assert (H2 : Z.testbit (Z.land fl (Z.lnot M)) k = false) by (rewrite Hf; apply Z.bits_0).
  assert (H3 : Z.testbit c k && Z.testbit 0xFFFFFFFF k = Z.testbit c k) by (rewrite <- Z.land_spec, <- u32_mask, u32_id by done; done).
  rewrite !Z.land_spec, !Z.lor_spec, !Z.lnot_spec in * by lia; by destruct (Z.testbit c k), (Z.testbit fl k), (Z.testbit M k), (Z.testbit 0xFFFFFFFF k).
Qed.

(** A burst begins. *)
Lemma gobusy_moved s : w_left (svw s) = None ->
  smoved s ((svw s) <| w_flag := false |> <| w_left := Some (w_delay (svw s) (w_bursts (svw s))) |> <| w_bursts := S (w_bursts (svw s)) |>) (nuc970_spi0_gobusy s).
Proof.
  intros Hi; unfold nuc970_spi0_gobusy; pose proof (update_cntrl (fun v => Z.lor v GOBUSY) s Hi) as M; destruct (cntrl_value_bits (svw s) (sview_flags (s_hw s)) Hi) as [F16 F0].
  unfold write_cntrl in M; cbn [w_left set] in M; rewrite Hi in M; rewrite !testbit_u32, !Z.lor_spec, F16, F0 in M by lia; change (Z.testbit GOBUSY 16) with false in M; change (Z.testbit GOBUSY 0) with true in M; cbn [orb] in M; rewrite orb_false_r in M.
  assert (Hfl : w_flag (svw s) && negb (w_flag (svw s)) = false) by (by destruct (w_flag (svw s))); rewrite Hfl in M.
  assert (Hc : Z.land (u32 (Z.lor (cntrl_value (svw s)) GOBUSY)) (Z.lnot (Z.lor ENFLG GOBUSY)) = w_cntrl (svw s)).
  { unfold cntrl_value; rewrite Hi, <- Z.lor_assoc; apply cfg_id; [apply sview_word|apply sview_flags|by destruct (w_flag (svw s))]. }
  rewrite Hc in M; cbn [w_delay w_bursts set] in M; destruct M as (h & E & Hv); exists h; split; [exact E|]; rewrite Hv; destruct (svw s); cbn in Hi; by subst.
Qed.

(** ** Bursts *)
Lemma take_insert_next {A} (l : list A) k w : (k < length l)%nat -> take (S k) (<[k := w]> l) = take k l ++ [w].
Proof. intros Hk; rewrite (take_S_r _ _ w), take_insert_ge by (rewrite ?list_lookup_insert_eq by done; first [done|lia]); done. Qed.

Lemma write_tx_moved k w s : w_left (svw s) = None -> 0 <= k < 4 -> is_u32 w ->
  smoved s ((svw s) <| w_tx := <[Z.to_nat k := w]> (w_tx (svw s)) |>) (sreg_write w (REG_TX0 + k * 4) s).
Proof.
  intros Hi Hk Hw; eexists; split; [done|]; rewrite (u32_id w Hw), sview_write_tx by done; fold (svw s); by rewrite adv_idle.
Qed.

Lemma tx_burst_moved ws : forall k c s, w_left (svw s) = None -> 0 <= k -> k + zlen ws <= 4 -> 0 <= c -> c + zlen ws < 4294967296 ->
  (forall i w, ws !! i = Some w -> hw_tx (c + Z.of_nat i) s = Some w /\ is_u32 w) ->
  exists s', tx_burst (length ws) c (k * 4) s = Some s' /\
    smoved s ((svw s) <| w_tx := take (Z.to_nat k) (w_tx (svw s)) ++ ws ++ drop (Z.to_nat k + length ws) (w_tx (svw s)) |>) s'.
Proof.
  induction ws as [|w ws IH]; intros k c s Hi Hk Hk4 Hc Hc2 Hw; zlen_simpl; cbn [length tx_burst].
  - exists s; split; [done|]; exists (s_hw s); split; [by destruct s|]; fold (svw s); rewrite Nat.add_0_r; cbn [app]; rewrite take_drop; by destruct (svw s).
  - destruct (Hw 0%nat w eq_refl) as [E Hu]; rewrite Z.add_0_r in E; step_ok E; pose proof (zlen_nonneg ws); pose proof (write_tx_moved k w s Hi ltac:(lia) Hu) as M; set (s1 := sreg_write w _ s) in *; pose proof (smoved_view _ _ _ M) as V.
    rewrite (u32_id (c + 1)) by lia; replace (k * 4 + 4) with ((k + 1) * 4) by lia.
    destruct (IH (k + 1) (c + 1) s1) as (s' & E' & M'); [rewrite V; exact Hi|lia|lia|lia|lia| |].
    { intros i x Hx; destruct (Hw (S i) x Hx) as [Hx1 Hx2]; split; [|done]; replace (c + 1 + Z.of_nat i) with (c + Z.of_nat (S i)) by lia; exact Hx1. }
    exists s'; split; [done|]; rewrite V in M'; cbn [w_tx set] in M'; destruct (sview_regs (s_hw s)) as [Ht _]; fold (svw s) in Ht.
    replace (Z.to_nat (k + 1)) with (S (Z.to_nat k)) in M' by lia; rewrite take_insert_next in M' by lia; rewrite drop_insert_lt in M' by lia; rewrite <- app_assoc in M'; replace (Z.to_nat k + S (length ws))%nat with (S (Z.to_nat k) + length ws)%nat by lia.
    refine (smoved_trans _ _ _ _ _ M _); destruct M' as (h & -> & Hh); exists h; split; [done|]; rewrite Hh; by destruct (svw s).
Qed.

Lemma bytes_of_word_len n : forall v, length (bytes_of_word n v) = n.
Proof. induction n as [|n IH]; intros v; cbn; [done|by rewrite IH]. Qed.

Definition word_list (m : Z) (rs : list Z) : list Z := concat (map (bytes_of_word (Z.to_nat m)) rs).

Lemma word_list_len m rs : 0 <= m -> zlen (word_list m rs) = m * zlen rs.
Proof. intros Hm; unfold word_list; induction rs as [|r rs IH]; [unfold zlen; cbn; lia|]; cbn [map concat]; rewrite zlen_app, IH, zlen_cons; unfold zlen at 1; rewrite bytes_of_word_len; lia. Qed.

Lemma word_bytes_pos b : 1 <= word_bytes b <= 4.
Proof. unfold word_bytes; destruct (b <=? 8), (b <=? 16); lia. Qed.

Lemma rx_burst_moved rs : forall k c p suf s, let m := word_bytes (i_txbitlen (s_pdata s)) in
  w_left (svw s) = None -> s_rx s = Some (p ++ suf) -> zlen p = m * c -> m * zlen rs <= zlen suf -> 0 <= k -> k + zlen rs <= 4 -> 0 <= c -> c + zlen rs < 4294967296 ->
  (forall i r, rs !! i = Some r -> rd (w_rx (svw s)) (k + Z.of_nat i) = Some r) ->
  exists h, rx_burst (length rs) c (k * 4) s = Some (s <| s_rx := Some (p ++ word_list m rs ++ drop (length (word_list m rs)) suf) |> <| s_hw := h |>) /\ sview h = svw s.
Proof.
  induction rs as [|r rs IH]; intros k c p suf s m Hi Hr Hp Hs Hk Hk4 Hc Hc2 Hv; zlen_simpl; cbn [length rx_burst].
  - exists (s_hw s); split; [|done]; cbn; rewrite drop_0, <- Hr; by destruct s.
  - pose proof (zlen_nonneg rs); pose proof (word_bytes_pos (i_txbitlen (s_pdata s))) as Hm; fold m in Hm; destruct (sreg_read_moved (REG_RX0 + k * 4) s) as (s1 & -> & h1 & -> & V1); rewrite adv_idle in V1 by done.
    pose proof (sview_read_rx k (s_hw s) ltac:(lia)) as Hread; fold (svw s) in Hread; rewrite adv_idle in Hread by done; specialize (Hv 0%nat r eq_refl) as Hr0; rewrite Z.add_0_r in Hr0; rewrite Hr0 in Hread; injection Hread as ->.
    unfold hw_rx; cbn [s_rx s_pdata set]; fold m; rewrite Hr, bind_ok, <- Hp, wrn_app by (unfold zlen in *; rewrite bytes_of_word_len; lia); rewrite !bind_ok, <- app_assoc.
    rewrite (u32_id (c + 1)) by lia; replace (k * 4 + 4) with ((k + 1) * 4) by lia; set (b := bytes_of_word (Z.to_nat m) r); assert (Hb : zlen b = m) by (unfold zlen, b; rewrite bytes_of_word_len; lia).
    set (s2 := s <| s_hw := h1 |> <| s_rx := Some (p ++ b ++ drop (length b) suf) |>); assert (V2 : svw s2 = svw s) by exact V1; match goal with |- context [rx_burst _ _ _ ?x] => change x with s2 end.
    destruct (IH (k + 1) (c + 1) (p ++ b) (drop (length b) suf) s2) as (h & E & Hh).
    + by rewrite V2.
    + unfold s2; cbn [s_rx set]; by rewrite <- app_assoc.
    + rewrite zlen_app, Hp, Hb; change (word_bytes (i_txbitlen (s_pdata s2))) with m; lia.
    + rewrite zlen_drop; change (word_bytes (i_txbitlen (s_pdata s2))) with m; unfold zlen in Hb |- *; unfold zlen in Hs; lia.
    + lia.
    + lia.
    + lia.
    + lia.
    + rewrite V2; intros i x Hx; replace (k + 1 + Z.of_nat i) with (k + Z.of_nat (S i)) by lia; exact (Hv (S i) x Hx).
    + exists h; rewrite V2 in Hh; split; [|exact Hh]; rewrite E; change (word_bytes (i_txbitlen (s_pdata s2))) with m; unfold s2, word_list; cbn [map concat]; fold b; rewrite length_app, drop_drop, <- !app_assoc; reflexivity.
Qed.

(** The same set-up but for the number of words in a burst. *)
Definition same_cfg (c c' : Z) : Prop := bits_of c' = bits_of c /\ Z.land c' ENINT = Z.land c ENINT.

Lemma set_txnum_moved n s : 0 <= n < 4 -> w_left (svw s) = None ->
  exists h c, set_txnum n s = s <| s_pdata := (s_pdata s) <| i_txnum := n |> |> <| s_hw := h |> /\
    sview h = (svw s) <| w_cntrl := c |> <| w_flag := false |> /\ burst_of c = n + 1 /\ same_cfg (w_cntrl (svw s)) c.
Proof.
  intros Hn Hi; unfold set_txnum, nuc970_spi0_setup_txnum; match goal with |- context [sreg_update REG_CNTRL ?g s] => set (f := g) end; set (B := Z.shiftl n 8).
  assert (HB : (n = 0 \/ n = 1 \/ n = 2 \/ n = 3) /\ Z.testbit B 16 = false /\ Z.testbit B 0 = false) by (unfold B; assert (n = 0 \/ n = 1 \/ n = 2 \/ n = 3) as Hc by lia; split; [done|]; by destruct Hc as [->|[->|[->| ->]]]).
  destruct HB as (Hc & B16 & B0); assert (Hf : forall v, f v = Z.lor (Z.land v (Z.lnot TXNUM)) B) by (intros v; unfold f, B; destruct Hc as [->|[->|[->| ->]]]; [symmetry; apply Z.lor_0_r|reflexivity..]).
  destruct (update_cfg f _ B s Hi Hf eq_refl B16 B0) as (h & E & Hv); rewrite E; exists h, (cfg (Z.lnot TXNUM) B (w_cntrl (svw s))); split; [reflexivity|]; split; [exact Hv|]; unfold same_cfg.
  rewrite burst_of_land, !bits_of_land, (cfg_land _ B _ 0x300 0 B), (cfg_land _ B _ 0xf8 0xf8 0), (cfg_land _ B _ ENINT ENINT 0), !Z.lor_0_r, Z.land_0_r, Z.lor_0_l; unfold B; destruct Hc as [->|[->|[->| ->]]]; done.
Qed.

(** ** The interrupt *)

(** A state with a burst under way: [c] words are done, [n] are sent, the answers
    to the first [c] words are in the buffer. *)
Record in_burst (ws : list Z) (sent0 : list Z) (c n : Z) s : Prop := {
  ib_done : s_done s = false;
  ib_count : s_count s = c;
  ib_len : s_len s = zlen ws;
  ib_num : i_txnum (s_pdata s) = n - 1;
  ib_small : zlen ws < 4294967296;
  ib_n : n = Z.min 4 (zlen ws - c) /\ 0 <= c < zlen ws;
  ib_burst : burst_of (w_cntrl (svw s)) = n;
  ib_irq : Z.land (w_cntrl (svw s)) ENINT = ENINT;
  ib_words : forall k w, ws !! k = Some w -> hw_tx (Z.of_nat k) s = Some w /\ is_u32 w;
  ib_tx : take (Z.to_nat n) (w_tx (svw s)) = slice ws c n;
  ib_sent : w_sent (svw s) = fst (exchange (w_reply (svw s)) (bits_of (w_cntrl (svw s))) (take (Z.to_nat c) ws) sent0);
  ib_rx : let m := word_bytes (i_txbitlen (s_pdata s)) in
    match s_rx s with
    | None => True
    | Some l => m * zlen ws <= zlen l /\ take (Z.to_nat (m * c)) l = word_list m (snd (exchange (w_reply (svw s)) (bits_of (w_cntrl (svw s))) (take (Z.to_nat c) ws) sent0))
    end;
}.

(** Time passes until the burst is done. *)
Lemma wait_ticks j : forall s, s_done s = false -> w_flag (svw s) = false -> w_left (svw s) = Some j ->
  exists s', (forall fuel, wait_xfer (S j + fuel) s = wait_xfer fuel s') /\ smoved s (finish (svw s)) s'.
Proof.
  induction j as [|j IH]; intros s Hd Hf Hl; set (s1 := s <| s_hw := tick (s_hw s) |>).
  all: assert (Hstep : forall fuel, wait_xfer (S fuel) s = wait_xfer fuel s1) by (intros fuel; cbn [wait_xfer]; rewrite Hd, sview_irq; fold (svw s); rewrite Hf; reflexivity).
  - exists s1; split; [exact Hstep|]; exists (tick (s_hw s)); split; [done|]; rewrite sview_tick; fold (svw s); unfold adv; by rewrite Hl.
  - assert (V : svw s1 = (svw s) <| w_left := Some j |>) by (unfold svw at 1, s1; cbn [s_hw set]; rewrite sview_tick; fold (svw s); unfold adv; by rewrite Hl).
    destruct (IH s1) as (s' & E & M); [done|by rewrite V|by rewrite V|]; exists s'; split; [intros fuel; change (S (S j) + fuel)%nat with (S (S j + fuel)); by rewrite Hstep|]; destruct M as (h & -> & Hh); exists h; split; [done|]; rewrite Hh, V; unfold finish; by destruct (svw s).
Qed.

(** The end of the handler while a burst is under way. *)
Lemma ack_busy d s : w_flag (svw s) = false -> w_left (svw s) = Some (S (S d)) ->
  exists s', (let '(status, s) := sreg_read REG_CNTRL s in Some (sreg_write status REG_CNTRL s)) = Some s' /\ smoved s ((svw s) <| w_left := Some d |>) s'.
Proof.
  intros Hf Hl; destruct (sreg_read_moved REG_CNTRL s) as (s1 & -> & h1 & -> & V1); unfold adv in V1; rewrite Hl in V1; rewrite sview_read_cntrl; fold (svw s); unfold adv; rewrite Hl.
  eexists; split; [reflexivity|]; eexists; split; [reflexivity|]; rewrite sview_write_cntrl by apply u32_range; change (s_hw (s <| s_hw := h1 |>)) with h1; rewrite V1.
  set (x := u32 (cntrl_value ((svw s) <| w_left := Some (S d) |>))); assert (Hc : Z.land x (Z.lnot (Z.lor ENFLG GOBUSY)) = w_cntrl (svw s)).
  { unfold x, cntrl_value; cbn [w_cntrl w_flag w_left set]; rewrite Hf; apply cfg_id; [apply sview_word|apply sview_flags|done]. }
  change (write_cntrl x (adv ((svw s) <| w_left := Some (S d) |>))) with ((svw s) <| w_left := Some d |> <| w_cntrl := Z.land x (Z.lnot (Z.lor ENFLG GOBUSY)) |> <| w_flag := w_flag (svw s) && negb (Z.testbit x 16) |>).
  rewrite Hc, Hf; clear Hc; clearbody x; destruct (svw s); cbn in *; by subst.
Qed.

(** Written back while nothing is under way, the register only clears the flag. *)
Lemma write_back v : w_left v = None -> Z.land (w_cntrl v) (Z.lor ENFLG GOBUSY) = 0 -> 0 <= w_cntrl v < 4294967296 -> write_cntrl (u32 (cntrl_value v)) v = v <| w_flag := false |>.
Proof.
  intros Hi Hz Hw; destruct (cntrl_value_bits v Hz Hi) as [F16 F0]; assert (Hc : Z.land (u32 (cntrl_value v)) (Z.lnot (Z.lor ENFLG GOBUSY)) = w_cntrl v) by (unfold cntrl_value; rewrite Hi; apply cfg_id; [done|done|by destruct (w_flag v)]).
  unfold write_cntrl; rewrite Hc, !testbit_u32, F16, F0 by lia; cbn [w_left set]; rewrite Hi; clear Hc F16 F0; destruct v as [? [] ? ? ? ? ? ? ? ? ?]; cbn in *; by subst.
Qed.

Lemma ack_idle s : w_left (svw s) = None ->
  exists s', (let '(status, s) := sreg_read REG_CNTRL s in Some (sreg_write status REG_CNTRL s)) = Some s' /\ smoved s ((svw s) <| w_flag := false |>) s'.
Proof.
  intros Hi; pose proof (update_cntrl (fun v => v) s Hi) as M; unfold sreg_update in M; destruct (sreg_read REG_CNTRL s) as [st s1]; eexists; split; [done|].
  by rewrite write_back in M by (first [done|apply sview_flags|apply sview_word]).
Qed.

(** A burst that ends before the register is read: its flag is cleared. *)
Lemma ack_lost s : w_left (svw s) = Some 0%nat ->
  exists s', (let '(status, s) := sreg_read REG_CNTRL s in Some (sreg_write status REG_CNTRL s)) = Some s' /\ smoved s ((finish (svw s)) <| w_flag := false |>) s'.
Proof.
  intros Hl; destruct (sreg_read_moved REG_CNTRL s) as (s1 & -> & h1 & -> & V1); unfold adv in V1; rewrite Hl in V1; rewrite sview_read_cntrl; fold (svw s); unfold adv; rewrite Hl.
  eexists; split; [reflexivity|]; eexists; split; [reflexivity|]; rewrite sview_write_cntrl by apply u32_range; change (s_hw (s <| s_hw := h1 |>)) with h1; pose proof (sview_flags h1) as Hz; pose proof (sview_word h1) as Hw; rewrite V1 in Hz, Hw |- *.
  assert (Hi : w_left (finish (svw s)) = None) by (unfold finish; by destruct (exchange _ _ _ _)); by rewrite adv_idle, write_back.
Qed.
End Laws.
