(* ===== verification/Spi0Main.v ===== *)
(** A transfer of the SPI master as a whole: for every slave, every buffer and
    every duration of the bursts beyond the end of the handler, each word goes out
    once and each answer is stored; what shorter bursts do; words of more than
    eight bits; and the modes and speeds that are set up. *)
From S2P Require Import Prelude Spi0 Spi0Spec.

(** ** Words done so far *)
Definition sent_at (R : list Z -> Z) (L : Z) (ws sent0 : list Z) (c : Z) : list Z := fst (exchange R L (take (Z.to_nat c) ws) sent0).
Definition got_at (R : list Z -> Z) (L : Z) (ws sent0 : list Z) (c : Z) : list Z := snd (exchange R L (take (Z.to_nat c) ws) sent0).

Lemma at_step R L ws sent0 c n : 0 <= c -> 0 <= n ->
  sent_at R L ws sent0 (c + n) = fst (exchange R L (slice ws c n) (sent_at R L ws sent0 c)) /\
  got_at R L ws sent0 (c + n) = got_at R L ws sent0 c ++ snd (exchange R L (slice ws c n) (sent_at R L ws sent0 c)).
Proof.
  intros Hc Hn; unfold sent_at, got_at, slice; assert (Ht : take (Z.to_nat (c + n)) ws = take (Z.to_nat c) ws ++ take (Z.to_nat n) (drop (Z.to_nat c) ws)) by (rewrite Z2Nat.inj_add by lia; symmetry; apply take_take_drop).
  rewrite Ht, exchange_app; destruct (exchange R L (take (Z.to_nat c) ws) sent0) as [s1 r1]; cbn [fst snd]; by destruct (exchange R L _ s1).
Qed.

Lemma finish_is v n : burst_of (w_cntrl v) = n ->
  finish v = v <| w_flag := true |> <| w_left := None |> <| w_sent := fst (exchange (w_reply v) (bits_of (w_cntrl v)) (take (Z.to_nat n) (w_tx v)) (w_sent v)) |>
    <| w_rx := snd (exchange (w_reply v) (bits_of (w_cntrl v)) (take (Z.to_nat n) (w_tx v)) (w_sent v)) ++ drop (Z.to_nat n) (w_rx v) |>.
Proof. intros <-; unfold finish; by destruct (exchange _ _ _ _). Qed.

(** The words of a transmit buffer; without a buffer all bits are set. *)
Definition tx_words (m : Z) (tx : option (list Z)) (len : Z) : list Z :=
  match tx with None => replicate (Z.to_nat len) 0xffffffff | Some l => map (fun k => word_of (slice l (m * k) m)) (seqZ 0 len) end.

(** The receive buffer after the transfer. *)
Definition rx_after (m : Z) (rs : list Z) (rx : option (list Z)) : option (list Z) :=
  (fun l => word_list m rs ++ drop (length (word_list m rs)) l) <$> rx.

Definition buffer_ok (m len : Z) (b : option (list Z)) : Prop := match b with None => True | Some l => m * len <= zlen l /\ Forall is_u8 l end.

Lemma word_of_bound l : Forall is_u8 l -> 0 <= word_of l < 256 ^ zlen l.
Proof.
  induction 1 as [|b l Hb _ IH]; [unfold zlen; cbn; lia|]; unfold word_of; cbn [fold_right]; fold (word_of l); rewrite zlen_cons, Z.add_comm, Z.pow_add_r by (pose proof (zlen_nonneg l); lia); unfold is_u8 in Hb; change (256 ^ 1) with 256; nia.
Qed.

Lemma tx_words_len m tx len : 0 <= len -> zlen (tx_words m tx len) = len.
Proof. intros Hl; unfold tx_words, zlen; destruct tx; rewrite ?length_map, ?length_seqZ, ?length_replicate; lia. Qed.

Section Main.
  Context {H : Type} `{!SpiHw H, !SpiLaws H}.
  Implicit Types s : nuc970_spi H.

(** What the buffer holds after [c] words. *)
Definition stored_at (m : Z) (R : list Z -> Z) (L : Z) (ws sent0 : list Z) (c : Z) (rx : option (list Z)) : Prop :=
  match rx with None => True | Some l => m * zlen ws <= zlen l /\ take (Z.to_nat (m * c)) l = word_list m (got_at R L ws sent0 c) end.

Lemma slice_zlen (ws : list Z) c n : 0 <= c -> 0 <= n -> c + n <= zlen ws -> length (slice ws c n) = Z.to_nat n.
Proof. intros; pose proof (slice_len ws c n); unfold zlen in *; lia. Qed.

(** The answers of a burst are stored. *)
Lemma irq_rx ws sent0 c n s0 s : in_burst ws sent0 c n s0 -> smoved s0 (finish (svw s0)) s ->
  let v := finish (svw s0) in let m := word_bytes (i_txbitlen (s_pdata s0)) in let s1 := s <| s_count := c + n |> in
  exists rx h, match s_rx s1 with Some _ => rx_burst (Z.to_nat n) c 0 s1 | None => Some s1 end = Some (s1 <| s_rx := rx |> <| s_hw := h |>) /\ sview h = v /\
    stored_at m (w_reply v) (bits_of (w_cntrl v)) ws sent0 (c + n) rx /\ (match s_rx s0, rx with Some l, Some l' => zlen l' = zlen l /\ drop (Z.to_nat (m * (c + n))) l' = drop (Z.to_nat (m * (c + n))) l | None, None => True | _, _ => False end).
Proof.
  intros Hb (h0 & -> & V) v m s1; destruct Hb as [Hd Hc Hl Hnum Hsm [Hn Hcc] Hbu Hirq Hw Htx Hse Hrx]; change (s_rx s1) with (s_rx s0).
  destruct (s_rx s0) as [l|] eqn:El; [|exists None, h0; split; [destruct s0; cbn in *; by subst|done]].
  set (R := w_reply (svw s0)) in *; set (L := bits_of (w_cntrl (svw s0))) in *; destruct Hrx as [Hroom Hpre]; fold m in Hroom, Hpre.
  assert (HW : slice ws c n = take (Z.to_nat n) (w_tx (svw s0))) by done; pose proof (word_bytes_pos (i_txbitlen (s_pdata s0))) as Hm; fold m in Hm.
  set (rs := snd (exchange R L (slice ws c n) (w_sent (svw s0)))); assert (Hrs : length rs = Z.to_nat n) by (unfold rs; rewrite exchange_len; apply slice_zlen; lia).
  assert (Hv : v = (svw s0) <| w_flag := true |> <| w_left := None |> <| w_sent := fst (exchange R L (slice ws c n) (w_sent (svw s0))) |> <| w_rx := rs ++ drop (Z.to_nat n) (w_rx (svw s0)) |>) by (unfold v, rs; rewrite (finish_is _ n Hbu), HW; reflexivity).
  assert (V1 : svw s1 = v) by exact V; assert (Hrsz : zlen rs = n) by (unfold zlen; lia); assert (Hmc : 0 <= m * c <= zlen l /\ m * n <= zlen l - m * c) by nia.
  rewrite <- Hrs; change 0 with (0 * 4) at 1; destruct (rx_burst_moved rs 0 c (take (Z.to_nat (m * c)) l) (drop (Z.to_nat (m * c)) l) s1) as (h & E & Hh).
  - rewrite V1, Hv; reflexivity.
  - change (s_rx s1) with (s_rx s0); by rewrite El, take_drop.
  - rewrite zlen_take; change (word_bytes (i_txbitlen (s_pdata s1))) with m; lia.
  - rewrite zlen_drop; change (word_bytes (i_txbitlen (s_pdata s1))) with m; rewrite Hrsz; lia.
  - lia.
  - lia.
  - lia.
  - lia.
  - intros i r Hi; rewrite V1, Hv, Z.add_0_l; apply rd_Some; split; [lia|]; rewrite Nat2Z.id; cbn [w_rx set]; rewrite lookup_app_l by (by eapply lookup_lt_Some); exact Hi.
  - change (word_bytes (i_txbitlen (s_pdata s1))) with m in E; set (l' := take (Z.to_nat (m * c)) l ++ _) in E; exists (Some l'), h; split; [exact E|]; split; [by rewrite Hh|].
    assert (Hwl : length (word_list m rs) = Z.to_nat (m * n)) by (pose proof (word_list_len m rs ltac:(lia)) as Hx; rewrite Hrsz in Hx; unfold zlen in Hx; lia).
    assert (Htl : length (take (Z.to_nat (m * c)) l) = Z.to_nat (m * c)) by (rewrite length_take; unfold zlen in *; lia).
    assert (Hsum : Z.to_nat (m * (c + n)) = (Z.to_nat (m * c) + Z.to_nat (m * n))%nat) by lia.
    assert (Hzl : zlen l' = zlen l) by (unfold l', zlen in *; rewrite !length_app, Htl, Hwl, !length_drop; lia).
    destruct (at_step R L ws sent0 c n ltac:(lia) ltac:(lia)) as [_ Hg].
    split; [split; [lia|]|split; [done|]].
    + replace (w_reply v) with R by (rewrite Hv; done); replace (bits_of (w_cntrl v)) with L by (rewrite Hv; done); rewrite Hg; unfold l', word_list; rewrite map_app, concat_app; fold (word_list m (got_at R L ws sent0 c)).
      rewrite app_assoc, take_app_le by (rewrite length_app, Htl; fold (word_list m rs); rewrite Hwl; lia); rewrite firstn_all2 by (rewrite length_app, Htl; fold (word_list m rs); rewrite Hwl; lia); f_equal; [exact Hpre|]; unfold rs; by rewrite Hse.
    + unfold l'; rewrite Hsum, <- drop_drop, drop_app_length' by done; rewrite drop_app_length' by done; rewrite Hwl; by rewrite <- !drop_drop.
Qed.

(** The rest of the buffer is as before. *)
Definition rx_kept (m c : Z) (rx rx' : option (list Z)) : Prop :=
  match rx, rx' with Some l, Some l' => zlen l' = zlen l /\ drop (Z.to_nat (m * c)) l' = drop (Z.to_nat (m * c)) l | None, None => True | _, _ => False end.

(** The words and the fields that a transfer does not touch. *)
Definition spi_same s s' : Prop := s_tx s' = s_tx s /\ s_len s' = s_len s /\ i_txbitlen (s_pdata s') = i_txbitlen (s_pdata s) /\
  w_reply (svw s') = w_reply (svw s) /\ w_delay (svw s') = w_delay (svw s) /\ bits_of (w_cntrl (svw s')) = bits_of (w_cntrl (svw s)).

Lemma hw_tx_same s s' k : s_tx s' = s_tx s -> i_txbitlen (s_pdata s') = i_txbitlen (s_pdata s) -> hw_tx k s' = hw_tx k s.
Proof. intros E1 E2; unfold hw_tx; by rewrite E1, E2. Qed.

(** The next words are put out. *)
Lemma next_burst ws c s : w_left (svw s) = None -> 0 <= c < zlen ws -> zlen ws < 4294967296 -> (forall k w, ws !! k = Some w -> hw_tx (Z.of_nat k) s = Some w /\ is_u32 w) ->
  let n := Z.min 4 (zlen ws - c) in
  exists s', tx_burst (Z.to_nat n) c 0 s = Some s' /\ smoved s ((svw s) <| w_tx := slice ws c n ++ drop (Z.to_nat n) (w_tx (svw s)) |>) s'.
Proof.
  intros Hi Hc Hsm Hw n; pose proof (slice_zlen ws c n ltac:(lia) ltac:(lia) ltac:(lia)) as Hl.
  destruct (tx_burst_moved (slice ws c n) 0 c s) as (s' & E & M); [done|lia|unfold zlen; lia|lia|unfold zlen; lia| |].
  - intros i w Hi'; unfold slice in Hi'; apply lookup_take_Some in Hi' as [Hi' _]; rewrite lookup_drop in Hi'; replace (c + Z.of_nat i) with (Z.of_nat (Z.to_nat c + i)) by lia; by apply Hw.
  - rewrite Hl in E, M; exists s'; split; [exact E|exact M].
Qed.

(** The number of words of the next burst is set if it is the last one. *)
Lemma renumber last s : 0 < last -> w_left (svw s) = None -> (4 < last -> i_txnum (s_pdata s) = 3 /\ burst_of (w_cntrl (svw s)) = 4) ->
  let n := Z.min 4 last in
  exists h c b, (if last <=? 4 then set_txnum (last - 1) s else s) = s <| s_pdata := (s_pdata s) <| i_txnum := n - 1 |> |> <| s_hw := h |> /\
    sview h = (svw s) <| w_cntrl := c |> <| w_flag := b |> /\ burst_of c = n /\ same_cfg (w_cntrl (svw s)) c.
Proof.
  intros Hl Hi H4 n; destruct (last <=? 4) eqn:E; zbool.
  - destruct (set_txnum_moved (last - 1) s ltac:(lia) Hi) as (h & c & E1 & Hv & Hb & Hs); assert (Hn : n = last) by lia; rewrite Hn; exists h, c, false; split; [exact E1|]; split; [exact Hv|]; split; [lia|exact Hs].
  - destruct (H4 ltac:(lia)) as [Ht Hb]; exists (s_hw s), (w_cntrl (svw s)), (w_flag (svw s)); split; [|split; [by unfold svw; destruct (sview (s_hw s))|split; [lia|done]]].
    assert (Hn : n - 1 = 3) by lia; rewrite Hn; destruct s as [? ? ? ? ? [] ? ?]; cbn in *; by rewrite Ht.
Qed.

Lemma spi_same_trans s1 s2 s3 : spi_same s1 s2 -> spi_same s2 s3 -> spi_same s1 s3.
Proof. unfold spi_same; intros (A1 & A2 & A3 & A4 & A5 & A6) (B1 & B2 & B3 & B4 & B5 & B6); split_and!; by etransitivity. Qed.

(** A burst that is under way stays so while only time passes. *)
Lemma in_burst_left ws sent0 c n s s' x : in_burst ws sent0 c n s -> smoved s ((svw s) <| w_left := x |>) s' -> in_burst ws sent0 c n s' /\ spi_same s s' /\ s_rx s' = s_rx s.
Proof.
  intros [Hd Hc Hl Hnum Hsm Hn Hbu Hirq Hw Htx Hse Hrx] (h & -> & V); assert (Hv : svw (s <| s_hw := h |>) = (svw s) <| w_left := x |>) by exact V; split; [constructor|]; rewrite ?Hv; try done.
  unfold spi_same; rewrite Hv; by split_and!.
Qed.

(** The burst that is done, as the handler finds it. *)
Lemma finished ws sent0 c n s : in_burst ws sent0 c n s -> let v := finish (svw s) in
  w_left v = None /\ w_reply v = w_reply (svw s) /\ w_delay v = w_delay (svw s) /\ w_cntrl v = w_cntrl (svw s) /\ w_bursts v = w_bursts (svw s) /\ w_sent v = sent_at (w_reply (svw s)) (bits_of (w_cntrl (svw s))) ws sent0 (c + n).
Proof.
  intros [Hd Hc Hl Hnum Hsm [Hn Hcc] Hbu Hirq Hw Htx Hse Hrx] v; destruct (at_step (w_reply (svw s)) (bits_of (w_cntrl (svw s))) ws sent0 c n ltac:(lia) ltac:(lia)) as [Hs _].
  unfold v; rewrite (finish_is _ n Hbu); split_and!; try done; rewrite Hs; cbn [w_sent set]; by rewrite Htx, Hse.
Qed.

Definition ack s : option (nuc970_spi H) := let '(status, s) := sreg_read REG_CNTRL s in Some (sreg_write status REG_CNTRL s).

(** The handler up to its test of what is left. *)
Lemma irq_head ws sent0 c n s0 s : in_burst ws sent0 c n s0 -> smoved s0 (finish (svw s0)) s ->
  exists rx h, let s2 := s0 <| s_count := c + n |> <| s_rx := rx |> <| s_hw := h |> in sview h = finish (svw s0) /\
    nuc970_spi0_irq s = (s ← (if 0 <? zlen ws - (c + n) then
         let s := if zlen ws - (c + n) <=? 4 then set_txnum (zlen ws - (c + n) - 1) s2 else s2 in
         s ← tx_burst (Z.to_nat (burst s)) (c + n) 0 s;
         Some (nuc970_spi0_gobusy s)
       else Some (s2 <| s_done := true |>)); ack s) /\
    stored_at (word_bytes (i_txbitlen (s_pdata s0))) (w_reply (svw s0)) (bits_of (w_cntrl (svw s0))) ws sent0 (c + n) rx /\ rx_kept (word_bytes (i_txbitlen (s_pdata s0))) (c + n) (s_rx s0) rx.
Proof.
  intros Hb M; destruct (irq_rx ws sent0 c n s0 s Hb M) as (rx & h & E & Hh & Hst & Hrk); destruct (finished ws sent0 c n s0 Hb) as (_ & Vr & _ & Vc & _); rewrite Vr, Vc in Hst.
  destruct Hb as [Hd Hc Hl Hnum Hsm [Hn Hcc] Hbu Hirq Hw Htx Hse Hrx]; destruct M as (h0 & -> & V).
  assert (Hbu' : burst (s0 <| s_hw := h0 |>) = n) by (unfold burst; change (s_pdata (s0 <| s_hw := h0 |>)) with (s_pdata s0); rewrite Hnum, u32_id; lia).
  assert (Hbu2 : burst (s0 <| s_hw := h0 |> <| s_count := c + n |>) = n) by exact Hbu'.
  exists rx, h; cbn zeta; split; [exact Hh|]; split; [|split; [exact Hst|exact Hrk]].
  unfold nuc970_spi0_irq; rewrite Hbu'; change (s_count (s0 <| s_hw := h0 |>)) with (s_count s0); rewrite Hc, (u32_id (c + n)) by lia; rewrite Hbu2; step_ok E.
  set (s2 := s0 <| s_hw := h0 |> <| s_count := c + n |> <| s_rx := rx |> <| s_hw := h |>); change (s_count s2) with (c + n); change (s_len s2) with (s_len s0); rewrite Hl, (u32_id (zlen ws - (c + n))) by lia; reflexivity.
Qed.

(** The next burst begins, before the handler acknowledges. *)
Lemma irq_next ws sent0 c n s0 s : in_burst ws sent0 c n s0 -> smoved s0 (finish (svw s0)) s -> c + n < zlen ws ->
  exists s5, nuc970_spi0_irq s = ack s5 /\ in_burst ws sent0 (c + n) (Z.min 4 (zlen ws - (c + n))) s5 /\ spi_same s0 s5 /\
    rx_kept (word_bytes (i_txbitlen (s_pdata s0))) (c + n) (s_rx s0) (s_rx s5) /\ w_flag (svw s5) = false /\ w_left (svw s5) = Some (w_delay (svw s0) (w_bursts (svw s0))).
Proof.
  intros Hb M Hlt; destruct (irq_head ws sent0 c n s0 s Hb M) as (rx & h & Hh & E & Hst & Hrk); destruct (finished ws sent0 c n s0 Hb) as (Vl & Vr & Vd & Vc & Vb & Vs); destruct Hb as [Hd Hc Hl Hnum Hsm [Hn Hcc] Hbu Hirq Hw Htx Hse Hrx]; set (v := finish (svw s0)) in *; clearbody v; rewrite E; clear E M.
  set (s2 := s0 <| s_count := c + n |> <| s_rx := rx |> <| s_hw := h |>) in *; assert (V2 : svw s2 = v) by exact Hh; destruct (0 <? zlen ws - (c + n)) eqn:El; [|zbool; lia]; zbool; set (n' := Z.min 4 (zlen ws - (c + n))).
  destruct (renumber (zlen ws - (c + n)) s2) as (h3 & c3 & b3 & E3 & V3 & Hb3 & Hcf1 & Hcf2); [lia|by rewrite V2|change (s_pdata s2) with (s_pdata s0); rewrite V2, Vc, Hnum, Hbu; lia|].
  fold n' in E3, Hb3; rewrite E3; set (s3 := s2 <| s_pdata := _ |> <| s_hw := h3 |>) in *; rewrite V2 in V3; assert (V3' : svw s3 = v <| w_cntrl := c3 |> <| w_flag := b3 |>) by exact V3; rewrite V2, Vc in Hcf1, Hcf2.
  assert (Hb3' : burst s3 = n') by (unfold burst; change (i_txnum (s_pdata s3)) with (n' - 1); rewrite u32_id; lia); cbn zeta; rewrite Hb3'.
  destruct (next_burst ws (c + n) s3) as (s4 & E4 & M4); [by rewrite V3'|lia|done|intros k w Hk; rewrite (hw_tx_same s0 s3) by done; by apply Hw|]; fold n' in E4, M4; step_ok E4; rewrite V3' in M4; pose proof (smoved_view _ _ _ M4) as V4.
  set (v4 := v <| w_cntrl := c3 |> <| w_flag := b3 |> <| w_tx := slice ws (c + n) n' ++ drop (Z.to_nat n') (w_tx v) |>); change (svw s4 = v4) in V4.
  assert (P4 : w_left v4 = None /\ w_reply v4 = w_reply v /\ w_delay v4 = w_delay v /\ w_cntrl v4 = c3 /\ w_sent v4 = w_sent v /\ w_bursts v4 = w_bursts v /\ w_tx v4 = slice ws (c + n) n' ++ drop (Z.to_nat n') (w_tx v)) by (split_and!; [exact Vl|reflexivity..]).
  change (smoved s3 v4 s4) in M4; clearbody v4; destruct P4 as (Q1 & Q2 & Q3 & Q4 & Q5 & Q6 & Q7); pose proof (gobusy_moved s4) as M5; rewrite V4 in M5; specialize (M5 Q1); exists (nuc970_spi0_gobusy s4); split; [by rewrite bind_ok|]; set (s5 := nuc970_spi0_gobusy s4) in *; clearbody s5; pose proof (smoved_view _ _ _ M5) as V5.
  set (j := w_delay v4 (w_bursts v4)) in *; set (v5 := v4 <| w_flag := false |> <| w_left := Some j |> <| w_bursts := S (w_bursts v4) |>) in V5.
  assert (P5 : w_flag v5 = false /\ w_left v5 = Some j /\ w_reply v5 = w_reply v4 /\ w_delay v5 = w_delay v4 /\ w_cntrl v5 = w_cntrl v4 /\ w_sent v5 = w_sent v4 /\ w_tx v5 = w_tx v4) by (split_and!; reflexivity); clearbody v5; destruct P5 as (U1 & U2 & U3 & U4 & U5 & U6 & U7).
  destruct (smoved_trans _ _ _ _ _ M4 M5) as (h6 & E7 & _); assert (G : s_done s5 = s_done s0 /\ s_count s5 = c + n /\ s_len s5 = s_len s0 /\ s_tx s5 = s_tx s0 /\ s_rx s5 = rx /\ i_txnum (s_pdata s5) = n' - 1 /\ i_txbitlen (s_pdata s5) = i_txbitlen (s_pdata s0)) by (rewrite E7; by split_and!).
  destruct G as (G1 & G2 & G3 & G4 & G5 & G6 & G7); clear E7 M4 M5 E4 E3; unfold spi_same.
  assert (R5 : w_reply v5 = w_reply (svw s0)) by (by rewrite U3, Q2, Vr); assert (C5 : w_cntrl v5 = c3) by (by rewrite U5, Q4); assert (J : j = w_delay (svw s0) (w_bursts (svw s0))) by (unfold j; by rewrite Q3, Q6, Vd, Vb).
  split; [|rewrite V5, R5, C5, Hcf1, G3, G4, G5, G7, U1, U2, J; split; [split_and!; try done; by rewrite U4, Q3, Vd|]; split; [exact Hrk|done]].
  constructor; rewrite ?V5.
  - by rewrite G1.
  - exact G2.
  - by rewrite G3.
  - exact G6.
  - exact Hsm.
  - split; [reflexivity|lia].
  - by rewrite C5.
  - by rewrite C5, Hcf2.
  - intros k w Hk; rewrite (hw_tx_same s0) by done; by apply Hw.
  - rewrite U7, Q7, take_app_le, firstn_all2 by (rewrite slice_zlen; lia); done.
  - rewrite R5, C5, U6, Q5, Vs, Hcf1; done.
  - cbn zeta; rewrite G5, G7, R5, C5, Hcf1; exact Hst.
Qed.

(** The last burst is done. *)
Lemma irq_last ws sent0 c n s0 s : in_burst ws sent0 c n s0 -> smoved s0 (finish (svw s0)) s -> c + n = zlen ws ->
  exists s', nuc970_spi0_irq s = Some s' /\ spi_same s0 s' /\ rx_kept (word_bytes (i_txbitlen (s_pdata s0))) (zlen ws) (s_rx s0) (s_rx s') /\
    s_done s' = true /\ w_left (svw s') = None /\ s_count s' = zlen ws /\ w_sent (svw s') = sent_at (w_reply (svw s0)) (bits_of (w_cntrl (svw s0))) ws sent0 (zlen ws) /\
    stored_at (word_bytes (i_txbitlen (s_pdata s0))) (w_reply (svw s0)) (bits_of (w_cntrl (svw s0))) ws sent0 (zlen ws) (s_rx s').
Proof.
  intros Hb M Heq; destruct (irq_head ws sent0 c n s0 s Hb M) as (rx & h & Hh & E & Hst & Hrk); destruct (finished ws sent0 c n s0 Hb) as (Vl & Vr & Vd & Vc & Vb & Vs); set (v := finish (svw s0)) in *; clearbody v; rewrite E; clear E M Hb.
  rewrite Heq in *; destruct (0 <? zlen ws - zlen ws) eqn:El; [zbool; lia|]; rewrite bind_ok; set (s3 := s0 <| s_count := zlen ws |> <| s_rx := rx |> <| s_hw := h |> <| s_done := true |>); assert (V3 : svw s3 = v) by exact Hh.
  destruct (ack_idle s3) as (s4 & E4 & h4 & -> & V4); [by rewrite V3|]; unfold ack; rewrite E4; eexists; split; [done|]; rewrite V3 in V4; assert (V4' : svw (s3 <| s_hw := h4 |>) = v <| w_flag := false |>) by exact V4.
  unfold spi_same; rewrite V4'; cbn [w_reply w_delay w_cntrl w_sent set]; rewrite Vr, Vd, Vc, Vs; split; [by split_and!|]; split; [exact Hrk|]; by split_and!.
Qed.

(** One interrupt, with bursts that last beyond the end of the handler. *)
Lemma irq_step ws sent0 c n s0 s : in_burst ws sent0 c n s0 -> smoved s0 (finish (svw s0)) s -> (forall k, (2 <= w_delay (svw s0) k)%nat) -> c + n < zlen ws ->
  exists s' j, nuc970_spi0_irq s = Some s' /\ in_burst ws sent0 (c + n) (Z.min 4 (zlen ws - (c + n))) s' /\ spi_same s0 s' /\ rx_kept (word_bytes (i_txbitlen (s_pdata s0))) (c + n) (s_rx s0) (s_rx s') /\
    w_flag (svw s') = false /\ w_left (svw s') = Some j.
Proof.
  intros Hb M Hdel Hlt; destruct (irq_next ws sent0 c n s0 s Hb M Hlt) as (s5 & E & Hb5 & Hs5 & Hk5 & Hf5 & Hl5); specialize (Hdel (w_bursts (svw s0))); destruct (w_delay (svw s0) (w_bursts (svw s0))) as [|[|j]]; [lia|lia|].
  destruct (ack_busy j s5 Hf5 Hl5) as (s6 & E6 & M6); destruct (in_burst_left _ _ _ _ _ _ _ Hb5 M6) as (Hb6 & Hs6 & Hr6); exists s6, j; rewrite E; split; [exact E6|]; split; [exact Hb6|]; split; [exact (spi_same_trans _ _ _ Hs5 Hs6)|]; rewrite Hr6; split; [exact Hk5|].
  rewrite (smoved_view _ _ _ M6); split; [exact Hf5|reflexivity].
Qed.

Lemma rx_kept_trans m c c' a b d : 0 <= m -> 0 <= c <= c' -> rx_kept m c a b -> rx_kept m c' b d -> rx_kept m c' a d.
Proof.
  intros Hm Hc; destruct a as [la|], b as [lb|], d as [ld|]; cbn; try done; intros [H1 H2] [H3 H4]; split; [lia|]; rewrite H4.
  replace (Z.to_nat (m * c')) with (Z.to_nat (m * c) + Z.to_nat (m * c' - m * c))%nat by nia; by rewrite <- !drop_drop, H2.
Qed.

(** Everything has gone out, and every answer is stored. *)
Definition all_done (ws sent0 : list Z) s s' : Prop :=
  s_count s' = zlen ws /\ w_left (svw s') = None /\ w_sent (svw s') = sent_at (w_reply (svw s)) (bits_of (w_cntrl (svw s))) ws sent0 (zlen ws) /\ spi_same s s' /\
  let m := word_bytes (i_txbitlen (s_pdata s)) in
  stored_at m (w_reply (svw s)) (bits_of (w_cntrl (svw s))) ws sent0 (zlen ws) (s_rx s') /\ rx_kept m (zlen ws) (s_rx s) (s_rx s').

Lemma finish_keeps v : w_reply (finish v) = w_reply v /\ w_delay (finish v) = w_delay v /\ w_cntrl (finish v) = w_cntrl v /\ w_flag (finish v) = true.
Proof. rewrite (finish_is v _ eq_refl); done. Qed.

Lemma wait_run ws sent0 k : forall c n j s, (Z.to_nat (zlen ws - c) <= k)%nat -> in_burst ws sent0 c n s -> w_flag (svw s) = false -> w_left (svw s) = Some j ->
  (forall i, (2 <= w_delay (svw s) i)%nat) -> exists N s', (forall f, wait_xfer (N + f) s = Some s') /\ all_done ws sent0 s s'.
Proof.
  induction k as [|k IH]; intros c n j s Hk Hb Hf Hl Hdel; [destruct (ib_n _ _ _ _ _ Hb); lia|].
  destruct (wait_ticks j s (ib_done _ _ _ _ _ Hb) Hf Hl) as (s1 & E1 & M1); pose proof (smoved_view _ _ _ M1) as V1.
  assert (Hwait : forall s2, nuc970_spi0_irq s1 = Some s2 -> forall f, wait_xfer (S j + S f) s = wait_xfer f s2).
  { intros s2 E2 f; rewrite E1; cbn [wait_xfer]; assert (Hd1 : s_done s1 = false) by (destruct M1 as (h & -> & _); exact (ib_done _ _ _ _ _ Hb)).
    rewrite Hd1, sview_irq; fold (svw s1); rewrite V1; destruct (finish_keeps (svw s)) as (_ & _ & -> & ->); rewrite (ib_irq _ _ _ _ _ Hb); change (true && nz ENINT) with true; cbn iota; by rewrite E2, bind_ok. }
  pose proof (word_bytes_pos (i_txbitlen (s_pdata s))) as Hm; destruct (ib_n _ _ _ _ _ Hb) as [Hn Hcc]; destruct (decide (c + n = zlen ws)) as [Eq|Hne].
  - destruct (irq_last ws sent0 c n s s1 Hb M1 Eq) as (s2 & E2 & Hsame & Hkept & Hd & Hle & Hc & Hse & Hst); exists (S j + 1)%nat, (s2 <| s_done := false |>); split.
    + intros f; replace (S j + 1 + f)%nat with (S j + S f)%nat by lia; rewrite (Hwait s2 E2); destruct f; cbn [wait_xfer]; by rewrite Hd.
    + split; [exact Hc|]; split; [exact Hle|]; split; [exact Hse|]; split; [exact Hsame|]; split; [exact Hst|exact Hkept].
  - destruct (irq_step ws sent0 c n s s1 Hb M1 Hdel ltac:(lia)) as (s2 & j2 & E2 & Hb2 & Hsame & Hkept & Hf2 & Hl2); destruct Hsame as (A1 & A2 & A3 & A4 & A5 & A6).
    destruct (IH (c + n) (Z.min 4 (zlen ws - (c + n))) j2 s2) as (N & s3 & Hrun & Hall); [lia|exact Hb2|done|done|by rewrite A5|].
    exists (S j + S N)%nat, s3; split; [intros f; replace (S j + S N + f)%nat with (S j + S (N + f))%nat by lia; by rewrite (Hwait s2 E2)|].
    destruct Hall as (B1 & B0 & B2 & B3 & B4 & B5); rewrite A3, A4, A6 in B4; rewrite A4, A6 in B2; rewrite A3 in B5; split; [exact B1|]; split; [exact B0|]; split; [exact B2|]; split; [exact (spi_same_trans _ _ _ (conj A1 (conj A2 (conj A3 (conj A4 (conj A5 A6))))) B3)|]; split; [exact B4|].
    refine (rx_kept_trans _ (c + n) _ _ _ _ _ _ Hkept B5); lia.
Qed.

(** ** The whole transfer *)
Lemma same_cfg_trans a b c : same_cfg a b -> same_cfg b c -> same_cfg a c.
Proof. intros [A1 A2] [B1 B2]; split; by etransitivity. Qed.

(** Data lines leave the rest of the set-up. *)
Lemma add_lines B s : B = 0x5 \/ B = 0x3 \/ B = 0x4 \/ B = 0x2 -> w_left (svw s) = None ->
  exists h c, sreg_update REG_CNTRL (fun v => Z.lor v (Z.shiftl B 20)) s = s <| s_hw := h |> /\ sview h = (svw s) <| w_cntrl := c |> <| w_flag := false |> /\ same_cfg (w_cntrl (svw s)) c.
Proof.
  intros HB Hi; assert (Hb : Z.testbit (Z.shiftl B 20) 16 = false /\ Z.testbit (Z.shiftl B 20) 0 = false /\ Z.land (Z.shiftl B 20) (Z.land 0xFFFEFFFE 0xf8) = 0 /\ Z.land (Z.shiftl B 20) (Z.land 0xFFFEFFFE ENINT) = 0) by (destruct HB as [->|[->|[->| ->]]]; by split_and!).
  destruct Hb as (B16 & B0 & Bf & Be); destruct (update_cfg (fun v => Z.lor v (Z.shiftl B 20)) (-1) (Z.shiftl B 20) s Hi ltac:(intros v; by rewrite Z.land_m1_r) eq_refl B16 B0) as (h & E & Hv).
  exists h, (cfg (-1) (Z.shiftl B 20) (w_cntrl (svw s))); split; [exact E|]; split; [exact Hv|]; unfold same_cfg; rewrite !bits_of_land, (cfg_land _ _ _ 0xf8 0xf8 0), (cfg_land _ _ _ ENINT ENINT 0), !Z.lor_0_r by done; done.
Qed.

Lemma set_lines_moved t s : w_left (svw s) = None ->
  exists h c b, set_lines t s = s <| s_hw := h |> /\ sview h = (svw s) <| w_cntrl := c |> <| w_flag := b |> /\ same_cfg (w_cntrl (svw s)) c.
Proof.
  intros Hi; assert (Hid : exists h c b, s = s <| s_hw := h |> /\ sview h = (svw s) <| w_cntrl := c |> <| w_flag := b |> /\ same_cfg (w_cntrl (svw s)) c) by (exists (s_hw s), (w_cntrl (svw s)), (w_flag (svw s)); split; [by destruct s|]; split; [unfold svw; by destruct (sview (s_hw s))|done]).
  unfold set_lines; set (s1 := if nz (Z.land (t_tx_nbits t) SPI_NBITS_DUAL) then _ else _).
  assert (H1 : exists h c b, s1 = s <| s_hw := h |> /\ sview h = (svw s) <| w_cntrl := c |> <| w_flag := b |> /\ same_cfg (w_cntrl (svw s)) c).
  { unfold s1; destruct (nz (Z.land (t_tx_nbits t) SPI_NBITS_DUAL)); [|destruct (nz (Z.land (t_tx_nbits t) SPI_NBITS_QUAD)); [|exact Hid]].
    - destruct (add_lines 0x5 s) as (h & c & E & Hv & Hc); [tauto|done|]; by exists h, c, false.
    - destruct (add_lines 0x3 s) as (h & c & E & Hv & Hc); [tauto|done|]; by exists h, c, false. }
  clearbody s1; destruct H1 as (h & c & b & -> & Hv & Hc).
  assert (H2 : forall B, B = 0x5 \/ B = 0x3 \/ B = 0x4 \/ B = 0x2 -> exists h' c' b', sreg_update REG_CNTRL (fun v => Z.lor v (Z.shiftl B 20)) (s <| s_hw := h |>) = s <| s_hw := h' |> /\ sview h' = (svw s) <| w_cntrl := c' |> <| w_flag := b' |> /\ same_cfg (w_cntrl (svw s)) c').
  { intros B HB; destruct (add_lines B (s <| s_hw := h |>) HB) as (h' & c' & E & Hv' & Hc'); [change (svw (s <| s_hw := h |>)) with (sview h); rewrite Hv; exact Hi|]; change (svw (s <| s_hw := h |>)) with (sview h) in Hv', Hc'; rewrite Hv in Hv', Hc'.
    exists h', c', false; split; [exact E|]; split; [exact Hv'|]; exact (same_cfg_trans _ _ _ Hc Hc'). }
  destruct (nz (Z.land (t_rx_nbits t) SPI_NBITS_DUAL)); [apply H2; tauto|]; destruct (nz (Z.land (t_rx_nbits t) SPI_NBITS_QUAD)); [apply H2; tauto|]; by exists h, c, b.
Qed.

Lemma tx_words_hw s len : let m := word_bytes (i_txbitlen (s_pdata s)) in buffer_ok m len (s_tx s) -> 0 <= len ->
  forall k w, tx_words m (s_tx s) len !! k = Some w -> hw_tx (Z.of_nat k) s = Some w /\ is_u32 w.
Proof.
  intros m Hb Hl k w Hk; unfold hw_tx; fold m; pose proof (word_bytes_pos (i_txbitlen (s_pdata s))) as Hm; fold m in Hm; destruct (s_tx s) as [l|]; cbn [tx_words] in Hk.
  - destruct Hb as [Hroom Hu]; apply list_lookup_fmap_Some in Hk as (x & -> & Hx); apply lookup_seqZ in Hx as [-> Hx]; rewrite Z.add_0_l, rdn_in, bind_ok by nia; split; [done|].
    assert (Hs : Forall is_u8 (slice l (m * Z.of_nat k) m)) by (unfold slice; by apply Forall_take, Forall_drop); pose proof (word_of_bound _ Hs) as Hw; rewrite slice_len in Hw by nia; unfold is_u32.
    assert (256 ^ m <= 256 ^ 4) by (apply Z.pow_le_mono_r; lia); change (256 ^ 4) with 4294967296 in *; lia.
  - apply lookup_replicate in Hk as [-> _]; done.
Qed.

(** The first burst is under way. *)
Lemma start_xfer spi t s : let m := word_bytes (i_txbitlen (s_pdata s)) in let ws := tx_words m (t_tx_buf t) (t_len t) in
  1 <= t_len t < 4294967296 -> buffer_ok m (t_len t) (t_tx_buf t) -> buffer_ok m (t_len t) (t_rx_buf t) ->
  s_done s = false -> w_left (svw s) = None -> Z.land (w_cntrl (svw s)) ENINT = ENINT ->
  exists s1 j, (forall f, nuc970_spi0_txrx f spi t s =
      (s2 ← wait_xfer f s1; let s2 := if nz (Z.land (sd_mode spi) SPI_DUAL_QUAD) then sreg_update REG_CNTRL (fun v => Z.land v (Z.lnot (Z.shiftl 0x7 20))) s2 else s2 in Some (s_count s2, s2))) /\
    in_burst ws (w_sent (svw s)) 0 (Z.min 4 (zlen ws)) s1 /\
    (w_reply (svw s1) = w_reply (svw s) /\ bits_of (w_cntrl (svw s1)) = bits_of (w_cntrl (svw s)) /\ w_delay (svw s1) = w_delay (svw s) /\ i_txbitlen (s_pdata s1) = i_txbitlen (s_pdata s) /\ s_tx s1 = t_tx_buf t) /\
    w_flag (svw s1) = false /\ w_left (svw s1) = Some j /\ s_rx s1 = t_rx_buf t.
Proof.
  intros m ws Hlen Htx Hrx Hd Hi Hen; assert (Hz : zlen ws = t_len t) by (apply tx_words_len; lia).
  set (s1 := s <| s_tx := t_tx_buf t |> <| s_rx := t_rx_buf t |> <| s_len := t_len t |> <| s_count := 0 |>); assert (V1 : svw s1 = svw s) by done.
  set (n := Z.min 4 (zlen ws)); destruct (set_lines_moved t s1) as (h2 & c2 & b2 & E2 & V2 & Hc2 & Hc2'); [by rewrite V1|]; rewrite V1 in V2, Hc2, Hc2'; set (s2 := s1 <| s_hw := h2 |>) in *.
  change (svw s2 = (svw s) <| w_cntrl := c2 |> <| w_flag := b2 |>) in V2; assert (L2 : w_left (svw s2) = None) by (by rewrite V2).
  destruct (set_txnum_moved (n - 1) s2 ltac:(lia) L2) as (h3 & c3 & E3 & V3 & Hb3 & Hc3 & Hc3'); rewrite V2 in V3, Hc3, Hc3'; set (s3 := s2 <| s_pdata := (s_pdata s2) <| i_txnum := n - 1 |> |> <| s_hw := h3 |>) in *.
  assert (Enum : (if 4 <=? s_len s2 then set_txnum 3 s2 else set_txnum (u32 (s_len s2 - 1)) s2) = s3).
  { change (s_len s2) with (t_len t); rewrite <- E3; destruct (4 <=? t_len t) eqn:E4; zbool; [|rewrite u32_id by lia]; f_equal; lia. }
  set (v := svw s) in *; set (v3 := v <| w_cntrl := c2 |> <| w_flag := b2 |> <| w_cntrl := c3 |> <| w_flag := false |>) in V3; assert (P3 : w_left v3 = None /\ w_reply v3 = w_reply v /\ w_delay v3 = w_delay v /\ w_cntrl v3 = c3 /\ w_sent v3 = w_sent v) by (split_and!; [exact Hi|reflexivity..]).
  change (svw s3 = v3) in V3; clearbody v3; destruct P3 as (Q1 & Q2 & Q3 & Q4 & Q5).
  assert (Hw : forall k w, ws !! k = Some w -> hw_tx (Z.of_nat k) s3 = Some w /\ is_u32 w) by (apply (tx_words_hw s3 (t_len t)); [exact Htx|lia]).
  destruct (next_burst ws 0 s3) as (s4 & E4 & M4); [by rewrite V3|lia|lia|exact Hw|]; rewrite Z.sub_0_r in E4, M4; fold n in E4, M4; pose proof (smoved_view _ _ _ M4) as V4; rewrite V3 in V4.
  set (v4 := v3 <| w_tx := slice ws 0 n ++ drop (Z.to_nat n) (w_tx v3) |>) in V4; assert (P4 : w_left v4 = None /\ w_reply v4 = w_reply v3 /\ w_delay v4 = w_delay v3 /\ w_cntrl v4 = w_cntrl v3 /\ w_sent v4 = w_sent v3 /\ w_tx v4 = slice ws 0 n ++ drop (Z.to_nat n) (w_tx v3)) by (split_and!; [exact Q1|reflexivity..]).
  clearbody v4; destruct P4 as (U1 & U2 & U3 & U4 & U5 & U6); pose proof (gobusy_moved s4) as M5; rewrite V4 in M5; specialize (M5 U1); set (s5 := nuc970_spi0_gobusy s4) in *.
  assert (Hrun : forall f, nuc970_spi0_txrx f spi t s =
      (s2 ← wait_xfer f s5; let s2 := if nz (Z.land (sd_mode spi) SPI_DUAL_QUAD) then sreg_update REG_CNTRL (fun v => Z.land v (Z.lnot (Z.shiftl 0x7 20))) s2 else s2 in Some (s_count s2, s2))).
  { intros f; unfold nuc970_spi0_txrx; fold s1; rewrite E2, Enum; assert (Hb : burst s3 = n) by (unfold burst; change (i_txnum (s_pdata s3)) with (n - 1); rewrite u32_id; lia); rewrite Hb, E4, bind_ok; reflexivity. }
  clearbody s5; pose proof (smoved_view _ _ _ M5) as V5; set (j := w_delay v4 (w_bursts v4)) in *; set (v5 := v4 <| w_flag := false |> <| w_left := Some j |> <| w_bursts := S (w_bursts v4) |>) in V5.
  assert (P5 : w_flag v5 = false /\ w_left v5 = Some j /\ w_reply v5 = w_reply v4 /\ w_delay v5 = w_delay v4 /\ w_cntrl v5 = w_cntrl v4 /\ w_sent v5 = w_sent v4 /\ w_tx v5 = w_tx v4) by (split_and!; reflexivity).
  clearbody v5; destruct P5 as (W1 & W2 & W3 & W4 & W5 & W6 & W7); destruct (smoved_trans _ _ _ _ _ M4 M5) as (h5 & E5 & _).
  assert (G : s_done s5 = s_done s /\ s_count s5 = 0 /\ s_len s5 = t_len t /\ s_tx s5 = t_tx_buf t /\ s_rx s5 = t_rx_buf t /\ i_txnum (s_pdata s5) = n - 1 /\ i_txbitlen (s_pdata s5) = i_txbitlen (s_pdata s)) by (rewrite E5; by split_and!).
  destruct G as (G1 & G2 & G3 & G4 & G5 & G6 & G7); exists s5, j; split; [exact Hrun|]; clear Hrun M4 M5 E4 E5 Enum E2 E3.
  assert (R5 : w_reply v5 = w_reply v) by (by rewrite W3, U2, Q2); assert (C5 : w_cntrl v5 = c3) by (by rewrite W5, U4, Q4); assert (Hbits : bits_of c3 = bits_of (w_cntrl v)) by (etransitivity; [exact Hc3|exact Hc2]).
  rewrite V5; split; [|split; [split; [exact R5|]; split; [by rewrite C5|]; split; [by rewrite W4, U3, Q3|]; split; [exact G7|exact G4]|split; [exact W1|]; split; [exact W2|exact G5]]].
  constructor; rewrite ?V5.
  - by rewrite G1.
  - exact G2.
  - by rewrite G3.
  - exact G6.
  - lia.
  - rewrite Z.sub_0_r; split; [reflexivity|lia].
  - rewrite C5, Hb3; lia.
  - rewrite C5, Hc3'; etransitivity; [exact Hc2'|exact Hen].
  - intros k w Hk; rewrite (hw_tx_same s3) by done; by apply Hw.
  - rewrite W7, U6, take_app_le, firstn_all2 by (rewrite slice_zlen; lia); done.
  - by rewrite W6, U5, Q5.
  - cbn zeta; rewrite G5, G7, Z.mul_0_r; fold m; unfold buffer_ok in Hrx; destruct (t_rx_buf t) as [l|]; [|done]; split; [rewrite Hz; tauto|reflexivity].
Qed.

(** The data lines are reset. *)
Lemma end_lines spi s : w_left (svw s) = None -> exists s',
  (if nz (Z.land (sd_mode spi) SPI_DUAL_QUAD) then sreg_update REG_CNTRL (fun v => Z.land v (Z.lnot (Z.shiftl 0x7 20))) s else s) = s' /\ s_rx s' = s_rx s /\ w_sent (svw s') = w_sent (svw s) /\ s_count s' = s_count s.
Proof.
  intros Hi; eexists; split; [reflexivity|]; destruct (nz _); [|done]; destruct (update_cntrl (fun v => Z.land v (Z.lnot (Z.shiftl 0x7 20))) s Hi) as (h & -> & Hv).
  split; [done|]; split; [|done]; change (svw (s <| s_hw := h |>)) with (sview h); rewrite Hv; unfold write_cntrl; cbn [w_left set]; rewrite Hi; by destruct (Z.testbit _ 0).
Qed.

(** The transfer returns, and everything has gone out and come in. *)
Lemma xfer_run spi t s : let m := word_bytes (i_txbitlen (s_pdata s)) in let ws := tx_words m (t_tx_buf t) (t_len t) in
  1 <= t_len t < 4294967296 -> buffer_ok m (t_len t) (t_tx_buf t) -> buffer_ok m (t_len t) (t_rx_buf t) ->
  s_done s = false -> w_left (svw s) = None -> Z.land (w_cntrl (svw s)) ENINT = ENINT -> (forall k, (2 <= w_delay (svw s) k)%nat) ->
  exists N s', (forall f, nuc970_spi0_txrx (N + f) spi t s = Some (t_len t, s')) /\
    w_sent (svw s') = sent_at (w_reply (svw s)) (bits_of (w_cntrl (svw s))) ws (w_sent (svw s)) (zlen ws) /\
    stored_at m (w_reply (svw s)) (bits_of (w_cntrl (svw s))) ws (w_sent (svw s)) (zlen ws) (s_rx s') /\ rx_kept m (zlen ws) (t_rx_buf t) (s_rx s').
Proof.
  intros m ws Hlen Htx Hrx Hd Hi Hen Hdel; assert (Hz : zlen ws = t_len t) by (apply tx_words_len; lia).
  destruct (start_xfer spi t s Hlen Htx Hrx Hd Hi Hen) as (s1 & j & Hrun & Hb & Hsame & Hf & Hl & Hrx1); fold m ws in Hb, Hrun, Hsame; destruct Hsame as (A1 & A2 & A3 & A4 & A5).
  destruct (wait_run ws (w_sent (svw s)) (length ws) 0 _ j s1 ltac:(unfold zlen; lia) Hb Hf Hl) as (N & s2 & HN & Hall); [by rewrite A3|].
  destruct Hall as (B1 & B0 & B2 & _ & B4 & B5); rewrite A1, A2, A4, Hrx1 in *; fold m in B4, B5.
  destruct (end_lines spi s2 B0) as (s3 & Eend & E3 & E4 & E5); exists N, s3; rewrite E3, E4; split; [|done].
  intros f; rewrite Hrun, HN, bind_ok; cbn zeta; rewrite Eend, E5, B1, Hz; done.
Qed.

(** All answers, and the rest of the buffer. *)
Lemma rx_after_is m R L ws sent0 rx rx' : 0 <= m -> stored_at m R L ws sent0 (zlen ws) rx' -> rx_kept m (zlen ws) rx rx' -> rx' = rx_after m (snd (exchange R L ws sent0)) rx.
Proof.
  intros Hm; destruct rx as [l|], rx' as [l'|]; cbn; try done; intros [_ B4] [_ B5]; f_equal; rewrite <- (take_drop (Z.to_nat (m * zlen ws)) l'), B4, B5; unfold got_at; rewrite zlen_to_nat, firstn_all.
  f_equal; f_equal; pose proof (word_list_len m (snd (exchange R L ws sent0)) Hm) as Hw; pose proof (exchange_len R L ws sent0); unfold zlen in *; nia.
Qed.
End Main.
