(* ===== verification/Spi0Room.v ===== *)
(** What a transfer of the SPI master takes of its buffers, whatever the
    controller does: it comes to its end only if both hold as many words, not
    bytes, as the length says. *)
From S2P Require Import Prelude Spi0 Spi0Spec.

Definition has_room (m len : Z) (b : option (list Z)) : Prop := match b with None => True | Some l => m * len <= zlen l end.

Definition same_len (a b : option (list Z)) : Prop := match a, b with Some l, Some l' => zlen l' = zlen l | None, None => True | _, _ => False end.

Lemma has_room_same m len a b : same_len a b -> has_room m len b -> has_room m len a.
Proof. destruct a, b; cbn; [lia|done..]. Qed.

Section Room.
  Context {H : Type} `{!SpiHw H}.
  Implicit Types s : nuc970_spi H.

Definition wb s : Z := word_bytes (i_txbitlen (s_pdata s)).

Lemma tx_burst_room n : forall c off s s', tx_burst n c off s = Some s' -> 0 <= c -> c + Z.of_nat n < 4294967296 ->
  (exists h, s' = s <| s_hw := h |>) /\ ((0 < n)%nat -> has_room (wb s) (c + Z.of_nat n) (s_tx s)).
Proof.
  induction n as [|n IH]; intros c off s s' E Hc Hn; cbn [tx_burst] in E; [injection E as <-; split; [exists (s_hw s); by destruct s|lia]|].
  apply bind_Some in E as (w & Hb & E); rewrite u32_id in E by lia; destruct (IH _ _ _ _ E ltac:(lia) ltac:(lia)) as [[h ->] Hr]; split; [by exists h|]; intros _; change (wb (sreg_write w (REG_TX0 + off) s)) with (wb s) in Hr; change (s_tx (sreg_write w (REG_TX0 + off) s)) with (s_tx s) in Hr.
  destruct n as [|n]; [|replace (c + Z.of_nat (S (S n))) with (c + 1 + Z.of_nat (S n)) by lia; apply Hr; lia].
  unfold hw_tx in Hb; fold (wb s) in Hb; unfold has_room; destruct (s_tx s) as [l|]; [|done]; apply bind_Some in Hb as (x & Hrd & _); apply rdn_Some in Hrd; lia.
Qed.

Lemma rx_burst_room n : forall c off s s' l, rx_burst n c off s = Some s' -> s_rx s = Some l -> 0 <= c -> c + Z.of_nat n < 4294967296 ->
  (exists h l', s' = s <| s_rx := Some l' |> <| s_hw := h |> /\ zlen l' = zlen l) /\ ((0 < n)%nat -> wb s * (c + Z.of_nat n) <= zlen l).
Proof.
  induction n as [|n IH]; intros c off s s' l E Hl Hc Hn; cbn [rx_burst] in E; [injection E as <-; split; [exists (s_hw s), l; split; [destruct s; cbn in *; by subst|done]|lia]|].
  unfold sreg_read in E; destruct (reg_read (REG_RX0 + off) (s_hw s)) as [w h0]; apply bind_Some in E as (s1 & Hb & E); unfold hw_rx in Hb; cbn [s_rx s_pdata set] in Hb; rewrite Hl, bind_ok in Hb; apply bind_Some in Hb as (l1 & Hw & [= <-]).
  pose proof (wrn_len _ _ _ _ Hw) as Hl1; apply wrn_Some in Hw as (W1 & W2 & _); pose proof (word_bytes_pos (i_txbitlen (s_pdata s))) as Hm; fold (wb s) in W1, W2, Hm; unfold zlen in W2 at 1; rewrite bytes_of_word_len in W2.
  rewrite u32_id in E by lia; destruct (IH _ _ _ _ l1 E eq_refl ltac:(lia) ltac:(lia)) as [(h & l' & -> & Hl') Hr]; split; [exists h, l'; split; [reflexivity|lia]|]; intros _.
  destruct n as [|n]; [lia|]; replace (c + Z.of_nat (S (S n))) with (c + 1 + Z.of_nat (S n)) by lia; rewrite <- Hl1; apply Hr; lia.
Qed.

(** A transfer under way, as the driver's own fields tell: the words of the burst
    were taken from one buffer, those before it are in the other. *)
Record under_way (m len : Z) (tx rx : option (list Z)) s : Prop := {
  uw_len : s_len s = len /\ len < 4294967296;
  uw_bytes : wb s = m;
  uw_burst : 1 <= burst s <= 4 /\ 0 <= s_count s /\ s_count s + burst s <= len;
  uw_tx : has_room m (s_count s + burst s) (s_tx s);
  uw_bufs : s_tx s = tx /\ same_len rx (s_rx s);
}.

Definition over (m len : Z) (tx rx : option (list Z)) s : Prop := s_count s = len /\ has_room m len tx /\ has_room m len rx.

Lemma set_txnum_is n s : exists h, set_txnum n s = s <| s_pdata := (s_pdata s) <| i_txnum := n |> |> <| s_hw := h |>.
Proof. unfold set_txnum, nuc970_spi0_setup_txnum, sreg_update, sreg_read; destruct (reg_read REG_CNTRL (s_hw s)) as [v h]; by eexists. Qed.

Lemma update_is a f s : exists h, sreg_update a f s = s <| s_hw := h |>.
Proof. unfold sreg_update, sreg_read; destruct (reg_read a (s_hw s)) as [v h]; by eexists. Qed.

(** The answers of a burst fit. *)
Lemma irq_rx_room m len tx rx s s' : under_way m len tx rx s -> let c := s_count s + burst s in
  match s_rx s with Some _ => rx_burst (Z.to_nat (burst s)) (s_count s) 0 (s <| s_count := c |>) | None => Some (s <| s_count := c |>) end = Some s' ->
  exists h rx', s' = s <| s_count := c |> <| s_rx := rx' |> <| s_hw := h |> /\ has_room m c rx' /\ same_len rx rx'.
Proof.
  intros [[Hl Hl2] Hm [Hb [Hc Hcl]] Htx [_ Hsl]] c; destruct (s_rx s) as [l|] eqn:El; [|intros [= <-]; exists (s_hw s), None; split; [destruct s; cbn in *; by subst|done]].
  intros E; destruct (rx_burst_room _ _ _ _ _ l E El Hc) as [(h & l' & -> & Hl') Hr]; [lia|]; exists h, (Some l'); split; [done|]; split; [|destruct rx; cbn in *; [lia|done]]; cbn; rewrite Hl'; change (wb (s <| s_count := c |>)) with (wb s) in Hr; rewrite Hm in Hr; specialize (Hr ltac:(lia)); rewrite Z2Nat.id in Hr by lia; exact Hr.
Qed.

Lemma irq_room m len tx rx s s' : under_way m len tx rx s -> s_done s = false -> nuc970_spi0_irq s = Some s' -> (s_done s' = true /\ over m len tx rx s') \/ (s_done s' = false /\ under_way m len tx rx s').
Proof.
  intros Hu Hd E; pose proof (irq_rx_room m len tx rx s) as Hrx; pose proof Hu as [[Hl Hl2] Hm [Hb [Hc Hcl]] Htx [Etx Hsl]]; unfold nuc970_spi0_irq in E; rewrite (u32_id (s_count s + burst s)) in E by lia.
  set (c := s_count s + burst s) in *; apply bind_Some in E as (s1 & E1 & E); destruct (Hrx s1 Hu E1) as (h1 & rx' & -> & Hr1 & Hs1); clear E1 Hrx; set (s1 := s <| s_count := c |> <| s_rx := rx' |> <| s_hw := h1 |>) in *.
  change (s_count s1) with c in E; change (s_len s1) with (s_len s) in E; rewrite Hl, (u32_id (len - c)) in E by lia; apply bind_Some in E as (s2 & E2 & E); unfold sreg_read in E; destruct (reg_read REG_CNTRL (s_hw s2)) as [v h2]; injection E as <-.
  destruct (0 <? len - c) eqn:El; zbool.
  - right; set (s3 := if len - c <=? 4 then set_txnum (len - c - 1) s1 else s1) in E2; assert (H3 : exists h k, s3 = s1 <| s_pdata := (s_pdata s1) <| i_txnum := k |> |> <| s_hw := h |> /\ 1 <= burst s3 <= 4 /\ c + burst s3 <= len).
    { unfold s3; destruct (len - c <=? 4) eqn:E4; zbool.
      - destruct (set_txnum_is (len - c - 1) s1) as [h ->]; exists h, (len - c - 1); split; [done|]; unfold burst; cbn [i_txnum s_pdata set]; rewrite u32_id by lia; lia.
      - exists h1, (i_txnum (s_pdata s1)); split; [destruct s as [? ? ? ? ? [] ? ?]; reflexivity|]; change (burst s1) with (burst s); lia. }
    clearbody s3; destruct H3 as (h3 & k3 & -> & Hb3 & Hc3); apply bind_Some in E2 as (s4 & E4 & [= <-]); apply tx_burst_room in E4 as [[h4 ->] Hr4]; [|lia|lia]; specialize (Hr4 ltac:(lia)); rewrite Z2Nat.id in Hr4 by lia.
    unfold nuc970_spi0_gobusy; match goal with |- context [sreg_update REG_CNTRL ?f ?x] => destruct (update_is REG_CNTRL f x) as [h5 ->] end; split; [exact Hd|]; constructor; [done|exact Hm|split; [exact Hb3|split; [change (0 <= c); lia|exact Hc3]]| |].
    { change (wb _) with (wb s) in Hr4; rewrite Hm in Hr4; exact Hr4. }
    split; [exact Etx|exact Hs1].
  - left; injection E2 as <-; assert (Hcl' : c = len) by lia; rewrite Hcl' in *; split; [done|]; split; [done|]; split; [by rewrite <- Etx|exact (has_room_same _ _ _ _ Hs1 Hr1)].
Qed.

Lemma wait_room m len tx rx fuel : forall s s', under_way m len tx rx s -> s_done s = false -> wait_xfer fuel s = Some s' -> over m len tx rx s'.
Proof.
  induction fuel as [|fuel IH]; intros s s' Hu Hd E; cbn [wait_xfer] in E; rewrite Hd in E; [done|]; destruct (irq_line (s_hw s)).
  - apply bind_Some in E as (s1 & E1 & E); destruct (irq_room m len tx rx s s1 Hu Hd E1) as [[Hd1 Ho]|[Hd1 Hu1]]; [|exact (IH _ _ Hu1 Hd1 E)]; destruct fuel; cbn [wait_xfer] in E; rewrite Hd1 in E; injection E as <-; exact Ho.
  - refine (IH _ _ _ _ E); [|exact Hd]; destruct Hu; by constructor.
Qed.

Lemma set_lines_is t s : exists h, set_lines t s = s <| s_hw := h |>.
Proof.
  assert (Hid : exists h, s = s <| s_hw := h |>) by (exists (s_hw s); by destruct s); unfold set_lines; set (s1 := if nz (Z.land (t_tx_nbits t) SPI_NBITS_DUAL) then _ else _).
  assert (H1 : exists h, s1 = s <| s_hw := h |>) by (unfold s1; destruct (nz (Z.land (t_tx_nbits t) SPI_NBITS_DUAL)); [apply update_is|]; destruct (nz (Z.land (t_tx_nbits t) SPI_NBITS_QUAD)); [apply update_is|done]).
  clearbody s1; destruct H1 as [h ->]; assert (H2 : forall f, exists h', sreg_update REG_CNTRL f (s <| s_hw := h |>) = s <| s_hw := h' |>) by (intros f; destruct (update_is REG_CNTRL f (s <| s_hw := h |>)) as [h' ->]; by exists h').
  destruct (nz (Z.land (t_rx_nbits t) SPI_NBITS_DUAL)); [apply H2|]; destruct (nz (Z.land (t_rx_nbits t) SPI_NBITS_QUAD)); [apply H2|by exists h].
Qed.

(** A transfer that returns has had room, and it returns the length. *)
Lemma txrx_room f spi t s r s' : nuc970_spi0_txrx f spi t s = Some (r, s') -> s_done s = false -> 1 <= t_len t < 4294967296 ->
  let m := word_bytes (i_txbitlen (s_pdata s)) in r = t_len t /\ has_room m (t_len t) (t_tx_buf t) /\ has_room m (t_len t) (t_rx_buf t).
Proof.
  intros E Hd Hlen m; unfold nuc970_spi0_txrx in E; set (s1 := s <| s_tx := t_tx_buf t |> <| s_rx := t_rx_buf t |> <| s_len := t_len t |> <| s_count := 0 |>) in E; destruct (set_lines_is t s1) as [h1 E1]; rewrite E1 in E; clear E1.
  change (s_len (s1 <| s_hw := h1 |>)) with (t_len t) in E; set (n := Z.min 4 (t_len t)); set (s2 := if 4 <=? t_len t then _ else _) in E.
  assert (H2 : exists h, s2 = s1 <| s_pdata := (s_pdata s1) <| i_txnum := n - 1 |> |> <| s_hw := h |>).
  { assert (E2 : s2 = set_txnum (n - 1) (s1 <| s_hw := h1 |>)) by (unfold s2; destruct (4 <=? t_len t) eqn:E4; zbool; [|rewrite u32_id by lia]; f_equal; lia); rewrite E2; destruct (set_txnum_is (n - 1) (s1 <| s_hw := h1 |>)) as [h ->]; by exists h. }
  clearbody s2; destruct H2 as [h2 ->]; match type of E with context [burst ?x] => assert (Hb : burst x = n) by (unfold burst; cbn [i_txnum s_pdata set]; rewrite u32_id by lia; lia) end; rewrite Hb in E.
  apply bind_Some in E as (s3 & E3 & E); apply tx_burst_room in E3 as [[h3 ->] Hr]; [|lia|lia]; specialize (Hr ltac:(lia)); rewrite Z2Nat.id in Hr by lia; apply bind_Some in E as (s4 & E4 & E).
  unfold nuc970_spi0_gobusy in E4; match type of E4 with context [sreg_update REG_CNTRL ?f ?x] => destruct (update_is REG_CNTRL f x) as [h5 E5] end; rewrite E5 in E4; apply (wait_room m (t_len t) (t_tx_buf t) (t_rx_buf t)) in E4 as (C & R1 & R2); [| |exact Hd].
  - injection E as <- <-; match goal with |- context [if ?b then ?x else ?y] => assert (Hx : exists h, (if b then x else y) = y <| s_hw := h |>) by (destruct b; [apply update_is|exists (s_hw y); by destruct y]) end.
    destruct Hx as [h6 ->]; split; [exact C|]; split; [exact R1|exact R2].
  - match goal with |- under_way _ _ _ _ ?x => assert (Hb5 : burst x = n) by exact Hb; assert (Hc5 : s_count x = 0) by reflexivity end; constructor; rewrite ?Hb5, ?Hc5, ?Z.add_0_l.
    + split; [reflexivity|lia].
    + reflexivity.
    + lia.
    + exact Hr.
    + split; [reflexivity|]; change (same_len (t_rx_buf t) (t_rx_buf t)); by destruct (t_rx_buf t).
Qed.

(** ** Accesses outside of the buffers *)

(** The run of [wait_xfer] comes within [fuel] steps to an interrupt at which the
    handler accesses a buffer outside of its bounds. *)
Fixpoint wait_overruns (fuel : nat) s : Prop :=
  s_done s = false /\
  match fuel with
  | O => False
  | S fuel =>
      if irq_line (s_hw s) then match nuc970_spi0_irq s with Some s => wait_overruns fuel s | None => True end
      else wait_overruns fuel (s <| s_hw := tick (s_hw s) |>)
  end.

(** [nuc970_spi0_txrx] up to the first words. *)
Definition xfer_setup (t : spi_transfer) s : nuc970_spi H :=
  let s := s <| s_tx := t_tx_buf t |> <| s_rx := t_rx_buf t |> <| s_len := t_len t |> <| s_count := 0 |> in
  let s := set_lines t s in
  if 4 <=? s_len s then set_txnum 3 s else set_txnum (u32 (s_len s - 1)) s.

Definition first_burst (t : spi_transfer) s : option (nuc970_spi H) :=
  tx_burst (Z.to_nat (burst (xfer_setup t s))) 0 0 (xfer_setup t s).

(** The transfer accesses a buffer outside of its bounds: at once or within [fuel]
    steps. *)
Definition txrx_overruns (fuel : nat) (t : spi_transfer) s : Prop :=
  match first_burst t s with Some s => wait_overruns fuel (nuc970_spi0_gobusy s) | None => True end.

Lemma txrx_split fuel spi t s : nuc970_spi0_txrx fuel spi t s =
  (s ← first_burst t s; s ← wait_xfer fuel (nuc970_spi0_gobusy s);
   let s := if nz (Z.land (sd_mode spi) SPI_DUAL_QUAD) then sreg_update REG_CNTRL (fun v => Z.land v (Z.lnot (Z.shiftl 0x7 20))) s else s in Some (s_count s, s)).
Proof. reflexivity. Qed.

(** A run that accesses a buffer outside of its bounds has no result. *)
Lemma wait_overruns_none fuel : forall s fuel', wait_overruns fuel s -> wait_xfer fuel' s = None.
Proof.
  induction fuel as [|fuel IH]; intros s fuel' [Hd Ho]; [done|]; destruct fuel' as [|fuel']; cbn [wait_xfer]; rewrite Hd; [done|].
  destruct (irq_line (s_hw s)); [|by apply IH]; destruct (nuc970_spi0_irq s) as [s1|]; [|done]; rewrite bind_ok; by apply IH.
Qed.

Lemma txrx_overruns_none fuel fuel' spi t s : txrx_overruns fuel t s -> nuc970_spi0_txrx fuel' spi t s = None.
Proof.
  rewrite txrx_split; unfold txrx_overruns; destruct (first_burst t s) as [s1|]; [|done]; intros Ho; by rewrite bind_ok, (wait_overruns_none fuel _ fuel' Ho).
Qed.

(** The same run with longer buffers. *)
Definition pad (p q : list Z) s : nuc970_spi H := s <| s_tx := option_map (fun l => l ++ p) (s_tx s) |> <| s_rx := option_map (fun l => l ++ q) (s_rx s) |>.

Lemma update_pad p q a f s : sreg_update a f (pad p q s) = pad p q (sreg_update a f s).
Proof. unfold sreg_update, sreg_read; change (s_hw (pad p q s)) with (s_hw s); by destruct (reg_read a (s_hw s)). Qed.

Lemma hw_tx_pad p q c s w : hw_tx c s = Some w -> hw_tx c (pad p q s) = Some w.
Proof.
  unfold hw_tx; cbn [pad s_tx s_pdata set]; destruct (s_tx s) as [l|]; [|done]; cbn [option_map]; intros E; apply bind_Some in E as (b & Hb & E).
  by rewrite (rdn_app_l _ _ _ _ _ Hb), bind_ok.
Qed.

Lemma tx_burst_pad p q n : forall c off s s', tx_burst n c off s = Some s' -> tx_burst n c off (pad p q s) = Some (pad p q s').
Proof.
  induction n as [|n IH]; intros c off s s' E; cbn [tx_burst] in *; [by injection E as <-|]; apply bind_Some in E as (w & Hw & E).
  rewrite (hw_tx_pad _ _ _ _ _ Hw), bind_ok; exact (IH _ _ _ _ E).
Qed.

Lemma hw_rx_pad p q w c s s' : hw_rx w c s = Some s' -> hw_rx w c (pad p q s) = Some (pad p q s').
Proof.
  unfold hw_rx; cbn [pad s_rx s_pdata set]; destruct (s_rx s) as [l|]; [|done]; cbn [option_map]; rewrite !bind_ok; intros E; apply bind_Some in E as (b & Hb & E).
  rewrite (wrn_app_l _ _ _ _ _ Hb), bind_ok; by injection E as <-.
Qed.

Lemma rx_burst_pad p q n : forall c off s s', rx_burst n c off s = Some s' -> rx_burst n c off (pad p q s) = Some (pad p q s').
Proof.
  induction n as [|n IH]; intros c off s s' E; cbn [rx_burst] in *; [by injection E as <-|]; unfold sreg_read in *; change (s_hw (pad p q s)) with (s_hw s).
  destruct (reg_read _ (s_hw s)) as [w h]; apply bind_Some in E as (s1 & Hw & E); apply (hw_rx_pad p q) in Hw; change ((pad p q s) <| s_hw := h |>) with (pad p q (s <| s_hw := h |>)).
  rewrite Hw, bind_ok; exact (IH _ _ _ _ E).
Qed.

Lemma set_txnum_pad p q n s : set_txnum n (pad p q s) = pad p q (set_txnum n s).
Proof. unfold set_txnum, nuc970_spi0_setup_txnum, sreg_update, sreg_read; cbn [pad s_hw set]; by destruct (reg_read _ _). Qed.

Lemma irq_pad p q s s' : nuc970_spi0_irq s = Some s' -> nuc970_spi0_irq (pad p q s) = Some (pad p q s').
Proof.
  unfold nuc970_spi0_irq; change (s_count (pad p q s)) with (s_count s); change (burst (pad p q s)) with (burst s).
  set (c := u32 _); change ((pad p q s) <| s_count := c |>) with (pad p q (s <| s_count := c |>)); set (s0 := s <| s_count := c |>); intros E; apply bind_Some in E as (s1 & E1 & E).
  assert (E1' : match s_rx (pad p q s0) with Some _ => rx_burst (Z.to_nat (burst s)) (s_count s) 0 (pad p q s0) | None => Some (pad p q s0) end = Some (pad p q s1)).
  { change (s_rx (pad p q s0)) with (option_map (fun l => l ++ q) (s_rx s)); change (s_rx s0) with (s_rx s) in E1; destruct (s_rx s); cbn [option_map] in *; [by apply rx_burst_pad | congruence]. }
  change (burst s0) with (burst s) in *; change (burst (pad p q s0)) with (burst s) in *; rewrite E1', bind_ok; apply bind_Some in E as (s2 & E2 & E).
  change (s_len (pad p q s1)) with (s_len s1); change (s_count (pad p q s1)) with (s_count s1); set (last := u32 (s_len s1 - s_count s1)) in *.
  match goal with |- context [mbind _ ?x] => assert (E2' : x = Some (pad p q s2)) end.
  { destruct (0 <? last); [|by injection E2 as <-]; set (s3 := if last <=? 4 then set_txnum (last - 1) s1 else s1) in E2.
    assert ((if last <=? 4 then set_txnum (last - 1) (pad p q s1) else pad p q s1) = pad p q s3) as -> by (unfold s3; destruct (last <=? 4); [apply set_txnum_pad | done]).
    apply bind_Some in E2 as (s4 & E4 & [= <-]); change (burst (pad p q s3)) with (burst s3); change (s_count (pad p q s3)) with (s_count s3).
    rewrite (tx_burst_pad _ _ _ _ _ _ _ E4), bind_ok; unfold nuc970_spi0_gobusy; by rewrite update_pad. }
  rewrite E2', bind_ok; unfold sreg_read in *; change (s_hw (pad p q s2)) with (s_hw s2); destruct (reg_read REG_CNTRL (s_hw s2)) as [v h]; by injection E as <-.
Qed.

(** Where the run with longer buffers ends, the run itself ends or fails by an access. *)
Lemma wait_pad p q fuel : forall s r, wait_xfer fuel (pad p q s) = Some r -> is_Some (wait_xfer fuel s) \/ wait_overruns fuel s.
Proof.
  induction fuel as [|fuel IH]; intros s r E; cbn [wait_xfer wait_overruns] in *; change (s_done (pad p q s)) with (s_done s) in E; (destruct (s_done s); [left; by eexists|]); [done|].
  change (s_hw (pad p q s)) with (s_hw s) in E; destruct (irq_line (s_hw s)).
  - destruct (nuc970_spi0_irq s) as [s1|] eqn:E1; [|by right]; rewrite (irq_pad _ _ _ _ E1), bind_ok in E; destruct (IH _ _ E) as [Hw|Ho]; [by left | by right].
  - change ((pad p q s) <| s_hw := _ |>) with (pad p q (s <| s_hw := tick (s_hw s) |>)) in E; destruct (IH _ _ E) as [Hw|Ho]; [by left | by right].
Qed.

Definition pad_xfer (p q : list Z) (t : spi_transfer) : spi_transfer :=
  mk_xfer (option_map (fun l => l ++ p) (t_tx_buf t)) (option_map (fun l => l ++ q) (t_rx_buf t)) (t_len t) (t_tx_nbits t) (t_rx_nbits t) (t_bits_per_word t) (t_speed_hz t).

Lemma set_lines_pad p q t t' s : t_tx_nbits t' = t_tx_nbits t -> t_rx_nbits t' = t_rx_nbits t -> set_lines t' (pad p q s) = pad p q (set_lines t s).
Proof.
  unfold set_lines; intros -> ->; destruct (nz (Z.land (t_tx_nbits t) SPI_NBITS_DUAL)), (nz (Z.land (t_tx_nbits t) SPI_NBITS_QUAD)), (nz (Z.land (t_rx_nbits t) SPI_NBITS_DUAL)), (nz (Z.land (t_rx_nbits t) SPI_NBITS_QUAD));
    by rewrite ?update_pad.
Qed.

Lemma xfer_setup_pad p q t s : xfer_setup (pad_xfer p q t) s = pad p q (xfer_setup t s).
Proof.
  unfold xfer_setup; change (t_len (pad_xfer p q t)) with (t_len t).
  match goal with |- context [set_lines (pad_xfer p q t) ?x] => match goal with |- context [set_lines t ?y] => change x with (pad p q y); rewrite (set_lines_pad p q t) by done; set (z := set_lines t y) end end.
  change (s_len (pad p q z)) with (s_len z); destruct (4 <=? s_len z); apply set_txnum_pad.
Qed.

Lemma txrx_pad p q fuel spi t s r : nuc970_spi0_txrx fuel spi (pad_xfer p q t) s = Some r -> is_Some (nuc970_spi0_txrx fuel spi t s) \/ txrx_overruns fuel t s.
Proof.
  rewrite !txrx_split; unfold txrx_overruns, first_burst; rewrite xfer_setup_pad; change (burst (pad p q (xfer_setup t s))) with (burst (xfer_setup t s)); intros E; destruct (tx_burst _ 0 0 (xfer_setup t s)) as [s1|] eqn:E1; [|by right].
  rewrite (tx_burst_pad _ _ _ _ _ _ _ E1), bind_ok in E; apply bind_Some in E as (s2 & E2 & _); unfold nuc970_spi0_gobusy in E2; rewrite update_pad in E2.
  destruct (wait_pad _ _ _ _ _ E2) as [[s3 H3]|Ho]; [left | by right]; rewrite bind_ok; unfold nuc970_spi0_gobusy; rewrite H3, bind_ok; by eexists.
Qed.
End Room.
