(* ===== verification/Spi0Mode.v ===== *)
(** The mode of a device in the control register of the SPI master. *)
From S2P Require Import Prelude Spi0 Spi0Spec.

(** The control bits of a mode: word length, edges, polarity of the clock, order
    of the bits; [cpha] says at which edge data are taken. *)
Definition MODE_MASK : Z := 0x800004fe.

Definition mode_bits (cpha pol lsb : bool) (bpw : Z) : Z :=
  Z.lor (if bpw =? 32 then 0 else Z.shiftl bpw 3) (Z.lor (if cpha then RXNEG else TXNEG) (Z.lor (if pol then SELECTPOL else 0) (if lsb then LSB else 0))).

Definition mode_word (cpha : bool) (mode bpw : Z) : Z := mode_bits cpha (nz (Z.land mode SPI_CPOL)) (nz (Z.land mode SPI_LSB_FIRST)) bpw.

(** The phase that is set: any other flag of the low byte counts as one. *)
Definition set_cpha (mode : Z) : bool := negb ((Z.land mode 0xff =? SPI_MODE_0) || (Z.land mode 0xff =? SPI_MODE_2)).

Lemma put_bits_cfg (on : bool) m v : put_bits on m v = Z.lor (Z.land v (Z.lnot m)) (if on then m else 0).
Proof.
  unfold put_bits; destruct on; [|by rewrite Z.lor_0_r]; apply Z.bits_inj'; intros k Hk; rewrite !Z.lor_spec, Z.land_spec, Z.lnot_spec by done; by destruct (Z.testbit v k), (Z.testbit m k).
Qed.

(** Two changes are one. *)
Lemma cfg_cfg A B A' B' c : cfg A' B' (cfg A B c) = cfg (Z.land A A') (Z.lor (Z.land B A') B') c.
Proof.
  unfold cfg; rewrite !u32_mask; apply Z.bits_inj'; intros k Hk; rewrite !Z.land_spec, !Z.lor_spec, !Z.land_spec, Z.lor_spec, !Z.land_spec.
  by destruct (Z.testbit c k), (Z.testbit A k), (Z.testbit B k), (Z.testbit A' k), (Z.testbit B' k), (Z.testbit 0xFFFFFFFF k), (Z.testbit (Z.lnot (Z.lor ENFLG GOBUSY)) k).
Qed.

(** A change of other bits than the flags. *)
Lemma cfg_plain A B c : 0 <= c < 4294967296 -> Z.land c (Z.lor ENFLG GOBUSY) = 0 -> Z.land B 0xFFFEFFFE = B -> cfg A B c = Z.lor (Z.land c A) B.
Proof.
  intros Hw Hz HB; pose proof (cfg_land A B c (-1) _ _ eq_refl eq_refl) as E; rewrite !Z.land_m1_r in E; rewrite E, HB; f_equal; pose proof (cfg_id c 0 Hw Hz eq_refl) as Hc; rewrite Z.lor_0_r, u32_mask, <- Z.land_assoc in Hc.
  rewrite (Z.land_comm A), Z.land_assoc; f_equal; exact Hc.
Qed.

(** Bit by bit as the driver sets them. *)
Definition mode_steps (cpha pol lsb : bool) (bpw : Z) : Z :=
  let B := if bpw =? 32 then 0 else Z.shiftl bpw 3 in
  let B := Z.lor (Z.land B (Z.lnot TXNEG)) (if negb cpha then TXNEG else 0) in
  let B := Z.lor (Z.land B (Z.lnot RXNEG)) (if cpha then RXNEG else 0) in
  let B := Z.lor (Z.land B (Z.lnot SELECTPOL)) (if pol then SELECTPOL else 0) in
  Z.lor (Z.land B (Z.lnot LSB)) (if lsb then LSB else 0).

Lemma mode_steps_bits cpha pol lsb bpw : 1 <= bpw <= 32 -> mode_steps cpha pol lsb bpw = mode_bits cpha pol lsb bpw /\ Z.land (mode_bits cpha pol lsb bpw) 0xFFFEFFFE = mode_bits cpha pol lsb bpw.
Proof.
  intros Hb; assert (Hall : Forall (fun n => mode_steps cpha pol lsb n = mode_bits cpha pol lsb n /\ Z.land (mode_bits cpha pol lsb n) 0xFFFEFFFE = mode_bits cpha pol lsb n) (seqZ 1 32)).
  { destruct cpha, pol, lsb; repeat constructor. }
  rewrite Forall_forall in Hall; apply Hall, elem_of_seqZ; lia.
Qed.

Lemma mode_bits_len cpha pol lsb bpw c : 1 <= bpw <= 32 -> bits_of (Z.lor (Z.land c (Z.lnot MODE_MASK)) (mode_bits cpha pol lsb bpw)) = bpw.
Proof.
  intros Hb; rewrite bits_of_land, Z.land_lor_distr_l, <- Z.land_assoc; change (Z.land (Z.lnot MODE_MASK) 0xf8) with 0; rewrite Z.land_0_r, Z.lor_0_l; set (len n := Z.shiftr (Z.land (mode_bits cpha pol lsb n) 0xf8) 3).
  assert (Hall : Forall (fun n => (if len n =? 0 then 32 else len n) = n) (seqZ 1 32)) by (unfold len; destruct cpha, pol, lsb; repeat constructor).
  rewrite Forall_forall in Hall; apply (Hall bpw), elem_of_seqZ; lia.
Qed.

(** The low bits of a mode without other flags. *)
Lemma plain_mode mode : Z.land mode 0xfc = 0 -> set_cpha mode = nz (Z.land mode SPI_CPHA).
Proof.
  intros Hm; unfold set_cpha; assert (E : Z.land mode 0xff = Z.land mode 0x3) by (change 0xff with (Z.lor 0xfc 0x3); by rewrite Z.land_lor_distr_r, Hm, Z.lor_0_l).
  replace (Z.land mode SPI_CPHA) with (Z.land (Z.land mode 0x3) SPI_CPHA) by (by rewrite <- Z.land_assoc); rewrite E; change 0x3 with (Z.ones 2); rewrite Z.land_ones by lia; pose proof (Z.mod_pos_bound mode (2 ^ 2)) as Hr.
  assert (Hc : mode mod 2 ^ 2 = 0 \/ mode mod 2 ^ 2 = 1 \/ mode mod 2 ^ 2 = 2 \/ mode mod 2 ^ 2 = 3) by lia; by destruct Hc as [->|[->|[->| ->]]].
Qed.

Lemma flip_keeps x y m : Z.land y m = 0 -> Z.land (Z.lxor x y) m = Z.land x m.
Proof.
  intros Hy; apply Z.bits_inj'; intros k Hk; assert (Hb : Z.testbit (Z.land y m) k = false) by (rewrite Hy; apply Z.bits_0); rewrite !Z.land_spec, Z.lxor_spec; rewrite Z.land_spec in Hb; by destruct (Z.testbit x k), (Z.testbit y k), (Z.testbit m k).
Qed.

(** With another flag the phase is always one. *)
Lemma flagged_mode mode : Z.land mode 0xfc <> 0 -> set_cpha mode = true.
Proof.
  intros Hm; unfold set_cpha; destruct (Z.land mode 0xff =? SPI_MODE_0) eqn:E0; [|destruct (Z.land mode 0xff =? SPI_MODE_2) eqn:E2; [|done]]; zbool; exfalso; apply Hm; change 0xfc with (Z.land 0xff 0xfc); rewrite Z.land_assoc; [by rewrite E0|by rewrite E2].
Qed.

Section Mode.
  Context {H : Type} `{!SpiHw H, !SpiLaws H}.
  Implicit Types s : nuc970_spi H.

(** Only the control register changes: the bits of [A] are kept, those of [B] set. *)
Definition recfg (A B : Z) s s' : Prop :=
  exists h b, s' = s <| s_hw := h |> /\ sview h = (svw s) <| w_cntrl := cfg A B (w_cntrl (svw s)) |> <| w_flag := b |>.

Lemma recfg_step f A B s : w_left (svw s) = None -> (forall v, f v = Z.lor (Z.land v A) B) -> Z.testbit A 16 = true -> Z.testbit B 16 = false -> Z.testbit B 0 = false -> recfg A B s (sreg_update REG_CNTRL f s).
Proof. intros Hi Hf HA HB HB0; destruct (update_cfg f A B s Hi Hf HA HB HB0) as (h & E & V); by exists h, false. Qed.

Lemma recfg_idle A B s s' : recfg A B s s' -> w_left (svw s) = None -> w_left (svw s') = None.
Proof. intros (h & b & -> & V) Hi; change (w_left (sview h) = None); by rewrite V. Qed.

Lemma recfg_trans A B A' B' s s' s'' : recfg A B s s' -> recfg A' B' s' s'' -> recfg (Z.land A A') (Z.lor (Z.land B A') B') s s''.
Proof. intros (h & b & -> & V) (h' & b' & -> & V'); exists h', b'; split; [done|]; rewrite V'; change (svw (s <| s_hw := h |>)) with (sview h); rewrite V; cbn [w_cntrl set]; rewrite cfg_cfg; by destruct (svw s). Qed.

Lemma recfg_bits (on : bool) m s : w_left (svw s) = None -> Z.testbit m 16 = false -> Z.testbit m 0 = false -> recfg (Z.lnot m) (if on then m else 0) s (sreg_update REG_CNTRL (put_bits on m) s).
Proof. intros Hi H1 H0; apply recfg_step; [done|intros v; apply put_bits_cfg|by rewrite Z.lnot_spec, H1 by lia|by destruct on..]. Qed.

Lemma recfg_bitlen n s : w_left (svw s) = None -> 1 <= n <= 32 -> recfg (Z.lnot 0xf8) (if n =? 32 then 0 else Z.shiftl n 3) s (nuc970_spi0_setup_txbitlen n s).
Proof.
  intros Hi Hn; assert (Hb : forall k, k = 0 \/ k = 16 -> n < 32 -> Z.testbit (Z.shiftl n 3) k = false).
  { intros k Hk Hn'; destruct Hk as [->| ->]; [by rewrite Z.shiftl_spec_low by lia|]; rewrite Z.shiftl_spec by lia; apply (Z.bits_above_log2 n (16 - 3)); [lia|]; pose proof (Z.log2_le_mono n 31); change (Z.log2 31) with 4 in *; lia. }
  unfold nuc970_spi0_setup_txbitlen; apply recfg_step; [done| |done|..].
  - intros v; destruct (n =? 32) eqn:E; cbn [negb]; zbool; [by rewrite Z.lor_0_r|]; f_equal; rewrite Z.shiftl_mul_pow2 by lia; apply u32_id; lia.
  - destruct (n =? 32) eqn:E; [done|]; zbool; apply Hb; [by right|lia].
  - destruct (n =? 32) eqn:E; [done|]; zbool; apply Hb; [by left|lia].
Qed.

(** What [nuc970_spi0_update_state] keeps for the device. *)
Lemma update_state_is spi t s s' : nuc970_spi0_update_state spi t s = Some s' -> let p := s_pdata s' in
  s' = s <| s_pdata := p |> /\
  i_txbitlen p = match t with Some t => t_bits_per_word t | None => sd_bits_per_word spi end /\
  i_hz p = match t with Some t => t_speed_hz t | None => sd_max_speed_hz spi end /\
  i_clkpol p = Z.b2z (nz (Z.land (sd_mode spi) SPI_CPOL)) /\ i_lsb p = Z.b2z (nz (Z.land (sd_mode spi) SPI_LSB_FIRST)) /\
  i_txneg p = Z.b2z (negb (set_cpha (sd_mode spi))) /\ i_rxneg p = Z.b2z (set_cpha (sd_mode spi)) /\ i_txnum p = i_txnum (s_pdata s).
Proof.
  unfold nuc970_spi0_update_state, set_cpha; rewrite negb_involutive, (u8_id (Z.land (sd_mode spi) 0xff)) by (change 0xff with (Z.ones 8); rewrite Z.land_ones by lia; pose proof (Z.mod_pos_bound (sd_mode spi) (2 ^ 8)); unfold is_u8; lia).
  set (edges := (Z.land (sd_mode spi) 0xff =? SPI_MODE_0) || (Z.land (sd_mode spi) 0xff =? SPI_MODE_2)); destruct t as [t|]; cbn beta iota; intros E; apply bind_Some in E as (p & E & [= <-]); clearbody edges;
    (match type of E with (if negb (?a =? ?b) then _ else _) = _ => destruct (a =? b) eqn:Eh end; cbn [negb] in E; [injection E as <-; zbool|apply bind_Some in E as (d & _ & [= <-])]);
    cbn; repeat (match goal with |- context [nz ?x] => destruct (nz x) end); by destruct edges.
Qed.

(** The speed can be worked out. *)
Lemma update_state_ok spi t s : 1 <= t_speed_hz t < 2147483648 -> exists s', nuc970_spi0_update_state spi (Some t) s = Some s'.
Proof.
  intros Hz; unfold nuc970_spi0_update_state; cbn beta iota; match goal with |- context [if negb ?b then _ else _] => destruct b end; cbn [negb]; [rewrite bind_ok; by eexists|].
  unfold divider_of; rewrite u32_id by lia; destruct (t_speed_hz t * 2 =? 0) eqn:E; zbool; [lia|]; rewrite !bind_ok; by eexists.
Qed.

(** The five changes of [nuc970_spi0_setupxfer] make the mode. *)
Lemma setupxfer_mode spi t s : w_left (svw s) = None -> let bpw := match t with Some t => t_bits_per_word t | None => sd_bits_per_word spi end in
  1 <= bpw <= 32 -> forall s1, nuc970_spi0_update_state spi t s = Some s1 ->
  exists h b, nuc970_spi0_setupxfer spi t s = Some (s1 <| s_hw := h |>) /\
    sview h = (svw s) <| w_cntrl := Z.lor (Z.land (w_cntrl (svw s)) (Z.lnot MODE_MASK)) (mode_word (set_cpha (sd_mode spi)) (sd_mode spi) bpw) |> <| w_flag := b |>.
Proof.
  intros Hi bpw Hb s1 E; destruct (update_state_is _ _ _ _ E) as (E1 & Pb & _ & Pc & Pl & Pt & Pr & _); fold bpw in Pb; unfold nuc970_spi0_setupxfer; step_ok E; rewrite Pb, Pc, Pl, Pt, Pr.
  assert (V1 : svw s1 = svw s) by (by rewrite E1); assert (Hz : forall b, nz (Z.b2z b) = b) by (by intros []); unfold nuc970_send_first, nuc970_set_clock_polarity, nuc970_rx_edge, nuc970_tx_edge; rewrite !Hz.
  set (cpha := set_cpha (sd_mode spi)); set (pol := nz (Z.land (sd_mode spi) SPI_CPOL)); set (lsb := nz (Z.land (sd_mode spi) SPI_LSB_FIRST)).
  assert (I1 : w_left (svw s1) = None) by (by rewrite V1); pose proof (recfg_bitlen bpw s1 I1 Hb) as M1; set (s2 := nuc970_spi0_setup_txbitlen bpw s1) in *; clearbody s2; pose proof (recfg_idle _ _ _ _ M1 I1) as I2.
  pose proof (recfg_bits (negb cpha) TXNEG s2 I2 eq_refl eq_refl) as M2; set (s3 := sreg_update REG_CNTRL (put_bits (negb cpha) TXNEG) s2) in *; clearbody s3; pose proof (recfg_idle _ _ _ _ M2 I2) as I3.
  pose proof (recfg_bits cpha RXNEG s3 I3 eq_refl eq_refl) as M3; set (s4 := sreg_update REG_CNTRL (put_bits cpha RXNEG) s3) in *; clearbody s4; pose proof (recfg_idle _ _ _ _ M3 I3) as I4.
  pose proof (recfg_bits pol SELECTPOL s4 I4 eq_refl eq_refl) as M4; set (s5 := sreg_update REG_CNTRL (put_bits pol SELECTPOL) s4) in *; clearbody s5; pose proof (recfg_idle _ _ _ _ M4 I4) as I5.
  pose proof (recfg_bits lsb LSB s5 I5 eq_refl eq_refl) as M5; destruct (recfg_trans _ _ _ _ _ _ _ (recfg_trans _ _ _ _ _ _ _ (recfg_trans _ _ _ _ _ _ _ (recfg_trans _ _ _ _ _ _ _ M1 M2) M3) M4) M5) as (h & b & -> & V); exists h, b; split; [done|]; rewrite V, V1.
  destruct (mode_steps_bits cpha pol lsb bpw Hb) as [ES HB]; rewrite <- ES in HB; pose proof (cfg_plain (Z.lnot MODE_MASK) _ _ (sview_word (s_hw s)) (sview_flags (s_hw s)) HB) as Hc; rewrite ES in Hc at 2; unfold mode_word; fold pol lsb; fold (svw s) in Hc; rewrite <- Hc; reflexivity.
Qed.
End Mode.
