(* ===== verification/Spi0Ref.v ===== *)
(** A reference SPI controller that keeps the promises of [SpiLaws]. *)
From S2P Require Import Prelude Spi0 Spi0Spec.

Module RefSpi.

(** Four words each way, and a control register without its flags. *)
Definition sane (v : spi_view) : Prop :=
  length (w_tx v) = 4%nat /\ length (w_rx v) = 4%nat /\ Z.land (w_cntrl v) (Z.lor ENFLG GOBUSY) = 0 /\ 0 <= w_cntrl v < 4294967296.

Definition four (l : list Z) : list Z := take 4 (l ++ replicate 4 0).

Definition seen (v : spi_view) : spi_view :=
  v <| w_tx := four (w_tx v) |> <| w_rx := four (w_rx v) |> <| w_cntrl := Z.land (u32 (w_cntrl v)) (Z.lnot (Z.lor ENFLG GOBUSY)) |>.

Definition ref_read (a : Z) (v : spi_view) : Z * spi_view :=
  let v := adv (seen v) in
  (if a =? REG_CNTRL then cntrl_value v else if a =? REG_SSR then w_ssr v
   else if a =? REG_DIVIDER then w_div v else default 0 (rd (w_rx v) ((a - REG_RX0) / 4)), v).

Definition ref_write (x a : Z) (v : spi_view) : spi_view :=
  let v := adv (seen v) in
  if a =? REG_CNTRL then write_cntrl x v else if a =? REG_SSR then v <| w_ssr := x |>
  else if a =? REG_DIVIDER then v <| w_div := x |> else v <| w_tx := <[Z.to_nat ((a - REG_TX0) / 4) := x]> (w_tx v) |>.

#[export] Instance ref_spi : SpiHw spi_view := {
  reg_read := ref_read; reg_write x a v := ref_write x a v; irq_line v := w_flag v && nz (Z.land (w_cntrl (seen v)) ENINT);
  tick v := adv (seen v); clk_rate _ := 75000000;
}.

Lemma four_len l : length (four l) = 4%nat.
Proof. unfold four; rewrite length_take, length_app, length_replicate; lia. Qed.

Lemma four_id l : length l = 4%nat -> four l = l.
Proof. intros Hl; unfold four; by rewrite take_app_length' by lia. Qed.

Lemma land_low x m : 0 <= x < 4294967296 -> 0 <= Z.land x m < 4294967296.
Proof.
  intros Hx; assert (E : Z.land x m = Z.land (Z.land x m) (Z.ones 32)) by (rewrite <- Z.land_assoc, (Z.land_comm m), Z.land_assoc, Z.land_ones by lia; by rewrite Z.mod_small by (change (2 ^ 32) with 4294967296; lia)).
  rewrite E, Z.land_ones by lia; apply Z.mod_pos_bound; lia.
Qed.

Lemma masked x : 0 <= x < 4294967296 -> let c := Z.land x (Z.lnot (Z.lor ENFLG GOBUSY)) in Z.land c (Z.lor ENFLG GOBUSY) = 0 /\ 0 <= c < 4294967296.
Proof. intros Hx; split; [rewrite <- Z.land_assoc; apply Z.land_0_r|by apply land_low]. Qed.

Lemma seen_sane v : sane (seen v).
Proof. unfold sane, seen; destruct (masked _ (u32_range (w_cntrl v))); cbn [w_tx w_rx w_cntrl set]; by rewrite !four_len. Qed.

Lemma sane_seen v : sane v -> seen v = v.
Proof.
  intros (H1 & H2 & H3 & H4); unfold seen; rewrite !four_id by done; pose proof (cfg_id (w_cntrl v) 0 H4 H3 eq_refl) as Hc; rewrite Z.lor_0_r in Hc; rewrite Hc; by destruct v.
Qed.

Lemma burst_of_range c : 1 <= burst_of c <= 4.
Proof. unfold burst_of; change 0x3 with (Z.ones 2); rewrite Z.land_ones by lia; pose proof (Z.mod_pos_bound (Z.shiftr c 8) (2 ^ 2)); lia. Qed.

Lemma finish_sane v : sane v -> sane (finish v).
Proof.
  intros (H1 & H2 & H3 & H4); unfold finish; set (n := Z.to_nat (burst_of (w_cntrl v))); pose proof (burst_of_range (w_cntrl v)) as Hb.
  pose proof (exchange_len (w_reply v) (bits_of (w_cntrl v)) (take n (w_tx v)) (w_sent v)) as Hl; destruct (exchange _ _ _ _) as [sent rs]; cbn [snd] in Hl; rewrite length_take in Hl.
  unfold sane; cbn [w_tx w_rx w_cntrl set]; rewrite length_app, length_drop; split; [done|]; split; [lia|done].
Qed.

Lemma adv_sane v : sane v -> sane (adv v).
Proof. intros Hv; unfold adv; destruct (w_left v) as [[|k]|]; [by apply finish_sane|done|done]. Qed.

Lemma write_sane x v : 0 <= x < 4294967296 -> sane v -> sane (write_cntrl x v).
Proof. intros Hx (H1 & H2 & H3 & H4); destruct (masked x Hx) as [M1 M2]; unfold write_cntrl; cbn [w_left set]; by destruct (w_left v), (Z.testbit x 0). Qed.

Lemma next_sane v : seen (adv (seen v)) = adv (seen v).
Proof. apply sane_seen, adv_sane, seen_sane. Qed.

Lemma word_reg k : (REG_TX0 + k * 4 - REG_TX0) / 4 = k /\ (0 <= k -> (REG_TX0 + k * 4 =? REG_CNTRL) = false /\ (REG_TX0 + k * 4 =? REG_SSR) = false /\ (REG_TX0 + k * 4 =? REG_DIVIDER) = false).
Proof. unfold REG_TX0, REG_CNTRL, REG_SSR, REG_DIVIDER; split; [replace (0x10 + k * 4 - 0x10) with (k * 4) by lia; apply Z.div_mul; lia|]; intros Hk; repeat split; apply Z.eqb_neq; lia. Qed.

#[export] Program Instance ref_laws : SpiLaws spi_view := { sview := seen }.
Next Obligation. intros v; split; apply four_len. Qed.
Next Obligation. intros v; apply (proj1 (proj2 (proj2 (seen_sane v)))). Qed.
Next Obligation. intros v; apply (proj2 (proj2 (proj2 (seen_sane v)))). Qed.
Next Obligation. intros a v; apply next_sane. Qed.
Next Obligation. done. Qed.
Next Obligation.
  intros k v Hk; cbn [reg_read ref_spi]; unfold ref_read; change REG_RX0 with REG_TX0; destruct (word_reg k) as [-> Hne]; destruct Hne as (-> & -> & ->); [lia|]; cbn [fst].
  destruct (adv_sane _ (seen_sane v)) as (_ & Hl & _); destruct (lookup_lt_is_Some_2 (w_rx (adv (seen v))) (Z.to_nat k) ltac:(lia)) as [x Hx]; assert (E : rd (w_rx (adv (seen v))) k = Some x) by (apply rd_Some; split; [lia|done]); by rewrite E.
Qed.
Next Obligation. done. Qed.
Next Obligation. intros x v Hx; cbn [reg_write ref_spi]; unfold ref_write; apply sane_seen, write_sane; [done|]; apply adv_sane, seen_sane. Qed.
Next Obligation.
  intros k x v Hk; cbn [reg_write ref_spi]; unfold ref_write; destruct (word_reg k) as [-> Hne]; destruct Hne as (-> & -> & ->); [lia|].
  destruct (adv_sane _ (seen_sane v)) as (H1 & H2 & H3 & H4); apply sane_seen; unfold sane; cbn [w_tx w_rx w_cntrl set]; by rewrite length_insert.
Qed.
Next Obligation. intros x v; apply sane_seen; exact (adv_sane _ (seen_sane v)). Qed.
Next Obligation. done. Qed.
Next Obligation. intros v; apply next_sane. Qed.
Next Obligation. intros x v; apply sane_seen; exact (adv_sane _ (seen_sane v)). Qed.

End RefSpi.
