(* ===== verification/Spi0Props.v ===== *)
(** The SPI master: transfers over every controller and slave, what they need of
    their buffers, the interrupt that a fast bus loses, modes and speeds. *)
From S2P Require Import Prelude Spi0 Spi0Spec Spi0Main Spi0Room Spi0Mode Spi0Ref.

(** ** Transfers *)
Section Transfers.
  Context {H : Type} `{!SpiHw H, !SpiLaws H}.
  Implicit Types s : nuc970_spi H.

(** Nothing happens any more. *)
Lemma wait_stuck fuel : forall s, s_done s = false -> w_flag (svw s) = false -> w_left (svw s) = None -> wait_xfer fuel s = None.
Proof.
  induction fuel as [|fuel IH]; intros s Hd Hf Hl; cbn [wait_xfer]; rewrite Hd; [done|]; rewrite sview_irq; fold (svw s); rewrite Hf; cbn [andb]; apply IH; [done|..].
  all: change (svw (s <| s_hw := tick (s_hw s) |>)) with (sview (tick (s_hw s))); rewrite sview_tick; fold (svw s); by rewrite adv_idle.
Qed.

Lemma wait_more n fuel : forall s s', wait_xfer fuel s = Some s' -> wait_xfer (n + fuel) s = Some s'.
Proof.
  intros s s'; rewrite Nat.add_comm; revert s s'; induction fuel as [|fuel IH]; intros s s'; cbn [wait_xfer Nat.add]; destruct (s_done s) eqn:Ed.
  - destruct n; cbn [wait_xfer]; by rewrite Ed.
  - done.
  - done.
  - destruct (irq_line (s_hw s)); [|apply IH]; intros E; apply bind_Some in E as (s1 & E1 & E); rewrite E1, bind_ok; by apply IH.
Qed.

(** After the first burst the interrupt of the second one is cleared unseen. *)
Lemma second_lost ws sent0 j s : in_burst ws sent0 0 4 s -> 4 < zlen ws -> w_flag (svw s) = false -> w_left (svw s) = Some j -> (forall k, w_delay (svw s) k = 0%nat) -> forall f, wait_xfer f s = None.
Proof.
  intros Hb Hlen Hf Hl Hdel f; destruct (wait_ticks j s (ib_done _ _ _ _ _ Hb) Hf Hl) as (s1 & E1 & M1); pose proof (smoved_view _ _ _ M1) as V1.
  destruct (irq_next ws sent0 0 4 s s1 Hb M1 ltac:(lia)) as (s5 & E5 & Hb5 & _ & _ & Hf5 & Hl5); rewrite Hdel in Hl5; destruct (ack_lost s5 Hl5) as (s6 & E6 & M6); fold (ack s5) in E6.
  assert (Hs : wait_xfer (S j + S f) s = wait_xfer f s6).
  { rewrite E1; cbn [wait_xfer]; assert (Hd1 : s_done s1 = false) by (destruct M1 as (h & -> & _); exact (ib_done _ _ _ _ _ Hb)).
    rewrite Hd1, sview_irq; fold (svw s1); rewrite V1; destruct (finish_keeps (svw s)) as (_ & _ & -> & ->); rewrite (ib_irq _ _ _ _ _ Hb); change (true && nz ENINT) with true; cbn iota; by rewrite E5, E6, bind_ok. }
  rewrite (wait_stuck f s6) in Hs; [|destruct M6 as (h & -> & _); exact (ib_done _ _ _ _ _ Hb5)|by rewrite (smoved_view _ _ _ M6)|rewrite (smoved_view _ _ _ M6); destruct (finished _ _ _ _ _ Hb5) as (Hn & _); exact Hn].
  destruct (wait_xfer f s) as [s'|] eqn:E; [|done]; apply (wait_more (S j + 1)) in E; replace (S j + 1 + f)%nat with (S j + S f)%nat in E by lia; congruence.
Qed.

(** C9: [nuc970_spi0_txrx] exchanges a buffer with the slave: for every slave, word
    width, length and number of data lines, with an interrupt at the end of each
    burst of up to four words and bursts of any duration beyond the end of the
    handler, every word of the transmit buffer goes out once and in order, every
    answer is stored in the receive buffer, nothing else of it changes, and the
    result is the length. *)
Theorem spi_xfer_exchanges spi t s : let m := word_bytes (i_txbitlen (s_pdata s)) in let ws := tx_words m (t_tx_buf t) (t_len t) in
  1 <= t_len t < 4294967296 -> buffer_ok m (t_len t) (t_tx_buf t) -> buffer_ok m (t_len t) (t_rx_buf t) ->
  s_done s = false -> w_left (svw s) = None -> Z.land (w_cntrl (svw s)) ENINT = ENINT -> (forall k, (2 <= w_delay (svw s) k)%nat) ->
  let '(sent, rs) := exchange (w_reply (svw s)) (bits_of (w_cntrl (svw s))) ws (w_sent (svw s)) in
  exists N s', (forall f, nuc970_spi0_txrx (N + f) spi t s = Some (t_len t, s')) /\ w_sent (svw s') = sent /\ s_rx s' = rx_after m rs (t_rx_buf t).
Proof.
  intros m ws Hlen Htx Hrx Hd Hi Hen Hdel; destruct (xfer_run spi t s Hlen Htx Hrx Hd Hi Hen Hdel) as (N & s' & Hrun & Hsent & Hst & Hk); fold m ws in Hsent, Hst, Hk.
  pose proof (word_bytes_pos (i_txbitlen (s_pdata s))) as Hm; fold m in Hm; apply (rx_after_is m _ _ _ _ (t_rx_buf t)) in Hst; [|lia|exact Hk]; unfold sent_at in Hsent; rewrite zlen_to_nat, firstn_all in Hsent.
  destruct (exchange (w_reply (svw s)) (bits_of (w_cntrl (svw s))) ws (w_sent (svw s))) as [sent rs]; by exists N, s'.
Qed.

Lemma room_none spi t s f r : let m := word_bytes (i_txbitlen (s_pdata s)) in
  s_done s = false -> 1 <= t_len t < 4294967296 -> nuc970_spi0_txrx f spi t s = Some r -> has_room m (t_len t) (t_tx_buf t) /\ has_room m (t_len t) (t_rx_buf t).
Proof. intros m Hd Hlen E; destruct r as [r s']; destruct (txrx_room f spi t s r s' E Hd Hlen) as (_ & H1 & H2); by split. Qed.

(** With buffers made longer the transfer ends. *)
Lemma padded_ends spi t s : let m := word_bytes (i_txbitlen (s_pdata s)) in let p := replicate (Z.to_nat (m * t_len t)) 0 in
  1 <= t_len t < 4294967296 -> (forall l, t_tx_buf t = Some l \/ t_rx_buf t = Some l -> Forall is_u8 l) ->
  s_done s = false -> w_left (svw s) = None -> Z.land (w_cntrl (svw s)) ENINT = ENINT -> (forall k, (2 <= w_delay (svw s) k)%nat) ->
  exists N s', nuc970_spi0_txrx N spi (pad_xfer p p t) s = Some (t_len t, s').
Proof.
  intros m p Hlen Hu Hd Hi Hen Hdel; pose proof (word_bytes_pos (i_txbitlen (s_pdata s))) as Hm; fold m in Hm.
  assert (Hb : forall o, (forall l, o = Some l -> Forall is_u8 l) -> buffer_ok m (t_len t) (option_map (fun l => l ++ p) o)).
  { intros [l|] Ho; [|done]; cbn [option_map buffer_ok]; split; [rewrite zlen_app; unfold p, zlen; rewrite length_replicate; lia|].
    apply Forall_app_2; [by apply Ho|]; apply Forall_replicate; unfold is_u8; lia. }
  destruct (xfer_run spi (pad_xfer p p t) s) as (N & s' & Hrun & _); try done.
  - apply Hb; intros l E; apply Hu; by left.
  - apply Hb; intros l E; apply Hu; by right.
  - exists (N + 0)%nat, s'; apply Hrun.
Qed.

(** C32: The length of a transfer counts words, not bytes as the kernel's interface
    has it. With bursts that outlast the handler, and only words of one, two or four
    bytes: [nuc970_spi0_txrx] comes to its end if and only if each buffer that is
    given holds that many words; otherwise the driver comes to a point where it
    accesses a buffer outside of its bounds. With more than eight bits per word and
    buffers of [t_len] bytes it is always so. *)
Theorem spi_room spi t s : let m := word_bytes (i_txbitlen (s_pdata s)) in
  1 <= t_len t < 4294967296 -> (forall l, t_tx_buf t = Some l \/ t_rx_buf t = Some l -> Forall is_u8 l) ->
  s_done s = false -> w_left (svw s) = None -> Z.land (w_cntrl (svw s)) ENINT = ENINT -> (forall k, (2 <= w_delay (svw s) k)%nat) ->
  let room := has_room m (t_len t) (t_tx_buf t) /\ has_room m (t_len t) (t_rx_buf t) in
  ((exists f r, nuc970_spi0_txrx f spi t s = Some r) <-> room) /\ ((exists f, txrx_overruns f t s) <-> ~ room).
Proof.
  intros m Hlen Hu Hd Hi Hen Hdel room.
  assert (Hfit : room -> exists f r, nuc970_spi0_txrx f spi t s = Some r).
  { intros [H1 H2]; destruct (xfer_run spi t s) as (N & s' & Hrun & _); try done.
    - unfold buffer_ok; destruct (t_tx_buf t) as [l|]; [|done]; split; [exact H1|]; apply Hu; by left.
    - unfold buffer_ok; destruct (t_rx_buf t) as [l|]; [|done]; split; [exact H2|]; apply Hu; by right.
    - exists (N + 0)%nat, (t_len t, s'); apply Hrun. }
  split; split.
  - intros (f & r & E); by apply (room_none spi t s f r).
  - exact Hfit.
  - intros (f & Ho) Hr; destruct (Hfit Hr) as (f' & r & E); by rewrite (txrx_overruns_none f f' spi t s Ho) in E.
  - intros Hr; destruct (padded_ends spi t s) as (N & s' & E); try done; exists N; destruct (txrx_pad _ _ _ _ _ _ _ E) as [[r Er]|Ho]; [|done].
    destruct Hr; by apply (room_none spi t s N r).
Qed.

(** C33: On a bus so fast that a burst ends before the handler reads the control
    register for the last time, the handler clears the flag of the burst that it
    has just begun: a transfer of more than four words never ends, however long
    [nuc970_spi0_txrx] waits. *)
Theorem spi_interrupt_lost spi t s : let m := word_bytes (i_txbitlen (s_pdata s)) in
  4 < t_len t < 4294967296 -> buffer_ok m (t_len t) (t_tx_buf t) -> buffer_ok m (t_len t) (t_rx_buf t) ->
  s_done s = false -> w_left (svw s) = None -> Z.land (w_cntrl (svw s)) ENINT = ENINT -> (forall k, w_delay (svw s) k = 0%nat) ->
  forall f, nuc970_spi0_txrx f spi t s = None.
Proof.
  intros m Hlen Htx Hrx Hd Hi Hen Hdel f; destruct (start_xfer spi t s) as (s1 & j & Hrun & Hb & Hsame & Hf & Hl & _); try done; [lia|]; destruct Hsame as (_ & _ & A3 & _).
  assert (Hz : zlen (tx_words m (t_tx_buf t) (t_len t)) = t_len t) by (apply tx_words_len; lia); fold m in Hb; replace (Z.min 4 (zlen (tx_words m (t_tx_buf t) (t_len t)))) with 4 in Hb by lia.
  rewrite Hrun, (second_lost _ _ j s1 Hb); [done|lia|done|done|by rewrite A3].
Qed.

(** Suspending waits for the end of a burst. *)
Lemma suspend_ends j : forall s, w_left (svw s) = Some j -> exists s', forall f, nuc970_spi0_suspend (S (S j) + f) s = Some s'.
Proof.
  assert (Hread : forall s, nz (Z.land (cntrl_value (svw s)) 0x1) = bool_decide (is_Some (w_left (svw s)))).
  { intros s; assert (E : Z.land (cntrl_value (svw s)) 0x1 = if w_left (svw s) then 1 else 0); [|rewrite E; by destruct (w_left (svw s))].
    pose proof (sview_flags (s_hw s)) as Hz; fold (svw s) in Hz; unfold cntrl_value; rewrite Z.land_lor_distr_l; assert (E0 : Z.land (w_cntrl (svw s)) 1 = 0) by (transitivity (Z.land (Z.land (w_cntrl (svw s)) (Z.lor ENFLG GOBUSY)) 1); [by rewrite <- Z.land_assoc|by rewrite Hz]); rewrite E0.
    by destruct (w_flag (svw s)), (w_left (svw s)). }
  assert (Hstep : forall s, exists s1, svw s1 = adv (svw s) /\ forall f, nuc970_spi0_suspend (S f) s = if bool_decide (is_Some (w_left (svw s1))) then nuc970_spi0_suspend f s1 else Some (sreg_update REG_CNTRL (fun v => Z.land v (Z.lnot 0x20000)) s1)).
  { intros s; destruct (sreg_read_moved REG_CNTRL s) as (s1 & E & M); exists s1; pose proof (smoved_view _ _ _ M) as V; split; [done|]; intros f; cbn [nuc970_spi0_suspend]; rewrite E, sview_read_cntrl; fold (svw s); by rewrite <- V, Hread. }
  induction j as [|j IH]; intros s Hl; destruct (Hstep s) as (s1 & V & E); unfold adv in V; rewrite Hl in V.
  - assert (Hn : w_left (svw s1) = None) by (rewrite V; unfold finish; by destruct (exchange _ _ _ _)); eexists; intros f; change (S (S 0) + f)%nat with (S (S f)); rewrite E, Hn; reflexivity.
  - destruct (IH s1) as [s' Hs']; [by rewrite V|]; exists s'; intros f; change (S (S (S j)) + f)%nat with (S (S (S j) + f)); rewrite E, V; apply Hs'.
Qed.

(** ** Modes *)

(** C34: For a device in any mode and for 1 to 32 bits per word,
    [nuc970_spi0_setupxfer] puts word length, edges, polarity of the clock and bit
    order of the mode into the control register and keeps its other bits; the
    transfer then uses words of that length. In the four plain modes the edges are
    those of the phase: TXNEG is set in the modes 0 and 2, RXNEG in the modes 1 and 3. Any other flag of the low byte (least
    significant bit first, chip select active high and the like) makes it the edges
    of the modes 1 and 3. No other register is written: the divider that is worked
    out for the speed of the transfer does not reach the controller. *)
Theorem spi_mode spi t s : let mode := sd_mode spi in
  let phase := nz (Z.land mode SPI_CPHA) || nz (Z.land mode 0xfc) in
  w_left (svw s) = None -> 1 <= t_bits_per_word t <= 32 -> 1 <= t_speed_hz t < 2147483648 ->
  exists s', nuc970_spi0_setupxfer spi (Some t) s = Some s' /\
    w_cntrl (svw s') = Z.lor (Z.land (w_cntrl (svw s)) (Z.lnot MODE_MASK)) (mode_word phase mode (t_bits_per_word t)) /\
    bits_of (w_cntrl (svw s')) = t_bits_per_word t /\ i_txbitlen (s_pdata s') = t_bits_per_word t /\ i_hz (s_pdata s') = t_speed_hz t /\
    w_div (svw s') = w_div (svw s) /\ w_ssr (svw s') = w_ssr (svw s) /\ w_sent (svw s') = w_sent (svw s).
Proof.
  intros mode phase Hi Hb Hz; destruct (update_state_ok spi t s Hz) as [s1 E]; destruct (setupxfer_mode spi (Some t) s Hi Hb s1 E) as (h & b & E2 & V); destruct (update_state_is _ _ _ _ E) as (E1 & Pb & Ph & _).
  assert (Hph : set_cpha mode = phase).
  { unfold phase; destruct (Z.eq_dec (Z.land mode 0xfc) 0) as [Hm|Hm]; [by rewrite plain_mode, Hm, orb_false_r by done | rewrite flagged_mode by done; unfold nz; by rewrite (proj2 (Z.eqb_neq _ _) Hm), orb_true_r]. }
  exists (s1 <| s_hw := h |>); split; [exact E2|]; change (svw (s1 <| s_hw := h |>)) with (sview h); rewrite V; cbn [w_cntrl w_div w_ssr w_sent set]; unfold mode_word in *; fold mode; rewrite Hph, mode_bits_len by done; by split_and!.
Qed.

(** With any other flag in the low byte of the mode (chip select active high,
    least significant bit first and the like), [nuc970_spi0_setupxfer] sets the
    edges of the modes 1 and 3 for the modes 0 and 2 as well, so that two devices
    that differ in their phase get the same set-up. *)
Theorem spi_mode_flags mode mode' cs bpw0 hz0 t s : let dev m := mk_spidev m cs bpw0 hz0 in
  w_left (svw s) = None -> Z.land mode 0xfc <> 0 -> mode' = Z.lxor mode SPI_CPHA -> 1 <= t_bits_per_word t <= 32 -> 1 <= t_speed_hz t < 2147483648 ->
  exists s' s'', nuc970_spi0_setupxfer (dev mode) (Some t) s = Some s' /\ nuc970_spi0_setupxfer (dev mode') (Some t) s = Some s'' /\
    w_cntrl (svw s') = w_cntrl (svw s'') /\ Z.testbit (w_cntrl (svw s')) 1 = true /\ Z.testbit (w_cntrl (svw s')) 2 = false.
Proof.
  intros dev Hi Hm -> Hb Hz; destruct (update_state_ok (dev mode) t s Hz) as [s1 E]; destruct (update_state_ok (dev (Z.lxor mode SPI_CPHA)) t s Hz) as [s2 E'].
  destruct (setupxfer_mode (dev mode) (Some t) s Hi Hb s1 E) as (h & b & E1 & V); destruct (setupxfer_mode (dev (Z.lxor mode SPI_CPHA)) (Some t) s Hi Hb s2 E') as (h' & b' & E1' & V').
  exists (s1 <| s_hw := h |>), (s2 <| s_hw := h' |>); split; [exact E1|]; split; [exact E1'|]; change (svw (s1 <| s_hw := h |>)) with (sview h); change (svw (s2 <| s_hw := h' |>)) with (sview h'); rewrite V, V'; cbn [w_cntrl set sd_mode dev].
  assert (Hx : forall m, Z.land SPI_CPHA m = 0 -> Z.land (Z.lxor mode SPI_CPHA) m = Z.land mode m) by (intros m Hc; apply flip_keeps, Hc).
  unfold mode_word; rewrite !flagged_mode, (Hx SPI_CPOL), (Hx SPI_LSB_FIRST) by (rewrite ?Hx; done); split; [done|]; rewrite !Z.lor_spec, !Z.land_spec; change (Z.testbit (Z.lnot MODE_MASK) 1) with false; change (Z.testbit (Z.lnot MODE_MASK) 2) with false; rewrite !andb_false_r.
  unfold mode_bits; rewrite !Z.lor_spec; split.
  - change (Z.testbit RXNEG 1) with true; by rewrite !orb_true_r.
  - destruct (t_bits_per_word t =? 32); [by repeat case_match|]; rewrite (Z.shiftl_spec_low _ 3 2) by lia; by repeat case_match.
Qed.
End Transfers.

(** ** Speeds *)

(** The divider of [nuc970_spi0_update_state] gives the fastest clock that is
    not faster than asked for, [clk / (2 (divider + 1))], for every clock and
    speed whose sum fits the unsigned type. *)
Theorem spi_divider clk hz : 1 <= clk -> 1 <= hz -> clk + 2 * hz <= 4294967296 ->
  exists d, divider_of clk hz = Some d /\ 0 <= d /\ clk <= 2 * hz * (d + 1) /\ (forall d', 0 <= d' -> clk <= 2 * hz * (d' + 1) -> d <= d').
Proof.
  intros Hc Hz Hs; unfold divider_of; rewrite (u32_id (hz * 2)) by lia; destruct (hz * 2 =? 0) eqn:E; zbool; [lia|]; rewrite (u32_id (clk + hz * 2 - 1)) by lia.
  set (q := (clk + hz * 2 - 1) / (hz * 2)); pose proof (Z.div_mod (clk + hz * 2 - 1) (hz * 2) ltac:(lia)) as Hd; pose proof (Z.mod_pos_bound (clk + hz * 2 - 1) (hz * 2) ltac:(lia)) as Hm; fold q in Hd; assert (Hq : 1 <= q <= 4294967296) by nia.
  exists (q - 1); rewrite u32_id by lia; split; [done|]; split; [lia|]; split; [nia|]; intros d' Hd' Hle; nia.
Qed.

(** Without entries in the device tree the set-up is that of the modes 1 and 3, the
    first default of the transmit edge being lost. *)
Lemma parse_dt_defaults : let '(num_cs, bus_num, p) := nuc970_spi0_parse_dt (fun _ => None) in
  num_cs = 2 /\ bus_num = 0 /\ i_txbitlen p = 8 /\ i_divider p = 4 /\ i_txneg p = 0 /\ i_rxneg p = 1.
Proof. done. Qed.

(** ** A slave that counts *)
Import RefSpi.

Module Bus.

Definition info (bpw : Z) : spi_info := mk_info 0 1 0 4 0 0 bpw 0 0.
Definition view (delay : nat) (bpw : Z) : spi_view :=
  mk_sview (Z.lor ENINT (Z.shiftl bpw 3)) false None [0; 0; 0; 0] [0; 0; 0; 0] 4 0 [] (fun sent => 7 + zlen sent) O (fun _ => delay).
Definition master (delay : nat) (bpw : Z) : nuc970_spi spi_view := mk_spi false 0 0 None None (info bpw) false (view delay bpw).
Definition device : spi_device := mk_spidev SPI_CPHA 0 8 1000000.
Definition six (rx : list Z) : spi_transfer := mk_xfer (Some [1; 2; 3; 4; 5; 6]) (Some rx) 6 0 0 8 2000000.
End Bus.

Lemma spi_xfer_exchanges_witness : exists N s', (forall f, nuc970_spi0_txrx (N + f) Bus.device (Bus.six [0; 0; 0; 0; 0; 0; 99]) (Bus.master 2 8) = Some (6, s')) /\
  w_sent (svw s') = [1; 2; 3; 4; 5; 6] /\ s_rx s' = Some [7; 8; 9; 10; 11; 12; 99].
Proof.
  refine (spi_xfer_exchanges Bus.device (Bus.six [0; 0; 0; 0; 0; 0; 99]) (Bus.master 2 8) _ _ _ _ _ _ _); try reflexivity.
  - vm_compute; split; [discriminate|reflexivity].
  - split; [vm_compute; discriminate|]; repeat constructor; unfold is_u8; lia.
  - split; [vm_compute; discriminate|]; repeat constructor; unfold is_u8; lia.
Defined.

(** Six words of sixteen bits in buffers of six bytes. *)
Lemma spi_room_witness : exists f, txrx_overruns f (Bus.six [0; 0; 0; 0; 0; 0]) (Bus.master 2 16).
Proof.
  apply (spi_room Bus.device (Bus.six [0; 0; 0; 0; 0; 0]) (Bus.master 2 16)); try reflexivity.
  - vm_compute; split; [discriminate|reflexivity].
  - intros l [E|E]; injection E as <-; repeat constructor; unfold is_u8; lia.
  - intros [Hr _]; vm_compute in Hr; by apply Hr.
Defined.

Lemma spi_interrupt_lost_witness : (forall k, w_delay (svw (Bus.master 0 8)) k = 0%nat) /\ (forall f, nuc970_spi0_txrx f Bus.device (Bus.six [0; 0; 0; 0; 0; 0]) (Bus.master 0 8) = None).
Proof.
  split; [reflexivity|]; apply (spi_interrupt_lost Bus.device (Bus.six [0; 0; 0; 0; 0; 0]) (Bus.master 0 8)); try reflexivity.
  - vm_compute; split; reflexivity.
  - split; [vm_compute; discriminate|]; repeat constructor; unfold is_u8; lia.
  - split; [vm_compute; discriminate|]; repeat constructor; unfold is_u8; lia.
Defined.

Lemma spi_mode_witness : exists s', nuc970_spi0_setupxfer (mk_spidev (SPI_CPHA + SPI_LSB_FIRST) 0 8 1000000) (Some (Bus.six [])) (Bus.master 2 16) = Some s' /\
    w_cntrl (svw s') = 0x20442 /\ bits_of (w_cntrl (svw s')) = 8 /\ i_txbitlen (s_pdata s') = 8 /\ i_hz (s_pdata s') = 2000000 /\
    w_div (svw s') = 4 /\ w_ssr (svw s') = 0 /\ w_sent (svw s') = [].
Proof. refine (spi_mode (mk_spidev (SPI_CPHA + SPI_LSB_FIRST) 0 8 1000000) (Bus.six []) (Bus.master 2 16) _ _ _); [reflexivity|vm_compute; split; discriminate|vm_compute; split; [discriminate|reflexivity]]. Defined.

Lemma spi_mode_flags_witness : let dev m := mk_spidev m 0 8 1000000 in
  exists s' s'', nuc970_spi0_setupxfer (dev SPI_CS_HIGH) (Some (Bus.six [])) (Bus.master 2 16) = Some s' /\ nuc970_spi0_setupxfer (dev (SPI_CS_HIGH + SPI_CPHA)) (Some (Bus.six [])) (Bus.master 2 16) = Some s'' /\
    w_cntrl (svw s') = w_cntrl (svw s'') /\ Z.testbit (w_cntrl (svw s')) 1 = true /\ Z.testbit (w_cntrl (svw s')) 2 = false.
Proof. apply (spi_mode_flags SPI_CS_HIGH (SPI_CS_HIGH + SPI_CPHA) 0 8 1000000 (Bus.six []) (Bus.master 2 16)); [reflexivity|discriminate|reflexivity|vm_compute; split; discriminate|vm_compute; split; [discriminate|reflexivity]]. Defined.

Lemma spi_divider_witness : exists d, divider_of 75000000 2000000 = Some d /\ 0 <= d /\ 75000000 <= 2 * 2000000 * (d + 1) /\ (forall d', 0 <= d' -> 75000000 <= 2 * 2000000 * (d' + 1) -> d <= d').
Proof. apply (spi_divider 75000000 2000000); lia. Defined.
