(* ===== verification/Uart.v ===== *)
(** The serial ports (src/drivers/tty/serial/nuc970_serial.c): transmission from
    the circular buffer of the serial core, reception with its error flags, the
    interrupt handler, and the settings of a port. The registers are the interface
    [UartHw], the tty layer above is [UartCore]. *)
From S2P Require Import Prelude Kbd.

(** ** Registers and constants *)
Definition UART_REG_RBR : Z := 0x00.
Definition UART_REG_THR : Z := 0x00.
Definition UART_REG_IER : Z := 0x04.
Definition RDA_IEN : Z := 0x00000001.
Definition THRE_IEN : Z := 0x00000002.
Definition RTO_IEN : Z := 0x00000010.
Definition TIME_OUT_EN : Z := 0x00000800.
Definition UART_REG_FCR : Z := 0x08.
Definition RFR : Z := 0x00000002.
Definition TFR : Z := 0x00000004.
Definition UART_REG_LCR : Z := 0x0C.
Definition NSB : Z := 0x00000004.
Definition PBE : Z := 0x00000008.
Definition EPE : Z := 0x00000010.
Definition SPE : Z := 0x00000020.
Definition BCB : Z := 0x00000040.
Definition UART_REG_MCR : Z := 0x10.
Definition UART_REG_MSR : Z := 0x14.
Definition UART_REG_FSR : Z := 0x18.
Definition RX_OVER_IF : Z := 0x00000001.
Definition PEF : Z := 0x00000010.
Definition FEF : Z := 0x00000020.
Definition BIF : Z := 0x00000040.
Definition RX_EMPTY : Z := 0x00004000.
Definition TX_EMPTY : Z := 0x00400000.
Definition TX_FULL : Z := 0x00800000.
Definition TE_FLAG : Z := 0x10000000.
Definition UART_REG_ISR : Z := 0x1C.
Definition RDA_IF : Z := 0x00000001.
Definition THRE_IF : Z := 0x00000002.
Definition TOUT_IF : Z := 0x00000010.
Definition UART_REG_TOR : Z := 0x20.
Definition UART_REG_BAUD : Z := 0x24.
Definition UART_REG_IRCR : Z := 0x28.
Definition UART_REG_ALT_CSR : Z := 0x2C.
Definition UART_FUN_SEL : Z := 0x30.
Definition FUN_SEL_IrDA : Z := 0x00000002.
Definition FUN_SEL_RS485 : Z := 0x00000003.
Definition FUN_SEL_Msk : Z := 0x00000007.

(** Numbers of the tty layer. *)
Definition UART_XMIT_SIZE : Z := 4096.
Definition WAKEUP_CHARS : Z := 256.
Definition TTY_NORMAL : Z := 0.
Definition TTY_BREAK : Z := 1.
Definition TTY_FRAME : Z := 2.
Definition TTY_PARITY : Z := 3.
Definition TTY_OVERRUN : Z := 4.
Definition TIOCM_RTS : Z := 0x004.
Definition TIOCM_CTS : Z := 0x020.
Definition TIOCSER_TEMT : Z := 0x01.
Definition UART_MCR_AFE : Z := 0x20.
Definition CSIZE : Z := 0x30.
Definition CS5 : Z := 0x00.
Definition CS6 : Z := 0x10.
Definition CS7 : Z := 0x20.
Definition CSTOPB : Z := 0x40.
Definition PARENB : Z := 0x100.
Definition PARODD : Z := 0x200.
Definition CMSPAR : Z := 0x40000000.
Definition CRTSCTS : Z := 0x80000000.
Definition IGNBRK : Z := 0x1.
Definition BRKINT : Z := 0x2.
Definition IGNPAR : Z := 0x4.
Definition PARMRK : Z := 0x8.
Definition INPCK : Z := 0x10.
Definition SER_RS485_ENABLED : Z := 0x1.
Definition SER_RS485_RTS_ON_SEND : Z := 0x2.
Definition N_IRDA : Z := 11.

(** ** Data *)
Class UartHw (H : Type) := {
  uart_in : Z -> H -> Z * H;
  uart_out : Z -> Z -> H -> H;
}.

(** The tty layer: it takes a character if it has room, and the hooks for the
    break and for the magic key say whether they have taken one. *)
Class UartCore (K : Type) := {
  tty_insert_flip_char : Z -> Z -> K -> bool * K;
  tty_flip_buffer_push : K -> K;
  uart_write_wakeup : K -> K;
  uart_handle_break : K -> bool * K;
  uart_handle_sysrq_char : Z -> K -> bool * K;
}.

(** [struct uart_icount]; the counters are 32 bits wide. *)
Record uart_icount := mk_icount { ic_rx : Z; ic_tx : Z; ic_frame : Z; ic_overrun : Z; ic_parity : Z; ic_brk : Z; ic_buf_overrun : Z }.
#[export] Instance eta_icount : Eta uart_icount := fun c =>
  mk_icount (ic_rx c) (ic_tx c) (ic_frame c) (ic_overrun c) (ic_parity c) (ic_brk c) (ic_buf_overrun c).

(** [struct uart_nuc970_port] with the parts of the port and of its state that
    the driver uses; [u_stopped] is [uart_tx_stopped], [u_irda] the discipline. *)
Record uart_nuc970_port (H K : Type) := mk_uart {
  u_xmit : circ_buf; u_x_char : Z; u_stopped : bool; u_irda : bool; icount : uart_icount; ignore_status_mask : Z; read_status_mask : Z;
  u_mcr : Z; u_hard_flow : bool; u_mctrl : Z; uartclk : Z; rs485_flags : Z; delay_rts_before_send : Z; u_hw : H; u_core : K;
}.
Arguments mk_uart {H K}.
Arguments u_xmit {H K}.
Arguments u_x_char {H K}.
Arguments u_stopped {H K}.
Arguments u_irda {H K}.
Arguments icount {H K}.
Arguments ignore_status_mask {H K}.
Arguments read_status_mask {H K}.
Arguments u_mcr {H K}.
Arguments u_hard_flow {H K}.
Arguments u_mctrl {H K}.
Arguments uartclk {H K}.
Arguments rs485_flags {H K}.
Arguments delay_rts_before_send {H K}.
Arguments u_hw {H K}.
Arguments u_core {H K}.
#[export] Instance eta_uart H K : Eta (uart_nuc970_port H K) := fun u =>
  mk_uart (u_xmit u) (u_x_char u) (u_stopped u) (u_irda u) (icount u) (ignore_status_mask u) (read_status_mask u)
    (u_mcr u) (u_hard_flow u) (u_mctrl u) (uartclk u) (rs485_flags u) (delay_rts_before_send u) (u_hw u) (u_core u).

Section Uart.
  Context {H K : Type} `{!UartHw H, !UartCore K} {CO : CircOps}.
  Implicit Types u : uart_nuc970_port H K.

(** ** Registers *)
Definition serial_in (offset : Z) u : Z * uart_nuc970_port H K := let '(v, h) := uart_in offset (u_hw u) in (v, u <| u_hw := h |>).
Definition serial_out (offset value : Z) u : uart_nuc970_port H K := u <| u_hw := uart_out offset (u32 value) (u_hw u) |>.
Definition serial_update (offset : Z) (f : Z -> Z) u : uart_nuc970_port H K := let '(v, u) := serial_in offset u in serial_out offset (f v) u.
Definition core (f : K -> K) u : uart_nuc970_port H K := u <| u_core := f (u_core u) |>.
Definition count (f : uart_icount -> uart_icount) u : uart_nuc970_port H K := u <| icount := f (icount u) |>.

(** [while(!(FSR & mask));] and [while(FSR & mask);]. *)
Fixpoint wait_fsr (fuel : nat) (mask : Z) (on : bool) u : option (uart_nuc970_port H K) :=
  match fuel with
  | O => None
  | S fuel => let '(v, u) := serial_in UART_REG_FSR u in if Bool.eqb (nz (Z.land v mask)) on then Some u else wait_fsr fuel mask on u
  end.

(** ** The circular buffer of the serial core *)
Definition uart_circ_empty (c : circ_buf) : bool := cb_head c =? cb_tail c.
Definition uart_circ_chars_pending (c : circ_buf) : Z := CIRC_CNT (cb_head c) (cb_tail c) UART_XMIT_SIZE.
Definition uart_circ_chars_free (c : circ_buf) : Z := CIRC_SPACE (cb_head c) (cb_tail c) UART_XMIT_SIZE.

Definition __uart_put_char (c : Z) (circ : circ_buf) : option (Z * circ_buf) :=
  if nz (uart_circ_chars_free circ) then
    b ← wr (cb_buf circ) (cb_head circ) c;
    Some (1, circ <| cb_buf := b |> <| cb_head := Z.land (cb_head circ + 1) (UART_XMIT_SIZE - 1) |>)
  else Some (0, circ).

(** ** Transmission *)
Definition __stop_tx (fuel : nat) u : option (uart_nuc970_port H K) :=
  let '(ier, u) := serial_in UART_REG_IER u in
  let u := if nz (Z.land ier THRE_IEN) then serial_out UART_REG_IER (Z.land ier (Z.lnot THRE_IEN)) u else u in
  if u_irda u then
    u ← wait_fsr fuel TX_EMPTY true u;
    u ← wait_fsr fuel TE_FLAG true u;
    Some (serial_update UART_REG_IRCR (fun v => Z.land v (Z.lnot 0x2)) u)
  else Some u.

Definition nuc970serial_stop_tx (fuel : nat) u : option (uart_nuc970_port H K) := __stop_tx fuel u.

Fixpoint transmit_loop (n : nat) u : option (uart_nuc970_port H K) :=
  match n with
  | O => Some u
  | S n =>
      c ← rd (cb_buf (u_xmit u)) (cb_tail (u_xmit u));
      let u := serial_out UART_REG_THR c u in
      let u := u <| u_xmit := (u_xmit u) <| cb_tail := Z.land (cb_tail (u_xmit u) + 1) (UART_XMIT_SIZE - 1) |> |> in
      let u := count (fun i => i <| ic_tx := u32 (ic_tx i + 1) |>) u in
      if uart_circ_empty (u_xmit u) then Some u else transmit_loop n u
  end.

Definition transmit_chars (fuel : nat) u : option (uart_nuc970_port H K) :=
  if nz (u_x_char u) then
    u ← wait_fsr fuel TX_FULL false u;
    let u := serial_out UART_REG_THR (u_x_char u) u in
    Some ((count (fun i => i <| ic_tx := u32 (ic_tx i + 1) |>) u) <| u_x_char := 0 |>)
  else if u_stopped u then nuc970serial_stop_tx fuel u
  else if uart_circ_empty (u_xmit u) then __stop_tx fuel u
  else
    u ← transmit_loop 12 u;
    let u := if uart_circ_chars_pending (u_xmit u) <? WAKEUP_CHARS then core uart_write_wakeup u else u in
    if uart_circ_empty (u_xmit u) then __stop_tx fuel u else Some u.

Definition nuc970serial_start_tx (fuel : nat) u : option (uart_nuc970_port H K) :=
  let u := if u_irda u then serial_update UART_REG_IRCR (fun v => Z.lor v 0x2) u else u in
  let '(ier, u) := serial_in UART_REG_IER u in
  let u := serial_out UART_REG_IER (Z.land ier (Z.lnot THRE_IEN)) u in
  let '(fsr, u) := serial_in UART_REG_FSR u in
  u ← (if uart_circ_chars_pending (u_xmit u) <? u32 (16 - Z.land (Z.shiftr fsr 16) 0x3F) then transmit_chars fuel u else Some u);
  Some (serial_out UART_REG_IER (Z.lor ier THRE_IEN) u).

(** ** Reception *)
Definition ERR_FLAGS : Z := Z.lor BIF (Z.lor FEF (Z.lor PEF RX_OVER_IF)).

(** [uart_insert_char] of the serial core. *)
Definition insert_flip (ch flag : Z) u : uart_nuc970_port H K :=
  let '(ok, k) := tty_insert_flip_char ch flag (u_core u) in
  let u := u <| u_core := k |> in if ok then u else count (fun i => i <| ic_buf_overrun := u32 (ic_buf_overrun i + 1) |>) u.

Definition uart_insert_char (status overrun ch flag : Z) u : uart_nuc970_port H K :=
  let u := if Z.land (Z.land status (ignore_status_mask u)) (Z.lnot overrun) =? 0 then insert_flip ch flag u else u in
  if nz (Z.land (Z.land status (Z.lnot (ignore_status_mask u))) overrun) then insert_flip 0 TTY_OVERRUN u else u.

(** The flag of a character; later tests win. *)
Definition rx_flag (fsr : Z) : Z :=
  let flag := TTY_NORMAL in
  let flag := if nz (Z.land fsr BIF) then TTY_BREAK else flag in
  let flag := if nz (Z.land fsr PEF) then TTY_PARITY else flag in
  if nz (Z.land fsr FEF) then TTY_FRAME else flag.

(** An error flag is cleared and counted. *)
Definition clear_error (fsr m : Z) (f : uart_icount -> uart_icount) u : uart_nuc970_port H K :=
  if nz (Z.land fsr m) then count f (serial_out UART_REG_FSR m u) else u.

(** One character with the status before it was read. *)
Definition receive_char (fsr ch : Z) u : uart_nuc970_port H K :=
  let u := count (fun i => i <| ic_rx := u32 (ic_rx i + 1) |>) u in
  let '(handled, u) :=
    if nz (Z.land fsr BIF) then
      let u := clear_error fsr BIF (fun i => i <| ic_brk := u32 (ic_brk i + 1) |>) u in
      let '(b, k) := uart_handle_break (u_core u) in (b, u <| u_core := k |>)
    else (false, u) in
  if handled then u
  else
    let u := clear_error fsr FEF (fun i => i <| ic_frame := u32 (ic_frame i + 1) |>) u in
    let u := clear_error fsr PEF (fun i => i <| ic_parity := u32 (ic_parity i + 1) |>) u in
    let u := clear_error fsr RX_OVER_IF (fun i => i <| ic_overrun := u32 (ic_overrun i + 1) |>) u in
    let '(taken, k) := uart_handle_sysrq_char ch (u_core u) in
    let u := u <| u_core := k |> in
    if taken then u else uart_insert_char fsr RX_OVER_IF ch (rx_flag fsr) u.

(** At most [n + 1] characters. *)
Fixpoint receive_turns (n : nat) u : uart_nuc970_port H K :=
  let '(f, u) := serial_in UART_REG_FSR u in
  if nz (Z.land f (Z.shiftl 1 14)) then u
  else
    let '(fsr, u) := serial_in UART_REG_FSR u in
    let '(ch, u) := serial_in UART_REG_RBR u in
    let u := receive_char fsr (u8 ch) u in
    if nz (Z.land fsr RX_EMPTY) then u else match n with O => u | S n => receive_turns n u end.

Definition receive_chars u : uart_nuc970_port H K := core tty_flip_buffer_push (receive_turns 256 u).

(** ** The interrupt *)
Definition nuc970serial_interrupt (fuel : nat) u : option (uart_nuc970_port H K) :=
  let '(isr, u) := serial_in UART_REG_ISR u in
  let u := if nz (Z.land isr (Z.lor RDA_IF TOUT_IF)) then receive_chars u else u in
  u ← (if nz (Z.land isr THRE_IF) then transmit_chars fuel u else Some u);
  Some (if nz (Z.land isr ERR_FLAGS) then serial_out UART_REG_FSR ERR_FLAGS u else u).

(** ** Status and control *)
Definition nuc970serial_stop_rx u : uart_nuc970_port H K := serial_update UART_REG_IER (fun v => Z.land v (Z.lnot RDA_IEN)) u.

Definition nuc970serial_tx_empty u : Z * uart_nuc970_port H K :=
  let '(fsr, u) := serial_in UART_REG_FSR u in
  (if Z.land fsr (Z.lor TE_FLAG TX_EMPTY) =? Z.lor TE_FLAG TX_EMPTY then TIOCSER_TEMT else 0, u).

Definition nuc970serial_get_mctrl u : Z * uart_nuc970_port H K :=
  let '(status, u) := serial_in UART_REG_MSR u in (if negb (nz (Z.land status 0x10)) then TIOCM_CTS else 0, u).

(** The trigger level of RTS. *)
Definition rts_high (v : Z) : Z := Z.land (Z.lor v 0x200) (Z.lnot 0x2).

Definition nuc970serial_set_mctrl (mctrl : Z) u : uart_nuc970_port H K :=
  let '(mcr, u) := if nz (Z.land mctrl TIOCM_RTS) then let '(v, u) := serial_in UART_REG_MCR u in (rts_high v, u) else (0, u) in
  let '(mcr, u) :=
    if nz (Z.land (u_mcr u) UART_MCR_AFE) then
      let '(v, u) := serial_in UART_REG_MCR u in
      (rts_high v, (serial_update UART_REG_IER (fun v => Z.lor v 0x3000) u) <| u_hard_flow := true |>)
    else (mcr, (serial_update UART_REG_IER (fun v => Z.land v (Z.lnot 0x3000)) u) <| u_hard_flow := false |>) in
  let u := serial_update UART_REG_MSR (fun v => Z.lor v 0x100) u in
  serial_out UART_REG_MCR mcr u.

Definition nuc970serial_break_ctl (break_state : Z) u : uart_nuc970_port H K :=
  serial_update UART_REG_LCR (fun lcr => if negb (break_state =? 0) then Z.lor lcr BCB else Z.land lcr (Z.lnot BCB)) u.

(** [request_irq] is the result of that call. *)
Definition nuc970serial_startup (request_irq : Z) u : Z * uart_nuc970_port H K :=
  let u := serial_out UART_REG_FCR (Z.lor TFR RFR) u in
  let u := serial_out UART_REG_ISR 0xFFFFFFFF u in
  if nz request_irq then (request_irq, u)
  else
    let u := serial_update UART_REG_FCR (fun v => Z.lor v 0x10) u in
    let u := serial_out UART_REG_LCR 0x7 u in
    let u := serial_out UART_REG_TOR 0x40 u in
    let u := serial_out UART_REG_IER (Z.lor RTO_IEN (Z.lor RDA_IEN TIME_OUT_EN)) u in
    (0, serial_out UART_REG_BAUD 0x30000066 u).

Definition nuc970serial_shutdown u : uart_nuc970_port H K := serial_out UART_REG_IER 0 u.

(** ** Settings *)
Definition nuc970serial_get_divisor (baud : Z) u : option Z := if baud =? 0 then None else Some (u32 (uartclk u / baud - 2)).

Definition termios_lcr (c_cflag : Z) : Z :=
  let size := Z.land c_cflag CSIZE in
  let lcr := if size =? CS5 then 0 else if size =? CS6 then 1 else if size =? CS7 then 2 else 3 in
  let lcr := if nz (Z.land c_cflag CSTOPB) then Z.lor lcr NSB else lcr in
  let lcr := if nz (Z.land c_cflag PARENB) then Z.lor lcr PBE else lcr in
  let lcr := if negb (nz (Z.land c_cflag PARODD)) then Z.lor lcr EPE else lcr in
  if nz (Z.land c_cflag CMSPAR) then Z.lor lcr SPE else lcr.

Definition termios_masks (c_iflag : Z) u : uart_nuc970_port H K :=
  let rmask := RX_OVER_IF in
  let rmask := if nz (Z.land c_iflag INPCK) then Z.lor rmask (Z.lor FEF PEF) else rmask in
  let rmask := if nz (Z.land c_iflag (Z.lor BRKINT PARMRK)) then Z.lor rmask BIF else rmask in
  let imask := 0 in
  let imask := if nz (Z.land c_iflag IGNPAR) then Z.lor imask (Z.lor FEF PEF) else imask in
  let imask := if nz (Z.land c_iflag IGNBRK) then
                 let imask := Z.lor imask BIF in if nz (Z.land c_iflag IGNPAR) then Z.lor imask RX_OVER_IF else imask
               else imask in
  u <| read_status_mask := rmask |> <| ignore_status_mask := imask |>.

(** [uart_get_baud_rate] gives a speed between the two bounds. *)
Definition nuc970serial_set_termios (uart_get_baud_rate : Z -> Z -> Z) (c_cflag c_iflag : Z) u : option (uart_nuc970_port H K) :=
  let lcr := termios_lcr c_cflag in
  let baud := uart_get_baud_rate (uartclk u / 0xffff) (uartclk u / 11) in
  quot ← nuc970serial_get_divisor baud u;
  let u := termios_masks c_iflag u in
  let u := u <| u_mcr := if nz (Z.land c_cflag CRTSCTS) then Z.lor (u_mcr u) UART_MCR_AFE else Z.land (u_mcr u) (Z.lnot UART_MCR_AFE) |> in
  let u := nuc970serial_set_mctrl (u_mctrl u) u in
  Some (serial_out UART_REG_LCR lcr (serial_out UART_REG_BAUD (Z.lor quot 0x30000000) u)).

Definition nuc970serial_set_ldisc (ld : Z) u : uart_nuc970_port H K :=
  if ld =? N_IRDA then
    let '(baud, u) := serial_in UART_REG_BAUD u in
    let baud := u32 ((Z.land baud 0x0000ffff + 2) / 16 - 2) in
    let u := serial_out UART_REG_BAUD baud u in
    let u := serial_update UART_REG_IRCR (fun v => Z.land v (Z.lnot 0x40)) u in
    let u := serial_update UART_FUN_SEL (fun v => Z.land v (Z.lnot FUN_SEL_Msk)) u in
    serial_update UART_FUN_SEL (fun v => Z.lor v FUN_SEL_IrDA) u
  else serial_update UART_FUN_SEL (fun v => Z.land v (Z.lnot FUN_SEL_Msk)) u.

Definition nuc970serial_config_rs485 (flags delay : Z) u : uart_nuc970_port H K :=
  let u := u <| rs485_flags := flags |> <| delay_rts_before_send := if 1000 <=? delay then 1000 else delay |> in
  let u := serial_update UART_FUN_SEL (fun v => Z.land v (Z.lnot FUN_SEL_Msk)) u in
  if nz (Z.land flags SER_RS485_ENABLED) then
    let u := serial_update UART_FUN_SEL (fun v => Z.lor v FUN_SEL_RS485) u in
    let u := if nz (Z.land flags SER_RS485_RTS_ON_SEND) then serial_update UART_REG_MCR (fun v => Z.land v (Z.lnot 0x200)) u
             else serial_update UART_REG_MCR (fun v => Z.lor v 0x200) u in
    serial_update UART_REG_ALT_CSR (fun v => Z.lor v (Z.shiftl 1 10)) u
  else u.

(** ** The console *)
Definition nuc970serial_console_putchar (fuel : nat) (ch : Z) u : option (uart_nuc970_port H K) :=
  u ← wait_fsr fuel TX_EMPTY true u; Some (serial_out UART_REG_THR ch u).

(** [uart_console_write] of the serial core. *)
Fixpoint uart_console_write (fuel : nat) (text : list Z) u : option (uart_nuc970_port H K) :=
  match text with
  | [] => Some u
  | c :: text =>
      u ← (if c =? 10 then nuc970serial_console_putchar fuel 13 u else Some u);
      u ← nuc970serial_console_putchar fuel c u;
      uart_console_write fuel text u
  end.

Definition nuc970serial_console_write (fuel : nat) (text : list Z) u : option (uart_nuc970_port H K) :=
  let '(ier, u) := serial_in UART_REG_IER u in
  let u := serial_out UART_REG_IER 0 u in
  u ← uart_console_write fuel text u;
  u ← wait_fsr fuel TX_EMPTY true u;
  Some (serial_out UART_REG_IER ier u).
End Uart.
