(* ===== verification/UartSpec.v ===== *)
(** What a UART promises, the transmit buffer of the serial core as a queue, and
    what each function of the serial driver does to what has been sent. *)
From S2P Require Import Prelude Kbd Uart.

(** ** The UART

    The characters received and not yet read, all that ever came in, the errors
    noted; the characters to be sent, those that have left, those written while
    there was no room; the other registers. At each access come in the characters
    of the head of [v_air], each with its errors, and leave as many as the head of
    [v_line] says. *)
Record uart_view := mk_uview {
  r_fifo : list Z; r_all : list Z; r_err : Z; t_fifo : list Z; t_gone : list Z; t_lost : list Z; v_regs : gmap Z Z; v_air : list (list (Z * Z)); v_line : list nat;
}.
#[export] Instance eta_uview : Eta uart_view := fun v =>
  mk_uview (r_fifo v) (r_all v) (r_err v) (t_fifo v) (t_gone v) (t_lost v) (v_regs v) (v_air v) (v_line v).

(** A character comes in; without room it is lost. *)
Definition arrive (v : uart_view) (x : Z * Z) : uart_view :=
  if zlen (r_fifo v) <? 16 then v <| r_fifo := r_fifo v ++ [u8 (fst x)] |> <| r_all := r_all v ++ [u8 (fst x)] |> <| r_err := Z.lor (r_err v) (Z.land (snd x) 0x70) |>
  else v <| r_err := Z.lor (r_err v) RX_OVER_IF |>.

Definition passes (v : uart_view) : uart_view :=
  let n := hd O (v_line v) in
  let w := fold_left arrive (hd [] (v_air v)) v in
  w <| t_gone := t_gone w ++ take n (t_fifo w) |> <| t_fifo := drop n (t_fifo w) |> <| v_air := tail (v_air v) |> <| v_line := tail (v_line v) |>.

Definition put_thr (x : Z) (v : uart_view) : uart_view :=
  if zlen (t_fifo v) <? 16 then v <| t_fifo := t_fifo v ++ [x] |> else v <| t_lost := t_lost v ++ [x] |>.

(** Registers that keep what is written to them. *)
Definition plain_regs : list Z := [UART_REG_IER; UART_REG_LCR; UART_REG_MCR; UART_REG_MSR; UART_REG_TOR; UART_REG_BAUD; UART_REG_IRCR; UART_REG_ALT_CSR; UART_FUN_SEL].

Class UartLaws (H : Type) `{!UartHw H} := {
  uview : H -> uart_view;
  uview_in a h : a <> UART_REG_RBR -> uview (snd (uart_in a h)) = passes (uview h);
  uview_fsr h : let f := fst (uart_in UART_REG_FSR h) in let v := passes (uview h) in
    Z.land f ERR_FLAGS = r_err v /\ nz (Z.land f RX_EMPTY) = bool_decide (r_fifo v = []) /\ Z.land (Z.shiftr f 16) 0x3F = zlen (t_fifo v) /\
    nz (Z.land f TX_FULL) = negb (zlen (t_fifo v) <? 16) /\ nz (Z.land f TX_EMPTY) = bool_decide (t_fifo v = []);
  uview_isr h : nz (Z.land (fst (uart_in UART_REG_ISR h)) THRE_IF) = true -> t_fifo (passes (uview h)) = [];
  uview_reg a h : a ∈ plain_regs -> fst (uart_in a h) = default 0 (v_regs (passes (uview h)) !! a);
  uview_rbr h : let v := passes (uview h) in uview (snd (uart_in UART_REG_RBR h)) = v <| r_fifo := tail (r_fifo v) |> /\
    (forall c l, r_fifo v = c :: l -> fst (uart_in UART_REG_RBR h) = c);
  uview_thr x h : is_u8 x -> uview (uart_out UART_REG_THR x h) = put_thr x (passes (uview h));
  uview_clear x h : uview (uart_out UART_REG_FSR x h) = (passes (uview h)) <| r_err := Z.land (r_err (passes (uview h))) (Z.lnot x) |>;
  uview_out a x h : a ∈ plain_regs -> uview (uart_out a x h) = (passes (uview h)) <| v_regs := <[a := x]> (v_regs (passes (uview h))) |>;
}.

(** ** The transmit buffer *)
Definition xmit_wf (c : circ_buf) : Prop := zlen (cb_buf c) = 4096 /\ 0 <= cb_head c < 4096 /\ 0 <= cb_tail c < 4096 /\ Forall is_u8 (cb_buf c).
Definition pending (c : circ_buf) : Z := (cb_head c - cb_tail c) mod 4096.
Definition cell (c : circ_buf) (k : Z) : Z := nth (Z.to_nat ((cb_tail c + k) mod 4096)) (cb_buf c) 0.
Definition queued (c : circ_buf) : list Z := map (cell c) (seqZ 0 (pending c)).

Lemma pending_range c : 0 <= pending c < 4096.
Proof. apply Z.mod_pos_bound; lia. Qed.

Lemma queued_len c : zlen (queued c) = pending c.
Proof. unfold queued, zlen; rewrite length_map, length_seqZ; pose proof (pending_range c); lia. Qed.

Lemma mask_4096 x : 0 <= x -> Z.land x (UART_XMIT_SIZE - 1) = x mod 4096.
Proof. intros; change (UART_XMIT_SIZE - 1) with (Z.ones 12); by rewrite Z.land_ones. Qed.

Lemma circ_empty_pending c : xmit_wf c -> uart_circ_empty c = (pending c =? 0).
Proof.
  intros (_ & Hh & Ht & _); unfold uart_circ_empty, pending; destruct (cb_head c =? cb_tail c) eqn:E; zbool; symmetry; [rewrite E, Z.sub_diag; done|]; apply Z.eqb_neq; intros Hm.
  apply Z.mod_divide in Hm as [q Hq]; [nia|lia].
Qed.

(** A character is taken from the buffer. *)
Lemma queued_take c : xmit_wf c -> 0 < pending c -> let c' := c <| cb_tail := Z.land (cb_tail c + 1) (UART_XMIT_SIZE - 1) |> in
  exists x, rd (cb_buf c) (cb_tail c) = Some x /\ is_u8 x /\ queued c = x :: queued c' /\ xmit_wf c' /\ pending c' = pending c - 1.
Proof.
  intros (Hl & Hh & Ht & Hu) Hp c'; set (t' := Z.land _ _) in c'; assert (Ht' : t' = (cb_tail c + 1) mod 4096) by (apply mask_4096; lia); clearbody t'; subst t'; destruct (lookup_lt_is_Some_2 (cb_buf c) (Z.to_nat (cb_tail c))) as [x Hx]; [unfold zlen in Hl; lia|]; exists x.
  assert (Hp' : pending c' = pending c - 1).
  { unfold pending, c'; cbn [cb_head cb_tail set]; rewrite Zminus_mod_idemp_r; replace (cb_head c - (cb_tail c + 1)) with (cb_head c - cb_tail c - 1) by lia; rewrite <- Zminus_mod_idemp_l; fold (pending c); apply Z.mod_small; pose proof (pending_range c); lia. }
  split; [apply rd_Some; split; [lia|done]|]; split; [exact (proj1 (Forall_lookup _ _) Hu _ _ Hx)|]; split; [|split; [|exact Hp']].
  - unfold queued; rewrite Hp', seqZ_cons by lia; cbn [map]; f_equal.
    + unfold cell; rewrite Z.add_0_r, Z.mod_small by lia; by apply nth_lookup_Some.
    + rewrite <- Z.add_1_r, Z.add_0_l, <- (fmap_add_seqZ 1 0); change (seqZ 0 (Z.pred (pending c))) with (seqZ 0 (pending c - 1)); rewrite <- list_fmap_compose; apply list_fmap_ext; intros i k Hk; cbn [compose].
      unfold cell, c'; cbn [cb_tail cb_buf set]; rewrite Zplus_mod_idemp_l; do 3 f_equal; lia.
  - unfold xmit_wf, c'; cbn; pose proof (Z.mod_pos_bound (cb_tail c + 1) 4096); split_and!; try done; lia.
Qed.

(** A character is put into it, unless it is full. *)
Lemma queued_put {CO : CircOps} {CL : CircLaws} c x : xmit_wf c -> is_u8 x ->
  exists r c', __uart_put_char x c = Some (r, c') /\ xmit_wf c' /\ (if pending c =? 4095 then r = 0 /\ c' = c else r = 1 /\ queued c' = queued c ++ [x]).
Proof.
  intros (Hl & Hh & Ht & Hu) Hx; unfold __uart_put_char, uart_circ_chars_free; change UART_XMIT_SIZE with (2 ^ 12) at 1; rewrite circ_space by (lia || (change (2 ^ 12) with 4096; lia)); change (2 ^ 12) with 4096.
  assert (Hs : (cb_tail c - (cb_head c + 1)) mod 4096 = 4095 - pending c).
  { unfold pending; replace (cb_tail c - (cb_head c + 1)) with (- (cb_head c - cb_tail c) - 1) by lia; pose proof (Z.mod_pos_bound (cb_head c - cb_tail c) 4096 ltac:(lia)) as Hr; pose proof (Z.div_mod (cb_head c - cb_tail c) 4096 ltac:(lia)) as Hd.
    symmetry; apply (Z.mod_unique_pos _ _ (- ((cb_head c - cb_tail c) / 4096) - 1)); lia. }
  rewrite Hs; destruct (pending c =? 4095) eqn:E; zbool.
  - rewrite E; exists 0, c; by split_and!.
  - pose proof (pending_range c) as Hpr; assert (Hnz : nz (4095 - pending c) = true) by (unfold nz; apply negb_true_iff, Z.eqb_neq; lia); rewrite Hnz, wr_in, bind_ok by lia; set (h' := Z.land _ _); assert (Hh' : h' = (cb_head c + 1) mod 4096) by (apply mask_4096; lia); clearbody h'; subst h'.
    pose proof (Z.mod_pos_bound (cb_head c + 1) 4096 ltac:(lia)) as Hhb; eexists 1, _; split; [reflexivity|]; split; [unfold xmit_wf; cbn; split_and!; try lia; [by rewrite zlen_insert|by apply Forall_insert]|]; split; [done|].
    set (c' := c <| cb_buf := _ |> <| cb_head := _ |>); assert (Hp' : pending c' = pending c + 1).
    { unfold pending, c'; cbn [cb_head cb_tail set]; rewrite Zminus_mod_idemp_l; replace (cb_head c + 1 - cb_tail c) with (cb_head c - cb_tail c + 1) by lia; rewrite <- Zplus_mod_idemp_l; fold (pending c); apply Z.mod_small; lia. }
    unfold queued; rewrite Hp', seqZ_app, map_app by lia; cbn [map]; rewrite Z.add_0_l; replace (seqZ (pending c) 1) with [pending c] by (by rewrite seqZ_cons by lia); cbn [map]; f_equal.
    + apply list_fmap_ext; intros i k Hk; apply lookup_seqZ in Hk as [-> Hk]; unfold cell, c'; cbn [cb_tail cb_buf set]; set (j := (cb_tail c + (0 + Z.of_nat i)) mod 4096).
      assert (Hj : Z.to_nat j <> Z.to_nat (cb_head c)).
      { intros Hj; apply Z2Nat.inj in Hj; [|apply Z.mod_pos_bound; lia|lia]; assert (Hb : pending c = (0 + Z.of_nat i) mod 4096); [|rewrite Z.mod_small in Hb; lia].
        unfold pending; rewrite <- Hj; unfold j; rewrite Zminus_mod_idemp_l; f_equal; lia. }
      rewrite !nth_lookup, list_lookup_insert_ne by done; done.
    + f_equal; unfold cell, c'; cbn [cb_tail cb_buf set]; assert (Hj : (cb_tail c + pending c) mod 4096 = cb_head c) by (unfold pending; rewrite Zplus_mod_idemp_r; replace (cb_tail c + (cb_head c - cb_tail c)) with (cb_head c) by lia; apply Z.mod_small; lia).
      rewrite Hj, nth_lookup, list_lookup_insert_eq by (unfold zlen in Hl; lia); done.
Qed.

(** ** Time passes *)
Lemma arrivals_send l : forall v, let w := fold_left arrive l v in t_fifo w = t_fifo v /\ t_gone w = t_gone v /\ t_lost w = t_lost v /\ v_regs w = v_regs v.
Proof.
  induction l as [|x l IH]; intros v; [done|]; cbn [fold_left]; destruct (IH (arrive v x)) as (-> & -> & -> & ->); unfold arrive; by destruct (zlen (r_fifo v) <? 16).
Qed.

Definition t_all (v : uart_view) : list Z := t_gone v ++ t_fifo v.

Lemma passes_send v : t_all (passes v) = t_all v /\ t_lost (passes v) = t_lost v /\ zlen (t_fifo (passes v)) <= zlen (t_fifo v) /\ v_regs (passes v) = v_regs v.
Proof.
  destruct (arrivals_send (hd [] (v_air v)) v) as (E1 & E2 & E3 & E4); unfold t_all, passes; cbn [t_gone t_fifo t_lost v_regs set]; rewrite E1, E2, E3, E4.
  split; [by rewrite <- app_assoc, take_drop|]; split; [done|]; split; [rewrite zlen_drop; pose proof (zlen_nonneg (t_fifo v)); lia|done].
Qed.

Lemma put_thr_room x v : zlen (t_fifo v) < 16 -> put_thr x v = v <| t_fifo := t_fifo v ++ [x] |>.
Proof. intros Hr; unfold put_thr; destruct (zlen (t_fifo v) <? 16) eqn:E; [done|zbool; lia]. Qed.

Section Send.
  Context {H K : Type} `{!UartHw H, !UartLaws H, !UartCore K} {CO : CircOps} {CL : CircLaws}.
  Implicit Types u : uart_nuc970_port H K.

Definition uv u : uart_view := uview (u_hw u).

(** Nothing is put out, and the buffer is not touched. *)
Record keeps u u' : Prop := {
  k_all : t_all (uv u') = t_all (uv u);
  k_lost : t_lost (uv u') = t_lost (uv u);
  k_fifo : zlen (t_fifo (uv u')) <= zlen (t_fifo (uv u));
  k_xmit : u_xmit u' = u_xmit u;
  k_xchar : u_x_char u' = u_x_char u;
  k_mode : u_stopped u' = u_stopped u /\ u_irda u' = u_irda u;
}.

#[export] Instance keeps_pre : PreOrder keeps.
Proof. split; [intros u; by constructor|]; intros u1 u2 u3 [? ? ? ? ? [? ?]] [? ? ? ? ? [? ?]]; constructor; first [lia|split|idtac]; by etransitivity. Qed.

(** The state of the hardware changes in a way that keeps what is to be sent. *)
Lemma keeps_hw u h : t_all (uview h) = t_all (uv u) -> t_lost (uview h) = t_lost (uv u) -> zlen (t_fifo (uview h)) <= zlen (t_fifo (uv u)) -> keeps u (u <| u_hw := h |>).
Proof. by constructor. Qed.

Lemma keeps_in a u : exists u', serial_in a u = (fst (uart_in a (u_hw u)), u') /\ keeps u u' /\ (a <> UART_REG_RBR -> uv u' = passes (uv u)) /\ icount u' = icount u /\ u_core u' = u_core u /\ ignore_status_mask u' = ignore_status_mask u.
Proof.
  unfold serial_in; pose proof (uview_in a (u_hw u)) as Hi; pose proof (uview_rbr (u_hw u)) as [Hr _]; destruct (passes_send (uv u)) as (E1 & E2 & E3 & _); destruct (uart_in a (u_hw u)) as [v h] eqn:E; exists (u <| u_hw := h |>); split; [done|]; cbn [snd] in Hi.
  split; [|by split_and!]; destruct (decide (a = UART_REG_RBR)) as [->|Ha].
  - rewrite E in Hr; cbn [snd] in Hr; apply keeps_hw; rewrite Hr; done.
  - apply keeps_hw; rewrite (Hi Ha); done.
Qed.

Lemma keeps_out a x u : a ∈ plain_regs \/ a = UART_REG_FSR -> keeps u (serial_out a x u).
Proof.
  intros Ha; destruct (passes_send (uv u)) as (E1 & E2 & E3 & _); destruct Ha as [Ha| ->]; apply keeps_hw; [rewrite uview_out by done|rewrite uview_out by done|rewrite uview_out by done|rewrite uview_clear..]; done.
Qed.

Lemma ier_plain : UART_REG_IER ∈ plain_regs.
Proof. by left. Qed.

(** ** Reception does not disturb it *)
Lemma keeps_count f u : keeps u (count f u).
Proof. by constructor. Qed.

Lemma keeps_core k u : keeps u (u <| u_core := k |>).
Proof. by constructor. Qed.

Lemma keeps_clear fsr m f u : keeps u (clear_error fsr m f u).
Proof. unfold clear_error; destruct (nz _); [|done]; etransitivity; [apply (keeps_out UART_REG_FSR m u); by right|apply keeps_count]. Qed.

Lemma keeps_flip ch flag u : keeps u (insert_flip ch flag u).
Proof. unfold insert_flip; destruct (tty_insert_flip_char ch flag (u_core u)) as [[] k]; [apply keeps_core|]; etransitivity; [apply (keeps_core k u)|apply keeps_count]. Qed.

Lemma keeps_insert fsr o ch flag u : keeps u (uart_insert_char fsr o ch flag u).
Proof.
  unfold uart_insert_char; set (u1 := if _ =? 0 then _ else u); assert (H1 : keeps u u1) by (unfold u1; destruct (_ =? 0); [apply keeps_flip|done]).
  destruct (nz _); [|done]; etransitivity; [exact H1|apply keeps_flip].
Qed.

Lemma keeps_char fsr ch u : keeps u (receive_char fsr ch u).
Proof.
  unfold receive_char; set (u1 := count _ u); assert (H1 : keeps u u1) by apply keeps_count; clearbody u1.
  set (p := if nz (Z.land fsr BIF) then _ else _); assert (H2 : keeps u p.2).
  { unfold p; destruct (nz (Z.land fsr BIF)); [|exact H1]; set (u2 := clear_error _ _ _ u1); assert (H2 : keeps u1 u2) by apply keeps_clear; clearbody u2; destruct (uart_handle_break (u_core u2)) as [b k]; cbn [snd]; etransitivity; [exact H1|]; etransitivity; [exact H2|apply keeps_core]. }
  destruct p as [b u2]; cbn [snd] in H2; destruct b; [done|]; set (u3 := clear_error fsr FEF _ u2); set (u4 := clear_error fsr PEF _ u3); set (u5 := clear_error fsr RX_OVER_IF _ u4); assert (H5 : keeps u u5) by (etransitivity; [exact H2|]; etransitivity; [apply keeps_clear|]; etransitivity; apply keeps_clear).
  clearbody u5; destruct (uart_handle_sysrq_char ch (u_core u5)) as [t k]; destruct t; (etransitivity; [exact H5|]); [apply keeps_core|]; etransitivity; [apply (keeps_core k u5)|apply keeps_insert].
Qed.

Lemma keeps_receive n : forall u, keeps u (receive_turns n u).
Proof.
  induction n as [|n IH]; intros u; cbn [receive_turns]; destruct (keeps_in UART_REG_FSR u) as (u1 & -> & H1 & _); (destruct (nz _); [exact H1|]); destruct (keeps_in UART_REG_FSR u1) as (u2 & -> & H2 & _); destruct (keeps_in UART_REG_RBR u2) as (u3 & -> & H3 & _);
    set (u4 := receive_char _ _ u3); assert (H4 : keeps u u4) by (etransitivity; [exact H1|]; etransitivity; [exact H2|]; etransitivity; [exact H3|apply keeps_char]); clearbody u4; (destruct (nz _); [exact H4|]); [done|]; etransitivity; [exact H4|apply IH].
Qed.
End Send.
