(* ===== verification/UartSend.v ===== *)
(** Transmission: the driver beside its UART, in every order in which writers,
    the interrupt and the line take their turns. *)
From S2P Require Import Prelude Kbd Uart UartSpec.

Section Send.
  Context {H K : Type} `{!UartHw H, !UartLaws H, !UartCore K} {CO : CircOps} {CL : CircLaws}.
  Implicit Types u : uart_nuc970_port H K.

(** [out] is put out and nothing else is; the buffer then holds [q]. *)
Record puts u (out : list Z) u' : Prop := {
  p_all : t_all (uv u') = t_all (uv u) ++ out;
  p_lost : t_lost (uv u') = t_lost (uv u);
  p_fifo : zlen (t_fifo (uv u')) <= zlen (t_fifo (uv u)) + zlen out;
  p_mode : u_stopped u' = u_stopped u /\ u_irda u' = u_irda u;
}.

Lemma keeps_puts u u' : keeps u u' -> puts u [] u'.
Proof. intros [H1 H2 H3 H4 H5 H6]; constructor; [by rewrite app_nil_r|done|rewrite zlen_nil; lia|done]. Qed.

Lemma puts_trans u a u' b u'' : puts u a u' -> puts u' b u'' -> puts u (a ++ b) u''.
Proof. intros [A1 A2 A3 [A4 A5]] [B1 B2 B3 [B4 B5]]; constructor; [by rewrite B1, A1, app_assoc|by etransitivity|rewrite zlen_app; lia|split; by etransitivity]. Qed.

Lemma out_thr c u : is_u8 c -> zlen (t_fifo (uv u)) < 16 -> puts u [c] (serial_out UART_REG_THR c u).
Proof.
  intros Hc Hr; destruct (passes_send (uv u)) as (E1 & E2 & E3 & _); assert (V : uv (serial_out UART_REG_THR c u) = (passes (uv u)) <| t_fifo := t_fifo (passes (uv u)) ++ [c] |>).
  { unfold uv, serial_out; cbn [u_hw set]; rewrite u32_id by (unfold is_u8 in Hc; lia); rewrite uview_thr by done; apply put_thr_room; fold (uv u); lia. }
  constructor; rewrite ?V; [|exact E2| |done].
  - unfold t_all in *; cbn [t_gone t_fifo set]; by rewrite app_assoc, E1.
  - cbn [t_fifo set]; rewrite zlen_app; lia.
Qed.

Lemma pending_queued u : xmit_wf (u_xmit u) -> uart_circ_chars_pending (u_xmit u) = zlen (queued (u_xmit u)).
Proof.
  intros (_ & Hh & Ht & _); rewrite queued_len; unfold uart_circ_chars_pending; change UART_XMIT_SIZE with (2 ^ 12); rewrite circ_cnt by (lia || (change (2 ^ 12) with 4096; lia)); done.
Qed.

(** Up to [n] characters from the buffer into the UART. *)
Lemma transmit_loop_ok n : forall u, xmit_wf (u_xmit u) -> 0 < pending (u_xmit u) -> zlen (t_fifo (uv u)) + Z.min (Z.of_nat n) (pending (u_xmit u)) <= 16 ->
  exists u' d, transmit_loop n u = Some u' /\ puts u d u' /\ queued (u_xmit u) = d ++ queued (u_xmit u') /\ xmit_wf (u_xmit u') /\ u_x_char u' = u_x_char u /\ zlen d <= Z.of_nat n.
Proof.
  induction n as [|n IH]; intros u Hw Hp Hr; cbn [transmit_loop]; [exists u, []; split; [done|]; split; [by apply keeps_puts|by rewrite zlen_nil]|].
  destruct (queued_take (u_xmit u) Hw Hp) as (x & Hrd & Hx & Hq & Hw' & Hp'); step_ok Hrd; pose proof (out_thr x u Hx ltac:(lia)) as M1; set (u1 := serial_out UART_REG_THR x u) in *.
  change (u_xmit u1) with (u_xmit u); set (c' := (u_xmit u) <| cb_tail := _ |>) in *; set (u2 := u1 <| u_xmit := c' |>); set (u3 := count _ u2); change (u_xmit u3) with c'.
  assert (M3 : puts u [x] u3) by (destruct M1 as [? ? ? ?]; by constructor); assert (F3 : u_xmit u3 = c' /\ u_x_char u3 = u_x_char u) by done; clearbody u3; destruct F3 as [F3 F3'].
  rewrite circ_empty_pending by done; destruct (pending c' =? 0) eqn:E; zbool.
  - exists u3, [x]; split; [done|]; split; [exact M3|]; rewrite F3; split; [exact Hq|]; split; [exact Hw'|]; split; [exact F3'|rewrite zlen_cons, zlen_nil; lia].
  - pose proof (p_fifo _ _ _ M3) as Hf; rewrite zlen_cons, zlen_nil in Hf; pose proof (pending_range c') as Hpr; destruct (IH u3) as (u' & d & E' & M' & Q' & W' & X' & L'); [by rewrite F3|rewrite F3; lia|rewrite F3; lia|].
    exists u', (x :: d); split; [exact E'|]; split; [exact (puts_trans _ [x] _ d _ M3 M')|]; rewrite F3 in Q'; split; [by rewrite Hq, Q'|]; split; [exact W'|]; split; [by rewrite X'|rewrite zlen_cons; lia].
Qed.

Lemma stop_tx_ok fuel u : u_irda u = false -> exists u', __stop_tx fuel u = Some u' /\ keeps u u'.
Proof.
  intros Hi; unfold __stop_tx; destruct (keeps_in UART_REG_IER u) as (u1 & -> & H1 & _); set (u2 := if nz _ then _ else u1); assert (H2 : keeps u u2).
  { unfold u2; destruct (nz _); [|done]; etransitivity; [exact H1|]; apply keeps_out; left; apply ier_plain. }
  clearbody u2; destruct (k_mode _ _ H2) as [_ E]; rewrite E, Hi; by exists u2.
Qed.

Lemma thr_room u fuel : (0 < fuel)%nat -> zlen (t_fifo (uv u)) < 16 -> exists u', wait_fsr fuel TX_FULL false u = Some u' /\ keeps u u'.
Proof.
  intros Hf Hr; destruct fuel as [|fuel]; [lia|]; cbn [wait_fsr]; destruct (keeps_in UART_REG_FSR u) as (u1 & -> & H1 & _); destruct (uview_fsr (u_hw u)) as (_ & _ & _ & Hfull & _); fold (uv u) in Hfull.
  destruct (passes_send (uv u)) as (_ & _ & Hp & _); rewrite Hfull; destruct (zlen (t_fifo (passes (uv u))) <? 16) eqn:E; [|zbool; lia]; by exists u1.
Qed.

(** What one call sends: the urgent character, or a part of the buffer. *)
Record sends u (x d : list Z) u' : Prop := {
  s_puts : puts u (x ++ d) u';
  s_one : x = [] \/ d = [];
  s_data : queued (u_xmit u) = d ++ queued (u_xmit u');
  s_wf : xmit_wf (u_xmit u');
  s_x : (x = [] /\ u_x_char u' = u_x_char u) \/ (x = [u_x_char u] /\ u_x_char u <> 0 /\ u_x_char u' = 0);
}.

Lemma keeps_sends u u' : keeps u u' -> xmit_wf (u_xmit u) -> sends u [] [] u'.
Proof. intros Hk Hw; constructor; [by apply keeps_puts|by left|by rewrite (k_xmit _ _ Hk)|by rewrite (k_xmit _ _ Hk)|left; split; [done|exact (k_xchar _ _ Hk)]]. Qed.

Lemma keeps_sends_trans u u1 x d u' : keeps u u1 -> sends u1 x d u' -> sends u x d u'.
Proof.
  intros Hk [S1 S2 S3 S4 S5]; constructor; [exact (puts_trans _ [] _ _ _ (keeps_puts _ _ Hk) S1)|done|by rewrite <- (k_xmit _ _ Hk)|done|by rewrite <- (k_xchar _ _ Hk)].
Qed.

Lemma sends_keeps_trans u u1 x d u' : sends u x d u1 -> keeps u1 u' -> sends u x d u'.
Proof.
  intros [S1 S2 S3 S4 S5] Hk; constructor; [rewrite <- (app_nil_r (x ++ d)); exact (puts_trans _ _ _ [] _ S1 (keeps_puts _ _ Hk))|done|by rewrite (k_xmit _ _ Hk)|by rewrite (k_xmit _ _ Hk)|by rewrite (k_xchar _ _ Hk)].
Qed.

Lemma transmit_ok fuel u : (0 < fuel)%nat -> u_irda u = false -> xmit_wf (u_xmit u) -> is_u8 (u_x_char u) -> zlen (t_fifo (uv u)) < 16 -> zlen (t_fifo (uv u)) + Z.min 12 (pending (u_xmit u)) <= 16 ->
  exists u' x d, transmit_chars fuel u = Some u' /\ sends u x d u' /\ zlen (t_fifo (uv u')) <= 16.
Proof.
  intros Hf Hi Hw Hx Hr Hp; assert (Hstop : exists u' x d, __stop_tx fuel u = Some u' /\ sends u x d u' /\ zlen (t_fifo (uv u')) <= 16).
  { destruct (stop_tx_ok fuel u Hi) as (u1 & E & K1); exists u1, [], []; split; [exact E|]; split; [by apply keeps_sends|pose proof (k_fifo _ _ K1); lia]. }
  unfold transmit_chars; destruct (nz (u_x_char u)) eqn:Ex.
  - destruct (thr_room u fuel Hf Hr) as (u1 & -> & K1); rewrite bind_ok; pose proof (out_thr (u_x_char u1) u1) as M; rewrite (k_xchar _ _ K1) in *; specialize (M Hx ltac:(pose proof (k_fifo _ _ K1); lia)); set (u2 := serial_out _ _ u1) in *; eexists _, [u_x_char u], []; split; [done|].
    destruct (puts_trans _ _ _ _ _ (keeps_puts _ _ K1) M) as [P1 P2 P3 P4]; cbn [app] in P3; rewrite zlen_cons, zlen_nil in P3; split; [|change (zlen (t_fifo (uv u2)) <= 16); lia]; constructor; [by constructor|by right|change (queued (u_xmit u) = queued (u_xmit u1)); by rewrite (k_xmit _ _ K1)|change (xmit_wf (u_xmit u1)); by rewrite (k_xmit _ _ K1)|].
    right; split; [done|]; split; [|done]; unfold nz in Ex; apply negb_true_iff, Z.eqb_neq in Ex; exact Ex.
  - destruct (u_stopped u); [exact Hstop|]; rewrite circ_empty_pending by done; destruct (pending (u_xmit u) =? 0) eqn:Ep; zbool.
    + exact Hstop.
    + pose proof (pending_range (u_xmit u)); destruct (transmit_loop_ok 12 u Hw) as (u1 & d & E1 & P1 & Q1 & W1 & X1 & L1); [lia|lia|]; step_ok E1; assert (S1 : sends u [] d u1) by (constructor; [exact P1|by left|exact Q1|exact W1|by left]).
      assert (Hl : zlen d <= pending (u_xmit u)) by (pose proof (f_equal zlen Q1) as Hq; rewrite zlen_app, !queued_len in Hq; pose proof (pending_range (u_xmit u1)); lia); pose proof (p_fifo _ _ _ P1) as Hf1.
      set (u2 := if _ <? _ then _ else u1); assert (K2 : keeps u1 u2) by (unfold u2; destruct (_ <? _); [apply keeps_core|done]); clearbody u2; pose proof (sends_keeps_trans _ _ _ _ _ S1 K2) as S2; pose proof (k_fifo _ _ K2) as Hf2; destruct (uart_circ_empty (u_xmit u2)); [|exists u2, [], d; split; [done|]; split; [done|lia]].
      destruct (stop_tx_ok fuel u2) as (u3 & E3 & K3); [destruct (p_mode _ _ _ (s_puts _ _ _ _ S2)) as [_ ->]; done|]; exists u3, [], d; split; [exact E3|]; split; [exact (sends_keeps_trans _ _ _ _ _ S2 K3)|pose proof (k_fifo _ _ K3); lia].
Qed.

Lemma start_tx_ok fuel u : (0 < fuel)%nat -> u_irda u = false -> xmit_wf (u_xmit u) -> is_u8 (u_x_char u) -> zlen (t_fifo (uv u)) <= 16 ->
  exists u' x d, nuc970serial_start_tx fuel u = Some u' /\ sends u x d u' /\ zlen (t_fifo (uv u')) <= 16.
Proof.
  intros Hf Hi Hw Hx Hr; unfold nuc970serial_start_tx; rewrite Hi; destruct (keeps_in UART_REG_IER u) as (u1 & -> & K1 & _); set (ier := fst _); set (u2 := serial_out UART_REG_IER _ u1); assert (K2 : keeps u u2) by (etransitivity; [exact K1|apply keeps_out; left; apply ier_plain]); clearbody u2.
  destruct (keeps_in UART_REG_FSR u2) as (u3 & -> & K3 & V3 & _); specialize (V3 ltac:(discriminate)); destruct (uview_fsr (u_hw u2)) as (_ & _ & Hptr & _); fold (uv u2) in Hptr; rewrite Hptr, <- V3; clear Hptr V3; assert (KK : keeps u u3) by (by transitivity u2); clear K1 K2 K3.
  rewrite (pending_queued u3), queued_len by (by rewrite (k_xmit _ _ KK)); pose proof (k_fifo _ _ KK) as Hf3; pose proof (pending_range (u_xmit u3)) as Hp3; pose proof (zlen_nonneg (t_fifo (uv u3))); rewrite (u32_id (16 - _)) by lia.
  assert (Hfin : forall u4 x d, sends u x d u4 -> zlen (t_fifo (uv u4)) <= 16 -> exists u' x' d', Some (serial_out UART_REG_IER (Z.lor ier THRE_IEN) u4) = Some u' /\ sends u x' d' u' /\ zlen (t_fifo (uv u')) <= 16).
  { intros u4 x d S4 H4; assert (K4 : keeps u4 (serial_out UART_REG_IER (Z.lor ier THRE_IEN) u4)) by (apply keeps_out; left; apply ier_plain); eexists _, x, d; split; [done|]; split; [exact (sends_keeps_trans _ _ _ _ _ S4 K4)|]; pose proof (k_fifo _ _ K4); lia. }
  destruct (pending (u_xmit u3) <? 16 - zlen (t_fifo (uv u3))) eqn:E; zbool; [|rewrite bind_ok; apply (Hfin u3 [] []); [by apply keeps_sends|lia]].
  destruct (transmit_ok fuel u3) as (u4 & x & d & E4 & S4 & H4); [done|by destruct (k_mode _ _ KK) as [_ ->]|by rewrite (k_xmit _ _ KK)|by rewrite (k_xchar _ _ KK)|lia|lia|].
  step_ok E4; apply (Hfin u4 x d); [exact (keeps_sends_trans _ _ _ _ _ KK S4)|exact H4].
Qed.

Lemma keeps_receive_chars u : keeps u (receive_chars u).
Proof. unfold receive_chars, core; etransitivity; [apply (keeps_receive 256 u)|apply keeps_core]. Qed.

Lemma uart_interrupt_ok fuel u : (0 < fuel)%nat -> u_irda u = false -> xmit_wf (u_xmit u) -> is_u8 (u_x_char u) -> zlen (t_fifo (uv u)) <= 16 ->
  exists u' x d, nuc970serial_interrupt fuel u = Some u' /\ sends u x d u' /\ zlen (t_fifo (uv u')) <= 16.
Proof.
  intros Hf Hi Hw Hx Hr; unfold nuc970serial_interrupt; pose proof (uview_isr (u_hw u)) as Hthre; fold (uv u) in Hthre; destruct (keeps_in UART_REG_ISR u) as (u1 & -> & K1 & V1 & _); specialize (V1 ltac:(discriminate)); rewrite <- V1 in Hthre; set (isr := fst _) in *.
  set (u2 := if nz (Z.land isr (Z.lor RDA_IF TOUT_IF)) then _ else u1); assert (K12 : keeps u1 u2) by (unfold u2; destruct (nz (Z.land isr (Z.lor RDA_IF TOUT_IF))); [apply keeps_receive_chars|done]); clearbody u2; assert (K2 : keeps u u2) by (by transitivity u1).
  assert (Hfin : forall u4 x d, sends u x d u4 -> zlen (t_fifo (uv u4)) <= 16 -> exists u' x' d', Some (if nz (Z.land isr ERR_FLAGS) then serial_out UART_REG_FSR ERR_FLAGS u4 else u4) = Some u' /\ sends u x' d' u' /\ zlen (t_fifo (uv u')) <= 16).
  { intros u4 x d S4 H4; set (u5 := if nz _ then _ else u4); assert (K5 : keeps u4 u5) by (unfold u5; destruct (nz (Z.land isr ERR_FLAGS)); [apply keeps_out; by right|done]); exists u5, x, d; split; [done|]; split; [exact (sends_keeps_trans _ _ _ _ _ S4 K5)|]; pose proof (k_fifo _ _ K5); lia. }
  destruct (nz (Z.land isr THRE_IF)); [|rewrite bind_ok; apply (Hfin u2 [] []); [by apply keeps_sends|pose proof (k_fifo _ _ K2); lia]]; specialize (Hthre eq_refl); pose proof (k_fifo _ _ K12) as H0; rewrite Hthre, zlen_nil in H0; pose proof (pending_range (u_xmit u2)).
  destruct (transmit_ok fuel u2) as (u4 & x & d & E4 & S4 & H4); [done|by destruct (k_mode _ _ K2) as [_ ->]|by rewrite (k_xmit _ _ K2)|by rewrite (k_xchar _ _ K2)|lia|lia|].
  step_ok E4; apply (Hfin u4 x d); [exact (keeps_sends_trans _ _ _ _ _ K2 S4)|exact H4].
Qed.

(** ** The system *)

(** An interleaving of two sequences. *)
Inductive interleave : list Z -> list Z -> list Z -> Prop :=
| il_nil : interleave [] [] []
| il_left a b c x : interleave a b c -> interleave (a ++ [x]) b (c ++ [x])
| il_right a b c x : interleave a b c -> interleave a (b ++ [x]) (c ++ [x]).

Lemma interleave_app_l d : forall a b c, interleave a b c -> interleave (a ++ d) b (c ++ d).
Proof. induction d as [|x d IH]; intros a b c Hi; [by rewrite !app_nil_r|]; replace (a ++ x :: d) with ((a ++ [x]) ++ d) by (by rewrite <- app_assoc); replace (c ++ x :: d) with ((c ++ [x]) ++ d) by (by rewrite <- app_assoc); by apply IH, il_left. Qed.

(** The driver with its UART; the characters that writers have put into the
    buffer, and the urgent characters that were sent. *)
Record usys := mk_usys { y_u : uart_nuc970_port H K; y_written : list Z; y_urgent : list Z }.

(** The urgent character, if the call has sent it. *)
Definition urgent u u' : list Z := if nz (u_x_char u) && negb (nz (u_x_char u')) then [u_x_char u] else [].

Inductive ustep (fuel : nat) : usys -> usys -> Prop :=
| ustep_put s c r circ' : is_u8 c -> __uart_put_char c (u_xmit (y_u s)) = Some (r, circ') ->
    ustep fuel s (mk_usys ((y_u s) <| u_xmit := circ' |>) (y_written s ++ if r =? 1 then [c] else []) (y_urgent s))
| ustep_start s u' : nuc970serial_start_tx fuel (y_u s) = Some u' -> ustep fuel s (mk_usys u' (y_written s) (y_urgent s ++ urgent (y_u s) u'))
| ustep_irq s u' : nuc970serial_interrupt fuel (y_u s) = Some u' -> ustep fuel s (mk_usys u' (y_written s) (y_urgent s ++ urgent (y_u s) u'))
| ustep_xchar s c : is_u8 c -> ustep fuel s (mk_usys ((y_u s) <| u_x_char := c |>) (y_written s) (y_urgent s))
| ustep_stopped s b : ustep fuel s (mk_usys ((y_u s) <| u_stopped := b |>) (y_written s) (y_urgent s))
| ustep_time s h : uview h = passes (uv (y_u s)) -> ustep fuel s (mk_usys ((y_u s) <| u_hw := h |>) (y_written s) (y_urgent s)).

Definition ureaches (fuel : nat) : usys -> usys -> Prop := rtc (ustep fuel).

(** Nothing was lost: what is out is what was written and is not in the buffer
    any more, in order, with the urgent characters in between. *)
Record in_order (s : usys) : Prop := {
  io_sent : exists d, y_written s = d ++ queued (u_xmit (y_u s)) /\ interleave d (y_urgent s) (t_all (uv (y_u s)));
  io_lost : t_lost (uv (y_u s)) = [];
  io_fifo : zlen (t_fifo (uv (y_u s))) <= 16;
  io_wf : xmit_wf (u_xmit (y_u s));
  io_x : is_u8 (u_x_char (y_u s));
  io_mode : u_irda (y_u s) = false;
}.

Lemma sends_in_order s x d u' : in_order s -> sends (y_u s) x d u' -> zlen (t_fifo (uv u')) <= 16 -> in_order (mk_usys u' (y_written s) (y_urgent s ++ urgent (y_u s) u')).
Proof.
  intros [(e & Hw & Hi) Hl Hf Hwf Hx Hm] [[P1 P2 P3 [P4 P5]] S2 S3 S4 S5] Hf'; constructor; cbn [y_u y_written y_urgent].
  - exists (e ++ d); rewrite <- app_assoc, <- S3; split; [done|]; rewrite P1; unfold urgent; destruct S5 as [[-> Ex]|(-> & Hx1 & Hx2)].
    + rewrite Ex, andb_negb_r, app_nil_r; by apply interleave_app_l.
    + rewrite Hx2; assert (Hnz : nz (u_x_char (y_u s)) = true) by (unfold nz; by apply negb_true_iff, Z.eqb_neq); rewrite Hnz; destruct S2 as [S2| ->]; [done|]; rewrite !app_nil_r; by apply il_right.
  - by rewrite P2.
  - exact Hf'.
  - exact S4.
  - destruct S5 as [[_ ->]|(_ & _ & ->)]; [done|unfold is_u8; lia].
  - by rewrite P5.
Qed.

Lemma step_in_order fuel s s' : (0 < fuel)%nat -> in_order s -> ustep fuel s s' -> in_order s'.
Proof.
  intros Hf Ho Hs; pose proof Ho as [(e & Hw & Hi) Hl Hff Hwf Hx Hm]; destruct Hs as [s c r circ' Hc E|s u' E|s u' E|s c Hc|s b|s h Hh].
  - destruct (queued_put (u_xmit (y_u s)) c Hwf Hc) as (r' & c' & E' & Hwf' & Hq); rewrite E in E'; injection E' as <- <-; constructor; try done; cbn [y_u y_written y_urgent]; exists e; split; [|done].
    change (u_xmit ((y_u s) <| u_xmit := circ' |>)) with circ'; destruct (pending (u_xmit (y_u s)) =? 4095); destruct Hq as [-> Hq]; [rewrite Hq, app_nil_r|rewrite Hq, Hw, app_assoc]; done.
  - destruct (start_tx_ok fuel (y_u s) Hf Hm Hwf Hx Hff) as (u1 & x & d & E1 & S1 & F1); rewrite E in E1; injection E1 as <-; by apply (sends_in_order s x d).
  - destruct (uart_interrupt_ok fuel (y_u s) Hf Hm Hwf Hx Hff) as (u1 & x & d & E1 & S1 & F1); rewrite E in E1; injection E1 as <-; by apply (sends_in_order s x d).
  - constructor; try done; by exists e.
  - constructor; try done; by exists e.
  - destruct (passes_send (uv (y_u s))) as (E1 & E2 & E3 & _); constructor; cbn [y_u y_written y_urgent]; try done; change (uv ((y_u s) <| u_hw := h |>)) with (uview h); rewrite Hh; [exists e; by rewrite E1|by rewrite E2|lia].
Qed.

Lemma reach_in_order fuel s s' : (0 < fuel)%nat -> in_order s -> ureaches fuel s s' -> in_order s'.
Proof. intros Hf Ho Hr; induction Hr as [s|s s1 s' Hs _ IH]; [done|]; apply IH; by apply (step_in_order fuel s). Qed.
End Send.
