(* ===== verification/UartRecv.v ===== *)
(** Reception: a reference for what is read and reported of what comes in, and
    that the serial driver follows it. *)
From S2P Require Import Prelude Kbd Uart UartSpec.

(** ** The reference

    The errors of a status, by the number of their bit: an overrun, a wrong
    parity, a framing error, a break. *)
Definition err_overrun : Z := 0.
Definition err_parity : Z := 4.
Definition err_frame : Z := 5.
Definition err_break : Z := 6.

(** The kind of error that is reported of a character: a framing error before a
    wrong parity before a break. (A break sets the bit of a framing error, too.) *)
Definition kind (e : Z) : Z :=
  match Z.testbit e err_frame, Z.testbit e err_parity, Z.testbit e err_break with
  | true, _, _ => TTY_FRAME
  | false, true, _ => TTY_PARITY
  | false, false, true => TTY_BREAK
  | false, false, false => TTY_NORMAL
  end.

(** What is reported of a character read with the errors [e]: nothing if one of
    them is to be ignored; an overrun is reported for itself, behind it. *)
Definition reported (ignore : Z) (x : Z * Z) : list (Z * Z) :=
  let '(e, c) := x in
  (if existsb (fun b => Z.testbit e b && Z.testbit ignore b) [err_parity; err_frame; err_break] then [] else [(c, kind e)]) ++
  (if Z.testbit e err_overrun && negb (Z.testbit ignore err_overrun) then [(0, TTY_OVERRUN)] else []).

(** How many characters were read with an error, and the counters behind that. *)
Definition errors (b : Z) (reads : list (Z * Z)) : Z := zlen (filter (fun x => Z.testbit (fst x) b = true) reads).
Definition more (n x : Z) : Z := if n =? 0 then x else u32 (x + n).
Definition tally (reads : list (Z * Z)) (i : uart_icount) : uart_icount :=
  mk_icount (more (zlen reads) (ic_rx i)) (ic_tx i) (more (errors err_frame reads) (ic_frame i)) (more (errors err_overrun reads) (ic_overrun i))
    (more (errors err_parity reads) (ic_parity i)) (more (errors err_break reads) (ic_brk i)) (ic_buf_overrun i).

(** The errors of a status are acknowledged one by one, each with one access. *)
Definition forget (b : Z) (v : uart_view) : uart_view := let v := passes v in v <| r_err := Z.clearbit (r_err v) b |>.
Definition acknowledge (e : Z) (v : uart_view) : uart_view :=
  fold_left (fun v b => if Z.testbit e b then forget b v else v) [err_break; err_frame; err_parity; err_overrun] v.

(** Reading at most [n] characters: each is looked for, its errors are read, it is
    read itself, and the errors are acknowledged; time passes at each access. *)
Fixpoint takes (n : nat) (v : uart_view) : list (Z * Z) * uart_view :=
  match n with
  | O => ([], v)
  | S n =>
      let v := passes v in
      if bool_decide (r_fifo v = []) then ([], v)
      else
        let v := passes v in
        let e := r_err v in
        let v := passes v in
        let '(reads, w) := takes n (acknowledge e (v <| r_fifo := tail (r_fifo v) |>)) in
        ((e, hd 0 (r_fifo v)) :: reads, w)
  end.

Lemma takes_step n v : takes (S n) v =
  let v1 := passes v in if bool_decide (r_fifo v1 = []) then ([], v1) else
  let v2 := passes v1 in let v3 := passes v2 in
  let '(reads, w) := takes n (acknowledge (r_err v2) (v3 <| r_fifo := tail (r_fifo v3) |>)) in ((r_err v2, hd 0 (r_fifo v3)) :: reads, w).
Proof. done. Qed.

(** ** The reference takes the characters in order *)

(** The characters of [p] have been read. *)
Definition has_read (p : list Z) (v : uart_view) : Prop := r_all v = p ++ r_fifo v /\ Forall is_u8 (r_fifo v).

(** Nothing is read; and without arrivals nothing changes. *)
Definition mild (v w : uart_view) : Prop :=
  (forall p, has_read p v -> has_read p w) /\ (r_fifo v <> [] -> r_fifo w <> []) /\ (v_air v = [] -> v_air w = [] /\ r_fifo w = r_fifo v).

#[export] Instance mild_pre : PreOrder mild.
Proof.
  split; [intros v; by split_and!|]; intros v1 v2 v3 (A1 & A2 & A3) (B1 & B2 & B3); split; [intros p Hp; by apply B1, A1|]; split; [intros Hn; by apply B2, A2|].
  intros Ha; destruct (A3 Ha) as (C1 & C2); destruct (B3 C1) as (D1 & D2); split; [done|]; by rewrite D2.
Qed.

Lemma arrive_read x p v : has_read p v -> has_read p (arrive v x).
Proof. unfold has_read, arrive; intros [Hp Hu]; destruct (zlen (r_fifo v) <? 16); [|done]; cbn [r_all r_fifo set]; split; [by rewrite Hp, app_assoc|]; apply Forall_app; split; [done|]; apply Forall_singleton; unfold is_u8, u8; apply Z.mod_pos_bound; lia. Qed.

Lemma arrive_some x v : r_fifo v <> [] -> r_fifo (arrive v x) <> [].
Proof. unfold arrive; intros Hn; destruct (zlen (r_fifo v) <? 16); [|done]; cbn [r_fifo set]; by destruct (r_fifo v). Qed.

Lemma mild_passes v : mild v (passes v).
Proof.
  assert (Hl : forall l w, (forall p, has_read p w -> has_read p (fold_left arrive l w)) /\ (r_fifo w <> [] -> r_fifo (fold_left arrive l w) <> [])).
  { induction l as [|x l IH]; intros w; cbn [fold_left]; [done|]; destruct (IH (arrive w x)) as [I1 I2]; split; [intros p Hp; by apply I1, arrive_read|intros Hn; by apply I2, arrive_some]. }
  destruct (Hl (hd [] (v_air v)) v) as [L1 L2]; split; [exact L1|]; split; [exact L2|]; intros Ha; unfold passes; cbn [v_air r_fifo set]; by rewrite Ha.
Qed.

Lemma mild_forget b v : mild v (forget b v).
Proof. destruct (mild_passes v) as (M1 & M2 & M3); done. Qed.

Lemma mild_acknowledge e v : mild v (acknowledge e v).
Proof.
  unfold acknowledge; set (l := [_; _; _; _]); clearbody l; revert v; induction l as [|b l IH]; intros v; [done|]; cbn [fold_left]; etransitivity; [|apply IH]; destruct (Z.testbit e b); [apply mild_forget|done].
Qed.

(** The character that is read. *)
Lemma has_read_tail p v : has_read p v -> r_fifo v <> [] -> is_u8 (hd 0 (r_fifo v)) /\ has_read (p ++ [hd 0 (r_fifo v)]) (v <| r_fifo := tail (r_fifo v) |>).
Proof. intros [H1 H2] Hn; destruct (r_fifo v) as [|c l] eqn:E; [done|]; cbn [hd tail] in *; apply Forall_cons in H2 as [Hc Hl]; split; [done|]; split; [cbn [r_all r_fifo set]; by rewrite <- app_assoc|done]. Qed.

Lemma takes_order n : forall p v, has_read p v -> has_read (p ++ map snd (fst (takes n v))) (snd (takes n v)) /\ (length (fst (takes n v)) <= n)%nat.
Proof.
  induction n as [|n IH]; intros p v Hp; cbn [takes fst snd map length]; [by rewrite app_nil_r|]; destruct (mild_passes v) as (M1 & _ & _); specialize (M1 p Hp); set (v1 := passes v) in *; clearbody v1; case_bool_decide as Hn; cbn [fst snd map length]; [rewrite app_nil_r; split; [done|lia]|].
  assert (M : mild v1 (passes (passes v1))) by (etransitivity; apply mild_passes); destruct M as (M2 & M3 & _); specialize (M2 p M1); specialize (M3 Hn); set (e := r_err (passes v1)); set (v3 := passes (passes v1)) in *; clearbody e v3.
  destruct (has_read_tail p v3 M2 M3) as [_ Ht]; apply (proj1 (mild_acknowledge e _)) in Ht; destruct (IH _ _ Ht) as [I1 I2]; destruct (takes n _) as [reads w]; cbn [fst snd map length] in *; split; [by rewrite cons_middle, app_assoc|lia].
Qed.

(** ** What is read when nothing more comes in *)

Lemma passes_err v : v_air v = [] -> r_err (passes v) = r_err v.
Proof. intros Ha; unfold passes; by rewrite Ha. Qed.

Lemma acknowledge_err e v : v_air v = [] -> r_err v = e -> Z.land e ERR_FLAGS = e -> r_err (acknowledge e v) = 0.
Proof.
  intros Ha He Hm; assert (Hf : forall l v, v_air v = [] -> r_err (fold_left (fun v b => if Z.testbit e b then forget b v else v) l v) = fold_left (fun x b => if Z.testbit e b then Z.clearbit x b else x) l (r_err v)).
  { clear; induction l as [|b l IH]; intros v Ha; [done|]; cbn [fold_left]; destruct (Z.testbit e b); rewrite IH; try done; [|by apply (mild_forget b v)]; unfold forget; cbn [r_err set]; by rewrite passes_err. }
  unfold acknowledge; rewrite Hf, He by done; clear - Hm; apply Z.bits_inj'; intros k Hk; rewrite Z.bits_0; cbn [fold_left].
  assert (Hb : forall b x, 0 <= b -> Z.testbit (if Z.testbit e b then Z.clearbit x b else x) k = true -> Z.testbit e k = true -> Z.testbit x k = true /\ k <> b).
  { intros b x Hb H Hek; destruct (Z.testbit e b) eqn:E; [rewrite Z.clearbit_eqb in H; apply andb_true_iff in H as [H Hn]; split; [done|]; zbool; lia|split; [done|congruence]]. }
  assert (Hup : forall b x, 0 <= b -> Z.testbit (if Z.testbit e b then Z.clearbit x b else x) k = true -> Z.testbit x k = true).
  { intros b x Hb' H; destruct (Z.testbit e b); [|done]; rewrite Z.clearbit_eqb in H; by apply andb_true_iff in H as [H _]. }
  apply not_true_iff_false; intros H; assert (Hek : Z.testbit e k = true) by (do 4 (apply Hup in H; [|done]); exact H).
  do 4 (apply Hb in H as [H ?]; [|done..]); rewrite <- Hm, Z.land_spec in Hek; apply andb_true_iff in Hek as [_ Hek]; unfold err_overrun, err_parity, err_frame, err_break in *.
  destruct (Z_le_gt_dec 7 k) as [Hk7|Hk7]; [rewrite Z.bits_above_log2 in Hek; [done|done|change (Z.log2 ERR_FLAGS) with 6; lia]|]; assert (Hc : k = 1 \/ k = 2 \/ k = 3) by lia; by destruct Hc as [-> | [-> | ->]].
Qed.

Lemma takes_quiet n : forall v, v_air v = [] -> Z.land (r_err v) ERR_FLAGS = r_err v -> zlen (r_fifo v) <= Z.of_nat n ->
  fst (takes n v) = match r_fifo v with [] => [] | c :: l => (r_err v, c) :: map (pair 0) l end.
Proof.
  induction n as [|n IH]; intros v Ha Hm Hn; cbn [takes]; [destruct (r_fifo v) as [|c l]; [done|]; rewrite zlen_cons in Hn; pose proof (zlen_nonneg l); lia|].
  destruct (mild_passes v) as (_ & _ & M1); destruct (M1 Ha) as [A1 F1]; pose proof (passes_err v Ha) as E1; set (v1 := passes v) in *; clearbody v1; case_bool_decide as Hc; [by rewrite <- F1, Hc|].
  destruct (mild_passes v1) as (_ & _ & M2); destruct (M2 A1) as [A2 F2]; pose proof (passes_err v1 A1) as E2; set (v2 := passes v1) in *; clearbody v2.
  destruct (mild_passes v2) as (_ & _ & M3); destruct (M3 A2) as [A3 F3]; pose proof (passes_err v2 A2) as E3; set (v3 := passes v2) in *; clearbody v3.
  rewrite <- F1, <- F2, <- F3 in Hn |- *; rewrite <- F2, <- F3 in Hc; rewrite <- E1, <- E2 in Hm |- *; destruct (r_fifo v3) as [|c l]; [done|]; cbn [tail hd]; set (w := v3 <| r_fifo := l |>); assert (Hw : v_air w = [] /\ r_err w = r_err v2 /\ r_fifo w = l) by (split_and!; done); clearbody w; destruct Hw as (W1 & W2 & W3).
  destruct (mild_acknowledge (r_err v2) w) as (_ & _ & M4); destruct (M4 W1) as [A4 F4]; pose proof (acknowledge_err (r_err v2) w W1 W2 Hm) as E4; rewrite W3 in F4; rewrite zlen_cons in Hn; specialize (IH (acknowledge (r_err v2) w) A4); rewrite E4, F4 in IH; specialize (IH eq_refl ltac:(lia)).
  destruct (takes n _) as [reads w']; cbn [fst] in *; rewrite IH; f_equal; by destruct l.
Qed.

(** Without errors all characters are reported as normal. *)
Lemma reported_normal ignore l : concat (map (reported ignore) (map (pair 0) l)) = map (fun c => (c, TTY_NORMAL)) l.
Proof. induction l as [|c l IH]; [done|]; cbn [map concat]; by rewrite IH. Qed.

(** ** The bits of a status *)
Lemma nz_bit x b : 0 <= b -> nz (Z.land x (2 ^ b)) = Z.testbit x b.
Proof.
  intros Hb; unfold nz; destruct (Z.land x (2 ^ b) =? 0) eqn:E; zbool; cbn [negb]; symmetry.
  - rewrite <- (andb_true_r (Z.testbit x b)), <- (Z.pow2_bits_true b Hb), <- Z.land_spec, E; apply Z.bits_0.
  - apply not_false_iff_true; intros Hf; apply E, Z.bits_inj'; intros k Hk; rewrite Z.land_spec, Z.pow2_bits_eqb, Z.bits_0 by done; destruct (b =? k) eqn:Eb; [zbool; subst k; by rewrite Hf|by rewrite andb_false_r].
Qed.

Lemma err_bit fsr b : Z.testbit ERR_FLAGS b = true -> Z.testbit (Z.land fsr ERR_FLAGS) b = Z.testbit fsr b.
Proof. intros Hb; by rewrite Z.land_spec, Hb, andb_true_r. Qed.

Lemma rx_flag_kind fsr : rx_flag fsr = kind (Z.land fsr ERR_FLAGS).
Proof.
  unfold rx_flag, kind; rewrite !err_bit by done; change BIF with (2 ^ err_break); change PEF with (2 ^ err_parity); change FEF with (2 ^ err_frame); rewrite !nz_bit by done; by destruct (Z.testbit fsr err_break), (Z.testbit fsr err_parity), (Z.testbit fsr err_frame).
Qed.

(** The two tests of [uart_insert_char]. *)
Lemma ignored_bits fsr ignore : Z.land ignore (Z.lnot ERR_FLAGS) = 0 ->
  (Z.land (Z.land fsr ignore) (Z.lnot RX_OVER_IF) =? 0) = negb (existsb (fun b => Z.testbit (Z.land fsr ERR_FLAGS) b && Z.testbit ignore b) [err_parity; err_frame; err_break]).
Proof.
  intros Hi; assert (Hx : Z.land (Z.land fsr ignore) (Z.lnot RX_OVER_IF) = Z.land (Z.land fsr ignore) (Z.lor (2 ^ err_parity) (Z.lor (2 ^ err_frame) (2 ^ err_break)))).
  { change (Z.lor _ _) with (Z.land ERR_FLAGS (Z.lnot RX_OVER_IF)); apply Z.bits_inj'; intros k Hk; assert (H2 : Z.testbit (Z.land ignore (Z.lnot ERR_FLAGS)) k = false) by (rewrite Hi; apply Z.bits_0).
    rewrite !Z.land_spec in *; rewrite Z.lnot_spec in H2 by done; by destruct (Z.testbit fsr k), (Z.testbit ignore k), (Z.testbit ERR_FLAGS k). }
  rewrite Hx; set (x := Z.land fsr ignore); assert (Hb : forall b, Z.testbit ERR_FLAGS b = true -> Z.testbit (Z.land fsr ERR_FLAGS) b && Z.testbit ignore b = Z.testbit x b) by (intros b Hb; rewrite err_bit by done; symmetry; apply Z.land_spec).
  cbn [existsb]; rewrite !Hb by done; clearbody x; rewrite !Z.land_lor_distr_r, <- (nz_bit x err_parity), <- (nz_bit x err_frame), <- (nz_bit x err_break) by done; unfold nz.
  set (a := Z.land x _); set (b := Z.land x (2 ^ err_frame)); set (c := Z.land x (2 ^ err_break)); rewrite orb_false_r, !negb_orb, !negb_involutive; clearbody a b c; apply eq_bool_prop_intro; rewrite !andb_True, !Is_true_true, !Z.eqb_eq, !Z.lor_eq_0_iff; done.
Qed.

Lemma overrun_bits fsr ignore : nz (Z.land (Z.land fsr (Z.lnot ignore)) RX_OVER_IF) = Z.testbit (Z.land fsr ERR_FLAGS) err_overrun && negb (Z.testbit ignore err_overrun).
Proof. change RX_OVER_IF with (2 ^ err_overrun); by rewrite nz_bit, Z.land_spec, Z.lnot_spec, err_bit. Qed.

(** ** The counters *)
Lemma more_more a b x : 0 <= a -> 0 <= b -> more b (more a x) = more (a + b) x.
Proof.
  intros Ha Hb; unfold more; destruct (a =? 0) eqn:E1, (b =? 0) eqn:E2; zbool; subst; rewrite ?Z.add_0_l, ?Z.add_0_r, ?(proj2 (Z.eqb_neq _ _) E1), ?(proj2 (Z.eqb_neq _ _) E2); try done.
  rewrite (proj2 (Z.eqb_neq (a + b) 0)) by lia; unfold u32; rewrite Zplus_mod_idemp_l; f_equal; lia.
Qed.

Lemma tally_cons e c reads i : tally reads (tally [(e, c)] i) = tally ((e, c) :: reads) i.
Proof.
  assert (He : forall b, errors b ((e, c) :: reads) = errors b [(e, c)] + errors b reads).
  { intros b; unfold errors; rewrite !filter_cons, filter_nil; destruct (decide _); rewrite ?zlen_cons, ?zlen_nil; lia. }
  unfold tally; cbn [ic_rx ic_tx ic_frame ic_overrun ic_parity ic_brk ic_buf_overrun]; rewrite !more_more by apply zlen_nonneg; by rewrite !He, (zlen_cons _ reads), zlen_cons, zlen_nil.
Qed.

Lemma tally_none i : tally [] i = i.
Proof. by destruct i. Qed.

(** ** The tty layer

    It keeps what it has taken, in order. *)
Class UartCoreLaws (K : Type) `{!UartCore K} := {
  tty_log : K -> list (Z * Z);
  log_insert ch flag k : tty_log (snd (tty_insert_flip_char ch flag k)) = tty_log k ++ (if fst (tty_insert_flip_char ch flag k) then [(ch, flag)] else []);
  log_push k : tty_log (tty_flip_buffer_push k) = tty_log k;
  log_wakeup k : tty_log (uart_write_wakeup k) = tty_log k;
  log_break k : tty_log (snd (uart_handle_break k)) = tty_log k;
  log_sysrq c k : tty_log (snd (uart_handle_sysrq_char c k)) = tty_log k;
}.

Section Recv.
  Context {H K : Type} `{!UartHw H, !UartLaws H, !UartCore K, !UartCoreLaws K} {CO : CircOps}.
  Implicit Types u : uart_nuc970_port H K.

(** No hook takes a character, and the layer above has room. *)
Definition plain_tty : Prop :=
  (forall k : K, fst (uart_handle_break k) = false) /\ (forall c (k : K), fst (uart_handle_sysrq_char c k) = false) /\ (forall c f (k : K), fst (tty_insert_flip_char c f k) = true).

(** The UART is in the state [v], [l] more is in the log, and the counters are [i]. *)
Record tells u (v : uart_view) (l : list (Z * Z)) (i : uart_icount) u' : Prop := {
  tl_view : uv u' = v;
  tl_log : tty_log (u_core u') = tty_log (u_core u) ++ l;
  tl_count : icount u' = i;
  tl_ign : ignore_status_mask u' = ignore_status_mask u;
}.

Lemma tells_trans u v a i u' w b j u'' : tells u v a i u' -> tells u' w b j u'' -> tells u w (a ++ b) j u''.
Proof. intros [A1 A2 A3 A4] [B1 B2 B3 B4]; constructor; [done|by rewrite B2, A2, app_assoc|done|by rewrite B4]. Qed.

Lemma tells_in a u : a <> UART_REG_RBR -> tells u (passes (uv u)) [] (icount u) (snd (serial_in a u)) /\ fst (serial_in a u) = fst (uart_in a (u_hw u)).
Proof.
  intros Ha; destruct (keeps_in a u) as (u1 & E & _ & V & C1 & C2 & C3); rewrite E; cbn [fst snd]; split; [|done]; constructor; [by apply V|by rewrite C2, app_nil_r|done|done].
Qed.

(** The status that is read. *)
Lemma tells_fsr u : exists fsr u', serial_in UART_REG_FSR u = (fsr, u') /\ tells u (passes (uv u)) [] (icount u) u' /\ Z.land fsr ERR_FLAGS = r_err (passes (uv u)) /\ nz (Z.land fsr RX_EMPTY) = bool_decide (r_fifo (passes (uv u)) = []).
Proof.
  destruct (tells_in UART_REG_FSR u ltac:(discriminate)) as [T E]; destruct (uview_fsr (u_hw u)) as (F1 & F2 & _); rewrite <- E in F1, F2; destruct (serial_in UART_REG_FSR u) as [fsr u']; by exists fsr, u'.
Qed.

Lemma tells_rbr u : r_fifo (passes (uv u)) <> [] -> exists u', serial_in UART_REG_RBR u = (hd 0 (r_fifo (passes (uv u))), u') /\ tells u ((passes (uv u)) <| r_fifo := tail (r_fifo (passes (uv u))) |>) [] (icount u) u'.
Proof.
  intros Hn; unfold serial_in; destruct (uview_rbr (u_hw u)) as [Hv Hc]; fold (uv u) in Hv, Hc; destruct (uart_in UART_REG_RBR (u_hw u)) as [c h]; cbn [fst snd] in *; destruct (r_fifo (passes (uv u))) as [|c' l] eqn:E; [done|]; cbn [hd tail] in *; rewrite (Hc c' l eq_refl); eexists; split; [reflexivity|].
  constructor; [exact Hv|by rewrite app_nil_r|done|done].
Qed.

Lemma tells_clear fsr b f u : Z.testbit ERR_FLAGS b = true -> 0 <= b < 32 -> let e := Z.land fsr ERR_FLAGS in
  tells u (if Z.testbit e b then forget b (uv u) else uv u) [] (if Z.testbit e b then f (icount u) else icount u) (clear_error fsr (2 ^ b) f u).
Proof.
  intros Hb Hr e; unfold e, clear_error; rewrite nz_bit, err_bit by (done || lia); destruct (Z.testbit fsr b); [|by constructor; rewrite ?app_nil_r]; constructor; try done; [|by rewrite app_nil_r].
  assert (Hp : u32 (2 ^ b) = 2 ^ b) by (apply u32_id; split; [apply Z.pow_nonneg; lia|change 4294967296 with (2 ^ 32); apply Z.pow_lt_mono_r; lia]); unfold uv at 1, serial_out, count; cbn [u_hw set]; rewrite uview_clear, Hp; fold (uv u); unfold forget; by rewrite Z.clearbit_spec', Z.ldiff_land.
Qed.

Lemma tells_flip ch flag u : plain_tty -> tells u (uv u) [(ch, flag)] (icount u) (insert_flip ch flag u).
Proof.
  intros (_ & _ & Hr); unfold insert_flip; pose proof (log_insert ch flag (u_core u)) as Hl; rewrite Hr in Hl; specialize (Hr ch flag (u_core u)); destruct (tty_insert_flip_char ch flag (u_core u)) as [b k]; cbn [fst snd] in *; subst b; by constructor.
Qed.

Lemma tells_insert fsr ch u : plain_tty -> Z.land (ignore_status_mask u) (Z.lnot ERR_FLAGS) = 0 ->
  tells u (uv u) (reported (ignore_status_mask u) (Z.land fsr ERR_FLAGS, ch)) (icount u) (uart_insert_char fsr RX_OVER_IF ch (rx_flag fsr) u).
Proof.
  intros Hp Hi; unfold uart_insert_char, reported; rewrite ignored_bits, rx_flag_kind by done; set (ig := existsb _ _); set (u1 := if negb ig then _ else u); assert (T1 : tells u (uv u) (if ig then [] else [(ch, kind (Z.land fsr ERR_FLAGS))]) (icount u) u1).
  { unfold u1; destruct ig; cbn [negb]; [by constructor; rewrite ?app_nil_r|by apply tells_flip]. }
  apply (tells_trans _ _ _ _ _ _ _ _ _ T1); destruct T1 as [V1 _ C1 I1]; rewrite I1, overrun_bits, <- V1, <- C1; destruct (_ && negb _); [by apply tells_flip|by constructor; rewrite ?app_nil_r].
Qed.

(** One character. *)
Lemma tells_char fsr ch u : plain_tty -> Z.land (ignore_status_mask u) (Z.lnot ERR_FLAGS) = 0 -> let e := Z.land fsr ERR_FLAGS in
  tells u (acknowledge e (uv u)) (reported (ignore_status_mask u) (e, ch)) (tally [(e, ch)] (icount u)) (receive_char fsr ch u).
Proof.
  intros Hp Hi e; pose proof Hp as (Hb & Hq & _); unfold receive_char; set (u1 := count _ u); assert (V1 : uv u1 = uv u) by done; assert (L1 : u_core u1 = u_core u) by done; assert (I1 : icount u1 = (icount u) <| ic_rx := u32 (ic_rx (icount u) + 1) |>) by done; assert (G1 : ignore_status_mask u1 = ignore_status_mask u) by done; clearbody u1.
  change BIF with (2 ^ err_break); change FEF with (2 ^ err_frame); change PEF with (2 ^ err_parity); change (clear_error fsr RX_OVER_IF) with (clear_error (H := H) (K := K) fsr (2 ^ err_overrun)).
  set (fb := fun i => i <| ic_brk := _ |>); set (ff := fun i => i <| ic_frame := _ |>); set (fp := fun i => i <| ic_parity := _ |>); set (fo := fun i => i <| ic_overrun := _ |>).
  set (p := if nz (Z.land fsr (2 ^ err_break)) then _ else _); assert (T2 : fst p = false /\ tells u1 (if Z.testbit e err_break then forget err_break (uv u1) else uv u1) [] (if Z.testbit e err_break then fb (icount u1) else icount u1) (snd p)).
  { pose proof (tells_clear fsr err_break fb u1 eq_refl ltac:(done)) as T; cbn zeta in T; fold e in T; unfold p; destruct (nz (Z.land fsr (2 ^ err_break))) eqn:E.
    - set (u2 := clear_error _ _ _ u1) in *; clearbody u2; pose proof (log_break (u_core u2)) as Hl; specialize (Hb (u_core u2)); destruct (uart_handle_break (u_core u2)) as [b k]; cbn [fst snd] in *; split; [done|]; destruct T as [T1 T2 T3 T4]; constructor; [exact T1|by rewrite <- T2|exact T3|exact T4].
    - assert (Ee : Z.testbit e err_break = false) by (unfold e; by rewrite err_bit, <- nz_bit). rewrite Ee; split; [done|]; cbn [snd]; by constructor; rewrite ?app_nil_r. }
  clearbody p; destruct p as [b u2]; cbn [fst snd] in T2; destruct T2 as [-> T2].
  set (u3 := clear_error fsr (2 ^ err_frame) ff u2); pose proof (tells_clear fsr err_frame ff u2 eq_refl ltac:(done)) as T3; cbn zeta in T3; fold u3 e in T3; clearbody u3.
  set (u4 := clear_error fsr (2 ^ err_parity) fp u3); pose proof (tells_clear fsr err_parity fp u3 eq_refl ltac:(done)) as T4; cbn zeta in T4; fold u4 e in T4; clearbody u4.
  set (u5 := clear_error fsr (2 ^ err_overrun) fo u4); pose proof (tells_clear fsr err_overrun fo u4 eq_refl ltac:(done)) as T5; cbn zeta in T5; fold u5 e in T5; clearbody u5.
  assert (T : tells u1 (acknowledge e (uv u)) [] (tally [(e, ch)] (icount u)) u5).
  { destruct T2 as [A1 A2 A3 A4], T3 as [B1 B2 B3 B4], T4 as [C1 C2 C3 C4], T5 as [D1 D2 D3 D4]; constructor.
    - rewrite D1, C1, B1, A1, V1; reflexivity.
    - by rewrite D2, C2, B2, A2, !app_nil_r.
    - rewrite D3, C3, B3, A3, I1; clear; unfold tally, errors; rewrite !filter_cons, filter_nil; cbn [fst]; unfold fb, ff, fp, fo; destruct (icount u); destruct (Z.testbit e err_break), (Z.testbit e err_frame), (Z.testbit e err_parity), (Z.testbit e err_overrun); reflexivity.
    - by rewrite D4, C4, B4, A4. }
  clear T2 T3 T4 T5; pose proof (log_sysrq ch (u_core u5)) as Hl; specialize (Hq ch (u_core u5)); destruct (uart_handle_sysrq_char ch (u_core u5)) as [t k]; cbn [fst snd] in *; subst t; set (u6 := u5 <| u_core := k |>); assert (T6 : tells u (acknowledge e (uv u)) [] (tally [(e, ch)] (icount u)) u6).
  { destruct T as [T1 T2 T3 T4]; constructor; [exact T1|by rewrite <- L1, <- T2|exact T3|by rewrite <- G1]. }
  clearbody u6; destruct (T6) as [V6 _ C6 I6]; pose proof (tells_insert fsr ch u6 Hp) as T7; rewrite I6, V6, C6 in T7; fold e in T7; exact (tells_trans _ _ [] _ _ _ _ _ _ T6 (T7 Hi)).
Qed.

Lemma receive_loop_takes n : forall p u, plain_tty -> Z.land (ignore_status_mask u) (Z.lnot ERR_FLAGS) = 0 -> has_read p (uv u) ->
  let '(reads, v) := takes (S n) (uv u) in tells u v (concat (map (reported (ignore_status_mask u)) reads)) (tally reads (icount u)) (receive_turns n u).
Proof.
  induction n as [|n IH]; intros p u Ht Hi Hp; cbn [receive_turns]; rewrite takes_step; cbn zeta; destruct (tells_fsr u) as (f & u1 & -> & T1 & _ & F1); change (Z.shiftl 1 14) with RX_EMPTY; destruct (mild_passes (uv u)) as (M1 & _ & _); specialize (M1 p Hp); destruct (T1) as [V1 _ C1 I1]; rewrite <- V1 in M1, F1 |- *; rewrite F1; (case_bool_decide as Hn1; [cbn [map concat]; rewrite tally_none; rewrite <- V1 in T1; exact T1|]);
    destruct (tells_fsr u1) as (fsr & u2 & -> & T2 & Fe & F2); destruct (mild_passes (uv u1)) as (M2 & M2' & _); specialize (M2 p M1); specialize (M2' Hn1); rewrite bool_decide_eq_false_2 in F2 by done; rewrite F2; destruct (T2) as [V2 _ C2 I2]; rewrite <- V2 in M2, M2', Fe |- *;
    destruct (mild_passes (uv u2)) as (M3 & M3' & _); specialize (M3 p M2); specialize (M3' M2'); destruct (tells_rbr u2 M3') as (u3 & -> & T3); destruct (has_read_tail p _ M3 M3') as [Hu M4]; rewrite (u8_id _ Hu); set (c := hd 0 _) in *; destruct (T3) as [V3 _ C3 I3]; rewrite <- V3 in M4 |- *; rewrite <- Fe;
    pose proof (tells_trans _ _ _ _ _ _ _ _ _ (tells_trans _ _ _ _ _ _ _ _ _ T1 T2) T3) as T123; cbn [app] in T123;
    assert (Hi3 : ignore_status_mask u3 = ignore_status_mask u) by (by destruct T123); assert (Hc3 : icount u3 = icount u) by (by rewrite C3, C2);
    pose proof (tells_char fsr c u3 Ht) as T4; rewrite Hi3, Hc3 in T4; specialize (T4 Hi); cbn zeta in T4; set (u4 := receive_char fsr c u3) in *; clearbody u4; pose proof (tells_trans _ _ [] _ _ _ _ _ _ T123 T4) as T; cbn [app] in T; set (e := Z.land fsr ERR_FLAGS) in *; clearbody e c.
  - cbn [takes map concat]; rewrite app_nil_r; exact T.
  - destruct (T) as [V4 _ C4 I4]; apply (proj1 (mild_acknowledge e _)) in M4; specialize (IH (p ++ [c]) u4 Ht); rewrite I4, C4, V4 in IH; specialize (IH Hi M4); destruct (takes (S n) _) as [reads w]; cbn [map concat]; rewrite <- tally_cons; exact (tells_trans _ _ _ _ _ _ _ _ _ T IH).
Qed.
(** The errors noted are known to be error flags when nothing comes in. *)
Lemma quiet_err u : v_air (uv u) = [] -> Z.land (r_err (uv u)) ERR_FLAGS = r_err (uv u).
Proof. intros Ha; destruct (uview_fsr (u_hw u)) as [F _]; fold (uv u) in F; rewrite (passes_err _ Ha) in F; rewrite <- F, <- Z.land_assoc; done. Qed.
End Recv.
