(* ===== verification/UartRef.v ===== *)
(** A reference UART that keeps the promises of [UartLaws], and a tty layer that
    takes everything. *)
From S2P Require Import Prelude Kbd Uart UartSpec UartRecv.

Module RefUart.

Definition sane (v : uart_view) : Prop := zlen (t_fifo v) <= 16 /\ Z.land (r_err v) ERR_FLAGS = r_err v.

Definition seen (v : uart_view) : uart_view := v <| t_fifo := take 16 (t_fifo v) |> <| r_err := Z.land (r_err v) ERR_FLAGS |>.

Definition fsr_of (v : uart_view) : Z :=
  Z.lor (r_err v) (Z.lor (if bool_decide (r_fifo v = []) then RX_EMPTY else 0)
    (Z.lor (Z.shiftl (zlen (t_fifo v)) 16) (Z.lor (if bool_decide (t_fifo v = []) then TX_EMPTY else 0) (if zlen (t_fifo v) <? 16 then 0 else TX_FULL)))).

Definition isr_of (v : uart_view) : Z :=
  Z.lor (if bool_decide (t_fifo v = []) then THRE_IF else 0) (if bool_decide (r_fifo v = []) then 0 else RDA_IF).

Definition ref_in (a : Z) (v : uart_view) : Z * uart_view :=
  let v := passes (seen v) in
  if a =? UART_REG_RBR then (hd 0 (r_fifo v), v <| r_fifo := tail (r_fifo v) |>)
  else (if a =? UART_REG_FSR then fsr_of v else if a =? UART_REG_ISR then isr_of v else default 0 (v_regs v !! a), v).

Definition ref_out (a x : Z) (v : uart_view) : uart_view :=
  let v := passes (seen v) in
  if a =? UART_REG_THR then put_thr x v
  else if a =? UART_REG_FSR then v <| r_err := Z.land (r_err v) (Z.lnot x) |>
  else if (a =? UART_REG_ISR) || (a =? UART_REG_FCR) then v else v <| v_regs := <[a := x]> (v_regs v) |>.

#[export] Instance ref_uart : UartHw uart_view := { uart_in := ref_in; uart_out := ref_out }.

#[export] Instance ref_tty : UartCore (list (Z * Z)) := {
  tty_insert_flip_char c f k := (true, k ++ [(c, f)]); tty_flip_buffer_push k := k; uart_write_wakeup k := k;
  uart_handle_break k := (false, k); uart_handle_sysrq_char c k := (false, k);
}.

#[export] Instance ref_tty_laws : UartCoreLaws (list (Z * Z)).
Proof. unshelve esplit; [exact id|done|done|done|intros; by rewrite ?app_nil_r..]. Defined.

Lemma shown_sane v : sane (seen v).
Proof. unfold sane, seen; cbn [t_fifo r_err set]; split; [unfold zlen; rewrite length_take; lia|by rewrite <- Z.land_assoc]. Qed.

Lemma sane_shown v : sane v -> seen v = v.
Proof. intros [H1 H2]; unfold seen; rewrite firstn_all2, H2 by (unfold zlen in H1; lia); by destruct v. Qed.

Lemma arrive_sane l : forall v, sane v -> sane (fold_left arrive l v).
Proof.
  induction l as [|x l IH]; intros v Hv; [done|]; cbn [fold_left]; apply IH; destruct Hv as [H1 H2]; unfold arrive; destruct (zlen (r_fifo v) <? 16); (split; [done|]); cbn [r_err set]; rewrite Z.land_lor_distr_l, H2; [|done]; by rewrite <- Z.land_assoc.
Qed.

Lemma passes_sane v : sane v -> sane (passes v).
Proof. intros Hv; destruct (arrive_sane (hd [] (v_air v)) v Hv) as [H1 H2]; split; [|exact H2]; unfold passes; cbn [t_fifo set]; rewrite zlen_drop; pose proof (zlen_nonneg (t_fifo (fold_left arrive (hd [] (v_air v)) v))); lia. Qed.

Lemma next_shown v : seen (passes (seen v)) = passes (seen v).
Proof. apply sane_shown, passes_sane, shown_sane. Qed.

(** The bits of the status. *)
Lemma fsr_bits v : sane v -> Z.land (fsr_of v) ERR_FLAGS = r_err v /\ nz (Z.land (fsr_of v) RX_EMPTY) = bool_decide (r_fifo v = []) /\
  Z.land (Z.shiftr (fsr_of v) 16) 0x3F = zlen (t_fifo v) /\ nz (Z.land (fsr_of v) TX_FULL) = negb (zlen (t_fifo v) <? 16) /\ nz (Z.land (fsr_of v) TX_EMPTY) = bool_decide (t_fifo v = []).
Proof.
  intros [Hl He]; unfold fsr_of; set (rx := bool_decide (r_fifo v = [])); assert (Ht : bool_decide (t_fifo v = []) = (zlen (t_fifo v) =? 0)) by (destruct (t_fifo v) as [|x l]; [done|]; rewrite zlen_cons; pose proof (zlen_nonneg l); rewrite bool_decide_eq_false_2 by done; symmetry; apply Z.eqb_neq; lia).
  rewrite Ht; pose proof (zlen_nonneg (t_fifo v)) as H0; set (n := zlen (t_fifo v)) in *; clearbody n rx; clear Ht; set (e := r_err v) in *; clearbody e.
  assert (Hm : forall m, Z.land ERR_FLAGS m = 0 -> Z.land e m = 0) by (intros m Hm; rewrite <- He, <- Z.land_assoc, Hm; apply Z.land_0_r).
  assert (Hs : Z.shiftr e 16 = 0) by (rewrite <- He, Z.shiftr_land; apply Z.land_0_r).
  set (w := Z.lor (if rx then RX_EMPTY else 0) _); rewrite Z.shiftr_lor, Hs, Z.lor_0_l, !(Z.land_lor_distr_l e), He, (Hm RX_EMPTY), (Hm TX_FULL), (Hm TX_EMPTY), !Z.lor_0_l by done.
  assert (Hw : Z.land w ERR_FLAGS = 0 /\ nz (Z.land w RX_EMPTY) = rx /\ Z.land (Z.shiftr w 16) 0x3F = n /\ nz (Z.land w TX_FULL) = negb (n <? 16) /\ nz (Z.land w TX_EMPTY) = (n =? 0)).
  { unfold w; assert (Hn : n ∈ seqZ 0 17) by (apply elem_of_seqZ; lia); clear - Hn; revert n Hn; apply Forall_forall; destruct rx; repeat constructor. }
  destruct Hw as (W1 & W2 & W3 & W4 & W5); by rewrite W1, Z.lor_0_r.
Qed.

#[export] Program Instance ref_uart_laws : UartLaws uart_view := { uview := seen }.
Next Obligation. intros a v Ha; cbn [uart_in ref_uart]; unfold ref_in; apply Z.eqb_neq in Ha; rewrite Ha; apply next_shown. Qed.
Next Obligation. intros v; apply fsr_bits, passes_sane, shown_sane. Qed.
Next Obligation.
  intros v; cbn [uart_in ref_uart]; unfold ref_in; cbn [Z.eqb UART_REG_ISR UART_REG_RBR UART_REG_FSR fst]; unfold isr_of; case_bool_decide as Ht; [done|]; by case_bool_decide.
Qed.
Next Obligation. intros a v Ha; cbn [uart_in ref_uart]; unfold ref_in; repeat (apply elem_of_cons in Ha as [->|Ha]; [done|]); by apply elem_of_nil in Ha. Qed.
Next Obligation.
  intros v; cbn [uart_in ref_uart]; unfold ref_in; cbn [Z.eqb UART_REG_RBR fst snd]; split; [|by intros c l ->]; apply sane_shown; exact (passes_sane _ (shown_sane v)).
Qed.
Next Obligation.
  intros x v Hx; cbn [uart_out ref_uart]; unfold ref_out; cbn [Z.eqb UART_REG_THR]; apply sane_shown; destruct (passes_sane _ (shown_sane v)) as [H1 H2]; unfold put_thr; destruct (zlen _ <? 16) eqn:E; zbool; (split; [|done]); cbn [t_fifo set]; [rewrite zlen_app, zlen_cons, zlen_nil; lia|done].
Qed.
Next Obligation.
  intros x v; cbn [uart_out ref_uart]; unfold ref_out; cbn [Z.eqb UART_REG_THR UART_REG_FSR]; apply sane_shown; destruct (passes_sane _ (shown_sane v)) as [H1 H2]; split; [done|]; cbn [r_err set]; by rewrite <- Z.land_assoc, (Z.land_comm (Z.lnot x)), Z.land_assoc, H2.
Qed.
Next Obligation.
  intros a x v Ha; cbn [uart_out ref_uart]; unfold ref_out; assert (E : (a =? UART_REG_THR) = false /\ (a =? UART_REG_FSR) = false /\ (a =? UART_REG_ISR) || (a =? UART_REG_FCR) = false) by (repeat (apply elem_of_cons in Ha as [->|Ha]; [done|]); by apply elem_of_nil in Ha).
  destruct E as (-> & -> & ->); apply sane_shown; exact (passes_sane _ (shown_sane v)).
Qed.

End RefUart.
