(* ===== verification/UartProps.v ===== *)
(** The serial ports: what goes out and what comes in, errors that are forgotten,
    speeds, and the level of RTS. *)
From S2P Require Import Prelude Kbd KbdSpec Uart UartSpec UartSend UartRecv UartRef.

Section Props.
  Context {H K : Type} `{!UartHw H, !UartLaws H, !UartCore K, !UartCoreLaws K} {CO : CircOps} {CL : CircLaws}.
  Implicit Types u : uart_nuc970_port H K.

(** C10: In every run of writers, calls of [nuc970serial_start_tx], interrupts,
    urgent characters, stops, and time, from a port with nothing to send on, the
    characters go out as they were written, each once and in order, with the urgent
    characters in between: none is written while the UART has no room, and both
    functions always return. *)
Theorem uart_tx_in_order fuel u s : (0 < fuel)%nat -> xmit_wf (u_xmit u) -> queued (u_xmit u) = [] -> u_x_char u = 0 -> u_irda u = false -> t_all (uv u) = [] -> t_lost (uv u) = [] ->
  ureaches fuel (mk_usys u [] []) s ->
  (exists d, y_written s = d ++ queued (u_xmit (y_u s)) /\ interleave d (y_urgent s) (t_gone (uv (y_u s)) ++ t_fifo (uv (y_u s)))) /\ t_lost (uv (y_u s)) = [] /\
  is_Some (nuc970serial_start_tx fuel (y_u s)) /\ is_Some (nuc970serial_interrupt fuel (y_u s)).
Proof.
  intros Hf Hw Hq Hx Hi Ha Hl Hr; apply reach_in_order in Hr as [Hs Hlost Hfifo Hwf Hx' Hm]; [|done|].
  - split; [exact Hs|]; split; [exact Hlost|]; split; [destruct (start_tx_ok fuel (y_u s)) as (u' & _ & _ & E & _)|destruct (uart_interrupt_ok fuel (y_u s)) as (u' & _ & _ & E & _)]; try done; by exists u'.
  - constructor; cbn [y_u y_written y_urgent]; try done; [exists []; rewrite Hq, Ha; split; [done|constructor]|assert (Hn : t_fifo (uv u) = []) by (by apply app_eq_nil in Ha as [_ Ha]); rewrite Hn, zlen_nil; lia|rewrite Hx; unfold is_u8; lia].
Qed.

(** C11: If no hook takes characters for itself and the tty layer has room,
    [receive_chars] does exactly what the reference does: it takes at most 257
    characters off the UART in the order in which they came in, reads the errors
    noted before each of them and acknowledges these, reports each character with
    the kind of its errors (a framing error before a wrong parity before a break)
    unless one of them is to be ignored, an overrun for itself behind it, and
    counts characters and errors of each kind. If nothing more comes in it takes
    all there are: the errors noted go to the first, all others are normal. *)
Theorem uart_rx_in_order u p : plain_tty (K := K) -> has_read p (uv u) -> Z.land (ignore_status_mask u) (Z.lnot ERR_FLAGS) = 0 ->
  let '(reads, v) := takes 257 (uv u) in let u' := receive_chars u in
  uv u' = v /\ r_all v = p ++ map snd reads ++ r_fifo v /\ (length reads <= 257)%nat /\
  tty_log (u_core u') = tty_log (u_core u) ++ concat (map (reported (ignore_status_mask u)) reads) /\ icount u' = tally reads (icount u) /\
  (v_air (uv u) = [] -> zlen (r_fifo (uv u)) <= 257 -> reads = match r_fifo (uv u) with [] => [] | c :: l => (r_err (uv u), c) :: map (pair 0) l end).
Proof.
  intros Ht Hp Hi; pose proof (receive_loop_takes 256 p u Ht Hi Hp) as T; pose proof (takes_order 257 p (uv u) Hp) as [[O1 _] O2]; pose proof (takes_quiet 257 (uv u)) as Q; change (S 256) with 257%nat in T; destruct (takes 257 (uv u)) as [reads v]; cbn [fst snd] in *; destruct T as [T1 T2 T3 T4]; cbn zeta.
  unfold receive_chars, core; set (u1 := receive_turns 256 u) in *; clearbody u1; set (u' := u1 <| u_core := _ |>); assert (V : uv u' = uv u1 /\ icount u' = icount u1) by done; assert (L : tty_log (u_core u') = tty_log (u_core u1)) by apply log_push; clearbody u'; destruct V as [V I]; rewrite V, L, I.
  split; [exact T1|]; split; [by rewrite O1, <- app_assoc|]; split; [exact O2|]; split; [exact T2|]; split; [exact T3|]; intros Ha Hn; apply Q; [done|by apply quiet_err|lia].
Qed.

(** C35: An interrupt that has received characters ends with all error flags
    cleared, because the flags of the status register are looked for in the
    interrupt register, whose bits for received characters are the same: the error
    of a character that came in after the last look at the status is forgotten,
    and the next interrupt reports the character as normal. *)
Theorem uart_error_lost fuel u u' : plain_tty (K := K) -> nz (Z.land (fst (uart_in UART_REG_ISR (u_hw u))) (Z.lor RDA_IF TOUT_IF)) = true -> nuc970serial_interrupt fuel u = Some u' ->
  r_err (uv u') = 0 /\
  (forall p, has_read p (uv u') -> v_air (uv u') = [] -> zlen (r_fifo (uv u')) <= 16 -> Z.land (ignore_status_mask u') (Z.lnot ERR_FLAGS) = 0 ->
    tty_log (u_core (receive_chars u')) = tty_log (u_core u') ++ map (fun c => (c, TTY_NORMAL)) (r_fifo (uv u'))).
Proof.
  intros Ht Hisr E; assert (Hz : r_err (uv u') = 0).
  { unfold nuc970serial_interrupt in E; destruct (keeps_in UART_REG_ISR u) as (u1 & E1 & _); rewrite E1 in E; set (isr := fst (uart_in UART_REG_ISR (u_hw u))) in *; rewrite Hisr in E; assert (He : nz (Z.land isr ERR_FLAGS) = true).
    { unfold nz in *; apply negb_true_iff, Z.eqb_neq in Hisr; apply negb_true_iff, Z.eqb_neq; intros Hn; apply Hisr; change (Z.lor RDA_IF TOUT_IF) with (Z.land ERR_FLAGS 0x11); by rewrite Z.land_assoc, Hn. }
    rewrite He in E; apply bind_Some in E as (u2 & _ & E); injection E as <-; unfold uv, serial_out; cbn [u_hw set]; rewrite uview_clear; cbn [r_err set]; destruct (uview_fsr (u_hw u2)) as [Hf _]; rewrite <- Hf, <- Z.land_assoc; change (Z.land ERR_FLAGS (Z.lnot (u32 ERR_FLAGS))) with 0; apply Z.land_0_r. }
  split; [exact Hz|]; intros p Hp Ha Hn Hig; pose proof (receive_loop_takes 256 p u' Ht Hig Hp) as T; pose proof (takes_quiet 257 (uv u') Ha (quiet_err _ Ha) ltac:(lia)) as Q; change (S 256) with 257%nat in T; destruct (takes 257 (uv u')) as [reads v]; cbn [fst] in Q; destruct T as [_ T _ _]; unfold receive_chars, core; cbn [u_core set]; rewrite log_push, T; f_equal.
  rewrite Q, Hz; destruct (r_fifo (uv u')) as [|c l]; [done|]; exact (reported_normal _ (c :: l)).
Qed.

(** The settings of a line ignore errors only. *)
Lemma uart_ignores_errors c_iflag u : Z.land (ignore_status_mask (termios_masks c_iflag u)) (Z.lnot ERR_FLAGS) = 0.
Proof. unfold termios_masks; cbn [ignore_status_mask set]; by destruct (nz (Z.land c_iflag IGNPAR)), (nz (Z.land c_iflag IGNBRK)). Qed.

(** ** Speeds *)

(** The divider fits its sixteen bits and gives at least the speed asked for, for
    every speed above the lower bound that is passed to [uart_get_baud_rate]. *)
Lemma uart_divisor baud u : 0 <= uartclk u < 4294967296 -> uartclk u / 0xffff < baud <= uartclk u / 11 ->
  exists q, nuc970serial_get_divisor baud u = Some q /\ 9 <= q < 65536 /\ baud * (q + 2) <= uartclk u < baud * (q + 3).
Proof.
  intros Hc [Hlo Hhi]; pose proof (Z.div_mod (uartclk u) 0xffff ltac:(lia)) as D1; pose proof (Z.mod_pos_bound (uartclk u) 0xffff ltac:(lia)) as M1; pose proof (Z.div_mod (uartclk u) 11 ltac:(lia)) as D2; pose proof (Z.mod_pos_bound (uartclk u) 11 ltac:(lia)) as M2; pose proof (Z.div_pos (uartclk u) 0xffff ltac:(lia) ltac:(lia)).
  unfold nuc970serial_get_divisor; destruct (baud =? 0) eqn:E; zbool; [lia|]; pose proof (Z.div_mod (uartclk u) baud ltac:(lia)) as D3; pose proof (Z.mod_pos_bound (uartclk u) baud ltac:(lia)) as M3; set (d := uartclk u / baud) in *; assert (Hd : 11 <= d < 65535) by nia.
  exists (d - 2); rewrite u32_id by lia; split; [done|]; split; [lia|]; nia.
Qed.

(** At the lower bound itself it does not: 12 MHz and 183 baud. *)
Lemma uart_divisor_overflow u : uartclk u = 12000000 -> nuc970serial_get_divisor (uartclk u / 0xffff) u = Some 65571.
Proof. by unfold nuc970serial_get_divisor; intros ->. Qed.

(** ** The level of RTS *)

(** Without RTS and flow control the whole modem control register is written with
    zero: the level that [nuc970serial_config_rs485] has set is gone. *)
Lemma uart_level_lost mctrl u : nz (Z.land mctrl TIOCM_RTS) = false -> nz (Z.land (u_mcr u) UART_MCR_AFE) = false -> v_regs (uv (nuc970serial_set_mctrl mctrl u)) !! UART_REG_MCR = Some 0.
Proof.
  intros Hr Ha; unfold nuc970serial_set_mctrl; rewrite Hr, Ha; set (u1 := serial_update UART_REG_MSR _ _); unfold uv; cbn [serial_out u_hw set]; rewrite uview_out by (unfold plain_regs; set_solver); cbn [v_regs set]; by rewrite lookup_insert_eq.
Qed.
End Props.

(** ** A port of the reference UART *)
Import RefUart.

Module Port.

Definition view (fifo : list Z) (air : list (list (Z * Z))) : uart_view := mk_uview fifo fifo 0 [] [] [] ∅ air [1%nat; 0%nat; 1%nat].
Definition port (v : uart_view) : uart_nuc970_port uart_view (list (Z * Z)) :=
  mk_uart (mk_circ (replicate 4096 0) 4095 4095) 0 false false (mk_icount 0 0 0 0 0 0 0) 0 0 0 false 0 12000000 0 0 v [].

(** Two characters are put into the buffer and sent. *)
Definition quiet : uart_nuc970_port uart_view (list (Z * Z)) := port (view [] []).
Definition put (c : Z) (s : @usys uart_view (list (Z * Z))) : @usys uart_view (list (Z * Z)) :=
  match __uart_put_char c (u_xmit (y_u s)) with
  | Some (r, circ) => mk_usys ((y_u s) <| u_xmit := circ |>) (y_written s ++ if r =? 1 then [c] else []) (y_urgent s)
  | None => s
  end.
Definition start (s : @usys uart_view (list (Z * Z))) : @usys uart_view (list (Z * Z)) :=
  match nuc970serial_start_tx 1 (y_u s) with Some u' => mk_usys u' (y_written s) (y_urgent s ++ urgent (y_u s) u') | None => s end.
Definition sent : @usys uart_view (list (Z * Z)) := start (put 66 (put 65 (mk_usys quiet [] []))).

Lemma put_reached c s : is_u8 c -> ureaches 1 s (put c s).
Proof. intros Hc; unfold put; destruct (__uart_put_char c (u_xmit (y_u s))) as [[r circ]|] eqn:E; [apply rtc_once; by apply ustep_put|apply rtc_refl]. Qed.

Lemma start_reached s : ureaches 1 s (start s).
Proof. unfold start; destruct (nuc970serial_start_tx 1 (y_u s)) as [u'|] eqn:E; [apply rtc_once; by apply ustep_start|apply rtc_refl]. Qed.

Definition late : uart_nuc970_port uart_view (list (Z * Z)) := port (view [7] [[]; []; []; []; []; []; [(0, 0x60)]]).
End Port.

Lemma uart_tx_in_order_witness : let s := Port.sent in y_written s = [65; 66] /\
  ((exists d, y_written s = d ++ queued (u_xmit (y_u s)) /\ interleave d (y_urgent s) (t_gone (uv (y_u s)) ++ t_fifo (uv (y_u s)))) /\ t_lost (uv (y_u s)) = [] /\
   is_Some (nuc970serial_start_tx 1 (y_u s)) /\ is_Some (nuc970serial_interrupt 1 (y_u s))).
Proof.
  split; [vm_compute; reflexivity|]; apply (uart_tx_in_order 1 Port.quiet Port.sent).
  - apply Nat.lt_0_succ.
  - split; [vm_compute; reflexivity|]; split; [vm_compute; split; [discriminate|reflexivity]|]; split; [vm_compute; split; [discriminate|reflexivity]|]; apply Forall_replicate; unfold is_u8; lia.
  - vm_compute; reflexivity.
  - reflexivity.
  - reflexivity.
  - vm_compute; reflexivity.
  - vm_compute; reflexivity.
  - unfold Port.sent; do 2 (etransitivity; [|first [apply Port.start_reached|apply Port.put_reached; unfold is_u8; lia]]); apply Port.put_reached; unfold is_u8; lia.
Defined.

(** While the first character is looked for a second one comes in with a wrong
    parity: the error is read with the first. *)
Definition one_bad : uart_nuc970_port uart_view (list (Z * Z)) := Port.port (Port.view [7] [[(8, 0x10)]]).

Lemma uart_rx_in_order_witness : tty_log (u_core (receive_chars one_bad)) = [(7, TTY_PARITY); (8, TTY_NORMAL)] /\ icount (receive_chars one_bad) = mk_icount 2 0 0 0 1 0 0 /\ r_all (uv (receive_chars one_bad)) = [7; 8].
Proof.
  pose proof (uart_rx_in_order one_bad []) as T; set (t := takes 257 (uv one_bad)) in T; assert (E : fst t = [(0x10, 7); (0, 8)] /\ r_fifo (snd t) = []) by (vm_compute; split; reflexivity); clearbody t; destruct t as [reads v]; cbn [fst snd] in E; destruct E as [-> E2].
  destruct T as (T1 & T2 & _ & T4 & T5 & _); [split; [reflexivity|]; split; reflexivity|split; [reflexivity|]; repeat constructor; unfold is_u8; lia|reflexivity|]; rewrite T1, T2, T4, T5, E2; split; [|split]; reflexivity.
Defined.

Lemma uart_error_lost_witness : exists u', nuc970serial_interrupt 1 Port.late = Some u' /\ r_err (uv u') = 0 /\ r_fifo (uv u') = [0] /\ tty_log (u_core (receive_chars u')) = [(7, TTY_NORMAL); (0, TTY_NORMAL)].
Proof.
  exists (default Port.late (nuc970serial_interrupt 1 Port.late)); assert (E : nuc970serial_interrupt 1 Port.late = Some (default Port.late (nuc970serial_interrupt 1 Port.late))) by (vm_compute; reflexivity); split; [exact E|].
  destruct (uart_error_lost 1 Port.late (default Port.late (nuc970serial_interrupt 1 Port.late))) as [Hz Hr]; [split; [reflexivity|]; split; reflexivity|vm_compute; reflexivity|exact E|]; split; [exact Hz|]; split; [vm_compute; reflexivity|].
  rewrite (Hr [7]); [vm_compute; reflexivity|split; [vm_compute; reflexivity|]|vm_compute; reflexivity|vm_compute; discriminate|vm_compute; reflexivity].
  replace (r_fifo (uv (default Port.late (nuc970serial_interrupt 1 Port.late)))) with [0] by (vm_compute; reflexivity); repeat constructor; unfold is_u8; lia.
Defined.
